(* ===== verification/_CoqProject ===== *)
-Q . S2P
Prelude.v
GoStrings.v
Sdk.v
Utf8.v
GoJson.v
Pagination.v
ChainId.v
Proto.v
CollectionTypes.v
CollectionPb.v
CollectionKeeper.v
CollectionV2.v
CollectionSpec.v
CollectionMsg.v
CollectionGenesis.v
Builder.v
InterNft.v
NftInvariant.v
CollectionGenesisSpec.v
Erc721Types.v
Erc721Store.v
Erc721Pb.v
Erc721Index.v
Erc721Genesis.v
Erc721Registry.v
Erc721Purge.v
Erc721Export.v
Erc721Abstract.v
Erc721StoreSpec.v
Erc721Prune.v
Cw721Types.v
Cw721Store.v
Cw721Pb.v
StoredRecords.v
Cw721Index.v
Cw721Genesis.v
Cw721GenesisSpec.v
App.v
Erc721Evm.v
Cw721Wasm.v
Cw721Register.v
Cw721Convert.v
Cw721ConvertFacts.v
Cw721ConvertSpec.v
Erc721Msg.v
Erc721Register.v
Erc721Convert.v
Erc721Settle.v
Erc721ConvertFacts.v
Erc721ConvertSpec.v
Erc721RefundFacts.v
Cw721RefundSpec.v
Erc721SettleFacts.v
Guard.v
Cw721Chain.v
Erc721EntrySpec.v
Erc721Chain.v
EvmIbc.v
Erc721Query.v
Cw721Query.v
CollectionQuery.v
QuerySpec.v
EvmIbcSpec.v
Chain.v
Ante.v
Erc20Voucher.v
Upgrades.v
UpgradesSpec.v
ZeroHeight.v
AppExport.v
V040.v
V040Spec.v
Reference.v
ReferenceApp.v
Witnesses.v
WitnessesCw721.v
WitnessesQuery.v
WitnessesApp.v
WitnessesUpgrade.v
Findings.v
