(* ===== verification/Prelude.v ===== *)
(** * Verification of the Uptick chain: NFT modules, IBC callbacks, ante, upgrades and export

    Uptick is a Cosmos SDK chain with an EVM and CosmWasm.  Three of its modules hold the
    NFT logic.  x/collection issues classes and mints, edits, transfers and burns the
    native NFTs, on top of the SDK's x/nft keeper.  x/erc721 converts a native NFT into a
    token of an ERC721 contract and back: it keeps a table of pairs (contract, class), a
    two-way index of the tokens that are bound to each other, and the receivers of refunds
    of IBC transfers; it calls the contracts through the EVM keeper and the NFTs through
    x/collection.  x/cw721 does the same for CosmWasm contracts, to which it talks in JSON.
    x/collection in turn asks both whether an NFT is bound before it burns it (the guard
    the application wires in app/keepers/keepers.go).

    Around them: ICS-721 moves NFTs between chains and reaches the store through
    x/internft, which writes and reads classes and tokens as the JSON of
    x/collection/types/builder.go; x/evmibc sits on top of it and refunds the packets the
    conversion modules sent, by calling RefundPacketToken after ICS-721 has released the
    NFT; app/ante checks a transaction's messages before any module sees them;
    app/keepers gates the ERC20 callback of inbound ICS-20 vouchers, whose metadata ibc/
    repairs; app/upgrades runs the migrations of all of these; app/export.go writes the
    genesis with a report of what it could not export.

    ** How Go is modelled

    A keeper method is a computation of the monad [M] below over the context [Ctx]
    (Sdk.v), which holds the stores of x/erc721 and x/cw721, the states of the x/nft, the
    EVM and the wasm keeper, the gas meter and the events.  It returns a value, returns an
    error, or panics; an error keeps the writes made before it, as in Go, and [deliver] is
    the roll back of a failed message.  Reads and writes of a module's own store are
    functions on [ErcStore] and [CwStore], one map per key prefix of types/keys.go.  Cache
    contexts are [cached] and [cached_or_error].  The upgrade handlers run in the same
    monad over their own states: [UState] (Upgrades.v: x/bank, x/erc20, x/vm, x/feemarket,
    the ICA controller and x/upgrade), the raw stores of V040.v and CollectionV2.v, and the
    keepers of ZeroHeight.v; the export runs over a file system (AppExport.v).  Strings are
    byte strings; token ids are parsed to integers and checked against 2^256; regular
    expressions, big.Int parsing, UTF-8, JSON, base64 and the protobuf wire format are
    written out (GoStrings.v, Utf8.v, GoJson.v, Proto.v).  The marshallers of the stored
    records are those of the generated code, so the laws the stores need of their codecs
    are proved, not assumed.  A run of the EVM takes the gas of its store accesses from the
    context's meter and may run it out, before the module charges the gas it reports.

    Recursion is structural or over the lists the code ranges over.  Where fuel appears it
    comes from the input and a lemma shows it to be enough: printing a number and decoding
    runes take the length of the number or of the string (round trips of GoStrings.v and
    Utf8.v); the varints of Proto.v take the ten groups Go reads and
    its loops over fields a round per byte; the JSON reader takes two
    rounds per byte, and [json_parse_Marshal] (GoJson.v) shows that it reads every text
    json.Marshal writes; following pages takes a round per record (Pagination.v); the
    traversal of a transaction recurses on the 32 messages it may still collect.  Go ranges
    over maps in any order; the model ranges in key order where the result does not depend
    on it.

    ** What is a parameter

    Code outside the repository is a class of operations with a class of laws, both in
    Sdk.v unless noted: [EthLib] (addresses of go-ethereum), [SdkLib] (bech32, module
    addresses, hashing, the gas meter), [NftKeeper] (x/nft), [EvmKeeper] (ApplyMessage, the
    ABI codec, accounts), [IbcKeeper], [FmtLib] (%q and error texts), [WasmKeeper]
    (Cw721Wasm.v), [StateDB] (Erc721Evm.v), [Ics721] and [NftTransferApp] (EvmIbc.v),
    [Ics721Host] (Builder.v: UnpackAny, hex addresses), [FloatLib] (GoJson.v: the two
    directions of strconv on a float64), [Paginator] (Pagination.v), [NftQuery]
    (CollectionQuery.v), [NftLayout] and [NftOnStore] (CollectionV2.v: the keys of x/nft,
    and its keeper as a reader and writer of them), [TxLib] (Ante.v),
    [BankKeeper] and [Erc20Keeper] (Erc20Voucher.v), [ParamsLib] (Upgrades.v), [V040Lib],
    [AccountLib] and [AccountCodec] (V040.v), [ExportLib] (AppExport.v), [ZeroKeepers]
    (ZeroHeight.v: staking, distribution, slashing and crisis), [GjsonLib]
    (CollectionMsg.v).  [CollectionCodec], [Erc721Codec] and [Cw721Codec] are the
    interfaces the stores ask of the marshallers; CollectionPb.v, Erc721Pb.v and Cw721Pb.v
    implement them.  Reference.v, ReferenceApp.v and the witness files implement the
    others by concrete functions and prove the laws, and every theorem with a hypothesis
    is applied there to a concrete run.

    ** What is assumed of contracts

    Of an ERC721 contract nothing but what ApplyMessage is as a function: a run writes the
    state of the EVM (x/vm, accounts and balances) and the gas meter.  A CosmWasm contract may send messages, so
    nothing is assumed of [WasmKeeper] but that its queries write nothing; the theorems on
    x/cw721 name the contracts they speak of and ask them to be [quiet] (Cw721Wasm.v: an
    execution writes the wasm state only), which the reference contracts are proved to be.
    In Chain.v this is a guard of the steps that execute or deploy a contract, next to the
    guards on the spelling of a contract ([good_address]: Findings.v shows that the bare
    spelling breaks the index) and on the hash of a new class id not being taken.

    ** Files

    - Prelude.v: the monad, its rules ([frame], [safe], [no_error]), the hint database
      [go] and the tactics [go_simp], [go_frame] and [go_case].
    - GoStrings.v, Utf8.v, GoJson.v: strings, strconv and big.Int, sort.Strings, UTF-8;
      encoding/json, encoding/base64.  Proto.v: the wire format.  Pagination.v: paged
      listings.  ChainId.v: types/chain_id.go.
    - Sdk.v: errors, events, the parameter classes, [ErcStore], [CwStore] and [Ctx].
    - CollectionTypes.v: x/collection/types (validation.go, genesis.go, nft.go,
      collection.go).  CollectionKeeper.v: x/collection/keeper (denom.go, nft.go,
      msg_server.go, converted_nft.go).  CollectionSpec.v: what its messages guarantee.
      CollectionMsg.v: types/msgs.go.  CollectionGenesis.v and CollectionGenesisSpec.v:
      keeper/collection.go, genesis.go, invariants.go.  CollectionV2.v: migrations/v2,
      its precheck and keeper/migrations.go.
    - Builder.v: types/builder.go.  InterNft.v: x/internft/keeper.go.  NftInvariant.v: the
      interface [NftInvariant] of a property that every write of the modules keeps, with
      its instances.
    - Erc721Types.v: x/erc721/types (utils.go, token_pair.go, params.go, genesis.go).
      Erc721Msg.v: msg.go, msg_update_params.go and keeper/pagination.go.
    - Erc721Store.v: keeper/token_pairs.go, pair.go, params.go.  Erc721Index.v: the
      one-to-one invariant [store_ok] of the index.  Erc721Registry.v: the invariant
      [registry_ok] of the pair table.
    - Erc721Genesis.v: keeper/genesis_export.go, genesis_export_issues.go and
      genesis.go.  Erc721Purge.v, Erc721Export.v: facts about the purge, the export
      and the import.  Erc721StoreSpec.v: the promises of the store.
    - Erc721Prune.v: keeper/uid_index_prune.go.  Erc721Settle.v and
      Erc721SettleFacts.v: keeper/voucher_settlement.go.
    - App.v: the burn guard of app/keepers/keepers.go.  Guard.v: that x/erc721 takes no NFT
      away from x/cw721; the converse is in Cw721Chain.v.
    - Erc721Evm.v: keeper/evm.go.  Erc721Register.v: keeper/nft_data.go and register.go.
      Erc721Convert.v: keeper/msg_server.go and msg_update_params.go.
    - Erc721ConvertFacts.v, Erc721ConvertSpec.v, Erc721RefundFacts.v, Erc721EntrySpec.v:
      the guarantees of the handlers.  Erc721Abstract.v: the one-to-one map the index
      implements.
    - Cw721Types.v, Cw721Store.v, Cw721Genesis.v, Cw721Wasm.v, Cw721Register.v and
      Cw721Convert.v: x/cw721, file by file as x/erc721.  Cw721Index.v, Cw721GenesisSpec.v,
      Cw721ConvertFacts.v, Cw721ConvertSpec.v, Cw721RefundSpec.v: its guarantees.
    - CollectionPb.v, Erc721Pb.v, Cw721Pb.v: the generated marshallers (collection.pb.go,
      erc721.pb.go, cw721.pb.go, genesis.pb.go).  StoredRecords.v: their round trip.
    - CollectionQuery.v, Erc721Query.v, Cw721Query.v: keeper/grpc_query.go of the three
      modules.  QuerySpec.v: what a client of the queries sees.
    - EvmIbc.v, EvmIbcSpec.v: x/evmibc (ibc_middleware.go, keeper/ibc_hook.go,
      keeper/keeper.go, types/ibc_memo.go) and the forwarding of ibc/module.go.
    - Erc721Chain.v, Cw721Chain.v, Chain.v: messages, packet callbacks, migrations and the
      rest of the chain as steps of one state machine, and its invariant.
    - Ante.v: app/ante/message_security.go, comission.go, ante.go.
    - Erc20Voucher.v: ibc/voucher_metadata.go and app/keepers/erc20_ibc_gate.go.
    - Upgrades.v, UpgradesSpec.v: app/upgrades/v041 and v050.  V040.v, V040Spec.v:
      app/upgrades/v040.
    - AppExport.v: app/export.go, export_bank_metadata.go, export_diagnostics.go and the
      export command of cmd/uptickd.  ZeroHeight.v: prepForZeroHeightGenesis.
    - Reference.v, ReferenceApp.v: instances.  Witnesses.v, WitnessesCw721.v,
      WitnessesQuery.v, WitnessesApp.v, WitnessesUpgrade.v: runs.  Findings.v: runs and
      lemmas that show behaviour the code does not intend.

    ** What the theorems show

    - Conversions of x/erc721 (C1, C2, C8) and of x/cw721 (C4, C5): a successful
      conversion leaves the index one-to-one and the pair table consistent, gives every NFT
      of the batch to the account that is to have it, binds it to the token of the same
      position, changes no other owner, and happens only for the owner of each token; the
      un-wrap of a voucher leaves no key behind.
    - The chain (C3): the invariants of both conversion modules and the supply invariant
      of x/collection hold in every context the guarded steps of Chain.v reach.
    - The index (C7, C39): it refines an abstract one-to-one map under any spelling
      of the token id and any letter case of a 0x address; exactly when a binding is
      refused.  The pair table (C20): the complete purge.
    - Refunds (C6, C9, C34) and packet callbacks (C10, C11): each token of a packet is
      refunded as a whole or not at all; nothing after ICS-721's release returns an error; no
      packet is refunded twice, and a failed refund writes nothing; both sides of a refund
      act on the same class.
    - Genesis (C12, C13, C21, C22, C36): validation accepts an export, an import restores
      the store, and an import of x/collection completes exactly for the files that
      validate.
    - The export of the application (C14 to C17): the report beside the genesis is
      complete or absent, the bank metadata written is valid, nothing is purged for a
      zero-height genesis before every reward is paid, and what such a genesis holds.
    - Migrations of x/erc721 (C18, C19, C35, C37): the prune deletes exactly the duplicate
      keys; the settlement never fails on an upgrade's infinite meter, hands a voucher only
      to the account that held its ERC721 half, and keeps the invariants.
    - Queries (C23 to C25): following the pages gives every record once, and a lookup finds
      exactly the pairs that are there.  Stored records (C26): the generated marshallers
      read back what they write.
    - Upgrades (C27, C28, C32) and the store of x/collection version 1 (C29): the v0.5.0
      plan runs once and accounts for every voucher, v0.4.0 leaves the state the modules
      expect, and a store of version 1 whose ids do not extend
      one another past a slash is moved, by the SaveDenom of the keeper, into the x/nft store
      of its records.
    - ICS-721 (C30, C31): a class or a token sent to another chain is the same there, and
      sent on from there gives the same packet, when its data is a JSON object and its texts
      are UTF-8.
    - Transactions (C33): no message escapes the checks by being wrapped.  Vouchers (C38):
      the registration gate.  The EVM boundary (C40): the gas budget.

    Lemmas without a number (who may edit, transfer and burn in x/collection, registration,
    parameters, the metadata repair of vouchers, refunds of whole packets, lookups, the
    retry of the backfill) support these and are stated the same way.

    ** What is not modelled

    Gas for the modules' own store accesses (the runs of the EVM and of the contracts are
    metered, with theirs), so a theorem that a method completes speaks of an infinite meter or
    of the absence of errors; what RegisterERC20Extension of cosmos/evm writes to the accounts
    of the EVM, which is kept apart from the EVM state x/erc721 reads; log lines; signing and
    codec registration; module registration, invariant routes and the REST gateways, which are generated or only forward; the assembly of the
    application, the command line (other than the exit of the export and the precheck of
    the migration), the simulation and the test network.  Of app/ante the EIP-712 signature
    check (cryptography over other packages) and the assembly of the chains are missing, of
    app/upgrades the v0.3.3 handler, which only runs the module manager, of types/ the
    reading of the genesis file; the v0.5.0 handler takes the v0.4.0 change set as a
    parameter, and the export takes the zero-height preparation as a function of its
    context, which does not hold the keepers of ZeroHeight.v.  The wire messages that are never
    stored (requests, responses and events of the .pb.go files) have no marshallers here. *)
From stdpp Require Export base tactics option list strings gmap sorting.
From Stdlib Require Export ZArith Lia Ascii String.

#[global] Set Default Goal Selector "!".

(** * Outcomes of Go code

    A keeper method of the chain runs against an [sdk.Context].  It returns a
    value, returns an error, or panics.  Go does not undo writes when a method
    returns an error: the store keeps what was written before the [return].  An
    error outcome therefore carries the state it was returned in; the roll back
    of a failed message is a separate operation ([deliver]). *)

Inductive outcome (S E A : Type) : Type :=
| Ok (a : A) (s : S)
| Err (e : E) (s : S)
| Panic.
Arguments Ok {S E A} a s.
Arguments Err {S E A} e s.
Arguments Panic {S E A}.

Definition M (S E A : Type) : Type := S -> outcome S E A.

Section Monad.
Context {S E : Type}.

Definition mret {A} (a : A) : M S E A := fun s => Ok a s.

Definition mbind {A B} (m : M S E A) (k : A -> M S E B) : M S E B :=
  fun s => match m s with
           | Ok a s' => k a s'
           | Err e s' => Err e s'
           | Panic => Panic
           end.

(** [return nil, err] *)
Definition throw {A} (e : E) : M S E A := fun s => Err e s.

(** [panic(...)] *)
Definition panic {A} : M S E A := fun _ => Panic.

(** [v, err := f(...)]: the error becomes a value, the state is kept. *)
Definition attempt {A} (m : M S E A) : M S E (E + A) :=
  fun s => match m s with
           | Ok a s' => Ok (inr a) s'
           | Err e s' => Ok (inl e) s'
           | Panic => Panic
           end.

Definition gets {A} (f : S -> A) : M S E A := fun s => Ok (f s) s.

Definition modify (f : S -> S) : M S E unit := fun s => Ok tt (f s).

(** [if b { return nil, err }] *)
Definition guard (b : bool) (e : E) : M S E unit :=
  if b then mret tt else throw e.

Definition lift_opt {A} (o : option A) (e : E) : M S E A :=
  match o with Some a => mret a | None => throw e end.

Definition lift_sum {A} (r : E + A) : M S E A :=
  match r with inr a => mret a | inl e => throw e end.

(** [for _, x := range l { body x }], leaving the loop on the first error. *)
Fixpoint for_each {A} (l : list A) (body : A -> M S E unit) : M S E unit :=
  match l with
  | [] => mret tt
  | x :: l' => mbind (body x) (fun _ => for_each l' body)
  end.

(** The same loop with a loop-carried local variable. *)
Fixpoint for_acc {A B} (l : list A) (acc : B) (body : B -> A -> M S E B) : M S E B :=
  match l with
  | [] => mret acc
  | x :: l' => mbind (body acc x) (fun acc' => for_acc l' acc' body)
  end.
End Monad.

Declare Scope go_scope.
Delimit Scope go_scope with go.
Notation "x <- m ;; k" := (mbind m (fun x => k))
  (at level 100, m at next level, right associativity) : go_scope.
Notation "' p <- m ;; k" := (mbind m (fun x => match x with p => k end))
  (at level 100, p pattern, m at next level, right associativity) : go_scope.
Notation "m ;;; k" := (mbind m (fun _ => k))
  (at level 100, right associativity) : go_scope.

(** [state_of o d]: the state an outcome ends in, [d] for a panic, whose writes
    baseapp discards. *)
Definition is_ok {S E A} (o : outcome S E A) : bool :=
  match o with Ok _ _ => true | _ => false end.

(** Message delivery: the writes of a message that fails or panics are
    discarded, those of one that succeeds are kept. *)
Definition deliver {S E A} (m : M S E A) (s : S) : S :=
  match m s with Ok _ s' => s' | _ => s end.

(** ** Inversion of monadic code *)

Section MonadLemmas.
Context {S E : Type}.

Lemma mbind_ok {A B} (m : M S E A) (k : A -> M S E B) s b s' :
  mbind m k s = Ok b s' -> exists a s1, m s = Ok a s1 /\ k a s1 = Ok b s'.
Proof. unfold mbind. destruct (m s); naive_solver. Qed.

Lemma mbind_err {A B} (m : M S E A) (k : A -> M S E B) s e s' :
  mbind m k s = Err e s' ->
  m s = Err e s' \/ exists a s1, m s = Ok a s1 /\ k a s1 = Err e s'.
Proof. unfold mbind. destruct (m s); naive_solver. Qed.

(** Running a sequence, step by step *)
Lemma run_bind_ok {A B} (m : M S E A) (k : A -> M S E B) s a s' : m s = Ok a s' -> mbind m k s = k a s'.
Proof. unfold mbind. by intros ->. Qed.
Lemma run_bind_err {A B} (m : M S E A) (k : A -> M S E B) s e s' : m s = Err e s' -> mbind m k s = Err e s'.
Proof. unfold mbind. by intros ->. Qed.
Lemma run_bind_panic {A B} (m : M S E A) (k : A -> M S E B) s : m s = Panic -> mbind m k s = Panic.
Proof. unfold mbind. by intros ->. Qed.

Lemma ok_inj {A} (a b : A) (s t : S) : Ok (E:=E) a s = Ok b t -> b = a /\ t = s.
Proof. naive_solver. Qed.

Lemma mret_ok {A} (a b : A) (s t : S) : mret (E:=E) a s = Ok b t -> b = a /\ t = s.
Proof. apply ok_inj. Qed.

Lemma gets_ok {A} (f : S -> A) b (s t : S) : gets (E:=E) f s = Ok b t -> b = f s /\ t = s.
Proof. apply ok_inj. Qed.

Lemma modify_ok f u (s t : S) : modify (E:=E) f s = Ok u t -> t = f s.
Proof. by intros [_ ->]%ok_inj. Qed.

Lemma guard_ok b e (s : S) u s' : guard (E:=E) b e s = Ok u s' -> b = true /\ s' = s.
Proof. unfold guard. destruct b; cbv; naive_solver. Qed.

Lemma lift_opt_ok {A} (o : option A) (e : E) (s : S) a s' :
  lift_opt o e s = Ok a s' -> o = Some a /\ s' = s.
Proof. destruct o; cbv; naive_solver. Qed.

Lemma lift_sum_ok {A} (r : E + A) (s : S) a s' :
  lift_sum r s = Ok a s' -> r = inr a /\ s' = s.
Proof. destruct r; cbv; naive_solver. Qed.

Lemma attempt_ok {A} (m : M S E A) s r s' :
  attempt m s = Ok r s' ->
  match r with inr a => m s = Ok a s' | inl e => m s = Err e s' end.
Proof. unfold attempt. destruct (m s); naive_solver. Qed.

(** Invariant rule for the two loops. *)
Lemma for_each_inv {A} (P : S -> Prop) (l : list A) (body : A -> M S E unit) :
  (forall x s s' u, x ∈ l -> P s -> body x s = Ok u s' -> P s') ->
  forall s s' u, P s -> for_each l body s = Ok u s' -> P s'.
Proof.
  induction l as [|x l IH]; intros Hb s s' u HP H.
  - by inversion H; subst.
  - apply mbind_ok in H as (v & s1 & H1 & H2).
    eapply IH; [|eapply Hb; [left| |]; eauto|eauto].
    intros y ? ? ? Hy. apply Hb. by right.
Qed.

Lemma for_acc_inv {A B} (P : B -> S -> Prop) (l : list A) (body : B -> A -> M S E B) :
  (forall x b s b' s', x ∈ l -> P b s -> body b x s = Ok b' s' -> P b' s') ->
  forall b s b' s', P b s -> for_acc l b body s = Ok b' s' -> P b' s'.
Proof.
  induction l as [|x l IH]; intros Hb b s b' s' HP H.
  - by inversion H; subst.
  - apply mbind_ok in H as (v & s1 & H1 & H2).
    eapply IH; [|eapply Hb; [left| |]; eauto|eauto].
    intros y ? ? ? ? Hy. apply Hb. by right.
Qed.
End MonadLemmas.

(** ** Frames

    [frame R m]: whatever [m] returns, value or error, its final state is
    [R]-related to the initial one.  [R] is a preorder such as "only the x/nft
    store differs".  [safe P m]: from a state of which [P] holds (the gas meter is an
    infinite one) [m] never panics, and [P] holds again of the state it leaves.
    [no_error m]: [m] returns no error; it may panic. *)
Section Frames.
Context {S E : Type}.

Definition frame {A} (R : relation S) (m : M S E A) : Prop :=
  forall s, match m s with Ok _ s' | Err _ s' => R s s' | Panic => True end.

Definition safe (P : S -> Prop) {A} (m : M S E A) : Prop :=
  forall s, P s -> match m s with Ok _ s' | Err _ s' => P s' | Panic => False end.

Definition no_error {A} (m : M S E A) : Prop := forall s e s', m s <> Err e s'.

Lemma frame_ok {A} R (m : M S E A) s a s' : frame R m -> m s = Ok a s' -> R s s'.
Proof. intros Hf Hm. specialize (Hf s). by rewrite Hm in Hf. Qed.

Lemma frame_err {A} R (m : M S E A) s e s' : frame R m -> m s = Err e s' -> R s s'.
Proof. intros Hf Hm. specialize (Hf s). by rewrite Hm in Hf. Qed.

Lemma frame_sub {A} (R R' : relation S) (m : M S E A) :
  (forall s s', R s s' -> R' s s') -> frame R m -> frame R' m.
Proof. intros Hs Hf s. specialize (Hf s). destruct (m s); auto. Qed.

Section FrameRules.
Context (R : relation S) {HR : PreOrder R}.

Lemma frame_ret {A} (a : A) : frame R (mret a).
Proof. intros s. simpl. reflexivity. Qed.
Lemma frame_throw {A} e : frame R (throw (A:=A) e).
Proof. intros s. simpl. reflexivity. Qed.
Lemma frame_panic {A} : frame R (panic (A:=A)).
Proof. done. Qed.
Lemma frame_gets {A} (f : S -> A) : frame R (gets f).
Proof. intros s. simpl. reflexivity. Qed.
Lemma frame_guard b e : frame R (guard b e).
Proof. intros s. destruct b; simpl; reflexivity. Qed.
Lemma frame_lift_opt {A} (o : option A) e : frame R (lift_opt o e).
Proof. intros s. destruct o; simpl; reflexivity. Qed.
Lemma frame_lift_sum {A} (r : E + A) : frame R (lift_sum r).
Proof. intros s. destruct r; simpl; reflexivity. Qed.

Lemma frame_bind {A B} (m : M S E A) (k : A -> M S E B) :
  frame R m -> (forall a, frame R (k a)) -> frame R (mbind m k).
Proof.
  intros Hm Hk s. unfold mbind. specialize (Hm s). destruct (m s) as [a s1|e s1|]; try done.
  specialize (Hk a s1). destruct (k a s1); try done; by etransitivity.
Qed.

Lemma frame_attempt {A} (m : M S E A) : frame R m -> frame R (attempt m).
Proof. intros Hm s. unfold attempt. specialize (Hm s). by destruct (m s). Qed.

Lemma frame_for_each {A} (l : list A) body :
  (forall x, frame R (body x)) -> frame R (for_each l body).
Proof. intros Hb. induction l; simpl; [apply frame_ret|by apply frame_bind]. Qed.

Lemma frame_for_acc {A B} (l : list A) (acc : B) body :
  (forall b x, frame R (body b x)) -> frame R (for_acc l acc body).
Proof.
  intros Hb. revert acc. induction l; intros acc; simpl; [apply frame_ret|by apply frame_bind].
Qed.
End FrameRules.

Lemma no_error_bind {A B} (m : M S E A) (k : A -> M S E B) :
  no_error m -> (forall a, no_error (k a)) -> no_error (mbind m k).
Proof.
  intros Hm Hk s e s'. unfold mbind. destruct (m s) as [a s1|e1 s1|] eqn:Em; [apply Hk| |done].
  by apply Hm in Em.
Qed.
Lemma no_error_attempt {A} (m : M S E A) : no_error (attempt m).
Proof. intros s e s'. unfold attempt. by destruct (m s). Qed.
Lemma no_error_for_acc {A B} (l : list A) (b : B) (f : B -> A -> M S E B) :
  (forall b x, no_error (f b x)) -> no_error (for_acc l b f).
Proof. intros Hf. revert b. induction l as [|x l IH]; intros b; [done|]. by apply no_error_bind. Qed.

Section SafeRules.
Context (P : S -> Prop).

Lemma safe_ret {A} (a : A) : safe P (mret a).
Proof. by intros s. Qed.
Lemma safe_throw {A} e : safe P (throw (A:=A) e).
Proof. by intros s. Qed.
Lemma safe_gets {A} (f : S -> A) : safe P (gets f).
Proof. by intros s. Qed.
Lemma safe_modify f : (forall s, P s -> P (f s)) -> safe P (modify f).
Proof. intros Hf s. apply Hf. Qed.
Lemma safe_guard b e : safe P (guard b e).
Proof. intros s. by destruct b. Qed.
Lemma safe_lift_opt {A} (o : option A) e : safe P (lift_opt o e).
Proof. intros s. by destruct o. Qed.
Lemma safe_lift_sum {A} (r : E + A) : safe P (lift_sum r).
Proof. intros s. by destruct r. Qed.
Lemma safe_bind {A B} (m : M S E A) (k : A -> M S E B) :
  safe P m -> (forall a, safe P (k a)) -> safe P (mbind m k).
Proof.
  intros Hm Hk s Hs. unfold mbind. specialize (Hm s Hs). destruct (m s) as [a s1|e s1|]; try done.
  by apply Hk.
Qed.
Lemma safe_attempt {A} (m : M S E A) : safe P m -> safe P (attempt m).
Proof. intros Hm s Hs. unfold attempt. specialize (Hm s Hs). by destruct (m s). Qed.
Lemma safe_for_each {A} (l : list A) body :
  (forall x, safe P (body x)) -> safe P (for_each l body).
Proof. intros Hb. induction l; simpl; [apply safe_ret|by apply safe_bind]. Qed.
Lemma safe_for_acc {A B} (l : list A) (acc : B) body :
  (forall b x, safe P (body b x)) -> safe P (for_acc l acc body).
Proof. intros Hb. revert acc. induction l; intros acc; simpl; [apply safe_ret|by apply safe_bind]. Qed.

(** Neither an error nor a panic: [m] returns a value. *)
Lemma safe_total {A} (m : M S E A) s : safe P m -> no_error m -> P s -> exists a s', m s = Ok a s' /\ P s'.
Proof.
  intros Hm He Hs. specialize (Hm s Hs). destruct (m s) as [a s'|e s'|] eqn:Em; [by exists a, s'| |done].
  by apply He in Em.
Qed.
End SafeRules.
End Frames.

Create HintDb go.
#[export] Hint Resolve frame_ret frame_throw frame_panic frame_gets frame_guard frame_lift_opt
  frame_lift_sum frame_bind frame_attempt frame_for_each frame_for_acc : go.
#[export] Hint Resolve safe_ret safe_throw safe_gets safe_modify safe_guard safe_lift_opt
  safe_lift_sum safe_bind safe_attempt safe_for_each safe_for_acc : go.
#[export] Hint Resolve no_error_bind no_error_attempt no_error_for_acc : go.

(** One step of symbolic execution of a successful run. *)
Ltac inv H := inversion H; subst; clear H.

(** Eliminate the later name of a state or value in favour of the earlier one. *)
Ltac subst_right :=
  repeat match goal with
  | H : ?x = _ |- _ => is_var x; subst x
  end.

Ltac go_step :=
  match goal with
  | H : mbind _ _ _ = Ok _ _ |- _ =>
      apply mbind_ok in H; destruct H as (? & ? & ? & ?)
  | H : mret _ _ = Ok _ _ |- _ => apply mret_ok in H; destruct H as [? ?]; subst_right
  | H : throw _ _ = Ok _ _ |- _ => discriminate H
  | H : panic _ = Ok _ _ |- _ => discriminate H
  | H : gets _ _ = Ok _ _ |- _ => apply gets_ok in H; destruct H as [? ?]; subst_right
  | H : modify _ _ = Ok _ _ |- _ => apply modify_ok in H; subst_right
  | H : guard _ _ _ = Ok _ _ |- _ =>
      apply guard_ok in H; destruct H as [? ?]; subst_right
  | H : lift_opt _ _ _ = Ok _ _ |- _ =>
      apply lift_opt_ok in H; destruct H as [? ?]; subst_right
  | H : lift_sum _ _ = Ok _ _ |- _ =>
      apply lift_sum_ok in H; destruct H as [? ?]; subst_right
  | H : attempt _ _ = Ok _ _ |- _ => apply attempt_ok in H
  | H : Ok _ _ = Ok _ _ |- _ => apply ok_inj in H; destruct H as [? ?]; subst_right
  | H : Err _ _ = Ok _ _ |- _ => discriminate H
  | H : Panic = Ok _ _ |- _ => discriminate H
  | H : inr _ = inr _ |- _ => inv H
  | H : inl _ = inr _ |- _ => discriminate H
  | x : unit |- _ => destruct x
  end.

Ltac go_simp := repeat (go_step; simpl in * ).

(** Structural proofs of [frame], [safe] and [no_error] goals; the calls a component adds are
    resolved from the database [go]. *)
Ltac go_frame :=
  repeat match goal with
  | |- forall _, _ => intro
  | |- frame _ (mret _) => apply frame_ret; apply _
  | |- frame _ (throw _) => apply frame_throw; apply _
  | |- frame _ panic => apply frame_panic
  | |- frame _ (gets _) => apply frame_gets; apply _
  | |- frame _ (guard _ _) => apply frame_guard; apply _
  | |- frame _ (lift_opt _ _) => apply frame_lift_opt; apply _
  | |- frame _ (lift_sum _) => apply frame_lift_sum; apply _
  | |- frame _ (mbind _ _) => apply frame_bind; [apply _| |]
  | |- frame _ (attempt _) => apply frame_attempt
  | |- frame _ (for_each _ _) => apply frame_for_each; [apply _|]
  | |- frame _ (for_acc _ _ _) => apply frame_for_acc; [apply _|]
  | |- frame _ (match ?x with _ => _ end) => destruct x
  | |- safe _ (mbind _ _) => apply safe_bind
  | |- safe _ (attempt _) => apply safe_attempt
  | |- safe _ (for_each _ _) => apply safe_for_each
  | |- safe _ (for_acc _ _ _) => apply safe_for_acc
  | |- safe _ (match ?x with _ => _ end) => destruct x
  | |- no_error (mbind _ _) => apply no_error_bind
  | |- no_error (attempt _) => apply no_error_attempt
  | |- no_error (for_acc _ _ _) => apply no_error_for_acc
  | |- no_error (match ?x with _ => _ end) => destruct x
  | |- no_error (mret _) => done
  | |- no_error (gets _) => done
  | |- no_error (modify _) => done
  | |- _ => solve [auto with go]
  end.

(** [combine] of two lists *)
Lemma combine_fst {A B} (l : list A) (k : list B) x : x ∈ (combine l k).*1 -> x ∈ l.
Proof.
  intros ([a b] & -> & Hin)%list_elem_of_fmap. apply list_elem_of_In in Hin.
  apply in_combine_l in Hin. by apply list_elem_of_In.
Qed.

Lemma combine_snd {A B} (l : list A) (k : list B) x : x ∈ (combine l k).*2 -> x ∈ k.
Proof.
  intros ([a b] & -> & Hin)%list_elem_of_fmap. apply list_elem_of_In in Hin.
  apply in_combine_r in Hin. by apply list_elem_of_In.
Qed.

Lemma combine_elem {A B} (l : list A) (k : list B) x :
  List.length l = List.length k -> x ∈ k -> exists y, (y, x) ∈ combine l k.
Proof.
  revert k. induction l as [|y l IH]; intros [|z k] Hl Hx; try done; [by apply elem_of_nil in Hx|].
  apply elem_of_cons in Hx as [->|Hx]; [exists y; by left|].
  destruct (IH k) as [w Hw]; [by injection Hl|done|]. exists w. by right.
Qed.

(** The state a successful iteration starts from. *)
Lemma for_each_split {S E A} (pre post : list A) x (body : A -> M S E unit) s u s' :
  for_each (pre ++ x :: post)%list body s = Ok u s' ->
  exists s1 s2, for_each pre body s = Ok tt s1 /\ body x s1 = Ok tt s2 /\
    for_each post body s2 = Ok u s'.
Proof.
  revert s. induction pre as [|y pre IH]; intros s Hr.
  - apply mbind_ok in Hr as ([] & s2 & G1 & G2). exists s, s2. done.
  - apply mbind_ok in Hr as ([] & s1 & G1 & G2). apply IH in G2 as (s2 & s3 & A1 & A2 & A3).
    exists s2, s3. split; [|done]. cbn. unfold mbind. by rewrite G1.
Qed.

(** The turn of [x] in a loop over [pre], [x] and [post] from [s] to [s']: the loop has
    come to [s1], and goes on from [s2]. *)
Definition turn {S E A} (body : A -> M S E unit) (pre : list A) (x : A) (post : list A) (s s' s1 s2 : S) : Prop :=
  for_each pre body s = Ok tt s1 /\ body x s1 = Ok tt s2 /\ for_each post body s2 = Ok tt s'.

Lemma for_each_turn {S E A} (pre post : list A) x (body : A -> M S E unit) s u s' :
  for_each (pre ++ x :: post)%list body s = Ok u s' -> exists s1 s2, turn body pre x post s s' s1 s2.
Proof. destruct u. intros (s1 & s2 & Hr)%for_each_split. by exists s1, s2. Qed.

(** Case analysis on the scrutinee of the first [match]/[if] in [H]. *)
Ltac go_case H :=
  match type of H with
  | context [match ?x with _ => _ end] => destruct x eqn:?
  end.

(** ** Lists, maps *)

Lemma existsb_spec {A} (f : A -> bool) l :
  existsb f l = true <-> exists x, x ∈ l /\ f x = true.
Proof.
  rewrite existsb_exists. split; intros (x & Hx & Hf); exists x; split; auto;
    [by apply list_elem_of_In | by apply list_elem_of_In].
Qed.

Lemma forallb_spec {A} (f : A -> bool) l :
  forallb f l = true <-> forall x, x ∈ l -> f x = true.
Proof.
  rewrite forallb_forall. by setoid_rewrite list_elem_of_In.
Qed.
