(* ===== verification/GoStrings.v ===== *)
(** Go strings and integers: the part of Go's standard library ([strings],
    [math/big], [unicode/utf8], [sort]) the modelled packages use, and the
    lemmas about it the components share.  A Go string is a byte sequence; it
    is a [string] here, one [ascii] per byte. *)
From S2P Require Import Prelude.

Declare Scope gostr_scope.
Delimit Scope gostr_scope with gostr.
Infix "=?s" := String.eqb (at level 70) : gostr_scope.
Notation "a <>?s b" := (negb (String.eqb a b)) (at level 70) : gostr_scope.
Open Scope gostr_scope.
Open Scope string_scope.
Open Scope nat_scope.

Module GoStrings.

(** ** package strings *)

(** [len(s)] *)
Notation len := String.length.

(** Texts that fit in memory together.  Strings of the model have any length; a Go
    process holds less than [2 ^ 62] bytes. *)
Definition fits (ss : list string) : Prop := (Z.of_nat (list_sum (len <$> ss)) < 2 ^ 62)%Z.

(** [s[:n]] and [s[n:]] *)
Fixpoint str_take (n : nat) (s : string) : string :=
  match n, s with
  | S n', String a s' => String a (str_take n' s')
  | _, _ => ""
  end.

Fixpoint str_drop (n : nat) (s : string) : string :=
  match n, s with
  | S n', String _ s' => str_drop n' s'
  | _, _ => s
  end.

(** [strings.HasPrefix(s, p)] *)
Fixpoint HasPrefix (s p : string) {struct p} : bool :=
  match p, s with
  | "", _ => true
  | String a p', String b s' => Ascii.eqb a b && HasPrefix s' p'
  | String _ _, "" => false
  end.

(** [strings.TrimPrefix(s, p)] *)
Definition TrimPrefix (s p : string) : string :=
  if HasPrefix s p then str_drop (len p) s else s.

(** [strings.Contains(s, c)] for a one-byte [c]. *)
Fixpoint ContainsByte (s : string) (c : ascii) : bool :=
  match s with
  | "" => false
  | String a s' => Ascii.eqb a c || ContainsByte s' c
  end.

(** [strings.LastIndex(s, c)] for a one-byte [c]; [None] is -1. *)
Fixpoint LastIndex (s : string) (c : ascii) : option nat :=
  match s with
  | "" => None
  | String a s' =>
      match LastIndex s' c with
      | Some i => Some (S i)
      | None => if Ascii.eqb a c then Some O else None
      end
  end.

(** [strings.Replace(s, old, "", 1)]: drop the first occurrence of [old]. *)
Fixpoint RemoveFirst (s old : string) : string :=
  if HasPrefix s old then str_drop (len old) s
  else match s with
       | "" => ""
       | String a s' => String a (RemoveFirst s' old)
       end.

Definition byte_of (a : ascii) : Z := Z.of_N (N_of_ascii a).

(** [lo <= a && a <= hi] on bytes *)
Definition in_range (lo hi a : ascii) : bool :=
  (byte_of lo <=? byte_of a)%Z && (byte_of a <=? byte_of hi)%Z.

Definition is_upper (a : ascii) : bool := in_range "A" "Z" a.
Definition is_lower (a : ascii) : bool := in_range "a" "z" a.
Definition is_digit (a : ascii) : bool := in_range "0" "9" a.
Definition is_alnum (a : ascii) : bool := is_lower a || is_upper a || is_digit a.

Definition ascii_lower (a : ascii) : ascii :=
  if is_upper a then ascii_of_N (N_of_ascii a + 32) else a.

(** [strings.ToLower] on ASCII letters; other bytes are left alone.  The code
    applies it to contract addresses, which are ASCII. *)
Fixpoint ToLower (s : string) : string :=
  match s with
  | "" => ""
  | String a s' => String (ascii_lower a) (ToLower s')
  end.

(** [strings.EqualFold], with the same restriction. *)
Definition EqualFold (s t : string) : bool := ToLower s =?s ToLower t.

Fixpoint str_forallb (f : ascii -> bool) (s : string) : bool :=
  match s with
  | "" => true
  | String a s' => f a && str_forallb f s'
  end.

(** [strings.Join(l, sep)] *)
Fixpoint Join (l : list string) (sep : string) : string :=
  match l with
  | [] => ""
  | [x] => x
  | x :: l' => x +:+ sep +:+ Join l' sep
  end.

(** [sort.Strings] *)
Definition str_le (a b : string) : Prop := String.leb a b = true.
#[global] Instance str_le_dec : RelDecision str_le.
Proof. intros a b. unfold str_le. apply _. Defined.
Definition SortStrings (l : list string) : list string := merge_sort str_le l.

(** The entries of a map in the order of their keys *)
Definition sorted_entries {V} (m : gmap string V) : list (string * V) :=
  omap (fun k => (fun v => (k, v)) <$> m !! k) (SortStrings (map_to_list m).*1).

(** ** package math/big, on the base 10 and base 16 spellings *)

Definition uint256_bound : Z := 2 ^ 256.

Definition digit_val (a : ascii) : option Z :=
  if is_digit a then Some (byte_of a - 48)%Z
  else if is_lower a then Some (byte_of a - 97 + 10)%Z
  else if is_upper a then Some (byte_of a - 65 + 10)%Z
  else None.

Fixpoint scan_digits (base acc : Z) (s : string) : option Z :=
  match s with
  | "" => Some acc
  | String a s' =>
      match digit_val a with
      | Some d => if (d <? base)%Z then scan_digits base (acc * base + d)%Z s' else None
      | None => None
      end
  end.

Definition scan_nat (base : Z) (s : string) : option Z :=
  match s with "" => None | _ => scan_digits base 0 s end.

(** [new(big.Int).SetString(s, base)]: an optional sign, then at least one
    digit, and nothing else. *)
Definition SetString (s : string) (base : Z) : option Z :=
  match s with
  | String "-" r => Z.opp <$> scan_nat base r
  | String "+" r => scan_nat base r
  | _ => scan_nat base s
  end.

Definition digit_char (d : Z) : ascii :=
  if (d <? 10)%Z then ascii_of_N (Z.to_N (48 + d))
  else ascii_of_N (Z.to_N (97 + (d - 10))).

Fixpoint put_digits (fuel : nat) (base n : Z) (acc : string) : string :=
  match fuel with
  | O => acc
  | S f =>
      if (n =? 0)%Z then acc
      else put_digits f base (n / base)%Z (String (digit_char (n mod base)) acc)
  end.

(** [n.Text(base)] for [n >= 0].  One digit per bit is always enough fuel for
    a base of at least 2. *)
Definition Text (n base : Z) : string :=
  if (n =? 0)%Z then "0"
  else put_digits (S (Z.to_nat (Z.log2 n))) base n "".

(** [strings.Split(s, c)] for a one-byte [c] *)
Fixpoint Split (s : string) (c : ascii) : list string :=
  match s with
  | "" => [""]
  | String a s' =>
      if Ascii.eqb a c then "" :: Split s' c
      else match Split s' c with x :: l => String a x :: l | [] => [String a ""] end
  end.

(** [strings.HasSuffix] *)
Definition HasSuffix (s p : string) : bool :=
  (len p <=? len s)%nat && (str_drop (len s - len p) s =?s p).

(** [n.String()] for [n >= 0] *)
Definition BigString (n : Z) : string := Text n 10.
Definition nat_string (n : nat) : string := BigString (Z.of_nat n).

End GoStrings.
Export GoStrings.

(** ** Lemmas *)

Lemma str_app_cons x a b : String x a +:+ b = String x (a +:+ b).
Proof. done. Qed.

Lemma str_app_nil_l x : "" +:+ x = x.
Proof. done. Qed.
Lemma str_app_nil_r s : s +:+ "" = s.
Proof. induction s as [|a s IH]; [done|]. by rewrite str_app_cons, IH. Qed.

Lemma str_app_assoc a b c : (a +:+ b) +:+ c = a +:+ (b +:+ c).
Proof. induction a as [|x a IH]; [done|]. by rewrite !str_app_cons, IH. Qed.

Lemma len_app a b : len (a +:+ b) = len a + len b.
Proof. induction a as [|x a IH]; [done|]. rewrite str_app_cons. simpl. by rewrite IH. Qed.

Lemma len_zero s : len s = 0 <-> s = "".
Proof. by destruct s. Qed.

Lemma str_take_app a b : str_take (len a) (a +:+ b) = a.
Proof. induction a as [|x a IH]; [by destruct b|]. rewrite str_app_cons. simpl. by f_equal. Qed.

Lemma str_drop_app a b : str_drop (len a) (a +:+ b) = b.
Proof. induction a as [|x a IH]; [done|]. rewrite str_app_cons. simpl. done. Qed.

Lemma str_take_drop n s : str_take n s +:+ str_drop n s = s.
Proof.
  revert n. induction s as [|a s IH]; intros [|n]; [done..|].
  simpl. rewrite str_app_cons. by rewrite IH.
Qed.

Lemma len_take n s : len (str_take n s) = n `min` len s.
Proof. revert n. induction s as [|a s IH]; intros [|n]; simpl; auto. Qed.

Lemma len_drop n s : len (str_drop n s) = (len s - n)%nat.
Proof. revert n. induction s as [|a s IH]; intros [|n]; simpl; auto. Qed.

Lemma HasPrefix_spec s p : HasPrefix s p = true <-> exists r, s = p +:+ r.
Proof.
  revert s. induction p as [|a p IH]; intros s.
  - split; [intros _; by exists s|done].
  - destruct s as [|b s]; simpl.
    + split; [done|]. intros [r Hr]. by rewrite str_app_cons in Hr.
    + rewrite andb_true_iff, Ascii.eqb_eq, IH. split.
      * intros [-> [r ->]]. exists r. done.
      * intros [r Hr]. rewrite str_app_cons in Hr. inv Hr. eauto.
Qed.

Lemma HasPrefix_app p r : HasPrefix (p +:+ r) p = true.
Proof. apply HasPrefix_spec. eauto. Qed.

Lemma str_app_inj_len a b x y : len a = len b -> a +:+ x = b +:+ y -> a = b /\ x = y.
Proof.
  revert b. induction a as [|c a IH]; intros [|d b] Hl; try done.
  rewrite !str_app_cons. intros [= -> E]. injection Hl as Hl. by destruct (IH b Hl E) as [-> ->].
Qed.

Lemma ContainsByte_app a b c : ContainsByte (a +:+ b) c = ContainsByte a c || ContainsByte b c.
Proof.
  induction a as [|x a IH]; [done|]. rewrite str_app_cons. simpl.
  by rewrite IH, orb_assoc.
Qed.

Lemma LastIndex_None s c : LastIndex s c = None <-> ContainsByte s c = false.
Proof.
  induction s as [|a s IH]; [done|]. simpl.
  rewrite orb_false_iff, <- IH.
  destruct (LastIndex s c), (Ascii.eqb a c); naive_solver.
Qed.

Lemma LastIndex_sep a b c :
  ContainsByte b c = false -> LastIndex (a +:+ String c b) c = Some (len a).
Proof.
  intros Hb. induction a as [|x a IH].
  - simpl. apply LastIndex_None in Hb. change ("" +:+ String c b) with (String c b).
    simpl. by rewrite Hb, Ascii.eqb_refl.
  - rewrite str_app_cons. simpl. by rewrite IH.
Qed.

Lemma LastIndex_split s c i :
  LastIndex s c = Some i ->
  s = str_take i s +:+ String c (str_drop (S i) s) /\ ContainsByte (str_drop (S i) s) c = false
  /\ (i < len s)%nat.
Proof.
  revert i. induction s as [|a s IH]; intros i H; [done|]. simpl in H.
  destruct (LastIndex s c) as [j|] eqn:Hj.
  - inv H. destruct (IH j eq_refl) as (H1 & H2 & H3). simpl.
    split; [rewrite str_app_cons; by f_equal|]. split; [done|lia].
  - destruct (Ascii.eqb_spec a c) as [->|]; [|done]. inv H. simpl.
    split; [done|]. split; [|lia]. apply LastIndex_None in Hj. by destruct s.
Qed.

Lemma ascii_lower_idem a : ascii_lower (ascii_lower a) = ascii_lower a.
Proof. by destruct a as [[] [] [] [] [] [] [] []]. Qed.

Lemma ToLower_idem s : ToLower (ToLower s) = ToLower s.
Proof. induction s as [|a s IH]; [done|]. simpl. by rewrite ascii_lower_idem, IH. Qed.

Lemma ToLower_app a b : ToLower (a +:+ b) = ToLower a +:+ ToLower b.
Proof. induction a as [|x a IH]; [done|]. simpl. rewrite !str_app_cons. simpl. by rewrite IH. Qed.

Lemma len_ToLower s : len (ToLower s) = len s.
Proof. induction s as [|a s IH]; [done|]. simpl. by rewrite IH. Qed.

Lemma ToLower_take n s : str_take n (ToLower s) = ToLower (str_take n s).
Proof. revert s. induction n as [|n IH]; intros [|a s]; [done..|]. cbn. by rewrite IH. Qed.

Lemma str_take_take n m s : n <= m -> str_take n (str_take m s) = str_take n s.
Proof.
  revert m s. induction n as [|n IH]; intros [|m] [|a s] Hl; try done; [lia|].
  cbn. rewrite IH by lia. done.
Qed.

Lemma EqualFold_spec s t : EqualFold s t = true <-> ToLower s = ToLower t.
Proof. apply String.eqb_eq. Qed.

Lemma str_eqb_true a b : (a =?s b) = true <-> a = b.
Proof. apply String.eqb_eq. Qed.

Lemma str_eqb_false a b : (a =?s b) = false <-> a <> b.
Proof. apply String.eqb_neq. Qed.

Lemma str_neqb_true a b : (a <>?s b) = true <-> a <> b.
Proof. rewrite negb_true_iff. apply String.eqb_neq. Qed.

Lemma str_neqb_false a b : (a <>?s b) = false <-> a = b.
Proof. rewrite negb_false_iff. apply String.eqb_eq. Qed.

(** Sorting only permutes, so nothing but the order depends on it. *)
#[global] Instance str_le_total : Total str_le.
Proof. intros a b. unfold str_le. destruct (String.leb_total a b); auto. Qed.

Lemma leb_cons a s b t :
  String.leb (String a s) (String b t) =
    match Ascii.compare a b with Lt => true | Eq => String.leb s t | Gt => false end.
Proof. unfold String.leb. cbn. by destruct (Ascii.compare a b). Qed.
#[global] Instance str_le_trans : Transitive str_le.
Proof.
  unfold str_le. intros s. induction s as [|a s IH]; intros [|b t] [|c u]; try done. rewrite !leb_cons.
  unfold Ascii.compare. destruct (N.compare_spec (N_of_ascii a) (N_of_ascii b)) as [E1|E1|E1]; [|..|done];
    destruct (N.compare_spec (N_of_ascii b) (N_of_ascii c)) as [E2|E2|E2]; try done;
    destruct (N.compare_spec (N_of_ascii a) (N_of_ascii c)) as [E3|E3|E3]; try done; try lia. apply IH.
Qed.
#[global] Instance str_le_antisymm : AntiSymm eq str_le.
Proof.
  unfold str_le. intros s. induction s as [|a s IH]; intros [|b t]; try done. rewrite !leb_cons. unfold Ascii.compare.
  rewrite (N.compare_antisym (N_of_ascii a) (N_of_ascii b)).
  destruct (N.compare_spec (N_of_ascii a) (N_of_ascii b)) as [E|E|E]; cbn; try done.
  intros H1 H2. f_equal; [|by apply IH]. by rewrite <- (ascii_N_embedding a), <- (ascii_N_embedding b), E.
Qed.
Lemma SortStrings_sorted l : StronglySorted str_le (SortStrings l).
Proof. apply Sorted_StronglySorted; [apply _|]. apply Sorted_merge_sort. apply _. Qed.

Lemma SortStrings_perm l : SortStrings l ≡ₚ l.
Proof. apply merge_sort_Permutation. Qed.

Lemma elem_of_SortStrings x l : x ∈ SortStrings l <-> x ∈ l.
Proof. by rewrite SortStrings_perm. Qed.

(** ** Entries by key *)
Lemma elem_of_sorted_entries {V} (m : gmap string V) k v : (k, v) ∈ sorted_entries m <-> m !! k = Some v.
Proof.
  unfold sorted_entries. rewrite list_elem_of_omap. split.
  - intros (k' & Hk & H). destruct (m !! k') eqn:E; naive_solver.
  - intros Hm. exists k. rewrite Hm. split; [|done]. apply elem_of_SortStrings, list_elem_of_fmap. exists (k, v).
    split; [done|]. by apply elem_of_map_to_list.
Qed.

Lemma omap_lookup_keys {V} (m : gmap string V) (l : list string) :
  (forall k, k ∈ l -> is_Some (m !! k)) -> (omap (fun k => (fun v => (k, v)) <$> m !! k) l).*1 = l.
Proof.
  induction l as [|k l IH]; intros Hl; [done|]. cbn.
  destruct (Hl k (ltac:(by left))) as [v ->]. cbn. f_equal. apply IH. intros k' Hk. apply Hl. by right.
Qed.

Lemma sorted_entries_keys {V} (m : gmap string V) : (sorted_entries m).*1 = SortStrings (map_to_list m).*1.
Proof.
  apply omap_lookup_keys. intros k Hk. apply elem_of_SortStrings, list_elem_of_fmap in Hk as ([k' v] & -> & Hin).
  apply elem_of_map_to_list in Hin. eauto.
Qed.

Lemma sorted_entries_nodup {V} (m : gmap string V) : NoDup (sorted_entries m).*1.
Proof. rewrite sorted_entries_keys, SortStrings_perm. apply NoDup_fst_map_to_list. Qed.

(** ** Printing and parsing integers *)

Section Digits.
Variable base : Z.
Hypothesis Hbase : base = 10%Z \/ base = 16%Z.

Lemma digit_val_char d :
  (0 <= d < base)%Z -> digit_val (digit_char d) = Some d.
Proof.
  intros Hd. assert (0 <= d < 16)%Z as Hd16 by lia.
  assert (d ∈ [0;1;2;3;4;5;6;7;8;9;10;11;12;13;14;15]%Z) as Hin.
  { rewrite !elem_of_cons. lia. }
  repeat (apply elem_of_cons in Hin; destruct Hin as [->|Hin]; [reflexivity|]).
  by apply elem_of_nil in Hin.
Qed.

Lemma scan_put_digits fuel n acc :
  (0 <= n < 2 ^ Z.of_nat fuel)%Z ->
  scan_digits base 0 (put_digits fuel base n acc) = scan_digits base n acc.
Proof.
  revert n acc. induction fuel as [|f IH]; intros n acc Hn.
  - assert (n = 0)%Z as -> by (simpl in Hn; lia). done.
  - simpl. destruct (Z.eqb_spec n 0) as [->|Hn0]; [done|].
    assert (0 < base)%Z by lia.
    assert (0 <= n / base < 2 ^ Z.of_nat f)%Z as Hq.
    { split; [apply Z.div_pos; lia|].
      apply Z.div_lt_upper_bound; [lia|].
      replace (Z.of_nat (S f)) with (1 + Z.of_nat f)%Z in Hn by lia.
      rewrite Z.pow_add_r in Hn by lia.
      nia. }
    rewrite IH by done. cbn [scan_digits].
    pose proof (Z.mod_pos_bound n base ltac:(lia)) as Hm.
    rewrite digit_val_char by lia.
    replace (n mod base <? base)%Z with true by (symmetry; apply Z.ltb_lt; lia).
    f_equal. rewrite (Z.mul_comm (n / base)). symmetry. apply Z.div_mod. lia.
Qed.

(** The printed form starts with a digit: never empty, never a sign. *)
Definition digit_head (s : string) : Prop :=
  exists d r, (0 <= d < base)%Z /\ s = String (digit_char d) r.

Lemma put_digits_head fuel n acc :
  (0 <= n)%Z -> digit_head acc \/ (n <> 0)%Z ->
  (n < 2 ^ Z.of_nat fuel)%Z ->
  digit_head (put_digits fuel base n acc).
Proof.
  revert n acc. induction fuel as [|f IH]; intros n acc Hn0 Ha Hn.
  - simpl in *. destruct Ha; [done|lia].
  - simpl. destruct (Z.eqb_spec n 0) as [->|]; [naive_solver|].
    assert (0 < base)%Z by lia.
    apply IH.
    + apply Z.div_pos; lia.
    + left. eexists _, _. split; [|done]. apply Z.mod_pos_bound. lia.
    + apply Z.div_lt_upper_bound; [lia|].
      replace (Z.of_nat (S f)) with (1 + Z.of_nat f)%Z in Hn by lia.
      rewrite Z.pow_add_r in Hn by lia. nia.
Qed.

Lemma log2_fuel n : (0 < n)%Z -> (n < 2 ^ Z.of_nat (S (Z.to_nat (Z.log2 n))))%Z.
Proof.
  intros Hn. pose proof (Z.log2_nonneg n). rewrite Nat2Z.inj_succ, Z2Nat.id by lia.
  apply Z.log2_spec. lia.
Qed.

Lemma Text_head n : (0 <= n)%Z -> digit_head (Text n base).
Proof.
  intros Hn. unfold Text. destruct (Z.eqb_spec n 0) as [->|].
  - exists 0%Z, "". split; [lia|done].
  - apply put_digits_head; [lia|by right|apply log2_fuel; lia].
Qed.

Lemma scan_Text n : (0 <= n)%Z -> scan_digits base 0 (Text n base) = Some n.
Proof.
  intros Hn. unfold Text. destruct (Z.eqb_spec n 0) as [->|].
  - simpl. by destruct Hbase as [-> | ->].
  - rewrite scan_put_digits; [done|].
    split; [lia|apply log2_fuel; lia].
Qed.

Lemma digit_char_not_sign d r :
  (0 <= d < base)%Z ->
  SetString (String (digit_char d) r) base = scan_digits base 0 (String (digit_char d) r).
Proof.
  intros Hd. assert (d ∈ [0;1;2;3;4;5;6;7;8;9;10;11;12;13;14;15]%Z) as Hin.
  { rewrite !elem_of_cons. lia. }
  repeat (apply elem_of_cons in Hin; destruct Hin as [->|Hin]; [reflexivity|]).
  by apply elem_of_nil in Hin.
Qed.

(** Parsing undoes printing. *)
Lemma SetString_Text n : (0 <= n)%Z -> SetString (Text n base) base = Some n.
Proof.
  intros Hn. destruct (Text_head n Hn) as (d & r & Hd & Hs).
  rewrite Hs, digit_char_not_sign, <- Hs by done. by apply scan_Text.
Qed.

(** A leading zero nibble does not change the value. *)
Lemma SetString_zero_Text n :
  (0 <= n)%Z -> SetString ("0" +:+ Text n base) base = Some n.
Proof.
  intros Hn. rewrite str_app_cons.
  change "0"%char with (digit_char 0). rewrite digit_char_not_sign by lia.
  cbn [scan_digits]. rewrite digit_val_char by lia.
  replace (0 <? base)%Z with true by (symmetry; apply Z.ltb_lt; lia).
  change ("" +:+ Text n base) with (Text n base). by apply scan_Text.
Qed.

Lemma Text_inj n m : (0 <= n)%Z -> (0 <= m)%Z -> Text n base = Text m base -> n = m.
Proof.
  intros Hn Hm H. apply (f_equal (fun s => SetString s base)) in H.
  rewrite !SetString_Text in H by done. by inv H.
Qed.
End Digits.

#[export] Hint Rewrite str_app_nil_r str_app_assoc len_app ToLower_idem ToLower_app len_ToLower : gostr.

Lemma Split_whole s c : ContainsByte s c = false -> Split s c = [s].
Proof.
  induction s as [|a s IH]; [done|]. cbn. destruct (Ascii.eqb a c); [done|]. cbn. intros E. by rewrite IH.
Qed.

Lemma Split_sep a b c : ContainsByte a c = false -> Split (a +:+ String c b) c = a :: Split b c.
Proof.
  induction a as [|x a IH].
  - intros _. change ("" +:+ String c b) with (String c b). cbn. by rewrite Ascii.eqb_refl.
  - rewrite str_app_cons. cbn. destruct (Ascii.eqb x c); [done|]. cbn. intros E. by rewrite IH.
Qed.

Lemma Split_Join l c :
  l <> [] -> (forall x, x ∈ l -> ContainsByte x c = false) -> Split (Join l (String c "")) c = l.
Proof.
  induction l as [|x [|y l] IH]; intros Hne Hl; [done| |].
  - apply Split_whole, Hl. by left.
  - change (Join (x :: y :: l) (String c "")) with (x +:+ String c (Join (y :: l) (String c ""))).
    rewrite Split_sep by (apply Hl; by left). rewrite IH; [done..|]. intros z Hz. apply Hl. by right.
Qed.

(** ** Base-10 numerals *)

Lemma in_range_spec lo hi a : in_range lo hi a = true -> (byte_of lo <= byte_of a <= byte_of hi)%Z.
Proof. unfold in_range. by intros [?%Z.leb_le ?%Z.leb_le]%andb_true_iff. Qed.

Lemma digit_val_nonneg a d : digit_val a = Some d -> (0 <= d)%Z.
Proof.
  unfold digit_val, is_digit, is_lower, is_upper.
  repeat case_match; intros [= <-]; match goal with E : in_range _ _ a = true |- _ => apply in_range_spec in E end;
    match goal with E : (byte_of ?x <= _ <= _)%Z |- _ => change (byte_of x) with (ltac:(let v := eval compute in (byte_of x) in exact v)) in E end; lia.
Qed.

Lemma scan_digits_nonneg base s acc v :
  (0 <= base)%Z -> (0 <= acc)%Z -> scan_digits base acc s = Some v -> (0 <= v)%Z.
Proof.
  intros Hb. revert acc. induction s as [|a s IH]; intros acc Ha; cbn; [by intros [= <-]|].
  destruct (digit_val a) as [d|] eqn:E; [|done]. apply digit_val_nonneg in E.
  destruct (d <? base)%Z; [|done]. apply IH. lia.
Qed.

Lemma put_digits_chars fuel n acc :
  (0 <= n)%Z -> str_forallb is_digit acc = true ->
  str_forallb is_digit (put_digits fuel 10 n acc) = true.
Proof.
  revert n acc. induction fuel as [|f IH]; intros n acc Hn Ha; [done|].
  simpl. destruct (n =? 0)%Z; [done|]. apply IH; [apply Z.div_pos; lia|].
  simpl. rewrite Ha, andb_true_r. pose proof (Z.mod_pos_bound n 10 ltac:(lia)).
  assert ((n mod 10)%Z ∈ [0;1;2;3;4;5;6;7;8;9]%Z) as Hin by (rewrite !elem_of_cons; lia).
  repeat (apply elem_of_cons in Hin; destruct Hin as [->|Hin]; [reflexivity|]).
  by apply elem_of_nil in Hin.
Qed.

Lemma BigString_digits n : (0 <= n)%Z -> str_forallb is_digit (BigString n) = true.
Proof.
  intros Hn. unfold BigString, Text. destruct (n =? 0)%Z; [done|]. by apply put_digits_chars.
Qed.

Lemma BigString_nonempty n : (0 <= n)%Z -> BigString n <> "".
Proof.
  intros Hn He. destruct (Text_head 10 ltac:(auto) n Hn) as (d & r & _ & Hs).
  unfold BigString in He. congruence.
Qed.
