(* ===== verification/Sdk.v ===== *)
(** The boundary of the development: errors and events of the modelled modules,
    the interfaces of the packages that are not in the repository (go-ethereum,
    the Cosmos SDK, its x/nft keeper, the EVM keeper) and the [sdk.Context] the
    keepers of all modules share.

    Each external package is a class of operations ([EthLib], [SdkLib],
    [NftKeeper], [EvmKeeper]); what the code relies on is a second class, in
    [Prop], of named laws ([EthLaws], [SdkLaws], [NftLaws]).  Reference.v
    instantiates all of them with concrete functions. *)
From S2P Require Import Prelude GoStrings.

(** * Errors

    An error is its registered sentinel: [sdkerrors.Wrap] keeps the sentinel,
    and [errors.Is] only looks at it, so the wrapped text is not modelled. *)

(** github.com/cosmos/cosmos-sdk/types/errors *)
Inductive sdk_error :=
| ErrInvalidRequest | ErrUnauthorized | ErrInvalidAddress | ErrUnknownAddress
| ErrInvalidSigner | ErrJSONUnmarshal | ErrOutOfGas | ErrLogic | ErrInvalidType | ErrUnknownRequest
| ErrConflict.

(** x/collection/types/errors.go *)
Inductive collection_error :=
| ErrInvalidCollection | ErrUnknownCollection | ErrInvalidNFT | ErrNFTAlreadyExists
| ErrUnknownNFT | ErrEmptyTokenData | ErrUnauthorizedAddress | ErrInvalidDenom
| ErrInvalidTokenID | ErrInvalidTokenURI | ErrNFTBoundToContract.

(** x/erc721/types/errors.go *)
Inductive erc721_error :=
| ErrERC721Disabled | ErrClassNotExist | ErrNFTNotExist | ErrInternalTokenPair
| ErrTokenPairNotFound | ErrTokenPairAlreadyExists | ErrUndefinedOwner
| ErrUnexpectedEvent | ErrABIPack | ErrABIUnpack | ErrEVMCall
| ErrERC721TokenPairDisabled | ErrNftIdNotCorrect | ErrClassIdNotCorrect
| ErrContractAddressNotCorrect | ErrTokenIdNotCorrect | ErrNFTMappingConflict
| ErrClassEnhanceRestrictions.

(** x/cw721/types/errors.go *)
Inductive cw721_error :=
| CwErrCW721Disabled | CwErrClassNotExist | CwErrNFTNotExist | CwErrInternalTokenPair
| CwErrTokenPairNotFound | CwErrTokenPairAlreadyExists | CwErrUndefinedOwner
| CwErrUnexpectedEvent | CwErrABIPack | CwErrABIUnpack | CwErrEVMCall
| CwErrCW721TokenPairDisabled | CwErrNftIdNotCorrect | CwErrClassIdNotCorrect
| CwErrContractAddressNotCorrect | CwErrTokenIdNotCorrect | CwErrCW721CodeNotFound
| CwErrNFTMappingConflict.

Inductive error :=
| SdkErr (e : sdk_error)
| CollErr (e : collection_error)
| ErcErr (e : erc721_error)
| CwErr (e : cw721_error)
| VMExecution               (** evmtypes.ErrVMExecution *)
| ExtErr (msg : string).    (** an error an external package returns *)

Definition error_code (e : erc721_error) : Z :=
  match e with
  | ErrERC721Disabled => 2 | ErrClassNotExist => 3 | ErrNFTNotExist => 4
  | ErrInternalTokenPair => 5 | ErrTokenPairNotFound => 6 | ErrTokenPairAlreadyExists => 7
  | ErrUndefinedOwner => 8 | ErrUnexpectedEvent => 9 | ErrABIPack => 10 | ErrABIUnpack => 11
  | ErrEVMCall => 12 | ErrERC721TokenPairDisabled => 13 | ErrNftIdNotCorrect => 14
  | ErrClassIdNotCorrect => 15 | ErrContractAddressNotCorrect => 16 | ErrTokenIdNotCorrect => 17
  | ErrNFTMappingConflict => 18 | ErrClassEnhanceRestrictions => 19
  end%Z.

#[global] Instance sdk_error_dec : EqDecision sdk_error.
Proof. solve_decision. Defined.
#[global] Instance collection_error_dec : EqDecision collection_error.
Proof. solve_decision. Defined.
#[global] Instance erc721_error_dec : EqDecision erc721_error.
Proof. solve_decision. Defined.
#[global] Instance cw721_error_dec : EqDecision cw721_error.
Proof. solve_decision. Defined.
#[global] Instance error_dec : EqDecision error.
Proof. solve_decision. Defined.

(** * Events *)
Record Event := NewEvent { ev_type : string; ev_attrs : list (string * string) }.

(** * ibc-go: packets and acknowledgements *)

(** clienttypes.Height and the timestamp, in one record *)
Record Timeout := MkTimeout { RevisionNumber : Z; RevisionHeight : Z; TimeoutTimestamp : Z }.

(** channeltypes.Packet *)
Record Packet := MkPacket {
  pk_Sequence : Z; pk_SourcePort : string; pk_SourceChannel : string; pk_DestinationPort : string;
  pk_DestinationChannel : string; pk_Data : string; pk_Timeout : Timeout }.

(** channeltypes.Acknowledgement, by its Response *)
Inductive Acknowledgement :=
| Acknowledgement_Result (result : string)
| Acknowledgement_Error (text : string)
| Acknowledgement_nil.

(** * go-ethereum: package common and crypto.CreateAddress *)
Class EthLib := {
  address : Type;
  address_dec :: EqDecision address;
  zero_address : address;                       (** [common.Address{}] *)
  IsHexAddress : string -> bool;
  HexToAddress : string -> address;
  Hex : address -> string;                      (** [Hex] and [String]: EIP-55 *)
  BytesToAddress : string -> address;
  addr_bytes : address -> string;
  CreateAddress : address -> Z -> address;
}.

Class EthLaws `{EthLib} : Prop := {
  IsHexAddress_Hex a : IsHexAddress (Hex a) = true;
  HexToAddress_Hex a : HexToAddress (Hex a) = a;
  Hex_0x a : HasPrefix (Hex a) "0x" = true;
  IsHexAddress_lower s : IsHexAddress (ToLower s) = IsHexAddress s;
  HexToAddress_lower s : IsHexAddress s = true -> HexToAddress (ToLower s) = HexToAddress s;
  (** [Hex] is the one 0x-prefixed spelling of the address, up to case. *)
  Hex_spelling s :
    IsHexAddress s = true -> HasPrefix (ToLower s) "0x" = true ->
    ToLower (Hex (HexToAddress s)) = ToLower s;
  IsHexAddress_chars s : IsHexAddress s = true -> ContainsByte s "," = false /\ s <> "";
  Hex_len a : len (Hex a) = 42;
  bytes_address b : len b = 20 -> addr_bytes (BytesToAddress b) = b;
  address_bytes a : BytesToAddress (addr_bytes a) = a /\ len (addr_bytes a) = 20;
}.

(** * Cosmos SDK and CometBFT helpers.  An [sdk.AccAddress] is its bytes. *)
Class SdkLib := {
  AccAddressFromBech32 : string -> option string;
  acc_String : string -> string;
  NewModuleAddress : string -> string;
  sha256_Sum256 : string -> string;             (** the digest, as bytes *)
  tmhash_Sum : string -> string;
  url_Parse_Scheme : string -> option string;   (** [None]: [url.Parse] fails *)
  ValidateDenom : string -> bool;               (** [sdk.ValidateDenom(s) == nil] *)
  gas_meter : Type;                             (** [ctx.GasMeter()] *)
  GasRemaining : gas_meter -> Z;
  ConsumeGas : gas_meter -> Z -> option gas_meter;   (** [None]: it panics, out of gas *)
  IsInfinite : gas_meter -> Prop;               (** made by NewInfiniteGasMeter *)
}.

Class SdkLaws `{SdkLib} : Prop := {
  bech32_roundtrip a : a <> "" -> len a <= 255 -> AccAddressFromBech32 (acc_String a) = Some a;
  bech32_empty : AccAddressFromBech32 "" = None;
  acc_String_empty : acc_String "" = "";
  (** the encoding is the one lower-case spelling; it has no separator of ours *)
  bech32_spelling s a : AccAddressFromBech32 s = Some a -> ToLower s = acc_String a;
  acc_String_chars a : ContainsByte (acc_String a) "," = false;
  bech32_nonempty s a : AccAddressFromBech32 s = Some a -> a <> "" /\ len a <= 255;
  sha256_len s : len (sha256_Sum256 s) = 32;
  tmhash_nonempty s : tmhash_Sum s <> "";
  module_address_len m : len (NewModuleAddress m) = 20;
  gas_nonneg m : (0 <= GasRemaining m)%Z;
  gas_enough m g : (0 <= g <= GasRemaining m)%Z -> exists m', ConsumeGas m g = Some m';
  gas_consumed m g m' : (0 <= g)%Z -> ConsumeGas m g = Some m' ->
    (GasRemaining m' <= GasRemaining m)%Z;
  infinite_gas m g : (0 <= g)%Z -> IsInfinite m -> exists m', ConsumeGas m g = Some m' /\ IsInfinite m';
}.

(** * Texts of reports: [fmt.Sprintf] with the verb %q (its escaping depends on
    the Unicode tables) and the text of an error.  No theorem depends on them. *)
Class FmtLib := { fmt_q : string -> string; err_Error : error -> string }.

(** fmt.Errorf("...: %w", err) *)
Definition fmt_wrap `{FmtLib} (what : string) (e : error) : error := ExtErr (what +:+ ": " +:+ err_Error e).

(** * cosmossdk.io/x/nft *)
Record nft_Class := {
  Class_Id : string; Class_Name : string; Class_Symbol : string; Class_Description : string;
  Class_Uri : string; Class_UriHash : string;
  Class_Data : option string;   (** the value bytes of the [Any], [None] for nil *)
}.

Record nft_NFT := {
  NFT_ClassId : string; NFT_Id : string; NFT_Uri : string; NFT_UriHash : string;
  NFT_Data : option string;
}.

Class NftKeeper := {
  nft_state : Type;
  nk_GetClass : nft_state -> string -> option nft_Class;
  nk_GetClasses : nft_state -> list nft_Class;
  nk_SaveClass : nft_state -> nft_Class -> error + nft_state;
  nk_UpdateClass : nft_state -> nft_Class -> error + nft_state;
  nk_GetNFT : nft_state -> string -> string -> option nft_NFT;
  nk_GetNFTsOfClass : nft_state -> string -> list nft_NFT;
  nk_GetOwner : nft_state -> string -> string -> string;
  nk_Mint : nft_state -> nft_NFT -> string -> error + nft_state;
  nk_Update : nft_state -> nft_NFT -> error + nft_state;
  nk_Transfer : nft_state -> string -> string -> string -> error + nft_state;
  nk_Burn : nft_state -> string -> string -> error + nft_state;
  nk_GetTotalSupply : nft_state -> string -> Z;
  nk_GetBalance : nft_state -> string -> string -> Z;
}.

Section NftSpec.
Context `{NftKeeper}.
Implicit Types s : nft_state.

Definition nk_HasClass s c : bool := match nk_GetClass s c with Some _ => true | None => false end.
Definition nk_HasNFT s c i : bool := match nk_GetNFT s c i with Some _ => true | None => false end.

Definition same_classes s s' : Prop := forall c, nk_GetClass s' c = nk_GetClass s c.
Definition same_tokens s s' : Prop := forall c i, nk_GetNFT s' c i = nk_GetNFT s c i.
Definition same_owners s s' : Prop := forall c i, nk_GetOwner s' c i = nk_GetOwner s c i.
End NftSpec.

(** The documented behaviour of the x/nft keeper: classes, tokens and owners are
    maps, and each write fails exactly when its precondition does. *)
Class NftLaws `{NftKeeper} : Prop := {
  GetClass_Id s c cl : nk_GetClass s c = Some cl -> Class_Id cl = c;
  GetNFT_Id s c i n : nk_GetNFT s c i = Some n -> NFT_ClassId n = c /\ NFT_Id n = i;
  GetOwner_none s c i : nk_GetNFT s c i = None -> nk_GetOwner s c i = "";
  SaveClass_total s cl : nk_GetClass s (Class_Id cl) = None -> exists s', nk_SaveClass s cl = inr s';
  SaveClass_spec s cl s' : nk_SaveClass s cl = inr s' ->
    nk_GetClass s (Class_Id cl) = None /\
    (forall c, nk_GetClass s' c = if decide (c = Class_Id cl) then Some cl else nk_GetClass s c) /\
    same_tokens s s' /\ same_owners s s';
  UpdateClass_spec s cl s' : nk_UpdateClass s cl = inr s' ->
    nk_GetClass s (Class_Id cl) <> None /\
    (forall c, nk_GetClass s' c = if decide (c = Class_Id cl) then Some cl else nk_GetClass s c) /\
    same_tokens s s' /\ same_owners s s';
  Mint_total s n r : nk_GetClass s (NFT_ClassId n) <> None ->
    nk_GetNFT s (NFT_ClassId n) (NFT_Id n) = None -> exists s', nk_Mint s n r = inr s';
  Mint_spec s n r s' : nk_Mint s n r = inr s' ->
    nk_GetClass s (NFT_ClassId n) <> None /\
    nk_GetNFT s (NFT_ClassId n) (NFT_Id n) = None /\
    same_classes s s' /\
    (forall c i, nk_GetNFT s' c i =
       if decide ((c, i) = (NFT_ClassId n, NFT_Id n)) then Some n else nk_GetNFT s c i) /\
    (forall c i, nk_GetOwner s' c i =
       if decide ((c, i) = (NFT_ClassId n, NFT_Id n)) then r else nk_GetOwner s c i);
  Update_spec s n s' : nk_Update s n = inr s' ->
    nk_GetNFT s (NFT_ClassId n) (NFT_Id n) <> None /\
    same_classes s s' /\ same_owners s s' /\
    (forall c i, nk_GetNFT s' c i =
       if decide ((c, i) = (NFT_ClassId n, NFT_Id n)) then Some n else nk_GetNFT s c i);
  Transfer_spec s c i r s' : nk_Transfer s c i r = inr s' ->
    nk_GetNFT s c i <> None /\ same_classes s s' /\ same_tokens s s' /\
    (forall c' i', nk_GetOwner s' c' i' =
       if decide ((c', i') = (c, i)) then r else nk_GetOwner s c' i');
  Transfer_total s c i r : nk_GetClass s c <> None -> nk_GetNFT s c i <> None ->
    exists s', nk_Transfer s c i r = inr s';
  Burn_spec s c i s' : nk_Burn s c i = inr s' ->
    nk_GetNFT s c i <> None /\ same_classes s s' /\
    (forall c' i', nk_GetNFT s' c' i' = if decide ((c', i') = (c, i)) then None else nk_GetNFT s c' i') /\
    (forall c' i', nk_GetOwner s' c' i' = if decide ((c', i') = (c, i)) then "" else nk_GetOwner s c' i');
  Burn_total s c i : nk_GetClass s c <> None -> nk_GetNFT s c i <> None ->
    exists s', nk_Burn s c i = inr s';
  GetClasses_spec s cl : cl ∈ nk_GetClasses s <-> nk_GetClass s (Class_Id cl) = Some cl;
  GetClasses_nodup s : NoDup (Class_Id <$> nk_GetClasses s);
  GetNFTsOfClass_spec s c n : n ∈ nk_GetNFTsOfClass s c <-> nk_GetNFT s c (NFT_Id n) = Some n;
  GetNFTsOfClass_nodup s c : NoDup (NFT_Id <$> nk_GetNFTsOfClass s c);
}.

(** [uint64(n)] *)
Definition uint64_of (n : nat) : Z := (Z.of_nat n mod 2 ^ 64)%Z.

(** The supply counter of a class: Mint adds one, Burn takes one away, in 64 bits,
    and no other write touches it. *)
Class NftSupplyLaws `{NftKeeper} : Prop := {
  SaveClass_supply s cl s' : nk_SaveClass s cl = inr s' ->
    forall c, nk_GetTotalSupply s' c = nk_GetTotalSupply s c;
  UpdateClass_supply s cl s' : nk_UpdateClass s cl = inr s' ->
    forall c, nk_GetTotalSupply s' c = nk_GetTotalSupply s c;
  Mint_supply s n r s' : nk_Mint s n r = inr s' -> forall c, nk_GetTotalSupply s' c =
    if decide (c = NFT_ClassId n) then ((nk_GetTotalSupply s c + 1) mod 2 ^ 64)%Z else nk_GetTotalSupply s c;
  Update_supply s n s' : nk_Update s n = inr s' ->
    forall c, nk_GetTotalSupply s' c = nk_GetTotalSupply s c;
  Transfer_supply s d i r s' : nk_Transfer s d i r = inr s' ->
    forall c, nk_GetTotalSupply s' c = nk_GetTotalSupply s c;
  Burn_supply s d i s' : nk_Burn s d i = inr s' -> forall c, nk_GetTotalSupply s' c =
    if decide (c = d) then ((nk_GetTotalSupply s c - 1) mod 2 ^ 64)%Z else nk_GetTotalSupply s c;
}.

(** * The EVM keeper (github.com/cosmos/evm) and the contract ABI *)
Inductive abival `{EthLib} :=
| AStr (s : string) | ABool (b : bool) | AUint (n : Z) | AAddr (a : address).

(** core.Message, with the fields [CallEVMWithData] sets *)
Record EvmMessage `{EthLib} := {
  m_From : address; m_To : option address; m_Nonce : Z; m_Value : Z;
  m_GasLimit : Z; m_GasPrice : Z; m_Data : string; m_SkipNonceChecks : bool;
}.

(** evmtypes.MsgEthereumTxResponse *)
Record EvmResponse := { r_Ret : string; r_GasUsed : Z; r_VmError : string }.

Class EvmKeeper `{EthLib} `{SdkLib} := {
  evm_state : Type;                              (** x/vm, x/auth, balances of x/bank *)
  evm_account : Type;                            (** statedb.Account *)
  GetSequence : evm_state -> string -> error + Z;
  GetAccountWithoutBalance : evm_state -> address -> option evm_account;
  HasCodeHash : evm_account -> bool;
  (** ApplyMessage on a StateDB over the same context: its store accesses spend gas of
      the context's meter; [None]: the meter runs out on the way, which is a panic *)
  ApplyMessage : evm_state -> gas_meter -> EvmMessage -> bool ->
    option ((error + option EvmResponse) * (evm_state * gas_meter));
  DefaultGasCap : Z;
  (** contracts.ERC721UpticksContract: its bytecode and ABI *)
  erc721_Bin : string;
  abi_Pack : string -> list abival -> option string;
  abi_Unpack : string -> string -> option (list abival);
}.

(** ApplyMessage writes only when asked to commit and when it returns no error; the
    gas it reports is within the limit of the message, next to what its store accesses
    take from the meter, which an infinite meter always has. *)
Class EvmLaws `{EvmKeeper} : Prop := {
  ApplyMessage_query s g m r s' g' : ApplyMessage s g m false = Some (r, (s', g')) -> s' = s;
  ApplyMessage_error s g m b e s' g' : ApplyMessage s g m b = Some (inl e, (s', g')) -> s' = s;
  ApplyMessage_gas s g m b r s' g' : ApplyMessage s g m b = Some (inr (Some r), (s', g')) ->
    (0 <= m_GasLimit m)%Z -> (0 <= r_GasUsed r <= m_GasLimit m)%Z;
  ApplyMessage_meter s g m b r s' g' : ApplyMessage s g m b = Some (r, (s', g')) ->
    (GasRemaining g' <= GasRemaining g)%Z;
  ApplyMessage_infinite s g m b : IsInfinite g -> exists r s' g',
    ApplyMessage s g m b = Some (r, (s', g')) /\ IsInfinite g';
  DefaultGasCap_nonneg : (0 <= DefaultGasCap)%Z;
}.

(** * The x/erc721 KVStore

    The module keeps everything in one KVStore.  The six index prefixes of
    x/erc721/types/keys.go are distinct single bytes and the parameter key
    starts with the byte ['e'], so the store is the disjoint union of these
    sub-stores, one per prefix.  An absent key and an empty value are both
    zero-length for [store.Get]. *)
Record ErcStore := MkErcStore {
  prefixTokenPair : gmap string string;
  prefixTokenPairByERC721 : gmap string string;
  prefixTokenPairByClass : gmap string string;
  prefixNFTUIDPairByNFTUID : gmap string string;
  prefixNFTUIDPairByTokenUID : gmap string string;
  prefixEvmAddressByContractTokenId : gmap string string;
  KeyPrefixParams : option string;
}.

Definition empty_erc : ErcStore := MkErcStore ∅ ∅ ∅ ∅ ∅ ∅ None.

(** * The x/cw721 KVStore

    The seven prefixes of x/cw721/types/keys.go are the bytes 100 to 106 and the
    parameter key is "cw721/params/", whose first byte is 99: again a disjoint union. *)
Record CwStore := MkCwStore {
  cw_TokenPair : gmap string string;
  cw_TokenPairByCW721 : gmap string string;
  cw_TokenPairByClass : gmap string string;
  cw_NFTUIDPairByNFTUID : gmap string string;
  cw_NFTUIDPairByTokenUID : gmap string string;
  cw_WasmCode : gmap string string;
  cw_AddressByContractTokenId : gmap string string;
  cw_Params : option string;
}.

Definition empty_cw : CwStore := MkCwStore ∅ ∅ ∅ ∅ ∅ ∅ ∅ None.

(** The store of x/wasm (github.com/CosmWasm/wasmd): code, contracts and their state. *)
Class WasmState := { wasm_state : Type }.

(** [store.Get(key)] *)
Definition kv_get (m : gmap string string) (k : string) : string :=
  match m !! k with Some v => v | None => "" end.

(** [store.Has(key)] *)
Definition kv_has (m : gmap string string) (k : string) : bool :=
  match m !! k with Some _ => true | None => false end.

(** Ascending iteration over a prefix store. *)
Definition kv_iter (m : gmap string string) : list (string * string) := sorted_entries m.

Lemma elem_of_kv_iter m k v : (k, v) ∈ kv_iter m <-> m !! k = Some v.
Proof. apply elem_of_sorted_entries. Qed.
Lemma kv_iter_keys m : (kv_iter m).*1 = SortStrings (map_to_list m).*1.
Proof. apply sorted_entries_keys. Qed.
Lemma kv_iter_nodup m : NoDup (kv_iter m).*1.
Proof. apply sorted_entries_nodup. Qed.

(** * sdk.Context *)
Section CtxDef.
Context `{EthLib} `{SdkLib} `{NftKeeper} `{!EvmKeeper} `{!WasmState}.

Record Ctx := MkCtx {
  c_erc : ErcStore;
  c_nft : nft_state;
  c_evm : evm_state;
  c_gas : gas_meter;
  c_events : list Event;
  c_cw : CwStore;
  c_wasm : wasm_state;
}.

Definition set_erc (c : Ctx) (x : ErcStore) : Ctx :=
  MkCtx x (c_nft c) (c_evm c) (c_gas c) (c_events c) (c_cw c) (c_wasm c).
Definition set_nft (c : Ctx) (x : nft_state) : Ctx :=
  MkCtx (c_erc c) x (c_evm c) (c_gas c) (c_events c) (c_cw c) (c_wasm c).
Definition set_evm (c : Ctx) (x : evm_state) : Ctx :=
  MkCtx (c_erc c) (c_nft c) x (c_gas c) (c_events c) (c_cw c) (c_wasm c).
Definition set_gas (c : Ctx) (x : gas_meter) : Ctx :=
  MkCtx (c_erc c) (c_nft c) (c_evm c) x (c_events c) (c_cw c) (c_wasm c).
Definition set_events (c : Ctx) (x : list Event) : Ctx :=
  MkCtx (c_erc c) (c_nft c) (c_evm c) (c_gas c) x (c_cw c) (c_wasm c).
Definition set_cw (c : Ctx) (x : CwStore) : Ctx :=
  MkCtx (c_erc c) (c_nft c) (c_evm c) (c_gas c) (c_events c) x (c_wasm c).
Definition set_wasm (c : Ctx) (x : wasm_state) : Ctx :=
  MkCtx (c_erc c) (c_nft c) (c_evm c) (c_gas c) (c_events c) (c_cw c) x.

Definition upd_erc (f : ErcStore -> ErcStore) (c : Ctx) : Ctx := set_erc c (f (c_erc c)).
Definition upd_cw (f : CwStore -> CwStore) (c : Ctx) : Ctx := set_cw c (f (c_cw c)).

Definition GoM (A : Type) : Type := M Ctx error A.

(** [ctx.EventManager().EmitEvents] *)
Definition EmitEvents (l : list Event) : GoM unit :=
  modify (fun c => set_events c (c_events c ++ l)).
Definition EmitEvent (e : Event) : GoM unit := EmitEvents [e].

(** The context's gas meter is an infinite one, as in queries and upgrades. *)
Definition unmetered (c : Ctx) : Prop := IsInfinite (c_gas c).

(** A write of the x/nft keeper: on an error the store is unchanged. *)
Definition nft_write (f : nft_state -> error + nft_state) : GoM unit :=
  fun c => match f (c_nft c) with
           | inr s => Ok tt (set_nft c s)
           | inl e => Err e c
           end.

(** [cctx, commit := ctx.CacheContext(); ... commit()]: the writes of [m] reach
    the parent only when [m] returns true; gas is charged either way, because
    both contexts share the gas meter. *)
Definition cached (m : GoM bool) : GoM bool :=
  fun c => match m c with
           | Ok true c' => Ok true c'
           | Ok false c' => Ok false (set_gas c (c_gas c'))
           | Err e c' => Err e (set_gas c (c_gas c'))
           | Panic => Panic
           end.

(** [cctx, commit := ctx.CacheContext(); if err := m(cctx); err != nil { return err };
    commit()] *)
Definition cached_or_error (m : GoM unit) : GoM unit :=
  fun c => match m c with
           | Ok u c' => Ok u c'
           | Err e c' => Err e (set_gas c (c_gas c'))
           | Panic => Panic
           end.

Lemma nft_write_ok f c u c' :
  nft_write f c = Ok u c' -> exists s, f (c_nft c) = inr s /\ c' = set_nft c s.
Proof. unfold nft_write. destruct (f (c_nft c)); naive_solver. Qed.

Lemma nft_write_err f c e c' :
  nft_write f c = Err e c' -> f (c_nft c) = inl e /\ c' = c.
Proof. unfold nft_write. destruct (f (c_nft c)); naive_solver. Qed.
End CtxDef.

(** github.com/bianjieai/nft-transfer: the message it takes, the packet data it
    hands back, and its Transfer handler *)
Record IbcMsgTransfer := MkIbcMsgTransfer {
  it_SourcePort : string; it_SourceChannel : string; it_ClassId : string; it_TokenIds : list string;
  it_Sender : string; it_Receiver : string; it_Timeout : Timeout; it_Memo : string }.
Record NonFungibleTokenPacketData := MkPacketData {
  pd_ClassId : string; pd_TokenIds : list string; pd_Sender : string; pd_Receiver : string;
  pd_Memo : string }.

Class IbcKeeper `{EthLib} `{SdkLib} `{NftKeeper} `{!EvmKeeper} `{!WasmState} := {
  ibc_Transfer : IbcMsgTransfer -> GoM unit;
}.
