(* ===== verification/Utf8.v ===== *)
(** Go's [unicode/utf8] on byte strings: rune widths, [ValidString],
    [RuneStart] and [strings.ToValidUTF8(s, "")], with the lemmas that make a
    cut at a rune start safe. *)
From S2P Require Import Prelude GoStrings.
Local Open Scope Z_scope.

Module Utf8.

Definition cont (x : Z) : bool := (128 <=? x) && (x <=? 191).

(** The bytes accepted after a first byte [x] of a 3- or 4-byte rune. *)
Definition second_ok (x y : Z) : bool :=
  if x =? 224 then (160 <=? y) && (y <=? 191)
  else if x =? 237 then (128 <=? y) && (y <=? 159)
  else if x =? 240 then (144 <=? y) && (y <=? 191)
  else if x =? 244 then (128 <=? y) && (y <=? 143)
  else cont y.

Definition byte_at (n : nat) (s : string) : Z :=
  match String.get n s with Some a => byte_of a | None => -1 end.

(** Number of bytes of the rune [s] starts with; 0 when it starts with an
    invalid encoding ([DecodeRuneInString] then reports RuneError, width 1). *)
Definition rune_width (s : string) : nat :=
  let x := byte_at 0 s in let y := byte_at 1 s in
  let z := byte_at 2 s in let w := byte_at 3 s in
  if (0 <=? x) && (x <? 128) then 1%nat
  else if (194 <=? x) && (x <=? 223) then (if cont y then 2%nat else 0%nat)
  else if (224 <=? x) && (x <=? 239) then (if second_ok x y && cont z then 3%nat else 0%nat)
  else if (240 <=? x) && (x <=? 244) then
    (if second_ok x y && cont z && cont w then 4%nat else 0%nat)
  else 0%nat.

Fixpoint valid_fuel (fuel : nat) (s : string) : bool :=
  match s, fuel with
  | "", _ => true
  | _, O => false
  | _, S f => match rune_width s with
              | O => false
              | S _ as n => valid_fuel f (str_drop n s)
              end
  end.

(** [utf8.ValidString(s)]; every rune has at least one byte. *)
Definition ValidString (s : string) : bool := valid_fuel (len s) s.

(** [utf8.RuneStart(b)] *)
Definition RuneStart (a : ascii) : bool := negb (Z.land (byte_of a) 192 =? 128).

Fixpoint tovalid_fuel (fuel : nat) (s : string) : string :=
  match s, fuel with
  | "", _ => ""
  | _, O => ""
  | _, S f => match rune_width s with
              | O => tovalid_fuel f (str_drop 1 s)
              | S _ as n => str_take n s +:+ tovalid_fuel f (str_drop n s)
              end
  end.

(** [strings.ToValidUTF8(s, "")]: invalid bytes are dropped. *)
Definition ToValidUTF8 (s : string) : string := tovalid_fuel (len s) s.

(** The width of the white-space rune (unicode.IsSpace) at the head of [s], zero
    when it starts with anything else. *)
Definition space_width (s : string) : nat :=
  let b0 := byte_at 0 s in let b1 := byte_at 1 s in let b2 := byte_at 2 s in
  if (len s =? 0)%nat then 0%nat
  else if ((9 <=? b0) && (b0 <=? 13)) || (b0 =? 32) then 1%nat
  else if (b0 =? 194) && ((b1 =? 133) || (b1 =? 160)) then 2%nat
  else if (b0 =? 225) && (b1 =? 154) && (b2 =? 128) then 3%nat
  else if (b0 =? 226) && (b1 =? 128) &&
          (((128 <=? b2) && (b2 <=? 138)) || (b2 =? 168) || (b2 =? 169) || (b2 =? 175)) then 3%nat
  else if (b0 =? 226) && (b1 =? 129) && (b2 =? 159) then 3%nat
  else if (b0 =? 227) && (b1 =? 128) && (b2 =? 128) then 3%nat
  else 0%nat.

Fixpoint blank_fuel (fuel : nat) (s : string) : bool :=
  match s with
  | "" => true
  | _ => match fuel with
         | O => false
         | S f => match space_width s with O => false | S w => blank_fuel f (str_drop (S w) s) end
         end
  end.

(** [strings.TrimSpace(s) == ""] *)
Definition IsBlank (s : string) : bool := blank_fuel (len s) s.

(** [strings.TrimSpace(s)]: the leading white-space runes, then the longest suffix
    of white-space runes, are dropped. *)
Fixpoint trim_left (fuel : nat) (s : string) : string :=
  match fuel with
  | O => s
  | S f => match space_width s with O => s | S w => trim_left f (str_drop (S w) s) end
  end.

Fixpoint trim_right (s : string) : string :=
  if IsBlank s then "" else match s with "" => "" | String a r => String a (trim_right r) end.

Definition TrimSpace (s : string) : string := trim_right (trim_left (len s) s).

End Utf8.
Export Utf8.

Lemma byte_at_app n a b : (n < len a)%nat -> byte_at n (a +:+ b) = byte_at n a.
Proof.
  unfold byte_at. revert n. induction a as [|x a IH]; intros n Hn; [simpl in Hn; lia|].
  rewrite str_app_cons. destruct n as [|n]; [done|]. simpl in *. apply IH. lia.
Qed.

Lemma byte_at_out n s : (len s <= n)%nat -> byte_at n s = -1.
Proof.
  unfold byte_at. revert n. induction s as [|x s IH]; intros n Hn; [by destruct n|].
  destruct n as [|n]; simpl in *; [lia|]. apply IH. lia.
Qed.

Lemma cont_neg : cont (-1) = false.
Proof. done. Qed.

Lemma second_ok_cont x y : second_ok x y = true -> cont y = true.
Proof.
  unfold second_ok, cont. repeat case_match; rewrite ?andb_true_iff, ?Z.leb_le; lia.
Qed.

Ltac bool_hyps :=
  repeat match goal with
  | H : (_ && _)%bool = true |- _ => apply andb_true_iff in H; destruct H
  end.

(** The bytes of a rune after the first are continuation bytes of the string. *)
Lemma rune_width_cont s j :
  (0 < j < rune_width s)%nat -> cont (byte_at j s) = true.
Proof.
  unfold rune_width. intros Hj.
  repeat case_match; bool_hyps; try lia.
  - assert (j = 1)%nat as -> by lia. done.
  - destruct (decide (j = 1)%nat) as [->|]; [by eapply second_ok_cont|].
    assert (j = 2)%nat as -> by lia. done.
  - destruct (decide (j = 1)%nat) as [->|]; [by eapply second_ok_cont|].
    destruct (decide (j = 2)%nat) as [->|]; [done|].
    assert (j = 3)%nat as -> by lia. done.
Qed.

Lemma rune_width_le s : (rune_width s <= len s)%nat.
Proof.
  destruct (decide (rune_width s <= 1)%nat) as [H1|H1].
  - destruct s as [|a s]; [done|]. simpl. lia.
  - destruct (decide (rune_width s <= len s)%nat) as [?|H2]; [done|].
    assert (cont (byte_at (rune_width s - 1) s) = true) as Hc
      by (apply rune_width_cont; lia).
    rewrite byte_at_out in Hc by lia. done.
Qed.

(** The width is decided by the rune's own bytes. *)
Lemma rune_width_app a b :
  (0 < rune_width (a +:+ b) <= len a)%nat -> rune_width a = rune_width (a +:+ b).
Proof.
  intros H. unfold rune_width in *.
  assert (forall n, (n < len a)%nat -> byte_at n (a +:+ b) = byte_at n a) as Hb
    by (intros; by apply byte_at_app).
  destruct (len a) as [|[|[|[|n]]]] eqn:El; [lia|..];
    rewrite ?(Hb 0%nat), ?(Hb 1%nat), ?(Hb 2%nat), ?(Hb 3%nat) in * by lia;
    repeat case_match; try lia; done.
Qed.

Lemma rune_width_ext a b :
  (0 < rune_width a)%nat -> rune_width (a +:+ b) = rune_width a.
Proof.
  intros H. pose proof (rune_width_le a) as Hl. unfold rune_width in *.
  assert (forall n, (n < len a)%nat -> byte_at n (a +:+ b) = byte_at n a) as Hb
    by (intros; by apply byte_at_app).
  destruct (len a) as [|[|[|[|n]]]] eqn:El;
    [repeat case_match; lia|..];
    rewrite ?(Hb 0%nat), ?(Hb 1%nat), ?(Hb 2%nat), ?(Hb 3%nat) by lia;
    repeat case_match; try lia; done.
Qed.

Lemma valid_fuel_enough f s : (len s <= f)%nat -> valid_fuel f s = ValidString s.
Proof.
  unfold ValidString.
  assert (forall n f g s, (len s <= n)%nat -> (len s <= f)%nat -> (len s <= g)%nat ->
            valid_fuel f s = valid_fuel g s) as Hgen; [|intros; eapply Hgen; eauto].
  induction n as [|n IH]; intros f' g s' Hn Hf Hg.
  { destruct s'; simpl in Hn; [|lia]. by destruct f', g. }
  destruct s' as [|a s']; [by destruct f', g|].
  destruct f' as [|f']; [simpl in Hf; lia|]. destruct g as [|g]; [simpl in Hg; lia|].
  cbn [valid_fuel]. destruct (rune_width (String a s')) as [|m] eqn:E; [done|].
  apply IH; rewrite len_drop; simpl in *; lia.
Qed.

Lemma ValidString_step s :
  s <> "" ->
  ValidString s = match rune_width s with O => false | S _ as n => ValidString (str_drop n s) end.
Proof.
  destruct s as [|a s]; [done|]. intros _. unfold ValidString at 1. cbn [valid_fuel len].
  destruct (rune_width (String a s)) eqn:E; [done|].
  apply valid_fuel_enough. rewrite len_drop. simpl. lia.
Qed.

Lemma ValidString_rune r s :
  rune_width r = len r -> r <> "" -> ValidString (r +:+ s) = ValidString s.
Proof.
  intros Hr Hne. assert (0 < len r)%nat by (destruct r; [done|simpl; lia]).
  rewrite ValidString_step; [|destruct r; by try rewrite str_app_cons].
  rewrite rune_width_ext by lia. rewrite Hr.
  destruct (len r) eqn:E; [lia|]. rewrite <- E. by rewrite str_drop_app.
Qed.

Lemma rune_width_take s :
  (0 < rune_width s)%nat ->
  rune_width (str_take (rune_width s) s) = len (str_take (rune_width s) s).
Proof.
  intros H. pose proof (rune_width_le s) as Hl.
  assert (len (str_take (rune_width s) s) = rune_width s) as El.
  { rewrite len_take. lia. }
  rewrite El.
  transitivity (rune_width (str_take (rune_width s) s +:+ str_drop (rune_width s) s)).
  - apply rune_width_app. rewrite str_take_drop, El. lia.
  - by rewrite str_take_drop.
Qed.

Lemma tovalid_fuel_valid f s : (len s <= f)%nat -> ValidString (tovalid_fuel f s) = true.
Proof.
  revert s. induction f as [|f IH]; intros s Hf.
  { destruct s; [done|simpl in Hf; lia]. }
  destruct s as [|a s]; [done|]. cbn [tovalid_fuel].
  pose proof (rune_width_take (String a s)) as Ht.
  destruct (rune_width (String a s)) as [|n] eqn:E.
  - apply IH. rewrite len_drop. simpl in *. lia.
  - rewrite ValidString_rune; [|apply Ht; lia|done].
    apply IH. rewrite len_drop. simpl in *. lia.
Qed.

Lemma ToValidUTF8_valid s : ValidString (ToValidUTF8 s) = true.
Proof. by apply tovalid_fuel_valid. Qed.

Lemma len_tovalid_fuel f s : (len (tovalid_fuel f s) <= len s)%nat.
Proof.
  revert s. induction f as [|f IH]; intros s; [destruct s; simpl; lia|].
  destruct s as [|a s]; [simpl; lia|]. cbn [tovalid_fuel].
  destruct (rune_width (String a s)) as [|n] eqn:E.
  - etransitivity; [apply IH|]. rewrite len_drop. lia.
  - rewrite len_app, len_take. pose proof (IH (str_drop (S n) (String a s))) as IH'.
    rewrite len_drop in IH'. pose proof (rune_width_le (String a s)). lia.
Qed.

(** A prefix of a valid string that ends at a rune start is valid. *)
Lemma ValidString_take s k :
  ValidString s = true ->
  (forall a, String.get k s = Some a -> RuneStart a = true) ->
  ValidString (str_take k s) = true.
Proof.
  intros Hv Hk. remember (len s) as n eqn:En. assert (len s <= n)%nat as Hn by lia. clear En.
  revert s k Hn Hv Hk. induction n as [|n IH]; intros s k Hn Hv Hk.
  { destruct s; [by destruct k|simpl in Hn; lia]. }
  destruct k as [|k]; [by destruct s|].
  destruct s as [|a s]; [done|].
  rewrite ValidString_step in Hv by done.
  pose proof (rune_width_cont (String a s)) as Hc.
  pose proof (rune_width_le (String a s)) as Hle.
  pose proof (rune_width_take (String a s)) as Ht.
  destruct (rune_width (String a s)) as [|m] eqn:E; [done|].
  destruct (decide (S k < S m)%nat) as [Hlt|Hge].
  - specialize (Hc (S k) ltac:(lia)). unfold byte_at in Hc.
    destruct (String.get (S k) (String a s)) as [b|] eqn:Eb; [|done].
    specialize (Hk b eq_refl). exfalso. revert Hc Hk. unfold cont, RuneStart, byte_of.
    by destruct b as [[] [] [] [] [] [] [] []].
  - assert (str_take (S k) (String a s) =
            str_take (S m) (String a s) +:+ str_take (k - m) (str_drop (S m) (String a s))) as ->.
    { rewrite <- (str_take_drop (S m) (String a s)) at 1.
      assert (len (str_take (S m) (String a s)) = S m) as El by (rewrite len_take; lia).
      revert El. generalize (str_take (S m) (String a s)) (str_drop (S m) (String a s)).
      intros u v El. replace (S k) with (len u + (k - m))%nat by lia.
      clear. induction u as [|x u IHu]; [done|].
      rewrite !str_app_cons. simpl. by rewrite IHu. }
    rewrite ValidString_rune; [|apply Ht; lia|done].
    apply IH; [rewrite len_drop; simpl in *; lia|done|].
    intros b Hb. apply Hk.
    assert (forall i t, String.get i (str_drop (S m) t) = String.get (S m + i) t) as Hget.
    { clear. intros i t. revert t i. generalize (S m). induction n as [|n IHn]; intros t i; [done|].
      destruct t as [|x t]; [by destruct i|]. simpl. apply IHn. }
    rewrite Hget in Hb. replace (S k) with (S m + (k - m))%nat by lia. done.
Qed.
