(* ===== verification/GoJson.v ===== *)
(** What the modules use of Go's [encoding/json], [encoding/base64] and [strconv]: the
    encoding of strings and of objects with string fields, values decoded from a text into
    [map[string]interface{}] and encoded again, base64, and unsigned integers. *)
From S2P Require Import Prelude GoStrings Utf8.
Local Open Scope list_scope.

Module GoJson.

(** ** encoding/json *)

Definition dquote : string := String "034" "".
Definition backslash : string := String "092" "".

Definition hex2 (n : Z) : string :=
  String (digit_char (n / 16)) (String (digit_char (n mod 16)) "").

(** [fmt.Sprintf] with the verb %x, and [hex.EncodeToString] *)
Fixpoint hex_bytes (s : string) : string :=
  match s with "" => "" | String a s => hex2 (byte_of a) +:+ hex_bytes s end.

(** One byte below 0x80, as [appendString] writes it with HTML escaping on. *)
Definition json_ascii (a : ascii) : string :=
  let n := byte_of a in
  if (n =? 34)%Z || (n =? 92)%Z then backslash +:+ String a ""
  else if (n =? 8)%Z then backslash +:+ "b"
  else if (n =? 12)%Z then backslash +:+ "f"
  else if (n =? 10)%Z then backslash +:+ "n"
  else if (n =? 13)%Z then backslash +:+ "r"
  else if (n =? 9)%Z then backslash +:+ "t"
  else if (n <? 32)%Z || (n =? 60)%Z || (n =? 62)%Z || (n =? 38)%Z then backslash +:+ "u00" +:+ hex2 n
  else String a "".

(** U+2028 and U+2029 are escaped, other runes are copied, a byte that starts no
    rune becomes U+FFFD. *)
Fixpoint json_escape (fuel : nat) (s : string) : string :=
  match s, fuel with
  | "", _ => ""
  | _, O => ""
  | String a r, S f =>
      match rune_width s with
      | O => backslash +:+ "ufffd" +:+ json_escape f r
      | 1%nat => json_ascii a +:+ json_escape f r
      | n =>
          (if (byte_at 0 s =? 226)%Z && (byte_at 1 s =? 128)%Z &&
              ((byte_at 2 s =? 168)%Z || (byte_at 2 s =? 169)%Z)
           then backslash +:+ "u202" +:+ (if (byte_at 2 s =? 168)%Z then "8" else "9")
           else str_take n s) +:+ json_escape f (str_drop n s)
      end
  end.

(** [json.Marshal] of a string, and of an object given by its encoded fields *)
Definition json_string (s : string) : string := dquote +:+ json_escape (len s) s +:+ dquote.

Definition json_object (fields : list (string * string)) : string :=
  "{" +:+ Join ((fun '(k, v) => json_string k +:+ ":" +:+ v) <$> fields) "," +:+ "}".

(** ** encoding/base64: StdEncoding *)

Definition b64_alphabet : string := "ABCDEFGHIJKLMNOPQRSTUVWXYZabcdefghijklmnopqrstuvwxyz0123456789+/".
Definition b64_char (n : Z) : ascii := match String.get (Z.to_nat n) b64_alphabet with Some a => a | None => "=" end.
Fixpoint index_in (a : ascii) (s : string) : option Z :=
  match s with
  | "" => None
  | String b r => if Ascii.eqb b a then Some 0%Z else (fun n => n + 1)%Z <$> index_in a r
  end.
Definition b64_val (a : ascii) : option Z := index_in a b64_alphabet.
Definition chr (n : Z) : ascii := ascii_of_N (Z.to_N n).

(** EncodeToString: three bytes to four digits, the last group padded *)
Fixpoint b64_Encode (s : string) : string :=
  match s with
  | "" => ""
  | String a "" =>
      let n := (byte_of a * 65536)%Z in
      String (b64_char (n / 262144)) (String (b64_char (n / 4096 mod 64)) "==")
  | String a (String b "") =>
      let n := (byte_of a * 65536 + byte_of b * 256)%Z in
      String (b64_char (n / 262144)) (String (b64_char (n / 4096 mod 64)) (String (b64_char (n / 64 mod 64)) "="))
  | String a (String b (String c r)) =>
      let n := (byte_of a * 65536 + byte_of b * 256 + byte_of c)%Z in
      String (b64_char (n / 262144)) (String (b64_char (n / 4096 mod 64))
        (String (b64_char (n / 64 mod 64)) (String (b64_char (n mod 64)) (b64_Encode r))))
  end.

(** DecodeString: line ends are ignored; the bits of the last group that make no byte are
    not looked at. *)
Fixpoint drop_newlines (s : string) : string :=
  match s with
  | "" => ""
  | String a r => if Ascii.eqb a "010" || Ascii.eqb a "013" then drop_newlines r else String a (drop_newlines r)
  end.
Fixpoint b64_groups (s : string) : option string :=
  match s with
  | "" => Some ""
  | String a (String b (String c (String d r))) =>
      match b64_val a, b64_val b with
      | Some x, Some y =>
          let b0 := chr (x * 4 + y / 16) in
          match b64_val c, b64_val d with
          | Some z, Some w =>
              match b64_groups r with
              | Some t => Some (String b0 (String (chr (y mod 16 * 16 + z / 4)) (String (chr (z mod 4 * 64 + w)) t)))
              | None => None
              end
          | Some z, None =>
              if Ascii.eqb d "=" && (r =?s "") then Some (String b0 (String (chr (y mod 16 * 16 + z / 4)) "")) else None
          | None, None =>
              if Ascii.eqb c "=" && Ascii.eqb d "=" && (r =?s "") then Some (String b0 "") else None
          | None, Some _ => None
          end
      | _, _ => None
      end
  | _ => None
  end.
Definition b64_Decode (s : string) : option string := b64_groups (drop_newlines s).

(** ** encoding/json: reading *)

(** utf8.EncodeRune *)
Definition RuneError : Z := 65533.
Definition EncodeRune (r : Z) : string :=
  if (0 <=? r)%Z && (r <? 128)%Z then String (chr r) ""
  else if (0 <=? r)%Z && (r <? 2048)%Z then String (chr (192 + r / 64)) (String (chr (128 + r mod 64)) "")
  else
    let r := if (r <? 0)%Z || (1114111 <? r)%Z || ((55296 <=? r)%Z && (r <=? 57343)%Z) then RuneError else r in
    if (r <? 65536)%Z
    then String (chr (224 + r / 4096)) (String (chr (128 + r / 64 mod 64)) (String (chr (128 + r mod 64)) ""))
    else String (chr (240 + r / 262144)) (String (chr (128 + r / 4096 mod 64))
           (String (chr (128 + r / 64 mod 64)) (String (chr (128 + r mod 64)) ""))).

(** Four hexadecimal digits *)
Definition hex_digit (a : ascii) : option Z :=
  match digit_val a with Some d => if (d <? 16)%Z then Some d else None | None => None end.
Definition u4 (s : string) : option (Z * string) :=
  match s with
  | String a (String b (String c (String d r))) =>
      match hex_digit a, hex_digit b, hex_digit c, hex_digit d with
      | Some x, Some y, Some z, Some w => Some ((((x * 16 + y) * 16 + z) * 16 + w)%Z, r)
      | _, _, _, _ => None
      end
  | _ => None
  end.
Definition is_surrogate (r : Z) : bool := (55296 <=? r)%Z && (r <=? 57343)%Z.
(** The rune of an escape \uXXXX: a surrogate is a rune together with the escape after it,
    or U+FFFD. *)
Definition u_escape (s : string) : option (string * string) :=
  match u4 s with
  | None => None
  | Some (rr, r) =>
      if is_surrogate rr then
        match r with
        | String "092" (String "u" r1) =>
            match u4 r1 with
            | Some (rr1, r2) =>
                if (rr <=? 56319)%Z && (56320 <=? rr1)%Z && (rr1 <=? 57343)%Z
                then Some (EncodeRune ((rr - 55296) * 1024 + (rr1 - 56320) + 65536), r2)
                else Some (EncodeRune RuneError, r)
            | None => Some (EncodeRune RuneError, r)
            end
        | _ => Some (EncodeRune RuneError, r)
        end
      else Some (EncodeRune rr, r)
  end.
Definition simple_escape (e : ascii) : option string :=
  match e with
  | "034" | "\" | "/" => Some (String e "")
  | "b" => Some (String "008" "") | "f" => Some (String "012" "") | "n" => Some (String "010" "")
  | "r" => Some (String "013" "") | "t" => Some (String "009" "")
  | _ => None
  end%char.

(** A string from after its opening quote: its value and what follows it.  A byte of no rune
    is read as U+FFFD. *)
Fixpoint read_chars (fuel : nat) (s : string) : option (string * string) :=
  match fuel, s with
  | O, _ | _, "" => None
  | S f, String a r =>
      let next (x : string) (rest : string) :=
        match read_chars f rest with Some (t, rest') => Some (x +:+ t, rest') | None => None end in
      if Ascii.eqb a "034" then Some ("", r)
      else if Ascii.eqb a "092" then
        match r with
        | String "u" r1 => match u_escape r1 with Some (x, r2) => next x r2 | None => None end
        | String e r1 => match simple_escape e with Some x => next x r1 | None => None end
        | "" => None
        end
      else if (byte_of a <? 32)%Z then None
      else match rune_width s with
           | O => next (EncodeRune RuneError) r
           | n => next (str_take n s) (str_drop n s)
           end
  end.

(** A number literal: sign, integer, fraction, exponent *)
Fixpoint read_digits (s : string) : string * string :=
  match s with
  | String a r => if is_digit a then let '(ds, r') := read_digits r in (String a ds, r') else ("", s)
  | "" => ("", "")
  end.
Definition read_exponent (lit s : string) : option (string * string) :=
  match s with
  | String e r =>
      if Ascii.eqb e "e" || Ascii.eqb e "E" then
        let '(sign, r1) := match r with String "+" r1 => ("+", r1) | String "-" r1 => ("-", r1) | _ => ("", r) end in
        let '(ds, r2) := read_digits r1 in
        if ds =?s "" then None else Some (lit +:+ String e sign +:+ ds, r2)
      else Some (lit, s)
  | "" => Some (lit, "")
  end.
Definition read_fraction (lit s : string) : option (string * string) :=
  match s with
  | String a r =>
      if Ascii.eqb a "." then
        let '(ds, r1) := read_digits r in if ds =?s "" then None else read_exponent (lit +:+ "." +:+ ds) r1
      else read_exponent lit s
  | "" => read_exponent lit ""
  end.
Definition read_number (s : string) : option (string * string) :=
  let '(sign, s1) := match s with String "-" r => ("-", r) | _ => ("", s) end in
  match s1 with
  | String a r =>
      if Ascii.eqb a "0" then read_fraction (sign +:+ "0") r
      else if is_digit a then let '(ds, r1) := read_digits s1 in read_fraction (sign +:+ ds) r1
      else None
  | "" => None
  end.

(** strconv.ParseFloat(s, 64), [None] when the literal is out of range, and the encoding of
    a float64 by json.Marshal *)
Class FloatLib := { float64 : Type; ParseFloat : string -> option float64; FormatFloat : float64 -> string }.

Section Values.
Context `{FloatLib}.

(** interface{} as json.Unmarshal fills it; a map[string]interface{} is the list of its
    entries by key. *)
Inductive Value :=
| JNull | JBool (b : bool) | JNum (f : float64) | JStr (s : string)
| JArr (l : list Value) | JObj (l : list (string * Value)).

Fixpoint obj_insert (k : string) (v : Value) (l : list (string * Value)) : list (string * Value) :=
  match l with
  | [] => [(k, v)]
  | (k', v') :: l' =>
      match String.compare k k' with
      | Lt => (k, v) :: l
      | Eq => (k, v) :: l'
      | Gt => (k', v') :: obj_insert k v l'
      end
  end.

Definition json_ws (a : ascii) : bool :=
  Ascii.eqb a " " || Ascii.eqb a "009" || Ascii.eqb a "010" || Ascii.eqb a "013".
Fixpoint skip_ws (s : string) : string :=
  match s with String a r => if json_ws a then skip_ws r else s | "" => "" end.

Definition maxNestingDepth : Z := 10000.

(** One value at nesting depth [depth]: the value, whether every number of it was in range
    (one that is not is read as nil), and what follows.  Two rounds read at least one byte. *)
Fixpoint read_value (fuel : nat) (depth : Z) (s : string) {struct fuel} : option (Value * bool * string) :=
  match fuel with
  | O => None
  | S f =>
      match skip_ws s with
      | "" => None
      | String a r as t =>
          if Ascii.eqb a "{" then
            if (maxNestingDepth <=? depth)%Z then None
            else match skip_ws r with
                 | String "}" r' => Some (JObj [], true, r')
                 | _ => read_members f (depth + 1) r [] true
                 end
          else if Ascii.eqb a "[" then
            if (maxNestingDepth <=? depth)%Z then None
            else match skip_ws r with
                 | String "]" r' => Some (JArr [], true, r')
                 | _ => read_elements f (depth + 1) r [] true
                 end
          else if Ascii.eqb a "034" then
            match read_chars (len r) r with Some (x, r') => Some (JStr x, true, r') | None => None end
          else if HasPrefix t "true" then Some (JBool true, true, str_drop 4 t)
          else if HasPrefix t "false" then Some (JBool false, true, str_drop 5 t)
          else if HasPrefix t "null" then Some (JNull, true, str_drop 4 t)
          else match read_number t with
               | Some (lit, r') =>
                   match ParseFloat lit with
                   | Some n => Some (JNum n, true, r')
                   | None => Some (JNull, false, r')
                   end
               | None => None
               end
      end
  end
with read_members (fuel : nat) (depth : Z) (s : string) (acc : list (string * Value)) (ok : bool) {struct fuel}
  : option (Value * bool * string) :=
  match fuel with
  | O => None
  | S f =>
      match skip_ws s with
      | String "034" r =>
          match read_chars (len r) r with
          | Some (k, r1) =>
              match skip_ws r1 with
              | String ":" r2 =>
                  match read_value f depth r2 with
                  | Some (v, okv, r3) =>
                      match skip_ws r3 with
                      | String "," r4 => read_members f depth r4 (obj_insert k v acc) (ok && okv)
                      | String "}" r4 => Some (JObj (obj_insert k v acc), ok && okv, r4)
                      | _ => None
                      end
                  | None => None
                  end
              | _ => None
              end
          | None => None
          end
      | _ => None
      end
  end
with read_elements (fuel : nat) (depth : Z) (s : string) (acc : list Value) (ok : bool) {struct fuel}
  : option (Value * bool * string) :=
  match fuel with
  | O => None
  | S f =>
      match read_value f depth s with
      | Some (v, okv, r) =>
          match skip_ws r with
          | String "," r' => read_elements f depth r' (acc ++ [v]) (ok && okv)
          | String "]" r' => Some (JArr (acc ++ [v]), ok && okv, r')
          | _ => None
          end
      | None => None
      end
  end.

Definition json_parse (s : string) : option (Value * bool) :=
  match read_value (2 * len s + 2) 0 s with
  | Some (v, ok, r) => if skip_ws r =?s "" then Some (v, ok) else None
  | None => None
  end.

(** [json.Unmarshal(s, &m)] into an empty map[string]interface{}: whether it returns no
    error, and the map after it, [None] for nil.  A syntax error or a value of another type
    leaves the map empty. *)
Definition json_Unmarshal_map (s : string) : bool * option (gmap string Value) :=
  match json_parse s with
  | Some (JObj l, ok) => (ok, Some (list_to_map l))
  | Some (JNull, _) => (true, None)
  | _ => (false, Some ∅)
  end.

(** json.Marshal *)
Fixpoint json_Marshal (v : Value) : string :=
  match v with
  | JNull => "null"
  | JBool b => if b then "true" else "false"
  | JNum f => FormatFloat f
  | JStr s => json_string s
  | JArr l => "[" +:+ Join (List.map json_Marshal l) "," +:+ "]"
  | JObj l =>
      "{" +:+ Join (List.map (fun kv => let '(k, v) := kv in json_string k +:+ ":" +:+ json_Marshal v) l) "," +:+ "}"
  end.

(** json.Marshal of a map visits the entries by key. *)
Definition json_Marshal_map (m : gmap string Value) : string := json_Marshal (JObj (sorted_entries m)).
End Values.

(** ** strconv *)

Definition FormatUint (n : Z) : string := BigString n.

(** [strconv.ParseUint(s, 10, 64)]; [None] is a syntax or a range error *)
Definition ParseUint (s : string) : option Z :=
  if str_forallb is_digit s then
    match scan_nat 10 s with
    | Some n => if (n <? 2 ^ 64)%Z then Some n else None
    | None => None
    end
  else None.
End GoJson.
Export GoJson.

(** ** Round trips *)

Lemma scan_nat_Text n : (0 <= n)%Z -> scan_nat 10 (Text n 10) = Some n.
Proof.
  intros Hn. destruct (Text_head 10 ltac:(auto) n Hn) as (d & r & _ & E).
  unfold scan_nat. rewrite E. rewrite <- E. by apply scan_Text; auto.
Qed.

(** A uint64 that was formatted parses back. *)
Lemma ParseUint_Format n : (0 <= n < 2 ^ 64)%Z -> ParseUint (FormatUint n) = Some n.
Proof.
  intros [Hn Hb]. unfold ParseUint, FormatUint. rewrite BigString_digits by done. unfold BigString.
  rewrite scan_nat_Text by done. by destruct (Z.ltb_spec n (2 ^ 64)); [|lia].
Qed.

Lemma ParseUint_range s n : ParseUint s = Some n -> (0 <= n < 2 ^ 64)%Z.
Proof.
  unfold ParseUint, scan_nat. destruct (str_forallb _ _); [|done]. destruct s as [|a s]; [done|].
  destruct (scan_digits 10 0 _) as [m|] eqn:E; [|done]. apply scan_digits_nonneg in E; [|done..].
  destruct (Z.ltb_spec m (2 ^ 64)); [|done]. intros [= <-]. lia.
Qed.

(** ** Base64: what is encoded is decoded *)

Lemma chr_byte a : chr (byte_of a) = a.
Proof. unfold chr, byte_of. rewrite N2Z.id. apply ascii_N_embedding. Qed.
Lemma byte_range a : (0 <= byte_of a < 256)%Z.
Proof. unfold byte_of. pose proof (N_ascii_bounded a). lia. Qed.

(** A property of the digits, checked one by one *)
Lemma below_spec (f : nat -> bool) n : forallb f (seq 0 n) = true -> forall z, (0 <= z < Z.of_nat n)%Z -> f (Z.to_nat z) = true.
Proof. intros Hf z Hz. rewrite forallb_forall in Hf. apply Hf, in_seq. lia. Qed.

Lemma b64_val_char n : (0 <= n < 64)%Z -> b64_val (b64_char n) = Some n.
Proof.
  intros Hn. pose proof (below_spec (fun k => match b64_val (b64_char (Z.of_nat k)) with
    | Some m => (m =? Z.of_nat k)%Z | None => false end) 64 ltac:(vm_compute; reflexivity) n ltac:(lia)) as E.
  cbv beta in E. rewrite Z2Nat.id in E by lia. destruct (b64_val _) as [m|]; [|done]. f_equal. by apply Z.eqb_eq in E.
Qed.
Lemma b64_char_line n : (0 <= n < 64)%Z -> Ascii.eqb (b64_char n) "010" || Ascii.eqb (b64_char n) "013" = false.
Proof.
  intros Hn. pose proof (below_spec (fun k => negb (Ascii.eqb (b64_char (Z.of_nat k)) "010" ||
    Ascii.eqb (b64_char (Z.of_nat k)) "013")) 64 ltac:(vm_compute; reflexivity) n ltac:(lia)) as E.
  cbv beta in E. rewrite Z2Nat.id in E by lia. by apply negb_true_iff in E.
Qed.

Lemma string3_ind (P : string -> Prop) :
  P "" -> (forall a, P (String a "")) -> (forall a b, P (String a (String b ""))) ->
  (forall a b c r, P r -> P (String a (String b (String c r)))) -> forall s, P s.
Proof.
  intros H0 H1 H2 H3 s. enough (P s /\ (forall a, P (String a s)) /\ forall a b, P (String a (String b s))) by tauto.
  induction s as [|x s (IH1 & IH2 & IH3)]; auto.
Qed.

Lemma div64 n m : (0 <= n < 64 * m)%Z -> (0 <= n / m < 64)%Z \/ (m <= 0)%Z.
Proof. intros Hn. destruct (Z.leb_spec m 0); [by right|left]. split; [apply Z.div_pos; lia|apply Z.div_lt_upper_bound; lia]. Qed.
Lemma mod64 n : (0 <= n mod 64 < 64)%Z.
Proof. apply Z.mod_pos_bound. lia. Qed.

Lemma top_digit a n : (0 <= n < 65536)%Z -> (0 <= (byte_of a * 65536 + n) / 262144 < 64)%Z.
Proof. intros Hn. pose proof (byte_range a). split; [apply Z.div_pos; lia|apply Z.div_lt_upper_bound; lia]. Qed.

Lemma byte_digit a : (0 <= byte_of a * 65536 / 262144 < 64)%Z.
Proof. rewrite <- (Z.add_0_r (_ * 65536)). by apply top_digit. Qed.

(** A digit of a group is below 64. *)
Ltac b64_digit := first [apply mod64 | apply byte_digit | apply top_digit; lia | rewrite <- Z.add_assoc; apply top_digit; lia].

Lemma b64_no_lines s : drop_newlines (b64_Encode s) = b64_Encode s.
Proof.
  assert (forall n r, (0 <= n < 64)%Z -> drop_newlines (String (b64_char n) r) = String (b64_char n) (drop_newlines r)) as Hc
    by (intros n r Hn; cbn [drop_newlines]; by rewrite b64_char_line).
  induction s as [|a|a b|a b c r IH] using string3_ind; [done|..]; cbn [b64_Encode];
    try pose proof (byte_range b); try pose proof (byte_range c); rewrite !Hc by b64_digit; [done..|by rewrite IH].
Qed.

(** The four digits of a group are its digits to the base 64, and the bytes it was made of
    are read from them. *)
Lemma b64_digits n : (n = 262144 * (n / 262144) + 4096 * (n / 4096 mod 64) + 64 * (n / 64 mod 64) + n mod 64)%Z.
Proof.
  pose proof (Z.div_mod n 64 ltac:(lia)). pose proof (Z.div_mod (n / 64) 64 ltac:(lia)).
  pose proof (Z.div_mod (n / 4096) 64 ltac:(lia)).
  change 4096%Z with (64 * 64)%Z in *. change 262144%Z with (64 * 64 * 64)%Z in *. rewrite <- !Z.div_div in * by lia. lia.
Qed.

Lemma b64_bytes a b c n : n = (byte_of a * 65536 + byte_of b * 256 + byte_of c)%Z ->
  chr (n / 262144 * 4 + n / 4096 mod 64 / 16) = a /\
  chr (n / 4096 mod 64 mod 16 * 16 + n / 64 mod 64 / 4) = b /\
  chr (n / 64 mod 64 mod 4 * 64 + n mod 64) = c.
Proof.
  intros Hn. pose proof (byte_range a). pose proof (byte_range b). pose proof (byte_range c).
  pose proof (b64_digits n) as Hd. pose proof (mod64 n). pose proof (mod64 (n / 64)). pose proof (mod64 (n / 4096)).
  set (x := (n / 262144)%Z) in *. set (y := (n / 4096 mod 64)%Z) in *. set (z := (n / 64 mod 64)%Z) in *.
  set (w := (n mod 64)%Z) in *. clearbody x y z w.
  pose proof (Z.div_mod y 16 ltac:(lia)). pose proof (Z.div_mod z 4 ltac:(lia)).
  pose proof (Z.mod_pos_bound y 16 ltac:(lia)). pose proof (Z.mod_pos_bound z 4 ltac:(lia)).
  set (y1 := (y / 16)%Z) in *. set (y0 := (y mod 16)%Z) in *. set (z1 := (z / 4)%Z) in *. set (z0 := (z mod 4)%Z) in *.
  clearbody y1 y0 z1 z0. split_and!; rewrite <- chr_byte; f_equal; lia.
Qed.

Lemma b64_groups_encode s : b64_groups (b64_Encode s) = Some s.
Proof.
  induction s as [|a|a b|a b c r IH] using string3_ind; [done|..]; cbn [b64_Encode b64_groups];
    pose proof (byte_range a); try pose proof (byte_range b); try pose proof (byte_range c);
    rewrite !b64_val_char by b64_digit.
  - destruct (b64_bytes a "000" "000" (byte_of a * 65536)) as (Ea & _ & _); [by rewrite !Z.add_0_r|].
    change (b64_val "=") with (@None Z). cbn. by rewrite Ea.
  - destruct (b64_bytes a b "000" (byte_of a * 65536 + byte_of b * 256)) as (Ea & Eb & _); [by rewrite !Z.add_0_r|].
    change (b64_val "=") with (@None Z). cbn. by rewrite Ea, Eb.
  - destruct (b64_bytes a b c _ eq_refl) as (Ea & Eb & Ec). by rewrite IH, Ea, Eb, Ec.
Qed.

Lemma b64_roundtrip s : b64_Decode (b64_Encode s) = Some s.
Proof. unfold b64_Decode. by rewrite b64_no_lines, b64_groups_encode. Qed.

(** ** JSON strings: what is written is read *)

(** A valid string is a sequence of runes. *)
Lemma runes_ind (P : string -> Prop) :
  P "" ->
  (forall x r, rune_width x = len x -> x <> "" -> ValidString r = true -> P r -> P (x +:+ r)) ->
  forall s, ValidString s = true -> P s.
Proof.
  intros H0 Hs s. remember (len s) as n eqn:En. revert s En. induction (lt_wf n) as [n _ IH]. intros s -> Hv.
  destruct (decide (s = "")) as [->|Hne]; [done|]. rewrite ValidString_step in Hv by done.
  destruct (rune_width s) as [|w] eqn:Ew; [done|]. pose proof (rune_width_le s) as Hw. rewrite Ew in Hw.
  rewrite <- (str_take_drop (S w) s). apply Hs; [rewrite <- Ew; apply rune_width_take; lia| |done|].
  - intros E%len_zero. rewrite len_take in E. lia.
  - eapply (IH (len (str_drop (S w) s))); [rewrite len_drop; lia|done..].
Qed.

Definition with_head (x : string) (o : option (string * string)) : option (string * string) :=
  match o with Some (t, rest) => Some (x +:+ t, rest) | None => None end.

(** One byte below 0x80 *)
Lemma read_ascii f a t : (byte_of a < 128)%Z -> read_chars (S f) (json_ascii a +:+ t) = with_head (String a "") (read_chars f t).
Proof. destruct a as [[] [] [] [] [] [] [] []]; intros Ha; try (by vm_compute in Ha); reflexivity. Qed.

(** A rune of several bytes starts with a byte from 194 on and is copied. *)
Lemma wide_rune a x : rune_width (String a x) = len (String a x) -> x <> "" -> (194 <= byte_of a)%Z.
Proof.
  intros Hw Hx. destruct x as [|b x]; [done|]. unfold rune_width in Hw. cbn [byte_at String.get len] in Hw.
  change (byte_at 0 (String a (String b x))) with (byte_of a) in Hw. pose proof (byte_range a).
  repeat case_match; bool_hyps; lia.
Qed.

Lemma read_wide f a x t : rune_width (String a x) = len (String a x) -> x <> "" ->
  read_chars (S f) (String a x +:+ t) = with_head (String a x) (read_chars f t).
Proof.
  intros Hw Hx. pose proof (wide_rune a x Hw Hx). cbn [read_chars].
  rewrite (str_app_cons a x t).
  destruct (Ascii.eqb_spec a "034") as [->|]; [by vm_compute in H|].
  destruct (Ascii.eqb_spec a "092") as [->|]; [by vm_compute in H|].
  destruct (Z.ltb_spec (byte_of a) 32); [lia|].
  rewrite <- (str_app_cons a x t), rune_width_ext, Hw by (rewrite Hw; cbn; lia).
  cbn [len]. change (S (len x)) with (len (String a x)). by rewrite str_take_app, str_drop_app.
Qed.

Lemma byte_eq a b : (byte_of a =? byte_of b)%Z = Ascii.eqb a b.
Proof.
  destruct (Ascii.eqb_spec a b) as [->|Hn]; [apply Z.eqb_refl|]. apply Z.eqb_neq. intros E. apply Hn.
  by rewrite <- (chr_byte a), E, chr_byte.
Qed.

Lemma rune_width_226 r : rune_width (String "226" r) <= 3.
Proof. unfold rune_width. change (byte_at 0 (String "226" r)) with 226%Z. cbn -[second_ok byte_at cont]. case_match; lia. Qed.

(** A rune of several bytes as it is written, and as it is read back *)
Lemma read_rune n f x r : rune_width x = len x -> x <> "" ->
  exists y, json_escape (S n) (x +:+ r) = y +:+ json_escape n r /\ y <> "" /\
    forall t, read_chars (S f) (y +:+ t) = with_head x (read_chars f t).
Proof.
  intros Hw Hne. destruct x as [|a x]; [done|].
  assert (rune_width (String a x +:+ r) = S (len x)) as Ew by (by rewrite rune_width_ext, Hw by (rewrite Hw; cbn; lia)).
  cbn [json_escape]. rewrite (str_app_cons a x r) in *. rewrite Ew. destruct x as [|b x].
  - exists (json_ascii a). cbn. split; [done|]. split; [by destruct a as [[] [] [] [] [] [] [] []]|].
    intros t. apply read_ascii. unfold rune_width in Hw. change (byte_at 0 (String a "")) with (byte_of a) in Hw.
    repeat case_match; bool_hyps; try discriminate; lia.
  - cbn [len]. change (S (S (len x))) with (len (String a (String b x))).
    rewrite <- (str_app_cons a (String b x) r), str_take_app, str_drop_app.
    destruct (_ && _ && _) eqn:E; [|exists (String a (String b x)); by split_and!; [..|intros; apply read_wide]].
    apply andb_true_iff in E as [[E0 E1]%andb_true_iff E2].
    assert (a = "226"%char /\ b = "128"%char) as [-> ->] by (split; apply Ascii.eqb_eq; by rewrite <- byte_eq).
    destruct x as [|c [|d x]]; [done| |exfalso; pose proof (rune_width_226 (String "128" (String c (String d x)))); cbn [len] in Hw; lia].
    assert (c = "168"%char \/ c = "169"%char) as [-> | ->]
      by (apply orb_true_iff in E2 as [E2|E2]; [left|right]; apply Ascii.eqb_eq; by rewrite <- byte_eq).
    + exists (backslash +:+ "u2028"). by split_and!.
    + exists (backslash +:+ "u2029"). by split_and!.
Qed.

Lemma read_escaped s : ValidString s = true -> forall n f rest,
  len s <= n -> len (json_escape n s) < f -> read_chars f (json_escape n s +:+ String "034" rest) = Some (s, rest).
Proof.
  revert s. apply (runes_ind (fun s => forall n f rest, len s <= n -> len (json_escape n s) < f ->
    read_chars f (json_escape n s +:+ String "034" rest) = Some (s, rest))); [|intros x r Hx Hne Hr IH];
    intros n f rest Hn Hf.
  - destruct f as [|f]; [lia|]. by destruct n.
  - assert (0 < len x) by (destruct x; [done|cbn; lia]). rewrite len_app in Hn. destruct n as [|n]; [lia|].
    destruct f as [|f]; [lia|].
    destruct (read_rune n f x r Hx Hne) as (y & Ey & Hy & Hread).
    rewrite Ey in *. rewrite len_app in Hf. assert (0 < len y) by (destruct y; [done|cbn; lia]).
    rewrite str_app_assoc, Hread, IH by lia. done.
Qed.

(** ** JSON numbers *)

(** What may follow a number literal *)
Definition number_char (a : ascii) : bool := is_digit a || Ascii.eqb a "." || Ascii.eqb a "e" || Ascii.eqb a "E".
Definition stops (rest : string) : bool := match rest with "" => true | String a _ => negb (number_char a) end.

Lemma stops_head a r : stops (String a r) = true -> is_digit a = false /\ Ascii.eqb a "." = false /\ Ascii.eqb a "e" || Ascii.eqb a "E" = false.
Proof. cbn. unfold number_char. intros [[[? ?]%orb_false_iff ?]%orb_false_iff ?]%negb_true_iff%orb_false_iff. split_and!; [done..|]. by apply orb_false_iff. Qed.

Lemma read_digits_ext s rest ds r : stops rest = true -> read_digits s = (ds, r) -> read_digits (s +:+ rest) = (ds, r +:+ rest).
Proof.
  intros Hr. revert ds r. induction s as [|a s IH]; intros ds r E.
  - injection E as <- <-. destruct rest as [|b rest]; [done|]. apply stops_head in Hr as [Hb _].
    change ("" +:+ String b rest) with (String b rest). cbn [read_digits]. by rewrite Hb.
  - rewrite str_app_cons. cbn [read_digits] in *. destruct (is_digit a); [|by injection E as <- <-].
    destruct (read_digits s) as [ds' r'] eqn:Es. injection E as <- <-. by rewrite (IH ds' r').
Qed.

(** The optional sign of an exponent and the optional minus of a number *)
Lemma exponent_sign_ext s rest : s <> "" ->
  match s +:+ rest with String "+" r1 => ("+", r1) | String "-" r1 => ("-", r1) | _ => ("", s +:+ rest) end =
  let '(sign, r1) := match s with String "+" r1 => ("+", r1) | String "-" r1 => ("-", r1) | _ => ("", s) end in (sign, r1 +:+ rest).
Proof. destruct s as [|a s]; [done|]. intros _. rewrite str_app_cons. by destruct a as [[] [] [] [] [] [] [] []]. Qed.
Lemma number_sign_ext s rest : s <> "" ->
  match s +:+ rest with String "-" r => ("-", r) | _ => ("", s +:+ rest) end =
  let '(sign, r1) := match s with String "-" r => ("-", r) | _ => ("", s) end in (sign, r1 +:+ rest).
Proof. destruct s as [|a s]; [done|]. intros _. rewrite str_app_cons. by destruct a as [[] [] [] [] [] [] [] []]. Qed.

Lemma read_exponent_ext lit s rest x r : stops rest = true ->
  read_exponent lit s = Some (x, r) -> read_exponent lit (s +:+ rest) = Some (x, r +:+ rest).
Proof.
  intros Hr E. destruct s as [|e s].
  - injection E as <- <-. destruct rest as [|b rest]; [done|]. apply stops_head in Hr as (_ & _ & Hb).
    change ("" +:+ String b rest) with (String b rest). cbn [read_exponent]. by rewrite Hb.
  - rewrite str_app_cons. cbn [read_exponent] in *. destruct (_ || _); [|by injection E as <- <-].
    destruct (decide (s = "")) as [->|Hne]; [done|]. rewrite exponent_sign_ext by done.
    destruct (match s with String "+" r1 => _ | _ => _ end) as [sign r1].
    destruct (read_digits r1) as [ds r2] eqn:Ed. rewrite (read_digits_ext _ _ _ _ Hr Ed).
    destruct (ds =?s ""); [done|]. by injection E as <- <-.
Qed.

Lemma read_fraction_ext lit s rest x r : stops rest = true ->
  read_fraction lit s = Some (x, r) -> read_fraction lit (s +:+ rest) = Some (x, r +:+ rest).
Proof.
  intros Hr E. destruct s as [|a s].
  - pose proof (read_exponent_ext lit "" rest x r Hr E) as Hx. destruct rest as [|b rest]; [done|].
    apply stops_head in Hr as (_ & Hb & _). change ("" +:+ String b rest) with (String b rest) in *.
    cbn [read_fraction]. by rewrite Hb.
  - rewrite str_app_cons. cbn [read_fraction] in *. destruct (Ascii.eqb a ".").
    + destruct (read_digits s) as [ds r2] eqn:Ed. rewrite (read_digits_ext _ _ _ _ Hr Ed).
      destruct (ds =?s ""); [done|]. by apply read_exponent_ext.
    + rewrite <- str_app_cons. by apply read_exponent_ext.
Qed.

Lemma read_number_ext s rest x r : stops rest = true ->
  read_number s = Some (x, r) -> read_number (s +:+ rest) = Some (x, r +:+ rest).
Proof.
  intros Hr E. destruct (decide (s = "")) as [->|Hne]; [done|]. unfold read_number in *.
  rewrite number_sign_ext by done. destruct (match s with String "-" r => _ | _ => _ end) as [sign s1].
  destruct s1 as [|a s1]; [done|]. rewrite str_app_cons. destruct (Ascii.eqb a "0"); [by apply read_fraction_ext|].
  destruct (is_digit a); [|done]. rewrite <- str_app_cons.
  destruct (read_digits (String a s1)) as [ds r1] eqn:Ed. rewrite (read_digits_ext _ _ _ _ Hr Ed). by apply read_fraction_ext.
Qed.

(** A number literal starts with a minus or a digit. *)
Lemma read_number_head s x r : read_number s = Some (x, r) ->
  exists a t, s = String a t /\ (a = "-"%char \/ is_digit a = true).
Proof.
  unfold read_number. destruct s as [|a s]; [done|]. intros E. exists a, s. split; [done|].
  destruct (Ascii.eqb_spec a "-") as [->|Ha]; [by left|right].
  assert (match String a s with String "-" r => ("-", r) | _ => ("", String a s) end = ("", String a s)) as Hs
    by (by destruct a as [[] [] [] [] [] [] [] []]).
  rewrite Hs in E. destruct (Ascii.eqb_spec a "0") as [->|]; [done|]. by destruct (is_digit a).
Qed.

(** ** JSON values: what is written is read *)

(** Formatting a float64 gives a number literal that parses to it. *)
Class FloatLaws `{FloatLib} : Prop := {
  FormatFloat_literal f : read_number (FormatFloat f) = Some (FormatFloat f, "");
  ParseFloat_Format f : ParseFloat (FormatFloat f) = Some f;
}.

Section ReadWritten.
Context `{FloatLib} `{!FloatLaws}.

Definition str_lt (a b : string) : Prop := String.compare a b = Lt.

(** The values json.Unmarshal makes: valid strings, keys in order, nested [d] deep at most *)
Inductive wf_Value : nat -> Value -> Prop :=
| wf_null d : wf_Value d JNull
| wf_bool d b : wf_Value d (JBool b)
| wf_num d f : wf_Value d (JNum f)
| wf_str d s : ValidString s = true -> wf_Value d (JStr s)
| wf_arr d l : Forall (wf_Value d) l -> wf_Value (S d) (JArr l)
| wf_obj d l : wf_members d l -> wf_Value (S d) (JObj l)
with wf_members : nat -> list (string * Value) -> Prop :=
| wf_no_members d : wf_members d []
| wf_member d k v l : ValidString k = true -> wf_Value d v -> Forall (str_lt k) l.*1 -> wf_members d l ->
    wf_members d ((k, v) :: l).

Lemma skip_ws_head a r : json_ws a = false -> skip_ws (String a r) = String a r.
Proof. intros Ha. cbn. by rewrite Ha. Qed.

(** What is written starts with a byte that is neither white space nor the end of an array. *)
Lemma Marshal_head v : exists a t, json_Marshal v = String a t /\ json_ws a = false /\ Ascii.eqb a "]" = false.
Proof.
  destruct v as [|b|f|s|l|l]; cbn [json_Marshal]; try (by eexists _, _; split_and!); [by destruct b; eexists _, _; split_and!|].
  destruct (read_number_head _ _ _ (FormatFloat_literal f)) as (a & t & E & Ha). rewrite E. exists a, t.
  split; [done|]. destruct Ha as [->|Ha]; [done|]. by destruct a as [[] [] [] [] [] [] [] []].
Qed.

Lemma read_json_string s rest f : ValidString s = true -> len (json_escape (len s) s +:+ dquote +:+ rest) <= f ->
  read_chars f (json_escape (len s) s +:+ dquote +:+ rest) = Some (s, rest).
Proof. intros Hs Hf. apply read_escaped; [done..|]. rewrite !len_app in Hf. cbn in Hf. lia. Qed.

Lemma Join_cons2 x y l sep : Join (x :: y :: l) sep = x +:+ sep +:+ Join (y :: l) sep.
Proof. done. Qed.

Definition read_back (d : nat) (v : Value) : Prop := forall fuel depth rest,
  (depth + Z.of_nat d <= maxNestingDepth)%Z -> stops rest = true -> 2 * len (json_Marshal v) < fuel ->
  read_value fuel depth (json_Marshal v +:+ rest) = Some (v, true, rest).

Lemma read_elements_written d l : forall v acc fuel depth rest,
  Forall (read_back d) (v :: l) -> (depth + Z.of_nat d <= maxNestingDepth)%Z ->
  2 * len (Join (List.map json_Marshal (v :: l)) ",") + 1 < fuel ->
  read_elements fuel depth (Join (List.map json_Marshal (v :: l)) "," +:+ "]" +:+ rest) acc true =
    Some (JArr (acc ++ v :: l), true, rest).
Proof.
  induction l as [|w l IH]; intros v acc fuel depth rest [Hv Hl]%Forall_cons_1 Hd Hf;
    (destruct fuel as [|f]; [lia|]); cbn [read_elements].
  - cbn [List.map Join] in *. rewrite Hv by (done || lia). done.
  - cbn [List.map] in *. rewrite Join_cons2 in *. rewrite !len_app in Hf. cbn [len] in Hf.
    rewrite !str_app_assoc, Hv by (done || lia).
    rewrite str_app_cons. cbn [skip_ws]. change (json_ws ",") with false. cbn iota.
    cbn [andb]. by rewrite str_app_nil_l, IH, <- (assoc_L (++)) by (done || lia).
Qed.

Lemma obj_insert_last k v acc : Forall (fun k' => str_lt k' k) acc.*1 -> obj_insert k v acc = acc ++ [(k, v)].
Proof.
  induction acc as [|[k' v'] acc IH]; intros Ha; [done|]. rewrite fmap_cons in Ha. apply Forall_cons_1 in Ha as [Hk Ha].
  cbn [obj_insert]. unfold str_lt in Hk. cbn [fst] in Hk. rewrite String.compare_antisym, Hk. cbn. by rewrite IH.
Qed.

Definition member_string (kv : string * Value) : string := json_string kv.1 +:+ ":" +:+ json_Marshal kv.2.

Lemma read_member f d depth k v acc rest :
  ValidString k = true -> read_back d v -> (depth + Z.of_nat d <= maxNestingDepth)%Z -> stops rest = true ->
  2 * len (json_Marshal v) < f ->
  read_members (S f) depth (member_string (k, v) +:+ rest) acc true =
    match skip_ws rest with
    | String "," r4 => read_members f depth r4 (obj_insert k v acc) true
    | String "}" r4 => Some (JObj (obj_insert k v acc), true, r4)
    | _ => None
    end.
Proof.
  intros Hk Hv Hd Hr Hf. unfold member_string, json_string. cbn [fst snd]. rewrite !str_app_assoc.
  cbn [read_members]. unfold dquote at 1. rewrite str_app_cons, skip_ws_head, str_app_nil_l by done.
  rewrite read_json_string by done. rewrite str_app_cons, skip_ws_head by done. by rewrite str_app_nil_l, Hv.
Qed.

Lemma read_members_written d l : (forall v, wf_Value d v -> read_back d v) -> forall k v acc fuel depth rest,
  wf_members d ((k, v) :: l) -> (depth + Z.of_nat d <= maxNestingDepth)%Z ->
  Forall (fun k' => Forall (str_lt k') (k :: l.*1)) acc.*1 ->
  2 * len (Join (List.map member_string ((k, v) :: l)) ",") + 1 < fuel ->
  read_members fuel depth (Join (List.map member_string ((k, v) :: l)) "," +:+ "}" +:+ rest) acc true =
    Some (JObj (acc ++ (k, v) :: l), true, rest).
Proof.
  intros Hread. induction l as [|[k2 v2] l IH]; intros k v acc fuel depth rest Hw Hd Ha Hf;
    inversion_clear Hw as [|? ? ? ? Hk Hv Hkl Hl]; (destruct fuel as [|f]; [lia|]); cbn [List.map] in *;
    (assert (Forall (fun k' => str_lt k' k) acc.*1) by (eapply Forall_impl; [exact Ha|]; by intros ? []%Forall_cons_1)).
  - cbn [Join] in *. unfold member_string at 1 in Hf. rewrite !len_app in Hf. cbn [snd] in Hf.
    rewrite read_member with (d := d) by (auto || lia). rewrite str_app_cons, skip_ws_head by done.
    by rewrite obj_insert_last.
  - rewrite Join_cons2 in *. unfold member_string at 1 in Hf. rewrite !len_app in Hf. cbn [snd len] in Hf.
    rewrite !str_app_assoc, read_member with (d := d) by (auto || lia). rewrite str_app_cons, skip_ws_head by done.
    rewrite obj_insert_last, str_app_nil_l by done. rewrite IH by (done || lia || shelve). by rewrite <- (assoc_L (++)).
    Unshelve. rewrite fmap_app. apply Forall_app. split.
    + eapply Forall_impl; [exact Ha|]. by intros ? []%Forall_cons_1.
    + by apply Forall_singleton.
Qed.

Lemma read_number_value f depth n rest : stops rest = true ->
  read_value (S f) depth (FormatFloat n +:+ rest) = Some (JNum n, true, rest).
Proof.
  intros Hr. pose proof (read_number_ext _ _ _ _ Hr (FormatFloat_literal n)) as E. rewrite str_app_nil_l in E.
  destruct (read_number_head _ _ _ (FormatFloat_literal n)) as (a & t & Ea & Ha). pose proof (ParseFloat_Format n) as Hp.
  rewrite Ea in *. rewrite str_app_cons in *. set (u := String a (t +:+ rest)) in *.
  assert (skip_ws u = u /\ Ascii.eqb a "{" = false /\ Ascii.eqb a "[" = false /\ Ascii.eqb a "034" = false /\
    HasPrefix u "true" = false /\ HasPrefix u "false" = false /\ HasPrefix u "null" = false)
    as (H0' & H1 & H2 & H3 & H4 & H5 & H6).
  { clear -Ha. destruct Ha as [->|Ha]; [done|]. by destruct a as [[] [] [] [] [] [] [] []]. }
  cbn [read_value]. rewrite H0'. unfold u at 1. rewrite H1, H2, H3. fold u. by rewrite H4, H5, H6, E, Hp.
Qed.

Lemma read_string_value f depth s rest : ValidString s = true ->
  read_value (S f) depth (json_string s +:+ rest) = Some (JStr s, true, rest).
Proof.
  intros Hs. unfold json_string. rewrite !str_app_assoc. unfold dquote at 1. rewrite str_app_cons, str_app_nil_l.
  cbn [read_value]. rewrite skip_ws_head by done. cbn -[read_chars json_escape String.append len].
  by rewrite read_json_string.
Qed.

Lemma read_array_value d l : Forall (read_back d) l -> read_back (S d) (JArr l).
Proof.
  intros Hl fuel depth rest Hd Hr Hf. destruct fuel as [|f]; [lia|]. cbn [json_Marshal] in *. rewrite !len_app in Hf.
  cbn [len] in Hf. rewrite !str_app_assoc, str_app_cons, str_app_nil_l. cbn [read_value]. rewrite skip_ws_head by done.
  cbn -[Z.leb read_elements String.append Join json_Marshal skip_ws].
  destruct (Z.leb_spec maxNestingDepth depth); [lia|]. destruct l as [|v l]; [done|].
  assert (exists a t, Join (List.map json_Marshal (v :: l)) "," +:+ "]" +:+ rest = String a t /\ json_ws a = false /\ Ascii.eqb a "]" = false)
    as (a & t & E & Ha & Hb).
  { destruct (Marshal_head v) as (a & t & E & Ha & Hb). cbn [List.map]. rewrite E. destruct l; cbn [List.map Join]; rewrite ?str_app_cons; eauto. }
  pose proof (read_elements_written d l v [] f (depth + 1) rest Hl ltac:(lia) ltac:(lia)) as Hread.
  rewrite E in *. rewrite skip_ws_head by done. rewrite Hread. by destruct a as [[] [] [] [] [] [] [] []].
Qed.

Lemma read_object_value d l : (forall v, wf_Value d v -> read_back d v) -> wf_members d l -> read_back (S d) (JObj l).
Proof.
  intros Hv Hl fuel depth rest Hd Hr Hf. destruct fuel as [|f]; [lia|].
  assert (json_Marshal (JObj l) = "{" +:+ Join (List.map member_string l) "," +:+ "}") as E
    by (cbn [json_Marshal]; do 3 f_equal; apply map_ext; by intros [k v]).
  rewrite E in *. rewrite !len_app in Hf. cbn [len] in Hf.
  rewrite !str_app_assoc, str_app_cons, str_app_nil_l. cbn [read_value]. rewrite skip_ws_head by done.
  cbn -[Z.leb read_members String.append Join skip_ws].
  destruct (Z.leb_spec maxNestingDepth depth); [lia|]. destruct l as [|[k v] l]; [done|].
  assert (exists t, Join (List.map member_string ((k, v) :: l)) "," +:+ "}" +:+ rest = String "034" t) as [t Et]
    by (destruct l; cbn [List.map Join]; unfold member_string at 1, json_string, dquote; rewrite ?str_app_cons; eauto).
  pose proof (read_members_written d l Hv k v [] f (depth + 1) rest Hl ltac:(lia) (Forall_nil_2 _) ltac:(lia)) as Hread.
  rewrite Et in *. by rewrite skip_ws_head.
Qed.

Lemma read_value_written d : forall v, wf_Value d v -> read_back d v.
Proof.
  induction d as [|d IH]; intros v Hv; inversion Hv as [| | | |? l Hl|? l Hl]; subst;
    lazymatch goal with
    | |- read_back _ (JArr _) => apply read_array_value; eapply Forall_impl; [exact Hl|exact IH]
    | |- read_back _ (JObj _) => by apply read_object_value
    | _ => intros fuel depth rest Hd Hr Hf; destruct fuel as [|g]; [lia|]; cbn [json_Marshal];
           try (by apply read_number_value); try (by apply read_string_value); try done; by destruct b
    end.
Qed.

(** The texts json.Marshal writes are read to the values they were written from. *)
Lemma json_parse_Marshal v : wf_Value (Z.to_nat maxNestingDepth) v -> json_parse (json_Marshal v) = Some (v, true).
Proof.
  intros Hv%read_value_written. unfold json_parse. rewrite <- (str_app_nil_r (json_Marshal v)) at 2.
  rewrite Hv; [done| |done|lia]. rewrite Z2Nat.id; [lia|done].
Qed.
End ReadWritten.

(** ** JSON values: what is read is well formed *)

Lemma byte_chr n : (0 <= n < 256)%Z -> byte_of (chr n) = n.
Proof. intros Hn. unfold byte_of, chr. rewrite N_ascii_embedding by lia. lia. Qed.

Lemma cont_digit n : cont (byte_of (chr (128 + n mod 64))) = true.
Proof. pose proof (mod64 n). rewrite byte_chr by lia. unfold cont. apply andb_true_iff. rewrite !Z.leb_le. lia. Qed.

(** Decides the comparisons of a goal from the bounds in the context. *)
Ltac zdecide :=
  repeat match goal with
  | |- context [(?a <=? ?b)%Z] => destruct (Z.leb_spec a b); try lia
  | |- context [(?a <? ?b)%Z] => destruct (Z.ltb_spec a b); try lia
  | |- context [(?a =? ?b)%Z] => destruct (Z.eqb_spec a b); try lia
  end; cbn [andb orb].

Lemma digits64 n : (0 <= n)%Z -> (n = 64 * (n / 64) + n mod 64 /\ 0 <= n mod 64 < 64 /\ 0 <= n / 64)%Z.
Proof. intros Hn. pose proof (Z.div_mod n 64 ltac:(lia)). pose proof (mod64 n). pose proof (Z.div_pos n 64 Hn). lia. Qed.

Lemma EncodeRune_1 r : (0 <= r < 128)%Z -> rune_width (String (chr r) "") = 1.
Proof. intros Hr. unfold rune_width. change (byte_at 0 _) with (byte_of (chr r)). rewrite byte_chr by lia. zdecide. done. Qed.

Lemma EncodeRune_2 r : (128 <= r < 2048)%Z -> rune_width (String (chr (192 + r / 64)) (String (chr (128 + r mod 64)) "")) = 2.
Proof.
  intros Hr. destruct (digits64 r) as (? & ? & ?); [lia|]. unfold rune_width.
  change (byte_at 0 _) with (byte_of (chr (192 + r / 64))). change (byte_at 1 _) with (byte_of (chr (128 + r mod 64))).
  rewrite cont_digit, byte_chr by lia. zdecide. done.
Qed.

Lemma EncodeRune_3 r : (2048 <= r < 65536)%Z -> ((55296 <=? r) && (r <=? 57343))%Z = false ->
  rune_width (String (chr (224 + r / 4096)) (String (chr (128 + r / 64 mod 64)) (String (chr (128 + r mod 64)) ""))) = 3.
Proof.
  intros Hr Hs. destruct (digits64 r) as (? & ? & ?); [lia|]. destruct (digits64 (r / 64)) as (? & ? & ?); [done|].
  change 4096%Z with (64 * 64)%Z. rewrite <- Z.div_div by lia. unfold rune_width.
  change (byte_at 0 _) with (byte_of (chr (224 + r / 64 / 64))). change (byte_at 1 _) with (byte_of (chr (128 + r / 64 mod 64))).
  change (byte_at 2 _) with (byte_of (chr (128 + r mod 64))).
  assert (second_ok (byte_of (chr (224 + r / 64 / 64))) (byte_of (chr (128 + r / 64 mod 64))) = true) as ->.
  { rewrite !byte_chr by lia. apply andb_false_iff in Hs. rewrite !Z.leb_gt in Hs. unfold second_ok, cont.
    destruct Hs; zdecide; done. }
  rewrite !cont_digit, byte_chr by lia. zdecide. done.
Qed.

Lemma EncodeRune_4 r : (65536 <= r <= 1114111)%Z ->
  rune_width (String (chr (240 + r / 262144)) (String (chr (128 + r / 4096 mod 64))
    (String (chr (128 + r / 64 mod 64)) (String (chr (128 + r mod 64)) "")))) = 4.
Proof.
  intros Hr. destruct (digits64 r) as (? & ? & ?); [lia|]. destruct (digits64 (r / 64)) as (? & ? & ?); [done|].
  destruct (digits64 (r / 64 / 64)) as (? & ? & ?); [done|].
  change 262144%Z with (64 * 64 * 64)%Z. change 4096%Z with (64 * 64)%Z. rewrite <- !Z.div_div by lia. unfold rune_width.
  change (byte_at 0 _) with (byte_of (chr (240 + r / 64 / 64 / 64))).
  change (byte_at 1 _) with (byte_of (chr (128 + r / 64 / 64 mod 64))).
  change (byte_at 2 _) with (byte_of (chr (128 + r / 64 mod 64))). change (byte_at 3 _) with (byte_of (chr (128 + r mod 64))).
  assert (second_ok (byte_of (chr (240 + r / 64 / 64 / 64))) (byte_of (chr (128 + r / 64 / 64 mod 64))) = true) as ->.
  { rewrite !byte_chr by lia. unfold second_ok, cont. zdecide; done. }
  rewrite !cont_digit, byte_chr by lia. zdecide. done.
Qed.

(** A rune encodes to its own width. *)
Lemma EncodeRune_width r : rune_width (EncodeRune r) = len (EncodeRune r) /\ EncodeRune r <> "".
Proof.
  unfold EncodeRune. destruct ((0 <=? r) && (r <? 128))%Z eqn:E1.
  { split; [|done]. apply EncodeRune_1. bool_hyps. lia. }
  destruct ((0 <=? r) && (r <? 2048))%Z eqn:E2.
  { split; [|done]. apply EncodeRune_2. apply andb_true_iff in E2 as [? ?]. apply andb_false_iff in E1. lia. }
  destruct ((r <? 0) || _ || _)%Z eqn:E3; [by split|].
  apply orb_false_iff in E3 as [[E3 E4]%orb_false_iff E5]. apply andb_false_iff in E2.
  destruct (Z.ltb_spec r 65536); (split; [|done]); [apply EncodeRune_3|apply EncodeRune_4]; done || lia.
Qed.

Lemma EncodeRune_valid r s : ValidString s = true -> ValidString (EncodeRune r +:+ s) = true.
Proof. intros Hs. destruct (EncodeRune_width r). by rewrite ValidString_rune. Qed.

Lemma simple_escape_valid e x s : simple_escape e = Some x -> ValidString s = true -> ValidString (x +:+ s) = true.
Proof. intros E Hs. destruct e as [[] [] [] [] [] [] [] []]; try discriminate E; injection E as <-; by rewrite ValidString_rune. Qed.

Lemma u_escape_rune s x r : u_escape s = Some (x, r) -> exists n, x = EncodeRune n.
Proof. unfold u_escape. intros E. repeat case_match; simplify_eq; eauto. Qed.

Lemma read_chars_valid f : forall s x r, read_chars f s = Some (x, r) -> ValidString x = true.
Proof.
  induction f as [|f IH]; intros s x r E; [done|]. destruct s as [|a s]; [done|]. cbn [read_chars] in E.
  assert (forall y rest, match read_chars f rest with Some (t, rest') => Some (y +:+ t, rest') | None => None end = Some (x, r) ->
    (forall t, ValidString t = true -> ValidString (y +:+ t) = true) -> ValidString x = true) as Hnext.
  { intros y rest Ey Hy. destruct (read_chars f rest) as [[t rest']|] eqn:Er; [|done]. injection Ey as <- <-. eauto. }
  destruct (Ascii.eqb a "034"); [by injection E as <- <-|]. destruct (Ascii.eqb a "092").
  - destruct s as [|e s]; [done|]. destruct (Ascii.eqb_spec e "u") as [->|He].
    + destruct (u_escape s) as [[y r2]|] eqn:Eu; [|done]. apply u_escape_rune in Eu as [n ->].
      eapply Hnext; [exact E|]. intros t. apply EncodeRune_valid.
    + assert (match simple_escape e with Some x0 => match read_chars f s with Some (t, rest') => Some (x0 +:+ t, rest') | None => None end
        | None => None end = Some (x, r)) as E' by (revert E; by destruct e as [[] [] [] [] [] [] [] []]).
      destruct (simple_escape e) as [y|] eqn:Ee; [|done]. eapply Hnext; [exact E'|]. intros t. by eapply simple_escape_valid.
  - destruct (byte_of a <? 32)%Z; [done|]. destruct (rune_width (String a s)) as [|w] eqn:Ew.
    + eapply Hnext; [exact E|]. intros t. apply EncodeRune_valid.
    + eapply Hnext; [exact E|]. intros t Ht. pose proof (rune_width_le (String a s)) as Hl. rewrite Ew in Hl.
      rewrite ValidString_rune; [done|rewrite <- Ew; apply rune_width_take; lia|].
      intros Ez%len_zero. rewrite len_take in Ez. lia.
Qed.

Section ReadWf.
Context `{FloatLib}.

Lemma str_lt_le a b : str_lt a b <-> str_le a b /\ a <> b.
Proof.
  unfold str_lt, str_le, String.leb. destruct (decide (a = b)) as [->|Hn].
  - pose proof (String.compare_antisym b b). destruct (String.compare b b); naive_solver.
  - destruct (String.compare a b) eqn:E; [by apply String.compare_eq_iff in E|naive_solver..].
Qed.
#[local] Instance str_lt_trans : Transitive str_lt.
Proof.
  intros a b c [H1 N1]%str_lt_le [H2 N2]%str_lt_le. apply str_lt_le. split; [by etrans|]. intros ->. apply N1. by apply (anti_symm str_le).
Qed.

Lemma obj_insert_keys k v l : (obj_insert k v l).*1 ⊆ k :: l.*1.
Proof. induction l as [|[k' v'] l IH]; [done|]. cbn [obj_insert]. destruct (String.compare k k'); cbn; set_solver. Qed.

Lemma obj_insert_wf d k v l : ValidString k = true -> wf_Value d v -> wf_members d l -> wf_members d (obj_insert k v l).
Proof.
  intros Hk Hv Hl. induction Hl as [|d k' v' l Hk' Hv' Hkl Hl IH]; [by repeat constructor|].
  cbn [obj_insert]. destruct (String.compare k k') eqn:E.
  - apply String.compare_eq_iff in E as ->. by constructor.
  - constructor; [done..| |by constructor]. apply Forall_cons. split; [done|].
    eapply Forall_impl; [exact Hkl|]. intros x. by apply str_lt_trans.
  - constructor; [done..| |by apply IH]. apply Forall_forall. intros x Hx%obj_insert_keys.
    apply elem_of_cons in Hx as [->|Hx]; [unfold str_lt; by rewrite String.compare_antisym, E|].
    by eapply Forall_forall.
Qed.

Definition depth_left (depth : Z) : nat := Z.to_nat (maxNestingDepth - depth).
Lemma depth_left_S depth : (maxNestingDepth <=? depth)%Z = false -> depth_left depth = S (depth_left (depth + 1)).
Proof. intros E%Z.leb_gt. unfold depth_left. rewrite <- Z2Nat.inj_succ by lia. f_equal. lia. Qed.

Definition reads_wf (f : nat) : Prop :=
  forall depth s v ok r, read_value f depth s = Some (v, ok, r) -> wf_Value (depth_left depth) v.
Definition members_wf (f : nat) : Prop := forall depth s acc ok v ok' r,
  read_members f depth s acc ok = Some (v, ok', r) -> wf_members (depth_left depth) acc -> wf_Value (S (depth_left depth)) v.
Definition elements_wf (f : nat) : Prop := forall depth s acc ok v ok' r,
  read_elements f depth s acc ok = Some (v, ok', r) -> Forall (wf_Value (depth_left depth)) acc ->
  wf_Value (S (depth_left depth)) v.

Lemma read_value_wf f : members_wf f -> elements_wf f -> reads_wf (S f).
Proof.
  intros IHm IHe depth s v ok r E. cbn [read_value] in E. destruct (skip_ws s) as [|a t]; [done|].
  destruct (Ascii.eqb a "{").
  { destruct (maxNestingDepth <=? depth)%Z eqn:Ed; [done|]. rewrite (depth_left_S _ Ed).
    repeat case_match; try (eapply IHm; [exact E|constructor]). injection E as <- _ _. repeat constructor. }
  destruct (Ascii.eqb a "[").
  { destruct (maxNestingDepth <=? depth)%Z eqn:Ed; [done|]. rewrite (depth_left_S _ Ed).
    repeat case_match; try (eapply IHe; [exact E|constructor]). injection E as <- _ _. repeat constructor. }
  destruct (Ascii.eqb a "034").
  { destruct (read_chars _ t) as [[x r']|] eqn:Ex; [|done]. injection E as <- _ _. constructor. by eapply read_chars_valid. }
  repeat case_match; try discriminate E; injection E as <- _ _; constructor.
Qed.

Lemma read_members_wf f : reads_wf f -> members_wf f -> members_wf (S f).
Proof.
  intros IHv IHm depth s acc ok v ok' r E Hacc. cbn [read_members] in E.
  destruct (skip_ws s) as [|a t]; [done|].
  repeat (case_match; try discriminate E); (eapply IHm; [exact E|]) || (injection E as <- _ _; constructor);
    (eapply obj_insert_wf; [by eapply read_chars_valid|by eapply IHv|done]).
Qed.

Lemma read_elements_wf f : reads_wf f -> elements_wf f -> elements_wf (S f).
Proof.
  intros IHv IHe depth s acc ok v ok' r E Hacc. cbn [read_elements] in E.
  destruct (read_value f depth s) as [[[v1 ok1] r1]|] eqn:Ev; [|done]. apply IHv in Ev.
  repeat (case_match; try discriminate E); (eapply IHe; [exact E|]) || (injection E as <- _ _; constructor);
    (apply Forall_app; split; [done|by apply Forall_singleton]).
Qed.

Lemma read_wf f : reads_wf f /\ members_wf f /\ elements_wf f.
Proof.
  induction f as [|f (IHv & IHm & IHe)]; [done|].
  split_and!; [by apply read_value_wf|by apply read_members_wf|by apply read_elements_wf].
Qed.

(** What is read is well formed. *)
Lemma json_parse_wf s v ok : json_parse s = Some (v, ok) -> wf_Value (Z.to_nat maxNestingDepth) v.
Proof.
  unfold json_parse. destruct (read_value _ 0 s) as [[[v' ok'] r]|] eqn:E; [|done]. destruct (skip_ws r =?s ""); [|done].
  intros [= <- _]. apply (proj1 (read_wf _)) in E. unfold depth_left in E. by rewrite Z.sub_0_r in E.
Qed.

(** ** Maps *)

(** The maps a text is read to *)
Definition wf_map (m : gmap string Value) : Prop :=
  map_Forall (fun k v => ValidString k = true /\ wf_Value (Z.to_nat (maxNestingDepth - 1)) v) m.

Lemma max_depth_S : Z.to_nat maxNestingDepth = S (Z.to_nat (maxNestingDepth - 1)).
Proof. exact (depth_left_S 0 eq_refl). Qed.

Lemma wf_members_map d l : wf_members d l ->
  map_Forall (fun k v => ValidString k = true /\ wf_Value d v) (list_to_map l : gmap string Value).
Proof.
  induction 1 as [|d k v l Hk Hv Hkl Hl IH]; [apply map_Forall_empty|]. cbn. by apply map_Forall_insert_2.
Qed.

Lemma json_Unmarshal_wf s ok m : json_Unmarshal_map s = (ok, Some m) -> wf_map m.
Proof.
  unfold json_Unmarshal_map. destruct (json_parse s) as [[v ok']|] eqn:E; [|intros [= _ <-]; apply map_Forall_empty].
  apply json_parse_wf in E. rewrite max_depth_S in E.
  destruct v; intros [= _ <-]; try apply map_Forall_empty. inversion_clear E. by apply wf_members_map.
Qed.

Lemma wf_members_sorted d l : StronglySorted str_le l.*1 -> NoDup l.*1 ->
  Forall (fun kv => ValidString kv.1 = true /\ wf_Value d kv.2) l -> wf_members d l.
Proof.
  induction l as [|[k v] l IH]; intros Hs Hn Hw; [constructor|].
  apply Forall_cons_1 in Hw as [[Hk Hv] Hw]. rewrite fmap_cons in Hs, Hn. inversion_clear Hs as [|? ? Hs' Hle].
  apply NoDup_cons in Hn as [Hnk Hn]. constructor; [done..| |by apply IH].
  apply Forall_forall. intros x Hx. apply str_lt_le. split; [by eapply Forall_forall in Hle|]. cbn. by intros ->.
Qed.

Lemma wf_sorted_entries m : wf_map m -> wf_members (Z.to_nat (maxNestingDepth - 1)) (sorted_entries m).
Proof.
  intros Hm. apply wf_members_sorted.
  - rewrite sorted_entries_keys. apply SortStrings_sorted.
  - apply sorted_entries_nodup.
  - apply Forall_forall. intros [k v] Hin%elem_of_sorted_entries. by apply Hm.
Qed.

Lemma list_to_map_entries (m : gmap string Value) : list_to_map (sorted_entries m) = m.
Proof.
  apply map_eq. intros k. apply option_eq. intros v.
  rewrite <- elem_of_list_to_map by apply sorted_entries_nodup. apply elem_of_sorted_entries.
Qed.

(** A map that is written is read back. *)
Lemma json_map_roundtrip `{!FloatLaws} m : wf_map m -> json_Unmarshal_map (json_Marshal_map m) = (true, Some m).
Proof.
  intros Hm%wf_sorted_entries. unfold json_Unmarshal_map, json_Marshal_map. rewrite json_parse_Marshal.
  - by rewrite list_to_map_entries.
  - rewrite max_depth_S. by constructor.
Qed.
End ReadWf.
