(* ===== verification/Pagination.v ===== *)
(** Key-based pagination (github.com/cosmos/cosmos-sdk/types/query): what a paged listing
    is, what the SDK's Paginate promises, and that a client which follows the keys the
    pages return sees every entry once, in order. *)
From S2P Require Import Prelude GoStrings Sdk.
Open Scope go_scope.
Open Scope list_scope.

(** ** Requests and responses *)

Record PageRequest := MkPageRequest {
  pr_Key : string; pr_Offset : Z; pr_Limit : Z; pr_CountTotal : bool; pr_Reverse : bool }.
Record PageResponse := MkPageResponse { NextKey : string; Total : Z }.

(** [status.Error] of google.golang.org/grpc *)
Inductive Code := InvalidArgument | NotFound | Internal.
Definition Code_String (c : Code) : string :=
  match c with InvalidArgument => "InvalidArgument" | NotFound => "NotFound" | Internal => "Internal" end.
Definition status_Error (c : Code) (msg : string) : error :=
  ExtErr ("rpc error: code = " +:+ Code_String c +:+ " desc = " +:+ msg).

(** ** A page *)

Definition next_key {V} (l : list (string * V)) : string :=
  match l with [] => "" | (k, _) :: _ => k end.

(** [rest] is what is left of the listing [es] at the key of the request. *)
Definition at_key {V} (es : list (string * V)) (req : PageRequest) (rest : list (string * V)) : Prop :=
  NoDup es.*1 /\ exists seen, (if pr_Reverse req then rev es else es) = seen ++ rest /\
    (pr_Key req = "" /\ seen = [] \/ pr_Key req <> "" /\ pr_Key req = next_key rest).

Definition key_based (req : PageRequest) : Prop := pr_Offset req = 0%Z /\ pr_CountTotal req = false.

(** A listing in pages: from the key of the request on, [lim] entries and the key of the
    next one. *)
Definition pages {V} (lim : Z -> nat) (q : PageRequest -> error + (list V * PageResponse))
  (es : list (string * V)) : Prop :=
  forall req rest, key_based req -> at_key es req rest -> 0 < lim (pr_Limit req) ->
    q req = inr (snd <$> take (lim (pr_Limit req)) rest,
                 MkPageResponse (next_key (drop (lim (pr_Limit req)) rest)) 0).

(** ** query.Paginate *)

(** The callback on each entry of a page, in order; the first error ends the page. *)
Fixpoint visit {A} (f : string -> string -> A -> error + A) (l : list (string * string)) (acc : A) : error + A :=
  match l with
  | [] => inr acc
  | (k, v) :: l => match f k v acc with inl e => inl e | inr acc => visit f l acc end
  end.

(** Paginate reads the entries of a prefix store in key order. *)
Class Paginator := {
  Paginate : forall {A : Type}, list (string * string) -> PageRequest ->
    (string -> string -> A -> error + A) -> A -> error + (A * PageResponse);
}.

Class PaginatorLaws `{Paginator} : Prop := {
  Paginate_spec {A} es req (f : string -> string -> A -> error + A) acc rest :
    key_based req -> at_key es req rest -> (0 < pr_Limit req)%Z ->
    Paginate es req f acc =
      match visit f (take (Z.to_nat (pr_Limit req)) rest) acc with
      | inl e => inl e
      | inr a => inr (a, MkPageResponse (next_key (drop (Z.to_nat (pr_Limit req)) rest)) 0)
      end;
}.

(** ** A client *)

(** The pages a client collects: it repeats its request with the key of each response
    until a response has none. *)
Definition with_key (req : PageRequest) (k : string) : PageRequest :=
  MkPageRequest k (pr_Offset req) (pr_Limit req) (pr_CountTotal req) (pr_Reverse req).
Fixpoint follow {V} (fuel : nat) (q : PageRequest -> error + (list V * PageResponse)) (req : PageRequest)
  : error + list (list V) :=
  match fuel with
  | O => inl (ExtErr "more pages")
  | S fuel =>
      match q req with
      | inl e => inl e
      | inr (page, res) =>
          if NextKey res =?s "" then inr [page]
          else match follow fuel q (with_key req (NextKey res)) with
               | inl e => inl e
               | inr ps => inr (page :: ps)
               end
      end
  end.

(** The pages of [q] hold the entries of [l]: each once, in order, at most [n] to a page. *)
Definition lists {V} (q : PageRequest -> error + (list V * PageResponse)) (req : PageRequest)
  (n : nat) (l : list V) : Prop :=
  exists ps, follow (S (List.length l)) q req = inr ps /\ List.concat ps = l /\
             Forall (fun p => List.length p <= n) ps.

Section Client.
Context {V : Type} (lim : Z -> nat) (q : PageRequest -> error + (list V * PageResponse)).
Context (es : list (string * V)) (Hq : pages lim q es) (Hnodup : NoDup es.*1) (Hkeys : "" ∉ es.*1).

Lemma next_key_nonempty (rest : list (string * V)) k v l :
  (forall x, x ∈ rest -> x ∈ es) -> rest = (k, v) :: l -> k <> "".
Proof.
  intros Hin -> ->. apply Hkeys, list_elem_of_fmap. exists ("", v). split; [done|].
  apply Hin, elem_of_cons. by left.
Qed.

Lemma follow_rest fuel : forall req rest,
  key_based req -> at_key es req rest -> 0 < lim (pr_Limit req) -> List.length rest < fuel ->
  exists ps, follow fuel q req = inr ps /\ List.concat ps = rest.*2 /\
             Forall (fun p => List.length p <= lim (pr_Limit req)) ps.
Proof.
  induction fuel as [|fuel IH]; intros req rest Hreq Hat Hlim Hfuel; [lia|].
  cbn. rewrite (Hq req rest) by done. cbn. set (n := lim (pr_Limit req)) in *.
  assert (forall x, x ∈ rest -> x ∈ es) as Hsub.
  { destruct Hat as (_ & seen & E & _). intros x Hx.
    assert (x ∈ (if pr_Reverse req then rev es else es)) as Hx'
      by (rewrite E; apply elem_of_app; by right).
    destruct (pr_Reverse req); [|done]. apply list_elem_of_In in Hx'. rewrite <- List.in_rev in Hx'. by apply list_elem_of_In. }
  assert (List.length (rest.*2) <= List.length rest) as Hl by (by rewrite length_fmap).
  destruct (drop n rest) as [|[k v] rest'] eqn:E; cbn.
  - exists [snd <$> take n rest]. split; [done|]. rewrite <- (take_drop n rest) at 2. rewrite E, !app_nil_r.
    split; [by cbn; rewrite app_nil_r|]. constructor; [|constructor].
    rewrite length_fmap, length_take. lia.
  - assert (k <> "") as Hk.
    { eapply (next_key_nonempty (drop n rest)); [|exact E]. intros x Hx. apply Hsub.
      rewrite <- (take_drop n rest). apply elem_of_app. by right. }
    assert (k =?s "" = false) as -> by (by apply str_eqb_false).
    destruct (IH (with_key req k) ((k, v) :: rest')) as (ps & -> & Hc & Hp); [done| |done| |].
    + destruct Hat as (_ & seen & Es & _). split; [done|]. exists (seen ++ take n rest). cbn. split; [|by right].
      by rewrite Es, <- app_assoc, <- E, take_drop.
    + apply (f_equal List.length) in E. rewrite length_drop in E. cbn in *. lia.
    + exists ((snd <$> take n rest) :: ps). split; [done|]. cbn. rewrite Hc. split.
      * rewrite <- (take_drop n rest) at 2. by rewrite E, fmap_app.
      * constructor; [|done]. rewrite length_fmap, length_take. lia.
Qed.

(** Following the keys from the start of the listing *)
Lemma follow_complete req :
  key_based req -> pr_Key req = "" -> 0 < lim (pr_Limit req) ->
  lists q req (lim (pr_Limit req)) (if pr_Reverse req then rev es.*2 else es.*2).
Proof.
  intros Hreq Hkey Hlim.
  destruct (follow_rest (S (List.length es)) req (if pr_Reverse req then rev es else es)) as (ps & Hf & Hc & Hp);
    [done|split; [done|]; exists []; by eauto|done|destruct (pr_Reverse req); rewrite ?length_rev; lia|].
  exists ps. rewrite Hc. split; [|split; [|done]].
  - rewrite <- Hf. do 2 f_equal. destruct (pr_Reverse req); by rewrite ?length_rev, length_fmap.
  - destruct (pr_Reverse req); [|done]. apply map_rev.
Qed.
End Client.

(** ** Listings of stored records *)

(** A callback that decodes each record and appends it *)
Definition append_decoded {V} (decode : string -> error + V) (_ value : string) (acc : list V) : error + list V :=
  match decode value with inl e => inl e | inr v => inr (acc ++ [v]) end.

Definition decodes {V} (decode : string -> error + V) (kv : string * string) (e : string * V) : Prop :=
  fst kv = fst e /\ decode (snd kv) = inr (snd e).

Section Records.
Context `{PaginatorLaws} {V : Type} (decode : string -> error + V).

Lemma visit_decoded kvs es acc :
  Forall2 (decodes decode) kvs es -> visit (append_decoded decode) kvs acc = inr (acc ++ es.*2).
Proof.
  intros Hf. revert acc. induction Hf as [|[k v] [k' e] kvs es [_ Hd] _ IH]; intros acc; cbn in *.
  - by rewrite app_nil_r.
  - unfold append_decoded at 1. rewrite Hd, IH. by rewrite <- app_assoc.
Qed.

Lemma at_key_decoded kvs es req rest :
  Forall2 (decodes decode) kvs es -> at_key es req rest ->
  exists kvs', at_key kvs req kvs' /\ Forall2 (decodes decode) kvs' rest.
Proof.
  intros Hf (Hnd & seen & E & Hk).
  assert (kvs.*1 = es.*1) as Hkeys by (clear -Hf; induction Hf as [|[] [] ? ? [? _] _ IH]; cbn in *; congruence).
  assert (Forall2 (decodes decode) (if pr_Reverse req then rev kvs else kvs) (seen ++ rest)) as Hr.
  { rewrite <- E. destruct (pr_Reverse req); [|done]. clear -Hf.
    induction Hf; [constructor|]. cbn. apply Forall2_app; [done|]. constructor; [done|constructor]. }
  apply Forall2_app_inv_r in Hr as (s' & kvs' & Hs & Hr & E'). exists kvs'. split; [|done].
  split; [by rewrite Hkeys|]. exists s'. split; [done|]. destruct Hk as [[Hk ->]|[Hk Hn]].
  - left. inversion Hs. by subst.
  - right. split; [done|]. destruct Hr as [|[k v] [k' e] ? ? [Hkk _] _]; cbn in *; congruence.
Qed.

Lemma next_key_decoded kvs es : Forall2 (decodes decode) kvs es -> next_key kvs = next_key es.
Proof. intros [|[k v] [k' e] ? ? [Hk _] _]; done. Qed.

Lemma Paginate_decoded kvs es :
  Forall2 (decodes decode) kvs es ->
  pages Z.to_nat (fun req => Paginate kvs req (append_decoded decode) []) es.
Proof.
  intros Hf req rest Hreq Hat Hlim. destruct (at_key_decoded _ _ _ _ Hf Hat) as (kvs' & Hat' & Hr).
  rewrite (Paginate_spec kvs req (append_decoded decode) [] kvs') by (done || lia).
  rewrite (visit_decoded _ (take (Z.to_nat (pr_Limit req)) rest)) by (by apply Forall2_take).
  by rewrite (next_key_decoded _ (drop (Z.to_nat (pr_Limit req)) rest)) by (by apply Forall2_drop).
Qed.

(** Every record of a store decodes: the decoded listing *)
Lemma decoded_entries (kvs : list (string * string)) :
  (forall kv, kv ∈ kvs -> exists v, decode (snd kv) = inr v) ->
  exists es, Forall2 (decodes decode) kvs es /\ es.*1 = kvs.*1 /\
    es.*2 = omap (fun kv => match decode (snd kv) with inr v => Some v | inl _ => None end) kvs.
Proof.
  induction kvs as [|[k v] kvs IH]; intros Hd; [by exists []|].
  destruct (Hd (k, v)) as [e He]; [apply elem_of_cons; by left|]. cbn in He.
  destruct IH as (es & Hf & H1 & H2); [intros kv Hkv; apply Hd, elem_of_cons; by right|].
  exists ((k, e) :: es). cbn. rewrite He, H1, H2. split; [|done]. constructor; [|done]. by split.
Qed.
End Records.

(** ** Listings behind a bound on the limit *)

Lemma pages_bounded {V} (lim lim' : Z -> nat) (shape : Z -> Z) (q q' : PageRequest -> error + (list V * PageResponse)) es :
  pages lim q es -> (forall l, lim' l = lim (shape l)) ->
  (forall req r, key_based req ->
     q (MkPageRequest (pr_Key req) 0 (shape (pr_Limit req)) false (pr_Reverse req)) = inr r -> q' req = inr r) ->
  pages lim' q' es.
Proof.
  intros Hq Hlim Hq' req rest Hreq Hat. rewrite !Hlim. intros Hpos. apply Hq'; [done|].
  by apply (Hq (MkPageRequest (pr_Key req) 0 (shape (pr_Limit req)) false (pr_Reverse req))).
Qed.

Lemma pages_map {V W} (lim : Z -> nat) (f : V -> W) q (q' : PageRequest -> error + (list W * PageResponse)) es :
  pages lim q es ->
  (forall req vs r, key_based req -> q req = inr (vs, r) -> (forall v, v ∈ vs -> v ∈ es.*2) -> q' req = inr (f <$> vs, r)) ->
  pages lim q' ((fun e => (fst e, f (snd e))) <$> es).
Proof.
  intros Hq Hq' req rest Hreq (Hnd & seen & E & Hk) Hlim.
  set (g := fun e : string * V => (fst e, f (snd e))) in *.
  assert (exists seen0 rest0, (if pr_Reverse req then rev es else es) = seen0 ++ rest0 /\
            seen = g <$> seen0 /\ rest = g <$> rest0) as (seen0 & rest0 & E0 & -> & ->).
  { assert (g <$> (if pr_Reverse req then rev es else es) = seen ++ rest) as Eg.
    { rewrite <- E. destruct (pr_Reverse req); [|done]. apply map_rev. }
    apply fmap_app_inv in Eg as (s0 & r0 & -> & -> & ->). eauto. }
  assert (forall l : list (string * V), next_key (g <$> l) = next_key l) as Hg by (intros [|[k v] l]; reflexivity).
  rewrite (Hq' req (snd <$> take (lim (pr_Limit req)) rest0)
             (MkPageResponse (next_key (drop (lim (pr_Limit req)) rest0)) 0)); [|done|..].
  - rewrite <- !fmap_take, <- fmap_drop, Hg, <- !list_fmap_compose. reflexivity.
  - apply Hq; [done| |done]. split; [by rewrite <- list_fmap_compose in Hnd|]. exists seen0. split; [done|].
    rewrite Hg in Hk. destruct Hk as [[Hk Hs]|Hk]; [left|by right].
    split; [done|]. by apply fmap_nil_inv in Hs.
  - intros v (x & -> & Hx)%list_elem_of_fmap. apply list_elem_of_fmap_2.
    apply elem_of_take in Hx as (i & Hi & _). apply list_elem_of_lookup_2 in Hi.
    assert (x ∈ (if pr_Reverse req then rev es else es)) as Hx by (rewrite E0; apply elem_of_app; by right).
    destruct (pr_Reverse req); [|done]. apply list_elem_of_In in Hx. rewrite <- List.in_rev in Hx.
    by apply list_elem_of_In.
Qed.
