(* ===== verification/ChainId.v ===== *)
(** types/chain_id.go: the EIP-155 id of the chain. *)
From S2P Require Import Prelude GoStrings GoJson Sdk.
Open Scope go_scope.
#[local] Open Scope Z_scope.

Module ChainId.

Definition MainnetEVMChainID : Z := 117.
Definition TestnetEVMChainID : Z := 1170.

(** ParseEIP155ChainID: [None] is an error *)
Definition ParseEIP155ChainID (chainID : string) : option Z :=
  match LastIndex chainID "_", LastIndex chainID "-" with
  | Some underscore, Some dash =>
      if (dash <=? underscore + 1)%nat then None
      else ParseUint (str_take (dash - (underscore + 1)) (str_drop (underscore + 1) chainID))
  | _, _ => None
  end.

(** ResolveEVMChainID: the chain-id of the caller or of the options, then the configured
    id; [DefaultEVMChainID] of github.com/cosmos/evm counts as unset.  [opt_chain_id] and
    [opt_evm_chain_id] are what cast makes of the two application options. *)
Definition ResolveEVMChainID (DefaultEVMChainID : Z) (opt_chain_id : string) (opt_evm_chain_id : Z)
  (cosmosChainID : string) : Z :=
  let cosmosChainID := if cosmosChainID =?s "" then opt_chain_id else cosmosChainID in
  match (if cosmosChainID <>?s "" then ParseEIP155ChainID cosmosChainID else None) with
  | Some parsed => parsed
  | None =>
      if negb (opt_evm_chain_id =? 0) && negb (opt_evm_chain_id =? DefaultEVMChainID)
      then opt_evm_chain_id else DefaultEVMChainID
  end.
End ChainId.
Import ChainId.

(** ** A chain-id that is written is read back *)

Lemma digits_no_sep s c : str_forallb is_digit s = true -> is_digit c = false -> ContainsByte s c = false.
Proof.
  intros Hs Hc. induction s as [|a s IH]; [done|]. cbn in *. apply andb_true_iff in Hs as [Ha Hs].
  rewrite IH by done. destruct (Ascii.eqb_spec a c) as [->|]; [congruence|done].
Qed.

(** {name}_{eip155}-{revision} *)
Definition cosmos_chain_id (name : string) (id : Z) (revision : string) : string :=
  name +:+ String "_" (FormatUint id +:+ String "-" revision).

(** The id of a chain-id of that form, whatever the name contains *)
Lemma ParseEIP155_written name id revision :
  0 <= id < 2 ^ 64 -> ContainsByte revision "_" = false -> ContainsByte revision "-" = false ->
  ParseEIP155ChainID (cosmos_chain_id name id revision) = Some id.
Proof.
  intros Hid Hu Hd. unfold ParseEIP155ChainID, cosmos_chain_id.
  pose proof (BigString_digits id ltac:(lia)) as Hdig. pose proof (BigString_nonempty id ltac:(lia)) as Hne.
  change (BigString id) with (FormatUint id) in *. set (n := FormatUint id) in *.
  assert (ContainsByte n "_" = false) as Hn by (by apply digits_no_sep).
  rewrite (LastIndex_sep name) by (rewrite ContainsByte_app; cbn [ContainsByte]; by rewrite Hn, Hu).
  assert (name +:+ String "_" (n +:+ String "-" revision) = (name +:+ String "_" n) +:+ String "-" revision) as E
    by (by rewrite str_app_assoc, str_app_cons).
  rewrite E at 1. rewrite (LastIndex_sep (name +:+ String "_" n)) by done. rewrite len_app. cbn [String.length].
  assert (0 < len n)%nat as Hl by (destruct n; [done|cbn; lia]).
  destruct (Nat.leb_spec (len name + S (len n)) (len name + 1)); [lia|].
  replace (len name + 1)%nat with (len (name +:+ String "_" "")) by (rewrite len_app; reflexivity).
  replace (name +:+ String "_" (n +:+ String "-" revision))
    with ((name +:+ String "_" "") +:+ (n +:+ String "-" revision)) by (by rewrite str_app_assoc).
  rewrite str_drop_app. replace (len name + S (len n) - len (name +:+ String "_" ""))%nat with (len n)
    by (rewrite len_app; cbn; lia).
  rewrite str_take_app. by apply ParseUint_Format.
Qed.

(** A parseable chain-id decides; the configured id is only read without one, and the
    library's default never wins over it. *)
Lemma ResolveEVMChainID_written d opt name id revision configured :
  0 <= id < 2 ^ 64 -> ContainsByte revision "_" = false -> ContainsByte revision "-" = false ->
  ResolveEVMChainID d opt configured (cosmos_chain_id name id revision) = id.
Proof.
  intros Hid Hu Hd. unfold ResolveEVMChainID. set (c := cosmos_chain_id name id revision).
  assert (c <> "") as Hc by (unfold c, cosmos_chain_id; by destruct name).
  assert (c =?s "" = false) as E by (by apply str_eqb_false).
  assert (c <>?s "" = true) as E' by (by apply str_neqb_true).
  rewrite E. cbn zeta. rewrite E'. unfold c. by rewrite ParseEIP155_written.
Qed.
