(* ===== verification/Proto.v ===== *)
(** The protobuf wire format, as the generated marshallers ([*.pb.go]) of the stored
    records write and read it: varints, tagged fields, and the skipping of fields a
    message does not declare.  A marshaller fills a buffer of [Size()] bytes from its
    end; here the bytes are concatenated, and that they fill the buffer exactly is a
    lemma.

    The wire format reads back what it writes: varints, fields, and a message made of
    fields; unknown fields are skipped; the loops have the rounds they need. *)
From S2P Require Import Prelude GoStrings Sdk.
Open Scope go_scope.
#[local] Open Scope Z_scope.

Module Proto.

(** ** Errors of the generated code *)
Definition ErrInvalidLength : error := ExtErr "proto: negative length found during unmarshaling".
Definition ErrIntOverflow : error := ExtErr "proto: integer overflow".
Definition ErrUnexpectedEndOfGroup : error := ExtErr "proto: unexpected end of group".
Definition ErrUnexpectedEOF : error := ExtErr "unexpected EOF".

(** ** Machine integers *)
Definition uint64 (z : Z) : Z := z mod 2 ^ 64.
(** [int(z)] of a uint64, and [int32(z)] *)
Definition int64 (z : Z) : Z := (z + 2 ^ 63) mod 2 ^ 64 - 2 ^ 63.
Definition int32 (z : Z) : Z := (z + 2 ^ 31) mod 2 ^ 32 - 2 ^ 31.

Definition slen (s : string) : Z := Z.of_nat (String.length s).
Definition byte (z : Z) : ascii := ascii_of_N (Z.to_N z).

(** ** Writing *)

(** encodeVarint: at most ten groups of seven bits, the lowest first *)
Fixpoint varint_groups (n : nat) (v : Z) : string :=
  match n with
  | O => ""
  | S n => if 128 <=? v
           then String (byte (Z.lor (Z.land v 127) 128)) (varint_groups n (Z.shiftr v 7))
           else String (byte v) ""
  end%Z.
Definition encodeVarint (v : Z) : string := varint_groups 10 v.

(** [math_bits.Len64(x)] *)
Definition Len64 (x : Z) : Z := if x =? 0 then 0 else Z.log2 x + 1.
(** sov *)
Definition sov (x : Z) : Z := (Len64 (Z.lor x 1) + 6) / 7.

(** A string field: omitted when empty, tag, length, bytes *)
Definition put_string (tag : ascii) (v : string) : string :=
  if 0 <? slen v then String tag (encodeVarint (slen v) +:+ v) else "".
Definition size_string (v : string) : Z :=
  if 0 <? slen v then 1 + slen v + sov (slen v) else 0.

(** A bool field: omitted when false *)
Definition put_bool (tag : ascii) (v : bool) : string := if v then String tag (String "001" "") else "".
Definition size_bool (v : bool) : Z := if v then 2 else 0.

(** A uint64 field: omitted when zero *)
Definition put_uint64 (tag : ascii) (v : Z) : string := if v =? 0 then "" else String tag (encodeVarint v).
Definition size_uint64 (v : Z) : Z := if v =? 0 then 0 else 1 + sov v.

(** Marshal: [make([]byte, size)], then MarshalToSizedBuffer.  A size the machine's
    integers do not reach cannot be allocated; no Go value has one. *)
Definition ErrMakeSlice : error := ExtErr "makeslice: len out of range".
Definition Marshal (size : Z) (dAtA : string) : error + string :=
  if size <? 2 ^ 63 then inr dAtA else inl ErrMakeSlice.

(** ** Reading *)

(** The varint loop: [shift] runs from 0 in steps of 7 and may not reach 64, so there
    are ten rounds; [n] counts those that are left. *)
Fixpoint read_groups (n : nat) (shift v : Z) (s : string) : error + (Z * string) :=
  match n with
  | O => inl ErrIntOverflow
  | S n =>
      match s with
      | "" => inl ErrUnexpectedEOF
      | String b s =>
          let v := Z.lor v (uint64 (Z.shiftl (Z.land (byte_of b) 127) shift)) in
          if byte_of b <? 128 then inr (v, s) else read_groups n (shift + 7) v s
      end
  end.
Definition read_varint (s : string) : error + (Z * string) := read_groups 10 0 0 s.

(** What a read leaves of the buffer; [dAtA[iNdEx:]] is [s], and [l] is [len(dAtA)]. *)
Definition iNdEx (l : Z) (s : string) : Z := l - slen s.

(** [k] bytes further, at most to the end *)
Definition advance (k : Z) (s : string) : string :=
  if slen s <=? k then "" else str_drop (Z.to_nat k) s.

(** skip: the length of the field at the start of [s]; [i] is its index and [depth] the
    number of open groups.  Every round reads at least one byte, so [len(s)] rounds are
    enough; a round on nothing is the end of the loop. *)
Fixpoint skip_loop (fuel : nat) (i depth : Z) (s : string) : error + Z :=
  match fuel, s with
  | S fuel, String _ _ =>
      match read_varint s with
      | inl e => inl e
      | inr (wire, r) =>
          let i := i + (slen s - slen r) in
          let next i depth r :=
            if i <? 0 then inl ErrInvalidLength
            else if depth =? 0 then inr i else skip_loop fuel i depth r in
          match Z.land wire 7 with
          | 0 => match read_varint r with
                 | inl e => inl e
                 | inr (_, r') => next (i + (slen r - slen r')) depth r'
                 end
          | 1 => next (i + 8) depth (advance 8 r)
          | 2 => match read_varint r with
                 | inl e => inl e
                 | inr (length, r') =>
                     if int64 length <? 0 then inl ErrInvalidLength
                     else next (int64 (i + (slen r - slen r') + length)) depth (advance length r')
                 end
          | 3 => next i (depth + 1) r
          | 4 => if depth =? 0 then inl ErrUnexpectedEndOfGroup else next i (depth - 1) r
          | 5 => next (i + 4) depth (advance 4 r)
          | _ => inl (ExtErr ("proto: illegal wireType " +:+ BigString (Z.land wire 7)))
          end
      end
  | _, _ => inl ErrUnexpectedEOF
  end.
Definition skip (s : string) : error + Z := skip_loop (String.length s) 0 0 s.

Definition ErrWireType (wireType : Z) (field : string) : error :=
  ExtErr ("proto: wrong wireType = " +:+ BigString wireType +:+ " for field " +:+ field).

(** The three kinds of declared field: the value, and what is left of the buffer. *)
Definition read_string (field : string) (wireType l : Z) (s : string) : error + (string * string) :=
  if negb (wireType =? 2) then inl (ErrWireType wireType field)
  else match read_varint s with
       | inl e => inl e
       | inr (stringLen, r) =>
           let intStringLen := int64 stringLen in
           if intStringLen <? 0 then inl ErrInvalidLength
           else if int64 (iNdEx l r + intStringLen) <? 0 then inl ErrInvalidLength
           else if slen r <? intStringLen then inl ErrUnexpectedEOF
           else inr (str_take (Z.to_nat intStringLen) r, str_drop (Z.to_nat intStringLen) r)
       end.

Definition read_uint64 (field : string) (wireType : Z) (s : string) : error + (Z * string) :=
  if negb (wireType =? 0) then inl (ErrWireType wireType field) else read_varint s.

Definition read_bool (field : string) (wireType : Z) (s : string) : error + (bool * string) :=
  match read_uint64 field wireType s with
  | inl e => inl e
  | inr (v, r) => inr (negb (v =? 0), r)
  end.

(** What a [case] of the field switch leaves: the message and the rest of the buffer. *)
Definition case {A M : Type} (r : error + (A * string)) (set : A -> M) : option (error + (M * string)) :=
  Some match r with inl e => inl e | inr (v, s) => inr (set v, s) end.

Section Unmarshal.
Context {M : Type} (name : string).
(** The switch over the field number: [None] is its default. *)
Context (field : Z -> Z -> Z -> M -> string -> option (error + (M * string))).

(** The loop of Unmarshal.  Every round reads at least one byte. *)
Fixpoint unmarshal_loop (fuel : nat) (l : Z) (m : M) (s : string) : error + M :=
  match fuel, s with
  | S fuel, String _ _ =>
      match read_varint s with
      | inl e => inl e
      | inr (wire, r) =>
          let fieldNum := int32 (Z.shiftr wire 3) in
          let wireType := Z.land wire 7 in
          if wireType =? 4 then inl (ExtErr ("proto: " +:+ name +:+ ": wiretype end group for non-group"))
          else if fieldNum <=? 0
          then inl (ExtErr ("proto: " +:+ name +:+ ": illegal tag " +:+ BigString fieldNum +:+
                            " (wire type " +:+ BigString wire +:+ ")"))
          else
            match field fieldNum wireType l m r with
            | Some (inl e) => inl e
            | Some (inr (m, r)) => unmarshal_loop fuel l m r
            | None =>
                match skip s with
                | inl e => inl e
                | inr skippy =>
                    if (skippy <? 0) || (int64 (iNdEx l s + skippy) <? 0) then inl ErrInvalidLength
                    else if slen s <? skippy then inl ErrUnexpectedEOF
                    else unmarshal_loop fuel l m (str_drop (Z.to_nat skippy) s)
                end
            end
      end
  | _, _ => inr m
  end.

(** Unmarshal, on a message that has been reset *)
Definition Unmarshal (m : M) (dAtA : string) : error + M :=
  unmarshal_loop (String.length dAtA) (slen dAtA) m dAtA.
End Unmarshal.
End Proto.

(** * Theorems *)
Import Proto.
Open Scope go_scope.
#[local] Open Scope Z_scope.

(** ** Machine integers and bytes *)

Lemma uint64_small z : 0 <= z < 2 ^ 64 -> uint64 z = z.
Proof. apply Z.mod_small. Qed.
Lemma int64_small z : 0 <= z < 2 ^ 63 -> int64 z = z.
Proof. intros Hz. unfold int64. rewrite Z.mod_small; lia. Qed.
Lemma int32_small z : 0 <= z < 2 ^ 31 -> int32 z = z.
Proof. intros Hz. unfold int32. rewrite Z.mod_small; lia. Qed.

Lemma byte_of_byte z : 0 <= z < 256 -> byte_of (byte z) = z.
Proof. intros Hz. unfold byte_of, byte. rewrite N_ascii_embedding by lia. lia. Qed.

Lemma byte_of_range b : 0 <= byte_of b < 256.
Proof. unfold byte_of. pose proof (N_ascii_bounded b). lia. Qed.

Lemma slen_app a b : slen (a +:+ b) = slen a + slen b.
Proof. unfold slen. rewrite len_app. lia. Qed.
Lemma slen_cons b s : slen (String b s) = 1 + slen s.
Proof. unfold slen. cbn [String.length]. lia. Qed.
Lemma slen_nonneg s : 0 <= slen s.
Proof. unfold slen. lia. Qed.

(** Groups of bits that do not overlap are added. *)
Lemma lor_shiftl a b k : 0 <= k -> 0 <= a < 2 ^ k -> 0 <= b -> Z.lor a (Z.shiftl b k) = a + b * 2 ^ k.
Proof.
  intros Hk Ha Hb. rewrite <- Z.shiftl_mul_pow2 by done.
  rewrite Z.add_nocarry_lxor, <- Z.lxor_lor; [done|..];
    (apply Z.bits_inj'; intros i Hi; rewrite Z.land_spec, Z.bits_0, Z.shiftl_spec by done);
    (destruct (Z.lt_ge_cases i k) as [Hlt|Hge];
      [rewrite (Z.testbit_neg_r b) by lia; apply andb_false_r
      |rewrite <- (Z.mod_small a (2 ^ k)), Z.mod_pow2_bits_high by lia; done]).
Qed.

(** ** Varints *)

Lemma varint_groups_read n : forall shift acc v rest,
  shift = 7 * (10 - Z.of_nat n) -> 0 <= v -> v * 2 ^ shift < 2 ^ 64 -> 0 <= shift < 64 -> 0 <= acc < 2 ^ shift ->
  read_groups n shift acc (varint_groups n v +:+ rest) = inr (acc + v * 2 ^ shift, rest).
Proof.
  induction n as [|n IH]; intros shift acc v rest Hs Hv Hmax Hr Ha; [lia|]. cbn [varint_groups].
  destruct (Z.leb_spec 128 v) as [Hbig|Hsmall]; rewrite str_app_cons; cbn [read_groups].
  - assert (Z.lor (Z.land v 127) 128 = v mod 2 ^ 7 + 1 * 2 ^ 7) as Hb.
    { change 127 with (Z.ones 7). rewrite Z.land_ones by lia. change 128 with (Z.shiftl 1 7).
      apply lor_shiftl; [lia| |lia]. apply Z.mod_pos_bound. lia. }
    pose proof (Z.mod_pos_bound v (2 ^ 7) ltac:(lia)) as Hm.
    rewrite byte_of_byte by (rewrite Hb; lia). rewrite Hb.
    destruct (Z.ltb_spec (v mod 2 ^ 7 + 1 * 2 ^ 7) 128) as [Hc|_]; [lia|].
    assert (Z.land (v mod 2 ^ 7 + 1 * 2 ^ 7) 127 = v mod 2 ^ 7) as ->.
    { change 127 with (Z.ones 7). rewrite Z.land_ones by lia. rewrite Z_mod_plus_full, Z.mod_mod by lia. done. }
    assert (0 < 2 ^ shift) as Hp by (apply Z.pow_pos_nonneg; lia).
    pose proof (Z.div_mod v (2 ^ 7) ltac:(lia)) as Hdiv. rewrite Z.shiftr_div_pow2 by lia.
    assert (0 <= v / 2 ^ 7) as Hd0 by (apply Z.div_pos; lia).
    assert ((v mod 2 ^ 7) * 2 ^ shift < 2 ^ 64) as Hu by nia.
    rewrite uint64_small by (rewrite Z.shiftl_mul_pow2 by lia; nia).
    rewrite lor_shiftl by lia.
    assert (2 ^ (shift + 7) = 2 ^ 7 * 2 ^ shift) as Hpow by (rewrite Z.pow_add_r by lia; ring).
    assert (shift + 7 < 64).
    { destruct (Z.lt_ge_cases (shift + 7) 64) as [|Hge]; [done|].
      assert (2 ^ 64 <= 2 ^ (shift + 7)) by (apply Z.pow_le_mono_r; lia). nia. }
    rewrite IH; [|lia|done|rewrite Hpow; nia|lia|rewrite Hpow; nia]. f_equal. f_equal. rewrite Hpow. nia.
  - rewrite byte_of_byte by lia. destruct (Z.ltb_spec v 128) as [_|]; [|lia].
    assert (Z.land v 127 = v) as ->.
    { change 127 with (Z.ones 7). rewrite Z.land_ones by lia. apply Z.mod_small. lia. }
    assert (0 < 2 ^ shift) by (apply Z.pow_pos_nonneg; lia).
    rewrite uint64_small by (rewrite Z.shiftl_mul_pow2 by lia; nia). by rewrite lor_shiftl by lia.
Qed.

Lemma read_encodeVarint v rest : 0 <= v < 2 ^ 64 -> read_varint (encodeVarint v +:+ rest) = inr (v, rest).
Proof.
  intros Hv. unfold read_varint, encodeVarint.
  rewrite varint_groups_read; [f_equal; f_equal; lia|lia|lia| |lia|lia]. rewrite Z.mul_1_r. lia.
Qed.

(** A read consumes at least one byte. *)
Lemma read_groups_shrinks n shift v s w r :
  read_groups n shift v s = inr (w, r) -> (String.length r < String.length s)%nat.
Proof.
  revert shift v s. induction n as [|n IH]; intros shift v [|b s]; try done. cbn [read_groups].
  destruct (_ <? 128); [intros [= _ <-]; cbn; lia|]. intros Hr%IH. cbn. lia.
Qed.
Lemma read_varint_shrinks s w r : read_varint s = inr (w, r) -> (String.length r < String.length s)%nat.
Proof. apply read_groups_shrinks. Qed.

(** The value of a read is a uint64. *)
Lemma lor_range a b n : 0 <= n -> 0 <= a < 2 ^ n -> 0 <= b < 2 ^ n -> 0 <= Z.lor a b < 2 ^ n.
Proof.
  intros Hn Ha Hb. split; [apply Z.lor_nonneg; lia|].
  destruct (Z.eq_dec (Z.lor a b) 0) as [->|Hz]; [lia|].
  apply Z.log2_lt_pow2; [pose proof (proj2 (Z.lor_nonneg a b) ltac:(lia)); lia|].
  rewrite Z.log2_lor by lia.
  assert (forall x, 0 <= x < 2 ^ n -> Z.log2 x < n \/ x = 0) as Hlog.
  { intros x Hx. destruct (Z.eq_dec x 0); [by right|left]. apply Z.log2_lt_pow2; lia. }
  destruct (Hlog a Ha) as [La| ->], (Hlog b Hb) as [Lb| ->]; try (change (Z.log2 0) with 0); try lia.
  - pose proof (Z.log2_nonneg a). lia.
  - pose proof (Z.log2_nonneg b). lia.
  - done.
Qed.

Lemma read_groups_range n shift v s w r :
  0 <= v < 2 ^ 64 -> read_groups n shift v s = inr (w, r) -> 0 <= w < 2 ^ 64.
Proof.
  revert shift v s. induction n as [|n IH]; intros shift v [|b s] Hv; try done. cbn [read_groups].
  assert (0 <= Z.lor v (uint64 (Z.shiftl (Z.land (byte_of b) 127) shift)) < 2 ^ 64) as Hw.
  { apply lor_range; [lia|done|]. apply Z.mod_pos_bound. lia. }
  destruct (_ <? 128); [by intros [= <- _]|]. by apply IH.
Qed.
Lemma read_varint_range s w r : read_varint s = inr (w, r) -> 0 <= w < 2 ^ 64.
Proof. apply read_groups_range. lia. Qed.

(** The buffer for a varint is as long as its groups: sov counts them. *)
Lemma sov_step v : 128 <= v -> sov v = 1 + sov (Z.shiftr v 7).
Proof.
  intros Hv. unfold sov, Len64. rewrite Z.shiftr_div_pow2 by lia.
  assert (1 <= v / 2 ^ 7) as Hd by (apply Z.div_le_lower_bound; lia).
  assert (forall x, 1 <= x -> Z.log2 (Z.lor x 1) = Z.log2 x) as Hlog.
  { intros x Hx. rewrite Z.log2_lor by lia. change (Z.log2 1) with 0. pose proof (Z.log2_nonneg x). lia. }
  assert (forall x, 1 <= x -> Z.lor x 1 =? 0 = false) as Hnz.
  { intros x Hx. apply Z.eqb_neq. intros [E _]%Z.lor_eq_0_iff. lia. }
  rewrite !Hnz, !Hlog by lia.
  assert (Z.log2 v = Z.log2 (v / 2 ^ 7) + 7) as ->.
  { rewrite <- Z.shiftr_div_pow2, Z.log2_shiftr by lia. change 7 with (Z.log2 128) at 2.
    assert (Z.log2 128 <= Z.log2 v) by (apply Z.log2_le_mono; lia). change (Z.log2 128) with 7 in *. lia. }
  replace (Z.log2 (v / 2 ^ 7) + 7 + 1 + 6) with (Z.log2 (v / 2 ^ 7) + 1 + 6 + 1 * 7) by lia.
  rewrite Z_div_plus by lia. lia.
Qed.

Lemma sov_small v : 0 <= v < 128 -> sov v = 1.
Proof.
  intros Hv. unfold sov, Len64.
  assert (Z.lor v 1 < 2 ^ 7) as Hl.
  { destruct (Z.eq_dec v 0) as [->|]; [done|]. apply Z.log2_lt_pow2;
      [assert (Z.lor v 1 <> 0) by (intros [E _]%Z.lor_eq_0_iff; lia);
       pose proof (proj2 (Z.lor_nonneg v 1) ltac:(lia)); lia|].
    rewrite Z.log2_lor by lia. change (Z.log2 1) with 0.
    assert (Z.log2 v < 7) by (apply Z.log2_lt_pow2; lia). lia. }
  assert (1 <= Z.lor v 1) as H1.
  { assert (Z.lor v 1 <> 0) by (intros [E D]%Z.lor_eq_0_iff; lia).
    pose proof (proj2 (Z.lor_nonneg v 1) ltac:(lia)). lia. }
  destruct (Z.eqb_spec (Z.lor v 1) 0); [lia|].
  assert (0 <= Z.log2 (Z.lor v 1) < 7) as Hg.
  { split; [apply Z.log2_nonneg|]. apply Z.log2_lt_pow2; lia. }
  symmetry. apply Z.div_unique with (r := Z.log2 (Z.lor v 1) + 1 + 6 - 7); lia.
Qed.

Lemma varint_groups_len n : forall v, 0 <= v < 2 ^ (7 * Z.of_nat (S n)) -> slen (varint_groups (S n) v) = sov v.
Proof.
  induction n as [|n IH]; intros v Hv.
  - change (2 ^ (7 * Z.of_nat 1)) with 128 in Hv. cbn [varint_groups]. destruct (Z.leb_spec 128 v); [lia|].
    by rewrite sov_small by lia.
  - cbn [varint_groups] in IH |- *. destruct (Z.leb_spec 128 v) as [Hb|Hb]; rewrite slen_cons.
    + rewrite sov_step by done. f_equal. apply IH. rewrite Z.shiftr_div_pow2 by lia.
      split; [apply Z.div_pos; lia|]. apply Z.div_lt_upper_bound; [lia|].
      rewrite <- Z.pow_add_r by lia. replace (7 + 7 * Z.of_nat (S n)) with (7 * Z.of_nat (S (S n))) by lia. lia.
    + by rewrite sov_small by lia.
Qed.
Lemma encodeVarint_len v : 0 <= v < 2 ^ 64 -> slen (encodeVarint v) = sov v.
Proof. intros Hv. apply varint_groups_len. change (7 * Z.of_nat 10) with 70. assert (2 ^ 64 <= 2 ^ 70) by (apply Z.pow_le_mono_r; lia). lia. Qed.

(** ** Sizes: the fields fill the buffer exactly *)
Lemma put_string_len tag v : slen v < 2 ^ 63 -> slen (put_string tag v) = size_string v.
Proof.
  intros Hv. pose proof (slen_nonneg v). unfold put_string, size_string. destruct (0 <? slen v); [|done].
  rewrite slen_cons, slen_app, encodeVarint_len by lia. lia.
Qed.
Lemma put_bool_len tag v : slen (put_bool tag v) = size_bool v.
Proof. by destruct v. Qed.
Lemma put_uint64_len tag v : 0 <= v < 2 ^ 64 -> slen (put_uint64 tag v) = size_uint64 v.
Proof.
  intros Hv. unfold put_uint64, size_uint64. destruct (v =? 0); [done|].
  by rewrite slen_cons, encodeVarint_len.
Qed.
Lemma size_string_ge v : slen v <= size_string v.
Proof.
  pose proof (slen_nonneg v). unfold size_string. destruct (Z.ltb_spec 0 (slen v)); [|lia].
  unfold sov, Len64. assert (0 <= (if Z.lor (slen v) 1 =? 0 then 0 else Z.log2 (Z.lor (slen v) 1) + 1)).
  { destruct (_ =? 0); [lia|]. pose proof (Z.log2_nonneg (Z.lor (slen v) 1)). lia. }
  pose proof (Z.div_pos ((if Z.lor (slen v) 1 =? 0 then 0 else Z.log2 (Z.lor (slen v) 1) + 1) + 6) 7). lia.
Qed.

(** ** Skipping *)

Lemma advance_nonempty k s : 0 <= k -> advance k s <> "" -> slen (advance k s) = slen s - k.
Proof.
  intros Hk. unfold advance. destruct (Z.leb_spec (slen s) k); [done|]. intros _. unfold slen in *.
  rewrite len_drop. lia.
Qed.

Lemma skip_loop_nil fuel i depth : skip_loop fuel i depth "" = inl ErrUnexpectedEOF.
Proof. by destruct fuel. Qed.

(** A uint64 that is not negative as an int is that int. *)
Lemma int64_nonneg z : 0 <= z < 2 ^ 64 -> int64 z <? 0 = false -> int64 z = z /\ z < 2 ^ 63.
Proof.
  intros Hz Hn%Z.ltb_ge. destruct (Z.lt_ge_cases z (2 ^ 63)); [rewrite int64_small; lia|].
  unfold int64 in Hn. rewrite <- (Z_mod_plus_full _ (-1)), Z.mod_small in Hn; lia.
Qed.

(** A field that is skipped is not empty. *)
Lemma skip_loop_advances fuel i depth s k :
  0 <= i -> i + slen s < 2 ^ 63 -> skip_loop fuel i depth s = inr k -> i < k.
Proof.
  revert i depth s k. induction fuel as [|fuel IH]; intros i depth [|b s] k Hi Hmax; try done. cbn [skip_loop].
  destruct (read_varint _) as [e|[wire r]] eqn:Er; [done|]. apply read_varint_shrinks in Er.
  assert (0 < slen (String b s) - slen r) as Hr by (unfold slen; lia).
  generalize dependent (String b s). clear b s. intros s Hmax Er Hr. cbv zeta. pose proof (slen_nonneg r) as Hr0.
  remember (i + (slen s - slen r)) as i' eqn:Ei.
  assert (forall j d x, i < j -> (x <> "" -> j + slen x < 2 ^ 63) ->
    (if j <? 0 then inl ErrInvalidLength else if d =? 0 then inr j else skip_loop fuel j d x) = inr k -> i < k) as Hnext.
  { intros j d x Hj Hx. destruct (Z.ltb_spec j 0); [lia|]. destruct (d =? 0); [intros [= <-]; done|].
    destruct x as [|b x]; [by rewrite skip_loop_nil|]. intros Hk%IH; [lia|lia|by apply Hx]. }
  assert (forall n d, 0 <= n -> (if i' + n <? 0 then inl ErrInvalidLength else if d =? 0 then inr (i' + n)
    else skip_loop fuel (i' + n) d (advance n r)) = inr k -> i < k) as Hadv.
  { intros n d Hn. apply Hnext; [lia|]. intros Hx. rewrite advance_nonempty by done. lia. }
  assert (forall w r', read_varint r = inr (w, r') -> 0 < slen r - slen r' /\ 0 <= w < 2 ^ 64 /\ 0 <= slen r') as Hread.
  { intros w r' Hw. pose proof (read_varint_range _ _ _ Hw). apply read_varint_shrinks in Hw. unfold slen. lia. }
  destruct (Z.land wire 7) as [|[[[p|p|]|[p|p|]|]|[[p|p|]|[p|p|]|]|]|p]; try done.
  all: try (apply Hadv; lia); try (apply Hnext; lia).
  - destruct (read_varint r) as [e|[w r']] eqn:Ew; [done|]. destruct (Hread w r' eq_refl) as (? & _ & _).
    apply Hnext; lia.
  - destruct (depth =? 0); [done|]. apply Hnext; lia.
  - destruct (read_varint r) as [e|[w r']] eqn:Ew; [done|]. destruct (Hread w r' eq_refl) as (Hd & Hw & Hr').
    destruct (int64 w <? 0) eqn:En; [done|]. apply int64_nonneg in En as [_ Hw']; [|done].
    destruct (int64 (i' + (slen r - slen r') + w) <? 0) eqn:Ei'; [done|].
    apply int64_nonneg in Ei' as [-> Hj]; [|lia]. intros Hk.
    assert ((if i' + (slen r - slen r') + w <? 0 then inl ErrInvalidLength else if depth =? 0
      then inr (i' + (slen r - slen r') + w)
      else skip_loop fuel (i' + (slen r - slen r') + w) depth (advance w r')) = inr k) as Hk'.
    { destruct (Z.ltb_spec (i' + (slen r - slen r') + w) 0); [lia|done]. }
    apply Hnext in Hk'; [done|lia|]. intros Hx. rewrite advance_nonempty by (done || lia). lia.
Qed.

(** ** The loop of Unmarshal *)
Section Unmarshal.
Context {M : Type} (name : string) (field : Z -> Z -> Z -> M -> string -> option (error + (M * string))).
Notation loop := (unmarshal_loop name field).

(** A case of the switch reads on from where it is. *)
Definition reads : Prop := forall n w l m s m' r,
  field n w l m s = Some (inr (m', r)) -> (String.length r <= String.length s)%nat.

Lemma loop_nil fuel l m : loop fuel l m "" = inr m.
Proof. by destruct fuel. Qed.

(** As many rounds as there are bytes are enough: more change nothing. *)
Lemma loop_fuel n1 n2 l m s :
  reads -> slen s < 2 ^ 63 -> (String.length s <= n1)%nat -> (String.length s <= n2)%nat ->
  loop n1 l m s = loop n2 l m s.
Proof.
  intros Hf. revert n2 m s. induction n1 as [|n1 IH]; intros n2 m s Hs H1 H2.
  { destruct s; [|cbn in H1; lia]. by rewrite !loop_nil. }
  destruct n2 as [|n2], s as [|b s]; try (by rewrite !loop_nil); [cbn in H2; lia|].
  cbn [unmarshal_loop]. cbn [String.length] in *.
  destruct (read_varint (String b s)) as [e|[wire r]] eqn:Er; [done|]. apply read_varint_shrinks in Er. cbn in Er.
  destruct (_ =? 4); [done|]. destruct (_ <=? 0); [done|].
  destruct (field _ _ _ _ _) as [[e|[m' r']]|] eqn:Ef; [done|..].
  - apply Hf in Ef. apply IH; [unfold slen in *; cbn in Hs; lia|lia..].
  - destruct (skip _) as [e|k] eqn:Ek; [done|]. apply skip_loop_advances in Ek; [|lia|lia].
    destruct (_ || _); [done|]. destruct (_ <? k); [done|].
    assert (forall x, (String.length (str_drop (Z.to_nat k) (String b x)) <= String.length x)%nat) as Hd.
    { intros x. rewrite len_drop. cbn. lia. }
    pose proof (Hd s). apply IH; [unfold slen in *; cbn in Hs; lia|lia..].
Qed.

(** One round on a field of the message: a tag of one byte, the case it selects. *)
Lemma loop_field l m tag n w s m' r :
  reads -> slen (String tag s) < 2 ^ 63 -> byte_of tag = 8 * n + w -> 0 < n < 16 -> 0 <= w < 8 -> w <> 4 ->
  field n w l m s = Some (inr (m', r)) ->
  loop (String.length (String tag s)) l m (String tag s) = loop (String.length r) l m' r.
Proof.
  intros Hf Hs Ht Hn Hw Hw4 Hc. pose proof (Hf _ _ _ _ _ _ _ Hc) as Hr. cbn [String.length unmarshal_loop].
  assert (read_varint (String tag s) = inr (8 * n + w, s)) as ->.
  { unfold read_varint. cbn [read_groups]. rewrite Ht. destruct (Z.ltb_spec (8 * n + w) 128); [|lia].
    rewrite Z.shiftl_0_r. change 127 with (Z.ones 7). rewrite Z.land_ones, (Z.mod_small (8 * n + w)) by lia.
    by rewrite uint64_small by lia. }
  assert (Z.shiftr (8 * n + w) 3 = n) as ->.
  { rewrite Z.shiftr_div_pow2 by lia. symmetry. apply Z.div_unique with (r := w); lia. }
  assert (Z.land (8 * n + w) 7 = w) as ->.
  { change 7 with (Z.ones 3). rewrite Z.land_ones by lia. symmetry. apply Z.mod_unique with (q := n); lia. }
  rewrite int32_small by lia. destruct (Z.eqb_spec w 4); [done|]. destruct (Z.leb_spec n 0); [lia|].
  rewrite Hc. apply loop_fuel; [done| |lia|lia]. unfold slen in *. cbn in Hs. lia.
Qed.
End Unmarshal.

(** ** Fields *)

Lemma read_put_string f l v rest :
  0 < slen v -> 0 <= iNdEx l (encodeVarint (slen v) +:+ v +:+ rest) -> l < 2 ^ 63 ->
  read_string f 2 l (encodeVarint (slen v) +:+ v +:+ rest) = inr (v, rest).
Proof.
  intros Hv Hi Hl. unfold read_string. cbn [Z.eqb negb Pos.eqb].
  unfold iNdEx in Hi. rewrite !slen_app in Hi. pose proof (slen_nonneg rest). pose proof (slen_nonneg (encodeVarint (slen v))).
  rewrite read_encodeVarint by lia. rewrite int64_small by lia.
  destruct (Z.ltb_spec (slen v) 0); [lia|]. unfold iNdEx. rewrite !slen_app.
  rewrite int64_small by lia. destruct (Z.ltb_spec (l - (slen v + slen rest) + slen v) 0); [lia|].
  destruct (Z.ltb_spec (slen v + slen rest) (slen v)); [lia|].
  unfold slen. by rewrite Nat2Z.id, str_take_app, str_drop_app.
Qed.

Lemma read_string_len f w l s v r :
  read_string f w l s = inr (v, r) -> (String.length r <= String.length s)%nat.
Proof.
  unfold read_string. destruct (negb _); [done|]. destruct (read_varint s) as [e|[k x]] eqn:E; [done|].
  apply read_varint_shrinks in E. repeat (destruct (_ <? _); [done|]). intros [= _ <-]. rewrite len_drop. lia.
Qed.
Lemma read_uint64_len f w s v r : read_uint64 f w s = inr (v, r) -> (String.length r <= String.length s)%nat.
Proof. unfold read_uint64. destruct (negb _); [done|]. intros Hr%read_varint_shrinks. lia. Qed.
Lemma read_bool_len f w s v r : read_bool f w s = inr (v, r) -> (String.length r <= String.length s)%nat.
Proof.
  unfold read_bool. destruct (read_uint64 f w s) as [e|[k x]] eqn:E; [done|]. apply read_uint64_len in E.
  by intros [= _ <-].
Qed.

Lemma case_inv {A M} (r : error + (A * string)) (set : A -> M) m s :
  case r set = Some (inr (m, s)) -> exists v, r = inr (v, s) /\ m = set v.
Proof. unfold case. destruct r as [e|[v x]]; [done|]. intros [= <- <-]. eauto. Qed.

Section Fields.
Context {M : Type} (name : string) (field : Z -> Z -> Z -> M -> string -> option (error + (M * string))).
Context (Hreads : reads field).
Notation rest_of l m s := (unmarshal_loop name field (String.length s) l m s).

(** Reading what was written for one field: the field is set, or left as it was when it
    was omitted. *)
Lemma loop_put_string l m tag n f v set rest :
  l < 2 ^ 63 -> slen (put_string tag v +:+ rest) <= l -> byte_of tag = 8 * n + 2 -> 0 < n < 16 ->
  (forall s, field n 2 l m s = case (read_string f 2 l s) set) ->
  rest_of l m (put_string tag v +:+ rest) = rest_of l (if v =?s "" then m else set v) rest.
Proof.
  intros Hl Hs Ht Hn Hf. unfold put_string in *. destruct v as [|b v]; [done|]. set (w := String b v) in *.
  assert (0 < slen w) as Hw by (unfold slen; cbn; lia). destruct (Z.ltb_spec 0 (slen w)); [|lia].
  rewrite str_app_cons, str_app_assoc in *. rewrite slen_cons in Hs.
  rewrite (loop_field _ _ _ _ _ n 2 _ (set w) rest); try done; try lia; [rewrite slen_cons; lia|].
  rewrite Hf, read_put_string; [done|done| |lia]. unfold iNdEx. lia.
Qed.

Lemma loop_put_bool l m tag n f v set rest :
  l < 2 ^ 63 -> slen (put_bool tag v +:+ rest) <= l -> byte_of tag = 8 * n -> 0 < n < 16 ->
  (forall s, field n 0 l m s = case (read_bool f 0 s) set) ->
  rest_of l m (put_bool tag v +:+ rest) = rest_of l (if v then set true else m) rest.
Proof.
  intros Hl Hs Ht Hn Hf. destruct v; [|done]. cbn [put_bool] in *. rewrite !str_app_cons in *.
  rewrite (loop_field _ _ _ _ _ n 0 _ (set true) rest); try done; lia.
Qed.

Lemma loop_put_uint64 l m tag n f v set rest :
  l < 2 ^ 63 -> slen (put_uint64 tag v +:+ rest) <= l -> 0 <= v < 2 ^ 64 -> byte_of tag = 8 * n -> 0 < n < 16 ->
  (forall s, field n 0 l m s = case (read_uint64 f 0 s) set) ->
  rest_of l m (put_uint64 tag v +:+ rest) = rest_of l (if v =? 0 then m else set v) rest.
Proof.
  intros Hl Hs Hv Ht Hn Hf. unfold put_uint64 in *. destruct (v =? 0); [done|]. rewrite str_app_cons in *.
  rewrite (loop_field _ _ _ _ _ n 0 _ (set v) rest); try done; try lia.
  rewrite Hf. unfold read_uint64. cbn [Z.eqb negb]. by rewrite read_encodeVarint.
Qed.
End Fields.

(** ** Messages *)

Lemma Marshal_ok size dAtA bz : Marshal size dAtA = inr bz -> size < 2 ^ 63 /\ bz = dAtA.
Proof. unfold Marshal. destruct (Z.ltb_spec size (2 ^ 63)); [|done]. by intros [= <-]. Qed.
Lemma Marshal_fits size dAtA : size < 2 ^ 63 -> Marshal size dAtA = inr dAtA.
Proof. intros Hs. unfold Marshal. by destruct (Z.ltb_spec size (2 ^ 63)); [|lia]. Qed.

Lemma size_bool_nonneg v : 0 <= size_bool v <= 2.
Proof. by destruct v. Qed.
Lemma sov_nonneg x : 0 <= sov x.
Proof.
  unfold sov, Len64. apply Z.div_pos; [|lia]. destruct (_ =? 0); [lia|].
  pose proof (Z.log2_nonneg (Z.lor x 1)). lia.
Qed.
Lemma size_string_nonneg v : 0 <= size_string v.
Proof. pose proof (size_string_ge v). pose proof (slen_nonneg v). lia. Qed.
Lemma size_uint64_nonneg v : 0 <= size_uint64 v.
Proof. unfold size_uint64. destruct (_ =? 0); [lia|]. pose proof (sov_nonneg v). lia. Qed.

(** A varint takes ten bytes at most. *)
Lemma varint_groups_short n v : slen (varint_groups n v) <= Z.of_nat n.
Proof.
  revert v. induction n as [|n IH]; intros v; [done|]. cbn [varint_groups]. destruct (_ <=? v); rewrite slen_cons.
  - specialize (IH (Z.shiftr v 7)). lia.
  - change (slen "") with 0. lia.
Qed.
Lemma sov_le v : 0 <= v < 2 ^ 64 -> sov v <= 10.
Proof. intros Hv. rewrite <- encodeVarint_len by done. apply (varint_groups_short 10). Qed.
Lemma size_string_le v : slen v < 2 ^ 62 -> size_string v <= slen v + 11.
Proof.
  intros Hv. pose proof (slen_nonneg v). unfold size_string. destruct (0 <? slen v); [|lia].
  pose proof (sov_le (slen v) ltac:(lia)). lia.
Qed.
Lemma fits_each ss s : fits ss -> s ∈ ss -> slen s < 2 ^ 62.
Proof.
  unfold fits, slen. induction ss as [|x ss IH]; [by intros _ ?%elem_of_nil|].
  change (list_sum (String.length <$> (x :: ss))) with (String.length x + list_sum (String.length <$> ss))%nat.
  intros Hs [->|Hx]%elem_of_cons; [lia|]. apply IH; [lia|done].
Qed.
Lemma fits_total ss : fits ss -> foldr Z.add 0 (slen <$> ss) < 2 ^ 62.
Proof.
  unfold fits. assert (foldr Z.add 0 (slen <$> ss) = Z.of_nat (list_sum (String.length <$> ss))) as ->; [|done].
  induction ss as [|s ss IH]; [done|]. rewrite !fmap_cons. cbn [foldr]. rewrite IH. unfold slen, list_sum. cbn [fold_right]. lia.
Qed.

Lemma fits_sizes ss : fits ss -> Forall (fun v => size_string v <= slen v + 11) ss.
Proof. intros Hs. apply Forall_forall. intros v Hv. by eapply size_string_le, fits_each. Qed.

(** A switch whose cases all read a field. *)
Ltac reads_tac field :=
  intros n w l m s m' r; unfold field; repeat case_match; try done;
  intros (v & Hr & _)%case_inv;
  first [by apply read_string_len in Hr|by apply read_bool_len in Hr|by apply read_uint64_len in Hr].

(** The bytes of a message are as many as Size() counts. *)
Ltac len_tac :=
  intros;
  repeat match goal with
  | |- context [size_string ?v] => lazymatch goal with H : slen v <= size_string v |- _ => fail
      | _ => pose proof (size_string_ge v); pose proof (slen_nonneg v) end
  | |- context [size_uint64 ?v] => lazymatch goal with H : 0 <= size_uint64 v |- _ => fail
      | _ => pose proof (size_uint64_nonneg v) end
  | |- context [size_bool ?v] => lazymatch goal with H : 0 <= size_bool v <= 2 |- _ => fail
      | _ => pose proof (size_bool_nonneg v) end
  end;
  rewrite ?slen_app, ?put_bool_len, ?put_string_len, ?put_uint64_len by lia; lia.

(** A field that was omitted has its zero value, so setting it is the same. *)
Lemma set_zero_string {M} (m : M) set v : set "" = m -> (if v =?s "" then m else set v) = set v.
Proof. intros <-. by destruct v. Qed.
Lemma set_zero_bool {M} (m : M) set (v : bool) : set false = m -> (if v then set true else m) = set v.
Proof. intros <-. by destruct v. Qed.

(** Field by field, [Unmarshal] of the bytes a marshaller wrote. *)
Ltac field_step Hr :=
  cbv beta;
  lazymatch goal with
  | |- unmarshal_loop ?nm ?fd (String.length (put_string ?tag ?v +:+ ?rest)) ?l ?m _ = _ =>
      let n := eval vm_compute in (Z.shiftr (byte_of tag) 3) in
      erewrite (loop_put_string nm fd Hr l m tag n _ v _ rest);
      [|lia|rewrite ?slen_app; lia|reflexivity|lia|intros; reflexivity]
  | |- unmarshal_loop ?nm ?fd (String.length (put_bool ?tag ?v +:+ ?rest)) ?l ?m _ = _ =>
      let n := eval vm_compute in (Z.shiftr (byte_of tag) 3) in
      erewrite (loop_put_bool nm fd Hr l m tag n _ v _ rest);
      [|lia|rewrite ?slen_app; lia|reflexivity|lia|intros; reflexivity]
  | |- unmarshal_loop ?nm ?fd (String.length (put_uint64 ?tag ?v +:+ ?rest)) ?l ?m _ = _ =>
      let n := eval vm_compute in (Z.shiftr (byte_of tag) 3) in
      erewrite (loop_put_uint64 nm fd Hr l m tag n _ v _ rest);
      [|lia|rewrite ?slen_app; lia|lia|reflexivity|lia|intros; reflexivity]
  end.
Ltac fields_start :=
  match goal with
  | |- unmarshal_loop _ _ (String.length ?D) (slen ?D) _ ?D = _ =>
      let l := fresh "l" in
      let Hl := fresh "Hl" in
      remember (slen D) as l eqn:Hl; rewrite <- (str_app_nil_r D); rewrite ?str_app_assoc;
      rewrite ?slen_app in Hl
  end;
  repeat match goal with
  | |- context [put_string ?t ?v] => lazymatch goal with H : 0 <= slen (put_string t v) |- _ => fail
      | _ => pose proof (slen_nonneg (put_string t v)) end
  | |- context [put_bool ?t ?v] => lazymatch goal with H : 0 <= slen (put_bool t v) |- _ => fail
      | _ => pose proof (slen_nonneg (put_bool t v)) end
  | |- context [put_uint64 ?t ?v] => lazymatch goal with H : 0 <= slen (put_uint64 t v) |- _ => fail
      | _ => pose proof (slen_nonneg (put_uint64 t v)) end
  end;
  assert (slen "" = 0) by reflexivity.
Ltac fields_tac Hr := fields_start; repeat field_step Hr; cbv beta; rewrite loop_nil; f_equal.

(** The same for a message of many fields: the message read so far is simplified by [tidy]
    after each field. *)
Ltac set_zero :=
  lazymatch goal with
  | |- unmarshal_loop _ _ _ _ (if ?v =?s "" then ?m else _) _ = _ => rewrite (set_zero_string m _ v) by reflexivity
  | |- unmarshal_loop _ _ _ _ (if ?v then _ else ?m) _ = _ => rewrite (set_zero_bool m _ v) by reflexivity
  end.
Ltac fields_tidy Hr tidy :=
  fields_start; repeat (field_step Hr; set_zero; tidy); cbv beta; rewrite loop_nil; f_equal.
