(* ===== verification/CollectionTypes.v ===== *)
(** x/collection/types: the data of the collection module, its validation rules
    (validation.go) and the genesis validation (genesis.go). *)
From S2P Require Import Prelude GoStrings Utf8 Sdk.
Open Scope go_scope.

Module CollectionTypes.

(** ** Data (collection.pb.go, tx.pb.go) *)
Record Denom := MkDenom {
  Denom_Id : string; Denom_Name : string; Denom_Schema : string; Denom_Creator : string;
  Denom_Symbol : string; MintRestricted : bool; UpdateRestricted : bool;
  Denom_Description : string; Denom_Uri : string; Denom_UriHash : string; Denom_Data : string;
}.

Record BaseNFT := MkBaseNFT {
  BaseNFT_Id : string; BaseNFT_Name : string; BaseNFT_URI : string; BaseNFT_Data : string;
  BaseNFT_Owner : string; BaseNFT_UriHash : string;
}.

Record NFTMetadata := MkNFTMetadata { nm_Name : string; nm_Data : string }.

Record DenomMetadata := MkDenomMetadata {
  dm_Creator : string; dm_Schema : string; dm_MintRestricted : bool;
  dm_UpdateRestricted : bool; dm_Data : string;
}.

Record Collection := MkCollection { Collection_Denom : Denom; Collection_NFTs : list BaseNFT }.

Record GenesisState := MkGenesisState { Collections : list Collection }.

(** ** Constants (validation.go) *)
Definition DoNotModify : string := "[do-not-modify]".
Definition RemoveField : string := "[remove]".
Definition MinDenomLen : nat := 3.
Definition MaxDenomLen : nat := 128.
Definition MaxTokenURILen : nat := 256.
Definition MaxDenomSchemaLen : N := 8192.
Definition MaxDenomDataLen : N := 65536.

(** [len(s)] as a machine number *)
Definition lenN (s : string) : N := N.of_nat (len s).

Definition nul : ascii := "000".

(** [if err := a; err != nil { return err }; b] on validators; [None] is nil. *)
Definition then_check (a b : option error) : option error :=
  match a with Some e => Some e | None => b end.
Notation "'check' b 'else' e ;; k" :=
  (then_check (if b then None else Some e) k) (at level 100, b at next level, e at next level,
   right associativity).

Definition ErrDenom : error := CollErr ErrInvalidDenom.
Definition ErrTokenID : error := CollErr ErrInvalidTokenID.

(** IsIBCDenom *)
Definition IsIBCDenom (denomID : string) : bool := HasPrefix denomID "ibc/".

(** ValidateKeywords; the regular expression is [^(ibc).*] *)
Definition ValidateKeywords (denomID : string) : option error :=
  if HasPrefix denomID "ibc" then Some ErrDenom else None.

(** validateIBCClassID *)
Definition ibc_class_char (a : ascii) : bool :=
  is_lower a || is_upper a || is_digit a || Ascii.eqb a "/" || Ascii.eqb a "."
  || Ascii.eqb a "_" || Ascii.eqb a "-".

Definition validateIBCClassID (denomID : string) : option error :=
  let suffix := TrimPrefix denomID "ibc/" in
  check (suffix <>?s "") else ErrDenom ;;
  check (len denomID <=? MaxDenomLen) else ErrDenom ;;
  check (str_forallb ibc_class_char suffix) else ErrDenom ;;
  None.

(** regexpID: [^[a-z][a-zA-Z0-9/]{2,127}$] *)
Definition regexpID (s : string) : bool :=
  match s with
  | "" => false
  | String a r =>
      is_lower a && str_forallb (fun b => is_alnum b || Ascii.eqb b "/") r
      && (2 <=? len r) && (len r <=? 127)
  end.

(** regexpUptickSuffix: [^[a-zA-Z0-9-]+$] *)
Definition regexpUptickSuffix (s : string) : bool :=
  (s <>?s "") && str_forallb (fun b => is_alnum b || Ascii.eqb b "-") s.

(** ValidateDenomID *)
Definition ValidateDenomID (denomID : string) : option error :=
  check (negb (ContainsByte denomID nul)) else ErrDenom ;;
  check (negb (ContainsByte denomID ",")) else ErrDenom ;;
  if HasPrefix denomID "uptick-" then
    let suffix := TrimPrefix denomID "uptick-" in
    check (negb ((suffix =?s "") || ContainsByte suffix "/")) else ErrDenom ;;
    check (len denomID <=? MaxDenomLen) else ErrDenom ;;
    check (regexpUptickSuffix suffix) else ErrDenom ;;
    ValidateKeywords denomID
  else if IsIBCDenom denomID then validateIBCClassID denomID
  else
    check (regexpID denomID) else ErrDenom ;;
    ValidateKeywords denomID.

(** ValidateDenomMetadataBounds *)
Definition ValidateDenomMetadataBounds (schema data : string) : option error :=
  check (lenN schema <=? MaxDenomSchemaLen)%N else ErrDenom ;;
  check (lenN data <=? MaxDenomDataLen)%N else ErrDenom ;;
  None.

(** The loop of clampToValidUTF8Bound that walks back to a rune start:
    [for cut > 0 && cut < len(s) && !utf8.RuneStart(s[cut]) { cut-- }] *)
Fixpoint walk_back (s : string) (cut : nat) : nat :=
  match cut with
  | O => O
  | S c => match String.get cut s with
           | Some b => if RuneStart b then cut else walk_back s c
           | None => cut
           end
  end.

(** clampToValidUTF8Bound *)
Definition clampToValidUTF8Bound (s : string) (max : nat) : string * bool :=
  if (len s <=? max) && ValidString s then (s, false)
  else
    let cut := walk_back s (if len s <? max then len s else max) in
    let out := str_take cut s in
    ((if ValidString out then out else ToValidUTF8 out), true).

(** ClampDenomMetadataBounds *)
Definition ClampDenomMetadataBounds (schema data : string) : string * string * bool :=
  let '(clampedSchema, schemaChanged) := clampToValidUTF8Bound schema (N.to_nat MaxDenomSchemaLen) in
  let '(clampedData, dataChanged) := clampToValidUTF8Bound data (N.to_nat MaxDenomDataLen) in
  (clampedSchema, clampedData, schemaChanged || dataChanged).

(** validateIBCTokenID, ValidateTokenID, ValidateTokenIDForDenom *)
Definition validateIBCTokenID (tokenID : string) : option error :=
  check (negb ((tokenID =?s "") || (MaxDenomLen <? len tokenID))) else ErrTokenID ;;
  check (negb (ContainsByte tokenID nul || ContainsByte tokenID "/")) else ErrTokenID ;;
  None.

Definition ValidateTokenID (tokenID : string) : option error :=
  check (negb ((len tokenID <? MinDenomLen) || (MaxDenomLen <? len tokenID))) else ErrTokenID ;;
  check (negb (ContainsByte tokenID nul || ContainsByte tokenID "/")) else ErrTokenID ;;
  None.

Definition ValidateTokenIDForDenom (denomID tokenID : string) : option error :=
  if IsIBCDenom denomID then validateIBCTokenID tokenID else ValidateTokenID tokenID.

(** Modified, Modify *)
Definition Modified (target : string) : bool := (target <>?s DoNotModify) && (target <>?s "").

Definition Modify (origin target : string) : string :=
  if (target =?s DoNotModify) || (target =?s "") then origin
  else if target =?s RemoveField then "" else target.

(** isHexAddressShape: [^(0x)?[0-9a-fA-F]{40}$] *)
Definition is_hex_nibble (a : ascii) : bool :=
  is_digit a || in_range "a" "f" a || in_range "A" "F" a.
Definition hex40 (s : string) : bool := (len s =? 40) && str_forallb is_hex_nibble s.
Definition isHexAddressShape (s : string) : bool :=
  hex40 s || (HasPrefix s "0x" && hex40 (str_drop 2 s)).

Section WithSdk.
Context `{SdkLib}.

(** ValidateTokenURI *)
Definition ValidateTokenURI (tokenURI : string) : option error :=
  check (len tokenURI <=? MaxTokenURILen) else SdkErr ErrInvalidRequest ;;
  check (negb (ContainsByte tokenURI "010" || ContainsByte tokenURI "013"
               || ContainsByte tokenURI "009")) else SdkErr ErrInvalidRequest ;;
  match url_Parse_Scheme tokenURI with
  | None => Some (SdkErr ErrInvalidRequest)
  | Some scheme =>
      check ((scheme =?s "") || (scheme =?s "http") || (scheme =?s "https") || (scheme =?s "ipfs"))
        else SdkErr ErrInvalidRequest ;;
      None
  end.

(** ValidateIssueDenomID *)
Definition ValidateIssueDenomID (denomID : string) : option error :=
  check (negb (HasPrefix denomID "uptick-")) else ErrDenom ;;
  check (negb (HasPrefix denomID "ibc/")) else ErrDenom ;;
  match AccAddressFromBech32 denomID with
  | Some _ => Some ErrDenom
  | None =>
      check (negb (isHexAddressShape denomID)) else ErrDenom ;;
      ValidateDenomID denomID
  end.

(** NewBaseNFT *)
Definition NewBaseNFT (id name owner uri uriHash data : string) : BaseNFT :=
  MkBaseNFT id name uri data (acc_String owner) uriHash.

(** BaseNFT.GetOwner: [sdk.MustAccAddressFromBech32] panics on a bad address. *)
Definition GetOwner {S} (n : BaseNFT) : M S error string :=
  match AccAddressFromBech32 (BaseNFT_Owner n) with
  | Some a => mret a
  | None => panic
  end.

Definition run_check {S} (r : option error) : M S error unit :=
  match r with None => mret tt | Some e => throw e end.

(** The loop over the NFTs of one collection in ValidateGenesis. *)
Definition validate_genesis_nft {S} (denomID : string) (seen : gset string) (n : BaseNFT)
  : M S error (gset string) :=
  owner <- GetOwner n ;;
  guard (owner <>?s "") (SdkErr ErrInvalidAddress) ;;;
  run_check (ValidateTokenIDForDenom denomID (BaseNFT_Id n)) ;;;
  guard (bool_decide (BaseNFT_Id n ∉ seen)) (SdkErr ErrInvalidRequest) ;;;
  run_check (ValidateTokenURI (BaseNFT_URI n)) ;;;
  mret ({[BaseNFT_Id n]} ∪ seen).

Definition validate_genesis_collection {S} (seen : gset string) (c : Collection)
  : M S error (gset string) :=
  let d := Collection_Denom c in
  guard (Denom_Id d <>?s "") (SdkErr ErrInvalidRequest) ;;;
  run_check (ValidateDenomID (Denom_Id d)) ;;;
  guard (bool_decide (Denom_Id d ∉ seen)) (SdkErr ErrInvalidRequest) ;;;
  (if Denom_Creator d <>?s "" then
     lift_opt (AccAddressFromBech32 (Denom_Creator d)) (SdkErr ErrInvalidAddress) ;;; mret tt
   else mret tt) ;;;
  run_check (ValidateDenomMetadataBounds (Denom_Schema d) (Denom_Data d)) ;;;
  for_acc (Collection_NFTs c) ∅ (validate_genesis_nft (Denom_Id d)) ;;;
  mret ({[Denom_Id d]} ∪ seen).

(** ValidateGenesis *)
Definition ValidateGenesis {S} (data : GenesisState) : M S error unit :=
  for_acc (Collections data) ∅ validate_genesis_collection ;;; mret tt.

End WithSdk.

(** NewCollection on BaseNFT values: AddNFT appends them one by one. *)
Definition AddNFT (c : Collection) (n : BaseNFT) : Collection :=
  MkCollection (Collection_Denom c) (Collection_NFTs c ++ [n]).
Definition NewCollection (denom : Denom) (nfts : list BaseNFT) : Collection :=
  fold_left AddNFT nfts (MkCollection denom []).

(** The protobuf codec of the two metadata messages: [Any] values. *)
Class CollectionCodec := {
  NewAny_NFTMetadata : NFTMetadata -> error + string;
  Unmarshal_NFTMetadata : string -> error + NFTMetadata;
  NewAny_DenomMetadata : DenomMetadata -> error + string;
  Unmarshal_DenomMetadata : string -> error + DenomMetadata;
}.

Class CollectionCodecLaws `{CollectionCodec} : Prop := {
  NFTMetadata_total m : fits [nm_Name m; nm_Data m] -> exists bz, NewAny_NFTMetadata m = inr bz;
  NFTMetadata_roundtrip m bz : NewAny_NFTMetadata m = inr bz -> Unmarshal_NFTMetadata bz = inr m;
  DenomMetadata_total m : fits [dm_Creator m; dm_Schema m; dm_Data m] -> exists bz, NewAny_DenomMetadata m = inr bz;
  DenomMetadata_roundtrip m bz :
    NewAny_DenomMetadata m = inr bz -> Unmarshal_DenomMetadata bz = inr m;
}.

(** UnmarshalNFTMetadata *)
Definition UnmarshalNFTMetadata `{CollectionCodec} (bz : string) : error + NFTMetadata :=
  if bz =?s "" then inr (MkNFTMetadata "" "") else Unmarshal_NFTMetadata bz.

End CollectionTypes.
Export CollectionTypes.

(** ** Lemmas on the validators *)

Lemma then_check_None a b : then_check a b = None <-> a = None /\ b = None.
Proof. destruct a; simpl; naive_solver. Qed.

Lemma check_None (b : bool) (e : error) : (if b then None else Some e) = None <-> b = true.
Proof. destruct b; naive_solver. Qed.

Ltac checks H :=
  repeat (rewrite ?then_check_None, ?check_None, ?andb_true_iff, ?negb_true_iff, ?orb_false_iff in H);
  destruct_and? H.

(** A valid class id can be the class component of an NFT UID. *)
Lemma ValidateDenomID_no_comma d : ValidateDenomID d = None -> ContainsByte d "," = false.
Proof. unfold ValidateDenomID. intros H. by checks H. Qed.

Lemma ValidateDenomID_nonempty d : ValidateDenomID d = None -> d <> "".
Proof. by intros H ->. Qed.

(** A user-issued id is never of a shape reserved for module-derived classes. *)
Lemma ValidateIssueDenomID_unreserved `{SdkLib} d :
  ValidateIssueDenomID d = None ->
  HasPrefix d "uptick-" = false /\ IsIBCDenom d = false /\ isHexAddressShape d = false /\
  AccAddressFromBech32 d = None /\ ValidateDenomID d = None.
Proof.
  unfold ValidateIssueDenomID, IsIBCDenom. intros H'. checks H'.
  destruct (AccAddressFromBech32 d); [done|].
  match goal with HH : then_check _ _ = None |- _ => checks HH end. done.
Qed.

(** ** clampToValidUTF8Bound *)

Lemma walk_back_le s c : (walk_back s c <= c)%nat.
Proof. induction c as [|c IH]; simpl; [lia|]. repeat case_match; lia. Qed.

Lemma walk_back_start s c a :
  String.get (walk_back s c) s = Some a -> walk_back s c <> 0%nat -> RuneStart a = true.
Proof.
  induction c as [|c IH]; simpl; [done|].
  destruct (String.get (S c) s) as [b|] eqn:E; [|congruence].
  destruct (RuneStart b) eqn:Eb; [intros; congruence|]. auto.
Qed.

Lemma clamp_len s max : (len (fst (clampToValidUTF8Bound s max)) <= max)%nat.
Proof.
  unfold clampToValidUTF8Bound.
  destruct ((len s <=? max)%nat && ValidString s) eqn:E.
  - apply andb_true_iff in E as [E _]. by apply Nat.leb_le in E.
  - simpl. assert (len (str_take (walk_back s (if (len s <? max)%nat then len s else max)) s) <= max)%nat as Hl.
    { rewrite len_take. pose proof (walk_back_le s (if (len s <? max)%nat then len s else max)) as Hw.
      destruct (Nat.ltb_spec (len s) max); lia. }
    destruct (ValidString (str_take _ _)); [done|]. etransitivity; [apply len_tovalid_fuel|done].
Qed.

Lemma clamp_valid s max : ValidString (fst (clampToValidUTF8Bound s max)) = true.
Proof.
  unfold clampToValidUTF8Bound.
  destruct ((len s <=? max)%nat && ValidString s) eqn:E; simpl.
  - by apply andb_true_iff in E as [_ E].
  - destruct (ValidString (str_take _ _)) eqn:Ev; [done|]. apply ToValidUTF8_valid.
Qed.

Lemma clamp_unchanged s max :
  snd (clampToValidUTF8Bound s max) = false ->
  fst (clampToValidUTF8Bound s max) = s /\ (len s <= max)%nat.
Proof.
  unfold clampToValidUTF8Bound.
  destruct ((len s <=? max)%nat && ValidString s) eqn:E; simpl; [|done].
  apply andb_true_iff in E as [E _]. apply Nat.leb_le in E. done.
Qed.

Lemma clamp_prefix s max :
  ValidString s = true -> exists r, s = fst (clampToValidUTF8Bound s max) +:+ r.
Proof.
  intros Hv. unfold clampToValidUTF8Bound.
  destruct ((len s <=? max)%nat && ValidString s); [exists ""; by rewrite str_app_nil_r|].
  set (k := walk_back s _). cbn [fst].
  assert (ValidString (str_take k s) = true) as ->.
  { destruct (decide (k = 0%nat)) as [->|Hk]; [by destruct s|].
    apply ValidString_take; [done|]. intros a Ha. by eapply walk_back_start. }
  exists (str_drop k s). by rewrite str_take_drop.
Qed.
