(* ===== verification/CollectionPb.v ===== *)
(** x/collection/types/collection.pb.go: the generated marshallers of the metadata the module
    keeps in the Any field of an x/nft class or token and of the records of the store before
    x/nft, and that they discharge what the
    module assumes of its codec. *)
From S2P Require Import Prelude GoStrings Sdk Proto CollectionTypes.
Import Proto.
Open Scope go_scope.
#[local] Open Scope Z_scope.

Module CollectionPb.

Definition NFTMetadata_MarshalToSizedBuffer (m : NFTMetadata) : string :=
  put_string "010" (nm_Name m) +:+ put_string "018" (nm_Data m).
Definition NFTMetadata_Size (m : NFTMetadata) : Z := size_string (nm_Name m) + size_string (nm_Data m).
Definition NFTMetadata_Marshal (m : NFTMetadata) : error + string :=
  Marshal (NFTMetadata_Size m) (NFTMetadata_MarshalToSizedBuffer m).

Definition NFTMetadata_field (fieldNum wireType l : Z) (m : NFTMetadata) (s : string)
  : option (error + (NFTMetadata * string)) :=
  match fieldNum with
  | 1 => case (read_string "Name" wireType l s) (fun v => MkNFTMetadata v (nm_Data m))
  | 2 => case (read_string "Data" wireType l s) (fun v => MkNFTMetadata (nm_Name m) v)
  | _ => None
  end.
Definition NFTMetadata_Unmarshal : string -> error + NFTMetadata :=
  Unmarshal "NFTMetadata" NFTMetadata_field (MkNFTMetadata "" "").

Definition DenomMetadata_MarshalToSizedBuffer (m : DenomMetadata) : string :=
  put_string "010" (dm_Creator m) +:+ put_string "018" (dm_Schema m) +:+ put_bool "024" (dm_MintRestricted m) +:+
  put_bool "032" (dm_UpdateRestricted m) +:+ put_string "042" (dm_Data m).
Definition DenomMetadata_Size (m : DenomMetadata) : Z :=
  size_string (dm_Creator m) + size_string (dm_Schema m) + size_bool (dm_MintRestricted m) +
  size_bool (dm_UpdateRestricted m) + size_string (dm_Data m).
Definition DenomMetadata_Marshal (m : DenomMetadata) : error + string :=
  Marshal (DenomMetadata_Size m) (DenomMetadata_MarshalToSizedBuffer m).

Definition DenomMetadata_field (fieldNum wireType l : Z) (m : DenomMetadata) (s : string)
  : option (error + (DenomMetadata * string)) :=
  match fieldNum with
  | 1 => case (read_string "Creator" wireType l s) (fun v =>
           MkDenomMetadata v (dm_Schema m) (dm_MintRestricted m) (dm_UpdateRestricted m) (dm_Data m))
  | 2 => case (read_string "Schema" wireType l s) (fun v =>
           MkDenomMetadata (dm_Creator m) v (dm_MintRestricted m) (dm_UpdateRestricted m) (dm_Data m))
  | 3 => case (read_bool "MintRestricted" wireType s) (fun v =>
           MkDenomMetadata (dm_Creator m) (dm_Schema m) v (dm_UpdateRestricted m) (dm_Data m))
  | 4 => case (read_bool "UpdateRestricted" wireType s) (fun v =>
           MkDenomMetadata (dm_Creator m) (dm_Schema m) (dm_MintRestricted m) v (dm_Data m))
  | 5 => case (read_string "Data" wireType l s) (fun v =>
           MkDenomMetadata (dm_Creator m) (dm_Schema m) (dm_MintRestricted m) (dm_UpdateRestricted m) v)
  | _ => None
  end.
Definition DenomMetadata_Unmarshal : string -> error + DenomMetadata :=
  Unmarshal "DenomMetadata" DenomMetadata_field (MkDenomMetadata "" "" false false "").

(** The records of the store of version 1 *)
Definition BaseNFT_MarshalToSizedBuffer (m : BaseNFT) : string :=
  put_string "010" (BaseNFT_Id m) +:+ put_string "018" (BaseNFT_Name m) +:+ put_string "026" (BaseNFT_URI m) +:+
  put_string "034" (BaseNFT_Data m) +:+ put_string "042" (BaseNFT_Owner m) +:+ put_string "050" (BaseNFT_UriHash m).
Definition BaseNFT_Size (m : BaseNFT) : Z :=
  size_string (BaseNFT_Id m) + size_string (BaseNFT_Name m) + size_string (BaseNFT_URI m) +
  size_string (BaseNFT_Data m) + size_string (BaseNFT_Owner m) + size_string (BaseNFT_UriHash m).
Definition BaseNFT_Marshal (m : BaseNFT) : error + string :=
  Marshal (BaseNFT_Size m) (BaseNFT_MarshalToSizedBuffer m).

Definition BaseNFT_field (fieldNum wireType l : Z) (m : BaseNFT) (s : string)
  : option (error + (BaseNFT * string)) :=
  match fieldNum with
  | 1 => case (read_string "Id" wireType l s) (fun v =>
           MkBaseNFT v (BaseNFT_Name m) (BaseNFT_URI m) (BaseNFT_Data m) (BaseNFT_Owner m) (BaseNFT_UriHash m))
  | 2 => case (read_string "Name" wireType l s) (fun v =>
           MkBaseNFT (BaseNFT_Id m) v (BaseNFT_URI m) (BaseNFT_Data m) (BaseNFT_Owner m) (BaseNFT_UriHash m))
  | 3 => case (read_string "URI" wireType l s) (fun v =>
           MkBaseNFT (BaseNFT_Id m) (BaseNFT_Name m) v (BaseNFT_Data m) (BaseNFT_Owner m) (BaseNFT_UriHash m))
  | 4 => case (read_string "Data" wireType l s) (fun v =>
           MkBaseNFT (BaseNFT_Id m) (BaseNFT_Name m) (BaseNFT_URI m) v (BaseNFT_Owner m) (BaseNFT_UriHash m))
  | 5 => case (read_string "Owner" wireType l s) (fun v =>
           MkBaseNFT (BaseNFT_Id m) (BaseNFT_Name m) (BaseNFT_URI m) (BaseNFT_Data m) v (BaseNFT_UriHash m))
  | 6 => case (read_string "UriHash" wireType l s) (fun v =>
           MkBaseNFT (BaseNFT_Id m) (BaseNFT_Name m) (BaseNFT_URI m) (BaseNFT_Data m) (BaseNFT_Owner m) v)
  | _ => None
  end.
Definition BaseNFT_Unmarshal : string -> error + BaseNFT :=
  Unmarshal "BaseNFT" BaseNFT_field (MkBaseNFT "" "" "" "" "" "").

Definition Denom_MarshalToSizedBuffer (m : Denom) : string :=
  put_string "010" (Denom_Id m) +:+ put_string "018" (Denom_Name m) +:+ put_string "026" (Denom_Schema m) +:+
  put_string "034" (Denom_Creator m) +:+ put_string "042" (Denom_Symbol m) +:+ put_bool "048" (MintRestricted m) +:+
  put_bool "056" (UpdateRestricted m) +:+ put_string "066" (Denom_Description m) +:+
  put_string "074" (Denom_Uri m) +:+ put_string "082" (Denom_UriHash m) +:+ put_string "090" (Denom_Data m).
Definition Denom_Size (m : Denom) : Z :=
  size_string (Denom_Id m) + size_string (Denom_Name m) + size_string (Denom_Schema m) +
  size_string (Denom_Creator m) + size_string (Denom_Symbol m) + size_bool (MintRestricted m) +
  size_bool (UpdateRestricted m) + size_string (Denom_Description m) + size_string (Denom_Uri m) +
  size_string (Denom_UriHash m) + size_string (Denom_Data m).
Definition Denom_Marshal (m : Denom) : error + string :=
  Marshal (Denom_Size m) (Denom_MarshalToSizedBuffer m).

Definition Denom_field (fieldNum wireType l : Z) (m : Denom) (s : string)
  : option (error + (Denom * string)) :=
  match fieldNum with
  | 1 => case (read_string "Id" wireType l s) (fun v =>
           MkDenom v (Denom_Name m) (Denom_Schema m) (Denom_Creator m) (Denom_Symbol m) (MintRestricted m)
             (UpdateRestricted m) (Denom_Description m) (Denom_Uri m) (Denom_UriHash m) (Denom_Data m))
  | 2 => case (read_string "Name" wireType l s) (fun v =>
           MkDenom (Denom_Id m) v (Denom_Schema m) (Denom_Creator m) (Denom_Symbol m) (MintRestricted m)
             (UpdateRestricted m) (Denom_Description m) (Denom_Uri m) (Denom_UriHash m) (Denom_Data m))
  | 3 => case (read_string "Schema" wireType l s) (fun v =>
           MkDenom (Denom_Id m) (Denom_Name m) v (Denom_Creator m) (Denom_Symbol m) (MintRestricted m)
             (UpdateRestricted m) (Denom_Description m) (Denom_Uri m) (Denom_UriHash m) (Denom_Data m))
  | 4 => case (read_string "Creator" wireType l s) (fun v =>
           MkDenom (Denom_Id m) (Denom_Name m) (Denom_Schema m) v (Denom_Symbol m) (MintRestricted m)
             (UpdateRestricted m) (Denom_Description m) (Denom_Uri m) (Denom_UriHash m) (Denom_Data m))
  | 5 => case (read_string "Symbol" wireType l s) (fun v =>
           MkDenom (Denom_Id m) (Denom_Name m) (Denom_Schema m) (Denom_Creator m) v (MintRestricted m)
             (UpdateRestricted m) (Denom_Description m) (Denom_Uri m) (Denom_UriHash m) (Denom_Data m))
  | 6 => case (read_bool "MintRestricted" wireType s) (fun v =>
           MkDenom (Denom_Id m) (Denom_Name m) (Denom_Schema m) (Denom_Creator m) (Denom_Symbol m) v
             (UpdateRestricted m) (Denom_Description m) (Denom_Uri m) (Denom_UriHash m) (Denom_Data m))
  | 7 => case (read_bool "UpdateRestricted" wireType s) (fun v =>
           MkDenom (Denom_Id m) (Denom_Name m) (Denom_Schema m) (Denom_Creator m) (Denom_Symbol m)
             (MintRestricted m) v (Denom_Description m) (Denom_Uri m) (Denom_UriHash m) (Denom_Data m))
  | 8 => case (read_string "Description" wireType l s) (fun v =>
           MkDenom (Denom_Id m) (Denom_Name m) (Denom_Schema m) (Denom_Creator m) (Denom_Symbol m)
             (MintRestricted m) (UpdateRestricted m) v (Denom_Uri m) (Denom_UriHash m) (Denom_Data m))
  | 9 => case (read_string "Uri" wireType l s) (fun v =>
           MkDenom (Denom_Id m) (Denom_Name m) (Denom_Schema m) (Denom_Creator m) (Denom_Symbol m)
             (MintRestricted m) (UpdateRestricted m) (Denom_Description m) v (Denom_UriHash m) (Denom_Data m))
  | 10 => case (read_string "UriHash" wireType l s) (fun v =>
           MkDenom (Denom_Id m) (Denom_Name m) (Denom_Schema m) (Denom_Creator m) (Denom_Symbol m)
             (MintRestricted m) (UpdateRestricted m) (Denom_Description m) (Denom_Uri m) v (Denom_Data m))
  | 11 => case (read_string "Data" wireType l s) (fun v =>
           MkDenom (Denom_Id m) (Denom_Name m) (Denom_Schema m) (Denom_Creator m) (Denom_Symbol m)
             (MintRestricted m) (UpdateRestricted m) (Denom_Description m) (Denom_Uri m) (Denom_UriHash m) v)
  | _ => None
  end.
Definition Denom_Unmarshal : string -> error + Denom :=
  Unmarshal "Denom" Denom_field (MkDenom "" "" "" "" "" false false "" "" "" "").

(** ** Round trips *)

Lemma NFTMetadata_reads : reads NFTMetadata_field.
Proof. reads_tac NFTMetadata_field. Qed.
Lemma NFTMetadata_len m :
  NFTMetadata_Size m < 2 ^ 63 -> slen (NFTMetadata_MarshalToSizedBuffer m) = NFTMetadata_Size m.
Proof. unfold NFTMetadata_Size, NFTMetadata_MarshalToSizedBuffer. len_tac. Qed.
Lemma NFTMetadata_inverse m bz : NFTMetadata_Marshal m = inr bz -> NFTMetadata_Unmarshal bz = inr m.
Proof.
  intros [Hsize ->]%Marshal_ok. pose proof (NFTMetadata_len m Hsize) as Hl. unfold NFTMetadata_Unmarshal, Unmarshal.
  rewrite <- Hl in Hsize. clear Hl. unfold NFTMetadata_MarshalToSizedBuffer in *.
  fields_tac NFTMetadata_reads. destruct m as [[] []]; reflexivity.
Qed.

Lemma DenomMetadata_reads : reads DenomMetadata_field.
Proof. reads_tac DenomMetadata_field. Qed.
Lemma DenomMetadata_len m :
  DenomMetadata_Size m < 2 ^ 63 -> slen (DenomMetadata_MarshalToSizedBuffer m) = DenomMetadata_Size m.
Proof. unfold DenomMetadata_Size, DenomMetadata_MarshalToSizedBuffer. len_tac. Qed.
Lemma DenomMetadata_inverse m bz : DenomMetadata_Marshal m = inr bz -> DenomMetadata_Unmarshal bz = inr m.
Proof.
  intros [Hsize ->]%Marshal_ok. pose proof (DenomMetadata_len m Hsize) as Hl.
  unfold DenomMetadata_Unmarshal, Unmarshal. rewrite <- Hl in Hsize. clear Hl.
  unfold DenomMetadata_MarshalToSizedBuffer in *. fields_tac DenomMetadata_reads.
  destruct m as [[] [] [] [] []]; reflexivity.
Qed.
Lemma BaseNFT_reads : reads BaseNFT_field.
Proof. reads_tac BaseNFT_field. Qed.
Lemma BaseNFT_len m : BaseNFT_Size m < 2 ^ 63 -> slen (BaseNFT_MarshalToSizedBuffer m) = BaseNFT_Size m.
Proof. unfold BaseNFT_Size, BaseNFT_MarshalToSizedBuffer. len_tac. Qed.
Lemma BaseNFT_inverse m bz : BaseNFT_Marshal m = inr bz -> BaseNFT_Unmarshal bz = inr m.
Proof.
  intros [Hsize ->]%Marshal_ok. pose proof (BaseNFT_len m Hsize) as Hl.
  unfold BaseNFT_Unmarshal, Unmarshal. rewrite <- Hl in Hsize. clear Hl.
  unfold BaseNFT_MarshalToSizedBuffer in *.
  fields_tidy BaseNFT_reads ltac:(cbn [BaseNFT_Id BaseNFT_Name BaseNFT_URI BaseNFT_Data BaseNFT_Owner BaseNFT_UriHash]).
  by destruct m.
Qed.

Lemma Denom_reads : reads Denom_field.
Proof. reads_tac Denom_field. Qed.
Lemma Denom_len m : Denom_Size m < 2 ^ 63 -> slen (Denom_MarshalToSizedBuffer m) = Denom_Size m.
Proof. unfold Denom_Size, Denom_MarshalToSizedBuffer. len_tac. Qed.
Lemma Denom_inverse m bz : Denom_Marshal m = inr bz -> Denom_Unmarshal bz = inr m.
Proof.
  intros [Hsize ->]%Marshal_ok. pose proof (Denom_len m Hsize) as Hl.
  unfold Denom_Unmarshal, Unmarshal. rewrite <- Hl in Hsize. clear Hl.
  unfold Denom_MarshalToSizedBuffer in *.
  fields_tidy Denom_reads ltac:(cbn [Denom_Id Denom_Name Denom_Schema Denom_Creator Denom_Symbol MintRestricted
    UpdateRestricted Denom_Description Denom_Uri Denom_UriHash Denom_Data]).
  by destruct m.
Qed.
End CollectionPb.

(** The codec of the module: NewAnyWithValue marshals the message. *)
Definition collection_codec : CollectionCodec := {|
  NewAny_NFTMetadata := CollectionPb.NFTMetadata_Marshal;
  Unmarshal_NFTMetadata := CollectionPb.NFTMetadata_Unmarshal;
  NewAny_DenomMetadata := CollectionPb.DenomMetadata_Marshal;
  Unmarshal_DenomMetadata := CollectionPb.DenomMetadata_Unmarshal;
|}.

Lemma collection_codec_laws : @CollectionCodecLaws collection_codec.
Proof.
  split.
  - intros m Hm. eexists. apply Marshal_fits. pose proof (fits_total _ Hm) as Hs. cbn in Hs.
    apply fits_sizes in Hm. rewrite !Forall_cons in Hm. unfold CollectionPb.NFTMetadata_Size. lia.
  - apply CollectionPb.NFTMetadata_inverse.
  - intros m Hm. eexists. apply Marshal_fits. pose proof (fits_total _ Hm) as Hs. cbn in Hs.
    apply fits_sizes in Hm. rewrite !Forall_cons in Hm. unfold CollectionPb.DenomMetadata_Size.
    pose proof (size_bool_nonneg (dm_MintRestricted m)). pose proof (size_bool_nonneg (dm_UpdateRestricted m)). lia.
  - apply CollectionPb.DenomMetadata_inverse.
Qed.
