(* ===== verification/CollectionKeeper.v ===== *)
(** x/collection/keeper: the message server and the keeper operations on classes
    (denom.go), NFTs (nft.go) and the burn guard (converted_nft.go). *)
From S2P Require Import Prelude GoStrings Utf8 Sdk CollectionTypes.
Open Scope go_scope.

(** The interface x/collection asks the conversion modules to implement; [None]
    is the unwired slot of converted_nft.go. *)
Class ConvertedNFTChecker `{EthLib} `{SdkLib} `{NftKeeper} `{!EvmKeeper} `{!WasmState} := {
  converted_checker : option (Ctx -> string -> string -> bool);
}.

Module CollectionKeeper.
Section Keeper.
Context `{EthLib} `{SdkLib} `{NftKeeper} `{!EvmKeeper} `{!WasmState} `{CollectionCodec}
        `{!ConvertedNFTChecker}.

(** Keeper.IsConvertedNFT *)
Definition IsConvertedNFT (c : Ctx) (classID nftID : string) : bool :=
  match converted_checker with
  | None => false
  | Some f => f c classID nftID
  end.

(** ** denom.go *)

(** SaveDenom *)
Definition SaveDenom (id name schema symbol creator : string)
  (mintRestricted updateRestricted : bool) (description uri uriHash data : string) : GoM unit :=
  run_check (ValidateDenomID id) ;;;
  run_check (ValidateDenomMetadataBounds schema data) ;;;
  metadata <- lift_sum (NewAny_DenomMetadata
    (MkDenomMetadata (acc_String creator) schema mintRestricted updateRestricted data)) ;;
  nft_write (fun s => nk_SaveClass s
    {| Class_Id := id; Class_Name := name; Class_Symbol := symbol;
       Class_Description := description; Class_Uri := uri; Class_UriHash := uriHash;
       Class_Data := Some metadata |}).

(** GetDenomInfo *)
Definition GetDenomInfo (denomID : string) : GoM Denom :=
  c <- gets c_nft ;;
  class <- lift_opt (nk_GetClass c denomID) (CollErr ErrInvalidDenom) ;;
  denomMetadata <- (match Class_Data class with
                    | Some v => lift_sum (Unmarshal_DenomMetadata v)
                    | None => mret (MkDenomMetadata "" "" false false "")
                    end) ;;
  mret (MkDenom (Class_Id class) (Class_Name class) (dm_Schema denomMetadata)
          (dm_Creator denomMetadata) (Class_Symbol class) (dm_MintRestricted denomMetadata)
          (dm_UpdateRestricted denomMetadata) (Class_Description class) (Class_Uri class)
          (Class_UriHash class) (dm_Data denomMetadata)).

(** TransferDenomOwner *)
Definition TransferDenomOwner (denomID srcOwner dstOwner : string) : GoM unit :=
  denom <- GetDenomInfo denomID ;;
  creatorAcc <- lift_opt (AccAddressFromBech32 (Denom_Creator denom)) (ExtErr "invalid creator address") ;;
  guard (srcOwner =?s creatorAcc) (SdkErr ErrUnauthorized) ;;;
  data <- lift_sum (NewAny_DenomMetadata
    (MkDenomMetadata (acc_String dstOwner) (Denom_Schema denom) (MintRestricted denom)
       (UpdateRestricted denom) (Denom_Data denom))) ;;
  nft_write (fun s => nk_UpdateClass s
    {| Class_Id := Denom_Id denom; Class_Name := Denom_Name denom;
       Class_Symbol := Denom_Symbol denom; Class_Description := Denom_Description denom;
       Class_Uri := Denom_Uri denom; Class_UriHash := Denom_UriHash denom;
       Class_Data := Some data |}).

(** HasDenom *)
Definition HasDenom (c : Ctx) (denomID : string) : bool := nk_HasClass (c_nft c) denomID.

(** ** nft.go *)

(** SaveNFT *)
Definition SaveNFT (denomID tokenID tokenNm tokenURI tokenUriHash tokenData receiver : string)
  : GoM unit :=
  guard (denomID <>?s "") (SdkErr ErrInvalidRequest) ;;;
  guard (tokenID <>?s "") (SdkErr ErrInvalidRequest) ;;;
  guard (receiver <>?s "") (SdkErr ErrInvalidAddress) ;;;
  data <- lift_sum (NewAny_NFTMetadata (MkNFTMetadata tokenNm tokenData)) ;;
  nft_write (fun s => nk_Mint s
    {| NFT_ClassId := denomID; NFT_Id := tokenID; NFT_Uri := tokenURI;
       NFT_UriHash := tokenUriHash; NFT_Data := Some data |} receiver).

(** Authorize *)
Definition Authorize (denomID tokenID owner : string) : GoM unit :=
  c <- gets c_nft ;;
  guard (owner =?s nk_GetOwner c denomID tokenID) (CollErr ErrUnauthorizedAddress).

(** The metadata merge shared by UpdateNFT and TransferOwnership: an NFT without
    metadata starts from the empty value. *)
Definition merge_metadata (token : nft_NFT) (tokenNm tokenData : string) : GoM nft_NFT :=
  nftMetadata <- (match NFT_Data token with
                  | Some v => lift_sum (UnmarshalNFTMetadata v)
                  | None => mret (MkNFTMetadata "" "")
                  end) ;;
  data <- lift_sum (NewAny_NFTMetadata
    (MkNFTMetadata (Modify (nm_Name nftMetadata) tokenNm) (Modify (nm_Data nftMetadata) tokenData))) ;;
  mret {| NFT_ClassId := NFT_ClassId token; NFT_Id := NFT_Id token; NFT_Uri := NFT_Uri token;
          NFT_UriHash := NFT_UriHash token; NFT_Data := Some data |}.

Definition with_uri (token : nft_NFT) (tokenURI tokenURIHash : string) : nft_NFT :=
  {| NFT_ClassId := NFT_ClassId token; NFT_Id := NFT_Id token;
     NFT_Uri := Modify (NFT_Uri token) tokenURI;
     NFT_UriHash := Modify (NFT_UriHash token) tokenURIHash; NFT_Data := NFT_Data token |}.

(** UpdateNFT *)
Definition UpdateNFT (denomID tokenID tokenNm tokenURI tokenURIHash tokenData owner : string)
  : GoM unit :=
  denom <- GetDenomInfo denomID ;;
  guard (negb (UpdateRestricted denom)) (SdkErr ErrUnauthorized) ;;;
  c <- gets c_nft ;;
  token <- lift_opt (nk_GetNFT c denomID tokenID) (CollErr ErrUnknownNFT) ;;
  Authorize denomID tokenID owner ;;;
  if negb (Modified tokenURI) && negb (Modified tokenURIHash) && negb (Modified tokenNm)
     && negb (Modified tokenData)
  then mret tt
  else
    token' <- (if Modified tokenNm || Modified tokenData
               then merge_metadata (with_uri token tokenURI tokenURIHash) tokenNm tokenData
               else mret (with_uri token tokenURI tokenURIHash)) ;;
    nft_write (fun s => nk_Update s token').

(** tokenMetadataChanged of TransferOwnership *)
Definition token_metadata_changed (token : nft_NFT) (tokenNm tokenData : string) : GoM bool :=
  if Modified tokenNm || Modified tokenData then
    match NFT_Data token with
    | None => mret true
    | Some v =>
        m <- lift_sum (UnmarshalNFTMetadata v) ;;
        mret ((Modified tokenNm && (tokenNm <>?s nm_Name m))
              || (Modified tokenData && (tokenData <>?s nm_Data m)))
    end
  else mret false.

(** TransferOwnership *)
Definition TransferOwnership
  (denomID tokenID tokenNm tokenURI tokenURIHash tokenData srcOwner dstOwner : string) : GoM unit :=
  c <- gets c_nft ;;
  token <- lift_opt (nk_GetNFT c denomID tokenID) (CollErr ErrInvalidTokenID) ;;
  Authorize denomID tokenID srcOwner ;;;
  denom <- GetDenomInfo denomID ;;
  let tokenChanged := (Modified tokenURI && (tokenURI <>?s NFT_Uri token))
                      || (Modified tokenURIHash && (tokenURIHash <>?s NFT_UriHash token)) in
  tokenMetadataChanged <- token_metadata_changed token tokenNm tokenData ;;
  guard (negb (UpdateRestricted denom && (tokenChanged || tokenMetadataChanged)))
        (SdkErr ErrUnauthorized) ;;;
  if negb tokenChanged && negb tokenMetadataChanged
  then nft_write (fun s => nk_Transfer s denomID tokenID dstOwner)
  else
    token' <- (if tokenMetadataChanged
               then merge_metadata (with_uri token tokenURI tokenURIHash) tokenNm tokenData
               else mret (with_uri token tokenURI tokenURIHash)) ;;
    nft_write (fun s => nk_Update s token') ;;;
    nft_write (fun s => nk_Transfer s denomID tokenID dstOwner).

(** RemoveNFT *)
Definition RemoveNFT (denomID tokenID owner : string) : GoM unit :=
  c <- gets c_nft ;;
  lift_opt (nk_GetNFT c denomID tokenID) (CollErr ErrUnknownNFT) ;;;
  Authorize denomID tokenID owner ;;;
  converted <- gets (fun c => IsConvertedNFT c denomID tokenID) ;;
  guard (negb converted) (CollErr ErrNFTBoundToContract) ;;;
  nft_write (fun s => nk_Burn s denomID tokenID).

(** Metadata as the read paths see it: undecodable data degrades to empty. *)
Definition read_metadata (token : nft_NFT) : NFTMetadata :=
  match NFT_Data token with
  | None => MkNFTMetadata "" ""
  | Some v => match Unmarshal_NFTMetadata v with
              | inr m => m
              | inl _ => MkNFTMetadata "" ""
              end
  end.

Definition base_nft (s : nft_state) (denomID : string) (token : nft_NFT) : BaseNFT :=
  let m := read_metadata token in
  MkBaseNFT (NFT_Id token) (nm_Name m) (NFT_Uri token) (nm_Data m)
    (acc_String (nk_GetOwner s denomID (NFT_Id token))) (NFT_UriHash token).

(** GetNFT *)
Definition GetNFT (denomID tokenID : string) : GoM BaseNFT :=
  s <- gets c_nft ;;
  token <- lift_opt (nk_GetNFT s denomID tokenID) (CollErr ErrUnknownNFT) ;;
  let m := read_metadata token in
  mret (MkBaseNFT (NFT_Id token) (nm_Name m) (NFT_Uri token) (nm_Data m)
          (acc_String (nk_GetOwner s denomID tokenID)) (NFT_UriHash token)).

(** GetNFTs; it never fails, the error return of the source is always nil. *)
Definition GetNFTs (s : nft_state) (denom : string) : list BaseNFT :=
  base_nft s denom <$> nk_GetNFTsOfClass s denom.

(** HasNFT, Keeper.GetOwner *)
Definition HasNFT (c : Ctx) (denomID tokenID : string) : bool := nk_HasNFT (c_nft c) denomID tokenID.
Definition keeper_GetOwner (c : Ctx) (classID nftID : string) : string := nk_GetOwner (c_nft c) classID nftID.

(** ** msg_server.go *)
Record MsgIssueDenom := MkMsgIssueDenom {
  mi_Id : string; mi_Name : string; mi_Schema : string; mi_Sender : string; mi_Symbol : string;
  mi_MintRestricted : bool; mi_UpdateRestricted : bool; mi_Description : string;
  mi_Uri : string; mi_UriHash : string; mi_Data : string }.
Record MsgMintNFT := MkMsgMintNFT {
  mm_Id : string; mm_DenomId : string; mm_Name : string; mm_URI : string; mm_UriHash : string;
  mm_Data : string; mm_Sender : string; mm_Recipient : string }.
Record MsgEditNFT := MkMsgEditNFT {
  me_Id : string; me_DenomId : string; me_Name : string; me_URI : string; me_UriHash : string;
  me_Data : string; me_Sender : string }.
Record MsgTransferNFT := MkMsgTransferNFT {
  mt_Id : string; mt_DenomId : string; mt_Name : string; mt_URI : string; mt_UriHash : string;
  mt_Data : string; mt_Sender : string; mt_Recipient : string }.
Record MsgBurnNFT := MkMsgBurnNFT { mb_Id : string; mb_DenomId : string; mb_Sender : string }.
Record MsgTransferDenom := MkMsgTransferDenom {
  md_Id : string; md_Sender : string; md_Recipient : string }.

Definition message_event (sender : string) : Event :=
  NewEvent "message" [("module", "collection"); ("sender", sender)].

Definition bech32 (s : string) : GoM string :=
  lift_opt (AccAddressFromBech32 s) (ExtErr "bech32").

(** IssueDenom *)
Definition IssueDenom (msg : MsgIssueDenom) : GoM unit :=
  sender <- bech32 (mi_Sender msg) ;;
  run_check (ValidateIssueDenomID (mi_Id msg)) ;;;
  SaveDenom (mi_Id msg) (mi_Name msg) (mi_Schema msg) (mi_Symbol msg) sender
    (mi_MintRestricted msg) (mi_UpdateRestricted msg) (mi_Description msg) (mi_Uri msg)
    (mi_UriHash msg) (mi_Data msg) ;;;
  EmitEvents [NewEvent "issue_denom"
                [("denom_id", mi_Id msg); ("denom_name", mi_Name msg); ("creator", mi_Sender msg)];
              message_event (mi_Sender msg)].

(** MintNFT *)
Definition MintNFT (msg : MsgMintNFT) : GoM unit :=
  recipient <- bech32 (mm_Recipient msg) ;;
  sender <- bech32 (mm_Sender msg) ;;
  denom <- GetDenomInfo (mm_DenomId msg) ;;
  guard (negb (MintRestricted denom && (Denom_Creator denom <>?s acc_String sender)))
        (SdkErr ErrUnauthorized) ;;;
  SaveNFT (mm_DenomId msg) (mm_Id msg) (mm_Name msg) (mm_URI msg) (mm_UriHash msg) (mm_Data msg)
    recipient ;;;
  EmitEvents [NewEvent "mint_nft"
                [("token_id", mm_Id msg); ("denom_id", mm_DenomId msg); ("token_uri", mm_URI msg);
                 ("recipient", mm_Recipient msg)];
              message_event (mm_Sender msg)].

(** EditNFT *)
Definition EditNFT (msg : MsgEditNFT) : GoM unit :=
  sender <- bech32 (me_Sender msg) ;;
  UpdateNFT (me_DenomId msg) (me_Id msg) (me_Name msg) (me_URI msg) (me_UriHash msg) (me_Data msg)
    sender ;;;
  EmitEvents [NewEvent "edit_nft"
                [("token_id", me_Id msg); ("denom_id", me_DenomId msg); ("token_uri", me_URI msg);
                 ("owner", me_Sender msg)];
              message_event (me_Sender msg)].

(** TransferNFT *)
Definition TransferNFT (msg : MsgTransferNFT) : GoM unit :=
  sender <- bech32 (mt_Sender msg) ;;
  recipient <- bech32 (mt_Recipient msg) ;;
  TransferOwnership (mt_DenomId msg) (mt_Id msg) (mt_Name msg) (mt_URI msg) (mt_UriHash msg)
    (mt_Data msg) sender recipient ;;;
  EmitEvents [NewEvent "transfer_nft"
                [("token_id", mt_Id msg); ("denom_id", mt_DenomId msg); ("sender", mt_Sender msg);
                 ("recipient", mt_Recipient msg)];
              message_event (mt_Sender msg)].

(** BurnNFT *)
Definition BurnNFT (msg : MsgBurnNFT) : GoM unit :=
  sender <- bech32 (mb_Sender msg) ;;
  RemoveNFT (mb_DenomId msg) (mb_Id msg) sender ;;;
  EmitEvents [NewEvent "burn_nft"
                [("denom_id", mb_DenomId msg); ("token_id", mb_Id msg); ("owner", mb_Sender msg)];
              message_event (mb_Sender msg)].

(** TransferDenom *)
Definition TransferDenom (msg : MsgTransferDenom) : GoM unit :=
  sender <- bech32 (md_Sender msg) ;;
  recipient <- bech32 (md_Recipient msg) ;;
  TransferDenomOwner (md_Id msg) sender recipient ;;;
  EmitEvents [NewEvent "transfer_denom"
                [("denom_id", md_Id msg); ("sender", md_Sender msg); ("recipient", md_Recipient msg)];
              message_event (md_Sender msg)].

End Keeper.
End CollectionKeeper.
Export CollectionKeeper.

(** ** What a successful operation did *)

Section Effects.
Context `{EthLib} `{SdkLib} `{NftKeeper} `{!EvmKeeper} `{!WasmState} `{CollectionCodec}
        `{!ConvertedNFTChecker}.
Implicit Types c : Ctx.

(** Only the x/nft store and the event list differ. *)
Definition nft_only (c c' : Ctx) : Prop :=
  c_erc c' = c_erc c /\ c_evm c' = c_evm c /\ c_gas c' = c_gas c /\ c_cw c' = c_cw c /\
  c_wasm c' = c_wasm c.

Lemma nft_only_refl c : nft_only c c.
Proof. done. Qed.

Lemma nft_only_trans c1 c2 c3 : nft_only c1 c2 -> nft_only c2 c3 -> nft_only c1 c3.
Proof. unfold nft_only. intuition congruence. Qed.

Lemma nft_write_only f c u c' : nft_write f c = Ok u c' -> nft_only c c'.
Proof. intros (s & _ & ->)%nft_write_ok. done. Qed.

Lemma EmitEvents_ok l c u c' :
  EmitEvents l c = Ok u c' -> c' = set_events c (c_events c ++ l).
Proof. unfold EmitEvents, modify. naive_solver. Qed.

Lemma Authorize_ok d i o c u c' :
  Authorize d i o c = Ok u c' -> o = nk_GetOwner (c_nft c) d i /\ c' = c.
Proof.
  unfold Authorize. intros Hr. go_simp.
  match goal with H : (_ =?s _) = true |- _ => apply str_eqb_true in H end. done.
Qed.

Lemma bech32_ok s c a c' : bech32 s c = Ok a c' -> AccAddressFromBech32 s = Some a /\ c' = c.
Proof. apply lift_opt_ok. Qed.

Lemma run_check_ok {S} r (s : S) u s' : run_check r s = Ok u s' -> r = None /\ s' = s.
Proof. destruct r; cbv; naive_solver. Qed.

Lemma GetDenomInfo_ok d c den c' :
  GetDenomInfo d c = Ok den c' -> c' = c /\ exists cl,
    nk_GetClass (c_nft c) d = Some cl /\ Denom_Id den = Class_Id cl.
Proof.
  unfold GetDenomInfo. intros Hr. go_simp.
  match goal with H : nk_GetClass _ _ = Some ?cl |- _ => rename cl into class end.
  destruct (Class_Data class); go_simp; eauto.
Qed.

Lemma merge_metadata_ok t n d c t' c' :
  merge_metadata t n d c = Ok t' c' ->
  c' = c /\ NFT_ClassId t' = NFT_ClassId t /\ NFT_Id t' = NFT_Id t.
Proof.
  unfold merge_metadata. intros Hr. go_simp. destruct (NFT_Data t); go_simp; done.
Qed.

Lemma token_metadata_changed_ok t n d c b c' :
  token_metadata_changed t n d c = Ok b c' -> c' = c.
Proof.
  unfold token_metadata_changed. intros Hr.
  destruct (_ || _); [destruct (NFT_Data t)|]; go_simp; done.
Qed.

Lemma SaveNFT_ok d i nm u uh da r c x c' :
  SaveNFT d i nm u uh da r c = Ok x c' ->
  r <> "" /\ exists bz s', NewAny_NFTMetadata (MkNFTMetadata nm da) = inr bz /\
    nk_Mint (c_nft c) {| NFT_ClassId := d; NFT_Id := i; NFT_Uri := u; NFT_UriHash := uh;
                         NFT_Data := Some bz |} r = inr s' /\ c' = set_nft c s'.
Proof.
  unfold SaveNFT. intros Hr. go_simp.
  match goal with H : nft_write _ _ = _ |- _ => apply nft_write_ok in H as (s' & ? & ->) end.
  split; [by apply str_neqb_true|eauto 6].
Qed.

Context `{!NftLaws}.

(** Owners and tokens of every other NFT are those of the state before. *)
Definition others_kept (d i : string) (s s' : nft_state) : Prop :=
  same_classes s s' /\
  forall cl k, (cl, k) <> (d, i) ->
    nk_GetNFT s' cl k = nk_GetNFT s cl k /\ nk_GetOwner s' cl k = nk_GetOwner s cl k.

Lemma others_kept_trans d i s1 s2 s3 :
  others_kept d i s1 s2 -> others_kept d i s2 s3 -> others_kept d i s1 s3.
Proof.
  intros [A1 B1] [A2 B2]. split; [intros cl; by rewrite A2, A1|].
  intros cl k Hne. destruct (B1 cl k Hne), (B2 cl k Hne). split; congruence.
Qed.

Lemma Transfer_effect s d i r s' :
  nk_Transfer s d i r = inr s' ->
  others_kept d i s s' /\ nk_GetNFT s' d i = nk_GetNFT s d i /\ nk_GetOwner s' d i = r.
Proof.
  intros (Hn & Hc & Ht & Ho)%Transfer_spec. split; [|split].
  - split; [done|]. intros cl k Hne. split; [apply Ht|].
    rewrite Ho. by rewrite decide_False.
  - apply Ht.
  - rewrite Ho. by rewrite decide_True.
Qed.

Lemma Update_effect s d i t s' :
  NFT_ClassId t = d -> NFT_Id t = i -> nk_Update s t = inr s' -> others_kept d i s s'.
Proof.
  intros <- <- (Hn & Hc & Ho & Hg)%Update_spec. split; [done|].
  intros cl k Hne. split; [|apply Ho]. rewrite Hg. by rewrite decide_False.
Qed.

Lemma Burn_effect s d i s' :
  nk_Burn s d i = inr s' ->
  others_kept d i s s' /\ nk_GetNFT s' d i = None.
Proof.
  intros (Hn & Hc & Hg & Ho)%Burn_spec. split.
  - split; [done|]. intros cl k Hne. rewrite Hg, Ho. by rewrite !decide_False.
  - rewrite Hg. by rewrite decide_True.
Qed.

Lemma Mint_effect s n r s' :
  nk_Mint s n r = inr s' ->
  others_kept (NFT_ClassId n) (NFT_Id n) s s' /\
  nk_GetNFT s (NFT_ClassId n) (NFT_Id n) = None /\
  nk_GetNFT s' (NFT_ClassId n) (NFT_Id n) = Some n /\
  nk_GetOwner s' (NFT_ClassId n) (NFT_Id n) = r.
Proof.
  intros (Hcl & Hn & Hc & Hg & Ho)%Mint_spec. split; [|split; [done|]].
  - split; [done|]. intros cl k Hne. rewrite Hg, Ho. by rewrite !decide_False.
  - rewrite Hg, Ho. by rewrite !decide_True.
Qed.

(** TransferOwnership: the source owned the NFT, the destination does now, and a
    class whose updates are restricted keeps the NFT's content unchanged. *)
Lemma TransferOwnership_ok d i nm u uh da src dst c x c' :
  TransferOwnership d i nm u uh da src dst c = Ok x c' ->
  nk_GetOwner (c_nft c) d i = src /\ nk_GetOwner (c_nft c') d i = dst /\
  nk_GetNFT (c_nft c) d i <> None /\
  others_kept d i (c_nft c) (c_nft c') /\ nft_only c c' /\ c_events c' = c_events c /\
  (forall den c1, GetDenomInfo d c = Ok den c1 -> UpdateRestricted den = true ->
     nk_GetNFT (c_nft c') d i = nk_GetNFT (c_nft c) d i).
Proof.
  unfold TransferOwnership. intros Hr.
  go_simp.
  match goal with H : Authorize _ _ _ _ = _ |- _ => apply Authorize_ok in H as [-> ->] end.
  match goal with H : GetDenomInfo _ _ = _ |- _ =>
    pose proof H as Hden; apply GetDenomInfo_ok in H as (-> & cl & Hcl & Hid) end.
  match goal with H : token_metadata_changed _ _ _ _ = _ |- _ =>
    apply token_metadata_changed_ok in H as -> end.
  match goal with H : nk_GetNFT _ _ _ = Some ?t |- _ => rename H into Ht; rename t into token end.
  pose proof (GetNFT_Id _ _ _ _ Ht) as [Hd Hi].
  split; [done|].
  match goal with H : (if ?b then _ else _) _ = Ok _ _ |- _ => destruct b eqn:Eb; rename H into Hw end.
  - apply nft_write_ok in Hw as (s' & Hw & ->). simpl.
    destruct (Transfer_effect _ _ _ _ _ Hw) as (Hk & Hg & Ho).
    split; [done|]. split; [congruence|]. split; [done|]. by split_and!.
  - apply mbind_ok in Hw as (t' & c1 & Ht' & Hw).
    assert (c1 = c /\ NFT_ClassId t' = d /\ NFT_Id t' = i) as (-> & Hd' & Hi').
    { destruct (_ : bool) in Ht'; [apply merge_metadata_ok in Ht' as (-> & ? & ?)|inv Ht'];
        simpl in *; subst; done. }
    apply mbind_ok in Hw as (y & c2 & Hu & Hw).
    apply nft_write_ok in Hu as (s1 & Hu & ->). apply nft_write_ok in Hw as (s2 & Hw & ->). simpl in *.
    destruct (Transfer_effect _ _ _ _ _ Hw) as (Hk & Hg & Ho).
    pose proof (Update_effect _ d i _ _ Hd' Hi' Hu) as Hk1.
    split; [done|]. split; [congruence|].
    split; [by eapply others_kept_trans|]. split; [done|]. split; [done|].
    intros den c3 Hden' Hur. rewrite Hden in Hden'. inv Hden'.
    match goal with H : negb (_ && _) = true |- _ =>
      rewrite Hur in H; simpl in H; rename H into Hneg end.
    rewrite negb_orb in Hneg. congruence.
Qed.

(** RemoveNFT: refuses unless the owner asks and no contract token is bound. *)
Lemma RemoveNFT_ok d i o c x c' :
  RemoveNFT d i o c = Ok x c' ->
  nk_GetOwner (c_nft c) d i = o /\ IsConvertedNFT c d i = false /\
  nk_GetNFT (c_nft c) d i <> None /\ nk_GetNFT (c_nft c') d i = None /\
  others_kept d i (c_nft c) (c_nft c') /\ nft_only c c' /\ c_events c' = c_events c.
Proof.
  unfold RemoveNFT. intros Hr. go_simp.
  match goal with H : Authorize _ _ _ _ = _ |- _ => apply Authorize_ok in H as [-> ->] end.
  go_simp. match goal with H : nft_write _ _ = _ |- _ => apply nft_write_ok in H as (s' & Hw & ->) end.
  destruct (Burn_effect _ _ _ _ Hw) as [Hk Hg].
  split; [done|]. split; [by apply negb_true_iff|]. split; [congruence|]. done.
Qed.

Lemma MintNFT_ok msg c x c' :
  MintNFT msg c = Ok x c' ->
  exists r n, AccAddressFromBech32 (mm_Recipient msg) = Some r /\
    NFT_ClassId n = mm_DenomId msg /\ NFT_Id n = mm_Id msg /\ NFT_Uri n = mm_URI msg /\
    nk_GetNFT (c_nft c) (mm_DenomId msg) (mm_Id msg) = None /\
    nk_GetNFT (c_nft c') (mm_DenomId msg) (mm_Id msg) = Some n /\
    nk_GetOwner (c_nft c') (mm_DenomId msg) (mm_Id msg) = r /\
    others_kept (mm_DenomId msg) (mm_Id msg) (c_nft c) (c_nft c') /\ nft_only c c'.
Proof.
  unfold MintNFT. intros Hr. go_simp.
  repeat match goal with H : bech32 _ _ = _ |- _ => apply bech32_ok in H as [? ->] end.
  match goal with H : GetDenomInfo _ _ = _ |- _ => apply GetDenomInfo_ok in H as (-> & ?) end.
  match goal with H : SaveNFT _ _ _ _ _ _ _ _ = _ |- _ =>
    apply SaveNFT_ok in H as (? & bz & s' & ? & Hm & ->) end.
  match goal with H : EmitEvents _ _ = _ |- _ => apply EmitEvents_ok in H as -> end.
  apply Mint_effect in Hm as (Hk & Hn & Hg & Ho). simpl in *.
  eexists _, _. split; [eassumption|]. split_and!; try done; done.
Qed.

Lemma TransferNFT_ok msg c x c' :
  TransferNFT msg c = Ok x c' ->
  exists src dst, AccAddressFromBech32 (mt_Sender msg) = Some src /\
    AccAddressFromBech32 (mt_Recipient msg) = Some dst /\
    nk_GetOwner (c_nft c) (mt_DenomId msg) (mt_Id msg) = src /\
    nk_GetOwner (c_nft c') (mt_DenomId msg) (mt_Id msg) = dst /\
    nk_GetNFT (c_nft c) (mt_DenomId msg) (mt_Id msg) <> None /\
    others_kept (mt_DenomId msg) (mt_Id msg) (c_nft c) (c_nft c') /\ nft_only c c' /\
    (forall den c1, GetDenomInfo (mt_DenomId msg) c = Ok den c1 -> UpdateRestricted den = true ->
       nk_GetNFT (c_nft c') (mt_DenomId msg) (mt_Id msg)
       = nk_GetNFT (c_nft c) (mt_DenomId msg) (mt_Id msg)).
Proof.
  unfold TransferNFT. intros Hr. go_simp.
  repeat match goal with H : bech32 _ _ = _ |- _ => apply bech32_ok in H as [? ->] end.
  match goal with H : TransferOwnership _ _ _ _ _ _ _ _ _ = _ |- _ =>
    apply TransferOwnership_ok in H as (? & ? & ? & ? & ? & ? & ?) end.
  match goal with H : EmitEvents _ _ = _ |- _ => apply EmitEvents_ok in H as -> end.
  simpl. eexists _, _. by split_and!.
Qed.

Lemma BurnNFT_ok msg c x c' :
  BurnNFT msg c = Ok x c' ->
  exists src, AccAddressFromBech32 (mb_Sender msg) = Some src /\
    nk_GetOwner (c_nft c) (mb_DenomId msg) (mb_Id msg) = src /\
    IsConvertedNFT c (mb_DenomId msg) (mb_Id msg) = false /\
    nk_GetNFT (c_nft c') (mb_DenomId msg) (mb_Id msg) = None /\
    others_kept (mb_DenomId msg) (mb_Id msg) (c_nft c) (c_nft c') /\ nft_only c c'.
Proof.
  unfold BurnNFT. intros Hr. go_simp.
  match goal with H : bech32 _ _ = _ |- _ => apply bech32_ok in H as [? ->] end.
  match goal with H : RemoveNFT _ _ _ _ = _ |- _ =>
    apply RemoveNFT_ok in H as (? & ? & ? & ? & ? & ? & ?) end.
  match goal with H : EmitEvents _ _ = _ |- _ => apply EmitEvents_ok in H as -> end.
  simpl. eexists. by split_and!.
Qed.
End Effects.

#[export] Hint Resolve nft_only_refl nft_only_trans nft_write_only : go.
