(* ===== verification/CollectionV2.v ===== *)
(** x/collection/migrations/v2: the move of the denoms and NFTs of the module's own store into
    the layout of x/nft (store.go, keeper.go, keys.go), in the same key-value store, and the
    check before it (precheck.go) with its command (cmd/uptickd).  keeper/migrations.go runs it
    with SaveDenom of the keeper, which is that of CollectionKeeper.v.

    Records of both layouts share the store and their prefix bytes; the theorem is that none
    overwrites or hides another. *)
From S2P Require Import Prelude GoStrings GoJson Sdk CollectionTypes Proto CollectionPb CollectionKeeper.
Open Scope go_scope.
Open Scope list_scope.

(** ** cosmossdk.io/x/nft and the SDK: the key layout and the codecs *)
Class NftLayout := {
  ClassKey : string; NFTKey : string; NFTOfClassByOwnerKey : string; OwnerKey : string;
  ClassTotalSupply : string; Delimiter : string; Placeholder : string;
  MustMarshal_NFT : nft_NFT -> string;
  MustMarshal_Class : nft_Class -> string;
  MustLengthPrefix : string -> string;             (** address.MustLengthPrefix *)
  BigEndianToUint64 : string -> Z;
  Uint64ToBigEndian : Z -> string;
  bech32_error : string -> error;                  (** the error of AccAddressFromBech32 *)
}.

(** x/nft/keeper/keys.go *)
Class NftLayoutLaws `{NftLayout} : Prop := {
  lay_ClassKey : ClassKey = String "001" ""; lay_NFTKey : NFTKey = String "002" "";
  lay_ByOwner : NFTOfClassByOwnerKey = String "003" ""; lay_OwnerKey : OwnerKey = String "004" "";
  lay_Supply : ClassTotalSupply = String "005" ""; lay_Delimiter : Delimiter = String "000" "";
  lay_uint64 n : (0 <= n < 2 ^ 64)%Z -> BigEndianToUint64 (Uint64ToBigEndian n) = n;
}.

(** The x/nft keeper on the key-value store of the module: what it sees of the store, and
    the store after its writes. *)
Class NftOnStore `{NftKeeper} := {
  nft_view : gmap string string -> nft_state;
  nft_put : gmap string string -> nft_state -> gmap string string;
}.

(** x/nft/keeper/class.go: SaveClass of a class that is not there sets its record. *)
Class NftOnStoreLaws `{NftOnStore} `{NftLayout} : Prop := {
  SaveClass_store s cl : s !! (ClassKey +:+ Class_Id cl) = None ->
    exists n, nk_SaveClass (nft_view s) cl = inr n /\
      nft_put s n = <[ClassKey +:+ Class_Id cl := MustMarshal_Class cl]> s;
}.

Module CollectionV2.

(** ** keys.go *)
Definition PrefixNFT : string := String "001" "".
Definition PrefixOwners : string := String "002" "".
Definition PrefixCollection : string := String "003" "".
Definition PrefixDenom : string := String "004" "".
Definition PrefixDenomName : string := String "005" "".
Definition delimiter : string := "/".

Definition KeyDenom (id : string) : string := PrefixDenom +:+ delimiter +:+ id.
Definition KeyDenomName (name : string) : string := PrefixDenomName +:+ delimiter +:+ name.
Definition KeyNFT (denomID tokenID : string) : string :=
  let key := PrefixNFT +:+ delimiter in
  let key := if (0 <? len denomID) then key +:+ denomID +:+ delimiter else key in
  if (0 <? len denomID) && (0 <? len tokenID) then key +:+ tokenID else key.
Definition KeyCollection (denomID : string) : string := PrefixCollection +:+ delimiter +:+ denomID.

(** The store of the module, in which x/nft keeps its records too *)
Notation store := (gmap string string).

Section V2.
Context `{SdkLib} `{NftLayout} `{CollectionCodec} `{FmtLib}.

(** [None] is the nil address *)
Definition KeyOwner (address : option string) (denomID tokenID : string) : string :=
  let key := PrefixOwners +:+ delimiter in
  match address with
  | None => key
  | Some address =>
      let key := key +:+ acc_String address +:+ delimiter in
      let key := if (0 <? len denomID) then key +:+ denomID +:+ delimiter else key in
      if (0 <? len denomID) && (0 <? len tokenID) then key +:+ tokenID else key
  end.

(** ** keeper.go *)

Definition V2M (A : Type) : Type := M store error A.
Definition store_Set (k v : string) : V2M unit := modify (fun s => <[k := v]> s).
Definition store_Delete (k : string) : V2M unit := modify (fun s => delete k s).

Definition classTotalSupply (classID : string) : string := ClassTotalSupply +:+ classID.
Definition nftStoreKey (classID : string) : string := NFTKey +:+ classID +:+ Delimiter.
Definition ownerStoreKey (classID nftID : string) : string := OwnerKey +:+ classID +:+ Delimiter +:+ nftID.
Definition nftOfClassByOwnerStoreKey (owner classID : string) : string :=
  NFTOfClassByOwnerKey +:+ MustLengthPrefix owner +:+ Delimiter +:+ classID +:+ Delimiter.

Definition GetTotalSupply (s : store) (classID : string) : Z :=
  BigEndianToUint64 (kv_get s (classTotalSupply classID)).
Definition updateTotalSupply (classID : string) (supply : Z) : V2M unit :=
  store_Set (classTotalSupply classID) (Uint64ToBigEndian supply).
Definition incrTotalSupply (classID : string) : V2M unit :=
  current <- gets (fun s => GetTotalSupply s classID) ;;
  if (current =? 2 ^ 64 - 1)%Z then throw (ExtErr ("total supply overflow for class " +:+ classID))
  else updateTotalSupply classID (current + 1).

(** getNFTStore and getClassStoreByOwner are prefix stores: their prefix comes before the key. *)
Definition setNFT (token : nft_NFT) : V2M unit :=
  store_Set (nftStoreKey (NFT_ClassId token) +:+ NFT_Id token) (MustMarshal_NFT token).
Definition setOwner (classID nftID owner : string) : V2M unit :=
  store_Set (ownerStoreKey classID nftID) owner ;;;
  store_Set (nftOfClassByOwnerStoreKey owner classID +:+ nftID) Placeholder.
Definition saveNFT (denomID tokenID tokenNm tokenURI tokenURIHash tokenData receiver : string) : V2M unit :=
  data <- lift_sum (NewAny_NFTMetadata (MkNFTMetadata tokenNm tokenData)) ;;
  let token := {| NFT_ClassId := denomID; NFT_Id := tokenID; NFT_Uri := tokenURI; NFT_UriHash := tokenURIHash;
                  NFT_Data := Some data |} in
  setNFT token ;;;
  setOwner (NFT_ClassId token) (NFT_Id token) receiver ;;;
  incrTotalSupply (NFT_ClassId token).

(** ** store.go *)

(** KVStorePrefixIterator: the entries under a prefix, as they are when it is opened *)
Definition iterate (s : store) (prefix : string) : list (string * string) :=
  List.filter (fun kv => HasPrefix (fst kv) prefix) (kv_iter s).

(** The body of the loop of migrateToken *)
Definition migrate_token (denomID : string) (kv : string * string) : V2M unit :=
  baseNFT <- lift_sum (CollectionPb.BaseNFT_Unmarshal (snd kv)) ;;
  owner <- lift_opt (AccAddressFromBech32 (BaseNFT_Owner baseNFT)) (bech32_error (BaseNFT_Owner baseNFT)) ;;
  saveNFT denomID (BaseNFT_Id baseNFT) (BaseNFT_Name baseNFT) (BaseNFT_URI baseNFT) (BaseNFT_UriHash baseNFT)
    (BaseNFT_Data baseNFT) owner ;;;
  store_Delete (KeyNFT denomID (BaseNFT_Id baseNFT)) ;;;
  store_Delete (KeyOwner (Some owner) denomID (BaseNFT_Id baseNFT)).

(** migrateToken; the number it returns is for the log *)
Definition migrateToken (denomID : string) : V2M nat :=
  entries <- gets (fun s => iterate s (KeyNFT denomID "")) ;;
  for_each entries (migrate_token denomID) ;;;
  mret (List.length entries).

(** SaveDenom (expected_keeper.go): id, name, schema, symbol, creator, mintRestricted,
    updateRestricted, description, uri, uriHash, data *)
Definition SaveDenom_func : Type :=
  string -> string -> string -> string -> string -> bool -> bool -> string -> string -> string -> string -> V2M unit.

Section Migrate.
Context (saveDenom : SaveDenom_func).

(** The body of the loop of Migrate *)
Definition migrate_denom (kv : string * string) : V2M unit :=
  denom <- lift_sum (CollectionPb.Denom_Unmarshal (snd kv)) ;;
  creator <- lift_opt (AccAddressFromBech32 (Denom_Creator denom)) (bech32_error (Denom_Creator denom)) ;;
  saveDenom (Denom_Id denom) (Denom_Name denom) (Denom_Schema denom) (Denom_Symbol denom) creator
    (MintRestricted denom) (UpdateRestricted denom) (Denom_Description denom) (Denom_Uri denom)
    (Denom_UriHash denom) (Denom_Data denom) ;;;
  store_Delete (KeyDenom (Denom_Id denom)) ;;;
  store_Delete (KeyDenomName (Denom_Name denom)) ;;;
  store_Delete (KeyCollection (Denom_Id denom)) ;;;
  migrateToken (Denom_Id denom) ;;;
  mret tt.

Definition Migrate : V2M unit :=
  entries <- gets (fun s => iterate s (KeyDenom "")) ;;
  for_each entries migrate_denom.
End Migrate.

(** ** keeper/migrations.go *)
Section Keeper.
Context `{EthLib} `{NftOnStore} `{!EvmKeeper} `{!WasmState} `{!ConvertedNFTChecker} (c0 : Ctx).

(** SaveDenom of the keeper, whose x/nft keeper works on this store; [c0] is the rest of
    the context. *)
Definition keeper_SaveDenom : SaveDenom_func :=
  fun id name schema symbol creator mintRestricted updateRestricted description uri uriHash data s =>
  match CollectionKeeper.SaveDenom id name schema symbol creator mintRestricted updateRestricted description uri
          uriHash data (set_nft c0 (nft_view s)) with
  | Ok u c => Ok u (nft_put s (c_nft c))
  | Err e c => Err e (nft_put s (c_nft c))
  | Panic => Panic
  end.

(** Migrate1to2 *)
Definition Migrate1to2 : V2M unit := Migrate keeper_SaveDenom.
End Keeper.

(** ** precheck.go *)
Record Problem := MkProblem {
  pb_Kind : string; pb_StoreKey : string; pb_DenomID : string; pb_TokenID : string; pb_Reason : string }.

Definition Problem_String (p : Problem) : string :=
  let id := pb_DenomID p in
  let id := if pb_TokenID p <>?s "" then id +:+ "/" +:+ pb_TokenID p else id in
  pb_Kind p +:+ " " +:+ fmt_q id +:+ ": " +:+ pb_Reason p.

Definition legacyDenomIDFromKey (key : string) : string :=
  if len key <=? len (KeyDenom "") then "" else str_drop (len (KeyDenom "")) key.

Fixpoint indexByte (b : string) (c : ascii) : option nat :=
  match b with
  | "" => None
  | String a r => if Ascii.eqb a c then Some 0 else S <$> indexByte r c
  end.

Definition legacyNFTKeyParts (key : string) : string * string :=
  let rest := str_drop (len (KeyNFT "" "")) key in
  match indexByte rest "/" with
  | None => (rest, "")
  | Some sep => (str_take sep rest, str_drop (sep + 1) rest)
  end.

(** What the loops report of one entry *)
Definition check_denom (kv : string * string) : list Problem :=
  match CollectionPb.Denom_Unmarshal (snd kv) with
  | inl err => [MkProblem "denom" (fst kv) (legacyDenomIDFromKey (fst kv)) "" ("unmarshal Denom: " +:+ err_Error err)]
  | inr denom =>
      match AccAddressFromBech32 (Denom_Creator denom) with
      | None => [MkProblem "denom" (fst kv) (Denom_Id denom) ""
                   ("creator bech32 " +:+ fmt_q (Denom_Creator denom) +:+ ": " +:+
                    err_Error (bech32_error (Denom_Creator denom)))]
      | Some _ => []
      end
  end.
Definition check_nft (kv : string * string) : list Problem :=
  let '(denomID, tokenID) := legacyNFTKeyParts (fst kv) in
  match CollectionPb.BaseNFT_Unmarshal (snd kv) with
  | inl err => [MkProblem "nft" (fst kv) denomID tokenID ("unmarshal BaseNFT: " +:+ err_Error err)]
  | inr baseNFT =>
      match AccAddressFromBech32 (BaseNFT_Owner baseNFT) with
      | None => [MkProblem "nft" (fst kv) denomID tokenID
                   ("owner bech32 " +:+ fmt_q (BaseNFT_Owner baseNFT) +:+ ": " +:+
                    err_Error (bech32_error (BaseNFT_Owner baseNFT)))]
      | Some _ => []
      end
  end.

Definition PrecheckLegacyStore (s : store) : list Problem :=
  flat_map check_denom (iterate s (KeyDenom "")) ++ flat_map check_nft (iterate s (KeyNFT "" "")).

(** FormatProblems, from its second line on numbered from [i] *)
Fixpoint format_problems (i : nat) (problems : list Problem) : string :=
  match problems with
  | [] => ""
  | p :: problems =>
      "  " +:+ nat_string (i + 1) +:+ ") " +:+ Problem_String p +:+ " (store key " +:+ hex_bytes (pb_StoreKey p) +:+
      ")" +:+ String "010" "" +:+ format_problems (i + 1) problems
  end.
Definition FormatProblems (problems : list Problem) : string :=
  "collection v1→v2 migration precheck found " +:+ nat_string (List.length problems) +:+
  " record(s) that would abort the upgrade:" +:+ String "010" "" +:+ format_problems 0 problems.

(** runCollectionPrecheck (cmd/uptickd/precheck_collection_migration.go): the error it
    returns, or the line it prints *)
Definition runCollectionPrecheck (s : store) : error + string :=
  let problems := PrecheckLegacyStore s in
  if List.length problems =? 0
  then inr ("collection legacy-store precheck: clean - no record would abort the v1->v2 migration" +:+ String "010" "")
  else inl (ExtErr (FormatProblems problems)).
End V2.
End CollectionV2.

(** * Theorems *)
Import CollectionV2.

(** ** Iteration: the entries under a prefix, by key, each once *)

Lemma filter_keys_sorted (f : string * string -> bool) l :
  StronglySorted str_le l.*1 -> StronglySorted str_le (List.filter f l).*1.
Proof.
  induction l as [|kv l IH]; intros Hs; [done|]. apply StronglySorted_inv in Hs as [Hs Hall].
  cbn [List.filter]. destruct (f kv); [|by apply IH]. cbn. constructor; [by apply IH|].
  rewrite Forall_forall in Hall |- *. intros k (kv' & -> & Hin)%list_elem_of_fmap. apply Hall.
  apply list_elem_of_fmap_2. apply list_elem_of_In, filter_In in Hin as [Hin _]. by apply list_elem_of_In.
Qed.

Lemma elem_of_iterate (s : store) p k v : (k, v) ∈ iterate s p <-> s !! k = Some v /\ HasPrefix k p = true.
Proof. unfold iterate. by rewrite list_elem_of_In, filter_In, <- list_elem_of_In, elem_of_kv_iter. Qed.

Lemma iterate_nodup (s : store) p : NoDup (iterate s p).*1.
Proof.
  unfold iterate. pose proof (kv_iter_nodup s) as Hn. revert Hn. generalize (kv_iter s).
  induction l as [|kv l IH]; intros Hn; [done|]. apply NoDup_cons in Hn as [Hk Hn]. cbn [List.filter].
  destruct (HasPrefix _ _); [|by apply IH]. cbn. apply NoDup_cons. split; [|by apply IH].
  intros (kv' & E & Hin)%list_elem_of_fmap. apply Hk. rewrite E. apply list_elem_of_fmap_2.
  apply list_elem_of_In, filter_In in Hin as [Hin _]. by apply list_elem_of_In.
Qed.

Lemma sorted_assoc_unique (l1 l2 : list (string * string)) :
  StronglySorted str_le l1.*1 -> StronglySorted str_le l2.*1 -> NoDup l1.*1 -> NoDup l2.*1 ->
  (forall kv, kv ∈ l1 <-> kv ∈ l2) -> l1 = l2.
Proof.
  intros S1 S2 N1 N2 E. assert (l1.*1 = l2.*1) as Ek.
  { apply (StronglySorted_unique str_le); [done..|]. apply NoDup_Permutation; [done..|].
    intros k. rewrite !list_elem_of_fmap. naive_solver. }
  revert l2 S2 N2 E Ek. clear S1. induction l1 as [|[k v] l1 IH]; intros [|[k2 v2] l2] S2 N2 E Ek; try done.
  cbn in Ek, N1, N2, S2. injection Ek as <- Ek. apply NoDup_cons in N1 as [Hk1 N1]. apply NoDup_cons in N2 as [Hk2 N2].
  apply StronglySorted_inv in S2 as [S2 _].
  assert (forall (w : string) l, (k, w) ∈ l -> k ∈ l.*1) as Hin by (intros w l Hw; by apply (list_elem_of_fmap_2 fst l (k, w))).
  assert (v2 = v) as ->.
  { pose proof (proj2 (E (k, v2)) ltac:(by left)) as Hw. apply elem_of_cons in Hw as [[= <-]|Hw]; [done|]. by apply Hin in Hw. }
  f_equal. apply IH; try done. intros [k' w]. specialize (E (k', w)). rewrite !elem_of_cons in E. split; intros Hw.
  - destruct (proj1 E (or_intror Hw)) as [E2|Hw2]; [injection E2 as -> ->; by apply Hin in Hw|done].
  - destruct (proj2 E (or_intror Hw)) as [E2|Hw2]; [injection E2 as -> ->; by apply Hin in Hw|done].
Qed.

Lemma iterate_ext (s t : store) p :
  (forall k, HasPrefix k p = true -> s !! k = t !! k) -> iterate s p = iterate t p.
Proof.
  intros E. apply sorted_assoc_unique; try apply iterate_nodup.
  1, 2: apply filter_keys_sorted; rewrite kv_iter_keys; apply SortStrings_sorted.
  intros [k v]. rewrite !elem_of_iterate. split; intros [Hs Hp]; (split; [|done]).
  - by rewrite <- E.
  - by rewrite E.
Qed.

(** ** Writes: a key set to a value, or deleted *)

Definition apply_write (s : store) (w : string * option string) : store :=
  match snd w with Some v => <[fst w := v]> s | None => delete (fst w) s end.
Definition apply_writes (s : store) (ws : list (string * option string)) : store := fold_left apply_write ws s.

Lemma apply_app s ws ws' : apply_writes s (ws ++ ws') = apply_writes (apply_writes s ws) ws'.
Proof. apply fold_left_app. Qed.
Lemma apply_write_eq s k v : apply_write s (k, v) !! k = v.
Proof. destruct v; [apply lookup_insert_eq|apply lookup_delete_eq]. Qed.
Lemma apply_write_ne s k v k' : k' <> k -> apply_write s (k, v) !! k' = s !! k'.
Proof. intros Hne. destruct v; [by apply lookup_insert_ne|by apply lookup_delete_ne]. Qed.

Lemma apply_other s ws k : (forall v, (k, v) ∉ ws) -> apply_writes s ws !! k = s !! k.
Proof.
  revert s. induction ws as [|[k' v'] ws IH]; intros s Hk; [done|]. cbn.
  fold (apply_writes (apply_write s (k', v')) ws). rewrite IH.
  - apply apply_write_ne. intros ->. apply (Hk v'). by left.
  - intros v Hin. apply (Hk v). by right.
Qed.

(** When all writes to a key agree, that is its value. *)
Lemma apply_agree s ws k v :
  (k, v) ∈ ws -> (forall v', (k, v') ∈ ws -> v' = v) -> apply_writes s ws !! k = v.
Proof.
  revert s. induction ws as [|[k' v'] ws IH]; intros s Hin Hall; [by apply elem_of_nil in Hin|]. cbn.
  fold (apply_writes (apply_write s (k', v')) ws).
  destruct (decide (Exists (fun w => fst w = k) ws)) as [He|Hne].
  - apply Exists_exists in He as ([k2 v2] & Hin2 & [= ->]). assert (v2 = v) as -> by (apply Hall; by right).
    apply IH; [done|]. intros v3 H3. apply Hall. by right.
  - assert (forall v0, (k, v0) ∉ ws) as Hno by (intros v0 H0; apply Hne, Exists_exists; by exists (k, v0)).
    rewrite apply_other by done. apply elem_of_cons in Hin as [[= <- <-]|Hin]; [apply apply_write_eq|by apply Hno in Hin].
Qed.

Lemma iterate_writes s ws p :
  (forall k v, (k, v) ∈ ws -> HasPrefix k p = false) -> iterate (apply_writes s ws) p = iterate s p.
Proof.
  intros Hws. apply iterate_ext. intros k Hk. apply apply_other. intros v Hin. apply Hws in Hin. congruence.
Qed.

(** ** A store of version 1 *)
Section Spec.
Context `{SdkLib} `{NftLayout} `{!NftLayoutLaws} `{CollectionCodec} `{FmtLib}.
Implicit Types (s : store) (d : Denom) (n : BaseNFT) (c : Denom * list BaseNFT).

Definition denom_entry (kv : string * string) c : Prop :=
  fst kv = KeyDenom (Denom_Id (fst c)) /\ CollectionPb.Denom_Unmarshal (snd kv) = inr (fst c).
Definition nft_entry (denomID : string) (kv : string * string) n : Prop :=
  fst kv = KeyNFT denomID (BaseNFT_Id n) /\ CollectionPb.BaseNFT_Unmarshal (snd kv) = inr n.

(** [cs] is what the store holds, each record under the key of its ids. *)
Record legacy_store s (cs : list (Denom * list BaseNFT)) : Prop := {
  ls_denoms : Forall2 denom_entry (iterate s (KeyDenom "")) cs;
  ls_nfts c : c ∈ cs -> Forall2 (nft_entry (Denom_Id (fst c))) (iterate s (KeyNFT (Denom_Id (fst c)) "")) (snd c);
}.

(** The address a denom names *)
Definition creator_of d : string := default "" (AccAddressFromBech32 (Denom_Creator d)).
Definition class_metadata d (creator : string) : DenomMetadata :=
  MkDenomMetadata (acc_String creator) (Denom_Schema d) (MintRestricted d) (UpdateRestricted d) (Denom_Data d).
Definition class_of d (metadata : string) : nft_Class :=
  {| Class_Id := Denom_Id d; Class_Name := Denom_Name d; Class_Symbol := Denom_Symbol d;
     Class_Description := Denom_Description d; Class_Uri := Denom_Uri d; Class_UriHash := Denom_UriHash d;
     Class_Data := Some metadata |}.
Definition token_of (denomID : string) n (metadata : string) : nft_NFT :=
  {| NFT_ClassId := denomID; NFT_Id := BaseNFT_Id n; NFT_Uri := BaseNFT_URI n; NFT_UriHash := BaseNFT_UriHash n;
     NFT_Data := Some metadata |}.

(** What the migration needs of a denom and of its NFTs beyond what the precheck sees: the
    id and the bounds SaveDenom asks for, metadata a record can hold, no class of that id yet,
    and room in the supply counter. *)
Record movable s c : Prop := {
  mv_id : ValidateDenomID (Denom_Id (fst c)) = None;
  mv_bounds : ValidateDenomMetadataBounds (Denom_Schema (fst c)) (Denom_Data (fst c)) = None;
  mv_class : exists bz, NewAny_DenomMetadata (class_metadata (fst c) (creator_of (fst c))) = inr bz;
  mv_tokens n : n ∈ snd c -> exists bz, NewAny_NFTMetadata (MkNFTMetadata (BaseNFT_Name n) (BaseNFT_Data n)) = inr bz;
  mv_new : s !! (ClassKey +:+ Denom_Id (fst c)) = None;
  mv_supply : (0 <= GetTotalSupply s (Denom_Id (fst c)) /\
               GetTotalSupply s (Denom_Id (fst c)) + Z.of_nat (List.length (snd c)) < 2 ^ 64)%Z;
}.

(** SaveDenom of the keeper on this store: a valid denom whose class is not there is saved
    as the class record of x/nft, and nothing else is written. *)
Definition saves_class (saveDenom : SaveDenom_func) : Prop :=
  forall s d creator metadata,
    ValidateDenomID (Denom_Id d) = None ->
    ValidateDenomMetadataBounds (Denom_Schema d) (Denom_Data d) = None ->
    NewAny_DenomMetadata (class_metadata d creator) = inr metadata ->
    s !! (ClassKey +:+ Denom_Id d) = None ->
    saveDenom (Denom_Id d) (Denom_Name d) (Denom_Schema d) (Denom_Symbol d) creator (MintRestricted d)
      (UpdateRestricted d) (Denom_Description d) (Denom_Uri d) (Denom_UriHash d) (Denom_Data d) s =
    Ok tt (<[ClassKey +:+ Denom_Id d := MustMarshal_Class (class_of d metadata)]> s).

(** The owner and the records the migration computes *)
Definition owner_of n : string := default "" (AccAddressFromBech32 (BaseNFT_Owner n)).
Definition right_of (r : error + string) : string := match r with inr x => x | inl _ => "" end.
Definition class_record d : string :=
  MustMarshal_Class (class_of d (right_of (NewAny_DenomMetadata (class_metadata d (creator_of d))))).
Definition token_record (denomID : string) n : string :=
  MustMarshal_NFT (token_of denomID n (right_of (NewAny_NFTMetadata (MkNFTMetadata (BaseNFT_Name n) (BaseNFT_Data n))))).

(** What it writes *)
Definition token_writes (denomID : string) (supply : Z) n : list (string * option string) :=
  [(nftStoreKey denomID +:+ BaseNFT_Id n, Some (token_record denomID n));
   (ownerStoreKey denomID (BaseNFT_Id n), Some (owner_of n));
   (nftOfClassByOwnerStoreKey (owner_of n) denomID +:+ BaseNFT_Id n, Some Placeholder);
   (classTotalSupply denomID, Some (Uint64ToBigEndian (supply + 1)));
   (KeyNFT denomID (BaseNFT_Id n), None); (KeyOwner (Some (owner_of n)) denomID (BaseNFT_Id n), None)].
Fixpoint tokens_writes (denomID : string) (supply : Z) (ns : list BaseNFT) : list (string * option string) :=
  match ns with
  | [] => []
  | n :: ns => token_writes denomID supply n ++ tokens_writes denomID (supply + 1) ns
  end.
Definition class_writes d : list (string * option string) :=
  [(ClassKey +:+ Denom_Id d, Some (class_record d)); (KeyDenom (Denom_Id d), None);
   (KeyDenomName (Denom_Name d), None); (KeyCollection (Denom_Id d), None)].
Definition denom_writes s c : list (string * option string) :=
  class_writes (fst c) ++ tokens_writes (Denom_Id (fst c)) (GetTotalSupply s (Denom_Id (fst c))) (snd c).

(** ** Keys *)

Lemma valid_id id : ValidateDenomID id = None ->
  ContainsByte id nul = false /\ exists a r, id = String a r /\ a <> "/"%char.
Proof.
  unfold ValidateDenomID. intros Hv. apply then_check_None in Hv as [Hn%check_None Hv]. apply negb_true_iff in Hn.
  split; [done|]. apply then_check_None in Hv as [_ Hv].
  destruct (HasPrefix id "uptick-") eqn:E1; [apply HasPrefix_spec in E1 as [r ->]; by eexists _, _|].
  destruct (IsIBCDenom id) eqn:E2; [apply HasPrefix_spec in E2 as [r ->]; by eexists _, _|].
  apply then_check_None in Hv as [Hr%check_None _]. destruct id as [|a r]; [done|]. exists a, r. split; [done|].
  intros ->. done.
Qed.

Lemma head_ne a b x y : a <> b -> String a x <> String b y.
Proof. intros Hne [= E _]. done. Qed.
(** A record of x/nft is under no key of version 1: its class id does not start with a slash. *)
Lemma no_slash id b x y : ValidateDenomID id = None -> String b (id +:+ x) <> String b (String "/" y).
Proof. intros (_ & a & r & -> & Ha)%valid_id [= E _]. done. Qed.

Lemma app_nul_inj a b x y :
  ContainsByte a nul = false -> ContainsByte b nul = false -> a +:+ String nul x = b +:+ String nul y -> a = b /\ x = y.
Proof.
  revert b. induction a as [|c a IH]; intros [|e b] Ha Hb E; cbn in *.
  - by injection E.
  - injection E as <- _. done.
  - injection E as -> _. done.
  - injection E as -> E. apply orb_false_iff in Ha as [_ Ha], Hb as [_ Hb].
    destruct (IH b Ha Hb E) as [-> ->]. done.
Qed.

Lemma KeyNFT_eq id t : id <> "" -> KeyNFT id t = String "001" (String "/" (id +:+ "/" +:+ t)).
Proof.
  intros Hid. unfold KeyNFT. destruct id as [|a id]; [done|]. destruct t as [|b t]; cbn [len Nat.ltb Nat.leb andb String.length];
    unfold PrefixNFT, delimiter; cbn [String.append]; by rewrite ?str_app_assoc.
Qed.
Lemma KeyOwner_head o id t : exists r, KeyOwner o id t = String "002" (String "/" r).
Proof. unfold KeyOwner. destruct o as [o|]; [|by eexists]. repeat case_match; rewrite ?str_app_assoc; by eexists. Qed.

Inductive write_of c : string -> option string -> Prop :=
| w_class : write_of c (ClassKey +:+ Denom_Id (fst c)) (Some (class_record (fst c)))
| w_denom : write_of c (KeyDenom (Denom_Id (fst c))) None
| w_name : write_of c (KeyDenomName (Denom_Name (fst c))) None
| w_collection : write_of c (KeyCollection (Denom_Id (fst c))) None
| w_nft n : n ∈ snd c ->
    write_of c (nftStoreKey (Denom_Id (fst c)) +:+ BaseNFT_Id n) (Some (token_record (Denom_Id (fst c)) n))
| w_owner n : n ∈ snd c -> write_of c (ownerStoreKey (Denom_Id (fst c)) (BaseNFT_Id n)) (Some (owner_of n))
| w_by_owner n : n ∈ snd c ->
    write_of c (nftOfClassByOwnerStoreKey (owner_of n) (Denom_Id (fst c)) +:+ BaseNFT_Id n) (Some Placeholder)
| w_supply z : write_of c (classTotalSupply (Denom_Id (fst c))) (Some (Uint64ToBigEndian z))
| w_legacy_nft n : n ∈ snd c -> write_of c (KeyNFT (Denom_Id (fst c)) (BaseNFT_Id n)) None
| w_legacy_owner n : n ∈ snd c -> write_of c (KeyOwner (Some (owner_of n)) (Denom_Id (fst c)) (BaseNFT_Id n)) None.

Lemma tokens_writes_of c z ns k v :
  (forall n, n ∈ ns -> n ∈ snd c) -> (k, v) ∈ tokens_writes (Denom_Id (fst c)) z ns -> write_of c k v.
Proof.
  revert z. induction ns as [|n ns IH]; intros z Hns Hin; [by apply elem_of_nil in Hin|].
  cbn [tokens_writes] in Hin. apply elem_of_app in Hin as [Hin|Hin].
  - assert (n ∈ snd c) as Hn by (apply Hns; by left). unfold token_writes in Hin.
    repeat (apply elem_of_cons in Hin as [[= -> ->]|Hin]; [by constructor|]). by apply elem_of_nil in Hin.
  - apply (IH (z + 1)%Z); [|done]. intros n' Hn'. apply Hns. by right.
Qed.

Lemma denom_writes_of s c k v : (k, v) ∈ denom_writes s c -> write_of c k v.
Proof.
  intros [Hin|Hin]%elem_of_app; [|by eapply tokens_writes_of].
  repeat (apply elem_of_cons in Hin as [[= -> ->]|Hin]; [by constructor|]). by apply elem_of_nil in Hin.
Qed.

Lemma tokens_writes_has id z ns n :
  n ∈ ns -> forall w, w ∈ [(nftStoreKey id +:+ BaseNFT_Id n, Some (token_record id n));
    (ownerStoreKey id (BaseNFT_Id n), Some (owner_of n));
    (nftOfClassByOwnerStoreKey (owner_of n) id +:+ BaseNFT_Id n, Some Placeholder);
    (KeyNFT id (BaseNFT_Id n), None); (KeyOwner (Some (owner_of n)) id (BaseNFT_Id n), None)] ->
  w ∈ tokens_writes id z ns.
Proof.
  revert z. induction ns as [|n' ns IH]; intros z Hn w Hw; [by apply elem_of_nil in Hn|].
  cbn [tokens_writes]. apply elem_of_app. apply elem_of_cons in Hn as [->|Hn]; [left|right; by eapply IH].
  unfold token_writes. repeat (apply elem_of_cons in Hw as [->|Hw]; [repeat first [by left|right]|]). by apply elem_of_nil in Hw.
Qed.

(** ** One token *)

Ltac keys :=
  unfold nftStoreKey, ownerStoreKey, nftOfClassByOwnerStoreKey, classTotalSupply, KeyDenom, KeyDenomName,
    KeyCollection, PrefixNFT, PrefixOwners, PrefixCollection, PrefixDenom, PrefixDenomName, delimiter in *;
  rewrite ?lay_ClassKey, ?lay_NFTKey, ?lay_ByOwner, ?lay_OwnerKey, ?lay_Supply, ?lay_Delimiter in *;
  rewrite ?str_app_assoc, ?str_app_cons, ?str_app_nil_l in *.

Lemma supply_writes s ws id :
  (forall k v, (k, v) ∈ ws -> k <> classTotalSupply id) -> GetTotalSupply (apply_writes s ws) id = GetTotalSupply s id.
Proof.
  intros Hws. unfold GetTotalSupply, kv_get. rewrite apply_other; [done|]. intros v Hin. by apply Hws in Hin.
Qed.

Ltac each_write Hin :=
  repeat (let Ek := fresh "Ek" in
          apply elem_of_cons in Hin as [Ek|Hin]; [apply pair_equal_spec in Ek as [Ek ->]|]);
  [..|by apply elem_of_nil in Hin].

Lemma token_supply id z n s :
  (0 <= z + 1 < 2 ^ 64)%Z -> id <> "" -> GetTotalSupply (apply_writes s (token_writes id z n)) id = (z + 1)%Z.
Proof.
  intros Hz Hid. unfold GetTotalSupply, kv_get.
  rewrite (apply_agree _ _ _ (Some (Uint64ToBigEndian (z + 1)))); [by apply lay_uint64|by do 3 right; left|].
  intros v' Hin. unfold token_writes in Hin.
  destruct (KeyOwner_head (Some (owner_of n)) id (BaseNFT_Id n)) as [r Er].
  each_write Hin; rewrite ?KeyNFT_eq, ?Er in * by done; keys; done.
Qed.

Lemma migrate_token_runs id kv n z s :
  nft_entry id kv n -> is_Some (AccAddressFromBech32 (BaseNFT_Owner n)) ->
  (exists bz, NewAny_NFTMetadata (MkNFTMetadata (BaseNFT_Name n) (BaseNFT_Data n)) = inr bz) ->
  GetTotalSupply s id = z -> z <> (2 ^ 64 - 1)%Z ->
  migrate_token id kv s = Ok tt (apply_writes s (token_writes id z n)).
Proof.
  intros [Hk Hv] [o Ho] [bz Hbz] Hz Hlt. unfold migrate_token, mbind, lift_sum, lift_opt. rewrite Hv. cbn.
  rewrite Ho. cbn. unfold saveNFT, mbind, lift_sum. rewrite Hbz. cbn.
  assert (owner_of n = o) as Eo by (unfold owner_of; by rewrite Ho).
  assert (token_record id n = MustMarshal_NFT (token_of id n bz)) as Et by (unfold token_record; by rewrite Hbz).
  unfold token_writes. rewrite Eo, Et. unfold setNFT, setOwner, incrTotalSupply, updateTotalSupply, store_Set, store_Delete, mbind, modify, gets.
  cbn [NFT_ClassId NFT_Id].
  match goal with |- context [GetTotalSupply ?t id] => assert (GetTotalSupply t id = z) as -> end.
  { unfold GetTotalSupply, kv_get. rewrite !lookup_insert_ne by (keys; done). exact Hz. }
  destruct (Z.eqb_spec z (2 ^ 64 - 1)); [done|]. reflexivity.
Qed.

Lemma tokens_run id entries ns z s :
  id <> "" -> Forall2 (nft_entry id) entries ns ->
  (forall n, n ∈ ns -> is_Some (AccAddressFromBech32 (BaseNFT_Owner n))) ->
  (forall n, n ∈ ns -> exists bz, NewAny_NFTMetadata (MkNFTMetadata (BaseNFT_Name n) (BaseNFT_Data n)) = inr bz) ->
  GetTotalSupply s id = z -> (0 <= z)%Z -> (z + Z.of_nat (List.length ns) < 2 ^ 64)%Z ->
  for_each entries (migrate_token id) s = Ok tt (apply_writes s (tokens_writes id z ns)) /\
  GetTotalSupply (apply_writes s (tokens_writes id z ns)) id = (z + Z.of_nat (List.length ns))%Z.
Proof.
  intros Hid He. revert z s. induction He as [|kv n entries ns Hkv He IH]; intros z s Ho Hb Hz Hpos Hlt.
  - cbn. split; [done|]. rewrite Z.add_0_r. exact Hz.
  - cbn [List.length] in Hlt |- *. cbn [for_each tokens_writes]. unfold mbind.
    rewrite (migrate_token_runs id kv n z s); [|done|apply Ho; by left|apply Hb; by left|done|lia].
    rewrite !apply_app.
    destruct (IH (z + 1)%Z (apply_writes s (token_writes id z n))) as [E1 E2].
    + intros n' Hn'. apply Ho. by right.
    + intros n' Hn'. apply Hb. by right.
    + apply token_supply; [lia|done].
    + lia.
    + lia.
    + split; [exact E1|]. etransitivity; [exact E2|]. lia.
Qed.

(** ** One denom *)

Lemma prefix_cons a x b y : HasPrefix (String a x) (String b y) = Ascii.eqb a b && HasPrefix x y.
Proof. cbn. by destruct (Ascii.eqb_spec a b), (Ascii.eqb_spec b a). Qed.
Lemma id_prefix id x y : ValidateDenomID id = None -> HasPrefix (id +:+ x) (String "/" y) = false.
Proof.
  intros (_ & a & r & -> & Ha)%valid_id. rewrite str_app_cons, prefix_cons.
  by destruct (Ascii.eqb_spec a "/") as [->|].
Qed.
Lemma nonempty_id id : ValidateDenomID id = None -> id <> "".
Proof. by intros (_ & a & r & -> & _)%valid_id. Qed.

Lemma class_writes_nfts d id k v :
  ValidateDenomID (Denom_Id d) = None -> id <> "" -> (k, v) ∈ class_writes d -> HasPrefix k (KeyNFT id "") = false.
Proof.
  intros Hd Hid Hin. rewrite KeyNFT_eq by done. each_write Hin; subst k; keys; rewrite !prefix_cons; try done.
  rewrite <- (str_app_nil_r (Denom_Id d)). by rewrite id_prefix.
Qed.
Lemma class_writes_supply d id k v :
  ValidateDenomID id = None -> (k, v) ∈ class_writes d -> k <> classTotalSupply id.
Proof.
  intros Hd Hin. rewrite <- (str_app_nil_r id). each_write Hin; subst k; keys; try done.
  intros E. symmetry in E. by apply no_slash in E.
Qed.

Section Run.
Context (saveDenom : SaveDenom_func) (Hsave : saves_class saveDenom).

Lemma denom_runs s c kv :
  denom_entry kv c -> movable s c -> is_Some (AccAddressFromBech32 (Denom_Creator (fst c))) ->
  Forall2 (nft_entry (Denom_Id (fst c))) (iterate s (KeyNFT (Denom_Id (fst c)) "")) (snd c) ->
  (forall n, n ∈ snd c -> is_Some (AccAddressFromBech32 (BaseNFT_Owner n))) ->
  migrate_denom saveDenom kv s = Ok tt (apply_writes s (denom_writes s c)) /\
  GetTotalSupply (apply_writes s (denom_writes s c)) (Denom_Id (fst c)) =
    (GetTotalSupply s (Denom_Id (fst c)) + Z.of_nat (List.length (snd c)))%Z.
Proof.
  destruct c as [d ns]. cbn [fst snd]. intros [Hk Hv] [Hid Hb Hc Ht Hn [Hz1 Hz2]] [cr Hcr] Hns Ho.
  cbn [fst snd] in *. assert (creator_of d = cr) as Ecr by (unfold creator_of; by rewrite Hcr).
  destruct Hc as [bz Hbz]. rewrite Ecr in Hbz.
  assert (class_record d = MustMarshal_Class (class_of d bz)) as Er by (unfold class_record; by rewrite Ecr, Hbz).
  unfold denom_writes. cbn [fst snd]. rewrite apply_app. set (s1 := apply_writes s (class_writes d)).
  assert (delete (KeyCollection (Denom_Id d)) (delete (KeyDenomName (Denom_Name d)) (delete (KeyDenom (Denom_Id d))
    (<[ClassKey +:+ Denom_Id d := MustMarshal_Class (class_of d bz)]> s))) = s1) as Hs1
    by (rewrite <- Er; reflexivity).
  assert (iterate s1 (KeyNFT (Denom_Id d) "") = iterate s (KeyNFT (Denom_Id d) "")) as Ei.
  { apply iterate_writes. intros k v. apply class_writes_nfts; [done|by apply nonempty_id]. }
  assert (GetTotalSupply s1 (Denom_Id d) = GetTotalSupply s (Denom_Id d)) as Es.
  { apply supply_writes. intros k v. by apply class_writes_supply. }
  destruct (tokens_run (Denom_Id d) _ ns (GetTotalSupply s (Denom_Id d)) s1 (nonempty_id _ Hid) Hns Ho Ht Es Hz1 Hz2)
    as [E1 E2].
  clearbody s1. split; [|exact E2]. unfold migrate_denom, mbind, lift_sum, lift_opt. rewrite Hv. cbn. rewrite Hcr. cbn.
  rewrite (Hsave s d cr bz Hid Hb Hbz Hn). cbn. rewrite Hs1.
  unfold migrateToken, mbind, gets. rewrite Ei, E1. done.
Qed.

(** ** The whole store *)

Lemma write_avoids_supply c id k v :
  ValidateDenomID (Denom_Id (fst c)) = None -> ValidateDenomID id = None -> Denom_Id (fst c) <> id ->
  write_of c k v -> k <> classTotalSupply id.
Proof.
  intros Hc Hid Hne Hw E. rewrite <- (str_app_nil_r id) in E.
  destruct Hw; rewrite ?KeyNFT_eq in E by (by apply nonempty_id); keys; try done.
  - symmetry in E. by apply no_slash in E.
  - injection E as E. rewrite str_app_nil_r in E. done.
  - destruct (KeyOwner_head (Some (owner_of n)) (Denom_Id (fst c)) (BaseNFT_Id n)) as [r Er]. by rewrite Er in E.
Qed.

Lemma write_avoids_class c id k v :
  ValidateDenomID (Denom_Id (fst c)) = None -> ValidateDenomID id = None -> Denom_Id (fst c) <> id ->
  write_of c k v -> k <> ClassKey +:+ id.
Proof.
  intros Hc Hid Hne Hw E. rewrite <- (str_app_nil_r id) in E.
  destruct Hw; rewrite ?KeyNFT_eq in E by (by apply nonempty_id); keys; try done.
  - injection E as E. rewrite str_app_nil_r in E. done.
  - symmetry in E. by apply no_slash in E.
  - destruct (KeyOwner_head (Some (owner_of n)) (Denom_Id (fst c)) (BaseNFT_Id n)) as [r Er]. by rewrite Er in E.
Qed.

Lemma Forall2_right {A B} (P : A -> B -> Prop) l k y : Forall2 P l k -> y ∈ k -> exists x, x ∈ l /\ P x y.
Proof.
  induction 1 as [|a b l k Hab _ IH]; intros Hy; [by apply elem_of_nil in Hy|].
  apply elem_of_cons in Hy as [->|Hy]; [exists a; split; [by left|done]|].
  destruct (IH Hy) as (x & Hx & HP). exists x. split; [by right|done].
Qed.
Lemma Forall2_left {A B} (P : A -> B -> Prop) l k x : Forall2 P l k -> x ∈ l -> exists y, y ∈ k /\ P x y.
Proof.
  induction 1 as [|a b l k Hab _ IH]; intros Hx; [by apply elem_of_nil in Hx|].
  apply elem_of_cons in Hx as [->|Hx]; [exists b; split; [by left|done]|].
  destruct (IH Hx) as (y & Hy & HP). exists y. split; [by right|done].
Qed.

Definition nfts_of s c : Prop :=
  Forall2 (nft_entry (Denom_Id (fst c))) (iterate s (KeyNFT (Denom_Id (fst c)) "")) (snd c).

(** An NFT of one denom is not under the prefix of another: its record has one id. *)
Lemma write_avoids_nfts s c c' k v :
  ValidateDenomID (Denom_Id (fst c)) = None -> ValidateDenomID (Denom_Id (fst c')) = None ->
  Denom_Id (fst c) <> Denom_Id (fst c') -> nfts_of s c -> nfts_of s c' ->
  write_of c k v -> HasPrefix k (KeyNFT (Denom_Id (fst c')) "") = false.
Proof.
  intros Hc Hc' Hne Hn Hn' Hw. pose proof (nonempty_id _ Hc) as N. pose proof (nonempty_id _ Hc') as N'.
  destruct Hw as [| | | |n Hin|n Hin|n Hin|z|n Hin|n Hin]; rewrite ?(KeyNFT_eq (Denom_Id (fst c'))) by done;
    try (keys; rewrite !prefix_cons; done).
  - keys. rewrite <- (str_app_nil_r (Denom_Id (fst c))), prefix_cons. by rewrite id_prefix.
  - destruct (HasPrefix (KeyNFT _ _) _) eqn:E; [|done]. exfalso. rewrite <- KeyNFT_eq in E by done.
    destruct (Forall2_right _ _ _ _ Hn Hin) as ([k0 v0] & Hkv & Hk0 & Hv0). cbn [fst snd] in *. subst k0.
    apply elem_of_iterate in Hkv as [Hs _]. assert (Hkv' := conj Hs E). apply elem_of_iterate in Hkv'.
    destruct (Forall2_left _ _ _ _ Hn' Hkv') as (n' & _ & Hk1 & Hv1). cbn [fst snd] in *.
    rewrite Hv0 in Hv1. injection Hv1 as <-. rewrite !KeyNFT_eq in Hk1 by done. injection Hk1 as Hk1.
    apply Hne. rewrite <- (str_take_app (Denom_Id (fst c)) ("/" +:+ BaseNFT_Id n)), Hk1.
    apply (f_equal len) in Hk1. rewrite !len_app in Hk1. assert (len (Denom_Id (fst c)) = len (Denom_Id (fst c'))) as -> by lia.
    apply str_take_app.
  - destruct (KeyOwner_head (Some (owner_of n)) (Denom_Id (fst c)) (BaseNFT_Id n)) as [r ->]. done.
Qed.

Lemma denom_keeps s c c' :
  movable s c -> movable s c' -> Denom_Id (fst c) <> Denom_Id (fst c') -> nfts_of s c -> nfts_of s c' ->
  let s1 := apply_writes s (denom_writes s c) in
  movable s1 c' /\ nfts_of s1 c' /\ GetTotalSupply s1 (Denom_Id (fst c')) = GetTotalSupply s (Denom_Id (fst c')).
Proof.
  intros M M' Hne Hn Hn' s1.
  assert (GetTotalSupply s1 (Denom_Id (fst c')) = GetTotalSupply s (Denom_Id (fst c'))) as Es.
  { apply supply_writes. intros k v Hw%denom_writes_of.
    by apply (write_avoids_supply c _ k v (mv_id _ _ M) (mv_id _ _ M')). }
  split; [|split; [|done]].
  - split; try apply M'.
    + unfold s1. rewrite apply_other; [apply M'|]. intros v Hw%denom_writes_of.
      by apply (write_avoids_class c _ _ v (mv_id _ _ M) (mv_id _ _ M')) in Hw.
    + rewrite Es. apply M'.
  - unfold nfts_of. unfold s1. rewrite iterate_writes; [done|]. intros k v Hw%denom_writes_of.
    by apply (write_avoids_nfts s c c' k v (mv_id _ _ M) (mv_id _ _ M')).
Qed.

(** What each denom of the rest still needs *)
Definition ready s c : Prop :=
  movable s c /\ nfts_of s c /\ is_Some (AccAddressFromBech32 (Denom_Creator (fst c))) /\
  forall n, n ∈ snd c -> is_Some (AccAddressFromBech32 (BaseNFT_Owner n)).

Lemma writes_supply_ext s s1 cs :
  (forall c, c ∈ cs -> GetTotalSupply s1 (Denom_Id (fst c)) = GetTotalSupply s (Denom_Id (fst c))) ->
  flat_map (denom_writes s1) cs = flat_map (denom_writes s) cs.
Proof.
  induction cs as [|c cs IH]; intros Hs; [done|]. cbn [flat_map]. rewrite IH by (intros c' Hc'; apply Hs; by right).
  f_equal. unfold denom_writes. by rewrite (Hs c) by (by left).
Qed.

Lemma loop_runs entries cs s :
  Forall2 denom_entry entries cs -> NoDup ((fun c => Denom_Id (fst c)) <$> cs) -> (forall c, c ∈ cs -> ready s c) ->
  for_each entries (migrate_denom saveDenom) s = Ok tt (apply_writes s (flat_map (denom_writes s) cs)) /\
  forall c, c ∈ cs -> GetTotalSupply (apply_writes s (flat_map (denom_writes s) cs)) (Denom_Id (fst c)) =
    (GetTotalSupply s (Denom_Id (fst c)) + Z.of_nat (List.length (snd c)))%Z.
Proof.
  intros He. revert s. induction He as [|kv c entries cs Hkv He IH]; intros s Hnd Hr.
  { split; [done|]. intros c Hc. by apply elem_of_nil in Hc. }
  rewrite fmap_cons in Hnd. apply NoDup_cons in Hnd as [Hni Hnd].
  destruct (Hr c ltac:(by left)) as (Hm & Hn & Hcr & Ho). destruct (denom_runs s c kv Hkv Hm Hcr Hn Ho) as [E1 E2].
  cbn [for_each flat_map]. unfold mbind. rewrite E1, apply_app. set (s1 := apply_writes s (denom_writes s c)) in *.
  assert (forall c', c' ∈ cs -> Denom_Id (fst c) <> Denom_Id (fst c')) as Hne.
  { intros c' Hc' E. apply Hni. rewrite E. by apply (list_elem_of_fmap_2 (fun c => Denom_Id (fst c)) cs c'). }
  assert (forall c', c' ∈ cs -> ready s1 c' /\
    GetTotalSupply s1 (Denom_Id (fst c')) = GetTotalSupply s (Denom_Id (fst c'))) as Hk.
  { intros c' Hc'. destruct (Hr c' ltac:(by right)) as (Hm' & Hn' & Hcr' & Ho').
    destruct (denom_keeps s c c' Hm Hm' (Hne c' Hc') Hn Hn') as (K1 & K2 & K3). split; [|done]. by split_and!. }
  rewrite <- (writes_supply_ext s s1 cs) by (intros c' Hc'; by apply Hk).
  destruct (IH s1 Hnd) as [F1 F2]; [intros c' Hc'; by apply Hk|]. split; [exact F1|].
  intros c' [->|Hc']%elem_of_cons.
  - rewrite supply_writes; [exact E2|]. intros k v Hw. apply list_elem_of_In, in_flat_map in Hw as (c' & Hc' & Hw).
    apply list_elem_of_In in Hc', Hw. apply denom_writes_of in Hw. destruct (Hr c' ltac:(by right)) as (Hm' & _).
    eapply write_avoids_supply; [apply Hm'|apply Hm| |exact Hw]. intros E. by apply (Hne c' Hc').
  - rewrite (F2 c' Hc'). f_equal. by apply Hk.
Qed.
End Run.

(** ** The precheck *)

Lemma precheck_clean s :
  PrecheckLegacyStore s = [] ->
  (forall k v d, (k, v) ∈ iterate s (KeyDenom "") -> CollectionPb.Denom_Unmarshal v = inr d ->
    is_Some (AccAddressFromBech32 (Denom_Creator d))) /\
  (forall k v n, (k, v) ∈ iterate s (KeyNFT "" "") -> CollectionPb.BaseNFT_Unmarshal v = inr n ->
    is_Some (AccAddressFromBech32 (BaseNFT_Owner n))).
Proof.
  unfold PrecheckLegacyStore. intros [Hd Hn]%app_nil.
  assert (forall (f : string * string -> list Problem) kv l, flat_map f l = [] -> kv ∈ l -> f kv = []) as Hall.
  { intros f kv l. induction l as [|x l IH]; cbn; [by intros _ ?%elem_of_nil|].
    intros [Hx Hl]%app_nil [->|Hin]%elem_of_cons; auto. }
  split.
  - intros k v d Hin Hv. pose proof (Hall _ _ _ Hd Hin) as E. unfold check_denom in E. cbn [fst snd] in E.
    rewrite Hv in E. by destruct (AccAddressFromBech32 _) eqn:E2.
  - intros k v n Hin Hv. pose proof (Hall _ _ _ Hn Hin) as E. unfold check_nft in E. cbn [fst snd] in E.
    destruct (legacyNFTKeyParts k). rewrite Hv in E. by destruct (AccAddressFromBech32 _) eqn:E2.
Qed.

(** A denom the precheck reports makes the migration fail. *)
Lemma precheck_denoms_necessary saveDenom s u s' :
  Migrate saveDenom s = Ok u s' -> flat_map check_denom (iterate s (KeyDenom "")) = [].
Proof.
  intros Hm. apply mbind_ok in Hm as (es & s0 & [-> ->]%gets_ok & Hm). revert Hm. generalize s at 2.
  induction (iterate s (KeyDenom "")) as [|kv es IH]; intros t Hm; [done|]. cbn [for_each] in Hm.
  apply mbind_ok in Hm as (v & t1 & Hd & Hm). cbn [flat_map]. rewrite (IH _ Hm), app_nil_r. unfold check_denom.
  apply mbind_ok in Hd as (d & t2 & [E ->]%lift_sum_ok & Hd). rewrite E.
  apply mbind_ok in Hd as (cr & t3 & [E2 ->]%lift_opt_ok & _). by rewrite E2.
Qed.

(** ** The migration *)

(** The store after the migration of [cs]: for each denom its class and the supply, for each
    NFT its record, its owner and the entry in the index by owner; of version 1, of these,
    nothing; and every other key as it was. *)
Record migrated s (cs : list (Denom * list BaseNFT)) (s' : store) : Prop := {
  mg_class c : c ∈ cs -> s' !! (ClassKey +:+ Denom_Id (fst c)) = Some (class_record (fst c));
  mg_supply c : c ∈ cs -> GetTotalSupply s' (Denom_Id (fst c)) =
    (GetTotalSupply s (Denom_Id (fst c)) + Z.of_nat (List.length (snd c)))%Z;
  mg_token c n : c ∈ cs -> n ∈ snd c ->
    s' !! (nftStoreKey (Denom_Id (fst c)) +:+ BaseNFT_Id n) = Some (token_record (Denom_Id (fst c)) n) /\
    s' !! ownerStoreKey (Denom_Id (fst c)) (BaseNFT_Id n) = Some (owner_of n) /\
    s' !! (nftOfClassByOwnerStoreKey (owner_of n) (Denom_Id (fst c)) +:+ BaseNFT_Id n) = Some Placeholder /\
    s' !! KeyNFT (Denom_Id (fst c)) (BaseNFT_Id n) = None /\
    s' !! KeyOwner (Some (owner_of n)) (Denom_Id (fst c)) (BaseNFT_Id n) = None;
  mg_denoms : iterate s' (KeyDenom "") = [];
  mg_names c : c ∈ cs -> s' !! KeyDenomName (Denom_Name (fst c)) = None /\
    s' !! KeyCollection (Denom_Id (fst c)) = None;
  mg_rest k : (forall c v, c ∈ cs -> ~ write_of c k v) -> s' !! k = s !! k;
}.

Section Migrated.
Context s (cs : list (Denom * list BaseNFT)) (Hls : legacy_store s cs) (Hmv : forall c, c ∈ cs -> movable s c).

Lemma ids_nodup : NoDup ((fun c => Denom_Id (fst c)) <$> cs).
Proof.
  pose proof (iterate_nodup s (KeyDenom "")) as Hn. pose proof (ls_denoms _ _ Hls) as Hd. revert Hn Hd.
  generalize (iterate s (KeyDenom "")). clear. induction cs as [|c cs' IH]; intros l Hn Hd; [constructor|].
  apply Forall2_cons_inv_r in Hd as (kv & l' & Hkv & Hd' & ->). rewrite fmap_cons in Hn. rewrite fmap_cons. apply NoDup_cons in Hn as [Hk Hn].
  apply NoDup_cons. split; [|by eapply IH]. intros (c' & E & Hc')%list_elem_of_fmap. apply Hk.
  destruct (Forall2_right _ _ _ _ Hd' Hc') as (kv' & Hin & Hk' & _). destruct Hkv as [Hkv _].
  rewrite Hkv, E, <- Hk'. by apply list_elem_of_fmap_2.
Qed.
Lemma same_denom c c' : c ∈ cs -> c' ∈ cs -> Denom_Id (fst c) = Denom_Id (fst c') -> c = c'.
Proof.
  intros Hc Hc' E. apply list_elem_of_lookup in Hc as [i Hi], Hc' as [j Hj].
  assert (i = j) as ->; [|congruence]. eapply NoDup_lookup; [apply ids_nodup| |].
  - rewrite list_lookup_fmap, Hi. reflexivity.
  - rewrite list_lookup_fmap, Hj, E. reflexivity.
Qed.
Lemma same_token c n n' : c ∈ cs -> n ∈ snd c -> n' ∈ snd c -> BaseNFT_Id n = BaseNFT_Id n' -> n = n'.
Proof.
  intros Hc Hn Hn' E. pose proof (ls_nfts _ _ Hls c Hc) as Hf.
  destruct (Forall2_right _ _ _ _ Hf Hn) as ([k v] & Hin & Hk & Hv). cbn [fst snd] in *.
  destruct (Forall2_right _ _ _ _ Hf Hn') as ([k' v'] & Hin' & Hk' & Hv'). cbn [fst snd] in *.
  apply elem_of_iterate in Hin as [Hs _], Hin' as [Hs' _]. congruence.
Qed.

Lemma all_writes_of k v : (k, v) ∈ flat_map (denom_writes s) cs -> exists c, c ∈ cs /\ write_of c k v.
Proof.
  intros Hw. apply list_elem_of_In, in_flat_map in Hw as (c & Hc & Hw). exists c.
  split; [by apply list_elem_of_In|]. by eapply denom_writes_of, list_elem_of_In.
Qed.
Lemma in_all_writes c w : c ∈ cs -> w ∈ denom_writes s c -> w ∈ flat_map (denom_writes s) cs.
Proof. intros Hc Hw. apply list_elem_of_In, in_flat_map. exists c. by rewrite <- !list_elem_of_In. Qed.

(** A key all of whose writers write [v] *)
Lemma written c k v :
  c ∈ cs -> (k, v) ∈ denom_writes s c -> (forall c' v', c' ∈ cs -> write_of c' k v' -> v' = v) ->
  apply_writes s (flat_map (denom_writes s) cs) !! k = v.
Proof.
  intros Hc Hw Hall. apply apply_agree; [by eapply in_all_writes|].
  intros v' (c' & Hc' & Hw')%all_writes_of. eauto.
Qed.

(** Which writes can meet at a key *)
Ltac meets Hc Hw E :=
  destruct Hw; rewrite ?KeyNFT_eq in E by (apply nonempty_id, mv_id with s; by apply Hmv);
  try (match type of E with context [KeyOwner ?o ?d ?t] =>
         let r := fresh "r" in let Er := fresh "Er" in destruct (KeyOwner_head o d t) as [r Er]; rewrite Er in E end);
  keys; try done.
Ltac slash E :=
  first [apply no_slash in E; [done|apply (mv_id s); by apply Hmv]
        |symmetry in E; apply no_slash in E; [done|apply (mv_id s); by apply Hmv]].

Lemma valid_in c : c ∈ cs -> ValidateDenomID (Denom_Id (fst c)) = None.
Proof. intros Hc. apply (mv_id s). by apply Hmv. Qed.

Lemma class_writers c c' v : c ∈ cs -> c' ∈ cs -> forall k, write_of c' k v -> k = ClassKey +:+ Denom_Id (fst c) ->
  v = Some (class_record (fst c)).
Proof.
  intros Hc Hc' k Hw E. rewrite <- (str_app_nil_r (Denom_Id (fst c))) in E. meets Hc Hw E.
  - injection E as E. rewrite str_app_nil_r in E. by rewrite (same_denom c' c).
  - slash E.
Qed.
Lemma token_writers c n c' v : c ∈ cs -> n ∈ snd c -> c' ∈ cs ->
  forall k, write_of c' k v -> k = nftStoreKey (Denom_Id (fst c)) +:+ BaseNFT_Id n ->
  v = Some (token_record (Denom_Id (fst c)) n).
Proof.
  intros Hc Hn Hc' k Hw E. meets Hc Hw E; [|slash E].
  injection E as E. apply app_nul_inj in E as [E1 E2]; [|by apply valid_id, valid_in..].
  assert (c' = c) as -> by (by apply same_denom). by rewrite (same_token c n0 n).
Qed.
Lemma owner_writers c n c' v : c ∈ cs -> n ∈ snd c -> c' ∈ cs ->
  forall k, write_of c' k v -> k = ownerStoreKey (Denom_Id (fst c)) (BaseNFT_Id n) -> v = Some (owner_of n).
Proof.
  intros Hc Hn Hc' k Hw E. meets Hc Hw E; [slash E|].
  injection E as E. apply app_nul_inj in E as [E1 E2]; [|by apply valid_id, valid_in..].
  assert (c' = c) as -> by (by apply same_denom). by rewrite (same_token c n0 n).
Qed.
Lemma collection_no_nul c k x y : c ∈ cs -> String "003" (String "/" (Denom_Id (fst c))) <> String k (x +:+ String nul y).
Proof.
  intros Hc E. apply (f_equal (fun z => ContainsByte z nul)) in E. cbn in E.
  rewrite (proj1 (valid_id _ (valid_in _ Hc))) in E. rewrite ContainsByte_app in E. cbn in E.
  rewrite !orb_true_r in E. done.
Qed.
Lemma index_writers c n c' v : c ∈ cs -> n ∈ snd c -> c' ∈ cs ->
  forall k, write_of c' k v -> k = nftOfClassByOwnerStoreKey (owner_of n) (Denom_Id (fst c)) +:+ BaseNFT_Id n ->
  v = Some Placeholder.
Proof. intros Hc Hn Hc' k Hw E. meets Hc Hw E. by apply collection_no_nul in E. Qed.

(** The keys of version 1 are only deleted. *)
Definition legacy_key (k : string) : Prop :=
  (exists b r, k = String b (String "/" r) /\ b <> "003"%char) \/
  (exists c, c ∈ cs /\ k = KeyCollection (Denom_Id (fst c))).
Lemma legacy_writers k c' v : legacy_key k -> c' ∈ cs -> write_of c' k v -> v = None.
Proof.
  intros Hk Hc' Hw. destruct v as [v|]; [exfalso|done]. destruct Hk as [(b & r & E & Hb)|(c & Hc & E)].
  - remember (Some v) as w eqn:Ew. destruct Hw; try done; clear Ew; keys; try (injection E as <- E; done).
    + rewrite <- (str_app_nil_r (Denom_Id (fst c'))) in E. injection E as <- E.
      apply (f_equal (String "001")) in E. by apply no_slash in E; [|by apply valid_in].
    + injection E as <- E. apply (f_equal (String "001")) in E. by apply no_slash in E; [|by apply valid_in].
    + injection E as <- E. apply (f_equal (String "001")) in E. by apply no_slash in E; [|by apply valid_in].
    + rewrite <- (str_app_nil_r (Denom_Id (fst c'))) in E. injection E as <- E.
      apply (f_equal (String "001")) in E. by apply no_slash in E; [|by apply valid_in].
  - remember (Some v) as w eqn:Ew. destruct Hw; try done; clear Ew; keys; try done.
    symmetry in E. by apply collection_no_nul in E.
Qed.

Let s' := apply_writes s (flat_map (denom_writes s) cs).

Lemma deleted c k : c ∈ cs -> (k, None) ∈ denom_writes s c -> legacy_key k -> s' !! k = None.
Proof. intros Hc Hw Hk. eapply written; [done..|]. intros c' v'. by apply legacy_writers. Qed.

Lemma token_in c n w : n ∈ snd c ->
  w ∈ tokens_writes (Denom_Id (fst c)) (GetTotalSupply s (Denom_Id (fst c))) (snd c) -> w ∈ denom_writes s c.
Proof. intros _ Hw. apply elem_of_app. by right. Qed.

Lemma no_denoms_left : iterate s' (KeyDenom "") = [].
Proof.
  destruct (iterate s' (KeyDenom "")) as [|[k v] l] eqn:E; [done|exfalso].
  assert ((k, v) ∈ iterate s' (KeyDenom "")) as Hin by (rewrite E; by left). apply elem_of_iterate in Hin as [Hs' Hp].
  pose proof Hp as Hp'. apply HasPrefix_spec in Hp' as [r Er].
  assert (legacy_key k) as Hk by (left; subst k; by eexists _, _).
  destruct (decide (Exists (fun w => fst w = k) (flat_map (denom_writes s) cs))) as [He|Hne].
  - apply Exists_exists in He as ([k0 v0] & Hw & [= ->]). pose proof Hw as Hw'.
    apply all_writes_of in Hw' as (c & Hc & Hw'). assert (v0 = None) as -> by (by eapply legacy_writers).
    unfold s' in Hs'. erewrite apply_agree in Hs'; [|exact Hw|]; [done|].
    intros v' (c' & Hc' & Hw2)%all_writes_of. by eapply legacy_writers.
  - unfold s' in Hs'. rewrite apply_other in Hs'.
    + assert ((k, v) ∈ iterate s (KeyDenom "")) as Hin by (by apply elem_of_iterate).
      destruct (Forall2_left _ _ _ _ (ls_denoms _ _ Hls) Hin) as (c & Hc & Hkc & _). cbn [fst] in Hkc.
      apply Hne, Exists_exists. exists (KeyDenom (Denom_Id (fst c)), None). split; [|by rewrite Hkc].
      eapply in_all_writes; [done|]. right. left.
    + intros v0 Hw. apply Hne, Exists_exists. by exists (k, v0).
Qed.

Lemma token_migrated c n : c ∈ cs -> n ∈ snd c ->
  s' !! (nftStoreKey (Denom_Id (fst c)) +:+ BaseNFT_Id n) = Some (token_record (Denom_Id (fst c)) n) /\
  s' !! ownerStoreKey (Denom_Id (fst c)) (BaseNFT_Id n) = Some (owner_of n) /\
  s' !! (nftOfClassByOwnerStoreKey (owner_of n) (Denom_Id (fst c)) +:+ BaseNFT_Id n) = Some Placeholder /\
  s' !! KeyNFT (Denom_Id (fst c)) (BaseNFT_Id n) = None /\
  s' !! KeyOwner (Some (owner_of n)) (Denom_Id (fst c)) (BaseNFT_Id n) = None.
Proof.
  intros Hc Hn. pose proof (nonempty_id _ (valid_in _ Hc)) as Hid.
  pose proof (tokens_writes_has (Denom_Id (fst c)) (GetTotalSupply s (Denom_Id (fst c))) (snd c) n Hn) as Hhas.
  split_and!.
  - eapply written; [done|eapply token_in, Hhas; [done|by left]|]. intros c' v' Hc' Hw. exact (token_writers c n c' v' Hc Hn Hc' _ Hw eq_refl).
  - eapply written; [done|eapply token_in, Hhas; [done|by right; left]|]. intros c' v' Hc' Hw. exact (owner_writers c n c' v' Hc Hn Hc' _ Hw eq_refl).
  - eapply written; [done|eapply token_in, Hhas; [done|by do 2 right; left]|].
    intros c' v' Hc' Hw. exact (index_writers c n c' v' Hc Hn Hc' _ Hw eq_refl).
  - eapply deleted; [done|eapply token_in, Hhas; [done|by do 3 right; left]|]. left. rewrite KeyNFT_eq by done.
    by eexists _, _.
  - eapply deleted; [done|eapply token_in, Hhas; [done|by do 4 right; left]|]. left.
    destruct (KeyOwner_head (Some (owner_of n)) (Denom_Id (fst c)) (BaseNFT_Id n)) as [r ->]. by eexists _, _.
Qed.

Lemma all_migrated :
  (forall c, c ∈ cs -> GetTotalSupply s' (Denom_Id (fst c)) =
    (GetTotalSupply s (Denom_Id (fst c)) + Z.of_nat (List.length (snd c)))%Z) ->
  migrated s cs s'.
Proof.
  intros Hsup. split; try done.
  - intros c Hc. eapply written; [done|by left|]. intros c' v' Hc' Hw. by eapply class_writers.
  - apply token_migrated.
  - apply no_denoms_left.
  - intros c Hc. split.
    + eapply deleted; [done|by do 2 right; left|]. left. by eexists _, _.
    + eapply deleted; [done|by do 3 right; left|]. right. eauto.
  - intros k Hk. apply apply_other. intros v (c & Hc & Hw)%all_writes_of. by eapply Hk.
Qed.
End Migrated.

(** SaveDenom of the keeper does on this store what the migration needs of it. *)
Lemma keeper_saves_class `{EthLib} `{NftOnStore} `{!EvmKeeper} `{!WasmState} `{!ConvertedNFTChecker} (c0 : Ctx)
  `{!NftOnStoreLaws} : saves_class (keeper_SaveDenom c0).
Proof.
  intros s d creator metadata Hid Hb Hm Hn. unfold keeper_SaveDenom, CollectionKeeper.SaveDenom, mbind.
  rewrite Hid, Hb. cbn [run_check mret]. unfold class_metadata in Hm. unfold lift_sum. rewrite Hm.
  unfold mret, nft_write. cbn [c_nft set_nft].
  destruct (SaveClass_store s (class_of d metadata) Hn) as (n & Hs & Hp). unfold class_of in Hs. rewrite Hs.
  cbn [c_nft set_nft]. by rewrite Hp.
Qed.

(** C29: on a store of version 1 in which every record is under the key of its ids and no
    denom id continues another one past a slash (a valid id may contain one, and the
    migration then fails to tell the NFTs of the two apart), whose precheck reports
    nothing, and whose denoms SaveDenom of the keeper accepts and have no class yet, the
    migration the keeper runs succeeds, although the records of x/nft it writes share the
    five prefix bytes of the records it reads: every denom is the class of its id, every
    NFT is a token of that class with its metadata, its owner and its entry in the owner's
    index, the supply of the class has grown by the number of its NFTs, the records of
    version 1 are gone, no denom is left to migrate, and no other key has changed. *)
Theorem migration_complete `{EthLib} `{NftOnStore} `{!EvmKeeper} `{!WasmState} `{!ConvertedNFTChecker} (c0 : Ctx)
  `{!NftOnStoreLaws} s cs :
  legacy_store s cs -> PrecheckLegacyStore s = [] -> (forall c, c ∈ cs -> movable s c) ->
  exists s', Migrate1to2 c0 s = Ok tt s' /\ migrated s cs s'.
Proof.
  intros Hls Hpre Hmv. destruct (precheck_clean s Hpre) as [Hcr Hown].
  destruct (loop_runs (keeper_SaveDenom c0) (keeper_saves_class c0) (iterate s (KeyDenom "")) cs s
              (ls_denoms _ _ Hls) (ids_nodup s cs Hls)) as [Hrun Hsup].
  - intros c Hc. split_and!; [by apply Hmv|by apply Hls|..].
    + destruct (Forall2_right _ _ _ _ (ls_denoms _ _ Hls) Hc) as ([k v] & Hin & _ & Hv). by eapply Hcr.
    + intros n Hn. destruct (Forall2_right _ _ _ _ (ls_nfts _ _ Hls c Hc) Hn) as ([k v] & Hin & Hk & Hv).
      apply (Hown k v); [|done]. apply elem_of_iterate in Hin as [Hs _]. apply elem_of_iterate. split; [done|].
      cbn [fst] in Hk. subst k. rewrite KeyNFT_eq by (by eapply nonempty_id, (valid_in s)).
      apply HasPrefix_spec. by eexists.
  - eexists. split; [exact Hrun|]. by apply all_migrated.
Qed.
End Spec.
