(* ===== verification/CollectionSpec.v ===== *)
(** What x/collection promises its users and the conversion modules: who may
    create, mint, edit, transfer and burn, that nothing else changes, and the bounds
    of the class metadata. *)
From S2P Require Import Prelude GoStrings Utf8 Sdk CollectionTypes CollectionKeeper.
Open Scope go_scope.

Section CollectionSpec.
Context `{EthLib} `{SdkLib} `{NftKeeper} `{!EvmKeeper} `{!WasmState} `{CollectionCodec} `{!ConvertedNFTChecker}
        `{!NftLaws} `{!SdkLaws} `{!CollectionCodecLaws}.
Implicit Types c : Ctx.

(** A transfer succeeds only for the owner; afterwards the recipient owns the
    NFT, no other NFT or class changed, and if the class restricts updates the NFT
    itself is unchanged. *)
Lemma TransferNFT_correct msg c u c' :
  TransferNFT msg c = Ok u c' ->
  AccAddressFromBech32 (mt_Sender msg) = Some (nk_GetOwner (c_nft c) (mt_DenomId msg) (mt_Id msg)) /\
  AccAddressFromBech32 (mt_Recipient msg) = Some (nk_GetOwner (c_nft c') (mt_DenomId msg) (mt_Id msg)) /\
  others_kept (mt_DenomId msg) (mt_Id msg) (c_nft c) (c_nft c') /\ nft_only c c' /\
  (forall den c1, GetDenomInfo (mt_DenomId msg) c = Ok den c1 -> UpdateRestricted den = true ->
     nk_GetNFT (c_nft c') (mt_DenomId msg) (mt_Id msg)
     = nk_GetNFT (c_nft c) (mt_DenomId msg) (mt_Id msg)).
Proof.
  intros (src & dst & Hs & Hd & <- & <- & _ & Hk & Hn & Hu)%TransferNFT_ok. done.
Qed.

(** Minting creates a new NFT with the given content for the recipient, fails
    if the id is taken, and in a class with restricted minting succeeds only for the
    creator. *)
Lemma MintNFT_correct msg c u c' :
  MintNFT msg c = Ok u c' ->
  nk_GetNFT (c_nft c) (mm_DenomId msg) (mm_Id msg) = None /\
  AccAddressFromBech32 (mm_Recipient msg) = Some (nk_GetOwner (c_nft c') (mm_DenomId msg) (mm_Id msg)) /\
  GetNFT (mm_DenomId msg) (mm_Id msg) c' =
    Ok (MkBaseNFT (mm_Id msg) (mm_Name msg) (mm_URI msg) (mm_Data msg)
          (acc_String (nk_GetOwner (c_nft c') (mm_DenomId msg) (mm_Id msg))) (mm_UriHash msg)) c' /\
  (exists den, GetDenomInfo (mm_DenomId msg) c = Ok den c /\
     (MintRestricted den = true -> exists a, AccAddressFromBech32 (mm_Sender msg) = Some a /\
        Denom_Creator den = acc_String a)) /\
  others_kept (mm_DenomId msg) (mm_Id msg) (c_nft c) (c_nft c') /\ nft_only c c'.
Proof.
  unfold MintNFT. intros Hr. apply mbind_ok in Hr as (r & c0 & Hb & Hr). apply bech32_ok in Hb as [Hb ->].
  apply mbind_ok in Hr as (sd & c0 & Hsd & Hr). apply bech32_ok in Hsd as [Hsd ->].
  apply mbind_ok in Hr as (den & c0 & Hden & Hr). pose proof (GetDenomInfo_ok _ _ _ _ Hden) as (-> & _).
  apply mbind_ok in Hr as (x & c0 & Hg & Hr). apply guard_ok in Hg as [Hg ->].
  apply mbind_ok in Hr as (x2 & c1 & Hs & Hr).
  apply SaveNFT_ok in Hs as (_ & bz & s' & Hbz & Hm & ->). apply EmitEvents_ok in Hr as ->.
  apply Mint_effect in Hm as (Hk & Hn & Hget & Ho). cbn in *. rewrite Ho. split_and!; try done.
  - unfold GetNFT, mbind, gets, lift_opt, mret. cbn. rewrite Hget. unfold read_metadata. cbn.
    by rewrite (NFTMetadata_roundtrip _ _ Hbz), ?Ho.
  - exists den. split; [done|]. intros Hmr. exists sd. split; [done|]. rewrite Hmr in Hg.
    apply negb_true_iff in Hg. by apply str_neqb_false in Hg.
Qed.

Lemma UpdateNFT_ok d i nm u uh da o c x c' :
  UpdateNFT d i nm u uh da o c = Ok x c' ->
  (exists den, GetDenomInfo d c = Ok den c /\ UpdateRestricted den = false) /\
  nk_GetOwner (c_nft c) d i = o /\ nk_GetNFT (c_nft c) d i <> None /\
  others_kept d i (c_nft c) (c_nft c') /\ same_owners (c_nft c) (c_nft c') /\ nft_only c c'.
Proof.
  unfold UpdateNFT. intros Hr.
  apply mbind_ok in Hr as (den & c0 & Hden & Hr). pose proof (GetDenomInfo_ok _ _ _ _ Hden) as (-> & _).
  apply mbind_ok in Hr as (x1 & c0 & Hg & Hr). apply guard_ok in Hg as [Hg%negb_true_iff ->].
  apply mbind_ok in Hr as (s & c0 & Hs & Hr). apply gets_ok in Hs as [-> ->].
  apply mbind_ok in Hr as (tok & c0 & Ht & Hr). apply lift_opt_ok in Ht as [Ht ->].
  apply mbind_ok in Hr as (x2 & c0 & Ha & Hr). apply Authorize_ok in Ha as [-> ->].
  split; [by exists den|]. split; [done|]. split; [congruence|].
  pose proof (GetNFT_Id _ _ _ _ Ht) as [Hd Hi].
  destruct (_ && _) in Hr; [apply mret_ok in Hr as [_ ->]; done|].
  apply mbind_ok in Hr as (t' & c0 & Ht' & Hw).
  assert (c0 = c /\ NFT_ClassId t' = d /\ NFT_Id t' = i) as (-> & Hd' & Hi').
  { destruct (_ : bool) in Ht'; [apply merge_metadata_ok in Ht' as (-> & ? & ?)|inv Ht'];
      cbn in *; subst; done. }
  apply nft_write_ok in Hw as (s' & Hw & ->). cbn. pose proof (Update_effect _ d i _ _ Hd' Hi' Hw) as Hk.
  apply Update_spec in Hw as (_ & _ & Ho & _). done.
Qed.

(** An edit succeeds only for the owner and only when the class does not
    restrict updates; it changes the content of that NFT at most, no owner. *)
Lemma EditNFT_correct msg c u c' :
  EditNFT msg c = Ok u c' ->
  AccAddressFromBech32 (me_Sender msg) = Some (nk_GetOwner (c_nft c) (me_DenomId msg) (me_Id msg)) /\
  (exists den, GetDenomInfo (me_DenomId msg) c = Ok den c /\ UpdateRestricted den = false) /\
  others_kept (me_DenomId msg) (me_Id msg) (c_nft c) (c_nft c') /\
  same_owners (c_nft c) (c_nft c') /\ nft_only c c'.
Proof.
  unfold EditNFT. intros Hr. apply mbind_ok in Hr as (a & c0 & Hb & Hr). apply bech32_ok in Hb as [Hb ->].
  apply mbind_ok in Hr as (x & c1 & Hu & Hr). apply EmitEvents_ok in Hr as ->.
  apply UpdateNFT_ok in Hu as (Hd & <- & _ & Hk & Ho & Hn). done.
Qed.

Lemma SaveDenom_ok id nm sc sy cr mr ur de u uh da c x c' :
  SaveDenom id nm sc sy cr mr ur de u uh da c = Ok x c' ->
  ValidateDenomID id = None /\ ValidateDenomMetadataBounds sc da = None /\
  nk_GetClass (c_nft c) id = None /\
  GetDenomInfo id c' = Ok (MkDenom id nm sc (acc_String cr) sy mr ur de u uh da) c' /\
  (forall d, d <> id -> nk_GetClass (c_nft c') d = nk_GetClass (c_nft c) d) /\
  same_tokens (c_nft c) (c_nft c') /\ same_owners (c_nft c) (c_nft c') /\
  nft_only c c' /\ c_events c' = c_events c.
Proof.
  unfold SaveDenom. intros Hr. apply mbind_ok in Hr as (x1 & c0 & Hx & Hr).
  apply run_check_ok in Hx as [Hv ->]. apply mbind_ok in Hr as (x2 & c0 & Hx & Hr).
  apply run_check_ok in Hx as [Hb ->]. apply mbind_ok in Hr as (bz & c0 & Hx & Hr).
  apply lift_sum_ok in Hx as [Hbz ->]. apply nft_write_ok in Hr as (s' & Hw & ->).
  apply SaveClass_spec in Hw as (Hn & Hc & Ht & Ho). cbn in *. split_and!; try done.
  - unfold GetDenomInfo, mbind, gets, lift_opt, mret. cbn. rewrite Hc, decide_True by done. cbn.
    rewrite (DenomMetadata_roundtrip _ _ Hbz). done.
  - intros d Hd. by rewrite Hc, decide_False.
Qed.

(** Issuing a class succeeds only for an id outside the name spaces reserved
    for classes that modules derive (uptick-, ibc/, addresses) and not in use; the
    class stored is the one issued, its creator the sender, and no other class and
    no NFT changes. *)
Lemma IssueDenom_correct msg c u c' :
  IssueDenom msg c = Ok u c' ->
  HasPrefix (mi_Id msg) "uptick-" = false /\ IsIBCDenom (mi_Id msg) = false /\
  isHexAddressShape (mi_Id msg) = false /\ AccAddressFromBech32 (mi_Id msg) = None /\
  nk_GetClass (c_nft c) (mi_Id msg) = None /\
  (exists a, AccAddressFromBech32 (mi_Sender msg) = Some a /\
     GetDenomInfo (mi_Id msg) c' =
       Ok (MkDenom (mi_Id msg) (mi_Name msg) (mi_Schema msg) (acc_String a) (mi_Symbol msg)
             (mi_MintRestricted msg) (mi_UpdateRestricted msg) (mi_Description msg) (mi_Uri msg)
             (mi_UriHash msg) (mi_Data msg)) c') /\
  (forall d, d <> mi_Id msg -> nk_GetClass (c_nft c') d = nk_GetClass (c_nft c) d) /\
  same_tokens (c_nft c) (c_nft c') /\ same_owners (c_nft c) (c_nft c') /\ nft_only c c'.
Proof.
  unfold IssueDenom. intros Hr. apply mbind_ok in Hr as (a & c0 & Hb & Hr). apply bech32_ok in Hb as [Hb ->].
  apply mbind_ok in Hr as (x1 & c0 & Hx & Hr). apply run_check_ok in Hx as [Hv ->].
  apply mbind_ok in Hr as (x2 & c1 & Hs & Hr). apply EmitEvents_ok in Hr as ->.
  apply ValidateIssueDenomID_unreserved in Hv as (V1 & V2 & V3 & V4 & _).
  apply SaveDenom_ok in Hs as (_ & _ & Hn & Hd & Ho & Ht & Hw & Hk & _).
  split_and!; try done. exists a. split; [done|]. revert Hd.
  unfold GetDenomInfo, mbind, gets, lift_opt, lift_sum, mret, throw. cbn.
  destruct (nk_GetClass (c_nft c1) (mi_Id msg)) as [cl|]; [|done].
  destruct (Class_Data cl) as [v|]; [destruct (Unmarshal_DenomMetadata v)|]; cbn; congruence.
Qed.

(** Only the creator of a class can hand it over; afterwards the recipient is
    its creator, everything else about it is as before, no other class and no NFT
    changes. *)
Lemma TransferDenom_correct msg c u c' :
  TransferDenom msg c = Ok u c' ->
  exists den src dst, GetDenomInfo (md_Id msg) c = Ok den c /\
    AccAddressFromBech32 (md_Sender msg) = Some src /\
    AccAddressFromBech32 (Denom_Creator den) = Some src /\
    AccAddressFromBech32 (md_Recipient msg) = Some dst /\
    GetDenomInfo (md_Id msg) c' =
      Ok (MkDenom (Denom_Id den) (Denom_Name den) (Denom_Schema den) (acc_String dst) (Denom_Symbol den)
            (MintRestricted den) (UpdateRestricted den) (Denom_Description den) (Denom_Uri den)
            (Denom_UriHash den) (Denom_Data den)) c' /\
    (forall d, d <> md_Id msg -> nk_GetClass (c_nft c') d = nk_GetClass (c_nft c) d) /\
    same_tokens (c_nft c) (c_nft c') /\ same_owners (c_nft c) (c_nft c').
Proof.
  unfold TransferDenom, TransferDenomOwner. intros Hr.
  apply mbind_ok in Hr as (src & c0 & Hb & Hr). apply bech32_ok in Hb as [Hsrc ->].
  apply mbind_ok in Hr as (dst & c0 & Hb & Hr). apply bech32_ok in Hb as [Hdst ->].
  apply mbind_ok in Hr as (x & c1 & Hs & Hr). apply EmitEvents_ok in Hr as ->.
  apply mbind_ok in Hs as (den & c0 & Hden & Hs).
  pose proof (GetDenomInfo_ok _ _ _ _ Hden) as (-> & cl & Hcl & Hid).
  apply mbind_ok in Hs as (cr & c0 & Hcr & Hs). apply lift_opt_ok in Hcr as [Hcr ->].
  apply mbind_ok in Hs as (x1 & c0 & Hg & Hs). apply guard_ok in Hg as [Hg%str_eqb_true ->].
  apply mbind_ok in Hs as (bz & c0 & Hbz & Hs). apply lift_sum_ok in Hbz as [Hbz ->].
  apply nft_write_ok in Hs as (s' & Hw & ->). apply UpdateClass_spec in Hw as (_ & Hc & Ht & Ho).
  cbn in *. pose proof (GetClass_Id _ _ _ Hcl) as Hi. rewrite Hid, Hi in Hc.
  exists den, src, dst. split; [done|]. split; [done|]. split; [congruence|]. split; [done|].
  split; [|split; [|done]].
  { unfold GetDenomInfo, mbind, gets, lift_opt, mret. cbn. rewrite Hc, decide_True by done. cbn.
    rewrite (DenomMetadata_roundtrip _ _ Hbz). by rewrite Hid, Hi. } intros d Hd. by rewrite Hc, decide_False.
Qed.
End CollectionSpec.

(** Clamping the metadata of an imported class gives metadata within the bounds
    and valid UTF-8; valid input is only shortened, at a rune boundary, and input
    within the bounds is not changed at all. *)
Lemma ClampDenomMetadataBounds_correct schema data schema' data' changed :
  ClampDenomMetadataBounds schema data = (schema', data', changed) ->
  ValidateDenomMetadataBounds schema' data' = None /\
  ValidString schema' = true /\ ValidString data' = true /\
  (ValidString schema = true -> exists r, schema = schema' +:+ r) /\
  (ValidString data = true -> exists r, data = data' +:+ r) /\
  (changed = false -> schema' = schema /\ data' = data).
Proof.
  unfold ClampDenomMetadataBounds.
  pose proof (clamp_len schema (N.to_nat MaxDenomSchemaLen)) as L1. pose proof (clamp_len data (N.to_nat MaxDenomDataLen)) as L2.
  pose proof (clamp_valid schema (N.to_nat MaxDenomSchemaLen)) as V1. pose proof (clamp_valid data (N.to_nat MaxDenomDataLen)) as V2.
  pose proof (clamp_prefix schema (N.to_nat MaxDenomSchemaLen)) as P1. pose proof (clamp_prefix data (N.to_nat MaxDenomDataLen)) as P2.
  pose proof (clamp_unchanged schema (N.to_nat MaxDenomSchemaLen)) as U1. pose proof (clamp_unchanged data (N.to_nat MaxDenomDataLen)) as U2.
  destruct (clampToValidUTF8Bound schema _) as [s1 b1]. destruct (clampToValidUTF8Bound data _) as [s2 b2].
  cbn [fst snd] in *. intros [= <- <- <-]. split; [|split_and!; try done].
  - unfold ValidateDenomMetadataBounds, lenN. apply then_check_None. split; [apply check_None, N.leb_le; lia|].
    apply then_check_None. split; [apply check_None, N.leb_le; lia|done].
  - intros [-> ->]%orb_false_iff. by destruct U1, U2.
Qed.
