(* ===== verification/CollectionMsg.v ===== *)
(** x/collection/types/msgs.go: the stateless validation of the six messages, and
    what a message that passes it can still ask of the message server. *)
From S2P Require Import Prelude GoStrings Utf8 Sdk CollectionTypes CollectionKeeper.
Open Scope go_scope.

Module CollectionMsg.

(** github.com/tidwall/gjson *)
Class GjsonLib := { gjson_Valid : string -> bool }.

Section Msgs.
Context `{SdkLib} `{GjsonLib}.

Definition ErrSender : error := SdkErr ErrInvalidAddress.
Definition ErrJSON : error := SdkErr ErrJSONUnmarshal.
Definition decodes (s : string) : bool := match AccAddressFromBech32 s with Some _ => true | None => false end.

(** The data field of an edit or a transfer: "[remove]" and "[do-not-modify]" need
    not be JSON. *)
Definition update_data_ok (data : string) : bool :=
  negb ((data <>?s "") && Modified data && (data <>?s RemoveField) && negb (gjson_Valid data)).

Definition MsgIssueDenom_ValidateBasic (msg : MsgIssueDenom) : option error :=
  then_check (ValidateIssueDenomID (mi_Id msg)) (
  check (mi_Name msg <>?s "") else ErrDenom ;;
  check (mi_Symbol msg <>?s "") else ErrDenom ;;
  check (decodes (mi_Sender msg)) else ErrSender ;;
  check (lenN (mi_Schema msg) <=? MaxDenomSchemaLen)%N else SdkErr ErrInvalidRequest ;;
  check (negb ((mi_Schema msg <>?s "") && negb (gjson_Valid (mi_Schema msg)))) else ErrJSON ;;
  check (negb ((mi_Data msg <>?s "") && negb (gjson_Valid (mi_Data msg)))) else ErrJSON ;;
  check (lenN (mi_Data msg) <=? MaxDenomDataLen)%N else SdkErr ErrInvalidRequest ;;
  ValidateKeywords (mi_Id msg)).

Definition MsgTransferNFT_ValidateBasic (msg : MsgTransferNFT) : option error :=
  then_check (ValidateDenomID (mt_DenomId msg)) (
  then_check (ValidateTokenURI (mt_URI msg)) (
  check (decodes (mt_Sender msg)) else ErrSender ;;
  check (decodes (mt_Recipient msg)) else ErrSender ;;
  check (update_data_ok (mt_Data msg)) else ErrJSON ;;
  ValidateTokenIDForDenom (mt_DenomId msg) (mt_Id msg))).

Definition MsgEditNFT_ValidateBasic (msg : MsgEditNFT) : option error :=
  check (decodes (me_Sender msg)) else ErrSender ;;
  check (negb ((me_Name msg <>?s "") && IsBlank (me_Name msg))) else SdkErr ErrInvalidRequest ;;
  then_check (ValidateDenomID (me_DenomId msg)) (
  then_check (ValidateTokenURI (me_URI msg)) (
  check (update_data_ok (me_Data msg)) else ErrJSON ;;
  ValidateTokenIDForDenom (me_DenomId msg) (me_Id msg))).

Definition MsgMintNFT_ValidateBasic (msg : MsgMintNFT) : option error :=
  check (decodes (mm_Sender msg)) else ErrSender ;;
  check (decodes (mm_Recipient msg)) else ErrSender ;;
  check (negb (IsIBCDenom (mm_DenomId msg))) else ErrDenom ;;
  then_check (ValidateDenomID (mm_DenomId msg)) (
  then_check (ValidateTokenURI (mm_URI msg)) (
  check (negb ((mm_Data msg <>?s "") && negb (gjson_Valid (mm_Data msg)))) else ErrJSON ;;
  ValidateTokenID (mm_Id msg))).

Definition MsgBurnNFT_ValidateBasic (msg : MsgBurnNFT) : option error :=
  check (decodes (mb_Sender msg)) else ErrSender ;;
  then_check (ValidateDenomID (mb_DenomId msg)) (
  ValidateTokenIDForDenom (mb_DenomId msg) (mb_Id msg)).

Definition MsgTransferDenom_ValidateBasic (msg : MsgTransferDenom) : option error :=
  check (decodes (md_Sender msg)) else ErrSender ;;
  check (decodes (md_Recipient msg)) else ErrSender ;;
  check (negb (IsIBCDenom (md_Id msg))) else ErrDenom ;;
  then_check (ValidateDenomID (md_Id msg)) None.
End Msgs.
End CollectionMsg.
Export CollectionMsg.

(** ** Validated messages *)
Section Validated.
Context `{EthLib} `{SdkLib} `{NftKeeper} `{!EvmKeeper} `{!WasmState} `{CollectionCodec} `{GjsonLib} `{!NftLaws} `{!SdkLaws}
        `{!CollectionCodecLaws} `{!ConvertedNFTChecker}.
Implicit Types c : Ctx.

Lemma decodes_true s : decodes s = true -> exists a, AccAddressFromBech32 s = Some a /\ a <> "".
Proof.
  unfold decodes. destruct (AccAddressFromBech32 s) as [a|] eqn:E; [|done]. intros _. exists a.
  by destruct (bech32_nonempty _ _ E).
Qed.

Lemma token_id_ok_nonempty t : ValidateTokenID t = None -> t <> "".
Proof. by intros Hv ->. Qed.

(** A mint that passes validation fails in the message server only for a reason the
    store gives: the class is unknown or unreadable, minting is restricted, or the
    id is taken. *)
Lemma MintNFT_complete msg c den c1 :
  fits [mm_Name msg; mm_Data msg] -> MsgMintNFT_ValidateBasic msg = None ->
  GetDenomInfo (mm_DenomId msg) c = Ok den c1 ->
  (MintRestricted den = true -> exists a, AccAddressFromBech32 (mm_Sender msg) = Some a /\
     Denom_Creator den = acc_String a) ->
  nk_GetNFT (c_nft c) (mm_DenomId msg) (mm_Id msg) = None ->
  exists c', MintNFT msg c = Ok tt c'.
Proof.
  unfold MsgMintNFT_ValidateBasic. intros Hfit Hv Hden Hr Hn.
  apply then_check_None in Hv as [H1'%check_None Hv]. apply then_check_None in Hv as [H2'%check_None Hv].
  apply then_check_None in Hv as [_ Hv]. apply then_check_None in Hv as [Hd Hv].
  apply then_check_None in Hv as [_ Hv]. apply then_check_None in Hv as [_ Ht].
  apply decodes_true in H1' as (sd & Es & _). apply decodes_true in H2' as (rc & Er & Hrc).
  pose proof (GetDenomInfo_ok _ _ _ _ Hden) as (-> & cl & Hcl & _).
  unfold MintNFT, bech32, SaveNFT, mbind. rewrite Er, Es. cbn - [GetDenomInfo]. rewrite Hden.
  assert (MintRestricted den && (Denom_Creator den <>?s acc_String sd) = false) as ->.
  { destruct (MintRestricted den); [|done]. destruct (Hr eq_refl) as (a & Ea & Ec). cbn.
    apply str_neqb_false. congruence. }
  cbn. apply ValidateDenomID_nonempty, str_neqb_true in Hd. apply token_id_ok_nonempty, str_neqb_true in Ht.
  apply str_neqb_true in Hrc. rewrite Hd, Ht, Hrc. cbn.
  destruct (NFTMetadata_total (MkNFTMetadata (mm_Name msg) (mm_Data msg)) Hfit) as [bz ->]. cbn.
  edestruct Mint_total as [s' Hm]; cycle 2; [unfold nft_write; by rewrite Hm; eauto|cbn; congruence|done].
Qed.

Lemma IssueDenom_complete msg c :
  fits [mi_Sender msg; mi_Schema msg; mi_Data msg] ->
  MsgIssueDenom_ValidateBasic msg = None -> nk_GetClass (c_nft c) (mi_Id msg) = None ->
  exists c', IssueDenom msg c = Ok tt c'.
Proof.
  unfold MsgIssueDenom_ValidateBasic. intros Hfit Hv Hn. apply then_check_None in Hv as [Hid Hv].
  apply then_check_None in Hv as [_ Hv]. apply then_check_None in Hv as [_ Hv].
  apply then_check_None in Hv as [Hs%check_None Hv]. apply then_check_None in Hv as [Hsc Hv].
  apply then_check_None in Hv as [_ Hv]. apply then_check_None in Hv as [_ Hv].
  apply then_check_None in Hv as [Hda _]. apply decodes_true in Hs as (a & Ea & _).
  pose proof (ValidateIssueDenomID_unreserved _ Hid) as (_ & _ & _ & _ & Hid').
  unfold IssueDenom, bech32, SaveDenom, mbind, run_check. rewrite Ea. cbn. rewrite Hid, Hid'.
  assert (ValidateDenomMetadataBounds (mi_Schema msg) (mi_Data msg) = None) as ->.
  { unfold ValidateDenomMetadataBounds. apply check_None in Hsc, Hda. by rewrite Hsc, Hda. }
  cbn. match goal with |- context [NewAny_DenomMetadata ?m] => destruct (DenomMetadata_total m) as [bz ->] end.
  { unfold fits in *. cbn in *. rewrite <- (bech32_spelling _ _ Ea), len_ToLower. done. }
  cbn. edestruct SaveClass_total as [s' Hm]; cycle 1; [unfold nft_write; by rewrite Hm; eauto|done].
Qed.

Lemma BurnNFT_complete msg c :
  MsgBurnNFT_ValidateBasic msg = None ->
  AccAddressFromBech32 (mb_Sender msg) = Some (nk_GetOwner (c_nft c) (mb_DenomId msg) (mb_Id msg)) ->
  nk_GetClass (c_nft c) (mb_DenomId msg) <> None ->
  IsConvertedNFT c (mb_DenomId msg) (mb_Id msg) = false ->
  exists c', BurnNFT msg c = Ok tt c'.
Proof.
  intros _ Ho Hc Hi. pose proof (bech32_nonempty _ _ Ho) as [Hne _].
  assert (nk_GetNFT (c_nft c) (mb_DenomId msg) (mb_Id msg) <> None) as Hn
    by (intros E; by apply GetOwner_none in E).
  destruct (Burn_total (c_nft c) (mb_DenomId msg) (mb_Id msg) Hc Hn) as [s' Hb].
  unfold BurnNFT, bech32, RemoveNFT, Authorize, mbind, lift_opt. rewrite Ho. cbn - [IsConvertedNFT].
  destruct (nk_GetNFT (c_nft c) (mb_DenomId msg) (mb_Id msg)); [|done]. cbn - [IsConvertedNFT].
  rewrite String.eqb_refl. cbn - [IsConvertedNFT]. rewrite Hi. cbn. unfold nft_write. rewrite Hb. eauto.
Qed.

(** A message that passes its stateless validation is served unless the state of
    the chain forbids it: issuing a class whose id is free succeeds; minting succeeds
    when the class is known, the sender may mint and the id is free; burning succeeds
    for the owner of an NFT that no contract token is bound to. *)
Lemma validated_messages_served c :
  (forall msg, fits [mi_Sender msg; mi_Schema msg; mi_Data msg] -> MsgIssueDenom_ValidateBasic msg = None -> nk_GetClass (c_nft c) (mi_Id msg) = None ->
     exists c', IssueDenom msg c = Ok tt c') /\
  (forall msg den c1, fits [mm_Name msg; mm_Data msg] -> MsgMintNFT_ValidateBasic msg = None -> GetDenomInfo (mm_DenomId msg) c = Ok den c1 ->
     (MintRestricted den = true -> exists a, AccAddressFromBech32 (mm_Sender msg) = Some a /\
        Denom_Creator den = acc_String a) ->
     nk_GetNFT (c_nft c) (mm_DenomId msg) (mm_Id msg) = None -> exists c', MintNFT msg c = Ok tt c') /\
  (forall msg, MsgBurnNFT_ValidateBasic msg = None ->
     AccAddressFromBech32 (mb_Sender msg) = Some (nk_GetOwner (c_nft c) (mb_DenomId msg) (mb_Id msg)) ->
     nk_GetClass (c_nft c) (mb_DenomId msg) <> None ->
     IsConvertedNFT c (mb_DenomId msg) (mb_Id msg) = false -> exists c', BurnNFT msg c = Ok tt c').
Proof.
  split_and!; intros *; [apply IssueDenom_complete|apply MintNFT_complete|apply BurnNFT_complete].
Qed.
End Validated.
