(* ===== verification/CollectionGenesis.v ===== *)
(** x/collection/keeper/collection.go, genesis.go and invariants.go: the export walk
    with its issue report, the import, and the supply invariant. *)
From S2P Require Import Prelude GoStrings Utf8 Sdk CollectionTypes CollectionKeeper CollectionSpec.
Open Scope go_scope.
Open Scope list_scope.

Module CollectionGenesis.

Inductive ExportIssueKind :=
| ExportIssueNFTListFailed | ExportIssueClassMetadata | ExportIssueClassMetadataMissing
| ExportIssueSupplyMismatch | ExportIssueClassMetadataTooLarge.

#[global] Instance kind_eq_dec : EqDecision ExportIssueKind.
Proof. solve_decision. Defined.

Definition kind_string (k : ExportIssueKind) : string :=
  match k with
  | ExportIssueNFTListFailed => "nft_list_failed"
  | ExportIssueClassMetadata => "class_metadata_undecodable"
  | ExportIssueClassMetadataMissing => "class_metadata_missing"
  | ExportIssueSupplyMismatch => "supply_mismatch"
  | ExportIssueClassMetadataTooLarge => "class_metadata_too_large"
  end.

Record ExportIssue := MkExportIssue { ClassID : string; Kind : ExportIssueKind; Detail : string }.

Section Genesis.
Context `{EthLib} `{SdkLib} `{NftKeeper} `{!EvmKeeper} `{!WasmState} `{CollectionCodec} `{!FmtLib}.
Implicit Types c : Ctx.

Definition issue_String (i : ExportIssue) : string :=
  kind_string (Kind i) +:+ ": class " +:+ fmt_q (ClassID i) +:+ ": " +:+ Detail i.

(** ** Import *)

(** SaveCollection *)
Definition SaveCollection (collection : Collection) : GoM unit :=
  for_each (Collection_NFTs collection) (fun nft =>
    owner <- GetOwner nft ;;
    SaveNFT (Denom_Id (Collection_Denom collection)) (BaseNFT_Id nft) (BaseNFT_Name nft)
      (BaseNFT_URI nft) (BaseNFT_UriHash nft) (BaseNFT_Data nft) owner).

(** [if err := f(); err != nil { panic(err) }] *)
Definition must {A} (m : GoM A) : GoM A :=
  r <- attempt m ;; match r with inr a => mret a | inl _ => panic end.

(** One round of the loop of InitGenesis *)
Definition import_collection (c : Collection) : GoM unit :=
  let d := Collection_Denom c in
  creator <- (if Denom_Creator d <>?s ""
              then must (lift_opt (AccAddressFromBech32 (Denom_Creator d)) (ExtErr "bech32"))
              else mret "") ;;
  must (SaveDenom (Denom_Id d) (Denom_Name d) (Denom_Schema d) (Denom_Symbol d) creator
          (MintRestricted d) (UpdateRestricted d) (Denom_Description d) (Denom_Uri d)
          (Denom_UriHash d) (Denom_Data d)) ;;;
  must (SaveCollection c).

Definition InitGenesis (data : GenesisState) : GoM unit :=
  must (ValidateGenesis data) ;;;
  for_each (Collections data) import_collection.

(** ** Export *)

(** GetCollection *)
Definition GetCollection (denomID : string) : GoM Collection :=
  denom <- GetDenomInfo denomID ;;
  nfts <- gets (fun c => GetNFTs (c_nft c) denomID) ;;
  mret (NewCollection denom nfts).

Definition denomFromClass (class : nft_Class) : Denom :=
  MkDenom (Class_Id class) (Class_Name class) "" "" (Class_Symbol class) false false
    (Class_Description class) (Class_Uri class) (Class_UriHash class) "".

Definition classMetadataIssue (class : nft_Class) : option ExportIssue :=
  match Class_Data class with
  | None => Some (MkExportIssue (Class_Id class) ExportIssueClassMetadataMissing
      ("class has no metadata blob on chain; the exported genesis will carry " +:+
       "empty creator/schema/data and unset restrictions for it"))
  | Some v =>
      match Unmarshal_DenomMetadata v with
      | inl err => Some (MkExportIssue (Class_Id class) ExportIssueClassMetadata (err_Error err))
      | inr _ => None
      end
  end.

Definition with_metadata (d : Denom) (schema data : string) : Denom :=
  MkDenom (Denom_Id d) (Denom_Name d) schema (Denom_Creator d) (Denom_Symbol d) (MintRestricted d)
    (UpdateRestricted d) (Denom_Description d) (Denom_Uri d) (Denom_UriHash d) data.

(** classMetadataBoundsIssue: the denom it leaves, and the issue *)
Definition classMetadataBoundsIssue (denom : Denom) : Denom * option ExportIssue :=
  let '(clampedSchema, clampedData, changed) :=
    ClampDenomMetadataBounds (Denom_Schema denom) (Denom_Data denom) in
  if negb changed then (denom, None)
  else
    let size s := nat_string (len s) in
    (with_metadata denom clampedSchema clampedData,
     Some (MkExportIssue (Denom_Id denom) ExportIssueClassMetadataTooLarge
       ("denom metadata exceeds the genesis bounds and was truncated to keep the export importable: " +:+
        "schema " +:+ size (Denom_Schema denom) +:+ " -> " +:+ size clampedSchema +:+ " bytes, data " +:+
        size (Denom_Data denom) +:+ " -> " +:+ size clampedData +:+ " bytes"))).

Definition GetTotalSupply c (denomID : string) : Z := nk_GetTotalSupply (c_nft c) denomID.
Definition GetTotalSupplyOfOwner c (id owner : string) : Z := nk_GetBalance (c_nft c) id owner.

Definition supplyIssue c (classID : string) (held : Z) : option ExportIssue :=
  let stored := GetTotalSupply c classID in
  if (stored =? held)%Z then None
  else Some (MkExportIssue classID ExportIssueSupplyMismatch
    ("class holds " +:+ BigString held +:+ " nft(s) but its stored total supply counter is " +:+
     BigString stored)).

Definition issues_of (o : option ExportIssue) : list ExportIssue :=
  match o with Some i => [i] | None => [] end.

(** The class, as the export describes it, and its metadata issues *)
Definition export_denom c (class : nft_Class) : Denom * list ExportIssue :=
  let denom := match GetDenomInfo (Class_Id class) c with
               | Ok d _ => d
               | _ => denomFromClass class
               end in
  let '(denom', bounds) := classMetadataBoundsIssue denom in
  (denom', issues_of (classMetadataIssue class) ++ issues_of bounds).

(** One round of the loop; the NFT list, and so the first branch of the source,
    cannot fail: GetNFTs always returns a nil error. *)
Definition export_class c (class : nft_Class) : Collection * list ExportIssue :=
  let nfts := GetNFTs (c_nft c) (Class_Id class) in
  let '(denom, issues) := export_denom c class in
  (NewCollection denom nfts,
   issues ++ issues_of (supplyIssue c (Class_Id class) (uint64_of (List.length nfts)))).

Definition GetCollectionsWithReport c : list Collection * list ExportIssue :=
  fold_left (fun '(cs, issues) class =>
    let '(col, found) := export_class c class in (cs ++ [col], issues ++ found))
    (nk_GetClasses (c_nft c)) ([], []).

Definition GetCollections c : list Collection := fst (GetCollectionsWithReport c).

Definition ExportIssues c : list ExportIssue :=
  fold_left (fun issues class => issues ++ issues_of (classMetadataIssue class)) (nk_GetClasses (c_nft c)) [].

Definition ExportIssuesWithReport c : list ExportIssue := snd (GetCollectionsWithReport c).

Definition ExportGenesis c : GenesisState := MkGenesisState (fst (GetCollectionsWithReport c)).

(** SupplyInvariant: the message and whether the invariant is broken *)
Definition SupplyInvariant (FormatInvariant : string -> string -> string -> string) c : string * bool :=
  let '(msg, count) :=
    fold_left (fun '(msg, count) issue =>
      if bool_decide (Kind issue = ExportIssueSupplyMismatch)
      then (msg +:+ "total " +:+ ClassID issue +:+ " NFTs supply invariance:" +:+ String "010" "" +:+
              String "009" "" +:+ Detail issue +:+ String "010" "", S count)
      else (msg, count)) (snd (GetCollectionsWithReport c)) ("", 0) in
  if count =? 0 then ("", false)
  else (FormatInvariant "collection" "supply"
          (nat_string count +:+ " NFT supply invariants found" +:+ String "010" "" +:+ msg), true).
End Genesis.
End CollectionGenesis.
