(* ===== verification/Builder.v ===== *)
(** x/collection/types/builder.go: classes and tokens as ICS-721 carries them.  [BuildMetadata]
    writes a class or a token as base64 of a JSON object whose entries are those of its data
    blob and one per field under the name space irismod:, [Build] reads such a text back and
    keeps what it does not know as the data blob.  Both are proved to be inverse on what a
    packet carries. *)
From S2P Require Import Prelude GoStrings Utf8 GoJson Sdk CollectionTypes.
Open Scope go_scope.
Local Open Scope list_scope.

(** The codec's [UnpackAny] on the [Any] of a class and of a token, [None] when it holds a
    message of another type; the SDK's reading of an address from hex and the address of a
    module account ("" for nil) *)
Class Ics721Host := {
  UnpackAny_DenomMetadata : string -> error + option DenomMetadata;
  UnpackAny_NFTMetadata : string -> error + option NFTMetadata;
  AccAddressFromHexUnsafe : string -> option string;
  GetModuleAddress : string -> string;
}.

(** Hex reads what hex wrote; an [Any] packed from a message is unpacked to it. *)
Class Ics721HostLaws `{Ics721Host} `{CollectionCodec} : Prop := {
  hex_address a : a <> "" -> AccAddressFromHexUnsafe (hex_bytes a) = Some a;
  UnpackAny_DenomMetadata_NewAny m bz : NewAny_DenomMetadata m = inr bz -> UnpackAny_DenomMetadata bz = inr (Some m);
  UnpackAny_NFTMetadata_NewAny m bz : NewAny_NFTMetadata m = inr bz -> UnpackAny_NFTMetadata bz = inr (Some m);
}.

Module Builder.

Definition Namespace : string := "irismod:".
Definition KeyMediaFieldValue : string := "value".
Definition ClassKeyName : string := Namespace +:+ "name".
Definition ClassKeySymbol : string := Namespace +:+ "symbol".
Definition ClassKeyDescription : string := Namespace +:+ "description".
Definition ClassKeyURIhash : string := Namespace +:+ "uri_hash".
Definition ClassKeyMintRestricted : string := Namespace +:+ "mint_restricted".
Definition ClassKeyUpdateRestricted : string := Namespace +:+ "update_restricted".
Definition ClassKeyCreator : string := Namespace +:+ "creator".
Definition ClassKeySchema : string := Namespace +:+ "schema".
Definition TokenKeyName : string := Namespace +:+ "name".
Definition TokenKeyURIhash : string := Namespace +:+ "uri_hash".
Definition ModuleName : string := "collection".

Section Builder.
Context `{SdkLib} `{CollectionCodec} `{FloatLib} `{Ics721Host}.

(** MediaField, and the object it is encoded as: an empty mime is left out *)
Record MediaField := MkMediaField { mf_Value : Value; mf_Mime : string }.
Definition MediaField_json (m : MediaField) : Value :=
  JObj ((KeyMediaFieldValue, mf_Value m) :: if mf_Mime m =?s "" then [] else [("mime", JStr (mf_Mime m))]).
Definition media (v : Value) : Value := MediaField_json (MkMediaField v "").

(** ** ClassBuilder *)

(** The metadata of a class: zero values when it has none *)
Definition class_metadata (class : nft_Class) : error + DenomMetadata :=
  match Class_Data class with
  | None => inr (MkDenomMetadata "" "" false false "")
  | Some bz =>
      match UnpackAny_DenomMetadata bz with
      | inl e => inl e
      | inr None => inl (ExtErr "unsupported class metadata: expected DenomMetadata")
      | inr (Some m) => inr m
      end
  end.

(** The entries of a data blob; the bool is whether it was read without error. *)
Definition data_entries (data : string) : bool * gmap string Value :=
  if (0 <? len data)%nat then
    let '(ok, kvals) := json_Unmarshal_map data in (ok, match kvals with Some m => m | None => ∅ end)
  else (true, ∅).

Definition class_entries (class : nft_Class) (metadata : DenomMetadata) (creator : string) (kvals : gmap string Value)
  : gmap string Value :=
  let hexCreator := hex_bytes creator in
  let kvals := <[ClassKeyName := media (JStr (Class_Name class))]> kvals in
  let kvals := <[ClassKeySymbol := media (JStr (Class_Symbol class))]> kvals in
  let kvals := <[ClassKeyDescription := media (JStr (Class_Description class))]> kvals in
  let kvals := <[ClassKeyURIhash := media (JStr (Class_UriHash class))]> kvals in
  let kvals := <[ClassKeyMintRestricted := media (JBool (dm_MintRestricted metadata))]> kvals in
  let kvals := <[ClassKeyUpdateRestricted := media (JBool (dm_UpdateRestricted metadata))]> kvals in
  let kvals := <[ClassKeyCreator := media (JStr hexCreator)]> kvals in
  <[ClassKeySchema := media (JStr (dm_Schema metadata))]> kvals.

Definition class_creator (metadata : DenomMetadata) : string :=
  if dm_Creator metadata =?s "" then acc_String (GetModuleAddress ModuleName) else dm_Creator metadata.

Definition ClassBuilder_BuildMetadata (class : nft_Class) : error + string :=
  match class_metadata class with
  | inl e => inl e
  | inr metadata =>
      let '(ok, kvals) := data_entries (dm_Data metadata) in
      if negb ok && IsIBCDenom (Class_Id class) then inr (b64_Encode (dm_Data metadata))
      else
        match AccAddressFromBech32 (class_creator metadata) with
        | None => inl (ExtErr "invalid creator")
        | Some creator => inr (b64_Encode (json_Marshal_map (class_entries class metadata creator kvals)))
        end
  end.

(** [v.(map[string]interface{})["value"]] of the entry under a key *)
Definition media_value (dataMap : gmap string Value) (key : string) : option Value :=
  match dataMap !! key with
  | Some (JObj l) => (list_to_map l : gmap string Value) !! KeyMediaFieldValue
  | _ => None
  end.
(** A field that is there with the right type is read and its entry deleted, another one is
    left in the map and has its default. *)
Definition take_string (key default : string) (dataMap : gmap string Value) : string * gmap string Value :=
  match media_value dataMap key with
  | Some (JStr s) => (s, delete key dataMap)
  | _ => (default, dataMap)
  end.
Definition take_bool (key : string) (default : bool) (dataMap : gmap string Value) : bool * gmap string Value :=
  match media_value dataMap key with
  | Some (JBool b) => (b, delete key dataMap)
  | _ => (default, dataMap)
  end.
Definition take_creator (dataMap : gmap string Value) : error + (string * gmap string Value) :=
  match media_value dataMap ClassKeyCreator with
  | Some (JStr s) =>
      match AccAddressFromHexUnsafe s with
      | None => inl (ExtErr "invalid creator")
      | Some creatorAcc => inr (acc_String creatorAcc, delete ClassKeyCreator dataMap)
      end
  | _ => inr (acc_String (GetModuleAddress ModuleName), dataMap)
  end.
Definition leftover (dataMap : gmap string Value) : string :=
  if (0 <? size dataMap)%nat then json_Marshal_map dataMap else "".

(** The class [Build] returns, once the data is known *)
Definition store_class (classID classURI name symbol description uriHash : string) (metadata : DenomMetadata)
  : error + nft_Class :=
  match ValidateDenomMetadataBounds (dm_Schema metadata) (dm_Data metadata) with
  | Some e => inl e
  | None =>
      match NewAny_DenomMetadata metadata with
      | inl e => inl e
      | inr anyVal =>
          inr {| Class_Id := classID; Class_Name := name; Class_Symbol := symbol; Class_Description := description;
                 Class_Uri := classURI; Class_UriHash := uriHash; Class_Data := Some anyVal |}
      end
  end.

Definition ClassBuilder_Build (classID classURI classData : string) : error + nft_Class :=
  match b64_Decode classData with
  | None => inl (ExtErr "illegal base64 data")
  | Some classDataBz =>
      let '(ok, dataMap) := json_Unmarshal_map classDataBz in
      if negb ok then
        store_class classID classURI "" "" "" ""
          (MkDenomMetadata (acc_String (GetModuleAddress ModuleName)) "" true true classDataBz)
      else
        let dataMap := match dataMap with Some m => m | None => ∅ end in
        let '(name, dataMap) := take_string ClassKeyName "" dataMap in
        let '(symbol, dataMap) := take_string ClassKeySymbol "" dataMap in
        let '(description, dataMap) := take_string ClassKeyDescription "" dataMap in
        let '(uriHash, dataMap) := take_string ClassKeyURIhash "" dataMap in
        let '(mintRestricted, dataMap) := take_bool ClassKeyMintRestricted true dataMap in
        let '(updateRestricted, dataMap) := take_bool ClassKeyUpdateRestricted true dataMap in
        match take_creator dataMap with
        | inl e => inl e
        | inr (creator, dataMap) =>
            let '(schema, dataMap) := take_string ClassKeySchema "" dataMap in
            store_class classID classURI name symbol description uriHash
              (MkDenomMetadata creator schema mintRestricted updateRestricted (leftover dataMap))
        end
  end.

(** ** TokenBuilder *)

Definition MaxTokenDataLen : N := 65536.
Definition ValidateTokenMetadataBounds (data : string) : option error :=
  if (MaxTokenDataLen <? lenN data)%N then Some (CollErr ErrInvalidNFT) else None.

Definition token_metadata (token : nft_NFT) : error + NFTMetadata :=
  match NFT_Data token with
  | None => inr (MkNFTMetadata "" "")
  | Some bz =>
      match UnpackAny_NFTMetadata bz with
      | inl e => inl e
      | inr None => inl (ExtErr "unsupported nft metadata: expected NFTMetadata")
      | inr (Some m) => inr m
      end
  end.

Definition token_entries (token : nft_NFT) (nftMetadata : NFTMetadata) (kvals : gmap string Value) : gmap string Value :=
  let kvals := <[TokenKeyName := media (JStr (nm_Name nftMetadata))]> kvals in
  <[TokenKeyURIhash := media (JStr (NFT_UriHash token))]> kvals.

Definition TokenBuilder_BuildMetadata (token : nft_NFT) : error + string :=
  match token_metadata token with
  | inl e => inl e
  | inr nftMetadata =>
      let '(ok, kvals) := data_entries (nm_Data nftMetadata) in
      if negb ok && IsIBCDenom (NFT_ClassId token) then inr (b64_Encode (nm_Data nftMetadata))
      else inr (b64_Encode (json_Marshal_map (token_entries token nftMetadata kvals)))
  end.

Definition store_token (classId tokenId tokenURI uriHash : string) (metadata : NFTMetadata) : error + nft_NFT :=
  match ValidateTokenMetadataBounds (nm_Data metadata) with
  | Some e => inl e
  | None =>
      match NewAny_NFTMetadata metadata with
      | inl e => inl e
      | inr anyVal =>
          inr {| NFT_ClassId := classId; NFT_Id := tokenId; NFT_Uri := tokenURI; NFT_UriHash := uriHash;
                 NFT_Data := Some anyVal |}
      end
  end.

Definition TokenBuilder_Build (classId tokenId tokenURI tokenData : string) : error + nft_NFT :=
  match b64_Decode tokenData with
  | None => inl (ExtErr "illegal base64 data")
  | Some tokenDataBz =>
      let '(ok, dataMap) := json_Unmarshal_map tokenDataBz in
      if negb ok then store_token classId tokenId tokenURI "" (MkNFTMetadata "" tokenDataBz)
      else
        let dataMap := match dataMap with Some m => m | None => ∅ end in
        let '(name, dataMap) := take_string TokenKeyName "" dataMap in
        let '(uriHash, dataMap) := take_string TokenKeyURIhash "" dataMap in
        store_token classId tokenId tokenURI uriHash (MkNFTMetadata name (leftover dataMap))
  end.
End Builder.
End Builder.
Export Builder.

(** ** Entries *)

(** A map without some keys *)
Definition strip {V} (keys : list string) (m : gmap string V) : gmap string V := foldr delete m keys.

Lemma lookup_strip {V} keys (m : gmap string V) k : strip keys m !! k = if decide (k ∈ keys) then None else m !! k.
Proof.
  induction keys as [|x keys IH]; [by case_decide; [set_solver|]|]. cbn [strip foldr]. fold (strip keys m).
  destruct (decide (k = x)) as [->|Hne].
  - rewrite lookup_delete_eq. by rewrite decide_True by set_solver.
  - rewrite lookup_delete_ne, IH by done. repeat case_decide; set_solver.
Qed.
Lemma strip_insert {V} keys (m : gmap string V) k v : k ∈ keys -> strip keys (<[k:=v]> m) = strip keys m.
Proof.
  intros Hk. apply map_eq. intros k'. rewrite !lookup_strip. case_decide; [done|]. by rewrite lookup_insert_ne by set_solver.
Qed.

(** The keys of the fields, in the order their entries are deleted from the last on *)
Definition class_keys : list string :=
  [ClassKeySchema; ClassKeyCreator; ClassKeyUpdateRestricted; ClassKeyMintRestricted; ClassKeyURIhash;
   ClassKeyDescription; ClassKeySymbol; ClassKeyName].
Definition token_keys : list string := [TokenKeyURIhash; TokenKeyName].

Ltac key_ne := apply str_eqb_false; reflexivity.
Ltac key_in := apply (bool_decide_unpack _); vm_compute; exact I.

Section BuilderFacts.
Context `{SdkLib} `{!SdkLaws} `{CollectionCodec} `{FloatLib} `{!FloatLaws} `{Ics721Host}.
Implicit Types m : gmap string Value.

Lemma media_value_insert k v m : media_value (<[k := media v]> m) k = Some v.
Proof. unfold media_value. by rewrite lookup_insert_eq. Qed.
Lemma media_value_insert_ne k k' v m : k' <> k -> media_value (<[k' := v]> m) k = media_value m k.
Proof. intros Hk. unfold media_value. by rewrite lookup_insert_ne. Qed.
Lemma media_value_delete_ne k k' m : k' <> k -> media_value (delete k' m) k = media_value m k.
Proof. intros Hk. unfold media_value. by rewrite lookup_delete_ne. Qed.

Lemma take_string_found k x m s : media_value m k = Some (JStr s) -> take_string k x m = (s, delete k m).
Proof. unfold take_string. by intros ->. Qed.
Lemma take_bool_found k x m b : media_value m k = Some (JBool b) -> take_bool k x m = (b, delete k m).
Proof. unfold take_bool. by intros ->. Qed.

Ltac media_found :=
  rewrite ?media_value_delete_ne by key_ne; unfold class_entries, token_entries;
  rewrite ?media_value_insert_ne by key_ne; apply media_value_insert.

(** The entries of a text that can be written *)
Lemma wf_media s : ValidString s = true -> wf_Value (Z.to_nat (maxNestingDepth - 1)) (media (JStr s)).
Proof.
  intros Hs. change (maxNestingDepth - 1)%Z with (Z.succ 9998). rewrite Z2Nat.inj_succ by done.
  constructor. by repeat constructor.
Qed.
Lemma wf_media_bool b : wf_Value (Z.to_nat (maxNestingDepth - 1)) (media (JBool b)).
Proof.
  change (maxNestingDepth - 1)%Z with (Z.succ 9998). rewrite Z2Nat.inj_succ by done. constructor. by repeat constructor.
Qed.
Lemma wf_map_insert k v m : ValidString k = true -> wf_Value (Z.to_nat (maxNestingDepth - 1)) v -> wf_map m ->
  wf_map (<[k := v]> m).
Proof. intros Hk Hv Hm. by apply map_Forall_insert_2. Qed.

Lemma hex_bytes_valid s : ValidString (hex_bytes s) = true.
Proof.
  induction s as [|a s IH]; [done|]. cbn [hex_bytes].
  assert (exists c d, hex2 (byte_of a) = String c "" +:+ String d "" /\ rune_width (String c "") = 1 /\ rune_width (String d "") = 1)
    as (c & d & -> & Hc & Hd) by (destruct a as [[] [] [] [] [] [] [] []]; by eexists _, _).
  by rewrite str_app_assoc, !ValidString_rune.
Qed.

(** What a class and a token must be to be written as they are *)
Definition class_text_ok (class : nft_Class) (md : DenomMetadata) : Prop :=
  ValidString (Class_Name class) = true /\ ValidString (Class_Symbol class) = true /\
  ValidString (Class_Description class) = true /\ ValidString (Class_UriHash class) = true /\
  ValidString (dm_Schema md) = true.
Definition token_text_ok (token : nft_NFT) (md : NFTMetadata) : Prop :=
  ValidString (nm_Name md) = true /\ ValidString (NFT_UriHash token) = true.

Lemma data_entries_wf data ok m : data_entries data = (ok, m) -> wf_map m.
Proof.
  unfold data_entries. destruct (0 <? len data)%nat; [|intros [= _ <-]; apply map_Forall_empty].
  destruct (json_Unmarshal_map data) as [b [m'|]] eqn:E; intros [= _ <-]; [by eapply json_Unmarshal_wf|apply map_Forall_empty].
Qed.

Lemma class_entries_wf class md a m : class_text_ok class md -> wf_map m -> wf_map (class_entries class md a m).
Proof.
  intros (? & ? & ? & ? & ?) Hm. unfold class_entries.
  repeat (apply wf_map_insert; [done|by first [apply wf_media_bool | apply wf_media; [by apply hex_bytes_valid] | apply wf_media]|]).
  done.
Qed.
Lemma token_entries_wf token md m : token_text_ok token md -> wf_map m -> wf_map (token_entries token md m).
Proof. intros (? & ?) Hm. unfold token_entries. repeat (apply wf_map_insert; [done|by apply wf_media|]). done. Qed.

(** Reading the entries a class is written as *)
Lemma Build_entries id uri class md a m :
  AccAddressFromHexUnsafe (hex_bytes a) = Some a -> class_text_ok class md -> wf_map m ->
  ClassBuilder_Build id uri (b64_Encode (json_Marshal_map (class_entries class md a m))) =
    store_class id uri (Class_Name class) (Class_Symbol class) (Class_Description class) (Class_UriHash class)
      (MkDenomMetadata (acc_String a) (dm_Schema md) (dm_MintRestricted md) (dm_UpdateRestricted md)
         (leftover (strip class_keys m))).
Proof.
  intros Ha Ht Hm. unfold ClassBuilder_Build. rewrite b64_roundtrip, json_map_roundtrip by (by apply class_entries_wf).
  cbn [negb].
  rewrite (take_string_found _ _ _ (Class_Name class)) by media_found.
  rewrite (take_string_found _ _ _ (Class_Symbol class)) by media_found.
  rewrite (take_string_found _ _ _ (Class_Description class)) by media_found.
  rewrite (take_string_found _ _ _ (Class_UriHash class)) by media_found.
  rewrite (take_bool_found _ _ _ (dm_MintRestricted md)) by media_found.
  rewrite (take_bool_found _ _ _ (dm_UpdateRestricted md)) by media_found.
  assert (media_value (strip (drop 2 class_keys) (class_entries class md a m)) ClassKeyCreator = Some (JStr (hex_bytes a))) as Hc
    by (cbn [strip drop class_keys foldr]; media_found).
  unfold take_creator. cbn [strip drop class_keys foldr] in Hc. rewrite Hc, Ha.
  rewrite (take_string_found _ _ _ (dm_Schema md)) by media_found.
  do 2 f_equal. change (leftover (strip class_keys (class_entries class md a m)) = leftover (strip class_keys m)).
  f_equal. unfold class_entries. by rewrite !strip_insert by key_in.
Qed.

Lemma token_Build_entries cls id uri token md m : token_text_ok token md -> wf_map m ->
  TokenBuilder_Build cls id uri (b64_Encode (json_Marshal_map (token_entries token md m))) =
    store_token cls id uri (NFT_UriHash token) (MkNFTMetadata (nm_Name md) (leftover (strip token_keys m))).
Proof.
  intros Ht Hm. unfold TokenBuilder_Build. rewrite b64_roundtrip, json_map_roundtrip by (by apply token_entries_wf).
  cbn [negb]. rewrite (take_string_found _ _ _ (nm_Name md)) by media_found.
  rewrite (take_string_found _ _ _ (NFT_UriHash token)) by media_found.
  do 2 f_equal. change (leftover (strip token_keys (token_entries token md m)) = leftover (strip token_keys m)).
  f_equal. unfold token_entries. by rewrite !strip_insert by key_in.
Qed.

Lemma text_nonempty m : b64_Encode (json_Marshal_map m) <> "".
Proof. intros E%(f_equal b64_Decode). rewrite b64_roundtrip in E. by injection E. Qed.

(** ** The data blob that arrives *)

Lemma wf_map_strip keys m : wf_map m -> wf_map (strip keys m).
Proof. intros Hm k v. rewrite lookup_strip. case_decide; [done|]. apply Hm. Qed.
Lemma strip_strip {V} keys (m : gmap string V) : strip keys (strip keys m) = strip keys m.
Proof. apply map_eq. intros k. rewrite !lookup_strip. by case_decide. Qed.

(** A blob of leftover entries is read to them. *)
Lemma data_entries_leftover m : wf_map m -> data_entries (leftover m) = (true, m).
Proof.
  intros Hm. unfold data_entries, leftover. destruct (Nat.ltb_spec 0 (size m)) as [Hs|Hs].
  - destruct (Nat.ltb_spec 0 (len (json_Marshal_map m))) as [|Hl]; [by rewrite json_map_roundtrip|].
    unfold json_Marshal_map in Hl. cbn [json_Marshal] in Hl. rewrite !len_app in Hl. cbn in Hl. lia.
  - cbn. f_equal. symmetry. apply map_size_empty_inv. lia.
Qed.

(** The blob of the receiver: the entries of the sender's without those of the fields, and
    a blob that has travelled travels unchanged. *)
Definition carried_data (keys : list string) (data : string) : string := leftover (strip keys (data_entries data).2).

Lemma carried_data_entries keys data : data_entries (carried_data keys data) = (true, strip keys (data_entries data).2).
Proof. apply data_entries_leftover, wf_map_strip. destruct (data_entries data) eqn:E. by eapply data_entries_wf. Qed.
Lemma carried_data_idem keys data : carried_data keys (carried_data keys data) = carried_data keys data.
Proof. unfold carried_data at 1. rewrite carried_data_entries; cbn [snd]. by rewrite strip_strip. Qed.

(** The fields take the place of the entries under their keys. *)
Lemma strip_under keys m m' (f : gmap string Value -> gmap string Value) :
  strip keys m = strip keys m' -> (forall k m, k ∉ keys -> f m !! k = m !! k) ->
  (forall k m m', k ∈ keys -> f m !! k = f m' !! k) -> f m = f m'.
Proof.
  intros Hs Hout Hin. apply map_eq. intros k. destruct (decide (k ∈ keys)) as [Hk|Hk]; [by apply Hin|].
  rewrite !Hout by done. pose proof (lookup_strip keys m k) as E. rewrite Hs, lookup_strip in E.
  by rewrite !decide_False in E.
Qed.

Lemma class_entries_strip class md a m : class_entries class md a (strip class_keys m) = class_entries class md a m.
Proof.
  apply (strip_under class_keys _ _ (class_entries class md a)); [apply strip_strip|..].
  - intros k m0 Hk. unfold class_entries. rewrite !lookup_insert_ne; [done|..]; intros <-; apply Hk; key_in.
  - intros k m0 m1 Hk. unfold class_entries. repeat (apply elem_of_cons in Hk as [->|Hk];
      [etrans; [|symmetry]; rewrite ?lookup_insert_ne by key_ne; apply lookup_insert_eq|]). by apply not_elem_of_nil in Hk.
Qed.
Lemma token_entries_strip token md m : token_entries token md (strip token_keys m) = token_entries token md m.
Proof.
  apply (strip_under token_keys _ _ (token_entries token md)); [apply strip_strip|..].
  - intros k m0 Hk. unfold token_entries. rewrite !lookup_insert_ne; [done|..]; intros <-; apply Hk; key_in.
  - intros k m0 m1 Hk. unfold token_entries. repeat (apply elem_of_cons in Hk as [->|Hk];
      [etrans; [|symmetry]; rewrite ?lookup_insert_ne by key_ne; apply lookup_insert_eq|]). by apply not_elem_of_nil in Hk.
Qed.
End BuilderFacts.
