(* ===== verification/InterNft.v ===== *)
(** x/internft/keeper.go: the adapter through which ICS-721 reads, stores, moves and burns
    classes and NFTs.  Its burn does not pass through x/collection, so it carries the guard on
    converted NFTs itself; what it reads on one chain and stores on another is proved to
    describe the same class and the same token. *)
From S2P Require Import Prelude GoStrings Utf8 GoJson Sdk CollectionTypes CollectionKeeper Builder.
Open Scope go_scope.

Module InterNft.
Section InterNft.
Context `{EthLib} `{SdkLib} `{NftKeeper} `{!EvmKeeper} `{!WasmState} `{CollectionCodec} `{!ConvertedNFTChecker}.

(** The checker is the slot of the collection keeper the adapter was built from. *)
Definition IsConvertedNFT (c : Ctx) (classID nftID : string) : bool :=
  CollectionKeeper.IsConvertedNFT c classID nftID.

Definition Burn (classID tokenID : string) : GoM unit :=
  has <- gets (fun c => nk_HasNFT (c_nft c) classID tokenID) ;;
  if negb has then
    EmitEvents [NewEvent "inter_nft_burn_skip"
      [("class_id", classID); ("token_id", tokenID); ("reason", "nft_already_gone")]]
  else
    converted <- gets (fun c => IsConvertedNFT c classID tokenID) ;;
    guard (negb converted) (CollErr ErrNFTBoundToContract) ;;;
    nft_write (fun s => nk_Burn s classID tokenID).

Definition GetOwner (c : Ctx) (classID tokenID : string) : string :=
  nk_GetOwner (c_nft c) classID tokenID.

Definition HasClass (c : Ctx) (classID : string) : bool := nk_HasClass (c_nft c) classID.
End InterNft.

Section Transport.
Context `{EthLib} `{SdkLib} `{NftKeeper} `{!EvmKeeper} `{!WasmState} `{CollectionCodec} `{FloatLib} `{Ics721Host}.

Record InterClass := MkInterClass { ic_ID : string; ic_URI : string; ic_Data : string }.
Record InterToken := MkInterToken { it_ClassID : string; it_ID : string; it_URI : string; it_Data : string }.

(** CreateOrUpdateClass *)
Definition CreateOrUpdateClass (classID classURI classData : string) : GoM unit :=
  class <- (if negb (len classData =? 0)%nat then lift_sum (ClassBuilder_Build classID classURI classData)
            else
              metadata <- lift_sum (NewAny_DenomMetadata
                (MkDenomMetadata (acc_String (GetModuleAddress ModuleName)) "" true true "")) ;;
              mret {| Class_Id := classID; Class_Name := ""; Class_Symbol := ""; Class_Description := "";
                      Class_Uri := classURI; Class_UriHash := ""; Class_Data := Some metadata |}) ;;
  has <- gets (fun c => nk_HasClass (c_nft c) classID) ;;
  if has then nft_write (fun s => nk_UpdateClass s class) else nft_write (fun s => nk_SaveClass s class).

(** Mint *)
Definition Mint (classID tokenID tokenURI tokenData receiver : string) : GoM unit :=
  token <- lift_sum (TokenBuilder_Build classID tokenID tokenURI tokenData) ;;
  nft_write (fun s => nk_Mint s token receiver).

(** Transfer *)
Definition Transfer (classID tokenID tokenData receiver : string) : GoM unit :=
  nft_write (fun s => nk_Transfer s classID tokenID receiver) ;;;
  if (len tokenData =? 0)%nat then mret tt
  else
    found <- gets (fun c => nk_GetNFT (c_nft c) classID tokenID) ;;
    match found with
    | None => mret tt
    | Some nft =>
        token <- lift_sum (TokenBuilder_Build classID tokenID (NFT_Uri nft) tokenData) ;;
        nft_write (fun s => nk_Update s token)
    end.

(** GetClass, GetNFT; an encoding error is logged and reads as not found. *)
Definition GetClass (c : Ctx) (classID : string) : option InterClass :=
  match nk_GetClass (c_nft c) classID with
  | None => None
  | Some class =>
      match ClassBuilder_BuildMetadata class with
      | inl _ => None
      | inr metadata => Some (MkInterClass classID (Class_Uri class) metadata)
      end
  end.
Definition GetNFT (c : Ctx) (classID tokenID : string) : option InterToken :=
  match nk_GetNFT (c_nft c) classID tokenID with
  | None => None
  | Some nft =>
      match TokenBuilder_BuildMetadata nft with
      | inl _ => None
      | inr metadata => Some (MkInterToken classID tokenID (NFT_Uri nft) metadata)
      end
  end.
End Transport.
End InterNft.

Section InterNftFacts.
Context `{EthLib} `{SdkLib} `{NftKeeper} `{!NftLaws} `{!EvmKeeper} `{!WasmState} `{CollectionCodec}
        `{!ConvertedNFTChecker}.
Implicit Types c : Ctx.

(** A burn that succeeds found no NFT and changed nothing but the events, or burned
    an NFT that no contract token is bound to. *)
Lemma InterNft_Burn_ok d i c u c' :
  InterNft.Burn d i c = Ok u c' ->
  nft_only c c' /\ nk_GetNFT (c_nft c') d i = None /\
  (c_nft c' = c_nft c \/
   nk_GetNFT (c_nft c) d i <> None /\ IsConvertedNFT c d i = false /\
   others_kept d i (c_nft c) (c_nft c')).
Proof.
  intros Hr. apply mbind_ok in Hr as (h & c0 & Hg & Hr). apply gets_ok in Hg as [-> ->].
  unfold nk_HasNFT in Hr. destruct (nk_GetNFT (c_nft c) d i) as [n|] eqn:E; cbn [negb] in Hr.
  - apply mbind_ok in Hr as (b & c0 & Hg & Hr). apply gets_ok in Hg as [-> ->].
    apply mbind_ok in Hr as (x & c0 & Hg & Hr). apply guard_ok in Hg as [Hg%negb_true_iff ->].
    apply nft_write_ok in Hr as (s' & Hw & ->). destruct (Burn_effect _ _ _ _ Hw) as [Hk Hn].
    split; [done|]. split; [done|]. by right.
  - apply EmitEvents_ok in Hr as ->. split; [done|]. split; [done|]. by left.
Qed.
End InterNftFacts.

Section TransportFacts.
Context `{EthLib} `{SdkLib} `{!SdkLaws} `{NftKeeper} `{!NftLaws} `{!EvmKeeper} `{!WasmState}.
Context `{CollectionCodec} `{!CollectionCodecLaws} `{FloatLib} `{!FloatLaws} `{Ics721Host} `{!Ics721HostLaws}.
Implicit Types (c r : Ctx).

(** A class written for ICS-721: its creator is an address, and the text is its entries. *)
Lemma BuildMetadata_entries class md text :
  class_metadata class = inr md -> (data_entries (dm_Data md)).1 = true -> ClassBuilder_BuildMetadata class = inr text ->
  exists a, AccAddressFromBech32 (class_creator md) = Some a /\
    text = b64_Encode (json_Marshal_map (class_entries class md a (data_entries (dm_Data md)).2)).
Proof.
  unfold ClassBuilder_BuildMetadata. intros -> Hok. destruct (data_entries (dm_Data md)) as [ok m]. cbn in Hok. subst ok.
  cbn [negb andb]. destruct (AccAddressFromBech32 (class_creator md)) as [a|]; [|done]. intros [= <-]. eauto.
Qed.

Lemma acc_String_creator a : (exists s, AccAddressFromBech32 s = Some a) ->
  acc_String a <> "" /\ AccAddressFromBech32 (acc_String a) = Some a /\ AccAddressFromHexUnsafe (hex_bytes a) = Some a.
Proof.
  intros [s [Hne Hl]%bech32_nonempty]. pose proof (bech32_roundtrip a Hne Hl) as E. split_and!; [|done|by apply hex_address].
  intros Hz. by rewrite Hz, bech32_empty in E.
Qed.

(** The class that is stored, and what is written for it when it is sent on *)
Lemma store_class_ok id uri n sy d h md class' :
  store_class id uri n sy d h md = inr class' ->
  ValidateDenomMetadataBounds (dm_Schema md) (dm_Data md) = None /\
  exists bz, NewAny_DenomMetadata md = inr bz /\
    class' = {| Class_Id := id; Class_Name := n; Class_Symbol := sy; Class_Description := d; Class_Uri := uri;
                Class_UriHash := h; Class_Data := Some bz |}.
Proof.
  unfold store_class. destruct (ValidateDenomMetadataBounds _ _); [done|]. destruct (NewAny_DenomMetadata md) as [|bz]; [done|].
  intros [= <-]. eauto.
Qed.

Lemma Build_class_Id id uri data class' : ClassBuilder_Build id uri data = inr class' -> Class_Id class' = id /\ Class_Uri class' = uri.
Proof.
  unfold ClassBuilder_Build. intros E. repeat case_match; try discriminate E;
    apply store_class_ok in E as (_ & bz & _ & ->); done.
Qed.

(** The class is stored as it was built. *)
Lemma CreateOrUpdateClass_ok id uri data r u r' :
  data <> "" -> InterNft.CreateOrUpdateClass id uri data r = Ok u r' ->
  exists class', ClassBuilder_Build id uri data = inr class' /\ nk_GetClass (c_nft r') id = Some class'.
Proof.
  intros Hd Hr. apply mbind_ok in Hr as (class' & r0 & Hc & Hr).
  destruct (Nat.eqb_spec (len data) 0) as [Hl%len_zero|_]; [done|]. cbn [negb] in Hc. apply lift_sum_ok in Hc as [Hc ->].
  pose proof (Build_class_Id _ _ _ _ Hc) as [Hid _]. exists class'. split; [done|].
  apply mbind_ok in Hr as (has & r0 & Hg & Hr). apply gets_ok in Hg as [-> ->].
  destruct (nk_HasClass (c_nft r) id); apply nft_write_ok in Hr as (s' & Hw & ->);
    [apply UpdateClass_spec in Hw as (_ & Hcl & _)|apply SaveClass_spec in Hw as (_ & Hcl & _)];
    cbn; rewrite Hcl, Hid; by rewrite decide_True.
Qed.

Lemma CreateOrUpdateClass_total id uri data r class' :
  data <> "" -> nk_GetClass (c_nft r) id = None -> ClassBuilder_Build id uri data = inr class' ->
  exists r', InterNft.CreateOrUpdateClass id uri data r = Ok tt r'.
Proof.
  intros Hd Hn Hc. pose proof (Build_class_Id _ _ _ _ Hc) as [Hid _].
  destruct (SaveClass_total (c_nft r) class') as [s' Hs]; [by rewrite Hid|].
  unfold InterNft.CreateOrUpdateClass. destruct (Nat.eqb_spec (len data) 0) as [Hl%len_zero|_]; [done|]. cbn [negb].
  rewrite Hc. cbn. unfold nk_HasClass. rewrite Hn. unfold nft_write. rewrite Hs. eauto.
Qed.

(** What is written for a stored class: the same text *)
Lemma stored_class_text id uri class md a class' :
  (exists s, AccAddressFromBech32 s = Some a) ->
  store_class id uri (Class_Name class) (Class_Symbol class) (Class_Description class) (Class_UriHash class)
    (MkDenomMetadata (acc_String a) (dm_Schema md) (dm_MintRestricted md) (dm_UpdateRestricted md)
       (carried_data class_keys (dm_Data md))) = inr class' ->
  ClassBuilder_BuildMetadata class' = inr (b64_Encode (json_Marshal_map (class_entries class md a (data_entries (dm_Data md)).2))).
Proof.
  intros (Hne & Hb & _)%acc_String_creator (_ & bz & Hbz & ->)%store_class_ok.
  unfold ClassBuilder_BuildMetadata, class_metadata. cbn [Class_Data].
  rewrite (UnpackAny_DenomMetadata_NewAny _ _ Hbz). cbn [dm_Data]. rewrite carried_data_entries. cbn [negb andb].
  unfold class_creator. cbn [dm_Creator]. rewrite (proj2 (str_eqb_false _ _) Hne), Hb. do 3 f_equal.
  exact (class_entries_strip class md a _).
Qed.

(** C30: A class whose name, symbol, description, hash of the URI and schema are valid
    UTF-8, and whose data blob is empty or decodes as a JSON object (or null), when read
    for ICS-721 on one chain and stored from the packet on another, is the same class
    there: name, symbol, description, hash of the URI, URI, schema and both restrictions are
    the sender's, the creator is the same account, and the data blob is an encoding of the
    entries of the sender's blob without those of these fields, the numbers in it being read
    as float64.  The store succeeds when the receiver has no such class yet, the metadata is
    within the bounds and the record can be encoded.  Sent on from there the class gives the
    very same packet data.  (Any other blob is not carried over.) *)
Theorem ics721_class_roundtrip c r cls cls' class md ic :
  InterNft.GetClass c cls = Some ic -> nk_GetClass (c_nft c) cls = Some class -> class_metadata class = inr md ->
  class_text_ok class md -> (data_entries (dm_Data md)).1 = true ->
  exists a, AccAddressFromBech32 (class_creator md) = Some a /\
    let data := carried_data class_keys (dm_Data md) in
    (nk_GetClass (c_nft r) cls' = None -> ValidateDenomMetadataBounds (dm_Schema md) data = None ->
       fits [acc_String a; dm_Schema md; data] ->
       exists r', InterNft.CreateOrUpdateClass cls' (InterNft.ic_URI ic) (InterNft.ic_Data ic) r = Ok tt r') /\
    (forall u r', InterNft.CreateOrUpdateClass cls' (InterNft.ic_URI ic) (InterNft.ic_Data ic) r = Ok u r' ->
       GetDenomInfo cls' r' = Ok (MkDenom cls' (Class_Name class) (dm_Schema md) (acc_String a) (Class_Symbol class)
         (dm_MintRestricted md) (dm_UpdateRestricted md) (Class_Description class) (Class_Uri class)
         (Class_UriHash class) data) r' /\
       InterNft.GetClass r' cls' = Some (InterNft.MkInterClass cls' (Class_Uri class) (InterNft.ic_Data ic))).
Proof.
  intros Hic Hcl Hmd Hok Hdata. unfold InterNft.GetClass in Hic. rewrite Hcl in Hic.
  destruct (ClassBuilder_BuildMetadata class) as [|text] eqn:Et; [done|]. injection Hic as <-. cbn [InterNft.ic_URI InterNft.ic_Data].
  destruct (BuildMetadata_entries _ _ _ Hmd Hdata Et) as (a & Ha & Htext). exists a. split; [done|]. cbv zeta.
  destruct (acc_String_creator a (ex_intro _ _ Ha)) as (Hne & _ & Hhex).
  assert (wf_map (data_entries (dm_Data md)).2) as Hwf by (destruct (data_entries (dm_Data md)) eqn:E; by eapply data_entries_wf).
  pose proof (Build_entries cls' (Class_Uri class) class md a _ Hhex Hok Hwf) as Hb. rewrite <- Htext in Hb.
  assert (text <> "") as Htne by (rewrite Htext; apply text_nonempty).
  split.
  - intros Hn Hbd Hf. destruct (DenomMetadata_total (MkDenomMetadata (acc_String a) (dm_Schema md) (dm_MintRestricted md)
      (dm_UpdateRestricted md) (carried_data class_keys (dm_Data md))) Hf) as [bz Hbz].
    eapply CreateOrUpdateClass_total; [done..|]. rewrite Hb. unfold store_class. cbn [dm_Schema dm_Data].
    fold (carried_data class_keys (dm_Data md)). by rewrite Hbd, Hbz.
  - intros u r' (class' & Hc & Hg)%CreateOrUpdateClass_ok; [|done]. rewrite Hb in Hc.
    pose proof (stored_class_text _ _ _ _ _ _ (ex_intro _ _ Ha) Hc) as Hsend.
    apply store_class_ok in Hc as (_ & bz & Hbz & ->). split.
    + unfold GetDenomInfo. cbn. rewrite Hg. cbn. by rewrite (DenomMetadata_roundtrip _ _ Hbz).
    + unfold InterNft.GetClass. by rewrite Hg, Hsend, Htext.
Qed.

(** ** Tokens *)

Lemma store_token_ok cls id uri h md token :
  store_token cls id uri h md = inr token ->
  ValidateTokenMetadataBounds (nm_Data md) = None /\
  exists bz, NewAny_NFTMetadata md = inr bz /\
    token = {| NFT_ClassId := cls; NFT_Id := id; NFT_Uri := uri; NFT_UriHash := h; NFT_Data := Some bz |}.
Proof.
  unfold store_token. destruct (ValidateTokenMetadataBounds _); [done|]. destruct (NewAny_NFTMetadata md) as [|bz]; [done|].
  intros [= <-]. eauto.
Qed.

(** What [Build] makes has the ids and the URI it was given and a blob within the bound. *)
Lemma Build_token_ok cls id uri data token : TokenBuilder_Build cls id uri data = inr token ->
  NFT_ClassId token = cls /\ NFT_Id token = id /\ NFT_Uri token = uri /\
  exists md bz, NFT_Data token = Some bz /\ NewAny_NFTMetadata md = inr bz /\ (lenN (nm_Data md) <= MaxTokenDataLen)%N.
Proof.
  assert (forall d, ValidateTokenMetadataBounds d = None -> (lenN d <= MaxTokenDataLen)%N) as Hb
    by (unfold ValidateTokenMetadataBounds; intros d; by destruct (N.ltb_spec MaxTokenDataLen (lenN d))).
  unfold TokenBuilder_Build. intros E. repeat case_match; try discriminate E;
    apply store_token_ok in E as (Hv & bz & Hbz & ->); split_and!; try done; eexists _, bz; split_and!; eauto.
Qed.

Lemma token_BuildMetadata_entries token md text :
  token_metadata token = inr md -> (data_entries (nm_Data md)).1 = true -> TokenBuilder_BuildMetadata token = inr text ->
  text = b64_Encode (json_Marshal_map (token_entries token md (data_entries (nm_Data md)).2)).
Proof.
  unfold TokenBuilder_BuildMetadata. intros -> Hok. destruct (data_entries (nm_Data md)) as [ok m]. cbn in Hok. subst ok.
  cbn [negb andb]. by intros [= <-].
Qed.

Lemma stored_token_text cls id uri token md token' :
  store_token cls id uri (NFT_UriHash token) (MkNFTMetadata (nm_Name md) (carried_data token_keys (nm_Data md))) = inr token' ->
  TokenBuilder_BuildMetadata token' = inr (b64_Encode (json_Marshal_map (token_entries token md (data_entries (nm_Data md)).2))).
Proof.
  intros (_ & bz & Hbz & ->)%store_token_ok. unfold TokenBuilder_BuildMetadata, token_metadata. cbn [NFT_Data].
  rewrite (UnpackAny_NFTMetadata_NewAny _ _ Hbz). cbn [nm_Data]. rewrite carried_data_entries. cbn [negb andb].
  do 3 f_equal. exact (token_entries_strip token md _).
Qed.

(** C31: A token whose name and hash of the URI are valid UTF-8, and whose data blob is
    empty or decodes as a JSON object (or null), when read for ICS-721 on one chain and
    minted from the packet on another, is the same token there: name, URI and hash of the
    URI are the sender's, the data blob is an encoding of the entries of the sender's blob
    without those of these fields, the numbers in it being read as float64, and the receiver
    owns it.  The mint succeeds when the receiving chain has the class, not the token, the
    blob is within the bound and the record can be encoded.  Sent on from there the token
    gives the very same packet data.  (Any other blob is not carried over.) *)
Theorem ics721_token_roundtrip c r cls id cls' id' receiver token md it :
  InterNft.GetNFT c cls id = Some it -> nk_GetNFT (c_nft c) cls id = Some token -> token_metadata token = inr md ->
  token_text_ok token md -> (data_entries (nm_Data md)).1 = true ->
  let data := carried_data token_keys (nm_Data md) in
  let mint := InterNft.Mint cls' id' (InterNft.it_URI it) (InterNft.it_Data it) receiver in
  (nk_GetClass (c_nft r) cls' <> None -> nk_GetNFT (c_nft r) cls' id' = None ->
     ValidateTokenMetadataBounds data = None -> fits [nm_Name md; data] -> exists r', mint r = Ok tt r') /\
  (forall u r', mint r = Ok u r' ->
     CollectionKeeper.GetNFT cls' id' r' =
       Ok (MkBaseNFT id' (nm_Name md) (NFT_Uri token) data (acc_String receiver) (NFT_UriHash token)) r' /\
     InterNft.GetNFT r' cls' id' = Some (InterNft.MkInterToken cls' id' (NFT_Uri token) (InterNft.it_Data it)) /\
     nk_GetOwner (c_nft r') cls' id' = receiver).
Proof.
  intros Hit Hn Hmd Hok Hdata. cbv zeta. unfold InterNft.GetNFT in Hit. rewrite Hn in Hit.
  destruct (TokenBuilder_BuildMetadata token) as [|text] eqn:Et; [done|]. injection Hit as <-. cbn [InterNft.it_URI InterNft.it_Data].
  pose proof (token_BuildMetadata_entries _ _ _ Hmd Hdata Et) as Htext.
  assert (wf_map (data_entries (nm_Data md)).2) as Hwf by (destruct (data_entries (nm_Data md)) eqn:E; by eapply data_entries_wf).
  pose proof (token_Build_entries cls' id' (NFT_Uri token) token md _ Hok Hwf) as Hb. rewrite <- Htext in Hb.
  fold (carried_data token_keys (nm_Data md)) in Hb. unfold InterNft.Mint. split.
  - intros Hcl Hno Hbd Hf. destruct (NFTMetadata_total (MkNFTMetadata (nm_Name md) (carried_data token_keys (nm_Data md))) Hf) as [bz Hbz].
    rewrite Hb. unfold store_token. cbn [nm_Data]. rewrite Hbd, Hbz. cbn. unfold nft_write.
    match goal with |- context [nk_Mint _ ?n _] => destruct (Mint_total (c_nft r) n receiver Hcl Hno) as [s' ->] end. eauto.
  - intros u r' Hr. apply mbind_ok in Hr as (token' & r0 & Hc & Hr). apply lift_sum_ok in Hc as [Hc ->]. rewrite Hb in Hc.
    pose proof (stored_token_text _ _ _ _ _ _ Hc) as Hsend. apply store_token_ok in Hc as (_ & bz & Hbz & ->).
    apply nft_write_ok in Hr as (s' & Hw & ->). apply Mint_spec in Hw as (_ & _ & _ & Hg & Ho).
    specialize (Hg cls' id'). specialize (Ho cls' id'). cbn [NFT_ClassId NFT_Id] in Hg, Ho. rewrite decide_True in Hg by done. rewrite decide_True in Ho by done.
    unfold CollectionKeeper.GetNFT, InterNft.GetNFT. cbn. rewrite Hg, Ho. cbn. unfold read_metadata. cbn.
    rewrite (NFTMetadata_roundtrip _ _ Hbz), Hsend, Htext. done.
Qed.

(** A transfer moves the token and, with token data, replaces its metadata; nothing else of
    the module changes, and the URI stays. *)
Lemma InterNft_Transfer_ok cls id data receiver r u r' :
  InterNft.Transfer cls id data receiver r = Ok u r' ->
  exists old new, nk_GetNFT (c_nft r) cls id = Some old /\ nk_GetNFT (c_nft r') cls id = Some new /\
    nk_GetOwner (c_nft r') cls id = receiver /\ NFT_Uri new = NFT_Uri old /\
    (if (len data =? 0)%nat then new = old else TokenBuilder_Build cls id (NFT_Uri old) data = inr new) /\
    forall cls' id', (cls', id') <> (cls, id) ->
      nk_GetNFT (c_nft r') cls' id' = nk_GetNFT (c_nft r) cls' id' /\ nk_GetOwner (c_nft r') cls' id' = nk_GetOwner (c_nft r) cls' id'.
Proof.
  intros Hr. apply mbind_ok in Hr as (x & r0 & Hw & Hr). apply nft_write_ok in Hw as (s' & Hw & ->).
  apply Transfer_spec in Hw as (Hn & Hc & Ht & Ho). destruct (nk_GetNFT (c_nft r) cls id) as [old|] eqn:Eold; [|done].
  destruct (Nat.eqb_spec (len data) 0).
  - injection Hr as _ <-. exists old, old. cbn. rewrite Ht, Ho. split_and!; try done; [by rewrite decide_True|].
    intros cls' id' Hne. rewrite Ht, Ho. by rewrite decide_False.
  - apply mbind_ok in Hr as (f & r0 & Hg & Hr). apply gets_ok in Hg as [-> ->]. cbn in Hr. rewrite Ht, Eold in Hr.
    apply mbind_ok in Hr as (new & r0 & Hg & Hr). apply lift_sum_ok in Hg as [Hb ->].
    apply nft_write_ok in Hr as (s2 & Hw & ->). apply Update_spec in Hw as (_ & _ & Ho2 & Hg).
    destruct (Build_token_ok _ _ _ _ _ Hb) as (E1 & E2 & E3 & _). cbn in *. rewrite E1, E2 in Hg.
    exists old, new. rewrite Hg, Ho2, Ho. split_and!; try done; [by rewrite decide_True..|].
    intros cls' id' Hne. rewrite Hg, Ho2, Ho, Ht. by rewrite !decide_False.
Qed.
End TransportFacts.
