(* ===== verification/NftInvariant.v ===== *)
(** Properties of the x/nft store that every operation of the keeper preserves, and
    the messages of x/collection with them: class ids without commas, and supply
    counters that agree with the number of NFTs. *)
From S2P Require Import Prelude GoStrings Utf8 Sdk CollectionTypes CollectionKeeper InterNft.
Open Scope go_scope.
Open Scope list_scope.

(** A property of the x/nft store that each write keeps; classes are only created
    under ids SaveDenom accepts. *)
Class NftInvariant `{NftKeeper} (P : nft_state -> Prop) : Prop := {
  inv_SaveClass s cl s' : ValidateDenomID (Class_Id cl) = None -> nk_SaveClass s cl = inr s' -> P s -> P s';
  inv_UpdateClass s cl s' : nk_UpdateClass s cl = inr s' -> P s -> P s';
  inv_Mint s n r s' : nk_Mint s n r = inr s' -> P s -> P s';
  inv_Update s n s' : nk_Update s n = inr s' -> P s -> P s';
  inv_Transfer s c i r s' : nk_Transfer s c i r = inr s' -> P s -> P s';
  inv_Burn s c i s' : nk_Burn s c i = inr s' -> P s -> P s';
}.

Section Kept.
Context `{EthLib} `{SdkLib} `{NftKeeper} `{!EvmKeeper} `{!WasmState} `{CollectionCodec} `{!ConvertedNFTChecker}.
Context (P : nft_state -> Prop).
Implicit Types c : Ctx.

Definition kept c c' : Prop := P (c_nft c) -> P (c_nft c').

#[global] Instance kept_preorder : PreOrder kept.
Proof. split; [intros c Hc; exact Hc|]. intros c1 c2 c3 E1 E2 Hc. by apply E2, E1. Qed.

Lemma nft_eq_kept c c' : c_nft c' = c_nft c -> kept c c'.
Proof. intros E Hc. by rewrite E. Qed.

Lemma nft_write_kept f :
  (forall s s', f s = inr s' -> P s -> P s') -> frame kept (nft_write f).
Proof.
  intros Hf c. unfold nft_write. destruct (f (c_nft c)) as [e|s'] eqn:E; [by apply nft_eq_kept|].
  intros Hc. by eapply Hf.
Qed.

Lemma EmitEvents_kept l : frame kept (EmitEvents l).
Proof. intros c. by apply nft_eq_kept. Qed.

Lemma run_check_kept r : frame kept (run_check r).
Proof. intros c. destruct r; by apply nft_eq_kept. Qed.

Lemma cached_kept m : frame kept m -> frame kept (cached m).
Proof. intros Hm c. unfold cached. specialize (Hm c). destruct (m c) as [[] ?|?|]; done || by apply nft_eq_kept. Qed.

Context `{!NftInvariant P}.

Lemma UpdateClass_kept cl : frame kept (nft_write (fun s => nk_UpdateClass s cl)).
Proof. apply nft_write_kept. intros s s'. apply inv_UpdateClass. Qed.
Lemma Mint_kept n r : frame kept (nft_write (fun s => nk_Mint s n r)).
Proof. apply nft_write_kept. intros s s'. apply inv_Mint. Qed.
Lemma Update_kept n : frame kept (nft_write (fun s => nk_Update s n)).
Proof. apply nft_write_kept. intros s s'. apply inv_Update. Qed.
Lemma Transfer_kept d i r : frame kept (nft_write (fun s => nk_Transfer s d i r)).
Proof. apply nft_write_kept. intros s s'. apply inv_Transfer. Qed.
Lemma Burn_kept d i : frame kept (nft_write (fun s => nk_Burn s d i)).
Proof. apply nft_write_kept. intros s s'. apply inv_Burn. Qed.

Hint Resolve EmitEvents_kept run_check_kept UpdateClass_kept Mint_kept Update_kept Transfer_kept
  Burn_kept : go.

Lemma GetDenomInfo_kept d : frame kept (GetDenomInfo d).
Proof. unfold GetDenomInfo. go_frame. Qed.
Hint Resolve GetDenomInfo_kept : go.

Lemma SaveDenom_kept a b sc d e f g h i j k : frame kept (SaveDenom a b sc d e f g h i j k).
Proof.
  unfold SaveDenom. destruct (ValidateDenomID a) eqn:Ev; [intros c; by apply nft_eq_kept|].
  apply frame_bind; [apply _|auto with go|intros _]. apply frame_bind; [apply _|auto with go|intros _].
  apply frame_bind; [apply _|go_frame|intros m]. apply nft_write_kept. intros s s'. by apply inv_SaveClass.
Qed.

Lemma Authorize_kept d i o : frame kept (Authorize d i o).
Proof. unfold Authorize. go_frame. Qed.
Lemma merge_metadata_kept t n d : frame kept (merge_metadata t n d).
Proof. unfold merge_metadata. go_frame. Qed.
Hint Resolve SaveDenom_kept Authorize_kept merge_metadata_kept : go.

Lemma IssueDenom_kept m : frame kept (IssueDenom m).
Proof. unfold IssueDenom, bech32. go_frame. Qed.
Lemma TransferNFT_kept m : frame kept (TransferNFT m).
Proof. unfold TransferNFT, TransferOwnership, bech32, token_metadata_changed. go_frame. Qed.
Lemma MintNFT_kept m : frame kept (MintNFT m).
Proof. unfold MintNFT, SaveNFT, bech32. go_frame. Qed.
Lemma EditNFT_kept m : frame kept (EditNFT m).
Proof. unfold EditNFT, UpdateNFT, bech32. go_frame. Qed.
Lemma BurnNFT_kept m : frame kept (BurnNFT m).
Proof. unfold BurnNFT, RemoveNFT, bech32. go_frame. Qed.
Lemma TransferDenom_kept m : frame kept (TransferDenom m).
Proof. unfold TransferDenom, TransferDenomOwner, bech32. go_frame. Qed.
Lemma InterNft_Burn_kept d i : frame kept (InterNft.Burn d i).
Proof. unfold InterNft.Burn. go_frame. Qed.
End Kept.
#[export] Hint Resolve EmitEvents_kept run_check_kept SaveDenom_kept GetDenomInfo_kept
  TransferNFT_kept MintNFT_kept BurnNFT_kept cached_kept : go.
#[export] Hint Extern 1 (NftInvariant _) => apply _ : go.

(** ** Class ids without commas

    A comma in a class id would make NFT UIDs ambiguous. *)
Section Clean.
Context `{NftKeeper} `{!NftLaws}.

Definition clean (s : nft_state) : Prop :=
  (forall cl, nk_GetClass s cl <> None -> ContainsByte cl "," = false) /\
  (forall cl i, nk_GetNFT s cl i <> None -> ContainsByte cl "," = false).

#[global] Instance clean_invariant : NftInvariant clean.
Proof.
  split; intros *.
  - intros Hv (_ & Hc & Ht & _)%SaveClass_spec [C1 C2]. split.
    + intros d. rewrite Hc. case_decide as E; [subst; intros _; by apply ValidateDenomID_no_comma|apply C1].
    + intros d i. rewrite Ht. apply C2.
  - intros (Hn & Hc & Ht & _)%UpdateClass_spec [C1 C2]. split.
    + intros d. rewrite Hc. case_decide as E; [subst; intros _; by apply C1|apply C1].
    + intros d i. rewrite Ht. apply C2.
  - intros (Hcl & _ & Hc & Ht & _)%Mint_spec [C1 C2]. split.
    + intros d. rewrite Hc. apply C1.
    + intros d i. rewrite Ht. case_decide as E; [|apply C2]. injection E as -> ->. intros _. by apply C1.
  - intros (Hn & Hc & _ & Ht)%Update_spec [C1 C2]. split.
    + intros d. rewrite Hc. apply C1.
    + intros d i. rewrite Ht. case_decide as E; [|apply C2]. injection E as -> ->. intros _. by eapply C2.
  - intros (_ & Hc & Ht & _)%Transfer_spec [C1 C2]. split.
    + intros cl. rewrite Hc. apply C1.
    + intros cl k. rewrite Ht. apply C2.
  - intros (_ & Hc & Ht & _)%Burn_spec [C1 C2]. split.
    + intros cl. rewrite Hc. apply C1.
    + intros cl k. rewrite Ht. case_decide; [done|apply C2].
Qed.
End Clean.

(** ** Supply counters *)
Section Supply.
Context `{NftKeeper} `{!NftLaws} `{!NftSupplyLaws}.
Implicit Types s : nft_state.

Definition supply_ok s : Prop :=
  forall c, nk_GetTotalSupply s c = uint64_of (List.length (nk_GetNFTsOfClass s c)).

Lemma elem_of_ids s c i : i ∈ NFT_Id <$> nk_GetNFTsOfClass s c <-> is_Some (nk_GetNFT s c i).
Proof.
  rewrite list_elem_of_fmap. split.
  - intros (n & -> & Hn%GetNFTsOfClass_spec). eauto.
  - intros [n Hn]. destruct (GetNFT_Id _ _ _ _ Hn) as [_ Hi]. exists n. split; [done|].
    apply GetNFTsOfClass_spec. by rewrite Hi.
Qed.

(** The NFTs of a class are counted by the ids GetNFT knows. *)
Lemma count_same s s' c :
  (forall i, is_Some (nk_GetNFT s' c i) <-> is_Some (nk_GetNFT s c i)) ->
  List.length (nk_GetNFTsOfClass s' c) = List.length (nk_GetNFTsOfClass s c).
Proof.
  intros E. rewrite <- !(length_fmap NFT_Id). apply Permutation_length, NoDup_Permutation;
    [apply GetNFTsOfClass_nodup..|]. intros i. by rewrite !elem_of_ids.
Qed.

Lemma count_one_more s s' c k :
  nk_GetNFT s c k = None ->
  (forall i, is_Some (nk_GetNFT s' c i) <-> i = k \/ is_Some (nk_GetNFT s c i)) ->
  List.length (nk_GetNFTsOfClass s' c) = S (List.length (nk_GetNFTsOfClass s c)).
Proof.
  intros Hk E. rewrite <- !(length_fmap NFT_Id).
  change (S (List.length (NFT_Id <$> nk_GetNFTsOfClass s c)))
    with (List.length (k :: (NFT_Id <$> nk_GetNFTsOfClass s c))).
  apply Permutation_length, NoDup_Permutation; [apply GetNFTsOfClass_nodup| |].
  - apply NoDup_cons. split; [|apply GetNFTsOfClass_nodup]. rewrite elem_of_ids, Hk. by intros [].
  - intros i. by rewrite elem_of_cons, !elem_of_ids.
Qed.

Lemma uint64_succ n : ((uint64_of n + 1) mod 2 ^ 64 = uint64_of (S n))%Z.
Proof. unfold uint64_of. rewrite Nat2Z.inj_succ, <- Z.add_1_r. by rewrite Zplus_mod_idemp_l. Qed.

Lemma uint64_pred n : ((uint64_of (S n) - 1) mod 2 ^ 64 = uint64_of n)%Z.
Proof. unfold uint64_of. rewrite Zminus_mod_idemp_l. f_equal. lia. Qed.

(** Nothing is minted or burned. *)
Lemma supply_same s s' :
  (forall c, nk_GetTotalSupply s' c = nk_GetTotalSupply s c) ->
  (forall c i, is_Some (nk_GetNFT s' c i) <-> is_Some (nk_GetNFT s c i)) -> supply_ok s -> supply_ok s'.
Proof. intros Et Ei Hs c. rewrite Et, (count_same s s'); [apply Hs|apply Ei]. Qed.

#[global] Instance supply_invariant : NftInvariant supply_ok.
Proof.
  split; intros *.
  - intros _ Hw. apply SaveClass_spec in Hw as Hx. destruct Hx as (_ & _ & Ht & _).
    apply supply_same; [by eapply SaveClass_supply|]. intros c i. by rewrite Ht.
  - intros Hw. apply UpdateClass_spec in Hw as Hx. destruct Hx as (_ & _ & Ht & _).
    apply supply_same; [by eapply UpdateClass_supply|]. intros c i. by rewrite Ht.
  - intros Hw. apply Mint_spec in Hw as Hx. destruct Hx as (_ & Hn & _ & Ht & _).
    intros Hs c. rewrite (Mint_supply _ _ _ _ Hw). case_decide as E.
    + subst c. rewrite Hs, uint64_succ. f_equal. symmetry. apply (count_one_more s s' _ (NFT_Id n)); [done|].
      intros i. rewrite Ht. case_decide as E; [injection E as ->; naive_solver|]. naive_solver.
    + rewrite (count_same s s'); [apply Hs|]. intros i. rewrite Ht. by case_decide; [congruence|].
  - intros Hw. apply Update_spec in Hw as Hx. destruct Hx as (Hn & _ & _ & Ht).
    apply supply_same; [by eapply Update_supply|]. intros c i. rewrite Ht. case_decide as E; [|done].
    injection E as -> ->. by rewrite <- !not_eq_None_Some.
  - intros Hw. apply Transfer_spec in Hw as Hx. destruct Hx as (_ & _ & Ht & _).
    apply supply_same; [by eapply Transfer_supply|]. intros d j. by rewrite Ht.
  - intros Hw. apply Burn_spec in Hw as Hx. destruct Hx as (Hn & _ & Ht & _).
    intros Hs d. rewrite (Burn_supply _ _ _ _ Hw). case_decide as E.
    + subst d. rewrite Hs, (count_one_more s' s c i), uint64_pred; [done|by rewrite Ht, decide_True|].
      intros j. rewrite Ht. case_decide as E; [|naive_solver].
      injection E as ->. rewrite <- !not_eq_None_Some. naive_solver.
    + rewrite (count_same s s'); [apply Hs|]. intros j. rewrite Ht. by case_decide; [congruence|].
Qed.
End Supply.
