(* ===== verification/CollectionGenesisSpec.v ===== *)
(** The genesis of x/collection: ValidateGenesis accepts exactly what InitGenesis can
    import, an imported genesis is exported again, and the export reports exactly
    the classes it could not carry faithfully. *)
From S2P Require Import Prelude GoStrings Utf8 Sdk CollectionTypes CollectionKeeper CollectionSpec.
From S2P Require Import CollectionGenesis NftInvariant.
Import CollectionGenesis.
Open Scope go_scope.
Open Scope list_scope.

(** ** ValidateGenesis as a predicate *)
Section Validate.
Context `{SdkLib} `{!SdkLaws}.

Definition valid_nft (denomID : string) (n : BaseNFT) : Prop :=
  (exists o, AccAddressFromBech32 (BaseNFT_Owner n) = Some o) /\
  ValidateTokenIDForDenom denomID (BaseNFT_Id n) = None /\ ValidateTokenURI (BaseNFT_URI n) = None.

Record valid_collection (c : Collection) : Prop := {
  vc_id : ValidateDenomID (Denom_Id (Collection_Denom c)) = None;
  vc_creator : Denom_Creator (Collection_Denom c) <> "" ->
    exists a, AccAddressFromBech32 (Denom_Creator (Collection_Denom c)) = Some a;
  vc_bounds : ValidateDenomMetadataBounds (Denom_Schema (Collection_Denom c))
                (Denom_Data (Collection_Denom c)) = None;
  vc_nfts n : n ∈ Collection_NFTs c -> valid_nft (Denom_Id (Collection_Denom c)) n;
  vc_nodup : NoDup (BaseNFT_Id <$> Collection_NFTs c);
}.

Definition denom_ids (cs : list Collection) : list string := (fun c => Denom_Id (Collection_Denom c)) <$> cs.

Definition valid_genesis (data : GenesisState) : Prop :=
  (forall c, c ∈ Collections data -> valid_collection c) /\ NoDup (denom_ids (Collections data)).

Lemma validate_nft_ok {S} d seen n (s : S) r s' :
  validate_genesis_nft d seen n s = Ok r s' <->
  s' = s /\ r = {[BaseNFT_Id n]} ∪ seen /\ valid_nft d n /\ BaseNFT_Id n ∉ seen.
Proof.
  unfold validate_genesis_nft, GetOwner, mbind, guard, run_check, valid_nft.
  destruct (AccAddressFromBech32 (BaseNFT_Owner n)) as [o|] eqn:Eo; cbn; [|naive_solver].
  pose proof (bech32_nonempty _ _ Eo) as [Ho _]. apply str_neqb_true in Ho. rewrite Ho.
  destruct (ValidateTokenIDForDenom d (BaseNFT_Id n)); cbn; [naive_solver|].
  case_bool_decide as Hs; cbn; [|naive_solver].
  destruct (ValidateTokenURI (BaseNFT_URI n)); cbn; [naive_solver|]. split.
  - intros [= <- <-]. eauto 10.
  - by intros (-> & -> & _).
Qed.

Lemma validate_nfts_ok {S} d l seen (s : S) r s' :
  for_acc l seen (validate_genesis_nft d) s = Ok r s' ->
  s' = s /\ (forall n, n ∈ l -> valid_nft d n) /\ NoDup (BaseNFT_Id <$> l) /\
  (forall n, n ∈ l -> BaseNFT_Id n ∉ seen).
Proof.
  revert seen. induction l as [|n l IH]; intros seen Hr.
  { apply ok_inj in Hr as [_ ->]. split_and!; [done| |apply NoDup_nil_2|]; intros n Hn; by apply elem_of_nil in Hn. }
  apply mbind_ok in Hr as (seen' & s1 & Hn & Hr). apply validate_nft_ok in Hn as (-> & -> & Hv & Hs).
  apply IH in Hr as (-> & Hall & Hnd & Hout). split; [done|]. split_and!.
  - intros x Hx. apply elem_of_cons in Hx as [->|Hx]; auto.
  - cbn. apply NoDup_cons. split; [|done]. rewrite list_elem_of_fmap. intros (x & E & Hx).
    apply (Hout x Hx). rewrite <- E. set_solver.
  - intros x Hx. apply elem_of_cons in Hx as [->|Hx]; [done|]. pose proof (Hout x Hx). set_solver.
Qed.

Lemma validate_nfts_total {S} d l seen (s : S) :
  (forall n, n ∈ l -> valid_nft d n) -> NoDup (BaseNFT_Id <$> l) -> (forall n, n ∈ l -> BaseNFT_Id n ∉ seen) ->
  exists r, for_acc l seen (validate_genesis_nft d) s = Ok r s.
Proof.
  revert seen. induction l as [|n l IH]; intros seen Hall Hnd Hout; [eexists; reflexivity|].
  cbn in Hnd. apply NoDup_cons in Hnd as [Hn Hnd].
  assert (validate_genesis_nft d seen n s = Ok ({[BaseNFT_Id n]} ∪ seen) s) as E.
  { apply validate_nft_ok. split_and!; try done; [apply Hall|apply Hout]; by left. }
  cbn. unfold mbind. rewrite E. apply IH; [intros x Hx; apply Hall; by right|done|].
  intros x Hx. assert (BaseNFT_Id x ∉ seen) by (apply Hout; by right).
  assert (BaseNFT_Id x <> BaseNFT_Id n) by (intros Ex; apply Hn; rewrite <- Ex; by apply list_elem_of_fmap_2).
  set_solver.
Qed.

Lemma validate_collection_ok {S} seen c (s : S) r s' :
  validate_genesis_collection seen c s = Ok r s' ->
  s' = s /\ r = {[Denom_Id (Collection_Denom c)]} ∪ seen /\ valid_collection c /\
  Denom_Id (Collection_Denom c) ∉ seen.
Proof.
  unfold validate_genesis_collection. set (d := Collection_Denom c). intros Hr.
  apply mbind_ok in Hr as (u & s1 & Hg & Hr). apply guard_ok in Hg as [_ ->].
  apply mbind_ok in Hr as (u1 & s1 & Hg & Hr). apply run_check_ok in Hg as [Hid ->].
  apply mbind_ok in Hr as (u2 & s1 & Hg & Hr). apply guard_ok in Hg as [Hs%bool_decide_eq_true ->].
  apply mbind_ok in Hr as (u3 & s1 & Hg & Hr).
  assert (s1 = s /\ (Denom_Creator d <> "" -> exists a, AccAddressFromBech32 (Denom_Creator d) = Some a)) as [-> Hc].
  { destruct (Denom_Creator d <>?s "") eqn:E.
    - apply mbind_ok in Hg as (a & s2 & Hg & Hm). apply lift_opt_ok in Hg as [Hg ->].
      apply mret_ok in Hm as [_ ->]. eauto.
    - apply mret_ok in Hg as [_ ->]. split; [done|]. intros Hne. by apply str_neqb_false in E. }
  apply mbind_ok in Hr as (u4 & s1 & Hb & Hr). apply run_check_ok in Hb as [Hb ->].
  apply mbind_ok in Hr as (u5 & s1 & Hl & Hr). apply mret_ok in Hr as [-> ->].
  apply validate_nfts_ok in Hl as (-> & Hall & Hnd & _). by split_and!.
Qed.

Lemma validate_collection_total {S} seen c (s : S) :
  valid_collection c -> Denom_Id (Collection_Denom c) ∉ seen ->
  validate_genesis_collection seen c s = Ok ({[Denom_Id (Collection_Denom c)]} ∪ seen) s.
Proof.
  intros [Hid Hc Hb Hn Hnd] Hs. unfold validate_genesis_collection. set (d := Collection_Denom c) in *.
  pose proof (ValidateDenomID_nonempty _ Hid) as Hne%str_neqb_true. unfold mbind, guard, run_check.
  rewrite Hne, Hid. cbn. rewrite bool_decide_eq_true_2 by done. cbn.
  destruct (validate_nfts_total (Denom_Id d) (Collection_NFTs c) ∅ s Hn Hnd) as [r Hl]; [set_solver|].
  destruct (Denom_Creator d <>?s "") eqn:E.
  - apply str_neqb_true in E. destruct (Hc E) as [a ->]. cbn. rewrite Hb. cbn. by rewrite Hl.
  - cbn. rewrite Hb. cbn. by rewrite Hl.
Qed.

Lemma validate_loop_ok {S} cs seen (s : S) r s' :
  for_acc cs seen validate_genesis_collection s = Ok r s' ->
  s' = s /\ (forall c, c ∈ cs -> valid_collection c) /\ NoDup (denom_ids cs) /\
  (forall d, d ∈ denom_ids cs -> d ∉ seen).
Proof.
  revert seen. induction cs as [|c cs IH]; intros seen Hr.
  { apply ok_inj in Hr as [_ ->]. split_and!; [done| |apply NoDup_nil_2|]; intros n Hn; by apply elem_of_nil in Hn. }
  apply mbind_ok in Hr as (seen' & s1 & Hn & Hr). apply validate_collection_ok in Hn as (-> & -> & Hv & Hs).
  apply IH in Hr as (-> & Hall & Hnd & Hout). split; [done|]. split_and!.
  - intros x Hx. apply elem_of_cons in Hx as [->|Hx]; auto.
  - cbn. apply NoDup_cons. split; [|done]. intros Hx. apply Hout in Hx. set_solver.
  - intros x Hx. apply elem_of_cons in Hx as [->|Hx]; [done|]. apply Hout in Hx. set_solver.
Qed.

Lemma validate_loop_total {S} cs seen (s : S) :
  (forall c, c ∈ cs -> valid_collection c) -> NoDup (denom_ids cs) ->
  (forall d, d ∈ denom_ids cs -> d ∉ seen) ->
  exists r, for_acc cs seen validate_genesis_collection s = Ok r s.
Proof.
  revert seen. induction cs as [|c cs IH]; intros seen Hall Hnd Hout; [eexists; reflexivity|].
  cbn in Hnd. apply NoDup_cons in Hnd as [Hn Hnd]. cbn. unfold mbind.
  rewrite validate_collection_total; [|apply Hall; by left|apply Hout; by left].
  apply IH; [intros x Hx; apply Hall; by right|done|].
  intros x Hx. assert (x ∉ seen) by (apply Hout; by right).
  assert (x <> Denom_Id (Collection_Denom c)) by (by intros ->). set_solver.
Qed.

Lemma ValidateGenesis_iff {S} data (s s' : S) u :
  ValidateGenesis data s = Ok u s' <-> s' = s /\ valid_genesis data.
Proof.
  unfold ValidateGenesis, valid_genesis. split.
  - intros Hr. apply mbind_ok in Hr as (r & s1 & Hl & Hr). apply mret_ok in Hr as [_ ->].
    by apply validate_loop_ok in Hl as (-> & Hv & Hnd & _).
  - intros (-> & Hv & Hnd). destruct (validate_loop_total (Collections data) ∅ s Hv Hnd) as [r E]; [set_solver|].
    unfold mbind. rewrite E. by destruct u.
Qed.
End Validate.

Lemma ValidateGenesis_err `{SdkLib} {S} data (s s' : S) e : ValidateGenesis data s = Err e s' -> s' = s.
Proof.
  assert (frame (fun a b : S => b = a) (ValidateGenesis data)) as Hf; [|intros Hr; exact (frame_err _ _ _ _ _ Hf Hr)].
  assert (PreOrder (fun a b : S => b = a)) by (split; [by intros x|]; intros x y z -> ->; done).
  assert (forall r, frame (fun a b : S => b = a) (run_check r)) by (intros [] x; done).
  unfold ValidateGenesis, validate_genesis_collection, validate_genesis_nft, GetOwner. go_frame.
Qed.

(** ** The import *)
Section ImportGenesis.
Context `{EthLib} `{SdkLib} `{!SdkLaws} `{NftKeeper} `{!NftLaws} `{!EvmKeeper} `{!WasmState} `{CollectionCodec}
        `{!CollectionCodecLaws} `{!FmtLib}.
Implicit Types c : Ctx.

Lemma must_ok {A} (m : GoM A) c a c' : must m c = Ok a c' <-> m c = Ok a c'.
Proof. unfold must, mbind, attempt. destruct (m c); cbn; split; by intros [= -> ->]. Qed.

Lemma must_no_err {A} (m : GoM A) c e c' : must m c <> Err e c'.
Proof. unfold must, mbind, attempt. by destruct (m c). Qed.

Lemma token_id_nonempty d t : ValidateTokenIDForDenom d t = None -> t <> "".
Proof.
  intros Hv ->. unfold ValidateTokenIDForDenom, validateIBCTokenID, ValidateTokenID in Hv.
  by destruct (IsIBCDenom d).
Qed.

(** What the store holds of an NFT and of a class after their import. *)
Definition stored_nft (s : nft_state) (d : string) (n : BaseNFT) : Prop :=
  (exists bz, NewAny_NFTMetadata (MkNFTMetadata (BaseNFT_Name n) (BaseNFT_Data n)) = inr bz /\
     nk_GetNFT s d (BaseNFT_Id n) =
       Some {| NFT_ClassId := d; NFT_Id := BaseNFT_Id n; NFT_Uri := BaseNFT_URI n;
               NFT_UriHash := BaseNFT_UriHash n; NFT_Data := Some bz |}) /\
  AccAddressFromBech32 (BaseNFT_Owner n) = Some (nk_GetOwner s d (BaseNFT_Id n)).

Definition creator_of (d : Denom) : string := default "" (AccAddressFromBech32 (Denom_Creator d)).

Definition stored_class (s : nft_state) (d : Denom) : Prop :=
  exists bz, NewAny_DenomMetadata (MkDenomMetadata (acc_String (creator_of d)) (Denom_Schema d)
                (MintRestricted d) (UpdateRestricted d) (Denom_Data d)) = inr bz /\
    nk_GetClass s (Denom_Id d) =
      Some {| Class_Id := Denom_Id d; Class_Name := Denom_Name d; Class_Symbol := Denom_Symbol d;
              Class_Description := Denom_Description d; Class_Uri := Denom_Uri d;
              Class_UriHash := Denom_UriHash d; Class_Data := Some bz |}.

(** A class and its NFTs are as before. *)
Definition unchanged (s s' : nft_state) (d : string) : Prop :=
  nk_GetClass s' d = nk_GetClass s d /\
  forall i, nk_GetNFT s' d i = nk_GetNFT s d i /\ nk_GetOwner s' d i = nk_GetOwner s d i.
Definition other_classes (d : string) (s s' : nft_state) : Prop := forall d', d' <> d -> unchanged s s' d'.

Lemma unchanged_trans s1 s2 s3 d : unchanged s1 s2 d -> unchanged s2 s3 d -> unchanged s1 s3 d.
Proof.
  intros [A1 B1] [A2 B2]. split; [congruence|]. intros i. destruct (B1 i), (B2 i). split; congruence.
Qed.

Lemma other_classes_trans d s1 s2 s3 : other_classes d s1 s2 -> other_classes d s2 s3 -> other_classes d s1 s3.
Proof. intros E1 E2 d' Hd. eapply unchanged_trans; eauto. Qed.

Lemma bind_run {A B} (m : GoM A) (k : A -> GoM B) c a c' : m c = Ok a c' -> mbind m k c = k a c'.
Proof. intros E. unfold mbind. by rewrite E. Qed.

Lemma SaveNFT_total d n o c :
  fits [BaseNFT_Name n; BaseNFT_Data n] -> d <> "" -> BaseNFT_Id n <> "" ->
  AccAddressFromBech32 (BaseNFT_Owner n) = Some o -> nk_GetClass (c_nft c) d <> None -> nk_GetNFT (c_nft c) d (BaseNFT_Id n) = None ->
  exists c', SaveNFT d (BaseNFT_Id n) (BaseNFT_Name n) (BaseNFT_URI n) (BaseNFT_UriHash n) (BaseNFT_Data n) o c
      = Ok tt c' /\
    stored_nft (c_nft c') d n /\ other_classes d (c_nft c) (c_nft c') /\
    nk_GetClass (c_nft c') d = nk_GetClass (c_nft c) d /\
    (forall i, i <> BaseNFT_Id n -> nk_GetNFT (c_nft c') d i = nk_GetNFT (c_nft c) d i /\
       nk_GetOwner (c_nft c') d i = nk_GetOwner (c_nft c) d i).
Proof.
  intros Hfit Hd Hi Ho Hc Hn. pose proof (bech32_nonempty _ _ Ho) as [Ho' _].
  destruct (NFTMetadata_total (MkNFTMetadata (BaseNFT_Name n) (BaseNFT_Data n)) Hfit) as [bz Hbz].
  set (t := {| NFT_ClassId := d; NFT_Id := BaseNFT_Id n; NFT_Uri := BaseNFT_URI n;
               NFT_UriHash := BaseNFT_UriHash n; NFT_Data := Some bz |}).
  destruct (Mint_total (c_nft c) t o Hc Hn) as [s' Hm].
  exists (set_nft c s'). split.
  { unfold SaveNFT, mbind, guard, nft_write. apply str_neqb_true in Hd, Hi, Ho'. rewrite Hd, Hi, Ho', Hbz.
    cbn. by fold t; rewrite Hm. }
  apply Mint_spec in Hm as (_ & _ & Hcl & Ht & Hown). cbn in *. split_and!.
  - split; [exists bz; split; [done|]; by rewrite Ht, decide_True|]. by rewrite Hown, decide_True.
  - intros d' Hd'. split; [apply Hcl|]. intros i. by rewrite Ht, Hown, !decide_False by congruence.
  - apply Hcl.
  - intros i Hne. by rewrite Ht, Hown, !decide_False by congruence.
Qed.

Lemma SaveCollection_loop d l c :
  (forall n, n ∈ l -> fits [BaseNFT_Name n; BaseNFT_Data n]) ->
  d <> "" -> nk_GetClass (c_nft c) d <> None -> (forall n, n ∈ l -> valid_nft d n) ->
  NoDup (BaseNFT_Id <$> l) -> (forall n, n ∈ l -> nk_GetNFT (c_nft c) d (BaseNFT_Id n) = None) ->
  exists c', for_each l (fun nft =>
      owner <- GetOwner nft ;;
      SaveNFT d (BaseNFT_Id nft) (BaseNFT_Name nft) (BaseNFT_URI nft) (BaseNFT_UriHash nft)
        (BaseNFT_Data nft) owner) c = Ok tt c' /\
    (forall n, n ∈ l -> stored_nft (c_nft c') d n) /\ other_classes d (c_nft c) (c_nft c') /\
    nk_GetClass (c_nft c') d = nk_GetClass (c_nft c) d /\
    (forall i, i ∉ BaseNFT_Id <$> l -> nk_GetNFT (c_nft c') d i = nk_GetNFT (c_nft c) d i /\
       nk_GetOwner (c_nft c') d i = nk_GetOwner (c_nft c) d i).
Proof.
  intros Hfit Hd. revert c. induction l as [|n l IH]; intros c Hc Hv Hnd Hfree.
  { exists c. split_and!; try done. intros n Hn. by apply elem_of_nil in Hn. }
  cbn in Hnd. apply NoDup_cons in Hnd as [Hn Hnd].
  destruct (Hv n) as ((o & Ho) & Hi & _); [by left|].
  destruct (SaveNFT_total d n o c (Hfit n (ltac:(by left))) Hd (token_id_nonempty _ _ Hi) Ho Hc) as (c1 & E1 & Hst & Hoth & Hcl & Hk);
    [apply Hfree; by left|].
  destruct (IH (fun x Hx => Hfit x (ltac:(by right))) c1) as (c2 & E2 & Hst2 & Hoth2 & Hcl2 & Hk2).
  - by rewrite Hcl.
  - intros x Hx. apply Hv. by right.
  - done.
  - intros x Hx. destruct (Hk (BaseNFT_Id x)) as [-> _]; [|apply Hfree; by right].
    intros E. apply Hn. rewrite <- E. by apply list_elem_of_fmap_2.
  - exists c2. split; [|split_and!].
    + cbn. unfold mbind at 1. unfold mbind at 1, GetOwner. rewrite Ho. cbn. rewrite E1. exact E2.
    + intros x Hx. apply elem_of_cons in Hx as [->|Hx]; [|auto]. unfold stored_nft.
      destruct (Hk2 (BaseNFT_Id n) Hn) as [-> ->]. exact Hst.
    + by eapply other_classes_trans.
    + congruence.
    + intros i Hi'. cbn in Hi'. apply not_elem_of_cons in Hi' as [Hne Hi'].
      destruct (Hk2 i Hi') as [-> ->]. by apply Hk.
Qed.

(** The store holds the collection, and no other NFT of its class. *)
Record imported (s : nft_state) (col : Collection) : Prop := {
  im_class : stored_class s (Collection_Denom col);
  im_nfts n : n ∈ Collection_NFTs col -> stored_nft s (Denom_Id (Collection_Denom col)) n;
  im_rest i : i ∉ BaseNFT_Id <$> Collection_NFTs col ->
    nk_GetNFT s (Denom_Id (Collection_Denom col)) i = None;
}.

Lemma imported_unchanged s s' col :
  unchanged s s' (Denom_Id (Collection_Denom col)) -> imported s col -> imported s' col.
Proof.
  intros [Ec En] [Hc Hn Hr]. split.
  - unfold stored_class. by rewrite Ec.
  - intros n Hin. unfold stored_nft. destruct (En (BaseNFT_Id n)) as [-> ->]. by apply Hn.
  - intros i Hi. destruct (En i) as [-> _]. by apply Hr.
Qed.

(** The texts of a collection fit in memory. *)
Definition collection_fits (col : Collection) : Prop :=
  fits [acc_String (creator_of (Collection_Denom col)); Denom_Schema (Collection_Denom col);
        Denom_Data (Collection_Denom col)] /\
  forall n, n ∈ Collection_NFTs col -> fits [BaseNFT_Name n; BaseNFT_Data n].
Definition genesis_fits (data : GenesisState) : Prop := forall col, col ∈ Collections data -> collection_fits col.

Lemma import_collection_total col c :
  collection_fits col -> valid_collection col -> nk_GetClass (c_nft c) (Denom_Id (Collection_Denom col)) = None ->
  (forall i, nk_GetNFT (c_nft c) (Denom_Id (Collection_Denom col)) i = None) ->
  exists c', import_collection col c = Ok tt c' /\ imported (c_nft c') col /\
    other_classes (Denom_Id (Collection_Denom col)) (c_nft c) (c_nft c').
Proof.
  intros [Hfit Hfits] [Hid Hcr Hb Hn Hnd] Hc Hf. set (d := Collection_Denom col) in *.
  destruct (DenomMetadata_total (MkDenomMetadata (acc_String (creator_of d)) (Denom_Schema d)
    (MintRestricted d) (UpdateRestricted d) (Denom_Data d)) Hfit) as [bz Hbz].
  set (cl := {| Class_Id := Denom_Id d; Class_Name := Denom_Name d; Class_Symbol := Denom_Symbol d;
    Class_Description := Denom_Description d; Class_Uri := Denom_Uri d;
    Class_UriHash := Denom_UriHash d; Class_Data := Some bz |}).
  destruct (SaveClass_total (c_nft c) cl Hc) as [s1 Hs].
  pose proof (SaveClass_spec _ _ _ Hs) as (_ & Hcl & Ht & Ho). cbn in Hcl.
  destruct (SaveCollection_loop (Denom_Id d) (Collection_NFTs col) (set_nft c s1))
    as (c2 & E2 & Hst & Hoth & Hcl2 & Hrest); [done|by apply ValidateDenomID_nonempty|cbn; by rewrite Hcl, decide_True
    |done|done|intros n _; cbn; rewrite Ht; apply Hf|].
  assert (forall A (m : GoM A) c a c', m c = Ok a c' -> must m c = Ok a c') as Hmust by (intros *; apply must_ok).
  exists c2. split; [|split].
  - unfold import_collection. fold d. rewrite (bind_run _ _ c (creator_of d) c).
    2:{ unfold creator_of. destruct (Denom_Creator d <>?s "") eqn:E.
        - apply str_neqb_true in E. destruct (Hcr E) as [a Ea]. apply Hmust. by rewrite Ea.
        - apply str_neqb_false in E. by rewrite E, bech32_empty. }
    rewrite (bind_run _ _ c tt (set_nft c s1)); [by apply Hmust|]. apply Hmust.
    unfold SaveDenom, mbind, run_check, nft_write. rewrite Hid, Hb, Hbz. cbn. by fold cl; rewrite Hs.
  - split; fold d.
    + exists bz. split; [done|]. rewrite Hcl2. cbn. by rewrite Hcl, decide_True.
    + exact Hst.
    + intros i Hi. destruct (Hrest i Hi) as [-> _]. cbn. rewrite Ht. apply Hf.
  - eapply other_classes_trans; [|exact Hoth]. intros d' Hd'. unfold unchanged. cbn. rewrite Hcl, decide_False by done.
    split; [done|]. intros i. by rewrite Ht, Ho.
Qed.

Lemma import_loop cs c :
  (forall col, col ∈ cs -> collection_fits col) ->
  (forall col, col ∈ cs -> valid_collection col) -> NoDup (denom_ids cs) ->
  (forall d, d ∈ denom_ids cs -> nk_GetClass (c_nft c) d = None /\ forall i, nk_GetNFT (c_nft c) d i = None) ->
  exists c', for_each cs import_collection c = Ok tt c' /\
    (forall col, col ∈ cs -> imported (c_nft c') col) /\
    (forall d, d ∉ denom_ids cs -> unchanged (c_nft c) (c_nft c') d).
Proof.
  intros Hfit. revert c. induction cs as [|col cs IH]; intros c Hv Hnd Hfree.
  { exists c. split_and!; try done. intros col Hc. by apply elem_of_nil in Hc. }
  cbn in Hnd. apply NoDup_cons in Hnd as [Hn Hnd].
  destruct (import_collection_total col c) as (c1 & E1 & Him & Hoth);
    [apply Hfit; by left|apply Hv; by left|apply Hfree; by left|apply Hfree; by left|].
  assert (forall x, x ∈ denom_ids cs -> x <> Denom_Id (Collection_Denom col)) as Hne by (intros x Hx ->; done).
  destruct (IH (fun x Hx => Hfit x (ltac:(by right))) c1) as (c2 & E2 & Him2 & Hcl2); [intros x Hx; apply Hv; by right|done| |].
  { intros d Hd. destruct (Hoth d (Hne d Hd)) as [-> Ht]. destruct (Hfree d) as [-> Hf]; [by right|].
    split; [done|]. intros i. destruct (Ht i) as [-> _]. apply Hf. }
  exists c2. split; [cbn; unfold mbind; by rewrite E1|]. split.
  - intros x Hx. apply elem_of_cons in Hx as [->|Hx]; [|auto]. apply (imported_unchanged (c_nft c1)); auto.
  - intros d Hd. cbn in Hd. apply not_elem_of_cons in Hd as [Hd1 Hd2]. eapply unchanged_trans; [by apply Hoth|by apply Hcl2].
Qed.

Definition empty_nft (s : nft_state) : Prop :=
  (forall d, nk_GetClass s d = None) /\ forall d i, nk_GetNFT s d i = None.

Lemma InitGenesis_ok data c u c' :
  genesis_fits data -> empty_nft (c_nft c) -> InitGenesis data c = Ok u c' ->
  valid_genesis data /\ (forall col, col ∈ Collections data -> imported (c_nft c') col) /\
  (forall d, d ∉ denom_ids (Collections data) -> nk_GetClass (c_nft c') d = None).
Proof.
  intros Hfit [Hc Hn] Hr. apply mbind_ok in Hr as (v & c1 & Hv & Hr). apply must_ok, ValidateGenesis_iff in Hv as (-> & Hv & Hnd).
  destruct (import_loop (Collections data) c Hfit Hv Hnd) as (c2 & E & Him & Hrest); [by split|].
  rewrite E in Hr. apply ok_inj in Hr as [_ ->]. split; [done|]. split; [done|].
  intros d Hd. destruct (Hrest d Hd) as [-> _]. apply Hc.
Qed.

(** C22: on an empty store the import completes exactly for the genesis files that
    ValidateGenesis accepts; for every other one it panics, and it never returns
    with part of the file imported.  (The texts of the file fit in memory.) *)
Theorem InitGenesis_imports_what_validates data c :
  genesis_fits data -> empty_nft (c_nft c) ->
  ((exists c', InitGenesis data c = Ok tt c') <-> ValidateGenesis data c = Ok tt c) /\
  (ValidateGenesis data c <> Ok tt c -> InitGenesis data c = Panic).
Proof.
  intros Hfit He. assert (forall u, ValidateGenesis data c = Ok u c -> exists c', InitGenesis data c = Ok tt c') as Himp.
  { intros u Hv. pose proof Hv as (_ & Hval & Hnd)%ValidateGenesis_iff. destruct He as [Hc Hn].
    destruct (import_loop (Collections data) c Hfit Hval Hnd) as (c2 & E & _); [by split|].
    exists c2. unfold InitGenesis. rewrite (bind_run _ _ c u c); [done|]. by apply must_ok. }
  split; [split; [|apply Himp]|].
  - intros [c' Hr]. apply ValidateGenesis_iff. split; [done|]. by apply (InitGenesis_ok _ _ _ _ Hfit He) in Hr as [? _].
  - intros Hno. unfold InitGenesis, must, mbind, attempt.
    destruct (ValidateGenesis data c) as [[] c1|e c1|] eqn:E; [|done..].
    pose proof E as [-> _]%ValidateGenesis_iff. done.
Qed.
End ImportGenesis.

(** ** The export *)
Section ExportWalk.
Context `{EthLib} `{SdkLib} `{!SdkLaws} `{NftKeeper} `{!NftLaws} `{!EvmKeeper} `{!WasmState} `{CollectionCodec}
        `{!CollectionCodecLaws} `{!FmtLib}.
Implicit Types c : Ctx.

Lemma flat_map_nil {A B} (f : A -> list B) l : (forall x, x ∈ l -> f x = []) -> List.flat_map f l = [].
Proof.
  induction l as [|x l IH]; intros Hl; [done|]. cbn. rewrite Hl by (by left). apply IH. intros y Hy. apply Hl. by right.
Qed.

Lemma NewCollection_spec d l : NewCollection d l = MkCollection d l.
Proof.
  unfold NewCollection.
  assert (forall acc, fold_left AddNFT l (MkCollection d acc) = MkCollection d (acc ++ l)) as Hg; [|apply Hg].
  induction l as [|n l IH]; intros acc; cbn [fold_left]; [by rewrite app_nil_r|].
  change (AddNFT (MkCollection d acc) n) with (MkCollection d (acc ++ [n])). by rewrite IH, <- app_assoc.
Qed.

Lemma export_walk c :
  GetCollectionsWithReport c =
  ((fun cl => fst (export_class c cl)) <$> nk_GetClasses (c_nft c),
   List.flat_map (fun cl => snd (export_class c cl)) (nk_GetClasses (c_nft c))).
Proof.
  unfold GetCollectionsWithReport. generalize (nk_GetClasses (c_nft c)) as l. intros l.
  assert (forall a b, fold_left (fun '(cs, issues) class =>
      let '(col, found) := export_class c class in (cs ++ [col], issues ++ found)) l (a, b) =
    (a ++ ((fun cl => fst (export_class c cl)) <$> l), b ++ List.flat_map (fun cl => snd (export_class c cl)) l))
    as Hg; [|apply Hg].
  induction l as [|cl l IH]; intros a b; cbn; [by rewrite !app_nil_r|].
  destruct (export_class c cl) as [col found] eqn:E. rewrite IH, <- !app_assoc. cbn. by rewrite ?E.
Qed.

Lemma GetDenomInfo_class c cl :
  cl ∈ nk_GetClasses (c_nft c) ->
  match GetDenomInfo (Class_Id cl) c with Ok d _ => d | _ => denomFromClass cl end =
  match Class_Data cl with
  | Some v => match Unmarshal_DenomMetadata v with
              | inr m => MkDenom (Class_Id cl) (Class_Name cl) (dm_Schema m) (dm_Creator m) (Class_Symbol cl)
                           (dm_MintRestricted m) (dm_UpdateRestricted m) (Class_Description cl) (Class_Uri cl)
                           (Class_UriHash cl) (dm_Data m)
              | inl _ => denomFromClass cl
              end
  | None => denomFromClass cl
  end.
Proof.
  intros Hcl%GetClasses_spec. unfold GetDenomInfo, mbind, gets, lift_opt, lift_sum, mret, throw. rewrite Hcl.
  destruct (Class_Data cl) as [v|]; [|done]. by destruct (Unmarshal_DenomMetadata v).
Qed.

Lemma clamp_same (x : string) max :
  len x <= max -> ValidString x = true -> clampToValidUTF8Bound x max = (x, false).
Proof. intros Hl Hv. unfold clampToValidUTF8Bound. apply Nat.leb_le in Hl. by rewrite Hl, Hv. Qed.

Lemma bounds_lengths schema data :
  ValidateDenomMetadataBounds schema data = None ->
  len schema <= N.to_nat MaxDenomSchemaLen /\ len data <= N.to_nat MaxDenomDataLen.
Proof.
  unfold ValidateDenomMetadataBounds, lenN. intros Hv. apply then_check_None in Hv as [H1' Hv].
  apply then_check_None in Hv as [H2' _]. apply check_None, N.leb_le in H1', H2'. lia.
Qed.

Lemma bounds_issue_none d :
  ValidateDenomMetadataBounds (Denom_Schema d) (Denom_Data d) = None ->
  ValidString (Denom_Schema d) = true -> ValidString (Denom_Data d) = true ->
  classMetadataBoundsIssue d = (d, None).
Proof.
  intros [L1 L2]%bounds_lengths V1 V2. unfold classMetadataBoundsIssue, ClampDenomMetadataBounds.
  by rewrite !clamp_same.
Qed.

(** A genesis file as its own re-encoding: addresses in their canonical form. *)
Definition canonical_denom (d : Denom) : Denom :=
  MkDenom (Denom_Id d) (Denom_Name d) (Denom_Schema d) (acc_String (creator_of d)) (Denom_Symbol d)
    (MintRestricted d) (UpdateRestricted d) (Denom_Description d) (Denom_Uri d) (Denom_UriHash d) (Denom_Data d).
Definition canonical_nft (n : BaseNFT) : BaseNFT :=
  MkBaseNFT (BaseNFT_Id n) (BaseNFT_Name n) (BaseNFT_URI n) (BaseNFT_Data n)
    (acc_String (default "" (AccAddressFromBech32 (BaseNFT_Owner n)))) (BaseNFT_UriHash n).

Definition utf8_collection (col : Collection) : Prop :=
  ValidString (Denom_Schema (Collection_Denom col)) = true /\
  ValidString (Denom_Data (Collection_Denom col)) = true.

Lemma stored_base s d n t :
  stored_nft s d n -> nk_GetNFT s d (BaseNFT_Id n) = Some t -> base_nft s d t = canonical_nft n.
Proof.
  intros [(bz & Hbz & Hget) Ho] Ht. rewrite Hget in Ht. injection Ht as <-.
  unfold base_nft, read_metadata, canonical_nft. cbn. by rewrite (NFTMetadata_roundtrip _ _ Hbz), Ho.
Qed.

Lemma exported_nfts s col :
  valid_collection col -> imported s col ->
  GetNFTs s (Denom_Id (Collection_Denom col)) ≡ₚ canonical_nft <$> Collection_NFTs col.
Proof.
  intros [_ _ _ _ Hnd] [_ Hn Hr]. set (d := Denom_Id (Collection_Denom col)) in *. unfold GetNFTs.
  apply NoDup_Permutation.
  - apply (NoDup_fmap_1 BaseNFT_Id). rewrite <- list_fmap_compose. apply (GetNFTsOfClass_nodup s d).
  - apply (NoDup_fmap_1 BaseNFT_Id). rewrite <- list_fmap_compose. exact Hnd.
  - intros x. rewrite !list_elem_of_fmap. split.
    + intros (t & -> & Ht%GetNFTsOfClass_spec).
      destruct (decide (NFT_Id t ∈ BaseNFT_Id <$> Collection_NFTs col)) as [Hin|Hout];
        [|by rewrite Hr in Ht]. apply list_elem_of_fmap in Hin as (n & Ei & Hin). rewrite Ei in Ht.
      exists n. split; [|done]. apply stored_base; auto.
    + intros (n & -> & Hin). destruct (Hn n Hin) as [(bz & _ & Hget) _].
      eexists. split; [symmetry; apply stored_base; eauto|]. apply GetNFTsOfClass_spec. cbn. exact Hget.
Qed.

(** The class of an imported collection is exported as the collection, without a
    metadata issue. *)
Lemma export_imported c col cl :
  valid_collection col -> imported (c_nft c) col -> utf8_collection col ->
  nk_GetClass (c_nft c) (Denom_Id (Collection_Denom col)) = Some cl ->
  export_denom c cl = (canonical_denom (Collection_Denom col), []) /\
  Collection_Denom (fst (export_class c cl)) = canonical_denom (Collection_Denom col) /\
  Collection_NFTs (fst (export_class c cl)) ≡ₚ canonical_nft <$> Collection_NFTs col.
Proof.
  intros Hv Him [U1 U2] Hcl. pose proof (GetClass_Id _ _ _ Hcl) as Hid.
  assert (cl ∈ nk_GetClasses (c_nft c)) as Hin by (apply GetClasses_spec; by rewrite Hid).
  destruct (im_class _ _ Him) as (bz & Hbz & Hget). rewrite Hget in Hcl. injection Hcl as <-. cbn in Hid.
  assert (export_denom c {| Class_Id := Denom_Id (Collection_Denom col);
    Class_Name := Denom_Name (Collection_Denom col); Class_Symbol := Denom_Symbol (Collection_Denom col);
    Class_Description := Denom_Description (Collection_Denom col); Class_Uri := Denom_Uri (Collection_Denom col);
    Class_UriHash := Denom_UriHash (Collection_Denom col); Class_Data := Some bz |}
    = (canonical_denom (Collection_Denom col), [])) as He.
  { unfold export_denom. rewrite GetDenomInfo_class by done. unfold classMetadataIssue. cbn.
    rewrite (DenomMetadata_roundtrip _ _ Hbz). cbn. fold (canonical_denom (Collection_Denom col)).
    by rewrite bounds_issue_none; [|apply (vc_bounds _ Hv)|..]. }
  split; [exact He|]. unfold export_class. cbn [Class_Id]. rewrite He, NewCollection_spec. cbn. split; [done|].
  by apply exported_nfts.
Qed.

Definition reencoded (col col' : Collection) : Prop :=
  Collection_Denom col' = canonical_denom (Collection_Denom col) /\
  Collection_NFTs col' ≡ₚ canonical_nft <$> Collection_NFTs col.

(** The classes of the store, in the order of the collections they came from. *)
Lemma imported_classes s cs :
  (forall col, col ∈ cs -> imported s col) -> NoDup (denom_ids cs) ->
  (forall d, d ∉ denom_ids cs -> nk_GetClass s d = None) ->
  exists cls, Forall2 (fun col cl => col ∈ cs /\ nk_GetClass s (Denom_Id (Collection_Denom col)) = Some cl) cs cls /\
    nk_GetClasses s ≡ₚ cls.
Proof.
  intros Him Hnd Hrest.
  assert (exists cls, Forall2 (fun col cl =>
      col ∈ cs /\ nk_GetClass s (Denom_Id (Collection_Denom col)) = Some cl) cs cls) as [cls Hf].
  { assert (forall l, (forall col, col ∈ l -> col ∈ cs) -> exists cls, Forall2 (fun col cl =>
      col ∈ cs /\ nk_GetClass s (Denom_Id (Collection_Denom col)) = Some cl) l cls) as Hg; [|by apply Hg].
    induction l as [|col l IH]; intros Hl; [exists []; constructor|].
    destruct IH as [cls Hf]; [intros x Hx; apply Hl; by right|].
    assert (col ∈ cs) as Hc by (apply Hl; by left). destruct (im_class _ _ (Him col Hc)) as (bz & _ & Hget).
    eexists (_ :: cls). constructor; eauto. }
  exists cls. split; [done|].
  assert (Class_Id <$> cls = denom_ids cs) as Hids.
  { unfold denom_ids. clear Him Hnd Hrest. induction Hf as [|col cl l k [_ E] _ IH]; [done|].
    cbn. rewrite IH. f_equal. by apply GetClass_Id in E. }
  apply NoDup_Permutation.
  - apply (NoDup_fmap_1 Class_Id), GetClasses_nodup.
  - apply (NoDup_fmap_1 Class_Id). by rewrite Hids.
  - intros cl. rewrite GetClasses_spec. split.
    + intros Hg. destruct (decide (Class_Id cl ∈ denom_ids cs)) as [Hin|Hout]; [|by rewrite Hrest in Hg].
      rewrite <- Hids in Hin. apply list_elem_of_fmap in Hin as (cl' & E & Hin).
      apply list_elem_of_lookup in Hin as Hx. destruct Hx as [i Hi].
      destruct (Forall2_lookup_r _ _ _ _ _ Hf Hi) as (col & _ & _ & E').
      pose proof (GetClass_Id _ _ _ E') as Hid. rewrite <- Hid, <- E, Hg in E'. by injection E' as ->.
    + intros Hin. apply list_elem_of_lookup in Hin as [i Hi].
      destruct (Forall2_lookup_r _ _ _ _ _ Hf Hi) as (col & _ & _ & E').
      pose proof (GetClass_Id _ _ _ E') as Hid. by rewrite Hid.
Qed.

(** What InitGenesis does to the supply counters. *)
Lemma InitGenesis_supply `{!NftSupplyLaws} data : frame (kept supply_ok) (InitGenesis data).
Proof.
  assert (forall A (m : GoM A), frame (kept supply_ok) m -> frame (kept supply_ok) (must m)) as Hmust.
  { intros A m Hm. unfold must. go_frame. }
  assert (forall d n u uh da b r, frame (kept supply_ok) (SaveNFT d n u uh da b r)) as Hsave.
  { intros *. pose proof (Mint_kept supply_ok). unfold SaveNFT. go_frame. }
  unfold InitGenesis, import_collection, SaveCollection, GetOwner. apply frame_bind; [apply _| |intros _].
  - apply Hmust. intros c. destruct (ValidateGenesis data c) as [u c'|e c'|] eqn:E; [| |done].
    + apply ValidateGenesis_iff in E as [-> _]. by apply nft_eq_kept.
    + apply nft_eq_kept. by apply ValidateGenesis_err in E as ->.
  - go_frame; apply Hmust; go_frame.
Qed.

(** C21: importing a genesis file into an empty store and exporting it again gives
    every collection of the file, with the same class and the same NFTs, and no
    other; the addresses come back in their canonical encoding, the order may
    differ, and the export reports no issue.  (The texts of the file fit in memory.) *)
Theorem genesis_export_import `{!NftSupplyLaws} data c u c' :
  genesis_fits data -> empty_nft (c_nft c) -> supply_ok (c_nft c) ->
  (forall col, col ∈ Collections data -> utf8_collection col) ->
  InitGenesis data c = Ok u c' ->
  (exists cols, Collections (ExportGenesis c') ≡ₚ cols /\ Forall2 reencoded (Collections data) cols) /\
  ExportIssuesWithReport c' = [].
Proof.
  intros Hfit He Hs Hu Hr. pose proof (frame_ok _ _ _ _ _ (InitGenesis_supply data) Hr Hs) as Hs'.
  apply (InitGenesis_ok _ _ _ _ Hfit He) in Hr as ([Hv Hnd] & Him & Hrest).
  destruct (imported_classes (c_nft c') (Collections data) Him Hnd Hrest) as (cls & Hf & Hp).
  unfold ExportGenesis, ExportIssuesWithReport. rewrite export_walk. cbn [fst snd Collections]. split.
  - exists ((fun cl => fst (export_class c' cl)) <$> cls). split; [by rewrite Hp|].
    apply Forall2_fmap_r. eapply Forall2_impl; [exact Hf|]. intros col cl [Hin E]. cbn.
    destruct (export_imported c' col cl) as (_ & E1 & E2); [auto..|]. by split.
  - apply flat_map_nil. intros cl Hin. rewrite Hp in Hin. apply list_elem_of_lookup in Hin as [i Hi].
    destruct (Forall2_lookup_r _ _ _ _ _ Hf Hi) as (col & _ & Hin & E).
    destruct (export_imported c' col cl) as (E1 & _); [auto..|]. unfold export_class. rewrite E1. cbn.
    unfold supplyIssue, GetTotalSupply, GetNFTs. rewrite Hs', length_fmap, Z.eqb_refl. done.
Qed.

(** ** The report *)

Lemma classMetadataBoundsIssue_spec d :
  let '(d', i) := classMetadataBoundsIssue d in
  Denom_Id d' = Denom_Id d /\ ValidateDenomMetadataBounds (Denom_Schema d') (Denom_Data d') = None /\
  (i = None -> d' = d).
Proof.
  unfold classMetadataBoundsIssue, ClampDenomMetadataBounds.
  pose proof (clamp_len (Denom_Schema d) (N.to_nat MaxDenomSchemaLen)) as L1.
  pose proof (clamp_len (Denom_Data d) (N.to_nat MaxDenomDataLen)) as L2.
  pose proof (clamp_unchanged (Denom_Schema d) (N.to_nat MaxDenomSchemaLen)) as U1.
  pose proof (clamp_unchanged (Denom_Data d) (N.to_nat MaxDenomDataLen)) as U2.
  destruct (clampToValidUTF8Bound (Denom_Schema d) _) as [s1 b1].
  destruct (clampToValidUTF8Bound (Denom_Data d) _) as [s2 b2]. cbn [fst snd] in *.
  assert (forall a b, len a <= N.to_nat MaxDenomSchemaLen -> len b <= N.to_nat MaxDenomDataLen ->
            ValidateDenomMetadataBounds a b = None) as Hb.
  { intros a b Ha Hb. unfold ValidateDenomMetadataBounds, lenN. apply then_check_None.
    split; [apply check_None, N.leb_le; lia|]. apply then_check_None. split; [apply check_None, N.leb_le; lia|done]. }
  destruct (b1 || b2) eqn:E; cbn [negb]; [by split_and!; [|apply Hb|]|].
  apply orb_false_iff in E as [-> ->]. destruct U1 as [<- _], U2 as [<- _]; [done..|]. split_and!; auto.
Qed.

Lemma export_denom_spec c cl :
  cl ∈ nk_GetClasses (c_nft c) ->
  let '(d, issues) := export_denom c cl in
  Denom_Id d = Class_Id cl /\ ValidateDenomMetadataBounds (Denom_Schema d) (Denom_Data d) = None /\
  (issues = [] -> GetDenomInfo (Class_Id cl) c = Ok d c).
Proof.
  intros Hin. unfold export_denom. rewrite GetDenomInfo_class by done.
  set (d0 := match Class_Data cl with Some _ => _ | None => _ end).
  assert (Denom_Id d0 = Class_Id cl) as Hid.
  { subst d0. destruct (Class_Data cl) as [v|]; [destruct (Unmarshal_DenomMetadata v)|]; done. }
  pose proof (classMetadataBoundsIssue_spec d0) as Hb. destruct (classMetadataBoundsIssue d0) as [d i].
  destruct Hb as (Ei & Hb & Hs). split; [congruence|]. split; [done|].
  intros [E1 E2]%app_eq_nil. destruct i; [done|]. rewrite (Hs eq_refl). subst d0. unfold classMetadataIssue in E1.
  apply GetClasses_spec in Hin. unfold GetDenomInfo, mbind, gets, lift_opt, lift_sum, mret, throw. rewrite Hin.
  destruct (Class_Data cl) as [v|]; [|done]. by destruct (Unmarshal_DenomMetadata v).
Qed.

(** The export drops nothing: every class is exported once, with all its NFTs
    and with metadata within the bounds ValidateGenesis enforces; and when the report
    is empty, each class is exported exactly as GetDenomInfo describes it and its
    supply counter is the number of its NFTs. *)
Lemma ExportGenesis_complete c :
  denom_ids (Collections (ExportGenesis c)) = Class_Id <$> nk_GetClasses (c_nft c) /\
  (forall col, col ∈ Collections (ExportGenesis c) ->
     Collection_NFTs col = GetNFTs (c_nft c) (Denom_Id (Collection_Denom col)) /\
     ValidateDenomMetadataBounds (Denom_Schema (Collection_Denom col)) (Denom_Data (Collection_Denom col)) = None) /\
  (ExportIssuesWithReport c = [] -> forall col, col ∈ Collections (ExportGenesis c) ->
     let id := Denom_Id (Collection_Denom col) in
     GetDenomInfo id c = Ok (Collection_Denom col) c /\
     GetTotalSupply c id = uint64_of (List.length (Collection_NFTs col))).
Proof.
  unfold ExportGenesis, ExportIssuesWithReport. rewrite export_walk. cbn [fst snd Collections].
  assert (forall cl, cl ∈ nk_GetClasses (c_nft c) ->
    let '(col, issues) := export_class c cl in
    Denom_Id (Collection_Denom col) = Class_Id cl /\ Collection_NFTs col = GetNFTs (c_nft c) (Class_Id cl) /\
    ValidateDenomMetadataBounds (Denom_Schema (Collection_Denom col)) (Denom_Data (Collection_Denom col)) = None /\
    (issues = [] -> GetDenomInfo (Class_Id cl) c = Ok (Collection_Denom col) c /\
       GetTotalSupply c (Class_Id cl) = uint64_of (List.length (Collection_NFTs col)))) as Hcl.
  { intros cl Hin. pose proof (export_denom_spec c cl Hin) as Hd. unfold export_class.
    destruct (export_denom c cl) as [d issues]. destruct Hd as (E1 & E2 & E3). rewrite NewCollection_spec.
    cbn [Collection_Denom Collection_NFTs].
    split_and!; [done..|]. intros [Hi Hs]%app_eq_nil. split; [by apply E3|]. unfold supplyIssue in Hs.
    destruct (Z.eqb_spec (GetTotalSupply c (Class_Id cl)) (uint64_of (List.length (GetNFTs (c_nft c) (Class_Id cl)))));
      [done|discriminate Hs]. }
  split; [|split].
  - unfold denom_ids. rewrite <- list_fmap_compose. apply list_fmap_ext. intros i cl Hi. cbn.
    assert (cl ∈ nk_GetClasses (c_nft c)) as Hin%Hcl by (by eapply list_elem_of_lookup_2).
    destruct (export_class c cl). by destruct Hin.
  - intros col Hcol. apply list_elem_of_fmap in Hcol as (cl & -> & Hin%Hcl).
    destruct (export_class c cl) as [col issues]. cbn [fst]. destruct Hin as (-> & -> & Hb & _). done.
  - intros Hnil col Hcol. apply list_elem_of_fmap in Hcol as (cl & -> & Hin). pose proof (Hcl cl Hin) as Hx.
    assert (snd (export_class c cl) = []) as Hn.
    { destruct (snd (export_class c cl)) as [|i l] eqn:E; [done|]. exfalso.
      assert (i ∈ List.flat_map (fun cl => snd (export_class c cl)) (nk_GetClasses (c_nft c))) as Hi.
      { apply list_elem_of_In, in_flat_map. exists cl. rewrite <- list_elem_of_In, E. split; [done|by left]. }
      rewrite Hnil in Hi. by apply elem_of_nil in Hi. }
    destruct (export_class c cl) as [col issues]. cbn [fst snd] in *. destruct Hx as (-> & _ & _ & Hx). by apply Hx.
Qed.

Lemma SupplyInvariant_holds F c : supply_ok (c_nft c) -> SupplyInvariant F c = ("", false).
Proof.
  intros Hs. unfold SupplyInvariant. rewrite export_walk. cbn [snd].
  assert (forall l, (forall i, i ∈ l -> Kind i <> ExportIssueSupplyMismatch) ->
    fold_left (fun '(msg, count) issue =>
      if bool_decide (Kind issue = ExportIssueSupplyMismatch)
      then (msg +:+ "total " +:+ ClassID issue +:+ " NFTs supply invariance:" +:+ String "010" "" +:+
              String "009" "" +:+ Detail issue +:+ String "010" "", S count)
      else (msg, count)) l ("", 0) = ("", 0)) as Hg.
  { induction l as [|i l IH]; intros Hl; [done|]. cbn [fold_left].
    rewrite bool_decide_eq_false_2 by (apply Hl; by left). apply IH. intros j Hj. apply Hl. by right. }
  rewrite Hg; [done|]. intros i Hi. apply list_elem_of_In, in_flat_map in Hi as (cl & _ & Hi).
  unfold export_class, export_denom, classMetadataBoundsIssue, supplyIssue, GetTotalSupply, GetNFTs in Hi.
  rewrite Hs, length_fmap, Z.eqb_refl in Hi. revert Hi. destruct (ClampDenomMetadataBounds _ _) as [[a b] ch].
  unfold classMetadataIssue. intros Hi.
  destruct ch, (Class_Data cl) as [v|]; try destruct (Unmarshal_DenomMetadata v); cbn in Hi;
    naive_solver.
Qed.
End ExportWalk.
