(* ===== verification/Erc721Types.v ===== *)
(** x/erc721/types: identifiers and their spellings (utils.go), token pairs
    (token_pair.go), parameters and genesis validation (params.go, genesis.go). *)
From S2P Require Import Prelude GoStrings Sdk Proto CollectionTypes.
Open Scope go_scope.

Module Erc721Types.

(** ** Data (erc721.pb.go, genesis.pb.go, tx.pb.go) *)
Record TokenPair := MkTokenPair { Erc721Address : string; tp_ClassId : string }.
Record NFTUIDPair := MkNFTUIDPair { TokenUid : string; NftUid : string }.
Record RefundReceiver := MkRefundReceiver {
  rr_EvmContractAddress : string; rr_TokenId : string; rr_EvmAddress : string }.
Record Params := NewParams { EnableErc721 : bool; EnableEVMHook : bool }.
Record Erc721Genesis := MkErc721Genesis {
  gs_Params : Params; gs_TokenPairs : list TokenPair; gs_NftUidPairs : list NFTUIDPair;
  gs_RefundReceivers : list RefundReceiver }.

Definition DefaultParams : Params := NewParams true true.

(** Params.MarshalToSizedBuffer (generated): a field that is false is omitted. *)
Definition Params_MarshalToSizedBuffer (m : Params) : string :=
  Proto.put_bool "008" (EnableErc721 m) +:+ Proto.put_bool "016" (EnableEVMHook m).

Definition DefaultPrefix : string := "uptick".
Definition erc721_ModuleName : string := "erc721".
Definition TransferERC721Memo : string := ":IBCTransferFromERC721".

(** ** utils.go: identifiers *)

Definition removeAddress0x (address : string) : string :=
  if HasPrefix address "0x" then str_drop 2 address else address.

Definition CreateClassIDFromContractAddress (address : string) : string :=
  DefaultPrefix +:+ "-" +:+ removeAddress0x address.

Definition CreateContractAddressFromClassID (classID : string) : string :=
  RemoveFirst classID (DefaultPrefix +:+ "-").

Definition CreateNFTIDFromTokenID (id : string) : string :=
  DefaultPrefix +:+ removeAddress0x id.

(** [new(big.Int).SetBytes(b)]: big-endian *)
Fixpoint SetBytes (acc : Z) (b : string) : Z :=
  match b with "" => acc | String a r => SetBytes (acc * 256 + byte_of a)%Z r end.

Definition CreateTokenIDFromNFTID `{SdkLib} (nftID : string) : string :=
  BigString (SetBytes 0 (sha256_Sum256 (RemoveFirst nftID (DefaultPrefix +:+ "-")))).

Definition CreateTokenUID (contractAddress tokenID : string) : string :=
  tokenID +:+ "," +:+ contractAddress.

Definition CreateNFTUID (classID nftID : string) : string :=
  nftID +:+ "," +:+ classID.

Definition GetNFTFromUID (uid : string) : string * string :=
  match LastIndex uid "," with
  | None => ("", "")
  | Some idx =>
      if (idx <=? 0) || (idx =? len uid - 1) then ("", "")
      else (str_take idx uid, str_drop (S idx) uid)
  end.

(** parseEVMTokenIDValue: the value and whether the legacy spelling was used.
    [None] is ErrInvalidRequest. *)
Definition parseEVMTokenIDValue (tokenID : string) (allowLegacy : bool) : option (Z * bool) :=
  let isLegacy := allowLegacy && (HasPrefix tokenID "0x" || HasPrefix tokenID "0X") in
  let '(digits, base) := if isLegacy then (str_drop 2 tokenID, 16%Z) else (tokenID, 10%Z) in
  match SetString digits base with
  | None => None
  | Some n => if (n <? 0)%Z || (uint256_bound <=? n)%Z then None else Some (n, isLegacy)
  end.

Definition ValidateEVMTokenID (tokenID : string) : option error :=
  match parseEVMTokenIDValue tokenID false with
  | None => Some (SdkErr ErrInvalidRequest)
  | Some _ => None
  end.

Definition ParseEVMTokenID (tokenID : string) : option Z :=
  fst <$> parseEVMTokenIDValue tokenID true.

Definition CanonicalEVMTokenID (tokenID : string) : option (string * bool) :=
  match parseEVMTokenIDValue tokenID true with
  | None => None
  | Some (n, legacy) => Some (BigString n, legacy)
  end.

Definition LegacyEVMTokenID (tokenID : string) : option string :=
  match SetString tokenID 10 with
  | None => None
  | Some n =>
      if (n <? 0)%Z || (uint256_bound <=? n)%Z then None
      else if (n =? 0)%Z then None
      else
        let hexDigits := Text n 16 in
        let hexDigits := if Nat.odd (len hexDigits) then "0" +:+ hexDigits else hexDigits in
        Some ("0x" +:+ hexDigits)
  end.

Definition EVMTokenIDKeyVariants (tokenID : string) : list string :=
  match CanonicalEVMTokenID tokenID with
  | None => [tokenID]
  | Some (canonical, _) =>
      match LegacyEVMTokenID canonical with
      | Some legacy => if legacy <>?s canonical then [canonical; legacy] else [canonical]
      | None => [canonical]
      end
  end.

Definition EqualEVMTokenID (a b : string) : bool :=
  if a =?s b then true
  else match parseEVMTokenIDValue a true, parseEVMTokenIDValue b true with
       | Some (na, _), Some (nb, _) => (na =? nb)%Z
       | _, _ => false
       end.

(** ** utils.go: contract addresses *)
Section Address.
Context `{EthLib}.

Definition CanonicalContractAddress (address : string) : string :=
  if IsHexAddress address then ToLower address else address.

Definition ChecksumContractAddress (address : string) : option string :=
  if IsHexAddress address then Some (Hex (HexToAddress address)) else None.

Definition ContractAddressKeyVariants (address : string) : list string :=
  let canonical := CanonicalContractAddress address in
  match ChecksumContractAddress address with
  | Some checksummed => if checksummed <>?s canonical then [canonical; checksummed] else [canonical]
  | None => [canonical]
  end.

Definition EqualContractAddress (a b : string) : bool :=
  if negb (IsHexAddress a) || negb (IsHexAddress b) then a =?s b
  else bool_decide (HexToAddress a = HexToAddress b).

(** TokenUIDKeyVariants: the cross product of both components' spellings *)
Definition TokenUIDKeyVariants (tokenUID : string) : list string :=
  let '(tokenID, address) := GetNFTFromUID tokenUID in
  if (tokenID =?s "") || (address =?s "") then [tokenUID]
  else
    flat_map (fun tokenVariant =>
      map (fun addressVariant => CreateTokenUID addressVariant tokenVariant)
        (ContractAddressKeyVariants address))
      (EVMTokenIDKeyVariants tokenID).

(** The same enumeration from the two components, as SetNFTPairs and
    ResolveNFTUIDPair write it inline. *)
Definition key_variants (contractAddress tokenID : string) : list (string * string) :=
  flat_map (fun tokenVariant =>
    map (fun contractVariant => (CreateTokenUID contractVariant tokenVariant, tokenVariant))
      (ContractAddressKeyVariants contractAddress))
    (EVMTokenIDKeyVariants tokenID).

(** ** token_pair.go *)
Definition NewTokenPair (erc721Address : address) (classID : string) : TokenPair :=
  MkTokenPair (ToLower (Hex erc721Address)) classID.

Definition GetERC721Contract (tp : TokenPair) : address := HexToAddress (Erc721Address tp).

Context `{SdkLib}.

Definition GetID (tp : TokenPair) : string :=
  tmhash_Sum (Erc721Address tp +:+ "|" +:+ tp_ClassId tp).

Definition ErrDenomSdk : error := ExtErr "invalid denom".
Definition ErrHexAddress : error := ExtErr "invalid hex address".

Definition TokenPair_Validate (tp : TokenPair) : option error :=
  check (ValidateDenom (tp_ClassId tp)) else ErrDenomSdk ;;
  check (IsHexAddress (Erc721Address tp)) else ErrHexAddress ;;
  None.

(** ** genesis.go *)

Definition UIDBelongsToRegisteredPair (tokenUID nftUID : string) (tokenPairs : list TokenPair) : bool :=
  let contract := snd (GetNFTFromUID tokenUID) in
  let classID := snd (GetNFTFromUID nftUID) in
  if (contract =?s "") || (classID =?s "") then false
  else existsb (fun tp => EqualFold (Erc721Address tp) contract && (tp_ClassId tp =?s classID)) tokenPairs.

Definition ErrPair : error := ErcErr ErrInternalTokenPair.

Fixpoint validate_uid_pairs (tokenPairs : list TokenPair) (pairs : list NFTUIDPair)
  (seenToken seenNFT : gset string) : option error :=
  match pairs with
  | [] => None
  | p :: rest =>
      check (negb ((TokenUid p =?s "") || (NftUid p =?s ""))) else ErrPair ;;
      check (bool_decide (TokenUid p ∉ seenToken)) else ErrPair ;;
      check (bool_decide (NftUid p ∉ seenNFT)) else ErrPair ;;
      check (UIDBelongsToRegisteredPair (TokenUid p) (NftUid p) tokenPairs) else ErrPair ;;
      validate_uid_pairs tokenPairs rest ({[TokenUid p]} ∪ seenToken) ({[NftUid p]} ∪ seenNFT)
  end.

Fixpoint validate_receivers (registered : list string) (receivers : list RefundReceiver)
  (seenRefund : gset string) : option error :=
  match receivers with
  | [] => None
  | r :: rest =>
      check (negb ((rr_EvmContractAddress r =?s "") || (rr_TokenId r =?s "")
                   || (rr_EvmAddress r =?s ""))) else ErrPair ;;
      check (bool_decide (ToLower (rr_EvmContractAddress r) ∈ registered)) else ErrPair ;;
      let dedupe := ToLower (rr_EvmContractAddress r) +:+ rr_TokenId r in
      check (bool_decide (dedupe ∉ seenRefund)) else ErrPair ;;
      validate_receivers registered rest ({[dedupe]} ∪ seenRefund)
  end.

(** ValidateGenesisPairs *)
Definition ValidateGenesisPairs (pairs : list NFTUIDPair) (receivers : list RefundReceiver)
  (tokenPairs : list TokenPair) : option error :=
  then_check (validate_uid_pairs tokenPairs pairs ∅ ∅)
    (validate_receivers ((fun tp => ToLower (Erc721Address tp)) <$> tokenPairs) receivers ∅).

Definition ErrDuplicated : error := ExtErr "duplicated on genesis".

Fixpoint validate_token_pairs (pairs : list TokenPair) (seenErc721 seenClass : gset string)
  : option error :=
  match pairs with
  | [] => None
  | b :: rest =>
      let key := ToLower (Erc721Address b) in
      check (bool_decide (key ∉ seenErc721)) else ErrDuplicated ;;
      check (bool_decide (tp_ClassId b ∉ seenClass)) else ErrDuplicated ;;
      then_check (TokenPair_Validate b)
        (validate_token_pairs rest ({[key]} ∪ seenErc721) ({[tp_ClassId b]} ∪ seenClass))
  end.

(** GenesisState.Validate; Params.Validate always succeeds. *)
Definition Genesis_Validate (gs : Erc721Genesis) : option error :=
  then_check (validate_token_pairs (gs_TokenPairs gs) ∅ ∅)
    (ValidateGenesisPairs (gs_NftUidPairs gs) (gs_RefundReceivers gs) (gs_TokenPairs gs)).

End Address.
End Erc721Types.
Export Erc721Types.

(** ** Lemmas: UIDs *)

(** The round trip of the UID encoding: the last comma separates. *)
Lemma uid_roundtrip a b :
  a <> "" -> b <> "" -> ContainsByte b "," = false ->
  GetNFTFromUID (a +:+ "," +:+ b) = (a, b).
Proof.
  intros Ha Hb Hc. unfold GetNFTFromUID.
  change ("," +:+ b) with (String "," b). rewrite LastIndex_sep by done.
  assert (0 < len a)%nat by (destruct a; [done|simpl; lia]).
  assert (0 < len b)%nat by (destruct b; [done|simpl; lia]).
  rewrite len_app. cbn [String.length].
  destruct (Nat.leb_spec (len a) 0); [lia|].
  destruct (Nat.eqb_spec (len a) (len a + S (len b) - 1)); [lia|]. cbn [orb].
  f_equal; [apply str_take_app|].
  replace (S (len a)) with (len (a +:+ ",")) by (rewrite len_app; simpl; lia).
  replace (a +:+ String "," b) with ((a +:+ ",") +:+ b) by (by rewrite str_app_assoc).
  apply str_drop_app.
Qed.

(** A UID that splits is the pair of its halves; the second half has no comma. *)
Lemma uid_split uid a b :
  GetNFTFromUID uid = (a, b) -> a <> "" ->
  uid = a +:+ "," +:+ b /\ b <> "" /\ ContainsByte b "," = false.
Proof.
  unfold GetNFTFromUID. destruct (LastIndex uid ",") as [i|] eqn:Ei; [|naive_solver].
  apply LastIndex_split in Ei as (Hs & Hc & Hl).
  destruct (_ || _) eqn:Eb; [naive_solver|]. intros [= <- <-] _.
  apply orb_false_iff in Eb as [_ E2]. apply Nat.eqb_neq in E2.
  split; [exact Hs|]. split; [|done].
  intros Hd. apply (f_equal len) in Hd. change (len (str_drop (S i) uid) = 0) in Hd.
  rewrite len_drop in Hd. lia.
Qed.

Lemma uid_inj a1 b1 a2 b2 :
  ContainsByte b1 "," = false -> ContainsByte b2 "," = false ->
  a1 +:+ "," +:+ b1 = a2 +:+ "," +:+ b2 -> a1 = a2 /\ b1 = b2.
Proof.
  intros H1 H2 He. change (a1 +:+ String "," b1 = a2 +:+ String "," b2) in He.
  pose proof (LastIndex_sep a1 b1 "," H1) as L1. pose proof (LastIndex_sep a2 b2 "," H2) as L2.
  rewrite He, L2 in L1. assert (len a2 = len a1) as El by congruence.
  pose proof (f_equal (str_take (len a1)) He) as Ht. rewrite str_take_app in Ht.
  rewrite <- El, str_take_app in Ht. subst a2. split; [done|].
  apply (f_equal (str_drop (len a1))) in He. rewrite !str_drop_app in He. congruence.
Qed.

(** A UID is never empty. *)
Lemma uid_nonempty a b : a +:+ "," +:+ b <> "".
Proof. destruct a; discriminate. Qed.

(** ** Lemmas: token ids *)

Lemma str_forallb_get f s : str_forallb f s = true <-> forall i a, String.get i s = Some a -> f a = true.
Proof.
  induction s as [|x s IH]; simpl.
  - split; [intros _ [] ? [=]|done].
  - rewrite andb_true_iff, IH. split.
    + intros [Hx Hs] [|i] a; [naive_solver|apply Hs].
    + intros Hs. split; [apply (Hs 0%nat); done|]. intros i a. apply (Hs (S i)).
Qed.

Lemma digits_not_0x s : str_forallb is_digit s = true ->
  HasPrefix s "0x" = false /\ HasPrefix s "0X" = false.
Proof.
  destruct s as [|a [|b s]]; [done|by split; cbn; rewrite andb_false_r|].
  cbn [str_forallb]. intros Hx.
  apply andb_true_iff in Hx as [_ Hx]. apply andb_true_iff in Hx as [Hx _].
  split; apply not_true_is_false; intros (r & Hr)%HasPrefix_spec;
    rewrite !str_app_cons in Hr; inv Hr; done.
Qed.

Definition uint256 (n : Z) : Prop := (0 <= n < uint256_bound)%Z.

Lemma in_range_256 n : uint256 n -> ((n <? 0) || (uint256_bound <=? n))%Z = false.
Proof.
  intros [H1 H2]. apply orb_false_iff. split; [apply Z.ltb_ge|apply Z.leb_gt]; lia.
Qed.

Lemma parse_range t b n l : parseEVMTokenIDValue t b = Some (n, l) -> uint256 n.
Proof.
  unfold parseEVMTokenIDValue, uint256.
  destruct (b && _); destruct (SetString _ _) as [m|]; [|done| |done];
    destruct (_ || _) eqn:Eb; try done; intros [= <- <-];
    apply orb_false_iff in Eb as [E1 E2]; apply Z.ltb_ge in E1; apply Z.leb_gt in E2; done.
Qed.

(** The canonical spelling parses to the value, is accepted as a new id, and is
    not a legacy spelling. *)
Lemma parse_BigString n b : uint256 n -> parseEVMTokenIDValue (BigString n) b = Some (n, false).
Proof.
  intros Hn. unfold parseEVMTokenIDValue.
  destruct (digits_not_0x (BigString n)) as [-> ->]; [apply BigString_digits, Hn|].
  rewrite andb_false_r. unfold BigString.
  rewrite SetString_Text by (auto; apply Hn). by rewrite in_range_256.
Qed.

Lemma LegacyEVMTokenID_spec n l :
  uint256 n -> LegacyEVMTokenID (BigString n) = Some l ->
  parseEVMTokenIDValue l true = Some (n, true) /\ HasPrefix l "0x" = true.
Proof.
  intros Hn. unfold LegacyEVMTokenID, BigString.
  rewrite SetString_Text by (auto; apply Hn). rewrite in_range_256 by done.
  destruct (n =? 0)%Z; [done|]. intros [= <-].
  set (h := if Nat.odd (len (Text n 16)) then "0" +:+ Text n 16 else Text n 16).
  split; [|apply HasPrefix_app].
  unfold parseEVMTokenIDValue. rewrite HasPrefix_app. cbn [andb orb].
  rewrite (str_drop_app "0x" h : str_drop 2 ("0x" +:+ h) = h).
  assert (SetString h 16 = Some n) as ->.
  { subst h. destruct (Nat.odd _); [apply SetString_zero_Text|apply SetString_Text]; auto; apply Hn. }
  by rewrite in_range_256.
Qed.

Lemma CanonicalEVMTokenID_ok t s l :
  CanonicalEVMTokenID t = Some (s, l) ->
  exists n, uint256 n /\ s = BigString n /\ parseEVMTokenIDValue t true = Some (n, l).
Proof.
  unfold CanonicalEVMTokenID. destruct (parseEVMTokenIDValue t true) as [[n l']|] eqn:E; [|done].
  intros [= <- <-]. exists n. split; [by eapply parse_range|done].
Qed.

(** The spellings of a value do not depend on the spelling one starts from. *)
Definition value_variants (n : Z) : list string := EVMTokenIDKeyVariants (BigString n).

Lemma variants_of_value t n l :
  parseEVMTokenIDValue t true = Some (n, l) -> EVMTokenIDKeyVariants t = value_variants n.
Proof.
  intros Hp. pose proof (parse_range _ _ _ _ Hp) as Hn.
  unfold value_variants, EVMTokenIDKeyVariants, CanonicalEVMTokenID.
  rewrite Hp, (parse_BigString n true) by done. done.
Qed.

Lemma value_variants_head n : uint256 n -> exists r, value_variants n = BigString n :: r.
Proof.
  intros Hn. unfold value_variants, EVMTokenIDKeyVariants, CanonicalEVMTokenID.
  rewrite parse_BigString by done.
  destruct (LegacyEVMTokenID _); [case_match|]; eauto.
Qed.

Lemma value_variants_parse n v :
  uint256 n -> v ∈ value_variants n -> exists l, parseEVMTokenIDValue v true = Some (n, l).
Proof.
  intros Hn. unfold value_variants, EVMTokenIDKeyVariants, CanonicalEVMTokenID.
  pose proof (parse_BigString n true Hn) as Hc. rewrite Hc.
  destruct (LegacyEVMTokenID (BigString n)) as [l|] eqn:El; [case_match|];
    rewrite ?elem_of_cons, ?elem_of_nil; intros Hv;
    destruct_or? Hv; subst; try done; eauto.
  apply LegacyEVMTokenID_spec in El as [El _]; eauto.
Qed.

Lemma variants_nonempty t v : t <> "" -> v ∈ EVMTokenIDKeyVariants t -> v <> "".
Proof.
  intros Ht Hv. destruct (parseEVMTokenIDValue t true) as [[n l]|] eqn:E.
  - pose proof (parse_range _ _ _ _ E) as Hn. rewrite (variants_of_value _ _ _ E) in Hv.
    apply value_variants_parse in Hv as [l' Hv]; [|done]. by intros ->.
  - unfold EVMTokenIDKeyVariants, CanonicalEVMTokenID in Hv. rewrite E in Hv.
    apply list_elem_of_singleton in Hv as ->. done.
Qed.

(** Two spellings have the same variants as soon as they share one. *)
Lemma variants_shared t v : v ∈ EVMTokenIDKeyVariants t -> EVMTokenIDKeyVariants v = EVMTokenIDKeyVariants t.
Proof.
  intros Hv. destruct (parseEVMTokenIDValue t true) as [[n l]|] eqn:E.
  - pose proof (parse_range _ _ _ _ E) as Hn. rewrite (variants_of_value _ _ _ E) in *.
    apply value_variants_parse in Hv as [l' Hv]; [|done].
    by apply variants_of_value in Hv.
  - unfold EVMTokenIDKeyVariants, CanonicalEVMTokenID in Hv. rewrite E in Hv.
    by apply list_elem_of_singleton in Hv as ->.
Qed.

Lemma EqualEVMTokenID_variants a b :
  EqualEVMTokenID a b = true -> EVMTokenIDKeyVariants a = EVMTokenIDKeyVariants b.
Proof.
  unfold EqualEVMTokenID. destruct (String.eqb_spec a b) as [->|_]; [done|].
  destruct (parseEVMTokenIDValue a true) as [[na la]|] eqn:Ea; [|done].
  destruct (parseEVMTokenIDValue b true) as [[nb lb]|] eqn:Eb; [|done].
  intros ->%Z.eqb_eq. by rewrite (variants_of_value _ _ _ Ea), (variants_of_value _ _ _ Eb).
Qed.

Lemma EqualEVMTokenID_of_variants a b :
  a ∈ EVMTokenIDKeyVariants b -> EqualEVMTokenID a b = true.
Proof.
  intros Hv. unfold EqualEVMTokenID. destruct (String.eqb_spec a b) as [->|Hne]; [done|].
  destruct (parseEVMTokenIDValue b true) as [[nb lb]|] eqn:Eb.
  - rewrite (variants_of_value _ _ _ Eb) in Hv.
    apply value_variants_parse in Hv as [l ->]; [|by eapply parse_range]. by rewrite Z.eqb_refl.
  - unfold EVMTokenIDKeyVariants, CanonicalEVMTokenID in Hv. rewrite Eb in Hv.
    by apply list_elem_of_singleton in Hv.
Qed.

Lemma CreateTokenID_uint256 `{SdkLaws} i :
  exists n, uint256 n /\ CreateTokenIDFromNFTID i = BigString n.
Proof.
  eexists. split; [|done]. unfold uint256, uint256_bound.
  assert (forall b acc k, (0 <= acc < 2 ^ k)%Z -> (0 <= k)%Z ->
            0 <= SetBytes acc b < 2 ^ (k + 8 * Z.of_nat (len b)))%Z as Hb.
  { induction b as [|a b IH]; intros acc k Ha Hk; simpl SetBytes; simpl len.
    - by rewrite Z.add_0_r.
    - replace (k + 8 * Z.of_nat (S (len b)))%Z with ((k + 8) + 8 * Z.of_nat (len b))%Z by lia.
      apply IH; [|lia]. rewrite Z.pow_add_r by lia.
      assert (0 <= byte_of a < 256)%Z.
      { unfold byte_of. pose proof (N_ascii_bounded a). lia. }
      change (2 ^ 8)%Z with 256%Z. nia. }
  specialize (Hb (sha256_Sum256 (RemoveFirst i (DefaultPrefix +:+ "-"))) 0%Z 0%Z ltac:(lia) ltac:(lia)).
  rewrite sha256_len in Hb. done.
Qed.

(** ** Lemmas: contract addresses *)
Section AddressLemmas.
Context `{EthLaws}.

(** An address the module can key a binding by: a hex address is 0x-prefixed,
    and the string can be the second half of a UID. *)
Definition good_address (a : string) : Prop :=
  a <> "" /\ ContainsByte a "," = false /\
  (IsHexAddress a = true -> HasPrefix (ToLower a) "0x" = true).

Lemma canonical_hex a : IsHexAddress (CanonicalContractAddress a) = IsHexAddress a.
Proof.
  unfold CanonicalContractAddress. destruct (IsHexAddress a) eqn:E; [by rewrite IsHexAddress_lower|done].
Qed.

Lemma canonical_idem a :
  CanonicalContractAddress (CanonicalContractAddress a) = CanonicalContractAddress a.
Proof.
  unfold CanonicalContractAddress at 1. rewrite canonical_hex.
  unfold CanonicalContractAddress. destruct (IsHexAddress a); [apply ToLower_idem|done].
Qed.

Lemma address_variants_hex a :
  IsHexAddress a = true ->
  ContractAddressKeyVariants a =
    if Hex (HexToAddress a) <>?s ToLower a then [ToLower a; Hex (HexToAddress a)] else [ToLower a].
Proof.
  intros E. unfold ContractAddressKeyVariants, ChecksumContractAddress, CanonicalContractAddress.
  by rewrite E.
Qed.

Lemma address_variants_other a :
  IsHexAddress a = false -> ContractAddressKeyVariants a = [a].
Proof.
  intros E. unfold ContractAddressKeyVariants, ChecksumContractAddress, CanonicalContractAddress.
  by rewrite E.
Qed.

Lemma address_variants_head a :
  exists r, ContractAddressKeyVariants a = CanonicalContractAddress a :: r.
Proof.
  unfold ContractAddressKeyVariants. destruct (ChecksumContractAddress a); [case_match|]; eauto.
Qed.

Lemma good_Hex a : good_address (Hex a).
Proof.
  pose proof (IsHexAddress_chars (Hex a) (IsHexAddress_Hex a)) as [H1 H2].
  split; [done|]. split; [done|]. intros _.
  destruct (proj1 (HasPrefix_spec _ _) (Hex_0x a)) as [r Hr]. rewrite Hr.
  rewrite ToLower_app. apply HasPrefix_app.
Qed.

Lemma good_canonical a : good_address a -> good_address (CanonicalContractAddress a).
Proof.
  intros (H1 & H2 & H3). unfold CanonicalContractAddress. destruct (IsHexAddress a) eqn:E; [|split; [done|split; [done|congruence]]].
  assert (IsHexAddress (ToLower a) = true) as E' by (by rewrite IsHexAddress_lower).
  destruct (IsHexAddress_chars _ E') as [Hc Hn]. split; [done|]. split; [done|].
  intros _. rewrite ToLower_idem. auto.
Qed.

Lemma good_variant a v : good_address a -> v ∈ ContractAddressKeyVariants a -> good_address v.
Proof.
  intros Hg. destruct (IsHexAddress a) eqn:E.
  - rewrite address_variants_hex by done.
    assert (ToLower a = CanonicalContractAddress a) as Hl
      by (unfold CanonicalContractAddress; by rewrite E).
    pose proof (good_canonical a Hg) as Hgc. rewrite <- Hl in Hgc.
    case_match; rewrite ?elem_of_cons, ?elem_of_nil; intros Hv; destruct_or? Hv; subst; try done.
    apply good_Hex.
  - rewrite address_variants_other by done. by intros ->%list_elem_of_singleton.
Qed.

(** Every spelling of an address denotes it and has the same spellings. *)
Lemma address_variant_value a v :
  good_address a -> IsHexAddress a = true -> v ∈ ContractAddressKeyVariants a ->
  IsHexAddress v = true /\ HexToAddress v = HexToAddress a /\ ToLower v = ToLower a.
Proof.
  intros (_ & _ & Hg) E. rewrite address_variants_hex by done.
  assert (ToLower (Hex (HexToAddress a)) = ToLower a) as Hs by (apply Hex_spelling; auto).
  case_match; rewrite ?elem_of_cons, ?elem_of_nil; intros Hv; destruct_or? Hv; subst; try done.
  - rewrite IsHexAddress_lower, HexToAddress_lower by done. by rewrite ToLower_idem.
  - rewrite IsHexAddress_Hex, HexToAddress_Hex. done.
  - rewrite IsHexAddress_lower, HexToAddress_lower by done. by rewrite ToLower_idem.
Qed.

Lemma hex_variants_eq a b :
  IsHexAddress a = true -> IsHexAddress b = true -> ToLower a = ToLower b ->
  HexToAddress a = HexToAddress b ->
  ContractAddressKeyVariants a = ContractAddressKeyVariants b.
Proof. intros Ea Eb Hl Hv. rewrite !address_variants_hex by done. by rewrite Hl, Hv. Qed.

Lemma address_variants_shared a v :
  good_address a -> v ∈ ContractAddressKeyVariants a ->
  ContractAddressKeyVariants v = ContractAddressKeyVariants a.
Proof.
  intros Hg Hv. destruct (IsHexAddress a) eqn:E.
  - destruct (address_variant_value a v Hg E Hv) as (Ev & Hval & Hl). by apply hex_variants_eq.
  - rewrite address_variants_other in Hv by done. by apply list_elem_of_singleton in Hv as ->.
Qed.

Lemma EqualContractAddress_variants a b :
  good_address a -> good_address b -> EqualContractAddress a b = true ->
  ContractAddressKeyVariants a = ContractAddressKeyVariants b.
Proof.
  intros (_ & _ & Ga) (_ & _ & Gb). unfold EqualContractAddress.
  destruct (IsHexAddress a) eqn:Ea; [|by intros ->%str_eqb_true].
  destruct (IsHexAddress b) eqn:Eb; [|by intros ->%str_eqb_true].
  simpl. intros Hv%bool_decide_eq_true. apply hex_variants_eq; try done.
  rewrite <- (Hex_spelling a), <- (Hex_spelling b) by auto. by rewrite Hv.
Qed.

Lemma EqualContractAddress_of_variants a b :
  good_address b -> a ∈ ContractAddressKeyVariants b -> EqualContractAddress a b = true.
Proof.
  intros Hg Hv. unfold EqualContractAddress. destruct (IsHexAddress b) eqn:Eb.
  - destruct (address_variant_value b a Hg Eb Hv) as (-> & Hval & _). simpl.
    by apply bool_decide_eq_true.
  - rewrite orb_true_r. rewrite address_variants_other in Hv by done.
    by apply list_elem_of_singleton in Hv as ->; apply str_eqb_true.
Qed.

(** ** Lemmas: the spellings of a forward key *)

Lemma elem_of_key_variants c t u v :
  (u, v) ∈ key_variants c t <->
  exists a, u = CreateTokenUID a v /\ v ∈ EVMTokenIDKeyVariants t /\ a ∈ ContractAddressKeyVariants c.
Proof.
  unfold key_variants. rewrite list_elem_of_In, in_flat_map. split.
  - intros (v' & Hv & Hin). apply in_map_iff in Hin as (a & Ha & Hin). inv Ha.
    exists a. split; [done|]. by rewrite !list_elem_of_In.
  - intros (a & -> & Hv & Ha). exists v. rewrite <- list_elem_of_In. split; [done|].
    apply in_map_iff. exists a. by rewrite <- list_elem_of_In.
Qed.

Lemma key_variants_uids uid t a :
  GetNFTFromUID uid = (t, a) -> t <> "" -> a <> "" ->
  TokenUIDKeyVariants uid = (key_variants a t).*1.
Proof.
  intros Hs Ht Ha. unfold TokenUIDKeyVariants, key_variants. rewrite Hs.
  apply str_eqb_false in Ht, Ha. rewrite Ht, Ha. simpl.
  induction (EVMTokenIDKeyVariants t) as [|v l IH]; [done|]. cbn [flat_map].
  rewrite IH. change (fmap fst) with (map (A:=string*string) (B:=string) fst).
  rewrite map_app, map_map. done.
Qed.

Lemma key_variants_head c t n l :
  parseEVMTokenIDValue t true = Some (n, l) ->
  exists r, key_variants c t = (CreateTokenUID (CanonicalContractAddress c) (BigString n), BigString n) :: r.
Proof.
  intros Hp. unfold key_variants. rewrite (variants_of_value _ _ _ Hp).
  destruct (value_variants_head n) as [r ->]; [by eapply parse_range|].
  destruct (address_variants_head c) as [r' ->]. eexists. done.
Qed.
End AddressLemmas.

(** ** What the identifiers promise *)

(** An NFT UID and a token UID split back into the parts they were made of,
    for every class id the collection module accepts and every 0x contract address,
    even when the NFT id contains commas. *)
Lemma uid_encoding_roundtrip `{EthLaws} cls id a t :
  ValidateDenomID cls = None -> id <> "" -> IsHexAddress a = true -> t <> "" ->
  GetNFTFromUID (CreateNFTUID cls id) = (id, cls) /\ GetNFTFromUID (CreateTokenUID a t) = (t, a) /\
  (forall cls' id', ValidateDenomID cls' = None -> CreateNFTUID cls id = CreateNFTUID cls' id' ->
     cls = cls' /\ id = id').
Proof.
  intros Hc Hi Ha Ht. pose proof (ValidateDenomID_no_comma _ Hc) as Hcc.
  pose proof (ValidateDenomID_nonempty _ Hc) as Hne. destruct (IsHexAddress_chars _ Ha) as [Hac Hane].
  split; [by apply uid_roundtrip|]. split; [by apply uid_roundtrip|].
  intros cls' id' Hc' He. apply uid_inj in He as [-> ->]; [done..|by apply ValidateDenomID_no_comma].
Qed.

(** The spellings of a token id: every accepted id denotes one uint256, its
    canonical form is the base-10 numeral, which new bindings accept; all key
    variants denote the same value, and two ids are equal exactly when their values
    are. *)
Lemma token_id_spellings t n l :
  parseEVMTokenIDValue t true = Some (n, l) ->
  uint256 n /\ CanonicalEVMTokenID t = Some (BigString n, l) /\
  ValidateEVMTokenID (BigString n) = None /\
  (exists r, EVMTokenIDKeyVariants t = BigString n :: r) /\
  (forall v, v ∈ EVMTokenIDKeyVariants t -> ParseEVMTokenID v = Some n) /\
  (forall t', EqualEVMTokenID t t' = true <-> ParseEVMTokenID t' = Some n).
Proof.
  intros Hp. pose proof (parse_range _ _ _ _ Hp) as Hn. split; [done|].
  split; [unfold CanonicalEVMTokenID; by rewrite Hp|].
  split; [unfold ValidateEVMTokenID; by rewrite parse_BigString|].
  split; [rewrite (variants_of_value _ _ _ Hp); by apply value_variants_head|]. split.
  - intros v. rewrite (variants_of_value _ _ _ Hp). intros [l' Hv]%value_variants_parse; [|done].
    unfold ParseEVMTokenID. by rewrite Hv.
  - intros t'. unfold EqualEVMTokenID, ParseEVMTokenID. rewrite Hp.
    destruct (String.eqb_spec t t') as [<-|_]; [by rewrite Hp|].
    destruct (parseEVMTokenIDValue t' true) as [[m l']|]; cbn; [|done].
    rewrite Z.eqb_eq. split; [by intros ->|by intros [= ->]].
Qed.

(** A token id accepted as new is in base 10. *)
Lemma new_id_base10 t n l :
  parseEVMTokenIDValue t false = Some (n, l) -> parseEVMTokenIDValue t true = Some (n, false).
Proof.
  unfold parseEVMTokenIDValue. cbn [andb].
  assert (SetString t 10 <> None -> HasPrefix t "0x" = false /\ HasPrefix t "0X" = false) as Hx.
  { intros Hs. split; apply not_true_is_false; intros (r & ->)%HasPrefix_spec; apply Hs; reflexivity. }
  destruct (SetString t 10) as [m|] eqn:E; [|done]. destruct (Hx ltac:(done)) as [-> ->]. cbn.
  rewrite E. destruct (_ || _); [done|]. by intros [= <- _].
Qed.
