(* ===== verification/Erc721Store.v ===== *)
(** x/erc721/keeper/token_pairs.go, pair.go and params.go: the module's store.
    Reads are functions of the store; writes are functions from store to store;
    the keeper methods other components call run them on the [Ctx]. *)
From S2P Require Import Prelude GoStrings Sdk CollectionTypes Erc721Types.
Open Scope go_scope.

(** The protobuf codec of the two records the store holds. *)
Class Erc721Codec := {
  Marshal_TokenPair : TokenPair -> error + string;
  Unmarshal_TokenPair : string -> error + TokenPair;
  Marshal_Params : Params -> error + string;
  Unmarshal_Params : string -> error + Params;
}.

Class Erc721CodecLaws `{Erc721Codec} : Prop := {
  TokenPair_roundtrip p bz : Marshal_TokenPair p = inr bz -> Unmarshal_TokenPair bz = inr p;
  (** a record with a non-empty field has a non-empty encoding *)
  TokenPair_nonempty p bz : Marshal_TokenPair p = inr bz -> Erc721Address p <> "" -> bz <> "";
  (** the codec calls the generated marshaller of the message *)
  Params_generated p : Marshal_Params p = inr (Params_MarshalToSizedBuffer p);
  Params_roundtrip p : Unmarshal_Params (Params_MarshalToSizedBuffer p) = inr p;
}.

Module Erc721Store.

(** ** Store updates, one per prefix *)
Definition upd_TokenPair (f : gmap string string -> gmap string string) (s : ErcStore) : ErcStore :=
  MkErcStore (f (prefixTokenPair s)) (prefixTokenPairByERC721 s) (prefixTokenPairByClass s)
    (prefixNFTUIDPairByNFTUID s) (prefixNFTUIDPairByTokenUID s)
    (prefixEvmAddressByContractTokenId s) (KeyPrefixParams s).
Definition upd_ByERC721 (f : gmap string string -> gmap string string) (s : ErcStore) : ErcStore :=
  MkErcStore (prefixTokenPair s) (f (prefixTokenPairByERC721 s)) (prefixTokenPairByClass s)
    (prefixNFTUIDPairByNFTUID s) (prefixNFTUIDPairByTokenUID s)
    (prefixEvmAddressByContractTokenId s) (KeyPrefixParams s).
Definition upd_ByClass (f : gmap string string -> gmap string string) (s : ErcStore) : ErcStore :=
  MkErcStore (prefixTokenPair s) (prefixTokenPairByERC721 s) (f (prefixTokenPairByClass s))
    (prefixNFTUIDPairByNFTUID s) (prefixNFTUIDPairByTokenUID s)
    (prefixEvmAddressByContractTokenId s) (KeyPrefixParams s).
Definition upd_Reverse (f : gmap string string -> gmap string string) (s : ErcStore) : ErcStore :=
  MkErcStore (prefixTokenPair s) (prefixTokenPairByERC721 s) (prefixTokenPairByClass s)
    (f (prefixNFTUIDPairByNFTUID s)) (prefixNFTUIDPairByTokenUID s)
    (prefixEvmAddressByContractTokenId s) (KeyPrefixParams s).
Definition upd_Forward (f : gmap string string -> gmap string string) (s : ErcStore) : ErcStore :=
  MkErcStore (prefixTokenPair s) (prefixTokenPairByERC721 s) (prefixTokenPairByClass s)
    (prefixNFTUIDPairByNFTUID s) (f (prefixNFTUIDPairByTokenUID s))
    (prefixEvmAddressByContractTokenId s) (KeyPrefixParams s).
Definition upd_Refund (f : gmap string string -> gmap string string) (s : ErcStore) : ErcStore :=
  MkErcStore (prefixTokenPair s) (prefixTokenPairByERC721 s) (prefixTokenPairByClass s)
    (prefixNFTUIDPairByNFTUID s) (prefixNFTUIDPairByTokenUID s)
    (f (prefixEvmAddressByContractTokenId s)) (KeyPrefixParams s).
Definition upd_Params (v : string) (s : ErcStore) : ErcStore :=
  MkErcStore (prefixTokenPair s) (prefixTokenPairByERC721 s) (prefixTokenPairByClass s)
    (prefixNFTUIDPairByNFTUID s) (prefixNFTUIDPairByTokenUID s)
    (prefixEvmAddressByContractTokenId s) (Some v).

(** Abbreviations for the bidirectional NFT UID index. *)
Notation forward := prefixNFTUIDPairByTokenUID.
Notation reverse := prefixNFTUIDPairByNFTUID.
Notation refunds := prefixEvmAddressByContractTokenId.

Section Store.
Context `{EthLib} `{SdkLib} `{Erc721Codec}.
Implicit Types s : ErcStore.

(** ** Token pairs *)

(** GetTokenPairsWithReport, its healthy records; the corrupt ones are reported
    in Erc721Genesis.v. *)
Definition GetTokenPairs s : list TokenPair :=
  omap (fun kv => match Unmarshal_TokenPair (snd kv) with inr p => Some p | inl _ => None end)
       (kv_iter (prefixTokenPair s)).

(** GetTokenPair; a nil or unknown id and a corrupt record are all "not found" *)
Definition GetTokenPair s (id : string) : option TokenPair :=
  if id =?s "" then None
  else
    let bz := kv_get (prefixTokenPair s) id in
    if bz =?s "" then None
    else match Unmarshal_TokenPair bz with inr p => Some p | inl _ => None end.

Definition SetTokenPair s (tokenPair : TokenPair) : error + ErcStore :=
  match Marshal_TokenPair tokenPair with
  | inl e => inl e
  | inr bz => inr (upd_TokenPair <[GetID tokenPair := bz]> s)
  end.

Definition DeleteTokenPair s (tokenPair : TokenPair) : ErcStore :=
  upd_TokenPair (delete (GetID tokenPair)) s.

(** GetERC721Map: the lowercase key, then the raw 20-byte key of older versions *)
Definition GetERC721Map s (erc721 : address) : string :=
  let val := kv_get (prefixTokenPairByERC721 s) (ToLower (Hex erc721)) in
  if val =?s "" then kv_get (prefixTokenPairByERC721 s) (addr_bytes erc721) else val.

Definition GetClassMap s (classID : string) : string := kv_get (prefixTokenPairByClass s) classID.

Definition SetERC721Map s (erc721 : address) (id : string) : ErcStore :=
  upd_ByERC721 <[ToLower (Hex erc721) := id]> s.

Definition DeleteERC721Map s (erc721 : address) : ErcStore :=
  upd_ByERC721 (delete (ToLower (Hex erc721))) s.

Definition SetClassMap s (classID id : string) : ErcStore := upd_ByClass <[classID := id]> s.

Definition DeleteClassMap s (classID : string) : ErcStore := upd_ByClass (delete classID) s.

Definition GetTokenPairID s (token : string) : string :=
  if IsHexAddress token then GetERC721Map s (HexToAddress token) else GetClassMap s token.

Definition IsTokenPairRegistered s (id : string) : bool := kv_has (prefixTokenPair s) id.

Definition IsERC721Registered s (erc721 : address) : bool :=
  kv_has (prefixTokenPairByERC721 s) (ToLower (Hex erc721))
  || kv_has (prefixTokenPairByERC721 s) (addr_bytes erc721).

Definition IsClassRegistered s (classID : string) : bool := kv_has (prefixTokenPairByClass s) classID.

(** ** pair.go *)

Definition pair_of_id s (id : string) : error + TokenPair :=
  if id =?s "" then inl (ErcErr ErrTokenPairNotFound)
  else match GetTokenPair s id with
       | Some p => inr p
       | None => inl (ErcErr ErrTokenPairNotFound)
       end.

Definition GetPair s (token : string) : error + TokenPair := pair_of_id s (GetTokenPairID s token).
Definition GetPairByClass s (classID : string) : error + TokenPair := pair_of_id s (GetClassMap s classID).
Definition GetPairByEVM s (contract : string) : error + TokenPair :=
  pair_of_id s (GetERC721Map s (HexToAddress contract)).

(** ** The bidirectional NFT UID index *)

Definition GetNFTUIDPairByTokenUID s (tokenUID : string) : string := kv_get (forward s) tokenUID.
Definition GetTokenUIDPairByNFTUID s (nftUID : string) : string := kv_get (reverse s) nftUID.

Definition SetNFTUIDPairByTokenUID s (tokenUID nftUID : string) : ErcStore :=
  upd_Forward <[tokenUID := nftUID]> s.
Definition SetNFTUIDPairByNFTUID s (nftUID tokenUID : string) : ErcStore :=
  upd_Reverse <[nftUID := tokenUID]> s.
Definition DeleteNFTUIDPairByTokenUID s (tokenUID : string) : ErcStore :=
  upd_Forward (delete tokenUID) s.
Definition DeleteNFTUIDPairByNFTUID s (nftUID : string) : ErcStore :=
  upd_Reverse (delete nftUID) s.

Definition SetNFTPairByContractTokenID s (contractAddress tokenID classID nftID : string) : ErcStore :=
  SetNFTUIDPairByTokenUID s (CreateTokenUID contractAddress tokenID) (CreateNFTUID classID nftID).
Definition SetNFTPairByClassNFTID s (classID nftID contractAddress tokenID : string) : ErcStore :=
  SetNFTUIDPairByNFTUID s (CreateNFTUID classID nftID) (CreateTokenUID contractAddress tokenID).
Definition GetNFTPairByClassNFTID s (classID nftID : string) : string :=
  GetTokenUIDPairByNFTUID s (CreateNFTUID classID nftID).
Definition DeleteNFTPairByNFTID s (classID nftID : string) : ErcStore :=
  DeleteNFTUIDPairByNFTUID s (CreateNFTUID classID nftID).

(** ResolveNFTUIDPair: the first spelling with a non-empty value *)
Fixpoint first_stored s (variants : list (string * string)) : string * string :=
  match variants with
  | [] => ("", "")
  | (tokenUID, tokenVariant) :: rest =>
      let stored := GetNFTUIDPairByTokenUID s tokenUID in
      if stored =?s "" then first_stored s rest else (stored, tokenVariant)
  end.

Definition ResolveNFTUIDPair s (contractAddress tokenID : string) : string * string :=
  first_stored s (key_variants contractAddress tokenID).

Definition GetNFTPairByContractTokenID s (contractAddress tokenID : string) : string :=
  fst (ResolveNFTUIDPair s contractAddress tokenID).

(** DeleteNFTPairByTokenID: every spelling *)
Definition DeleteNFTPairByTokenID s (contractAddress tokenID : string) : ErcStore :=
  fold_left (fun s v => DeleteNFTUIDPairByTokenUID s (fst v)) (key_variants contractAddress tokenID) s.

(** The probe loop of SetNFTPairs: the NFT the spellings are bound to, the stale
    keys and the number of spellings found; [None] is ErrNFTMappingConflict. *)
Record Probe := MkProbe { boundNFT : string; staleKeys : list string; foundForms : nat }.

Fixpoint probe_variants s (tokenUID : string) (variants : list (string * string)) (p : Probe)
  : option Probe :=
  match variants with
  | [] => Some p
  | (variantUID, _) :: rest =>
      let stored := GetNFTUIDPairByTokenUID s variantUID in
      if stored =?s "" then probe_variants s tokenUID rest p
      else if negb (boundNFT p =?s "") && (stored <>?s boundNFT p) then None
      else probe_variants s tokenUID rest
             (MkProbe (if boundNFT p =?s "" then stored else boundNFT p)
                (if variantUID <>?s tokenUID then staleKeys p ++ [variantUID] else staleKeys p)
                (S (foundForms p)))
  end.

(** SetNFTPairs: all checks come before the writes. *)
Definition SetNFTPairs s (contractAddress tokenID classID nftID : string) : error + ErcStore :=
  match CanonicalEVMTokenID tokenID with
  | None => inl (SdkErr ErrInvalidRequest)
  | Some (canonicalTokenID, isLegacyTokenID) =>
    let canonicalContract := CanonicalContractAddress contractAddress in
    let tokenUID := CreateTokenUID canonicalContract canonicalTokenID in
    let nftUID := CreateNFTUID classID nftID in
    match probe_variants s tokenUID (key_variants contractAddress canonicalTokenID) (MkProbe "" [] 0) with
    | None => inl (ErcErr ErrNFTMappingConflict)
    | Some p =>
      if negb (boundNFT p =?s "") && (boundNFT p <>?s nftUID) then inl (ErcErr ErrNFTMappingConflict)
      else if (foundForms p =? 0) && isLegacyTokenID then inl (SdkErr ErrInvalidRequest)
      else
        let rev := GetTokenUIDPairByNFTUID s nftUID in
        let '(boundTokenID, boundContract) := GetNFTFromUID rev in
        if negb (rev =?s "") && (rev <>?s tokenUID) &&
           (negb (EqualEVMTokenID boundTokenID canonicalTokenID)
            || negb (EqualContractAddress boundContract canonicalContract))
        then inl (ErcErr ErrNFTMappingConflict)
        else
          let s1 := SetNFTPairByContractTokenID s canonicalContract canonicalTokenID classID nftID in
          let s2 := SetNFTPairByClassNFTID s1 classID nftID canonicalContract canonicalTokenID in
          inr (fold_left DeleteNFTUIDPairByTokenUID (staleKeys p) s2)
    end
  end.

(** ** IBC refund receivers *)

Definition refund_key (evmContractAddress evmTokenId : string) : string :=
  ToLower evmContractAddress +:+ evmTokenId.

Definition SetEvmAddressByContractTokenId s (evmContractAddress evmTokenId evmAddress : string) : ErcStore :=
  upd_Refund <[refund_key evmContractAddress evmTokenId := evmAddress]> s.
Definition GetEvmAddressByContractTokenId s (evmContractAddress evmTokenId : string) : string :=
  kv_get (refunds s) (refund_key evmContractAddress evmTokenId).
Definition DeleteEvmAddressByContractTokenId s (evmContractAddress evmTokenId : string) : ErcStore :=
  upd_Refund (delete (refund_key evmContractAddress evmTokenId)) s.

(** deleteVoucherBindingKeys *)
Definition deleteVoucherBindingKeys s (contract tokenID classID nftID : string) : ErcStore :=
  let s := DeleteNFTPairByTokenID s contract tokenID in
  let s := DeleteNFTPairByNFTID s classID nftID in
  let s := DeleteEvmAddressByContractTokenId s contract tokenID in
  DeleteEvmAddressByContractTokenId s contract nftID.

(** SetEvmRefundReceiver: cosmos ids then EVM ids, skipping "" and repeats *)
Fixpoint set_refund_loop s (contract evmAddress : string) (ids : list string) (seen : gset string)
  : ErcStore :=
  match ids with
  | [] => s
  | id :: rest =>
      if id =?s "" then set_refund_loop s contract evmAddress rest seen
      else if bool_decide (id ∈ seen) then set_refund_loop s contract evmAddress rest seen
      else set_refund_loop (SetEvmAddressByContractTokenId s contract id evmAddress)
             contract evmAddress rest ({[id]} ∪ seen)
  end.

Definition SetEvmRefundReceiver s (evmContractAddress : string)
  (cosmosTokenIds evmTokenIds : list string) (evmAddress : string) : ErcStore :=
  set_refund_loop s (ToLower evmContractAddress) evmAddress (cosmosTokenIds ++ evmTokenIds) ∅.

(** GetEvmRefundReceiver *)
Definition GetEvmRefundReceiver s (evmContractAddress cosmosTokenId evmTokenId : string) : string :=
  let contract := ToLower evmContractAddress in
  let addr := GetEvmAddressByContractTokenId s contract cosmosTokenId in
  if addr <>?s "" then addr
  else if (evmTokenId =?s "") || (evmTokenId =?s cosmosTokenId) then ""
  else GetEvmAddressByContractTokenId s contract evmTokenId.

(** ** params.go *)

Definition GetParams s : Params :=
  match KeyPrefixParams s with
  | None => DefaultParams
  | Some bz =>
      if bz =?s "" then DefaultParams
      else match Unmarshal_Params bz with inr p => p | inl _ => DefaultParams end
  end.

Definition SetParams s (params : Params) : error + ErcStore :=
  match Marshal_Params params with
  | inl e => inl e
  | inr bz => inr (upd_Params bz s)
  end.

Definition GetEnableErc721 s : bool := EnableErc721 (GetParams s).

End Store.

(** ** Keeper methods on the context *)
Section Lift.
Context `{EthLib} `{SdkLib} `{NftKeeper} `{!EvmKeeper} `{!WasmState}.

Definition erc_get {A} (f : ErcStore -> A) : GoM A := gets (fun c => f (c_erc c)).
Definition erc_set (f : ErcStore -> ErcStore) : GoM unit := modify (upd_erc f).
Definition erc_try (f : ErcStore -> error + ErcStore) : GoM unit :=
  fun c => match f (c_erc c) with
           | inr s => Ok tt (set_erc c s)
           | inl e => Err e c
           end.

Lemma erc_try_ok f c u c' :
  erc_try f c = Ok u c' -> exists s, f (c_erc c) = inr s /\ c' = set_erc c s.
Proof. unfold erc_try. destruct (f (c_erc c)); naive_solver. Qed.
End Lift.
End Erc721Store.
Export Erc721Store.
