(* ===== verification/Erc721Pb.v ===== *)
(** x/erc721/types/erc721.pb.go and genesis.pb.go: the generated marshallers of the records
    the module stores.  They read back what they write, and so discharge what the keeper
    assumes of its codec. *)
From S2P Require Import Prelude GoStrings Sdk Proto CollectionTypes Erc721Types Erc721Store.
Import Proto.
Open Scope go_scope.
#[local] Open Scope Z_scope.

Module Erc721Pb.

Definition TokenPair_MarshalToSizedBuffer (m : TokenPair) : string :=
  put_string "010" (Erc721Address m) +:+ put_string "018" (tp_ClassId m).
Definition TokenPair_Size (m : TokenPair) : Z := size_string (Erc721Address m) + size_string (tp_ClassId m).
Definition TokenPair_Marshal (m : TokenPair) : error + string :=
  Marshal (TokenPair_Size m) (TokenPair_MarshalToSizedBuffer m).

Definition TokenPair_field (fieldNum wireType l : Z) (m : TokenPair) (s : string)
  : option (error + (TokenPair * string)) :=
  match fieldNum with
  | 1 => case (read_string "Erc721Address" wireType l s) (fun v => MkTokenPair v (tp_ClassId m))
  | 2 => case (read_string "ClassId" wireType l s) (fun v => MkTokenPair (Erc721Address m) v)
  | _ => None
  end.
Definition TokenPair_Unmarshal : string -> error + TokenPair :=
  Unmarshal "TokenPair" TokenPair_field (MkTokenPair "" "").

Definition Params_Size (m : Params) : Z := size_bool (EnableErc721 m) + size_bool (EnableEVMHook m).
Definition Params_Marshal (m : Params) : error + string :=
  Marshal (Params_Size m) (Params_MarshalToSizedBuffer m).

Definition Params_field (fieldNum wireType l : Z) (m : Params) (s : string) : option (error + (Params * string)) :=
  match fieldNum with
  | 1 => case (read_bool "EnableErc721" wireType s) (fun v => NewParams v (EnableEVMHook m))
  | 2 => case (read_bool "EnableEVMHook" wireType s) (fun v => NewParams (EnableErc721 m) v)
  | _ => None
  end.
Definition Params_Unmarshal : string -> error + Params := Unmarshal "Params" Params_field (NewParams false false).

(** ** Round trips *)

Lemma TokenPair_reads : reads TokenPair_field.
Proof. reads_tac TokenPair_field. Qed.
Lemma TokenPair_len m : TokenPair_Size m < 2 ^ 63 -> slen (TokenPair_MarshalToSizedBuffer m) = TokenPair_Size m.
Proof. unfold TokenPair_Size, TokenPair_MarshalToSizedBuffer. len_tac. Qed.
Lemma TokenPair_inverse m bz : TokenPair_Marshal m = inr bz -> TokenPair_Unmarshal bz = inr m.
Proof.
  intros [Hsize ->]%Marshal_ok. pose proof (TokenPair_len m Hsize) as Hl. unfold TokenPair_Unmarshal, Unmarshal.
  rewrite <- Hl in Hsize. clear Hl. unfold TokenPair_MarshalToSizedBuffer in *.
  fields_tac TokenPair_reads.
  destruct m as [[] []]; reflexivity.
Qed.

Lemma Params_reads : reads Params_field.
Proof. reads_tac Params_field. Qed.
Lemma Params_len m : slen (Params_MarshalToSizedBuffer m) = Params_Size m.
Proof. unfold Params_Size, Params_MarshalToSizedBuffer. len_tac. Qed.
Lemma Params_inverse m : Params_Unmarshal (Params_MarshalToSizedBuffer m) = inr m.
Proof. by destruct m as [[] []]. Qed.
End Erc721Pb.

(** The codec of the keeper. *)
Definition erc721_codec : Erc721Codec := {|
  Marshal_TokenPair := Erc721Pb.TokenPair_Marshal; Unmarshal_TokenPair := Erc721Pb.TokenPair_Unmarshal;
  Marshal_Params := Erc721Pb.Params_Marshal; Unmarshal_Params := Erc721Pb.Params_Unmarshal;
|}.

Lemma erc721_codec_laws : @Erc721CodecLaws erc721_codec.
Proof.
  split.
  - intros p bz. apply Erc721Pb.TokenPair_inverse.
  - intros [[|a addr] c] bz [_ ->]%Marshal_ok Ha; done.
  - intros [[] []]; reflexivity.
  - apply Erc721Pb.Params_inverse.
Qed.
