(* ===== verification/Erc721Index.v ===== *)
(** The bidirectional NFT UID index of x/erc721: the one-to-one invariant
    forward[x] = y <-> reverse[y] = x, stated up to the spellings of token ids
    and contract addresses, and what SetNFTPairs, ResolveNFTUIDPair and the
    delete operations do to it. *)
From S2P Require Import Prelude GoStrings Sdk CollectionTypes Erc721Types Erc721Store.

Section Index.
Context `{EthLaws}.
Implicit Types s : ErcStore.

(** A forward key the module writes, or wrote before v0.4.0: each component is
    in one of its known spellings. *)
Definition wf_key (uid : string) : Prop :=
  exists a t, uid = CreateTokenUID a t /\ t <> "" /\ good_address a /\
    t ∈ EVMTokenIDKeyVariants t /\ a ∈ ContractAddressKeyVariants a.

(** The (token id, contract) value a key denotes, by its canonical spelling. *)
Definition binding (uid : string) : string := default uid (head (TokenUIDKeyVariants uid)).

(** The index invariant. *)
Record index_ok (fwd rev : gmap string string) : Prop := {
  ix_bij t n : fwd !! t = Some n <-> rev !! n = Some t;
  ix_wf t n : fwd !! t = Some n -> wf_key t /\ n <> "";
  ix_one t1 t2 n1 n2 : fwd !! t1 = Some n1 -> fwd !! t2 = Some n2 ->
                       binding t1 = binding t2 -> t1 = t2;
}.

Definition store_ok s : Prop := index_ok (forward s) (reverse s).

(** The spellings of (contract, tokenID) *)
Definition spellings (contract tokenID : string) : list string := (key_variants contract tokenID).*1.

Lemma elem_of_spellings c t u :
  u ∈ spellings c t <->
  exists a v, u = CreateTokenUID a v /\ v ∈ EVMTokenIDKeyVariants t /\ a ∈ ContractAddressKeyVariants c.
Proof.
  unfold spellings. rewrite list_elem_of_fmap. split.
  - intros ([u' v] & -> & Hin). apply elem_of_key_variants in Hin as (a & ? & ? & ?). eauto.
  - intros (a & v & ? & ? & ?). exists (u, v). split; [done|]. apply elem_of_key_variants. eauto.
Qed.

Lemma spellings_ext c1 t1 c2 t2 :
  EVMTokenIDKeyVariants t1 = EVMTokenIDKeyVariants t2 ->
  ContractAddressKeyVariants c1 = ContractAddressKeyVariants c2 ->
  spellings c1 t1 = spellings c2 t2.
Proof. intros E1 E2. unfold spellings, key_variants. by rewrite E1, E2. Qed.

Lemma uid_of_good a t : good_address a -> t <> "" -> GetNFTFromUID (CreateTokenUID a t) = (t, a).
Proof. intros (Ha & Hc & _) Ht. by apply uid_roundtrip. Qed.

(** A spelling of (c, t) has exactly the spellings of (c, t). *)
Lemma spelling_variants c t u :
  good_address c -> t <> "" -> u ∈ spellings c t ->
  TokenUIDKeyVariants u = spellings c t /\ wf_key u.
Proof.
  intros Hc Ht (a & v & -> & Hv & Ha)%elem_of_spellings.
  pose proof (good_variant _ _ Hc Ha) as Hg. pose proof (variants_nonempty _ _ Ht Hv) as Hne.
  pose proof (variants_shared _ _ Hv) as Ev. pose proof (address_variants_shared _ _ Hc Ha) as Ea.
  split.
  - rewrite (key_variants_uids _ v a) by (auto using uid_of_good; apply Hg).
    by apply spellings_ext.
  - exists a, v. rewrite Ev, Ea. done.
Qed.

Lemma spellings_head c t :
  exists r, spellings c t = CreateTokenUID (CanonicalContractAddress c)
                              (default t (head (EVMTokenIDKeyVariants t))) :: r.
Proof.
  unfold spellings, key_variants. destruct (address_variants_head c) as [r ->].
  unfold EVMTokenIDKeyVariants. destruct (CanonicalEVMTokenID t) as [[ct l]|].
  - destruct (LegacyEVMTokenID ct); [case_match|]; eexists; reflexivity.
  - eexists; reflexivity.
Qed.

Lemma spelling_binding c t u :
  good_address c -> t <> "" -> u ∈ spellings c t ->
  binding u = CreateTokenUID (CanonicalContractAddress c) (default t (head (EVMTokenIDKeyVariants t))).
Proof.
  intros Hc Ht Hu. destruct (spelling_variants _ _ _ Hc Ht Hu) as [E _].
  unfold binding. rewrite E. destruct (spellings_head c t) as [r ->]. done.
Qed.

Lemma wf_key_self u : wf_key u -> exists a t, u = CreateTokenUID a t /\ t <> "" /\ good_address a /\
  u ∈ spellings a t.
Proof.
  intros (a & t & -> & Ht & Ha & Hv & Hc). exists a, t. split_and!; try done.
  apply elem_of_spellings. eauto.
Qed.

Lemma head_variant t : default t (head (EVMTokenIDKeyVariants t)) ∈ EVMTokenIDKeyVariants t.
Proof.
  unfold EVMTokenIDKeyVariants. destruct (CanonicalEVMTokenID t) as [[ct l]|]; [|by left].
  destruct (LegacyEVMTokenID ct); [case_match|]; by left.
Qed.

(** A well-formed key that denotes the value of (c, t) is one of its spellings. *)
Lemma binding_spelling c t u u' :
  good_address c -> t <> "" -> u' ∈ spellings c t ->
  wf_key u -> binding u = binding u' -> u ∈ spellings c t.
Proof.
  intros Hc Ht Hu' Hw Hb. apply wf_key_self in Hw as (a & v & Eu & Hv & Ha & Hin).
  rewrite (spelling_binding _ _ _ Ha Hv Hin), (spelling_binding _ _ _ Hc Ht Hu') in Hb.
  destruct (good_canonical _ Ha) as (_ & Ca & _). destruct (good_canonical _ Hc) as (_ & Cc & _).
  apply uid_inj in Hb as [Et Ea]; [|done..].
  rewrite (spellings_ext c t a v); [done| |].
  - rewrite <- (variants_shared _ _ (head_variant t)), <- (variants_shared _ _ (head_variant v)).
    by rewrite Et.
  - destruct (address_variants_head a) as [ra Ra]. destruct (address_variants_head c) as [rc Rc].
    rewrite <- (address_variants_shared a (CanonicalContractAddress a)), Ea by (auto; rewrite Ra; by left).
    symmetry. apply address_variants_shared; [done|]. rewrite Rc. by left.
Qed.

(** ** Deleting a list of forward keys *)

Lemma delete_keys_forward ks s k :
  forward (fold_left DeleteNFTUIDPairByTokenUID ks s) !! k =
  if decide (k ∈ ks) then None else forward s !! k.
Proof.
  revert s. induction ks as [|x ks IH]; intros s; cbn [fold_left].
  - destruct (decide (k ∈ [])) as [Hk|]; [by apply elem_of_nil in Hk|done].
  - rewrite IH. destruct (decide (k ∈ ks)) as [Hk|Hk].
    + rewrite decide_True; [done|by right].
    + destruct (decide (k = x)) as [->|Hne].
      * rewrite decide_True by (by left). apply lookup_delete_eq.
      * rewrite decide_False by (rewrite elem_of_cons; naive_solver). by apply lookup_delete_ne.
Qed.

Lemma delete_keys_rest ks s :
  let s' := fold_left DeleteNFTUIDPairByTokenUID ks s in
  reverse s' = reverse s /\ prefixTokenPair s' = prefixTokenPair s /\
  prefixTokenPairByERC721 s' = prefixTokenPairByERC721 s /\
  prefixTokenPairByClass s' = prefixTokenPairByClass s /\ refunds s' = refunds s /\
  KeyPrefixParams s' = KeyPrefixParams s.
Proof.
  revert s. induction ks as [|x ks IH]; intros s; [done|]. simpl.
  destruct (IH (DeleteNFTUIDPairByTokenUID s x)) as (-> & -> & -> & -> & -> & ->). done.
Qed.

(** ** The probe of SetNFTPairs *)

Lemma kv_get_None (m : gmap string string) k : m !! k = None -> kv_get m k = "".
Proof. unfold kv_get. by intros ->. Qed.

Lemma kv_get_Some (m : gmap string string) k v : m !! k = Some v -> kv_get m k = v.
Proof. unfold kv_get. by intros ->. Qed.

Lemma kv_get_nonempty (m : gmap string string) k : kv_get m k <> "" -> m !! k = Some (kv_get m k).
Proof. unfold kv_get. by destruct (m !! k). Qed.

Lemma probe_absent s u vs p :
  (forall v, v ∈ vs.*1 -> forward s !! v = None) -> probe_variants s u vs p = Some p.
Proof.
  revert p. induction vs as [|[v x] vs IH]; intros p Hv; [done|]. simpl.
  unfold GetNFTUIDPairByTokenUID. rewrite kv_get_None by (apply Hv; by left).
  apply IH. intros w Hw. apply Hv. by right.
Qed.

(** One spelling [v0] is stored, bound to [n0]: the probe returns it. *)
Lemma probe_present s u vs p v0 n0 :
  n0 <> "" -> forward s !! v0 = Some n0 ->
  (forall v n, v ∈ vs.*1 -> forward s !! v = Some n -> v = v0) ->
  boundNFT p = "" \/ boundNFT p = n0 ->
  exists p', probe_variants s u vs p = Some p' /\
    (boundNFT p' = boundNFT p \/ boundNFT p' = n0) /\
    (boundNFT p = n0 -> boundNFT p' = n0) /\
    (forall k, k ∈ staleKeys p' -> k ∈ staleKeys p \/ (k = v0 /\ v0 <> u)) /\
    (v0 ∈ vs.*1 -> boundNFT p' = n0 /\ foundForms p' <> 0 /\ (v0 <> u -> v0 ∈ staleKeys p')) /\
    (foundForms p <> 0 -> foundForms p' <> 0) /\
    (forall k, k ∈ staleKeys p -> k ∈ staleKeys p').
Proof.
  intros Hn0 Hv0. revert p. induction vs as [|[v x] vs IH]; intros p Hu Hp.
  { exists p. split; [done|]. split; [by left|]. split; [done|]. split; [auto|]. split; [|auto].
    intros Hin. by apply elem_of_nil in Hin. }
  assert (forall w n, w ∈ vs.*1 -> forward s !! w = Some n -> w = v0) as Hu'
    by (intros w n Hw; apply Hu; by right).
  simpl. unfold GetNFTUIDPairByTokenUID at 1 2 3. destruct (forward s !! v) as [n|] eqn:Ev.
  - assert (v = v0) as -> by (eapply Hu; [by left|done]).
    assert (n = n0) as -> by congruence. rewrite (kv_get_Some _ _ _ Ev).
    apply str_eqb_false in Hn0 as En0. rewrite En0.
    assert (negb (boundNFT p =?s "") && (n0 <>?s boundNFT p) = false) as ->.
    { destruct Hp as [-> | ->]; [done|]. rewrite String.eqb_refl. simpl. apply andb_false_r. }
    set (q := MkProbe _ _ _).
    assert (boundNFT q = n0) as Hq.
    { subst q. simpl. destruct Hp as [-> | ->]; [done|]. by rewrite En0. }
    destruct (IH q Hu' (or_intror Hq)) as (p' & E & _ & Hb & Hs & _ & Hf & Hk).
    specialize (Hb Hq). exists p'. rewrite E.
    assert (foundForms p' <> 0) by (apply Hf; by subst q).
    split; [done|]. split; [by right|]. split; [done|].
    split.
    { intros k Hin. apply Hs in Hin as [Hin|Hin]; [|by right].
      subst q. simpl in Hin. destruct (v0 <>?s u) eqn:Eu; [|by left].
      apply str_neqb_true in Eu. apply elem_of_app in Hin as [Hin|Hin%list_elem_of_singleton]; auto. }
    split; [|split; [done|]].
    + intros _. split; [done|]. split; [done|]. intros Hne. apply Hk. subst q. simpl.
      apply str_neqb_true in Hne. rewrite Hne. apply elem_of_app. right. by apply list_elem_of_singleton.
    + intros k Hin. apply Hk. subst q. simpl. destruct (v0 <>?s u); [|done]. apply elem_of_app. by left.
  - rewrite (kv_get_None _ _ Ev). simpl.
    destruct (IH p Hu' Hp) as (p' & E & Hb & Hb' & Hs & Hin & Hf & Hk).
    exists p'. rewrite E. split_and!; try done.
    intros Hv0in. apply Hin. apply elem_of_cons in Hv0in as [->|]; [congruence|done].
Qed.

(** ** SetNFTPairs *)

Lemma spelling_unique s c t v1 v2 n1 n2 :
  store_ok s -> good_address c -> t <> "" -> v1 ∈ spellings c t -> v2 ∈ spellings c t ->
  forward s !! v1 = Some n1 -> forward s !! v2 = Some n2 -> v1 = v2.
Proof.
  intros Hs Hc Ht H1 H2 E1 E2. eapply (ix_one _ _ Hs); eauto.
  by rewrite (spelling_binding _ _ _ Hc Ht H1), (spelling_binding _ _ _ Hc Ht H2).
Qed.

Lemma parsed_nonempty t b x : parseEVMTokenIDValue t b = Some x -> t <> "".
Proof. intros Hp ->. by destruct b. Qed.

Lemma spellings_canonical c t n l :
  parseEVMTokenIDValue t true = Some (n, l) -> spellings c (BigString n) = spellings c t.
Proof. intros Hp. apply spellings_ext; [|done]. by rewrite (variants_of_value _ _ _ Hp). Qed.

Lemma canonical_spelling c t n l :
  parseEVMTokenIDValue t true = Some (n, l) ->
  CreateTokenUID (CanonicalContractAddress c) (BigString n) ∈ spellings c t.
Proof.
  intros Hp. unfold spellings. destruct (key_variants_head c t n l Hp) as [r ->]. by left.
Qed.

(** What the probe finds: the spellings are unbound, or exactly one is. *)
Lemma probe_spec s c t u :
  store_ok s -> good_address c -> t <> "" ->
  (probe_variants s u (key_variants c t) (MkProbe "" [] 0) = Some (MkProbe "" [] 0) /\
   (forall v, v ∈ spellings c t -> forward s !! v = None)) \/
  (exists v0 n0 p, probe_variants s u (key_variants c t) (MkProbe "" [] 0) = Some p /\
     v0 ∈ spellings c t /\ forward s !! v0 = Some n0 /\ n0 <> "" /\ boundNFT p = n0 /\
     foundForms p <> 0 /\ (forall k, k ∈ staleKeys p <-> k = v0 /\ v0 <> u) /\
     (forall v, v ∈ spellings c t -> v <> v0 -> forward s !! v = None)).
Proof.
  intros Hs Hc Ht.
  destruct (decide (Exists (fun v => is_Some (forward s !! v)) (spellings c t))) as [He|Hn].
  - right. apply Exists_exists in He as (v0 & Hv0 & [n0 En]).
    destruct (ix_wf _ _ Hs _ _ En) as [_ Hne].
    assert (forall v n, v ∈ spellings c t -> forward s !! v = Some n -> v = v0) as Hu
      by (intros v n Hv En'; exact (spelling_unique s c t v v0 n n0 Hs Hc Ht Hv Hv0 En' En)).
    destruct (probe_present s u (key_variants c t) (MkProbe "" [] 0) v0 n0)
      as (p & Ep & _ & _ & Hst & Hin & _ & _); auto.
    destruct (Hin Hv0) as (Hb & Hf & Hs0).
    exists v0, n0, p. split_and!; try done.
    + intros k. split; [|by intros [-> ?]; auto].
      intros [Hk|Hk]%Hst; [by apply elem_of_nil in Hk|done].
    + intros v Hv Hvn. destruct (forward s !! v) eqn:Ev; [|done]. naive_solver.
  - left. assert (forall v, v ∈ spellings c t -> forward s !! v = None) as Hnone.
    { intros v Hv. destruct (forward s !! v) eqn:Ev; [|done]. exfalso. apply Hn, Exists_exists. eauto. }
    split; [by apply probe_absent|done].
Qed.

(** The reverse entry SetNFTPairs accepts is a spelling of the same token. *)
Lemma reverse_accepted s c t n l nftUID :
  store_ok s -> good_address c -> parseEVMTokenIDValue t true = Some (n, l) ->
  let tokenUID := CreateTokenUID (CanonicalContractAddress c) (BigString n) in
  let rev := GetTokenUIDPairByNFTUID s nftUID in
  negb (rev =?s "") && (rev <>?s tokenUID) &&
    (negb (EqualEVMTokenID (fst (GetNFTFromUID rev)) (BigString n))
     || negb (EqualContractAddress (snd (GetNFTFromUID rev)) (CanonicalContractAddress c))) = false <->
  (forall r, reverse s !! nftUID = Some r -> r ∈ spellings c t).
Proof.
  intros Hs Hc Hp tokenUID rev. pose proof (parsed_nonempty _ _ _ Hp) as Ht.
  pose proof (canonical_spelling c t n l Hp) as Hcan.
  destruct (reverse s !! nftUID) as [r|] eqn:Er; subst rev;
    unfold GetTokenUIDPairByNFTUID; [rewrite (kv_get_Some _ _ _ Er)|by rewrite (kv_get_None _ _ Er)].
  apply (ix_bij _ _ Hs) in Er as Ef. destruct (ix_wf _ _ Hs _ _ Ef) as [Hw _].
  apply wf_key_self in Hw as (a & v & Eu & Hv & Ha & Hin).
  assert (GetNFTFromUID r = (v, a)) as Hsplit by (subst r; by apply uid_of_good).
  rewrite Hsplit. cbn [fst snd].
  assert (r =?s "" = false) as -> by (apply str_eqb_false; subst r; apply uid_nonempty).
  cbn [negb andb]. split.
  - intros Hb r' [= <-]. apply andb_false_iff in Hb as [Hb|Hb].
    + apply str_neqb_false in Hb. by rewrite Hb.
    + apply orb_false_iff in Hb as [Hb1 Hb2].
      apply negb_false_iff in Hb1, Hb2.
      rewrite <- (spellings_canonical c t n l Hp).
      rewrite (spellings_ext c (BigString n) a v); [done| |].
      * symmetry. by apply EqualEVMTokenID_variants.
      * apply EqualContractAddress_variants in Hb2; [|done|by apply good_canonical].
        rewrite Hb2. destruct (address_variants_head c) as [rc Rc].
        symmetry. apply address_variants_shared; [done|]. rewrite Rc. by left.
  - intros Hr. specialize (Hr r eq_refl). apply elem_of_spellings in Hr as (a' & v' & Eu' & Hv' & Ha').
    rewrite Eu in Eu'. destruct Ha as (_ & Ca & _).
    pose proof (good_variant _ _ Hc Ha') as (_ & Ca' & _).
    apply uid_inj in Eu' as [-> ->]; [|done..].
    apply andb_false_iff. right. apply orb_false_iff. split; apply negb_false_iff.
    + apply EqualEVMTokenID_of_variants. by rewrite <- (variants_of_value _ _ _ Hp : _ = EVMTokenIDKeyVariants (BigString n)).
    + apply EqualContractAddress_of_variants; [by apply good_canonical|].
      destruct (address_variants_head c) as [rc Rc].
      rewrite (address_variants_shared c); [done|done|]. rewrite Rc. by left.
Qed.

(** SetNFTPairs succeeds exactly when neither side is bound to something else,
    a legacy spelling only on a binding that exists. *)
Definition bindable s (contract tokenID nftUID : string) : Prop :=
  (forall v n, v ∈ spellings contract tokenID -> forward s !! v = Some n -> n = nftUID) /\
  (forall r, reverse s !! nftUID = Some r -> r ∈ spellings contract tokenID).

(** The store a successful SetNFTPairs leaves. *)
Definition bound_store s (contract tokenID nftUID tokenUID : string) (s' : ErcStore) : Prop :=
  (forall k, forward s' !! k = if decide (k = tokenUID) then Some nftUID
                               else if decide (k ∈ spellings contract tokenID) then None
                               else forward s !! k) /\
  (forall m, reverse s' !! m = if decide (m = nftUID) then Some tokenUID else reverse s !! m) /\
  prefixTokenPair s' = prefixTokenPair s /\
  prefixTokenPairByERC721 s' = prefixTokenPairByERC721 s /\
  prefixTokenPairByClass s' = prefixTokenPairByClass s /\ refunds s' = refunds s /\
  KeyPrefixParams s' = KeyPrefixParams s.

Lemma bound_store_writes s c t n l nftUID stale :
  parseEVMTokenIDValue t true = Some (n, l) ->
  let tokenUID := CreateTokenUID (CanonicalContractAddress c) (BigString n) in
  (forall k, k ∈ stale -> k ∈ spellings c t /\ k <> tokenUID) ->
  (forall k, k ∈ spellings c t -> k <> tokenUID -> k ∉ stale -> forward s !! k = None) ->
  bound_store s c t nftUID tokenUID
    (fold_left DeleteNFTUIDPairByTokenUID stale
       (SetNFTUIDPairByNFTUID (SetNFTUIDPairByTokenUID s tokenUID nftUID) nftUID tokenUID)).
Proof.
  intros Hp tokenUID Hst Hno.
  destruct (delete_keys_rest stale
    (SetNFTUIDPairByNFTUID (SetNFTUIDPairByTokenUID s tokenUID nftUID) nftUID tokenUID))
    as (Er & E1 & E2 & E3 & E4 & E5).
  split; [|split; [|done]].
  - intros k. rewrite delete_keys_forward. cbn [prefixNFTUIDPairByTokenUID SetNFTUIDPairByNFTUID
      SetNFTUIDPairByTokenUID upd_Reverse upd_Forward].
    destruct (decide (k ∈ stale)) as [Hk|Hk].
    + destruct (Hst k Hk) as [H1 H2]. rewrite decide_False by done. by rewrite decide_True.
    + destruct (decide (k = tokenUID)) as [->|Hne]; [by rewrite lookup_insert_eq|].
      rewrite lookup_insert_ne by done. destruct (decide (k ∈ spellings c t)) as [Hv|]; auto.
  - intros m. rewrite Er. cbn. destruct (decide (m = nftUID)) as [->|Hne];
      [by rewrite lookup_insert_eq|by rewrite lookup_insert_ne].
Qed.

Lemma SetNFTPairs_ok s c t cls id s' :
  store_ok s -> good_address c -> SetNFTPairs s c t cls id = inr s' ->
  exists n l, parseEVMTokenIDValue t true = Some (n, l) /\
    bindable s c t (CreateNFTUID cls id) /\
    bound_store s c t (CreateNFTUID cls id) (CreateTokenUID (CanonicalContractAddress c) (BigString n)) s'.
Proof.
  intros Hs Hc. unfold SetNFTPairs.
  destruct (CanonicalEVMTokenID t) as [[ct l]|] eqn:Ec; [|done].
  apply CanonicalEVMTokenID_ok in Ec as (n & Hn & -> & Hp).
  set (nu := CreateNFTUID cls id). set (tu := CreateTokenUID _ (BigString n)).
  pose proof (parsed_nonempty _ _ _ Hp) as Ht. pose proof (BigString_nonempty n (proj1 Hn)) as Hbn.
  pose proof (spellings_canonical c t n l Hp) as Hsp.
  pose proof (proj1 (reverse_accepted s c t n l nu Hs Hc Hp)) as Hrev. fold tu in Hrev.
  intros Hset. exists n, l. split; [done|].
  destruct (GetNFTFromUID (GetTokenUIDPairByNFTUID s nu)) as [bt bc] eqn:Eb. cbn [fst snd] in Hrev.
  destruct (probe_spec s c (BigString n) tu Hs Hc Hbn)
    as [[Ep Hnone]|(v0 & n0 & p & Ep & Hv0 & En0 & Hne & Hbd & Hf & Hst & Hone)];
    rewrite Ep in Hset; rewrite Hsp in *.
  - cbn in Hset. destruct l; [done|]. destruct (_ && _) eqn:Er in Hset; [done|]. injection Hset as <-.
    specialize (Hrev Er). split.
    + split; [intros v m Hv Ev; by rewrite Hnone in Ev|done].
    + apply (bound_store_writes s c t n false nu []); [done| |auto].
      intros k Hk. by apply elem_of_nil in Hk.
  - rewrite Hbd in Hset. apply str_eqb_false in Hne as Hne'. rewrite Hne' in Hset. cbn [negb andb] in Hset.
    destruct (n0 <>?s nu) eqn:En; [done|]. apply str_neqb_false in En. subst n0.
    destruct (foundForms p) eqn:Eff; [done|]. cbn in Hset. destruct (_ && _) eqn:Er in Hset; [done|]. injection Hset as <-.
    specialize (Hrev Er). split.
    + split; [|done]. intros v m Hv Ev. destruct (decide (v = v0)) as [->|Hvn]; [congruence|].
      by rewrite Hone in Ev.
    + apply (bound_store_writes s c t n l nu (staleKeys p)); [done| |].
      * intros k [-> ?]%Hst. done.
      * intros k Hk Hkt Hks. apply Hone; [done|]. intros ->. apply Hks, Hst. done.
Qed.

(** The store a successful SetNFTPairs leaves keeps the index one-to-one. *)
Lemma bound_store_ok s c t n l nu s' :
  store_ok s -> good_address c -> parseEVMTokenIDValue t true = Some (n, l) -> nu <> "" ->
  bindable s c t nu ->
  bound_store s c t nu (CreateTokenUID (CanonicalContractAddress c) (BigString n)) s' -> store_ok s'.
Proof.
  intros Hs Hc Hp Hnu [Hb1 Hb2] (Hf & Hr & _).
  pose proof (parsed_nonempty _ _ _ Hp) as Ht. pose proof (canonical_spelling c t n l Hp) as Hcan.
  set (tu := CreateTokenUID _ _) in *.
  assert (forall k m, forward s' !! k = Some m ->
            (k = tu /\ m = nu) \/ (k ∉ spellings c t /\ forward s !! k = Some m)) as Hinv.
  { intros k m. rewrite Hf. repeat case_decide; naive_solver. }
  split.
  - intros k m. split.
    + intros [[-> ->]|[Hk Ek]]%Hinv; rewrite Hr; [by rewrite decide_True|].
      apply (ix_bij _ _ Hs) in Ek as Er. rewrite decide_False; [done|].
      intros ->. apply Hk. auto.
    + rewrite Hr, Hf. destruct (decide (m = nu)) as [->|Hm].
      { intros [= <-]. by rewrite decide_True. }
      intros Er. apply (ix_bij _ _ Hs) in Er.
      rewrite !decide_False; [done| |]; intros Hk; subst; apply Hm; eauto.
  - intros k m [[-> ->]|[Hk Ek]]%Hinv; [|by eapply ix_wf].
    split; [|done]. by eapply spelling_variants.
  - intros k1 k2 m1 m2 [[-> ->]|[H1 E1]]%Hinv [[-> ->]|[H2 E2]]%Hinv Hbd; try done.
    + exfalso. apply H2. eapply binding_spelling; [..|symmetry; exact Hbd]; try done. by eapply ix_wf.
    + exfalso. apply H1. eapply binding_spelling; [..|exact Hbd]; try done. by eapply ix_wf.
    + by eapply (ix_one _ _ Hs).
Qed.

Lemma SetNFTPairs_iff s c t cls id :
  store_ok s -> good_address c ->
  (exists s', SetNFTPairs s c t cls id = inr s') <->
  exists n l, parseEVMTokenIDValue t true = Some (n, l) /\
    bindable s c t (CreateNFTUID cls id) /\
    (l = true -> exists v m, v ∈ spellings c t /\ forward s !! v = Some m).
Proof.
  intros Hs Hc. unfold SetNFTPairs. set (nu := CreateNFTUID cls id).
  destruct (CanonicalEVMTokenID t) as [[ct l]|] eqn:Ec; cycle 1.
  { unfold CanonicalEVMTokenID in Ec. destruct (parseEVMTokenIDValue t true) as [[]|]; [done|].
    split; [by intros [? ?]|by intros (? & ? & ? & _)]. }
  apply CanonicalEVMTokenID_ok in Ec as (n & Hn & -> & Hp).
  pose proof (BigString_nonempty n (proj1 Hn)) as Hbn.
  pose proof (spellings_canonical c t n l Hp) as Hsp.
  pose proof (reverse_accepted s c t n l nu Hs Hc Hp) as Hrev. cbn zeta in Hrev.
  set (tu := CreateTokenUID _ (BigString n)) in *.
  destruct (GetNFTFromUID (GetTokenUIDPairByNFTUID s nu)) as [bt bc] eqn:Eb. cbn [fst snd] in Hrev.
  destruct (probe_spec s c (BigString n) tu Hs Hc Hbn)
    as [[Ep Hnone]|(v0 & n0 & p & Ep & Hv0 & En0 & Hne & Hbd & Hf & Hst & Hone)];
    rewrite Ep; rewrite Hsp in *.
  - cbn [boundNFT foundForms]. cbn - [spellings]. split.
    + intros [s' Hset]. exists n, l. destruct l; [done|]. destruct (_ && _) eqn:Er in Hset; [done|].
      split; [done|]. split; [|done].
      split; [intros v m Hv Ev; by rewrite Hnone in Ev|by apply Hrev].
    + intros (n' & l' & Hp' & [_ Hb] & Hl). rewrite Hp in Hp'. injection Hp' as <- <-.
      destruct l. { destruct (Hl eq_refl) as (v & m & Hv & Ev). by rewrite Hnone in Ev. }
      rewrite (proj2 Hrev Hb). eauto.
  - rewrite Hbd. apply str_eqb_false in Hne as Hne'. rewrite Hne'. cbn [negb andb].
    destruct (foundForms p) eqn:Eff; [done|]. cbn - [spellings]. split.
    + intros [s' Hset]. destruct (n0 <>?s nu) eqn:En; [done|]. apply str_neqb_false in En. subst n0.
      destruct (_ && _) eqn:Er in Hset; [done|]. exists n, l. split; [done|]. split; [|eauto].
      split; [|by apply Hrev]. intros v m Hv Ev.
      destruct (decide (v = v0)) as [->|Hvn]; [congruence|]. by rewrite Hone in Ev.
    + intros (n' & l' & _ & [Hb1 Hb2] & _). rewrite (Hb1 _ _ Hv0 En0).
      assert (nu <>?s nu = false) as -> by (by apply str_neqb_false).
      rewrite (proj2 Hrev Hb2). eauto.
Qed.

(** C39: in a store whose index satisfies its invariant, and for a contract address that
    is spelled with 0x when it is hex, SetNFTPairs fails only when it must: it succeeds
    exactly when the token id parses, none of the token's spellings (which are those with
    0x) is bound to another NFT and the NFT is bound to no other token, where a legacy 0x
    spelling of the id is accepted only for a token that is already bound. *)
Theorem SetNFTPairs_succeeds_iff s c t cls id :
  store_ok s -> good_address c ->
  (exists s', SetNFTPairs s c t cls id = inr s') <->
  exists n l, parseEVMTokenIDValue t true = Some (n, l) /\
    bindable s c t (CreateNFTUID cls id) /\
    (l = true -> exists v m, v ∈ spellings c t /\ forward s !! v = Some m).
Proof. apply SetNFTPairs_iff. Qed.

(** ** ResolveNFTUIDPair *)

Lemma first_stored_spec s vs :
  (forall v n, v ∈ vs.*1 -> forward s !! v = Some n -> n <> "") ->
  (first_stored s vs = ("", "") /\ forall v, v ∈ vs.*1 -> forward s !! v = None) \/
  (exists u w n, (u, w) ∈ vs /\ forward s !! u = Some n /\ first_stored s vs = (n, w)).
Proof.
  induction vs as [|[u w] vs IH]; intros Hn.
  { left. split; [done|]. intros v Hv. by apply elem_of_nil in Hv. }
  simpl. unfold GetNFTUIDPairByTokenUID. destruct (forward s !! u) as [n|] eqn:Eu.
  - right. exists u, w, n. split; [by left|]. split; [done|]. rewrite (kv_get_Some _ _ _ Eu).
    assert (n <> "") as ->%str_eqb_false by (eapply Hn; [by left|done]). done.
  - rewrite (kv_get_None _ _ Eu). simpl. destruct IH as [[E Hv]|(u' & w' & n & Hin & E & Er)].
    + intros v n Hv. apply Hn. by right.
    + left. split; [done|]. intros v [->|Hin]%elem_of_cons; auto.
    + right. exists u', w', n. split; [by right|done].
Qed.

(** Under the invariant, Resolve answers with the one binding of the value. *)
Lemma Resolve_bound s c t u n :
  store_ok s -> good_address c -> t <> "" -> u ∈ spellings c t -> forward s !! u = Some n ->
  exists w a, ResolveNFTUIDPair s c t = (n, w) /\ w ∈ EVMTokenIDKeyVariants t /\ u = CreateTokenUID a w.
Proof.
  intros Hs Hc Ht Hu En. unfold ResolveNFTUIDPair.
  destruct (first_stored_spec s (key_variants c t)) as [[_ Hv]|(u' & w & n' & Hin & E & Er)].
  - intros v m _ Ev. by eapply ix_wf.
  - by rewrite Hv in En.
  - assert (u' ∈ spellings c t) as Hu'.
    { unfold spellings. apply list_elem_of_fmap. by exists (u', w). }
    assert (u' = u) as -> by (eapply (spelling_unique s c t u' u n' n); eauto).
    apply elem_of_key_variants in Hin as (a & -> & Hw & _). exists w, a.
    rewrite Er. split; [congruence|done].
Qed.

Lemma Resolve_unbound s c t :
  store_ok s -> (forall u, u ∈ spellings c t -> forward s !! u = None) ->
  ResolveNFTUIDPair s c t = ("", "").
Proof.
  intros Hs Hn. unfold ResolveNFTUIDPair.
  destruct (first_stored_spec s (key_variants c t)) as [[E _]|(u & w & n & Hin & E & _)]; [|done|].
  - intros v m _ Ev. by eapply ix_wf.
  - rewrite Hn in E; [done|]. apply list_elem_of_fmap. by exists (u, w).
Qed.

Lemma Resolve_iff s c t n :
  store_ok s -> good_address c -> t <> "" -> n <> "" ->
  GetNFTPairByContractTokenID s c t = n <-> exists u, u ∈ spellings c t /\ forward s !! u = Some n.
Proof.
  intros Hs Hc Ht Hn. unfold GetNFTPairByContractTokenID. split.
  - unfold ResolveNFTUIDPair.
    destruct (first_stored_spec s (key_variants c t)) as [[-> _]|(u & w & m & Hin & E & ->)];
      [intros v m _ Ev; by eapply ix_wf|by intros <-|].
    intros <-. exists u. split; [|done]. apply list_elem_of_fmap. by exists (u, w).
  - intros (u & Hu & E). by destruct (Resolve_bound s c t u n Hs Hc Ht Hu E) as (w & a & -> & _).
Qed.

(** ** Deletes *)

Lemma DeleteNFTPairByTokenID_fold s c t :
  DeleteNFTPairByTokenID s c t = fold_left DeleteNFTUIDPairByTokenUID (spellings c t) s.
Proof.
  unfold DeleteNFTPairByTokenID, spellings. generalize (key_variants c t) as vs. intros vs.
  revert s. induction vs as [|v vs IH]; intros s; [done|]. apply IH.
Qed.

Lemma DeleteNFTPairByTokenID_forward s c t k :
  forward (DeleteNFTPairByTokenID s c t) !! k =
  if decide (k ∈ spellings c t) then None else forward s !! k.
Proof. rewrite DeleteNFTPairByTokenID_fold. apply delete_keys_forward. Qed.

Lemma DeleteNFTPairByTokenID_rest s c t :
  let s' := DeleteNFTPairByTokenID s c t in
  reverse s' = reverse s /\ prefixTokenPair s' = prefixTokenPair s /\
  prefixTokenPairByERC721 s' = prefixTokenPairByERC721 s /\
  prefixTokenPairByClass s' = prefixTokenPairByClass s /\ refunds s' = refunds s /\
  KeyPrefixParams s' = KeyPrefixParams s.
Proof. rewrite DeleteNFTPairByTokenID_fold. apply delete_keys_rest. Qed.

(** Removing both sides of one binding keeps the index one-to-one. *)
Lemma unbind_index fwd rev V nu fwd' rev' :
  index_ok fwd rev ->
  (forall v n, v ∈ V -> fwd !! v = Some n -> n = nu) ->
  (forall r, rev !! nu = Some r -> r ∈ V) ->
  (forall k, fwd' !! k = if decide (k ∈ (V : list string)) then None else fwd !! k) ->
  (forall m, rev' !! m = if decide (m = nu) then None else rev !! m) ->
  index_ok fwd' rev'.
Proof.
  intros Hi Hb1 Hb2 Hf Hr. split.
  - intros k m. rewrite Hf, Hr. split.
    + case_decide as Hk; [done|]. intros Ek. apply (ix_bij _ _ Hi) in Ek as Er.
      rewrite decide_False; [done|]. intros ->. auto.
    + case_decide as Hm; [done|]. intros Er. apply (ix_bij _ _ Hi) in Er.
      rewrite decide_False; [done|]. intros Hk. apply Hm. eauto.
  - intros k m. rewrite Hf. case_decide; [done|]. apply (ix_wf _ _ Hi).
  - intros k1 k2 m1 m2. rewrite !Hf. repeat case_decide; try done. apply (ix_one _ _ Hi).
Qed.

Lemma unbind_ok s c t cls id :
  store_ok s -> bindable s c t (CreateNFTUID cls id) ->
  store_ok (DeleteNFTPairByNFTID (DeleteNFTPairByTokenID s c t) cls id).
Proof.
  intros Hs [Hb1 Hb2]. eapply (unbind_index _ _ (spellings c t) (CreateNFTUID cls id)); [done..| |].
  - intros k. cbn. apply DeleteNFTPairByTokenID_forward.
  - intros m. cbn. destruct (DeleteNFTPairByTokenID_rest s c t) as [-> _].
    case_decide as Hm; [subst; apply lookup_delete_eq|by apply lookup_delete_ne].
Qed.

Lemma deleteVoucherBindingKeys_ok s c t cls id :
  store_ok s -> bindable s c t (CreateNFTUID cls id) ->
  store_ok (deleteVoucherBindingKeys s c t cls id).
Proof. apply unbind_ok. Qed.
End Index.
