(* ===== verification/Erc721Registry.v ===== *)
(** The token-pair registry of x/erc721: the invariant that ties the pair table
    to its two lookup maps, and what registering and purging a pair do to it and
    to the per-token state. *)
From S2P Require Import Prelude GoStrings Sdk CollectionTypes Erc721Types Erc721Store Erc721Index.
From S2P Require Import Erc721Genesis.
Open Scope go_scope.

Section Registry.
Context `{EthLaws} `{!SdkLib} `{!SdkLaws} `{!Erc721Codec} `{!Erc721CodecLaws}.
Implicit Types s : ErcStore.

(** [p] is in the pair table, under its id. *)
Definition registered s (p : TokenPair) : Prop :=
  exists bz, Marshal_TokenPair p = inr bz /\ prefixTokenPair s !! GetID p = Some bz.

(** The address of a pair as NewTokenPair writes it. *)
Definition canonical_pair (p : TokenPair) : Prop :=
  Erc721Address p = ToLower (Hex (GetERC721Contract p)).

(** Every record decodes and sits under its id, and the two lookup maps list
    exactly the registered pairs. *)
Record registry_ok s : Prop := {
  rg_table id bz : prefixTokenPair s !! id = Some bz ->
    exists p, Marshal_TokenPair p = inr bz /\ id = GetID p /\ canonical_pair p;
  rg_class c id : prefixTokenPairByClass s !! c = Some id <->
    exists p, registered s p /\ tp_ClassId p = c /\ GetID p = id;
  rg_erc k id : prefixTokenPairByERC721 s !! k = Some id <->
    exists p, registered s p /\ Erc721Address p = k /\ GetID p = id;
}.

Lemma GetID_nonempty p : GetID p <> "".
Proof. apply tmhash_nonempty. Qed.

Lemma Marshal_inj p q bz : Marshal_TokenPair p = inr bz -> Marshal_TokenPair q = inr bz -> p = q.
Proof. intros Hp%TokenPair_roundtrip Hq%TokenPair_roundtrip. congruence. Qed.

Lemma registered_id s p q : registered s p -> registered s q -> GetID p = GetID q -> p = q.
Proof.
  intros (b1 & M1 & E1) (b2 & M2 & E2) E. rewrite E in E1.
  eapply Marshal_inj; [exact M1|]. congruence.
Qed.

Lemma canonical_nonempty p : canonical_pair p -> Erc721Address p <> "".
Proof.
  intros Hc He. pose proof (Hex_len (GetERC721Contract p)) as Hl.
  apply (f_equal len) in Hc. rewrite He, len_ToLower, Hl in Hc. done.
Qed.

Lemma registered_canonical s p : registry_ok s -> registered s p -> canonical_pair p.
Proof.
  intros Hs (bz & Hm & He). destruct (rg_table _ Hs _ _ He) as (q & Hq & _ & Hc).
  by rewrite (Marshal_inj _ _ _ Hm Hq).
Qed.

Lemma NewTokenPair_canonical a c : canonical_pair (NewTokenPair a c).
Proof.
  unfold canonical_pair, GetERC721Contract, NewTokenPair. cbn.
  by rewrite HexToAddress_lower, HexToAddress_Hex by apply IsHexAddress_Hex.
Qed.

Lemma canonical_of_address p a :
  canonical_pair p -> GetERC721Contract p = a -> Erc721Address p = ToLower (Hex a).
Proof. by intros Hc <-. Qed.

(** ** Lookups *)

Lemma GetTokenPair_registered s p : registry_ok s -> registered s p -> GetTokenPair s (GetID p) = Some p.
Proof.
  intros Hs Hr. pose proof (registered_canonical _ _ Hs Hr) as Hc. destruct Hr as (bz & Hm & He).
  unfold GetTokenPair. pose proof (GetID_nonempty p) as ->%str_eqb_false.
  rewrite (kv_get_Some _ _ _ He).
  pose proof (TokenPair_nonempty _ _ Hm (canonical_nonempty _ Hc)) as ->%str_eqb_false.
  by rewrite (TokenPair_roundtrip _ _ Hm).
Qed.

Lemma GetTokenPair_inv s id p : registry_ok s -> GetTokenPair s id = Some p -> registered s p /\ id = GetID p.
Proof.
  intros Hs. unfold GetTokenPair. destruct (id =?s ""); [done|].
  unfold kv_get. destruct (prefixTokenPair s !! id) as [bz|] eqn:E; [|done].
  destruct (bz =?s ""); [done|]. destruct (rg_table _ Hs _ _ E) as (q & Hm & -> & _).
  rewrite (TokenPair_roundtrip _ _ Hm). intros [= <-]. split; [|done]. by exists bz.
Qed.

Lemma GetPairByClass_registered s p :
  registry_ok s -> registered s p -> GetPairByClass s (tp_ClassId p) = inr p.
Proof.
  intros Hs Hr. unfold GetPairByClass, GetClassMap.
  assert (prefixTokenPairByClass s !! tp_ClassId p = Some (GetID p)) as E by (apply rg_class; eauto).
  rewrite (kv_get_Some _ _ _ E). unfold pair_of_id.
  pose proof (GetID_nonempty p) as ->%str_eqb_false. by rewrite GetTokenPair_registered.
Qed.

Lemma GetPairByClass_inv s c p :
  registry_ok s -> GetPairByClass s c = inr p -> registered s p /\ tp_ClassId p = c.
Proof.
  intros Hs. unfold GetPairByClass, pair_of_id, GetClassMap, kv_get.
  destruct (prefixTokenPairByClass s !! c) as [id|] eqn:E; [|done].
  destruct (id =?s ""); [done|]. destruct (GetTokenPair s id) as [q|] eqn:Eq; [|done].
  intros [= ->]. apply GetTokenPair_inv in Eq as [Hr ->]; [|done].
  apply (rg_class _ Hs) in E as (q & Hq & <- & Hid). split; [done|].
  by rewrite (registered_id _ _ _ Hq Hr Hid).
Qed.

Lemma raw_key_absent s a : registry_ok s -> prefixTokenPairByERC721 s !! addr_bytes a = None.
Proof.
  intros Hs. destruct (_ !! _) as [id|] eqn:E; [|done].
  apply (rg_erc _ Hs) in E as (p & Hr & Hk & _).
  pose proof (registered_canonical _ _ Hs Hr) as Hc. unfold canonical_pair in Hc.
  apply (f_equal len) in Hc. rewrite Hk, len_ToLower, Hex_len in Hc.
  destruct (address_bytes a) as [_ Hl]. congruence.
Qed.

Lemma GetERC721Map_registered s p :
  registry_ok s -> registered s p -> GetERC721Map s (GetERC721Contract p) = GetID p.
Proof.
  intros Hs Hr. pose proof (registered_canonical _ _ Hs Hr) as Hc.
  assert (prefixTokenPairByERC721 s !! ToLower (Hex (GetERC721Contract p)) = Some (GetID p)) as E.
  { rewrite <- Hc. apply rg_erc; eauto. }
  unfold GetERC721Map. rewrite (kv_get_Some _ _ _ E).
  by pose proof (GetID_nonempty p) as ->%str_eqb_false.
Qed.

Lemma GetPairByEVM_registered s p a :
  registry_ok s -> registered s p -> HexToAddress a = GetERC721Contract p -> GetPairByEVM s a = inr p.
Proof.
  intros Hs Hr Ha. unfold GetPairByEVM. rewrite Ha, GetERC721Map_registered by done.
  unfold pair_of_id. pose proof (GetID_nonempty p) as ->%str_eqb_false.
  by rewrite GetTokenPair_registered.
Qed.

Lemma GetERC721Map_inv s a :
  registry_ok s -> GetERC721Map s a <> "" ->
  exists p, registered s p /\ GetERC721Contract p = a /\ GetID p = GetERC721Map s a.
Proof.
  intros Hs. unfold GetERC721Map. rewrite (kv_get_None _ _ (raw_key_absent s a Hs)).
  unfold kv_get. destruct (prefixTokenPairByERC721 s !! ToLower (Hex a)) as [id|] eqn:E; [|done].
  destruct (id =?s ""); [done|]. intros _.
  apply (rg_erc _ Hs) in E as (p & Hr & Hk & Hid). exists p. split; [done|]. split; [|done].
  unfold GetERC721Contract. rewrite Hk, HexToAddress_lower by apply IsHexAddress_Hex.
  apply HexToAddress_Hex.
Qed.

Lemma GetPairByEVM_inv s a p :
  registry_ok s -> GetPairByEVM s a = inr p -> registered s p /\ GetERC721Contract p = HexToAddress a.
Proof.
  intros Hs. unfold GetPairByEVM, pair_of_id. destruct (_ =?s "") eqn:E0; [done|].
  apply str_eqb_false in E0. destruct (GetTokenPair s _) as [q|] eqn:Eq; [|done]. intros [= ->].
  apply GetTokenPair_inv in Eq as [Hr Hid]; [|done].
  apply GetERC721Map_inv in E0 as (q & Hq & Ha & Hid'); [|done].
  split; [done|]. rewrite <- Ha. f_equal. apply (registered_id s); [done..|congruence].
Qed.

(** ** Registering a pair *)

(** SetTokenPair, SetClassMap and SetERC721Map, as the register paths and
    InitGenesis call them. *)
Definition register s (p : TokenPair) (bz : string) : ErcStore :=
  SetERC721Map (SetClassMap (upd_TokenPair <[GetID p := bz]> s) (tp_ClassId p) (GetID p))
    (GetERC721Contract p) (GetID p).

Lemma register_registered s p bz q :
  Marshal_TokenPair p = inr bz -> prefixTokenPair s !! GetID p = None ->
  registered (register s p bz) q <-> q = p \/ registered s q.
Proof.
  intros Hm Hn. unfold registered. cbn. split.
  - intros (b & Hb & E). destruct (decide (GetID q = GetID p)) as [Hid|Hid].
    + rewrite Hid, lookup_insert_eq in E. left. eapply Marshal_inj; [exact Hb|]. congruence.
    + rewrite lookup_insert_ne in E by done. right. eauto.
  - intros [->|(b & Hb & E)].
    + exists bz. by rewrite lookup_insert_eq.
    + exists b. rewrite lookup_insert_ne; [done|]. congruence.
Qed.

Lemma register_ok s p bz :
  registry_ok s -> canonical_pair p -> Marshal_TokenPair p = inr bz ->
  prefixTokenPair s !! GetID p = None ->
  prefixTokenPairByClass s !! tp_ClassId p = None ->
  prefixTokenPairByERC721 s !! Erc721Address p = None ->
  registry_ok (register s p bz).
Proof.
  intros Hs Hc Hm Hn Hcl He. pose proof (fun q => register_registered s p bz q Hm Hn) as Hreg.
  split.
  - intros id b. cbn. destruct (decide (id = GetID p)) as [->|Hne].
    + rewrite lookup_insert_eq. intros [= <-]. eauto.
    + rewrite lookup_insert_ne by done. apply (rg_table _ Hs).
  - intros c id. setoid_rewrite Hreg. cbn. destruct (decide (c = tp_ClassId p)) as [->|Hne].
    + rewrite lookup_insert_eq. split; [intros [= <-]; eauto|].
      intros (q & [->|Hq] & Eq & <-); [done|].
      assert (prefixTokenPairByClass s !! tp_ClassId p = Some (GetID q)) by (apply rg_class; eauto).
      congruence.
    + rewrite lookup_insert_ne by done. rewrite (rg_class _ Hs). naive_solver.
  - intros k id. setoid_rewrite Hreg. cbn. rewrite <- Hc.
    destruct (decide (k = Erc721Address p)) as [->|Hne].
    + rewrite lookup_insert_eq. split; [intros [= <-]; eauto|].
      intros (q & [->|Hq] & Eq & <-); [done|].
      assert (prefixTokenPairByERC721 s !! Erc721Address p = Some (GetID q)) by (apply rg_erc; eauto).
      congruence.
    + rewrite lookup_insert_ne by done. rewrite (rg_erc _ Hs). naive_solver.
Qed.

(** The registry only depends on its three prefixes. *)
Lemma registry_ext s s' :
  prefixTokenPair s' = prefixTokenPair s ->
  prefixTokenPairByERC721 s' = prefixTokenPairByERC721 s ->
  prefixTokenPairByClass s' = prefixTokenPairByClass s -> registry_ok s -> registry_ok s'.
Proof.
  intros E1 E2 E3 [A B C]. split; unfold registered; rewrite ?E1, ?E2, ?E3; done.
Qed.

Lemma registered_ext s s' p :
  prefixTokenPair s' = prefixTokenPair s -> registered s p -> registered s' p.
Proof. unfold registered. by intros ->. Qed.
End Registry.
