(* ===== verification/Erc721Purge.v ===== *)
(** PurgeTokenPair and DeletePairPerTokenState (genesis_export.go): the purge
    removes exactly the state of its pair, keeps both invariants, and a second
    purge changes nothing. *)
From S2P Require Import Prelude GoStrings Sdk CollectionTypes Erc721Types Erc721Store Erc721Index.
From S2P Require Import Erc721Genesis Erc721Registry.
Open Scope go_scope.

Section Purge.
Context `{EthLaws} `{!SdkLib} `{!SdkLaws} `{!Erc721Codec} `{!Erc721CodecLaws}.
Implicit Types s : ErcStore.

(** Everything outside the UID index is the same. *)
Definition index_only s s' : Prop :=
  prefixTokenPair s' = prefixTokenPair s /\
  prefixTokenPairByERC721 s' = prefixTokenPairByERC721 s /\
  prefixTokenPairByClass s' = prefixTokenPairByClass s /\
  refunds s' = refunds s /\ KeyPrefixParams s' = KeyPrefixParams s.

#[global] Instance index_only_preorder : PreOrder index_only.
Proof.
  split; [intros s; by split_and!|].
  intros s1 s2 s3 (? & ? & ? & ? & ?) (? & ? & ? & ? & ?). split_and!; congruence.
Qed.

(** One deletion of each sweep. *)
Definition drop_forward s (tokenUID : string) : ErcStore :=
  let nftUID := GetNFTUIDPairByTokenUID s tokenUID in
  let s := DeleteNFTUIDPairByTokenUID s tokenUID in
  if nftUID <>?s "" then DeleteNFTUIDPairByNFTUID s nftUID else s.
Definition drop_reverse s (nftUID : string) : ErcStore :=
  let tokenUID := GetTokenUIDPairByNFTUID s nftUID in
  let s := DeleteNFTUIDPairByNFTUID s nftUID in
  if tokenUID <>?s "" then DeleteNFTUIDPairByTokenUID s tokenUID else s.

Lemma delete_lookup (m : gmap string string) x k :
  delete x m !! k = if decide (k = x) then None else m !! k.
Proof. case_decide as E; [subst; apply lookup_delete_eq|by apply lookup_delete_ne]. Qed.

Lemma drop_forward_forward s x k :
  forward (drop_forward s x) !! k = if decide (k = x) then None else forward s !! k.
Proof. unfold drop_forward. rewrite <- delete_lookup. by destruct (_ <>?s _). Qed.

Lemma drop_forward_only s x : index_only s (drop_forward s x).
Proof. unfold drop_forward. by destruct (_ <>?s _). Qed.

Lemma drop_reverse_reverse s x k :
  reverse (drop_reverse s x) !! k = if decide (k = x) then None else reverse s !! k.
Proof. unfold drop_reverse. rewrite <- delete_lookup. by destruct (_ <>?s _). Qed.

Lemma drop_reverse_only s x : index_only s (drop_reverse s x).
Proof. unfold drop_reverse. by destruct (_ <>?s _). Qed.

Lemma drop_forward_ok s x : store_ok s -> store_ok (drop_forward s x).
Proof.
  intros Hs. unfold drop_forward, GetNFTUIDPairByTokenUID.
  destruct (forward s !! x) as [n|] eqn:E.
  - rewrite (kv_get_Some _ _ _ E). destruct (ix_wf _ _ Hs _ _ E) as [_ Hn].
    apply str_neqb_true in Hn. rewrite Hn.
    apply (unbind_index (forward s) (reverse s) [x] n); [done| | | |].
    + intros v m ->%list_elem_of_singleton. congruence.
    + intros r Hr. apply list_elem_of_singleton. apply (ix_bij _ _ Hs) in E. congruence.
    + intros k. cbn. rewrite delete_lookup.
      repeat case_decide; try done; exfalso; set_solver.
    + intros m. cbn. apply delete_lookup.
  - rewrite (kv_get_None _ _ E). cbn. unfold store_ok. cbn. by rewrite delete_id.
Qed.

Lemma drop_reverse_ok s x : store_ok s -> store_ok (drop_reverse s x).
Proof.
  intros Hs. unfold drop_reverse, GetTokenUIDPairByNFTUID.
  destruct (reverse s !! x) as [k0|] eqn:E.
  - rewrite (kv_get_Some _ _ _ E). apply (ix_bij _ _ Hs) in E as Ef.
    assert (k0 <> "") as Hk.
    { destruct (ix_wf _ _ Hs _ _ Ef) as [(a & t & -> & _) _]. apply uid_nonempty. }
    apply str_neqb_true in Hk. rewrite Hk.
    apply (unbind_index (forward s) (reverse s) [k0] x); [done| | | |].
    + intros v m ->%list_elem_of_singleton. congruence.
    + intros r Hr. apply list_elem_of_singleton. congruence.
    + intros k. cbn. rewrite delete_lookup.
      repeat case_decide; try done; exfalso; set_solver.
    + intros m. cbn. apply delete_lookup.
  - rewrite (kv_get_None _ _ E). cbn. unfold store_ok. cbn. by rewrite delete_id.
Qed.

(** Folding a sweep over its keys. *)
Lemma drop_forwards ks s :
  let s' := fold_left drop_forward ks s in
  (forall k, forward s' !! k = if decide (k ∈ ks) then None else forward s !! k) /\
  index_only s s' /\ (store_ok s -> store_ok s') /\
  (forall m, reverse s !! m = None -> reverse s' !! m = None).
Proof.
  revert s. induction ks as [|x ks IH]; intros s; cbn [fold_left].
  - split; [|split; [reflexivity|done]]. intros k. case_decide as Hk; [by apply elem_of_nil in Hk|done].
  - destruct (IH (drop_forward s x)) as (Hf & Ho & Hok & Hr). split; [|split; [|split]].
    + intros k. rewrite Hf, drop_forward_forward. repeat case_decide; try done; exfalso; set_solver.
    + etransitivity; [apply drop_forward_only|done].
    + intros Hs. by apply Hok, drop_forward_ok.
    + intros m Hm. apply Hr. unfold drop_forward. destruct (_ <>?s _); [|done].
      cbn. rewrite delete_lookup. by case_decide.
Qed.

Lemma drop_reverses ks s :
  let s' := fold_left drop_reverse ks s in
  (forall k, reverse s' !! k = if decide (k ∈ ks) then None else reverse s !! k) /\
  index_only s s' /\ (store_ok s -> store_ok s') /\
  (forall m, forward s !! m = None -> forward s' !! m = None).
Proof.
  revert s. induction ks as [|x ks IH]; intros s; cbn [fold_left].
  - split; [|split; [reflexivity|done]]. intros k. case_decide as Hk; [by apply elem_of_nil in Hk|done].
  - destruct (IH (drop_reverse s x)) as (Hf & Ho & Hok & Hr). split; [|split; [|split]].
    + intros k. rewrite Hf, drop_reverse_reverse. repeat case_decide; try done; exfalso; set_solver.
    + etransitivity; [apply drop_reverse_only|done].
    + intros Hs. by apply Hok, drop_reverse_ok.
    + intros m Hm. apply Hr. unfold drop_reverse. destruct (_ <>?s _); [|done].
      cbn. rewrite delete_lookup. by case_decide.
Qed.

Lemma elem_of_keys (m : gmap string string) (P : string -> Prop) `{!forall x, Decision (P x)} k :
  k ∈ filter P (kv_iter m).*1 <-> P k /\ is_Some (m !! k).
Proof.
  rewrite list_elem_of_filter, list_elem_of_fmap. split.
  - intros (HP & [k' v] & -> & Hin). apply elem_of_kv_iter in Hin. eauto.
  - intros (HP & v & Hv). split; [done|]. exists (k, v). by rewrite elem_of_kv_iter.
Qed.

(** The bindings of a pair: by contract or by class. *)
Definition of_pair (p : TokenPair) (tokenUID nftUID : string) : Prop :=
  EqualFold (snd (GetNFTFromUID tokenUID)) (Erc721Address p) = true \/
  snd (GetNFTFromUID nftUID) = tp_ClassId p.

Lemma sweep_forward_spec s a :
  let s' := sweep_forward s a in
  (forall k, forward s' !! k = if EqualFold (snd (GetNFTFromUID k)) a then None else forward s !! k) /\
  index_only s s' /\ (store_ok s -> store_ok s') /\
  (forall m, reverse s !! m = None -> reverse s' !! m = None).
Proof.
  destruct (drop_forwards (filter (fun k => EqualFold (snd (GetNFTFromUID k)) a = true)
    (kv_iter (forward s)).*1) s) as (Hf & Hrest). split; [|exact Hrest].
  intros k. etransitivity; [apply Hf|].
  destruct (EqualFold (snd (GetNFTFromUID k)) a) eqn:E; case_decide as Hk.
  - done.
  - destruct (forward s !! k) eqn:Ek; [|done]. exfalso. apply Hk, elem_of_keys. eauto.
  - apply elem_of_keys in Hk as [Hk _]. congruence.
  - done.
Qed.

Lemma sweep_reverse_spec s cls :
  let s' := sweep_reverse s cls in
  (forall m, reverse s' !! m = if decide (snd (GetNFTFromUID m) = cls) then None else reverse s !! m) /\
  index_only s s' /\ (store_ok s -> store_ok s') /\
  (forall k, forward s !! k = None -> forward s' !! k = None).
Proof.
  destruct (drop_reverses (filter (fun k => snd (GetNFTFromUID k) = cls)
    (kv_iter (reverse s)).*1) s) as (Hf & Hrest). split; [|exact Hrest].
  intros k. etransitivity; [apply Hf|].
  destruct (decide (snd (GetNFTFromUID k) = cls)) as [E|E]; case_decide as Hk; try done.
  - destruct (reverse s !! k) eqn:Ek; [|done]. exfalso. apply Hk, elem_of_keys. eauto.
  - by apply elem_of_keys in Hk as [Hk _].
Qed.

Lemma sweep_refunds_spec s a :
  let s' := sweep_refunds s a in
  (forall k, refunds s' !! k = if HasPrefix (ToLower k) a then None else refunds s !! k) /\
  forward s' = forward s /\ reverse s' = reverse s /\
  prefixTokenPair s' = prefixTokenPair s /\ prefixTokenPairByERC721 s' = prefixTokenPairByERC721 s /\
  prefixTokenPairByClass s' = prefixTokenPairByClass s /\ KeyPrefixParams s' = KeyPrefixParams s.
Proof.
  unfold sweep_refunds.
  assert (forall ks s, let s' := fold_left (fun s key => upd_Refund (delete key) s) ks s in
    (forall k, refunds s' !! k = if decide (k ∈ ks) then None else refunds s !! k) /\
    forward s' = forward s /\ reverse s' = reverse s /\
    prefixTokenPair s' = prefixTokenPair s /\ prefixTokenPairByERC721 s' = prefixTokenPairByERC721 s /\
    prefixTokenPairByClass s' = prefixTokenPairByClass s /\ KeyPrefixParams s' = KeyPrefixParams s)
    as Hfold.
  { clear s. induction ks as [|x ks IH]; intros s; cbn [fold_left].
    - split; [|done]. intros k. case_decide as Hk; [by apply elem_of_nil in Hk|done].
    - destruct (IH (upd_Refund (delete x) s)) as (Hf & Hrest). split; [|exact Hrest].
      intros k. rewrite Hf. cbn. rewrite delete_lookup. repeat case_decide; try done; exfalso; set_solver. }
  destruct (Hfold (filter (fun k => HasPrefix (ToLower k) a = true) (kv_iter (refunds s)).*1) s)
    as (Hf & Hrest). split; [|exact Hrest].
  intros k. rewrite Hf. destruct (HasPrefix (ToLower k) a) eqn:E; case_decide as Hk; try done.
  - destruct (refunds s !! k) eqn:Ek; [|done]. exfalso. apply Hk, elem_of_keys. eauto.
  - apply elem_of_keys in Hk as [Hk _]. congruence.
Qed.

(** The per-token state left after DeletePairPerTokenState. *)
Lemma DeletePair_index s p :
  store_ok s ->
  let s' := DeletePairPerTokenState s p in
  store_ok s' /\
  (forall k n, forward s' !! k = Some n <-> forward s !! k = Some n /\ ~ of_pair p k n).
Proof.
  intros Hs. unfold DeletePairPerTokenState.
  destruct (sweep_forward_spec s (Erc721Address p)) as (F1 & _ & O1 & _). specialize (O1 Hs).
  set (s1 := sweep_forward s _) in *.
  destruct (sweep_reverse_spec s1 (tp_ClassId p)) as (F2 & _ & O2 & _). specialize (O2 O1).
  set (s2 := sweep_reverse s1 _) in *.
  destruct (sweep_refunds_spec s2 (ToLower (Erc721Address p))) as (_ & E1 & E2 & _).
  set (s3 := sweep_refunds s2 _) in *.
  split; [unfold store_ok; by rewrite E1, E2|]. intros k n. rewrite E1.
  rewrite (ix_bij _ _ O2), F2. unfold of_pair. split.
  - case_decide as Hc; [done|]. intros Hr. apply (ix_bij _ _ O1) in Hr. rewrite F1 in Hr.
    destruct (EqualFold _ _); [done|]. split; [done|]. intros [?|?]; done.
  - intros [Hf Hn]. rewrite decide_False by tauto. apply (ix_bij _ _ O1). rewrite F1.
    destruct (EqualFold _ _); [tauto|done].
Qed.

Lemma DeletePair_rest s p :
  let s' := DeletePairPerTokenState s p in
  prefixTokenPair s' = prefixTokenPair s /\ prefixTokenPairByERC721 s' = prefixTokenPairByERC721 s /\
  prefixTokenPairByClass s' = prefixTokenPairByClass s /\ KeyPrefixParams s' = KeyPrefixParams s /\
  (forall k, refunds s' !! k =
     if HasPrefix (ToLower k) (ToLower (Erc721Address p)) then None else refunds s !! k).
Proof.
  unfold DeletePairPerTokenState.
  destruct (sweep_forward_spec s (Erc721Address p)) as (_ & (A1 & A2 & A3 & A4 & A5) & _).
  set (s1 := sweep_forward s _) in *.
  destruct (sweep_reverse_spec s1 (tp_ClassId p)) as (_ & (B1 & B2 & B3 & B4 & B5) & _).
  set (s2 := sweep_reverse s1 _) in *.
  destruct (sweep_refunds_spec s2 (ToLower (Erc721Address p))) as (C & _ & _ & C1 & C2 & C3 & C4).
  split_and!; [congruence..|]. intros k. rewrite C, B4, A4. done.
Qed.

(** ** The registry after a purge *)

Lemma purge_registered s p q :
  registry_ok s -> registered s p ->
  registered (PurgeTokenPair s p) q <-> registered s q /\ q <> p.
Proof.
  intros Hs Hp. unfold registered at 1. cbn. destruct (DeletePair_rest s p) as (-> & _).
  setoid_rewrite delete_lookup. split.
  - intros (bz & Hm & E). case_decide as Hid; [done|]. split; [by exists bz|]. by intros ->.
  - intros [(bz & Hm & E) Hne]. exists bz. split; [done|]. rewrite decide_False; [done|].
    intros Hid. apply Hne. apply (registered_id s); [by exists bz|done..].
Qed.

Lemma purge_registry_ok s p :
  registry_ok s -> registered s p -> registry_ok (PurgeTokenPair s p).
Proof.
  intros Hs Hp. pose proof (registered_canonical _ _ Hs Hp) as Hc.
  pose proof (fun q => purge_registered s p q Hs Hp) as Hreg.
  destruct (DeletePair_rest s p) as (E1 & E2 & E3 & _). split.
  - intros id bz. cbn. rewrite E1, delete_lookup. case_decide; [done|]. apply (rg_table _ Hs).
  - intros c id. setoid_rewrite Hreg. cbn. rewrite E3, delete_lookup. case_decide as Hcl.
    + subst c. split; [done|]. intros (q & [Hq Hne] & Eq & _). exfalso. apply Hne.
      pose proof (GetPairByClass_registered _ _ Hs Hq) as G1.
      pose proof (GetPairByClass_registered _ _ Hs Hp) as G2. rewrite Eq in G1. congruence.
    + rewrite (rg_class _ Hs). split; intros (q & Hq & Eq & Hid); exists q; [|tauto].
      split; [|done]. split; [done|]. by intros ->.
  - intros k id. setoid_rewrite Hreg. cbn. rewrite E2, <- Hc, delete_lookup. case_decide as Hk.
    + subst k. split; [done|]. intros (q & [Hq Hne] & Eq & _). exfalso. apply Hne.
      apply (registered_id s); [done..|].
      rewrite <- (GetERC721Map_registered s q), <- (GetERC721Map_registered s p) by done.
      unfold GetERC721Contract. by rewrite Eq.
    + rewrite (rg_erc _ Hs). split; intros (q & Hq & Eq & Hid); exists q; [|tauto].
      split; [|done]. split; [done|]. by intros ->.
Qed.

Lemma purge_store_ok s p : store_ok s -> store_ok (PurgeTokenPair s p).
Proof. intros Hs. by destruct (DeletePair_index s p Hs). Qed.

Lemma purge_forward s p k n :
  store_ok s ->
  forward (PurgeTokenPair s p) !! k = Some n <-> forward s !! k = Some n /\ ~ of_pair p k n.
Proof. intros Hs. by destruct (DeletePair_index s p Hs) as [_ Hf]. Qed.

Lemma purge_reverse s p n t :
  store_ok s -> reverse (PurgeTokenPair s p) !! n = Some t -> reverse s !! n = Some t.
Proof.
  intros Hs Hr. pose proof (purge_store_ok s p Hs) as Hs'. apply (ix_bij _ _ Hs).
  apply (ix_bij _ _ Hs'), (purge_forward s p t n Hs) in Hr. apply Hr.
Qed.
End Purge.
