(* ===== verification/Erc721Export.v ===== *)
(** Genesis export and import of x/erc721: what the export selects, that the
    import accepts it, and that importing an export restores the store. *)
From S2P Require Import Prelude GoStrings Sdk CollectionTypes Erc721Types Erc721Store Erc721Index.
From S2P Require Import Erc721Genesis Erc721Registry.
Open Scope go_scope.
Open Scope list_scope.

Lemma check_else_None (b : bool) e k : then_check (if b then None else Some e) k = None <-> b = true /\ k = None.
Proof. rewrite then_check_None. destruct b; naive_solver. Qed.

(** ** The UID pairs *)
Section ExportIndex.
Context `{FmtLib}.

(** The entries of the reverse index the export keeps. *)
Definition exportable (reg : list TokenPair) (fwd : gmap string string) (e : string * string) : bool :=
  bool_decide (fwd !! snd e = Some (fst e)) && UIDBelongsToRegisteredPair (snd e) (fst e) reg.

Definition mk_pair (e : string * string) : NFTUIDPair := MkNFTUIDPair (snd e) (fst e).

Lemma filter_delete reg (es : list (string * string)) (fwd : gmap string string) n t :
  n ∉ es.*1 -> fwd !! t = Some n ->
  List.filter (exportable reg (delete t fwd)) es = List.filter (exportable reg fwd) es.
Proof.
  intros Hn Ht. apply filter_ext_in. intros [n' t'] Hin%list_elem_of_In. unfold exportable. cbn.
  f_equal. apply bool_decide_ext. destruct (decide (t' = t)) as [->|Hne]; [|by rewrite lookup_delete_ne].
  rewrite lookup_delete_eq, Ht. split; [done|]. intros [= ->]. exfalso. apply Hn.
  apply list_elem_of_fmap. by exists (n', t).
Qed.

Lemma export_reverse_spec reg es fwd pairs issues fwd' pairs' issues' :
  NoDup es.*1 -> export_reverse reg es fwd pairs issues = (fwd', pairs', issues') ->
  pairs' = pairs ++ (mk_pair <$> List.filter (exportable reg fwd) es) /\
  (forall k n, fwd' !! k = Some n <-> fwd !! k = Some n /\ (n, k) ∉ es) /\
  (issues' = [] <-> issues = [] /\ forall e, e ∈ es -> exportable reg fwd e = true).
Proof.
  revert fwd pairs issues. induction es as [|[n t] es IH]; intros fwd pairs issues Hnd Hx.
  { cbn in Hx. injection Hx as <- <- <-. cbn. rewrite app_nil_r. split; [done|]. split.
    - intros k n. split; [|tauto]. intros ?. split; [done|]. apply not_elem_of_nil.
    - split; [|tauto]. intros ->. split; [done|]. intros e He. by apply elem_of_nil in He. }
  rewrite fmap_cons in Hnd. apply NoDup_cons in Hnd as [Hn Hnd]. cbn in Hn. cbn [export_reverse] in Hx.
  assert (forall x : GenesisExportIssue, issues ++ [x] <> []) as Hne by (intros x; by destruct issues).
  destruct (match fwd !! t with Some p => p <>?s n | None => true end) eqn:E.
  - assert (fwd !! t <> Some n) as Ht.
    { intros Ht. rewrite Ht in E. by apply str_neqb_true in E. }
    assert (exportable reg fwd (n, t) = false) as Ex.
    { unfold exportable. cbn. by rewrite bool_decide_false. }
    apply IH in Hx as (-> & Hf & Hi); [|done]. cbn [List.filter]. rewrite Ex. split; [done|]. split.
    + intros k m. rewrite Hf, not_elem_of_cons. split; [|tauto]. intros [G1 G2].
      split; [done|]. split; [|done]. naive_solver.
    + rewrite Hi. split; [by intros [?%Hne _]|]. intros [_ Hall].
      specialize (Hall (n, t) (ltac:(by left))). congruence.
  - assert (fwd !! t = Some n) as Ht.
    { destruct (fwd !! t); [|done]. apply str_neqb_false in E. by subst. }
    assert (forall k m, delete t fwd !! k = Some m /\ (m, k) ∉ es <->
                        fwd !! k = Some m /\ (m, k) ∉ (n, t) :: es) as Hlk.
    { intros k m. rewrite not_elem_of_cons. destruct (decide (k = t)) as [->|Hk].
      - rewrite lookup_delete_eq, Ht. naive_solver.
      - rewrite lookup_delete_ne by done. naive_solver. }
    assert (exportable reg fwd (n, t) = UIDBelongsToRegisteredPair t n reg) as Ex.
    { unfold exportable. cbn. by rewrite bool_decide_true. }
    assert (forall e, e ∈ es -> exportable reg (delete t fwd) e = exportable reg fwd e) as Hde.
    { intros [n' t'] He. unfold exportable. cbn. f_equal. apply bool_decide_ext.
      destruct (decide (t' = t)) as [->|]; [|by rewrite lookup_delete_ne].
      rewrite lookup_delete_eq, Ht. split; [done|]. intros [= ->]. exfalso. apply Hn, list_elem_of_fmap.
      by exists (n', t). }
    cbn [List.filter]. rewrite Ex. destruct (UIDBelongsToRegisteredPair t n reg) eqn:Eb; cbn in Hx;
      apply IH in Hx as (-> & Hf & Hi); try done; rewrite (filter_delete _ _ _ n) by done.
    + split; [by rewrite <- app_assoc|]. split; [intros k m; by rewrite Hf, Hlk|].
      rewrite Hi. split; intros [-> Hall]; (split; [done|]).
      * intros e [->|He]%elem_of_cons; [congruence|]. rewrite <- Hde by done. auto.
      * intros e He. rewrite Hde by done. apply Hall. by right.
    + split; [done|]. split; [intros k m; by rewrite Hf, Hlk|].
      rewrite Hi. split; [by intros [?%Hne _]|]. intros [_ Hall].
      specialize (Hall (n, t) (ltac:(by left))). congruence.
Qed.

Lemma export_pairs_eq reg fwd rev :
  fst (export_index reg fwd rev) = mk_pair <$> List.filter (exportable reg fwd) (kv_iter rev).
Proof.
  unfold export_index. destruct (export_reverse _ _ _ _ _) as [[f p] i] eqn:E.
  apply export_reverse_spec in E as (-> & _); [done|apply kv_iter_nodup].
Qed.

(** The export keeps a binding exactly when both halves agree and its pair is in
    the exported token pairs. *)
Lemma elem_of_export reg (fwd rev : gmap string string) t n :
  MkNFTUIDPair t n ∈ fst (export_index reg fwd rev) <->
  fwd !! t = Some n /\ rev !! n = Some t /\ UIDBelongsToRegisteredPair t n reg = true.
Proof.
  rewrite export_pairs_eq, list_elem_of_fmap. setoid_rewrite list_elem_of_In.
  setoid_rewrite filter_In. setoid_rewrite <- list_elem_of_In. split.
  - intros ([n' t'] & [= -> ->] & Hin & Hx). apply elem_of_kv_iter in Hin.
    unfold exportable in Hx. apply andb_true_iff in Hx as [Hx1 Hx2].
    apply bool_decide_eq_true in Hx1. done.
  - intros (Hf & Hr & Hb). exists (n, t). split; [done|]. split; [by apply elem_of_kv_iter|].
    unfold exportable. cbn. by rewrite bool_decide_true, Hb.
Qed.

(** No issue is reported exactly when the index is a bijection whose bindings
    all belong to registered pairs. *)
Lemma export_no_issue reg (fwd rev : gmap string string) :
  snd (export_index reg fwd rev) = [] <->
  (forall t n, fwd !! t = Some n <-> rev !! n = Some t) /\
  (forall t n, fwd !! t = Some n -> UIDBelongsToRegisteredPair t n reg = true).
Proof.
  unfold export_index. destruct (export_reverse _ _ _ _ _) as [[f p] i] eqn:E.
  apply export_reverse_spec in E as (_ & Hf & Hi); [|apply kv_iter_nodup]. cbn [snd].
  assert (forall l : list GenesisExportIssue, merge_sort issue_le l = [] <-> l = []) as Hs.
  { intros l. split; [|by intros ->]. intros Hm. apply Permutation_nil. rewrite <- Hm.
    apply merge_sort_Permutation. }
  rewrite Hs. clear Hs. split.
  - intros [-> Hmap]%app_eq_nil. destruct (proj1 Hi eq_refl) as [_ Hall]. clear Hi.
    assert (forall k n, f !! k <> Some n) as Hempty.
    { intros k n Hk. apply elem_of_kv_iter in Hk. destruct (kv_iter f); [by apply elem_of_nil in Hk|done]. }
    assert (forall t n, rev !! n = Some t ->
              fwd !! t = Some n /\ UIDBelongsToRegisteredPair t n reg = true) as Hr.
    { intros t n Hn. apply elem_of_kv_iter, Hall in Hn. unfold exportable in Hn. cbn in Hn.
      apply andb_true_iff in Hn as [Hn1 Hn2]. by apply bool_decide_eq_true in Hn1. }
    assert (forall t n, fwd !! t = Some n -> rev !! n = Some t) as Hfr.
    { intros t n Ht. destruct (decide ((n, t) ∈ kv_iter (rev))) as [Hin|Hin].
      - by apply elem_of_kv_iter.
      - exfalso. eapply Hempty, Hf. eauto. }
    split; [|intros t n Ht; by apply Hr, Hfr]. intros t n. split; [apply Hfr|apply Hr].
  - intros [Hbij Hreg]. assert (f = ∅) as ->.
    { apply map_empty. intros k. destruct (f !! k) as [n|] eqn:Ek; [|done].
      apply Hf in Ek as [Ek Hn]. exfalso. apply Hn, elem_of_kv_iter, Hbij, Ek. }
    rewrite (proj2 Hi); [done|]. split; [done|]. intros [n t] Hin. apply elem_of_kv_iter, Hbij in Hin.
    unfold exportable. cbn. by rewrite bool_decide_true, Hreg.
Qed.

(** ** Genesis validation of a list *)

Lemma validate_uid_pairs_ok reg l seenT seenN :
  (forall p, p ∈ l -> TokenUid p <> "" /\ NftUid p <> "" /\
     UIDBelongsToRegisteredPair (TokenUid p) (NftUid p) reg = true /\
     TokenUid p ∉ seenT /\ NftUid p ∉ seenN) ->
  NoDup (TokenUid <$> l) -> NoDup (NftUid <$> l) ->
  validate_uid_pairs reg l seenT seenN = None.
Proof.
  revert seenT seenN. induction l as [|p l IH]; intros sT sN Hp Ht Hn; [done|].
  rewrite fmap_cons in Ht, Hn. apply NoDup_cons in Ht as [Ht1 Ht2]. apply NoDup_cons in Hn as [Hn1 Hn2].
  destruct (Hp p (ltac:(by left))) as (E1 & E2 & E3 & E4 & E5). cbn [validate_uid_pairs].
  rewrite !check_else_None. apply str_eqb_false in E1, E2. rewrite E1, E2. split; [done|].
  split; [by apply bool_decide_eq_true|]. split; [by apply bool_decide_eq_true|]. split; [done|].
  apply IH; [|done..]. intros q Hq. destruct (Hp q (ltac:(by right))) as (F1 & F2 & F3 & F4 & F5).
  split_and!; [done..| |].
  - rewrite elem_of_union, elem_of_singleton. intros [Heq|]; [|done]. apply Ht1. rewrite <- Heq.
    by apply list_elem_of_fmap_2.
  - rewrite elem_of_union, elem_of_singleton. intros [Heq|]; [|done]. apply Hn1. rewrite <- Heq.
    by apply list_elem_of_fmap_2.
Qed.

Definition dedupe_key (r : RefundReceiver) : string := ToLower (rr_EvmContractAddress r) +:+ rr_TokenId r.

Lemma validate_receivers_ok reg l seen :
  (forall r, r ∈ l -> rr_EvmContractAddress r <> "" /\ rr_TokenId r <> "" /\ rr_EvmAddress r <> "" /\
     ToLower (rr_EvmContractAddress r) ∈ reg /\ dedupe_key r ∉ seen) ->
  NoDup (dedupe_key <$> l) -> validate_receivers reg l seen = None.
Proof.
  revert seen. induction l as [|r l IH]; intros seen Hr Hn; [done|].
  rewrite fmap_cons in Hn. apply NoDup_cons in Hn as [Hn1 Hn2].
  destruct (Hr r (ltac:(by left))) as (E1 & E2 & E3 & E4 & E5). cbn [validate_receivers].
  rewrite !check_else_None. apply str_eqb_false in E1, E2, E3. rewrite E1, E2, E3. split; [done|].
  split; [by apply bool_decide_eq_true|]. split; [by apply bool_decide_eq_true|].
  apply IH; [|done]. intros q Hq. destruct (Hr q (ltac:(by right))) as (F1 & F2 & F3 & F4 & F5).
  split_and!; [done..|]. fold (dedupe_key r).
  rewrite elem_of_union, elem_of_singleton. intros [Heq|]; [|done]. apply Hn1. rewrite <- Heq.
  by apply list_elem_of_fmap_2.
Qed.

Lemma belongs_nonempty t n reg :
  UIDBelongsToRegisteredPair t n reg = true -> t <> "" /\ n <> "".
Proof.
  unfold UIDBelongsToRegisteredPair. intros Hb. split; intros ->; [done|].
  by rewrite orb_true_r in Hb.
Qed.

Lemma export_nodup reg (fwd rev : gmap string string) :
  NoDup (TokenUid <$> fst (export_index reg fwd rev)) /\
  NoDup (NftUid <$> fst (export_index reg fwd rev)).
Proof.
  rewrite export_pairs_eq. rewrite <- !list_fmap_compose.
  pose proof (kv_iter_nodup rev) as Hnd.
  set (es := kv_iter rev) in *. set (f := exportable reg fwd).
  assert (NoDup (List.filter f es).*1) as Hn.
  { clear -Hnd. induction es as [|e es IH]; [done|]. rewrite fmap_cons in Hnd.
    apply NoDup_cons in Hnd as [Hn Hnd]. cbn. destruct (f e); [|auto]. rewrite fmap_cons.
    apply NoDup_cons. split; [|auto]. intros Hin. apply Hn. apply list_elem_of_fmap in Hin as (x & Ex & Hx).
    apply list_elem_of_fmap. exists x. split; [done|]. apply list_elem_of_In in Hx.
    apply filter_In in Hx as [Hx _]. by apply list_elem_of_In. }
  split; [|exact Hn]. apply NoDup_fmap_2_strong; [|by apply NoDup_fmap_1 in Hn].
  intros [n1 t1] [n2 t2] G1 G2 Ht. cbn in Ht. subst t2.
  apply list_elem_of_In, filter_In in G1 as [_ G1]. apply list_elem_of_In, filter_In in G2 as [_ G2].
  unfold f, exportable in G1, G2. cbn in G1, G2.
  apply andb_true_iff in G1 as [G1%bool_decide_eq_true _].
  apply andb_true_iff in G2 as [G2%bool_decide_eq_true _]. congruence.
Qed.

Lemma export_uid_valid reg (fwd rev : gmap string string) :
  validate_uid_pairs reg (fst (export_index reg fwd rev)) ∅ ∅ = None.
Proof.
  destruct (export_nodup reg fwd rev) as [Ht Hn]. apply validate_uid_pairs_ok; [|done..].
  intros [t n] Hin. cbn. apply elem_of_export in Hin as (_ & _ & Hb).
  destruct (belongs_nonempty _ _ _ Hb). split_and!; [done..|set_solver|set_solver].
Qed.

End ExportIndex.

Section ExportFacts.
Context `{EthLaws} `{!SdkLib} `{!SdkLaws} `{!Erc721Codec} `{!Erc721CodecLaws} `{!FmtLib}.
Implicit Types s : ErcStore.

(** ** Refund receivers *)

Lemma match_prefix_spec h cs best :
  match_prefix h cs best = best \/
  (match_prefix h cs best ∈ cs /\ match_prefix h cs best <> "" /\
   HasPrefix h (match_prefix h cs best) = true /\ len (match_prefix h cs best) < len h).
Proof.
  revert best. induction cs as [|c cs IH]; intros best; [by left|]. cbn [match_prefix].
  destruct (_ || _) eqn:E1.
  - destruct (IH best) as [->|(A & B)]; [by left|right]. split; [by right|done].
  - apply orb_false_iff in E1 as [E1%Nat.eqb_neq _]. destruct (_ && _) eqn:E2.
    + apply andb_true_iff in E2 as [E2 E3%Nat.ltb_lt]. right. destruct (IH c) as [->|(A & B)].
      * split; [by left|]. split; [by intros ->|done].
      * split; [by right|done].
    + destruct (IH best) as [->|(A & B)]; [by left|right]. split; [by right|done].
Qed.

Lemma match_prefix_found h cs best c :
  c ∈ cs -> c <> "" -> HasPrefix h c = true -> len c < len h -> match_prefix h cs best <> "".
Proof.
  intros Hin Hc Hp Hl. revert best.
  assert (forall cs best, best <> "" -> match_prefix h cs best <> "") as Hkeep.
  { clear. intros cs. induction cs as [|c cs IH]; intros best Hb; [done|]. cbn [match_prefix].
    destruct (_ || _) eqn:E; [auto|]. destruct (_ && _); [|auto]. apply IH. intros ->. done. }
  induction cs as [|c' cs IH]; intros best; [by apply elem_of_nil in Hin|].
  cbn [match_prefix]. apply elem_of_cons in Hin as [<-|Hin].
  - assert (len c <> 0) by (by destruct c). destruct (_ || _) eqn:E1.
    + apply orb_true_iff in E1 as [E1%Nat.eqb_eq|E1%Nat.leb_le]; [done|]. apply Hkeep.
      intros ->. cbn in E1. lia.
    + rewrite Hp. apply Nat.ltb_lt in Hl. rewrite Hl. cbn. by apply Hkeep.
  - destruct (_ || _); [auto|]. destruct (_ && _); auto.
Qed.

(** A refund key as SetEvmAddressByContractTokenId writes it: the address part,
    42 bytes, is in lower case. *)
Definition refund_key_ok (k : string) : Prop := ToLower (str_take 42 k) = str_take 42 k.

Lemma prefix_lower k c : refund_key_ok k -> HasPrefix (ToLower k) c = true -> len c <= 42 ->
  c +:+ str_drop (len c) k = k /\ ToLower c = c.
Proof.
  unfold refund_key_ok. intros Hk Hp Hl.
  assert (c = str_take (len c) k) as Hc.
  { apply HasPrefix_spec in Hp as [r Hr].
    assert (c = str_take (len c) (ToLower k)) as Hc by (by rewrite Hr, str_take_app).
    rewrite ToLower_take in Hc. rewrite Hc at 1.
    rewrite <- (str_take_take (len c) 42) by done. by rewrite <- ToLower_take, Hk. }
  split; [rewrite Hc at 1; apply str_take_drop|].
  rewrite Hc at 1. rewrite <- (str_take_take (len c) 42) by done.
  by rewrite <- ToLower_take, Hk, str_take_take by done.
Qed.

Lemma split_ok cs k c t :
  refund_key_ok k -> (forall x, x ∈ cs -> len x = 42) ->
  splitContractTokenKey cs k = inr (c, t) ->
  c <> "" /\ t <> "" /\ ToLower c ∈ ToLower <$> cs /\ ToLower c +:+ t = k.
Proof.
  intros Hk Hcs. unfold splitContractTokenKey.
  assert (forall h c0, len c0 < len h -> len h = len k -> str_drop (len c0) k <> "") as Hne.
  { intros h c0 Hl Hh Hd. apply (f_equal len) in Hd. rewrite len_drop in Hd. cbn in Hd. lia. }
  destruct (match_prefix_spec k cs "") as [->|(A & B & C & D)]; cbn.
  - destruct (match_prefix_spec (ToLower k) (ToLower <$> cs) "") as [->|(A & B & C & D)]; [done|].
    apply str_neqb_true in B as B'. rewrite B'. intros [= <- <-].
    apply list_elem_of_fmap in A as (x & Ex & Hx). set (b := match_prefix _ _ _) in *.
    assert (len b = 42) as Hb by (rewrite Ex, len_ToLower; auto).
    destruct (prefix_lower k b Hk C) as [E1 E2]; [lia|]. rewrite E2.
    split_and!; [done|eapply Hne; [exact D|by rewrite len_ToLower]| |done].
    apply list_elem_of_fmap. by exists x.
  - apply str_neqb_true in B as B'. rewrite B'. intros [= <- <-]. set (b := match_prefix _ _ _) in *.
    assert (len b = 42) as Hb by auto.
    assert (HasPrefix (ToLower k) (ToLower b) = true) as Cl.
    { apply HasPrefix_spec in C as [r Hr]. rewrite Hr, ToLower_app. apply HasPrefix_app. }
    destruct (prefix_lower k (ToLower b) Hk Cl) as [E1 E2]; [rewrite len_ToLower; lia|].
    rewrite len_ToLower in E1. split_and!; [done|by eapply Hne| |done].
    apply list_elem_of_fmap. by exists b.
Qed.

Lemma split_registered cs k p :
  p ∈ cs -> p <> "" -> HasPrefix k (ToLower p) = true -> len p < len k ->
  exists c t, splitContractTokenKey cs k = inr (c, t).
Proof.
  intros Hin Hp Hpre Hl. unfold splitContractTokenKey.
  destruct (_ <>?s "") eqn:E; [eauto|].
  assert (match_prefix (ToLower k) (ToLower <$> cs) "" <> "") as Hm.
  { apply (match_prefix_found _ _ _ (ToLower p)); [by apply list_elem_of_fmap_2| | |by rewrite !len_ToLower].
    - intros Hz. apply (f_equal len) in Hz. rewrite len_ToLower in Hz. by destruct p.
    - apply HasPrefix_spec in Hpre as [r ->]. rewrite ToLower_app, ToLower_idem. apply HasPrefix_app. }
  apply str_neqb_true in Hm. rewrite Hm. eauto.
Qed.

(** The export of the receivers, entry by entry. *)
Lemma export_receivers_elem cs es r :
  r ∈ fst (export_receivers cs es) <->
  exists k c t, (k, rr_EvmAddress r) ∈ es /\ splitContractTokenKey cs k = inr (c, t) /\
    rr_EvmContractAddress r = c /\ rr_TokenId r = t.
Proof.
  induction es as [|[k v] es IH]; cbn [export_receivers].
  { split; [intros Hr; by apply elem_of_nil in Hr|]. intros (k & c & t & Hin & _). by apply elem_of_nil in Hin. }
  destruct (export_receivers cs es) as [rs iss]. cbn [fst] in IH.
  destruct (splitContractTokenKey cs k) as [e|[c t]] eqn:E; cbn [fst].
  - rewrite IH. split; intros (k' & c & t & Hin & Hs & Hrest); exists k', c, t.
    + split; [by right|done].
    + apply elem_of_cons in Hin as [[= -> _]|Hin]; [congruence|done].
  - rewrite elem_of_cons, IH. split.
    + intros [->|(k' & c' & t' & Hin & Hrest)]; [exists k, c, t|exists k', c', t'].
      * split; [by left|done].
      * split; [by right|done].
    + intros (k' & c' & t' & Hin & Hs & Hc & Ht).
      apply elem_of_cons in Hin as [[= -> Hv]|Hin]; [|right; eauto 8].
      left. rewrite E in Hs. injection Hs as <- <-. destruct r. cbn in *. by subst.
Qed.

(** The store holds well-formed refund records of registered contracts. *)
Definition refunds_ok s : Prop :=
  forall k v, refunds s !! k = Some v ->
    v <> "" /\ refund_key_ok k /\
    exists p, p ∈ GetTokenPairs s /\ HasPrefix k (ToLower (Erc721Address p)) = true /\
              len (Erc721Address p) < len k.

Definition pairs_len_ok s : Prop := forall p, p ∈ GetTokenPairs s -> len (Erc721Address p) = 42.

Lemma receivers_dedupe cs es :
  (forall k v, (k, v) ∈ es -> refund_key_ok k) -> (forall x, x ∈ cs -> len x = 42) ->
  NoDup es.*1 ->
  NoDup (dedupe_key <$> fst (export_receivers cs es)) /\
  forall r, r ∈ fst (export_receivers cs es) -> (dedupe_key r, rr_EvmAddress r) ∈ es.
Proof.
  intros Hk Hcs. induction es as [|[k v] es IH]; intros Hnd; cbn [export_receivers].
  { split; [constructor|]. intros r Hr. by apply elem_of_nil in Hr. }
  rewrite fmap_cons in Hnd. apply NoDup_cons in Hnd as [Hn Hnd].
  destruct IH as [IH1 IH2]; [intros k' v' Hin; apply (Hk k' v'); by right|done|].
  destruct (export_receivers cs es) as [rs iss]. cbn [fst] in *.
  destruct (splitContractTokenKey cs k) as [e|[c t]] eqn:E; cbn [fst].
  - split; [done|]. intros r Hr. right. auto.
  - apply split_ok in E as (_ & _ & _ & Ek); [|by apply (Hk k v); left|done].
    split.
    + rewrite fmap_cons. apply NoDup_cons. split; [|done]. unfold dedupe_key at 1. cbn. rewrite Ek.
      intros Hin. apply list_elem_of_fmap in Hin as (r & Er & Hr). apply IH2 in Hr. rewrite <- Er in Hr.
      apply Hn, list_elem_of_fmap. by exists (k, rr_EvmAddress r).
    + intros r [->|Hr]%elem_of_cons; [|right; auto]. unfold dedupe_key. cbn. rewrite Ek. by left.
Qed.

Lemma export_receivers_valid s :
  refunds_ok s -> pairs_len_ok s ->
  validate_receivers ((fun tp => ToLower (Erc721Address tp)) <$> GetTokenPairs s)
    (fst (ExportRefundReceiversWithReport s)) ∅ = None.
Proof.
  intros Hr Hl. assert (forall x, x ∈ Erc721Address <$> GetTokenPairs s -> len x = 42) as Hcs.
  { intros x (p & -> & Hp)%list_elem_of_fmap. auto. }
  apply validate_receivers_ok.
  - intros r Hin. apply export_receivers_elem in Hin as (k & c & t & Hin & Hs & <- & <-).
    apply elem_of_kv_iter, Hr in Hin as (Hv & Hk & _).
    apply split_ok in Hs as (A & B & C & _); [|done..]. rewrite <- list_fmap_compose in C.
    split_and!; try done; set_solver.
  - apply receivers_dedupe; [|done|apply kv_iter_nodup].
    intros k v Hin. by apply elem_of_kv_iter, Hr in Hin as (_ & Hk & _).
Qed.

(** ** Import *)

Lemma fold_insert {A} (f g : A -> string) (l : list A) (m : gmap string string) :
  NoDup (f <$> l) ->
  (forall a, a ∈ l -> fold_left (fun m a => <[f a := g a]> m) l m !! f a = Some (g a)) /\
  (forall k, k ∉ f <$> l -> fold_left (fun m a => <[f a := g a]> m) l m !! k = m !! k).
Proof.
  revert m. induction l as [|x l IH]; intros m Hnd; cbn [fold_left].
  { split; [intros a Ha; by apply elem_of_nil in Ha|done]. }
  rewrite fmap_cons in Hnd. apply NoDup_cons in Hnd as [Hn Hnd].
  destruct (IH (<[f x := g x]> m) Hnd) as [I1 I2]. split.
  - intros a [->|Ha]%elem_of_cons; [|auto]. rewrite I2 by done. apply lookup_insert_eq.
  - intros k Hk. rewrite fmap_cons, not_elem_of_cons in Hk. destruct Hk as [Hk1 Hk2].
    rewrite I2 by done. by apply lookup_insert_ne.
Qed.

(** A map rebuilt from the list of its entries. *)
Lemma fold_insert_eq {A} (f g : A -> string) (l : list A) (m : gmap string string) :
  NoDup (f <$> l) ->
  (forall k v, m !! k = Some v <-> exists a, a ∈ l /\ f a = k /\ g a = v) ->
  fold_left (fun m a => <[f a := g a]> m) l ∅ = m.
Proof.
  intros Hnd Hm. destruct (fold_insert f g l ∅ Hnd) as [I1 I2]. apply map_eq. intros k.
  destruct (decide (k ∈ f <$> l)) as [Hk|Hk].
  - apply list_elem_of_fmap in Hk as (a & -> & Ha). rewrite I1 by done. symmetry. apply Hm. eauto.
  - rewrite I2 by done. symmetry. destruct (m !! k) as [v|] eqn:E; [|done].
    apply Hm in E as (a & Ha & <- & _). exfalso. apply Hk. by apply list_elem_of_fmap_2.
Qed.

Definition enc (p : TokenPair) : string :=
  match Marshal_TokenPair p with inr bz => bz | inl _ => "" end.

Lemma enc_spec s p : registered s p -> Marshal_TokenPair p = inr (enc p).
Proof. unfold enc. by intros (bz & -> & _). Qed.

Lemma import_pairs_eq s l :
  (forall p, p ∈ l -> Marshal_TokenPair p = inr (enc p)) ->
  import_pairs s l = inr (MkErcStore
    (fold_left (fun m p => <[GetID p := enc p]> m) l (prefixTokenPair s))
    (fold_left (fun m p => <[ToLower (Hex (GetERC721Contract p)) := GetID p]> m) l
       (prefixTokenPairByERC721 s))
    (fold_left (fun m p => <[tp_ClassId p := GetID p]> m) l (prefixTokenPairByClass s))
    (reverse s) (forward s) (refunds s) (KeyPrefixParams s)).
Proof.
  revert s. induction l as [|p l IH]; intros s Hl; cbn [import_pairs fold_left]; [by destruct s|].
  unfold SetTokenPair. rewrite Hl by (by left). rewrite IH; [done|]. intros q Hq. apply Hl. by right.
Qed.

Lemma import_uids_eq s l :
  fold_left SetGenesisNFTUIDPair l s = MkErcStore (prefixTokenPair s) (prefixTokenPairByERC721 s)
    (prefixTokenPairByClass s)
    (fold_left (fun m p => <[NftUid p := TokenUid p]> m) l (reverse s))
    (fold_left (fun m p => <[TokenUid p := NftUid p]> m) l (forward s)) (refunds s) (KeyPrefixParams s).
Proof.
  revert s. induction l as [|p l IH]; intros s; cbn [fold_left]; [by destruct s|]. by rewrite IH.
Qed.

Lemma import_receivers_eq s l :
  fold_left SetGenesisRefundReceiver l s = MkErcStore (prefixTokenPair s) (prefixTokenPairByERC721 s)
    (prefixTokenPairByClass s) (reverse s) (forward s)
    (fold_left (fun m r => <[dedupe_key r := rr_EvmAddress r]> m) l (refunds s)) (KeyPrefixParams s).
Proof.
  revert s. induction l as [|p l IH]; intros s; cbn [fold_left]; [by destruct s|]. by rewrite IH.
Qed.

(** The pair table, as GetTokenPairs lists it. *)
Lemma elem_of_GetTokenPairs s p : registry_ok s -> p ∈ GetTokenPairs s <-> registered s p.
Proof.
  intros Hs. unfold GetTokenPairs. rewrite list_elem_of_omap. split.
  - intros ([id bz] & Hin & Hu). apply elem_of_kv_iter in Hin. cbn in Hu.
    destruct (rg_table _ Hs _ _ Hin) as (q & Hm & -> & _).
    rewrite (TokenPair_roundtrip _ _ Hm) in Hu. injection Hu as ->. by exists bz.
  - intros (bz & Hm & E). exists (GetID p, bz). split; [by apply elem_of_kv_iter|]. cbn.
    by rewrite (TokenPair_roundtrip _ _ Hm).
Qed.

Lemma GetTokenPairs_ids s : registry_ok s -> GetID <$> GetTokenPairs s = (kv_iter (prefixTokenPair s)).*1.
Proof.
  intros Hs. unfold GetTokenPairs.
  assert (forall kv, kv ∈ kv_iter (prefixTokenPair s) ->
    exists p, Unmarshal_TokenPair (snd kv) = inr p /\ GetID p = fst kv) as Hall.
  { intros [id bz] Hin. apply elem_of_kv_iter in Hin.
    destruct (rg_table _ Hs _ _ Hin) as (q & Hm & -> & _). exists q. cbn.
    by rewrite (TokenPair_roundtrip _ _ Hm). }
  induction (kv_iter (prefixTokenPair s)) as [|kv l IH]; [done|].
  destruct (Hall kv (ltac:(by left))) as (p & Hu & Hid). cbn. rewrite Hu, fmap_cons, Hid. f_equal.
  apply IH. intros x Hx. apply Hall. by right.
Qed.

Lemma GetTokenPairs_nodup s (f : TokenPair -> string) :
  registry_ok s -> (forall p q, registered s p -> registered s q -> f p = f q -> p = q) ->
  NoDup (f <$> GetTokenPairs s).
Proof.
  intros Hs Hf. apply NoDup_fmap_2_strong.
  - intros p q Hp%elem_of_GetTokenPairs Hq%elem_of_GetTokenPairs; auto.
  - eapply (NoDup_fmap_1 GetID). rewrite GetTokenPairs_ids by done. apply kv_iter_nodup.
Qed.

Lemma registered_class s p q :
  registry_ok s -> registered s p -> registered s q -> tp_ClassId p = tp_ClassId q -> p = q.
Proof.
  intros Hs Hp Hq E. pose proof (GetPairByClass_registered _ _ Hs Hp) as G1.
  pose proof (GetPairByClass_registered _ _ Hs Hq) as G2. rewrite E in G1. congruence.
Qed.

Lemma registered_contract s p q :
  registry_ok s -> registered s p -> registered s q ->
  GetERC721Contract p = GetERC721Contract q -> p = q.
Proof.
  intros Hs Hp Hq E. apply (registered_id s); [done..|].
  by rewrite <- (GetERC721Map_registered s p), <- (GetERC721Map_registered s q), E.
Qed.

Lemma lower_hex_inj a b : ToLower (Hex a) = ToLower (Hex b) -> a = b.
Proof.
  intros E. apply (f_equal HexToAddress) in E.
  by rewrite !HexToAddress_lower, !HexToAddress_Hex in E by apply IsHexAddress_Hex.
Qed.

Lemma registry_lens s : registry_ok s -> pairs_len_ok s.
Proof.
  intros Hs p Hp%elem_of_GetTokenPairs; [|done]. rewrite (registered_canonical s p Hs Hp).
  by rewrite len_ToLower, Hex_len.
Qed.

Lemma export_genesis_valid s :
  refunds_ok s -> pairs_len_ok s ->
  ValidateGenesisPairs (gs_NftUidPairs (ExportGenesis s)) (gs_RefundReceivers (ExportGenesis s))
    (gs_TokenPairs (ExportGenesis s)) = None.
Proof.
  intros Hr Hl. apply then_check_None. split; [apply export_uid_valid|by apply export_receivers_valid].
Qed.

(** Every sub-store is rebuilt from the exported list. *)
Lemma import_table s : registry_ok s ->
  fold_left (fun m p => <[GetID p := enc p]> m) (GetTokenPairs s) ∅ = prefixTokenPair s.
Proof.
  intros Hs. apply fold_insert_eq.
  { apply GetTokenPairs_nodup; [done|]. intros p q. apply registered_id. }
  intros id bz. split.
  - intros E. destruct (rg_table _ Hs _ _ E) as (p & Hm & -> & _). exists p.
    split; [apply elem_of_GetTokenPairs; [done|by exists bz]|]. split; [done|].
    unfold enc. by rewrite Hm.
  - intros (p & Hp%elem_of_GetTokenPairs & <- & <-); [|done]. destruct Hp as (bz & Hm & E).
    unfold enc. by rewrite Hm.
Qed.

Lemma import_classes s : registry_ok s ->
  fold_left (fun m p => <[tp_ClassId p := GetID p]> m) (GetTokenPairs s) ∅ = prefixTokenPairByClass s.
Proof.
  intros Hs. apply fold_insert_eq.
  { apply GetTokenPairs_nodup; [done|]. intros p q ??. by apply (registered_class s). }
  intros c id. rewrite (rg_class _ Hs). by setoid_rewrite elem_of_GetTokenPairs.
Qed.

Lemma import_contracts s : registry_ok s ->
  fold_left (fun m p => <[ToLower (Hex (GetERC721Contract p)) := GetID p]> m) (GetTokenPairs s) ∅
  = prefixTokenPairByERC721 s.
Proof.
  intros Hs. apply fold_insert_eq.
  { apply (GetTokenPairs_nodup s (fun p => ToLower (Hex (GetERC721Contract p)))); [done|].
    intros p q ?? E%lower_hex_inj. by apply (registered_contract s). }
  intros k id. rewrite (rg_erc _ Hs). setoid_rewrite elem_of_GetTokenPairs; [|done].
  split; intros (p & Hp & Hk & Hid); exists p; (split; [done|]);
    rewrite <- Hk, <- Hid; by rewrite (registered_canonical s p Hs Hp) at 1.
Qed.

Lemma import_receivers_all s :
  registry_ok s -> refunds_ok s ->
  fold_left (fun m r => <[dedupe_key r := rr_EvmAddress r]> m)
    (fst (ExportRefundReceiversWithReport s)) ∅ = refunds s.
Proof.
  intros Hs Hr. assert (forall x, x ∈ Erc721Address <$> GetTokenPairs s -> len x = 42) as Hcs.
  { intros x (p & -> & Hp)%list_elem_of_fmap. by apply (registry_lens s Hs). }
  assert (forall k v, (k, v) ∈ kv_iter (refunds s) -> refund_key_ok k) as Hk.
  { intros k v Hin. by apply elem_of_kv_iter, Hr in Hin as (_ & Hk & _). }
  destruct (receivers_dedupe _ _ Hk Hcs (kv_iter_nodup _)) as [D1 D2].
  apply fold_insert_eq; [exact D1|]. intros k v. split.
  - intros E. destruct (Hr k v E) as (_ & Hkk & p & Hp & Hpre & Hl).
    destruct (split_registered (Erc721Address <$> GetTokenPairs s) k (Erc721Address p))
      as (c & t & Es); [by apply list_elem_of_fmap_2| |done..|].
    { intros Hz. pose proof (registry_lens s Hs p Hp) as Hlen. by rewrite Hz in Hlen. }
    exists (MkRefundReceiver c t v). split.
    + apply export_receivers_elem. exists k, c, t. split; [by apply elem_of_kv_iter|done].
    + split; [|done]. apply split_ok in Es as (_ & _ & _ & E'); done.
  - intros (r & Hin & <- & <-). apply D2 in Hin. by apply elem_of_kv_iter in Hin.
Qed.

(** Each binding belongs to a registered pair: the precondition of a lossless
    export of the UID index. *)
Definition bindings_registered s : Prop :=
  forall t n, forward s !! t = Some n -> UIDBelongsToRegisteredPair t n (GetTokenPairs s) = true.

Lemma import_index s :
  store_ok s -> bindings_registered s ->
  fold_left (fun m p => <[NftUid p := TokenUid p]> m) (fst (ExportNFTUIDPairsWithReport s)) ∅ = reverse s /\
  fold_left (fun m p => <[TokenUid p := NftUid p]> m) (fst (ExportNFTUIDPairsWithReport s)) ∅ = forward s.
Proof.
  intros Hs Hb. destruct (export_nodup (GetTokenPairs s) (forward s) (reverse s)) as [Ht Hn].
  assert (forall t n, forward s !! t = Some n <->
            MkNFTUIDPair t n ∈ fst (ExportNFTUIDPairsWithReport s)) as Hin.
  { intros t n. unfold ExportNFTUIDPairsWithReport. rewrite elem_of_export. split; [|tauto]. intros E. split; [done|].
    split; [by apply (ix_bij _ _ Hs)|auto]. }
  split; (apply fold_insert_eq; [done|]).
  - intros n t. rewrite <- (ix_bij _ _ Hs), Hin. split; [intros E; by eexists|].
    intros ([t' n'] & E & <- & <-). done.
  - intros t n. rewrite Hin. split; [intros E; by eexists|]. intros ([t' n'] & E & <- & <-). done.
Qed.
End ExportFacts.
