(* ===== verification/Erc721Abstract.v ===== *)
(** What the UID index of x/erc721 stands for: a finite one-to-one map from ERC721
    tokens to NFTs, a token being a contract and the value of its id, however the
    two are spelled.  The store operations are shown to implement the operations of
    that map: looking a token up, binding it, and deleting its binding. *)
From S2P Require Import Prelude GoStrings Sdk CollectionTypes Erc721Types Erc721Store Erc721Index.
From S2P Require Import Erc721Genesis Erc721Registry Erc721Export.

(** ** The specification *)

(** A contract by its canonical address; an id by its value, or verbatim when it is
    not a number (keys of that kind are only ever imported). *)
Notation token := (string * (Z + string))%type.
Notation bindings := (gmap token string).

Definition taken (A : bindings) (n : string) : bool := existsb (fun '(_, m) => m =?s n) (map_to_list A).

(** Binding is idempotent, refuses a token or an NFT that is bound otherwise, and
    gives no new binding to an id in the legacy spelling. *)
Definition spec_bind (A : bindings) (k : token) (legacy : bool) (n : string) : option bindings :=
  match A !! k with
  | Some m => if m =?s n then Some A else None
  | None => if legacy || taken A n then None else Some (<[k := n]> A)
  end.

Definition one_to_one (A : bindings) : Prop :=
  forall k1 k2 n, A !! k1 = Some n -> A !! k2 = Some n -> k1 = k2.

Lemma taken_spec A n : taken A n = true <-> exists k, A !! k = Some n.
Proof.
  unfold taken. rewrite existsb_exists. split.
  - intros ([k m] & Hin & Hm%str_eqb_true). subst m. exists k.
    by apply elem_of_map_to_list, list_elem_of_In.
  - intros [k Hk]. exists (k, n). split; [|apply String.eqb_refl].
    by apply list_elem_of_In, elem_of_map_to_list.
Qed.

Section Abstract.
Context `{EthLaws}.
Implicit Types s : ErcStore.

Definition id_value (t : string) : Z + string :=
  match parseEVMTokenIDValue t true with Some (n, _) => inl n | None => inr t end.
Definition token_of (c t : string) : token := (CanonicalContractAddress c, id_value t).

(** The token a forward key stands for, and the map a store stands for. *)
Definition token_of_uid (uid : string) : token := let '(t, c) := GetNFTFromUID uid in token_of c t.
Definition abs s : bindings := list_to_map ((fun '(u, n) => (token_of_uid u, n)) <$> kv_iter (forward s)).

Definition spec_set (A : bindings) (c t n : string) : option bindings :=
  match parseEVMTokenIDValue t true with
  | Some (v, legacy) => spec_bind A (CanonicalContractAddress c, inl v) legacy n
  | None => None
  end.

(** ** Two keys stand for one token when they are spellings of one another *)

Lemma id_value_variant t v : v ∈ EVMTokenIDKeyVariants t -> id_value v = id_value t.
Proof.
  unfold id_value. destruct (parseEVMTokenIDValue t true) as [[n l]|] eqn:E.
  - rewrite (variants_of_value _ _ _ E). intros Hv.
    apply value_variants_parse in Hv as [l' ->]; [done|by eapply parse_range].
  - unfold EVMTokenIDKeyVariants, CanonicalEVMTokenID. rewrite E.
    intros ->%list_elem_of_singleton. by rewrite E.
Qed.

Lemma id_value_variants t v : id_value v = id_value t -> EVMTokenIDKeyVariants v = EVMTokenIDKeyVariants t.
Proof.
  unfold id_value. destruct (parseEVMTokenIDValue v true) as [[n l]|] eqn:E;
    destruct (parseEVMTokenIDValue t true) as [[n' l']|] eqn:E'; try done; [|by intros [= ->]].
  intros [= ->]. by rewrite (variants_of_value _ _ _ E), (variants_of_value _ _ _ E').
Qed.

Lemma canonical_variants a c :
  good_address a -> good_address c -> CanonicalContractAddress a = CanonicalContractAddress c ->
  ContractAddressKeyVariants a = ContractAddressKeyVariants c.
Proof.
  intros Ha Hc E. destruct (address_variants_head a) as [ra Ra]. destruct (address_variants_head c) as [rc Rc].
  rewrite <- (address_variants_shared a (CanonicalContractAddress a)) by (auto; rewrite Ra; by left).
  rewrite E. apply address_variants_shared; [done|]. rewrite Rc. by left.
Qed.

Lemma canonical_variant a c :
  good_address c -> a ∈ ContractAddressKeyVariants c -> CanonicalContractAddress a = CanonicalContractAddress c.
Proof.
  intros Hc Ha. pose proof (address_variants_shared _ _ Hc Ha) as E.
  destruct (address_variants_head a) as [ra Ra]. destruct (address_variants_head c) as [rc Rc]. congruence.
Qed.

Lemma spelling_token c t u :
  good_address c -> t <> "" -> u ∈ spellings c t -> token_of_uid u = token_of c t.
Proof.
  intros Hc Ht (a & v & -> & Hv & Ha)%elem_of_spellings. unfold token_of_uid.
  rewrite uid_of_good; [|by eapply good_variant|by eapply variants_nonempty].
  unfold token_of. by rewrite (canonical_variant a c), (id_value_variant t v).
Qed.

Lemma token_spelling c t u :
  good_address c -> t <> "" -> wf_key u -> token_of_uid u = token_of c t -> u ∈ spellings c t.
Proof.
  intros Hc Ht (a & v & Eu & Hv & Ha & Hin)%wf_key_self E.
  rewrite (spelling_token a v u) in E by done. injection E as E1 E2.
  rewrite (spellings_ext c t a v); [done| |].
  - symmetry. by apply id_value_variants.
  - symmetry. by apply canonical_variants.
Qed.

Lemma token_of_uid_inj s u1 u2 n1 n2 :
  store_ok s -> forward s !! u1 = Some n1 -> forward s !! u2 = Some n2 ->
  token_of_uid u1 = token_of_uid u2 -> u1 = u2.
Proof.
  intros Hs E1 E2 E. destruct (ix_wf _ _ Hs _ _ E1) as [W1 _]. destruct (ix_wf _ _ Hs _ _ E2) as [W2 _].
  eapply (ix_one _ _ Hs); [exact E1|exact E2|].
  apply wf_key_self in W2 as (a & t & Eu & Ht & Ha & Hin). rewrite (spelling_token a t u2) in E by done.
  apply token_spelling in E; [|done..]. by rewrite !(spelling_binding a t).
Qed.

(** ** The map *)

Lemma abs_lookup s k n :
  store_ok s -> abs s !! k = Some n <-> exists u, forward s !! u = Some n /\ token_of_uid u = k.
Proof.
  intros Hs. unfold abs. rewrite <- (elem_of_list_to_map (M:=gmap token)).
  - rewrite list_elem_of_fmap. split.
    + intros ([u m] & [= -> ->] & Hin). exists u. by rewrite <- elem_of_kv_iter.
    + intros (u & Hu & <-). exists (u, n). by rewrite elem_of_kv_iter.
  - rewrite <- list_fmap_compose. apply NoDup_fmap_2_strong; [|apply (NoDup_fmap_1 fst), kv_iter_nodup].
    intros [u1 n1] [u2 n2] H1 H2 E. cbn in E. apply elem_of_kv_iter in H1, H2.
    pose proof (token_of_uid_inj _ _ _ _ _ Hs H1 H2 E) as ->. congruence.
Qed.

Lemma abs_spelling s c t n :
  store_ok s -> good_address c -> t <> "" ->
  abs s !! token_of c t = Some n <-> exists u, u ∈ spellings c t /\ forward s !! u = Some n.
Proof.
  intros Hs Hc Ht. rewrite abs_lookup by done. split.
  - intros (u & Hu & E). exists u. split; [|done]. apply token_spelling; [done..| |done]. by eapply ix_wf.
  - intros (u & Hin & Hu). exists u. split; [done|]. by apply spelling_token.
Qed.

Lemma abs_one_to_one s : store_ok s -> one_to_one (abs s).
Proof.
  intros Hs k1 k2 n. rewrite !abs_lookup by done. intros (u1 & E1 & <-) (u2 & E2 & <-).
  apply (ix_bij _ _ Hs) in E1, E2. congruence.
Qed.

Lemma abs_ext s (A : bindings) :
  store_ok s -> (forall k n, (exists u, forward s !! u = Some n /\ token_of_uid u = k) <-> A !! k = Some n) ->
  abs s = A.
Proof. intros Hs HA. apply map_eq. intros k. apply option_eq. intros n. by rewrite abs_lookup. Qed.

(** ** The operations *)

Lemma resolve_refines s c t :
  store_ok s -> good_address c -> t <> "" ->
  GetNFTPairByContractTokenID s c t = default "" (abs s !! token_of c t).
Proof.
  intros Hs Hc Ht. destruct (abs s !! token_of c t) as [n|] eqn:E.
  - cbn. apply abs_spelling in E as (u & Hu & En); [|done..].
    apply Resolve_iff; [done..| |eauto]. by eapply ix_wf.
  - cbn. unfold GetNFTPairByContractTokenID. rewrite Resolve_unbound; [done..|].
    intros u Hu. destruct (forward s !! u) as [n|] eqn:En; [|done].
    assert (abs s !! token_of c t = Some n) by (apply abs_spelling; eauto). congruence.
Qed.

Lemma holder_refines s nu r :
  store_ok s -> reverse s !! nu = Some r -> abs s !! token_of_uid r = Some nu.
Proof. intros Hs Hr. apply abs_lookup; [done|]. exists r. split; [|done]. by apply (ix_bij _ _ Hs). Qed.

Lemma taken_refines s nu : store_ok s -> taken (abs s) nu = true <-> is_Some (reverse s !! nu).
Proof.
  intros Hs. rewrite taken_spec. split.
  - intros [k Hk]. apply abs_lookup in Hk as (u & Hu & _); [|done]. apply (ix_bij _ _ Hs) in Hu. eauto.
  - intros [r Hr]. eexists. by eapply holder_refines.
Qed.

Lemma bind_refines s c t n l nu s' :
  store_ok s -> good_address c -> parseEVMTokenIDValue t true = Some (n, l) -> nu <> "" ->
  bindable s c t nu ->
  bound_store s c t nu (CreateTokenUID (CanonicalContractAddress c) (BigString n)) s' ->
  abs s' = <[token_of c t := nu]> (abs s).
Proof.
  intros Hs Hc Hp Hnu Hb Hbs. pose proof (bound_store_ok _ _ _ _ _ _ _ Hs Hc Hp Hnu Hb Hbs) as Hs'.
  pose proof (parsed_nonempty _ _ _ Hp) as Ht. pose proof (canonical_spelling c t n l Hp) as Hcan.
  destruct Hbs as (Hf & _). apply abs_ext; [done|]. intros k m.
  destruct (decide (token_of c t = k)) as [<-|Hk].
  - rewrite lookup_insert_eq. split.
    + intros (u & Hu & E). rewrite Hf in Hu. case_decide; [done|]. case_decide as Hsp; [done|].
      exfalso. apply Hsp, token_spelling; [done..| |done]. by eapply (ix_wf _ _ Hs).
    + intros [= <-]. eexists. rewrite Hf, decide_True by done. split; [done|]. by apply spelling_token.
  - rewrite lookup_insert_ne by done. rewrite abs_lookup by done. split.
    + intros (u & Hu & E). rewrite Hf in Hu. case_decide as E1.
      { subst u. exfalso. apply Hk. rewrite <- E. symmetry. by apply spelling_token. }
      case_decide; [done|]. eauto.
    + intros (u & Hu & E). exists u. split; [|done]. rewrite Hf.
      assert (u ∉ spellings c t) as Hsp by (intros Hin; apply Hk; rewrite <- E; symmetry; by apply spelling_token).
      rewrite !decide_False; [done..|]. by intros ->.
Qed.

Lemma SetNFTPairs_refused s c t cls id n l e :
  store_ok s -> good_address c -> parseEVMTokenIDValue t true = Some (n, l) ->
  SetNFTPairs s c t cls id = inl e -> bindable s c t (CreateNFTUID cls id) ->
  (l = true -> exists v m, v ∈ spellings c t /\ forward s !! v = Some m) -> False.
Proof.
  intros Hs Hc Hp E Hb Hl. destruct (proj2 (SetNFTPairs_iff s c t cls id Hs Hc)) as [s' Es]; [eauto 8|congruence].
Qed.

Lemma SetNFTPairs_legacy s c t cls id n s' :
  store_ok s -> good_address c -> parseEVMTokenIDValue t true = Some (n, true) ->
  SetNFTPairs s c t cls id = inr s' -> exists v m, v ∈ spellings c t /\ forward s !! v = Some m.
Proof.
  intros Hs Hc Hp E. destruct (proj1 (SetNFTPairs_iff s c t cls id Hs Hc)) as (n' & l & Hp' & _ & Hl); [eauto|].
  apply Hl. congruence.
Qed.

Lemma set_refines s c t cls id :
  store_ok s -> good_address c ->
  match SetNFTPairs s c t cls id with
  | inr s' => store_ok s' /\ spec_set (abs s) c t (CreateNFTUID cls id) = Some (abs s')
  | inl _ => spec_set (abs s) c t (CreateNFTUID cls id) = None
  end.
Proof.
  intros Hs Hc. set (nu := CreateNFTUID cls id). pose proof (uid_nonempty id cls : nu <> "") as Hnu.
  destruct (SetNFTPairs s c t cls id) as [e|s'] eqn:E.
  - unfold spec_set. destruct (parseEVMTokenIDValue t true) as [[n l]|] eqn:Hp; [|done].
    pose proof (parsed_nonempty _ _ _ Hp) as Ht.
    assert (token_of c t = (CanonicalContractAddress c, inl n)) as Ek
      by (unfold token_of, id_value; by rewrite Hp).
    unfold spec_bind. rewrite <- Ek. destruct (abs s !! token_of c t) as [m|] eqn:Em.
    + destruct (String.eqb_spec m nu) as [->|]; [|done]. exfalso.
      apply abs_spelling in Em as (u & Hu & Em); [|done..].
      eapply SetNFTPairs_refused; [exact Hs|exact Hc|exact Hp|exact E| |eauto]. fold nu. split.
      * intros v m Hv Hm. assert (v = u) as ->; [|congruence].
        eapply (ix_one _ _ Hs); [exact Hm|exact Em|]. by rewrite !(spelling_binding c t).
      * intros r Hr. apply (ix_bij _ _ Hs) in Em. by assert (r = u) as -> by congruence.
    + destruct l; [done|]. cbn. destruct (taken (abs s) nu) eqn:Etk; [done|]. exfalso.
      eapply SetNFTPairs_refused; [exact Hs|exact Hc|exact Hp|exact E| |done]. fold nu. split.
      * intros v m Hv Hm. assert (abs s !! token_of c t = Some m) by (apply abs_spelling; eauto). congruence.
      * intros r Hr. apply not_true_iff_false in Etk. exfalso. apply Etk, taken_refines; [done|]. eauto.
  - pose proof (SetNFTPairs_ok _ _ _ _ _ _ Hs Hc E) as (n & l & Hp & Hb & Hbs). fold nu in Hb, Hbs.
    pose proof (parsed_nonempty _ _ _ Hp) as Ht.
    split; [exact (bound_store_ok _ _ _ _ _ _ _ Hs Hc Hp Hnu Hb Hbs)|].
    assert (token_of c t = (CanonicalContractAddress c, inl n)) as Ek
      by (unfold token_of, id_value; by rewrite Hp).
    rewrite (bind_refines s c t n l nu s') by done.
    unfold spec_set, spec_bind. rewrite Hp, <- Ek. destruct Hb as [B1 B2].
    destruct (abs s !! token_of c t) as [m|] eqn:Em.
    + pose proof Em as (u & Hu & Hm)%abs_spelling; [|done..]. rewrite (B1 u m) in Em |- * by done.
      rewrite String.eqb_refl. by rewrite insert_id.
    + assert (taken (abs s) nu = false) as ->.
      { apply not_true_iff_false. intros [r Hr]%taken_refines; [|done].
        assert (abs s !! token_of c t = Some nu); [|congruence]. apply abs_spelling; [done..|].
        exists r. split; [auto|]. by apply (ix_bij _ _ Hs). }
      destruct l; [|done]. exfalso. pose proof (SetNFTPairs_legacy _ _ _ _ _ _ _ Hs Hc Hp E) as (v & m & Hv & Hm).
      assert (abs s !! token_of c t = Some m) by (apply abs_spelling; eauto). congruence.
Qed.

Lemma unbind_refines s c t cls id :
  store_ok s -> good_address c -> t <> "" -> bindable s c t (CreateNFTUID cls id) ->
  abs (deleteVoucherBindingKeys s c t cls id) = delete (token_of c t) (abs s).
Proof.
  intros Hs Hc Ht Hb. pose proof (deleteVoucherBindingKeys_ok _ _ _ _ _ Hs Hb) as Hs'.
  apply abs_ext; [done|]. intros k n. cbn. rewrite lookup_delete_Some, abs_lookup by done. split.
  - intros (u & Hu & E). rewrite DeleteNFTPairByTokenID_forward in Hu. case_decide as Hsp; [done|].
    split; [|eauto]. intros <-. apply Hsp, token_spelling; [done..| |done]. by eapply (ix_wf _ _ Hs).
  - intros (Hk & u & Hu & E). exists u. split; [|done]. rewrite DeleteNFTPairByTokenID_forward.
    rewrite decide_False; [done|]. intros Hsp. apply Hk. rewrite <- E. symmetry. by apply spelling_token.
Qed.

(** C7: in a store whose index satisfies its invariant, and for contract addresses that
    are spelled with 0x when they are hex (bare hex is excluded: there the module keeps
    two bindings apart), the UID index implements a one-to-one map from tokens to NFTs,
    whatever the case of the address and the spelling of the token id.  A look-up by
    token reads that map; a look-up by NFT finds the token bound to it, if there is one;
    SetNFTPairs succeeds exactly when binding is allowed and then stores the extended
    map; and deleting a binding removes its token. *)
Theorem index_refines_bijection s c t cls id :
  store_ok s -> good_address c -> t <> "" ->
  let nu := CreateNFTUID cls id in
  one_to_one (abs s) /\
  GetNFTPairByContractTokenID s c t = default "" (abs s !! token_of c t) /\
  (taken (abs s) nu = true <-> is_Some (reverse s !! nu)) /\
  (forall r, reverse s !! nu = Some r -> abs s !! token_of_uid r = Some nu) /\
  match SetNFTPairs s c t cls id with
  | inr s' => store_ok s' /\ spec_set (abs s) c t nu = Some (abs s')
  | inl _ => spec_set (abs s) c t nu = None
  end /\
  (bindable s c t nu -> abs (deleteVoucherBindingKeys s c t cls id) = delete (token_of c t) (abs s)).
Proof.
  intros Hs Hc Ht nu. split_and!.
  - by apply abs_one_to_one.
  - by apply resolve_refines.
  - by apply taken_refines.
  - intros r. by apply holder_refines.
  - by apply set_refines.
  - by apply unbind_refines.
Qed.
End Abstract.
