(* ===== verification/Erc721StoreSpec.v ===== *)
(** What the store of x/erc721 promises its callers: binding, resolving and
    unbinding a token under any spelling, the lookups of the pair table, the purge
    of a pair, and the genesis export and import. *)
From S2P Require Import Prelude GoStrings Sdk CollectionTypes Erc721Types Erc721Store Erc721Index.
From S2P Require Import Erc721Genesis Erc721Registry Erc721Purge Erc721Export.
Open Scope go_scope.

Section IndexSpec.
Context `{EthLaws}.
Implicit Types s : ErcStore.

(** [c2], [t2] are another spelling of the token [t1] of [c1]. *)
Definition same_token (c1 t1 c2 t2 : string) : Prop :=
  EqualContractAddress c1 c2 = true /\ EqualEVMTokenID t1 t2 = true.

Lemma same_token_variants c1 t1 c2 t2 :
  good_address c1 -> good_address c2 -> same_token c1 t1 c2 t2 -> key_variants c1 t1 = key_variants c2 t2.
Proof.
  intros G1 G2 [Ec Et]. unfold key_variants.
  by rewrite (EqualContractAddress_variants c1 c2), (EqualEVMTokenID_variants t1 t2).
Qed.

Lemma same_token_spellings c1 t1 c2 t2 :
  good_address c1 -> good_address c2 -> same_token c1 t1 c2 t2 -> spellings c1 t1 = spellings c2 t2.
Proof. intros G1 G2 Hs. unfold spellings. by rewrite (same_token_variants c1 t1 c2 t2). Qed.

(** A successful SetNFTPairs keeps the index one-to-one, binds the token and
    the NFT to each other under the canonical key, answers with the NFT for every
    spelling of the contract and of the token id, and changes no other binding. *)
Lemma SetNFTPairs_one_to_one s c t cls id s' :
  store_ok s -> good_address c -> SetNFTPairs s c t cls id = inr s' ->
  store_ok s' /\
  (exists n l, parseEVMTokenIDValue t true = Some (n, l) /\
     forward s' !! CreateTokenUID (CanonicalContractAddress c) (BigString n) = Some (CreateNFTUID cls id) /\
     GetNFTPairByClassNFTID s' cls id = CreateTokenUID (CanonicalContractAddress c) (BigString n)) /\
  (forall c2 t2, good_address c2 -> same_token c t c2 t2 ->
     GetNFTPairByContractTokenID s' c2 t2 = CreateNFTUID cls id) /\
  (forall k, k ∉ spellings c t -> forward s' !! k = forward s !! k) /\
  (forall m, m <> CreateNFTUID cls id -> reverse s' !! m = reverse s !! m).
Proof.
  intros Hs Hc Hset. apply SetNFTPairs_ok in Hset as (n & l & Hp & Hb & Hbs); [|done..].
  assert (store_ok s') as Hs' by (eapply bound_store_ok; eauto; apply uid_nonempty).
  destruct Hbs as (Hf & Hr & _). set (tu := CreateTokenUID _ _) in *.
  assert (tu ∈ spellings c t) as Htu by (by eapply canonical_spelling).
  assert (forward s' !! tu = Some (CreateNFTUID cls id)) as Hft by (by rewrite Hf, decide_True).
  split; [done|]. split; [|split; [|split]].
  - exists n, l. split; [done|]. split; [done|]. unfold GetNFTPairByClassNFTID, GetTokenUIDPairByNFTUID.
    apply kv_get_Some. by rewrite Hr, decide_True.
  - intros c2 t2 Hc2 Hst. unfold GetNFTPairByContractTokenID.
    assert (ResolveNFTUIDPair s' c2 t2 = ResolveNFTUIDPair s' c t) as ->.
    { unfold ResolveNFTUIDPair. by rewrite (same_token_variants c t c2 t2). }
    destruct (Resolve_bound s' c t tu _ Hs' Hc (parsed_nonempty _ _ _ Hp) Htu Hft) as (w & a & -> & _). done.
  - intros k Hk. rewrite Hf, !decide_False; [done..|]. by intros ->.
  - intros m Hm. by rewrite Hr, decide_False.
Qed.

(** Resolving a token does not depend on how its contract and id are spelled,
    and the answer is the NFT the index binds to one of its spellings, or "" when
    none of them is bound. *)
Lemma Resolve_any_spelling s c1 t1 c2 t2 :
  store_ok s -> good_address c1 -> good_address c2 -> t1 <> "" -> same_token c1 t1 c2 t2 ->
  ResolveNFTUIDPair s c1 t1 = ResolveNFTUIDPair s c2 t2 /\
  (forall n, n <> "" ->
     GetNFTPairByContractTokenID s c1 t1 = n <->
     exists u, u ∈ spellings c1 t1 /\ forward s !! u = Some n).
Proof.
  intros Hs G1 G2 Ht Hst. split; [unfold ResolveNFTUIDPair; by rewrite (same_token_variants c1 t1 c2 t2)|].
  intros n Hn. by apply Resolve_iff.
Qed.

(** Unbinding undoes binding: after a token that was free has been bound,
    deleting the binding under any spelling of the token restores the index; the
    refund records of the token and of the NFT are gone, every other is kept. *)
Lemma bind_unbind_roundtrip s c t cls id s' c2 t2 :
  store_ok s -> good_address c -> good_address c2 -> same_token c t c2 t2 ->
  SetNFTPairs s c t cls id = inr s' ->
  (forall u, u ∈ spellings c t -> forward s !! u = None) ->
  let s'' := deleteVoucherBindingKeys s' c2 t2 cls id in
  forward s'' = forward s /\ reverse s'' = reverse s /\
  GetEvmRefundReceiver s'' c2 id t2 = "" /\
  (forall k, k <> refund_key c2 t2 -> k <> refund_key c2 id -> refunds s'' !! k = refunds s !! k).
Proof.
  intros Hs Hc Hc2 Hst Hset Hfree. apply SetNFTPairs_ok in Hset as (n & l & Hp & [_ Hb2] & Hbs); [|done..].
  assert (reverse s !! CreateNFTUID cls id = None) as Hrev.
  { destruct (reverse s !! _) as [r|] eqn:E; [|done]. pose proof (Hb2 _ eq_refl) as Hr%Hfree.
    apply (ix_bij _ _ Hs) in E. congruence. }
  destruct Hbs as (Hf & Hr & _ & _ & _ & Href & _). set (tu := CreateTokenUID _ _) in *.
  assert (tu ∈ spellings c t) as Htu by (by eapply canonical_spelling).
  destruct (DeleteNFTPairByTokenID_rest s' c2 t2) as (R1 & _ & _ & _ & R5 & _). split; [|split; [|split]].
  - apply map_eq. intros k. cbn. rewrite DeleteNFTPairByTokenID_forward, <- (same_token_spellings c t c2 t2) by done.
    case_decide as Hk; [by rewrite Hfree|]. rewrite Hf, !decide_False; [done..|]. by intros ->.
  - apply map_eq. intros m. cbn. rewrite R1, delete_lookup. case_decide as Hm; [by subst|].
    by rewrite Hr, decide_False.
  - unfold GetEvmRefundReceiver, GetEvmAddressByContractTokenId, refund_key, kv_get. cbn.
    rewrite ToLower_idem, !delete_lookup. unfold refund_key.
    repeat (case_decide; try done); by destruct (_ || _).
  - intros k K1 K2. cbn. rewrite !delete_lookup, R5, Href. by rewrite !decide_False.
Qed.
End IndexSpec.

Section RegistrySpec.
Context `{EthLaws} `{!SdkLib} `{!SdkLaws} `{!Erc721Codec} `{!Erc721CodecLaws}.
Implicit Types s : ErcStore.

(** Under the invariant of the pair table, a registered pair is what every
    lookup returns: by its class, by any hex spelling of its contract, and by
    GetPair with either; a lookup that succeeds returns a registered pair with that
    class or that contract. *)
Lemma pair_lookups s p :
  registry_ok s ->
  (registered s p <-> GetPairByClass s (tp_ClassId p) = inr p) /\
  (forall a, HexToAddress a = GetERC721Contract p -> registered s p <-> GetPairByEVM s a = inr p) /\
  (forall a, IsHexAddress a = true -> HexToAddress a = GetERC721Contract p -> registered s p ->
     GetPair s a = inr p) /\
  (IsHexAddress (tp_ClassId p) = false -> registered s p -> GetPair s (tp_ClassId p) = inr p).
Proof.
  intros Hs. split; [|split; [|split]].
  - split; [by apply GetPairByClass_registered|]. by intros [Hr _]%GetPairByClass_inv.
  - intros a Ha. split; [intros Hr; by apply GetPairByEVM_registered|]. by intros [Hr _]%GetPairByEVM_inv.
  - intros a Hx Ha Hr. unfold GetPair, GetTokenPairID. rewrite Hx. by apply GetPairByEVM_registered.
  - intros Hx Hr. unfold GetPair, GetTokenPairID. rewrite Hx. by apply GetPairByClass_registered.
Qed.

Lemma purge_refunds s p k :
  refunds (PurgeTokenPair s p) !! k =
  if HasPrefix (ToLower k) (ToLower (Erc721Address p)) then None else refunds s !! k.
Proof. by destruct (DeletePair_rest s p) as (_ & _ & _ & _ & Hk). Qed.

Lemma delete_twice (m : gmap string string) k : delete k (delete k m) = delete k m.
Proof. by rewrite delete_delete_eq. Qed.

Lemma purge_tables s p :
  let s' := PurgeTokenPair s p in
  prefixTokenPair s' = delete (GetID p) (prefixTokenPair s) /\
  prefixTokenPairByERC721 s' = delete (ToLower (Hex (GetERC721Contract p))) (prefixTokenPairByERC721 s) /\
  prefixTokenPairByClass s' = delete (tp_ClassId p) (prefixTokenPairByClass s) /\
  KeyPrefixParams s' = KeyPrefixParams s.
Proof. cbn. by destruct (DeletePair_rest s p) as (-> & -> & -> & -> & _). Qed.

Lemma store_eq s1 s2 :
  prefixTokenPair s1 = prefixTokenPair s2 -> prefixTokenPairByERC721 s1 = prefixTokenPairByERC721 s2 ->
  prefixTokenPairByClass s1 = prefixTokenPairByClass s2 -> reverse s1 = reverse s2 ->
  forward s1 = forward s2 -> refunds s1 = refunds s2 -> KeyPrefixParams s1 = KeyPrefixParams s2 -> s1 = s2.
Proof. destruct s1, s2. cbn. by intros -> -> -> -> -> -> ->. Qed.

Lemma purge_idempotent s p :
  store_ok s -> PurgeTokenPair (PurgeTokenPair s p) p = PurgeTokenPair s p.
Proof.
  intros Hs. set (s1 := PurgeTokenPair s p).
  assert (store_ok s1) as Hs1 by (by apply purge_store_ok). pose proof (purge_store_ok s1 p Hs1) as Hs2.
  assert (forward (PurgeTokenPair s1 p) = forward s1) as Ef.
  { apply map_eq. intros k. apply option_eq. intros n. rewrite (purge_forward s1 p k n Hs1).
    unfold s1. rewrite (purge_forward s p k n Hs). tauto. }
  assert (reverse (PurgeTokenPair s1 p) = reverse s1) as Er.
  { apply map_eq. intros n. apply option_eq. intros k.
    by rewrite <- (ix_bij _ _ Hs2), <- (ix_bij _ _ Hs1), Ef. }
  assert (refunds (PurgeTokenPair s1 p) = refunds s1) as Eg.
  { apply map_eq. intros k. rewrite purge_refunds. destruct (HasPrefix _ _) eqn:E; [|done].
    unfold s1. by rewrite purge_refunds, E. }
  destruct (purge_tables s1 p) as (A1 & A2 & A3 & A4). destruct (purge_tables s p) as (B1 & B2 & B3 & _).
  apply store_eq; try done.
  - rewrite A1. unfold s1. by rewrite B1, delete_twice.
  - rewrite A2. unfold s1. by rewrite B2, delete_twice.
  - rewrite A3. unfold s1. by rewrite B3, delete_twice.
Qed.

(** The refund records of one contract are not those of another. *)
Lemma purge_refunds_other s p q id :
  registry_ok s -> registered s p -> registered s q -> q <> p ->
  GetEvmAddressByContractTokenId (PurgeTokenPair s p) (Erc721Address q) id
  = GetEvmAddressByContractTokenId s (Erc721Address q) id.
Proof.
  intros Hr Hp Hq Hne. unfold GetEvmAddressByContractTokenId, kv_get. rewrite purge_refunds. unfold refund_key.
  destruct (HasPrefix _ _) eqn:E; [|done]. exfalso. apply HasPrefix_spec in E as [r E].
  rewrite ToLower_app, ToLower_idem in E. apply str_app_inj_len in E as [E _].
  2:{ assert (pairs_len_ok s) as Hl by (by apply registry_lens).
      rewrite !len_ToLower, !Hl; [done|by apply elem_of_GetTokenPairs..]. }
  apply Hne, (registered_contract s); [done..|].
  rewrite (registered_canonical s q Hr Hq), (registered_canonical s p Hr Hp), !ToLower_idem in E.
  by apply lower_hex_inj.
Qed.

(** C20: in a store that satisfies the invariants of the index and the registry (so
    without keys that spell an address otherwise than the registry does), purging a
    registered pair removes it from both lookups, together with the bindings and refund
    records of its contract and the bindings of its class; every other pair, every other
    binding and every refund record that is not of its contract is kept, the invariants
    hold afterwards, and purging again changes nothing. *)
Theorem PurgeTokenPair_complete s p :
  store_ok s -> registry_ok s -> registered s p ->
  let s' := PurgeTokenPair s p in
  store_ok s' /\ registry_ok s' /\
  (forall q, registered s' q <-> registered s q /\ q <> p) /\
  GetPairByClass s' (tp_ClassId p) = inl (ErcErr ErrTokenPairNotFound) /\
  GetPairByEVM s' (Erc721Address p) = inl (ErcErr ErrTokenPairNotFound) /\
  (forall t n, forward s' !! t = Some n <-> forward s !! t = Some n /\ ~ of_pair p t n) /\
  (forall id, GetEvmAddressByContractTokenId s' (Erc721Address p) id = "") /\
  (forall q id, registered s q -> q <> p ->
     GetEvmAddressByContractTokenId s' (Erc721Address q) id = GetEvmAddressByContractTokenId s (Erc721Address q) id) /\
  (forall k, refunds s' !! k
     = if HasPrefix (ToLower k) (ToLower (Erc721Address p)) then None else refunds s !! k) /\
  PurgeTokenPair s' p = s'.
Proof.
  intros Hs Hr Hp s'. pose proof (purge_registry_ok s p Hr Hp) as Hr'.
  assert (forall (r : error + TokenPair),
            (exists e, r = inl e /\ e = ErcErr ErrTokenPairNotFound) \/ (exists q, r = inr q) ->
            (forall q, r <> inr q) -> r = inl (ErcErr ErrTokenPairNotFound)) as Hnf by naive_solver.
  assert (forall id, (exists e, pair_of_id s' id = inl e /\ e = ErcErr ErrTokenPairNotFound) \/
            (exists q, pair_of_id s' id = inr q)) as Hof.
  { intros id. unfold pair_of_id. destruct (id =?s ""); [eauto|]. destruct (GetTokenPair _ _); eauto. }
  split; [by apply purge_store_ok|]. split; [done|]. split; [intros q; by apply purge_registered|].
  split; [|split; [|split; [|split; [|split; [|split]]]]].
  - apply Hnf; [apply Hof|]. intros q Hq. apply GetPairByClass_inv in Hq as [Hq Ec]; [|done].
    apply purge_registered in Hq as [Hq Hne]; [|done..]. by apply Hne, (registered_class s).
  - apply Hnf; [apply Hof|]. intros q Hq. apply GetPairByEVM_inv in Hq as [Hq Ec]; [|done].
    apply purge_registered in Hq as [Hq Hne]; [|done..]. by apply Hne, (registered_contract s).
  - intros t n. by apply purge_forward.
  - intros id. unfold GetEvmAddressByContractTokenId, kv_get. unfold s'. rewrite purge_refunds.
    unfold refund_key. rewrite ToLower_app, ToLower_idem. by rewrite HasPrefix_app.
  - intros q id Hq Hne. by apply purge_refunds_other.
  - intros k. apply purge_refunds.
  - by apply purge_idempotent.
Qed.
End RegistrySpec.

Section GenesisSpec.
Context `{EthLaws} `{!SdkLib} `{!SdkLaws} `{!Erc721Codec} `{!Erc721CodecLaws} `{!FmtLib}.
Implicit Types s : ErcStore.

(** The export of the UID index is exact: it contains a binding exactly when
    both directions of the index hold it and its pair is exported too, and it
    reports no issue exactly when the index is a bijection over registered pairs. *)
Lemma ExportNFTUIDPairs_exact s :
  (forall t n, MkNFTUIDPair t n ∈ fst (ExportNFTUIDPairsWithReport s) <->
     forward s !! t = Some n /\ reverse s !! n = Some t /\
     UIDBelongsToRegisteredPair t n (GetTokenPairs s) = true) /\
  ((exists l, ExportNFTUIDPairs s = inr l) <->
   (forall t n, forward s !! t = Some n <-> reverse s !! n = Some t) /\ bindings_registered s).
Proof.
  split; [intros t n; apply elem_of_export|]. unfold bindings_registered. rewrite <- export_no_issue.
  unfold ExportNFTUIDPairs. fold (ExportNFTUIDPairsWithReport s).
  destruct (ExportNFTUIDPairsWithReport s) as [ps [|i is']]; cbn; naive_solver.
Qed.

Lemma validate_token_pairs_ok l seenE seenC :
  (forall p, p ∈ l -> TokenPair_Validate p = None /\ ToLower (Erc721Address p) ∉ seenE /\ tp_ClassId p ∉ seenC) ->
  NoDup ((fun p => ToLower (Erc721Address p)) <$> l) -> NoDup (tp_ClassId <$> l) ->
  validate_token_pairs l seenE seenC = None.
Proof.
  revert seenE seenC. induction l as [|p l IH]; intros seenE seenC Hall He Hc; [done|].
  rewrite fmap_cons in He, Hc. apply NoDup_cons in He as [He1 He2]. apply NoDup_cons in Hc as [Hc1 Hc2].
  destruct (Hall p) as (Hv & S1 & S2); [by left|]. cbn [validate_token_pairs].
  apply check_else_None. split; [by apply bool_decide_eq_true|].
  apply check_else_None. split; [by apply bool_decide_eq_true|].
  apply then_check_None. split; [done|]. apply IH; [|done..].
  intros q Hq. destruct (Hall q) as (Hvq & G1 & G2); [by right|]. split; [done|].
  split; apply not_elem_of_union; (split; [|done]); rewrite elem_of_singleton; intros E.
  - apply He1. apply list_elem_of_fmap. by exists q.
  - apply Hc1. apply list_elem_of_fmap. by exists q.
Qed.

(** The classes of the registered pairs are denoms. *)
Definition classes_ok s : Prop := forall p, registered s p -> ValidateDenom (tp_ClassId p) = true.

Lemma export_pairs_valid s :
  registry_ok s -> classes_ok s -> validate_token_pairs (GetTokenPairs s) ∅ ∅ = None.
Proof.
  intros Hs Hd. assert (forall p, registered s p -> ToLower (Erc721Address p) = Erc721Address p) as Hlow.
  { intros p Hp. rewrite (registered_canonical s p Hs Hp). apply ToLower_idem. }
  apply validate_token_pairs_ok.
  - intros p Hp%elem_of_GetTokenPairs; [|done]. split; [|set_solver].
    apply check_else_None. split; [by apply Hd|]. apply check_else_None. split; [|done].
    rewrite (registered_canonical s p Hs Hp), IsHexAddress_lower. apply IsHexAddress_Hex.
  - apply GetTokenPairs_nodup; [done|]. intros p q Hp Hq E. rewrite !Hlow in E by done.
    apply (registered_contract s); [done..|]. unfold GetERC721Contract. by rewrite E.
  - apply GetTokenPairs_nodup; [done|]. intros p q Hp Hq. by apply (registered_class s).
Qed.

(** C36: an export of a store that satisfies the module's invariants is accepted by
    the genesis validation an import runs, whatever else is stored. *)
Theorem ExportGenesis_validates s :
  registry_ok s -> classes_ok s -> refunds_ok s -> Genesis_Validate (ExportGenesis s) = None.
Proof.
  intros Hs Hd Hr. apply then_check_None. split; [by apply export_pairs_valid|].
  apply export_genesis_valid; [done|]. by apply registry_lens.
Qed.

(** C12: importing an export restores the store of x/erc721 byte for byte when the store
    satisfies the invariants (a consistent registry, a one-to-one index), every binding
    is of a registered pair, every refund record is well formed and of a registered
    contract, and the parameters are stored and not both off.  (The export leaves other
    records out on purpose.) *)
Theorem genesis_roundtrip s p :
  registry_ok s -> store_ok s -> bindings_registered s -> refunds_ok s ->
  KeyPrefixParams s = Some (Params_MarshalToSizedBuffer p) -> p <> NewParams false false ->
  InitGenesis true empty_erc (ExportGenesis s) = Some s.
Proof.
  intros Hr Hs Hb Hf Hk Hp.
  assert (GetParams s = p) as Egp.
  { unfold GetParams. rewrite Hk. destruct p as [[] []]; try done; cbn; by rewrite Params_roundtrip. }
  unfold InitGenesis, SetParams. cbn [gs_Params ExportGenesis]. rewrite Egp, Params_generated.
  cbn [negb gs_TokenPairs ExportGenesis GetTokenPairsWithReport fst].
  rewrite import_pairs_eq by (intros q ?%elem_of_GetTokenPairs; [by eapply enc_spec|done]). unfold importPerTokenState.
  rewrite export_genesis_valid by (try done; by apply registry_lens). cbn [gs_NftUidPairs gs_RefundReceivers ExportGenesis].
  rewrite import_uids_eq, import_receivers_eq. cbn.
  destruct (import_index s Hs Hb) as [-> ->]. rewrite import_receivers_all by done.
  rewrite import_table, import_classes, import_contracts, <- Hk by done. by destruct s.
Qed.
End GenesisSpec.
