(* ===== verification/Erc721Prune.v ===== *)
(** x/erc721/keeper/uid_index_prune.go: the v0.4.1 migration that removes
    duplicate forward keys.  Go ranges over maps in any order; every result is a
    set or is sorted, so the model ranges in key order. *)
From S2P Require Import Prelude GoStrings Sdk CollectionTypes Erc721Types Erc721Store Erc721Index.
From S2P Require Import Erc721Genesis Erc721Registry Erc721Purge Erc721Export.
Open Scope list_scope.

Module Erc721Prune.
Section Prune.
Context `{EthLib}.
Implicit Types s : ErcStore.

Record UIDIndexPruneReport := MkPruneReport {
  Scanned : nat; ForwardBefore : nat;
  Deleted : list string; Conflicts : list string; Orphans : list string; UnpairedNFTs : list string }.

Definition ForwardAfter (r : UIDIndexPruneReport) : Z :=
  (Z.of_nat (ForwardBefore r) - Z.of_nat (List.length (Deleted r)))%Z.
Definition Balanced (r : UIDIndexPruneReport) : bool :=
  (ForwardAfter r =? Z.of_nat (Scanned r))%Z.

(** [types.TokenUIDKeyVariants(tokenUID)[0]] *)
Definition first_variant (tokenUID : string) : string :=
  default tokenUID (head (TokenUIDKeyVariants tokenUID)).

(** byBinding *)
Definition group_keys (keys : list string) : gmap string (list string) :=
  fold_left (fun m k => <[first_variant k := default [] (m !! first_variant k) ++ [k]]> m) keys ∅.

(** The three sets the loop fills. *)
Record PruneSets := MkPruneSets {
  accounted : gset string; deleted : gset string; conflicts : gset string }.

(** The body of the inner loop, for the entry (nftUID, tokenUID) *)
Definition prune_variant (fwd : gmap string string) (authorities : gset string)
  (nftUID tokenUID : string) (a : PruneSets) (variant : string) : PruneSets :=
  if variant =?s tokenUID then a
  else if bool_decide (variant ∈ authorities) then a
  else match fwd !! variant with
       | None => a
       | Some stored =>
           let acc := {[variant]} ∪ accounted a in
           if stored =?s nftUID then MkPruneSets acc ({[variant]} ∪ deleted a) (conflicts a)
           else MkPruneSets acc (deleted a) ({[variant]} ∪ conflicts a)
       end.

(** The body of the loop over the reverse index *)
Definition prune_entry (fwd : gmap string string) (authorities : gset string)
  (byBinding : gmap string (list string)) (a : PruneSets) (entry : string * string) : PruneSets :=
  let '(nftUID, tokenUID) := entry in
  fold_left (prune_variant fwd authorities nftUID tokenUID)
    (default [] (byBinding !! first_variant tokenUID))
    (MkPruneSets ({[tokenUID]} ∪ accounted a) (deleted a) (conflicts a)).

(** sortedKeys *)
Definition sortedKeys (set : gset string) : list string := SortStrings (elements set).

Definition prune_sets s : PruneSets :=
  fold_left (prune_entry (forward s) (list_to_set (kv_iter (reverse s)).*2)
               (group_keys (kv_iter (forward s)).*1))
    (kv_iter (reverse s)) (MkPruneSets ∅ ∅ ∅).

(** PruneDuplicateUIDIndexEntries *)
Definition PruneDuplicateUIDIndexEntries s : UIDIndexPruneReport * ErcStore :=
  let fwd := forward s in
  let rev := kv_iter (reverse s) in
  let a := prune_sets s in
  let conflicts := conflicts a ∖ deleted a in
  let orphans := filter (fun k => k ∉ accounted a) (kv_iter fwd).*1 in
  let unpaired := filter (fun t => fwd !! t = None) rev.*2 in
  let s' := fold_left DeleteNFTUIDPairByTokenUID (elements (deleted a)) s in
  (MkPruneReport (List.length rev) (List.length (kv_iter fwd)) (sortedKeys (deleted a))
     (sortedKeys conflicts) (SortStrings orphans) (SortStrings unpaired), s').
End Prune.
End Erc721Prune.
Export Erc721Prune.

Section PruneFacts.
Context `{EthLib}.
Implicit Types s : ErcStore.

Lemma elem_of_group keys b k :
  k ∈ default [] (group_keys keys !! b) <-> k ∈ keys /\ first_variant k = b.
Proof.
  unfold group_keys.
  assert (forall m, k ∈ default [] (fold_left
    (fun m k => <[first_variant k := default [] (m !! first_variant k) ++ [k]]> m) keys m !! b) <->
    k ∈ default [] ((m : gmap string (list string)) !! b) \/ (k ∈ keys /\ first_variant k = b)) as Hg.
  { induction keys as [|x keys IH]; intros m; cbn [fold_left].
    - split; [auto|]. intros [?|[Hk _]]; [done|]. by apply elem_of_nil in Hk.
    - rewrite IH. destruct (decide (first_variant x = b)) as [<-|Hb].
      + rewrite lookup_insert_eq. cbn. rewrite elem_of_app, list_elem_of_singleton, elem_of_cons.
        naive_solver.
      + rewrite lookup_insert_ne by done. rewrite elem_of_cons. naive_solver. }
  rewrite Hg, lookup_empty. cbn. split; [|auto]. intros [Hk|]; [by apply elem_of_nil in Hk|done].
Qed.

(** What one reverse entry says about a forward key. *)
Definition shadows (fwd : gmap string string) (auth : gset string) (t v : string) : Prop :=
  v <> t /\ v ∉ auth /\ is_Some (fwd !! v).

Lemma prune_variants_spec fwd auth n t vs a v :
  let a' := fold_left (prune_variant fwd auth n t) vs a in
  (v ∈ accounted a' <-> v ∈ accounted a \/ (v ∈ vs /\ shadows fwd auth t v)) /\
  (v ∈ deleted a' <-> v ∈ deleted a \/ (v ∈ vs /\ shadows fwd auth t v /\ fwd !! v = Some n)) /\
  (v ∈ conflicts a' <-> v ∈ conflicts a \/ (v ∈ vs /\ shadows fwd auth t v /\ fwd !! v <> Some n)).
Proof.
  revert a. induction vs as [|x vs IH]; intros a; cbn [fold_left].
  { pose proof (not_elem_of_nil v). naive_solver. }
  destruct (IH (prune_variant fwd auth n t a x)) as (-> & -> & ->). clear IH.
  rewrite elem_of_cons. unfold prune_variant.
  destruct (String.eqb_spec x t) as [->|Hxt]; [unfold shadows; naive_solver|].
  case_bool_decide as Hx; [unfold shadows; naive_solver|].
  destruct (fwd !! x) as [st|] eqn:Ex.
  - assert (shadows fwd auth t x) by (unfold shadows; eauto).
    destruct (String.eqb_spec st n) as [->|Hst]; cbn; rewrite ?elem_of_union, ?elem_of_singleton;
      (destruct (decide (v = x)) as [->|Hv]; [|naive_solver]); rewrite Ex; naive_solver.
  - assert (~ shadows fwd auth t x) by (intros (_ & _ & [? ?]); congruence).
    destruct (decide (v = x)) as [->|Hv]; naive_solver.
Qed.

Lemma prune_entries_spec fwd auth keys es a v :
  let a' := fold_left (prune_entry fwd auth (group_keys keys)) es a in
  let group n t := (n, t) ∈ es /\ v ∈ keys /\ first_variant v = first_variant t in
  (v ∈ accounted a' <-> v ∈ accounted a \/ v ∈ es.*2 \/
     exists n t, group n t /\ shadows fwd auth t v) /\
  (v ∈ deleted a' <-> v ∈ deleted a \/
     exists n t, group n t /\ shadows fwd auth t v /\ fwd !! v = Some n) /\
  (v ∈ conflicts a' <-> v ∈ conflicts a \/
     exists n t, group n t /\ shadows fwd auth t v /\ fwd !! v <> Some n).
Proof.
  revert a. induction es as [|[n t] es IH]; intros a; cbn [fold_left].
  { pose proof (not_elem_of_nil v). split_and!; (split; [auto|]).
    - intros [?|[?|(n & t & [Hin _] & _)]]; [done|done|by apply elem_of_nil in Hin].
    - intros [?|(n & t & [Hin _] & _)]; [done|by apply elem_of_nil in Hin].
    - intros [?|(n & t & [Hin _] & _)]; [done|by apply elem_of_nil in Hin]. }
  destruct (IH (prune_entry fwd auth (group_keys keys) a (n, t))) as (-> & -> & ->). clear IH.
  unfold prune_entry.
  destruct (prune_variants_spec fwd auth n t (default [] (group_keys keys !! first_variant t))
    (MkPruneSets ({[t]} ∪ accounted a) (deleted a) (conflicts a)) v) as (-> & -> & ->).
  rewrite elem_of_group, fmap_cons, elem_of_cons. setoid_rewrite elem_of_cons. cbn [accounted deleted conflicts].
  rewrite elem_of_union, elem_of_singleton. cbn [snd]. split_and!.
  - split; [naive_solver|]. intros [?|[[->|?]|(n' & t' & ([[= -> ->]|?] & ? & ?) & ?)]]; naive_solver.
  - split; [naive_solver|]. intros [?|(n' & t' & ([[= -> ->]|?] & ? & ?) & ?)]; naive_solver.
  - split; [naive_solver|]. intros [?|(n' & t' & ([[= -> ->]|?] & ? & ?) & ?)]; naive_solver.
Qed.

(** [v] is not the key of any reverse entry, but spells the token of an NFT that
    it is bound to: a duplicate, in the sense of the comment of the source. *)
Definition authority s (v : string) : Prop := exists n, reverse s !! n = Some v.
Definition duplicate s (v n : string) : Prop :=
  forward s !! v = Some n /\ ~ authority s v /\
  exists t, reverse s !! n = Some t /\ first_variant v = first_variant t.

Lemma elem_of_authorities s v : v ∈ (list_to_set (kv_iter (reverse s)).*2 : gset string) <-> authority s v.
Proof.
  rewrite elem_of_list_to_set, list_elem_of_fmap. split.
  - intros ([n t] & -> & Hin). exists n. by apply elem_of_kv_iter.
  - intros [n Hn]. exists (n, v). by rewrite elem_of_kv_iter.
Qed.

Lemma elem_of_forward_keys s v : v ∈ (kv_iter (forward s)).*1 <-> is_Some (forward s !! v).
Proof.
  rewrite list_elem_of_fmap. split.
  - intros ([k n] & -> & Hin). apply elem_of_kv_iter in Hin. eauto.
  - intros [n Hn]. exists (v, n). by rewrite elem_of_kv_iter.
Qed.

Lemma prune_deleted s v : v ∈ deleted (prune_sets s) <-> exists n, duplicate s v n.
Proof.
  destruct (prune_entries_spec (forward s) (list_to_set (kv_iter (reverse s)).*2)
    (kv_iter (forward s)).*1 (kv_iter (reverse s)) (MkPruneSets ∅ ∅ ∅) v) as (_ & Hd & _).
  unfold prune_sets. rewrite Hd. clear Hd. unfold shadows, duplicate.
  setoid_rewrite elem_of_authorities. setoid_rewrite elem_of_kv_iter.
  setoid_rewrite elem_of_forward_keys. cbn [deleted]. split.
  - intros [He|(n & t & (Hr & _ & Hb) & (_ & Ha & _) & Hf)]; [by apply elem_of_empty in He|eauto 8].
  - intros (n & Hf & Ha & t & Hr & Hb). right. exists n, t. split_and!; eauto.
    intros ->. apply Ha. by exists n.
Qed.

Lemma prune_accounted s v :
  v ∈ accounted (prune_sets s) <->
  authority s v \/
  (is_Some (forward s !! v) /\ ~ authority s v /\
   exists n t, reverse s !! n = Some t /\ first_variant v = first_variant t).
Proof.
  destruct (prune_entries_spec (forward s) (list_to_set (kv_iter (reverse s)).*2)
    (kv_iter (forward s)).*1 (kv_iter (reverse s)) (MkPruneSets ∅ ∅ ∅) v) as (Hd & _ & _).
  unfold prune_sets. rewrite Hd. clear Hd. unfold shadows.
  rewrite <- (elem_of_authorities s v), elem_of_list_to_set.
  setoid_rewrite elem_of_list_to_set. setoid_rewrite elem_of_kv_iter.
  setoid_rewrite elem_of_forward_keys. cbn [accounted]. split.
  - intros [He|[?|(n & t & (Hr & Hs & Hb) & (_ & Ha & _))]]; [by apply elem_of_empty in He|by left|].
    right. eauto 6.
  - intros [?|(Hs & Ha & n & t & Hr & Hb)]; [auto|]. right. right. exists n, t. split_and!; auto.
    intros ->. apply Ha, list_elem_of_fmap. exists (n, t). by rewrite elem_of_kv_iter.
Qed.

Lemma prune_conflicts s v :
  v ∈ conflicts (prune_sets s) <->
  ~ authority s v /\ exists n t m, forward s !! v = Some m /\ reverse s !! n = Some t /\
    first_variant v = first_variant t /\ m <> n.
Proof.
  destruct (prune_entries_spec (forward s) (list_to_set (kv_iter (reverse s)).*2)
    (kv_iter (forward s)).*1 (kv_iter (reverse s)) (MkPruneSets ∅ ∅ ∅) v) as (_ & _ & Hd).
  unfold prune_sets. rewrite Hd. clear Hd. unfold shadows.
  setoid_rewrite elem_of_authorities. setoid_rewrite elem_of_kv_iter.
  setoid_rewrite elem_of_forward_keys. cbn [conflicts]. split.
  - intros [He|(n & t & (Hr & _ & Hb) & (_ & Ha & [m Hm]) & Hf)]; [by apply elem_of_empty in He|].
    split; [done|]. exists n, t, m. split_and!; [done..|]. congruence.
  - intros (Ha & n & t & m & Hm & Hr & Hb & Hne). right. exists n, t. split_and!; eauto; [|congruence].
    intros ->. apply Ha. by exists n.
Qed.

Lemma prune_forward s v n :
  forward (snd (PruneDuplicateUIDIndexEntries s)) !! v = Some n <->
  forward s !! v = Some n /\ ~ duplicate s v n.
Proof.
  cbn. rewrite delete_keys_forward. case_decide as Hd; rewrite elem_of_elements, prune_deleted in Hd.
  - split; [done|]. intros [Hf Hn]. exfalso. destruct Hd as [m Hm]. apply Hn.
    destruct Hm as (Hf' & Hrest). assert (m = n) as -> by congruence. by split.
  - split; [|tauto]. intros Hf. split; [done|]. intros Hdup. eauto.
Qed.

Lemma prune_rest s : index_only s (snd (PruneDuplicateUIDIndexEntries s)) /\
  reverse (snd (PruneDuplicateUIDIndexEntries s)) = reverse s.
Proof.
  cbn. destruct (delete_keys_rest (elements (deleted (prune_sets s))) s)
    as (Er & E1 & E2 & E3 & E4 & E5). by split.
Qed.

Lemma prune_converges_aux s v n :
  ~ duplicate (snd (PruneDuplicateUIDIndexEntries s)) v n.
Proof.
  intros (Hf & Ha & t & Hr & Hb). destruct (prune_rest s) as [_ Er].
  apply prune_forward in Hf as [Hf Hd]. apply Hd. split; [done|].
  unfold authority in *. rewrite Er in *. split; [done|]. eauto.
Qed.

Lemma no_duplicate_deleted s : (forall v n, ~ duplicate s v n) -> deleted (prune_sets s) = ∅.
Proof. intros Hn. apply leibniz_equiv. intros v. rewrite prune_deleted, elem_of_empty. naive_solver. Qed.

(** C37: the prune deletes exactly the duplicates, touches nothing but the forward
    index, and lists what it deleted; every binding both of whose halves were
    stored is still resolvable afterwards. *)
Theorem prune_deletes_exactly_duplicates s :
  let r := fst (PruneDuplicateUIDIndexEntries s) in
  let s' := snd (PruneDuplicateUIDIndexEntries s) in
  (forall v n, forward s' !! v = Some n <-> forward s !! v = Some n /\ ~ duplicate s v n) /\
  index_only s s' /\ reverse s' = reverse s /\
  (forall v, v ∈ Deleted r <-> exists n, duplicate s v n) /\
  (forall t n, forward s !! t = Some n -> reverse s !! n = Some t ->
     forward s' !! t = Some n /\ reverse s' !! n = Some t).
Proof.
  destruct (prune_rest s) as [Ho Er]. split_and!; [apply prune_forward|apply Ho..|done| |].
  - intros v. cbn. unfold sortedKeys. rewrite elem_of_SortStrings, elem_of_elements. apply prune_deleted.
  - intros t n Hf Hr. rewrite prune_forward, Er. split; [|done]. split; [done|].
    intros (_ & Ha & _). apply Ha. by exists n.
Qed.

(** The prune is idempotent: a second pass deletes nothing and leaves the
    store as it is, which is what lets the upgrade handler run it unguarded. *)
Lemma prune_idempotent s :
  let s' := snd (PruneDuplicateUIDIndexEntries s) in
  snd (PruneDuplicateUIDIndexEntries s') = s' /\
  Deleted (fst (PruneDuplicateUIDIndexEntries s')) = [].
Proof.
  intros s'. assert (deleted (prune_sets s') = ∅) as E
    by (apply no_duplicate_deleted; intros v n; apply prune_converges_aux).
  clearbody s'. unfold PruneDuplicateUIDIndexEntries. cbn [fst snd Deleted]. rewrite E.
  unfold sortedKeys. rewrite elements_empty. done.
Qed.

(** When the report shows no conflict, no orphan and no unpaired entry, the
    forward keys left are exactly the keys the reverse entries point at. *)
Lemma prune_clean_report s :
  let r := fst (PruneDuplicateUIDIndexEntries s) in
  let s' := snd (PruneDuplicateUIDIndexEntries s) in
  Conflicts r = [] -> Orphans r = [] -> UnpairedNFTs r = [] ->
  forall t, is_Some (forward s' !! t) <-> authority s' t.
Proof.
  intros r s' Hc Ho Hu t. destruct (prune_rest s) as [_ Er].
  assert (forall l : list string, SortStrings l = [] -> l = []) as Hnil.
  { intros l Hl. apply Permutation_nil. by rewrite <- Hl, SortStrings_perm. }
  apply Hnil in Ho, Hu. apply Hnil, elements_empty_inv in Hc.
  unfold authority, s'. rewrite Er. fold (authority s t). split.
  - intros [n Hn]. apply prune_forward in Hn as [Hf Hd].
    destruct (decide (t ∈ accounted (prune_sets s))) as [Hacc|Hacc].
    + apply prune_accounted in Hacc as [?|(_ & Ha & m & t' & Hr & Hb)]; [done|]. exfalso.
      destruct (decide (n = m)) as [->|Hne]; [apply Hd; split; eauto|].
      assert (t ∈ conflicts (prune_sets s) ∖ deleted (prune_sets s)) as Hin.
      { apply elem_of_difference. rewrite prune_conflicts, prune_deleted. split; [eauto 9|].
        intros [m' Hm']. pose proof Hm' as (Hf' & _). assert (m' = n) as -> by congruence. done. }
      by apply Hc in Hin.
    + exfalso. assert (t ∈ filter (fun k => k ∉ accounted (prune_sets s)) (kv_iter (forward s)).*1) as Hin.
      { apply list_elem_of_filter. split; [done|]. apply elem_of_forward_keys. eauto. }
      rewrite Ho in Hin. by apply elem_of_nil in Hin.
  - intros Ha. destruct (forward s !! t) as [n|] eqn:Hf.
    + exists n. apply prune_forward. split; [done|]. by intros (_ & Hna & _).
    + exfalso. assert (t ∈ filter (fun t => forward s !! t = None) (kv_iter (reverse s)).*2) as Hin.
      { apply list_elem_of_filter. split; [done|].
        by rewrite <- (elem_of_list_to_set (C:=gset string)), elem_of_authorities. }
      rewrite Hu in Hin. by apply elem_of_nil in Hin.
Qed.
End PruneFacts.
