(* ===== verification/Cw721Types.v ===== *)
(** x/cw721/types: identifiers (utils.go), token pairs (token_pair.go), parameters
    (params.go), messages with their stateless validation (msg.go) and genesis
    validation (genesis.go).  The module is the twin of x/erc721 over CosmWasm; its
    names are kept in Modules that importing files open explicitly. *)
From S2P Require Import Prelude GoStrings Utf8 Sdk CollectionTypes.
Open Scope go_scope.

Module Cw721Types.

(** ** Data (cw721.pb.go, genesis.pb.go, tx.pb.go) *)
Record TokenPair := NewTokenPair { Cw721Address : string; tp_ClassId : string }.
Record NFTUIDPair := MkNFTUIDPair { TokenUid : string; NftUid : string }.
Record RefundReceiver := MkRefundReceiver {
  rr_ContractAddress : string; rr_TokenId : string; rr_Owner : string }.
Record Params := MkParams { EnableCw721 : bool; EnableEVMHook : bool; WasmCodeId : Z }.
Record GenesisState := MkGenesisState {
  gs_Params : Params; gs_TokenPairs : list TokenPair; gs_NftUidPairs : list NFTUIDPair;
  gs_RefundReceivers : list RefundReceiver }.

Record MsgConvertNFT := MkMsgConvertNFT {
  cn_ClassId : string; cn_NftIds : list string; cn_Receiver : string; cn_Sender : string;
  cn_ContractAddress : string; cn_TokenIds : list string }.
Record MsgConvertCW721 := MkMsgConvertCW721 {
  cc_ContractAddress : string; cc_TokenIds : list string; cc_Receiver : string; cc_Sender : string;
  cc_ClassId : string; cc_NftIds : list string }.
Record MsgTransferCW721 := MkMsgTransferCW721 {
  tc_CwContractAddress : string; tc_CwTokenIds : list string; tc_SourcePort : string;
  tc_SourceChannel : string; tc_ClassId : string; tc_CosmosTokenIds : list string;
  tc_CwSender : string; tc_CosmosReceiver : string; tc_Timeout : Timeout; tc_Memo : string }.
Record MsgUpdateParams := MkMsgUpdateParams { up_Authority : string; up_Params : Params }.

(** ** params.go *)
Definition NewParams (enableCw721 enableEVMHook : bool) : Params := MkParams enableCw721 enableEVMHook 0.
Definition DefaultParams : Params := MkParams true true 0.
(** Validate rejects nothing. *)
Definition Params_Validate (p : Params) : option error := None.

(** ** keys.go *)
Definition DefaultPrefix : string := "uptick".
Definition cw721_ModuleName : string := "cw721".
Definition TransferCW721Memo : string := ":IBCTransferFromCW721".

(** ** utils.go: identifiers *)

Definition removeAddress0x (address : string) : string :=
  if HasPrefix address "0x" then str_drop 2 address else address.

Definition CreateClassIDFromContractAddress (address : string) : string :=
  DefaultPrefix +:+ "-" +:+ removeAddress0x address.

Definition CreateContractAddressFromClassID (classID : string) : string :=
  RemoveFirst classID (DefaultPrefix +:+ "-").

Definition CreateNFTIDFromTokenID (id : string) : string :=
  DefaultPrefix +:+ removeAddress0x id.

Definition CreateTokenIDFromNFTID (nftID : string) : string :=
  let hyphenPrefix := DefaultPrefix +:+ "-" in
  if HasPrefix nftID hyphenPrefix then TrimPrefix nftID hyphenPrefix
  else if HasPrefix nftID DefaultPrefix then TrimPrefix nftID DefaultPrefix
  else nftID.

Definition CreateTokenUID (contractAddress tokenID : string) : string :=
  tokenID +:+ "," +:+ contractAddress.

Definition CreateNFTUID (classID nftID : string) : string :=
  nftID +:+ "," +:+ classID.

Definition GetNFTFromUID (uid : string) : string * string :=
  match LastIndex uid "," with
  | None => ("", "")
  | Some idx =>
      if (idx <=? 0) || (idx =? len uid - 1) then ("", "")
      else (str_take idx uid, str_drop (S idx) uid)
  end.

Section Types.
Context `{SdkLib}.

Definition AccModuleAddress : string := NewModuleAddress cw721_ModuleName.

(** ** token_pair.go *)

Definition GetID (tp : TokenPair) : string :=
  tmhash_Sum (Cw721Address tp +:+ "|" +:+ tp_ClassId tp).

Definition ErrDenomSdk : error := ExtErr "invalid denom".
Definition ErrBech32 : error := ExtErr "bech32".
Definition is_bech32 (s : string) : bool :=
  match AccAddressFromBech32 s with Some _ => true | None => false end.

Definition TokenPair_Validate (tp : TokenPair) : option error :=
  check (ValidateDenom (tp_ClassId tp)) else ErrDenomSdk ;;
  check (is_bech32 (Cw721Address tp)) else ErrBech32 ;;
  None.

(** ** msg.go *)

Definition ErrRequest : error := SdkErr ErrInvalidRequest.
Definition nonempty {A} (l : list A) : bool := match l with [] => false | _ => true end.

(** The loop over NFT ids: each non-empty, each a valid x/collection id. *)
Fixpoint validate_nft_ids (ids : list string) : option error :=
  match ids with
  | [] => None
  | id :: rest =>
      check (id <>?s "") else ErrRequest ;;
      then_check (ValidateTokenID id) (validate_nft_ids rest)
  end.

(** The loop over CW721 token ids: each non-empty. *)
Fixpoint validate_token_ids (ids : list string) : option error :=
  match ids with
  | [] => None
  | id :: rest => check (id <>?s "") else ErrRequest ;; validate_token_ids rest
  end.

(** MsgConvertNFT.ValidateBasic *)
Definition MsgConvertNFT_ValidateBasic (msg : MsgConvertNFT) : option error :=
  check (is_bech32 (cn_Sender msg)) else ErrBech32 ;;
  check (is_bech32 (cn_Receiver msg)) else ErrBech32 ;;
  check (IsBlank (cn_ContractAddress msg) || is_bech32 (cn_ContractAddress msg))
    else SdkErr ErrInvalidAddress ;;
  check (negb (IsBlank (cn_ClassId msg))) else ErrRequest ;;
  check (nonempty (cn_NftIds msg)) else ErrRequest ;;
  then_check (validate_nft_ids (cn_NftIds msg)) (validate_token_ids (cn_TokenIds msg)).

(** MsgConvertCW721.ValidateBasic *)
Definition MsgConvertCW721_ValidateBasic (msg : MsgConvertCW721) : option error :=
  check (is_bech32 (cc_Sender msg)) else ErrBech32 ;;
  check (is_bech32 (cc_Receiver msg)) else ErrBech32 ;;
  check (is_bech32 (cc_ContractAddress msg)) else SdkErr ErrInvalidAddress ;;
  check (negb (IsBlank (cc_ClassId msg))) else ErrRequest ;;
  check (nonempty (cc_TokenIds msg)) else ErrRequest ;;
  then_check (validate_token_ids (cc_TokenIds msg)) (validate_nft_ids (cc_NftIds msg)).

(** [msg.TimeoutHeight.IsZero() && msg.TimeoutTimestamp == 0] *)
Definition no_timeout (t : Timeout) : bool :=
  ((RevisionNumber t =? 0) && (RevisionHeight t =? 0) && (TimeoutTimestamp t =? 0))%Z.

(** MsgTransferCW721.ValidateBasic *)
Definition MsgTransferCW721_ValidateBasic (msg : MsgTransferCW721) : option error :=
  check (is_bech32 (tc_CwSender msg)) else ErrBech32 ;;
  check (is_bech32 (tc_CosmosReceiver msg)) else ErrBech32 ;;
  check (is_bech32 (tc_CwContractAddress msg)) else SdkErr ErrInvalidAddress ;;
  check (negb (IsBlank (tc_ClassId msg))) else ErrRequest ;;
  check (nonempty (tc_CwTokenIds msg)) else ErrRequest ;;
  then_check (validate_token_ids (tc_CwTokenIds msg))
  (check (negb (IsBlank (tc_SourcePort msg))) else ErrRequest ;;
   check (negb (IsBlank (tc_SourceChannel msg))) else ErrRequest ;;
   then_check (validate_nft_ids (tc_CosmosTokenIds msg))
   (check (negb (no_timeout (tc_Timeout msg))) else ErrRequest ;; None)).

(** MsgUpdateParams.ValidateBasic (msg_update_params.go) *)
Definition MsgUpdateParams_ValidateBasic (msg : MsgUpdateParams) : option error :=
  check (is_bech32 (up_Authority msg)) else ErrBech32 ;;
  Params_Validate (up_Params msg).

(** GetSigners: the account named as sender, nobody when it does not parse;
    UpdateParams panics ([None]) on an authority that does not parse *)
Definition sender_signers (sender : string) : list string :=
  match AccAddressFromBech32 sender with Some a => [a] | None => [] end.
Definition MsgConvertNFT_GetSigners (msg : MsgConvertNFT) : list string := sender_signers (cn_Sender msg).
Definition MsgConvertCW721_GetSigners (msg : MsgConvertCW721) : list string := sender_signers (cc_Sender msg).
Definition MsgTransferCW721_GetSigners (msg : MsgTransferCW721) : list string :=
  sender_signers (tc_CwSender msg).
Definition MsgUpdateParams_GetSigners (msg : MsgUpdateParams) : option (list string) :=
  (fun a => [a]) <$> AccAddressFromBech32 (up_Authority msg).

(** ** genesis.go *)

Definition DefaultGenesisState : GenesisState := MkGenesisState DefaultParams [] [] [].

Definition UIDBelongsToRegisteredPair (tokenUID nftUID : string) (tokenPairs : list TokenPair) : bool :=
  let contract := snd (GetNFTFromUID tokenUID) in
  let classID := snd (GetNFTFromUID nftUID) in
  if (contract =?s "") || (classID =?s "") then false
  else existsb (fun tp => EqualFold (Cw721Address tp) contract && (tp_ClassId tp =?s classID)) tokenPairs.

Definition ErrPair : error := CwErr CwErrInternalTokenPair.

Fixpoint validate_uid_pairs (tokenPairs : list TokenPair) (pairs : list NFTUIDPair)
  (seenToken seenNFT : gset string) : option error :=
  match pairs with
  | [] => None
  | p :: rest =>
      check (negb ((TokenUid p =?s "") || (NftUid p =?s ""))) else ErrPair ;;
      check (bool_decide (TokenUid p ∉ seenToken)) else ErrPair ;;
      check (bool_decide (NftUid p ∉ seenNFT)) else ErrPair ;;
      check (UIDBelongsToRegisteredPair (TokenUid p) (NftUid p) tokenPairs) else ErrPair ;;
      validate_uid_pairs tokenPairs rest ({[TokenUid p]} ∪ seenToken) ({[NftUid p]} ∪ seenNFT)
  end.

Fixpoint validate_receivers (registered : list string) (receivers : list RefundReceiver)
  (seenRefund : gset string) : option error :=
  match receivers with
  | [] => None
  | r :: rest =>
      check (negb ((rr_ContractAddress r =?s "") || (rr_TokenId r =?s "") || (rr_Owner r =?s "")))
        else ErrPair ;;
      check (bool_decide (ToLower (rr_ContractAddress r) ∈ registered)) else ErrPair ;;
      let dedupe := ToLower (rr_ContractAddress r) +:+ "," +:+ rr_TokenId r in
      check (bool_decide (dedupe ∉ seenRefund)) else ErrPair ;;
      validate_receivers registered rest ({[dedupe]} ∪ seenRefund)
  end.

(** ValidateGenesisPairs *)
Definition ValidateGenesisPairs (pairs : list NFTUIDPair) (receivers : list RefundReceiver)
  (tokenPairs : list TokenPair) : option error :=
  then_check (validate_uid_pairs tokenPairs pairs ∅ ∅)
    (validate_receivers ((fun tp => ToLower (Cw721Address tp)) <$> tokenPairs) receivers ∅).

Definition ErrDuplicated : error := ExtErr "duplicated on genesis".

Fixpoint validate_token_pairs (pairs : list TokenPair) (seencw721 seenClass : gset string)
  : option error :=
  match pairs with
  | [] => None
  | b :: rest =>
      let key := ToLower (Cw721Address b) in
      check (bool_decide (key ∉ seencw721)) else ErrDuplicated ;;
      check (bool_decide (tp_ClassId b ∉ seenClass)) else ErrDuplicated ;;
      then_check (TokenPair_Validate b)
        (validate_token_pairs rest ({[key]} ∪ seencw721) ({[tp_ClassId b]} ∪ seenClass))
  end.

(** GenesisState.Validate *)
Definition Genesis_Validate (gs : GenesisState) : option error :=
  then_check (validate_token_pairs (gs_TokenPairs gs) ∅ ∅)
  (then_check (ValidateGenesisPairs (gs_NftUidPairs gs) (gs_RefundReceivers gs) (gs_TokenPairs gs))
    (Params_Validate (gs_Params gs))).
End Types.
End Cw721Types.
