(* ===== verification/Cw721Store.v ===== *)
(** x/cw721/keeper/token_pairs.go, pair.go, normalize.go and params.go: the module's
    store.  Reads are functions of the store; writes are functions from store to
    store; the keeper methods other components call run them on the [Ctx]. *)
From S2P Require Import Prelude GoStrings Utf8 GoJson Sdk CollectionTypes Cw721Types.
Import Cw721Types.
Open Scope go_scope.

Module Cw721Store.

(** The protobuf codec of the two records the store holds. *)
Class Cw721Codec := {
  Marshal_TokenPair : TokenPair -> error + string;
  Unmarshal_TokenPair : string -> error + TokenPair;
  Marshal_Params : Params -> error + string;
  Unmarshal_Params : string -> error + Params;
}.

Class Cw721CodecLaws `{Cw721Codec} : Prop := {
  TokenPair_roundtrip p bz : Marshal_TokenPair p = inr bz -> Unmarshal_TokenPair bz = inr p;
  (** a record with a non-empty field has a non-empty encoding *)
  TokenPair_nonempty p bz : Marshal_TokenPair p = inr bz -> Cw721Address p <> "" -> bz <> "";
  Params_total p : (0 <= WasmCodeId p < 2 ^ 64)%Z -> exists bz, Marshal_Params p = inr bz;
  Params_roundtrip p bz : (0 <= WasmCodeId p < 2 ^ 64)%Z ->
    Marshal_Params p = inr bz -> Unmarshal_Params bz = inr p;
}.

(** ** Store updates, one per prefix *)
Definition upd_TokenPair (f : gmap string string -> gmap string string) (s : CwStore) : CwStore :=
  MkCwStore (f (cw_TokenPair s)) (cw_TokenPairByCW721 s) (cw_TokenPairByClass s)
    (cw_NFTUIDPairByNFTUID s) (cw_NFTUIDPairByTokenUID s) (cw_WasmCode s)
    (cw_AddressByContractTokenId s) (cw_Params s).
Definition upd_ByCW721 (f : gmap string string -> gmap string string) (s : CwStore) : CwStore :=
  MkCwStore (cw_TokenPair s) (f (cw_TokenPairByCW721 s)) (cw_TokenPairByClass s)
    (cw_NFTUIDPairByNFTUID s) (cw_NFTUIDPairByTokenUID s) (cw_WasmCode s)
    (cw_AddressByContractTokenId s) (cw_Params s).
Definition upd_ByClass (f : gmap string string -> gmap string string) (s : CwStore) : CwStore :=
  MkCwStore (cw_TokenPair s) (cw_TokenPairByCW721 s) (f (cw_TokenPairByClass s))
    (cw_NFTUIDPairByNFTUID s) (cw_NFTUIDPairByTokenUID s) (cw_WasmCode s)
    (cw_AddressByContractTokenId s) (cw_Params s).
Definition upd_Reverse (f : gmap string string -> gmap string string) (s : CwStore) : CwStore :=
  MkCwStore (cw_TokenPair s) (cw_TokenPairByCW721 s) (cw_TokenPairByClass s)
    (f (cw_NFTUIDPairByNFTUID s)) (cw_NFTUIDPairByTokenUID s) (cw_WasmCode s)
    (cw_AddressByContractTokenId s) (cw_Params s).
Definition upd_Forward (f : gmap string string -> gmap string string) (s : CwStore) : CwStore :=
  MkCwStore (cw_TokenPair s) (cw_TokenPairByCW721 s) (cw_TokenPairByClass s)
    (cw_NFTUIDPairByNFTUID s) (f (cw_NFTUIDPairByTokenUID s)) (cw_WasmCode s)
    (cw_AddressByContractTokenId s) (cw_Params s).
Definition upd_WasmCode (f : gmap string string -> gmap string string) (s : CwStore) : CwStore :=
  MkCwStore (cw_TokenPair s) (cw_TokenPairByCW721 s) (cw_TokenPairByClass s)
    (cw_NFTUIDPairByNFTUID s) (cw_NFTUIDPairByTokenUID s) (f (cw_WasmCode s))
    (cw_AddressByContractTokenId s) (cw_Params s).
Definition upd_Refund (f : gmap string string -> gmap string string) (s : CwStore) : CwStore :=
  MkCwStore (cw_TokenPair s) (cw_TokenPairByCW721 s) (cw_TokenPairByClass s)
    (cw_NFTUIDPairByNFTUID s) (cw_NFTUIDPairByTokenUID s) (cw_WasmCode s)
    (f (cw_AddressByContractTokenId s)) (cw_Params s).
Definition upd_Params (v : string) (s : CwStore) : CwStore :=
  MkCwStore (cw_TokenPair s) (cw_TokenPairByCW721 s) (cw_TokenPairByClass s)
    (cw_NFTUIDPairByNFTUID s) (cw_NFTUIDPairByTokenUID s) (cw_WasmCode s)
    (cw_AddressByContractTokenId s) (Some v).

(** Abbreviations for the bidirectional NFT UID index. *)
Notation forward := cw_NFTUIDPairByTokenUID.
Notation reverse := cw_NFTUIDPairByNFTUID.
Notation refunds := cw_AddressByContractTokenId.

Section Store.
Context `{SdkLib} `{Cw721Codec}.
Implicit Types s : CwStore.

(** ** normalize.go *)

Definition NormalizeCW721Address (addr : string) : error + string :=
  match AccAddressFromBech32 addr with
  | None => inl (CwErr CwErrInternalTokenPair)
  | Some a => inr (acc_String a)
  end.

Definition canonicalCW721Key (addr : string) : string :=
  match AccAddressFromBech32 addr with Some a => acc_String a | None => addr end.

(** ** Token pairs *)

(** GetTokenPairs: the records that decode; the others are reported by
    GetTokenPairsWithReport (Cw721Genesis.v) *)
Definition GetTokenPairs s : list TokenPair :=
  omap (fun kv => match Unmarshal_TokenPair (snd kv) with inr p => Some p | inl _ => None end)
       (kv_iter (cw_TokenPair s)).

(** GetTokenPair.  An id of length zero that is not nil would be looked up; the
    callers pass no such id. *)
Definition GetTokenPair s (id : string) : option TokenPair :=
  if id =?s "" then None
  else
    let bz := kv_get (cw_TokenPair s) id in
    if bz =?s "" then None
    else match Unmarshal_TokenPair bz with inr p => Some p | inl _ => None end.

Definition SetTokenPair s (tokenPair : TokenPair) : error + CwStore :=
  match Marshal_TokenPair tokenPair with
  | inl e => inl e
  | inr bz => inr (upd_TokenPair <[GetID tokenPair := bz]> s)
  end.

Definition SetWasmCode s (account : string) (codeId : Z) : CwStore :=
  upd_WasmCode <[account := FormatUint codeId]> s.
Definition GetWasmCode s (account : string) : string := kv_get (cw_WasmCode s) account.

Definition DeleteTokenPair s (tokenPair : TokenPair) : CwStore :=
  upd_TokenPair (delete (GetID tokenPair)) s.

Definition SetCW721Map s (cw721 id : string) : CwStore :=
  upd_ByCW721 <[canonicalCW721Key cw721 := id]> s.
Definition GetCW721Map s (cw721 : string) : string :=
  kv_get (cw_TokenPairByCW721 s) (canonicalCW721Key cw721).
Definition GetClassMap s (classID : string) : string := kv_get (cw_TokenPairByClass s) classID.
Definition DeleteCW721Map s (cw721 : string) : CwStore :=
  upd_ByCW721 (delete (canonicalCW721Key cw721)) s.
Definition SetClassMap s (classID id : string) : CwStore := upd_ByClass <[classID := id]> s.

Definition IsTokenPairRegistered s (id : string) : bool := kv_has (cw_TokenPair s) id.
Definition IsCW721Registered s (cw721 : string) : bool :=
  kv_has (cw_TokenPairByCW721 s) (canonicalCW721Key cw721).
Definition IsClassRegistered s (classID : string) : bool := kv_has (cw_TokenPairByClass s) classID.

Definition GetTokenPairID s (token : string) : string :=
  if GetClassMap s token <>?s "" then GetClassMap s token else GetCW721Map s token.

(** ** pair.go *)

Definition pairFromID s (id : string) : error + TokenPair :=
  if id =?s "" then inl (CwErr CwErrTokenPairNotFound)
  else match GetTokenPair s id with
       | Some p => inr p
       | None => inl (CwErr CwErrTokenPairNotFound)
       end.

Definition GetPair s (token : string) : error + TokenPair :=
  if GetClassMap s token <>?s "" then pairFromID s (GetClassMap s token)
  else pairFromID s (GetCW721Map s token).
Definition GetPairByClass s (classID : string) : error + TokenPair := pairFromID s (GetClassMap s classID).
Definition GetPairByCW721 s (contract : string) : error + TokenPair := pairFromID s (GetCW721Map s contract).

(** ** The bidirectional NFT UID index *)

Definition GetNFTUIDPairByTokenUID s (tokenUID : string) : string := kv_get (forward s) tokenUID.
Definition GetTokenUIDPairByNFTUID s (nftUID : string) : string := kv_get (reverse s) nftUID.

Definition SetNFTUIDPairByTokenUID s (tokenUID nftUID : string) : CwStore :=
  upd_Forward <[tokenUID := nftUID]> s.
Definition SetNFTUIDPairByNFTUID s (nftUID tokenUID : string) : CwStore :=
  upd_Reverse <[nftUID := tokenUID]> s.
Definition DeleteNFTUIDPairByTokenUID s (tokenUID : string) : CwStore :=
  upd_Forward (delete tokenUID) s.
Definition DeleteNFTUIDPairByNFTUID s (nftUID : string) : CwStore :=
  upd_Reverse (delete nftUID) s.

Definition SetNFTPairByContractTokenID s (contractAddress tokenID classID nftID : string) : CwStore :=
  SetNFTUIDPairByTokenUID s (CreateTokenUID contractAddress tokenID) (CreateNFTUID classID nftID).
Definition SetNFTPairByClassNFTID s (classID nftID contractAddress tokenID : string) : CwStore :=
  SetNFTUIDPairByNFTUID s (CreateNFTUID classID nftID) (CreateTokenUID contractAddress tokenID).
Definition GetNFTPairByContractTokenID s (contractAddress tokenID : string) : string :=
  GetNFTUIDPairByTokenUID s (CreateTokenUID contractAddress tokenID).
Definition GetNFTPairByClassNFTID s (classID nftID : string) : string :=
  GetTokenUIDPairByNFTUID s (CreateNFTUID classID nftID).
Definition DeleteNFTPairByTokenID s (contractAddress tokenID : string) : CwStore :=
  DeleteNFTUIDPairByTokenUID s (CreateTokenUID contractAddress tokenID).
Definition DeleteNFTPairByNFTID s (classID nftID : string) : CwStore :=
  DeleteNFTUIDPairByNFTUID s (CreateNFTUID classID nftID).

(** SetNFTPairs: both checks come before the writes. *)
Definition SetNFTPairs s (contractAddress tokenID classID nftID : string) : error + CwStore :=
  let tokenUID := CreateTokenUID contractAddress tokenID in
  let nftUID := CreateNFTUID classID nftID in
  let fwd := GetNFTUIDPairByTokenUID s tokenUID in
  let rev := GetTokenUIDPairByNFTUID s nftUID in
  if (fwd <>?s "") && (fwd <>?s nftUID) then inl (CwErr CwErrNFTMappingConflict)
  else if (rev <>?s "") && (rev <>?s tokenUID) then inl (CwErr CwErrNFTMappingConflict)
  else
    let s1 := if fwd =?s "" then SetNFTPairByContractTokenID s contractAddress tokenID classID nftID else s in
    inr (if rev =?s "" then SetNFTPairByClassNFTID s1 classID nftID contractAddress tokenID else s1).

(** ** IBC refund receivers *)

Definition SetCwAddressByContractTokenId s (cwContractAddress cwTokenId cwReceiver : string) : CwStore :=
  upd_Refund <[cwContractAddress +:+ cwTokenId := cwReceiver]> s.
Definition GetCwAddressByContractTokenId s (cwContractAddress cwTokenId : string) : string :=
  kv_get (refunds s) (cwContractAddress +:+ cwTokenId).
Definition DeleteCwAddressByContractTokenId s (cwContractAddress cwTokenId : string) : CwStore :=
  upd_Refund (delete (cwContractAddress +:+ cwTokenId)) s.

(** ** params.go, and GetWasmCodeID of wasm.go, which reads the code ids *)

(** GetWasmCodeID: the module account's entry, then the module name's *)
Fixpoint wasm_code_of s (keys : list string) : error + Z :=
  match keys with
  | [] => inl (CwErr CwErrCW721CodeNotFound)
  | key :: rest =>
      let bz := GetWasmCode s key in
      if bz =?s "" then wasm_code_of s rest
      else match ParseUint bz with
           | None => inl (CwErr CwErrCW721CodeNotFound)
           | Some codeID => if (codeID =? 0)%Z then wasm_code_of s rest else inr codeID
           end
  end.

Definition GetWasmCodeID s : error + Z :=
  wasm_code_of s [acc_String AccModuleAddress; cw721_ModuleName].

(** GetParams: a code id of zero is filled in from the stored code ids *)
Definition GetParams s : Params :=
  match cw_Params s with
  | None => DefaultParams
  | Some bz =>
      match Unmarshal_Params bz with
      | inl _ => DefaultParams
      | inr params =>
          if (WasmCodeId params =? 0)%Z then
            match GetWasmCodeID s with
            | inr id => MkParams (EnableCw721 params) (EnableEVMHook params) id
            | inl _ => params
            end
          else params
      end
  end.

Definition SetParams s (params : Params) : error + CwStore :=
  match Marshal_Params params with
  | inl e => inl e
  | inr bz =>
      let s := upd_Params bz s in
      inr (if (WasmCodeId params =? 0)%Z then s
           else SetWasmCode s cw721_ModuleName (WasmCodeId params))
  end.

Definition GetEnableCw721 s : bool := EnableCw721 (GetParams s).
Definition GetEnableEVMHook s : bool := EnableEVMHook (GetParams s).
End Store.

(** ** Keeper methods on the context *)
Section Lift.
Context `{EthLib} `{SdkLib} `{NftKeeper} `{!EvmKeeper} `{!WasmState}.

Definition cw_get {A} (f : CwStore -> A) : GoM A := gets (fun c => f (c_cw c)).
Definition cw_set (f : CwStore -> CwStore) : GoM unit := modify (upd_cw f).
Definition cw_try (f : CwStore -> error + CwStore) : GoM unit :=
  fun c => match f (c_cw c) with
           | inr s => Ok tt (set_cw c s)
           | inl e => Err e c
           end.

Lemma cw_try_ok f c u c' :
  cw_try f c = Ok u c' -> exists s, f (c_cw c) = inr s /\ c' = set_cw c s.
Proof. unfold cw_try. destruct (f (c_cw c)); naive_solver. Qed.
End Lift.
End Cw721Store.
