(* ===== verification/Cw721Pb.v ===== *)
(** x/cw721/types/cw721.pb.go and genesis.pb.go: the generated marshallers of the records
    the module stores, and that they discharge what the keeper assumes of its codec. *)
From S2P Require Import Prelude GoStrings Sdk Proto CollectionTypes Cw721Types Cw721Store.
Import Proto.
Import Cw721Store.
Open Scope go_scope.
#[local] Open Scope Z_scope.

Module Cw721Pb.
Import Cw721Types.

Definition TokenPair_MarshalToSizedBuffer (m : TokenPair) : string :=
  put_string "010" (Cw721Address m) +:+ put_string "018" (tp_ClassId m).
Definition TokenPair_Size (m : TokenPair) : Z := size_string (Cw721Address m) + size_string (tp_ClassId m).
Definition TokenPair_Marshal (m : TokenPair) : error + string :=
  Marshal (TokenPair_Size m) (TokenPair_MarshalToSizedBuffer m).

Definition TokenPair_field (fieldNum wireType l : Z) (m : TokenPair) (s : string)
  : option (error + (TokenPair * string)) :=
  match fieldNum with
  | 1 => case (read_string "Cw721Address" wireType l s) (fun v => NewTokenPair v (tp_ClassId m))
  | 2 => case (read_string "ClassId" wireType l s) (fun v => NewTokenPair (Cw721Address m) v)
  | _ => None
  end.
Definition TokenPair_Unmarshal : string -> error + TokenPair :=
  Unmarshal "TokenPair" TokenPair_field (NewTokenPair "" "").

Definition Params_MarshalToSizedBuffer (m : Params) : string :=
  put_bool "008" (EnableCw721 m) +:+ put_bool "016" (EnableEVMHook m) +:+ put_uint64 "024" (WasmCodeId m).
Definition Params_Size (m : Params) : Z :=
  size_bool (EnableCw721 m) + size_bool (EnableEVMHook m) + size_uint64 (WasmCodeId m).
Definition Params_Marshal (m : Params) : error + string :=
  Marshal (Params_Size m) (Params_MarshalToSizedBuffer m).

Definition Params_field (fieldNum wireType l : Z) (m : Params) (s : string) : option (error + (Params * string)) :=
  match fieldNum with
  | 1 => case (read_bool "EnableCw721" wireType s) (fun v => MkParams v (EnableEVMHook m) (WasmCodeId m))
  | 2 => case (read_bool "EnableEVMHook" wireType s) (fun v => MkParams (EnableCw721 m) v (WasmCodeId m))
  | 3 => case (read_uint64 "WasmCodeId" wireType s) (fun v => MkParams (EnableCw721 m) (EnableEVMHook m) v)
  | _ => None
  end.
Definition Params_Unmarshal : string -> error + Params := Unmarshal "Params" Params_field (MkParams false false 0).

(** ** Round trips *)

Lemma cw_TokenPair_reads : reads TokenPair_field.
Proof. reads_tac TokenPair_field. Qed.
Lemma cw_TokenPair_len m : TokenPair_Size m < 2 ^ 63 -> slen (TokenPair_MarshalToSizedBuffer m) = TokenPair_Size m.
Proof. unfold TokenPair_Size, TokenPair_MarshalToSizedBuffer. len_tac. Qed.
Lemma cw_TokenPair_inverse m bz : TokenPair_Marshal m = inr bz -> TokenPair_Unmarshal bz = inr m.
Proof.
  intros [Hsize ->]%Marshal_ok. pose proof (cw_TokenPair_len m Hsize) as Hl. unfold TokenPair_Unmarshal, Unmarshal.
  rewrite <- Hl in Hsize. clear Hl. unfold TokenPair_MarshalToSizedBuffer in *.
  fields_tac cw_TokenPair_reads. destruct m as [[] []]; reflexivity.
Qed.

Lemma cw_Params_reads : reads Params_field.
Proof. reads_tac Params_field. Qed.
Lemma cw_Params_len m :
  0 <= WasmCodeId m < 2 ^ 64 -> slen (Params_MarshalToSizedBuffer m) = Params_Size m /\ Params_Size m < 2 ^ 63.
Proof.
  intros Hw. split; [unfold Params_Size, Params_MarshalToSizedBuffer; len_tac|].
  unfold Params_Size, size_uint64. pose proof (size_bool_nonneg (EnableCw721 m)).
  pose proof (size_bool_nonneg (EnableEVMHook m)). assert (sov (WasmCodeId m) <= 10) as Hs by (by apply sov_le).
  destruct (_ =? 0); lia.
Qed.
Lemma cw_Params_inverse m bz :
  0 <= WasmCodeId m < 2 ^ 64 -> Params_Marshal m = inr bz -> Params_Unmarshal bz = inr m.
Proof.
  intros Hw [_ ->]%Marshal_ok. destruct (cw_Params_len m Hw) as [Hl Hsize]. unfold Params_Unmarshal, Unmarshal.
  rewrite <- Hl in Hsize. clear Hl. unfold Params_MarshalToSizedBuffer in *.
  fields_tac cw_Params_reads. destruct m as [a b n]. cbn in *.
  destruct (Z.eqb_spec n 0) as [->|]; destruct a, b; reflexivity.
Qed.
End Cw721Pb.

(** The codec of the keeper. *)
Definition cw721_codec : Cw721Codec := {|
  Marshal_TokenPair := Cw721Pb.TokenPair_Marshal; Unmarshal_TokenPair := Cw721Pb.TokenPair_Unmarshal;
  Marshal_Params := Cw721Pb.Params_Marshal; Unmarshal_Params := Cw721Pb.Params_Unmarshal;
|}.

Lemma cw721_codec_laws : @Cw721CodecLaws cw721_codec.
Proof.
  split.
  - intros p bz. apply Cw721Pb.cw_TokenPair_inverse.
  - intros [[|a addr] c] bz [_ ->]%Marshal_ok Ha; done.
  - intros p Hp. eexists. apply Marshal_fits, (Cw721Pb.cw_Params_len p Hp).
  - apply Cw721Pb.cw_Params_inverse.
Qed.
