(* ===== verification/StoredRecords.v ===== *)
(** The protobuf records that reach the stores and the exported genesis of x/erc721,
    x/cw721 and x/collection: their generated marshallers, together. *)
From S2P Require Import Prelude GoStrings Sdk Proto CollectionTypes CollectionPb.
From S2P Require Import Erc721Types Erc721Store Erc721Pb Cw721Types Cw721Store Cw721Pb.
Import Proto.
Open Scope go_scope.
#[local] Open Scope Z_scope.

(** A marshaller and its inverse: a value of the Go type (one that satisfies [wf]) whose
    size an int holds is written to exactly [Size()] bytes, from which Unmarshal reads it
    back; a larger one cannot be written. *)
Definition record_codec {M : Type} (wf : M -> Prop) (size : M -> Z) (marshal : M -> error + string)
  (unmarshal : string -> error + M) : Prop :=
  forall m, wf m ->
    (size m < 2 ^ 63 -> exists bz, marshal m = inr bz /\ slen bz = size m /\ unmarshal bz = inr m) /\
    (2 ^ 63 <= size m -> marshal m = inl ErrMakeSlice).

Lemma record_codec_intro {M} (wf : M -> Prop) size buffer unmarshal :
  (forall m, wf m -> size m < 2 ^ 63 -> slen (buffer m) = size m) ->
  (forall m bz, wf m -> Marshal (size m) (buffer m) = inr bz -> unmarshal bz = inr m) ->
  record_codec wf size (fun m => Marshal (size m) (buffer m)) unmarshal.
Proof.
  intros Hlen Hinv m Hm. split; intros Hs.
  - exists (buffer m). assert (Marshal (size m) (buffer m) = inr (buffer m)) as Hb by (by apply Marshal_fits).
    eauto.
  - unfold Marshal. by destruct (Z.ltb_spec (size m) (2 ^ 63)); [lia|].
Qed.

Definition any_record {M : Type} (m : M) : Prop := True.
(** The uint64 of a cw721 Params *)
Definition Params_in_range (m : Cw721Types.Params) : Prop := 0 <= Cw721Types.WasmCodeId m < 2 ^ 64.

(** C26: every record the modules store (the token pair and the parameters of x/erc721 and
    of x/cw721, the class and token metadata of x/collection and the denoms and NFTs of its
    store before x/nft) is written by its generated
    Marshal to exactly Size() bytes, and Unmarshal reads exactly that record back from them;
    only a record whose size no machine integer holds cannot be written. *)
Theorem stored_records_roundtrip :
  record_codec any_record Erc721Pb.TokenPair_Size Erc721Pb.TokenPair_Marshal Erc721Pb.TokenPair_Unmarshal /\
  record_codec any_record Erc721Pb.Params_Size Erc721Pb.Params_Marshal Erc721Pb.Params_Unmarshal /\
  record_codec any_record Cw721Pb.TokenPair_Size Cw721Pb.TokenPair_Marshal Cw721Pb.TokenPair_Unmarshal /\
  record_codec Params_in_range Cw721Pb.Params_Size Cw721Pb.Params_Marshal Cw721Pb.Params_Unmarshal /\
  record_codec any_record CollectionPb.NFTMetadata_Size CollectionPb.NFTMetadata_Marshal
    CollectionPb.NFTMetadata_Unmarshal /\
  record_codec any_record CollectionPb.DenomMetadata_Size CollectionPb.DenomMetadata_Marshal
    CollectionPb.DenomMetadata_Unmarshal /\
  record_codec any_record CollectionPb.Denom_Size CollectionPb.Denom_Marshal CollectionPb.Denom_Unmarshal /\
  record_codec any_record CollectionPb.BaseNFT_Size CollectionPb.BaseNFT_Marshal CollectionPb.BaseNFT_Unmarshal.
Proof.
  repeat match goal with |- _ /\ _ => split end; apply record_codec_intro.
  - intros m _. apply Erc721Pb.TokenPair_len.
  - intros m bz _. apply Erc721Pb.TokenPair_inverse.
  - intros m _ _. apply Erc721Pb.Params_len.
  - intros m bz _ [_ ->]%Marshal_ok. apply Erc721Pb.Params_inverse.
  - intros m _. apply Cw721Pb.cw_TokenPair_len.
  - intros m bz _. apply Cw721Pb.cw_TokenPair_inverse.
  - intros m Hm _. by apply Cw721Pb.cw_Params_len.
  - intros m bz Hm. by apply Cw721Pb.cw_Params_inverse.
  - intros m _. apply CollectionPb.NFTMetadata_len.
  - intros m bz _. apply CollectionPb.NFTMetadata_inverse.
  - intros m _. apply CollectionPb.DenomMetadata_len.
  - intros m bz _. apply CollectionPb.DenomMetadata_inverse.
  - intros m _. apply CollectionPb.Denom_len.
  - intros m bz _. apply CollectionPb.Denom_inverse.
  - intros m _. apply CollectionPb.BaseNFT_len.
  - intros m bz _. apply CollectionPb.BaseNFT_inverse.
Qed.
