(* ===== verification/Cw721Index.v ===== *)
(** The two invariants of the x/cw721 store, and the operations against them: the
    NFT UID index is a one-to-one relation stored both ways, and the pair table and
    its two lookup maps list the same pairs. *)
From S2P Require Import Prelude GoStrings Utf8 GoJson Sdk CollectionTypes Erc721Types Cw721Types.
From S2P Require Import Cw721Store.
Import Cw721Types Cw721Store.
Open Scope go_scope.

Lemma uid_encodings :
  CreateTokenUID = Erc721Types.CreateTokenUID /\ CreateNFTUID = Erc721Types.CreateNFTUID /\
  GetNFTFromUID = Erc721Types.GetNFTFromUID.
Proof. done. Qed.

(** ** The UID index *)
Section Index.
Context `{SdkLib} `{Cw721Codec}.
Implicit Types s : CwStore.

Record index_ok s : Prop := {
  ix_bij k n : forward s !! k = Some n <-> reverse s !! n = Some k;
  ix_key k n : forward s !! k = Some n -> k <> "" /\ n <> "";
}.

Lemma forward_nonempty s k n : index_ok s -> forward s !! k = Some n -> k <> "" /\ n <> "".
Proof. intros Hs. apply (ix_key _ Hs). Qed.

Lemma forward_get s k n : index_ok s -> n <> "" -> (GetNFTUIDPairByTokenUID s k = n <-> forward s !! k = Some n).
Proof.
  intros Hs Hn. unfold GetNFTUIDPairByTokenUID, kv_get. destruct (forward s !! k) eqn:E; [naive_solver|].
  split; [by intros <-|done].
Qed.

Lemma reverse_get s n k : index_ok s -> k <> "" -> (GetTokenUIDPairByNFTUID s n = k <-> reverse s !! n = Some k).
Proof.
  intros Hs Hn. unfold GetTokenUIDPairByNFTUID, kv_get. destruct (reverse s !! n) eqn:E; [naive_solver|].
  split; [by intros <-|done].
Qed.

Lemma forward_unbound s k : index_ok s -> (GetNFTUIDPairByTokenUID s k = "" <-> forward s !! k = None).
Proof.
  intros Hs. unfold GetNFTUIDPairByTokenUID, kv_get. destruct (forward s !! k) as [n|] eqn:E; [|done].
  destruct (forward_nonempty _ _ _ Hs E). by split; [intros ->|].
Qed.

Lemma reverse_unbound s n : index_ok s -> (GetTokenUIDPairByNFTUID s n = "" <-> reverse s !! n = None).
Proof.
  intros Hs. unfold GetTokenUIDPairByNFTUID, kv_get. destruct (reverse s !! n) as [k|] eqn:E; [|done].
  apply (ix_bij _ Hs) in E. destruct (forward_nonempty _ _ _ Hs E). by split; [intros ->|].
Qed.

(** The index and the other prefixes, before and after. *)
Definition index_set s s' (f r : gmap string string) : Prop :=
  forward s' = f /\ reverse s' = r /\ cw_TokenPair s' = cw_TokenPair s /\
  cw_TokenPairByCW721 s' = cw_TokenPairByCW721 s /\ cw_TokenPairByClass s' = cw_TokenPairByClass s /\
  cw_WasmCode s' = cw_WasmCode s /\ refunds s' = refunds s /\ cw_Params s' = cw_Params s.

(** Token [k] and NFT [n] are free, or bound to each other. *)
Definition bindable s (k n : string) : Prop :=
  (forward s !! k = None /\ reverse s !! n = None) \/ forward s !! k = Some n.

(** SetNFTPairs fails exactly on a conflict, and otherwise writes both directions. *)
Lemma SetNFTPairs_cases s a t cls nft :
  index_ok s ->
  let k := CreateTokenUID a t in let n := CreateNFTUID cls nft in
  (bindable s k n /\ exists s', SetNFTPairs s a t cls nft = inr s' /\
     index_set s s' (<[k := n]> (forward s)) (<[n := k]> (reverse s))) \/
  (~ bindable s k n /\ SetNFTPairs s a t cls nft = inl (CwErr CwErrNFTMappingConflict)).
Proof.
  intros Hs k n. unfold SetNFTPairs, bindable. fold k n.
  assert (k <> "") as Hk by apply uid_nonempty. assert (n <> "") as Hn by apply uid_nonempty.
  unfold GetNFTUIDPairByTokenUID, GetTokenUIDPairByNFTUID, kv_get.
  destruct (forward s !! k) as [n'|] eqn:Ef.
  - destruct (forward_nonempty _ _ _ Hs Ef) as [_ Hn']. apply str_eqb_false in Hn' as ->. cbn [negb andb].
    destruct (decide (n' = n)) as [->|Hne].
    + rewrite String.eqb_refl. cbn [negb]. pose proof Ef as Er. apply (ix_bij _ Hs) in Er. rewrite Er.
      apply str_eqb_false in Hk as ->. rewrite String.eqb_refl. cbn [negb andb]. left.
      split; [by right|]. exists s. split; [done|]. unfold index_set. rewrite !insert_id by done. done.
    + apply str_eqb_false in Hne as E. rewrite E. right. split; [|done]. intros [[? _]|?]; congruence.
  - cbn [String.eqb negb andb]. destruct (reverse s !! n) as [k'|] eqn:Er.
    + pose proof Er as Er'. apply (ix_bij _ Hs) in Er'. destruct (forward_nonempty _ _ _ Hs Er') as [Hk' _].
      apply str_eqb_false in Hk' as ->. cbn [negb andb]. destruct (decide (k' = k)) as [->|Hne]; [congruence|].
      apply str_eqb_false in Hne as ->. right. split; [|done]. intros [[_ ?]|?]; congruence.
    + left. split; [by left|]. eexists. split; [done|]. done.
Qed.

Lemma cw_SetNFTPairs_ok s a t cls nft s' :
  index_ok s -> SetNFTPairs s a t cls nft = inr s' ->
  let k := CreateTokenUID a t in let n := CreateNFTUID cls nft in
  bindable s k n /\ index_set s s' (<[k := n]> (forward s)) (<[n := k]> (reverse s)).
Proof.
  intros Hs Hr k n. destruct (SetNFTPairs_cases s a t cls nft Hs) as [(Hb & s1 & E & Hi)|[_ E]]; [|congruence].
  rewrite E in Hr. by injection Hr as <-.
Qed.

(** Binding a free pair, or a bound one again, keeps the index one-to-one. *)
Lemma bind_ok s s' k n :
  index_ok s -> bindable s k n -> k <> "" -> n <> "" ->
  forward s' = <[k := n]> (forward s) -> reverse s' = <[n := k]> (reverse s) -> index_ok s'.
Proof.
  intros Hs Hb Hk Hn Ef Er.
  assert (forall k' n', forward s' !! k' = Some n' -> (k' = k /\ n' = n) \/ forward s !! k' = Some n') as Hcase.
  { intros k' n'. rewrite Ef. destruct (decide (k' = k)) as [->|]; [|rewrite lookup_insert_ne by done; auto].
    rewrite lookup_insert_eq. left. split; [done|congruence]. }
  split.
  - intros k' n'. rewrite Ef, Er. destruct Hb as [[F R]|F].
    + destruct (decide (k' = k)) as [->|Hk'], (decide (n' = n)) as [->|Hn'];
        rewrite ?lookup_insert_eq, ?lookup_insert_ne by done; [done|..|apply (ix_bij _ Hs)].
      * split; [congruence|]. intros E%(ix_bij _ Hs). congruence.
      * split; [|congruence]. intros E%(ix_bij _ Hs). congruence.
    + rewrite !insert_id; [apply (ix_bij _ Hs)|by apply (ix_bij _ Hs)|done].
  - intros k' n' [[-> ->]|Hf]%Hcase; [done|by eapply ix_key].
Qed.

(** Removing one binding, both entries, keeps it one-to-one. *)
Lemma cw_unbind_ok s s' k n :
  index_ok s -> forward s !! k = Some n ->
  forward s' = delete k (forward s) -> reverse s' = delete n (reverse s) -> index_ok s'.
Proof.
  intros Hs Hf Ef Er.
  assert (forall k' n', forward s' !! k' = Some n' -> forward s !! k' = Some n') as Hsub.
  { intros k' n'. rewrite Ef. rewrite lookup_delete_Some. tauto. }
  split; [|intros; eapply ix_key; eauto].
  intros k' n'. rewrite Ef, Er, !lookup_delete_Some, <- (ix_bij _ Hs).
  split; intros [Hne E]; split; try done; intros <-.
  - apply (ix_bij _ Hs) in Hf, E. congruence.
  - congruence.
Qed.

Lemma index_ext s s' : forward s' = forward s -> reverse s' = reverse s -> index_ok s -> index_ok s'.
Proof. intros E1 E2 [A B]. split; rewrite ?E1, ?E2; done. Qed.
End Index.

(** ** The registry *)
Section Registry.
Context `{SdkLaws} `{!Cw721Codec} `{!Cw721CodecLaws}.
Implicit Types s : CwStore.

Definition registered s (p : TokenPair) : Prop :=
  exists bz, Marshal_TokenPair p = inr bz /\ cw_TokenPair s !! GetID p = Some bz.

(** The address of a pair as the register paths write it. *)
Definition canonical_pair (p : TokenPair) : Prop :=
  NormalizeCW721Address (Cw721Address p) = inr (Cw721Address p).

Record registry_ok s : Prop := {
  rg_table id bz : cw_TokenPair s !! id = Some bz ->
    exists p, Marshal_TokenPair p = inr bz /\ id = GetID p /\ canonical_pair p;
  rg_class c id : cw_TokenPairByClass s !! c = Some id <->
    exists p, registered s p /\ tp_ClassId p = c /\ GetID p = id;
  rg_cw k id : cw_TokenPairByCW721 s !! k = Some id <->
    exists p, registered s p /\ Cw721Address p = k /\ GetID p = id;
}.

Lemma Normalize_canonical a k : NormalizeCW721Address a = inr k -> canonicalCW721Key a = k.
Proof. unfold NormalizeCW721Address, canonicalCW721Key. by destruct (AccAddressFromBech32 a); intros [= <-]. Qed.

(** A normalized address is a canonical key: it parses, to what the given one did. *)
Lemma Normalize_idem a k : NormalizeCW721Address a = inr k -> NormalizeCW721Address k = inr k.
Proof.
  unfold NormalizeCW721Address. destruct (AccAddressFromBech32 a) as [b|] eqn:E; intros [= <-].
  destruct (bech32_nonempty _ _ E). by rewrite bech32_roundtrip.
Qed.

Lemma Normalize_chars a k : NormalizeCW721Address a = inr k -> k <> "" /\ ContainsByte k "," = false.
Proof.
  intros Hn. pose proof (Normalize_idem _ _ Hn) as Hi. revert Hn Hi. unfold NormalizeCW721Address.
  destruct (AccAddressFromBech32 a) as [b|] eqn:E; intros [= <-]. intros Hi.
  split; [|apply acc_String_chars]. intros E0. by rewrite E0, bech32_empty in Hi.
Qed.

Lemma canonical_key p : canonical_pair p -> canonicalCW721Key (Cw721Address p) = Cw721Address p.
Proof. apply Normalize_canonical. Qed.

Lemma cw_GetID_nonempty p : GetID p <> "".
Proof. apply tmhash_nonempty. Qed.

Lemma cw_Marshal_inj p q bz : Marshal_TokenPair p = inr bz -> Marshal_TokenPair q = inr bz -> p = q.
Proof. intros Hp%TokenPair_roundtrip Hq%TokenPair_roundtrip. congruence. Qed.

Lemma cw_registered_id s p q : registered s p -> registered s q -> GetID p = GetID q -> p = q.
Proof. intros (b1 & M1 & E1) (b2 & M2 & E2) E. rewrite E in E1. eapply cw_Marshal_inj; [exact M1|]. congruence. Qed.

Lemma cw_registered_canonical s p : registry_ok s -> registered s p -> canonical_pair p.
Proof.
  intros Hs (bz & Hm & He). destruct (rg_table _ Hs _ _ He) as (q & Hq & _ & Hc).
  by rewrite (cw_Marshal_inj _ _ _ Hm Hq).
Qed.

Lemma cw_GetTokenPair_registered s p : registry_ok s -> registered s p -> GetTokenPair s (GetID p) = Some p.
Proof.
  intros Hs Hr. pose proof (cw_registered_canonical _ _ Hs Hr) as [Hc _]%Normalize_chars.
  destruct Hr as (bz & Hm & He). unfold GetTokenPair. pose proof (cw_GetID_nonempty p) as ->%str_eqb_false.
  unfold kv_get. rewrite He. pose proof (TokenPair_nonempty _ _ Hm Hc) as ->%str_eqb_false.
  by rewrite (TokenPair_roundtrip _ _ Hm).
Qed.

Lemma pairFromID_inv s id p : registry_ok s -> pairFromID s id = inr p -> registered s p /\ id = GetID p.
Proof.
  intros Hs. unfold pairFromID, GetTokenPair. destruct (id =?s ""); [done|].
  unfold kv_get. destruct (cw_TokenPair s !! id) as [bz|] eqn:E; [|done].
  destruct (bz =?s ""); [done|]. destruct (rg_table _ Hs _ _ E) as (q & Hm & -> & _).
  rewrite (TokenPair_roundtrip _ _ Hm). intros [= <-]. split; [|done]. by exists bz.
Qed.

Lemma pairFromID_registered s p : registry_ok s -> registered s p -> pairFromID s (GetID p) = inr p.
Proof.
  intros Hs Hr. unfold pairFromID. pose proof (cw_GetID_nonempty p) as ->%str_eqb_false.
  by rewrite cw_GetTokenPair_registered.
Qed.

(** The two lookups find exactly the registered pairs. *)
Lemma GetPairByClass_iff s c p :
  registry_ok s -> (GetPairByClass s c = inr p <-> registered s p /\ tp_ClassId p = c).
Proof.
  intros Hs. unfold GetPairByClass, GetClassMap, kv_get. split.
  - destruct (cw_TokenPairByClass s !! c) as [id|] eqn:E; [|done].
    intros [Hr ->]%pairFromID_inv; [|done]. split; [done|].
    apply (rg_class _ Hs) in E as (q & Hq & <- & Hid). by rewrite (cw_registered_id _ _ _ Hq Hr Hid).
  - intros [Hr <-]. assert (cw_TokenPairByClass s !! tp_ClassId p = Some (GetID p)) as ->
      by (apply rg_class; eauto). by apply pairFromID_registered.
Qed.

Lemma GetPairByCW721_iff s a p :
  registry_ok s ->
  (GetPairByCW721 s a = inr p <-> registered s p /\ Cw721Address p = canonicalCW721Key a).
Proof.
  intros Hs. unfold GetPairByCW721, GetCW721Map, kv_get. split.
  - destruct (cw_TokenPairByCW721 s !! _) as [id|] eqn:E; [|done].
    intros [Hr ->]%pairFromID_inv; [|done]. split; [done|].
    apply (rg_cw _ Hs) in E as (q & Hq & <- & Hid). by rewrite (cw_registered_id _ _ _ Hq Hr Hid).
  - intros [Hr <-]. assert (cw_TokenPairByCW721 s !! Cw721Address p = Some (GetID p)) as ->
      by (apply rg_cw; eauto). by apply pairFromID_registered.
Qed.

Lemma class_unregistered s c :
  registry_ok s -> GetClassMap s c = "" -> cw_TokenPairByClass s !! c = None.
Proof.
  intros Hs. unfold GetClassMap, kv_get. destruct (_ !! c) as [id|] eqn:E; [|done]. intros ->.
  apply (rg_class _ Hs) in E as (p & _ & _ & E). by apply cw_GetID_nonempty in E.
Qed.

(** ** Registering a pair *)

(** SetTokenPair, SetClassMap and SetCW721Map, as the register paths and InitGenesis
    call them. *)
Definition register s (p : TokenPair) (bz : string) : CwStore :=
  SetCW721Map (SetClassMap (upd_TokenPair <[GetID p := bz]> s) (tp_ClassId p) (GetID p))
    (Cw721Address p) (GetID p).

(** No hash collision for the pair of [a] and [cls]. *)
Definition id_distinct s (a cls : string) : Prop :=
  forall q, registered s q -> GetID (NewTokenPair a cls) = GetID q -> NewTokenPair a cls = q.

Lemma cw_register_registered s p bz q :
  Marshal_TokenPair p = inr bz -> cw_TokenPair s !! GetID p = None ->
  registered (register s p bz) q <-> q = p \/ registered s q.
Proof.
  intros Hm Hn. unfold registered. cbn. split.
  - intros (b & Hb & E). destruct (decide (GetID q = GetID p)) as [Hid|Hid].
    + rewrite Hid, lookup_insert_eq in E. left. eapply cw_Marshal_inj; [exact Hb|]. congruence.
    + rewrite lookup_insert_ne in E by done. right. eauto.
  - intros [->|(b & Hb & E)].
    + exists bz. by rewrite lookup_insert_eq.
    + exists b. rewrite lookup_insert_ne; [done|]. congruence.
Qed.

(** One of the two lookup maps, after the new entry. *)
Lemma lookup_map_insert s p bz (m : gmap string string) (key : TokenPair -> string) :
  Marshal_TokenPair p = inr bz -> cw_TokenPair s !! GetID p = None ->
  (forall k id, m !! k = Some id <-> exists q, registered s q /\ key q = k /\ GetID q = id) ->
  m !! key p = None ->
  forall k id, <[key p := GetID p]> m !! k = Some id <->
    exists q, registered (register s p bz) q /\ key q = k /\ GetID q = id.
Proof.
  intros Hm Hn Hl Hk k id. setoid_rewrite (cw_register_registered s p bz); [|done..].
  destruct (decide (k = key p)) as [->|Hne].
  - rewrite lookup_insert_eq. split; [intros [= <-]; eauto|].
    intros (q & [->|Hq] & Eq & <-); [done|].
    assert (m !! key p = Some (GetID q)) by (apply Hl; eauto). congruence.
  - rewrite lookup_insert_ne by done. rewrite Hl. naive_solver.
Qed.

Lemma cw_register_ok s p bz :
  registry_ok s -> canonical_pair p -> Marshal_TokenPair p = inr bz ->
  id_distinct s (Cw721Address p) (tp_ClassId p) ->
  IsClassRegistered s (tp_ClassId p) = false -> IsCW721Registered s (Cw721Address p) = false ->
  registry_ok (register s p bz) /\ forall q, registered (register s p bz) q <-> q = p \/ registered s q.
Proof.
  intros Hs Hc Hm Hd Hcl Hcw.
  assert (cw_TokenPairByClass s !! tp_ClassId p = None) as Hcl'
    by (unfold IsClassRegistered, kv_has in Hcl; by destruct (_ !! _)).
  assert (cw_TokenPairByCW721 s !! Cw721Address p = None) as Hcw'.
  { unfold IsCW721Registered, kv_has in Hcw. rewrite canonical_key in Hcw by done. by destruct (_ !! _). }
  assert (cw_TokenPair s !! GetID p = None) as Hn.
  { destruct (cw_TokenPair s !! GetID p) as [b|] eqn:E; [|done]. exfalso. destruct (rg_table _ Hs _ _ E) as (q & Hq & Hid & _).
    assert (registered s q) as Hr by (exists b; by rewrite <- Hid).
    assert (p = q) as -> by (destruct p; exact (Hd q Hr Hid)).
    assert (cw_TokenPairByClass s !! tp_ClassId q = Some (GetID q)) by (apply rg_class; eauto). congruence. }
  split; [|intros q; by apply cw_register_registered]. split.
  - intros id b. cbn. destruct (decide (id = GetID p)) as [->|Hne].
    + rewrite lookup_insert_eq. intros [= <-]. eauto.
    + rewrite lookup_insert_ne by done. apply (rg_table _ Hs).
  - exact (lookup_map_insert s p bz _ tp_ClassId Hm Hn (rg_class _ Hs) Hcl').
  - cbn. rewrite canonical_key by done.
    exact (lookup_map_insert s p bz _ Cw721Address Hm Hn (rg_cw _ Hs) Hcw').
Qed.

Lemma cw_registry_ext s s' :
  cw_TokenPair s' = cw_TokenPair s -> cw_TokenPairByCW721 s' = cw_TokenPairByCW721 s ->
  cw_TokenPairByClass s' = cw_TokenPairByClass s -> registry_ok s -> registry_ok s'.
Proof. intros E1 E2 E3 [A B C]. split; unfold registered; rewrite ?E1, ?E2, ?E3; done. Qed.

Lemma cw_registered_ext s s' p : cw_TokenPair s' = cw_TokenPair s -> registered s p <-> registered s' p.
Proof. unfold registered. by intros ->. Qed.

(** Every binding is between a token of the contract and an NFT of the class of one
    registered pair. *)
Definition bound_pairs s : Prop :=
  forall k n, forward s !! k = Some n ->
    exists p t nft, registered s p /\ k = CreateTokenUID (Cw721Address p) t /\
      n = CreateNFTUID (tp_ClassId p) nft.

(** Every refund record is of a token of a registered contract. *)
Definition refunds_ok s : Prop :=
  forall k v, refunds s !! k = Some v ->
    v <> "" /\ exists p t, registered s p /\ t <> "" /\ k = Cw721Address p +:+ t.

(** Everything the module maintains. *)
Record module_ok s : Prop := {
  mo_index : index_ok s;
  mo_registry : registry_ok s;
  mo_bound : bound_pairs s;
  mo_refunds : refunds_ok s;
}.
End Registry.
