(* ===== verification/Cw721Genesis.v ===== *)
(** x/cw721/keeper/genesis_export.go, genesis_export_issues.go and
    x/cw721/genesis.go: what a genesis export contains and reports, what an import
    restores, and the removal of a pair's per-token state. *)
From S2P Require Import Prelude GoStrings Utf8 GoJson Sdk CollectionTypes Cw721Types Cw721Store.
Import Cw721Types Cw721Store.
Open Scope go_scope.

Module Cw721Genesis.

(** ** genesis_export_issues.go *)
Inductive GenesisExportIssueKind :=
| TokenPairCorrupt | UIDIndexBackward | UIDIndexForward | RefundKeyOrphan | UIDIndexUnregisteredPair.

Definition kind_string (k : GenesisExportIssueKind) : string :=
  match k with
  | TokenPairCorrupt => "token_pair_corrupt"
  | UIDIndexBackward => "nft_uid_index_reverse_without_forward"
  | UIDIndexForward => "nft_uid_index_forward_without_reverse"
  | RefundKeyOrphan => "refund_key_orphaned"
  | UIDIndexUnregisteredPair => "nft_uid_index_unregistered_pair"
  end.

Record GenesisExportIssue := MkIssue { Kind : GenesisExportIssueKind; Key : string; Detail : string }.

Definition Issue_String (i : GenesisExportIssue) : string :=
  kind_string (Kind i) +:+ " key=" +:+ Key i +:+ ": " +:+ Detail i.

Definition MaxReportedExportIssues : nat := 20.

(** GenesisExportError.Error *)
Definition GenesisExportError_Error (module : string) (issues : list GenesisExportIssue) : string :=
  let shown := if MaxReportedExportIssues <? List.length issues
               then take MaxReportedExportIssues issues else issues in
  module +:+ " genesis export aborted: " +:+ nat_string (List.length issues) +:+
  " state record(s) cannot be represented in genesis; " +:+
  "repair or purge them (see the owning token pair) before exporting again" +:+
  foldr (fun i acc => String "010" "  - " +:+ Issue_String i +:+ acc) "" shown +:+
  (if List.length shown <? List.length issues
   then String "010" "  ... and " +:+ nat_string (List.length issues - List.length shown) +:+ " more"
   else "").

(** MergeExportIssues *)
Definition MergeExportIssues (groups : list (list GenesisExportIssue)) : list GenesisExportIssue :=
  List.concat groups.

(** The order [sort.Slice] sorts the issues by: key, then kind. *)
Definition issue_le (i j : GenesisExportIssue) : Prop :=
  (if Key i =?s Key j then String.leb (kind_string (Kind i)) (kind_string (Kind j))
   else String.leb (Key i) (Key j)) = true.
#[global] Instance issue_le_dec : RelDecision issue_le.
Proof. intros i j. unfold issue_le. apply _. Defined.

Section GenesisOps.
Context `{SdkLib} `{Cw721Codec} `{FmtLib}.
Implicit Types s : CwStore.

(** ** Token pairs: GetTokenPairsWithReport of token_pairs.go *)
Definition GetTokenPairsWithReport s : list TokenPair * list GenesisExportIssue :=
  (GetTokenPairs s,
   omap (fun kv => match Unmarshal_TokenPair (snd kv) with
                   | inr _ => None
                   | inl e => Some (MkIssue TokenPairCorrupt (fmt_q (String "100" (fst kv))) (err_Error e))
                   end)
     (kv_iter (cw_TokenPair s))).

(** ** ExportNFTUIDPairsWithReport *)

(** The loop over the reverse index; [forward] is the local map it consumes. *)
Fixpoint export_reverse (registered : list TokenPair) (entries : list (string * string))
  (fwd : gmap string string) (pairs : list NFTUIDPair) (issues : list GenesisExportIssue)
  : gmap string string * list NFTUIDPair * list GenesisExportIssue :=
  match entries with
  | [] => (fwd, pairs, issues)
  | (nftUID, tokenUID) :: rest =>
      let partner := default "" (fwd !! tokenUID) in
      if (match fwd !! tokenUID with Some p => p <>?s nftUID | None => true end) then
        export_reverse registered rest fwd pairs
          (issues ++ [MkIssue UIDIndexBackward nftUID
             ("reverse entry points at token UID " +:+ fmt_q tokenUID +:+
              " whose forward entry is " +:+ fmt_q partner)])
      else
        let fwd := delete tokenUID fwd in
        if negb (UIDBelongsToRegisteredPair tokenUID nftUID registered) then
          export_reverse registered rest fwd pairs
            (issues ++ [MkIssue UIDIndexUnregisteredPair tokenUID
               ("binding (" +:+ fmt_q tokenUID +:+ " -> " +:+ fmt_q nftUID +:+
                ") does not belong to any registered token pair")])
        else
          export_reverse registered rest fwd (pairs ++ [MkNFTUIDPair tokenUID nftUID]) issues
  end.

Definition ExportNFTUIDPairsWithReport s : list NFTUIDPair * list GenesisExportIssue :=
  let '(leftover, pairs, issues) :=
    export_reverse (GetTokenPairs s) (kv_iter (reverse s)) (forward s) [] [] in
  let issues := app issues
    (map (fun kv => MkIssue UIDIndexForward (fst kv)
           ("forward entry points at nft UID " +:+ fmt_q (snd kv) +:+ " which has no reverse entry"))
      (kv_iter leftover)) in
  (pairs, merge_sort issue_le issues).

(** ExportNFTUIDPairs: [inl] carries the issues of the GenesisExportError *)
Definition ExportNFTUIDPairs s : list GenesisExportIssue + list NFTUIDPair :=
  match ExportNFTUIDPairsWithReport s with
  | (pairs, []) => inr pairs
  | (_, issues) => inl issues
  end.

(** ** Refund receivers *)

(** The loop of splitContractTokenKey: the length of the longest contract that is,
    up to case, a proper prefix of the key *)
Fixpoint longest_contract (contracts : list string) (key : string) (best : nat) : nat :=
  match contracts with
  | [] => best
  | c :: rest =>
      if (len c <=? best) || (len key <=? len c) then longest_contract rest key best
      else if EqualFold (str_take (len c) key) c then longest_contract rest key (len c)
      else longest_contract rest key best
  end.

Definition splitContractTokenKey (contracts : list string) (key : string) : error + (string * string) :=
  let best := longest_contract contracts key 0 in
  if best =? 0 then inl (CwErr CwErrInternalTokenPair)
  else inr (str_take best key, str_drop best key).

Fixpoint export_receivers (contracts : list string) (entries : list (string * string))
  : list RefundReceiver * list GenesisExportIssue :=
  match entries with
  | [] => ([], [])
  | (key, value) :: rest =>
      let '(receivers, issues) := export_receivers contracts rest in
      match splitContractTokenKey contracts key with
      | inl e => (receivers, MkIssue RefundKeyOrphan (fmt_q key) (err_Error e) :: issues)
      | inr (contract, tokenID) => (MkRefundReceiver contract tokenID value :: receivers, issues)
      end
  end.

Definition ExportRefundReceiversWithReport s : list RefundReceiver * list GenesisExportIssue :=
  export_receivers (Cw721Address <$> GetTokenPairs s) (kv_iter (refunds s)).

Definition ExportRefundReceivers s : list GenesisExportIssue + list RefundReceiver :=
  match ExportRefundReceiversWithReport s with
  | (receivers, []) => inr receivers
  | (_, issues) => inl issues
  end.

(** ExportIssues *)
Definition ExportIssues s : list GenesisExportIssue :=
  MergeExportIssues [snd (GetTokenPairsWithReport s); snd (ExportNFTUIDPairsWithReport s);
                     snd (ExportRefundReceiversWithReport s)].

(** ** genesis.go *)

(** ExportGenesis; the issues it logs are [ExportIssues s] *)
Definition ExportGenesis s : GenesisState :=
  MkGenesisState (GetParams s) (fst (GetTokenPairsWithReport s))
    (fst (ExportNFTUIDPairsWithReport s)) (fst (ExportRefundReceiversWithReport s)).

Definition SetGenesisNFTUIDPair s (pair : NFTUIDPair) : CwStore :=
  SetNFTUIDPairByNFTUID (SetNFTUIDPairByTokenUID s (TokenUid pair) (NftUid pair)) (NftUid pair) (TokenUid pair).

Definition SetGenesisRefundReceiver s (receiver : RefundReceiver) : CwStore :=
  SetCwAddressByContractTokenId s (rr_ContractAddress receiver) (rr_TokenId receiver) (rr_Owner receiver).

(** importPerTokenState *)
Definition importPerTokenState s (data : GenesisState) : error + CwStore :=
  match ValidateGenesisPairs (gs_NftUidPairs data) (gs_RefundReceivers data) (gs_TokenPairs data) with
  | Some e => inl e
  | None => inr (fold_left SetGenesisRefundReceiver (gs_RefundReceivers data)
                   (fold_left SetGenesisNFTUIDPair (gs_NftUidPairs data) s))
  end.

Fixpoint import_pairs s (pairs : list TokenPair) : error + CwStore :=
  match pairs with
  | [] => inr s
  | tp :: rest =>
      match SetTokenPair s tp with
      | inl e => inl e
      | inr s1 =>
          import_pairs (SetCW721Map (SetClassMap s1 (tp_ClassId tp) (GetID tp))
                          (Cw721Address tp) (GetID tp)) rest
      end
  end.

(** InitGenesis; [None] is a panic.  [module_account] is whether the account
    keeper holds the cw721 module account. *)
Definition InitGenesis (module_account : bool) s (data : GenesisState) : option CwStore :=
  match SetParams s (gs_Params data) with
  | inl _ => None
  | inr s =>
    if negb module_account then None
    else match import_pairs s (gs_TokenPairs data) with
         | inl _ => None
         | inr s => match importPerTokenState s data with inl _ => None | inr s => Some s end
         end
  end.

(** ** Removing the per-token state of a pair: the keys are collected before the
    deletes *)
Definition sweep_forward s (contract : string) : CwStore :=
  let tokenUIDs := filter (fun k => EqualFold (snd (GetNFTFromUID k)) contract = true)
                     (kv_iter (forward s)).*1 in
  fold_left (fun s tokenUID =>
    let nftUID := GetNFTUIDPairByTokenUID s tokenUID in
    let s := DeleteNFTUIDPairByTokenUID s tokenUID in
    if nftUID <>?s "" then DeleteNFTUIDPairByNFTUID s nftUID else s) tokenUIDs s.

Definition sweep_reverse s (classID : string) : CwStore :=
  let nftUIDs := filter (fun k => snd (GetNFTFromUID k) = classID) (kv_iter (reverse s)).*1 in
  fold_left (fun s nftUID =>
    let tokenUID := GetTokenUIDPairByNFTUID s nftUID in
    let s := DeleteNFTUIDPairByNFTUID s nftUID in
    if tokenUID <>?s "" then DeleteNFTUIDPairByTokenUID s tokenUID else s) nftUIDs s.

Definition sweep_refunds s (contract : string) : CwStore :=
  let refundKeys := filter (fun k => (len (ToLower contract) <? len k)
      && EqualFold (str_take (len (ToLower contract)) k) contract = true) (kv_iter (refunds s)).*1 in
  fold_left (fun s key => upd_Refund (delete key) s) refundKeys s.

Definition DeletePairPerTokenState s (pair : TokenPair) : CwStore :=
  let s := sweep_forward s (Cw721Address pair) in
  let s := sweep_reverse s (tp_ClassId pair) in
  sweep_refunds s (Cw721Address pair).
End GenesisOps.
End Cw721Genesis.
