(* ===== verification/Cw721GenesisSpec.v ===== *)
(** Genesis export and import of x/cw721: the export of the UID index agrees with
    that of its twin x/erc721, the import accepts every export, and importing an
    export restores the store. *)
From S2P Require Import Prelude GoStrings Utf8 GoJson Sdk CollectionTypes Erc721Types Erc721Store.
From S2P Require Import Erc721Genesis Erc721Export Cw721Types Cw721Store Cw721Index Cw721Genesis.
Import Cw721Types Cw721Store Cw721Genesis.
Open Scope go_scope.
Open Scope list_scope.

(** ** The twin of the UID index export *)

(** The records of x/cw721 as those of x/erc721. *)
Definition erc_pair (p : TokenPair) : Erc721Types.TokenPair :=
  Erc721Types.MkTokenPair (Cw721Address p) (tp_ClassId p).
Definition erc_uid (p : NFTUIDPair) : Erc721Types.NFTUIDPair :=
  Erc721Types.MkNFTUIDPair (TokenUid p) (NftUid p).
Definition erc_kind (k : GenesisExportIssueKind) : Erc721Genesis.GenesisExportIssueKind :=
  match k with
  | TokenPairCorrupt => Erc721Genesis.TokenPairCorrupt
  | UIDIndexBackward => Erc721Genesis.UIDIndexBackward
  | UIDIndexForward => Erc721Genesis.UIDIndexForward
  | RefundKeyOrphan => Erc721Genesis.RefundKeyOrphan
  | UIDIndexUnregisteredPair => Erc721Genesis.UIDIndexUnregisteredPair
  end.
Definition erc_issue (i : GenesisExportIssue) : Erc721Genesis.GenesisExportIssue :=
  Erc721Genesis.MkIssue (erc_kind (Kind i)) (Key i) (Detail i).

Section Twin.
Context `{EthLib} `{SdkLib} `{Cw721Codec} `{FmtLib}.
Implicit Types s : CwStore.

Lemma belongs_twin t n reg :
  UIDBelongsToRegisteredPair t n reg = Erc721Types.UIDBelongsToRegisteredPair t n (erc_pair <$> reg).
Proof.
  unfold UIDBelongsToRegisteredPair, Erc721Types.UIDBelongsToRegisteredPair.
  change Erc721Types.GetNFTFromUID with GetNFTFromUID. destruct (_ || _); [done|].
  induction reg as [|p reg IH]; [done|]. cbn. by rewrite IH.
Qed.

Lemma export_reverse_twin reg es fwd pairs issues :
  let '(f, p, i) := export_reverse reg es fwd pairs issues in
  Erc721Genesis.export_reverse (erc_pair <$> reg) es fwd (erc_uid <$> pairs) (erc_issue <$> issues)
  = (f, erc_uid <$> p, erc_issue <$> i).
Proof.
  revert fwd pairs issues. induction es as [|[n t] es IH]; intros fwd pairs issues; [done|].
  cbn [export_reverse Erc721Genesis.export_reverse]. rewrite <- belongs_twin.
  destruct (match fwd !! t with Some p => p <>?s n | None => true end).
  - match goal with |- context [export_reverse reg es fwd pairs ?i] => specialize (IH fwd pairs i) end.
    rewrite fmap_app in IH. exact IH.
  - destruct (negb _).
    + match goal with |- context [export_reverse reg es ?f pairs ?i] => specialize (IH f pairs i) end.
      rewrite fmap_app in IH. exact IH.
    + match goal with |- context [export_reverse reg es ?f ?p issues] => specialize (IH f p issues) end.
      rewrite fmap_app in IH. exact IH.
Qed.

(** The pairs x/cw721 exports are those its twin would, and one reports an issue
    exactly when the other does. *)
Lemma export_twin s :
  let '(pairs, issues) := export_index (erc_pair <$> GetTokenPairs s) (forward s) (reverse s) in
  erc_uid <$> fst (ExportNFTUIDPairsWithReport s) = pairs /\
  (snd (ExportNFTUIDPairsWithReport s) = [] <-> issues = []).
Proof.
  unfold export_index, ExportNFTUIDPairsWithReport.
  pose proof (export_reverse_twin (GetTokenPairs s) (kv_iter (reverse s)) (forward s) [] []) as E.
  destruct (export_reverse _ _ _ _ _) as [[f p] i]. cbn [fmap list_fmap] in E. rewrite E. cbn [fst snd].
  split; [done|].
  assert (forall {A} (R : A -> A -> Prop) `{!RelDecision R} l, merge_sort R l = [] <-> l = []) as Hs.
  { intros A R HR l. split; [|by intros ->]. intros Hm. apply Permutation_nil. rewrite <- Hm.
    apply merge_sort_Permutation. }
  rewrite !Hs. destruct i; [|done]. by destruct (kv_iter f).
Qed.

Lemma cw_elem_of_export s t n :
  MkNFTUIDPair t n ∈ fst (ExportNFTUIDPairsWithReport s) <->
  forward s !! t = Some n /\ reverse s !! n = Some t /\
  UIDBelongsToRegisteredPair t n (GetTokenPairs s) = true.
Proof.
  rewrite belongs_twin, <- Erc721Export.elem_of_export. pose proof (export_twin s) as Ht.
  destruct (export_index _ _ _) as [ps iss]. destruct Ht as [<- _]. cbn [fst]. rewrite list_elem_of_fmap.
  split; [intros Hin; by exists (MkNFTUIDPair t n)|]. by intros ([t' n'] & [= -> ->] & Hin).
Qed.

Lemma cw_export_nodup s :
  NoDup (TokenUid <$> fst (ExportNFTUIDPairsWithReport s)) /\
  NoDup (NftUid <$> fst (ExportNFTUIDPairsWithReport s)).
Proof.
  pose proof (export_twin s) as Ht.
  pose proof (Erc721Export.export_nodup (erc_pair <$> GetTokenPairs s) (forward s) (reverse s)) as Hn.
  destruct (export_index _ _ _) as [ps iss]. destruct Ht as [<- _]. cbn [fst] in Hn.
  by rewrite <- !list_fmap_compose in Hn.
Qed.

Lemma validate_uid_twin reg l seenT seenN :
  Erc721Types.validate_uid_pairs (erc_pair <$> reg) (erc_uid <$> l) seenT seenN = None ->
  validate_uid_pairs reg l seenT seenN = None.
Proof.
  revert seenT seenN. induction l as [|p l IH]; intros sT sN Hv; [done|].
  cbn [fmap list_fmap Erc721Types.validate_uid_pairs validate_uid_pairs] in *.
  rewrite !check_else_None in *. rewrite <- belongs_twin in Hv. destruct Hv as (A & B & C & D & E).
  split_and!; [done..|]. by apply IH.
Qed.

Lemma cw_export_uid_valid s :
  validate_uid_pairs (GetTokenPairs s) (fst (ExportNFTUIDPairsWithReport s)) ∅ ∅ = None.
Proof.
  apply validate_uid_twin. pose proof (export_twin s) as Ht.
  pose proof (Erc721Export.export_uid_valid (erc_pair <$> GetTokenPairs s) (forward s) (reverse s)) as Hv.
  destruct (export_index _ _ _) as [ps iss]. by destruct Ht as [-> _].
Qed.

(** The strict export succeeds exactly when the index is a bijection over
    registered pairs. *)
Lemma cw_ExportNFTUIDPairs_exact s :
  (exists l, ExportNFTUIDPairs s = inr l) <->
  (forall t n, forward s !! t = Some n <-> reverse s !! n = Some t) /\
  (forall t n, forward s !! t = Some n -> UIDBelongsToRegisteredPair t n (GetTokenPairs s) = true).
Proof.
  setoid_rewrite belongs_twin. rewrite <- (export_no_issue (erc_pair <$> GetTokenPairs s)).
  pose proof (export_twin s) as Ht. destruct (export_index _ _ _) as [ps iss]. destruct Ht as [_ Ht].
  cbn [snd]. rewrite <- Ht. unfold ExportNFTUIDPairs.
  destruct (ExportNFTUIDPairsWithReport s) as [l [|i is']]; cbn; naive_solver.
Qed.
End Twin.

(** ** Import of an export *)
Section RoundTrip.
Context `{SdkLaws} `{!Cw721Codec} `{!Cw721CodecLaws} `{!FmtLib}.
Implicit Types s : CwStore.

Definition enc (p : TokenPair) : string :=
  match Marshal_TokenPair p with inr bz => bz | inl _ => "" end.

Lemma cw_enc_spec s p : registered s p -> Marshal_TokenPair p = inr (enc p).
Proof. unfold enc. by intros (bz & -> & _). Qed.

Lemma cw_import_pairs_eq s l :
  (forall p, p ∈ l -> Marshal_TokenPair p = inr (enc p)) ->
  import_pairs s l = inr (MkCwStore
    (fold_left (fun m p => <[GetID p := enc p]> m) l (cw_TokenPair s))
    (fold_left (fun m p => <[canonicalCW721Key (Cw721Address p) := GetID p]> m) l (cw_TokenPairByCW721 s))
    (fold_left (fun m p => <[tp_ClassId p := GetID p]> m) l (cw_TokenPairByClass s))
    (reverse s) (forward s) (cw_WasmCode s) (refunds s) (cw_Params s)).
Proof.
  revert s. induction l as [|p l IH]; intros s Hl; cbn [import_pairs fold_left]; [by destruct s|].
  unfold SetTokenPair. rewrite Hl by (by left). rewrite IH; [done|]. intros q Hq. apply Hl. by right.
Qed.

Lemma cw_import_uids_eq s l :
  fold_left SetGenesisNFTUIDPair l s = MkCwStore (cw_TokenPair s) (cw_TokenPairByCW721 s)
    (cw_TokenPairByClass s)
    (fold_left (fun m p => <[NftUid p := TokenUid p]> m) l (reverse s))
    (fold_left (fun m p => <[TokenUid p := NftUid p]> m) l (forward s))
    (cw_WasmCode s) (refunds s) (cw_Params s).
Proof.
  revert s. induction l as [|p l IH]; intros s; cbn [fold_left]; [by destruct s|]. by rewrite IH.
Qed.

Definition receiver_key (r : RefundReceiver) : string := rr_ContractAddress r +:+ rr_TokenId r.

Lemma cw_import_receivers_eq s l :
  fold_left SetGenesisRefundReceiver l s = MkCwStore (cw_TokenPair s) (cw_TokenPairByCW721 s)
    (cw_TokenPairByClass s) (reverse s) (forward s) (cw_WasmCode s)
    (fold_left (fun m r => <[receiver_key r := rr_Owner r]> m) l (refunds s)) (cw_Params s).
Proof.
  revert s. induction l as [|p l IH]; intros s; cbn [fold_left]; [by destruct s|]. by rewrite IH.
Qed.

(** *** The pair table *)

Lemma cw_elem_of_GetTokenPairs s p : registry_ok s -> p ∈ GetTokenPairs s <-> registered s p.
Proof.
  intros Hs. unfold GetTokenPairs. rewrite list_elem_of_omap. split.
  - intros ([id bz] & Hin & Hu). apply elem_of_kv_iter in Hin. cbn in Hu.
    destruct (rg_table _ Hs _ _ Hin) as (q & Hm & -> & _).
    rewrite (TokenPair_roundtrip _ _ Hm) in Hu. injection Hu as ->. by exists bz.
  - intros (bz & Hm & E). exists (GetID p, bz). split; [by apply elem_of_kv_iter|]. cbn.
    by rewrite (TokenPair_roundtrip _ _ Hm).
Qed.

Lemma cw_GetTokenPairs_ids s : registry_ok s -> GetID <$> GetTokenPairs s = (kv_iter (cw_TokenPair s)).*1.
Proof.
  intros Hs. unfold GetTokenPairs.
  assert (forall kv, kv ∈ kv_iter (cw_TokenPair s) ->
    exists p, Unmarshal_TokenPair (snd kv) = inr p /\ GetID p = fst kv) as Hall.
  { intros [id bz] Hin. apply elem_of_kv_iter in Hin.
    destruct (rg_table _ Hs _ _ Hin) as (q & Hm & -> & _). exists q. cbn.
    by rewrite (TokenPair_roundtrip _ _ Hm). }
  induction (kv_iter (cw_TokenPair s)) as [|kv l IH]; [done|].
  destruct (Hall kv (ltac:(by left))) as (p & Hu & Hid). cbn. rewrite Hu, fmap_cons, Hid. f_equal.
  apply IH. intros x Hx. apply Hall. by right.
Qed.

Lemma cw_GetTokenPairs_nodup s (f : TokenPair -> string) :
  registry_ok s -> (forall p q, registered s p -> registered s q -> f p = f q -> p = q) ->
  NoDup (f <$> GetTokenPairs s).
Proof.
  intros Hs Hf. apply NoDup_fmap_2_strong.
  - intros p q Hp%cw_elem_of_GetTokenPairs Hq%cw_elem_of_GetTokenPairs; auto.
  - eapply (NoDup_fmap_1 GetID). rewrite cw_GetTokenPairs_ids by done. apply kv_iter_nodup.
Qed.

Lemma cw_registered_class s p q :
  registry_ok s -> registered s p -> registered s q -> tp_ClassId p = tp_ClassId q -> p = q.
Proof.
  intros Hs Hp Hq E. assert (GetPairByClass s (tp_ClassId q) = inr p) as G1
    by (by apply GetPairByClass_iff). assert (GetPairByClass s (tp_ClassId q) = inr q) as G2
    by (by apply GetPairByClass_iff). congruence.
Qed.

Lemma registered_address s p q :
  registry_ok s -> registered s p -> registered s q -> Cw721Address p = Cw721Address q -> p = q.
Proof.
  intros Hs Hp Hq E. apply (cw_registered_id s); [done..|].
  assert (cw_TokenPairByCW721 s !! Cw721Address q = Some (GetID p)) by (apply rg_cw; eauto).
  assert (cw_TokenPairByCW721 s !! Cw721Address q = Some (GetID q)) by (apply rg_cw; eauto). congruence.
Qed.

(** One of the three prefixes of the registry is rebuilt from the exported pairs. *)
Lemma import_map s (f g : TokenPair -> string) (m : gmap string string) :
  registry_ok s -> (forall p q, registered s p -> registered s q -> f p = f q -> p = q) ->
  (forall k v, m !! k = Some v <-> exists p, registered s p /\ f p = k /\ g p = v) ->
  fold_left (fun m p => <[f p := g p]> m) (GetTokenPairs s) ∅ = m.
Proof.
  intros Hs Hf Hm. apply fold_insert_eq; [by apply cw_GetTokenPairs_nodup|].
  intros k v. rewrite Hm. by setoid_rewrite cw_elem_of_GetTokenPairs.
Qed.

Lemma cw_import_table s : registry_ok s ->
  fold_left (fun m p => <[GetID p := enc p]> m) (GetTokenPairs s) ∅ = cw_TokenPair s.
Proof.
  intros Hs. apply (import_map s GetID enc); [done|intros p q; apply cw_registered_id|].
  intros id bz. split.
  - intros E. destruct (rg_table _ Hs _ _ E) as (p & Hm & -> & _). exists p.
    split; [by exists bz|]. split; [done|]. unfold enc. by rewrite Hm.
  - intros (p & (bz' & Hm & E) & <- & <-). unfold enc. by rewrite Hm.
Qed.

Lemma cw_import_contracts s : registry_ok s ->
  fold_left (fun m p => <[canonicalCW721Key (Cw721Address p) := GetID p]> m) (GetTokenPairs s) ∅
  = cw_TokenPairByCW721 s.
Proof.
  intros Hs. apply (import_map s (fun p => canonicalCW721Key (Cw721Address p)) GetID); [done|..].
  - intros p q Hp Hq. rewrite !canonical_key by (eapply (cw_registered_canonical s); done). by apply (registered_address s).
  - intros k id. rewrite (rg_cw _ Hs).
    split; intros (p & Hp & Hk & Hid); exists p; (split; [done|]);
      by rewrite canonical_key in * by (eapply (cw_registered_canonical s); done).
Qed.

(** *** The UID index *)

Definition bindings_registered s : Prop :=
  forall t n, forward s !! t = Some n -> UIDBelongsToRegisteredPair t n (GetTokenPairs s) = true.

Lemma cw_import_index s :
  index_ok s -> bindings_registered s ->
  fold_left (fun m p => <[NftUid p := TokenUid p]> m) (fst (ExportNFTUIDPairsWithReport s)) ∅ = reverse s /\
  fold_left (fun m p => <[TokenUid p := NftUid p]> m) (fst (ExportNFTUIDPairsWithReport s)) ∅ = forward s.
Proof.
  intros Hs Hb. destruct (cw_export_nodup s) as [Ht Hn].
  assert (forall t n, forward s !! t = Some n <->
            MkNFTUIDPair t n ∈ fst (ExportNFTUIDPairsWithReport s)) as Hin.
  { intros t n. rewrite cw_elem_of_export. split; [|tauto]. intros E. split; [done|].
    split; [by apply (ix_bij _ Hs)|auto]. }
  split; (apply fold_insert_eq; [done|]).
  - intros n t. rewrite <- (ix_bij _ Hs), Hin. split; [intros E; by eexists|].
    intros ([t' n'] & E & <- & <-). done.
  - intros t n. rewrite Hin. split; [intros E; by eexists|]. intros ([t' n'] & E & <- & <-). done.
Qed.
(** *** Refund receivers *)

(** No contract address continues another one: bech32 addresses end in a checksum. *)
Definition prefix_free s : Prop :=
  forall p q, registered s p -> registered s q -> HasPrefix (Cw721Address q) (Cw721Address p) = true -> p = q.

Lemma canonical_lower p : canonical_pair p -> ToLower (Cw721Address p) = Cw721Address p.
Proof.
  unfold canonical_pair, NormalizeCW721Address. destruct (AccAddressFromBech32 _) as [a|] eqn:E; [|done].
  intros [= Hc]. apply bech32_spelling in E. congruence.
Qed.

Lemma longest_contract_spec cs key best :
  let r := longest_contract cs key best in
  best <= r /\
  (r = best \/ exists c, c ∈ cs /\ r = len c /\ len c < len key /\ EqualFold (str_take (len c) key) c = true) /\
  (forall c, c ∈ cs -> len c < len key -> EqualFold (str_take (len c) key) c = true -> len c <= r).
Proof.
  revert best. induction cs as [|c cs IH]; intros best; cbn [longest_contract].
  { split; [lia|]. split; [by left|]. intros c Hc. by apply elem_of_nil in Hc. }
  destruct ((len c <=? best) || (len key <=? len c)) eqn:E1; [|destruct (EqualFold _ c) eqn:E2].
  - destruct (IH best) as (A & B & C). split; [done|]. split; [destruct B as [?|(d & ? & ?)]; [by left|]|].
    + right. exists d. split; [by right|done].
    + intros d [->|Hd]%elem_of_cons Hl Hf; [|by apply C].
      apply orb_true_iff in E1 as [?%Nat.leb_le|?%Nat.leb_le]; lia.
  - apply orb_false_iff in E1 as [G1%Nat.leb_gt G2%Nat.leb_gt].
    destruct (IH (len c)) as (A & B & C). split; [lia|]. split.
    + right. destruct B as [B|(d & ? & ?)]; [exists c|exists d]; split; try done; [by left|by right].
    + intros d [->|Hd]%elem_of_cons Hl Hf; [done|by apply C].
  - destruct (IH best) as (A & B & C). split; [done|]. split; [destruct B as [?|(d & ? & ?)]; [by left|]|].
    + right. exists d. split; [by right|done].
    + intros d [->|Hd]%elem_of_cons Hl Hf; [congruence|by apply C].
Qed.

(** A record's key splits into the contract and the token id it was made of. *)
Lemma cw_split_registered s p t :
  registry_ok s -> prefix_free s -> registered s p -> t <> "" ->
  splitContractTokenKey (Cw721Address <$> GetTokenPairs s) (Cw721Address p +:+ t) = inr (Cw721Address p, t).
Proof.
  intros Hs Hf Hp Ht. pose proof (cw_registered_canonical s p Hs Hp) as Hc.
  pose proof (canonical_lower p Hc) as Hlow. apply Normalize_chars in Hc as [Hne _].
  assert (0 < len t) as Hlt by (destruct t; [done|cbn; lia]).
  assert (0 < len (Cw721Address p)) as Hlp by (destruct (Cw721Address p); [done|cbn; lia]).
  unfold splitContractTokenKey. set (key := Cw721Address p +:+ t).
  destruct (longest_contract_spec (Cw721Address <$> GetTokenPairs s) key 0) as (_ & B & C).
  assert (len (Cw721Address p) <= longest_contract (Cw721Address <$> GetTokenPairs s) key 0) as Hge.
  { apply C; [by apply list_elem_of_fmap_2, cw_elem_of_GetTokenPairs| |].
    - unfold key. rewrite len_app. lia.
    - unfold key. rewrite str_take_app. by apply EqualFold_spec. }
  destruct B as [B|(c & Hin & B & Hl & Hfold)]; [lia|]. rewrite B in *. clear C.
  apply list_elem_of_fmap in Hin as (q & -> & Hq%cw_elem_of_GetTokenPairs); [|done].
  pose proof (canonical_lower q (cw_registered_canonical s q Hs Hq)) as Hqlow.
  assert (p = q) as <-.
  { apply Hf; [done..|]. apply EqualFold_spec in Hfold. rewrite Hqlow in Hfold.
    assert (str_take (len (Cw721Address p)) (Cw721Address q) = Cw721Address p) as E.
    { rewrite <- Hfold, ToLower_take, str_take_take by done. unfold key. by rewrite str_take_app. }
    apply HasPrefix_spec. exists (str_drop (len (Cw721Address p)) (Cw721Address q)).
    rewrite <- E at 1. by rewrite str_take_drop. }
  destruct (Nat.eqb_spec (len (Cw721Address p)) 0); [lia|]. unfold key.
  by rewrite str_take_app, str_drop_app.
Qed.

Lemma export_receivers_entries cs es :
  (forall k v, (k, v) ∈ es -> exists c t, splitContractTokenKey cs k = inr (c, t) /\ k = c +:+ t) ->
  (fun r => (receiver_key r, rr_Owner r)) <$> fst (export_receivers cs es) = es.
Proof.
  induction es as [|[k v] es IH]; intros Hall; [done|]. cbn [export_receivers].
  destruct (Hall k v (ltac:(by left))) as (c & t & Hs & ->).
  destruct (export_receivers cs es) as [rs iss] eqn:E. rewrite Hs. cbn [fst] in *. rewrite fmap_cons.
  f_equal. apply IH. intros k' v' Hin. apply (Hall k' v'). by right.
Qed.

Lemma export_receivers_all s :
  registry_ok s -> prefix_free s -> refunds_ok s ->
  (fun r => (receiver_key r, rr_Owner r)) <$> fst (ExportRefundReceiversWithReport s) = kv_iter (refunds s).
Proof.
  intros Hs Hf Hr. apply export_receivers_entries. intros k v Hin%elem_of_kv_iter.
  destruct (Hr k v Hin) as (_ & p & t & Hp & Ht & ->). exists (Cw721Address p), t.
  split; [by apply cw_split_registered|done].
Qed.

Lemma cw_import_receivers_all s :
  registry_ok s -> prefix_free s -> refunds_ok s ->
  fold_left (fun m r => <[receiver_key r := rr_Owner r]> m) (fst (ExportRefundReceiversWithReport s)) ∅
  = refunds s.
Proof.
  intros Hs Hf Hr. pose proof (export_receivers_all s Hs Hf Hr) as E. apply fold_insert_eq.
  - pose proof (kv_iter_nodup (refunds s)) as Hn. rewrite <- E, <- list_fmap_compose in Hn. exact Hn.
  - intros k v. rewrite <- elem_of_kv_iter, <- E, list_elem_of_fmap.
    split; [intros (r & [= -> ->] & Hin)|intros (r & Hin & <- & <-)]; eauto.
Qed.

Definition dedupe_key (r : RefundReceiver) : string := ToLower (rr_ContractAddress r) +:+ "," +:+ rr_TokenId r.

Lemma cw_validate_receivers_ok reg l seen :
  (forall r, r ∈ l -> rr_ContractAddress r <> "" /\ rr_TokenId r <> "" /\ rr_Owner r <> "" /\
     ToLower (rr_ContractAddress r) ∈ reg /\ dedupe_key r ∉ seen) ->
  NoDup (dedupe_key <$> l) -> validate_receivers reg l seen = None.
Proof.
  revert seen. induction l as [|r l IH]; intros seen Hr Hn; [done|].
  rewrite fmap_cons in Hn. apply NoDup_cons in Hn as [Hn1 Hn2].
  destruct (Hr r (ltac:(by left))) as (E1 & E2 & E3 & E4 & E5). cbn [validate_receivers].
  rewrite !check_else_None. apply str_eqb_false in E1, E2, E3. rewrite E1, E2, E3. split; [done|].
  split; [by apply bool_decide_eq_true|]. split; [by apply bool_decide_eq_true|].
  apply IH; [|done]. intros q Hq. destruct (Hr q (ltac:(by right))) as (F1 & F2 & F3 & F4 & F5).
  split_and!; [done..|]. fold (dedupe_key r).
  rewrite elem_of_union, elem_of_singleton. intros [Heq|]; [|done]. apply Hn1. rewrite <- Heq.
  by apply list_elem_of_fmap_2.
Qed.

(** The first comma separates as well. *)
Lemma comma_inj a b t u :
  ContainsByte a "," = false -> ContainsByte b "," = false -> a +:+ "," +:+ t = b +:+ "," +:+ u ->
  a = b /\ t = u.
Proof.
  intros Ha Hb E. change (a +:+ String "," t = b +:+ String "," u) in E.
  pose proof (f_equal (fun x => Split x ",") E) as Es. cbv beta in Es; rewrite !Split_sep in Es by done.
  injection Es as -> _. split; [done|]. apply (f_equal (str_drop (len b))) in E. rewrite !str_drop_app in E.
  congruence.
Qed.

(** Each exported receiver is of a registered contract. *)
Lemma export_receiver_inv s r :
  registry_ok s -> prefix_free s -> refunds_ok s -> r ∈ fst (ExportRefundReceiversWithReport s) ->
  rr_Owner r <> "" /\ rr_TokenId r <> "" /\ exists p, registered s p /\ rr_ContractAddress r = Cw721Address p.
Proof.
  intros Hs Hf Hr. unfold ExportRefundReceiversWithReport.
  assert (forall k v, (k, v) ∈ kv_iter (refunds s) -> refunds s !! k = Some v) as Hes
    by (intros k v; apply elem_of_kv_iter).
  revert Hes. generalize (kv_iter (refunds s)) as es. intros es. induction es as [|[k v] es IH]; intros Hes;
    cbn [export_receivers]; [intros Hx; by apply elem_of_nil in Hx|].
  destruct (Hr k v) as (Hv & p & t & Hp & Ht & ->); [apply Hes; by left|].
  destruct (export_receivers _ es) as [rs iss]. rewrite cw_split_registered by done. cbn [fst] in *.
  intros [->|Hx]%elem_of_cons; [cbn; eauto|]. apply IH; [|done]. intros k' v' Hin. apply Hes. by right.
Qed.

Lemma NoDup_fmap_via {A} (f g : A -> string) (l : list A) :
  (forall x y, x ∈ l -> y ∈ l -> g x = g y -> f x = f y) -> NoDup (f <$> l) -> NoDup (g <$> l).
Proof.
  induction l as [|x l IH]; intros Hg Hn; [constructor|]. rewrite fmap_cons in *.
  apply NoDup_cons in Hn as [Hx Hn]. apply NoDup_cons. split.
  - intros (y & E & Hy)%list_elem_of_fmap. apply Hx. rewrite (Hg x y); [by apply list_elem_of_fmap_2|by left|by right|done].
  - apply IH; [|done]. intros y z Hy Hz. apply Hg; by right.
Qed.

Lemma cw_export_receivers_valid s :
  registry_ok s -> prefix_free s -> refunds_ok s ->
  validate_receivers ((fun tp => ToLower (Cw721Address tp)) <$> GetTokenPairs s)
    (fst (ExportRefundReceiversWithReport s)) ∅ = None.
Proof.
  intros Hs Hf Hr. pose proof (fun r => export_receiver_inv s r Hs Hf Hr) as Hl.
  apply cw_validate_receivers_ok.
  - intros r Hin. destruct (Hl r Hin) as (Ho & Ht & p & Hp & ->).
    pose proof (cw_registered_canonical s p Hs Hp) as [Hne _]%Normalize_chars. split_and!; try done.
    apply (list_elem_of_fmap_2 (fun tp => ToLower (Cw721Address tp))). by apply cw_elem_of_GetTokenPairs.
  - apply (NoDup_fmap_via receiver_key).
    + intros r1 r2 (_ & _ & p & Hp & E1)%Hl (_ & _ & q & Hq & E2)%Hl. unfold dedupe_key, receiver_key.
      pose proof (cw_registered_canonical s p Hs Hp) as Cp. pose proof (cw_registered_canonical s q Hs Hq) as Cq.
      rewrite E1, E2, !canonical_lower by done.
      intros [-> ->]%comma_inj; [done|by eapply Normalize_chars..].
    + pose proof (kv_iter_nodup (refunds s)) as Hn.
      rewrite <- (export_receivers_all s), <- list_fmap_compose in Hn by done. exact Hn.
Qed.
Lemma cw_export_pairs_valid s :
  registry_ok s -> prefix_free s -> refunds_ok s ->
  ValidateGenesisPairs (gs_NftUidPairs (ExportGenesis s)) (gs_RefundReceivers (ExportGenesis s))
    (gs_TokenPairs (ExportGenesis s)) = None.
Proof.
  intros Hs Hf Hr. apply then_check_None. split; [apply cw_export_uid_valid|by apply cw_export_receivers_valid].
Qed.

(** *** Parameters and the wasm code id *)

(** The stored parameters are an encoding of parameters whose code id is a uint64. *)
Definition params_ok s : Prop :=
  exists p bz, cw_Params s = Some bz /\ Marshal_Params p = inr bz /\ (0 <= WasmCodeId p < 2 ^ 64)%Z.

Lemma wasm_code_range s keys id : wasm_code_of s keys = inr id -> (0 < id < 2 ^ 64)%Z.
Proof.
  induction keys as [|k keys IH]; [done|]. cbn. destruct (_ =?s ""); [done|].
  destruct (ParseUint _) as [n|] eqn:E; [|done]. destruct (Z.eqb_spec n 0) as [|Hn]; [done|]. intros [= <-].
  apply ParseUint_range in E. lia.
Qed.

Lemma GetParams_range s : params_ok s -> (0 <= WasmCodeId (GetParams s) < 2 ^ 64)%Z.
Proof.
  intros (p & bz & E & Hm & Hr). unfold GetParams. rewrite E, (Params_roundtrip _ _ Hr Hm).
  destruct (Z.eqb_spec (WasmCodeId p) 0) as [E0|]; [|done].
  destruct (GetWasmCodeID s) as [e|id] eqn:Ei; [done|]. apply wasm_code_range in Ei. cbn. lia.
Qed.

(** Imported parameters read back, and the code id they carry is the one deployments use. *)
Lemma SetParams_empty p s' :
  (0 <= WasmCodeId p < 2 ^ 64)%Z -> SetParams empty_cw p = inr s' ->
  GetParams s' = p /\ (WasmCodeId p <> 0%Z -> GetWasmCodeID s' = inr (WasmCodeId p)).
Proof.
  intros Hr. unfold SetParams. destruct (Params_total p Hr) as [bz Hm]. rewrite Hm. intros [= <-].
  pose proof (Params_roundtrip _ _ Hr Hm) as Hu. destruct (Z.eqb_spec (WasmCodeId p) 0) as [E0|Hn0].
  - split; [|done]. unfold GetParams. cbn [cw_Params upd_Params]. rewrite Hu, E0. cbn [Z.eqb].
    unfold GetWasmCodeID. cbn. unfold GetWasmCode, kv_get. cbn. by rewrite !lookup_empty.
  - split; [unfold GetParams; cbn; rewrite Hu; by destruct (Z.eqb_spec (WasmCodeId p) 0)|]. intros _.
    unfold GetWasmCodeID. cbn [wasm_code_of]. unfold GetWasmCode, kv_get, SetWasmCode. cbn [cw_WasmCode upd_WasmCode upd_Params].
    assert (FormatUint (WasmCodeId p) =?s "" = false) as Hne
      by (apply str_eqb_false, BigString_nonempty; lia).
    assert (WasmCodeId p =? 0 = false)%Z as Hz by (by apply Z.eqb_neq).
    destruct (decide (acc_String AccModuleAddress = cw721_ModuleName)) as [->|Hd].
    + by rewrite lookup_insert_eq, Hne, ParseUint_Format, Hz.
    + rewrite lookup_insert_ne by done. cbn [cw_WasmCode empty_cw]. rewrite lookup_empty. cbn [String.eqb].
      by rewrite lookup_insert_eq, Hne, ParseUint_Format, Hz.
Qed.

(** C13: importing an export restores the conversion state of x/cw721 when the store
    satisfies the invariants, every binding is of a registered pair, no registered
    contract address is a prefix of another one, and the parameters are stored and
    decode: the pair table and both lookup maps, both directions of the UID index and the
    refund receivers come back byte for byte, and so do the parameters, whose code id is
    the one new contracts use.  (The export leaves other records out on purpose.) *)
Theorem cw721_genesis_roundtrip s :
  module_ok s -> bindings_registered s -> prefix_free s -> params_ok s ->
  exists s', InitGenesis true empty_cw (ExportGenesis s) = Some s' /\
    cw_TokenPair s' = cw_TokenPair s /\ cw_TokenPairByCW721 s' = cw_TokenPairByCW721 s /\
    cw_TokenPairByClass s' = cw_TokenPairByClass s /\ forward s' = forward s /\ reverse s' = reverse s /\
    refunds s' = refunds s /\ GetParams s' = GetParams s /\
    (WasmCodeId (GetParams s) <> 0%Z -> GetWasmCodeID s' = inr (WasmCodeId (GetParams s))).
Proof.
  intros [Hi Hs _ Hr] Hb Hf Hp. unfold InitGenesis. cbn [gs_Params ExportGenesis].
  pose proof (GetParams_range s Hp) as Hrange.
  destruct (SetParams empty_cw (GetParams s)) as [e|s1] eqn:E1.
  { unfold SetParams in E1. by destruct (Params_total (GetParams s) Hrange) as [bz Hm]; rewrite Hm in E1. }
  pose proof (SetParams_empty _ _ Hrange E1) as [Hget Hcode].
  assert (cw_TokenPair s1 = ∅ /\ cw_TokenPairByCW721 s1 = ∅ /\ cw_TokenPairByClass s1 = ∅ /\
          reverse s1 = ∅ /\ forward s1 = ∅ /\ refunds s1 = ∅) as (F1 & F2 & F3 & F4 & F5 & F6).
  { unfold SetParams in E1. destruct (Marshal_Params _); [done|]. injection E1 as <-. by destruct (_ =? 0)%Z. }
  cbn [negb gs_TokenPairs ExportGenesis GetTokenPairsWithReport fst].
  rewrite cw_import_pairs_eq by (intros p ?%cw_elem_of_GetTokenPairs; [by eapply cw_enc_spec|done]).
  unfold importPerTokenState. rewrite cw_export_pairs_valid by done.
  cbn [gs_NftUidPairs gs_RefundReceivers ExportGenesis]. rewrite cw_import_uids_eq, cw_import_receivers_eq.
  eexists. split; [done|]. cbn. rewrite F1, F2, F3, F4, F5, F6.
  destruct (cw_import_index s Hi Hb) as [-> ->]. rewrite cw_import_receivers_all, cw_import_table, cw_import_contracts by done.
  split_and!; try done. apply (import_map s tp_ClassId GetID); [done| |apply (rg_class _ Hs)].
  intros p q ??. by apply (cw_registered_class s).
Qed.

(** *** Validation of an export *)

Lemma cw_validate_token_pairs_ok l seenC seenD :
  (forall p, p ∈ l -> TokenPair_Validate p = None /\ ToLower (Cw721Address p) ∉ seenC /\ tp_ClassId p ∉ seenD) ->
  NoDup ((fun p => ToLower (Cw721Address p)) <$> l) -> NoDup (tp_ClassId <$> l) ->
  validate_token_pairs l seenC seenD = None.
Proof.
  revert seenC seenD. induction l as [|p l IH]; intros sC sD Hall Hc Hd; [done|].
  rewrite fmap_cons in Hc, Hd. apply NoDup_cons in Hc as [Hc1 Hc2]. apply NoDup_cons in Hd as [Hd1 Hd2].
  destruct (Hall p (ltac:(by left))) as (V & V1 & V2). cbn [validate_token_pairs]. rewrite !check_else_None.
  split; [by apply bool_decide_eq_true|]. split; [by apply bool_decide_eq_true|]. apply then_check_None.
  split; [done|]. apply IH; [|done..]. intros q Hq. destruct (Hall q (ltac:(by right))) as (W & W1 & W2).
  split; [done|]. rewrite !elem_of_union, !elem_of_singleton. split; intros [E|]; try done.
  - apply Hc1. rewrite <- E. by apply (list_elem_of_fmap_2 (fun p => ToLower (Cw721Address p))).
  - apply Hd1. rewrite <- E. by apply list_elem_of_fmap_2.
Qed.

(** The export of a consistent store passes its own validation, whatever damaged
    bindings the UID index holds: those are left out. *)
Lemma cw721_export_validates s :
  registry_ok s -> prefix_free s -> refunds_ok s ->
  (forall p, registered s p -> ValidateDenom (tp_ClassId p) = true) ->
  Genesis_Validate (ExportGenesis s) = None.
Proof.
  intros Hs Hf Hr Hd. unfold Genesis_Validate. rewrite !then_check_None.
  split; [|split; [by apply cw_export_pairs_valid|done]].
  cbn [gs_TokenPairs ExportGenesis GetTokenPairsWithReport fst]. apply cw_validate_token_pairs_ok.
  - intros p Hp%cw_elem_of_GetTokenPairs; [|done]. split; [|set_solver]. unfold TokenPair_Validate.
    rewrite !check_else_None. split; [by apply Hd|]. split; [|done].
    pose proof (cw_registered_canonical s p Hs Hp) as Hc. unfold canonical_pair, NormalizeCW721Address in Hc.
    unfold is_bech32. by destruct (AccAddressFromBech32 _).
  - apply (cw_GetTokenPairs_nodup s (fun p => ToLower (Cw721Address p))); [done|].
    intros p q Hp Hq. rewrite !canonical_lower by (eapply (cw_registered_canonical s); done). by apply (registered_address s).
  - apply cw_GetTokenPairs_nodup; [done|]. intros p q ??. by apply (cw_registered_class s).
Qed.
End RoundTrip.
