(* ===== verification/App.v ===== *)
(** app/keepers/keepers.go: the wiring of the burn guard of x/collection to the
    pair stores of the conversion modules. *)
From S2P Require Import Prelude GoStrings Sdk CollectionTypes CollectionKeeper Erc721Types.
From S2P Require Import Erc721Store Cw721Types Cw721Store.

Section App.
Context `{EthLib} `{SdkLib} `{NftKeeper} `{!EvmKeeper} `{!WasmState}.

(** convertedNFTChecker.IsConvertedNFT *)
Definition app_IsConvertedNFT (c : Ctx) (classID nftID : string) : bool :=
  (GetNFTPairByClassNFTID (c_erc c) classID nftID <>?s "")
  || (Cw721Store.GetNFTPairByClassNFTID (c_cw c) classID nftID <>?s "").

(** SetConvertedNFTChecker, as NewAppKeeper calls it *)
Definition app_checker : ConvertedNFTChecker := {| converted_checker := Some app_IsConvertedNFT |}.
End App.
