(* ===== verification/Erc721Evm.v ===== *)
(** x/erc721/keeper/evm.go: how the module calls the EVM.  Every call runs with
    zero value and price, is capped by the gas the transaction has left, and is
    charged to the transaction's gas meter. *)
From S2P Require Import Prelude GoStrings Sdk CollectionTypes CollectionKeeper Erc721Types.
From S2P Require Import Erc721Store.
Open Scope go_scope.

(** statedb.Account and the parts of statedb.Keeper and the account keeper that
    the module's StateDB wrapper uses *)
Record statedb_Account := { sa_Nonce : Z; sa_Balance : option Z; sa_CodeHash : string }.

Class StateDB `{EvmKeeper} := {
  sdk_account : Type;
  sdb_GetAccount : evm_state -> address -> option statedb_Account;
  sdb_SetAccount : evm_state -> address -> statedb_Account -> error + evm_state;
  IsEmptyCodeHash : string -> bool;
  ak_GetAccount : evm_state -> string -> option sdk_account;
  ak_SetAccount : evm_state -> sdk_account -> evm_state;
  SetSequence : sdk_account -> Z -> error + sdk_account;
}.

Module Erc721Evm.

(** ** types/evm.go *)
Record ERC721Data := NewERC721Data { ed_Name : string; ed_Symbol : string }.
Record ERC721TokenData := NewERC721TokenData { td_Name : string; td_Symbol : string; td_URI : string }.
Record NFTEnhance := NewNFTEnhance {
  ne_Name : string; ne_Uri : string; ne_Data : string; ne_UriHash : string }.
Record ClassEnhance := NewClassEnhance {
  ce_Data : string; ce_Description : string; ce_MintRestricted : bool; ce_Schema : string;
  ce_UpdateRestricted : bool; ce_Uri : string; ce_UriHash : string }.

Section Evm.
Context `{EthLib} `{SdkLib} `{NftKeeper} `{!EvmKeeper} `{!WasmState} `{CollectionCodec}.

(** ** types/keys.go *)
Definition AccModuleAddress : string := NewModuleAddress erc721_ModuleName.
Definition ModuleAddress : address := BytesToAddress (NewModuleAddress erc721_ModuleName).

(** [sdkerrors.Wrapf(e, ..., err.Error())]: the sentinel of the cause is replaced *)
Definition wrap_as {A} (e : error) (m : GoM A) : GoM A :=
  r <- attempt m ;; match r with inr a => mret a | inl _ => throw e end.

(** ** The StateDB wrapper *)

(** erc721StateDBKeeper.SetAccount *)
Definition SetAccount `{!StateDB} (s : evm_state) (addr : address) (account : statedb_Account)
  : error + evm_state :=
  if negb (bool_decide (addr = ModuleAddress)) then sdb_SetAccount s addr account
  else match ak_GetAccount s (addr_bytes addr) with
  | None => inl (SdkErr ErrUnknownAddress)
  | Some acct =>
    if negb (IsEmptyCodeHash (sa_CodeHash account)) then inl (SdkErr ErrUnauthorized)
    else match sdb_GetAccount s addr with
    | None => inl (SdkErr ErrUnauthorized)
    | Some current =>
      match sa_Balance current, sa_Balance account with
      | Some b1, Some b2 =>
        if negb (b1 =? b2)%Z then inl (SdkErr ErrUnauthorized)
        else match SetSequence acct (sa_Nonce account) with
             | inl e => inl e
             | inr acct' => inr (ak_SetAccount s acct')
             end
      | _, _ => inl (SdkErr ErrUnauthorized)
      end
    end
  end.

(** ** Calls *)

Definition apply_message (msg : EvmMessage) (commit : bool) : GoM (option EvmResponse) :=
  fun c => match ApplyMessage (c_evm c) (c_gas c) msg commit with
           | None => Panic
           | Some (inl e, (s, g)) => Err e (set_gas (set_evm c s) g)
           | Some (inr res, (s, g)) => Ok res (set_gas (set_evm c s) g)
           end.

(** [ctx.GasMeter().ConsumeGas]: panics when the meter runs out *)
Definition consume_gas (amount : Z) : GoM unit :=
  fun c => match ConsumeGas (c_gas c) amount with
           | Some m => Ok tt (set_gas c m)
           | None => Panic
           end.

Definition gas_cap (m : gas_meter) : Z :=
  if (GasRemaining m <? DefaultGasCap)%Z then GasRemaining m else DefaultGasCap.

(** CallEVMWithData *)
Definition CallEVMWithData (from : address) (contract : option address) (data : string)
  (commit : bool) : GoM EvmResponse :=
  st <- gets c_evm ;;
  nonce <- lift_sum (GetSequence st (addr_bytes from)) ;;
  meter <- gets c_gas ;;
  res <- apply_message
    {| m_From := from; m_To := contract; m_Nonce := nonce; m_Value := 0;
       m_GasLimit := gas_cap meter; m_GasPrice := 0; m_Data := data;
       m_SkipNonceChecks := negb commit |} commit ;;
  match res with
  | None => throw VMExecution
  | Some r =>
      (if (0 <? r_GasUsed r)%Z then consume_gas (r_GasUsed r) else mret tt) ;;;
      guard (r_VmError r =?s "") VMExecution ;;;
      mret r
  end.

(** CallEVM *)
Definition CallEVM (from contract : address) (commit : bool) (method : string) (args : list abival)
  : GoM EvmResponse :=
  data <- lift_opt (abi_Pack method args) (ErcErr ErrABIPack) ;;
  CallEVMWithData from (Some contract) data commit.

(** DeployERC721Contract *)
Definition DeployERC721Contract (classId : string) : GoM address :=
  class <- wrap_as (ErcErr ErrABIPack) (GetDenomInfo classId) ;;
  ctorArgs <- lift_opt (abi_Pack ""
    [AStr (Denom_Name class); AStr (Denom_Symbol class); AStr (Denom_Uri class);
     AStr (Denom_Data class); AStr (Denom_Description class); ABool (MintRestricted class);
     AStr (Denom_Schema class); ABool (UpdateRestricted class); AStr (Denom_UriHash class)])
    (ErcErr ErrABIPack) ;;
  let data := erc721_Bin +:+ ctorArgs in
  st <- gets c_evm ;;
  nonce <- lift_sum (GetSequence st (addr_bytes ModuleAddress)) ;;
  let contractAddr := CreateAddress ModuleAddress nonce in
  CallEVMWithData ModuleAddress None data true ;;;
  mret contractAddr.

(** erc721.UnpackIntoInterface(&res, method, ret), for a string result *)
Definition unpack_string (method ret : string) : GoM string :=
  match abi_Unpack method ret with
  | Some [AStr v] => mret v
  | _ => throw (ErcErr ErrABIUnpack)
  end.

(** QueryERC721 *)
Definition QueryERC721 (contract : address) : GoM ERC721Data :=
  res <- CallEVM ModuleAddress contract false "name" [] ;;
  name <- unpack_string "name" (r_Ret res) ;;
  res <- CallEVM ModuleAddress contract false "symbol" [] ;;
  symbol <- unpack_string "symbol" (r_Ret res) ;;
  mret (NewERC721Data name symbol).

(** QueryERC721Token *)
Definition QueryERC721Token (contract : address) : GoM ERC721TokenData :=
  res <- CallEVM ModuleAddress contract false "name" [] ;;
  name <- unpack_string "name" (r_Ret res) ;;
  res <- CallEVM ModuleAddress contract false "symbol" [] ;;
  symbol <- unpack_string "symbol" (r_Ret res) ;;
  mret (NewERC721TokenData name symbol "").

(** [v, ok := x.(string)]: the zero value when the type differs *)
Definition as_string (v : abival) : string := match v with AStr s => s | _ => "" end.
Definition as_bool (v : abival) : option bool := match v with ABool b => Some b | _ => None end.

(** classEnhanceFromReturn; its caller guarantees seven values *)
Definition classEnhanceFromReturn (ret : list abival) : GoM ClassEnhance :=
  match ret with
  | [v0; v1; v2; v3; v4; v5; v6] =>
      match as_bool v2, as_bool v4 with
      | Some mintRestricted, Some updateRestricted =>
          mret (NewClassEnhance (as_string v0) (as_string v1) mintRestricted (as_string v3)
                  updateRestricted (as_string v5) (as_string v6))
      | _, _ => throw (ErcErr ErrClassEnhanceRestrictions)
      end
  | _ => panic
  end.

(** QueryClassEnhance *)
Definition QueryClassEnhance (contract : address) : GoM ClassEnhance :=
  res <- CallEVM ModuleAddress contract false "getClassEnhanceInfo" [] ;;
  ret <- lift_opt (abi_Unpack "getClassEnhanceInfo" (r_Ret res)) (ErcErr ErrABIUnpack) ;;
  guard (List.length ret =? 7) (ErcErr ErrABIUnpack) ;;;
  classEnhanceFromReturn ret.

(** QueryERC721DataByTokenID *)
Definition QueryERC721DataByTokenID (queryFuncName : string) (contract : address) (tokenID : Z)
  : GoM (list abival) :=
  res <- CallEVM ModuleAddress contract false queryFuncName [AUint tokenID] ;;
  lift_opt (abi_Unpack queryFuncName (r_Ret res)) (ExtErr "abi").

(** QueryNFTEnhance *)
Definition QueryNFTEnhance (contract : address) (tokenID : Z) : GoM NFTEnhance :=
  r <- attempt (QueryERC721DataByTokenID "getNFTEnhanceInfo" contract tokenID) ;;
  match r with
  | inl _ =>
      retTokenUri <- QueryERC721DataByTokenID "tokenURI" contract tokenID ;;
      mret match retTokenUri with
           | AStr uri :: _ => NewNFTEnhance "" uri "" ""
           | _ => NewNFTEnhance "" "" "" ""
           end
  | inr (v0 :: v1 :: v2 :: v3 :: _) =>
      mret (NewNFTEnhance (as_string v0) (as_string v1) (as_string v2) (as_string v3))
  | inr _ => throw (ErcErr ErrABIUnpack)
  end.

(** QueryERC721TokenOwner *)
Definition QueryERC721TokenOwner (contract : address) (tokenID : Z) : GoM address :=
  res <- CallEVM ModuleAddress contract false "ownerOf" [AUint tokenID] ;;
  match abi_Unpack "ownerOf" (r_Ret res) with
  | Some [AAddr a] => mret a
  | _ => throw (ErcErr ErrABIUnpack)
  end.

End Evm.
End Erc721Evm.
Export Erc721Evm.

(** ** Frames of the calls *)
Section EvmFrames.
Context `{EthLib} `{SdkLib} `{NftKeeper} `{!EvmKeeper} `{!WasmState} `{CollectionCodec}.
Implicit Types c : Ctx.

(** Only the EVM state and the gas meter differ. *)
Definition evm_only c c' : Prop :=
  c_erc c' = c_erc c /\ c_nft c' = c_nft c /\ c_events c' = c_events c /\ c_cw c' = c_cw c /\
  (GasRemaining (c_gas c') <= GasRemaining (c_gas c))%Z.

(** Only the gas meter differs. *)
Definition gas_only c c' : Prop := evm_only c c' /\ c_evm c' = c_evm c.

#[global] Instance evm_only_preorder : PreOrder evm_only.
Proof.
  split; [intros c; by split_and!|].
  intros c1 c2 c3 (? & ? & ? & ? & ?) (? & ? & ? & ? & ?). split_and!; [congruence..|lia].
Qed.

#[global] Instance gas_only_preorder : PreOrder gas_only.
Proof.
  split; [intros c; by split|]. intros c1 c2 c3 [A1 B1] [A2 B2]. split; [by etransitivity|congruence].
Qed.

Lemma gas_only_evm c c' : gas_only c c' -> evm_only c c'.
Proof. by intros []. Qed.

Context `{!SdkLaws} `{!EvmLaws}.

Lemma gas_cap_bound m : (0 <= gas_cap m <= GasRemaining m)%Z /\ (gas_cap m <= DefaultGasCap)%Z.
Proof.
  unfold gas_cap. pose proof (gas_nonneg m). pose proof DefaultGasCap_nonneg.
  destruct (Z.ltb_spec (GasRemaining m) DefaultGasCap); lia.
Qed.

(** One call, as a function of its ApplyMessage and of what charging its gas leaves. *)
Lemma CallEVMWithData_run from to data commit c nonce :
  GetSequence (c_evm c) (addr_bytes from) = inr nonce ->
  exists msg, msg = {| m_From := from; m_To := to; m_Nonce := nonce; m_Value := 0;
                       m_GasLimit := gas_cap (c_gas c); m_GasPrice := 0; m_Data := data;
                       m_SkipNonceChecks := negb commit |} /\
    match ApplyMessage (c_evm c) (c_gas c) msg commit with
    | None => CallEVMWithData from to data commit c = Panic
    | Some (inl e, (s, g)) => CallEVMWithData from to data commit c = Err e (set_gas (set_evm c s) g)
    | Some (inr None, (s, g)) =>
        CallEVMWithData from to data commit c = Err VMExecution (set_gas (set_evm c s) g)
    | Some (inr (Some r), (s, g)) => (0 <= r_GasUsed r <= gas_cap (c_gas c))%Z /\
        match (if (0 <? r_GasUsed r)%Z then ConsumeGas g (r_GasUsed r) else Some g) with
        | None => CallEVMWithData from to data commit c = Panic
        | Some g' => CallEVMWithData from to data commit c =
            if r_VmError r =?s "" then Ok r (set_gas (set_evm c s) g')
            else Err VMExecution (set_gas (set_evm c s) g')
        end
    end.
Proof.
  intros Hn. eexists. split; [reflexivity|]. unfold CallEVMWithData, mbind, gets. rewrite Hn. cbn - [gas_cap].
  unfold apply_message. destruct (ApplyMessage _ _ _ _) as [[[e|[r|]] [s g]]|] eqn:E; [done| |done..].
  split; [apply (ApplyMessage_gas _ _ _ _ _ _ _ E), gas_cap_bound|].
  destruct (Z.ltb_spec 0 (r_GasUsed r)); unfold consume_gas, guard; cbn.
  - destruct (ConsumeGas g _); [|done]. by destruct (r_VmError r =?s "").
  - by destruct (r_VmError r =?s "").
Qed.

(** The state a call that does not run the meter out leaves. *)
Lemma CallEVMWithData_left from to data commit c :
  match CallEVMWithData from to data commit c with
  | Ok _ c' | Err _ c' => evm_only c c' /\ (commit = false -> c_evm c' = c_evm c) /\
      (unmetered c -> unmetered c')
  | Panic => ~ unmetered c
  end.
Proof.
  destruct (GetSequence (c_evm c) (addr_bytes from)) as [e|nonce] eqn:Hn.
  { unfold CallEVMWithData, mbind, gets. rewrite Hn. cbn. done. }
  destruct (CallEVMWithData_run from to data commit c nonce Hn) as (msg & _ & Hr).
  pose proof (ApplyMessage_infinite (c_evm c) (c_gas c) msg commit) as Hinf.
  destruct (ApplyMessage _ _ _ _) as [[r [s g]]|] eqn:E.
  2: { rewrite Hr. intros Hu. by destruct (Hinf Hu) as (? & ? & ? & ? & _). }
  pose proof (ApplyMessage_meter _ _ _ _ _ _ _ E) as Hm.
  assert (commit = false -> s = c_evm c) as Hq by (intros ->; by eapply ApplyMessage_query).
  assert (unmetered c -> IsInfinite g) as Hg.
  { intros Hu. by destruct (Hinf Hu) as (? & ? & ? & [= <- <- <-] & ?). }
  destruct r as [e|[r|]]; [by rewrite Hr| |by rewrite Hr]. destruct Hr as [Hused Hr].
  destruct (Z.ltb_spec 0 (r_GasUsed r)).
  - destruct (ConsumeGas g (r_GasUsed r)) as [g'|] eqn:Ec; rewrite Hr.
    + apply gas_consumed in Ec as Hle; [|lia].
      assert (unmetered c -> IsInfinite g') as Hg'.
      { intros Hu. destruct (infinite_gas g (r_GasUsed r)) as (x & Ex & ?); [lia|auto|]. by simplify_eq. }
      destruct (_ =?s _); (split; [split_and!; try done; cbn; lia|]; done).
    + intros Hu. destruct (infinite_gas g (r_GasUsed r)) as (x & Ex & ?); [lia|auto|]. by simplify_eq.
  - rewrite Hr. by destruct (_ =?s _).
Qed.

Lemma CallEVMWithData_frame from to data commit : frame evm_only (CallEVMWithData from to data commit).
Proof. intros c. pose proof (CallEVMWithData_left from to data commit c) as Hl. destruct (CallEVMWithData _ _ _ _ c); [apply Hl..|done]. Qed.

Lemma CallEVMWithData_query from to data : frame gas_only (CallEVMWithData from to data false).
Proof.
  intros c. pose proof (CallEVMWithData_left from to data false c) as Hl. unfold gas_only.
  destruct (CallEVMWithData _ _ _ _ c); [split; [apply Hl|by apply Hl]..|done].
Qed.

(** Only running out of gas stops a call. *)
Lemma CallEVMWithData_safe from to data commit : safe unmetered (CallEVMWithData from to data commit).
Proof.
  intros c Hu. pose proof (CallEVMWithData_left from to data commit c) as Hl.
  destruct (CallEVMWithData _ _ _ _ c); [by apply Hl..|by apply Hl].
Qed.

Lemma CallEVM_frame from to commit m args : frame evm_only (CallEVM from to commit m args).
Proof. unfold CallEVM. go_frame. apply CallEVMWithData_frame. Qed.

Lemma CallEVM_query from to m args : frame gas_only (CallEVM from to false m args).
Proof. unfold CallEVM. go_frame. apply CallEVMWithData_query. Qed.

Lemma CallEVM_safe from to commit m args : safe unmetered (CallEVM from to commit m args).
Proof. unfold CallEVM. go_frame. apply CallEVMWithData_safe. Qed.
End EvmFrames.
#[export] Hint Resolve CallEVMWithData_frame CallEVM_frame CallEVM_query CallEVMWithData_safe
  CallEVM_safe gas_only_evm : go.

Section EvmQueries.
Context `{EthLib} `{SdkLib} `{NftKeeper} `{!EvmKeeper} `{!WasmState} `{CollectionCodec} `{!SdkLaws} `{!EvmLaws}.

Lemma TokenOwner_frame a n : frame gas_only (QueryERC721TokenOwner a n).
Proof. unfold QueryERC721TokenOwner. go_frame. Qed.

Lemma TokenOwner_safe a n : safe unmetered (QueryERC721TokenOwner a n).
Proof. unfold QueryERC721TokenOwner. go_frame. Qed.

Lemma NFTEnhance_frame a n : frame gas_only (QueryNFTEnhance a n).
Proof. unfold QueryNFTEnhance, QueryERC721DataByTokenID. go_frame. Qed.

Lemma QueryERC721_frame a : frame gas_only (QueryERC721 a).
Proof. unfold QueryERC721, unpack_string. go_frame. Qed.

Lemma ClassEnhance_frame a : frame gas_only (QueryClassEnhance a).
Proof. unfold QueryClassEnhance, classEnhanceFromReturn. go_frame. Qed.

Lemma ClassEnhance_safe a : safe unmetered (QueryClassEnhance a).
Proof.
  unfold QueryClassEnhance. apply safe_bind; [auto with go|intros res].
  apply safe_bind; [auto with go|intros ret]. intros c Hu. unfold mbind, guard.
  destruct (Nat.eqb_spec (List.length ret) 7) as [Hl|]; [|done]. cbn.
  destruct ret as [|a0 [|a1 [|a2 [|a3 [|a4 [|a5 [|a6 [|? ?]]]]]]]]; try done. unfold classEnhanceFromReturn.
  destruct (as_bool a2), (as_bool a4); done.
Qed.

Lemma wrap_as_frame {A} R `{!PreOrder R} e (m : GoM A) : frame R m -> frame R (wrap_as e m).
Proof. intros Hm. unfold wrap_as. go_frame. Qed.

Lemma wrap_as_ok {A} e (m : GoM A) c a c' : wrap_as e m c = Ok a c' -> m c = Ok a c'.
Proof.
  unfold wrap_as. intros Hr. go_simp. match goal with H : match ?r with _ => _ end |- _ => destruct r end.
  - go_simp.
  - by go_simp.
Qed.
End EvmQueries.
#[export] Hint Resolve TokenOwner_frame TokenOwner_safe NFTEnhance_frame QueryERC721_frame
  ClassEnhance_frame ClassEnhance_safe wrap_as_frame : go.
