(* ===== verification/Cw721Wasm.v ===== *)
(** x/cw721/keeper/wasm.go and wasm_adapter.go: how the module queries, instantiates
    and executes CosmWasm contracts.  Every message is JSON. *)
From S2P Require Import Prelude GoStrings Utf8 GoJson Sdk CollectionTypes CollectionKeeper Erc721Evm.
From S2P Require Import Cw721Types Cw721Store.
Import Cw721Types Cw721Store.
Open Scope go_scope.
Open Scope list_scope.

(** The responses the module decodes; the extension of a token is not read. *)
Record ContractInfoData := MkContractInfoData { ci_Name : string; ci_Symbol : string }.
Record AllNftInfo := MkAllNftInfo { ai_Owner : string; ai_TokenUri : string }.

(** github.com/CosmWasm/wasmd: the two messages (no funds are ever attached) *)
Record MsgInstantiateContract := MkMsgInstantiateContract {
  in_Sender : string; in_Admin : string; in_CodeID : Z; in_Label : string; in_Msg : string }.
Record MsgExecuteContract := MkMsgExecuteContract {
  ex_Sender : string; ex_Contract : string; ex_Msg : string }.

(** The wasm keeper behind wasm_adapter.go, and [json.Unmarshal] of the responses.
    What a contract does and answers is arbitrary. *)
Class WasmKeeper `{EthLib} `{SdkLib} `{NftKeeper} `{!EvmKeeper} `{!WasmState} := {
  wk_InstantiateContract : MsgInstantiateContract -> GoM string;        (** the new address *)
  wk_ExecuteContract : MsgExecuteContract -> GoM string;                (** the response data *)
  wk_SmartContractState : string -> string -> GoM string;               (** address, query *)
  MsgExecuteContract_ValidateBasic : MsgExecuteContract -> option error;
  json_Unmarshal_ContractInfoData : string -> option ContractInfoData;
  json_Unmarshal_AllNftInfo : string -> option AllNftInfo;
}.

Section WasmFrames.
Context `{EthLib} `{SdkLib} `{NftKeeper} `{!EvmKeeper} `{!WasmState}.

(** The stores of x/erc721, x/nft and x/cw721 are as before. *)
Definition wasm_only (c c' : Ctx) : Prop :=
  c_erc c' = c_erc c /\ c_nft c' = c_nft c /\ c_cw c' = c_cw c.

(** Those and the contracts are as before. *)
Definition wasm_query (c c' : Ctx) : Prop := wasm_only c c' /\ c_wasm c' = c_wasm c.

#[global] Instance wasm_only_preorder : PreOrder wasm_only.
Proof. split; [done|]. intros c1 c2 c3 (? & ? & ?) (? & ? & ?). split_and!; congruence. Qed.
#[global] Instance wasm_query_preorder : PreOrder wasm_query.
Proof. split; [done|]. intros c1 c2 c3 [A1 B1] [A2 B2]. split; [by etransitivity|congruence]. Qed.

Lemma wasm_query_only c c' : wasm_query c c' -> wasm_only c c'.
Proof. by intros []. Qed.
End WasmFrames.

(** A smart query writes nothing, and under an infinite meter it returns. *)
Class WasmLaws `{WasmKeeper} : Prop := {
  SmartContractState_frame a q : frame wasm_query (wk_SmartContractState a q);
  SmartContractState_safe a q : safe unmetered (wk_SmartContractState a q);
}.

(** An executed contract may answer with messages that wasmd dispatches under the
    contract's own account.  A contract is quiet when it sends none that reaches x/nft
    or the two conversion modules: the transfer and mint of a plain CW721 send no
    message at all.  Nothing makes a contract quiet; a theorem that needs it of a
    contract has it as a hypothesis on that contract. *)
Definition quiet `{WasmKeeper} (contract : string) : Prop :=
  forall sender msg, frame wasm_only (wk_ExecuteContract (MkMsgExecuteContract sender contract msg)).

Module Cw721Wasm.
Section Wasm.
Context `{EthLib} `{SdkLib} `{NftKeeper} `{!EvmKeeper} `{!WasmState} `{!WasmKeeper} `{CollectionCodec}
        `{Cw721Codec}.

Definition ErrJSON : error := ExtErr "json".

(** QueryWasmState *)
Definition QueryWasmState (address queryData : string) : GoM string := wk_SmartContractState address queryData.

(** ExecWasmMsg *)
Definition ExecWasmMsg (execMsg : MsgExecuteContract) : GoM string :=
  match MsgExecuteContract_ValidateBasic execMsg with
  | Some _ => throw (CwErr CwErrABIPack)
  | None => wk_ExecuteContract execMsg
  end.

Definition contract_info_query : string := json_object [("contract_info", json_object [])].

(** QueryCW721 *)
Definition QueryCW721 (contractAddress : string) : GoM ContractInfoData :=
  res <- QueryWasmState contractAddress contract_info_query ;;
  lift_opt (json_Unmarshal_ContractInfoData res) ErrJSON.

Definition all_nft_info_query (tokenId : string) : string :=
  json_object [("all_nft_info", json_object [("token_id", json_string tokenId)])].

(** QueryCW721AllNftInfo *)
Definition QueryCW721AllNftInfo (contractAddress tokenId : string) : GoM AllNftInfo :=
  res <- QueryWasmState contractAddress (all_nft_info_query tokenId) ;;
  lift_opt (json_Unmarshal_AllNftInfo res) ErrJSON.

(** QueryCW721TokenOwner *)
Definition QueryCW721TokenOwner (contractAddress tokenId : string) : GoM string :=
  allNftInfo <- QueryCW721AllNftInfo contractAddress tokenId ;;
  mret (TrimSpace (ai_Owner allNftInfo)).

Definition instantiate_msg (name symbol minter : string) : string :=
  json_object [("name", json_string name); ("symbol", json_string symbol); ("minter", json_string minter)].

(** InstantiateWasmContract *)
Definition InstantiateWasmContract (senderAddr : string) (codeId : Z) (label name symbol minter : string)
  : GoM string :=
  wk_InstantiateContract (MkMsgInstantiateContract senderAddr senderAddr codeId label
                            (instantiate_msg name symbol minter)).

(** DeployCW721Contract, on the class id of the message *)
Definition DeployCW721Contract (classId : string) : GoM string :=
  s <- gets c_cw ;;
  codeID <- lift_sum (GetWasmCodeID s) ;;
  class <- wrap_as (CwErr CwErrClassNotExist) (GetDenomInfo classId) ;;
  let name := if Denom_Name class =?s "" then Denom_Id class else Denom_Name class in
  let symbol := if Denom_Symbol class =?s "" then Denom_Id class else Denom_Symbol class in
  let moduleAddr := acc_String AccModuleAddress in
  InstantiateWasmContract moduleAddr codeID (Denom_Id class) name symbol moduleAddr.

Definition mint_msg (tokenId owner tokenUri : string) : string :=
  json_object [("mint", json_object [("token_id", json_string tokenId); ("owner", json_string owner);
                                     ("token_uri", json_string tokenUri)])].

(** MintCw721 *)
Definition MintCw721 (contractAddress tokenId owner tokenUri : string) : GoM string :=
  ExecWasmMsg (MkMsgExecuteContract (acc_String AccModuleAddress) contractAddress
                 (mint_msg tokenId owner tokenUri)).

Definition transfer_msg (tokenId recipient : string) : string :=
  json_object [("transfer_nft", json_object [("recipient", json_string recipient);
                                             ("token_id", json_string tokenId)])].

(** TransferCw721 *)
Definition TransferCw721 (contractAddress tokenId recipient sender : string) : GoM string :=
  ExecWasmMsg (MkMsgExecuteContract sender contractAddress (transfer_msg tokenId recipient)).
End Wasm.
End Cw721Wasm.

(** ** Frames of the calls *)
Section Frames.
Import Cw721Wasm.
Context `{EthLib} `{SdkLib} `{NftKeeper} `{!EvmKeeper} `{!WasmState} `{!WasmKeeper} `{!WasmLaws}
        `{CollectionCodec} `{Cw721Codec}.

Lemma QueryCW721_frame a : frame wasm_query (QueryCW721 a).
Proof. unfold QueryCW721, QueryWasmState. pose proof SmartContractState_frame. go_frame. Qed.
Lemma AllNftInfo_frame a t : frame wasm_query (QueryCW721AllNftInfo a t).
Proof. unfold QueryCW721AllNftInfo, QueryWasmState. pose proof SmartContractState_frame. go_frame. Qed.
Lemma cw_TokenOwner_frame a t : frame wasm_query (QueryCW721TokenOwner a t).
Proof. unfold QueryCW721TokenOwner. pose proof AllNftInfo_frame. go_frame. Qed.
Lemma cw_TokenOwner_safe a t : safe unmetered (QueryCW721TokenOwner a t).
Proof.
  unfold QueryCW721TokenOwner, QueryCW721AllNftInfo, QueryWasmState. pose proof SmartContractState_safe. go_frame.
Qed.
Lemma TransferCw721_frame a t r s : quiet a -> frame wasm_only (TransferCw721 a t r s).
Proof. intros Hq. unfold TransferCw721, ExecWasmMsg. specialize (Hq s (transfer_msg t r)). go_frame. Qed.
Lemma MintCw721_frame a t r u : quiet a -> frame wasm_only (MintCw721 a t r u).
Proof.
  intros Hq. unfold MintCw721, ExecWasmMsg. specialize (Hq (acc_String AccModuleAddress) (mint_msg t r u)). go_frame.
Qed.

Lemma GetDenomInfo_wasm d : frame wasm_query (GetDenomInfo d).
Proof. unfold GetDenomInfo. go_frame. Qed.

Lemma Deploy_frame d : (forall m, frame wasm_only (wk_InstantiateContract m)) -> frame wasm_only (DeployCW721Contract d).
Proof.
  intros Hi. unfold DeployCW721Contract, InstantiateWasmContract.
  assert (forall d, frame wasm_only (wrap_as (CwErr CwErrClassNotExist) (GetDenomInfo d))) as Hw.
  { intros x. apply wrap_as_frame; [apply _|]. eapply frame_sub; [apply wasm_query_only|apply GetDenomInfo_wasm]. }
  go_frame.
Qed.
End Frames.
