(* ===== verification/Cw721Register.v ===== *)
(** x/cw721/keeper/nft_data.go and register.go: resolving the identifiers of a
    conversion, and registering a token pair from either side. *)
From S2P Require Import Prelude GoStrings Utf8 GoJson Sdk CollectionTypes CollectionKeeper Erc721Evm.
From S2P Require Import Cw721Types Cw721Store Cw721Wasm.
Import Cw721Types Cw721Store Cw721Wasm.
Open Scope go_scope.
Open Scope list_scope.

Module Cw721Register.

(** The nftType argument of the source: 0, 1, 2, 3. *)
Inductive nftType := TNftId | TClassId | TTokenId | TContract.

Section Register.
Context `{EthLib} `{SdkLib} `{NftKeeper} `{!EvmKeeper} `{!WasmState} `{!WasmKeeper} `{CollectionCodec}
        `{Cw721Codec}.

(** ** nft_data.go *)

Definition createNftDataByType (nftOrg : string) (ty : nftType) : string :=
  match ty with
  | TNftId => CreateNFTIDFromTokenID nftOrg
  | TClassId => CreateClassIDFromContractAddress nftOrg
  | TTokenId => CreateTokenIDFromNFTID nftOrg
  | TContract => CreateContractAddressFromClassID nftOrg
  end.

Definition getNftDataErrorByType (ty : nftType) : error :=
  CwErr match ty with
        | TNftId => CwErrNftIdNotCorrect
        | TClassId => CwErrClassIdNotCorrect
        | TTokenId => CwErrTokenIdNotCorrect
        | TContract => CwErrContractAddressNotCorrect
        end.

Definition getNftData (nftOrg nftPairOrg nftSaved : string) (ty : nftType) : error + string :=
  if (nftOrg =?s "") && (nftSaved =?s "") then inr (createNftDataByType nftPairOrg ty)
  else if nftOrg =?s "" then inr nftSaved
  else if (nftSaved =?s "") || (nftSaved =?s nftOrg) then inr nftOrg
  else inl (getNftDataErrorByType ty).

(** getNftDatas: [nftSaved] and [nftOrg] are declared outside the loop and keep
    the value of the previous iteration when they are not assigned.  A nil slice
    and an empty one behave alike: [n < len] and [nftLen == len] are false. *)
Fixpoint getNftDatas_loop (nftOrgs nftPairOrgs nftSaveds : list string) (ty : nftType)
  (ids : list string) (n : nat) (nftSaved nftOrg : string) : error + list string :=
  match ids with
  | [] => inr []
  | id :: rest =>
      let nftSaved := match nftSaveds !! n with Some v => v | None => nftSaved end in
      let nftOrg := if List.length nftPairOrgs =? List.length nftOrgs
                    then default "" (nftOrgs !! n) else nftOrg in
      match getNftData nftOrg id nftSaved ty with
      | inl e => inl e
      | inr ret =>
          match getNftDatas_loop nftOrgs nftPairOrgs nftSaveds ty rest (S n) nftSaved nftOrg with
          | inl e => inl e
          | inr rets => inr (ret :: rets)
          end
      end
  end.

Definition getNftDatas (nftOrgs nftPairOrgs nftSaveds : list string) (ty : nftType)
  : error + list string :=
  getNftDatas_loop nftOrgs nftPairOrgs nftSaveds ty nftPairOrgs 0 "" "".

(** GetClassIDAndNFTID *)
Fixpoint class_and_nft_ids (s : CwStore) (msg : MsgConvertCW721) (tokenIds : list string) (i : nat)
  (classId : string) : error + (string * list string) :=
  match tokenIds with
  | [] => inr (classId, [])
  | tokenId :: rest =>
      let savedPair := GetNFTUIDPairByTokenUID s (CreateTokenUID (cc_ContractAddress msg) tokenId) in
      let '(savedNftId, savedClassId) :=
        if savedPair <>?s "" then GetNFTFromUID savedPair else ("", "") in
      if (savedPair <>?s "") && ((savedNftId =?s "") || (savedClassId =?s ""))
      then inl (SdkErr ErrInvalidRequest)
      else
        let nftOrg := default "" (cc_NftIds msg !! i) in
        match getNftData nftOrg tokenId savedNftId TNftId with
        | inl e => inl e
        | inr nftId =>
            match getNftData (cc_ClassId msg) (cc_ContractAddress msg) savedClassId TClassId with
            | inl e => inl e
            | inr classId =>
                match class_and_nft_ids s msg rest (S i) classId with
                | inl e => inl e
                | inr (c, ids) => inr (c, nftId :: ids)
                end
            end
        end
  end.

Definition GetClassIDAndNFTID (s : CwStore) (msg : MsgConvertCW721) : error + (string * list string) :=
  class_and_nft_ids s msg (cc_TokenIds msg) 0 "".

(** The loop over the NFT ids of GetContractAddressAndTokenIds.  [savedTokenId] and
    [temp] (tempContractAddress) are declared outside it and are only assigned when
    the NFT has a stored pair: an NFT without one inherits the previous values. *)
Fixpoint saved_ids (s : CwStore) (classId : string) (nftIds : list string)
  (savedTokenId temp contract : string) : error + (list string * string) :=
  match nftIds with
  | [] => inr ([], contract)
  | nftId :: rest =>
      let savedPair := GetTokenUIDPairByNFTUID s (CreateNFTUID classId nftId) in
      let '(savedTokenId, temp) :=
        if savedPair <>?s "" then GetNFTFromUID savedPair else (savedTokenId, temp) in
      if (savedPair <>?s "") && ((savedTokenId =?s "") || (temp =?s ""))
      then inl (SdkErr ErrInvalidRequest)
      else
        let contract := if temp <>?s "" then temp else contract in
        match saved_ids s classId rest savedTokenId temp contract with
        | inl e => inl e
        | inr (ids, contract) => inr (savedTokenId :: ids, contract)
        end
  end.

(** The one-to-one check over the resolved token ids; [None] is success.  The
    two lists have the same length, getNftDatas resolves one id per NFT. *)
Fixpoint check_forward (s : CwStore) (contract classId : string) (tokenIds nftIds : list string)
  : option error :=
  match tokenIds, nftIds with
  | tokenID :: tokenIds, nftId :: nftIds =>
      let forward := GetNFTPairByContractTokenID s contract tokenID in
      if (tokenID <>?s "") && (forward <>?s "") && (forward <>?s CreateNFTUID classId nftId)
      then Some (CwErr CwErrNFTMappingConflict)
      else check_forward s contract classId tokenIds nftIds
  | _, _ => None
  end.

(** GetContractAddressAndTokenIds, for a class with a pair: it only reads the store *)
Definition registered_ids (s : CwStore) (tp : TokenPair) (msg : MsgConvertNFT)
  : error + (string * list string) :=
  match saved_ids s (cn_ClassId msg) (cn_NftIds msg) "" "" "" with
  | inl e => inl e
  | inr (savedTokenIds, savedContractAddress) =>
  match getNftDatas (cn_TokenIds msg) (cn_NftIds msg) savedTokenIds TTokenId with
  | inl e => inl e
  | inr ids =>
  match getNftData (cn_ContractAddress msg) (cn_ClassId msg) savedContractAddress TContract with
  | inl e => inl e
  | inr contract =>
      let contract := if contract =?s "" then Cw721Address tp else contract in
      if (contract <>?s "") && negb (EqualFold contract (Cw721Address tp))
      then inl (CwErr CwErrContractAddressNotCorrect)
      else match check_forward s (Cw721Address tp) (cn_ClassId msg) ids (cn_NftIds msg) with
           | Some e => inl e
           | None => inr (Cw721Address tp, ids)
           end
  end end end.

(** GetContractAddressAndTokenIds *)
Definition GetContractAddressAndTokenIds (msg : MsgConvertNFT) : GoM (string * list string) :=
  s <- gets c_cw ;;
  match GetPairByClass s (cn_ClassId msg) with
  | inl _ =>
      ids <- lift_sum (getNftDatas (cn_TokenIds msg) (cn_NftIds msg) [] TTokenId) ;;
      guard (IsBlank (cn_ContractAddress msg)) (CwErr CwErrContractAddressNotCorrect) ;;;
      contractAddress <- DeployCW721Contract (cn_ClassId msg) ;;
      mret (contractAddress, ids)
  | inr tp => lift_sum (registered_ids s tp msg)
  end.

(** ** register.go *)

(** The three writes both register paths end with. *)
Definition write_pair (tp : TokenPair) : GoM unit :=
  cw_try (fun s => SetTokenPair s tp) ;;;
  cw_set (fun s => SetClassMap s (tp_ClassId tp) (GetID tp)) ;;;
  cw_set (fun s => SetCW721Map s (Cw721Address tp) (GetID tp)).

(** RegisterNFT, on the class id and the contract address of the message *)
Definition RegisterNFT (classId contractAddress : string) : GoM TokenPair :=
  guard (negb (IsIBCDenom classId)) (SdkErr ErrInvalidRequest) ;;;
  cw721Addr <- lift_sum (NormalizeCW721Address contractAddress) ;;
  s <- gets c_cw ;;
  guard (negb (IsClassRegistered s classId)) (CwErr CwErrTokenPairAlreadyExists) ;;;
  guard (negb (IsCW721Registered s cw721Addr)) (CwErr CwErrTokenPairAlreadyExists) ;;;
  guard (negb (IsBlank classId)) (CwErr CwErrInternalTokenPair) ;;;
  let tp := NewTokenPair cw721Addr classId in
  write_pair tp ;;;
  mret tp.

(** CreateNFTClass, on the contract and class id of the message *)
Definition CreateNFTClass (contractAddress classId : string) : GoM unit :=
  cw721Data <- QueryCW721 contractAddress ;;
  s <- gets c_cw ;;
  guard (negb (IsClassRegistered s classId)) (CwErr CwErrTokenPairAlreadyExists) ;;;
  d <- attempt (GetDenomInfo classId) ;;
  guard (match d with inr _ => false | inl _ => true end) (CwErr CwErrInternalTokenPair) ;;;
  SaveDenom classId (ci_Name cw721Data) "" (ci_Symbol cw721Data) AccModuleAddress false false "" "" "" "".

(** RegisterCW721; the result carries the pair, whose two fields are the contract
    address and the class id the call leaves in the message *)
Definition RegisterCW721 (classId contractAddress : string) : GoM TokenPair :=
  cw721Addr <- lift_sum (NormalizeCW721Address contractAddress) ;;
  s <- gets c_cw ;;
  guard (negb (IsCW721Registered s cw721Addr)) (CwErr CwErrTokenPairAlreadyExists) ;;;
  let derivedClassID := CreateClassIDFromContractAddress cw721Addr in
  let trimmedClassID := TrimSpace classId in
  guard ((trimmedClassID =?s "") || (trimmedClassID =?s derivedClassID)) (CwErr CwErrTokenPairNotFound) ;;;
  let classId := if trimmedClassID =?s "" then derivedClassID else classId in
  CreateNFTClass cw721Addr classId ;;;
  let tp := NewTokenPair cw721Addr classId in
  write_pair tp ;;;
  mret tp.
End Register.
End Cw721Register.
