(* ===== verification/Cw721Convert.v ===== *)
(** x/cw721/keeper/msg_server.go and msg_update_params.go: the three conversion
    messages, the parameter update, and the refund of an IBC packet. *)
From S2P Require Import Prelude GoStrings Utf8 GoJson Sdk CollectionTypes CollectionKeeper Erc721Evm.
From S2P Require Import Cw721Types Cw721Store Cw721Wasm Cw721Register.
Import Cw721Types Cw721Store Cw721Wasm Cw721Register.
Open Scope go_scope.
Open Scope list_scope.

Module Cw721Convert.

Record MsgConvertCW721Response := MkMsgConvertCW721Response {
  cr_ContractAddress : string; cr_TokenIds : list string; cr_Receiver : string; cr_Sender : string;
  cr_ClassId : string; cr_NftIds : list string }.

Section Convert.
Context `{EthLib} `{SdkLib} `{NftKeeper} `{!EvmKeeper} `{!WasmState} `{!WasmKeeper} `{CollectionCodec}
        `{Cw721Codec} `{!ConvertedNFTChecker} `{!IbcKeeper} `{FmtLib}.

Definition maxCW721BatchSize : nat := 100.

(** The two length checks both conversions make. *)
Definition check_batch (tokenIds nftIds : list string) : GoM unit :=
  guard (nonempty tokenIds && (List.length tokenIds =? List.length nftIds)) (SdkErr ErrInvalidRequest) ;;;
  guard (List.length tokenIds <=? maxCW721BatchSize) (SdkErr ErrInvalidRequest).

(** The loop both conversions end with: save the NFT pairs. *)
Definition save_pairs (contract classId : string) (ids : list (string * string)) : GoM unit :=
  for_each ids (fun '(tokenId, nftId) => cw_try (fun s => SetNFTPairs s contract tokenId classId nftId)).

(** The event both conversions emit. *)
Definition convert_event (sender receiver classId contract : string) (nftIds tokenIds : list string) : Event :=
  NewEvent "convert_cw721"
    [("sender", sender); ("receiver", receiver); ("nft_class", classId); ("nft_ids", Join nftIds ",");
     ("cw721_token", contract); ("cw721_token_ids", Join tokenIds ",")].

(** ** CW721 to Cosmos *)

(** One iteration of the loop of convertWasm2Cosmos: check the owner, take the CW721
    token, then mint the NFT or hand over the escrowed one. *)
Definition wasm2cosmos_token (msg : MsgConvertCW721) (ids : string * string) : GoM unit :=
  let '(tokenId, nftId) := ids in
  allNftInfo <- QueryCW721AllNftInfo (cc_ContractAddress msg) tokenId ;;
  guard (negb (IsBlank (ai_Owner allNftInfo) || (ai_Owner allNftInfo <>?s cc_Sender msg)))
        (SdkErr ErrUnauthorized) ;;;
  TransferCw721 (cc_ContractAddress msg) tokenId (acc_String AccModuleAddress) (cc_Sender msg) ;;;
  bound <- cw_get (fun s => GetNFTPairByContractTokenID s (cc_ContractAddress msg) tokenId) ;;
  if bound =?s "" then
    MintNFT (MkMsgMintNFT nftId (cc_ClassId msg) "" (ai_TokenUri allNftInfo) "" ""
      (acc_String AccModuleAddress) (cc_Receiver msg))
  else
    nftInfo <- wrap_as (SdkErr ErrConflict) (GetNFT (cc_ClassId msg) nftId) ;;
    TransferNFT (MkMsgTransferNFT nftId (cc_ClassId msg) (BaseNFT_Name nftInfo) (BaseNFT_URI nftInfo)
      (BaseNFT_UriHash nftInfo) (BaseNFT_Data nftInfo) (acc_String AccModuleAddress) (cc_Receiver msg)).

(** convertWasm2Cosmos; it returns its message *)
Definition convertWasm2Cosmos (msg : MsgConvertCW721) : GoM MsgConvertCW721 :=
  let ids := combine (cc_TokenIds msg) (cc_NftIds msg) in
  for_each ids (wasm2cosmos_token msg) ;;;
  save_pairs (cc_ContractAddress msg) (cc_ClassId msg) ids ;;;
  EmitEvents [convert_event (cc_Sender msg) (cc_Receiver msg) (cc_ClassId msg) (cc_ContractAddress msg)
                (cc_NftIds msg) (cc_TokenIds msg)] ;;;
  mret msg.

Definition set_cc (msg : MsgConvertCW721) (contract classId : string) (nftIds : list string)
  : MsgConvertCW721 :=
  MkMsgConvertCW721 contract (cc_TokenIds msg) (cc_Receiver msg) (cc_Sender msg) classId nftIds.

(** ConvertCW721 *)
Definition ConvertCW721 (msg : MsgConvertCW721) : GoM MsgConvertCW721Response :=
  enabled <- cw_get GetEnableCw721 ;;
  guard enabled (CwErr CwErrCW721Disabled) ;;;
  cw721Addr <- lift_sum (NormalizeCW721Address (cc_ContractAddress msg)) ;;
  let msg := set_cc msg cw721Addr (cc_ClassId msg) (cc_NftIds msg) in
  s <- gets c_cw ;;
  ' (classId, nftIds) <- lift_sum (GetClassIDAndNFTID s msg) ;;
  let msg := set_cc msg cw721Addr classId nftIds in
  check_batch (cc_TokenIds msg) (cc_NftIds msg) ;;;
  let id := GetCW721Map s (cc_ContractAddress msg) in
  msg <- (if id =?s ""
          then tp <- RegisterCW721 (cc_ClassId msg) (cc_ContractAddress msg) ;;
               mret (set_cc msg (Cw721Address tp) (tp_ClassId tp) nftIds)
          else mret msg) ;;
  s <- gets c_cw ;;
  tp <- lift_sum (GetPairByCW721 s (cc_ContractAddress msg)) ;;
  guard (negb ((cc_ClassId msg <>?s "") && (cc_ClassId msg <>?s tp_ClassId tp)))
        (CwErr CwErrClassIdNotCorrect) ;;;
  msg <- convertWasm2Cosmos (set_cc msg (cc_ContractAddress msg) (tp_ClassId tp) nftIds) ;;
  mret (MkMsgConvertCW721Response (cc_ContractAddress msg) (cc_TokenIds msg) (cc_Receiver msg)
    (cc_Sender msg) (cc_ClassId msg) (cc_NftIds msg)).

(** TransferCW721 *)
Definition TransferCW721 (msg : MsgTransferCW721) : GoM unit :=
  cw721Addr <- lift_sum (NormalizeCW721Address (tc_CwContractAddress msg)) ;;
  resMsg <- ConvertCW721 (MkMsgConvertCW721 cw721Addr (tc_CwTokenIds msg) (acc_String AccModuleAddress)
    (tc_CwSender msg) (tc_ClassId msg) (tc_CosmosTokenIds msg)) ;;
  ibc_Transfer (MkIbcMsgTransfer (tc_SourcePort msg) (tc_SourceChannel msg) (cr_ClassId resMsg)
    (cr_NftIds resMsg) (acc_String AccModuleAddress) (tc_CosmosReceiver msg) (tc_Timeout msg)
    (tc_Memo msg +:+ TransferCW721Memo)) ;;;
  for_each (tc_CwTokenIds msg) (fun cwTokenId =>
    cw_set (fun s => SetCwAddressByContractTokenId s cw721Addr cwTokenId (tc_CwSender msg))).

(** ** Cosmos to CW721 *)

(** One iteration of the loop of convertCosmos2Wasm: escrow the NFT, then mint a new
    CW721 token or release the one the module holds. *)
Definition cosmos2wasm_token (msg : MsgConvertNFT) (ids : string * string) : GoM unit :=
  let '(tokenId, nftId) := ids in
  reqInfo <- GetNFT (cn_ClassId msg) nftId ;;
  TransferNFT (MkMsgTransferNFT nftId (cn_ClassId msg) (BaseNFT_Name reqInfo) (BaseNFT_URI reqInfo)
    (BaseNFT_UriHash reqInfo) (BaseNFT_Data reqInfo) (cn_Sender msg) (acc_String AccModuleAddress)) ;;;
  nftPair <- cw_get (fun s => GetNFTPairByContractTokenID s (cn_ContractAddress msg) tokenId) ;;
  if nftPair =?s "" then
    MintCw721 (cn_ContractAddress msg) tokenId (cn_Receiver msg) (BaseNFT_URI reqInfo) ;;; mret tt
  else
    guard (nftPair =?s CreateNFTUID (cn_ClassId msg) nftId) (CwErr CwErrNFTMappingConflict) ;;;
    TransferCw721 (cn_ContractAddress msg) tokenId (cn_Receiver msg) (acc_String AccModuleAddress) ;;;
    mret tt.

(** convertCosmos2Wasm *)
Definition convertCosmos2Wasm (msg : MsgConvertNFT) : GoM unit :=
  check_batch (cn_TokenIds msg) (cn_NftIds msg) ;;;
  let ids := combine (cn_TokenIds msg) (cn_NftIds msg) in
  for_each ids (cosmos2wasm_token msg) ;;;
  save_pairs (cn_ContractAddress msg) (cn_ClassId msg) ids ;;;
  EmitEvents [convert_event (cn_Sender msg) (cn_Receiver msg) (cn_ClassId msg) (cn_ContractAddress msg)
                (cn_NftIds msg) (cn_TokenIds msg)].

Definition set_cn (msg : MsgConvertNFT) (contract : string) (tokenIds : list string) : MsgConvertNFT :=
  MkMsgConvertNFT (cn_ClassId msg) (cn_NftIds msg) (cn_Receiver msg) (cn_Sender msg) contract tokenIds.

(** ConvertNFT *)
Definition ConvertNFT (msg : MsgConvertNFT) : GoM unit :=
  enabled <- cw_get GetEnableCw721 ;;
  guard enabled (CwErr CwErrCW721Disabled) ;;;
  guard (List.length (cn_NftIds msg) <=? maxCW721BatchSize) (SdkErr ErrInvalidRequest) ;;;
  ' (contractAddress, tokenIds) <- GetContractAddressAndTokenIds msg ;;
  let msg := set_cn msg contractAddress tokenIds in
  id <- cw_get (fun s => GetClassMap s (cn_ClassId msg)) ;;
  (if id =?s "" then RegisterNFT (cn_ClassId msg) (cn_ContractAddress msg) ;;; mret tt else mret tt) ;;;
  s <- gets c_cw ;;
  tp <- lift_sum (GetPairByClass s (cn_ClassId msg)) ;;
  guard (cn_ClassId msg =?s tp_ClassId tp) (CwErr CwErrClassIdNotCorrect) ;;;
  convertCosmos2Wasm (set_cn msg (Cw721Address tp) tokenIds).

(** UpdateParams (msg_update_params.go) *)
Definition UpdateParams (msg : MsgUpdateParams) : GoM unit :=
  guard (up_Authority msg =?s acc_String (NewModuleAddress "gov")) (SdkErr ErrInvalidSigner) ;;;
  run_check (Params_Validate (up_Params msg)) ;;;
  cw_try (fun s => SetParams s (up_Params msg)).

(** ** Refund of a packet *)

Record refundGroup := MkRefundGroup {
  rg_contract : string; rg_receiver : string; rg_tokenIds : list string; rg_nftIds : list string }.

(** appendToRefundGroups *)
Fixpoint appendToRefundGroups (groups : list refundGroup) (contract receiver tokenID nftID : string)
  : list refundGroup :=
  match groups with
  | [] => [MkRefundGroup contract receiver [tokenID] [nftID]]
  | g :: rest =>
      if (rg_contract g =?s contract) && (rg_receiver g =?s receiver)
      then MkRefundGroup (rg_contract g) (rg_receiver g) (rg_tokenIds g ++ [tokenID])
             (rg_nftIds g ++ [nftID]) :: rest
      else g :: appendToRefundGroups rest contract receiver tokenID nftID
  end.

(** cw721RefundEvents *)
Definition cw721RefundEvents (sender classID : string) (groups : list refundGroup) : list Event :=
  (fun g => NewEvent "refund_packet_token"
     [("sender", sender); ("receiver", rg_receiver g); ("nft_class", classID);
      ("nft_ids", Join (rg_nftIds g) ","); ("cw721_token", rg_contract g);
      ("cw721_token_ids", Join (rg_tokenIds g) ",")]) <$> groups.

(** moduleOwnsCW721 *)
Definition moduleOwnsCW721 (owner : string) : bool :=
  if EqualFold owner (acc_String AccModuleAddress) then true
  else match AccAddressFromBech32 owner with
       | None => false
       | Some addr => addr =?s AccModuleAddress
       end.

(** The skip event; [extra] are the attributes between the ids and the reason, [err]
    those after it. *)
Definition skip_event (classId tokenId : string) (extra : list (string * string)) (reason : string)
  (err : list (string * string)) : Event :=
  NewEvent "refund_packet_token_skip"
    ([("nft_class", classId); ("nft_ids", tokenId)] ++ extra ++ [("reason", reason)] ++ err).
Definition skip (classId tokenId : string) (extra : list (string * string)) (reason : string) : GoM unit :=
  EmitEvent (skip_event classId tokenId extra reason []).

(** The attributes that name the CW721 token *)
Definition cw_attrs (contract cwTokenId : string) : list (string * string) :=
  [("cw721_token", contract); ("cw721_token_ids", cwTokenId)].

(** The CW721 half of one refund: the two [continue]s are [None]; otherwise the
    refund groups, with the token when it was returned *)
Definition refund_release (classId tokenId contract cwTokenId : string) (groups : list refundGroup)
  (shouldRefund : bool) : GoM (option (list refundGroup)) :=
  let cw := cw_attrs contract cwTokenId in
  if negb shouldRefund then
    skip classId tokenId cw "owner_is_not_module_account" ;;; mret (Some groups)
  else
    cwReceiver <- cw_get (fun s => GetCwAddressByContractTokenId s contract cwTokenId) ;;
    if cwReceiver =?s "" then
      skip classId tokenId cw "cw721_refund_receiver_missing" ;;; mret None
    else
      r <- attempt (TransferCw721 contract cwTokenId cwReceiver (acc_String AccModuleAddress)) ;;
      match r with
      | inl _ => skip classId tokenId cw "cw721_transfer_failed" ;;; mret None
      | inr _ => mret (Some (appendToRefundGroups groups contract cwReceiver cwTokenId tokenId))
      end.

(** The deletion of the refund record and of the bindings *)
Definition refund_unbind (classId tokenId contract cwTokenId : string) (s : CwStore) : CwStore :=
  let s := DeleteCwAddressByContractTokenId s contract cwTokenId in
  let s := DeleteNFTPairByTokenID s contract cwTokenId in
  DeleteNFTPairByNFTID s classId tokenId.

(** The native half of one refund: the burn of the escrowed NFT *)
Definition refund_native (classId tokenId contract cwTokenId : string) : GoM unit :=
  let cw := cw_attrs contract cwTokenId in
  has <- gets (fun c => HasNFT c classId tokenId) ;;
  if negb has then skip classId tokenId cw "nft_already_gone"
  else
  ownerAddr <- gets (fun c => keeper_GetOwner c classId tokenId) ;;
  if negb (moduleOwnsCW721 (acc_String ownerAddr)) then
    skip classId tokenId (cw ++ [("nft_owner", acc_String ownerAddr)]) "nft_owner_not_module"
  else
  b <- attempt (BurnNFT (MkMsgBurnNFT tokenId classId (acc_String AccModuleAddress))) ;;
  match b with
  | inl err => EmitEvent (skip_event classId tokenId cw "nft_burn_failed" [("error", err_Error err)])
  | inr _ => mret tt
  end.

(** One iteration of the loop of RefundPacketToken. *)
Definition refund_token (classId : string) (groups : list refundGroup) (tokenId : string)
  : GoM (list refundGroup) :=
  pairUID <- cw_get (fun s => GetTokenUIDPairByNFTUID s (CreateNFTUID classId tokenId)) ;;
  if pairUID =?s "" then skip classId tokenId [] "cw721_pair_not_found" ;;; mret groups
  else
  let '(cwTokenId, contract) := GetNFTFromUID pairUID in
  if (cwTokenId =?s "") || (contract =?s "") then
    skip classId tokenId [] "cw721_pair_uid_invalid" ;;; mret groups
  else
  r <- attempt (QueryCW721TokenOwner contract cwTokenId) ;;
  match r with
  | inl _ => skip classId tokenId (cw_attrs contract cwTokenId) "cw721_owner_query_failed" ;;; mret groups
  | inr owner =>
  released <- refund_release classId tokenId contract cwTokenId groups (moduleOwnsCW721 owner) ;;
  match released with
  | None => mret groups
  | Some groups =>
  cw_set (refund_unbind classId tokenId contract cwTokenId) ;;;
  refund_native classId tokenId contract cwTokenId ;;;
  mret groups
  end end.

(** RefundPacketToken *)
Definition RefundPacketToken (data : NonFungibleTokenPacketData) : GoM unit :=
  groups <- for_acc (pd_TokenIds data) [] (refund_token (pd_ClassId data)) ;;
  if nonempty groups then EmitEvents (cw721RefundEvents (pd_Sender data) (pd_ClassId data) groups)
  else mret tt.
End Convert.
End Cw721Convert.
