(* ===== verification/Cw721ConvertFacts.v ===== *)
(** The steps of the x/cw721 conversions: one token in either direction, a whole
    batch, recording the bindings, and registering a pair. *)
From S2P Require Import Prelude GoStrings Utf8 GoJson Sdk CollectionTypes CollectionKeeper Erc721Types.
From S2P Require Import Erc721Evm Cw721Types Cw721Store Cw721Index Cw721Wasm Cw721Register Cw721Convert.
Import Cw721Types Cw721Store Cw721Wasm Cw721Register Cw721Convert.
Open Scope go_scope.
Open Scope list_scope.

(** ** The store *)
Section Store.
Context `{SdkLaws} `{!Cw721Codec} `{!Cw721CodecLaws}.
Implicit Types s : CwStore.

(** Only the UID index differs. *)
Definition index_only s s' : Prop :=
  cw_TokenPair s' = cw_TokenPair s /\ cw_TokenPairByCW721 s' = cw_TokenPairByCW721 s /\
  cw_TokenPairByClass s' = cw_TokenPairByClass s /\ cw_WasmCode s' = cw_WasmCode s /\
  refunds s' = refunds s /\ cw_Params s' = cw_Params s.

#[global] Instance index_only_preorder : PreOrder index_only.
Proof.
  split; [done|]. intros s1 s2 s3 (?&?&?&?&?&?) (?&?&?&?&?&?). unfold index_only. split_and!; congruence.
Qed.

Lemma cw_index_only_registered s s' p : index_only s s' -> registered s' p <-> registered s p.
Proof. intros (E & _). unfold registered. by rewrite E. Qed.

Lemma cw_index_only_registry s s' : index_only s s' -> registry_ok s -> registry_ok s'.
Proof. intros (E1 & E2 & E3 & _). by apply cw_registry_ext. Qed.

Lemma index_only_refunds s s' : index_only s s' -> refunds_ok s -> refunds_ok s'.
Proof.
  intros Hi Hr k v. destruct (Hi) as (_ & _ & _ & _ & -> & _). intros (Hv & p & t & Hp & ?)%Hr.
  split; [done|]. exists p, t. by rewrite (cw_index_only_registered s s').
Qed.

(** Token [t] of [contract] and the NFT are bound to each other. *)
Definition bound_to s (contract t cls nft : string) : Prop :=
  forward s !! CreateTokenUID contract t = Some (CreateNFTUID cls nft) /\
  reverse s !! CreateNFTUID cls nft = Some (CreateTokenUID contract t).

(** The bindings of a batch are recorded, and no other entry of the index changes. *)
Definition batch_bound s (contract cls : string) (ids : list (string * string)) s' : Prop :=
  (forall t nft, (t, nft) ∈ ids -> bound_to s' contract t cls nft) /\
  (forall k, k ∉ CreateTokenUID contract <$> ids.*1 -> forward s' !! k = forward s !! k) /\
  (forall n, n ∉ CreateNFTUID cls <$> ids.*2 -> reverse s' !! n = reverse s !! n).

Lemma SetNFTPairs_module s contract t cls nft s' :
  module_ok s -> registered s (NewTokenPair contract cls) -> SetNFTPairs s contract t cls nft = inr s' ->
  module_ok s' /\ index_only s s' /\ bindable s (CreateTokenUID contract t) (CreateNFTUID cls nft) /\
  forward s' = <[CreateTokenUID contract t := CreateNFTUID cls nft]> (forward s) /\
  reverse s' = <[CreateNFTUID cls nft := CreateTokenUID contract t]> (reverse s).
Proof.
  intros [Hi Hg Hb Hr] Hp Hset.
  apply cw_SetNFTPairs_ok in Hset as (Hbd & Ef & Er & E1 & E2 & E3 & E4 & E5 & E6); [|done].
  assert (index_only s s') as Hio by done. split; [|done]. split.
  - eapply bind_ok; [exact Hi|exact Hbd|apply uid_nonempty|apply uid_nonempty|done..].
  - by eapply cw_index_only_registry.
  - intros k n. setoid_rewrite (cw_index_only_registered s s'); [|done]. rewrite Ef.
    destruct (decide (k = CreateTokenUID contract t)) as [->|Hne].
    + rewrite lookup_insert_eq. intros [= <-]. by exists (NewTokenPair contract cls), t, nft.
    + rewrite lookup_insert_ne by done. apply Hb.
  - by eapply index_only_refunds.
Qed.

(** A later binding of the batch keeps an earlier one. *)
Lemma bound_kept s contract t cls nft s' t1 nft1 :
  index_ok s -> index_ok s' -> bindable s (CreateTokenUID contract t) (CreateNFTUID cls nft) ->
  forward s' = <[CreateTokenUID contract t := CreateNFTUID cls nft]> (forward s) ->
  bound_to s contract t1 cls nft1 -> bound_to s' contract t1 cls nft1.
Proof.
  intros Hs Hs' Hb Ef [F1 _]. assert (forward s' !! CreateTokenUID contract t1 = Some (CreateNFTUID cls nft1)) as F.
  { rewrite Ef. destruct (decide (CreateTokenUID contract t1 = CreateTokenUID contract t)) as [E|Hne].
    - rewrite E in *. rewrite lookup_insert_eq. destruct Hb as [[Hf _]|Hf]; congruence.
    - by rewrite lookup_insert_ne. }
  split; [done|]. by apply (ix_bij _ Hs').
Qed.
End Store.

(** ** Batches *)
Section Batch.
Context `{EthLib} `{SdkLib} `{NftKeeper} `{!EvmKeeper} `{!WasmState}.

(** A loop whose steps hand the NFTs of a batch to [o] and touch no other. *)
Lemma batch_owners (f : string * string -> GoM unit) cls o ids c u c' :
  (forall t nft d v d', (t, nft) ∈ ids -> f (t, nft) d = Ok v d' ->
     nk_GetOwner (c_nft d') cls nft = o /\ others_kept cls nft (c_nft d) (c_nft d')) ->
  for_each ids f c = Ok u c' ->
  (forall nft, nft ∈ ids.*2 -> nk_GetOwner (c_nft c') cls nft = o) /\
  (forall cl nft, (cl <> cls \/ nft ∉ ids.*2) ->
     nk_GetNFT (c_nft c') cl nft = nk_GetNFT (c_nft c) cl nft /\
     nk_GetOwner (c_nft c') cl nft = nk_GetOwner (c_nft c) cl nft).
Proof.
  revert c. induction ids as [|[t0 nft0] ids IH]; intros c Hf Hr.
  { apply ok_inj in Hr as [_ ->]. split; [|done]. intros nft Hin. by apply elem_of_nil in Hin. }
  apply mbind_ok in Hr as (u1 & c1 & Ht & Hr).
  apply Hf in Ht as [Ho [_ Hk]]; [|by left].
  apply IH in Hr as [Hall Hother]; [|intros t nft d v d' Hin; apply (Hf t); by right]. cbn. split.
  - intros nft Hin. destruct (decide (nft ∈ ids.*2)) as [Hi|Hi]; [by apply Hall|].
    destruct (Hother cls nft (or_intror Hi)) as [_ ->].
    apply elem_of_cons in Hin as [->|Hin]; done.
  - intros cl nft Hc. rewrite not_elem_of_cons in Hc.
    destruct (Hother cl nft) as [-> ->]; [tauto|]. apply Hk. intros [= -> ->]. tauto.
Qed.

(** A loop whose steps require the NFT to be [o]'s, and touch no other: all were his. *)
Lemma batch_owned_before (f : string * string -> GoM unit) cls o ids c u c' :
  (forall t nft d v d', f (t, nft) d = Ok v d' ->
     nk_GetOwner (c_nft d) cls nft = o /\ others_kept cls nft (c_nft d) (c_nft d')) ->
  for_each ids f c = Ok u c' -> forall nft, nft ∈ ids.*2 -> nk_GetOwner (c_nft c) cls nft = o.
Proof.
  intros Hf. revert c. induction ids as [|[t0 nft0] ids IH]; intros c Hr nft Hin; [by apply elem_of_nil in Hin|].
  apply mbind_ok in Hr as (u1 & c1 & Ht & Hr). apply Hf in Ht as [Ho [_ Hk]].
  apply elem_of_cons in Hin as [->|Hin]; [done|]. pose proof (IH _ Hr nft Hin) as E.
  destruct (decide (nft = nft0)) as [->|Hne]; [done|]. destruct (Hk cls nft) as [_ <-]; congruence.
Qed.

(** What the loop keeps, step by step. *)
Lemma batch_keeps (R : Ctx -> Ctx -> Prop) `{!PreOrder R} (f : string * string -> GoM unit) ids c u c' :
  (forall x d v d', f x d = Ok v d' -> R d d') -> for_each ids f c = Ok u c' -> R c c'.
Proof.
  intros Hf Hr. refine (for_each_inv (fun d => R c d) ids _ _ _ _ _ (reflexivity c) Hr).
  intros x d d' v _ Hd Hx. etransitivity; [exact Hd|by eapply Hf].
Qed.

End Batch.

Section Facts.
Context `{EthLib} `{!SdkLib} `{!SdkLaws} `{!NftKeeper} `{!NftLaws} `{!EvmKeeper} `{!WasmState} `{!WasmKeeper}
        `{!WasmLaws} `{!CollectionCodec} `{!Cw721Codec} `{!Cw721CodecLaws} `{!ConvertedNFTChecker} `{!FmtLib}.
Implicit Types (c : Ctx) (s : CwStore).

(** The stores of the two conversion modules are the same. *)
Definition stores_same c c' : Prop := c_erc c' = c_erc c /\ c_cw c' = c_cw c.

#[global] Instance stores_same_preorder : PreOrder stores_same.
Proof. split; [done|]. intros ? ? ? [A1 A2] [B1 B2]. split; congruence. Qed.

Lemma nft_only_stores c c' : nft_only c c' -> stores_same c c'.
Proof. by intros (? & _ & _ & ? & _). Qed.
Lemma wasm_only_stores c c' : wasm_only c c' -> stores_same c c'.
Proof. by intros (? & _ & ?). Qed.

Lemma cw_AccModule_bech32 : AccAddressFromBech32 (acc_String AccModuleAddress) = Some AccModuleAddress.
Proof.
  unfold AccModuleAddress. pose proof (module_address_len cw721_ModuleName) as Hl.
  apply bech32_roundtrip; [|lia]. intros E. by rewrite E in Hl.
Qed.

Lemma cw_check_batch_ok a b c u c' :
  check_batch a b c = Ok u c' ->
  c' = c /\ a <> [] /\ List.length a = List.length b /\ List.length a <= maxCW721BatchSize.
Proof.
  unfold check_batch. intros Hr. apply mbind_ok in Hr as (x & c0 & Hg & Hr).
  apply guard_ok in Hg as [[Hn He%Nat.eqb_eq]%andb_true_iff ->]. apply guard_ok in Hr as [Hl%Nat.leb_le ->].
  split_and!; try done. by intros ->.
Qed.

(** ** CW721 to Cosmos, one token *)

(** The contract names [sender] as the owner of the token, and its transfer to the
    module account succeeds. *)
Definition taken_from (sender contract t : string) c : Prop :=
  exists info c1 resp c2, QueryCW721AllNftInfo contract t c = Ok info c1 /\
    IsBlank sender = false /\ ai_Owner info = sender /\
    TransferCw721 contract t (acc_String AccModuleAddress) sender c1 = Ok resp c2.

Lemma wasm2cosmos_token_ok msg t nft c u c' :
  quiet (cc_ContractAddress msg) -> wasm2cosmos_token msg (t, nft) c = Ok u c' ->
  stores_same c c' /\ taken_from (cc_Sender msg) (cc_ContractAddress msg) t c /\
  AccAddressFromBech32 (cc_Receiver msg) = Some (nk_GetOwner (c_nft c') (cc_ClassId msg) nft) /\
  others_kept (cc_ClassId msg) nft (c_nft c) (c_nft c') /\
  (let bound := GetNFTPairByContractTokenID (c_cw c) (cc_ContractAddress msg) t in
   (bound = "" /\ nk_GetNFT (c_nft c) (cc_ClassId msg) nft = None) \/
   (bound <> "" /\ nk_GetOwner (c_nft c) (cc_ClassId msg) nft = AccModuleAddress)).
Proof.
  unfold wasm2cosmos_token. intros Hquiet Hr. apply mbind_ok in Hr as (info & c1 & Hq & Hr).
  pose proof (frame_ok _ _ _ _ _ (AllNftInfo_frame _ _) Hq) as [(E1 & N1 & W1) _].
  apply mbind_ok in Hr as (x & c0 & Hg & Hr). apply guard_ok in Hg as [Hg ->].
  rewrite negb_true_iff, orb_false_iff in Hg. destruct Hg as [Hb Ho%str_neqb_false].
  apply mbind_ok in Hr as (resp & c2 & Ht & Hr).
  pose proof (frame_ok _ _ _ _ _ (TransferCw721_frame _ _ _ _ Hquiet) Ht) as (E2 & N2 & W2).
  apply mbind_ok in Hr as (bound & c3 & Hget & Hr). apply gets_ok in Hget as [-> ->].
  rewrite W2, W1 in Hr. rewrite Ho in Hb.
  assert (stores_same c c2) as Hs by (split; congruence).
  assert (taken_from (cc_Sender msg) (cc_ContractAddress msg) t c) as Htk by (exists info, c1, resp, c2; done).
  assert (c_nft c2 = c_nft c) as En by congruence. destruct (_ =?s "") eqn:Eb in Hr.
  - apply str_eqb_true in Eb. apply MintNFT_ok in Hr as (r & n & Hrec & _ & _ & _ & Hnone & _ & Hown & Hk & Hn).
    cbn in Hrec, Hnone, Hown, Hk. rewrite En in Hnone, Hk. apply nft_only_stores in Hn.
    split; [by etransitivity|]. split; [done|]. split; [congruence|]. split; [done|]. by left.
  - apply str_eqb_false in Eb. apply mbind_ok in Hr as (n & c3 & Hget & Hr).
    apply wrap_as_ok in Hget. assert (c3 = c2) as -> by (unfold GetNFT in Hget; by go_simp).
    apply TransferNFT_ok in Hr as (src & dst & Hsrc & Hdst & Ho1 & Ho2 & _ & Hk & Hn & _).
    cbn in Hsrc, Hdst, Ho1, Ho2, Hk. rewrite cw_AccModule_bech32 in Hsrc. injection Hsrc as <-.
    rewrite En in Ho1, Hk. apply nft_only_stores in Hn.
    split; [by etransitivity|]. split; [done|]. split; [congruence|]. split; [done|]. by right.
Qed.

Lemma wasm2cosmos_loop msg ids c u c' :
  quiet (cc_ContractAddress msg) -> for_each ids (wasm2cosmos_token msg) c = Ok u c' ->
  stores_same c c' /\
  (forall nft, nft ∈ ids.*2 ->
     AccAddressFromBech32 (cc_Receiver msg) = Some (nk_GetOwner (c_nft c') (cc_ClassId msg) nft)) /\
  (forall cl nft, (cl <> cc_ClassId msg \/ nft ∉ ids.*2) ->
     nk_GetNFT (c_nft c') cl nft = nk_GetNFT (c_nft c) cl nft /\
     nk_GetOwner (c_nft c') cl nft = nk_GetOwner (c_nft c) cl nft) /\
  (forall pre t nft post, ids = pre ++ (t, nft) :: post ->
     exists c1 c2, turn (wasm2cosmos_token msg) pre (t, nft) post c c' c1 c2 /\
       taken_from (cc_Sender msg) (cc_ContractAddress msg) t c1).
Proof.
  intros Hquiet Hr. split.
  { refine (batch_keeps stores_same _ ids _ _ _ _ Hr). intros [t nft] d v d'.
    by intros (? & _)%(wasm2cosmos_token_ok _ _ _ _ _ _ Hquiet). }
  destruct (batch_owners (wasm2cosmos_token msg) (cc_ClassId msg)
    (default "" (AccAddressFromBech32 (cc_Receiver msg))) ids c u c') as [Hown Hother].
  { intros t nft d v d' _ (_ & _ & Hrec & Hk & _)%(wasm2cosmos_token_ok _ _ _ _ _ _ Hquiet). split; [by rewrite Hrec|done]. }
  { done. }
  split; [|split; [done|]].
  - intros nft Hin. rewrite (Hown nft Hin). apply list_elem_of_fmap in Hin as ([t n] & -> & Hin).
    apply list_elem_of_split in Hin as (pre & post & ->).
    apply for_each_split in Hr as (c1 & c2 & _ & Ht & _).
    apply (wasm2cosmos_token_ok _ _ _ _ _ _ Hquiet) in Ht as (_ & _ & Hrec & _). by rewrite Hrec.
  - intros pre t nft post ->. apply for_each_turn in Hr as (c1 & c2 & Ht). exists c1, c2. split; [done|].
    destruct Ht as (_ & Ht & _). by apply (wasm2cosmos_token_ok _ _ _ _ _ _ Hquiet) in Ht as (_ & ? & _).
Qed.

(** ** Cosmos to CW721, one token *)

(** The CW721 half of one conversion, in the state [c]: a token the index does not
    know is minted to the receiver, a bound one is released to him by the module. *)
Definition handed_over (msg : MsgConvertNFT) (t nft : string) c c' : Prop :=
  let bound := GetNFTPairByContractTokenID (c_cw c) (cn_ContractAddress msg) t in
  exists resp uri,
    (bound = "" /\ MintCw721 (cn_ContractAddress msg) t (cn_Receiver msg) uri c = Ok resp c') \/
    (bound = CreateNFTUID (cn_ClassId msg) nft /\
     TransferCw721 (cn_ContractAddress msg) t (cn_Receiver msg) (acc_String AccModuleAddress) c = Ok resp c').

(** The native half: [c] is left for [c'] by the transfer of the NFT into escrow. *)
Definition escrowed (msg : MsgConvertNFT) (nft : string) c c' : Prop :=
  exists info, GetNFT (cn_ClassId msg) nft c = Ok info c /\
    TransferNFT (MkMsgTransferNFT nft (cn_ClassId msg) (BaseNFT_Name info) (BaseNFT_URI info)
      (BaseNFT_UriHash info) (BaseNFT_Data info) (cn_Sender msg) (acc_String AccModuleAddress)) c = Ok tt c'.

Lemma cosmos2wasm_token_ok msg t nft c u c' :
  quiet (cn_ContractAddress msg) -> cosmos2wasm_token msg (t, nft) c = Ok u c' ->
  stores_same c c' /\
  AccAddressFromBech32 (cn_Sender msg) = Some (nk_GetOwner (c_nft c) (cn_ClassId msg) nft) /\
  nk_GetOwner (c_nft c') (cn_ClassId msg) nft = AccModuleAddress /\
  others_kept (cn_ClassId msg) nft (c_nft c) (c_nft c') /\
  (exists c1, stores_same c c1 /\ escrowed msg nft c c1 /\ handed_over msg t nft c1 c').
Proof.
  unfold cosmos2wasm_token. intros Hquiet Hr. apply mbind_ok in Hr as (info & c0 & Hg & Hr).
  assert (c0 = c) as -> by (unfold GetNFT in Hg; by go_simp).
  apply mbind_ok in Hr as ([] & c1 & Ht & Hr).
  assert (escrowed msg nft c c1) as Hesc by (by exists info).
  apply TransferNFT_ok in Ht as (src & dst & Hsrc & Hdst & Ho1 & Ho2 & _ & Hk & Hn & _).
  cbn in Hsrc, Hdst, Ho1, Ho2, Hk. rewrite cw_AccModule_bech32 in Hdst. injection Hdst as <-.
  apply nft_only_stores in Hn.
  assert (wasm_only c1 c' /\ handed_over msg t nft c1 c') as [(E1 & E2 & E3) Hh].
  { apply mbind_ok in Hr as (bound & c2 & Hb & Hr). apply gets_ok in Hb as [-> ->].
    destruct (_ =?s "") eqn:Eb in Hr.
    - apply mbind_ok in Hr as (resp & c2 & Hm & Hr). apply mret_ok in Hr as [_ ->].
      split; [by apply (frame_ok _ _ _ _ _ (MintCw721_frame _ _ _ _ Hquiet) Hm)|].
      exists resp, (BaseNFT_URI info). left. split; [by apply str_eqb_true|done].
    - apply mbind_ok in Hr as (y & c2 & Hm & Hr). apply guard_ok in Hm as [Hb%str_eqb_true ->].
      apply mbind_ok in Hr as (resp & c2 & Hm & Hr). apply mret_ok in Hr as [_ ->].
      split; [by apply (frame_ok _ _ _ _ _ (TransferCw721_frame _ _ _ _ Hquiet) Hm)|]. exists resp, "". by right. }
  rewrite E2. split; [etransitivity; [exact Hn|done]|]. split; [congruence|]. split; [done|].
  split; [done|]. exists c1. done.
Qed.

Lemma cosmos2wasm_loop msg ids c u c' :
  quiet (cn_ContractAddress msg) -> for_each ids (cosmos2wasm_token msg) c = Ok u c' ->
  stores_same c c' /\
  (forall nft, nft ∈ ids.*2 ->
     AccAddressFromBech32 (cn_Sender msg) = Some (nk_GetOwner (c_nft c) (cn_ClassId msg) nft) /\
     nk_GetOwner (c_nft c') (cn_ClassId msg) nft = AccModuleAddress) /\
  (forall cl nft, (cl <> cn_ClassId msg \/ nft ∉ ids.*2) ->
     nk_GetNFT (c_nft c') cl nft = nk_GetNFT (c_nft c) cl nft /\
     nk_GetOwner (c_nft c') cl nft = nk_GetOwner (c_nft c) cl nft) /\
  (forall pre t nft post, ids = pre ++ (t, nft) :: post ->
     exists c1 c2 c3, turn (cosmos2wasm_token msg) pre (t, nft) post c c' c1 c3 /\
       escrowed msg nft c1 c2 /\ stores_same c c2 /\ handed_over msg t nft c2 c3).
Proof.
  intros Hquiet Hr. pose proof (fun t nft d v d' => cosmos2wasm_token_ok msg t nft d v d' Hquiet) as Htok.
  assert (forall l d v d', for_each l (cosmos2wasm_token msg) d = Ok v d' -> stores_same d d') as Hst.
  { intros l d v d' Hl. refine (batch_keeps stores_same _ l _ _ _ _ Hl). intros [t nft] e w e'.
    by intros (? & _)%Htok. }
  assert (forall l d v d', for_each l (cosmos2wasm_token msg) d = Ok v d' ->
    (forall nft, nft ∈ l.*2 -> nk_GetOwner (c_nft d') (cn_ClassId msg) nft = AccModuleAddress) /\
    (forall cl nft, (cl <> cn_ClassId msg \/ nft ∉ l.*2) ->
      nk_GetNFT (c_nft d') cl nft = nk_GetNFT (c_nft d) cl nft /\
      nk_GetOwner (c_nft d') cl nft = nk_GetOwner (c_nft d) cl nft)) as Hb.
  { intros l d v d'. apply batch_owners. intros t nft e w e' _. by intros (_ & _ & ? & ? & _)%Htok. }
  split; [by eapply Hst|]. destruct (Hb _ _ _ _ Hr) as [Hown Hother]. split; [|split; [done|]].
  - intros nft Hin. split; [|by apply Hown].
    assert (forall n, n ∈ ids.*2 -> nk_GetOwner (c_nft c) (cn_ClassId msg) n
              = default "" (AccAddressFromBech32 (cn_Sender msg))) as Hbefore.
    { refine (batch_owned_before _ _ _ _ _ _ _ _ Hr).
      intros t n d v d' (_ & Hs & _ & Hk & _)%Htok. split; [by rewrite Hs|done]. }
    rewrite (Hbefore nft Hin). apply list_elem_of_fmap in Hin as ([t n] & -> & Hin).
    apply list_elem_of_split in Hin as (pre & post & ->). apply for_each_split in Hr as (c1 & c2 & _ & Ht & _).
    apply Htok in Ht as (_ & Hs & _). by rewrite Hs.
  - intros pre t nft post ->. apply for_each_turn in Hr as (c1 & c2 & Ht). pose proof Ht as (Hpre & Hx & _).
    apply Hst in Hpre. apply Htok in Hx as (_ & _ & _ & _ & d & Hd & He & Hh). exists c1, d, c2.
    split; [done|]. split; [done|]. split; [by etransitivity|done].
Qed.

(** ** Recording the bindings *)

Lemma save_pairs_loop contract cls ids c u c' :
  module_ok (c_cw c) -> registered (c_cw c) (NewTokenPair contract cls) ->
  save_pairs contract cls ids c = Ok u c' ->
  c' = set_cw c (c_cw c') /\ module_ok (c_cw c') /\ index_only (c_cw c) (c_cw c') /\
  batch_bound (c_cw c) contract cls ids (c_cw c') /\
  (forall t nft, bound_to (c_cw c) contract t cls nft -> bound_to (c_cw c') contract t cls nft).
Proof.
  revert c. induction ids as [|[t0 nft0] ids IH]; intros c Hm Hp Hr.
  { apply ok_inj in Hr as [_ ->]. split; [by destruct c|]. split; [done|]. split; [done|].
    split; [split; [|done]|done]. intros t nft Hin. by apply elem_of_nil in Hin. }
  apply mbind_ok in Hr as (u1 & c1 & Ht & Hr). apply cw_try_ok in Ht as (s1 & Ht & ->).
  destruct (SetNFTPairs_module _ _ _ _ _ _ Hm Hp Ht) as (Hm1 & Hi1 & Hb1 & Ef & Er).
  destruct (IH (set_cw c s1)) as (Ec & Hm2 & Hi2 & (Hall & Hf & Hv) & Hkeep);
    [done|by apply (cw_index_only_registered (c_cw c))|done|]. cbn in Hf, Hv, Hkeep.
  split; [rewrite Ec; done|]. split; [done|]. split; [etransitivity; [exact Hi1|done]|]. split; [split_and!|].
  - intros t nft [[= -> ->]|Hin]%elem_of_cons; [|by apply Hall]. apply Hkeep.
    split; [rewrite Ef|rewrite Er]; by rewrite lookup_insert_eq.
  - intros k [Hk1 Hk2]%not_elem_of_cons. rewrite Hf by done. rewrite Ef. by rewrite lookup_insert_ne.
  - intros n [Hn1 Hn2]%not_elem_of_cons. rewrite Hv by done. rewrite Er. by rewrite lookup_insert_ne.
  - intros t nft Hb. apply Hkeep.
    exact (bound_kept _ _ _ _ _ _ _ _ (mo_index _ Hm) (mo_index _ Hm1) Hb1 Ef Hb).
Qed.

(** ** Registering *)

(** What both register paths leave in the store. *)
Definition registers s (tp : TokenPair) s' : Prop :=
  registry_ok s' /\ (forall q, registered s' q <-> q = tp \/ registered s q) /\
  forward s' = forward s /\ reverse s' = reverse s /\ refunds s' = refunds s /\
  cw_Params s' = cw_Params s /\ cw_WasmCode s' = cw_WasmCode s.

Lemma registers_module s tp s' : module_ok s -> registers s tp s' -> module_ok s'.
Proof.
  intros [Hi Hg Hb Hr] (Hg' & Hreg & Ef & Er & Ers & _). split; [by eapply index_ext|done|..].
  - intros k n. rewrite Ef. intros (p & t & nft & Hp & ?)%Hb. exists p, t, nft. split; [apply Hreg; auto|done].
  - intros k v. rewrite Ers. intros (Hv & p & t & Hp & ?)%Hr. split; [done|]. exists p, t.
    split; [apply Hreg; auto|done].
Qed.

Lemma write_pair_ok tp c u c' :
  registry_ok (c_cw c) -> canonical_pair tp -> id_distinct (c_cw c) (Cw721Address tp) (tp_ClassId tp) ->
  IsClassRegistered (c_cw c) (tp_ClassId tp) = false -> IsCW721Registered (c_cw c) (Cw721Address tp) = false ->
  write_pair tp c = Ok u c' -> c' = set_cw c (c_cw c') /\ registers (c_cw c) tp (c_cw c').
Proof.
  intros Hg Hc Hd Hcl Hcw Hr. apply mbind_ok in Hr as (x & c1 & Hs & Hr).
  apply cw_try_ok in Hs as (s1 & Hs & ->). unfold SetTokenPair in Hs.
  destruct (Marshal_TokenPair tp) as [e|bz] eqn:Em; [done|]. injection Hs as <-.
  apply mbind_ok in Hr as (y & c2 & Hs & Hr). apply modify_ok in Hs as ->. apply modify_ok in Hr as ->.
  split; [done|]. destruct (cw_register_ok (c_cw c) tp bz) as [Hok Hq]; [done..|].
  split; [exact Hok|]. split; [exact Hq|done].
Qed.

Lemma cw_RegisterNFT_ok cls contract c tp c' :
  registry_ok (c_cw c) ->
  (forall a, NormalizeCW721Address contract = inr a -> id_distinct (c_cw c) a cls) ->
  RegisterNFT cls contract c = Ok tp c' ->
  IsIBCDenom cls = false /\ NormalizeCW721Address contract = inr (Cw721Address tp) /\ tp_ClassId tp = cls /\
  IsClassRegistered (c_cw c) cls = false /\ IsCW721Registered (c_cw c) (Cw721Address tp) = false /\
  c' = set_cw c (c_cw c') /\ registers (c_cw c) tp (c_cw c').
Proof.
  intros Hg Hd Hr. unfold RegisterNFT in Hr.
  apply mbind_ok in Hr as (x & c0 & Hx & Hr). apply guard_ok in Hx as [Hi%negb_true_iff ->].
  apply mbind_ok in Hr as (a & c0 & Hx & Hr). apply lift_sum_ok in Hx as [Ha ->].
  apply mbind_ok in Hr as (s & c0 & Hx & Hr). apply gets_ok in Hx as [-> ->].
  apply mbind_ok in Hr as (x1 & c0 & Hx & Hr). apply guard_ok in Hx as [G1%negb_true_iff ->].
  apply mbind_ok in Hr as (x2 & c0 & Hx & Hr). apply guard_ok in Hx as [G2%negb_true_iff ->].
  apply mbind_ok in Hr as (x3 & c0 & Hx & Hr). apply guard_ok in Hx as [_ ->].
  apply mbind_ok in Hr as (x4 & c1 & Hw & Hr). apply mret_ok in Hr as [-> ->].
  apply write_pair_ok in Hw as [Ec Hreg]; [|done|by eapply Normalize_idem|by apply Hd|done..]. done.
Qed.

Lemma CreateNFTClass_ok a cls c u c' :
  CreateNFTClass a cls c = Ok u c' ->
  IsClassRegistered (c_cw c) cls = false /\ stores_same c c' /\ same_owners (c_nft c) (c_nft c').
Proof.
  unfold CreateNFTClass. intros Hr. apply mbind_ok in Hr as (d & c1 & Hq & Hr).
  pose proof (frame_ok _ _ _ _ _ (QueryCW721_frame _) Hq) as [(E1 & E2 & E3) _].
  apply mbind_ok in Hr as (s & c0 & Hx & Hr). apply gets_ok in Hx as [-> ->].
  apply mbind_ok in Hr as (x1 & c0 & Hx & Hr). apply guard_ok in Hx as [Hc%negb_true_iff ->].
  apply mbind_ok in Hr as (x2 & c2 & Hx & Hr).
  assert (wasm_query c1 c2) as [(F1 & F2 & F3) _].
  { eapply frame_ok; [|exact Hx]. apply frame_attempt, GetDenomInfo_wasm. }
  apply mbind_ok in Hr as (x3 & c0 & Hg & Hr). apply guard_ok in Hg as [_ ->].
  split; [by rewrite <- E3|].
  assert (nft_only c2 c' /\ same_owners (c_nft c2) (c_nft c')) as [Hn Ho].
  { unfold SaveDenom in Hr. apply mbind_ok in Hr as (y & c3 & Hy & Hr). apply run_check_ok in Hy as [_ ->].
    apply mbind_ok in Hr as (y1 & c3 & Hy & Hr). apply run_check_ok in Hy as [_ ->].
    apply mbind_ok in Hr as (y2 & c3 & Hy & Hr). apply lift_sum_ok in Hy as [_ ->].
    apply nft_write_ok in Hr as (st & Hw & ->). split; [done|]. by apply SaveClass_spec in Hw as (_ & _ & _ & ?). }
  rewrite F2, E2 in Ho. split; [|done]. apply nft_only_stores in Hn as [G1 G2]. split; congruence.
Qed.

Lemma RegisterCW721_ok cls contract c tp c' :
  registry_ok (c_cw c) -> NormalizeCW721Address contract = inr contract ->
  (forall k, k ∈ [cls; CreateClassIDFromContractAddress contract] -> id_distinct (c_cw c) contract k) ->
  RegisterCW721 cls contract c = Ok tp c' ->
  Cw721Address tp = contract /\
  (tp_ClassId tp = CreateClassIDFromContractAddress contract \/
   tp_ClassId tp = cls /\ TrimSpace cls = CreateClassIDFromContractAddress contract) /\
  registers (c_cw c) tp (c_cw c') /\ c_erc c' = c_erc c /\ same_owners (c_nft c) (c_nft c').
Proof.
  intros Hg Hn Hd Hr. unfold RegisterCW721 in Hr.
  apply mbind_ok in Hr as (a & c0 & Hx & Hr). apply lift_sum_ok in Hx as [Ha ->].
  rewrite Hn in Ha. injection Ha as <-.
  apply mbind_ok in Hr as (s & c0 & Hx & Hr). apply gets_ok in Hx as [-> ->].
  apply mbind_ok in Hr as (x1 & c0 & Hx & Hr). apply guard_ok in Hx as [G1%negb_true_iff ->].
  apply mbind_ok in Hr as (x2 & c0 & Hx & Hr). apply guard_ok in Hx as [Hcl ->].
  set (k := if TrimSpace cls =?s "" then _ else _) in Hr.
  apply mbind_ok in Hr as (x3 & c1 & Hc & Hr). apply CreateNFTClass_ok in Hc as (Hu & [E1 E2] & Ho).
  apply mbind_ok in Hr as (x4 & c2 & Hw & Hr). apply mret_ok in Hr as [-> ->].
  assert (k = CreateClassIDFromContractAddress contract \/
          k = cls /\ TrimSpace cls = CreateClassIDFromContractAddress contract) as Hk.
  { unfold k. destruct (TrimSpace cls =?s "") eqn:E; [by left|right]. split; [done|].
    by apply orb_true_iff in Hcl as [?|?%str_eqb_true]. }
  apply write_pair_ok in Hw as [Ec Hreg]; cbn [Cw721Address tp_ClassId] in *; rewrite ?E2; try done.
  - rewrite E2 in Hreg. split; [done|]. split; [done|]. split; [done|]. by rewrite Ec.
  - apply Hd. rewrite elem_of_cons, list_elem_of_singleton. tauto.
Qed.
End Facts.
