(* ===== verification/Cw721ConvertSpec.v ===== *)
(** The guarantees of the message handlers of x/cw721 as a whole: ConvertCW721,
    ConvertNFT, TransferCW721 and UpdateParams. *)
From S2P Require Import Prelude GoStrings Utf8 GoJson Sdk CollectionTypes CollectionKeeper Erc721Types.
From S2P Require Import Erc721Evm Cw721Types Cw721Store Cw721Index Cw721Wasm Cw721Register Cw721Convert.
From S2P Require Import Cw721ConvertFacts.
Import Cw721Types Cw721Store Cw721Wasm Cw721Register Cw721Convert.
Open Scope go_scope.
Open Scope list_scope.

Section ConvertSpec.
Context `{EthLib} `{!SdkLib} `{!SdkLaws} `{!NftKeeper} `{!NftLaws} `{!EvmKeeper} `{!WasmState} `{!WasmKeeper}
        `{!WasmLaws} `{!CollectionCodec} `{!Cw721Codec} `{!Cw721CodecLaws} `{!ConvertedNFTChecker}
        `{!IbcKeeper} `{!FmtLib}.
Implicit Types (c : Ctx) (s : CwStore).

(** ** Resolving the ids of ConvertCW721 *)

Lemma class_and_nft_ids_length s msg ids i cls0 cls nfts :
  class_and_nft_ids s msg ids i cls0 = inr (cls, nfts) -> List.length nfts = List.length ids.
Proof.
  revert i cls0 nfts. induction ids as [|t ids IH]; intros i cls0 nfts; [by intros [= _ <-]|].
  cbn [class_and_nft_ids]. set (saved := GetNFTUIDPairByTokenUID _ _).
  destruct (if saved <>?s "" then GetNFTFromUID saved else ("", "")) as [sn sc]. destruct (_ && _); [done|].
  destruct (getNftData _ _ sn _) as [|n]; [done|]. destruct (getNftData _ _ sc _) as [|k]; [done|].
  destruct (class_and_nft_ids _ _ _ _ _) as [|[k' l]] eqn:E; [done|]. intros [= -> <-].
  cbn. apply IH in E. lia.
Qed.

(** The class of unbound tokens is the one asked for, or the derived one. *)
Lemma class_and_nft_ids_class s msg ids i cls0 cls nfts :
  (forall t, t ∈ ids -> GetNFTUIDPairByTokenUID s (CreateTokenUID (cc_ContractAddress msg) t) = "") ->
  let allowed := [cc_ClassId msg; CreateClassIDFromContractAddress (cc_ContractAddress msg)] in
  cls0 ∈ allowed \/ ids <> [] ->
  class_and_nft_ids s msg ids i cls0 = inr (cls, nfts) -> cls ∈ allowed.
Proof.
  intros Hun allowed. revert i cls0 nfts Hun. induction ids as [|t ids IH]; intros i cls0 nfts Hun Hor Hr.
  { destruct Hor as [Hin|]; [|done]. injection Hr as <- _. done. }
  cbn [class_and_nft_ids] in Hr. rewrite (Hun t ltac:(by left)) in Hr. cbn [String.eqb negb andb] in Hr.
  destruct (getNftData _ _ _ _) as [|n]; [done|].
  destruct (getNftData (cc_ClassId msg) _ _ _) as [|k] eqn:Ek; [done|].
  destruct (class_and_nft_ids _ _ _ _ _) as [|[k' l]] eqn:E; [done|]. injection Hr as <- <-.
  eapply IH; [intros x Hx; apply Hun; by right| |exact E]. left. unfold getNftData in Ek.
  unfold allowed. rewrite elem_of_cons, list_elem_of_singleton.
  destruct (cc_ClassId msg =?s "") eqn:Em; cbn in Ek; injection Ek as <-; [by right|by left].
Qed.

(** No token of a contract without a pair is bound. *)
Lemma unregistered_unbound s a t :
  module_ok s -> NormalizeCW721Address a = inr a -> GetCW721Map s a = "" ->
  GetNFTUIDPairByTokenUID s (CreateTokenUID a t) = "".
Proof.
  intros [Hi Hg Hb _] Hn He. apply (forward_unbound s); [done|].
  destruct (forward s !! CreateTokenUID a t) as [n|] eqn:E; [|done]. exfalso.
  destruct (Hb _ _ E) as (p & t' & nft & Hp & Ek & _).
  pose proof (cw_registered_canonical s p Hg Hp) as Hc.
  apply uid_inj in Ek as [_ ->]; [|by eapply Normalize_chars..].
  unfold GetCW721Map, kv_get in He. rewrite (Normalize_canonical _ _ Hn) in He.
  assert (cw_TokenPairByCW721 s !! Cw721Address p = Some (GetID p)) as E' by (apply rg_cw; eauto).
  rewrite E' in He. by apply cw_GetID_nonempty in He.
Qed.

(** ** ConvertCW721 *)

(** No hash collision for the pairs the message can register. *)
Definition no_collision s (msg : MsgConvertCW721) : Prop :=
  forall a k, NormalizeCW721Address (cc_ContractAddress msg) = inr a ->
    k ∈ [cc_ClassId msg; CreateClassIDFromContractAddress a] -> id_distinct s a k.

(** The contract the message names is quiet. *)
Definition quiet_source (msg : MsgConvertCW721) : Prop :=
  forall a, NormalizeCW721Address (cc_ContractAddress msg) = inr a -> quiet a.

(** The state the transfers start from: the contract has its pair, or gets it. *)
Definition cw721_paired (contract : string) c c1 : Prop :=
  c1 = c \/ exists cls tp, RegisterCW721 cls contract c = Ok tp c1.

(** Up to the transfer loop, ConvertCW721 resolves the ids and finds or creates the
    pair of the contract. *)
Lemma ConvertCW721_prefix msg c r c' :
  module_ok (c_cw c) -> no_collision (c_cw c) msg -> ConvertCW721 msg c = Ok r c' ->
  GetEnableCw721 (c_cw c) = true /\
  exists m c1,
    cw721_paired (cc_ContractAddress m) c c1 /\ convertWasm2Cosmos m c1 = Ok m c' /\
    r = MkMsgConvertCW721Response (cc_ContractAddress m) (cc_TokenIds m) (cc_Receiver m) (cc_Sender m)
          (cc_ClassId m) (cc_NftIds m) /\
    NormalizeCW721Address (cc_ContractAddress msg) = inr (cc_ContractAddress m) /\
    cc_TokenIds m = cc_TokenIds msg /\ cc_Receiver m = cc_Receiver msg /\ cc_Sender m = cc_Sender msg /\
    cc_TokenIds m <> [] /\ List.length (cc_TokenIds m) = List.length (cc_NftIds m) /\
    List.length (cc_TokenIds m) <= maxCW721BatchSize /\
    module_ok (c_cw c1) /\ registered (c_cw c1) (NewTokenPair (cc_ContractAddress m) (cc_ClassId m)) /\
    forward (c_cw c1) = forward (c_cw c) /\ reverse (c_cw c1) = reverse (c_cw c) /\
    refunds (c_cw c1) = refunds (c_cw c) /\
    c_erc c1 = c_erc c /\ same_owners (c_nft c) (c_nft c1).
Proof.
  intros Hm Hd Hr. unfold ConvertCW721 in Hr.
  apply mbind_ok in Hr as (en & c0 & Hg & Hr). apply gets_ok in Hg as [-> ->].
  apply mbind_ok in Hr as (u0 & c0 & Hg & Hr). apply guard_ok in Hg as [Hen ->]. split; [done|].
  apply mbind_ok in Hr as (a & c0 & Hg & Hr). apply lift_sum_ok in Hg as [Ha ->].
  pose proof (Normalize_idem _ _ Ha) as Hidem.
  apply mbind_ok in Hr as (s & c0 & Hg & Hr). apply gets_ok in Hg as [-> ->].
  apply mbind_ok in Hr as ([cls nfts] & c0 & Hg & Hr). apply lift_sum_ok in Hg as [Hids ->].
  apply mbind_ok in Hr as (u1 & c0 & Hg & Hr). apply cw_check_batch_ok in Hg as (-> & Hne & Hlen & Hmax).
  cbn [set_cc cc_TokenIds cc_NftIds cc_ContractAddress cc_ClassId] in *.
  apply mbind_ok in Hr as (m1 & c1 & Hreg & Hr).
  apply mbind_ok in Hr as (s1 & c0 & Hg & Hr). apply gets_ok in Hg as [-> ->].
  apply mbind_ok in Hr as (tp & c0 & Hg & Hr). apply lift_sum_ok in Hg as [Htp ->].
  apply mbind_ok in Hr as (u2 & c0 & Hg & Hr). apply guard_ok in Hg as [_ ->].
  apply mbind_ok in Hr as (m & c2 & Hconv & Hr). apply mret_ok in Hr as [-> ->].
  assert (cw721_paired a c c1 /\ cc_ContractAddress m1 = a /\ cc_TokenIds m1 = cc_TokenIds msg /\ cc_Receiver m1 = cc_Receiver msg /\
    cc_Sender m1 = cc_Sender msg /\ module_ok (c_cw c1) /\
    forward (c_cw c1) = forward (c_cw c) /\ reverse (c_cw c1) = reverse (c_cw c) /\
    refunds (c_cw c1) = refunds (c_cw c) /\
    c_erc c1 = c_erc c /\ same_owners (c_nft c) (c_nft c1))
    as (Hpr & M1 & M2 & M3 & M4 & Hm1 & Ef & Er & Ers & Ee & Ho).
  { destruct (GetCW721Map (c_cw c) a =?s "") eqn:Eid; [|by apply mret_ok in Hreg as [-> ->]; split; [left|]].
    apply str_eqb_true in Eid. apply mbind_ok in Hreg as (p & c3 & Hp & Hret). apply mret_ok in Hret as [-> ->].
    split; [right; eauto|]. apply RegisterCW721_ok in Hp as (Pa & _ & Hrg & Ee & Ho); [|apply Hm|done|].
    - cbn. pose proof (registers_module _ _ _ Hm Hrg). destruct Hrg as (_ & _ & Ef & Er & Ers & _). done.
    - intros k Hk. apply Hd; [done|]. apply elem_of_cons in Hk as [->|Hk]; [|by right].
      refine (class_and_nft_ids_class _ _ _ _ _ _ _ _ (or_intror Hne) Hids). intros t _.
      by apply unregistered_unbound. }
  assert (m = set_cc m1 (cc_ContractAddress m1) (tp_ClassId tp) nfts) as Em.
  { unfold convertWasm2Cosmos in Hconv. apply mbind_ok in Hconv as (x1 & d1 & _ & Hconv).
    apply mbind_ok in Hconv as (x2 & d2 & _ & Hconv). apply mbind_ok in Hconv as (x3 & d3 & _ & Hconv).
    by apply mret_ok in Hconv as [-> _]. }
  rewrite <- Em in Hconv. rewrite M1 in Htp.
  apply GetPairByCW721_iff in Htp as [Hrg Haddr]; [|apply Hm1].
  rewrite (Normalize_canonical _ _ Hidem) in Haddr. subst m. cbn in *. rewrite M1, M2, M3, M4 in *.
  eexists _, c1. split; [|split; [exact Hconv|]]; [exact Hpr|]. unfold set_cc. cbn. split_and!; try done; try congruence.
  destruct tp as [ta tc]; cbn in *. by subst ta.
Qed.

Lemma convertWasm2Cosmos_ok m c r c' :
  quiet (cc_ContractAddress m) -> module_ok (c_cw c) -> registered (c_cw c) (NewTokenPair (cc_ContractAddress m) (cc_ClassId m)) ->
  convertWasm2Cosmos m c = Ok r c' ->
  let ids := combine (cc_TokenIds m) (cc_NftIds m) in
  module_ok (c_cw c') /\ index_only (c_cw c) (c_cw c') /\
  batch_bound (c_cw c) (cc_ContractAddress m) (cc_ClassId m) ids (c_cw c') /\
  c_erc c' = c_erc c /\
  (forall nft, nft ∈ ids.*2 ->
     AccAddressFromBech32 (cc_Receiver m) = Some (nk_GetOwner (c_nft c') (cc_ClassId m) nft)) /\
  (forall cl nft, (cl <> cc_ClassId m \/ nft ∉ ids.*2) ->
     nk_GetNFT (c_nft c') cl nft = nk_GetNFT (c_nft c) cl nft /\
     nk_GetOwner (c_nft c') cl nft = nk_GetOwner (c_nft c) cl nft) /\
  exists c1, for_each ids (wasm2cosmos_token m) c = Ok tt c1 /\
    forall pre t nft post, ids = pre ++ (t, nft) :: post ->
      exists d1 d2, turn (wasm2cosmos_token m) pre (t, nft) post c c1 d1 d2 /\
        taken_from (cc_Sender m) (cc_ContractAddress m) t d1.
Proof.
  intros Hquiet Hm Hp Hr ids. unfold convertWasm2Cosmos in Hr. fold ids in Hr.
  apply mbind_ok in Hr as ([] & c1 & Hl & Hr). pose proof Hl as Hloop.
  apply wasm2cosmos_loop in Hl as ([E1 E2] & Hown & Hother & Hturn); [|done].
  apply mbind_ok in Hr as (x2 & c2 & Hs & Hr).
  apply save_pairs_loop in Hs as (Ec & Hm2 & Hi & Hb & _); [|by rewrite E2..].
  apply mbind_ok in Hr as (x3 & c3 & He & Hr). apply EmitEvents_ok in He as ->. apply mret_ok in Hr as [_ ->].
  cbn. assert (c_nft c2 = c_nft c1) as -> by (by rewrite Ec). rewrite E2 in Hi, Hb.
  split_and!; try done; [by rewrite Ec|by exists c1].
Qed.

(** What a successful ConvertCW721 guarantees. *)
Definition cw721_converted (msg : MsgConvertCW721) c (r : MsgConvertCW721Response) c' : Prop :=
  let ids := combine (cc_TokenIds msg) (cr_NftIds r) in
  let m := MkMsgConvertCW721 (cr_ContractAddress r) (cr_TokenIds r) (cr_Receiver r) (cr_Sender r)
             (cr_ClassId r) (cr_NftIds r) in
  (* the checks *)
  GetEnableCw721 (c_cw c) = true /\
  NormalizeCW721Address (cc_ContractAddress msg) = inr (cr_ContractAddress r) /\
  cr_TokenIds r = cc_TokenIds msg /\ cr_Receiver r = cc_Receiver msg /\ cr_Sender r = cc_Sender msg /\
  cc_TokenIds msg <> [] /\
  List.length (cc_TokenIds msg) = List.length (cr_NftIds r) /\
  List.length (cc_TokenIds msg) <= maxCW721BatchSize /\
  (* the pair, and the invariant of the store *)
  registered (c_cw c') (NewTokenPair (cr_ContractAddress r) (cr_ClassId r)) /\ module_ok (c_cw c') /\
  (* from the state in which the contract has its pair this run goes on to its end, and
     at its turn each token was the sender's and is taken *)
  (exists c1 c2, cw721_paired (cr_ContractAddress r) c c1 /\
     for_each ids (wasm2cosmos_token m) c1 = Ok tt c2 /\ convertWasm2Cosmos m c1 = Ok m c' /\
     forall pre t nft post, ids = pre ++ (t, nft) :: post ->
       exists d1 d2, turn (wasm2cosmos_token m) pre (t, nft) post c1 c2 d1 d2 /\
         taken_from (cc_Sender msg) (cr_ContractAddress r) t d1) /\
  (* each NFT is the receiver's, and bound to the token of its position *)
  (forall nft, nft ∈ cr_NftIds r ->
     AccAddressFromBech32 (cc_Receiver msg) = Some (nk_GetOwner (c_nft c') (cr_ClassId r) nft)) /\
  batch_bound (c_cw c) (cr_ContractAddress r) (cr_ClassId r) ids (c_cw c') /\
  (* nothing else changes *)
  (forall cl nft, (cl <> cr_ClassId r \/ nft ∉ cr_NftIds r) ->
     nk_GetOwner (c_nft c') cl nft = nk_GetOwner (c_nft c) cl nft) /\
  refunds (c_cw c') = refunds (c_cw c) /\ c_erc c' = c_erc c.

Lemma combine_both {A B} (l : list A) (k : list B) :
  List.length l = List.length k -> (combine l k).*1 = l /\ (combine l k).*2 = k.
Proof.
  revert k. induction l as [|x l IH]; intros [|y k] Hl; try done. injection Hl as Hl.
  destruct (IH k Hl) as [E1 E2]. cbn. by rewrite E1, E2.
Qed.

Lemma ConvertCW721_ok msg c r c' :
  module_ok (c_cw c) -> no_collision (c_cw c) msg -> quiet_source msg -> ConvertCW721 msg c = Ok r c' ->
  cw721_converted msg c r c'.
Proof.
  intros Hm Hd Hq Hr. apply ConvertCW721_prefix in Hr
    as (Hen & m & c1 & Hpr & Hc & -> & Ha & Et & Er & Es & Hne & Hlen & Hmax & Hm1 & Hp & Ef & Erv & Ers & Ee & Ho);
    [|done..].
  pose proof Hc as Hrun.
  apply convertWasm2Cosmos_ok in Hc as (Hm2 & Hi & Hb & Ee2 & Hown & Hother & c2 & Hl & Hturn); [|by apply Hq|done..].
  unfold cw721_converted. cbn. rewrite <- Et, <- Er, <- Es. destruct (combine_both _ _ Hlen) as [L1 L2].
  rewrite L2 in Hown, Hother. destruct (Hi) as (_ & _ & _ & _ & Hrf & _). destruct m as [ma mt mr ms mk mn].
  split_and!; try done.
  - by apply (cw_index_only_registered (c_cw c1)).
  - by exists c1, c2.
  - unfold batch_bound in *. by rewrite Ef, Erv in Hb.
  - intros cl nft Hx. destruct (Hother cl nft Hx) as [_ ->]. apply Ho.
  - congruence.
  - congruence.
Qed.

(** ** ConvertNFT *)

(** No hash collision for the pair of the class with the contract deployed for it. *)
Definition deploys_distinct c (cls : string) : Prop :=
  forall a c1 b, DeployCW721Contract cls c = Ok a c1 -> NormalizeCW721Address a = inr b ->
    id_distinct (c_cw c) b cls.

(** The contract of the class is quiet: the one of its pair, or else the one deployed
    for it, in a deployment that is quiet as well. *)
Definition quiet_class c (cls : string) : Prop :=
  (forall tp, GetPairByClass (c_cw c) cls = inr tp -> quiet (Cw721Address tp)) /\
  (forall a c1, DeployCW721Contract cls c = Ok a c1 ->
     wasm_only c c1 /\ forall b, NormalizeCW721Address a = inr b -> quiet b).

(** The state the transfers start from: the class has its pair, or a contract is
    deployed and registered for it. *)
Definition class_paired (cls : string) c c1 : Prop :=
  c1 = c \/ exists a c0 tp, DeployCW721Contract cls c = Ok a c0 /\ RegisterNFT cls a c0 = Ok tp c1.

(** The class gets its pair: the one it has, or a new one with a deployed contract. *)
Lemma ConvertNFT_pair msg c ids c1 c2 u :
  module_ok (c_cw c) -> deploys_distinct c (cn_ClassId msg) -> quiet_class c (cn_ClassId msg) ->
  GetContractAddressAndTokenIds msg c = Ok ids c1 ->
  (if GetClassMap (c_cw c1) (cn_ClassId msg) =?s ""
   then RegisterNFT (cn_ClassId msg) (fst ids) ;;; mret tt else mret tt)%go c1 = Ok u c2 ->
  class_paired (cn_ClassId msg) c c2 /\
  module_ok (c_cw c2) /\ forward (c_cw c2) = forward (c_cw c) /\ reverse (c_cw c2) = reverse (c_cw c) /\
  refunds (c_cw c2) = refunds (c_cw c) /\ c_erc c2 = c_erc c /\ c_nft c2 = c_nft c /\
  (IsIBCDenom (cn_ClassId msg) = false \/ exists tp, GetPairByClass (c_cw c) (cn_ClassId msg) = inr tp) /\
  (forall tp, registered (c_cw c2) tp -> tp_ClassId tp = cn_ClassId msg -> quiet (Cw721Address tp)).
Proof.
  intros Hm Hd [Hq1 Hq2] Hg Hr. unfold GetContractAddressAndTokenIds in Hg.
  apply mbind_ok in Hg as (s & c0 & Hx & Hg). apply gets_ok in Hx as [-> ->].
  assert (forall tp, registered (c_cw c) tp -> tp_ClassId tp = cn_ClassId msg -> quiet (Cw721Address tp)) as Hqr.
  { intros tp Hp E. apply Hq1. apply GetPairByClass_iff; [apply Hm|done]. }
  destruct (GetPairByClass (c_cw c) (cn_ClassId msg)) as [e|tp] eqn:Ep.
  - apply mbind_ok in Hg as (l & c0 & Hx & Hg). apply lift_sum_ok in Hx as [_ ->].
    apply mbind_ok in Hg as (x & c0 & Hx & Hg). apply guard_ok in Hx as [_ ->].
    apply mbind_ok in Hg as (a & c3 & Ha & Hg). apply mret_ok in Hg as [-> ->]. cbn [fst] in Hr.
    destruct (Hq2 _ _ Ha) as [(E1 & E2 & E3) Hqa].
    destruct (_ =?s "") eqn:Ei in Hr; [|apply mret_ok in Hr as [_ ->]].
    + apply mbind_ok in Hr as (p & c4 & Hp & Hr). apply mret_ok in Hr as [_ ->].
      split; [right; by exists a, c3, p|].
      apply cw_RegisterNFT_ok in Hp as (Hi & Hn & _ & _ & _ & Ec & Hrg).
      * rewrite E3 in Hrg. pose proof (registers_module _ _ _ Hm Hrg).
        destruct Hrg as (_ & Hreg & Ef & Er & Ers & _).
        split_and!; try done; [by rewrite Ec|by rewrite Ec|by left|].
        intros q [->|Hq]%Hreg Hcl; [by apply Hqa|by apply Hqr].
      * rewrite E3. apply Hm.
      * rewrite E3. intros b Hb. by eapply Hd.
    + exfalso. rewrite E3 in Ei. apply str_eqb_false in Ei. unfold GetPairByClass in Ep.
      assert (cw_TokenPairByClass (c_cw c) !! cn_ClassId msg = Some (GetClassMap (c_cw c) (cn_ClassId msg))) as El.
      { unfold GetClassMap, kv_get in *. by destruct (_ !! _). }
      apply (rg_class _ (mo_registry _ Hm)) in El as (p & Hp & _ & El).
      rewrite <- El in Ep. by rewrite pairFromID_registered in Ep by (apply Hm || done).
  - apply lift_sum_ok in Hg as [_ ->]. destruct (_ =?s "") eqn:Ei in Hr.
    + apply str_eqb_true in Ei. unfold GetPairByClass in Ep. by rewrite Ei in Ep.
    + apply mret_ok in Hr as [_ ->]. split; [by left|]. split_and!; try done. right. eauto.
Qed.

(** What a successful ConvertNFT guarantees. *)
Definition nft_converted (msg : MsgConvertNFT) c c' : Prop :=
  exists contract tokenIds,
    let cls := cn_ClassId msg in
    let ids := combine tokenIds (cn_NftIds msg) in
    (* the checks *)
    GetEnableCw721 (c_cw c) = true /\ cn_NftIds msg <> [] /\
    List.length tokenIds = List.length (cn_NftIds msg) /\
    List.length (cn_NftIds msg) <= maxCW721BatchSize /\
    (* the pair, and the invariant of the store; no pair is made for a voucher class *)
    registered (c_cw c') (NewTokenPair contract cls) /\ module_ok (c_cw c') /\
    (IsIBCDenom cls = false \/ exists tp, GetPairByClass (c_cw c) cls = inr tp) /\
    (* each NFT was the sender's and is in escrow *)
    (forall nft, nft ∈ cn_NftIds msg ->
       AccAddressFromBech32 (cn_Sender msg) = Some (nk_GetOwner (c_nft c) cls nft) /\
       nk_GetOwner (c_nft c') cls nft = AccModuleAddress) /\
    (* from the state in which the class has its pair this run goes on to its end, and at
       its turn each NFT goes into escrow and its token is minted or released to the
       receiver, as the index of the state before the message says *)
    (exists c1 c2, let m := set_cn msg contract tokenIds in
       class_paired cls c c1 /\ for_each ids (cosmos2wasm_token m) c1 = Ok tt c2 /\
       convertCosmos2Wasm m c1 = Ok tt c' /\
       forall pre t nft post, ids = pre ++ (t, nft) :: post -> exists d1 d2 d3,
         turn (cosmos2wasm_token m) pre (t, nft) post c1 c2 d1 d3 /\ escrowed m nft d1 d2 /\
         forward (c_cw d2) = forward (c_cw c) /\ handed_over m t nft d2 d3) /\
    batch_bound (c_cw c) contract cls ids (c_cw c') /\
    (* nothing else changes *)
    (forall cl nft, (cl <> cls \/ nft ∉ cn_NftIds msg) ->
       nk_GetOwner (c_nft c') cl nft = nk_GetOwner (c_nft c) cl nft) /\
    refunds (c_cw c') = refunds (c_cw c) /\ c_erc c' = c_erc c.

Lemma convertCosmos2Wasm_ok m c u c' :
  quiet (cn_ContractAddress m) -> module_ok (c_cw c) -> registered (c_cw c) (NewTokenPair (cn_ContractAddress m) (cn_ClassId m)) ->
  convertCosmos2Wasm m c = Ok u c' ->
  let ids := combine (cn_TokenIds m) (cn_NftIds m) in
  cn_TokenIds m <> [] /\ List.length (cn_TokenIds m) = List.length (cn_NftIds m) /\
  List.length (cn_TokenIds m) <= maxCW721BatchSize /\
  module_ok (c_cw c') /\ index_only (c_cw c) (c_cw c') /\
  batch_bound (c_cw c) (cn_ContractAddress m) (cn_ClassId m) ids (c_cw c') /\
  c_erc c' = c_erc c /\
  (forall nft, nft ∈ ids.*2 ->
     AccAddressFromBech32 (cn_Sender m) = Some (nk_GetOwner (c_nft c) (cn_ClassId m) nft) /\
     nk_GetOwner (c_nft c') (cn_ClassId m) nft = AccModuleAddress) /\
  (forall cl nft, (cl <> cn_ClassId m \/ nft ∉ ids.*2) ->
     nk_GetNFT (c_nft c') cl nft = nk_GetNFT (c_nft c) cl nft /\
     nk_GetOwner (c_nft c') cl nft = nk_GetOwner (c_nft c) cl nft) /\
  exists c1, for_each ids (cosmos2wasm_token m) c = Ok tt c1 /\
    forall pre t nft post, ids = pre ++ (t, nft) :: post -> exists d1 d2 d3,
      turn (cosmos2wasm_token m) pre (t, nft) post c c1 d1 d3 /\ escrowed m nft d1 d2 /\
      stores_same c d2 /\ handed_over m t nft d2 d3.
Proof.
  intros Hquiet Hm Hp Hr ids. unfold convertCosmos2Wasm in Hr. fold ids in Hr.
  apply mbind_ok in Hr as (x0 & c0 & Hb & Hr). apply cw_check_batch_ok in Hb as (-> & Hne & Hlen & Hmax).
  apply mbind_ok in Hr as ([] & c1 & Hl & Hr). pose proof Hl as Hloop.
  apply cosmos2wasm_loop in Hl as ([E1 E2] & Hown & Hother & Hh); [|done].
  apply mbind_ok in Hr as (x2 & c2 & Hs & Hr).
  apply save_pairs_loop in Hs as (Ec & Hm2 & Hi & Hb & _); [|by rewrite E2..].
  apply EmitEvents_ok in Hr as ->. cbn. assert (c_nft c2 = c_nft c1) as -> by (by rewrite Ec).
  rewrite E2 in Hi, Hb. split_and!; try done; [by rewrite Ec|by exists c1].
Qed.

(** Up to the transfer loop, ConvertNFT finds or creates the pair of the class. *)
Lemma cw_ConvertNFT_prefix msg c u c' :
  module_ok (c_cw c) -> deploys_distinct c (cn_ClassId msg) -> quiet_class c (cn_ClassId msg) ->
  ConvertNFT msg c = Ok u c' ->
  GetEnableCw721 (c_cw c) = true /\
  exists contract tokenIds c1,
    class_paired (cn_ClassId msg) c c1 /\
    convertCosmos2Wasm (set_cn msg contract tokenIds) c1 = Ok tt c' /\ quiet contract /\
    module_ok (c_cw c1) /\ registered (c_cw c1) (NewTokenPair contract (cn_ClassId msg)) /\
    forward (c_cw c1) = forward (c_cw c) /\ reverse (c_cw c1) = reverse (c_cw c) /\
    refunds (c_cw c1) = refunds (c_cw c) /\ c_erc c1 = c_erc c /\ c_nft c1 = c_nft c /\
    (IsIBCDenom (cn_ClassId msg) = false \/ exists tp, GetPairByClass (c_cw c) (cn_ClassId msg) = inr tp).
Proof.
  intros Hm Hd Hq Hr. unfold ConvertNFT in Hr.
  apply mbind_ok in Hr as (en & c0 & Hg & Hr). apply gets_ok in Hg as [-> ->].
  apply mbind_ok in Hr as (u0 & c0 & Hg & Hr). apply guard_ok in Hg as [Hen ->].
  apply mbind_ok in Hr as (u1 & c0 & Hg & Hr). apply guard_ok in Hg as [_ ->].
  apply mbind_ok in Hr as ([a tokenIds] & c1 & Hids & Hr).
  apply mbind_ok in Hr as (id & c0 & Hg & Hr). apply gets_ok in Hg as [-> ->].
  apply mbind_ok in Hr as (u2 & c2 & Hreg & Hr).
  pose proof (ConvertNFT_pair _ _ _ _ _ _ Hm Hd Hq Hids Hreg) as (Hpr & Hm2 & Ef & Er & Ers & Ee & En & Hibc & Hqr).
  apply mbind_ok in Hr as (s & c0 & Hg & Hr). apply gets_ok in Hg as [-> ->].
  apply mbind_ok in Hr as (tp & c0 & Hg & Hr). apply lift_sum_ok in Hg as [Htp ->].
  apply mbind_ok in Hr as (u3 & c0 & Hg & Hr). apply guard_ok in Hg as [Hcl%str_eqb_true ->].
  apply GetPairByClass_iff in Htp as [Hrg _]; [|apply Hm2]. cbn in Hcl.
  destruct tp as [ta tc]. cbn in *. subst tc. destruct u.
  split; [done|]. exists ta, tokenIds, c2. split; [done|]. split; [exact Hr|].
  split; [by apply (Hqr _ Hrg)|done].
Qed.

Lemma cw_ConvertNFT_ok msg c u c' :
  module_ok (c_cw c) -> deploys_distinct c (cn_ClassId msg) -> quiet_class c (cn_ClassId msg) ->
  ConvertNFT msg c = Ok u c' ->
  nft_converted msg c c'.
Proof.
  intros Hm Hd Hq Hr.
  apply cw_ConvertNFT_prefix in Hr as (Hen & ta & tokenIds & c2 & Hpr & Hr & Hqt & Hm2 & Hrg & Ef & Er & Ers & Ee & En & Hibc);
    [|done..].
  pose proof Hr as Hrun.
  apply convertCosmos2Wasm_ok in Hr as (Hne & Hlen & Hmax & Hm3 & Hi & Hb & Ee2 & Hown & Hother & c3 & Hl & Hh);
    [|done..].
  cbn in *. destruct (combine_both _ _ Hlen) as [L1 L2]. rewrite L2 in Hown, Hother.
  rewrite En in Hown, Hother. destruct (Hi) as (_ & _ & _ & _ & Hrf & _).
  exists ta, tokenIds. cbn. split_and!; try done.
  - intros E. rewrite E in Hlen. by destruct tokenIds.
  - congruence.
  - by apply (cw_index_only_registered (c_cw c2)).
  - exists c2, c3. split_and!; try done. intros pre t nft post Hin.
    destruct (Hh pre t nft post Hin) as (d1 & d2 & d3 & Ht & He & [_ D2] & Hd'). exists d1, d2, d3.
    split_and!; try done. by rewrite D2.
  - unfold batch_bound in *. by rewrite Ef, Er in Hb.
  - intros cl nft Hx. by destruct (Hother cl nft Hx) as [_ ->].
  - congruence.
  - congruence.
Qed.

(** C4: in a store that satisfies the invariants, when the contract is quiet (its
    execution sends no message that reaches x/nft, x/erc721 or x/cw721) and no pair it
    can get shares its id with another one, a successful ConvertCW721 took, at its turn
    in this run, every token of the batch from the sender, whom the contract named as
    its owner, into the module account; every Cosmos NFT of the batch is owned by the
    receiver and bound, both ways, to the CW721 token of the same position; no other NFT
    changes owner and no other binding changes; the class is the one paired with the
    contract, the batch has 1 to 100 tokens, the module was enabled, and the invariants
    of its store hold. *)
Theorem ConvertCW721_correct msg c r c' :
  module_ok (c_cw c) -> no_collision (c_cw c) msg -> quiet_source msg -> ConvertCW721 msg c = Ok r c' ->
  cw721_converted msg c r c'.
Proof. apply ConvertCW721_ok. Qed.

(** C5: in a store that satisfies the invariants, when the contract of the class (or the
    one deployed for it) is quiet, sending no message that reaches x/nft, x/erc721 or
    x/cw721, and a deployed one gets a pair id of its own, a successful x/cw721
    ConvertNFT found every NFT of the batch with the sender and put it in escrow; at its
    turn in this run every CW721 token of the batch was minted to the receiver, or
    released to him when it was already bound to that very NFT, and it is bound to the
    NFT of the same position; no pair is made for an IBC voucher class, no other NFT
    changes owner and no other binding changes, and the invariants of the store hold. *)
Theorem cw721_ConvertNFT_correct msg c u c' :
  module_ok (c_cw c) -> deploys_distinct c (cn_ClassId msg) -> quiet_class c (cn_ClassId msg) -> ConvertNFT msg c = Ok u c' ->
  nft_converted msg c c'.
Proof. apply cw_ConvertNFT_ok. Qed.

(** ** TransferCW721 *)

Lemma record_receivers_ok a (tokens : list string) sender c u c' :
  for_each tokens (fun t => cw_set (fun s => SetCwAddressByContractTokenId s a t sender)) c = Ok u c' ->
  c' = set_cw c (upd_Refund (fun m => fold_left (fun m t => <[a +:+ t := sender]> m) tokens m) (c_cw c)).
Proof.
  revert c. induction tokens as [|t l IH]; intros c Hr.
  { apply ok_inj in Hr as [_ ->]. by destruct c as [? ? ? ? ? []]. }
  apply mbind_ok in Hr as (x & c1 & Hs & Hr). apply modify_ok in Hs as ->. by apply IH in Hr as ->.
Qed.

Lemma fold_receivers (l : list string) a v (m : gmap string string) k :
  fold_left (fun m t => <[a +:+ t := v]> m) l m !! k =
  if decide (k ∈ (fun t => a +:+ t) <$> l) then Some v else m !! k.
Proof.
  revert m. induction l as [|t l IH]; intros m; cbn [fold_left]; [done|]. rewrite IH, fmap_cons.
  destruct (decide (k ∈ (fun t => a +:+ t) <$> l)) as [Hin|Hin], (decide (k = a +:+ t)) as [->|Hne].
  - by rewrite decide_True by (by left).
  - by rewrite decide_True by (by right).
  - rewrite lookup_insert_eq. by rewrite decide_True by (by left).
  - rewrite lookup_insert_ne by done. rewrite decide_False; [done|]. by rewrite elem_of_cons; intros [].
Qed.

(** A transfer over IBC is the conversion to the module account, the ICS-721 transfer
    of the NFTs it made, and a refund record for every token. *)
Lemma TransferCW721_ok msg c u c' :
  TransferCW721 msg c = Ok u c' ->
  exists a r c1 c2, NormalizeCW721Address (tc_CwContractAddress msg) = inr a /\
    ConvertCW721 (MkMsgConvertCW721 a (tc_CwTokenIds msg) (acc_String AccModuleAddress) (tc_CwSender msg)
      (tc_ClassId msg) (tc_CosmosTokenIds msg)) c = Ok r c1 /\
    ibc_Transfer (MkIbcMsgTransfer (tc_SourcePort msg) (tc_SourceChannel msg) (cr_ClassId r) (cr_NftIds r)
      (acc_String AccModuleAddress) (tc_CosmosReceiver msg) (tc_Timeout msg)
      (tc_Memo msg +:+ TransferCW721Memo)) c1 = Ok tt c2 /\
    c' = set_cw c2 (upd_Refund (fun m => fold_left (fun m t => <[a +:+ t := tc_CwSender msg]> m)
                                           (tc_CwTokenIds msg) m) (c_cw c2)) /\
    forall t, t ∈ tc_CwTokenIds msg -> GetCwAddressByContractTokenId (c_cw c') a t = tc_CwSender msg.
Proof.
  intros Hr. unfold TransferCW721 in Hr.
  apply mbind_ok in Hr as (a & c0 & Hx & Hr). apply lift_sum_ok in Hx as [Ha ->].
  apply mbind_ok in Hr as (r & c1 & Hc & Hr). apply mbind_ok in Hr as ([] & c2 & Ht & Hr).
  apply record_receivers_ok in Hr as ->. exists a, r, c1, c2. split_and!; try done.
  intros t Hin. unfold GetCwAddressByContractTokenId, kv_get. cbn. rewrite fold_receivers.
  rewrite decide_True; [done|]. by apply (list_elem_of_fmap_2 (fun t => a +:+ t)).
Qed.

(** ** UpdateParams *)

(** Only the governance authority can change the parameters, a refused update changes
    nothing; the new parameters are read back, except that a code id of zero reads back
    as the one stored before. *)
Lemma cw_UpdateParams_correct msg c :
  (0 <= WasmCodeId (up_Params msg) < 2 ^ 64)%Z ->
  match UpdateParams msg c with
  | Ok _ c' =>
      up_Authority msg = acc_String (NewModuleAddress "gov") /\ c' = set_cw c (c_cw c') /\
      EnableCw721 (GetParams (c_cw c')) = EnableCw721 (up_Params msg) /\
      EnableEVMHook (GetParams (c_cw c')) = EnableEVMHook (up_Params msg) /\
      (WasmCodeId (up_Params msg) <> 0%Z -> GetParams (c_cw c') = up_Params msg) /\
      (WasmCodeId (up_Params msg) = 0%Z -> cw_WasmCode (c_cw c') = cw_WasmCode (c_cw c))
  | Err e c' => e = SdkErr ErrInvalidSigner /\ c' = c /\
      up_Authority msg <> acc_String (NewModuleAddress "gov")
  | Panic => False
  end.
Proof.
  intros Hw. unfold UpdateParams, mbind, guard. destruct (_ =?s _) eqn:Ea; cbn.
  - apply str_eqb_true in Ea. unfold cw_try, SetParams. destruct (Params_total (up_Params msg) ltac:(assumption)) as [bz Hm].
    rewrite Hm. pose proof (Params_roundtrip _ _ Hw Hm) as Hu. split; [done|]. split; [done|].
    destruct (Z.eqb_spec (WasmCodeId (up_Params msg)) 0) as [E0|E0]; unfold GetParams; cbn; rewrite Hu.
    + rewrite E0. cbn. repeat case_match; cbn; split_and!; done.
    + destruct (Z.eqb_spec (WasmCodeId (up_Params msg)) 0); done.
  - by apply str_eqb_false in Ea.
Qed.
End ConvertSpec.
