(* ===== verification/Erc721Msg.v ===== *)
(** x/erc721/types/msg.go: the messages and their stateless validation, and the
    page-request shaping of the queries (keeper/pagination.go). *)
From S2P Require Import Prelude GoStrings Utf8 Sdk CollectionTypes Erc721Types.
Open Scope go_scope.

Module Erc721Msg.

(** ** Messages (tx.pb.go) *)
Record MsgConvertNFT := MkMsgConvertNFT {
  cn_ClassId : string; cn_CosmosTokenIds : list string; cn_CosmosSender : string;
  cn_EvmReceiver : string; cn_EvmContractAddress : string; cn_EvmTokenIds : list string }.
Record MsgConvertERC721 := MkMsgConvertERC721 {
  ce_EvmContractAddress : string; ce_EvmTokenIds : list string; ce_CosmosReceiver : string;
  ce_CosmosSender : string; ce_ClassId : string; ce_CosmosTokenIds : list string }.
Record MsgConvertERC721Response := MkMsgConvertERC721Response {
  cr_EvmContractAddress : string; cr_EvmTokenIds : list string; cr_CosmosReceiver : string;
  cr_EvmSender : string; cr_ClassId : string; cr_CosmosTokenIds : list string }.
Record MsgTransferERC721 := MkMsgTransferERC721 {
  te_EvmContractAddress : string; te_EvmTokenIds : list string; te_SourcePort : string;
  te_SourceChannel : string; te_ClassId : string; te_CosmosTokenIds : list string;
  te_CosmosSender : string; te_CosmosReceiver : string; te_Timeout : Timeout; te_Memo : string }.
Record MsgUpdateParams := MkMsgUpdateParams { up_Authority : string; up_Params : Params }.

Section Validate.
Context `{EthLib} `{SdkLib}.

Definition ErrRequest : error := SdkErr ErrInvalidRequest.
Definition ErrAddress : error := SdkErr ErrInvalidAddress.
Definition is_bech32 (s : string) : bool :=
  match AccAddressFromBech32 s with Some _ => true | None => false end.
Definition ErrBech32 : error := ExtErr "bech32".

Definition nonempty {A} (l : list A) : bool := match l with [] => false | _ => true end.

(** The loops over the two id lists. *)
Fixpoint validate_cosmos_ids (ids : list string) : option error :=
  match ids with
  | [] => None
  | id :: rest =>
      check (id <>?s "") else ErrRequest ;;
      then_check (ValidateTokenID id) (validate_cosmos_ids rest)
  end.

Fixpoint validate_evm_ids (ids : list string) : option error :=
  match ids with
  | [] => None
  | id :: rest => then_check (ValidateEVMTokenID id) (validate_evm_ids rest)
  end.

(** MsgConvertNFT.ValidateBasic *)
Definition MsgConvertNFT_ValidateBasic (msg : MsgConvertNFT) : option error :=
  check (is_bech32 (cn_CosmosSender msg)) else ErrBech32 ;;
  check (IsHexAddress (cn_EvmReceiver msg)) else ErrAddress ;;
  check (negb ((cn_EvmContractAddress msg <>?s "") && negb (IsHexAddress (cn_EvmContractAddress msg))))
    else ErrAddress ;;
  check (negb (IsBlank (cn_ClassId msg))) else ErrRequest ;;
  check (nonempty (cn_CosmosTokenIds msg)) else ErrRequest ;;
  then_check (validate_cosmos_ids (cn_CosmosTokenIds msg))
  (then_check (validate_evm_ids (cn_EvmTokenIds msg))
  (check (negb (nonempty (cn_EvmTokenIds msg)
               && negb (List.length (cn_EvmTokenIds msg) =? List.length (cn_CosmosTokenIds msg))))
    else ErrRequest ;; None)).

(** MsgConvertERC721.ValidateBasic *)
Definition MsgConvertERC721_ValidateBasic (msg : MsgConvertERC721) : option error :=
  check (IsHexAddress (ce_EvmContractAddress msg)) else ErrAddress ;;
  check (negb (IsBlank (ce_ClassId msg))) else ErrRequest ;;
  check (is_bech32 (ce_CosmosReceiver msg)) else ErrBech32 ;;
  check (is_bech32 (ce_CosmosSender msg)) else ErrBech32 ;;
  check (nonempty (ce_EvmTokenIds msg)) else ErrRequest ;;
  then_check (validate_evm_ids (ce_EvmTokenIds msg))
  (then_check (validate_cosmos_ids (ce_CosmosTokenIds msg))
  (check (negb (nonempty (ce_CosmosTokenIds msg)
               && negb (List.length (ce_EvmTokenIds msg) =? List.length (ce_CosmosTokenIds msg))))
    else ErrRequest ;; None)).

(** MsgTransferERC721.ValidateBasic *)
Definition MsgTransferERC721_ValidateBasic (msg : MsgTransferERC721) : option error :=
  check (IsHexAddress (te_EvmContractAddress msg)) else ErrAddress ;;
  check (negb (IsBlank (te_ClassId msg))) else ErrRequest ;;
  check (is_bech32 (te_CosmosSender msg)) else ErrBech32 ;;
  check (is_bech32 (te_CosmosReceiver msg)) else ErrBech32 ;;
  check (nonempty (te_EvmTokenIds msg)) else ErrRequest ;;
  then_check (validate_evm_ids (te_EvmTokenIds msg))
  (then_check (validate_cosmos_ids (te_CosmosTokenIds msg))
  (check (negb (IsBlank (te_SourcePort msg))) else ErrRequest ;;
   check (negb (IsBlank (te_SourceChannel msg))) else ErrRequest ;;
   check (negb ((RevisionNumber (te_Timeout msg) =? 0)%Z && (RevisionHeight (te_Timeout msg) =? 0)%Z
                && (TimeoutTimestamp (te_Timeout msg) =? 0)%Z)) else ErrRequest ;;
   None)).

(** MsgUpdateParams.ValidateBasic; Params.Validate always succeeds *)
Definition MsgUpdateParams_ValidateBasic (m : MsgUpdateParams) : option error :=
  check (is_bech32 (up_Authority m)) else ErrBech32 ;; None.
End Validate.
End Erc721Msg.
Export Erc721Msg.
