(* ===== verification/Erc721Register.v ===== *)
(** x/erc721/keeper/nft_data.go and register.go: resolving the identifiers of a
    conversion, and registering a token pair from either side. *)
From S2P Require Import Prelude GoStrings Utf8 Sdk CollectionTypes CollectionKeeper Erc721Types.
From S2P Require Import Erc721Store Erc721Index Erc721Genesis Erc721Registry Erc721Evm Erc721Msg.
Open Scope go_scope.
Open Scope list_scope.

Module Erc721Register.

(** The nftType argument of the source: 0, 1, 2, 3. *)
Inductive nftType := TNftId | TClassId | TTokenId | TContract.

Section Register.
Context `{EthLib} `{SdkLib} `{NftKeeper} `{!EvmKeeper} `{!WasmState} `{CollectionCodec} `{Erc721Codec}.

(** ** nft_data.go *)

Definition nftDataAgrees (nftSaved nftOrg : string) (ty : nftType) : bool :=
  match ty with
  | TTokenId => EqualEVMTokenID nftSaved nftOrg
  | TContract => EqualContractAddress nftSaved nftOrg
  | _ => nftSaved =?s nftOrg
  end.

Definition createNftDataByType (nftOrg : string) (ty : nftType) : string :=
  match ty with
  | TNftId => CreateNFTIDFromTokenID nftOrg
  | TClassId => CreateClassIDFromContractAddress nftOrg
  | TTokenId => CreateTokenIDFromNFTID nftOrg
  | TContract => CreateContractAddressFromClassID nftOrg
  end.

Definition getNftDataErrorByType (ty : nftType) : error :=
  ErcErr match ty with
         | TNftId => ErrNftIdNotCorrect
         | TClassId => ErrClassIdNotCorrect
         | TTokenId => ErrTokenIdNotCorrect
         | TContract => ErrContractAddressNotCorrect
         end.

Definition getNftData (nftOrg nftPairOrg nftSaved : string) (ty : nftType) : error + string :=
  if (nftOrg =?s "") && (nftSaved =?s "") then inr (createNftDataByType nftPairOrg ty)
  else if nftOrg =?s "" then inr nftSaved
  else if (nftSaved =?s "") || nftDataAgrees nftSaved nftOrg ty then inr nftOrg
  else inl (getNftDataErrorByType ty).

(** getNftDatas: [nftSaved] and [nftOrg] are declared outside the loop and keep
    the value of the previous iteration when they are not assigned. *)
Fixpoint getNftDatas_loop (nftOrgs nftPairOrgs nftSaveds : list string) (ty : nftType)
  (ids : list string) (n : nat) (nftSaved nftOrg : string) : error + list string :=
  match ids with
  | [] => inr []
  | id :: rest =>
      let nftSaved := match nftSaveds !! n with Some v => v | None => nftSaved end in
      let nftOrg := if List.length nftPairOrgs =? List.length nftOrgs
                    then default "" (nftOrgs !! n) else nftOrg in
      match getNftData nftOrg id nftSaved ty with
      | inl e => inl e
      | inr ret =>
          match getNftDatas_loop nftOrgs nftPairOrgs nftSaveds ty rest (S n) nftSaved nftOrg with
          | inl e => inl e
          | inr rets => inr (ret :: rets)
          end
      end
  end.

Definition getNftDatas (nftOrgs nftPairOrgs nftSaveds : list string) (ty : nftType)
  : error + list string :=
  getNftDatas_loop nftOrgs nftPairOrgs nftSaveds ty nftPairOrgs 0 "" "".

(** GetClassIDAndNFTID *)
Fixpoint class_and_nft_ids (s : ErcStore) (msg : MsgConvertERC721) (tokenIds : list string) (i : nat)
  (classId : string) : error + (string * list string) :=
  match tokenIds with
  | [] => inr (classId, [])
  | tokenId :: rest =>
      let savedPair := fst (ResolveNFTUIDPair s (ce_EvmContractAddress msg) tokenId) in
      let '(savedNftId, savedClassId) :=
        if savedPair <>?s "" then GetNFTFromUID savedPair else ("", "") in
      if (savedPair <>?s "") && ((savedNftId =?s "") || (savedClassId =?s ""))
      then inl (SdkErr ErrInvalidRequest)
      else
        let nftOrg := default "" (ce_CosmosTokenIds msg !! i) in
        match getNftData nftOrg tokenId savedNftId TNftId with
        | inl e => inl e
        | inr nftId =>
            match getNftData (ce_ClassId msg) (ce_EvmContractAddress msg) savedClassId TClassId with
            | inl e => inl e
            | inr classId =>
                match class_and_nft_ids s msg rest (S i) classId with
                | inl e => inl e
                | inr (c, ids) => inr (c, nftId :: ids)
                end
            end
        end
  end.

Definition GetClassIDAndNFTID (s : ErcStore) (msg : MsgConvertERC721) : error + (string * list string) :=
  class_and_nft_ids s msg (ce_EvmTokenIds msg) 0 "".

(** The saved token ids and the last saved contract of GetContractAddressAndTokenIds *)
Fixpoint saved_ids (s : ErcStore) (classId : string) (nftIds : list string) (contract : string)
  : list string * string :=
  match nftIds with
  | [] => ([], contract)
  | nftId :: rest =>
      let '(savedTokenId, temp) :=
        GetNFTFromUID (GetTokenUIDPairByNFTUID s (CreateNFTUID classId nftId)) in
      let contract := if temp <>?s "" then temp else contract in
      let '(ids, contract) := saved_ids s classId rest contract in
      (savedTokenId :: ids, contract)
  end.

(** The one-to-one check over the resolved token ids; [None] is success.  The
    two lists have the same length, getNftDatas resolves one id per NFT. *)
Fixpoint check_forward (s : ErcStore) (contract classId : string) (tokenIds nftIds : list string)
  : option error :=
  match tokenIds, nftIds with
  | tokenID :: tokenIds, nftId :: nftIds =>
      let forward := GetNFTPairByContractTokenID s contract tokenID in
      if (tokenID <>?s "") && (forward <>?s "") && (forward <>?s CreateNFTUID classId nftId)
      then Some (ErcErr ErrNFTMappingConflict)
      else check_forward s contract classId tokenIds nftIds
  | _, _ => None
  end.

(** GetContractAddressAndTokenIds *)
Definition GetContractAddressAndTokenIds (msg : MsgConvertNFT) : GoM (string * list string) :=
  s <- gets c_erc ;;
  match GetPairByClass s (cn_ClassId msg) with
  | inl _ =>
      ids <- lift_sum (getNftDatas (cn_EvmTokenIds msg) (cn_CosmosTokenIds msg) [] TTokenId) ;;
      addr <- DeployERC721Contract (cn_ClassId msg) ;;
      guard (negb (bool_decide (addr = zero_address))) (ErcErr ErrInternalTokenPair) ;;;
      mret (Hex addr, ids)
  | inr tp =>
      let '(savedTokenIds, savedContractAddress) :=
        saved_ids s (cn_ClassId msg) (cn_CosmosTokenIds msg) "" in
      ids <- lift_sum (getNftDatas (cn_EvmTokenIds msg) (cn_CosmosTokenIds msg) savedTokenIds TTokenId) ;;
      contract <- lift_sum (getNftData (cn_EvmContractAddress msg) (cn_ClassId msg)
                              savedContractAddress TContract) ;;
      let contract := if contract =?s "" then Erc721Address tp else contract in
      guard (negb ((contract <>?s "") && negb (EqualContractAddress contract (Erc721Address tp))))
            (ErcErr ErrContractAddressNotCorrect) ;;;
      run_check (check_forward s (Erc721Address tp) (cn_ClassId msg) ids (cn_CosmosTokenIds msg)) ;;;
      mret (Erc721Address tp, ids)
  end.

(** ** register.go *)

(** RegisterNFT *)
Definition RegisterNFT (msg : MsgConvertNFT) : GoM TokenPair :=
  guard (negb (IsIBCDenom (cn_ClassId msg))) (SdkErr ErrInvalidRequest) ;;;
  s <- gets c_erc ;;
  guard (negb (IsClassRegistered s (cn_ClassId msg))) (ErcErr ErrTokenPairAlreadyExists) ;;;
  let contract := HexToAddress (cn_EvmContractAddress msg) in
  guard (negb (IsERC721Registered s contract)) (ErcErr ErrTokenPairAlreadyExists) ;;;
  let tp := NewTokenPair contract (cn_ClassId msg) in
  erc_try (fun s => SetTokenPair s tp) ;;;
  erc_set (fun s => SetClassMap s (tp_ClassId tp) (GetID tp)) ;;;
  erc_set (fun s => SetERC721Map s contract (GetID tp)) ;;;
  mret tp.

(** CreateNFTClass, on the contract and class id of the message *)
Definition CreateNFTClass (evmContractAddress classId : string) : GoM unit :=
  let contract := HexToAddress evmContractAddress in
  erc721Data <- QueryERC721 contract ;;
  s <- gets c_erc ;;
  guard (negb (IsClassRegistered s classId)) (ErcErr ErrTokenPairAlreadyExists) ;;;
  d <- attempt (GetDenomInfo classId) ;;
  guard (match d with inr _ => false | inl _ => true end) (ErcErr ErrInternalTokenPair) ;;;
  r <- attempt (QueryClassEnhance contract) ;;
  classEnhance <- (match r with
                   | inr ce => mret ce
                   | inl e => if bool_decide (e = ErcErr ErrClassEnhanceRestrictions) then throw e
                              else mret (NewClassEnhance "" "" false "" false "" "")
                   end) ;;
  SaveDenom classId (ed_Name erc721Data) (ce_Schema classEnhance) (ed_Symbol erc721Data)
    AccModuleAddress (ce_MintRestricted classEnhance) (ce_UpdateRestricted classEnhance)
    (ce_Description classEnhance) (ce_Uri classEnhance) (ce_UriHash classEnhance) (ce_Data classEnhance).

(** RegisterERC721; the second component is the class id it leaves in the message *)
Definition RegisterERC721 (msg : MsgConvertERC721) : GoM (TokenPair * string) :=
  let contract := HexToAddress (ce_EvmContractAddress msg) in
  s <- gets c_erc ;;
  guard (negb (IsERC721Registered s contract)) (ErcErr ErrTokenPairAlreadyExists) ;;;
  let derivedClassID := CreateClassIDFromContractAddress (ce_EvmContractAddress msg) in
  guard (IsBlank (ce_ClassId msg) || (ce_ClassId msg =?s derivedClassID)) (ErcErr ErrTokenPairNotFound) ;;;
  let classId := if IsBlank (ce_ClassId msg) then derivedClassID else ce_ClassId msg in
  CreateNFTClass (ce_EvmContractAddress msg) classId ;;;
  let tp := NewTokenPair contract classId in
  erc_try (fun s => SetTokenPair s tp) ;;;
  erc_set (fun s => SetClassMap s (tp_ClassId tp) (GetID tp)) ;;;
  erc_set (fun s => SetERC721Map s (HexToAddress (Erc721Address tp)) (GetID tp)) ;;;
  mret (tp, classId).
End Register.
End Erc721Register.
Export Erc721Register.
