(* ===== verification/Erc721Convert.v ===== *)
(** x/erc721/keeper/msg_server.go: the three conversion messages, the parameter
    update, and the refund of an IBC packet. *)
From S2P Require Import Prelude GoStrings Utf8 Sdk CollectionTypes CollectionKeeper Erc721Types.
From S2P Require Import Erc721Store Erc721Genesis Erc721Evm Erc721Msg Erc721Register.
Open Scope go_scope.
Open Scope list_scope.

Module Erc721Convert.
Section Convert.
Context `{EthLib} `{SdkLib} `{NftKeeper} `{!EvmKeeper} `{!WasmState} `{CollectionCodec} `{Erc721Codec}
        `{!ConvertedNFTChecker} `{!IbcKeeper} `{FmtLib}.

Definition maxERC721BatchSize : nat := 100.

(** parseERC721TokenID *)
Definition parseERC721TokenID (tokenID : string) : GoM Z :=
  lift_opt (ParseEVMTokenID tokenID) (SdkErr ErrInvalidRequest).

(** pairContractRedeployable *)
Definition pairContractRedeployable (classID : string) : bool :=
  negb (HasPrefix classID (DefaultPrefix +:+ "-")).

(** The two length checks both conversions start with. *)
Definition check_batch (evmTokenIds cosmosTokenIds : list string) : GoM unit :=
  guard (nonempty evmTokenIds && (List.length evmTokenIds =? List.length cosmosTokenIds))
        (SdkErr ErrInvalidRequest) ;;;
  guard (List.length evmTokenIds <=? maxERC721BatchSize) (SdkErr ErrInvalidRequest).

(** [acc := GetAccountWithoutBalance(addr); acc != nil && acc.HasCodeHash()] *)
Definition has_code (s : evm_state) (addr : address) : bool :=
  match GetAccountWithoutBalance s addr with Some acc => HasCodeHash acc | None => false end.

Definition AccAddressErr : error := SdkErr ErrInvalidAddress.

(** ** Cosmos to EVM *)

(** One iteration of the loop of convertCosmos2Evm: escrow the NFT, then mint a
    new ERC721 token or release the one the module holds. *)
Definition cosmos2evm_token (msg : MsgConvertNFT) (contract receiver : address)
  (ids : string * string) : GoM unit :=
  let '(tokenId, nftId) := ids in
  bigTokenId <- parseERC721TokenID tokenId ;;
  reqInfo <- GetNFT (cn_ClassId msg) nftId ;;
  TransferNFT (MkMsgTransferNFT nftId (cn_ClassId msg) (BaseNFT_Name reqInfo) (BaseNFT_URI reqInfo)
    (BaseNFT_UriHash reqInfo) (BaseNFT_Data reqInfo) (cn_CosmosSender msg) (acc_String AccModuleAddress)) ;;;
  nftPair <- erc_get (fun s => GetNFTPairByContractTokenID s (cn_EvmContractAddress msg) tokenId) ;;
  if nftPair =?s "" then
    r <- attempt (CallEVM ModuleAddress contract true "mintEnhance"
      [AAddr receiver; AUint bigTokenId; AStr (BaseNFT_Name reqInfo); AStr (BaseNFT_URI reqInfo);
       AStr (BaseNFT_Data reqInfo); AStr (BaseNFT_UriHash reqInfo)]) ;;
    match r with
    | inr _ => mret tt
    | inl _ =>
        CallEVM ModuleAddress contract true "mint"
          [AAddr receiver; AUint bigTokenId; AStr (BaseNFT_URI reqInfo)] ;;; mret tt
    end
  else
    guard (nftPair =?s CreateNFTUID (cn_ClassId msg) nftId) (ErcErr ErrNFTMappingConflict) ;;;
    owner <- QueryERC721TokenOwner (HexToAddress (cn_EvmContractAddress msg)) bigTokenId ;;
    guard (bool_decide (owner = ModuleAddress)) (SdkErr ErrUnauthorized) ;;;
    CallEVM ModuleAddress contract true "safeTransferFrom"
      [AAddr ModuleAddress; AAddr receiver; AUint bigTokenId] ;;;
    mret tt.

Definition set_cn_contract (msg : MsgConvertNFT) (a : string) : MsgConvertNFT :=
  MkMsgConvertNFT (cn_ClassId msg) (cn_CosmosTokenIds msg) (cn_CosmosSender msg) (cn_EvmReceiver msg)
    a (cn_EvmTokenIds msg).
Definition set_cn_ids (msg : MsgConvertNFT) (ids : list string) : MsgConvertNFT :=
  MkMsgConvertNFT (cn_ClassId msg) (cn_CosmosTokenIds msg) (cn_CosmosSender msg) (cn_EvmReceiver msg)
    (cn_EvmContractAddress msg) ids.

(** convertCosmos2Evm *)
Definition convertCosmos2Evm (tp : TokenPair) (msg : MsgConvertNFT) (receiver : address) : GoM unit :=
  check_batch (cn_EvmTokenIds msg) (cn_CosmosTokenIds msg) ;;;
  let contract := GetERC721Contract tp in
  let msg := set_cn_contract msg (CanonicalContractAddress (Hex contract)) in
  let ids := combine (cn_EvmTokenIds msg) (cn_CosmosTokenIds msg) in
  for_each ids (cosmos2evm_token msg contract receiver) ;;;
  for_each ids (fun '(tokenId, nftId) =>
    erc_try (fun s => SetNFTPairs s (cn_EvmContractAddress msg) tokenId (cn_ClassId msg) nftId)) ;;;
  EmitEvents [NewEvent "convert_nft"
    [("sender", cn_CosmosSender msg); ("receiver", cn_EvmReceiver msg); ("nft_class", cn_ClassId msg);
     ("nft_ids", Join (cn_CosmosTokenIds msg) ","); ("erc721_token", Hex contract);
     ("erc721_token_ids", Join (cn_EvmTokenIds msg) ",")]].

(** ConvertNFT *)
Definition ConvertNFT (msg : MsgConvertNFT) : GoM unit :=
  enabled <- erc_get GetEnableErc721 ;;
  guard enabled (ErcErr ErrERC721Disabled) ;;;
  let msg := set_cn_contract msg (CanonicalContractAddress (cn_EvmContractAddress msg)) in
  guard (List.length (cn_CosmosTokenIds msg) <=? maxERC721BatchSize) (SdkErr ErrInvalidRequest) ;;;
  ' (contractAddress, tokenIds) <- GetContractAddressAndTokenIds msg ;;
  let msg := set_cn_ids (set_cn_contract msg (CanonicalContractAddress contractAddress)) tokenIds in
  let receiver := HexToAddress (cn_EvmReceiver msg) in
  id <- erc_get (fun s => GetERC721Map s (HexToAddress (cn_EvmContractAddress msg))) ;;
  (if id =?s "" then RegisterNFT msg ;;; mret tt else mret tt) ;;;
  s <- gets c_erc ;;
  tp <- lift_sum (GetPairByClass s (cn_ClassId msg)) ;;
  guard (cn_ClassId msg =?s tp_ClassId tp) (ErcErr ErrClassIdNotCorrect) ;;;
  ev <- gets c_evm ;;
  if has_code ev (HexToAddress (Erc721Address tp)) then convertCosmos2Evm tp msg receiver
  else
    guard (pairContractRedeployable (cn_ClassId msg)) (ErcErr ErrInternalTokenPair) ;;;
    erc_set (fun s => PurgeTokenPair s tp) ;;;
    ' (contractAddress, tokenIds) <- GetContractAddressAndTokenIds msg ;;
    let msg := set_cn_ids (set_cn_contract msg (CanonicalContractAddress contractAddress)) tokenIds in
    RegisterNFT msg ;;;
    s <- gets c_erc ;;
    tp <- lift_sum (GetPairByClass s (cn_ClassId msg)) ;;
    convertCosmos2Evm tp msg receiver.

(** ** EVM to Cosmos *)

(** validateNoMappingConflict; [None] is success *)
Fixpoint validateNoMappingConflict (s : ErcStore) (contract classId : string)
  (ids : list (string * string)) : option error :=
  match ids with
  | [] => None
  | (tokenId, nftId) :: rest =>
      let bound := GetNFTPairByContractTokenID s contract tokenId in
      if bound =?s "" then validateNoMappingConflict s contract classId rest
      else
        let expectedNFTUID := CreateNFTUID classId nftId in
        if bound <>?s expectedNFTUID then Some (ErcErr ErrNFTMappingConflict)
        else
          let reverseBound := GetTokenUIDPairByNFTUID s expectedNFTUID in
          if (reverseBound <>?s "") && (fst (GetNFTFromUID reverseBound) <>?s tokenId)
          then Some (ErcErr ErrNFTMappingConflict)
          else validateNoMappingConflict s contract classId rest
  end.

(** One iteration of the loop of convertEvm2Cosmos: check the owner, take the
    ERC721 token, then mint the NFT or hand over the escrowed one. *)
Definition evm2cosmos_token (msg : MsgConvertERC721) (contract sender : address) (isVoucherPair : bool)
  (ids : string * string) : GoM unit :=
  let '(tokenId, nftId) := ids in
  bigTokenId <- parseERC721TokenID tokenId ;;
  reqInfo <- QueryNFTEnhance contract bigTokenId ;;
  owner <- QueryERC721TokenOwner contract bigTokenId ;;
  guard (bool_decide (owner = sender)) (SdkErr ErrUnauthorized) ;;;
  (if isVoucherPair
   then wrap_as (ErcErr ErrEVMCall) (CallEVM sender contract true "burn" [AUint bigTokenId])
   else wrap_as (ErcErr ErrEVMCall) (CallEVM sender contract true "safeTransferFrom"
          [AAddr sender; AAddr ModuleAddress; AUint bigTokenId])) ;;;
  bound <- erc_get (fun s => GetNFTPairByContractTokenID s (ce_EvmContractAddress msg) tokenId) ;;
  if bound =?s "" then
    MintNFT (MkMsgMintNFT nftId (ce_ClassId msg) (ne_Name reqInfo) (ne_Uri reqInfo) (ne_UriHash reqInfo)
      (ne_Data reqInfo) (acc_String AccModuleAddress) (ce_CosmosReceiver msg))
  else
    ownerAddr <- gets (fun c => keeper_GetOwner c (ce_ClassId msg) nftId) ;;
    guard (ownerAddr =?s AccModuleAddress) (SdkErr ErrUnauthorized) ;;;
    TransferNFT (MkMsgTransferNFT nftId (ce_ClassId msg) (ne_Name reqInfo) (ne_Uri reqInfo)
      (ne_UriHash reqInfo) (ne_Data reqInfo) (acc_String AccModuleAddress) (ce_CosmosReceiver msg)).

(** convertEvm2Cosmos; it returns its message *)
Definition convertEvm2Cosmos (tp : TokenPair) (msg : MsgConvertERC721) (sender : address)
  : GoM MsgConvertERC721 :=
  check_batch (ce_EvmTokenIds msg) (ce_CosmosTokenIds msg) ;;;
  let ids := combine (ce_EvmTokenIds msg) (ce_CosmosTokenIds msg) in
  s <- gets c_erc ;;
  run_check (validateNoMappingConflict s (ce_EvmContractAddress msg) (ce_ClassId msg) ids) ;;;
  let contract := GetERC721Contract tp in
  let isVoucherPair := IsIBCDenom (tp_ClassId tp) in
  for_each ids (evm2cosmos_token msg contract sender isVoucherPair) ;;;
  for_each ids (fun '(tokenId, nftId) =>
    if isVoucherPair
    then erc_set (fun s => deleteVoucherBindingKeys s (ce_EvmContractAddress msg) tokenId
                             (ce_ClassId msg) nftId)
    else erc_try (fun s => SetNFTPairs s (ce_EvmContractAddress msg) tokenId (ce_ClassId msg) nftId)) ;;;
  EmitEvents [NewEvent "convert_erc721"
    [("sender", ce_CosmosSender msg); ("receiver", ce_CosmosReceiver msg); ("nft_class", tp_ClassId tp);
     ("nft_ids", Join (ce_CosmosTokenIds msg) ","); ("erc721_token", Hex contract);
     ("erc721_token_ids", Join (ce_EvmTokenIds msg) ",")]] ;;;
  mret msg.

Definition set_ce (msg : MsgConvertERC721) (contract classId : string) (nftIds : list string)
  : MsgConvertERC721 :=
  MkMsgConvertERC721 contract (ce_EvmTokenIds msg) (ce_CosmosReceiver msg) (ce_CosmosSender msg)
    classId nftIds.

(** ConvertERC721 *)
Definition ConvertERC721 (msg : MsgConvertERC721) : GoM MsgConvertERC721Response :=
  enabled <- erc_get GetEnableErc721 ;;
  guard enabled (ErcErr ErrERC721Disabled) ;;;
  let contractAddress := CanonicalContractAddress (ce_EvmContractAddress msg) in
  let msg := set_ce msg contractAddress (ce_ClassId msg) (ce_CosmosTokenIds msg) in
  s <- gets c_erc ;;
  ' (classId, nftIds) <- lift_sum (GetClassIDAndNFTID s msg) ;;
  let msg := set_ce msg contractAddress classId nftIds in
  check_batch (ce_EvmTokenIds msg) (ce_CosmosTokenIds msg) ;;;
  bech32Address <- lift_opt (AccAddressFromBech32 (ce_CosmosSender msg)) AccAddressErr ;;
  let sender := BytesToAddress bech32Address in
  let id := GetERC721Map s (HexToAddress (ce_EvmContractAddress msg)) in
  classId <- (if id =?s "" then r <- RegisterERC721 msg ;; mret (snd r) else mret (ce_ClassId msg)) ;;
  s <- gets c_erc ;;
  tp <- lift_sum (GetPairByEVM s (ce_EvmContractAddress msg)) ;;
  ev <- gets c_evm ;;
  guard (has_code ev (HexToAddress (Erc721Address tp))) (ErcErr ErrInternalTokenPair) ;;;
  guard (negb ((classId <>?s "") && (classId <>?s tp_ClassId tp))) (ErcErr ErrClassIdNotCorrect) ;;;
  let msg := set_ce msg contractAddress (tp_ClassId tp) nftIds in
  msg <- convertEvm2Cosmos tp msg sender ;;
  convertAddress <- lift_opt (AccAddressFromBech32 (ce_CosmosSender msg)) AccAddressErr ;;
  mret (MkMsgConvertERC721Response (ce_EvmContractAddress msg) (ce_EvmTokenIds msg)
    (ce_CosmosReceiver msg) (Hex (BytesToAddress convertAddress)) (ce_ClassId msg) (ce_CosmosTokenIds msg)).

(** TransferERC721 *)
Definition TransferERC721 (msg : MsgTransferERC721) : GoM unit :=
  resMsg <- ConvertERC721 (MkMsgConvertERC721 (te_EvmContractAddress msg) (te_EvmTokenIds msg)
    (acc_String AccModuleAddress) (te_CosmosSender msg) (te_ClassId msg) (te_CosmosTokenIds msg)) ;;
  ibc_Transfer (MkIbcMsgTransfer (te_SourcePort msg) (te_SourceChannel msg) (cr_ClassId resMsg)
    (cr_CosmosTokenIds resMsg) (acc_String AccModuleAddress) (te_CosmosReceiver msg) (te_Timeout msg)
    (te_Memo msg +:+ TransferERC721Memo)) ;;;
  bech32Address <- lift_opt (AccAddressFromBech32 (te_CosmosSender msg)) AccAddressErr ;;
  let sender := BytesToAddress bech32Address in
  if HasPrefix (cr_ClassId resMsg) "ibc/" then mret tt
  else erc_set (fun s => SetEvmRefundReceiver s (cr_EvmContractAddress resMsg)
                           (cr_CosmosTokenIds resMsg) (cr_EvmTokenIds resMsg) (Hex sender)).

(** UpdateParams (msg_update_params.go) *)
Definition UpdateParams (msg : MsgUpdateParams) : GoM unit :=
  guard (up_Authority msg =?s acc_String (NewModuleAddress "gov")) (SdkErr ErrInvalidSigner) ;;;
  erc_try (fun s => SetParams s (up_Params msg)).

(** ** Refund of a packet *)

Record erc721RefundGroup := MkRefundGroup {
  rg_contract : string; rg_receiver : string; rg_tokenIds : list string; rg_nftIds : list string }.

(** appendERC721RefundGroup *)
Fixpoint appendERC721RefundGroup (groups : list erc721RefundGroup)
  (contract receiver tokenID nftID : string) : list erc721RefundGroup :=
  match groups with
  | [] => [MkRefundGroup contract receiver [tokenID] [nftID]]
  | g :: rest =>
      if (rg_contract g =?s contract) && (rg_receiver g =?s receiver)
      then MkRefundGroup (rg_contract g) (rg_receiver g) (rg_tokenIds g ++ [tokenID])
             (rg_nftIds g ++ [nftID]) :: rest
      else g :: appendERC721RefundGroup rest contract receiver tokenID nftID
  end.

(** erc721RefundEvents *)
Definition erc721RefundEvents (sender classID : string) (groups : list erc721RefundGroup) : list Event :=
  (fun g => NewEvent "refund_packet_token"
     [("sender", sender); ("receiver", rg_receiver g); ("nft_class", classID);
      ("nft_ids", Join (rg_nftIds g) ","); ("erc721_token", rg_contract g);
      ("erc721_token_ids", Join (rg_tokenIds g) ",")]) <$> groups.

(** The skip event; [extra] are the attributes between the ids and the reason. *)
Definition skip_event (classId tokenId : string) (extra : list (string * string)) (reason : string) : Event :=
  NewEvent "refund_packet_token_skip"
    ([("nft_class", classId); ("nft_ids", tokenId)] ++ extra ++ [("reason", reason)]).

(** The EVM half of one refund: [None] skips the token, [Some r] goes on; [r] is
    the receiver when the module held the ERC721 token. *)
Definition refund_release (classId tokenId evmContractAddress evmTokenId : string) (bigTokenId : Z)
  (shouldRefundERC721 : bool) : GoM (option address) :=
  let evm := [("erc721_token", evmContractAddress); ("erc721_token_ids", evmTokenId)] in
  if negb shouldRefundERC721 then
    EmitEvent (skip_event classId tokenId evm "owner_is_not_module_account") ;;;
    mret (Some zero_address)
  else
    evmReceiver <- erc_get (fun s => GetEvmRefundReceiver s evmContractAddress tokenId evmTokenId) ;;
    if evmReceiver =?s "" then
      EmitEvent (skip_event classId tokenId evm "erc721_refund_receiver_missing") ;;; mret None
    else
      let receiver := HexToAddress evmReceiver in
      r <- attempt (CallEVM ModuleAddress (HexToAddress evmContractAddress) true "safeTransferFrom"
             [AAddr ModuleAddress; AAddr receiver; AUint bigTokenId]) ;;
      match r with
      | inl _ => EmitEvent (skip_event classId tokenId evm "erc721_transfer_failed") ;;; mret None
      | inr _ => mret (Some receiver)
      end.

(** The deletion of the bindings and of the refund record *)
Definition refund_unbind (classId tokenId evmContractAddress evmTokenId : string) (s : ErcStore) : ErcStore :=
  let refundContract := ToLower evmContractAddress in
  let s := DeleteEvmAddressByContractTokenId s refundContract tokenId in
  let s := if evmTokenId <>?s tokenId
           then DeleteEvmAddressByContractTokenId s refundContract evmTokenId else s in
  let s := DeleteNFTPairByNFTID s classId tokenId in
  DeleteNFTPairByTokenID s evmContractAddress evmTokenId.

(** The native half of one refund: the burn of the escrowed NFT *)
Definition refund_native (classId tokenId evmContractAddress evmTokenId : string)
  (groups groups' : list erc721RefundGroup) : GoM (list erc721RefundGroup) :=
  let evm := [("erc721_token", evmContractAddress); ("erc721_token_ids", evmTokenId)] in
  ownerAddr <- gets (fun c => keeper_GetOwner c classId tokenId) ;;
  if negb (ownerAddr =?s AccModuleAddress) then
    EmitEvent (skip_event classId tokenId (evm ++ [("nft_owner", acc_String ownerAddr)])
                 "nft_owner_not_module") ;;;
    mret groups'
  else
  b <- attempt (BurnNFT (MkMsgBurnNFT tokenId classId (acc_String AccModuleAddress))) ;;
  match b with
  | inl err =>
      EmitEvent (NewEvent "refund_packet_token_skip"
        ([("nft_class", classId); ("nft_ids", tokenId)] ++ evm ++
         [("reason", "nft_burn_failed"); ("error", err_Error err)])) ;;;
      mret groups
  | inr _ => mret groups'
  end.

(** One iteration of the loop of RefundPacketToken. *)
Definition refund_token (classId : string) (groups : list erc721RefundGroup) (tokenId : string)
  : GoM (list erc721RefundGroup) :=
  pairUID <- erc_get (fun s => GetTokenUIDPairByNFTUID s (CreateNFTUID classId tokenId)) ;;
  if pairUID =?s "" then
    EmitEvent (skip_event classId tokenId [] "erc721_pair_not_found") ;;; mret groups
  else
  let '(evmTokenId, evmContractAddress) := GetNFTFromUID pairUID in
  if (evmTokenId =?s "") || (evmContractAddress =?s "") then
    EmitEvent (skip_event classId tokenId [] "erc721_pair_uid_invalid") ;;; mret groups
  else
  let evm := [("erc721_token", evmContractAddress); ("erc721_token_ids", evmTokenId)] in
  match ParseEVMTokenID evmTokenId with
  | None => EmitEvent (skip_event classId tokenId evm "erc721_token_id_invalid") ;;; mret groups
  | Some bigTokenId =>
  let contract := HexToAddress evmContractAddress in
  has <- gets (fun c => HasNFT c classId tokenId) ;;
  if negb has then
    EmitEvent (skip_event classId tokenId (evm ++ [("pairs_retained", "true")]) "nft_already_gone") ;;;
    mret groups
  else
  r <- attempt (QueryERC721TokenOwner contract bigTokenId) ;;
  match r with
  | inl _ => EmitEvent (skip_event classId tokenId evm "erc721_owner_query_failed") ;;; mret groups
  | inr owner =>
  let shouldRefundERC721 := bool_decide (owner = ModuleAddress) in
  released <- refund_release classId tokenId evmContractAddress evmTokenId bigTokenId shouldRefundERC721 ;;
  match released with
  | None => mret groups
  | Some receiver =>
  erc_set (refund_unbind classId tokenId evmContractAddress evmTokenId) ;;;
  refund_native classId tokenId evmContractAddress evmTokenId groups
    (if shouldRefundERC721
     then appendERC721RefundGroup groups (Hex contract) (Hex receiver) evmTokenId tokenId
     else groups)
  end end end.

(** RefundPacketToken *)
Definition RefundPacketToken (data : NonFungibleTokenPacketData) : GoM unit :=
  groups <- for_acc (pd_TokenIds data) [] (refund_token (pd_ClassId data)) ;;
  if nonempty groups then EmitEvents (erc721RefundEvents (pd_Sender data) (pd_ClassId data) groups)
  else mret tt.
End Convert.
End Erc721Convert.
Export Erc721Convert.
