(* ===== verification/Erc721Settle.v ===== *)
(** x/erc721/keeper/voucher_settlement.go: the v0.5.0 migration that settles the
    ibc/ voucher pairs, one binding at a time, each in a cache context. *)
From S2P Require Import Prelude GoStrings Sdk CollectionTypes CollectionKeeper Erc721Types.
From S2P Require Import Erc721Store Erc721Genesis Erc721Evm Erc721Msg Erc721Convert.
Open Scope go_scope.
Open Scope list_scope.

Module Erc721Settle.

Record voucherBinding := MkVoucherBinding {
  vb_classID : string; vb_nftID : string; vb_tokenID : string; vb_contract : string }.

Inductive settleOutcome := settledOutcome | staleClearedOutcome | keptOutcome.

#[global] Instance settleOutcome_dec : EqDecision settleOutcome.
Proof. solve_decision. Defined.

Section Settle.
Context `{EthLib} `{SdkLib} `{NftKeeper} `{!EvmKeeper} `{!WasmState} `{CollectionCodec} `{Erc721Codec}
        `{!ConvertedNFTChecker}.

(** deleteBinding *)
Definition deleteBinding (b : voucherBinding) : GoM unit :=
  erc_set (fun s => deleteVoucherBindingKeys s (vb_contract b) (vb_tokenID b) (vb_classID b) (vb_nftID b)).

Definition outcome_of (committed : bool) : settleOutcome :=
  if committed then settledOutcome else keptOutcome.

(** settleWrapped *)
Definition settleWrapped (b : voucherBinding) (contract : address) (bigTokenID : Z) (ercOwner : address)
  : GoM settleOutcome :=
  committed <- cached (
    r <- attempt (CallEVM ercOwner contract true "burn" [AUint bigTokenID]) ;;
    match r with
    | inl _ => mret false
    | inr _ =>
      n <- attempt (GetNFT (vb_classID b) (vb_nftID b)) ;;
      match n with
      | inl _ => mret false
      | inr nft =>
        let recipient := addr_bytes ercOwner in
        t <- attempt (TransferNFT (MkMsgTransferNFT (vb_nftID b) (vb_classID b) (BaseNFT_Name nft)
               (BaseNFT_URI nft) (BaseNFT_UriHash nft) (BaseNFT_Data nft)
               (acc_String AccModuleAddress) (acc_String recipient))) ;;
        match t with
        | inl _ => mret false
        | inr _ => deleteBinding b ;;; mret true
        end
      end
    end) ;;
  mret (outcome_of committed).

(** settleOrphan *)
Definition settleOrphan (b : voucherBinding) (contract : address) (bigTokenID : Z) : GoM settleOutcome :=
  committed <- cached (
    r <- attempt (CallEVM ModuleAddress contract true "burn" [AUint bigTokenID]) ;;
    match r with
    | inl _ => mret false
    | inr _ => deleteBinding b ;;; mret true
    end) ;;
  mret (outcome_of committed).

(** settleVoucherBinding *)
Definition settleVoucherBinding (b : voucherBinding) : GoM settleOutcome :=
  nativeOwner <- gets (fun c => keeper_GetOwner c (vb_classID b) (vb_nftID b)) ;;
  let nativeIsNone := nativeOwner =?s "" in
  let nativeIsModule := negb nativeIsNone && (nativeOwner =?s AccModuleAddress) in
  match ParseEVMTokenID (vb_tokenID b) with
  | None => mret keptOutcome
  | Some bigTokenID =>
    if negb (IsHexAddress (vb_contract b)) then mret keptOutcome
    else
    let contract := HexToAddress (vb_contract b) in
    r <- attempt (QueryERC721TokenOwner contract bigTokenID) ;;
    match r with
    | inl _ => mret keptOutcome
    | inr ercOwner =>
      let ercIsNone := bool_decide (ercOwner = zero_address) in
      let ercIsModule := negb ercIsNone && bool_decide (ercOwner = ModuleAddress) in
      ev <- gets c_evm ;;
      if negb ercIsNone && negb ercIsModule && has_code ev ercOwner then mret keptOutcome
      else
      let ercIsUser := negb ercIsNone && negb ercIsModule in
      if ercIsUser && nativeIsModule then settleWrapped b contract bigTokenID ercOwner
      else if ercIsModule && nativeIsNone then settleOrphan b contract bigTokenID
      else if nativeIsNone && (ercIsUser || ercIsNone) then deleteBinding b ;;; mret staleClearedOutcome
      else mret keptOutcome
    end
  end.

(** The grouping pass: the well-formed reverse entries of one class, in key order *)
Definition class_bindings (s : ErcStore) (classID : string) : list voucherBinding :=
  omap (fun '(nftUID, tokenUID) =>
    let '(nftID, cls) := GetNFTFromUID nftUID in
    let '(tokenID, contract) := GetNFTFromUID tokenUID in
    if (nftID =?s "") || (cls =?s "") || (tokenID =?s "") || (contract =?s "") then None
    else if cls =?s classID then Some (MkVoucherBinding cls nftID tokenID contract) else None)
    (kv_iter (reverse s)).

Record Counters := MkCounters { n_settled : nat; n_stale : nat; n_kept : nat; n_pairs : nat }.

Definition count (k : Counters) (o : settleOutcome) : Counters :=
  match o with
  | settledOutcome => MkCounters (S (n_settled k)) (n_stale k) (n_kept k) (n_pairs k)
  | staleClearedOutcome => MkCounters (n_settled k) (S (n_stale k)) (n_kept k) (n_pairs k)
  | keptOutcome => MkCounters (n_settled k) (n_stale k) (S (n_kept k)) (n_pairs k)
  end.

Definition purge_counted (tp : TokenPair) (k : Counters) : GoM Counters :=
  erc_set (fun s => PurgeTokenPair s tp) ;;;
  mret (MkCounters (n_settled k) (n_stale k) (n_kept k) (S (n_pairs k))).

(** The body of the loop over the bindings of one pair *)
Definition settle_step (kc : Counters * nat) (b : voucherBinding) : GoM (Counters * nat) :=
  let '(k, cleared) := kc in
  o <- settleVoucherBinding b ;;
  mret (count k o, match o with keptOutcome => cleared | _ => S cleared end).

(** The body of the loop over the pairs; [s0] is the store of the grouping pass *)
Definition settle_pair (s0 : ErcStore) (k : Counters) (tp : TokenPair) : GoM Counters :=
  if negb (IsIBCDenom (tp_ClassId tp)) then mret k
  else
  let bindings := class_bindings s0 (tp_ClassId tp) in
  match bindings with
  | [] => purge_counted tp k
  | _ =>
    ' (k', cleared) <- for_acc bindings (k, 0) settle_step ;;
    if cleared =? List.length bindings then purge_counted tp k' else mret k'
  end.

(** SettleIBCVoucherPairs *)
Definition SettleIBCVoucherPairs : GoM Counters :=
  s0 <- gets c_erc ;;
  for_acc (GetTokenPairs s0) (MkCounters 0 0 0 0) (settle_pair s0).
End Settle.
End Erc721Settle.
Export Erc721Settle.
