(* ===== verification/Erc721ConvertFacts.v ===== *)
(** What the conversions of x/erc721 guarantee: who owned what, who owns it
    afterwards, and that the index and the registry stay consistent. *)
From S2P Require Import Prelude GoStrings Utf8 Sdk CollectionTypes CollectionKeeper Erc721Types.
From S2P Require Import Erc721Store Erc721Index Erc721Genesis Erc721Registry Erc721Purge.
From S2P Require Import Erc721Evm Erc721Msg Erc721Register Erc721Convert.
Open Scope go_scope.
Open Scope list_scope.

Section ErcFrames.
Context `{EthLib} `{SdkLib} `{NftKeeper} `{!EvmKeeper} `{!WasmState} `{CollectionCodec} `{!ConvertedNFTChecker}.
Implicit Types c : Ctx.

(** The erc721 store is the same. *)
Definition erc_same c c' : Prop := c_erc c' = c_erc c.
(** The x/nft store is the same. *)
Definition nft_same c c' : Prop := c_nft c' = c_nft c.

(** The cw721 store is the same. *)
Definition cw_same c c' : Prop := c_cw c' = c_cw c.

#[global] Instance cw_same_preorder : PreOrder cw_same.
Proof. split; [done|]. intros ? ? ? E1 E2. unfold cw_same in *. congruence. Qed.
#[global] Instance erc_same_preorder : PreOrder erc_same.
Proof. split; [done|]. intros ? ? ? E1 E2. unfold erc_same in *. congruence. Qed.
#[global] Instance nft_same_preorder : PreOrder nft_same.
Proof. split; [done|]. intros ? ? ? E1 E2. unfold nft_same in *. congruence. Qed.

Lemma nft_write_erc f : frame erc_same (nft_write f).
Proof. intros c. unfold nft_write. by destruct (f (c_nft c)). Qed.

Lemma EmitEvents_erc l : frame erc_same (EmitEvents l).
Proof. by intros c. Qed.

Lemma run_check_erc r : frame erc_same (run_check r).
Proof. by intros c; destruct r. Qed.

Hint Resolve nft_write_erc EmitEvents_erc run_check_erc : go.

Lemma GetDenomInfo_erc d : frame erc_same (GetDenomInfo d).
Proof. unfold GetDenomInfo. go_frame. Qed.
Hint Resolve GetDenomInfo_erc : go.

Lemma SaveDenom_erc a b sc d e f g h i j k : frame erc_same (SaveDenom a b sc d e f g h i j k).
Proof. unfold SaveDenom. go_frame. Qed.

Lemma Authorize_erc d i o : frame erc_same (Authorize d i o).
Proof. unfold Authorize. go_frame. Qed.
Hint Resolve Authorize_erc : go.

Lemma merge_metadata_erc t n d : frame erc_same (merge_metadata t n d).
Proof. unfold merge_metadata. go_frame. Qed.
Hint Resolve merge_metadata_erc : go.

Lemma TransferNFT_erc m : frame erc_same (TransferNFT m).
Proof. unfold TransferNFT, TransferOwnership, bech32, token_metadata_changed. go_frame. Qed.

Lemma MintNFT_erc m : frame erc_same (MintNFT m).
Proof. unfold MintNFT, SaveNFT, bech32. go_frame. Qed.

Lemma BurnNFT_erc m : frame erc_same (BurnNFT m).
Proof. unfold BurnNFT, RemoveNFT, bech32. go_frame. Qed.

Lemma evm_only_erc c c' : evm_only c c' -> erc_same c c'.
Proof. by intros (? & _). Qed.
Lemma evm_only_nft c c' : evm_only c c' -> nft_same c c'.
Proof. by intros (_ & ? & _). Qed.
Lemma evm_only_cw c c' : evm_only c c' -> cw_same c c'.
Proof. by intros (_ & _ & _ & ? & _). Qed.
Lemma gas_only_cw c c' : gas_only c c' -> cw_same c c'.
Proof. by intros [(_ & _ & _ & ? & _) _]. Qed.
Lemma gas_only_erc c c' : gas_only c c' -> erc_same c c'.
Proof. by intros [(? & _) _]. Qed.
Lemma gas_only_nft c c' : gas_only c c' -> nft_same c c'.
Proof. by intros [(_ & ? & _) _]. Qed.

Context `{!SdkLaws} `{!EvmLaws}.

Lemma CallEVM_erc f t b m l : frame erc_same (CallEVM f t b m l).
Proof. eapply frame_sub; [apply evm_only_erc|apply CallEVM_frame]. Qed.
Lemma CallEVM_nft f t b m l : frame nft_same (CallEVM f t b m l).
Proof. eapply frame_sub; [apply evm_only_nft|apply CallEVM_frame]. Qed.
Lemma CallEVM_cw f t b m l : frame cw_same (CallEVM f t b m l).
Proof. eapply frame_sub; [apply evm_only_cw|apply CallEVM_frame]. Qed.
Lemma CallEVMWithData_erc f t d b : frame erc_same (CallEVMWithData f t d b).
Proof. eapply frame_sub; [apply evm_only_erc|apply CallEVMWithData_frame]. Qed.
Hint Resolve CallEVM_erc CallEVMWithData_erc : go.

Lemma DeployERC721Contract_erc cl : frame erc_same (DeployERC721Contract cl).
Proof.
  unfold DeployERC721Contract. go_frame. apply wrap_as_frame; [apply _|auto with go].
Qed.

Lemma gas_query_erc {A} (m : GoM A) : frame gas_only m -> frame erc_same m.
Proof. apply frame_sub, gas_only_erc. Qed.
Lemma gas_query_nft {A} (m : GoM A) : frame gas_only m -> frame nft_same m.
Proof. apply frame_sub, gas_only_nft. Qed.
End ErcFrames.
#[export] Hint Resolve nft_write_erc EmitEvents_erc run_check_erc GetDenomInfo_erc SaveDenom_erc
  TransferNFT_erc MintNFT_erc BurnNFT_erc CallEVM_erc CallEVM_nft CallEVM_cw CallEVMWithData_erc
  DeployERC721Contract_erc gas_query_erc gas_query_nft : go.

Section ConvertFacts.
Context `{EthLaws} `{!SdkLib} `{!SdkLaws} `{!NftKeeper} `{!NftLaws} `{!EvmKeeper} `{!WasmState} `{!EvmLaws}
        `{!CollectionCodec} `{!Erc721Codec} `{!Erc721CodecLaws} `{!ConvertedNFTChecker} `{!FmtLib}.
Implicit Types (c : Ctx) (s : ErcStore).

Lemma AccModule_bech32 : AccAddressFromBech32 (acc_String AccModuleAddress) = Some AccModuleAddress.
Proof.
  unfold AccModuleAddress. pose proof (module_address_len erc721_ModuleName) as Hl.
  apply bech32_roundtrip; [|lia]. intros E. by rewrite E in Hl.
Qed.

(** ** The batch checks *)

Lemma check_batch_ok a b c u c' :
  check_batch a b c = Ok u c' ->
  c' = c /\ a <> [] /\ List.length a = List.length b /\ List.length a <= 100.
Proof.
  unfold check_batch. intros Hr. go_simp.
  match goal with H : nonempty a && _ = true |- _ =>
    apply andb_true_iff in H as [Hn He%Nat.eqb_eq] end.
  match goal with H : (_ <=? _) = true |- _ => apply Nat.leb_le in H end.
  unfold maxERC721BatchSize in *. split_and!; try done. by intros ->.
Qed.

(** ** Cosmos to EVM, one token *)

Lemma cosmos2evm_token_ok msg contract receiver t nft c u c' :
  cosmos2evm_token msg contract receiver (t, nft) c = Ok u c' ->
  erc_same c c' /\
  exists n sender, ParseEVMTokenID t = Some n /\
    AccAddressFromBech32 (cn_CosmosSender msg) = Some sender /\
    nk_GetOwner (c_nft c) (cn_ClassId msg) nft = sender /\
    nk_GetOwner (c_nft c') (cn_ClassId msg) nft = AccModuleAddress /\
    others_kept (cn_ClassId msg) nft (c_nft c) (c_nft c') /\
    (let bound := GetNFTPairByContractTokenID (c_erc c) (cn_EvmContractAddress msg) t in
     bound = "" \/ bound = CreateNFTUID (cn_ClassId msg) nft /\
       exists c1 c2, c_evm c1 = c_evm c /\
         QueryERC721TokenOwner (HexToAddress (cn_EvmContractAddress msg)) n c1 = Ok ModuleAddress c2).
Proof.
  unfold cosmos2evm_token, parseERC721TokenID. intros Hr.
  apply mbind_ok in Hr as (n & c0 & Hp & Hr). apply lift_opt_ok in Hp as [Hp ->].
  apply mbind_ok in Hr as (info & c0 & Hg & Hr).
  assert (c0 = c) as -> by (unfold GetNFT in Hg; by go_simp).
  apply mbind_ok in Hr as (u1 & c1 & Ht & Hr).
  pose proof (frame_ok _ _ _ _ _ (TransferNFT_erc _) Ht) as E1.
  apply TransferNFT_ok in Ht as (src & dst & Hs & Hd & Ho & Ho' & _ & Hk & Hn & _).
  cbn in Hs, Hd, Ho, Ho', Hk.
  rewrite AccModule_bech32 in Hd. injection Hd as <-.
  apply mbind_ok in Hr as (bound & c2 & Hb & Hr). apply gets_ok in Hb as [-> ->].
  destruct Hn as (En1 & En2 & En3). rewrite En1 in Hr.
  assert (erc_same c1 c' /\ nft_same c1 c' /\
    (GetNFTPairByContractTokenID (c_erc c) (cn_EvmContractAddress msg) t = "" \/
     GetNFTPairByContractTokenID (c_erc c) (cn_EvmContractAddress msg) t = CreateNFTUID (cn_ClassId msg) nft /\
     exists c3 c4, c_evm c3 = c_evm c /\
       QueryERC721TokenOwner (HexToAddress (cn_EvmContractAddress msg)) n c3 = Ok ModuleAddress c4))
    as (F1 & F2 & F3).
  { destruct (_ =?s "") eqn:Eb in Hr.
    - apply str_eqb_true in Eb. rewrite Eb. assert (erc_same c1 c' /\ nft_same c1 c') as []; [|auto].
      split; (eapply frame_ok; [|exact Hr]); go_frame.
    - apply mbind_ok in Hr as (u2 & c2 & Hg2 & Hr). apply guard_ok in Hg2 as [Hg2%str_eqb_true ->].
      apply mbind_ok in Hr as (owner & c3 & Hq & Hr).
      apply mbind_ok in Hr as (u3 & c4 & Hg3 & Hr). apply guard_ok in Hg3 as [->%bool_decide_eq_true ->].
      pose proof (frame_ok _ _ _ _ _ (TokenOwner_frame _ _) Hq) as Hfr.
      apply gas_only_erc in Hfr as Hfr1. apply gas_only_nft in Hfr as Hfr2.
      assert (erc_same c3 c' /\ nft_same c3 c') as [G1 G2]
        by (split; (eapply frame_ok; [|exact Hr]); go_frame).
      split; [by etransitivity|]. split; [by etransitivity|]. right. split; [done|].
      exists c1, c3. split; [|done]. done. }
  unfold nft_same in F2. rewrite F2. split; [by etransitivity|]. exists n, src. split_and!; done.
Qed.

(** The whole loop: every NFT of the batch was the sender's and is escrowed. *)
Lemma cosmos2evm_loop msg contract receiver ids c u c' :
  for_each ids (cosmos2evm_token msg contract receiver) c = Ok u c' ->
  erc_same c c' /\
  (forall t nft, (t, nft) ∈ ids ->
     AccAddressFromBech32 (cn_CosmosSender msg) = Some (nk_GetOwner (c_nft c) (cn_ClassId msg) nft) /\
     nk_GetOwner (c_nft c') (cn_ClassId msg) nft = AccModuleAddress) /\
  (forall cl nft, (cl <> cn_ClassId msg \/ nft ∉ ids.*2) ->
     nk_GetNFT (c_nft c') cl nft = nk_GetNFT (c_nft c) cl nft /\
     nk_GetOwner (c_nft c') cl nft = nk_GetOwner (c_nft c) cl nft).
Proof.
  revert c. induction ids as [|[t0 nft0] ids IH]; intros c Hr.
  { apply ok_inj in Hr as [_ ->]. split; [done|]. split; [|done]. intros t nft Hin. by apply elem_of_nil in Hin. }
  apply mbind_ok in Hr as (u1 & c1 & Ht & Hr).
  apply cosmos2evm_token_ok in Ht as (E1 & n & sender & Hp & Hs & Ho & Ho' & [_ Hk] & _).
  apply IH in Hr as (E2 & Hall & Hother). split; [by etransitivity|].
  assert (forall nft, nk_GetOwner (c_nft c1) (cn_ClassId msg) nft =
            if decide (nft = nft0) then AccModuleAddress else nk_GetOwner (c_nft c) (cn_ClassId msg) nft) as Hown.
  { intros nft. case_decide as E; [by subst|]. apply Hk. congruence. }
  split.
  - intros t nft Hin. split.
    + apply elem_of_cons in Hin as [[= -> ->]|Hin]; [congruence|].
      destruct (Hall t nft Hin) as [Ha _]. rewrite Hown in Ha. case_decide as E; [|done]. subst. congruence.
    + destruct (decide (nft ∈ ids.*2)) as [Hi|Hi].
      * apply list_elem_of_fmap in Hi as ([t' n'] & -> & Hi). by apply (Hall t').
      * destruct (Hother (cn_ClassId msg) nft (or_intror Hi)) as [_ ->]. rewrite Hown.
        apply elem_of_cons in Hin as [[= -> ->]|Hin]; [by rewrite decide_True|].
        exfalso. apply Hi, list_elem_of_fmap. by exists (t, nft).
  - intros cl nft Hc. rewrite fmap_cons, not_elem_of_cons in Hc. cbn in Hc.
    destruct (Hother cl nft) as [-> ->]; [tauto|]. apply Hk. intros [= -> ->]. tauto.
Qed.

(** ** Recording the bindings *)

(** Token [t] of [contract] is bound to the NFT [nu], both ways, under the
    canonical key. *)
Definition bound_to s (contract t nu : string) : Prop :=
  exists n, ParseEVMTokenID t = Some n /\
    forward s !! CreateTokenUID (CanonicalContractAddress contract) (BigString n) = Some nu /\
    reverse s !! nu = Some (CreateTokenUID (CanonicalContractAddress contract) (BigString n)).

Lemma ParseEVMTokenID_spec t n : ParseEVMTokenID t = Some n <-> exists l, parseEVMTokenIDValue t true = Some (n, l).
Proof.
  unfold ParseEVMTokenID. destruct (parseEVMTokenIDValue t true) as [[m l]|]; cbn.
  - split; [intros [= ->]; eauto|]. by intros [l' [= -> ->]].
  - split; [done|]. by intros [].
Qed.

Lemma SetNFTPairs_binds s contract t cls nft s' :
  store_ok s -> good_address contract -> SetNFTPairs s contract t cls nft = inr s' ->
  store_ok s' /\ bound_to s' contract t (CreateNFTUID cls nft) /\ index_only s s'.
Proof.
  intros Hs Hg Hset. pose proof (SetNFTPairs_ok _ _ _ _ _ _ Hs Hg Hset) as (n & l & Hp & Hb & Hst).
  assert (store_ok s') as Hs'.
  { eapply bound_store_ok; [exact Hs|exact Hg|exact Hp|apply uid_nonempty|exact Hb|exact Hst]. }
  destruct Hst as (Hf & Hr & Hrest). split; [done|]. split; [|done].
  exists n. split; [apply ParseEVMTokenID_spec; eauto|].
  rewrite Hf, Hr, !decide_True by done. done.
Qed.

Lemma SetNFTPairs_keeps s contract t cls nft s' t1 nu1 :
  store_ok s -> good_address contract -> SetNFTPairs s contract t cls nft = inr s' ->
  bound_to s contract t1 nu1 -> bound_to s' contract t1 nu1.
Proof.
  intros Hs Hg Hset (n1 & Hp1 & Hf1 & Hr1).
  pose proof (SetNFTPairs_ok _ _ _ _ _ _ Hs Hg Hset) as (n & l & Hp & [Hb _] & Hst).
  pose proof (SetNFTPairs_binds _ _ _ _ _ _ Hs Hg Hset) as (Hs' & _ & _).
  destruct Hst as (Hf & _).
  assert (forward s' !! CreateTokenUID (CanonicalContractAddress contract) (BigString n1) = Some nu1) as Hf1'.
  { rewrite Hf. case_decide as Hk.
    - rewrite Hk in Hf1. f_equal. symmetry. eapply Hb; [|exact Hf1]. by eapply canonical_spelling.
    - case_decide as Hv; [|done]. exfalso. apply Hk.
      apply elem_of_spellings in Hv as (a & v & Eu & Hv & Ha).
      pose proof (good_canonical _ Hg) as (_ & Cc & _).
      pose proof (good_variant _ _ Hg Ha) as (_ & Ca & _).
      apply uid_inj in Eu as [<- <-]; [|done..].
      rewrite (variants_of_value _ _ _ Hp) in Hv.
      apply value_variants_parse in Hv as [l' Hv]; [|by eapply parse_range].
      apply ParseEVMTokenID_spec in Hp1 as [l1 Hp1]. apply parse_range in Hp1 as Hr1'.
      rewrite parse_BigString in Hv by done. injection Hv as -> _. done. }
  exists n1. split; [done|]. split; [done|]. by apply (ix_bij _ _ Hs').
Qed.

(** The loop that records the bindings of a batch. *)
Lemma set_pairs_loop contract cls ids c u c' :
  store_ok (c_erc c) -> good_address contract ->
  for_each ids (fun '(t, nft) => erc_try (fun s => SetNFTPairs s contract t cls nft)) c = Ok u c' ->
  store_ok (c_erc c') /\
  (forall t nft, (t, nft) ∈ ids -> bound_to (c_erc c') contract t (CreateNFTUID cls nft)) /\
  (forall t nu, bound_to (c_erc c) contract t nu -> bound_to (c_erc c') contract t nu) /\
  index_only (c_erc c) (c_erc c') /\ c_nft c' = c_nft c /\ c_evm c' = c_evm c /\
  (forall nu, nu ∉ CreateNFTUID cls <$> ids.*2 -> reverse (c_erc c') !! nu = reverse (c_erc c) !! nu).
Proof.
  intros Hs Hg. revert c Hs. induction ids as [|[t0 nft0] ids IH]; intros c Hs Hr.
  { apply ok_inj in Hr as [_ ->]. split_and!; try done. intros t nft Hin. by apply elem_of_nil in Hin. }
  apply mbind_ok in Hr as (u1 & c1 & Ht & Hr). apply erc_try_ok in Ht as (s1 & Ht & ->).
  destruct (SetNFTPairs_binds _ _ _ _ _ _ Hs Hg Ht) as (Hs1 & Hb1 & Hi1).
  destruct (IH (set_erc c s1) Hs1 Hr) as (A & B & C & D & E & F & G). split_and!; try done.
  - intros t nft [[= -> ->]|Hin]%elem_of_cons; auto.
  - intros t nu Hb. apply C. exact (SetNFTPairs_keeps _ _ _ _ _ _ _ _ Hs Hg Ht Hb).
  - etransitivity; [exact Hi1|exact D].
  - intros nu [Hn1 Hn2]%not_elem_of_cons. rewrite G by done. cbn.
    pose proof (SetNFTPairs_ok _ _ _ _ _ _ Hs Hg Ht) as (n & l & _ & _ & _ & Hrv & _).
    rewrite Hrv. by rewrite decide_False.
Qed.

(** ** convertCosmos2Evm *)

Lemma good_contract a : good_address (CanonicalContractAddress (Hex a)).
Proof. apply good_canonical, good_Hex. Qed.

Lemma convertCosmos2Evm_ok tp msg receiver c u c' :
  store_ok (c_erc c) -> convertCosmos2Evm tp msg receiver c = Ok u c' ->
  let contract := CanonicalContractAddress (Hex (GetERC721Contract tp)) in
  let ids := combine (cn_EvmTokenIds msg) (cn_CosmosTokenIds msg) in
  List.length (cn_EvmTokenIds msg) = List.length (cn_CosmosTokenIds msg) /\
  List.length (cn_EvmTokenIds msg) <= 100 /\
  store_ok (c_erc c') /\ index_only (c_erc c) (c_erc c') /\
  (forall t nft, (t, nft) ∈ ids ->
     AccAddressFromBech32 (cn_CosmosSender msg) = Some (nk_GetOwner (c_nft c) (cn_ClassId msg) nft) /\
     nk_GetOwner (c_nft c') (cn_ClassId msg) nft = AccModuleAddress /\
     bound_to (c_erc c') contract t (CreateNFTUID (cn_ClassId msg) nft)) /\
  (forall cl nft, (cl <> cn_ClassId msg \/ nft ∉ cn_CosmosTokenIds msg) ->
     nk_GetOwner (c_nft c') cl nft = nk_GetOwner (c_nft c) cl nft) /\
  (forall nu, nu ∉ CreateNFTUID (cn_ClassId msg) <$> cn_CosmosTokenIds msg ->
     reverse (c_erc c') !! nu = reverse (c_erc c) !! nu).
Proof.
  intros Hs Hr contract ids. unfold convertCosmos2Evm in Hr.
  apply mbind_ok in Hr as (u0 & c0 & Hcb & Hr).
  apply check_batch_ok in Hcb as (-> & Hne & Hlen & Hmax).
  apply mbind_ok in Hr as (u1 & c1 & Hl & Hr). apply cosmos2evm_loop in Hl as (E1 & Hown & Hother).
  apply mbind_ok in Hr as (u2 & c2 & Hl2 & Hr).
  unfold erc_same in E1. cbn in Hl2.
  apply set_pairs_loop in Hl2 as (Hs2 & Hb & _ & Hi & En & _ & Hrv);
    [|by rewrite E1|apply good_contract].
  apply EmitEvents_ok in Hr as ->. cbn. rewrite En. rewrite E1 in Hi, Hrv.
  split; [done|]. split; [done|]. split; [done|]. split; [done|]. split; [|split].
  - intros t nft Hin. destruct (Hown t nft Hin) as [A B]. split; [done|]. split; [done|]. by apply Hb.
  - intros cl nft Hc. apply Hother. destruct Hc as [Hc|Hc]; [by left|]. right. intros Hin. apply Hc.
    by eapply combine_snd.
  - intros nu Hn. apply Hrv. intros (x & -> & Hx)%list_elem_of_fmap. apply Hn, list_elem_of_fmap_2.
    by eapply combine_snd.
Qed.

(** ** EVM to Cosmos, one token *)

(** In the EVM state of [c], the contract reports [owner] as the owner of [n]. *)
Definition reports_owner c (contract : address) (n : Z) (owner : address) : Prop :=
  exists c1 c2, c_evm c1 = c_evm c /\ QueryERC721TokenOwner contract n c1 = Ok owner c2.

(** From [c] on: the details of token [n] are read, the contract reports [sender] as its
    owner, and the token is taken from him right then, burned when it is a voucher and
    else transferred to the module. *)
Definition taken_from_owner c (contract sender : address) (voucher : bool) (n : Z) : Prop :=
  exists info c1 c2 resp c3, QueryNFTEnhance contract n c = Ok info c1 /\
    QueryERC721TokenOwner contract n c1 = Ok sender c2 /\
    (if voucher then CallEVM sender contract true "burn" [AUint n]
     else CallEVM sender contract true "safeTransferFrom" [AAddr sender; AAddr ModuleAddress; AUint n]) c2
    = Ok resp c3.

Lemma evm2cosmos_token_ok msg contract sender vp t nft c u c' :
  evm2cosmos_token msg contract sender vp (t, nft) c = Ok u c' ->
  erc_same c c' /\
  exists n r, ParseEVMTokenID t = Some n /\ taken_from_owner c contract sender vp n /\
    AccAddressFromBech32 (ce_CosmosReceiver msg) = Some r /\
    nk_GetOwner (c_nft c') (ce_ClassId msg) nft = r /\
    others_kept (ce_ClassId msg) nft (c_nft c) (c_nft c') /\
    (let bound := GetNFTPairByContractTokenID (c_erc c) (ce_EvmContractAddress msg) t in
     (bound = "" /\ nk_GetNFT (c_nft c) (ce_ClassId msg) nft = None) \/
     (bound <> "" /\ nk_GetOwner (c_nft c) (ce_ClassId msg) nft = AccModuleAddress)).
Proof.
  unfold evm2cosmos_token, parseERC721TokenID. intros Hr.
  apply mbind_ok in Hr as (n & c0 & Hp & Hr). apply lift_opt_ok in Hp as [Hp ->].
  apply mbind_ok in Hr as (info & c1 & Hq1 & Hr).
  apply mbind_ok in Hr as (owner & c2 & Hq2 & Hr).
  apply mbind_ok in Hr as (u0 & c3 & Hg & Hr). apply guard_ok in Hg as [->%bool_decide_eq_true ->].
  apply mbind_ok in Hr as (resp & c4 & Hcall & Hr).
  apply mbind_ok in Hr as (bound & c5 & Hb & Hr). apply gets_ok in Hb as [-> ->].
  pose proof (frame_ok _ _ _ _ _ (NFTEnhance_frame _ _) Hq1) as F1.
  pose proof (frame_ok _ _ _ _ _ (TokenOwner_frame _ _) Hq2) as F2.
  assert (evm_only c2 c4) as F3.
  { eapply frame_ok; [|exact Hcall]. destruct vp; apply wrap_as_frame; auto with go; apply _. }
  assert (evm_only c c4) as (Ee & En & _).
  { etransitivity; [apply gas_only_evm, F1|]. etransitivity; [apply gas_only_evm, F2|exact F3]. }
  assert (taken_from_owner c contract sender vp n) as Hown.
  { exists info, c1, c2, resp, c4. do 2 (split; [done|]). destruct vp; by apply wrap_as_ok in Hcall. }
  rewrite Ee in Hr. cbv zeta. set (bound := GetNFTPairByContractTokenID (c_erc c) _ t) in *.
  destruct (bound =?s "") eqn:Eb.
  - apply str_eqb_true in Eb. pose proof (frame_ok _ _ _ _ _ (MintNFT_erc _) Hr) as E1.
    apply MintNFT_ok in Hr as (r & tok & Hrec & _ & _ & _ & Hnone & _ & Ho & Hk & _).
    cbn in Hrec, Hnone, Ho, Hk. rewrite En in Hnone, Hk. unfold erc_same in *.
    split; [congruence|]. exists n, r. split_and!; auto.
  - apply str_eqb_false in Eb. apply mbind_ok in Hr as (o & c5 & Ho & Hr). apply gets_ok in Ho as [-> ->].
    apply mbind_ok in Hr as (u1 & c5 & Hg & Hr). apply guard_ok in Hg as [Hg%str_eqb_true ->].
    pose proof (frame_ok _ _ _ _ _ (TransferNFT_erc _) Hr) as E1.
    apply TransferNFT_ok in Hr as (src & dst & _ & Hd & _ & Ho & _ & Hk & _).
    cbn in Hd, Ho, Hk. rewrite En in Hk. unfold keeper_GetOwner in Hg. rewrite En in Hg.
    unfold erc_same in *. split; [congruence|]. exists n, dst. split_and!; auto.
Qed.

Lemma evm2cosmos_loop msg contract sender vp ids c u c' :
  for_each ids (evm2cosmos_token msg contract sender vp) c = Ok u c' ->
  erc_same c c' /\
  (forall t nft, (t, nft) ∈ ids ->
     AccAddressFromBech32 (ce_CosmosReceiver msg) = Some (nk_GetOwner (c_nft c') (ce_ClassId msg) nft)) /\
  (forall cl nft, (cl <> ce_ClassId msg \/ nft ∉ ids.*2) ->
     nk_GetNFT (c_nft c') cl nft = nk_GetNFT (c_nft c) cl nft /\
     nk_GetOwner (c_nft c') cl nft = nk_GetOwner (c_nft c) cl nft).
Proof.
  revert c. induction ids as [|[t0 nft0] ids IH]; intros c Hr.
  { apply ok_inj in Hr as [_ ->]. split; [done|]. split; [|done]. intros t nft Hin. by apply elem_of_nil in Hin. }
  apply mbind_ok in Hr as (u1 & c1 & Ht & Hr).
  apply evm2cosmos_token_ok in Ht as (E1 & n & r & _ & _ & Hrec & Ho & [_ Hk] & _).
  apply IH in Hr as (E2 & Hall & Hother). split; [by etransitivity|]. split.
  - intros t nft Hin. destruct (decide (nft ∈ ids.*2)) as [Hi|Hi].
    + apply list_elem_of_fmap in Hi as ([t' n'] & -> & Hi). by apply (Hall t').
    + destruct (Hother (ce_ClassId msg) nft (or_intror Hi)) as [_ ->].
      apply elem_of_cons in Hin as [[= -> ->]|Hin]; [congruence|].
      exfalso. apply Hi, list_elem_of_fmap. by exists (t, nft).
  - intros cl nft Hc. rewrite fmap_cons, not_elem_of_cons in Hc. cbn in Hc.
    destruct (Hother cl nft) as [-> ->]; [tauto|]. apply Hk. intros [= -> ->]. tauto.
Qed.

(** Each token was the sender's when its turn came. *)
Lemma evm2cosmos_turns msg contract sender vp ids c u c' :
  for_each ids (evm2cosmos_token msg contract sender vp) c = Ok u c' ->
  forall pre t nft post, ids = pre ++ (t, nft) :: post ->
  exists c1 c2 n, turn (evm2cosmos_token msg contract sender vp) pre (t, nft) post c c' c1 c2 /\
    ParseEVMTokenID t = Some n /\ taken_from_owner c1 contract sender vp n.
Proof.
  intros Hr pre t nft post ->. apply for_each_turn in Hr as (c1 & c2 & Ht). pose proof Ht as (_ & Hx & _).
  apply evm2cosmos_token_ok in Hx as (_ & n & r & Hp & Ho & _). by exists c1, c2, n.
Qed.

Lemma validateNoMappingConflict_None s contract cls ids :
  validateNoMappingConflict s contract cls ids = None ->
  forall t nft, (t, nft) ∈ ids ->
    let bound := GetNFTPairByContractTokenID s contract t in
    bound = "" \/ bound = CreateNFTUID cls nft.
Proof.
  induction ids as [|[t0 nft0] ids IH]; intros Hv t nft Hin; [by apply elem_of_nil in Hin|].
  cbn [validateNoMappingConflict] in Hv. destruct (_ =?s "") eqn:Eb.
  - apply str_eqb_true in Eb. apply elem_of_cons in Hin as [[= -> ->]|Hin]; [by left|by apply IH].
  - destruct (_ <>?s _) eqn:En in Hv; [done|]. apply str_neqb_false in En.
    destruct (_ && _) in Hv; [done|].
    apply elem_of_cons in Hin as [[= -> ->]|Hin]; [by right|by apply IH].
Qed.

(** convertEvm2Cosmos, both branches. *)
Lemma convertEvm2Cosmos_ok tp msg sender c m c' :
  convertEvm2Cosmos tp msg sender c = Ok m c' ->
  let ids := combine (ce_EvmTokenIds msg) (ce_CosmosTokenIds msg) in
  m = msg /\
  List.length (ce_EvmTokenIds msg) = List.length (ce_CosmosTokenIds msg) /\
  List.length (ce_EvmTokenIds msg) <= 100 /\
  validateNoMappingConflict (c_erc c) (ce_EvmContractAddress msg) (ce_ClassId msg) ids = None /\
  (forall t nft, (t, nft) ∈ ids ->
     AccAddressFromBech32 (ce_CosmosReceiver msg) = Some (nk_GetOwner (c_nft c') (ce_ClassId msg) nft)) /\
  (forall cl nft, (cl <> ce_ClassId msg \/ nft ∉ ids.*2) ->
     nk_GetOwner (c_nft c') cl nft = nk_GetOwner (c_nft c) cl nft) /\
  (let take := evm2cosmos_token msg (GetERC721Contract tp) sender (IsIBCDenom (tp_ClassId tp)) in
   exists e, for_each ids take c = Ok tt e /\
     forall pre t nft post, ids = pre ++ (t, nft) :: post ->
       exists d1 d2 n, turn take pre (t, nft) post c e d1 d2 /\ ParseEVMTokenID t = Some n /\
         taken_from_owner d1 (GetERC721Contract tp) sender (IsIBCDenom (tp_ClassId tp)) n) /\
  exists c1 c2, c_erc c1 = c_erc c /\ c_nft c2 = c_nft c' /\ c_erc c2 = c_erc c' /\ c_nft c1 = c_nft c' /\
    for_each ids (fun '(tokenId, nftId) =>
      if IsIBCDenom (tp_ClassId tp)
      then erc_set (fun s => deleteVoucherBindingKeys s (ce_EvmContractAddress msg) tokenId
                               (ce_ClassId msg) nftId)
      else erc_try (fun s => SetNFTPairs s (ce_EvmContractAddress msg) tokenId (ce_ClassId msg) nftId)) c1
    = Ok tt c2.
Proof.
  intros Hr ids. unfold convertEvm2Cosmos in Hr. fold ids in Hr.
  apply mbind_ok in Hr as (u0 & c0 & Hcb & Hr).
  apply check_batch_ok in Hcb as (-> & Hne & Hlen & Hmax).
  apply mbind_ok in Hr as (s & c0 & Hg & Hr). apply gets_ok in Hg as [-> ->].
  apply mbind_ok in Hr as (u1 & c0 & Hv & Hr). apply run_check_ok in Hv as [Hv ->].
  apply mbind_ok in Hr as ([] & c1 & Hl & Hr).
  apply mbind_ok in Hr as ([] & c2 & Hl2 & Hr).
  apply mbind_ok in Hr as (u3 & c3 & He & Hr). apply EmitEvents_ok in He as ->. apply mret_ok in Hr as [-> ->].
  pose proof Hl as Hloop. pose proof (evm2cosmos_turns _ _ _ _ _ _ _ _ Hl) as Hturn.
  apply evm2cosmos_loop in Hl as (E1 & Hown & Hother). unfold erc_same in E1.
  assert (c_nft c2 = c_nft c1) as En.
  { assert (frame nft_same (for_each ids (fun '(tokenId, nftId) =>
      if IsIBCDenom (tp_ClassId tp)
      then erc_set (fun s => deleteVoucherBindingKeys s (ce_EvmContractAddress msg) tokenId
                               (ce_ClassId msg) nftId)
      else erc_try (fun s => SetNFTPairs s (ce_EvmContractAddress msg) tokenId (ce_ClassId msg) nftId))))
      as Hf.
    { apply frame_for_each; [apply _|]. intros [t n]. destruct (IsIBCDenom _); [by intros c4|].
      intros c4. unfold erc_try. by destruct (SetNFTPairs _ _ _ _ _). }
    exact (frame_ok _ _ _ _ _ Hf Hl2). }
  cbn. rewrite En. do 5 (split; [done|]). split; [intros cl nft Hc; by apply Hother|].
  split; [by exists c1|]. exists c1, c2. done.
Qed.

(** ** Registering *)

(** No hash collision for the class [cls]: a pair of it whose id is that of a
    stored pair is that pair. *)
Definition ids_distinct s (cls : string) : Prop :=
  forall a q, registered s q -> GetID (NewTokenPair a cls) = GetID q -> NewTokenPair a cls = q.

Lemma canonical_new p : canonical_pair p -> NewTokenPair (GetERC721Contract p) (tp_ClassId p) = p.
Proof. intros Hc. unfold NewTokenPair. rewrite <- Hc. by destruct p. Qed.

(** SetTokenPair, SetClassMap, SetERC721Map, as both register paths run them. *)
Lemma save_pair_ok tp a c u c' :
  a = GetERC721Contract tp ->
  (erc_try (fun s => SetTokenPair s tp) ;;;
   erc_set (fun s => SetClassMap s (tp_ClassId tp) (GetID tp)) ;;;
   erc_set (fun s => SetERC721Map s a (GetID tp)))%go c = Ok u c' ->
  exists bz, Marshal_TokenPair tp = inr bz /\ c' = set_erc c (register (c_erc c) tp bz).
Proof.
  intros -> Hr. apply mbind_ok in Hr as (u1 & c1 & Hs & Hr).
  apply erc_try_ok in Hs as (s1 & Hs & ->). unfold SetTokenPair in Hs.
  destruct (Marshal_TokenPair tp) as [e|bz] eqn:Em; [done|]. injection Hs as <-.
  exists bz. split; [done|]. apply mbind_ok in Hr as (u2 & c2 & Hs & Hr).
  apply modify_ok in Hs as ->. apply modify_ok in Hr as ->. done.
Qed.

Lemma fresh_id s p :
  registry_ok s -> ids_distinct s (tp_ClassId p) -> canonical_pair p ->
  prefixTokenPairByClass s !! tp_ClassId p = None -> prefixTokenPair s !! GetID p = None.
Proof.
  intros Hs Hd Hcan Hc. destruct (prefixTokenPair s !! GetID p) as [bz|] eqn:E; [|done].
  destruct (rg_table _ Hs _ _ E) as (q & Hm & Hid & _).
  assert (registered s q) as Hq by (exists bz; by rewrite <- Hid).
  rewrite <- (canonical_new p Hcan) in Hc, Hid. rewrite (Hd _ q Hq Hid) in Hc.
  assert (prefixTokenPairByClass s !! tp_ClassId q = Some (GetID q)) by (apply rg_class; eauto).
  congruence.
Qed.

(** What both register paths leave. *)
Definition registers c (tp : TokenPair) c' : Prop :=
  registry_ok (c_erc c') /\ registered (c_erc c') tp /\
  (forall q, registered (c_erc c') q <-> q = tp \/ registered (c_erc c) q) /\
  forward (c_erc c') = forward (c_erc c) /\ reverse (c_erc c') = reverse (c_erc c) /\
  refunds (c_erc c') = refunds (c_erc c) /\ KeyPrefixParams (c_erc c') = KeyPrefixParams (c_erc c).

Lemma register_registers c tp bz c' :
  registry_ok (c_erc c) -> ids_distinct (c_erc c) (tp_ClassId tp) -> canonical_pair tp ->
  IsClassRegistered (c_erc c) (tp_ClassId tp) = false ->
  IsERC721Registered (c_erc c) (GetERC721Contract tp) = false ->
  Marshal_TokenPair tp = inr bz -> c_erc c' = register (c_erc c) tp bz -> registers c tp c'.
Proof.
  intros Hs Hd Hc Hcl He Hm Er.
  assert (prefixTokenPairByClass (c_erc c) !! tp_ClassId tp = None) as Hcl'.
  { unfold IsClassRegistered, kv_has in Hcl. by destruct (_ !! _). }
  assert (prefixTokenPairByERC721 (c_erc c) !! Erc721Address tp = None) as He'.
  { unfold IsERC721Registered, kv_has in He. rewrite <- Hc in He. by destruct (_ !! Erc721Address tp). }
  pose proof (fresh_id _ _ Hs Hd Hc Hcl') as Hn.
  pose proof (fun q => register_registered (c_erc c) tp bz q Hm Hn) as Hreg.
  unfold registers. rewrite Er. split; [by apply register_ok|]. split; [apply Hreg; by left|].
  split; [exact Hreg|done].
Qed.

Lemma RegisterNFT_ok msg c tp c' :
  registry_ok (c_erc c) -> ids_distinct (c_erc c) (cn_ClassId msg) -> RegisterNFT msg c = Ok tp c' ->
  IsIBCDenom (cn_ClassId msg) = false /\ tp_ClassId tp = cn_ClassId msg /\
  GetERC721Contract tp = HexToAddress (cn_EvmContractAddress msg) /\
  (forall q, registered (c_erc c) q ->
     tp_ClassId q <> tp_ClassId tp /\ GetERC721Contract q <> GetERC721Contract tp) /\
  registers c tp c' /\ c_nft c' = c_nft c /\ c_evm c' = c_evm c.
Proof.
  intros Hs Hd Hr. unfold RegisterNFT in Hr.
  apply mbind_ok in Hr as (u0 & c0 & Hg & Hr). apply guard_ok in Hg as [Hi%negb_true_iff ->].
  apply mbind_ok in Hr as (s & c0 & Hg & Hr). apply gets_ok in Hg as [-> ->].
  apply mbind_ok in Hr as (u1 & c0 & Hg & Hr). apply guard_ok in Hg as [Hcl%negb_true_iff ->].
  apply mbind_ok in Hr as (u2 & c0 & Hg & Hr). apply guard_ok in Hg as [He%negb_true_iff ->].
  set (p := NewTokenPair (HexToAddress (cn_EvmContractAddress msg)) (cn_ClassId msg)) in *.
  assert (GetERC721Contract p = HexToAddress (cn_EvmContractAddress msg)) as Hp.
  { unfold p, GetERC721Contract, NewTokenPair. cbn.
    by rewrite HexToAddress_lower, HexToAddress_Hex by apply IsHexAddress_Hex. }
  assert (exists bz, Marshal_TokenPair p = inr bz /\ tp = p /\ c' = set_erc c (register (c_erc c) p bz))
    as (bz & Hm & -> & ->).
  { apply mbind_ok in Hr as (u3 & c1 & A1 & Hr). apply mbind_ok in Hr as (u4 & c2 & A2 & Hr).
    apply mbind_ok in Hr as (u5 & c3 & A3 & Hr). apply mret_ok in Hr as [-> ->].
    destruct (save_pair_ok p _ c tt c3 (eq_sym Hp)) as (bz & Hm & ->); [|eauto].
    unfold mbind. rewrite A1. destruct u4. rewrite A2. by destruct u5. }
  rewrite <- Hp in He. change (cn_ClassId msg) with (tp_ClassId p) in Hcl.
  split; [done|]. split; [done|]. split; [done|]. split; [|split; [|done]].
  - intros q Hq. split; intros E.
    + assert (prefixTokenPairByClass (c_erc c) !! tp_ClassId p = Some (GetID q)) as E'.
      { rewrite <- E. apply rg_class; eauto. }
      unfold IsClassRegistered, kv_has in Hcl. by rewrite E' in Hcl.
    + assert (prefixTokenPairByERC721 (c_erc c) !! ToLower (Hex (GetERC721Contract p)) = Some (GetID q)) as E'.
      { rewrite <- E. apply rg_erc; [done|]. exists q. split; [done|]. split; [|done].
        by apply (registered_canonical (c_erc c)). }
      unfold IsERC721Registered, kv_has in He. by rewrite E' in He.
  - eapply register_registers; try done. apply NewTokenPair_canonical.
Qed.

Lemma CreateNFTClass_erc a cl : frame erc_same (CreateNFTClass a cl).
Proof. unfold CreateNFTClass. go_frame. Qed.

Lemma CreateNFTClass_unregistered a cl c u c' :
  CreateNFTClass a cl c = Ok u c' -> IsClassRegistered (c_erc c) cl = false.
Proof.
  unfold CreateNFTClass. intros Hr. apply mbind_ok in Hr as (d & c0 & Hq & Hr).
  pose proof (gas_only_erc _ _ (frame_ok _ _ _ _ _ (QueryERC721_frame _) Hq)) as E.
  apply mbind_ok in Hr as (s & c1 & Hg & Hr). apply gets_ok in Hg as [-> ->].
  apply mbind_ok in Hr as (u1 & c2 & Hg & _). apply guard_ok in Hg as [Hcl%negb_true_iff _].
  unfold erc_same in E. by rewrite <- E.
Qed.

Lemma RegisterERC721_ok msg c r c' :
  registry_ok (c_erc c) ->
  ids_distinct (c_erc c) (CreateClassIDFromContractAddress (ce_EvmContractAddress msg)) ->
  RegisterERC721 msg c = Ok r c' ->
  snd r = tp_ClassId (fst r) /\
  snd r = CreateClassIDFromContractAddress (ce_EvmContractAddress msg) /\
  GetERC721Contract (fst r) = HexToAddress (ce_EvmContractAddress msg) /\ registers c (fst r) c'.
Proof.
  intros Hs Hd Hr. unfold RegisterERC721 in Hr.
  apply mbind_ok in Hr as (s & c0 & Hg & Hr). apply gets_ok in Hg as [-> ->].
  apply mbind_ok in Hr as (u1 & c0 & Hg & Hr). apply guard_ok in Hg as [He%negb_true_iff ->].
  apply mbind_ok in Hr as (u2 & c0 & Hg & Hr). apply guard_ok in Hg as [Hcid ->].
  set (cid := if IsBlank (ce_ClassId msg) then _ else _) in *.
  assert (cid = CreateClassIDFromContractAddress (ce_EvmContractAddress msg)) as Ecid.
  { unfold cid. destruct (IsBlank _); [done|]. by apply str_eqb_true. }
  apply mbind_ok in Hr as (u3 & c1 & Hc & Hr).
  pose proof (CreateNFTClass_unregistered _ _ _ _ _ Hc) as Hcl.
  pose proof (frame_ok _ _ _ _ _ (CreateNFTClass_erc _ _) Hc) as E1. unfold erc_same in E1.
  set (p := NewTokenPair (HexToAddress (ce_EvmContractAddress msg)) cid) in *.
  assert (GetERC721Contract p = HexToAddress (ce_EvmContractAddress msg)) as Hp.
  { unfold p, GetERC721Contract, NewTokenPair. cbn.
    by rewrite HexToAddress_lower, HexToAddress_Hex by apply IsHexAddress_Hex. }
  assert (exists bz, Marshal_TokenPair p = inr bz /\ r = (p, cid) /\
            c' = set_erc c1 (register (c_erc c1) p bz)) as (bz & Hm & -> & ->).
  { apply mbind_ok in Hr as (u4 & c2 & A1 & Hr). apply mbind_ok in Hr as (u5 & c3 & A2 & Hr).
    apply mbind_ok in Hr as (u6 & c4 & A3 & Hr). apply mret_ok in Hr as [-> ->].
    destruct (save_pair_ok p _ c1 tt c4 eq_refl) as (bz & Hm & ->); [|eauto].
    unfold mbind. rewrite A1. destruct u5. rewrite A2. by destruct u6. }
  rewrite <- Hp in He. split; [done|]. split; [done|]. split; [done|].
  cbn [fst]. rewrite E1. eapply (register_registers c p bz); try done; [cbn; by rewrite Ecid|apply NewTokenPair_canonical].
Qed.
End ConvertFacts.
