(* ===== verification/Erc721ConvertSpec.v ===== *)
(** The guarantees of the message handlers ConvertERC721, ConvertNFT and
    TransferERC721 as a whole. *)
From S2P Require Import Prelude GoStrings Utf8 Sdk CollectionTypes CollectionKeeper Erc721Types.
From S2P Require Import Erc721Store Erc721Index Erc721Genesis Erc721Registry Erc721Purge.
From S2P Require Import Erc721Export Erc721Evm Erc721Msg Erc721Register Erc721Convert.
From S2P Require Import Erc721ConvertFacts.
Open Scope go_scope.
Open Scope list_scope.

Section ConvertSpec.
Context `{EthLaws} `{!SdkLib} `{!SdkLaws} `{!NftKeeper} `{!NftLaws} `{!EvmKeeper} `{!WasmState} `{!EvmLaws}
        `{!CollectionCodec} `{!Erc721Codec} `{!Erc721CodecLaws} `{!ConvertedNFTChecker} `{!FmtLib}.
Implicit Types (c : Ctx) (s : ErcStore).

(** The invariant of the module's store. *)
Record module_ok s : Prop := {
  mo_index : store_ok s;
  mo_registry : registry_ok s;
}.

(** The class RegisterERC721 gives the contract of the message. *)
Definition derived_class (msg : MsgConvertERC721) : string :=
  CreateClassIDFromContractAddress (CanonicalContractAddress (ce_EvmContractAddress msg)).

Lemma registers_index c tp c' : registers c tp c' -> store_ok (c_erc c) -> store_ok (c_erc c').
Proof. intros (_ & _ & _ & Ef & Er & _). unfold store_ok. by rewrite Ef, Er. Qed.

Lemma index_only_registry s s' : index_only s s' -> registry_ok s -> registry_ok s'.
Proof. intros (E1 & E2 & E3 & _). by apply registry_ext. Qed.

Lemma index_only_registered s s' p : index_only s s' -> registered s p -> registered s' p.
Proof. intros (E1 & _). by apply registered_ext. Qed.

(** ** deleteVoucherBindingKeys *)

(** No key of the binding is left. *)
Definition unbound s (contract t cls nft : string) : Prop :=
  (forall u, u ∈ spellings contract t -> forward s !! u = None) /\
  reverse s !! CreateNFTUID cls nft = None /\
  GetEvmRefundReceiver s contract nft t = "".

(** Every key of [s'] is a key of [s]. *)
Definition shrinks s s' : Prop :=
  (forall k, forward s !! k = None -> forward s' !! k = None) /\
  (forall k, reverse s !! k = None -> reverse s' !! k = None) /\
  (forall k, refunds s !! k = None -> refunds s' !! k = None).

#[global] Instance shrinks_preorder : PreOrder shrinks.
Proof. split; [by intros s|]. intros s1 s2 s3 (? & ? & ?) (? & ? & ?). split_and!; auto. Qed.

Lemma deleteVoucherBindingKeys_shrinks s contract t cls nft :
  shrinks s (deleteVoucherBindingKeys s contract t cls nft).
Proof.
  destruct (DeleteNFTPairByTokenID_rest s contract t) as (R1 & _ & _ & _ & R2 & _).
  unfold shrinks. cbn. split_and!; intros k Hk.
  - rewrite DeleteNFTPairByTokenID_forward. by case_decide.
  - rewrite R1, delete_lookup. by case_decide.
  - rewrite R2, !delete_lookup. by repeat case_decide.
Qed.

Lemma refund_gone s contract nft t :
  refunds s !! (ToLower contract +:+ nft) = None -> refunds s !! (ToLower contract +:+ t) = None ->
  GetEvmRefundReceiver s contract nft t = "".
Proof.
  intros Hz1 Hz2. unfold GetEvmRefundReceiver, GetEvmAddressByContractTokenId, refund_key.
  rewrite ToLower_idem, (kv_get_None _ _ Hz1), (kv_get_None _ _ Hz2). cbn. by case_match.
Qed.

Lemma deleteVoucherBindingKeys_unbound s s' contract t cls nft :
  shrinks (deleteVoucherBindingKeys s contract t cls nft) s' -> unbound s' contract t cls nft.
Proof.
  intros (A & B & C). cbn in A, B, C.
  destruct (DeleteNFTPairByTokenID_rest s contract t) as (R1 & _ & _ & _ & R2 & _).
  split_and!.
  - intros u Hu. apply A. rewrite DeleteNFTPairByTokenID_forward. by rewrite decide_True.
  - apply B. rewrite R1, delete_lookup. by rewrite decide_True.
  - apply refund_gone; apply C; rewrite R2, !delete_lookup; repeat case_decide; done.
Qed.

(** ** ConvertERC721 *)

(** No NFT changes owner. *)
Definition owners_same c c' : Prop := same_owners (c_nft c) (c_nft c').

#[global] Instance owners_same_preorder : PreOrder owners_same.
Proof.
  split; [by intros c cl i|]. intros c1 c2 c3 E1 E2 cl i. by rewrite (E2 cl i), (E1 cl i).
Qed.

Lemma gas_query_owners {A} (m : GoM A) : frame gas_only m -> frame owners_same m.
Proof. apply frame_sub. intros c c' [(_ & E & _) _] cl i. by rewrite E. Qed.

Lemma erc_set_owners f : frame owners_same (erc_set f).
Proof. by intros c. Qed.

Lemma erc_try_owners f : frame owners_same (erc_try f).
Proof. intros c. unfold erc_try. by destruct (f (c_erc c)). Qed.

Lemma run_check_owners r : frame owners_same (run_check r).
Proof. intros c. unfold run_check. by destruct r. Qed.

Lemma SaveClass_owners cl : frame owners_same (nft_write (fun st => nk_SaveClass st cl)).
Proof.
  intros c. unfold nft_write. destruct (nk_SaveClass (c_nft c) cl) eqn:E; [done|].
  apply SaveClass_spec in E as (_ & _ & _ & E). exact E.
Qed.

Lemma RegisterERC721_owners msg : frame owners_same (RegisterERC721 msg).
Proof.
  unfold RegisterERC721, CreateNFTClass, SaveDenom, GetDenomInfo.
  pose proof erc_set_owners. pose proof erc_try_owners. pose proof run_check_owners.
  pose proof SaveClass_owners. pose proof (@gas_query_owners). go_frame.
Qed.

(** The state the transfers start from: the contract has its pair, or gets it. *)
Definition erc721_paired c c1 : Prop := c1 = c \/ exists m tp, RegisterERC721 m c = Ok tp c1.

(** Up to the transfer loop, ConvertERC721 resolves the ids and finds or creates
    the pair of the contract; what RegisterERC721 leaves alone is unchanged. *)
Lemma ConvertERC721_prefix msg c r c' :
  registry_ok (c_erc c) -> ids_distinct (c_erc c) (derived_class msg) -> ConvertERC721 msg c = Ok r c' ->
  GetEnableErc721 (c_erc c) = true /\
  exists tp m sender c1,
    convertEvm2Cosmos tp m (BytesToAddress sender) c1 = Ok m c' /\
    erc721_paired c c1 /\
    AccAddressFromBech32 (ce_CosmosSender msg) = Some sender /\
    r = MkMsgConvertERC721Response (ce_EvmContractAddress m) (ce_EvmTokenIds m) (ce_CosmosReceiver m)
          (Hex (BytesToAddress sender)) (ce_ClassId m) (ce_CosmosTokenIds m) /\
    ce_EvmContractAddress m = CanonicalContractAddress (ce_EvmContractAddress msg) /\
    ce_EvmTokenIds m = ce_EvmTokenIds msg /\ ce_CosmosReceiver m = ce_CosmosReceiver msg /\
    ce_ClassId m = tp_ClassId tp /\
    registry_ok (c_erc c1) /\ registered (c_erc c1) tp /\
    GetERC721Contract tp = HexToAddress (CanonicalContractAddress (ce_EvmContractAddress msg)) /\
    forward (c_erc c1) = forward (c_erc c) /\ reverse (c_erc c1) = reverse (c_erc c) /\
    (forall R, PreOrder R -> (forall m, frame R (RegisterERC721 m)) -> R c c1).
Proof.
  intros Hs Hd Hr. unfold ConvertERC721 in Hr.
  apply mbind_ok in Hr as (en & c0 & Hg & Hr). apply gets_ok in Hg as [-> ->].
  apply mbind_ok in Hr as (u0 & c0 & Hg & Hr). apply guard_ok in Hg as [Hen ->]. split; [done|].
  apply mbind_ok in Hr as (s & c0 & Hg & Hr). apply gets_ok in Hg as [-> ->].
  apply mbind_ok in Hr as ([cid nftIds] & c0 & Hg & Hr). apply lift_sum_ok in Hg as [Hids ->].
  apply mbind_ok in Hr as (u1 & c0 & Hg & Hr). apply check_batch_ok in Hg as (-> & _).
  apply mbind_ok in Hr as (a & c0 & Hg & Hr). apply lift_opt_ok in Hg as [Ha ->].
  apply mbind_ok in Hr as (cid' & c1 & Hreg & Hr).
  apply mbind_ok in Hr as (s1 & c0 & Hg & Hr). apply gets_ok in Hg as [-> ->].
  apply mbind_ok in Hr as (tp & c0 & Hg & Hr). apply lift_sum_ok in Hg as [Htp ->].
  apply mbind_ok in Hr as (ev & c0 & Hg & Hr). apply gets_ok in Hg as [-> ->].
  apply mbind_ok in Hr as (u2 & c0 & Hg & Hr). apply guard_ok in Hg as [_ ->].
  apply mbind_ok in Hr as (u3 & c0 & Hg & Hr). apply guard_ok in Hg as [_ ->].
  apply mbind_ok in Hr as (m & c2 & Hconv & Hr).
  apply mbind_ok in Hr as (a' & c3 & Hg & Hr). apply lift_opt_ok in Hg as [Ha' ->].
  apply mret_ok in Hr as [-> ->].
  pose proof (convertEvm2Cosmos_ok _ _ _ _ _ _ Hconv) as (-> & _).
  cbn in *. rewrite Ha in Ha'. injection Ha' as <-.
  assert (registry_ok (c_erc c1) /\ forward (c_erc c1) = forward (c_erc c) /\
          reverse (c_erc c1) = reverse (c_erc c) /\ erc721_paired c c1 /\
          (forall R, PreOrder R -> (forall m, frame R (RegisterERC721 m)) -> R c c1)) as (Hs1 & Ef & Er & Hpr & Ho).
  { destruct (_ =?s "") in Hreg; [|apply mret_ok in Hreg as [_ ->]; do 3 (split; [done|]); split; [by left|by intros R]].
    apply mbind_ok in Hreg as (p & c4 & Hp & Hret). apply mret_ok in Hret as [_ ->].
    assert (erc721_paired c c4) as Hpr by (right; eauto).
    assert (forall R, PreOrder R -> (forall m, frame R (RegisterERC721 m)) -> R c c4) as Ho
      by (intros R _ HR; exact (frame_ok _ _ _ _ _ (HR _) Hp)).
    apply RegisterERC721_ok in Hp as (_ & _ & _ & Hrg & _ & _ & Ef & Er & _); [|done..]. split_and!; done. }
  apply GetPairByEVM_inv in Htp as [Hrg Haddr]; [|done].
  eexists tp, _, a, c1. split; [exact Hconv|]. by split_and!.
Qed.

(** What a successful ConvertERC721 of a class that is not a voucher guarantees. *)
Definition erc721_converted msg c (r : MsgConvertERC721Response) c' : Prop :=
  GetEnableErc721 (c_erc c) = true /\
  store_ok (c_erc c') /\ registry_ok (c_erc c') /\
  (exists tp, registered (c_erc c') tp /\ tp_ClassId tp = cr_ClassId r /\
     GetERC721Contract tp = HexToAddress (cr_EvmContractAddress r)) /\
  List.length (ce_EvmTokenIds msg) = List.length (cr_CosmosTokenIds r) /\
  List.length (ce_EvmTokenIds msg) <= maxERC721BatchSize /\
  (forall t nft, (t, nft) ∈ combine (ce_EvmTokenIds msg) (cr_CosmosTokenIds r) ->
     AccAddressFromBech32 (ce_CosmosReceiver msg) = Some (nk_GetOwner (c_nft c') (cr_ClassId r) nft) /\
     bound_to (c_erc c') (ce_EvmContractAddress msg) t (CreateNFTUID (cr_ClassId r) nft)) /\
  (forall cl nft, (cl <> cr_ClassId r \/ nft ∉ cr_CosmosTokenIds r) ->
     nk_GetOwner (c_nft c') cl nft = nk_GetOwner (c_nft c) cl nft) /\
  (forall nu, nu ∉ CreateNFTUID (cr_ClassId r) <$> cr_CosmosTokenIds r ->
     reverse (c_erc c') !! nu = reverse (c_erc c) !! nu).

Lemma ConvertERC721_ok msg c r c' :
  module_ok (c_erc c) -> ids_distinct (c_erc c) (derived_class msg) ->
  good_address (ce_EvmContractAddress msg) ->
  ConvertERC721 msg c = Ok r c' -> IsIBCDenom (cr_ClassId r) = false ->
  erc721_converted msg c r c'.
Proof.
  intros [Hi Hs] Hd Hg Hr Hv.
  apply ConvertERC721_prefix in Hr
    as (Hen & tp & m & snd & c1 & Hc & _ & Ha & -> & Em & Et & Er & Ecl & Hs1 & Hrg & Haddr & Ef & Erv & Ho); [|done..].
  cbn - [IsIBCDenom] in *. apply convertEvm2Cosmos_ok in Hc
    as (_ & Hlen & Hmax & _ & Hown & Hother & _ & d1 & d2 & E1 & E2 & E3 & E4 & Hloop).
  rewrite <- Ecl, Hv in Hloop. rewrite Em in Hloop.
  apply set_pairs_loop in Hloop as (Hs2 & Hb & _ & Hio & _ & _ & Hrv);
    [|unfold store_ok; rewrite E1, Ef, Erv; done|by apply good_canonical].
  rewrite E3 in *. rewrite E1 in Hio, Hrv. rewrite Erv in Hrv. rewrite Et, Er in *.
  split; [done|]. split; [done|]. split; [by eapply index_only_registry|].
  split; [exists tp; rewrite Em; split; [by eapply index_only_registered|done]|].
  split; [done|]. split; [done|]. split; [|split].
  - intros t nft Hin. split; [by eapply Hown|].
    specialize (Hb t nft Hin). unfold bound_to in *. by rewrite canonical_idem in Hb.
  - intros cl nft Hout. rewrite Hother; [apply (Ho owners_same _ RegisterERC721_owners)|]. destruct Hout as [?|Hn]; [by left|right].
    intros Hx. apply Hn. by eapply combine_snd.
  - intros nu Hn. apply Hrv. intros (x & -> & Hx)%list_elem_of_fmap. apply Hn, list_elem_of_fmap_2.
    by eapply combine_snd.
Qed.

(** C1: in a store that satisfies the invariants, for a contract address spelled with 0x
    (the message also accepts bare hex, for which this is false), and when no pair of the
    class derived from it shares its hashed id with another one, a successful
    ConvertERC721 of a non-voucher class leaves the module's index one-to-one and its
    registry consistent; every Cosmos NFT of the batch is owned by the receiver and
    bound, both ways, to the ERC721 token of the same position; no other NFT changes
    owner and no other binding changes; the batch has at most 100 tokens and the module
    was enabled. *)
Theorem ConvertERC721_correct msg c r c' :
  module_ok (c_erc c) -> ids_distinct (c_erc c) (derived_class msg) ->
  good_address (ce_EvmContractAddress msg) ->
  ConvertERC721 msg c = Ok r c' -> IsIBCDenom (cr_ClassId r) = false ->
  erc721_converted msg c r c'.
Proof. apply ConvertERC721_ok. Qed.

(** C8: with a consistent registry, and when no pair of the derived class shares its
    hashed id with another one, a successful ConvertERC721 checked the ownership of every
    token of the batch: from the state in which the contract has its pair the run goes
    through the tokens in order and on to its end, and at the turn of a token, after the
    tokens before it were taken, the contract reports the signer of the message as its
    owner, and the token is taken from him in the very next call. *)
Theorem ConvertERC721_ownership msg c r c' :
  registry_ok (c_erc c) -> ids_distinct (c_erc c) (derived_class msg) -> ConvertERC721 msg c = Ok r c' ->
  exists tp m sender c1 c2,
    AccAddressFromBech32 (ce_CosmosSender msg) = Some sender /\
    GetERC721Contract tp = HexToAddress (CanonicalContractAddress (ce_EvmContractAddress msg)) /\
    ce_EvmTokenIds m = ce_EvmTokenIds msg /\ ce_CosmosTokenIds m = cr_CosmosTokenIds r /\
    ce_ClassId m = cr_ClassId r /\ tp_ClassId tp = cr_ClassId r /\
    erc721_paired c c1 /\ convertEvm2Cosmos tp m (BytesToAddress sender) c1 = Ok m c' /\
    let voucher := IsIBCDenom (cr_ClassId r) in
    let take := evm2cosmos_token m (GetERC721Contract tp) (BytesToAddress sender) voucher in
    let ids := combine (ce_EvmTokenIds msg) (cr_CosmosTokenIds r) in
    for_each ids take c1 = Ok tt c2 /\
    forall pre t nft post, ids = pre ++ (t, nft) :: post ->
      exists d1 d2 n, turn take pre (t, nft) post c1 c2 d1 d2 /\ ParseEVMTokenID t = Some n /\
        taken_from_owner d1 (GetERC721Contract tp) (BytesToAddress sender) voucher n.
Proof.
  intros Hs Hd Hr. apply ConvertERC721_prefix in Hr
    as (_ & tp & m & snd & c1 & Hc & Hpr & Ha & -> & Em & Et & Er & Ecl & Hs1 & Hrg & Haddr & _); [|done..].
  pose proof Hc as Hrun. apply convertEvm2Cosmos_ok in Hc as (_ & _ & _ & _ & _ & _ & (c2 & Hl & Hturn) & _).
  exists tp, m, snd, c1, c2. cbn - [IsIBCDenom] in *. rewrite Et in Hturn, Hl. rewrite Ecl. by split_and!.
Qed.

(** Un-wrapping tokens of an ibc/ voucher pair is terminal: every NFT of the
    batch is the receiver's, and no key of any of its bindings is left, under
    any spelling, in either index or among the refund receivers. *)
Lemma ConvertERC721_voucher_terminal msg c r c' :
  module_ok (c_erc c) -> ids_distinct (c_erc c) (derived_class msg) ->
  good_address (ce_EvmContractAddress msg) ->
  ConvertERC721 msg c = Ok r c' -> IsIBCDenom (cr_ClassId r) = true ->
  forall t nft, (t, nft) ∈ combine (ce_EvmTokenIds msg) (cr_CosmosTokenIds r) ->
    AccAddressFromBech32 (ce_CosmosReceiver msg) = Some (nk_GetOwner (c_nft c') (cr_ClassId r) nft) /\
    unbound (c_erc c') (cr_EvmContractAddress r) t (cr_ClassId r) nft.
Proof.
  intros [Hi Hs] Hd Hg Hr Hv.
  apply ConvertERC721_prefix in Hr
    as (_ & tp & m & snd & c1 & Hc & _ & Ha & -> & Em & Et & Er & Ecl & Hs1 & Hrg & Haddr & Ef & Erv & _); [|done..].
  cbn - [IsIBCDenom] in *. apply convertEvm2Cosmos_ok in Hc
    as (_ & Hlen & Hmax & _ & Hown & Hother & _ & d1 & d2 & E1 & E2 & E3 & E4 & Hloop).
  rewrite <- Ecl, Hv in Hloop. rewrite Et, Er in *. rewrite <- E3.
  intros t nft Hin. split; [by eapply Hown|]. apply list_elem_of_split in Hin as (pre & post & Hin).
  rewrite Hin in Hloop. apply for_each_split in Hloop as (d3 & d4 & _ & Hd4 & Hpost).
  apply modify_ok in Hd4 as ->. apply (deleteVoucherBindingKeys_unbound (c_erc d3)).
  eapply (for_each_inv (fun d => shrinks (deleteVoucherBindingKeys (c_erc d3) (ce_EvmContractAddress m)
    t (ce_ClassId m) nft) (c_erc d))); [| |exact Hpost]; [|reflexivity].
  intros [t' n'] x x' u _ Hx Hx'. apply modify_ok in Hx' as ->.
  etransitivity; [exact Hx|apply deleteVoucherBindingKeys_shrinks].
Qed.

(** ** ConvertNFT *)

Lemma GetDenomInfo_nft d : frame nft_same (GetDenomInfo d).
Proof. unfold GetDenomInfo. go_frame. Qed.

Lemma CallEVMWithData_nft f t d b : frame nft_same (CallEVMWithData f t d b).
Proof. eapply frame_sub; [apply evm_only_nft|apply CallEVMWithData_frame]. Qed.

Lemma Deploy_nft cl : frame nft_same (DeployERC721Contract cl).
Proof.
  unfold DeployERC721Contract. pose proof GetDenomInfo_nft. pose proof CallEVMWithData_nft.
  go_frame. apply wrap_as_frame; auto. apply _.
Qed.

Lemma GetContract_erc msg : frame erc_same (GetContractAddressAndTokenIds msg).
Proof. unfold GetContractAddressAndTokenIds. go_frame. Qed.

Lemma GetContract_nft msg : frame nft_same (GetContractAddressAndTokenIds msg).
Proof.
  unfold GetContractAddressAndTokenIds. pose proof Deploy_nft. go_frame.
  intros c. unfold run_check. by destruct (check_forward _ _ _ _ _).
Qed.

(** Purging the pair of the class leaves no pair whose id could collide, even when
    that pair was registered a moment before. *)
Lemma purge_ids_distinct c c' p :
  registry_ok (c_erc c') -> registered (c_erc c') p -> ids_distinct (c_erc c) (tp_ClassId p) ->
  (c' = c \/ exists tp, tp_ClassId tp = tp_ClassId p /\ registers c tp c') ->
  ids_distinct (PurgeTokenPair (c_erc c') p) (tp_ClassId p).
Proof.
  intros Hs Hp Hd Hor a q Hq. apply (purge_registered _ p q Hs Hp) in Hq as [Hq Hne]. apply Hd.
  destruct Hor as [->|(tp & Hc & _ & Htp & Hreg & _)]; [done|].
  apply Hreg in Hq as [->|Hq]; [|done]. exfalso. by apply Hne, (registered_class (c_erc c')).
Qed.

Lemma registers_ids c tp c' : registers c tp c' -> registry_ok (c_erc c').
Proof. by intros (? & _). Qed.

(** The first half of ConvertNFT: the pair of the class exists afterwards. *)
Lemma ensure_pair msg c u c' :
  registry_ok (c_erc c) -> ids_distinct (c_erc c) (cn_ClassId msg) ->
  (if GetERC721Map (c_erc c) (HexToAddress (cn_EvmContractAddress msg)) =?s ""
   then (RegisterNFT msg ;;; mret tt)%go else mret tt) c = Ok u c' ->
  registry_ok (c_erc c') /\ forward (c_erc c') = forward (c_erc c) /\
  reverse (c_erc c') = reverse (c_erc c) /\ nft_same c c' /\
  (c' = c \/ exists tp, tp_ClassId tp = cn_ClassId msg /\ registers c tp c').
Proof.
  intros Hs Hd Hr. destruct (_ =?s "") in Hr.
  - apply mbind_ok in Hr as (tp & c1 & Hr & Hm). apply mret_ok in Hm as [_ ->].
    apply RegisterNFT_ok in Hr as (_ & Hcl & _ & _ & Hrg & En & _); [|done..].
    pose proof Hrg as (A & _ & _ & B & C & _). do 4 (split; [done|]). right. eauto.
  - apply mret_ok in Hr as [_ ->]. do 4 (split; [done|]). by left.
Qed.

(** What the conversion proper guarantees, for the pair [tp]. *)
Definition converted msg c tp tokenIds c' : Prop :=
  store_ok (c_erc c') /\ registry_ok (c_erc c') /\ registered (c_erc c') tp /\
  tp_ClassId tp = cn_ClassId msg /\
  List.length tokenIds = List.length (cn_CosmosTokenIds msg) /\
  (forall t nft, (t, nft) ∈ combine tokenIds (cn_CosmosTokenIds msg) ->
     AccAddressFromBech32 (cn_CosmosSender msg) = Some (nk_GetOwner (c_nft c) (cn_ClassId msg) nft) /\
     nk_GetOwner (c_nft c') (cn_ClassId msg) nft = AccModuleAddress /\
     bound_to (c_erc c') (CanonicalContractAddress (Hex (GetERC721Contract tp))) t
       (CreateNFTUID (cn_ClassId msg) nft)) /\
  (forall cl nft, (cl <> cn_ClassId msg \/ nft ∉ cn_CosmosTokenIds msg) ->
     nk_GetOwner (c_nft c') cl nft = nk_GetOwner (c_nft c) cl nft) /\
  (forall nu t, nu ∉ CreateNFTUID (cn_ClassId msg) <$> cn_CosmosTokenIds msg ->
     reverse (c_erc c') !! nu = Some t -> reverse (c_erc c) !! nu = Some t).

Lemma convert_tail msg0 msg tp receiver c0 c u c' ids :
  convertCosmos2Evm tp msg receiver c = Ok u c' ->
  store_ok (c_erc c) -> registry_ok (c_erc c) -> GetPairByClass (c_erc c) (cn_ClassId msg) = inr tp ->
  cn_ClassId msg = cn_ClassId msg0 -> cn_CosmosTokenIds msg = cn_CosmosTokenIds msg0 ->
  cn_CosmosSender msg = cn_CosmosSender msg0 -> cn_EvmTokenIds msg = ids -> nft_same c0 c ->
  (forall nu t, reverse (c_erc c) !! nu = Some t -> reverse (c_erc c0) !! nu = Some t) ->
  converted msg0 c0 tp ids c'.
Proof.
  intros Hr Hi Hs Hp E1 E2 E3 <- En Hsub. apply GetPairByClass_inv in Hp as [Hrg Hcl]; [|done].
  apply convertCosmos2Evm_ok in Hr as (A & B & C & D & F & G & R); [|done].
  unfold nft_same in En. unfold converted. rewrite <- E1, <- E2, <- E3, <- En.
  split; [done|]. split; [by eapply index_only_registry|].
  split; [by eapply index_only_registered|]. do 4 (split; [done|]).
  intros nu t Hnu Ht. apply Hsub. by rewrite <- R.
Qed.

Lemma ConvertNFT_ok msg c u c' :
  module_ok (c_erc c) -> ids_distinct (c_erc c) (cn_ClassId msg) ->
  ConvertNFT msg c = Ok u c' ->
  GetEnableErc721 (c_erc c) = true /\
  List.length (cn_CosmosTokenIds msg) <= maxERC721BatchSize /\
  exists tp tokenIds, converted msg c tp tokenIds c'.
Proof.
  intros [Hi Hs] Hd Hr. unfold ConvertNFT in Hr.
  apply mbind_ok in Hr as (en & c0 & Hg & Hr). apply gets_ok in Hg as [-> ->].
  apply mbind_ok in Hr as (u0 & c0 & Hg & Hr). apply guard_ok in Hg as [Hen ->]. split; [done|].
  apply mbind_ok in Hr as (u1 & c0 & Hg & Hr). apply guard_ok in Hg as [Hmax%Nat.leb_le ->].
  split; [done|].
  apply mbind_ok in Hr as ([addr ids] & c1 & Hga & Hr).
  pose proof (frame_ok _ _ _ _ _ (GetContract_erc _) Hga) as E1.
  pose proof (frame_ok _ _ _ _ _ (GetContract_nft _) Hga) as N1.
  apply mbind_ok in Hr as (id & c2 & Hg & Hr). apply gets_ok in Hg as [-> ->].
  apply mbind_ok in Hr as (u2 & c2 & Hreg & Hr).
  unfold erc_same in E1. rewrite <- E1 in Hs, Hd, Hi.
  apply ensure_pair in Hreg as (Hs2 & Ef & Er & N2 & Hor); [|done..].
  assert (store_ok (c_erc c2)) as Hi2 by (unfold store_ok; by rewrite Ef, Er).
  apply mbind_ok in Hr as (s & c3 & Hg & Hr). apply gets_ok in Hg as [-> ->].
  apply mbind_ok in Hr as (tp & c3 & Hg & Hr). apply lift_sum_ok in Hg as [Htp ->].
  apply mbind_ok in Hr as (u3 & c3 & Hg & Hr). apply guard_ok in Hg as [_ ->].
  apply mbind_ok in Hr as (ev & c3 & Hg & Hr). apply gets_ok in Hg as [-> ->].
  destruct (has_code _ _).
  { exists tp, ids. eapply convert_tail; [exact Hr|done..|by etransitivity|by rewrite Er, E1]. }
  apply mbind_ok in Hr as (u4 & c3 & Hg & Hr). apply guard_ok in Hg as [_ ->].
  apply mbind_ok in Hr as (u5 & c3 & Hg & Hr). apply modify_ok in Hg as ->.
  apply mbind_ok in Hr as ([addr' ids'] & c4 & Hga' & Hr).
  pose proof (frame_ok _ _ _ _ _ (GetContract_erc _) Hga') as E4.
  pose proof (frame_ok _ _ _ _ _ (GetContract_nft _) Hga') as N4.
  apply mbind_ok in Hr as (tp' & c5 & Hreg & Hr).
  apply mbind_ok in Hr as (s & c6 & Hg & Hr). apply gets_ok in Hg as [-> ->].
  apply mbind_ok in Hr as (tp2 & c6 & Hg & Hr). apply lift_sum_ok in Hg as [Htp2 ->].
  apply GetPairByClass_inv in Htp as [Hrg Hcl]; [|done].
  unfold erc_same in E4. cbn in E4.
  cbn in Hcl, Hor, Hd. rewrite <- Hcl in Hor, Hd.
  apply RegisterNFT_ok in Hreg as (_ & _ & _ & _ & Hrg5 & N5 & _);
    [|rewrite E4; by apply purge_registry_ok|cbn; rewrite E4, <- Hcl; by eapply purge_ids_distinct].
  pose proof Hrg5 as (Hs5 & _). exists tp2, ids'.
  eapply convert_tail; [exact Hr| |done..| |].
  - apply (registers_index _ _ _ Hrg5). rewrite E4. by apply purge_store_ok.
  - unfold nft_same in *. cbn in N4. congruence.
  - destruct Hrg5 as (_ & _ & _ & _ & -> & _). rewrite E4. intros nu t Hnu.
    apply (purge_reverse _ _ _ _ Hi2) in Hnu. by rewrite <- E1, <- Er.
Qed.

(** C2: a successful ConvertNFT leaves the index one-to-one and the registry
    consistent; the class has a registered pair; every NFT of the batch belonged
    to the signer and is now escrowed by the module account, bound both ways to
    one token of the pair's contract; no other NFT changes owner and no other
    binding appears.  This covers the path that purges and redeploys a pair whose
    contract lost its code. *)
Theorem ConvertNFT_correct msg c u c' :
  module_ok (c_erc c) -> ids_distinct (c_erc c) (cn_ClassId msg) ->
  ConvertNFT msg c = Ok u c' ->
  GetEnableErc721 (c_erc c) = true /\
  List.length (cn_CosmosTokenIds msg) <= maxERC721BatchSize /\
  exists tp tokenIds, converted msg c tp tokenIds c'.
Proof. apply ConvertNFT_ok. Qed.
End ConvertSpec.
