(* ===== verification/Erc721RefundFacts.v ===== *)
(** The refund of an IBC packet (RefundPacketToken): it never aborts, it settles
    or skips each token as a whole, and it keeps the index one-to-one. *)
From S2P Require Import Prelude GoStrings Utf8 Sdk CollectionTypes CollectionKeeper Erc721Types.
From S2P Require Import Erc721Store Erc721Index Erc721Genesis Erc721Registry Erc721Purge App.
From S2P Require Import Erc721Evm Erc721Msg Erc721Register Erc721Convert Erc721ConvertFacts.
From S2P Require Import Erc721ConvertSpec Cw721Types Cw721Store.
Open Scope go_scope.
Open Scope list_scope.

Section RefundTotal.
Context `{EthLib} `{SdkLib} `{NftKeeper} `{!EvmKeeper} `{!WasmState} `{CollectionCodec} `{Erc721Codec}
        `{!ConvertedNFTChecker} `{FmtLib} `{!SdkLaws} `{!EvmLaws}.

Lemma nft_write_safe f : safe unmetered (nft_write f).
Proof. intros c Hc. unfold nft_write. by destruct (f (c_nft c)). Qed.
Lemma EmitEvents_safe l : safe unmetered (EmitEvents l).
Proof. by apply safe_modify. Qed.
Lemma erc_set_safe f : safe unmetered (erc_set f).
Proof. by apply safe_modify. Qed.
Hint Resolve nft_write_safe EmitEvents_safe erc_set_safe : go.

Lemma Authorize_safe d i o : safe unmetered (Authorize d i o).
Proof. unfold Authorize. go_frame. Qed.
Hint Resolve Authorize_safe : go.

Lemma BurnNFT_safe m : safe unmetered (BurnNFT m).
Proof. unfold BurnNFT, RemoveNFT, bech32. go_frame. Qed.

Lemma GetDenomInfo_safe d : safe unmetered (GetDenomInfo d).
Proof. unfold GetDenomInfo. go_frame. Qed.
Hint Resolve GetDenomInfo_safe : go.

Lemma TransferNFT_safe m : safe unmetered (TransferNFT m).
Proof.
  unfold TransferNFT, TransferOwnership, bech32, token_metadata_changed, merge_metadata. go_frame.
Qed.

Lemma refund_token_safe cls groups t : safe unmetered (refund_token cls groups t).
Proof.
  unfold refund_token, refund_release, refund_native, erc_get, EmitEvent. pose proof BurnNFT_safe.
  pose proof TokenOwner_safe. go_frame.
Qed.

Lemma RefundPacketToken_no_error data : no_error (RefundPacketToken data).
Proof.
  unfold RefundPacketToken, refund_token, refund_release, refund_native, erc_get, erc_set, EmitEvent, EmitEvents.
  go_frame.
Qed.

(** C34: RefundPacketToken returns nil or does not return: whatever the packet
    holds and however the contracts answer, it never returns an error, so no token can
    make the callback fail and hold the others back.  The one thing that can stop it is
    the gas meter running out during an EVM call or its charge; on an infinite meter it
    always returns nil, and the meter is still infinite.  (The gas of the module's own
    reads and writes is not modelled.) *)
Theorem RefundPacketToken_never_fails data c :
  (forall e c', RefundPacketToken data c <> Err e c') /\
  (unmetered c -> exists c', RefundPacketToken data c = Ok tt c' /\ unmetered c').
Proof.
  split; [intros e c'; apply RefundPacketToken_no_error|]. intros Hc.
  destruct (safe_total unmetered (RefundPacketToken data) c) as ([] & c' & Hr); [|apply RefundPacketToken_no_error|done|eauto].
  unfold RefundPacketToken. pose proof refund_token_safe. go_frame.
Qed.
End RefundTotal.
#[export] Hint Resolve nft_write_safe EmitEvents_safe erc_set_safe Authorize_safe BurnNFT_safe
  GetDenomInfo_safe TransferNFT_safe : go.

Section RefundFacts.
Context `{EthLaws} `{!SdkLib} `{!SdkLaws} `{!NftKeeper} `{!NftLaws} `{!EvmKeeper} `{!WasmState} `{!EvmLaws}
        `{!CollectionCodec} `{!Erc721Codec} `{!Erc721CodecLaws} `{!FmtLib}.
Existing Instance app_checker.
Implicit Types (c : Ctx) (s : ErcStore).

(** The reverse entry of an NFT denotes a token whose spellings are bound to
    that NFT only. *)
Lemma reverse_binding s nu uid :
  store_ok s -> reverse s !! nu = Some uid ->
  exists a t, uid = CreateTokenUID a t /\ GetNFTFromUID uid = (t, a) /\ t <> "" /\ good_address a /\
    bindable s a t nu.
Proof.
  intros Hs Hr. apply (ix_bij _ _ Hs) in Hr as Hf. destruct (ix_wf _ _ Hs _ _ Hf) as [Hw _].
  apply wf_key_self in Hw as (a & t & -> & Ht & Ha & Hin). exists a, t.
  split; [done|]. split; [by apply uid_of_good|]. split; [done|]. split; [done|]. split.
  - intros v n Hv Hn. assert (v = CreateTokenUID a t) as -> by (by eapply (spelling_unique s a t)).
    congruence.
  - intros r Hr'. congruence.
Qed.

Lemma refund_unbind_unbound s cls t contract et s' :
  shrinks (refund_unbind cls t contract et s) s' -> unbound s' contract et cls t.
Proof.
  unfold refund_unbind. set (s1 := if et <>?s t then _ else _). intros (A & B & C).
  destruct (DeleteNFTPairByTokenID_rest (DeleteNFTPairByNFTID s1 cls t) contract et)
    as (R1 & _ & _ & _ & R2 & _). cbn in A, B, C. split_and!.
  - intros u Hu. apply A. rewrite DeleteNFTPairByTokenID_forward. by rewrite decide_True.
  - apply B. rewrite R1. cbn. apply lookup_delete_eq.
  - assert (refunds s1 !! (ToLower contract +:+ t) = None /\ refunds s1 !! (ToLower contract +:+ et) = None)
      as [Z1 Z2].
    { subst s1. destruct (et <>?s t) eqn:E; cbn; unfold refund_key; rewrite ToLower_idem.
      - rewrite !delete_lookup. repeat case_decide; done.
      - apply str_neqb_false in E. subst et. by rewrite lookup_delete_eq. }
    apply refund_gone; apply C; by rewrite R2.
Qed.

Lemma refund_unbind_ok s cls t contract et :
  store_ok s -> bindable s contract et (CreateNFTUID cls t) ->
  store_ok (refund_unbind cls t contract et s) /\
  prefixTokenPair (refund_unbind cls t contract et s) = prefixTokenPair s /\
  prefixTokenPairByERC721 (refund_unbind cls t contract et s) = prefixTokenPairByERC721 s /\
  prefixTokenPairByClass (refund_unbind cls t contract et s) = prefixTokenPairByClass s.
Proof.
  intros Hs Hb. unfold refund_unbind. set (s1 := if et <>?s t then _ else _).
  assert (forward s1 = forward s /\ reverse s1 = reverse s /\ prefixTokenPair s1 = prefixTokenPair s /\
    prefixTokenPairByERC721 s1 = prefixTokenPairByERC721 s /\
    prefixTokenPairByClass s1 = prefixTokenPairByClass s) as (E1 & E2 & E3 & E4 & E5)
    by (subst s1; by destruct (_ <>?s _)).
  destruct (DeleteNFTPairByTokenID_rest (DeleteNFTPairByNFTID s1 cls t) contract et)
    as (R1 & R2 & R3 & R4 & _). split; [|split_and!; [rewrite R2|rewrite R3|rewrite R4]; done].
  destruct Hb as [Hb1 Hb2].
  apply (unbind_index (forward s) (reverse s) (spellings contract et) (CreateNFTUID cls t)); [done..| |].
  - intros k. rewrite DeleteNFTPairByTokenID_forward. cbn. by rewrite E1.
  - intros m. rewrite R1. cbn. rewrite E2. apply delete_lookup.
Qed.

Lemma EmitEvents_nft l : frame nft_same (EmitEvents l).
Proof. by intros c. Qed.
Lemma EmitEvents_cw l : frame cw_same (EmitEvents l).
Proof. by intros c. Qed.

Lemma refund_release_ok cls t a et n b c r c' :
  refund_release cls t a et n b c = Ok r c' ->
  erc_same c c' /\ nft_same c c' /\ cw_same c c' /\
  (forall receiver, r = Some receiver -> b = false \/
     b = true /\ exists resp,
       GetEvmRefundReceiver (c_erc c) a t et <> "" /\
       receiver = HexToAddress (GetEvmRefundReceiver (c_erc c) a t et) /\
       CallEVM ModuleAddress (HexToAddress a) true "safeTransferFrom"
         [AAddr ModuleAddress; AAddr receiver; AUint n] c = Ok resp c').
Proof.
  intros Hr. assert (erc_same c c' /\ nft_same c c' /\ cw_same c c') as (E1 & E2 & E3).
  { unfold refund_release, EmitEvent, erc_get in Hr. pose proof EmitEvents_nft. pose proof EmitEvents_cw.
    split_and!; (eapply frame_ok; [|exact Hr]); go_frame. }
  do 3 (split; [done|]). intros receiver ->. unfold refund_release in Hr.
  destruct b; [|by left]. right. split; [done|]. cbn [negb] in Hr.
  apply mbind_ok in Hr as (rcv & c1 & Hg & Hr). apply gets_ok in Hg as [-> ->].
  destruct (_ =?s "") eqn:Er in Hr; [by go_simp|]. apply str_eqb_false in Er.
  apply mbind_ok in Hr as (x & c1 & Hc & Hr). apply attempt_ok in Hc. destruct x as [e|resp]; [by go_simp|].
  apply mret_ok in Hr as [[= ->] ->]. eauto.
Qed.

Lemma BurnNFT_succeeds t cls c :
  nk_GetNFT (c_nft c) cls t <> None -> nk_GetClass (c_nft c) cls <> None ->
  nk_GetOwner (c_nft c) cls t = AccModuleAddress -> app_IsConvertedNFT c cls t = false ->
  exists c', BurnNFT (MkMsgBurnNFT t cls (acc_String AccModuleAddress)) c = Ok tt c'.
Proof.
  intros Hn Hc Ho Hconv. destruct (Burn_total _ _ _ Hc Hn) as [s' Hb].
  unfold BurnNFT, bech32. cbn [mb_Sender mb_DenomId mb_Id]. rewrite AccModule_bech32.
  unfold mbind at 1. cbn [lift_opt mret]. unfold mbind at 1, RemoveNFT, Authorize, nft_write, IsConvertedNFT.
  cbn [converted_checker app_checker]. unfold mbind, gets, lift_opt, guard.
  destruct (nk_GetNFT (c_nft c) cls t); [|done]. cbn. rewrite Ho, String.eqb_refl. cbn.
  rewrite Hconv. cbn. rewrite Hb. eauto.
Qed.

Lemma refund_native_ok cls t a et g g' c r c' :
  refund_native cls t a et g g' c = Ok r c' ->
  erc_same c c' /\
  (nk_GetOwner (c_nft c) cls t <> AccModuleAddress -> c_nft c' = c_nft c /\ r = g') /\
  (nk_GetOwner (c_nft c) cls t = AccModuleAddress ->
   nk_GetNFT (c_nft c) cls t <> None -> nk_GetClass (c_nft c) cls <> None ->
   app_IsConvertedNFT c cls t = false ->
   nk_GetNFT (c_nft c') cls t = None /\ others_kept cls t (c_nft c) (c_nft c') /\ r = g').
Proof.
  intros Hr. assert (erc_same c c') as E1.
  { unfold refund_native, EmitEvent in Hr. eapply frame_ok; [|exact Hr]. go_frame. }
  split; [done|]. unfold refund_native in Hr.
  apply mbind_ok in Hr as (o & c1 & Hg & Hr). apply gets_ok in Hg as [-> ->].
  unfold keeper_GetOwner in Hr. destruct (_ =?s AccModuleAddress) eqn:Eo in Hr; cbn [negb] in Hr.
  - apply str_eqb_true in Eo. split; [done|]. intros _ Hn Hc Hconv.
    destruct (BurnNFT_succeeds _ _ _ Hn Hc Eo Hconv) as [c2 Hb].
    apply mbind_ok in Hr as (x & c1 & Ha & Hr). unfold attempt in Ha. rewrite Hb in Ha.
    apply ok_inj in Ha as [-> ->]. apply mret_ok in Hr as [-> ->].
    apply BurnNFT_ok in Hb as (_ & _ & _ & _ & Hg & Hk & _). done.
  - apply str_eqb_false in Eo. split; [|done]. intros _. go_simp.
    match goal with H : EmitEvent _ _ = _ |- _ => apply EmitEvents_ok in H as -> end. done.
Qed.

(** The refund groups, with the token added when it was returned. *)
Definition grouped g (a et t : string) (owner receiver : address) : list erc721RefundGroup :=
  if bool_decide (owner = ModuleAddress)
  then appendERC721RefundGroup g (Hex (HexToAddress a)) (Hex receiver) et t else g.

(** What a settled refund of one NFT means, from the state [c] it started in to the
    state [c'] it ended in, by way of the states in between. *)
Definition refunded cls t g c g' c' : Prop :=
  exists a et n owner receiver c1 c2,
    reverse (c_erc c) !! CreateNFTUID cls t = Some (CreateTokenUID a et) /\
    ParseEVMTokenID et = Some n /\
    (* the contract is asked for the owner first; when it names the module account, the
       token is transferred to the recorded receiver next *)
    QueryERC721TokenOwner (HexToAddress a) n c = Ok owner c1 /\
    refund_release cls t a et n (bool_decide (owner = ModuleAddress)) c1 = Ok (Some receiver) c2 /\
    (owner <> ModuleAddress \/
     owner = ModuleAddress /\ GetEvmRefundReceiver (c_erc c) a t et <> "" /\
     receiver = HexToAddress (GetEvmRefundReceiver (c_erc c) a t et) /\
     exists resp, CallEVM ModuleAddress (HexToAddress a) true "safeTransferFrom"
       [AAddr ModuleAddress; AAddr receiver; AUint n] c1 = Ok resp c2) /\
    (* then the binding is deleted, and no key of it is left; the native half ends the
       refund *)
    refund_native cls t a et g (grouped g a et t owner receiver)
      (set_erc c2 (refund_unbind cls t a et (c_erc c2))) = Ok g' c' /\
    unbound (c_erc c') a et cls t /\
    (* the escrowed NFT is burned, an NFT someone else owns is untouched *)
    (nk_GetOwner (c_nft c) cls t <> AccModuleAddress ->
     c_nft c' = c_nft c /\ g' = grouped g a et t owner receiver) /\
    (nk_GetOwner (c_nft c) cls t = AccModuleAddress -> nk_GetClass (c_nft c) cls <> None ->
     Cw721Store.GetNFTPairByClassNFTID (c_cw c) cls t = "" ->
     nk_GetNFT (c_nft c') cls t = None /\ others_kept cls t (c_nft c) (c_nft c') /\
     g' = grouped g a et t owner receiver).

(** The erc721 and x/nft stores are the same. *)
Definition skipped c c' : Prop := c_erc c' = c_erc c /\ c_nft c' = c_nft c.

Lemma skip_ok (e : Event) (g : list erc721RefundGroup) c r c' :
  (EmitEvent e ;;; mret g)%go c = Ok r c' -> skipped c c' /\ r = g.
Proof.
  intros Hr. apply mbind_ok in Hr as (u & c1 & He & Hr). apply EmitEvents_ok in He as ->.
  apply mret_ok in Hr as [-> ->]. done.
Qed.

Lemma refund_token_ok cls g t c g' c' :
  store_ok (c_erc c) -> refund_token cls g t c = Ok g' c' ->
  (skipped c c' /\ g' = g) \/
  (store_ok (c_erc c') /\ refunded cls t g c g' c' /\
   prefixTokenPair (c_erc c') = prefixTokenPair (c_erc c) /\
   prefixTokenPairByERC721 (c_erc c') = prefixTokenPairByERC721 (c_erc c) /\
   prefixTokenPairByClass (c_erc c') = prefixTokenPairByClass (c_erc c)).
Proof.
  intros Hs Hr. unfold refund_token in Hr.
  apply mbind_ok in Hr as (uid & c0 & Hg & Hr). apply gets_ok in Hg as [-> ->].
  unfold GetTokenUIDPairByNFTUID in Hr.
  destruct (reverse (c_erc c) !! CreateNFTUID cls t) as [uid|] eqn:Eu;
    [rewrite (kv_get_Some _ _ _ Eu) in Hr|rewrite (kv_get_None _ _ Eu) in Hr; left; exact (skip_ok _ _ _ _ _ Hr)].
  destruct (reverse_binding _ _ _ Hs Eu) as (a & et & -> & Hsplit & Het & Ha & Hb).
  rewrite Hsplit in Hr. destruct (_ =?s "") in Hr; [left; exact (skip_ok _ _ _ _ _ Hr)|].
  destruct (_ || _) in Hr; [left; exact (skip_ok _ _ _ _ _ Hr)|].
  destruct (ParseEVMTokenID et) as [n|] eqn:Ep; [|left; exact (skip_ok _ _ _ _ _ Hr)].
  apply mbind_ok in Hr as (has & c0 & Hg & Hr). apply gets_ok in Hg as [-> ->].
  destruct (HasNFT c cls t) eqn:Ehas; [|left; exact (skip_ok _ _ _ _ _ Hr)]. cbn [negb] in Hr.
  apply mbind_ok in Hr as (q & c1 & Hq & Hr).
  assert (gas_only c c1) as Hgas.
  { eapply frame_ok; [|exact Hq]. apply frame_attempt, TokenOwner_frame. }
  pose proof Hgas as [(Ge & Gn & _ & Gc & _) Gv].
  apply attempt_ok in Hq. destruct q as [e|owner].
  { left. apply skip_ok in Hr as [[S1 S2] ->]. unfold skipped. rewrite S1, S2. done. }
  apply mbind_ok in Hr as (rel & c2 & Hrel & Hr).
  pose proof Hrel as Hrun. apply refund_release_ok in Hrel as (R1 & R2 & R3 & Hrel). unfold erc_same, nft_same, cw_same in R1, R2, R3.
  destruct rel as [receiver|]; [|apply mret_ok in Hr as [-> ->]; left; split; [split; congruence|done]].
  right. specialize (Hrel receiver eq_refl).
  apply mbind_ok in Hr as (u & c3 & Hu & Hr). apply modify_ok in Hu as ->.
  pose proof Hr as Hnat. apply refund_native_ok in Hr as (N1 & N2 & N3). unfold erc_same in N1. cbn in N1, N2, N3.
  rewrite R1, Ge in N1. rewrite R2, Gn in N2, N3.
  destruct (refund_unbind_ok (c_erc c) cls t a et Hs Hb) as (U1 & U2 & U3 & U4). rewrite N1.
  split; [done|]. split; [|done]. exists a, et, n, owner, receiver, c1, c2. do 4 (split; [done|]).
  assert (unbound (c_erc c') a et cls t) as Hun.
  { apply (refund_unbind_unbound (c_erc c)). by rewrite N1. }
  rewrite Ge in Hrel. split; [|split; [exact Hnat|]; split; [done|split]].
  - destruct Hrel as [Hf%bool_decide_eq_false|(Ht%bool_decide_eq_true & resp & Hne & Erc & Hcall)]; [by left|].
    right. do 3 (split; [done|]). by exists resp.
  - exact N2.
  - intros Ho Hcl Hcw. apply N3; [done| |done|].
    + unfold HasNFT, nk_HasNFT in Ehas. by destruct (nk_GetNFT _ _ _).
    + unfold app_IsConvertedNFT. cbn [upd_erc set_erc c_erc c_cw]. rewrite R1, R3, Ge, Gc, Hcw.
      destruct Hun as (_ & Hrev & _). rewrite N1 in Hrev.
      unfold GetNFTPairByClassNFTID, GetTokenUIDPairByNFTUID. by rewrite (kv_get_None _ _ Hrev).
Qed.

(** C9: in a store whose index is one-to-one, the refund handles each token of a packet
    as a whole.  Either it skips the token and leaves the module's store and the NFTs as
    they were, or, step by step, the contract is asked for the owner, the ERC721 token
    is out of the module's custody (someone else owned it, or the transfer to the
    recorded receiver, made right after the answer, succeeds), the binding is deleted,
    under every spelling, and the NFT is burned when the module account owns it, its
    class exists and x/cw721 does not bind it; an NFT the module account does not own is
    left alone.  In both these cases the token is reported if it was transferred. *)
Theorem refund_token_all_or_nothing cls groups t c groups' c' :
  store_ok (c_erc c) -> refund_token cls groups t c = Ok groups' c' ->
  (skipped c c' /\ groups' = groups) \/ (store_ok (c_erc c') /\ refunded cls t groups c groups' c').
Proof. intros Hs Hr. apply refund_token_ok in Hr as [?|(? & ? & _)]; auto. Qed.

(** Refunding a whole packet keeps the index one-to-one and the registry of
    pairs as it was. *)
Lemma RefundPacketToken_keeps_invariants data c c' :
  store_ok (c_erc c) -> registry_ok (c_erc c) -> RefundPacketToken data c = Ok tt c' ->
  store_ok (c_erc c') /\ registry_ok (c_erc c') /\
  (forall p, registered (c_erc c') p <-> registered (c_erc c) p).
Proof.
  intros Hs Hreg Hr. unfold RefundPacketToken in Hr. apply mbind_ok in Hr as (g & c1 & Hl & Hr).
  assert (c_erc c' = c_erc c1) as ->.
  { destruct (nonempty g); [by apply EmitEvents_ok in Hr as ->|by apply mret_ok in Hr as [_ ->]]. }
  apply (for_acc_inv (fun _ d => store_ok (c_erc d) /\ registry_ok (c_erc d) /\
    forall p, registered (c_erc d) p <-> registered (c_erc c) p)) in Hl; [done| |done].
  intros t b d b' d' _ (I1 & I2 & I3) Ht. apply refund_token_ok in Ht
    as [[[E _] _]|(J1 & _ & J2 & J3 & J4)]; [by rewrite E| |done].
  split; [done|]. split; [by apply (registry_ext (c_erc d))|].
  intros p. rewrite <- I3. split; apply registered_ext; done.
Qed.

(** When the burn of a refunded NFT fails, the token is left out of the groups
    the refund events are built from, although its ERC721 half was released. *)
Lemma refund_burn_failure_unreported cls t a et g g' c e c1 :
  nk_GetOwner (c_nft c) cls t = AccModuleAddress ->
  BurnNFT (MkMsgBurnNFT t cls (acc_String AccModuleAddress)) c = Err e c1 ->
  exists c', refund_native cls t a et g g' c = Ok g c'.
Proof.
  intros Ho Hb. unfold refund_native, keeper_GetOwner, mbind at 1, gets. rewrite Ho, String.eqb_refl.
  cbn [negb]. unfold mbind at 1, attempt. rewrite Hb. cbn. eauto.
Qed.
End RefundFacts.
