(* ===== verification/Cw721RefundSpec.v ===== *)
(** The refund of an IBC packet by x/cw721: no token aborts it, and it settles or skips
    each token as a whole. *)
From S2P Require Import Prelude GoStrings Utf8 GoJson Sdk CollectionTypes CollectionKeeper Erc721Types.
From S2P Require Import Erc721Store App Erc721Evm Erc721Convert Erc721ConvertFacts Erc721RefundFacts.
From S2P Require Import Cw721Types Cw721Store Cw721Index Cw721Wasm Cw721Register Cw721Convert.
From S2P Require Import Cw721ConvertFacts.
Import Cw721Types Cw721Store Cw721Wasm Cw721Register Cw721Convert.
Open Scope go_scope.
Open Scope list_scope.

Section NeverFails.
Context `{EthLib} `{SdkLib} `{NftKeeper} `{!EvmKeeper} `{!WasmState} `{!WasmKeeper} `{CollectionCodec}
        `{!Cw721Codec} `{!ConvertedNFTChecker} `{FmtLib}.
Implicit Types c : Ctx.

Lemma cw_refund_no_error data : no_error (RefundPacketToken data).
Proof.
  unfold RefundPacketToken, refund_token, refund_release, refund_native, skip, EmitEvent, EmitEvents, cw_get, cw_set.
  go_frame.
Qed.

Lemma cw_set_safe f : safe unmetered (cw_set f).
Proof. by apply safe_modify. Qed.
Hint Resolve cw_set_safe : go.

(** The x/cw721 RefundPacketToken never returns an error: whatever the packet
    holds and however the contracts answer, no token aborts the callback, so no other
    token of the packet is held back; and on an infinite gas meter it returns nil. *)
Lemma cw721_refund_never_fails `{!WasmLaws} `{!SdkLaws} data c :
  (forall e c', RefundPacketToken data c <> Err e c') /\
  ((forall m, safe unmetered (wk_ExecuteContract m)) -> unmetered c ->
   exists c', RefundPacketToken data c = Ok tt c' /\ unmetered c').
Proof.
  split; [intros e c'; apply cw_refund_no_error|]. intros Hx Hc.
  destruct (safe_total unmetered (RefundPacketToken data) c) as ([] & c' & Hr); [|apply cw_refund_no_error|done|eauto].
  assert (forall a t r x, safe unmetered (TransferCw721 a t r x)) as Ht.
  { intros. unfold TransferCw721, ExecWasmMsg. go_frame. }
  unfold RefundPacketToken, refund_token, refund_release, refund_native, skip, EmitEvent, cw_get.
  pose proof cw_TokenOwner_safe. go_frame.
Qed.
End NeverFails.

Section Refund.
Context `{EthLib} `{!SdkLib} `{!SdkLaws} `{!NftKeeper} `{!NftLaws} `{!EvmKeeper} `{!WasmState} `{!WasmKeeper}
        `{!WasmLaws} `{!CollectionCodec} `{!Cw721Codec} `{!Cw721CodecLaws} `{!FmtLib}.
Existing Instance app_checker.
Implicit Types (c : Ctx) (s : CwStore).

(** ** One token *)

(** The three stores are as they were. *)
Definition cw_skipped c c' : Prop := c_cw c' = c_cw c /\ c_nft c' = c_nft c /\ c_erc c' = c_erc c.

Lemma cw_skip_ok {A} cls t extra reason (a : A) c r c' :
  (skip cls t extra reason ;;; mret a)%go c = Ok r c' -> cw_skipped c c' /\ r = a.
Proof.
  intros Hr. apply mbind_ok in Hr as (u & c1 & He & Hr). apply EmitEvents_ok in He as ->.
  apply mret_ok in Hr as [-> ->]. done.
Qed.

(** Binding, reverse entry and refund record are gone, nothing else changed. *)
Lemma cw_refund_unbind_ok s cls t a ct :
  module_ok s -> reverse s !! CreateNFTUID cls t = Some (CreateTokenUID a ct) ->
  let s' := refund_unbind cls t a ct s in
  module_ok s' /\ forward s' = delete (CreateTokenUID a ct) (forward s) /\
  reverse s' = delete (CreateNFTUID cls t) (reverse s) /\
  refunds s' = delete (a +:+ ct) (refunds s) /\ (forall q, registered s' q <-> registered s q).
Proof.
  intros [Hi Hg Hb Hr] E s'. apply (ix_bij _ Hi) in E as Ef. split; [|done]. split.
  - by apply (cw_unbind_ok s s' (CreateTokenUID a ct) (CreateNFTUID cls t)).
  - by apply (cw_registry_ext s).
  - intros k n. cbn. rewrite lookup_delete_Some. intros [_ Hk]. exact (Hb k n Hk).
  - intros k v. cbn. rewrite lookup_delete_Some. intros [_ Hk]. exact (Hr k v Hk).
Qed.

Lemma BurnNFT_err m c e c' : BurnNFT m c = Err e c' -> c_nft c' = c_nft c.
Proof.
  unfold BurnNFT, RemoveNFT, bech32, Authorize, mbind, lift_opt, gets, guard, nft_write, throw, mret. intros Hr.
  repeat (case_match; simplify_eq/=; try done).
Qed.

Lemma cw_BurnNFT_succeeds t cls c :
  nk_GetNFT (c_nft c) cls t <> None -> nk_GetClass (c_nft c) cls <> None ->
  nk_GetOwner (c_nft c) cls t = AccModuleAddress -> app_IsConvertedNFT c cls t = false ->
  exists c', BurnNFT (MkMsgBurnNFT t cls (acc_String AccModuleAddress)) c = Ok tt c'.
Proof.
  intros Hn Hc Ho Hconv. destruct (Burn_total _ _ _ Hc Hn) as [s' Hb].
  unfold BurnNFT, bech32. cbn [mb_Sender mb_DenomId mb_Id]. rewrite cw_AccModule_bech32.
  unfold mbind at 1. cbn [lift_opt mret]. unfold mbind at 1, RemoveNFT, Authorize, nft_write, IsConvertedNFT.
  cbn [converted_checker app_checker]. unfold mbind, gets, lift_opt, guard.
  destruct (nk_GetNFT (c_nft c) cls t); [|done]. cbn. rewrite Ho, String.eqb_refl. cbn.
  rewrite Hconv. cbn. rewrite Hb. eauto.
Qed.

Lemma moduleOwns_self : moduleOwnsCW721 (acc_String AccModuleAddress) = true.
Proof. unfold moduleOwnsCW721. assert (EqualFold (acc_String AccModuleAddress) (acc_String AccModuleAddress) = true)
  as -> by (by apply EqualFold_spec). done. Qed.

(** The native half: the escrowed NFT is burned, or no NFT changes. *)
Lemma cw_refund_native_ok cls t a ct c u c' :
  refund_native cls t a ct c = Ok u c' ->
  stores_same c c' /\
  (c_nft c' = c_nft c \/
   (nk_GetOwner (c_nft c) cls t = AccModuleAddress /\ app_IsConvertedNFT c cls t = false /\
    nk_GetNFT (c_nft c') cls t = None /\ others_kept cls t (c_nft c) (c_nft c'))) /\
  (nk_GetOwner (c_nft c) cls t = AccModuleAddress -> nk_GetNFT (c_nft c) cls t <> None ->
   nk_GetClass (c_nft c) cls <> None -> app_IsConvertedNFT c cls t = false ->
   nk_GetNFT (c_nft c') cls t = None).
Proof.
  intros Hr. unfold refund_native in Hr. apply mbind_ok in Hr as (has & c0 & Hg & Hr). apply gets_ok in Hg as [-> ->].
  destruct (HasNFT c cls t) eqn:Eh; cbn [negb] in Hr.
  2:{ apply EmitEvents_ok in Hr as ->. split; [done|]. split; [by left|]. intros _ Hn. exfalso. apply Hn.
      unfold HasNFT, nk_HasNFT in Eh. by destruct (nk_GetNFT _ _ _). }
  apply mbind_ok in Hr as (o & c0 & Hg & Hr). apply gets_ok in Hg as [-> ->].
  destruct (moduleOwnsCW721 _) eqn:Eo; cbn [negb] in Hr.
  2:{ apply EmitEvents_ok in Hr as ->. split; [done|]. split; [by left|]. intros Ho. exfalso.
      unfold keeper_GetOwner in Eo. by rewrite Ho, moduleOwns_self in Eo. }
  apply mbind_ok in Hr as (b & c1 & Hb & Hr). apply attempt_ok in Hb. destruct b as [e|y].
  - apply EmitEvents_ok in Hr as ->.
    assert (stores_same c c1) as Hs.
    { assert (frame erc_same (BurnNFT (MkMsgBurnNFT t cls (acc_String AccModuleAddress)))) as F1 by apply BurnNFT_erc.
      assert (frame cw_same (BurnNFT (MkMsgBurnNFT t cls (acc_String AccModuleAddress)))) as F2.
      { pose proof EmitEvents_cw. unfold BurnNFT, RemoveNFT, bech32, Authorize. go_frame.
        intros d. unfold nft_write. by destruct (nk_Burn _ _ _). }
      specialize (F1 c). specialize (F2 c). rewrite Hb in F1, F2. done. }
    split; [done|]. split; [left; by apply BurnNFT_err in Hb|]. intros Ho Hn Hc Hx.
    destruct (cw_BurnNFT_succeeds _ _ _ Hn Hc Ho Hx) as [c2 E]. congruence.
  - apply mret_ok in Hr as [_ ->]. apply BurnNFT_ok in Hb as (src & Hs & Ho & Hx & Hg & Hk & Hn).
    cbn - [IsConvertedNFT] in *. rewrite cw_AccModule_bech32 in Hs. injection Hs as <-.
    split; [by apply nft_only_stores|]. split; [right; done|done].
Qed.

(** The CW721 half, from [c] to [c']: the token is not the module's, or its transfer to
    the recorded receiver, made in [c], succeeds and ends in [c']. *)
Definition cw_released t a ct (g : list refundGroup) owner c g' c' : Prop :=
  (moduleOwnsCW721 owner = false /\ g' = g) \/
  (moduleOwnsCW721 owner = true /\ exists receiver resp,
     receiver = GetCwAddressByContractTokenId (c_cw c) a ct /\ receiver <> "" /\
     TransferCw721 a ct receiver (acc_String AccModuleAddress) c = Ok resp c' /\
     g' = appendToRefundGroups g a receiver ct t).

Lemma cw_refund_release_ok cls t a ct g owner c r c' :
  quiet a -> refund_release cls t a ct g (moduleOwnsCW721 owner) c = Ok r c' ->
  cw_skipped c c' /\ forall g', r = Some g' -> cw_released t a ct g owner c g' c'.
Proof.
  unfold refund_release, cw_released. intros Hquiet Hr. destruct (moduleOwnsCW721 owner); cbn [negb] in Hr.
  - apply mbind_ok in Hr as (rc & c0 & Hg & Hr). apply gets_ok in Hg as [-> ->].
    destruct (_ =?s "") eqn:Er in Hr; [apply cw_skip_ok in Hr as [? ->]; done|]. apply str_eqb_false in Er.
    apply mbind_ok in Hr as (x & c1 & Hx & Hr).
    assert (wasm_only c c1) as (E1 & E2 & E3).
    { eapply frame_ok; [|exact Hx]. by apply frame_attempt, TransferCw721_frame. }
    apply attempt_ok in Hx. destruct x as [e|resp].
    + apply cw_skip_ok in Hr as [(S1 & S2 & S3) ->]. split; [unfold cw_skipped; split_and!; congruence|done].
    + apply mret_ok in Hr as [-> ->]. split; [done|]. intros g' [= <-]. right. split; [done|].
      by exists (GetCwAddressByContractTokenId (c_cw c) a ct), resp.
  - apply cw_skip_ok in Hr as [? ->]. split; [done|]. intros g' [= <-]. by left.
Qed.

(** What a settled refund of one NFT means, from the state [c] it started in to the
    state [c'] it ended in, by way of the states in between. *)
Definition cw_refunded cls t g c g' c' : Prop :=
  exists a ct owner c1 c2,
    reverse (c_cw c) !! CreateNFTUID cls t = Some (CreateTokenUID a ct) /\
    (* the contract is asked for the owner first, and the token is out of the module's
       custody *)
    QueryCW721TokenOwner a ct c = Ok owner c1 /\
    refund_release cls t a ct g (moduleOwnsCW721 owner) c1 = Ok (Some g') c2 /\
    cw_released t a ct g owner c1 g' c2 /\ cw_skipped c c1 /\ cw_skipped c1 c2 /\
    (* then the binding and the refund record go, and the native half ends the refund *)
    refund_native cls t a ct (set_cw c2 (refund_unbind cls t a ct (c_cw c2))) = Ok tt c' /\
    (* binding and refund record are gone, nothing else in the store changed *)
    c_cw c' = refund_unbind cls t a ct (c_cw c) /\ c_erc c' = c_erc c /\
    (* the escrowed NFT is burned, or no NFT changed *)
    (c_nft c' = c_nft c \/
     (nk_GetOwner (c_nft c) cls t = AccModuleAddress /\ nk_GetNFT (c_nft c') cls t = None /\
      others_kept cls t (c_nft c) (c_nft c'))) /\
    (nk_GetOwner (c_nft c) cls t = AccModuleAddress -> nk_GetNFT (c_nft c) cls t <> None ->
     nk_GetClass (c_nft c) cls <> None -> Erc721Store.GetNFTPairByClassNFTID (c_erc c) cls t = "" ->
     nk_GetNFT (c_nft c') cls t = None).

(** The contract of the token the NFT is bound to is quiet; so it is when the contracts
    of all pairs are. *)
Definition quiet_binding c cls t : Prop :=
  forall a ct, reverse (c_cw c) !! CreateNFTUID cls t = Some (CreateTokenUID a ct) ->
    ContainsByte a "," = false -> quiet a.

Lemma cw_split_uid uid a ct : GetNFTFromUID uid = (ct, a) -> ct <> "" -> uid = CreateTokenUID a ct.
Proof. intros Hs Hc. by destruct (uid_split uid ct a Hs Hc) as (-> & ? & ?). Qed.

Definition quiet_registered s : Prop := forall p, registered s p -> quiet (Cw721Address p).

Lemma quiet_registered_binding c cls t :
  module_ok (c_cw c) -> quiet_registered (c_cw c) -> quiet_binding c cls t.
Proof.
  intros Hm Hq a ct Hr Ha. apply (ix_bij _ (mo_index _ Hm)) in Hr.
  destruct (mo_bound _ Hm _ _ Hr) as (p & t' & nft & Hp & Ek & Hn).
  pose proof (cw_registered_canonical _ _ (mo_registry _ Hm) Hp) as Hc.
  apply uid_inj in Ek as [_ ->]; [by apply Hq|done|by eapply Normalize_chars].
Qed.

Lemma cw_refund_token_ok cls g t c g' c' :
  module_ok (c_cw c) -> quiet_binding c cls t -> refund_token cls g t c = Ok g' c' ->
  (cw_skipped c c' /\ g' = g) \/ (module_ok (c_cw c') /\ cw_refunded cls t g c g' c').
Proof.
  intros Hm Hquiet Hr. unfold refund_token in Hr.
  apply mbind_ok in Hr as (uid & c0 & Hg & Hr). apply gets_ok in Hg as [-> ->].
  set (uid := GetTokenUIDPairByNFTUID _ _) in Hr.
  destruct (uid =?s "") eqn:Eu; [left; exact (cw_skip_ok _ _ _ _ _ _ _ _ Hr)|]. apply str_eqb_false in Eu.
  destruct (GetNFTFromUID uid) as [ct a] eqn:Es.
  destruct (_ || _) eqn:Ee in Hr; [left; exact (cw_skip_ok _ _ _ _ _ _ _ _ Hr)|].
  apply orb_false_iff in Ee as [Ect%str_eqb_false Ea%str_eqb_false].
  assert (reverse (c_cw c) !! CreateNFTUID cls t = Some (CreateTokenUID a ct)) as Erev.
  { rewrite <- (cw_split_uid uid a ct Es Ect). apply (reverse_get (c_cw c)); [apply Hm|done|done]. }
  apply mbind_ok in Hr as (q & c1 & Hq & Hr).
  assert (wasm_query c c1) as [(Q1 & Q2 & Q3) Q4].
  { eapply frame_ok; [|exact Hq]. apply frame_attempt, cw_TokenOwner_frame. }
  apply attempt_ok in Hq. destruct q as [e|owner].
  { left. apply cw_skip_ok in Hr as [(S1 & S2 & S3) ->]. split; [unfold cw_skipped; split_and!; congruence|done]. }
  apply mbind_ok in Hr as (rel & c2 & Hrel & Hr). pose proof Hrel as Hrun.
  apply cw_refund_release_ok in Hrel as [(R1 & R2 & R3) Hrel]; [|by eapply Hquiet, (uid_split uid ct a)].
  destruct rel as [g1|]; [|apply mret_ok in Hr as [-> ->]; left; split; [unfold cw_skipped; split_and!; congruence|done]].
  specialize (Hrel g1 eq_refl). right.
  apply mbind_ok in Hr as (u1 & c3 & Hu & Hr). apply modify_ok in Hu as ->.
  apply mbind_ok in Hr as ([] & c3 & Hn & Hr). apply mret_ok in Hr as [-> ->]. pose proof Hn as Hnat.
  apply cw_refund_native_ok in Hn as ([N1 N2] & N3 & N4). cbn in N1, N2, N3, N4.
  rewrite R1, Q3 in N2. rewrite R2, Q2 in N3, N4. rewrite R3, Q1 in N1.
  destruct (cw_refund_unbind_ok (c_cw c) cls t a ct Hm Erev) as (U1 & U2 & U3 & U4 & _).
  rewrite N2. split; [done|]. exists a, ct, owner, c1, c2. split_and!; try done.
  - destruct N3 as [N3|(A1 & _ & A3 & A4)]; [by left|right; done].
  - intros Ho Hn Hc He. apply N4; try done. unfold app_IsConvertedNFT. cbn [upd_cw set_cw c_erc c_cw].
    rewrite R1, R3, Q1, Q3, He. cbn. unfold GetNFTPairByClassNFTID, GetTokenUIDPairByNFTUID, kv_get.
    by rewrite U3, lookup_delete_eq.
Qed.

(** C6: in a store that satisfies the invariants, and when the contract the NFT is bound
    to is quiet (its execution, failed or not, sends no message that reaches x/nft,
    x/erc721 or x/cw721), the x/cw721 refund handles a token of a packet as a whole.
    Either it skips the token and leaves the module's store, the x/erc721 store and the
    NFTs as they were, or, step by step, the contract is asked for the owner, the CW721
    token leaves the module's custody (the contract named another owner, or the transfer
    to the recorded receiver succeeds right after and is reported), the binding, both
    ways, and the refund record are deleted, and the NFT, when the module account owns
    it, its class exists and x/erc721 does not bind it, is burned; no other NFT
    changes. *)
Theorem cw721_refund_all_or_nothing cls groups t c groups' c' :
  module_ok (c_cw c) -> quiet_binding c cls t -> refund_token cls groups t c = Ok groups' c' ->
  (cw_skipped c c' /\ groups' = groups) \/ (module_ok (c_cw c') /\ cw_refunded cls t groups c groups' c').
Proof. apply cw_refund_token_ok. Qed.
End Refund.
