(* ===== verification/Erc721SettleFacts.v ===== *)
(** The voucher settlement (SettleIBCVoucherPairs): it cannot fail, it leaves what
    it keeps untouched, it hands a wrapped voucher to the account that held the
    ERC721 half, and it keeps the invariants of the store. *)
From S2P Require Import Prelude GoStrings Utf8 Sdk CollectionTypes CollectionKeeper Erc721Types.
From S2P Require Import Erc721Store Erc721Index Erc721Genesis Erc721Registry Erc721Purge.
From S2P Require Import Erc721Export App Erc721Evm Erc721Msg Erc721Register Erc721Convert.
From S2P Require Import Erc721Settle Erc721ConvertFacts Erc721ConvertSpec Erc721RefundFacts.
Open Scope go_scope.
Open Scope list_scope.

Section SettleTotal.
Context `{EthLib} `{SdkLib} `{NftKeeper} `{!EvmKeeper} `{!WasmState} `{CollectionCodec} `{Erc721Codec}
        `{!ConvertedNFTChecker} `{!SdkLaws} `{!EvmLaws}.

Lemma cached_safe m : safe unmetered m -> safe unmetered (cached m).
Proof. intros Hm c Hc. unfold cached. specialize (Hm c Hc). by destruct (m c) as [[]| |]. Qed.
Lemma cached_no_error m : no_error m -> no_error (cached m).
Proof. intros Hm c e c'. unfold cached. destruct (m c) as [[]|e1 c1|] eqn:Em; [done..| |done]. by apply Hm in Em. Qed.

Lemma GetNFT_safe d i : safe unmetered (GetNFT d i).
Proof. unfold GetNFT. go_frame. Qed.
Hint Resolve GetNFT_safe cached_safe cached_no_error : go.

Lemma settleVoucherBinding_safe b : safe unmetered (settleVoucherBinding b).
Proof.
  unfold settleVoucherBinding, settleWrapped, settleOrphan, deleteBinding. go_frame; (apply cached_safe; go_frame).
Qed.

Lemma Settle_safe : safe unmetered SettleIBCVoucherPairs.
Proof.
  unfold SettleIBCVoucherPairs, settle_pair, settle_step, purge_counted.
  pose proof settleVoucherBinding_safe. go_frame.
Qed.

Lemma settleVoucherBinding_no_error b : no_error (settleVoucherBinding b).
Proof.
  unfold settleVoucherBinding, settleWrapped, settleOrphan, deleteBinding, erc_set.
  go_frame; (apply cached_no_error; go_frame).
Qed.

Lemma Settle_no_error : no_error SettleIBCVoucherPairs.
Proof.
  unfold SettleIBCVoucherPairs, settle_pair, settle_step, purge_counted, erc_set.
  pose proof settleVoucherBinding_no_error. go_frame.
Qed.

(** C35: the settlement always completes: it returns no error, and on the infinite gas
    meter an upgrade runs with it does not panic, so the upgrade handler that runs it
    cannot halt the chain, whatever the contracts answer. *)
Theorem SettleIBCVoucherPairs_never_fails c :
  (forall e c', SettleIBCVoucherPairs c <> Err e c') /\
  (unmetered c -> exists k c', SettleIBCVoucherPairs c = Ok k c').
Proof.
  split; [intros e c'; apply Settle_no_error|]. intros Hc.
  destruct (safe_total unmetered SettleIBCVoucherPairs c Settle_safe Settle_no_error Hc) as (k & c' & Hr & _). eauto.
Qed.
End SettleTotal.

Section SettleFacts.
Context `{EthLaws} `{!SdkLib} `{!SdkLaws} `{!NftKeeper} `{!NftLaws} `{!EvmKeeper} `{!WasmState} `{!EvmLaws}
        `{!CollectionCodec} `{!Erc721Codec} `{!Erc721CodecLaws} `{!ConvertedNFTChecker}.
Implicit Types (c : Ctx) (s : ErcStore).

(** Nothing but the gas meter differs. *)
Definition untouched c c' : Prop :=
  c_erc c' = c_erc c /\ c_nft c' = c_nft c /\ c_evm c' = c_evm c /\ c_events c' = c_events c.

Lemma gas_only_untouched c c' : gas_only c c' -> untouched c c'.
Proof. intros [(? & ? & ? & _) ?]. done. Qed.

Lemma untouched_trans c1 c2 c3 : untouched c1 c2 -> untouched c2 c3 -> untouched c1 c3.
Proof. intros (? & ? & ? & ?) (? & ? & ? & ?). split_and!; congruence. Qed.

Definition erased s (b : voucherBinding) : ErcStore :=
  deleteVoucherBindingKeys s (vb_contract b) (vb_tokenID b) (vb_classID b) (vb_nftID b).

Lemma outcome_cached m c o c' :
  (committed <- cached m ;; mret (outcome_of committed))%go c = Ok o c' ->
  (o = settledOutcome /\ m c = Ok true c') \/
  (o = keptOutcome /\ untouched c c').
Proof.
  intros Hr. apply mbind_ok in Hr as (b & c1 & Hc & Hr). apply mret_ok in Hr as [-> ->].
  unfold cached in Hc. destruct (m c) as [[] c2|e c2|] eqn:E; [| |done..].
  - apply ok_inj in Hc as [-> ->]. by left.
  - apply ok_inj in Hc as [-> ->]. by right.
Qed.

Lemma settleWrapped_ok b a n owner c o c' :
  settleWrapped b a n owner c = Ok o c' ->
  (o = keptOutcome /\ untouched c c') \/
  (o = settledOutcome /\ c_erc c' = erased (c_erc c) b /\
   nk_GetOwner (c_nft c) (vb_classID b) (vb_nftID b) = AccModuleAddress /\
   nk_GetOwner (c_nft c') (vb_classID b) (vb_nftID b) = addr_bytes owner /\
   others_kept (vb_classID b) (vb_nftID b) (c_nft c) (c_nft c') /\
   exists c1 resp, CallEVM owner a true "burn" [AUint n] c = Ok resp c1).
Proof.
  intros Hr. apply outcome_cached in Hr as [[-> Hr]|[-> Hr]]; [right|by left]. split; [done|].
  apply mbind_ok in Hr as (r & c1 & Hb & Hr). apply attempt_ok in Hb. destruct r as [e|resp]; [by go_simp|].
  pose proof (frame_ok _ _ _ _ _ (CallEVM_frame _ _ _ _ _) Hb) as (Ee & En & _).
  apply mbind_ok in Hr as (r & c2 & Hn & Hr).
  assert (c2 = c1) as ->.
  { apply attempt_ok in Hn. unfold GetNFT in Hn. destruct r.
    - apply mbind_err in Hn as [Hn|(x & c3 & G1 & G2)]; [done|]. apply gets_ok in G1 as [-> ->].
      destruct (nk_GetNFT _ _ _); [done|]. by injection G2.
    - by go_simp. }
  destruct r as [e|nft]; [by go_simp|].
  apply mbind_ok in Hr as (r & c2 & Ht & Hr). apply attempt_ok in Ht. destruct r as [e|u]; [by go_simp|].
  apply mbind_ok in Hr as (u2 & c3 & Hd & Hr). apply modify_ok in Hd as ->. apply mret_ok in Hr as [_ ->].
  apply TransferNFT_ok in Ht as (src & dst & Hs & Hd & Ho & Ho' & _ & Hk & (F1 & _) & _).
  cbn in Hs, Hd, Ho, Ho', Hk. rewrite AccModule_bech32 in Hs. injection Hs as <-.
  destruct (address_bytes owner) as [_ Hlen].
  rewrite bech32_roundtrip in Hd by first [lia | intros Hz; by rewrite Hz in Hlen].
  injection Hd as <-. cbn. rewrite F1, Ee. rewrite En in Ho, Hk.
  split_and!; try done. eauto.
Qed.

Lemma settleOrphan_ok b a n c o c' :
  settleOrphan b a n c = Ok o c' ->
  (o = keptOutcome /\ untouched c c') \/
  (o = settledOutcome /\ c_erc c' = erased (c_erc c) b /\ c_nft c' = c_nft c).
Proof.
  intros Hr. apply outcome_cached in Hr as [[-> Hr]|[-> Hr]]; [right|by left]. split; [done|].
  apply mbind_ok in Hr as (r & c1 & Hb & Hr). apply attempt_ok in Hb. destruct r as [e|resp]; [by go_simp|].
  pose proof (frame_ok _ _ _ _ _ (CallEVM_frame _ _ _ _ _) Hb) as (Ee & En & _).
  apply mbind_ok in Hr as (u2 & c3 & Hd & Hr). apply modify_ok in Hd as ->. apply mret_ok in Hr as [_ ->].
  cbn. by rewrite Ee, En.
Qed.

(** The classification of one binding and what was done for it. *)
Definition settled_case c (b : voucherBinding) (o : settleOutcome) c' : Prop :=
  let native := nk_GetOwner (c_nft c) (vb_classID b) (vb_nftID b) in
  match o with
  | keptOutcome => untouched c c'
  | staleClearedOutcome =>
      native = "" /\ c_erc c' = erased (c_erc c) b /\ c_nft c' = c_nft c /\ c_evm c' = c_evm c
  | settledOutcome =>
      exists n owner, ParseEVMTokenID (vb_tokenID b) = Some n /\ IsHexAddress (vb_contract b) = true /\
        reports_owner c (HexToAddress (vb_contract b)) n owner /\ c_erc c' = erased (c_erc c) b /\
        ( (* wrapped *)
         (native = AccModuleAddress /\ owner <> zero_address /\ owner <> ModuleAddress /\
          has_code (c_evm c) owner = false /\
          nk_GetOwner (c_nft c') (vb_classID b) (vb_nftID b) = addr_bytes owner /\
          others_kept (vb_classID b) (vb_nftID b) (c_nft c) (c_nft c')) \/
         (* orphan *)
         (native = "" /\ owner = ModuleAddress /\ c_nft c' = c_nft c))
  end.

Lemma settleVoucherBinding_ok b c o c' :
  settleVoucherBinding b c = Ok o c' -> settled_case c b o c'.
Proof.
  intros Hr. unfold settleVoucherBinding in Hr.
  apply mbind_ok in Hr as (nat & c0 & Hg & Hr). apply gets_ok in Hg as [-> ->]. unfold keeper_GetOwner in Hr.
  destruct (ParseEVMTokenID (vb_tokenID b)) as [n|] eqn:Ep; [|by apply mret_ok in Hr as [-> ->]].
  destruct (IsHexAddress (vb_contract b)) eqn:Eh; cbn [negb] in Hr; [|by apply mret_ok in Hr as [-> ->]].
  apply mbind_ok in Hr as (r & c1 & Hq & Hr).
  assert (gas_only c c1) as Hgas.
  { eapply frame_ok; [|exact Hq]. apply frame_attempt, TokenOwner_frame. }
  pose proof (gas_only_untouched _ _ Hgas) as Hun. pose proof Hun as (Ge & Gn & Gv & Gev).
  apply attempt_ok in Hq. destruct r as [e|owner]; [by apply mret_ok in Hr as [-> ->]|].
  apply mbind_ok in Hr as (ev & c2 & Hg & Hr). apply gets_ok in Hg as [-> ->].
  assert (reports_owner c (HexToAddress (vb_contract b)) n owner) as Hrep by (by exists c, c1).
  set (none := bool_decide (owner = zero_address)) in *.
  set (modl := bool_decide (owner = ModuleAddress)) in *.
  set (nativeNone := nk_GetOwner (c_nft c) _ _ =?s "") in *.
  set (nativeMod := nk_GetOwner (c_nft c) _ _ =?s AccModuleAddress) in *.
  destruct (negb none && negb (negb none && modl) && has_code (c_evm c1) owner) eqn:Ec;
    [by apply mret_ok in Hr as [-> ->]|].
  destruct (_ && (negb nativeNone && nativeMod)) eqn:E1 in Hr.
  { apply settleWrapped_ok in Hr as [[-> Hu]|(-> & F1 & F2 & F3 & F4 & _)];
      [by eapply untouched_trans|]. rewrite Ge in F1. rewrite Gn in F2, F4.
    apply andb_true_iff in E1 as [E1 _]. apply andb_true_iff in E1 as [E1 E2].
    rewrite E1 in E2, Ec. cbn in E2, Ec. rewrite E2, Gv in Ec. cbn in Ec. exists n, owner. do 4 (split; [done|]). left.
    apply negb_true_iff in E1, E2.
    apply bool_decide_eq_false in E1, E2. by split_and!. }
  destruct (_ && nativeNone) eqn:E2 in Hr.
  { apply settleOrphan_ok in Hr as [[-> Hu]|(-> & F1 & F2)]; [by eapply untouched_trans|].
    rewrite Ge in F1. rewrite Gn in F2. apply andb_true_iff in E2 as [E2 E3%str_eqb_true].
    apply andb_true_iff in E2 as [_ E2%bool_decide_eq_true].
    exists n, owner. do 4 (split; [done|]). right. done. }
  destruct (nativeNone && _) eqn:E3 in Hr; [|by apply mret_ok in Hr as [-> ->]].
  apply andb_true_iff in E3 as [E3%str_eqb_true _].
  apply mbind_ok in Hr as (u & c2 & Hd & Hr). apply modify_ok in Hd as ->. apply mret_ok in Hr as [-> ->].
  unfold settled_case. cbn. rewrite Ge, Gn, Gv. done.
Qed.

(** C18: settling one binding does exactly one of three things.  A kept binding
    leaves every store as it was.  A stale one had no native NFT: its keys are
    removed, nothing else.  A settled one had either its native voucher in the
    module's escrow, which then belongs to the very account the contract reported
    as the owner of the ERC721 half (never to a contract), or no native NFT and
    an ERC721 half held by the module; its keys are removed. *)
Theorem settleVoucherBinding_outcomes b c o c' :
  settleVoucherBinding b c = Ok o c' ->
  settled_case c b o c' /\
  (o <> keptOutcome ->
   unbound (c_erc c') (vb_contract b) (vb_tokenID b) (vb_classID b) (vb_nftID b)).
Proof.
  intros Hr%settleVoucherBinding_ok. split; [done|]. intros Ho.
  apply (deleteVoucherBindingKeys_unbound (c_erc c)). fold (erased (c_erc c) b).
  destruct o; [|destruct Hr as (_ & -> & _); reflexivity|done].
  destruct Hr as (n & owner & _ & _ & _ & -> & _). reflexivity.
Qed.

(** ** The whole pass *)

Definition ibc_class (nftUID : string) : bool := IsIBCDenom (snd (GetNFTFromUID nftUID)).

(** What is true of every store the pass goes through, started from [s0]. *)
Record pass_ok s0 s : Prop := {
  po_index : store_ok s;
  po_registry : registry_ok s;
  po_fwd t n : forward s !! t = Some n -> forward s0 !! t = Some n;
  po_rev n t : reverse s !! n = Some t -> reverse s0 !! n = Some t;
  po_reg q : registered s q -> registered s0 q;
  po_native q : registered s0 q -> IsIBCDenom (tp_ClassId q) = false -> registered s q;
  po_bound t n : bindings_registered s0 ->
    forward s0 !! t = Some n -> ibc_class n = false -> forward s !! t = Some n;
}.

Lemma class_bindings_spec s0 cls b :
  b ∈ class_bindings s0 cls ->
  vb_classID b = cls /\
  GetNFTFromUID (CreateNFTUID cls (vb_nftID b)) = (vb_nftID b, cls) /\
  GetNFTFromUID (CreateTokenUID (vb_contract b) (vb_tokenID b)) = (vb_tokenID b, vb_contract b) /\
  reverse s0 !! CreateNFTUID cls (vb_nftID b) = Some (CreateTokenUID (vb_contract b) (vb_tokenID b)).
Proof.
  unfold class_bindings. rewrite list_elem_of_omap. intros ([nu tu] & Hin & Hb).
  apply elem_of_kv_iter in Hin. destruct (GetNFTFromUID nu) as [nft c1] eqn:En.
  destruct (GetNFTFromUID tu) as [t a] eqn:Et. destruct (_ || _) eqn:E0 in Hb; [done|].
  destruct (String.eqb_spec c1 cls) as [->|]; [|done]. injection Hb as <-. cbn.
  apply orb_false_iff in E0 as [E0 _]. apply orb_false_iff in E0 as [E0 E1%str_eqb_false].
  apply orb_false_iff in E0 as [E0%str_eqb_false _].
  pose proof (uid_split _ _ _ En E0) as (Enu & _). pose proof (uid_split _ _ _ Et E1) as (Etu & _).
  unfold CreateNFTUID, CreateTokenUID. rewrite <- Enu, <- Etu. done.
Qed.

Lemma erased_pass s0 s b :
  store_ok s0 -> pass_ok s0 s -> IsIBCDenom (vb_classID b) = true ->
  b ∈ class_bindings s0 (vb_classID b) -> pass_ok s0 (erased s b).
Proof.
  intros Hs0 [Hi Hr Hf Hv Hg Hn Hb] Hibc Hin.
  apply class_bindings_spec in Hin as (_ & Enu & Etu & Hrev).
  destruct (reverse_binding _ _ _ Hs0 Hrev) as (a & t & Eu & Es & Ht & Ha & [B1 B2]).
  rewrite Etu in Es. injection Es as <- <-.
  assert (bindable s (vb_contract b) (vb_tokenID b) (CreateNFTUID (vb_classID b) (vb_nftID b))) as Hbd.
  { split; [intros v n Hv' Hn'; by eapply B1, Hf|intros r Hr'; by apply B2, Hv]. }
  pose proof (deleteVoucherBindingKeys_ok _ _ _ _ _ Hi Hbd) as Hi'.
  destruct (DeleteNFTPairByTokenID_rest s (vb_contract b) (vb_tokenID b)) as (R1 & R2 & R3 & R4 & _).
  assert (prefixTokenPair (erased s b) = prefixTokenPair s) as Ep by apply R2.
  split.
  - exact Hi'.
  - eapply registry_ext; [exact R2|exact R3|exact R4|exact Hr].
  - intros k n. cbn. rewrite DeleteNFTPairByTokenID_forward. case_decide; [done|apply Hf].
  - intros k n. cbn. rewrite R1, delete_lookup. case_decide; [done|apply Hv].
  - intros q Hq. apply Hg. by apply (registered_ext _ _ _ (eq_sym Ep)).
  - intros q Hq Hc. apply (registered_ext _ _ _ Ep). auto.
  - intros k n Hbr Hk Hc. cbn. rewrite DeleteNFTPairByTokenID_forward. case_decide as Hsp; [|auto].
    exfalso. pose proof (B1 _ _ Hsp Hk) as ->. unfold ibc_class in Hc. rewrite Enu in Hc.
    cbn [snd] in Hc. congruence.
Qed.

Lemma settle_binding_pass s0 b c o c' :
  store_ok s0 -> pass_ok s0 (c_erc c) -> IsIBCDenom (vb_classID b) = true ->
  b ∈ class_bindings s0 (vb_classID b) -> settleVoucherBinding b c = Ok o c' -> pass_ok s0 (c_erc c').
Proof.
  intros Hs0 Hp Hi Hin Hr%settleVoucherBinding_ok. pose proof (erased_pass _ _ _ Hs0 Hp Hi Hin) as He.
  destruct o; [|by destruct Hr as (_ & -> & _)|by destruct Hr as [-> _]].
  by destruct Hr as (n & owner & _ & _ & _ & -> & _).
Qed.

Lemma purge_pass s0 s tp :
  registry_ok s0 -> pass_ok s0 s -> registered s tp ->
  IsIBCDenom (tp_ClassId tp) = true -> pass_ok s0 (PurgeTokenPair s tp).
Proof.
  intros Hr0 [Hi Hr Hf Hv Hg Hn Hb] Htp Hibc.
  pose proof (fun k n => purge_forward s tp k n Hi) as Hpf.
  pose proof (purge_store_ok s tp Hi) as Hi'. split.
  - done.
  - by apply purge_registry_ok.
  - intros k n Hk. apply Hf. by apply Hpf in Hk as [Hk _].
  - intros n k Hk. apply Hv, (ix_bij _ _ Hi). apply (ix_bij _ _ Hi') in Hk. by apply Hpf in Hk as [Hk _].
  - intros q Hq. apply Hg. by apply (purge_registered s tp q Hr Htp) in Hq as [Hq _].
  - intros q Hq Hc. apply (purge_registered s tp q Hr Htp). split; [auto|]. intros ->. congruence.
  - intros k n Hbr Hk Hc. apply Hpf. split; [auto|]. unfold of_pair, ibc_class in *.
    intros [Heq|Heq]; [|rewrite Heq in Hc; congruence].
    pose proof (Hbr _ _ Hk) as Hbel. unfold UIDBelongsToRegisteredPair in Hbel.
    destruct (_ || _) in Hbel; [done|]. apply existsb_spec in Hbel as (q & Hq & Hbel).
    apply andb_true_iff in Hbel as [Hb1%EqualFold_spec Hb2%str_eqb_true].
    apply EqualFold_spec in Heq. apply elem_of_GetTokenPairs in Hq; [|done].
    assert (q = tp) as ->; [|congruence]. apply (registered_contract s0); auto.
    assert (forall x, registered s0 x -> ToLower (Erc721Address x) = Erc721Address x) as Hlow.
    { intros x Hx. rewrite (registered_canonical s0 x Hr0 Hx). apply ToLower_idem. }
    rewrite !Hlow in * by auto. unfold GetERC721Contract. congruence.
Qed.

Lemma settle_bindings_pass s0 cls bs k cl c k' cl' c' :
  store_ok s0 -> pass_ok s0 (c_erc c) -> IsIBCDenom cls = true ->
  (forall b, b ∈ bs -> b ∈ class_bindings s0 cls) ->
  for_acc bs (k, cl) settle_step c = Ok (k', cl') c' ->
  pass_ok s0 (c_erc c') /\ (forall q, registered (c_erc c) q <-> registered (c_erc c') q) /\
  cl' + n_kept k' = List.length bs + cl + n_kept k /\ n_kept k <= n_kept k'.
Proof.
  intros Hs0 Hp Hi. revert k cl c Hp. induction bs as [|b bs IH]; intros k cl c Hp Hin Hr.
  { apply ok_inj in Hr as [[= -> ->] ->]. cbn. split_and!; auto; lia. }
  apply mbind_ok in Hr as ([k1 cl1] & c1 & Hb & Hr).
  apply mbind_ok in Hb as (o & c2 & Hb & Hret). apply mret_ok in Hret as [[= -> ->] ->].
  assert (b ∈ class_bindings s0 cls) as Hb' by (apply Hin; by left).
  assert (vb_classID b = cls) as Ecl by (by destruct (class_bindings_spec _ _ _ Hb')).
  assert (pass_ok s0 (c_erc c2)) as Hp2
    by (eapply settle_binding_pass; [done|exact Hp|by rewrite Ecl|by rewrite Ecl|exact Hb]).
  assert (prefixTokenPair (c_erc c2) = prefixTokenPair (c_erc c)) as Ep.
  { apply settleVoucherBinding_ok in Hb.
    assert (prefixTokenPair (erased (c_erc c) b) = prefixTokenPair (c_erc c)) as <-
      by (destruct (DeleteNFTPairByTokenID_rest (c_erc c) (vb_contract b) (vb_tokenID b)) as (_ & R & _); exact R).
    destruct o; [destruct Hb as (n & ow & _ & _ & _ & -> & _); done|destruct Hb as (_ & -> & _); done|].
    destruct Hb as [-> _]. symmetry.
    destruct (DeleteNFTPairByTokenID_rest (c_erc c) (vb_contract b) (vb_tokenID b)) as (_ & R & _). exact R. }
  apply IH in Hr as (A & B & C & D); [|done|intros x Hx; apply Hin; by right].
  split; [done|]. split; [intros q; rewrite <- B; unfold registered; by rewrite Ep|].
  destruct o; cbn in *; lia.
Qed.

Lemma settle_pair_pass s0 k tp c k' c' :
  store_ok s0 -> registry_ok s0 ->
  pass_ok s0 (c_erc c) -> registered (c_erc c) tp -> settle_pair s0 k tp c = Ok k' c' ->
  pass_ok s0 (c_erc c') /\
  (forall q, registered (c_erc c) q -> q <> tp -> registered (c_erc c') q) /\
  (forall q, registered (c_erc c') q -> registered (c_erc c) q) /\
  n_kept k <= n_kept k' /\
  (IsIBCDenom (tp_ClassId tp) = true -> n_kept k' = n_kept k -> ~ registered (c_erc c') tp).
Proof.
  intros Hs0 Hr0 Hp Htp Hr. unfold settle_pair in Hr.
  destruct (IsIBCDenom (tp_ClassId tp)) eqn:Ei; cbn [negb] in Hr;
    [|apply mret_ok in Hr as [-> ->]; by split_and!].
  assert (forall k c k' c', pass_ok s0 (c_erc c) -> registered (c_erc c) tp ->
            purge_counted tp k c = Ok k' c' ->
            pass_ok s0 (c_erc c') /\
            (forall q, registered (c_erc c') q <-> registered (c_erc c) q /\ q <> tp) /\
            n_kept k' = n_kept k /\ ~ registered (c_erc c') tp) as Hpurge.
  { clear Hp Htp Hr k c k' c'. intros k c k' c' Hp Htp Hr. apply mbind_ok in Hr as (u & c1 & Hu & Hr).
    apply modify_ok in Hu as ->. apply mret_ok in Hr as [-> ->]. cbn.
    pose proof (po_registry _ _ Hp) as Hreg. split; [by apply purge_pass|].
    split; [intros q; by apply purge_registered|]. split; [done|].
    intros Hq. by apply purge_registered in Hq as [_ Hq]. }
  destruct (class_bindings s0 (tp_ClassId tp)) as [|b bs] eqn:Eb.
  { apply Hpurge in Hr as (A & B & C & D); [|done..]. split_and!; auto; try lia; intros; by apply B. }
  apply mbind_ok in Hr as ([k1 cl] & c1 & Hl & Hr).
  apply (settle_bindings_pass s0 (tp_ClassId tp)) in Hl as (A & B & C & D);
    [|done..|intros x Hx; by rewrite Eb].
  destruct (Nat.eqb_spec cl (List.length (b :: bs))) as [E|E].
  - apply Hpurge in Hr as (A' & B' & C' & D'); [|done|by apply B].
    split_and!; auto; try lia.
    + intros q Hq Hne. apply B'. by rewrite <- B.
    + intros q Hq. apply B' in Hq as [Hq _]. by apply B.
  - apply mret_ok in Hr as [-> ->]. split_and!; auto; try (intros; by apply B).
    intros _ Ek. exfalso. lia.
Qed.

Lemma settle_pairs_pass s0 ps k c k' c' :
  store_ok s0 -> registry_ok s0 -> NoDup ps ->
  pass_ok s0 (c_erc c) -> (forall tp, tp ∈ ps -> registered (c_erc c) tp) ->
  for_acc ps k (settle_pair s0) c = Ok k' c' ->
  pass_ok s0 (c_erc c') /\ (forall q, registered (c_erc c') q -> registered (c_erc c) q) /\
  n_kept k <= n_kept k' /\
  (n_kept k' = n_kept k -> forall tp, tp ∈ ps -> IsIBCDenom (tp_ClassId tp) = true ->
   ~ registered (c_erc c') tp).
Proof.
  intros Hs0 Hr0. revert k c. induction ps as [|p ps IH]; intros k c Hnd Hp Hall Hr.
  { apply ok_inj in Hr as [-> ->]. split_and!; auto. intros _ tp Htp. by apply not_elem_of_nil in Htp. }
  apply mbind_ok in Hr as (k1 & c1 & Hb & Hr). apply NoDup_cons in Hnd as [Hn Hnd].
  apply settle_pair_pass in Hb as (A & B & C & D & E); [|auto..|apply Hall; by left].
  apply IH in Hr as (A' & C' & D' & E'); [|done..|].
  2:{ intros tp Htp. apply B; [apply Hall; by right|]. by intros ->. }
  split; [done|]. split; [auto|]. split; [lia|]. intros Hk tp Htp Hi Hq.
  apply elem_of_cons in Htp as [->|Htp].
  - apply E; [done|lia|auto].
  - apply (E' ltac:(lia) tp); auto.
Qed.

Lemma pass_start s0 : store_ok s0 -> registry_ok s0 -> pass_ok s0 s0.
Proof. by split. Qed.

Lemma SettleIBCVoucherPairs_ok c k c' :
  store_ok (c_erc c) -> registry_ok (c_erc c) -> SettleIBCVoucherPairs c = Ok k c' ->
  pass_ok (c_erc c) (c_erc c') /\
  (n_kept k = 0 -> forall tp, registered (c_erc c') tp -> IsIBCDenom (tp_ClassId tp) = false).
Proof.
  intros Hs Hr Hrun. apply mbind_ok in Hrun as (s0 & c0 & Hg & Hrun). apply gets_ok in Hg as [-> ->].
  apply settle_pairs_pass in Hrun as (A & B & _ & D); [|done..| | |].
  - split; [done|]. intros Hk tp Htp. destruct (IsIBCDenom (tp_ClassId tp)) eqn:Ei; [|done].
    exfalso. apply (D Hk tp); auto. apply elem_of_GetTokenPairs; auto.
  - apply (NoDup_fmap_1 GetID), GetTokenPairs_nodup; [done|]. intros p q. apply registered_id.
  - by apply pass_start.
  - intros tp. by apply elem_of_GetTokenPairs.
Qed.

(** C19: the settlement keeps the invariants of the index and of the pair table,
    only removes records, keeps every pair of a class that is not an IBC voucher
    and, if all bindings belonged to registered pairs, every binding of such a
    class; when it reports no kept binding no voucher pair is registered
    afterwards. *)
Theorem SettleIBCVoucherPairs_correct c k c' :
  store_ok (c_erc c) -> registry_ok (c_erc c) -> SettleIBCVoucherPairs c = Ok k c' ->
  pass_ok (c_erc c) (c_erc c') /\
  (n_kept k = 0 -> forall tp, registered (c_erc c') tp -> IsIBCDenom (tp_ClassId tp) = false).
Proof. apply SettleIBCVoucherPairs_ok. Qed.
End SettleFacts.
