(* ===== verification/Guard.v ===== *)
(** The burn guard of the application at work: no operation of x/collection, x/internft or
    x/erc721 takes away an NFT that a conversion module's index binds to a contract token
    (here the index of x/cw721; for x/cw721 and the index of x/erc721 see Cw721Chain.v),
    because burns ask both indexes first. *)
From S2P Require Import Prelude GoStrings Utf8 GoJson Sdk CollectionTypes CollectionKeeper CollectionSpec.
From S2P Require Import Erc721Types Erc721Store App Erc721Evm Erc721Msg Erc721Register Erc721Convert.
From S2P Require Import Erc721Settle Erc721ConvertFacts Erc721ConvertSpec Erc721RefundFacts InterNft.
From S2P Require Import Cw721Types Cw721Store Cw721Wasm Cw721Register Cw721Convert.
Open Scope go_scope.
Open Scope list_scope.

(** A module's part of the context, and the NFTs it binds; the guard refuses the burn of
    those, and no write of x/nft, event or gas charge changes that part. *)
Class BurnGuard `{EthLib} `{SdkLib} `{NftKeeper} `{!EvmKeeper} `{!WasmState} `{!ConvertedNFTChecker}
  {S : Type} (get : Ctx -> S) (bound : S -> string -> string -> bool) : Prop := {
  bg_nft c x : get (set_nft c x) = get c;
  bg_events c x : get (set_events c x) = get c;
  bg_gas c x : get (set_gas c x) = get c;
  bg_guard c cls nft : IsConvertedNFT c cls nft = false -> bound (get c) cls nft = false;
}.

Section Guarded.
Context `{EthLaws} `{!SdkLib} `{!SdkLaws} `{!NftKeeper} `{!NftLaws} `{!EvmKeeper} `{!WasmState} `{!EvmLaws}
        `{!CollectionCodec} `{!ConvertedNFTChecker}.
Context {S : Type} (get : Ctx -> S) (bound : S -> string -> string -> bool) `{!BurnGuard get bound}.
Implicit Types c : Ctx.

(** The module's part is as before, and the NFTs it binds keep an owner. *)
Definition guarded c c' : Prop :=
  get c' = get c /\
  forall cls nft, bound (get c) cls nft = true ->
    nk_GetOwner (c_nft c) cls nft <> "" -> nk_GetOwner (c_nft c') cls nft <> "".

#[global] Instance guarded_preorder : PreOrder guarded.
Proof.
  split; [done|]. intros c1 c2 c3 [E1 G1] [E2 G2]. split; [congruence|]. intros cls nft Hb Ho.
  apply G2; [by rewrite E1|]. by apply G1.
Qed.

Lemma same_nft_guarded c c' : get c' = get c -> c_nft c' = c_nft c -> guarded c c'.
Proof. intros E En. split; [done|]. by rewrite En. Qed.

(** A write of x/nft that leaves every owned NFT owned. *)
Lemma nft_write_guarded f :
  (forall s s' cls nft, f s = inr s' -> nk_GetOwner s cls nft <> "" -> nk_GetOwner s' cls nft <> "") ->
  frame guarded (nft_write f).
Proof.
  intros Hf c. unfold nft_write. destruct (f (c_nft c)) as [e|s'] eqn:E; [done|].
  split; [apply bg_nft|]. intros cls nft _. by apply Hf.
Qed.

Lemma EmitEvents_guarded l : frame guarded (EmitEvents l).
Proof. intros c. apply same_nft_guarded; [apply bg_events|done]. Qed.
Lemma run_check_guarded r : frame guarded (run_check r).
Proof. intros c. by destruct r. Qed.
Lemma cached_guarded m : frame guarded m -> frame guarded (cached m).
Proof.
  intros Hm c. unfold cached. specialize (Hm c). destruct (m c) as [[] ?|?|]; try done;
    (apply same_nft_guarded; [apply bg_gas|done]).
Qed.

Lemma SaveClass_guarded cl : frame guarded (nft_write (fun s => nk_SaveClass s cl)).
Proof. apply nft_write_guarded. intros s s' cls nft (_ & _ & _ & E)%SaveClass_spec. by rewrite E. Qed.
Lemma UpdateClass_guarded cl : frame guarded (nft_write (fun s => nk_UpdateClass s cl)).
Proof. apply nft_write_guarded. intros s s' cls nft (_ & _ & _ & E)%UpdateClass_spec. by rewrite E. Qed.
Lemma Update_guarded n : frame guarded (nft_write (fun s => nk_Update s n)).
Proof. apply nft_write_guarded. intros s s' cls nft (_ & _ & E & _)%Update_spec. by rewrite E. Qed.
Hint Resolve EmitEvents_guarded run_check_guarded SaveClass_guarded UpdateClass_guarded Update_guarded : go.

Lemma Mint_guarded n r : frame guarded (nft_write (fun s => nk_Mint s n r)).
Proof.
  apply nft_write_guarded. intros s s' cls nft (_ & Hn & _ & _ & E)%Mint_spec Ho. rewrite E.
  case_decide as Hd; [|done]. injection Hd as -> ->. by apply GetOwner_none in Hn.
Qed.
Lemma Transfer_guarded d i r : r <> "" -> frame guarded (nft_write (fun s => nk_Transfer s d i r)).
Proof.
  intros Hr. apply nft_write_guarded. intros s s' cls nft (_ & _ & _ & E)%Transfer_spec Ho. rewrite E.
  by case_decide.
Qed.
Hint Resolve Mint_guarded Transfer_guarded : go.

Lemma GetDenomInfo_guarded d : frame guarded (GetDenomInfo d).
Proof. unfold GetDenomInfo. go_frame. Qed.
Lemma GetNFT_guarded d i : frame guarded (GetNFT d i).
Proof. unfold GetNFT. go_frame. Qed.
Lemma Authorize_guarded d i o : frame guarded (Authorize d i o).
Proof. unfold Authorize. go_frame. Qed.
Lemma merge_metadata_guarded t n d : frame guarded (merge_metadata t n d).
Proof. unfold merge_metadata. go_frame. Qed.
Hint Resolve GetDenomInfo_guarded GetNFT_guarded Authorize_guarded merge_metadata_guarded : go.
Lemma SaveDenom_guarded a b sc d e f g h i j k : frame guarded (SaveDenom a b sc d e f g h i j k).
Proof. unfold SaveDenom. go_frame. Qed.
Hint Resolve SaveDenom_guarded : go.

Lemma IssueDenom_guarded m : frame guarded (IssueDenom m).
Proof. unfold IssueDenom, bech32. go_frame. Qed.
Lemma MintNFT_guarded m : frame guarded (MintNFT m).
Proof. unfold MintNFT, SaveNFT, bech32. go_frame. Qed.
Lemma EditNFT_guarded m : frame guarded (EditNFT m).
Proof. unfold EditNFT, UpdateNFT, bech32. go_frame. Qed.
Lemma TransferDenom_guarded m : frame guarded (TransferDenom m).
Proof. unfold TransferDenom, TransferDenomOwner, bech32. go_frame. Qed.

(** What follows a parse only runs on what was parsed. *)
Lemma frame_lift_opt_bind {A B} (o : option A) e (k : A -> GoM B) :
  (forall a, o = Some a -> frame guarded (k a)) -> frame guarded (mbind (lift_opt o e) k).
Proof. intros Hk. destruct o as [a|]; [|by intros c]. intros c. apply (Hk a eq_refl c). Qed.

(** An NFT is transferred to an account that parses, so it keeps an owner. *)
Lemma TransferNFT_guarded m : frame guarded (TransferNFT m).
Proof.
  unfold TransferNFT, bech32. apply frame_bind; [apply _|go_frame|intros src].
  apply frame_lift_opt_bind. intros dst [Hd _]%bech32_nonempty.
  unfold TransferOwnership, token_metadata_changed. go_frame.
Qed.

(** A burn asks the guard first. *)
Lemma guarded_burn cls nft e :
  frame guarded
    (converted <- gets (fun c => IsConvertedNFT c cls nft) ;;
     guard (negb converted) e ;;; nft_write (fun s => nk_Burn s cls nft)).
Proof.
  intros c. unfold mbind, gets, guard. destruct (IsConvertedNFT c cls nft) eqn:Hg; cbn; [done|].
  unfold nft_write. destruct (nk_Burn (c_nft c) cls nft) as [e'|s'] eqn:E; [done|].
  split; [apply bg_nft|]. intros cl i Hb Ho. apply Burn_spec in E as (_ & _ & _ & E). cbn. rewrite E.
  case_decide as Hd; [|done]. injection Hd as -> ->. apply bg_guard in Hg. congruence.
Qed.
Hint Resolve guarded_burn : go.

Lemma BurnNFT_guarded m : frame guarded (BurnNFT m).
Proof.
  unfold BurnNFT, bech32, RemoveNFT. apply frame_bind; [apply _|go_frame|intros src].
  apply frame_bind; [apply _| |intros _; auto with go].
  apply frame_bind; [apply _|go_frame|intros c0]. apply frame_bind; [apply _|go_frame|intros n].
  apply frame_bind; [apply _|auto with go|intros _]. apply guarded_burn.
Qed.
Lemma InterNft_Burn_guarded d i : frame guarded (InterNft.Burn d i).
Proof.
  unfold InterNft.Burn. apply frame_bind; [apply _|go_frame|intros has].
  destruct (negb has); [auto with go|]. apply guarded_burn.
Qed.
End Guarded.
#[export] Hint Resolve run_check_guarded GetDenomInfo_guarded GetNFT_guarded : go.

(** [go_frame] for [guarded get bound], with what the operations of x/collection keep. *)
Ltac guard_frame get bound :=
  pose proof (EmitEvents_guarded get bound); pose proof (SaveDenom_guarded get bound);
  pose proof (MintNFT_guarded get bound); pose proof (TransferNFT_guarded get bound);
  pose proof (BurnNFT_guarded get bound); go_frame.

(** ** The two modules *)
Section Modules.
Context `{EthLaws} `{!SdkLib} `{!SdkLaws} `{!NftKeeper} `{!NftLaws} `{!EvmKeeper} `{!WasmState} `{!EvmLaws}
        `{!CollectionCodec} `{!Erc721Codec} `{!Cw721Store.Cw721Codec} `{!FmtLib}.
#[local] Existing Instance app_checker.
Implicit Types c : Ctx.

Definition erc_bound (s : ErcStore) (cls nft : string) : bool := GetNFTPairByClassNFTID s cls nft <>?s "".
Definition cw_bound (s : CwStore) (cls nft : string) : bool :=
  Cw721Store.GetNFTPairByClassNFTID s cls nft <>?s "".

#[global] Instance erc_guard : BurnGuard c_erc erc_bound.
Proof. split; try done. intros c cls nft [Hc _]%orb_false_iff. exact Hc. Qed.
#[global] Instance cw_guard : BurnGuard c_cw cw_bound.
Proof. split; try done. intros c cls nft [_ Hc]%orb_false_iff. exact Hc. Qed.

(** *** x/erc721 leaves the NFTs bound by x/cw721 alone *)
Notation cw_guarded := (guarded c_cw cw_bound).

Lemma erc_set_guarded f : frame cw_guarded (erc_set f).
Proof. by intros c. Qed.
Lemma erc_try_guarded f : frame cw_guarded (erc_try f).
Proof. intros c. unfold erc_try. by destruct (f (c_erc c)). Qed.
Lemma evm_guarded {A} (m : GoM A) : frame evm_only m -> frame cw_guarded m.
Proof. apply frame_sub. intros c c' (_ & E1 & _ & E2 & _). by apply same_nft_guarded. Qed.
Lemma query_guarded {A} (m : GoM A) : frame gas_only m -> frame cw_guarded m.
Proof. intros Hm. apply evm_guarded. eapply frame_sub; [|exact Hm]. by intros c c' []. Qed.
Lemma CallEVM_guarded f t b m l : frame cw_guarded (CallEVM f t b m l).
Proof. apply evm_guarded, CallEVM_frame. Qed.
Lemma CallEVMWithData_guarded f t d b : frame cw_guarded (CallEVMWithData f t d b).
Proof. apply evm_guarded, CallEVMWithData_frame. Qed.
Hint Resolve erc_set_guarded erc_try_guarded query_guarded CallEVM_guarded CallEVMWithData_guarded : go.

Lemma Deploy_guarded cl : frame cw_guarded (DeployERC721Contract cl).
Proof. unfold DeployERC721Contract. guard_frame c_cw cw_bound. apply wrap_as_frame; [apply _|auto with go]. Qed.
Lemma GetContract_guarded m : frame cw_guarded (GetContractAddressAndTokenIds m).
Proof. unfold GetContractAddressAndTokenIds. pose proof Deploy_guarded. guard_frame c_cw cw_bound. Qed.
Lemma RegisterNFT_guarded m : frame cw_guarded (RegisterNFT m).
Proof. unfold RegisterNFT. guard_frame c_cw cw_bound. Qed.
Lemma RegisterERC721_guarded m : frame cw_guarded (RegisterERC721 m).
Proof. unfold RegisterERC721, CreateNFTClass. guard_frame c_cw cw_bound. Qed.
Hint Resolve GetContract_guarded RegisterNFT_guarded RegisterERC721_guarded : go.

Lemma convertCosmos2Evm_guarded tp m r : frame cw_guarded (convertCosmos2Evm tp m r).
Proof. unfold convertCosmos2Evm, check_batch, cosmos2evm_token, parseERC721TokenID, erc_get. guard_frame c_cw cw_bound. Qed.
Hint Resolve convertCosmos2Evm_guarded : go.
Lemma ConvertNFT_guarded m : frame cw_guarded (ConvertNFT m).
Proof. unfold ConvertNFT, erc_get. guard_frame c_cw cw_bound. Qed.
Lemma ConvertERC721_guarded m : frame cw_guarded (ConvertERC721 m).
Proof.
  unfold ConvertERC721, convertEvm2Cosmos, check_batch, evm2cosmos_token, parseERC721TokenID, erc_get.
  guard_frame c_cw cw_bound; apply wrap_as_frame; auto with go; apply _.
Qed.
Lemma UpdateParams_guarded m : frame cw_guarded (UpdateParams m).
Proof. unfold UpdateParams. guard_frame c_cw cw_bound. Qed.
Lemma Refund_guarded data : frame cw_guarded (RefundPacketToken data).
Proof. unfold RefundPacketToken, refund_token, refund_release, refund_native, erc_get, EmitEvent. guard_frame c_cw cw_bound. Qed.
Lemma Settle_guarded : frame cw_guarded SettleIBCVoucherPairs.
Proof.
  unfold SettleIBCVoucherPairs, settle_pair, settle_step, settleVoucherBinding, settleWrapped,
    settleOrphan, purge_counted, deleteBinding. guard_frame c_cw cw_bound; apply (cached_guarded c_cw cw_bound); guard_frame c_cw cw_bound.
Qed.
End Modules.
