(* ===== verification/Cw721Chain.v ===== *)
(** x/cw721 as part of the chain's state machine: what its handlers keep of the x/nft
    store, and that each of them preserves the invariant of the module's store together
    with the fact that every NFT the index binds has an owner. *)
From S2P Require Import Prelude GoStrings Utf8 GoJson Sdk CollectionTypes CollectionKeeper Erc721Types.
From S2P Require Import App Erc721Evm InterNft NftInvariant Guard Cw721Types Cw721Store Cw721Index.
From S2P Require Import Cw721Wasm Cw721Register Cw721Convert Cw721ConvertFacts Cw721ConvertSpec Cw721RefundSpec.
Import Cw721Types Cw721Store Cw721Wasm Cw721Register Cw721Convert.
Open Scope go_scope.
Open Scope list_scope.

(** ** What the handlers keep *)

(** A relation between contexts that the steps of the handlers respect: what contracts
    and the module do outside the stores of x/nft and x/erc721, and the messages of
    x/collection they run. *)
Class CwKeeps `{EthLib} `{!SdkLib} `{!NftKeeper} `{!EvmKeeper} `{!WasmState} `{!CollectionCodec}
  `{!ConvertedNFTChecker} (R : Ctx -> Ctx -> Prop) : Prop := {
  ck_preorder : PreOrder R;
  ck_wasm c c' : wasm_only c c' -> R c c';
  ck_cw c s : R c (set_cw c s);
  ck_save a b sc d e f g h i j k : frame R (SaveDenom a b sc d e f g h i j k);
  ck_mint m : frame R (MintNFT m);
  ck_transfer m : frame R (TransferNFT m);
  ck_burn m : frame R (BurnNFT m);
}.
#[export] Existing Instance ck_preorder.

Section Handlers.
Context `{EthLib} `{!SdkLib} `{!SdkLaws} `{!NftKeeper} `{!NftLaws} `{!EvmKeeper} `{!WasmState} `{!WasmKeeper}
        `{!WasmLaws} `{!CollectionCodec} `{!Cw721Codec} `{!Cw721CodecLaws} `{!ConvertedNFTChecker}
        `{!IbcKeeper} `{!FmtLib}.
Context (R : Ctx -> Ctx -> Prop) `{!CwKeeps R}.
Implicit Types c : Ctx.

Lemma emit_keeps l : frame R (EmitEvents l).
Proof. intros c. by apply ck_wasm. Qed.
Lemma cw_set_keeps f : frame R (cw_set f).
Proof. intros c. apply ck_cw. Qed.
Lemma cw_try_keeps f : frame R (cw_try f).
Proof. intros c. unfold cw_try. destruct (f (c_cw c)); [by apply ck_wasm|apply ck_cw]. Qed.
Lemma wasm_keeps {A} (m : GoM A) : frame wasm_only m -> frame R m.
Proof. apply frame_sub. intros c c'. apply ck_wasm. Qed.
Lemma wasm_query_keeps {A} (m : GoM A) : frame wasm_query m -> frame R m.
Proof. intros Hm. apply wasm_keeps. eapply frame_sub; [apply wasm_query_only|exact Hm]. Qed.
Lemma run_check_keeps r : frame R (run_check r).
Proof. intros c. by destruct r; apply ck_wasm. Qed.
Lemma cw_GetNFT_keeps d i : frame R (GetNFT d i).
Proof. unfold GetNFT. go_frame. Qed.
Lemma skipped_keeps c c' : cw_skipped c c' -> R c c'.
Proof. intros (? & ? & ?). by apply ck_wasm. Qed.

Ltac keeps_frame :=
  pose proof (fun a t => wasm_query_keeps _ (AllNftInfo_frame a t));
  pose proof (fun a => wasm_query_keeps _ (QueryCW721_frame a));
  pose proof (fun d => wasm_query_keeps _ (GetDenomInfo_wasm d));
  pose proof emit_keeps; pose proof cw_set_keeps; pose proof cw_try_keeps; pose proof run_check_keeps;
  pose proof cw_GetNFT_keeps; pose proof (ck_save (R := R)); pose proof (ck_mint (R := R));
  pose proof (ck_transfer (R := R)); pose proof (ck_burn (R := R)); go_frame.

(** The contract calls of a message whose contract is quiet. *)
Ltac quiet_frame Hq :=
  pose proof (fun t r x => wasm_keeps _ (TransferCw721_frame _ t r x Hq));
  pose proof (fun t r x => wasm_keeps _ (MintCw721_frame _ t r x Hq)); keeps_frame.

Lemma RegisterCW721_keeps a b : frame R (RegisterCW721 a b).
Proof. unfold RegisterCW721, CreateNFTClass, write_pair. keeps_frame. Qed.
Lemma RegisterNFT_keeps a b : frame R (RegisterNFT a b).
Proof. unfold RegisterNFT, write_pair. keeps_frame. Qed.
Lemma convertWasm2Cosmos_keeps m : quiet (cc_ContractAddress m) -> frame R (convertWasm2Cosmos m).
Proof.
  intros Hq. unfold convertWasm2Cosmos, wasm2cosmos_token, save_pairs, cw_get.
  quiet_frame Hq; apply wrap_as_frame; auto with go; apply _.
Qed.
Lemma convertCosmos2Wasm_keeps m : quiet (cn_ContractAddress m) -> frame R (convertCosmos2Wasm m).
Proof.
  intros Hq. unfold convertCosmos2Wasm, check_batch, cosmos2wasm_token, save_pairs, cw_get. quiet_frame Hq.
Qed.

Lemma ConvertCW721_keeps msg c r c' :
  module_ok (c_cw c) -> no_collision (c_cw c) msg -> quiet_source msg -> ConvertCW721 msg c = Ok r c' -> R c c'.
Proof.
  intros Hm Hd Hq Hr. apply ConvertCW721_prefix in Hr as (_ & m & c1 & Hp & Hc & _ & Ha & _); [|done..].
  transitivity c1; [|by eapply frame_ok, Hc; apply convertWasm2Cosmos_keeps, Hq].
  destruct Hp as [->|(cls & tp & Hp)]; [done|]. eapply frame_ok, Hp. apply RegisterCW721_keeps.
Qed.

Lemma cw_ConvertNFT_keeps msg c u c' :
  module_ok (c_cw c) -> deploys_distinct c (cn_ClassId msg) -> quiet_class c (cn_ClassId msg) ->
  ConvertNFT msg c = Ok u c' -> R c c'.
Proof.
  intros Hm Hd Hq Hr. apply cw_ConvertNFT_prefix in Hr as (_ & a & ts & c1 & Hp & Hc & Hqa & _); [|done..].
  transitivity c1; [|by eapply frame_ok, Hc; apply convertCosmos2Wasm_keeps].
  destruct Hp as [->|(b & c0 & tp & Hb & Hp)]; [done|]. transitivity c0; [apply ck_wasm, (proj2 Hq _ _ Hb)|].
  eapply frame_ok, Hp. apply RegisterNFT_keeps.
Qed.

Lemma cw_UpdateParams_keeps m : frame R (UpdateParams m).
Proof. unfold UpdateParams. keeps_frame. Qed.

Lemma refund_native_keeps cls t a ct : frame R (refund_native cls t a ct).
Proof. unfold refund_native, skip, EmitEvent. keeps_frame. Qed.
End Handlers.

(** ** The invariant *)
Section Invariant.
Context `{EthLaws} `{!SdkLib} `{!SdkLaws} `{!NftKeeper} `{!NftLaws} `{!EvmKeeper} `{!WasmState} `{!EvmLaws}
        `{!WasmKeeper} `{!WasmLaws} `{!CollectionCodec} `{!Erc721Store.Erc721Codec} `{!Cw721Codec}
        `{!Cw721CodecLaws} `{!IbcKeeper} `{!FmtLib}.
#[local] Existing Instance app_checker.
Implicit Types (c : Ctx) (s : CwStore).

(** The store is consistent, and every NFT bound to a CW721 token has an owner. *)
Record cw_ok c : Prop := {
  cw_module : module_ok (c_cw c);
  cw_owned nu t : reverse (c_cw c) !! nu = Some t ->
    exists cls nft, nu = CreateNFTUID cls nft /\ nk_GetOwner (c_nft c) cls nft <> "";
}.

Lemma cw_guarded_ok c c' : cw_ok c -> guarded c_cw cw_bound c c' -> cw_ok c'.
Proof.
  intros Hok [E Hg]. split; [rewrite E; apply Hok|]. intros nu t. rewrite E. intros Hr.
  destruct (cw_owned _ Hok _ _ Hr) as (cls & nft & -> & Ho). exists cls, nft. split; [done|].
  apply Hg; [|done]. unfold cw_bound, GetNFTPairByClassNFTID, GetTokenUIDPairByNFTUID, kv_get. rewrite Hr.
  pose proof (mo_index _ (cw_module _ Hok)) as Hi. apply (ix_bij _ Hi) in Hr.
  by destruct (forward_nonempty _ _ _ Hi Hr) as [?%str_neqb_true _].
Qed.

(** A batch was bound, and its NFTs have an owner. *)
Lemma batch_ok c c' contract cls ids :
  cw_ok c -> module_ok (c_cw c') -> batch_bound (c_cw c) contract cls ids (c_cw c') ->
  (forall nft, nft ∈ ids.*2 -> nk_GetOwner (c_nft c') cls nft <> "") ->
  (forall cl nft, (cl <> cls \/ nft ∉ ids.*2) -> nk_GetOwner (c_nft c') cl nft = nk_GetOwner (c_nft c) cl nft) ->
  cw_ok c'.
Proof.
  intros Hok Hm (Hb & _ & Hr) Hown Hother. split; [done|]. intros nu t Hnu.
  destruct (decide (nu ∈ CreateNFTUID cls <$> ids.*2)) as [Hin|Hin].
  - apply list_elem_of_fmap in Hin as (nft & -> & Hin). eauto.
  - rewrite Hr in Hnu by done. destruct (cw_owned _ Hok _ _ Hnu) as (cl & nft & -> & Ho). exists cl, nft.
    split; [done|]. rewrite Hother; [done|]. destruct (decide (cl = cls)) as [->|]; [right|by left].
    intros Hn. by apply Hin, list_elem_of_fmap_2.
Qed.

Lemma parsed_owned str o : AccAddressFromBech32 str = Some o -> o <> "".
Proof. by intros [? _]%bech32_nonempty. Qed.
Lemma cw_module_account : AccModuleAddress <> "".
Proof. eapply parsed_owned, cw_AccModule_bech32. Qed.

Lemma ConvertCW721_cw msg c r c' :
  cw_ok c -> no_collision (c_cw c) msg -> quiet_source msg -> ConvertCW721 msg c = Ok r c' -> cw_ok c'.
Proof.
  intros Hok Hd Hq Hr. apply ConvertCW721_ok in Hr
    as (_ & _ & _ & _ & _ & _ & Hlen & _ & _ & Hm & _ & Hown & Hb & Hother & _); [|apply Hok|done..].
  destruct (combine_both _ _ Hlen) as [_ L2].
  apply (batch_ok c c' _ _ _ Hok Hm Hb); rewrite L2; [|done].
  intros nft Hin. by eapply parsed_owned, Hown.
Qed.

Lemma ConvertNFT_cw msg c u c' :
  cw_ok c -> deploys_distinct c (cn_ClassId msg) -> quiet_class c (cn_ClassId msg) ->
  ConvertNFT msg c = Ok u c' -> cw_ok c'.
Proof.
  intros Hok Hd Hq Hr. apply cw_ConvertNFT_ok in Hr
    as (a & ts & _ & _ & Hlen & _ & _ & Hm & _ & Hown & _ & Hb & Hother & _); [|apply Hok|done..].
  destruct (combine_both _ _ Hlen) as [_ L2].
  apply (batch_ok c c' _ _ _ Hok Hm Hb); rewrite L2; [|done].
  intros nft Hin. destruct (Hown nft Hin) as [_ ->]. apply cw_module_account.
Qed.

Lemma UpdateParams_cw msg c u c' : cw_ok c -> UpdateParams msg c = Ok u c' -> cw_ok c'.
Proof.
  intros [[Hi Hg Hb Hf] Ho] Hr. apply mbind_ok in Hr as (x & c1 & Hx & Hr). apply guard_ok in Hx as [_ ->].
  apply mbind_ok in Hr as (y & c1 & Hx & Hr). apply run_check_ok in Hx as [_ ->].
  apply cw_try_ok in Hr as (s & Hs & ->). unfold SetParams in Hs. destruct (Marshal_Params _); [done|].
  injection Hs as <-. destruct (_ =? 0)%Z; (split; [|exact Ho]);
    (split; [by apply (index_ext (c_cw c))|by apply (cw_registry_ext (c_cw c))|exact Hb|exact Hf]).
Qed.

(** Recording the refund receivers of tokens of a registered contract. *)
Lemma record_receivers_module s (p : TokenPair) tokens v :
  module_ok s -> registered s p -> v <> "" -> "" ∉ tokens ->
  module_ok (upd_Refund (fun m => fold_left (fun m t => <[Cw721Address p +:+ t := v]> m) tokens m) s).
Proof.
  intros [Hi Hg Hb Hf] Hp Hv Ht. split; [by apply (index_ext s)|by apply (cw_registry_ext s)|exact Hb|].
  intros k w. cbn. rewrite fold_receivers. case_decide as Hin; [|apply Hf]. intros [= <-]. split; [done|].
  apply list_elem_of_fmap in Hin as (t & -> & Hin). exists p, t. split; [exact Hp|]. split; [by intros ->|done].
Qed.

(** The conversion a transfer makes. *)
Definition transfer_conversion (msg : MsgTransferCW721) (a : string) : MsgConvertCW721 :=
  MkMsgConvertCW721 a (tc_CwTokenIds msg) (acc_String AccModuleAddress) (tc_CwSender msg)
    (tc_ClassId msg) (tc_CosmosTokenIds msg).

(** Its contract is quiet, and no pair it can get collides with another one. *)
Definition transfer_admissible c (msg : MsgTransferCW721) : Prop :=
  forall a, NormalizeCW721Address (tc_CwContractAddress msg) = inr a ->
    quiet a /\ no_collision (c_cw c) (transfer_conversion msg a).

Lemma transfer_quiet c msg a :
  transfer_admissible c msg -> NormalizeCW721Address (tc_CwContractAddress msg) = inr a ->
  quiet_source (transfer_conversion msg a) /\ no_collision (c_cw c) (transfer_conversion msg a).
Proof.
  intros Ht Ha. destruct (Ht a Ha) as [Hq Hd]. split; [|done]. intros b. cbn.
  rewrite (Normalize_idem _ _ Ha). by intros [= <-].
Qed.

Lemma TransferCW721_cw msg c u c' :
  (forall m d v d', ibc_Transfer m d = Ok v d' -> guarded c_cw cw_bound d d') ->
  cw_ok c -> "" ∉ tc_CwTokenIds msg -> transfer_admissible c msg ->
  TransferCW721 msg c = Ok u c' -> cw_ok c'.
Proof.
  intros Hibc Hok Ht Hadm Hr. apply TransferCW721_ok in Hr as (a & r & c1 & c2 & Ha & Hc & Hi & -> & _).
  destruct (transfer_quiet _ _ _ Hadm Ha) as [Hq Hd].
  pose proof (ConvertCW721_ok _ _ _ _ (cw_module _ Hok) Hd Hq Hc)
    as (_ & Hn & _ & _ & _ & Hne & Hlen & _ & Hreg & _ & (d & d2 & _ & _ & _ & Htk) & _).
  cbn in Hn, Hne, Hlen, Htk. rewrite (Normalize_idem _ _ Ha) in Hn. injection Hn as Hn.
  pose proof (ConvertCW721_cw _ _ _ _ Hok Hd Hq Hc) as Hok1. apply Hibc in Hi.
  pose proof (cw_guarded_ok _ _ Hok1 Hi) as [Hm2 Ho2]. destruct Hi as [E _]. split; [|exact Ho2].
  cbn. rewrite Hn. apply (record_receivers_module _ (NewTokenPair (cr_ContractAddress r) (cr_ClassId r)));
    [done|by rewrite E| |done].
  intros Es. destruct (tc_CwTokenIds msg) as [|t l]; [done|]. destruct (cr_NftIds r) as [|n k]; [done|].
  destruct (Htk [] t n (combine l k) eq_refl) as (e1 & e2 & _ & info & d1 & resp & d3 & _ & Hb & _).
  by rewrite Es in Hb.
Qed.

(** One refund keeps the invariant and the pairs, and every relation of [CwKeeps]. *)
Lemma refund_token_cw (R : Ctx -> Ctx -> Prop) `{!CwKeeps R} cls g t c g' c' :
  cw_ok c -> quiet_registered (c_cw c) -> refund_token cls g t c = Ok g' c' ->
  cw_ok c' /\ quiet_registered (c_cw c') /\ R c c'.
Proof.
  intros Hok Hq Hr. pose proof (quiet_registered_binding c cls t (cw_module _ Hok) Hq) as Hb.
  apply cw_refund_token_ok in Hr; [|apply Hok|done].
  destruct Hr as [[Hs _]|(Hm & a & ct & o & d1 & d2 & Erev & _ & _ & _ & S1 & S2 & Hnat & Ec & _ & Hn & _)].
  - pose proof Hs as (E1 & E2 & E3). split; [|split; [by rewrite E1|by apply skipped_keeps]].
    apply (cw_guarded_ok c); [done|]. by apply same_nft_guarded.
  - split; [split; [done|]|split].
    + intros nu k Hnu. rewrite Ec in Hnu. cbn in Hnu. apply lookup_delete_Some in Hnu as [Hne Hnu].
      destruct (cw_owned _ Hok _ _ Hnu) as (cl & nft & -> & Ho). exists cl, nft. split; [done|].
      destruct Hn as [->|(_ & _ & _ & Hk)]; [done|]. destruct (Hk cl nft) as [_ ->]; [|done]. by intros [= -> ->].
    + rewrite Ec. destruct (cw_refund_unbind_ok _ _ _ _ _ (cw_module _ Hok) Erev) as (_ & _ & _ & _ & Hreg).
      intros p Hp. by apply Hq, Hreg.
    + transitivity d2; [transitivity d1; by apply skipped_keeps|].
      transitivity (set_cw d2 (refund_unbind cls t a ct (c_cw d2))); [apply ck_cw|].
      by apply (frame_ok _ _ _ _ _ (refund_native_keeps R _ _ _ _) Hnat).
Qed.

Lemma Refund_cw (R : Ctx -> Ctx -> Prop) `{!CwKeeps R} data c u c' :
  cw_ok c -> quiet_registered (c_cw c) -> RefundPacketToken data c = Ok u c' -> cw_ok c' /\ R c c'.
Proof.
  intros Hok Hq Hr. unfold RefundPacketToken in Hr. apply mbind_ok in Hr as (g & c1 & Hl & Hr).
  apply (for_acc_inv (fun _ d => cw_ok d /\ quiet_registered (c_cw d) /\ R c d)) in Hl as (Hok1 & _ & HR).
  - assert (c' = c1 \/ exists l, c' = set_events c1 l) as Ec.
    { destruct (nonempty g); [apply EmitEvents_ok in Hr as ->; right; eauto|apply mret_ok in Hr as [_ ->]; by left]. }
    destruct Ec as [->|[l ->]]; [done|]. split; [|etransitivity; [exact HR|by apply ck_wasm]].
    apply (cw_guarded_ok c1); [done|]. by apply same_nft_guarded.
  - intros t b d b' d' _ (Hd & Hqd & HRd) Ht. destruct (refund_token_cw R _ _ _ _ _ _ Hd Hqd Ht) as (? & ? & ?).
    split_and!; try done. by etransitivity.
  - split_and!; done.
Qed.

Lemma cw_ok_empty c : c_cw c = empty_cw -> cw_ok c.
Proof.
  intros E. split; rewrite E.
  - assert (forall p, ~ registered empty_cw p) as Hn.
    { intros p (bz & _ & Hp). cbn in Hp. by rewrite lookup_empty in Hp. }
    split; [split|split|..].
    + intros k n. cbn. by rewrite !lookup_empty.
    + intros k n. cbn. by rewrite lookup_empty.
    + intros id bz. cbn. by rewrite lookup_empty.
    + intros k id. cbn. rewrite lookup_empty. split; [done|]. intros (p & Hp & _). by apply Hn in Hp.
    + intros k id. cbn. rewrite lookup_empty. split; [done|]. intros (p & Hp & _). by apply Hn in Hp.
    + intros k n. cbn. by rewrite lookup_empty.
    + intros k v. cbn. by rewrite lookup_empty.
  - intros nu t. cbn. by rewrite lookup_empty.
Qed.

(** ** The two relations the chain's invariants need *)

#[global] Instance kept_keeps P `{!NftInvariant P} : CwKeeps (kept P).
Proof.
  split; [apply _| | |intros..].
  - intros c c' (_ & E & _). by apply nft_eq_kept.
  - intros c s. by apply nft_eq_kept.
  - by apply SaveDenom_kept.
  - by apply MintNFT_kept.
  - by apply TransferNFT_kept.
  - by apply BurnNFT_kept.
Qed.

#[global] Instance erc_guarded_keeps : CwKeeps (guarded c_erc erc_bound).
Proof.
  split; [apply _| | |intros..].
  - intros c c' (E1 & E2 & _). by apply same_nft_guarded.
  - intros c s. by apply same_nft_guarded.
  - by apply SaveDenom_guarded; apply _.
  - by apply MintNFT_guarded; apply _.
  - by apply TransferNFT_guarded; apply _.
  - by apply BurnNFT_guarded; apply _.
Qed.
End Invariant.
