(* ===== verification/Erc721EntrySpec.v ===== *)
(** The entry points of x/erc721 around the conversions: EVM calls and their gas
    budget, the StateDB wrapper, message validation, page requests, parameters,
    registration of pairs, resolution of ids, and the IBC transfer. *)
From S2P Require Import Prelude GoStrings Utf8 Sdk CollectionTypes CollectionKeeper.
From S2P Require Import CollectionSpec Erc721Types Erc721Store Erc721Index Erc721Genesis.
From S2P Require Import Erc721Registry Erc721Purge Erc721Export Erc721StoreSpec App Erc721Evm.
From S2P Require Import Erc721Msg Erc721Register Erc721Convert Erc721ConvertFacts Cw721Types Cw721Store.
Open Scope go_scope.
Open Scope list_scope.

Section Calls.
Context `{EthLib} `{SdkLib} `{NftKeeper} `{!EvmKeeper} `{!WasmState} `{CollectionCodec} `{!SdkLaws} `{!EvmLaws}.
Implicit Types c : Ctx.

(** The meter [g'] after [used] gas is charged to [g]. *)
Definition charged (g : gas_meter) (used : Z) (g' : gas_meter) : Prop :=
  if (0 <? used)%Z then ConsumeGas g used = Some g' else g' = g.

(** C40: a call into the EVM runs as the given sender, with its next nonce, no value
    and no price, under a limit that is the smaller of the gas the transaction has left
    when the call starts and the cap.  So the gas the EVM reports never exceeds what the
    transaction had left or the cap, and exactly that gas is charged, for a run that
    reverts as for one that succeeds, on top of what the run's store accesses took from
    the same meter.  The call returns the response just when the EVM reports no VM
    error, keeps nothing when the run returns an error, and writes only the EVM state,
    which a query leaves alone.  It panics only when the meter is empty: the store
    accesses used it up, or left less than the EVM used; with an infinite meter never. *)
Theorem CallEVMWithData_budget from to data commit c nonce :
  GetSequence (c_evm c) (addr_bytes from) = inr nonce ->
  let limit := Z.min (GasRemaining (c_gas c)) DefaultGasCap in
  let msg := {| m_From := from; m_To := to; m_Nonce := nonce; m_Value := 0; m_GasLimit := limit;
                m_GasPrice := 0; m_Data := data; m_SkipNonceChecks := negb commit |} in
  let run := CallEVMWithData from to data commit c in
  match ApplyMessage (c_evm c) (c_gas c) msg commit with
  | None => run = Panic
  | Some (inl e, (_, g)) => run = Err e (set_gas c g)
  | Some (inr None, (s, g)) => run = Err VMExecution (set_gas (set_evm c s) g)
  | Some (inr (Some r), (s, g)) => (0 <= r_GasUsed r <= limit)%Z /\
      match run with
      | Ok r' c' => r' = r /\ r_VmError r = "" /\ c_evm c' = s /\ charged g (r_GasUsed r) (c_gas c')
      | Err e c' => e = VMExecution /\ r_VmError r <> "" /\ c_evm c' = s /\ charged g (r_GasUsed r) (c_gas c')
      | Panic => (GasRemaining g < r_GasUsed r)%Z
      end
  end /\
  match run with
  | Ok _ c' | Err _ c' => evm_only c c' /\ (commit = false -> c_evm c' = c_evm c)
  | Panic => ~ IsInfinite (c_gas c)
  end.
Proof.
  intros Hn limit msg run.
  assert (gas_cap (c_gas c) = limit) as Hlim.
  { unfold gas_cap, limit. destruct (Z.ltb_spec (GasRemaining (c_gas c)) DefaultGasCap); lia. }
  destruct (CallEVMWithData_run from to data commit c nonce Hn) as (m & Em & Hr). rewrite Hlim in *. fold msg in Em. subst m.
  fold run in Hr. split.
  - destruct (ApplyMessage _ _ _ _) as [[[e|[r|]] [s g]]|] eqn:E; [|destruct Hr as [Hu Hr]; split; [done|]|done..].
    + apply ApplyMessage_error in E as ->. rewrite Hr. by destruct c.
    + unfold charged. destruct (Z.ltb_spec 0 (r_GasUsed r)).
      * pose proof (gas_enough g (r_GasUsed r)) as Hg. destruct (ConsumeGas _ _) as [g'|]; rewrite Hr.
        -- destruct (_ =?s _) eqn:Ev; [apply str_eqb_true in Ev|apply str_eqb_false in Ev]; done.
        -- destruct (Z.ltb_spec (GasRemaining g) (r_GasUsed r)); [done|]. destruct Hg as [? Hg]; [lia|done].
      * rewrite Hr. destruct (_ =?s _) eqn:Ev; [apply str_eqb_true in Ev|apply str_eqb_false in Ev]; done.
  - pose proof (CallEVMWithData_left from to data commit c) as Hl. fold run in Hl.
    destruct run; [split; apply Hl..|exact Hl].
Qed.

(** The EVM cannot turn the module account into a contract or move its funds:
    a write the wrapper accepts for the module address has no code and the balance
    the account already had, and only updates the sequence; other addresses are
    written as the EVM asks. *)
Lemma SetAccount_protects_module `{!StateDB} s addr account s' :
  SetAccount s addr account = inr s' ->
  (addr <> ModuleAddress -> sdb_SetAccount s addr account = inr s') /\
  (addr = ModuleAddress ->
     IsEmptyCodeHash (sa_CodeHash account) = true /\
     (exists current, sdb_GetAccount s addr = Some current /\ sa_Balance current = sa_Balance account) /\
     exists acct acct', ak_GetAccount s (addr_bytes addr) = Some acct /\
       SetSequence acct (sa_Nonce account) = inr acct' /\ s' = ak_SetAccount s acct').
Proof.
  unfold SetAccount. case_bool_decide as Ha; cbn [negb]; [|by split].
  destruct (ak_GetAccount s (addr_bytes addr)) as [acct|]; [|done].
  destruct (IsEmptyCodeHash _) eqn:Ec; cbn [negb]; [|done].
  destruct (sdb_GetAccount s addr) as [cur|]; [|done].
  destruct (sa_Balance cur) as [b1|] eqn:E1; [|done]. destruct (sa_Balance account) as [b2|]; [|done].
  destruct (Z.eqb_spec b1 b2) as [->|]; [|done]. cbn [negb].
  destruct (SetSequence acct _) as [e|acct'] eqn:Es; [done|]. intros [= <-].
  split; [done|]. intros _. split; [done|]. split; [by exists cur|]. by exists acct, acct'.
Qed.
End Calls.

Section Messages.
Context `{EthLib} `{SdkLib}.

Lemma validate_evm_ids_ok ids id :
  validate_evm_ids ids = None -> id ∈ ids ->
  exists n, uint256 n /\ CanonicalEVMTokenID id = Some (BigString n, false).
Proof.
  induction ids as [|x ids IH]; [by intros _ Hin%elem_of_nil|].
  cbn. intros [Hx Hr]%then_check_None [->|Hin]%elem_of_cons; [|auto].
  unfold ValidateEVMTokenID in Hx. destruct (parseEVMTokenIDValue x false) as [[n l]|] eqn:E; [|done].
  pose proof (parse_range _ _ _ _ E) as Hn. apply new_id_base10 in E. exists n. split; [done|].
  unfold CanonicalEVMTokenID. by rewrite E.
Qed.

Lemma validate_cosmos_ids_ok ids id :
  validate_cosmos_ids ids = None -> id ∈ ids -> ValidateTokenID id = None.
Proof.
  induction ids as [|x ids IH]; [by intros _ Hin%elem_of_nil|].
  cbn. intros [_ Hr]%then_check_None Hin. apply then_check_None in Hr as [Hx Hr].
  apply elem_of_cons in Hin as [->|Hin]; auto.
Qed.

(** A conversion message that passes its stateless validation names a hex
    contract and bech32 accounts, and every ERC721 id in it is a base-10 uint256,
    never a legacy spelling, so it can key a new binding. *)
Lemma MsgConvertERC721_ValidateBasic_ok msg :
  MsgConvertERC721_ValidateBasic msg = None ->
  IsHexAddress (ce_EvmContractAddress msg) = true /\
  (exists a, AccAddressFromBech32 (ce_CosmosReceiver msg) = Some a) /\
  (exists a, AccAddressFromBech32 (ce_CosmosSender msg) = Some a) /\
  ce_EvmTokenIds msg <> [] /\
  (ce_CosmosTokenIds msg = [] \/ List.length (ce_CosmosTokenIds msg) = List.length (ce_EvmTokenIds msg)) /\
  (forall id, id ∈ ce_CosmosTokenIds msg -> ValidateTokenID id = None) /\
  (forall id, id ∈ ce_EvmTokenIds msg ->
     exists n, uint256 n /\ CanonicalEVMTokenID id = Some (BigString n, false)).
Proof.
  unfold MsgConvertERC721_ValidateBasic. rewrite !then_check_None, !check_None.
  intros (H1 & _ & H2 & H3 & H4 & H5 & H6 & H7 & _).
  unfold is_bech32 in *. split; [done|].
  split; [destruct (AccAddressFromBech32 _); [eauto|done]|].
  split; [destruct (AccAddressFromBech32 (ce_CosmosSender msg)); [eauto|done]|].
  split; [by intros E; rewrite E in H4|]. split; [|split].
  - destruct (ce_CosmosTokenIds msg) as [|x l]; [by left|right]. cbn [nonempty andb] in H7.
    rewrite negb_involutive in H7. by apply Nat.eqb_eq in H7.
  - intros id. by apply validate_cosmos_ids_ok.
  - intros id. by apply validate_evm_ids_ok.
Qed.
End Messages.

Section Entry.
Context `{EthLaws} `{!SdkLib} `{!SdkLaws} `{!NftKeeper} `{!NftLaws} `{!EvmKeeper} `{!WasmState} `{!EvmLaws}
        `{!CollectionCodec} `{!CollectionCodecLaws} `{!Erc721Codec} `{!Erc721CodecLaws}.
Implicit Types (c : Ctx) (s : ErcStore).

(** Only the governance authority can change the parameters, a refused update
    changes nothing, and the new parameters are read back, except that turning both
    switches off is stored as the empty value, which reads back as both on. *)
Lemma UpdateParams_correct msg c :
  match UpdateParams msg c with
  | Ok _ c' =>
      up_Authority msg = acc_String (NewModuleAddress "gov") /\
      c' = set_erc c (upd_Params (Params_MarshalToSizedBuffer (up_Params msg)) (c_erc c)) /\
      GetParams (c_erc c') = (if EnableErc721 (up_Params msg) || EnableEVMHook (up_Params msg)
                              then up_Params msg else DefaultParams)
  | Err e c' => e = SdkErr ErrInvalidSigner /\ c' = c /\
      up_Authority msg <> acc_String (NewModuleAddress "gov")
  | Panic => False
  end.
Proof.
  unfold UpdateParams, mbind, guard. destruct (_ =?s _) eqn:Ea; cbn.
  - apply str_eqb_true in Ea. unfold erc_try, SetParams. rewrite Params_generated.
    split; [done|]. split; [done|]. unfold GetParams. cbn.
    destruct (up_Params msg) as [[] []]; try done; cbn; by rewrite Params_roundtrip.
  - by apply str_eqb_false in Ea.
Qed.

(** Registering a pair from the Cosmos side refuses IBC voucher classes and any
    class or contract that already has a pair; on success the new pair is what both
    lookups return, every other pair and all per-token state are unchanged, and the
    invariant of the pair table holds. *)
Lemma RegisterNFT_correct msg c tp c' :
  registry_ok (c_erc c) -> ids_distinct (c_erc c) (cn_ClassId msg) -> RegisterNFT msg c = Ok tp c' ->
  IsIBCDenom (cn_ClassId msg) = false /\
  (forall q, registered (c_erc c) q ->
     tp_ClassId q <> cn_ClassId msg /\ GetERC721Contract q <> HexToAddress (cn_EvmContractAddress msg)) /\
  registers c tp c' /\
  GetPairByClass (c_erc c') (cn_ClassId msg) = inr tp /\
  GetPairByEVM (c_erc c') (cn_EvmContractAddress msg) = inr tp /\
  c_nft c' = c_nft c /\ c_evm c' = c_evm c.
Proof.
  intros Hs Hd Hr. apply RegisterNFT_ok in Hr as (Hi & Hc & Ha & Hq & Hreg & Hn & He); [|done..].
  rewrite <- Hc in Hi |- *. rewrite <- Ha. destruct (Hreg) as (R1 & R2 & _). split_and!; try done.
  - by apply GetPairByClass_registered.
  - by apply GetPairByEVM_registered.
Qed.

(** The restrictions a contract reports: [inl] when the class has none to report. *)
Definition reported_restrictions (r : error + ClassEnhance) (mint update : bool) : Prop :=
  match r with
  | inr ce => mint = ce_MintRestricted ce /\ update = ce_UpdateRestricted ce
  | inl e => e <> ErcErr ErrClassEnhanceRestrictions /\ mint = false /\ update = false
  end.

(** The class created for a contract carries exactly the mint and update
    restrictions the contract reports, is owned by the module, and is never created
    when the contract answers but its restrictions cannot be decoded. *)
Lemma CreateNFTClass_restrictions a cls c u c' :
  CreateNFTClass a cls c = Ok u c' ->
  nk_GetClass (c_nft c) cls = None /\
  exists c1 r den, gas_only c c1 /\ (exists c2, attempt (QueryClassEnhance (HexToAddress a)) c1 = Ok r c2) /\
    GetDenomInfo cls c' = Ok den c' /\ Denom_Creator den = acc_String AccModuleAddress /\
    reported_restrictions r (MintRestricted den) (UpdateRestricted den).
Proof.
  unfold CreateNFTClass. intros Hr. apply mbind_ok in Hr as (ed & c0 & Hq & Hr).
  pose proof (frame_ok _ _ _ _ _ (QueryERC721_frame _) Hq) as Hg0.
  apply mbind_ok in Hr as (s & c1 & Hg & Hr). apply gets_ok in Hg as [-> ->].
  apply mbind_ok in Hr as (x1 & c1 & Hg & Hr). apply guard_ok in Hg as [_ ->].
  apply mbind_ok in Hr as (d & c1 & Hd & Hr).
  assert (c1 = c0) as ->.
  { apply attempt_ok in Hd. destruct d as [e|d]; [|by apply GetDenomInfo_ok in Hd as [-> _]].
    unfold GetDenomInfo, mbind, gets, lift_opt, throw, mret, lift_sum in Hd.
    destruct (nk_GetClass _ _) as [cl|]; [destruct (Class_Data cl) as [v|];
      [destruct (Unmarshal_DenomMetadata v)|]|]; cbn in Hd; congruence. }
  apply mbind_ok in Hr as (x2 & c1 & Hg & Hr). apply guard_ok in Hg as [_ ->].
  apply mbind_ok in Hr as (r & c1 & Hce & Hr).
  pose proof (frame_ok gas_only _ _ _ _ (frame_attempt _ _ (ClassEnhance_frame _)) Hce) as Hg1.
  apply mbind_ok in Hr as (ce & c2 & Hsel & Hr).
  assert (c2 = c1 /\ reported_restrictions r (ce_MintRestricted ce) (ce_UpdateRestricted ce)) as [-> Hrep].
  { destruct r as [e|ce']; [|by apply mret_ok in Hsel as [-> ->]].
    case_bool_decide; [done|]. by apply mret_ok in Hsel as [-> ->]. }
  apply SaveDenom_ok in Hr as (_ & _ & Hn & Hden & _).
  destruct (Hg0) as [(_ & En0 & _) _]. destruct Hg1 as [(_ & En1 & _) _]. rewrite En1, En0 in Hn.
  split; [done|]. eexists c0, r, _. split; [done|]. split; [eauto|]. split; [exact Hden|]. by split.
Qed.

(** ** Resolution of the ids of a conversion *)

(** The id of one token: the caller's, if the saved binding agrees; else the saved
    one; else the derived one. *)
Definition resolves (org pairOrg saved : string) (ty : nftType) (ret : string) : Prop :=
  (org <> "" /\ (saved = "" \/ nftDataAgrees saved org ty = true) /\ ret = org) \/
  (org = "" /\ saved <> "" /\ ret = saved) \/
  (org = "" /\ saved = "" /\ ret = createNftDataByType pairOrg ty).

Lemma getNftData_ok org pairOrg saved ty ret :
  getNftData org pairOrg saved ty = inr ret <-> resolves org pairOrg saved ty ret.
Proof.
  unfold getNftData, resolves. destruct (String.eqb_spec org "") as [->|Ho], (String.eqb_spec saved "") as [->|Hs];
    cbn; [naive_solver..|]. destruct (nftDataAgrees saved org ty) eqn:E; naive_solver.
Qed.

Lemma getNftDatas_loop_ok orgs pairs saveds ty ids n sv og rets :
  List.length pairs = n + List.length ids ->
  (saveds = [] /\ sv = "" \/ List.length saveds = List.length pairs) ->
  (orgs = [] /\ pairs <> [] /\ og = "" \/ List.length orgs = List.length pairs) ->
  getNftDatas_loop orgs pairs saveds ty ids n sv og = inr rets ->
  List.length rets = List.length ids /\
  forall i id ret, ids !! i = Some id -> rets !! i = Some ret ->
    resolves (default "" (orgs !! (n + i))) id (default "" (saveds !! (n + i))) ty ret.
Proof.
  revert n sv og rets. induction ids as [|id ids IH]; intros n sv og rets Hn Hsv Hog Hr.
  { injection Hr as <-. split; [done|]. intros i id ret Hi. by rewrite lookup_nil in Hi. }
  cbn [getNftDatas_loop] in Hr.
  set (sv' := match saveds !! n with Some v => v | None => sv end) in *.
  set (og' := if _ =? _ then _ else _) in *. cbn in Hn.
  assert (sv' = default "" (saveds !! n)) as Esv.
  { unfold sv'. destruct (saveds !! n) as [v|] eqn:E; [done|]. destruct Hsv as [[_ ->]|Hl]; [done|].
    apply lookup_ge_None in E. lia. }
  assert (og' = default "" (orgs !! n)) as Eog.
  { unfold og'. destruct (Nat.eqb_spec (List.length pairs) (List.length orgs)); [done|].
    destruct Hog as [(-> & _ & ->)|Hl]; [done|lia]. }
  destruct (getNftData og' id sv' ty) as [e|ret] eqn:Eg; [done|].
  destruct (getNftDatas_loop _ _ _ _ _ _ _ _) as [e|rets'] eqn:El; [done|]. injection Hr as <-.
  apply IH in El as [L R]; [|lia| |].
  - split; [cbn; lia|]. intros [|i] x ret0; cbn.
    + intros [= <-] [= <-]. rewrite Nat.add_0_r, <- Esv, <- Eog. by apply getNftData_ok.
    + intros Hx Hret. replace (n + S i) with (S n + i) by lia. eauto.
  - destruct Hsv as [[-> _]|Hl]; [left; split; [done|by rewrite Esv]|by right].
  - destruct Hog as [(-> & Hp & _)|Hl]; [left; split_and!; [done..|by rewrite Eog]|by right].
Qed.

(** The ids a conversion resolves: one per NFT, each being the id the caller
    gave (which then agrees with the saved binding, if there is one), else the
    saved one, else the one derived from the NFT id; the stale-variable reuse in the
    loop of getNftDatas is harmless for every list its callers pass. *)
Lemma getNftDatas_correct orgs pairs saveds ty rets :
  pairs <> [] -> (orgs = [] \/ List.length orgs = List.length pairs) ->
  (saveds = [] \/ List.length saveds = List.length pairs) ->
  getNftDatas orgs pairs saveds ty = inr rets ->
  List.length rets = List.length pairs /\
  forall i id ret, pairs !! i = Some id -> rets !! i = Some ret ->
    resolves (default "" (orgs !! i)) id (default "" (saveds !! i)) ty ret.
Proof.
  intros Hp Ho Hs Hr. unfold getNftDatas in Hr. apply getNftDatas_loop_ok in Hr as [L R]; [done|lia|..].
  - destruct Hs as [->|?]; [by left|by right].
  - destruct Ho as [->|?]; [by left|by right].
Qed.

(** ** The refund receivers of an IBC transfer *)

Lemma set_refund_keeps s ct a ids seen k :
  let s' := set_refund_loop s ct a ids seen in refunds s' !! k = Some a \/ refunds s' !! k = refunds s !! k.
Proof.
  revert s seen. induction ids as [|x ids IH]; intros s seen; cbn; [by right|].
  destruct (x =?s ""); [apply IH|]. case_bool_decide; [apply IH|].
  destruct (IH (SetEvmAddressByContractTokenId s ct x a) ({[x]} ∪ seen)) as [-> | ->]; [by left|]. cbn.
  destruct (decide (k = refund_key ct x)) as [->|Hk]; [left; apply lookup_insert_eq|].
  right. by apply lookup_insert_ne.
Qed.

Lemma set_refund_lookup s ct a ids seen id :
  id ∈ ids -> id <> "" -> id ∉ seen ->
  refunds (set_refund_loop s ct a ids seen) !! refund_key ct id = Some a.
Proof.
  revert s seen. induction ids as [|x ids IH]; intros s seen Hin Hne Hs; [by apply elem_of_nil in Hin|].
  cbn. apply elem_of_cons in Hin as [<-|Hin].
  - apply str_eqb_false in Hne. rewrite Hne. rewrite bool_decide_false by done.
    destruct (set_refund_keeps (SetEvmAddressByContractTokenId s ct id a) ct a ids ({[id]} ∪ seen)
                (refund_key ct id)) as [-> | ->]; [done|apply lookup_insert_eq].
  - destruct (x =?s ""); [auto|]. case_bool_decide; [auto|].
    destruct (decide (id = x)) as [->|Hx]; [|apply IH; set_solver].
    destruct (set_refund_keeps (SetEvmAddressByContractTokenId s ct x a) ct a ids ({[x]} ∪ seen)
                (refund_key ct x)) as [-> | ->]; [done|apply lookup_insert_eq].
Qed.

Context `{!ConvertedNFTChecker} `{!IbcKeeper}.

(** An IBC transfer of ERC721 tokens records the sender as the receiver of a
    refund: for every token of a class that is not a voucher, a refund looked up by
    the NFT id goes to the address of the sender, whatever the IBC module did in
    between. *)
Lemma TransferERC721_records_receiver msg c u c' :
  TransferERC721 msg c = Ok u c' ->
  exists res c1 sender,
    ConvertERC721 (MkMsgConvertERC721 (te_EvmContractAddress msg) (te_EvmTokenIds msg)
      (acc_String AccModuleAddress) (te_CosmosSender msg) (te_ClassId msg) (te_CosmosTokenIds msg)) c
      = Ok res c1 /\
    AccAddressFromBech32 (te_CosmosSender msg) = Some sender /\
    (IsIBCDenom (cr_ClassId res) = false -> forall nft tid, nft ∈ cr_CosmosTokenIds res -> nft <> "" ->
       GetEvmRefundReceiver (c_erc c') (cr_EvmContractAddress res) nft tid = Hex (BytesToAddress sender)).
Proof.
  unfold TransferERC721. intros Hr. apply mbind_ok in Hr as (res & c1 & Hc & Hr).
  apply mbind_ok in Hr as (x & c2 & _ & Hr). apply mbind_ok in Hr as (snd & c3 & Hb & Hr).
  apply lift_opt_ok in Hb as [Hb ->]. exists res, c1, snd. split; [done|]. split; [done|].
  unfold IsIBCDenom. intros Hi nft tid Hn Hne. rewrite Hi in Hr. apply modify_ok in Hr as ->.
  unfold GetEvmRefundReceiver, GetEvmAddressByContractTokenId. cbn.
  rewrite (kv_get_Some _ _ (Hex (BytesToAddress snd))).
  - pose proof (Hex_len (BytesToAddress snd)) as Hl.
    assert (Hex (BytesToAddress snd) <> "") as ->%str_neqb_true by (intros E; by rewrite E in Hl). done.
  - apply set_refund_lookup; [apply elem_of_app; by left|done|set_solver].
Qed.
End Entry.

Section Wiring.
Context `{EthLib} `{SdkLib} `{NftKeeper} `{!NftLaws} `{!EvmKeeper} `{!WasmState} `{CollectionCodec}.
Existing Instance app_checker.

(** A burn succeeds only for the owner, and with the conversion modules wired in
    as the application does only for an NFT that neither index binds, to an ERC721 or
    to a CW721 token, so it leaves no orphaned binding behind; it removes that NFT and nothing else. *)
Lemma BurnNFT_unbound msg c u c' :
  BurnNFT msg c = Ok u c' ->
  AccAddressFromBech32 (mb_Sender msg) = Some (nk_GetOwner (c_nft c) (mb_DenomId msg) (mb_Id msg)) /\
  GetNFTPairByClassNFTID (c_erc c) (mb_DenomId msg) (mb_Id msg) = "" /\
  Cw721Store.GetNFTPairByClassNFTID (c_cw c) (mb_DenomId msg) (mb_Id msg) = "" /\
  nk_GetNFT (c_nft c') (mb_DenomId msg) (mb_Id msg) = None /\
  others_kept (mb_DenomId msg) (mb_Id msg) (c_nft c) (c_nft c') /\ nft_only c c'.
Proof.
  intros (src & Hs & <- & Hc & Hg & Hk & Hn)%BurnNFT_ok. cbn in Hc. unfold app_IsConvertedNFT in Hc.
  apply orb_false_iff in Hc as [Hc%str_neqb_false Hw%str_neqb_false]. done.
Qed.
End Wiring.
