(* ===== verification/Erc721Chain.v ===== *)
(** x/erc721 and x/collection as parts of the chain's state machine: what the handlers
    keep of the x/nft store, and that each of them preserves the invariant of the
    x/erc721 store together with the fact that every NFT the index binds has an owner. *)
From S2P Require Import Prelude GoStrings Utf8 Sdk CollectionTypes CollectionKeeper CollectionSpec.
From S2P Require Import Erc721Types Erc721Store Erc721Index Erc721Genesis Erc721Registry Erc721Purge.
From S2P Require Import Erc721Export Erc721Prune App Erc721Evm Erc721Msg Erc721Register.
From S2P Require Import Erc721Convert Erc721Settle Erc721ConvertFacts Erc721ConvertSpec.
From S2P Require Import Erc721RefundFacts Erc721SettleFacts InterNft NftInvariant Guard.
From S2P Require Import CollectionGenesis CollectionGenesisSpec.
Open Scope go_scope.
Open Scope list_scope.

(** ** What the handlers keep of the x/nft store *)
Section Handlers.
Context `{EthLaws} `{!SdkLib} `{!SdkLaws} `{!NftKeeper} `{!NftLaws} `{!EvmKeeper} `{!WasmState} `{!EvmLaws}
        `{!CollectionCodec} `{!Erc721Codec} `{!Erc721CodecLaws} `{!ConvertedNFTChecker} `{!FmtLib}.
Context (P : nft_state -> Prop) `{!NftInvariant P}.
Implicit Types (c : Ctx) (s : ErcStore).

Lemma nft_frame_kept {A} (m : GoM A) : frame nft_same m -> frame (kept P) m.
Proof. apply frame_sub. intros c c' E. by apply nft_eq_kept. Qed.

Lemma erc_set_kept f : frame (kept P) (erc_set f).
Proof. apply nft_frame_kept. by intros c. Qed.
Lemma erc_try_kept f : frame (kept P) (erc_try f).
Proof. apply nft_frame_kept. intros c. unfold erc_try. by destruct (f (c_erc c)). Qed.
Lemma CallEVM_kept f t b m l : frame (kept P) (CallEVM f t b m l).
Proof. apply nft_frame_kept, CallEVM_nft. Qed.
Lemma gas_query_kept {A} (m : GoM A) : frame gas_only m -> frame (kept P) m.
Proof. intros Hm. by apply nft_frame_kept, gas_query_nft. Qed.
Lemma GetContract_kept msg : frame (kept P) (GetContractAddressAndTokenIds msg).
Proof. apply nft_frame_kept, GetContract_nft. Qed.
Hint Resolve erc_set_kept erc_try_kept CallEVM_kept gas_query_kept GetContract_kept : go.

Lemma RegisterNFT_kept msg : frame (kept P) (RegisterNFT msg).
Proof. unfold RegisterNFT. go_frame. Qed.
Lemma RegisterERC721_kept msg : frame (kept P) (RegisterERC721 msg).
Proof. unfold RegisterERC721, CreateNFTClass. go_frame. Qed.
Lemma GetNFT_kept d i : frame (kept P) (GetNFT d i).
Proof. unfold GetNFT. go_frame. Qed.
Hint Resolve RegisterNFT_kept RegisterERC721_kept GetNFT_kept : go.

Lemma convertCosmos2Evm_kept tp msg r : frame (kept P) (convertCosmos2Evm tp msg r).
Proof. unfold convertCosmos2Evm, check_batch, cosmos2evm_token, parseERC721TokenID, erc_get. go_frame. Qed.
Hint Resolve convertCosmos2Evm_kept : go.

Lemma ConvertNFT_kept msg : frame (kept P) (ConvertNFT msg).
Proof. unfold ConvertNFT, erc_get. go_frame. Qed.

Lemma ConvertERC721_kept msg : frame (kept P) (ConvertERC721 msg).
Proof.
  unfold ConvertERC721, convertEvm2Cosmos, check_batch, evm2cosmos_token, parseERC721TokenID, erc_get.
  go_frame; apply wrap_as_frame; auto with go; apply _.
Qed.

Lemma refund_token_kept cls g t : frame (kept P) (refund_token cls g t).
Proof. unfold refund_token, refund_release, refund_native, erc_get, EmitEvent. go_frame. Qed.

Lemma Settle_kept : frame (kept P) SettleIBCVoucherPairs.
Proof.
  unfold SettleIBCVoucherPairs, settle_pair, settle_step, settleVoucherBinding, settleWrapped,
    settleOrphan, purge_counted, deleteBinding. go_frame; apply cached_kept; go_frame.
Qed.
End Handlers.

(** ** The invariant *)
Section ChainState.
Context `{EthLaws} `{!SdkLib} `{!SdkLaws} `{!NftKeeper} `{!NftLaws} `{!NftSupplyLaws} `{!EvmKeeper} `{!WasmState} `{!EvmLaws}
        `{!CollectionCodec} `{!Erc721Codec} `{!Erc721CodecLaws} `{!FmtLib}
        `{!IbcKeeper}.
Existing Instance app_checker.
Implicit Types (c : Ctx) (s : ErcStore).

(** The x/nft store: class ids without commas, supply counters that are right. *)
Definition nft_ok (st : nft_state) : Prop := clean st /\ supply_ok st.

#[global] Instance nft_ok_invariant : NftInvariant nft_ok.
Proof.
  split.
  - intros s cl s' Hv Hw [Hc Hs]. split; by eapply inv_SaveClass.
  - intros s cl s' Hw [Hc Hs]. split; by eapply inv_UpdateClass.
  - intros s n r s' Hw [Hc Hs]. split; by eapply inv_Mint.
  - intros s n s' Hw [Hc Hs]. split; by eapply inv_Update.
  - intros s d i r s' Hw [Hc Hs]. split; by eapply inv_Transfer.
  - intros s d i s' Hw [Hc Hs]. split; by eapply inv_Burn.
Qed.

(** The index is one-to-one, the pair table is consistent, the x/nft store is well
    formed, and every bound NFT exists and has an owner. *)
Record erc_ok c : Prop := {
  co_module : module_ok (c_erc c);
  co_nft : nft_ok (c_nft c);
  co_owned nu t : reverse (c_erc c) !! nu = Some t ->
    exists cls nft, nu = CreateNFTUID cls nft /\ nk_GetOwner (c_nft c) cls nft <> "";
}.

(** ** Preservation *)

Lemma owned_clean (st : nft_state) cls nft :
  clean st -> nk_GetOwner st cls nft <> "" -> ContainsByte cls "," = false.
Proof. intros [_ Hc] Ho. apply (Hc cls nft). intros E. by apply GetOwner_none in E. Qed.

(** A bound NFT has an owner, whatever class and id its UID is written with. *)
Lemma bound_owned c cls nft t :
  erc_ok c -> ContainsByte cls "," = false ->
  reverse (c_erc c) !! CreateNFTUID cls nft = Some t -> nk_GetOwner (c_nft c) cls nft <> "".
Proof.
  intros Hok Hcl Hr. destruct (co_owned _ Hok _ _ Hr) as (cls' & nft' & E & Ho).
  pose proof (owned_clean _ _ _ (proj1 (co_nft _ Hok)) Ho) as Hcl'.
  apply uid_inj in E as [-> ->]; done.
Qed.

Lemma AccModule_nonempty : AccModuleAddress <> "".
Proof.
  unfold AccModuleAddress. intros E. pose proof (module_address_len erc721_ModuleName) as Hl.
  by rewrite E in Hl.
Qed.

(** Bindings only disappear, and the NFTs of those that stay keep an owner. *)
Lemma erc_ok_shrink c c' :
  erc_ok c -> module_ok (c_erc c') -> kept nft_ok c c' ->
  (forall nu t, reverse (c_erc c') !! nu = Some t -> reverse (c_erc c) !! nu = Some t) ->
  (forall cls nft t, reverse (c_erc c') !! CreateNFTUID cls nft = Some t ->
     nk_GetOwner (c_nft c) cls nft <> "" -> nk_GetOwner (c_nft c') cls nft <> "") ->
  erc_ok c'.
Proof.
  intros Hok Hm Hc Hr Ho. split; [done|apply Hc, Hok|]. intros nu t Hnu.
  destruct (co_owned _ Hok _ _ (Hr _ _ Hnu)) as (cls & nft & -> & Hn). eauto.
Qed.

(** The rest of the chain leaves the NFTs the index binds alone. *)
Lemma erc_guarded_ok c c' :
  erc_ok c -> guarded c_erc erc_bound c c' -> kept nft_ok c c' -> erc_ok c'.
Proof.
  intros Hok [E Hg] Hc. apply (erc_ok_shrink c); rewrite ?E; auto; [apply Hok|].
  intros cls nft t Ht. apply Hg. unfold erc_bound, GetNFTPairByClassNFTID, GetTokenUIDPairByNFTUID, kv_get.
  rewrite Ht. apply str_neqb_true. pose proof (mo_index _ (co_module _ Hok)) as Hs.
  apply (ix_bij _ _ Hs), (ix_wf _ _ Hs) in Ht as [(a & t' & -> & _)%wf_key_self _]. apply uid_nonempty.
Qed.

(** A message of x/collection that gives no NFT away without a new owner. *)
Lemma erc_ok_nft c c' :
  erc_ok c -> nft_only c c' -> kept nft_ok c c' ->
  (forall cls nft, nk_GetOwner (c_nft c) cls nft <> "" ->
     reverse (c_erc c) !! CreateNFTUID cls nft <> None -> nk_GetOwner (c_nft c') cls nft <> "") ->
  erc_ok c'.
Proof.
  intros Hok (E & _) Hc Ho. apply (erc_ok_shrink c); rewrite ?E; auto; [apply Hok|].
  intros cls nft t Ht Hn. apply Ho; [done|congruence].
Qed.

Lemma others_owned d i (s1 s2 : nft_state) cls nft :
  others_kept d i s1 s2 -> nk_GetOwner s2 d i <> "" ->
  nk_GetOwner s1 cls nft <> "" -> nk_GetOwner s2 cls nft <> "".
Proof.
  intros [_ Hk] Hn Ho. destruct (decide ((cls, nft) = (d, i))) as [[= -> ->]|Hne]; [done|].
  by destruct (Hk cls nft Hne) as [_ ->].
Qed.

Lemma bech32_owned str o : AccAddressFromBech32 str = Some o -> o <> "".
Proof. by intros [? _]%bech32_nonempty. Qed.

(** ** ConvertERC721 *)

(** Taking the tokens of a batch leaves every owned NFT owned. *)
Lemma evm2cosmos_owned msg contract sender vp ids c u c' :
  for_each ids (evm2cosmos_token msg contract sender vp) c = Ok u c' ->
  forall cls nft, nk_GetOwner (c_nft c) cls nft <> "" -> nk_GetOwner (c_nft c') cls nft <> "".
Proof.
  intros Hr cls nft Ho.
  refine (for_each_inv (fun d => nk_GetOwner (c_nft d) cls nft <> "") ids _ _ _ _ _ Ho Hr).
  intros [t n] d d' x _ IH Ht.
  apply evm2cosmos_token_ok in Ht as (_ & m & r & _ & _ & Hr' & Hown & Hk & _).
  eapply others_owned; [exact Hk| |exact IH]. rewrite Hown. by eapply bech32_owned.
Qed.

Lemma evm2cosmos_token_kept msg contract sender vp ids :
  frame (kept nft_ok) (evm2cosmos_token msg contract sender vp ids).
Proof.
  unfold evm2cosmos_token, parseERC721TokenID, erc_get. pose proof (@gas_query_kept).
  pose proof CallEVM_kept. go_frame; apply wrap_as_frame; auto with go; apply _.
Qed.

(** An NFT that was minted for a token that is not bound did not exist before,
    and its class has no comma. *)
Lemma evm2cosmos_fresh msg contract sender vp ids c u c' t nft :
  for_each ids (evm2cosmos_token msg contract sender vp) c = Ok u c' -> nft_ok (c_nft c) ->
  (t, nft) ∈ ids -> GetNFTPairByContractTokenID (c_erc c) (ce_EvmContractAddress msg) t = "" ->
  nk_GetOwner (c_nft c) (ce_ClassId msg) nft = "" /\ ContainsByte (ce_ClassId msg) "," = false.
Proof.
  intros Hr Hc (pre & post & ->)%list_elem_of_split Hb.
  apply for_each_split in Hr as (c1 & c2 & Hpre & Ht & _).
  assert (kept nft_ok c c1) as Hk1.
  { eapply frame_ok; [|exact Hpre]. apply frame_for_each; [apply _|]. intros x.
    apply evm2cosmos_token_kept. }
  pose proof (frame_ok _ _ _ _ _ (evm2cosmos_token_kept _ _ _ _ _) Ht) as Hk2.
  pose proof (evm2cosmos_owned _ _ _ _ _ _ _ _ Hpre (ce_ClassId msg) nft) as Hmono.
  apply evm2cosmos_loop in Hpre as (Ee & _). unfold erc_same in Ee.
  apply evm2cosmos_token_ok in Ht as (_ & n & r & _ & _ & Hrec & Ho & _ & Hcase). rewrite Ee, Hb in Hcase.
  destruct Hcase as [[_ Hn]|[Hx _]]; [|done]. split.
  - apply GetOwner_none in Hn. destruct (decide (nk_GetOwner (c_nft c) (ce_ClassId msg) nft = "")); [done|].
    exfalso. by apply Hmono.
  - apply (owned_clean (c_nft c2) _ nft); [by apply (Hk2 (Hk1 Hc))|]. rewrite Ho. by eapply bech32_owned.
Qed.

Lemma bindable_sub s s' contract t nu :
  (forall k n, forward s' !! k = Some n -> forward s !! k = Some n) ->
  (forall n k, reverse s' !! n = Some k -> reverse s !! n = Some k) ->
  bindable s contract t nu -> bindable s' contract t nu.
Proof. intros Hf Hr [B1 B2]. split; eauto. Qed.

(** The loop that deletes the bindings of un-wrapped vouchers. *)
Lemma unwrap_loop contract cls ids c u c' :
  module_ok (c_erc c) ->
  (forall t nft, (t, nft) ∈ ids -> bindable (c_erc c) contract t (CreateNFTUID cls nft)) ->
  for_each ids (fun '(t, nft) => erc_set (fun s => deleteVoucherBindingKeys s contract t cls nft)) c
    = Ok u c' ->
  module_ok (c_erc c') /\
  (forall k n, forward (c_erc c') !! k = Some n -> forward (c_erc c) !! k = Some n) /\
  (forall n k, reverse (c_erc c') !! n = Some k -> reverse (c_erc c) !! n = Some k).
Proof.
  intros Hm Hb Hr.
  refine (for_each_inv (fun d => module_ok (c_erc d) /\
    (forall k n, forward (c_erc d) !! k = Some n -> forward (c_erc c) !! k = Some n) /\
    (forall n k, reverse (c_erc d) !! n = Some k -> reverse (c_erc c) !! n = Some k)) ids
    _ _ _ _ _ (conj Hm (conj (fun _ _ E => E) (fun _ _ E => E))) Hr).
  intros [t nft] d d' x Hin ([Hs Hreg] & Hf & Hv) Hd. apply modify_ok in Hd as ->.
  pose proof (bindable_sub _ _ _ _ _ Hf Hv (Hb t nft Hin)) as Hbd.
  destruct (DeleteNFTPairByTokenID_rest (c_erc d) contract t) as (R1 & R2 & R3 & R4 & _).
  split; [split|split].
  - by apply deleteVoucherBindingKeys_ok.
  - eapply registry_ext; [exact R2|exact R3|exact R4|exact Hreg].
  - intros k n. cbn. rewrite DeleteNFTPairByTokenID_forward. case_decide; [done|apply Hf].
  - intros n k. cbn. rewrite R1, delete_lookup. case_decide; [done|apply Hv].
Qed.

(** Every binding an un-wrap removes is the binding of its token: a token that is
    bound is bound to the NFT of the batch, and the NFT minted for an unbound one
    did not exist, so it was bound to nothing. *)
Lemma unwrap_bindable msg contract sender vp ids c u c' t nft :
  erc_ok c -> good_address (ce_EvmContractAddress msg) ->
  validateNoMappingConflict (c_erc c) (ce_EvmContractAddress msg) (ce_ClassId msg) ids = None ->
  for_each ids (evm2cosmos_token msg contract sender vp) c = Ok u c' ->
  (t, nft) ∈ ids ->
  bindable (c_erc c) (ce_EvmContractAddress msg) t (CreateNFTUID (ce_ClassId msg) nft).
Proof.
  intros Hok Hg Hval Hr Hin. pose proof (mo_index _ (co_module _ Hok)) as Hs.
  assert (t <> "") as Ht.
  { apply list_elem_of_split in Hin as (pre & post & ->).
    apply for_each_split in Hr as (c1 & c2 & _ & Hr & _).
    apply evm2cosmos_token_ok in Hr as (_ & n & r & Hp & _).
    apply ParseEVMTokenID_spec in Hp as [l Hp]. by eapply parsed_nonempty. }
  pose proof (validateNoMappingConflict_None _ _ _ _ Hval t nft Hin) as Hcase. cbn in Hcase. split.
  - intros v n Hv Hn. assert (n <> "") as Hne by (by eapply ix_wf).
    assert (GetNFTPairByContractTokenID (c_erc c) (ce_EvmContractAddress msg) t = n) as E
      by (apply Resolve_iff; eauto).
    rewrite E in Hcase. by destruct Hcase.
  - intros r Hrev. destruct Hcase as [Hb|Hb].
    + destruct (evm2cosmos_fresh _ _ _ _ _ _ _ _ _ _ Hr (co_nft _ Hok) Hin Hb) as [Ho Hc].
      by pose proof (bound_owned _ _ _ _ Hok Hc Hrev).
    + apply Resolve_iff in Hb as (v & Hv & Hf); [|done..|apply uid_nonempty].
      apply (ix_bij _ _ Hs) in Hf. congruence.
Qed.

(** The two loops of convertEvm2Cosmos, for a voucher pair. *)
Lemma convertEvm2Cosmos_voucher tp msg sender c m c' :
  erc_ok c -> good_address (ce_EvmContractAddress msg) -> IsIBCDenom (tp_ClassId tp) = true ->
  convertEvm2Cosmos tp msg sender c = Ok m c' -> erc_ok c'.
Proof.
  intros Hok Hg Hv Hr.
  assert (kept nft_ok c c') as Hkept.
  { eapply frame_ok; [|exact Hr]. unfold convertEvm2Cosmos, check_batch. pose proof evm2cosmos_token_kept.
    pose proof erc_set_kept. pose proof erc_try_kept. go_frame. }
  unfold convertEvm2Cosmos in Hr. set (ids := combine (ce_EvmTokenIds msg) (ce_CosmosTokenIds msg)) in *.
  apply mbind_ok in Hr as (u0 & c0 & Hcb & Hr). apply check_batch_ok in Hcb as (-> & _).
  apply mbind_ok in Hr as (s & c0 & Hget & Hr). apply gets_ok in Hget as [-> ->].
  apply mbind_ok in Hr as (u1 & c0 & Hval & Hr). apply run_check_ok in Hval as [Hval ->].
  apply mbind_ok in Hr as (u2 & c1 & Hl & Hr). apply mbind_ok in Hr as ([] & c2 & Hl2 & Hr).
  apply mbind_ok in Hr as (u3 & c3 & He & Hr). apply EmitEvents_ok in He as ->. apply mret_ok in Hr as [-> ->].
  pose proof (fun t nft => unwrap_bindable _ _ _ _ _ _ _ _ t nft Hok Hg Hval Hl) as Hb.
  pose proof (evm2cosmos_owned _ _ _ _ _ _ _ _ Hl) as Hown.
  apply evm2cosmos_loop in Hl as (E1 & _). unfold erc_same in E1.
  assert (c_nft c2 = c_nft c1) as En.
  { refine (for_each_inv (fun d => c_nft d = c_nft c1) ids _ _ _ _ _ eq_refl Hl2).
    intros [t nft] d d' x _ IH Hd. rewrite Hv in Hd. apply modify_ok in Hd as ->. done. }
  rewrite Hv in Hl2. apply unwrap_loop in Hl2 as (Hm & _ & Hrv);
    [|rewrite E1; apply Hok|intros t nft Hin; rewrite E1; by apply Hb].
  rewrite E1 in Hrv. apply (erc_ok_shrink c); [done..|]. cbn. rewrite En. intros cls nft t _. apply Hown.
Qed.

Lemma ConvertERC721_chain msg c r c' :
  erc_ok c -> good_address (ce_EvmContractAddress msg) ->
  ids_distinct (c_erc c) (derived_class msg) -> ConvertERC721 msg c = Ok r c' -> erc_ok c'.
Proof.
  intros Hok Hg Hd Hr. destruct (IsIBCDenom (cr_ClassId r)) eqn:Ei.
  - apply ConvertERC721_prefix in Hr as (_ & tp & m & snd & c1 & Hc & _ & _ & -> & Em & _ & _ & Ecl & Hs1 & _ & _ & Ef & Er & HR);
      [|apply Hok|done]. cbn in Ei. rewrite Ecl in Ei.
    eapply convertEvm2Cosmos_voucher; [|rewrite Em; by apply good_canonical|exact Ei|exact Hc].
    apply (erc_ok_shrink c); [done|split; [|done]|apply HR; [apply _|apply (RegisterERC721_kept nft_ok)]|by rewrite Er|].
    + unfold store_ok. rewrite Ef, Er. apply Hok.
    + intros cls nft t _. by rewrite (HR owners_same _ RegisterERC721_owners cls nft).
  - pose proof (frame_ok _ _ _ _ _ (ConvertERC721_kept nft_ok msg) Hr) as Hkept.
    apply ConvertERC721_ok in Hr as (_ & Hs & Hreg & _ & Hlen & _ & Hown & Hother & Hrv); [|apply Hok|done..].
    split; [by split|apply Hkept, Hok|].
    assert (forall nft, nft ∈ cr_CosmosTokenIds r -> nk_GetOwner (c_nft c') (cr_ClassId r) nft <> "") as Hbatch.
    { intros nft Hn. destruct (combine_elem _ _ _ Hlen Hn) as [t Ht].
      destruct (Hown t nft Ht) as [Ho _]. by eapply bech32_owned. }
    intros nu t Hnu. destruct (decide (nu ∈ CreateNFTUID (cr_ClassId r) <$> cr_CosmosTokenIds r)) as [Hin|Hout].
    + apply list_elem_of_fmap in Hin as (nft & -> & Hn). eauto.
    + rewrite Hrv in Hnu by done. destruct (co_owned _ Hok _ _ Hnu) as (cls & nft & -> & Ho).
      exists cls, nft. split; [done|]. rewrite Hother; [done|].
      destruct (decide (cls = cr_ClassId r)) as [->|]; [right|by left].
      intros Hn. apply Hout, list_elem_of_fmap_2, Hn.
Qed.

(** ** The other messages of x/erc721 *)

Lemma ConvertNFT_chain msg c u c' :
  erc_ok c -> ids_distinct (c_erc c) (cn_ClassId msg) -> ConvertNFT msg c = Ok u c' -> erc_ok c'.
Proof.
  intros Hok Hd Hr. pose proof (frame_ok _ _ _ _ _ (ConvertNFT_kept nft_ok msg) Hr) as Hkept.
  apply ConvertNFT_ok in Hr as (_ & _ & tp & ids & Hs & Hreg & _ & _ & Hlen & Hown & Hother & Hrv);
    [|apply Hok|done]. split; [by split|apply Hkept, Hok|].
  intros nu t Hnu. destruct (decide (nu ∈ CreateNFTUID (cn_ClassId msg) <$> cn_CosmosTokenIds msg)) as [Hin|Hout].
  - apply list_elem_of_fmap in Hin as (nft & -> & Hn). destruct (combine_elem _ _ _ Hlen Hn) as [x Hx].
    destruct (Hown x nft Hx) as (_ & Ho & _). exists (cn_ClassId msg), nft. split; [done|].
    rewrite Ho. apply AccModule_nonempty.
  - apply Hrv in Hnu; [|done]. destruct (co_owned _ Hok _ _ Hnu) as (cls & nft & -> & Ho).
    exists cls, nft. split; [done|]. rewrite Hother; [done|].
    destruct (decide (cls = cn_ClassId msg)) as [->|]; [right|by left].
    intros Hn. apply Hout, list_elem_of_fmap_2, Hn.
Qed.

Lemma erc_only_chain c s :
  erc_ok c -> forward s = forward (c_erc c) -> reverse s = reverse (c_erc c) ->
  prefixTokenPair s = prefixTokenPair (c_erc c) ->
  prefixTokenPairByERC721 s = prefixTokenPairByERC721 (c_erc c) ->
  prefixTokenPairByClass s = prefixTokenPairByClass (c_erc c) -> erc_ok (set_erc c s).
Proof.
  intros Hok E1 E2 E3 E4 E5. apply (erc_ok_shrink c); [done|split|by apply nft_eq_kept| |done]; cbn.
  - unfold store_ok. rewrite E1, E2. apply Hok.
  - eapply registry_ext; [exact E3|exact E4|exact E5|apply Hok].
  - by rewrite E2.
Qed.

Lemma set_refund_rest s contract a ids seen :
  let s' := set_refund_loop s contract a ids seen in
  forward s' = forward s /\ reverse s' = reverse s /\ prefixTokenPair s' = prefixTokenPair s /\
  prefixTokenPairByERC721 s' = prefixTokenPairByERC721 s /\
  prefixTokenPairByClass s' = prefixTokenPairByClass s.
Proof.
  revert s seen. induction ids as [|id ids IH]; intros s seen; [done|]. cbn [set_refund_loop].
  destruct (_ =?s ""); [apply IH|]. case_bool_decide; [apply IH|].
  destruct (IH (SetEvmAddressByContractTokenId s contract id a) ({[id]} ∪ seen))
    as (-> & -> & -> & -> & ->). done.
Qed.

Lemma TransferERC721_chain msg c u c' :
  (forall m d v d', ibc_Transfer m d = Ok v d' -> guarded c_erc erc_bound d d' /\ kept nft_ok d d') ->
  erc_ok c -> good_address (te_EvmContractAddress msg) ->
  ids_distinct (c_erc c)
    (CreateClassIDFromContractAddress (CanonicalContractAddress (te_EvmContractAddress msg))) ->
  TransferERC721 msg c = Ok u c' -> erc_ok c'.
Proof.
  intros Hibc Hok Hg Hd Hr. apply mbind_ok in Hr as (res & c1 & Hc & Hr).
  apply ConvertERC721_chain in Hc; [|done..].
  apply mbind_ok in Hr as (u1 & c2 & Hi & Hr). apply Hibc in Hi as [Hi1 Hi2].
  apply (erc_guarded_ok _ _ Hc Hi1) in Hi2. clear Hc.
  apply mbind_ok in Hr as (a & c3 & Ha & Hr). apply lift_opt_ok in Ha as [_ ->].
  destruct (HasPrefix _ _) in Hr; [by apply mret_ok in Hr as [_ ->]|]. apply modify_ok in Hr as ->.
  apply erc_only_chain; [done|..]; apply set_refund_rest.
Qed.

(** ** The refund *)

(** Bindings and refund records only disappear; NFTs other than (cls, i) stay. *)
Definition narrows cls i c c' : Prop :=
  shrinks (c_erc c) (c_erc c') /\
  (forall nu t, reverse (c_erc c') !! nu = Some t -> reverse (c_erc c) !! nu = Some t) /\
  forall d k, (d, k) <> (cls, i) -> nk_GetOwner (c_nft c') d k = nk_GetOwner (c_nft c) d k.

#[local] Instance narrows_preorder cls i : PreOrder (narrows cls i).
Proof.
  split; [intros c; split_and!; done || reflexivity|].
  intros c1 c2 c3 (A1 & B1 & C1) (A2 & B2 & C2). split; [by etransitivity|]. split; [auto|].
  intros d k Hne. by rewrite C2, C1.
Qed.

Lemma same_narrows cls i c c' : erc_same c c' -> nft_same c c' -> narrows cls i c c'.
Proof. unfold erc_same, nft_same, narrows. intros -> ->. split_and!; done || reflexivity. Qed.

Lemma refund_unbind_shrinks cls t a et s :
  shrinks s (refund_unbind cls t a et s) /\
  forall nu x, reverse (refund_unbind cls t a et s) !! nu = Some x -> reverse s !! nu = Some x.
Proof.
  unfold refund_unbind. set (s1 := if et <>?s t then _ else _).
  assert (forward s1 = forward s /\ reverse s1 = reverse s /\
          forall k, refunds s !! k = None -> refunds s1 !! k = None) as (E1 & E2 & E3).
  { subst s1. destruct (_ <>?s _); split_and!; try done; intros k Hk; cbn; rewrite !delete_lookup;
      by repeat case_decide. }
  destruct (DeleteNFTPairByTokenID_rest (DeleteNFTPairByNFTID s1 cls t) a et) as (R1 & _ & _ & _ & R2 & _).
  cbn in R1, R2. cbv zeta. unfold shrinks. rewrite R1, R2. split_and!; auto.
  - intros k. rewrite DeleteNFTPairByTokenID_forward. cbn. rewrite E1. by case_decide.
  - intros k. rewrite delete_lookup, E2. by case_decide.
  - intros nu x. rewrite delete_lookup, E2. by case_decide.
Qed.

Lemma refund_unbind_narrows cls i t a et :
  frame (narrows cls i) (erc_set (refund_unbind cls t a et)).
Proof.
  intros c. destruct (refund_unbind_shrinks cls t a et (c_erc c)) as [A B]. by split_and!.
Qed.

Lemma Burn_narrows cls i str : frame (narrows cls i) (BurnNFT (MkMsgBurnNFT i cls str)).
Proof.
  assert (frame (narrows cls i) (nft_write (fun st => nk_Burn st cls i))) as Hb.
  { intros c. unfold nft_write. destruct (nk_Burn (c_nft c) cls i) as [e|st] eqn:E; [reflexivity|].
    apply Burn_effect in E as [[_ Hk] _]. split_and!; [done..|]. intros d k Hne. by apply Hk. }
  assert (forall l, frame (narrows cls i) (EmitEvents l)) as He by (intros l c; by apply same_narrows).
  unfold BurnNFT, RemoveNFT, Authorize, bech32. cbn. go_frame.
Qed.

Lemma refund_token_narrows cls g i : frame (narrows cls i) (refund_token cls g i).
Proof.
  assert (forall l, frame (narrows cls i) (EmitEvents l)) as He by (intros l c; by apply same_narrows).
  assert (forall f t b m l, frame (narrows cls i) (CallEVM f t b m l)) as Hc.
  { intros f t b m l. eapply frame_sub; [|apply CallEVM_frame]. intros c c' Hev.
    apply same_narrows; [by apply evm_only_erc|by apply evm_only_nft]. }
  assert (forall a n, frame (narrows cls i) (QueryERC721TokenOwner a n)) as Hq.
  { intros a n. eapply frame_sub; [|apply TokenOwner_frame]. intros c c' Hev.
    apply same_narrows; [by apply gas_only_erc|by apply gas_only_nft]. }
  pose proof refund_unbind_narrows. pose proof Burn_narrows.
  unfold refund_token, refund_release, refund_native, erc_get, EmitEvent. go_frame.
Qed.

Lemma refund_token_chain cls g t c g' c' :
  erc_ok c -> refund_token cls g t c = Ok g' c' -> erc_ok c'.
Proof.
  intros Hok Hr. pose proof (frame_ok _ _ _ _ _ (refund_token_kept nft_ok _ _ _) Hr) as Hkept.
  pose proof (frame_ok _ _ _ _ _ (refund_token_narrows _ _ _) Hr) as (_ & Hrv & Hk).
  apply refund_token_ok in Hr as [[[E1 E2] _]|(Hs & Href & E1 & E2 & E3)]; [| |apply Hok].
  - apply (erc_ok_shrink c); rewrite ?E1, ?E2; auto. apply Hok.
  - destruct Href as (a & et & n & o & rc & d1 & d2 & _ & _ & _ & _ & _ & _ & (_ & Hun & _) & _).
    apply (erc_ok_shrink c); [done|split; [done|]|done..|].
    + eapply registry_ext; [exact E1|exact E2|exact E3|apply Hok].
    + intros cl nft x Hx Ho. rewrite Hk; [done|]. intros [= -> ->]. congruence.
Qed.

Lemma Refund_chain data c u c' : erc_ok c -> RefundPacketToken data c = Ok u c' -> erc_ok c'.
Proof.
  intros Hok Hr. apply mbind_ok in Hr as (g & c1 & Hl & Hr).
  apply (for_acc_inv (fun _ d => erc_ok d)) in Hl; [| |done].
  - destruct (nonempty g); [apply EmitEvents_ok in Hr as ->|by apply mret_ok in Hr as [_ ->]].
    apply (erc_ok_shrink c1); [done|apply Hl|by apply nft_eq_kept|done..].
  - intros t b d b' d' _ Hd Ht. by eapply refund_token_chain.
Qed.

(** ** The settlement *)

Definition stay_owned c c' : Prop :=
  forall cls nft, nk_GetOwner (c_nft c) cls nft <> "" -> nk_GetOwner (c_nft c') cls nft <> "".

Lemma stay_owned_same c c' : c_nft c' = c_nft c -> stay_owned c c'.
Proof. unfold stay_owned. by intros ->. Qed.

Lemma settleVoucherBinding_owned b c o c' :
  settleVoucherBinding b c = Ok o c' -> stay_owned c c'.
Proof.
  intros Hr%settleVoucherBinding_ok. destruct o.
  - destruct Hr as (n & ow & _ & _ & _ & _ & [(_ & _ & _ & _ & Ho & Hk)|(_ & _ & E)]);
      [|by apply stay_owned_same].
    intros cls nft. eapply others_owned; [exact Hk|]. rewrite Ho.
    destruct (address_bytes ow) as [_ Hl]. intros E. by rewrite E in Hl.
  - destruct Hr as (_ & _ & E & _). by apply stay_owned_same.
  - destruct Hr as (_ & E & _). by apply stay_owned_same.
Qed.

Lemma purge_counted_owned tp k c k' c' : purge_counted tp k c = Ok k' c' -> stay_owned c c'.
Proof.
  intros Hr. apply mbind_ok in Hr as (u & c1 & Hu & Hr). apply modify_ok in Hu as ->.
  apply mret_ok in Hr as [_ ->]. by apply stay_owned_same.
Qed.

Lemma settle_pair_owned s0 k tp c k' c' : settle_pair s0 k tp c = Ok k' c' -> stay_owned c c'.
Proof.
  intros Hr. unfold settle_pair in Hr.
  destruct (negb _); [apply mret_ok in Hr as [_ ->]; by apply stay_owned_same|].
  destruct (class_bindings s0 (tp_ClassId tp)) as [|b bs]; [by apply purge_counted_owned in Hr|].
  apply mbind_ok in Hr as ([k1 cl] & c1 & Hl & Hr).
  apply (for_acc_inv (fun _ d => stay_owned c d)) in Hl; [| |by apply stay_owned_same].
  - destruct (Nat.eqb _ _) in Hr; [|by apply mret_ok in Hr as [_ ->]].
    apply purge_counted_owned in Hr. intros cls nft Ho. by apply Hr, Hl.
  - intros x [k2 c2] d [k3 c3] d' _ IH Hx. apply mbind_ok in Hx as (o & d1 & Hx & Hret).
    apply mret_ok in Hret as [_ ->]. apply settleVoucherBinding_owned in Hx.
    intros cls nft Ho. by apply Hx, IH.
Qed.

Lemma Settle_chain c k c' : erc_ok c -> SettleIBCVoucherPairs c = Ok k c' -> erc_ok c'.
Proof.
  intros Hok Hr. pose proof (frame_ok _ _ _ _ _ (Settle_kept nft_ok) Hr) as Hkept.
  pose proof (SettleIBCVoucherPairs_ok _ _ _ (mo_index _ (co_module _ Hok))
    (mo_registry _ (co_module _ Hok)) Hr) as [Hp _].
  assert (stay_owned c c') as Hown.
  { apply mbind_ok in Hr as (s0 & c0 & Hg & Hr). apply gets_ok in Hg as [-> ->].
    apply (for_acc_inv (fun _ d => stay_owned c d)) in Hr; [done| |by apply stay_owned_same].
    intros tp b d b' d' _ IH Hd%settle_pair_owned cls nft Ho. by apply Hd, IH. }
  apply (erc_ok_shrink c); [done|split; apply Hp|done|apply Hp|]. intros cls nft t _. apply Hown.
Qed.

(** The prune finds nothing to delete in an index that is one-to-one. *)
Lemma Prune_chain c :
  erc_ok c -> erc_ok (set_erc c (snd (PruneDuplicateUIDIndexEntries (c_erc c)))).
Proof.
  intros Hok. assert (deleted (prune_sets (c_erc c)) = ∅) as E.
  { apply no_duplicate_deleted. intros v n (Hf & Ha & _). apply Ha. exists n.
    by apply (ix_bij _ _ (mo_index _ (co_module _ Hok))). }
  apply erc_only_chain; [done|..]; cbn; by rewrite E, elements_empty.
Qed.

Lemma UpdateParams_chain msg c u c' : erc_ok c -> UpdateParams msg c = Ok u c' -> erc_ok c'.
Proof.
  intros Hok Hr. apply mbind_ok in Hr as (x & c1 & Hg & Hr). apply guard_ok in Hg as [_ ->].
  unfold erc_try in Hr. destruct (SetParams _ _) as [e|s] eqn:E; [done|]. apply ok_inj in Hr as [_ ->].
  unfold SetParams in E. destruct (Marshal_Params _); [done|]. injection E as <-. by apply erc_only_chain.
Qed.

(** ** The messages of x/collection *)

Lemma MintNFT_chain msg c u c' : erc_ok c -> MintNFT msg c = Ok u c' -> erc_ok c'.
Proof.
  intros Hok Hr. pose proof (frame_ok _ _ _ _ _ (MintNFT_kept nft_ok msg) Hr) as Hkept.
  apply MintNFT_ok in Hr as (r & n & Hb & _ & _ & _ & _ & _ & Ho & Hk & Hn).
  apply (erc_ok_nft c); [done..|]. intros cls nft Hold _. eapply others_owned; [exact Hk| |done].
  rewrite Ho. by eapply bech32_owned.
Qed.

Lemma TransferNFT_chain msg c u c' : erc_ok c -> TransferNFT msg c = Ok u c' -> erc_ok c'.
Proof.
  intros Hok Hr. pose proof (frame_ok _ _ _ _ _ (TransferNFT_kept nft_ok msg) Hr) as Hkept.
  apply TransferNFT_ok in Hr as (src & dst & _ & Hb & _ & Ho & _ & Hk & Hn & _).
  apply (erc_ok_nft c); [done..|]. intros cls nft Hold _. eapply others_owned; [exact Hk| |done].
  rewrite Ho. by eapply bech32_owned.
Qed.

(** The burn guard, as the application wires it, lets no bound NFT through. *)
Lemma unconverted_unbound c d i :
  erc_ok c -> IsConvertedNFT c d i = false -> reverse (c_erc c) !! CreateNFTUID d i = None.
Proof.
  intros Hok Hc. cbn in Hc. unfold app_IsConvertedNFT in Hc. apply orb_false_iff in Hc as [Hc%str_neqb_false _].
  destruct (reverse (c_erc c) !! _) as [t|] eqn:E; [|done]. pose proof (mo_index _ (co_module _ Hok)) as Hs.
  unfold GetNFTPairByClassNFTID, GetTokenUIDPairByNFTUID, kv_get in Hc. rewrite E in Hc. cbn in Hc. subst t.
  apply (ix_bij _ _ Hs), (ix_wf _ _ Hs) in E as [(a & t & Eu & _)%wf_key_self _].
  symmetry in Eu. by apply uid_nonempty in Eu.
Qed.

Lemma burned_chain d i c c' :
  erc_ok c -> nft_only c c' -> kept nft_ok c c' -> IsConvertedNFT c d i = false ->
  others_kept d i (c_nft c) (c_nft c') -> erc_ok c'.
Proof.
  intros Hok Hn Hkept Hc [_ Hk]. apply (erc_ok_nft c); [done..|]. intros cls nft Hold Hbound.
  destruct (decide ((cls, nft) = (d, i))) as [[= -> ->]|Hne]; [|by destruct (Hk cls nft Hne) as [_ ->]].
  by apply unconverted_unbound in Hc.
Qed.

Lemma BurnNFT_chain msg c u c' : erc_ok c -> BurnNFT msg c = Ok u c' -> erc_ok c'.
Proof.
  intros Hok Hr. pose proof (frame_ok _ _ _ _ _ (BurnNFT_kept nft_ok msg) Hr) as Hkept.
  apply BurnNFT_ok in Hr as (src & _ & _ & Hc & _ & Hk & Hn). by eapply burned_chain.
Qed.

Lemma InterNft_Burn_chain d i c u c' : erc_ok c -> InterNft.Burn d i c = Ok u c' -> erc_ok c'.
Proof.
  intros Hok Hr. pose proof (frame_ok _ _ _ _ _ (InterNft_Burn_kept nft_ok d i) Hr) as Hkept.
  apply InterNft_Burn_ok in Hr as (Hn & _ & [E|(_ & Hc & Hk)]); [|by eapply burned_chain].
  apply (erc_ok_nft c); [done..|]. by rewrite E.
Qed.

(** The messages that change no owner. *)
Lemma erc_ok_same_owners c c' :
  erc_ok c -> nft_only c c' -> kept nft_ok c c' -> same_owners (c_nft c) (c_nft c') -> erc_ok c'.
Proof. intros Hok Hn Hc Ho. apply (erc_ok_nft c); [done..|]. intros cls nft. by rewrite Ho. Qed.

Lemma EditNFT_chain msg c u c' : erc_ok c -> EditNFT msg c = Ok u c' -> erc_ok c'.
Proof.
  intros Hok Hr. pose proof (frame_ok _ _ _ _ _ (EditNFT_kept nft_ok msg) Hr) as Hkept.
  apply mbind_ok in Hr as (a & c0 & Hb & Hr). apply bech32_ok in Hb as [_ ->].
  apply mbind_ok in Hr as (x & c1 & Hu & Hr). apply EmitEvents_ok in Hr as ->.
  apply UpdateNFT_ok in Hu as (_ & _ & _ & _ & Ho & Hn). by apply (erc_ok_same_owners c).
Qed.

Lemma SaveDenom_owners a b sc d e f g h i j k : frame owners_same (SaveDenom a b sc d e f g h i j k).
Proof.
  unfold SaveDenom. pose proof run_check_owners. pose proof SaveClass_owners. go_frame.
Qed.

#[local] Instance nft_only_preorder : PreOrder nft_only.
Proof. split; [exact nft_only_refl|exact nft_only_trans]. Qed.

Lemma nft_write_only_frame f : frame nft_only (nft_write f).
Proof. intros c. unfold nft_write. by destruct (f (c_nft c)). Qed.

Lemma run_check_only r : frame nft_only (run_check r).
Proof. intros c. by destruct r. Qed.

Lemma SaveDenom_only a b sc d e f g h i j k : frame nft_only (SaveDenom a b sc d e f g h i j k).
Proof. unfold SaveDenom. pose proof nft_write_only_frame. pose proof run_check_only. go_frame. Qed.

Lemma UpdateClass_owners cl : frame owners_same (nft_write (fun st => nk_UpdateClass st cl)).
Proof.
  intros c. unfold nft_write. destruct (nk_UpdateClass (c_nft c) cl) eqn:E; [done|].
  apply UpdateClass_spec in E as (_ & _ & _ & E). exact E.
Qed.

Lemma TransferDenom_chain msg c u c' : erc_ok c -> TransferDenom msg c = Ok u c' -> erc_ok c'.
Proof.
  intros Hok Hr. pose proof (frame_ok _ _ _ _ _ (TransferDenom_kept nft_ok msg) Hr) as Hkept.
  unfold TransferDenom in Hr. apply mbind_ok in Hr as (a & c0 & Hb & Hr). apply bech32_ok in Hb as [_ ->].
  apply mbind_ok in Hr as (b & c0 & Hb & Hr). apply bech32_ok in Hb as [_ ->].
  apply mbind_ok in Hr as (x & c1 & Hs & Hr). apply EmitEvents_ok in Hr as ->.
  apply (erc_ok_same_owners c); [done| |done|].
  - refine (frame_ok nft_only _ _ _ _ _ Hs). unfold TransferDenomOwner, GetDenomInfo.
    pose proof nft_write_only_frame. go_frame.
  - refine (frame_ok owners_same _ _ _ _ _ Hs). unfold TransferDenomOwner, GetDenomInfo.
    pose proof UpdateClass_owners. go_frame.
Qed.

Lemma IssueDenom_chain msg c u c' : erc_ok c -> IssueDenom msg c = Ok u c' -> erc_ok c'.
Proof.
  intros Hok Hr. pose proof (frame_ok _ _ _ _ _ (IssueDenom_kept nft_ok msg) Hr) as Hkept.
  apply mbind_ok in Hr as (a & c0 & Hb & Hr). apply bech32_ok in Hb as [_ ->].
  apply mbind_ok in Hr as (x1 & c0 & Hx & Hr). apply run_check_ok in Hx as [_ ->].
  apply mbind_ok in Hr as (x2 & c1 & Hs & Hr). apply EmitEvents_ok in Hr as ->.
  apply (erc_ok_same_owners c); [done| |done|].
  - apply (frame_ok _ _ _ _ _ (SaveDenom_only _ _ _ _ _ _ _ _ _ _ _) Hs).
  - apply (frame_ok _ _ _ _ _ (SaveDenom_owners _ _ _ _ _ _ _ _ _ _ _) Hs).
Qed.

(** ** Every reachable context *)

Lemma store_ok_empty : store_ok empty_erc.
Proof. split; intros *; cbn; rewrite ?lookup_empty; done. Qed.

Lemma registered_empty p : ~ registered empty_erc p.
Proof. intros (bz & _ & E). cbn in E. by rewrite lookup_empty in E. Qed.

Lemma registry_ok_empty : registry_ok empty_erc.
Proof.
  split.
  - intros id bz. cbn. by rewrite lookup_empty.
  - intros a id. cbn. rewrite lookup_empty. split; [done|]. intros (p & Hp & _). by apply registered_empty in Hp.
  - intros k id. cbn. rewrite lookup_empty. split; [done|]. intros (p & Hp & _). by apply registered_empty in Hp.
Qed.

Lemma module_ok_empty : module_ok empty_erc.
Proof. split; [apply store_ok_empty|apply registry_ok_empty]. Qed.

Lemma erc_ok_initial c :
  c_erc c = empty_erc -> (forall cl, nk_GetClass (c_nft c) cl = None) ->
  (forall cl i, nk_GetNFT (c_nft c) cl i = None) -> (forall cl, nk_GetTotalSupply (c_nft c) cl = 0%Z) -> erc_ok c.
Proof.
  intros Ee Hc Hn Ht. split; [rewrite Ee; apply module_ok_empty|split|].
  - by split; intros *; rewrite ?Hc, ?Hn.
  - intros cl. rewrite Ht. destruct (nk_GetNFTsOfClass (c_nft c) cl) as [|n l] eqn:E; [done|].
    assert (n ∈ nk_GetNFTsOfClass (c_nft c) cl) as Hin by (rewrite E; by left).
    apply GetNFTsOfClass_spec in Hin. by rewrite Hn in Hin.
  - intros nu t. rewrite Ee. cbn. by rewrite lookup_empty.
Qed.
End ChainState.
