(* ===== verification/EvmIbc.v ===== *)
(** x/evmibc: the middleware on the ICS-721 stack and its keeper, which refund the
    packets the conversion modules sent, and the forwarding of ibc/module.go. *)
From S2P Require Import Prelude GoStrings Utf8 Sdk CollectionTypes CollectionKeeper Erc721Types.
From S2P Require Import Erc721Store Erc721Genesis Erc721Evm Erc721Msg Erc721Register.
From S2P Require Import Erc721Convert Cw721Types Cw721Store Cw721Wasm Cw721Register Cw721Convert.
Open Scope go_scope.
Open Scope list_scope.

(** The packages nft-transfer, ibc-go and encoding/json, which this module only calls. *)
Class Ics721 `{EthLib} `{SdkLib} `{NftKeeper} `{!EvmKeeper} `{!WasmState} := {
  UnmarshalJSON_PacketData : string -> option NonFungibleTokenPacketData;
  UnmarshalJSON_Acknowledgement : string -> option Acknowledgement;
  json_Unmarshal_ConvertTo : string -> option string;      (** into PackageMemo *)
  NewErrorAcknowledgement : error -> Acknowledgement;
  GetClassPrefix : string -> string -> string;             (** port, channel *)
  RemoveClassPrefix : string -> string -> string -> error + string;
  IBCClassID : string -> string;                           (** ParseClassTrace(s).IBCClassID() *)
  ics_OnAcknowledgementPacket : Packet -> NonFungibleTokenPacketData -> Acknowledgement -> GoM unit;
  ics_OnTimeoutPacket : Packet -> NonFungibleTokenPacketData -> GoM unit;
  ics_GetVoucherClassID : string -> GoM string;
  EventTypeTimeout : string;
  ics_ModuleName : string;
  AttributeKeySender : string; AttributeKeyReceiver : string;
  AttributeKeyClassID : string; AttributeKeyTokenIDs : string;
}.

(** porttypes.IBCModule: the packet callbacks of the application underneath *)
Record IBCModule `{EthLib} `{SdkLib} `{NftKeeper} `{!EvmKeeper} `{!WasmState} := {
  app_OnRecvPacket : string -> Packet -> string -> GoM (option Acknowledgement);
  app_OnAcknowledgementPacket : string -> Packet -> string -> string -> GoM unit;
  app_OnTimeoutPacket : string -> Packet -> string -> GoM unit;
}.

(** The ICS-721 application under the x/evmibc middleware (app/keepers/keepers.go). *)
Class NftTransferApp `{EthLib} `{SdkLib} `{NftKeeper} `{!EvmKeeper} `{!WasmState} := { nft_transfer : IBCModule }.

(** porttypes.ICS4Wrapper *)
Record ICS4Wrapper `{EthLib} `{SdkLib} `{NftKeeper} `{!EvmKeeper} `{!WasmState} := {
  ics4_SendPacket : string -> string -> Timeout -> string -> GoM Z;
  ics4_WriteAcknowledgement : Packet -> Acknowledgement -> GoM unit;
  ics4_GetAppVersion : Ctx -> string -> string -> option string;
}.

Module EvmIbc.
Section EvmIbc.
Context `{EthLib} `{SdkLib} `{NftKeeper} `{!EvmKeeper} `{!WasmState} `{!WasmKeeper} `{CollectionCodec}
        `{Erc721Codec} `{!Cw721Store.Cw721Codec} `{!ConvertedNFTChecker} `{FmtLib} `{!Ics721}.

(** ** types/ibc_memo.go *)

Inductive ConvertKind := ConvertKindNone | ConvertKindERC721 | ConvertKindCW721.

Definition OutboundConvertKind (data : NonFungibleTokenPacketData) : ConvertKind :=
  if (pd_Sender data =?s acc_String AccModuleAddress) && HasSuffix (pd_Memo data) TransferERC721Memo
  then ConvertKindERC721
  else if (pd_Sender data =?s acc_String Cw721Types.AccModuleAddress)
          && HasSuffix (pd_Memo data) Cw721Types.TransferCW721Memo
  then ConvertKindCW721
  else ConvertKindNone.

Definition IsOutboundConvertPacket (data : NonFungibleTokenPacketData) : bool :=
  match OutboundConvertKind data with ConvertKindNone => false | _ => true end.

(** ** keeper *)

(** GetVoucherClassID (keeper.go) *)
Definition GetVoucherClassID (port channel classId : string) : string :=
  IBCClassID (GetClassPrefix port channel +:+ classId).

(** getRefundClassId *)
Definition getRefundClassId (packet : Packet) (data : NonFungibleTokenPacketData) : GoM string :=
  if negb (ContainsByte (pd_ClassId data) "/") then mret (pd_ClassId data)
  else if HasPrefix (pd_ClassId data) (GetClassPrefix (pk_SourcePort packet) (pk_SourceChannel packet)) then
    orgClass <- lift_sum (RemoveClassPrefix (pk_SourcePort packet) (pk_SourceChannel packet) (pd_ClassId data)) ;;
    mret (GetVoucherClassID (pk_SourcePort packet) (pk_SourceChannel packet) orgClass)
  else
    EmitEvent (NewEvent "cross_channel_refund"
      [("class_id", pd_ClassId data); ("source_port", pk_SourcePort packet);
       ("source_channel", pk_SourceChannel packet); ("sequence", BigString (pk_Sequence packet))]) ;;;
    ics_GetVoucherClassID (pd_ClassId data).

Definition set_Sender (data : NonFungibleTokenPacketData) (sender : string) : NonFungibleTokenPacketData :=
  MkPacketData (pd_ClassId data) (pd_TokenIds data) sender (pd_Receiver data) (pd_Memo data).
Definition set_ClassId (data : NonFungibleTokenPacketData) (classId : string) : NonFungibleTokenPacketData :=
  MkPacketData classId (pd_TokenIds data) (pd_Sender data) (pd_Receiver data) (pd_Memo data).

(** Keeper.OnAcknowledgementPacket (ibc_hook.go) *)
Definition keeper_OnAcknowledgementPacket (packet : Packet) (data : NonFungibleTokenPacketData)
  (ack : Acknowledgement) : GoM unit :=
  match ack with
  | Acknowledgement_Error _ =>
      match OutboundConvertKind data with
      | ConvertKindERC721 =>
          localClassID <- getRefundClassId packet data ;;
          ics_OnAcknowledgementPacket packet (set_Sender data (acc_String AccModuleAddress)) ack ;;;
          RefundPacketToken (set_ClassId data localClassID)
      | ConvertKindCW721 =>
          localClassID <- getRefundClassId packet data ;;
          ics_OnAcknowledgementPacket packet (set_Sender data (acc_String Cw721Types.AccModuleAddress)) ack ;;;
          Cw721Convert.RefundPacketToken (set_ClassId data localClassID)
      | ConvertKindNone => mret tt
      end
  | _ => mret tt
  end.

(** Keeper.OnTimeoutPacket *)
Definition keeper_OnTimeoutPacket (packet : Packet) (data : NonFungibleTokenPacketData) : GoM unit :=
  match OutboundConvertKind data with
  | ConvertKindERC721 =>
      localClassID <- getRefundClassId packet data ;;
      ics_OnTimeoutPacket packet (set_Sender data (acc_String AccModuleAddress)) ;;;
      RefundPacketToken (set_ClassId data localClassID)
  | ConvertKindCW721 =>
      localClassID <- getRefundClassId packet data ;;
      ics_OnTimeoutPacket packet (set_Sender data (acc_String Cw721Types.AccModuleAddress)) ;;;
      Cw721Convert.RefundPacketToken (set_ClassId data localClassID)
  | ConvertKindNone => mret tt
  end.

(** ** ibc/module.go: the callbacks the middleware embeds *)
Definition Module_OnRecvPacket (app : IBCModule) := app_OnRecvPacket app.
Definition Module_OnAcknowledgementPacket (app : IBCModule) := app_OnAcknowledgementPacket app.
Definition Module_OnTimeoutPacket (app : IBCModule) := app_OnTimeoutPacket app.

(** ** ibc_middleware.go *)

Definition convertERC721 : string := "erc721".
Definition convertCW721 : string := "cw721".
Definition maxMemoLength : nat := 1024.

Definition OnRecvPacket (app : IBCModule) (channelVersion : string) (packet : Packet) (relayer : string)
  : GoM (option Acknowledgement) :=
  match UnmarshalJSON_PacketData (pk_Data packet) with
  | None => mret (Some (NewErrorAcknowledgement (SdkErr ErrInvalidType)))
  | Some data =>
      if maxMemoLength <? len (pd_Memo data) then Module_OnRecvPacket app channelVersion packet relayer
      else match json_Unmarshal_ConvertTo (pd_Memo data) with
      | None => Module_OnRecvPacket app channelVersion packet relayer
      | Some convertTo =>
          if (ToLower convertTo =?s convertERC721) || (ToLower convertTo =?s convertCW721) then
            EmitEvent (NewEvent "ibc_nft_convert"
              [("status", "3"); ("policy", "R1C"); ("convert_to", convertTo);
               ("class_id", pd_ClassId data); ("sequence", BigString (pk_Sequence packet))]) ;;;
            Module_OnRecvPacket app channelVersion packet relayer
          else Module_OnRecvPacket app channelVersion packet relayer
      end
  end.

Definition OnAcknowledgementPacket (app : IBCModule) (channelVersion : string) (packet : Packet)
  (acknowledgement : string) (relayer : string) : GoM unit :=
  ack <- lift_opt (UnmarshalJSON_Acknowledgement acknowledgement) (SdkErr ErrUnknownRequest) ;;
  data <- lift_opt (UnmarshalJSON_PacketData (pk_Data packet)) (SdkErr ErrUnknownRequest) ;;
  let isError := match ack with Acknowledgement_Error _ => true | _ => false end in
  if isError && IsOutboundConvertPacket data then
    cached_or_error (keeper_OnAcknowledgementPacket packet data ack)
  else
    keeper_OnAcknowledgementPacket packet data ack ;;;
    Module_OnAcknowledgementPacket app channelVersion packet acknowledgement relayer.

Definition timeout_event (data : NonFungibleTokenPacketData) : Event :=
  NewEvent EventTypeTimeout
    [("module", ics_ModuleName); (AttributeKeySender, pd_Sender data);
     (AttributeKeyReceiver, pd_Receiver data); (AttributeKeyClassID, pd_ClassId data);
     (AttributeKeyTokenIDs, Join (pd_TokenIds data) ",")].

Definition OnTimeoutPacket (app : IBCModule) (channelVersion : string) (packet : Packet) (relayer : string)
  : GoM unit :=
  data <- lift_opt (UnmarshalJSON_PacketData (pk_Data packet)) (SdkErr ErrUnknownRequest) ;;
  if IsOutboundConvertPacket data then
    cached_or_error (keeper_OnTimeoutPacket packet data) ;;;
    EmitEvent (timeout_event data)
  else Module_OnTimeoutPacket app channelVersion packet relayer.

Definition SendPacket (ics4 : option ICS4Wrapper) (sourcePort sourceChannel : string) (timeout : Timeout)
  (data : string) : GoM Z :=
  match ics4 with
  | None => throw (SdkErr ErrLogic)
  | Some w => ics4_SendPacket w sourcePort sourceChannel timeout data
  end.

Definition WriteAcknowledgement (ics4 : option ICS4Wrapper) (packet : Packet) (ack : Acknowledgement)
  : GoM unit :=
  match ics4 with
  | None => throw (SdkErr ErrLogic)
  | Some w => ics4_WriteAcknowledgement w packet ack
  end.

Definition GetAppVersion (ics4 : option ICS4Wrapper) (c : Ctx) (portID channelID : string) : option string :=
  match ics4 with None => None | Some w => ics4_GetAppVersion w c portID channelID end.
End EvmIbc.
End EvmIbc.
