(* ===== verification/Erc721Query.v ===== *)
(** x/erc721/keeper/grpc_query.go and pagination.go: the query server. *)
From S2P Require Import Prelude GoStrings Sdk Pagination CollectionTypes Erc721Types Erc721Store Erc721Index.
From S2P Require Import Erc721Genesis Erc721Registry Erc721Convert EvmIbc.
Open Scope go_scope.
Open Scope list_scope.

Module Erc721Query.

(** ** pagination.go *)

Definition paginationDefaultLimit : Z := 100.
Definition paginationMaxLimit : Z := 100.

Definition newDefaultPageRequest : PageRequest := MkPageRequest "" 0 paginationDefaultLimit false false.

Definition shapePageRequest (req : option PageRequest) : error + PageRequest :=
  match req with
  | None => inr newDefaultPageRequest
  | Some req =>
      if (0 <? pr_Offset req)%Z then inl (SdkErr ErrInvalidRequest)
      else if pr_CountTotal req then inl (SdkErr ErrInvalidRequest)
      else
        let limit := if ((0 <? pr_Limit req) && (pr_Limit req <=? paginationMaxLimit))%Z
                     then pr_Limit req else pr_Limit newDefaultPageRequest in
        inr (MkPageRequest (pr_Key req) 0 limit false (pr_Reverse req))
  end.

(** ** Requests *)

Record QueryTokenPairsRequest := { qtp_Pagination : option PageRequest }.
Record QueryTokenPairRequest := { qt_Token : string }.
Record QueryEvmAddressRequest := { qe_Port : string; qe_Channel : string; qe_ClassId : string }.

Section Query.
Context `{EthLib} `{SdkLib} `{NftKeeper} `{!EvmKeeper} `{!WasmState} `{Erc721Codec} `{FmtLib} `{!Ics721}
        `{Paginator}.
Implicit Types s : ErcStore.

(** GetVoucherClassID (keeper.go) *)
Definition GetVoucherClassID (port channel classId : string) : string :=
  let classPrefix := GetClassPrefix port channel in
  let prefixedClassID := classPrefix +:+ classId in
  IBCClassID prefixedClassID.

(** The callback TokenPairs hands to Paginate *)
Definition append_pair (_ value : string) (pairs : list TokenPair) : error + list TokenPair :=
  match Unmarshal_TokenPair value with
  | inl e => inl e
  | inr p => inr (pairs ++ [p])
  end.

Definition TokenPairs s (req : option QueryTokenPairsRequest) : error + (list TokenPair * PageResponse) :=
  match req with
  | None => inl (status_Error InvalidArgument "empty request")
  | Some req =>
      match shapePageRequest (qtp_Pagination req) with
      | inl e => inl (status_Error InvalidArgument (err_Error e))
      | inr pageReq =>
          match Paginate (kv_iter (prefixTokenPair s)) pageReq append_pair [] with
          | inl e => inl (status_Error Internal (err_Error e))
          | inr r => inr r
          end
      end
  end.

Definition lookupTokenPairQuery s (token : string) : option TokenPair :=
  match GetPairByClass s token with
  | inr p => Some p
  | inl _ =>
      if IsHexAddress token
      then match GetPairByEVM s token with inr p => Some p | inl _ => None end
      else None
  end.

Definition not_found (token : string) : error :=
  status_Error NotFound ("token pair with token '" +:+ token +:+ "'").

Definition TokenPair s (req : option QueryTokenPairRequest) : error + Erc721Types.TokenPair :=
  match req with
  | None => inl (status_Error InvalidArgument "empty request")
  | Some req =>
      match lookupTokenPairQuery s (qt_Token req) with
      | Some p => inr p
      | None => inl (not_found (qt_Token req))
      end
  end.

Definition Params s : Erc721Types.Params := GetParams s.

Definition EvmContract s (req : option QueryEvmAddressRequest) : error + Erc721Types.TokenPair :=
  match req with
  | None => inl (status_Error InvalidArgument "empty request")
  | Some req =>
      if (qe_Port req =?s "") || (qe_Channel req =?s "") || (qe_ClassId req =?s "")
      then inl (status_Error InvalidArgument "port, channel, and class_id are required")
      else
        let token := GetVoucherClassID (qe_Port req) (qe_Channel req) (qe_ClassId req) in
        match GetPairByClass s token with
        | inl _ => inl (not_found token)
        | inr p => inr p
        end
  end.
End Query.
End Erc721Query.
