(* ===== verification/Cw721Query.v ===== *)
(** x/cw721/keeper/grpc_query.go and pagination.go: the query server. *)
From S2P Require Import Prelude GoStrings Sdk Pagination CollectionTypes Cw721Types Cw721Store.
Open Scope go_scope.
Open Scope list_scope.

Module Cw721Query.
Import Cw721Types Cw721Store.

(** ** pagination.go *)

Definition paginationDefaultLimit : Z := 100.
Definition paginationMaxLimit : Z := 100.

Definition newDefaultPageRequest : PageRequest := MkPageRequest "" 0 paginationDefaultLimit false false.

Definition shapePageRequest (req : option PageRequest) : error + PageRequest :=
  match req with
  | None => inr newDefaultPageRequest
  | Some req =>
      if (0 <? pr_Offset req)%Z then inl (SdkErr ErrInvalidRequest)
      else if pr_CountTotal req then inl (SdkErr ErrInvalidRequest)
      else
        let limit := if ((0 <? pr_Limit req) && (pr_Limit req <=? paginationMaxLimit))%Z
                     then pr_Limit req else pr_Limit newDefaultPageRequest in
        inr (MkPageRequest (pr_Key req) 0 limit false (pr_Reverse req))
  end.

(** ** Requests *)

Record QueryTokenPairsRequest := { qtp_Pagination : option PageRequest }.
Record QueryTokenPairRequest := { qt_Token : string }.
Record QueryWasmAddressRequest := { qw_Port : string; qw_Channel : string; qw_ClassId : string }.

Section Query.
Context `{SdkLib} `{Cw721Codec} `{FmtLib} `{Paginator}.
Implicit Types s : CwStore.

(** The callback TokenPairs hands to Paginate *)
Definition append_pair (_ value : string) (pairs : list TokenPair) : error + list TokenPair :=
  match Unmarshal_TokenPair value with
  | inl e => inl e
  | inr p => inr (pairs ++ [p])
  end.

Definition TokenPairs s (req : option QueryTokenPairsRequest) : error + (list TokenPair * PageResponse) :=
  match req with
  | None => inl (status_Error InvalidArgument "empty request")
  | Some req =>
      match shapePageRequest (qtp_Pagination req) with
      | inl e => inl (status_Error InvalidArgument (err_Error e))
      | inr pageReq =>
          match Paginate (kv_iter (cw_TokenPair s)) pageReq append_pair [] with
          | inl e => inl (status_Error Internal (err_Error e))
          | inr r => inr r
          end
      end
  end.

(** A bech32 address is looked up in its canonical spelling. *)
Definition query_token (token : string) : string :=
  match AccAddressFromBech32 token with
  | None => token
  | Some _ => match NormalizeCW721Address token with inr canonical => canonical | inl _ => token end
  end.

Definition not_found (token : string) : error :=
  status_Error NotFound ("token pair with token '" +:+ token +:+ "'").

Definition TokenPair s (req : option QueryTokenPairRequest) : error + Cw721Types.TokenPair :=
  match req with
  | None => inl (status_Error InvalidArgument "empty request")
  | Some req =>
      let id := GetTokenPairID s (query_token (qt_Token req)) in
      if id =?s "" then inl (not_found (qt_Token req))
      else match GetTokenPair s id with
           | None => inl (not_found (qt_Token req))
           | Some p => inr p
           end
  end.

Definition Params s : Cw721Types.Params := GetParams s.

Definition WasmContract s (req : option QueryWasmAddressRequest) : error + Cw721Types.TokenPair :=
  match req with
  | None => inl (status_Error InvalidArgument "empty request")
  | Some req =>
      let id := GetClassMap s (qw_ClassId req) in
      if id =?s ""
      then inl (status_Error NotFound ("no token pair registered for class '" +:+ qw_ClassId req +:+ "'"))
      else match GetTokenPair s id with
           | None => inl (status_Error NotFound ("token pair for class '" +:+ qw_ClassId req +:+ "'"))
           | Some p => inr p
           end
  end.
End Query.
End Cw721Query.
