(* ===== verification/CollectionQuery.v ===== *)
(** x/collection/keeper/grpc_query.go and pagination.go: the query server. *)
From S2P Require Import Prelude GoStrings Sdk Pagination CollectionTypes CollectionKeeper.
Open Scope go_scope.
Open Scope list_scope.

(** The query server of x/nft. *)
Class NftQuery `{NftKeeper} := {
  nk_NFTs : nft_state -> string -> string -> PageRequest -> error + (list nft_NFT * PageResponse);
  nk_Classes : nft_state -> PageRequest -> error + (list nft_Class * PageResponse);
}.

Module CollectionQuery.

(** ** pagination.go *)

Definition paginationDefaultLimit : Z := 100.
Definition paginationMaxLimit : Z := 100.

Definition newDefaultPageRequest : PageRequest := MkPageRequest "" 0 paginationDefaultLimit false false.

Definition shapePageRequest (req : option PageRequest) : error + PageRequest :=
  match req with
  | None => inr newDefaultPageRequest
  | Some req =>
      if (0 <? pr_Offset req)%Z then inl (SdkErr ErrInvalidRequest)
      else if pr_CountTotal req then inl (SdkErr ErrInvalidRequest)
      else
        let limit := if ((0 <? pr_Limit req) && (pr_Limit req <=? paginationMaxLimit))%Z
                     then pr_Limit req else pr_Limit newDefaultPageRequest in
        inr (MkPageRequest (pr_Key req) 0 limit false (pr_Reverse req))
  end.

(** ** Requests and responses *)

Record QuerySupplyRequest := { qs_DenomId : string; qs_Owner : string }.
Record QueryNFTsOfOwnerRequest := {
  qo_DenomId : string; qo_Owner : string; qo_Pagination : option PageRequest }.
Record QueryCollectionRequest := { qc_DenomId : string; qc_Pagination : option PageRequest }.
Record QueryDenomRequest := { qd_DenomId : string }.
Record QueryDenomsRequest := { qds_Pagination : option PageRequest }.
Record QueryNFTRequest := { qn_DenomId : string; qn_TokenId : string }.

Record IDCollection := MkIDCollection { idc_DenomId : string; TokenIds : list string }.
Record Owner := MkOwner { Owner_Address : string; IDCollections : list IDCollection }.

(** ** types/owners.go *)

Definition IDCollection_Supply (idc : IDCollection) : nat := List.length (TokenIds idc).
Definition AddID (idc : IDCollection) (tokenID : string) : IDCollection :=
  MkIDCollection (idc_DenomId idc) (TokenIds idc ++ [tokenID]).
Fixpoint IDCollections_Add (idcs : list IDCollection) (denomID tokenID : string) : list IDCollection :=
  match idcs with
  | [] => [MkIDCollection denomID [tokenID]]
  | idc :: idcs =>
      if idc_DenomId idc =?s denomID then AddID idc tokenID :: idcs
      else idc :: IDCollections_Add idcs denomID tokenID
  end.

Section Query.
Context `{EthLib} `{SdkLib} `{NftKeeper} `{!EvmKeeper} `{!WasmState} `{CollectionCodec} `{FmtLib} `{!NftQuery}.

(** GetTotalSupply, GetTotalSupplyOfOwner (collection.go) *)
Definition GetTotalSupply (s : nft_state) (denomID : string) : Z := nk_GetTotalSupply s denomID.
Definition GetTotalSupplyOfOwner (s : nft_state) (id owner : string) : Z := nk_GetBalance s id owner.

Definition Supply (s : nft_state) (request : QuerySupplyRequest) : error + Z :=
  if (qs_Owner request =?s "") && (qs_DenomId request <>?s "") then inr (GetTotalSupply s (qs_DenomId request))
  else if (qs_Owner request =?s "") && (qs_DenomId request =?s "")
  then inl (status_Error InvalidArgument "must specify at least one of owner or denom_id")
  else if qs_DenomId request =?s "" then inl (status_Error InvalidArgument "denom_id is required")
  else match AccAddressFromBech32 (qs_Owner request) with
       | None => inl (status_Error InvalidArgument ("invalid owner address " +:+ qs_Owner request))
       | Some owner => inr (GetTotalSupplyOfOwner s (qs_DenomId request) owner)
       end.

(** The map from class to token ids, and the classes in the order of their first token *)
Definition group_token (g : gmap string (list string) * list string) (token : nft_NFT)
  : gmap string (list string) * list string :=
  let '(denomMap, denoms) := g in
  let '(denomMap, denoms) :=
    match denomMap !! NFT_ClassId token with
    | None => (<[NFT_ClassId token := []]> denomMap, denoms ++ [NFT_ClassId token])
    | Some _ => (denomMap, denoms)
    end in
  (<[NFT_ClassId token := default [] (denomMap !! NFT_ClassId token) ++ [NFT_Id token]]> denomMap, denoms).
Definition group_tokens (tokens : list nft_NFT) : list IDCollection :=
  let '(denomMap, denoms) := fold_left group_token tokens (∅, []) in
  (fun denomID => MkIDCollection denomID (default [] (denomMap !! denomID))) <$> denoms.

Definition NFTsOfOwner (s : nft_state) (request : QueryNFTsOfOwnerRequest) : error + (Owner * PageResponse) :=
  if qo_Owner request =?s "" then inl (status_Error InvalidArgument "owner address cannot be empty")
  else match AccAddressFromBech32 (qo_Owner request) with
       | None => inl (status_Error InvalidArgument ("invalid owner address " +:+ qo_Owner request))
       | Some _ =>
           match shapePageRequest (qo_Pagination request) with
           | inl e => inl (status_Error InvalidArgument (err_Error e))
           | inr page =>
               match nk_NFTs s (qo_DenomId request) (qo_Owner request) page with
               | inl e => inl e
               | inr (nfts, pagination) =>
                   inr (MkOwner (qo_Owner request) (group_tokens nfts), pagination)
               end
           end
       end.

Definition Collection (request : QueryCollectionRequest) : GoM (CollectionTypes.Collection * PageResponse) :=
  denom <- CollectionKeeper.GetDenomInfo (qc_DenomId request) ;;
  s <- gets c_nft ;;
  match shapePageRequest (qc_Pagination request) with
  | inl e => throw (status_Error InvalidArgument (err_Error e))
  | inr page =>
      '(nfts, pagination) <- lift_sum (nk_NFTs s (qc_DenomId request) "" page) ;;
      mret (MkCollection denom (CollectionKeeper.base_nft s (qc_DenomId request) <$> nfts), pagination)
  end.

Definition Denom (request : QueryDenomRequest) : GoM CollectionTypes.Denom :=
  CollectionKeeper.GetDenomInfo (qd_DenomId request).

(** GetDenomInfo for each class of the page *)
Fixpoint denoms_of (classes : list nft_Class) : GoM (list CollectionTypes.Denom) :=
  match classes with
  | [] => mret []
  | class :: classes =>
      r <- attempt (CollectionKeeper.GetDenomInfo (Class_Id class)) ;;
      match r with
      | inl e => throw (status_Error NotFound ("denom " +:+ Class_Id class +:+ ": " +:+ err_Error e))
      | inr d => ds <- denoms_of classes ;; mret (d :: ds)
      end
  end.

Definition Denoms (req : QueryDenomsRequest) : GoM (list CollectionTypes.Denom * PageResponse) :=
  s <- gets c_nft ;;
  match shapePageRequest (qds_Pagination req) with
  | inl e => throw (status_Error InvalidArgument (err_Error e))
  | inr page =>
      '(classes, pagination) <- lift_sum (nk_Classes s page) ;;
      denoms <- denoms_of classes ;;
      mret (denoms, pagination)
  end.

(** NFT; a stored NFT is always a BaseNFT *)
Definition NFT (request : QueryNFTRequest) : GoM BaseNFT :=
  r <- attempt (CollectionKeeper.GetNFT (qn_DenomId request) (qn_TokenId request)) ;;
  match r with
  | inl e => throw (CollErr ErrUnknownNFT)
  | inr n => mret n
  end.
End Query.
End CollectionQuery.
