(* ===== verification/QuerySpec.v ===== *)
(** The query servers of x/erc721, x/cw721 and x/collection: a client that follows the
    pages sees every record once, the pair lookups find exactly what is registered, and
    the per-owner listing groups the tokens of a page by class. *)
From S2P Require Import Prelude GoStrings Sdk Pagination CollectionTypes CollectionKeeper CollectionQuery.
From S2P Require Import Erc721Types Erc721Store Erc721Index Erc721Genesis Erc721Registry EvmIbc Erc721Query.
From S2P Require Import Erc721Export Cw721Types Cw721Store Cw721Index Cw721Query.
Open Scope go_scope.
Open Scope list_scope.

(** The entries of a page: what the client asks for, up to a hundred. *)
Definition page_limit (limit : Z) : nat :=
  Z.to_nat (if ((0 <? limit) && (limit <=? 100))%Z then limit else 100%Z).

Lemma page_limit_bounds l : 0 < page_limit l <= 100.
Proof.
  unfold page_limit. destruct (Z.ltb_spec 0 l), (Z.leb_spec l 100); cbn [andb]; lia.
Qed.

(** The three copies of shapePageRequest agree. *)
Lemma shapes_agree req :
  Erc721Query.shapePageRequest req = CollectionQuery.shapePageRequest req /\
  Cw721Query.shapePageRequest req = CollectionQuery.shapePageRequest req.
Proof. done. Qed.

Lemma shape_key_based req :
  key_based req ->
  CollectionQuery.shapePageRequest (Some req) =
    inr (MkPageRequest (pr_Key req) 0 (if ((0 <? pr_Limit req) && (pr_Limit req <=? 100))%Z then pr_Limit req else 100)
           false (pr_Reverse req)).
Proof. intros [Ho Hc]. unfold CollectionQuery.shapePageRequest. by rewrite Ho, Hc. Qed.

Lemma shape_refuses req :
  (0 <= pr_Offset req)%Z -> ~ key_based req ->
  CollectionQuery.shapePageRequest (Some req) = inl (SdkErr ErrInvalidRequest).
Proof.
  intros Hpos Hn. unfold CollectionQuery.shapePageRequest. destruct (Z.ltb_spec 0 (pr_Offset req)); [done|].
  destruct (pr_CountTotal req) eqn:E; [done|]. destruct Hn. split; [lia|done].
Qed.

(** The order a request asks for *)
Definition in_order {V} (req : PageRequest) (l : list V) : list V := if pr_Reverse req then rev l else l.

(** ** The pair listings *)
Section Pairs.
Context `{EthLaws} `{!SdkLib} `{!SdkLaws} `{!Erc721Codec} `{!Erc721CodecLaws}.
Context `{!Cw721Store.Cw721Codec} `{!Cw721Store.Cw721CodecLaws} `{FmtLib} `{PaginatorLaws}.

Definition erc721_pairs (s : ErcStore) (req : PageRequest) : error + (list TokenPair * PageResponse) :=
  Erc721Query.TokenPairs s (Some {| Erc721Query.qtp_Pagination := Some req |}).
Definition cw721_pairs (s : CwStore) (req : PageRequest) : error + (list Cw721Types.TokenPair * PageResponse) :=
  Cw721Query.TokenPairs s (Some {| Cw721Query.qtp_Pagination := Some req |}).

Lemma erc721_pairs_pages s :
  Erc721Registry.registry_ok s ->
  exists es, es.*2 = GetTokenPairs s /\ NoDup es.*1 /\ "" ∉ es.*1 /\ pages page_limit (erc721_pairs s) es.
Proof.
  intros Hs.
  destruct (decoded_entries Unmarshal_TokenPair (kv_iter (prefixTokenPair s))) as (es & Hf & He1 & He2).
  { intros [k bz] Hk%elem_of_kv_iter. destruct (Erc721Registry.rg_table _ Hs _ _ Hk) as (p & Hm & _).
    exists p. by apply TokenPair_roundtrip. }
  exists es. split; [done|]. split; [rewrite He1; apply kv_iter_nodup|]. split.
  - rewrite He1. intros ([k bz] & Hk & Hin%elem_of_kv_iter)%list_elem_of_fmap. cbn in Hk. subst.
    destruct (Erc721Registry.rg_table _ Hs _ _ Hin) as (p & _ & Hid & _). by apply (GetID_nonempty p).
  - eapply (pages_bounded Z.to_nat); [by apply Paginate_decoded|by intros l; unfold page_limit|].
    intros req r Hreq Hp. unfold erc721_pairs, Erc721Query.TokenPairs. cbn [Erc721Query.qtp_Pagination].
    rewrite (proj1 (shapes_agree _)), shape_key_based by done.
    change Erc721Query.append_pair with (append_decoded Unmarshal_TokenPair). by rewrite Hp.
Qed.

Lemma cw721_pairs_pages s :
  Cw721Index.registry_ok s ->
  exists es, es.*2 = Cw721Store.GetTokenPairs s /\ NoDup es.*1 /\ "" ∉ es.*1 /\ pages page_limit (cw721_pairs s) es.
Proof.
  intros Hs.
  destruct (decoded_entries Cw721Store.Unmarshal_TokenPair (kv_iter (cw_TokenPair s))) as (es & Hf & He1 & He2).
  { intros [k bz] Hk%elem_of_kv_iter. destruct (Cw721Index.rg_table _ Hs _ _ Hk) as (p & Hm & _).
    exists p. by apply Cw721Store.TokenPair_roundtrip. }
  exists es. split; [done|]. split; [rewrite He1; apply kv_iter_nodup|]. split.
  - rewrite He1. intros ([k bz] & Hk & Hin%elem_of_kv_iter)%list_elem_of_fmap. cbn in Hk. subst.
    destruct (Cw721Index.rg_table _ Hs _ _ Hin) as (p & _ & Hid & _). by apply (cw_GetID_nonempty p).
  - eapply (pages_bounded Z.to_nat); [by apply Paginate_decoded|by intros l; unfold page_limit|].
    intros req r Hreq Hp. unfold cw721_pairs, Cw721Query.TokenPairs. cbn [Cw721Query.qtp_Pagination].
    rewrite (proj2 (shapes_agree _)), shape_key_based by done.
    change Cw721Query.append_pair with (append_decoded Cw721Store.Unmarshal_TokenPair). by rewrite Hp.
Qed.

(** C23: the token-pair listings of x/erc721 and x/cw721 are complete: from a store in which
    the registry is well formed, a client that starts without a key and follows the key of
    each response gets every registered pair exactly once, in store order or in reverse as
    asked, at most a hundred to a page, after at most one page more than there are pairs; a
    request with an offset or a total count is refused before the store is read. *)
Theorem token_pair_pages_complete s cs req :
  Erc721Registry.registry_ok s -> Cw721Index.registry_ok cs -> (0 <= pr_Offset req)%Z -> pr_Key req = "" ->
  page_limit (pr_Limit req) <= 100 /\
  (key_based req ->
   lists (erc721_pairs s) req (page_limit (pr_Limit req)) (in_order req (GetTokenPairs s)) /\
   lists (cw721_pairs cs) req (page_limit (pr_Limit req)) (in_order req (Cw721Store.GetTokenPairs cs))) /\
  (~ key_based req ->
   erc721_pairs s req = inl (status_Error InvalidArgument (err_Error (SdkErr ErrInvalidRequest))) /\
   cw721_pairs cs req = inl (status_Error InvalidArgument (err_Error (SdkErr ErrInvalidRequest)))).
Proof.
  intros Hs Hcs Hoff Hkey. pose proof (page_limit_bounds (pr_Limit req)) as [Hpos Hmax].
  split; [done|]. split; intros Hreq.
  - destruct (erc721_pairs_pages s Hs) as (es & <- & Hnd & Hn & Hp).
    destruct (cw721_pairs_pages cs Hcs) as (es' & <- & Hnd' & Hn' & Hp').
    split; by eapply follow_complete.
  - pose proof (shape_refuses req Hoff Hreq) as Hr. split.
    + unfold erc721_pairs, Erc721Query.TokenPairs. cbn [Erc721Query.qtp_Pagination].
      by rewrite (proj1 (shapes_agree _)), Hr.
    + unfold cw721_pairs, Cw721Query.TokenPairs. cbn [Cw721Query.qtp_Pagination].
      by rewrite (proj2 (shapes_agree _)), Hr.
Qed.
End Pairs.

(** ** The pair lookups *)
Section Lookups.
Context `{EthLaws} `{!SdkLib} `{!SdkLaws} `{!NftKeeper} `{!EvmKeeper} `{!WasmState}.
Context `{!Erc721Codec} `{!Erc721CodecLaws} `{!Cw721Store.Cw721Codec} `{!Cw721Store.Cw721CodecLaws} `{!Ics721}.

(** The pair a token string names: the pair of that class, or of the contract that the
    string spells when no class has it for its id. *)
Definition named s (token : string) (p : TokenPair) : Prop :=
  Erc721Registry.registered s p /\
  (tp_ClassId p = token \/
   IsHexAddress token = true /\ GetERC721Contract p = HexToAddress token /\
   forall q, Erc721Registry.registered s q -> tp_ClassId q <> token).

Definition cw_named s (token : string) (p : Cw721Types.TokenPair) : Prop :=
  Cw721Index.registered s p /\
  (Cw721Types.tp_ClassId p = Cw721Store.canonicalCW721Key token \/
   Cw721Types.Cw721Address p = Cw721Store.canonicalCW721Key token /\
   forall q, Cw721Index.registered s q -> Cw721Types.tp_ClassId q <> Cw721Store.canonicalCW721Key token).

Lemma no_class_pair s token :
  Erc721Registry.registry_ok s ->
  (forall q, Erc721Registry.registered s q -> tp_ClassId q <> token) <-> forall p, GetPairByClass s token <> inr p.
Proof.
  intros Hs. split.
  - intros Hn p [Hr Hc]%Erc721Registry.GetPairByClass_inv; [|done]. by eapply Hn.
  - intros Hn q Hr <-. eapply Hn. by apply GetPairByClass_registered.
Qed.

Lemma lookupTokenPairQuery_iff s token p :
  Erc721Registry.registry_ok s -> (Erc721Query.lookupTokenPairQuery s token = Some p <-> named s token p).
Proof.
  intros Hs. unfold Erc721Query.lookupTokenPairQuery, named.
  destruct (GetPairByClass s token) as [e|q] eqn:E.
  - assert (forall p, GetPairByClass s token <> inr p) as Hno by congruence.
    pose proof (proj2 (no_class_pair _ _ Hs) Hno) as Hno'. split.
    + destruct (IsHexAddress token) eqn:Hh; [|done]. destruct (GetPairByEVM s token) as [|q] eqn:Eq; [done|].
      intros [= ->]. apply Erc721Registry.GetPairByEVM_inv in Eq as [Hr Ha]; eauto 6.
    + intros [Hr [Hc|(-> & Ha & _)]]; [by destruct (Hno' p)|]. by rewrite (GetPairByEVM_registered s p).
  - pose proof E as [Hr Hc]%Erc721Registry.GetPairByClass_inv; [|done]. split.
    + intros [= ->]. eauto.
    + intros [Hp [Hc'|(_ & _ & Hno)]]; [|by destruct (Hno q)].
      subst. f_equal. rewrite <- Hc' in E. rewrite (GetPairByClass_registered s p) in E by done. congruence.
Qed.

Lemma cw_GetTokenPairID_iff s token p :
  Cw721Index.registry_ok s ->
  (Cw721Store.pairFromID s (Cw721Store.GetTokenPairID s token) = inr p <->
   Cw721Index.registered s p /\
   (Cw721Types.tp_ClassId p = token \/
    Cw721Types.Cw721Address p = Cw721Store.canonicalCW721Key token /\
    forall q, Cw721Index.registered s q -> Cw721Types.tp_ClassId q <> token)).
Proof.
  intros Hs. unfold Cw721Store.GetTokenPairID.
  pose proof (fun q => Cw721Index.GetPairByClass_iff s token q Hs) as Hclass.
  unfold Cw721Store.GetPairByClass in Hclass. destruct (Cw721Store.GetClassMap s token <>?s "") eqn:E.
  - apply str_neqb_true in E.
    assert (exists q, Cw721Index.registered s q /\ Cw721Types.tp_ClassId q = token) as (q & Hq & Hqc).
    { revert E. unfold Cw721Store.GetClassMap, kv_get. destruct (cw_TokenPairByClass s !! token) as [id|] eqn:El; [|done].
      apply (Cw721Index.rg_class _ Hs) in El as (q & Hq & Hc & _). eauto. }
    rewrite Hclass. split; [intros [Hr Hc]; eauto|].
    intros [Hr [Hc|[_ Hno]]]; [done|]. by destruct (Hno q).
  - apply str_neqb_false in E.
    assert (forall q, Cw721Index.registered s q -> Cw721Types.tp_ClassId q <> token) as Hno.
    { intros q Hq Hc. pose proof (proj2 (Hclass q) (conj Hq Hc)) as Hf. by rewrite E in Hf. }
    change (Cw721Store.pairFromID s (Cw721Store.GetCW721Map s token)) with (Cw721Store.GetPairByCW721 s token).
    rewrite (Cw721Index.GetPairByCW721_iff s token p Hs). split; [intros [Hr Ha]; eauto|].
    intros [Hr [Hc|[Ha _]]]; [by destruct (Hno p)|done].
Qed.

Lemma query_token_canonical token : Cw721Query.query_token token = Cw721Store.canonicalCW721Key token.
Proof.
  unfold Cw721Query.query_token, Cw721Store.canonicalCW721Key, Cw721Store.NormalizeCW721Address.
  by destruct (AccAddressFromBech32 token).
Qed.
Lemma canonical_key_idem token :
  Cw721Store.canonicalCW721Key (Cw721Store.canonicalCW721Key token) = Cw721Store.canonicalCW721Key token.
Proof.
  unfold Cw721Store.canonicalCW721Key. destruct (AccAddressFromBech32 token) as [a|] eqn:E.
  - destruct (bech32_nonempty _ _ E). by rewrite bech32_roundtrip.
  - by rewrite E.
Qed.

(** C25: the pair lookups of the query servers answer exactly with what is registered.
    x/erc721's TokenPair finds a pair by its class id, or by any spelling of its contract
    address that is not itself a registered class id; EvmContract finds the pair of the
    voucher class of its three non-empty arguments; x/cw721's TokenPair finds a pair by its
    class id or by any spelling of its contract address, and WasmContract by its class id.
    Anything else is an error, never an empty pair. *)
Theorem pair_queries_exact s cs :
  Erc721Registry.registry_ok s -> Cw721Index.registry_ok cs ->
  (forall token p, Erc721Query.TokenPair s (Some {| Erc721Query.qt_Token := token |}) = inr p <-> named s token p) /\
  (forall port channel cls p,
     Erc721Query.EvmContract s (Some {| Erc721Query.qe_Port := port; Erc721Query.qe_Channel := channel;
                                        Erc721Query.qe_ClassId := cls |}) = inr p <->
     (port <> "" /\ channel <> "" /\ cls <> "") /\ Erc721Registry.registered s p /\
     tp_ClassId p = Erc721Query.GetVoucherClassID port channel cls) /\
  (forall token p, Cw721Query.TokenPair cs (Some {| Cw721Query.qt_Token := token |}) = inr p <-> cw_named cs token p) /\
  (forall port channel cls p,
     Cw721Query.WasmContract cs (Some {| Cw721Query.qw_Port := port; Cw721Query.qw_Channel := channel;
                                         Cw721Query.qw_ClassId := cls |}) = inr p <->
     Cw721Index.registered cs p /\ Cw721Types.tp_ClassId p = cls).
Proof.
  intros Hs Hcs. split; [|split; [|split]].
  - intros token p. rewrite <- lookupTokenPairQuery_iff by done. unfold Erc721Query.TokenPair. cbn.
    destruct (Erc721Query.lookupTokenPairQuery s token); split; congruence.
  - intros port channel cls p. unfold Erc721Query.EvmContract. cbn -[Erc721Query.GetVoucherClassID].
    set (v := Erc721Query.GetVoucherClassID port channel cls).
    destruct (port =?s "") eqn:E1; [apply str_eqb_true in E1; subst; cbn; split; [done|naive_solver]|].
    destruct (channel =?s "") eqn:E2; [apply str_eqb_true in E2; subst; cbn; split; [done|naive_solver]|].
    destruct (cls =?s "") eqn:E3; [apply str_eqb_true in E3; subst; cbn; split; [done|naive_solver]|].
    apply str_eqb_false in E1, E2, E3. cbn -[v]. split.
    + destruct (GetPairByClass s v) as [|q] eqn:E; [done|]. intros [= ->].
      by apply Erc721Registry.GetPairByClass_inv in E.
    + intros (_ & Hr & <-). by rewrite GetPairByClass_registered.
  - intros token p. unfold Cw721Query.TokenPair. cbn. rewrite query_token_canonical. unfold cw_named.
    pose proof (cw_GetTokenPairID_iff cs (Cw721Store.canonicalCW721Key token) p Hcs) as Hiff.
    rewrite canonical_key_idem in Hiff. rewrite <- Hiff. unfold Cw721Store.pairFromID.
    destruct (_ =?s ""); [done|]. destruct (Cw721Store.GetTokenPair _ _); split; congruence.
  - intros port channel cls p. rewrite <- (Cw721Index.GetPairByClass_iff cs cls p Hcs).
    unfold Cw721Query.WasmContract, Cw721Store.GetPairByClass, Cw721Store.pairFromID. cbn.
    destruct (_ =?s ""); [done|]. destruct (Cw721Store.GetTokenPair _ _); split; congruence.
Qed.
End Lookups.

(** ** The listings of x/collection *)

(** The documented behaviour of the x/nft queries: the classes, and the tokens of a class
    (of one owner, when the request names one), in pages, keyed by their ids. *)
Class NftQueryLaws `{NftQuery} `{!SdkLib} : Prop := {
  Classes_pages s : pages Z.to_nat (nk_Classes s) ((fun cl => (Class_Id cl, cl)) <$> nk_GetClasses s);
  NFTs_pages s c : c <> "" ->
    pages Z.to_nat (nk_NFTs s c "") ((fun n => (NFT_Id n, n)) <$> nk_GetNFTsOfClass s c);
  NFTs_of_owner_pages s c o owner : c <> "" -> AccAddressFromBech32 o = Some owner ->
    pages Z.to_nat (nk_NFTs s c o)
      ((fun n => (NFT_Id n, n)) <$> filter (fun n => nk_GetOwner s c (NFT_Id n) = owner) (nk_GetNFTsOfClass s c));
}.

(** *** Grouping the tokens of a page *)

Section Groups.
Implicit Types g : gmap string (list string) * list string.

(** What the two loops have built so far *)
Definition grouped g (idcs : list CollectionQuery.IDCollection) : Prop :=
  (forall d, d ∈ snd g <-> is_Some (fst g !! d)) /\ NoDup (snd g) /\
  idcs = (fun d => CollectionQuery.MkIDCollection d (default [] (fst g !! d))) <$> snd g.

Lemma Add_absent (m : gmap string (list string)) l d t :
  d ∉ l ->
  CollectionQuery.IDCollections_Add ((fun d => CollectionQuery.MkIDCollection d (default [] (m !! d))) <$> l) d t =
  ((fun x => CollectionQuery.MkIDCollection x (default [] (<[d := [t]]> m !! x))) <$> l) ++
  [CollectionQuery.MkIDCollection d [t]].
Proof.
  induction l as [|x l IH]; intros Hd; [done|]. apply not_elem_of_cons in Hd as [Hx Hd]. cbn.
  assert (x =?s d = false) as -> by (by apply str_eqb_false). rewrite lookup_insert_ne by done.
  f_equal. by apply IH.
Qed.

Lemma Add_present (m : gmap string (list string)) l d t :
  d ∈ l -> NoDup l ->
  CollectionQuery.IDCollections_Add ((fun d => CollectionQuery.MkIDCollection d (default [] (m !! d))) <$> l) d t =
  (fun x => CollectionQuery.MkIDCollection x (default [] (<[d := default [] (m !! d) ++ [t]]> m !! x))) <$> l.
Proof.
  induction l as [|x l IH]; intros Hd Hn; [by apply elem_of_nil in Hd|].
  apply NoDup_cons in Hn as [Hx Hn]. cbn. destruct (x =?s d) eqn:E.
  - apply str_eqb_true in E as ->. rewrite lookup_insert_eq. unfold CollectionQuery.AddID. cbn. f_equal.
    apply list_fmap_ext. intros i y Hy%list_elem_of_lookup_2. rewrite lookup_insert_ne; [done|]. by intros ->.
  - apply str_eqb_false in E. apply elem_of_cons in Hd as [->|Hd]; [done|].
    rewrite lookup_insert_ne by done. f_equal. by apply IH.
Qed.

Lemma group_token_step g idcs n :
  grouped g idcs ->
  grouped (CollectionQuery.group_token g n) (CollectionQuery.IDCollections_Add idcs (NFT_ClassId n) (NFT_Id n)).
Proof.
  destruct g as [m l]. intros (Hdom & Hnd & ->). cbn in *. unfold CollectionQuery.group_token.
  set (d := NFT_ClassId n). destruct (m !! d) as [ids|] eqn:E.
  - assert (d ∈ l) as Hin by (apply Hdom; eauto). rewrite Add_present by done.
    split; [|done]. intros x. cbn. rewrite lookup_insert_is_Some, Hdom. destruct (decide (d = x)); naive_solver.
  - assert (d ∉ l) as Hin by (rewrite Hdom, E; by intros [? ?]).
    rewrite lookup_insert_eq, insert_insert_eq, Add_absent by done. cbn. split; [|split].
    + intros x. cbn. rewrite lookup_insert_is_Some, elem_of_app, list_elem_of_singleton, Hdom.
      destruct (decide (d = x)); naive_solver.
    + apply NoDup_app. split; [done|]. split; [|by apply NoDup_singleton].
      intros x Hx ->%list_elem_of_singleton. done.
    + cbn. rewrite fmap_app. cbn. by rewrite lookup_insert_eq.
Qed.

Lemma group_tokens_acc tokens : forall g idcs,
  grouped g idcs ->
  grouped (fold_left CollectionQuery.group_token tokens g)
    (fold_left (fun idcs n => CollectionQuery.IDCollections_Add idcs (NFT_ClassId n) (NFT_Id n)) tokens idcs).
Proof.
  induction tokens as [|n tokens IH]; intros g idcs Hg; [done|]. cbn. apply IH. by apply group_token_step.
Qed.

(** The loop of NFTsOfOwner is [IDCollections.Add], once per token. *)
Lemma group_tokens_Add tokens :
  CollectionQuery.group_tokens tokens =
  fold_left (fun idcs n => CollectionQuery.IDCollections_Add idcs (NFT_ClassId n) (NFT_Id n)) tokens [].
Proof.
  unfold CollectionQuery.group_tokens. pose proof (group_tokens_acc tokens (∅, []) []) as Hg.
  destruct (fold_left CollectionQuery.group_token tokens (∅, [])) as [m l].
  destruct Hg as (_ & _ & ->); [|done]. split; [|split; [constructor|done]].
  intros d. cbn. rewrite lookup_empty, elem_of_nil. split; [done|by intros [? ?]].
Qed.

(** Tokens of one class make one group. *)
Lemma group_one_class d tokens :
  (forall n, n ∈ tokens -> NFT_ClassId n = d) ->
  CollectionQuery.group_tokens tokens =
  match tokens with [] => [] | _ => [CollectionQuery.MkIDCollection d (NFT_Id <$> tokens)] end.
Proof.
  intros Hd. rewrite group_tokens_Add. destruct tokens as [|n tokens]; [done|]. cbn.
  rewrite (Hd n) by (apply elem_of_cons; by left).
  assert (forall ids, fold_left (fun idcs n => CollectionQuery.IDCollections_Add idcs (NFT_ClassId n) (NFT_Id n)) tokens
            [CollectionQuery.MkIDCollection d ids] = [CollectionQuery.MkIDCollection d (ids ++ (NFT_Id <$> tokens))]) as Hf.
  { assert (forall x, x ∈ tokens -> NFT_ClassId x = d) as Ht by (intros x Hx; apply Hd, elem_of_cons; by right).
    clear Hd. induction tokens as [|x tokens IH]; intros ids; [by rewrite app_nil_r|]. cbn.
    rewrite (Ht x) by (apply elem_of_cons; by left). rewrite (proj2 (str_eqb_true d d)) by done.
    unfold CollectionQuery.AddID. cbn. rewrite IH by (intros y Hy; apply Ht, elem_of_cons; by right).
    by rewrite <- app_assoc. }
  apply (Hf [NFT_Id n]).
Qed.
End Groups.

Section Listings.
Context `{EthLib} `{!SdkLib} `{!NftKeeper} `{!NftLaws} `{!EvmKeeper} `{!WasmState} `{CollectionCodec} `{FmtLib}.
Context `{!NftQuery} `{!NftQueryLaws}.

(** What a query answers; it does not write. *)
Definition answer {A} (m : GoM A) (c : Ctx) : error + A :=
  match m c with Ok a _ => inr a | Err e _ => inl e | Panic => inl (ExtErr "panic") end.

Definition collection_nfts (c : Ctx) (denom : string) (req : PageRequest) : error + (list BaseNFT * PageResponse) :=
  match answer (CollectionQuery.Collection
          {| CollectionQuery.qc_DenomId := denom; CollectionQuery.qc_Pagination := Some req |}) c with
  | inl e => inl e
  | inr (collection, p) => inr (Collection_NFTs collection, p)
  end.
Definition all_denoms (c : Ctx) (req : PageRequest) : error + (list Denom * PageResponse) :=
  answer (CollectionQuery.Denoms {| CollectionQuery.qds_Pagination := Some req |}) c.
(** The token ids of one class and owner *)
Definition owner_tokens (c : Ctx) (denom owner : string) (req : PageRequest) : error + (list string * PageResponse) :=
  match CollectionQuery.NFTsOfOwner (c_nft c)
          {| CollectionQuery.qo_DenomId := denom; CollectionQuery.qo_Owner := owner;
             CollectionQuery.qo_Pagination := Some req |} with
  | inl e => inl e
  | inr (o, p) => inr (List.concat (CollectionQuery.TokenIds <$> CollectionQuery.IDCollections o), p)
  end.

Definition bound (limit : Z) : Z := if ((0 <? limit) && (limit <=? 100))%Z then limit else 100.
Definition shaped (req : PageRequest) : PageRequest :=
  MkPageRequest (pr_Key req) 0 (bound (pr_Limit req)) false (pr_Reverse req).

Lemma shaped_pages {V} (q : PageRequest -> error + (list V * PageResponse)) es :
  pages Z.to_nat q es -> pages page_limit (fun req => q (shaped req)) es.
Proof. intros Hq. eapply (pages_bounded Z.to_nat page_limit bound); [done..|]. by intros req r _. Qed.

(** Entries keyed by an id, mapped *)
Lemma keyed_fst {V W} (key : V -> string) (f : V -> W) l :
  ((fun e => (fst e, f (snd e))) <$> ((fun n => (key n, n)) <$> l)).*1 = key <$> l.
Proof. by rewrite <- !list_fmap_compose. Qed.
Lemma keyed_snd {V W} (key : V -> string) (f : V -> W) l :
  ((fun e => (fst e, f (snd e))) <$> ((fun n => (key n, n)) <$> l)).*2 = f <$> l.
Proof. by rewrite <- !list_fmap_compose. Qed.

Lemma mapped_lists {V W} (key : V -> string) (f : V -> W) q q' l req :
  pages Z.to_nat q ((fun n => (key n, n)) <$> l) -> NoDup (key <$> l) -> "" ∉ (key <$> l) -> key_based req -> pr_Key req = "" ->
  (forall req vs r, key_based req -> q (shaped req) = inr (vs, r) -> (forall v, v ∈ vs -> v ∈ l) ->
     q' req = inr (f <$> vs, r)) ->
  lists q' req (page_limit (pr_Limit req)) (in_order req (f <$> l)).
Proof.
  intros Hq Hnd Hn Hreq Hkey Hq'. unfold in_order. rewrite <- (keyed_snd key f l).
  eapply follow_complete; [|by rewrite keyed_fst|by rewrite keyed_fst|done|done|apply page_limit_bounds].
  eapply pages_map; [by apply shaped_pages|]. intros req' vs r Hr E Hin. apply Hq'; [done..|].
  intros v Hv%Hin. by rewrite <- list_fmap_compose, list_fmap_id in Hv.
Qed.

Lemma GetDenomInfo_reads denom c d c' : CollectionKeeper.GetDenomInfo denom c = Ok d c' -> c' = c.
Proof.
  unfold CollectionKeeper.GetDenomInfo, mbind, gets, lift_opt, lift_sum, mret, throw.
  destruct (nk_GetClass _ _) as [cl|]; [|done]. destruct (Class_Data cl) as [v|]; [|congruence].
  destruct (Unmarshal_DenomMetadata v); congruence.
Qed.

(** The denom a class answers with *)
Definition denom_of (c : Ctx) (cl : nft_Class) : Denom :=
  match CollectionKeeper.GetDenomInfo (Class_Id cl) c with
  | Ok d _ => d
  | _ => MkDenom "" "" "" "" "" false false "" "" "" ""
  end.

Lemma denoms_of_ok c classes :
  (forall cl, cl ∈ classes -> is_ok (CollectionKeeper.GetDenomInfo (Class_Id cl) c) = true) ->
  CollectionQuery.denoms_of classes c = Ok (denom_of c <$> classes) c.
Proof.
  induction classes as [|cl classes IH]; intros Hok; [done|]. cbn. unfold mbind at 1, attempt.
  pose proof (Hok cl (proj2 (elem_of_cons _ _ _) (or_introl eq_refl))) as Hcl. unfold denom_of at 1.
  destruct (CollectionKeeper.GetDenomInfo (Class_Id cl) c) as [d c'|e c'|] eqn:E; [|done..].
  apply GetDenomInfo_reads in E as ->. unfold mbind. rewrite IH; [done|].
  intros x Hx. apply Hok, elem_of_cons. by right.
Qed.

(** C24: the listings of x/collection are complete.  A client that follows the pages gets,
    each exactly once and in store order (or reversed, as asked), at most a hundred to a
    page: from Collection every token that GetNFTs returns for the denom; from NFTsOfOwner
    every token id of the class that the owner holds; from Denoms every class, as its denom,
    when the metadata of all of them decodes.  NFTsOfOwner groups the tokens of a page as
    IDCollections.Add would, one after the other. *)
Theorem collection_pages_complete c req :
  key_based req -> pr_Key req = "" ->
  (forall denom d, CollectionKeeper.GetDenomInfo denom c = Ok d c -> denom <> "" ->
     nk_GetNFT (c_nft c) denom "" = None ->
     lists (collection_nfts c denom) req (page_limit (pr_Limit req))
       (in_order req (CollectionKeeper.GetNFTs (c_nft c) denom))) /\
  (forall denom o owner, AccAddressFromBech32 o = Some owner -> o <> "" -> denom <> "" ->
     nk_GetNFT (c_nft c) denom "" = None ->
     lists (owner_tokens c denom o) req (page_limit (pr_Limit req))
       (in_order req (NFT_Id <$> filter (fun n => nk_GetOwner (c_nft c) denom (NFT_Id n) = owner)
                                   (nk_GetNFTsOfClass (c_nft c) denom)))) /\
  ((forall cl, cl ∈ nk_GetClasses (c_nft c) ->
      is_ok (CollectionKeeper.GetDenomInfo (Class_Id cl) c) = true) -> nk_GetClass (c_nft c) "" = None ->
     lists (all_denoms c) req (page_limit (pr_Limit req)) (in_order req (denom_of c <$> nk_GetClasses (c_nft c)))) /\
  (forall tokens, CollectionQuery.group_tokens tokens =
     fold_left (fun idcs n => CollectionQuery.IDCollections_Add idcs (NFT_ClassId n) (NFT_Id n)) tokens []).
Proof.
  intros Hreq Hkey. split; [|split; [|split; [|apply group_tokens_Add]]].
  - intros denom d Hd Hne Hid.
    eapply (mapped_lists NFT_Id); [by apply NFTs_pages|apply GetNFTsOfClass_nodup| |done..|].
    + intros (n & Hn & Hin%GetNFTsOfClass_spec)%list_elem_of_fmap. rewrite <- Hn in Hin. congruence.
    + intros r' vs r Hr E _. unfold collection_nfts, answer, CollectionQuery.Collection, mbind at 1.
      cbn [CollectionQuery.qc_DenomId CollectionQuery.qc_Pagination]. rewrite Hd.
      unfold mbind, gets. rewrite shape_key_based by done. fold (bound (pr_Limit r')). fold (shaped r').
      by rewrite E.
  - intros denom o owner Ho Hne Hde Hid.
    eapply (mapped_lists NFT_Id); [by apply NFTs_of_owner_pages|eapply sublist_NoDup; [apply (GetNFTsOfClass_nodup (c_nft c) denom)|]; apply fmap_sublist, sublist_filter| |done..|].
    + intros (n & Hn & [_ Hin%GetNFTsOfClass_spec]%list_elem_of_filter)%list_elem_of_fmap.
      rewrite <- Hn in Hin. congruence.
    + intros r' vs r Hr E Hin. unfold owner_tokens, CollectionQuery.NFTsOfOwner.
      cbn [CollectionQuery.qo_DenomId CollectionQuery.qo_Pagination CollectionQuery.qo_Owner].
      assert (o =?s "" = false) as -> by (by apply str_eqb_false).
      rewrite Ho, shape_key_based by done. fold (bound (pr_Limit r')). fold (shaped r'). rewrite E.
      rewrite (group_one_class denom). { destruct vs; cbn; by rewrite ?app_nil_r. }
      intros n [_ Hn%GetNFTsOfClass_spec]%Hin%list_elem_of_filter. by apply GetNFT_Id in Hn as [? _].
  - intros Hok Hid.
    eapply (mapped_lists Class_Id); [by apply Classes_pages|apply GetClasses_nodup| |done..|].
    + intros (cl & Hn & Hin%GetClasses_spec)%list_elem_of_fmap. rewrite <- Hn in Hin. congruence.
    + intros r' vs r Hr E Hin. unfold all_denoms, answer, CollectionQuery.Denoms, mbind, gets.
      cbn [CollectionQuery.qds_Pagination]. rewrite shape_key_based by done.
      fold (bound (pr_Limit r')). fold (shaped r'). rewrite E. cbn.
      rewrite denoms_of_ok; [done|]. intros cl Hcl. by apply Hok, Hin.
Qed.
End Listings.
