(* ===== verification/EvmIbcSpec.v ===== *)
(** What x/evmibc guarantees: each packet callback is handled once, a failed refund
    changes nothing, and the class a refund acts on is the one ICS-721 acts on. *)
From S2P Require Import Prelude GoStrings Utf8 Sdk CollectionTypes CollectionKeeper Erc721Types.
From S2P Require Import Erc721Store Erc721Genesis Erc721Evm Erc721Msg Erc721Register.
From S2P Require Import Erc721Convert Erc721ConvertFacts Erc721RefundFacts App Cw721Types Cw721Store.
From S2P Require Import Cw721Wasm Cw721Convert Cw721RefundSpec EvmIbc.
Import EvmIbc.
Open Scope go_scope.
Open Scope list_scope.

(** nft-transfer: a class prefix is what RemoveClassPrefix strips; a class id without
    a slash has no trace, so it is its own voucher id; and the resolver returns a
    class that exists locally as it is, any other as its voucher. *)
Class Ics721Laws `{Ics721} : Prop := {
  GetClassPrefix_eq port ch : GetClassPrefix port ch = port +:+ "/" +:+ ch +:+ "/";
  RemoveClassPrefix_strip port ch id : RemoveClassPrefix port ch (GetClassPrefix port ch +:+ id) = inr id;
  IBCClassID_bare id : ContainsByte id "/" = false -> IBCClassID id = id;
  ics_GetVoucherClassID_resolves id c :
    ics_GetVoucherClassID id c = Ok (if nk_HasClass (c_nft c) id then id else IBCClassID id) c;
}.

Section EvmIbcSpec.
Context `{EthLaws} `{!SdkLib} `{!SdkLaws} `{!NftKeeper} `{!NftLaws} `{!EvmKeeper} `{!WasmState} `{!EvmLaws}
        `{!WasmKeeper} `{!CollectionCodec} `{!Erc721Codec} `{!Cw721Store.Cw721Codec}
        `{!ConvertedNFTChecker} `{!FmtLib} `{!Ics721}.
Implicit Types (c : Ctx) (app : IBCModule).

(** A packet is a refund of the conversion modules only if their account sent it. *)
Lemma convert_packet_sender data :
  IsOutboundConvertPacket data = true ->
  pd_Sender data = acc_String AccModuleAddress \/ pd_Sender data = acc_String Cw721Types.AccModuleAddress.
Proof.
  unfold IsOutboundConvertPacket, OutboundConvertKind.
  destruct (_ =?s acc_String AccModuleAddress) eqn:E1; [left; by apply str_eqb_true|].
  destruct (_ =?s acc_String Cw721Types.AccModuleAddress) eqn:E2; [right; by apply str_eqb_true|]. done.
Qed.

Lemma cached_or_error_err m c e c' : cached_or_error m c = Err e c' -> c' = set_gas c (c_gas c').
Proof. unfold cached_or_error. destruct (m c); naive_solver. Qed.

Lemma keeper_ack_idle packet data ack :
  match ack with Acknowledgement_Error _ => IsOutboundConvertPacket data = false | _ => True end ->
  keeper_OnAcknowledgementPacket packet data ack = mret tt.
Proof.
  destruct ack; cbn; unfold IsOutboundConvertPacket; try done. by destruct (OutboundConvertKind data).
Qed.

(** C11: each callback of a packet is handled in one place.  A received packet always
    goes to the nft-transfer module, whatever its memo asks for; the memo adds at most
    an event.  A failed or timed-out packet goes to the nft-transfer module unless the
    account of a conversion module sent it, and then the module is never called, so
    the NFT is not refunded twice; a refund that fails leaves every store and the
    events as they were.  Successful acknowledgements go to the nft-transfer module. *)
Theorem evmibc_refund_routing app version packet relayer data c :
  UnmarshalJSON_PacketData (pk_Data packet) = Some data ->
  (exists events, OnRecvPacket app version packet relayer c =
     (EmitEvents events ;;; app_OnRecvPacket app version packet relayer) c) /\
  (forall bytes ack, UnmarshalJSON_Acknowledgement bytes = Some ack ->
     if match ack with Acknowledgement_Error _ => true | _ => false end && IsOutboundConvertPacket data
     then (forall app', OnAcknowledgementPacket app' version packet bytes relayer c =
                        OnAcknowledgementPacket app version packet bytes relayer c) /\
          (forall e c', OnAcknowledgementPacket app version packet bytes relayer c = Err e c' ->
             c' = set_gas c (c_gas c'))
     else OnAcknowledgementPacket app version packet bytes relayer c =
          app_OnAcknowledgementPacket app version packet bytes relayer c) /\
  (if IsOutboundConvertPacket data
   then (forall app', OnTimeoutPacket app' version packet relayer c = OnTimeoutPacket app version packet relayer c) /\
        (forall e c', OnTimeoutPacket app version packet relayer c = Err e c' -> c' = set_gas c (c_gas c'))
   else OnTimeoutPacket app version packet relayer c = app_OnTimeoutPacket app version packet relayer c) /\
  (IsOutboundConvertPacket data = true ->
   pd_Sender data = acc_String AccModuleAddress \/ pd_Sender data = acc_String Cw721Types.AccModuleAddress).
Proof.
  intros Hd. split_and!; [| | |apply convert_packet_sender].
  - assert (forall b, (EmitEvents [] ;;; b) c = b c :> outcome _ _ (option Acknowledgement)) as Hnil.
    { intros b. unfold mbind, EmitEvents, modify, set_events. rewrite app_nil_r. by destruct c. }
    unfold OnRecvPacket, Module_OnRecvPacket. rewrite Hd.
    repeat case_match; eauto; exists []; by rewrite Hnil.
  - intros bytes ack Ha. unfold OnAcknowledgementPacket. rewrite Ha, Hd. unfold lift_opt, mbind, mret.
    destruct (_ && _) eqn:E.
    + split; [done|]. intros e c'. apply cached_or_error_err.
    + rewrite keeper_ack_idle; [unfold Module_OnAcknowledgementPacket; done|]. by destruct ack.
  - unfold OnTimeoutPacket. rewrite Hd. unfold lift_opt, mbind, mret. destruct (IsOutboundConvertPacket data); [|done].
    split; [done|]. intros e c'. destruct (cached_or_error _ c) eqn:E; [done| |done].
    intros [= -> ->]. by eapply cached_or_error_err.
Qed.
(** The account and the refund of the module a packet of kind [k] came from. *)
Definition kind_account (k : ConvertKind) : string :=
  match k with
  | ConvertKindERC721 => AccModuleAddress
  | ConvertKindCW721 => Cw721Types.AccModuleAddress
  | ConvertKindNone => ""
  end.
Definition kind_refund (k : ConvertKind) : NonFungibleTokenPacketData -> GoM unit :=
  match k with
  | ConvertKindERC721 => RefundPacketToken
  | ConvertKindCW721 => Cw721Convert.RefundPacketToken
  | ConvertKindNone => fun _ => mret tt
  end.

Lemma kind_refund_no_error k data : no_error (kind_refund k data).
Proof.
  destruct k; [done|apply RefundPacketToken_no_error|apply cw_refund_no_error].
Qed.

(** The refund of one packet, as the keeper composes it. *)
Lemma convert_refund_ok (resolve : GoM string) (release : GoM unit) k data c u c' :
  (localClassID <- resolve ;; release ;;; kind_refund k (set_ClassId data localClassID)) c = Ok u c' <->
  exists cls c0 c1, resolve c = Ok cls c0 /\ release c0 = Ok tt c1 /\
    kind_refund k (set_ClassId data cls) c1 = Ok u c'.
Proof.
  unfold mbind. split.
  - destruct (resolve c) as [cls c0| |]; [|done..]. destruct (release c0) as [[] c1| |] eqn:E; [|done..]. eauto 8.
  - intros (cls & c0 & c1 & -> & -> & Hr). done.
Qed.

Lemma convert_refund_fails (resolve : GoM string) (release : GoM unit) k data c e c' :
  (localClassID <- resolve ;; release ;;; kind_refund k (set_ClassId data localClassID)) c = Err e c' ->
  resolve c = Err e c' \/ exists cls c0, resolve c = Ok cls c0 /\ release c0 = Err e c'.
Proof.
  intros [Hr|(cls & c0 & Hr & [Hl|(u & c1 & Hl & Hx)]%mbind_err)]%mbind_err; [by left|eauto|].
  by apply kind_refund_no_error in Hx.
Qed.

(** The two callbacks on a packet of kind [k]. *)
Lemma keeper_ack_convert packet data text :
  let k := OutboundConvertKind data in
  k <> ConvertKindNone ->
  keeper_OnAcknowledgementPacket packet data (Acknowledgement_Error text) =
  (localClassID <- getRefundClassId packet data ;;
   ics_OnAcknowledgementPacket packet (set_Sender data (acc_String (kind_account k))) (Acknowledgement_Error text) ;;;
   kind_refund k (set_ClassId data localClassID)).
Proof. unfold keeper_OnAcknowledgementPacket. by destruct (OutboundConvertKind data). Qed.

Lemma keeper_timeout_convert packet data :
  let k := OutboundConvertKind data in
  k <> ConvertKindNone ->
  keeper_OnTimeoutPacket packet data =
  (localClassID <- getRefundClassId packet data ;;
   ics_OnTimeoutPacket packet (set_Sender data (acc_String (kind_account k))) ;;;
   kind_refund k (set_ClassId data localClassID)).
Proof. unfold keeper_OnTimeoutPacket. by destruct (OutboundConvertKind data). Qed.

(** C10: a packet the account of x/erc721 or x/cw721 sent is refunded in this order: the
    local class is resolved, ICS-721 releases the NFTs to the account of that module (on
    the packet's own class path), and only then that module's RefundPacketToken returns
    the contract tokens.  Nothing after the release can fail, so the callback fails only
    when the class cannot be resolved or ICS-721 refuses, and in both cases nothing has
    been written. *)
Theorem evmibc_convert_refund app version packet bytes relayer data text c :
  UnmarshalJSON_PacketData (pk_Data packet) = Some data ->
  UnmarshalJSON_Acknowledgement bytes = Some (Acknowledgement_Error text) ->
  let k := OutboundConvertKind data in
  k <> ConvertKindNone ->
  let released := set_Sender data (acc_String (kind_account k)) in
  let refund_after (release : GoM unit) c' := exists cls c0 c1,
    getRefundClassId packet data c = Ok cls c0 /\ release c0 = Ok tt c1 /\
    kind_refund k (set_ClassId data cls) c1 = Ok tt c' in
  let fails_by (release : GoM unit) e c' := c' = set_gas c (c_gas c') /\ exists c1,
    getRefundClassId packet data c = Err e c1 \/
    exists cls c0, getRefundClassId packet data c = Ok cls c0 /\ release c0 = Err e c1 in
  (forall c', OnAcknowledgementPacket app version packet bytes relayer c = Ok tt c' <->
     refund_after (ics_OnAcknowledgementPacket packet released (Acknowledgement_Error text)) c') /\
  (forall c', OnTimeoutPacket app version packet relayer c = Ok tt c' <->
     exists c2, refund_after (ics_OnTimeoutPacket packet released) c2 /\
       c' = set_events c2 (c_events c2 ++ [timeout_event data])) /\
  (forall e c', OnAcknowledgementPacket app version packet bytes relayer c = Err e c' ->
     fails_by (ics_OnAcknowledgementPacket packet released (Acknowledgement_Error text)) e c') /\
  (forall e c', OnTimeoutPacket app version packet relayer c = Err e c' ->
     fails_by (ics_OnTimeoutPacket packet released) e c').
Proof.
  intros Hd Ha k Hk released refund_after fails_by.
  assert (IsOutboundConvertPacket data = true) as Ho.
  { unfold IsOutboundConvertPacket, k in *. by destruct (OutboundConvertKind data). }
  assert (forall m u c', cached_or_error m c = Ok u c' <-> m c = Ok u c') as Hok.
  { intros m u c'. unfold cached_or_error. destruct (m c); naive_solver. }
  assert (forall m e c', cached_or_error m c = Err e c' ->
            c' = set_gas c (c_gas c') /\ exists c1, m c = Err e c1) as Herr.
  { intros m e c'. unfold cached_or_error. destruct (m c); naive_solver. }
  assert (OnAcknowledgementPacket app version packet bytes relayer c =
    cached_or_error (keeper_OnAcknowledgementPacket packet data (Acknowledgement_Error text)) c) as ->.
  { unfold OnAcknowledgementPacket. rewrite Ha, Hd. unfold lift_opt, mbind, mret. by rewrite Ho. }
  assert (OnTimeoutPacket app version packet relayer c =
    (cached_or_error (keeper_OnTimeoutPacket packet data) ;;; EmitEvent (timeout_event data)) c) as ->.
  { unfold OnTimeoutPacket. rewrite Hd. unfold lift_opt, mbind, mret. by rewrite Ho. }
  rewrite keeper_ack_convert, keeper_timeout_convert by done. fold k released. split_and!.
  - intros c'. rewrite Hok. apply convert_refund_ok.
  - intros c'. split.
    + intros ([] & c2 & Hc & He)%mbind_ok. rewrite Hok in Hc.
      exists c2. split; [by apply convert_refund_ok in Hc|by apply EmitEvents_ok in He].
    + intros (c2 & Hc & ->). apply convert_refund_ok, Hok in Hc. unfold mbind at 1. by rewrite Hc.
  - intros e c' (E & c1 & Hr%convert_refund_fails)%Herr. split; [done|by exists c1].
  - intros e c' [(E & c1 & Hr%convert_refund_fails)%Herr|(u & c1 & _ & Hr)]%mbind_err; [|done].
    split; [done|by exists c1].
Qed.

(** A valid class id is never a class path of the ICS-721 port: user-issued ids have no
    dash, and the reserved ones start differently. *)
Lemma valid_id_no_path id r : id = "nft-transfer" +:+ r -> ValidateDenomID id <> None.
Proof.
  intros -> Hv. unfold ValidateDenomID in Hv. apply then_check_None in Hv as [_ Hv].
  by apply then_check_None in Hv as [_ Hv].
Qed.

(** The class a refund acts on is the class nft-transfer itself resolves the
    packet's class id to, on the port the middleware serves and while the class ids of
    this chain are valid; the two sides of a refund thus agree on the NFT. *)
Lemma getRefundClassId_agrees `{!Ics721Laws} packet data c :
  pk_SourcePort packet = "nft-transfer" ->
  (forall id, nk_HasClass (c_nft c) id = true -> ValidateDenomID id = None) ->
  exists cls events, getRefundClassId packet data c = Ok cls (set_events c (c_events c ++ events)) /\
    ics_GetVoucherClassID (pd_ClassId data) c = Ok cls c.
Proof.
  intros Hport Hvalid. unfold getRefundClassId. rewrite ics_GetVoucherClassID_resolves.
  assert (c = set_events c (c_events c ++ [])) as Hc by (rewrite app_nil_r; by destruct c).
  destruct (ContainsByte (pd_ClassId data) "/") eqn:Es; cbn [negb].
  - destruct (HasPrefix _ _) eqn:Ep.
    + apply HasPrefix_spec in Ep as [id E].
      assert (nk_HasClass (c_nft c) (pd_ClassId data) = false) as ->.
      { destruct (nk_HasClass _ _) eqn:Eh; [|done]. apply Hvalid in Eh. exfalso. revert Eh.
        rewrite E, GetClassPrefix_eq, Hport. by eapply valid_id_no_path. }
      rewrite E, RemoveClassPrefix_strip.
      eexists _, []. unfold lift_sum, mbind, mret. rewrite <- Hc. done.
    + unfold mbind, EmitEvent, EmitEvents, modify. rewrite ics_GetVoucherClassID_resolves. eauto.
  - rewrite (IBCClassID_bare _ Es). eexists _, []. rewrite <- Hc. split; [done|]. by destruct (nk_HasClass _ _).
Qed.
End EvmIbcSpec.
