(* ===== verification/Chain.v ===== *)
(** The two conversion modules, x/collection and x/evmibc as one state machine: the
    messages, the packet callbacks, the migrations and whatever the rest of the chain
    does are steps between contexts, and the invariants of the conversion state hold in
    every context the chain can reach. *)
From S2P Require Import Prelude GoStrings Utf8 Sdk CollectionTypes CollectionKeeper CollectionMsg.
From S2P Require Import Erc721Types Erc721Store Erc721Index Erc721Registry Erc721Prune App Erc721Evm Erc721Msg.
From S2P Require Import Erc721Register Erc721Convert Erc721Settle Erc721ConvertFacts Erc721ConvertSpec InterNft.
From S2P Require Import NftInvariant CollectionGenesis CollectionGenesisSpec Guard Erc721Chain.
From S2P Require Import Cw721Types Cw721Store Cw721Index Cw721Wasm Cw721Register Cw721Convert.
From S2P Require Import Erc721Export Cw721ConvertSpec Cw721RefundSpec Cw721Chain EvmIbc.
Open Scope go_scope.
Open Scope list_scope.

Section Chain.
Context `{EthLaws} `{!SdkLib} `{!SdkLaws} `{!NftKeeper} `{!NftLaws} `{!NftSupplyLaws} `{!EvmKeeper}
        `{!WasmState} `{!EvmLaws} `{!WasmKeeper} `{!WasmLaws} `{!CollectionCodec} `{!Erc721Codec}
        `{!Erc721CodecLaws} `{!Cw721Store.Cw721Codec} `{!Cw721Store.Cw721CodecLaws} `{!FmtLib}
        `{!IbcKeeper} `{!Ics721} `{!NftTransferApp}.
Existing Instance app_checker.
Implicit Types c : Ctx.

(** Both indexes are one-to-one, both pair tables are consistent, the x/nft store is
    well formed, and every NFT bound in either index has an owner. *)
Record chain_ok c : Prop := { co_erc : erc_ok c; co_cw : cw_ok c }.

(** What the rest of the chain may do between two of the steps below: user
    transactions in the EVM and to CosmWasm contracts, other modules, ICS-721 packets.
    No other module writes the stores of the two conversion modules or creates a class
    whose id has a comma, and NFTs are burned only by x/collection and x/internft, whose
    burns are steps of their own. *)
Record elsewhere c c' : Prop := {
  el_erc : guarded c_erc erc_bound c c';
  el_cw : guarded c_cw cw_bound c c';
  el_nft : kept nft_ok c c';
}.

(** ** Steps *)
Inductive step c : Ctx -> Prop :=
| step_convert_erc721 msg :
    good_address (ce_EvmContractAddress msg) -> ids_distinct (c_erc c) (derived_class msg) ->
    step c (deliver (ConvertERC721 msg) c)
| step_convert_nft msg :
    ids_distinct (c_erc c) (cn_ClassId msg) -> step c (deliver (ConvertNFT msg) c)
| step_transfer_erc721 msg :
    good_address (te_EvmContractAddress msg) ->
    ids_distinct (c_erc c)
      (CreateClassIDFromContractAddress (CanonicalContractAddress (te_EvmContractAddress msg))) ->
    step c (deliver (TransferERC721 msg) c)
| step_update_params msg : step c (deliver (UpdateParams msg) c)
| step_convert_cw721 msg :
    no_collision (c_cw c) msg -> quiet_source msg -> step c (deliver (Cw721Convert.ConvertCW721 msg) c)
| step_cw721_convert_nft msg :
    deploys_distinct c (Cw721Types.cn_ClassId msg) -> quiet_class c (Cw721Types.cn_ClassId msg) ->
    step c (deliver (Cw721Convert.ConvertNFT msg) c)
| step_transfer_cw721 msg :
    Cw721Types.MsgTransferCW721_ValidateBasic msg = None -> transfer_admissible c msg ->
    step c (deliver (Cw721Convert.TransferCW721 msg) c)
| step_cw721_update_params msg : step c (deliver (Cw721Convert.UpdateParams msg) c)
| step_recv version packet relayer :
    step c (deliver (EvmIbc.OnRecvPacket nft_transfer version packet relayer) c)
| step_ack version packet ack relayer :
    quiet_registered (c_cw c) ->
    step c (deliver (EvmIbc.OnAcknowledgementPacket nft_transfer version packet ack relayer) c)
| step_timeout version packet relayer :
    quiet_registered (c_cw c) ->
    step c (deliver (EvmIbc.OnTimeoutPacket nft_transfer version packet relayer) c)
| step_settle : step c (deliver SettleIBCVoucherPairs c)
| step_prune : step c (set_erc c (snd (PruneDuplicateUIDIndexEntries (c_erc c))))
| step_issue msg : step c (deliver (IssueDenom msg) c)
| step_mint msg : step c (deliver (MintNFT msg) c)
| step_edit msg : step c (deliver (EditNFT msg) c)
| step_transfer msg : step c (deliver (TransferNFT msg) c)
| step_burn msg : step c (deliver (BurnNFT msg) c)
| step_transfer_denom msg : step c (deliver (TransferDenom msg) c)
| step_ics721_burn cls nft : step c (deliver (InterNft.Burn cls nft) c)
| step_elsewhere c' : elsewhere c c' -> step c c'.

(** The chain starts with no conversion state and no NFTs. *)
Definition initial c : Prop :=
  c_erc c = empty_erc /\ c_cw c = empty_cw /\ (forall cl, nk_GetClass (c_nft c) cl = None) /\
  (forall cl i, nk_GetNFT (c_nft c) cl i = None) /\ forall cl, nk_GetTotalSupply (c_nft c) cl = 0%Z.

Inductive reachable : Ctx -> Prop :=
| reach_initial c : initial c -> reachable c
| reach_step c c' : reachable c -> step c c' -> reachable c'.

(** ICS-721 is the rest of the chain, also when a message or a packet callback calls it. *)
Class IbcLaws : Prop := {
  ibc_Transfer_elsewhere m c u c' : ibc_Transfer m c = Ok u c' -> elsewhere c c';
  ics_ack_elsewhere p d a c u c' : ics_OnAcknowledgementPacket p d a c = Ok u c' -> elsewhere c c';
  ics_timeout_elsewhere p d c u c' : ics_OnTimeoutPacket p d c = Ok u c' -> elsewhere c c';
  ics_voucher_elsewhere id c u c' : ics_GetVoucherClassID id c = Ok u c' -> elsewhere c c';
  app_recv_elsewhere v p r c u c' : app_OnRecvPacket nft_transfer v p r c = Ok u c' -> elsewhere c c';
  app_ack_elsewhere v p a r c u c' :
    app_OnAcknowledgementPacket nft_transfer v p a r c = Ok u c' -> elsewhere c c';
  app_timeout_elsewhere v p r c u c' : app_OnTimeoutPacket nft_transfer v p r c = Ok u c' -> elsewhere c c';
}.

(** ** Preservation *)

Lemma chain_ok_elsewhere c c' : chain_ok c -> elsewhere c c' -> chain_ok c'.
Proof. intros [He Hc] [G1 G2 G3]. split; [by eapply erc_guarded_ok|by eapply cw_guarded_ok]. Qed.

(** A handler of x/erc721 or x/collection: it leaves what x/cw721 binds alone. *)
Lemma erc_handler_chain {A} (m : GoM A) c a c' :
  frame (guarded c_cw cw_bound) m -> (erc_ok c -> erc_ok c') -> m c = Ok a c' -> chain_ok c -> chain_ok c'.
Proof.
  intros Hf Hm Hr [He Hc]. split; [auto|]. eapply cw_guarded_ok; [exact Hc|]. by eapply frame_ok.
Qed.

(** A handler of x/cw721: it leaves what x/erc721 binds alone. *)
Lemma cw_handler_chain c c' :
  (forall R, CwKeeps R -> R c c') -> (cw_ok c -> cw_ok c') -> chain_ok c -> chain_ok c'.
Proof.
  intros HR Hm [He Hc]. split; [|auto]. eapply erc_guarded_ok; [exact He|apply HR, _..].
Qed.

Lemma Emit_chain l c u c' : chain_ok c -> EmitEvents l c = Ok u c' -> chain_ok c'.
Proof.
  intros Hok ->%EmitEvents_ok. apply (chain_ok_elsewhere c); [done|].
  split; [by apply same_nft_guarded..|by apply nft_eq_kept].
Qed.

Lemma Refund_both data c u c' : chain_ok c -> RefundPacketToken data c = Ok u c' -> chain_ok c'.
Proof.
  intros Hok Hr. eapply erc_handler_chain; [apply Refund_guarded| |exact Hr|done].
  intros He. by eapply Refund_chain.
Qed.

Lemma cw_Refund_both data c u c' :
  chain_ok c -> quiet_registered (c_cw c) -> Cw721Convert.RefundPacketToken data c = Ok u c' -> chain_ok c'.
Proof.
  intros Hok Hq Hr. pose proof (fun R (HR : CwKeeps R) => Refund_cw R data c u c' (co_cw _ Hok) Hq Hr) as Hx.
  apply (cw_handler_chain c); [|intros _; by apply (Hx (kept nft_ok) _)|done]. intros R HR. by apply (Hx R HR).
Qed.

Lemma TransferERC721_both `{!IbcLaws} msg c u c' :
  chain_ok c -> good_address (te_EvmContractAddress msg) ->
  ids_distinct (c_erc c)
    (CreateClassIDFromContractAddress (CanonicalContractAddress (te_EvmContractAddress msg))) ->
  TransferERC721 msg c = Ok u c' -> chain_ok c'.
Proof.
  intros [He Hc] Hg Hd Hr. split.
  - eapply TransferERC721_chain; [|exact He|done..|exact Hr].
    intros m d v d' Hi%ibc_Transfer_elsewhere. split; apply Hi.
  - apply mbind_ok in Hr as (res & c1 & Hx & Hr).
    pose proof (frame_ok _ _ _ _ _ (ConvertERC721_guarded _) Hx) as G1.
    apply mbind_ok in Hr as (x & c2 & Hi%ibc_Transfer_elsewhere & Hr).
    apply mbind_ok in Hr as (b & c3 & Hb & Hr). apply lift_opt_ok in Hb as [_ ->].
    apply (cw_guarded_ok c); [done|]. etransitivity; [exact G1|]. etransitivity; [apply Hi|].
    destruct (HasPrefix _ _) in Hr; [by apply mret_ok in Hr as [_ ->]|]. apply modify_ok in Hr as ->. done.
Qed.

Lemma TransferCW721_both `{!IbcLaws} msg c u c' :
  chain_ok c -> Cw721Types.MsgTransferCW721_ValidateBasic msg = None -> transfer_admissible c msg ->
  Cw721Convert.TransferCW721 msg c = Ok u c' -> chain_ok c'.
Proof.
  intros [He Hc] Hv Hadm Hr. split.
  - pose proof (TransferCW721_ok _ _ _ _ Hr) as (a & r & c1 & c2 & Ha & Hx & Hi%ibc_Transfer_elsewhere & -> & _).
    destruct (transfer_quiet _ _ _ Hadm Ha) as [Hq Hd].
    pose proof (ConvertCW721_keeps (guarded c_erc erc_bound) _ _ _ _ (cw_module _ Hc) Hd Hq Hx) as G1.
    pose proof (ConvertCW721_keeps (kept nft_ok) _ _ _ _ (cw_module _ Hc) Hd Hq Hx) as K1.
    apply (erc_guarded_ok c); [done|etransitivity; [exact G1|]|etransitivity; [exact K1|]]; apply Hi.
  - eapply TransferCW721_cw; [|exact Hc| |exact Hadm|exact Hr].
    + intros m d v d' Hi%ibc_Transfer_elsewhere. apply Hi.
    + unfold Cw721Types.MsgTransferCW721_ValidateBasic in Hv. rewrite !check_else_None, !then_check_None in Hv.
      destruct Hv as (_ & _ & _ & _ & _ & Hv & _). revert Hv. generalize (Cw721Types.tc_CwTokenIds msg) as l.
      induction l as [|t l IH]; [by intros _ Hx%elem_of_nil|]. cbn. rewrite check_else_None. intros [Ht Hl].
      apply not_elem_of_cons. split; [by intros <-|auto].
Qed.

(** ** The callbacks of x/evmibc *)

(** The invariants hold, and the contracts of the registered pairs are quiet. *)
Definition calm c : Prop := chain_ok c /\ quiet_registered (c_cw c).

Lemma calm_elsewhere c c' : calm c -> elsewhere c c' -> calm c'.
Proof.
  intros [Hok Hq] He. split; [by eapply chain_ok_elsewhere|]. by destruct He as [_ [-> _] _].
Qed.

Lemma calm_emit l c u c' : calm c -> EmitEvents l c = Ok u c' -> calm c'.
Proof. intros [Hok Hq] He. split; [by eapply Emit_chain|]. by apply EmitEvents_ok in He as ->. Qed.

Lemma getRefundClassId_calm `{!IbcLaws} packet data c cls c' :
  calm c -> EvmIbc.getRefundClassId packet data c = Ok cls c' -> calm c'.
Proof.
  intros Hok Hr. unfold EvmIbc.getRefundClassId in Hr.
  destruct (negb _); [by apply mret_ok in Hr as [_ ->]|]. destruct (HasPrefix _ _).
  - apply mbind_ok in Hr as (x & c1 & Hl & Hr). apply lift_sum_ok in Hl as [_ ->].
    by apply mret_ok in Hr as [_ ->].
  - apply mbind_ok in Hr as (x & c1 & He & Hr). apply calm_emit in He; [|done].
    eapply calm_elsewhere; [exact He|]. by eapply ics_voucher_elsewhere.
Qed.

(** A refund: the class is resolved, ICS-721 releases the NFTs, a module refunds. *)
Lemma refund_after_release_chain `{!IbcLaws} packet data release (refund : string -> GoM unit) c u c' :
  (forall d v d', release d = Ok v d' -> elsewhere d d') ->
  (forall cls d v d', calm d -> refund cls d = Ok v d' -> chain_ok d') ->
  calm c ->
  (cls <- EvmIbc.getRefundClassId packet data ;; (release : GoM unit) ;;; refund cls) c = Ok u c' -> chain_ok c'.
Proof.
  intros Hrel Href Hok Hr. apply mbind_ok in Hr as (cls & c1 & Hg & Hr).
  apply getRefundClassId_calm in Hg; [|done]. apply mbind_ok in Hr as (v & c2 & Hx & Hr).
  eapply Href; [|exact Hr]. eapply calm_elsewhere; [exact Hg|]. by eapply Hrel.
Qed.

Lemma keeper_ack_chain `{!IbcLaws} packet data ack c u c' :
  calm c -> EvmIbc.keeper_OnAcknowledgementPacket packet data ack c = Ok u c' -> chain_ok c'.
Proof.
  intros Hok Hr. pose proof Hok as [Hok' _]. unfold EvmIbc.keeper_OnAcknowledgementPacket in Hr.
  destruct ack; [by apply mret_ok in Hr as [_ ->]| |by apply mret_ok in Hr as [_ ->]].
  destruct (EvmIbc.OutboundConvertKind data); [by apply mret_ok in Hr as [_ ->]|..];
    (eapply refund_after_release_chain; [intros d v d'; apply ics_ack_elsewhere| |exact Hok|exact Hr]);
    intros cls d v d' [Hd Hq] Hx; [exact (Refund_both _ _ _ _ Hd Hx)|exact (cw_Refund_both _ _ _ _ Hd Hq Hx)].
Qed.

Lemma keeper_timeout_chain `{!IbcLaws} packet data c u c' :
  calm c -> EvmIbc.keeper_OnTimeoutPacket packet data c = Ok u c' -> chain_ok c'.
Proof.
  intros Hok Hr. pose proof Hok as [Hok' _]. unfold EvmIbc.keeper_OnTimeoutPacket in Hr.
  destruct (EvmIbc.OutboundConvertKind data); [by apply mret_ok in Hr as [_ ->]|..];
    (eapply refund_after_release_chain; [intros d v d'; apply ics_timeout_elsewhere| |exact Hok|exact Hr]);
    intros cls d v d' [Hd Hq] Hx; [exact (Refund_both _ _ _ _ Hd Hx)|exact (cw_Refund_both _ _ _ _ Hd Hq Hx)].
Qed.

Lemma cached_or_error_ok (m : GoM unit) c u c' : cached_or_error m c = Ok u c' -> m c = Ok u c'.
Proof. unfold cached_or_error. by destruct (m c). Qed.

Lemma OnRecvPacket_chain `{!IbcLaws} v p r c a c' :
  chain_ok c -> EvmIbc.OnRecvPacket nft_transfer v p r c = Ok a c' -> chain_ok c'.
Proof.
  intros Hok Hr.
  assert (forall d, chain_ok d -> app_OnRecvPacket nft_transfer v p r d = Ok a c' -> chain_ok c') as Happ.
  { intros d Hd Hx%app_recv_elsewhere. by eapply chain_ok_elsewhere. }
  unfold EvmIbc.OnRecvPacket, EvmIbc.Module_OnRecvPacket in Hr.
  repeat case_match; try by eapply Happ; [exact Hok|exact Hr].
  - apply mbind_ok in Hr as (x & c1 & He & Hr). apply Emit_chain in He; [by eapply Happ|done].
  - by apply mret_ok in Hr as [_ ->].
Qed.

Lemma OnAcknowledgementPacket_chain `{!IbcLaws} v p a r c u c' :
  calm c -> EvmIbc.OnAcknowledgementPacket nft_transfer v p a r c = Ok u c' -> chain_ok c'.
Proof.
  intros Hok Hr. apply mbind_ok in Hr as (ack & c1 & Hl & Hr). apply lift_opt_ok in Hl as [_ ->].
  apply mbind_ok in Hr as (data & c2 & Hl & Hr). apply lift_opt_ok in Hl as [_ ->].
  cbv zeta in Hr. destruct (_ && _) in Hr; [apply cached_or_error_ok in Hr; by eapply keeper_ack_chain|].
  apply mbind_ok in Hr as (x & c1 & Hk & Hr). apply keeper_ack_chain in Hk; [|done].
  eapply chain_ok_elsewhere; [exact Hk|]. by eapply app_ack_elsewhere.
Qed.

Lemma OnTimeoutPacket_chain `{!IbcLaws} v p r c u c' :
  calm c -> EvmIbc.OnTimeoutPacket nft_transfer v p r c = Ok u c' -> chain_ok c'.
Proof.
  intros Hok Hr. apply mbind_ok in Hr as (data & c1 & Hl & Hr). apply lift_opt_ok in Hl as [_ ->].
  destruct (EvmIbc.IsOutboundConvertPacket data).
  - apply mbind_ok in Hr as (x & c1 & Hk%cached_or_error_ok & Hr).
    apply keeper_timeout_chain in Hk; [|done]. by eapply Emit_chain.
  - eapply chain_ok_elsewhere; [apply Hok|]. by eapply app_timeout_elsewhere.
Qed.

(** ** Every reachable context *)

Lemma chain_ok_initial c : initial c -> chain_ok c.
Proof. intros (Ee & Ec & Hc & Hn & Ht). split; [by apply erc_ok_initial|by apply cw_ok_empty]. Qed.

Lemma deliver_chain {A} (m : GoM A) c :
  chain_ok c -> (forall a c', m c = Ok a c' -> chain_ok c') -> chain_ok (deliver m c).
Proof. intros Hok Hm. unfold deliver. destruct (m c) eqn:E; eauto. Qed.

Lemma step_chain `{!IbcLaws} c c' : chain_ok c -> step c c' -> chain_ok c'.
Proof.
  intros Hok Hs. destruct Hs; [..|by eapply chain_ok_elsewhere].
  all: try (apply deliver_chain; [done|]; intros a c' Hr).
  - eapply erc_handler_chain; [apply ConvertERC721_guarded| |exact Hr|done]. intros He. by eapply ConvertERC721_chain.
  - eapply erc_handler_chain; [apply ConvertNFT_guarded| |exact Hr|done]. intros He. by eapply ConvertNFT_chain.
  - by eapply TransferERC721_both.
  - eapply erc_handler_chain; [apply UpdateParams_guarded| |exact Hr|done]. intros He. by eapply UpdateParams_chain.
  - eapply cw_handler_chain; [|intros Hc; by eapply ConvertCW721_cw|done].
    intros R HR. by apply (ConvertCW721_keeps R _ _ _ _ (cw_module _ (co_cw _ Hok)) ltac:(eassumption) ltac:(eassumption) Hr).
  - eapply cw_handler_chain; [|intros Hc; by eapply ConvertNFT_cw|done].
    intros R HR. by apply (cw_ConvertNFT_keeps R _ _ _ _ (cw_module _ (co_cw _ Hok)) ltac:(eassumption) ltac:(eassumption) Hr).
  - by eapply TransferCW721_both.
  - eapply cw_handler_chain; [|intros Hc; by eapply UpdateParams_cw|done].
    intros R HR. eapply frame_ok, Hr. apply (cw_UpdateParams_keeps R).
  - by eapply OnRecvPacket_chain.
  - by eapply OnAcknowledgementPacket_chain.
  - by eapply OnTimeoutPacket_chain.
  - eapply erc_handler_chain; [apply Settle_guarded| |exact Hr|done]. intros He. by eapply Settle_chain.
  - destruct Hok as [He Hc]. split; [by apply Prune_chain|]. by apply (cw_guarded_ok c).
  - eapply erc_handler_chain; [apply (IssueDenom_guarded c_cw cw_bound)| |exact Hr|done]. intros He. by eapply IssueDenom_chain.
  - eapply erc_handler_chain; [apply (MintNFT_guarded c_cw cw_bound)| |exact Hr|done]. intros He. by eapply MintNFT_chain.
  - eapply erc_handler_chain; [apply (EditNFT_guarded c_cw cw_bound)| |exact Hr|done]. intros He. by eapply EditNFT_chain.
  - eapply erc_handler_chain; [apply (TransferNFT_guarded c_cw cw_bound)| |exact Hr|done]. intros He. by eapply TransferNFT_chain.
  - eapply erc_handler_chain; [apply (BurnNFT_guarded c_cw cw_bound)| |exact Hr|done]. intros He. by eapply BurnNFT_chain.
  - eapply erc_handler_chain; [apply (TransferDenom_guarded c_cw cw_bound)| |exact Hr|done]. intros He. by eapply TransferDenom_chain.
  - eapply erc_handler_chain; [apply (InterNft_Burn_guarded c_cw cw_bound)| |exact Hr|done]. intros He. by eapply InterNft_Burn_chain.
Qed.

(** C3: a chain that starts with no conversion state and no NFTs and takes the steps
    below reaches only contexts in which both UID indexes are one-to-one, both pair
    tables are consistent, every NFT that an index binds to an ERC721 or CW721 token
    exists and has an owner, every CW721 binding and refund record is of a registered
    pair, and the supply invariant of x/collection holds.  The steps, failed messages
    being rolled back, are the messages of x/erc721, x/cw721 and x/collection, packet
    callbacks, migrations, ICS-721 burns and steps of other modules, where a message that
    names an ERC721 contract spells it with 0x, no new pair shares its hashed id with
    another one, the CW721 contracts a message or refund executes are quiet (they send no
    message that reaches x/nft or the two conversion modules), and other modules,
    ICS-721 included, neither write the two stores nor burn NFTs otherwise. *)
Theorem reachable_ok `{!IbcLaws} c :
  reachable c -> chain_ok c /\ forall F, CollectionGenesis.SupplyInvariant F c = ("", false).
Proof.
  intros Hr. assert (chain_ok c) as Hok
    by (induction Hr; [by apply chain_ok_initial|by eapply step_chain]).
  split; [done|]. intros F. apply SupplyInvariant_holds, (co_nft _ (co_erc _ Hok)).
Qed.
End Chain.
