(* ===== verification/Ante.v ===== *)
(** app/ante: the decorators of the chain's own (message_security.go, comission.go)
    and the router (ante.go).  Messages are pointers to shared objects, as in the
    source, whose traversal tells them apart by pointer. *)
From S2P Require Import Prelude GoStrings Sdk.
Open Scope list_scope.

Module Ante.

(** A non-nil sdk.Msg: its type URL and the address of the message. *)
Record Msg := MkMsg { MsgTypeURL : string; msg_ptr : N }.
#[global] Instance Msg_eq_dec : EqDecision Msg.
Proof. solve_decision. Defined.
#[global] Instance Msg_countable : Countable Msg.
Proof.
  apply (inj_countable' (fun m => (MsgTypeURL m, msg_ptr m)) (fun p => MkMsg (fst p) (snd p))). by intros [].
Defined.

(** codectypes.Any: its cached value, and what UnpackAny yields. *)
Record Any := MkAny { GetCachedValue : option Msg; any_bytes : string }.

(** What a message is: the types the decorators tell apart.  Commission rates are
    LegacyDec values, integers scaled by 10^18. *)
Inductive content :=
| MsgExec (Msgs : list Any)
| MsgExecuteContract (payload : string)
| MsgInstantiateContract (payload : string)
| MsgInstantiateContract2 (payload : string)
| MsgStoreCode
| MsgEthereumTx (gas : option Z)   (** the gas of AsTransaction(), [None] for nil *)
| MsgCreateValidator (rate : Z)
| MsgEditValidator (rate : option Z)
| OtherMsg.

Class TxLib := {
  msg_content : Msg -> content;                   (** the object a pointer leads to *)
  wasm_ValidateBasic : Msg -> option error;       (** of the wasmd messages *)
  authz_GetMessages : list Any -> error + list (option Msg);   (** MsgExec.GetMessages *)
  UnpackAny : Any -> error + Msg;
}.

(** GetMessages returns the cached values; UnpackAny returns the cached value when
    there is one. *)
Class TxLaws `{TxLib} : Prop := {
  GetMessages_cached anys l : authz_GetMessages anys = inr l ->
    l = (fun a => GetCachedValue a) <$> anys;
  UnpackAny_cached a m : GetCachedValue a = Some m -> UnpackAny a = inr m;
}.

(** ** message_security.go *)

Definition MaxAuthzNestingDepth : nat := 5.
Definition MaxExtractedMessages : nat := 32.
Definition EvmMsgTypeURL : string := "/cosmos.evm.vm.v1.MsgEthereumTx".
Definition max_payload : Z := 1024 * 1024.

Section Decorators.
Context `{TxLib}.

Definition then_err (a b : option error) : option error := match a with Some e => Some e | None => b end.

(** The three payload checks differ only in the texts of their errors. *)
Definition validateWasmExecuteContract (msg : Msg) (payload : string) : option error :=
  then_err (wasm_ValidateBasic msg)
    (if (max_payload <? Z.of_nat (len payload))%Z then Some (SdkErr ErrInvalidRequest) else None).
Definition validateWasmInstantiateContract (msg : Msg) (payload : string) : option error :=
  then_err (wasm_ValidateBasic msg)
    (if (max_payload <? Z.of_nat (len payload))%Z then Some (SdkErr ErrInvalidRequest) else None).
Definition validateWasmInstantiateContract2 (msg : Msg) (payload : string) : option error :=
  then_err (wasm_ValidateBasic msg)
    (if (max_payload <? Z.of_nat (len payload))%Z then Some (SdkErr ErrInvalidRequest) else None).

Definition validateEvmGasLimit (maxTxGasWanted : Z) (gas : option Z) : option error :=
  match gas with
  | None => Some (SdkErr ErrInvalidRequest)
  | Some gasLimit =>
      if (0 <? maxTxGasWanted)%Z && (maxTxGasWanted <? gasLimit)%Z then Some (SdkErr ErrOutOfGas)
      else if (gasLimit =? 0)%Z then Some (SdkErr ErrInvalidRequest) else None
  end.

Definition checkEvmMessage (maxTxGasWanted : Z) (msg : Msg) : option error :=
  if MsgTypeURL msg =?s EvmMsgTypeURL then
    match msg_content msg with
    | MsgEthereumTx gas => validateEvmGasLimit maxTxGasWanted gas
    | _ => None
    end
  else None.

Definition validateMessage (maxTxGasWanted : Z) (msg : Msg) : option error :=
  match msg_content msg with
  | MsgExecuteContract p => validateWasmExecuteContract msg p
  | MsgInstantiateContract p => validateWasmInstantiateContract msg p
  | MsgInstantiateContract2 p => validateWasmInstantiateContract2 msg p
  | MsgStoreCode => wasm_ValidateBasic msg
  | _ => checkEvmMessage maxTxGasWanted msg
  end.

Record queuedMsg := MkQueued { q_msg : option Msg; q_depth : nat }.

(** The loop of ExtractMessagesFromTx.  [slots] is MaxExtractedMessages minus the
    number of messages collected so far; every round either drops the head of the
    queue or takes a slot. *)
Fixpoint extract (slots : nat) : list queuedMsg -> gset Msg -> list Msg -> error + list Msg :=
  fix pop queue processed allMsgs :=
    match queue with
    | [] => inr allMsgs
    | item :: rest =>
        match q_msg item with
        | None => pop rest processed allMsgs
        | Some msg =>
            if bool_decide (msg ∈ processed) then pop rest processed allMsgs
            else
              let processed := {[msg]} ∪ processed in
              match slots with
              | O => inl (SdkErr ErrInvalidRequest)
              | S slots' =>
                  let allMsgs := allMsgs ++ [msg] in
                  match msg_content msg with
                  | MsgExec anys =>
                      if MaxAuthzNestingDepth <=? q_depth item then inl (SdkErr ErrInvalidRequest)
                      else match authz_GetMessages anys with
                           | inl err => inl err
                           | inr nested =>
                               extract slots'
                                 (rest ++ ((fun m => MkQueued m (S (q_depth item))) <$> nested)) processed allMsgs
                           end
                  | _ => extract slots' rest processed allMsgs
                  end
              end
        end
    end.

Definition ExtractMessagesFromTx (msgs : list (option Msg)) : error + list Msg :=
  extract MaxExtractedMessages ((fun m => MkQueued m 0) <$> msgs) ∅ [].

Fixpoint first_error {A} (f : A -> option error) (l : list A) : option error :=
  match l with [] => None | x :: l' => then_err (f x) (first_error f l') end.

(** MessageSecurityDecorator.AnteHandle; [next] is the rest of the chain. *)
Definition MessageSecurity_AnteHandle {R} (maxTxGasWanted : Z) (msgs : list (option Msg)) (next : error + R)
  : error + R :=
  match ExtractMessagesFromTx msgs with
  | inl err => inl err
  | inr l => match first_error (validateMessage maxTxGasWanted) l with Some err => inl err | None => next end
  end.

(** ** comission.go *)

(** LegacyNewDecWithPrec(5, 2) *)
Definition minCommission : Z := 5 * 10 ^ 16.
Definition maxAuthzValidationDepth : nat := 5.

Definition validateMsg (msg : Msg) : option error :=
  match msg_content msg with
  | MsgCreateValidator rate => if (rate <? minCommission)%Z then Some (SdkErr ErrInvalidRequest) else None
  | MsgEditValidator (Some rate) => if (rate <? minCommission)%Z then Some (SdkErr ErrInvalidRequest) else None
  | _ => None
  end.

(** validateAuthzDepth; [left] is maxAuthzValidationDepth minus the depth. *)
Fixpoint validateAuthzDepth (left : nat) (anys : list Any) : option error :=
  match left with
  | O => Some (SdkErr ErrInvalidRequest)
  | S left' =>
      first_error (fun v =>
        match UnpackAny v with
        | inl err => Some err
        | inr innerMsg =>
            then_err (validateMsg innerMsg)
              (match msg_content innerMsg with MsgExec nested => validateAuthzDepth left' nested | _ => None end)
        end) anys
  end.

(** ValidatorCommissionDecorator.AnteHandle *)
Definition ValidatorCommission_AnteHandle {R} (msgs : list Msg) (next : error + R) : error + R :=
  match first_error (fun msg =>
      match msg_content msg with
      | MsgExec anys => validateAuthzDepth maxAuthzValidationDepth anys
      | _ => validateMsg msg
      end) msgs with
  | Some err => inl err
  | None => next
  end.

(** ** ante.go *)

Definition extOptionEthereumTx : string := "/cosmos.evm.vm.v1.ExtensionOptionsEthereumTx".
Definition extOptionWeb3Tx : string := "/ethermint.types.v1.ExtensionOptionsWeb3Tx".
Definition extOptionEip712Tx : string := "/cosmos.evm.eip712.v1.ExtensionOptionsWeb3Tx".

(** extensionOptionTypeURL, on the type URLs of the options; [None] is a tx without
    the interface *)
Fixpoint first_option (opts : list string) : string :=
  match opts with
  | [] => ""
  | opt :: rest =>
      if (opt =?s extOptionEthereumTx) || (opt =?s extOptionWeb3Tx) || (opt =?s extOptionEip712Tx) then opt
      else first_option rest
  end.
Definition extensionOptionTypeURL (opts : option (list string)) : string :=
  match opts with None => "" | Some l => first_option l end.

(** The handler NewAnteHandler returns, over its three handlers. *)
Definition ante_route {R} (ethAnteHandler eip712AnteHandler cosmosAnteHandler : R)
  (opts : option (list string)) : R :=
  let url := extensionOptionTypeURL opts in
  if url =?s extOptionEthereumTx then ethAnteHandler
  else if (url =?s extOptionWeb3Tx) || (url =?s extOptionEip712Tx) then eip712AnteHandler
  else cosmosAnteHandler.
End Decorators.
End Ante.
Export Ante.

(** ** What the traversal visits *)
Section Traversal.
Context `{TxLib} (roots : list (option Msg)).

(** A message of the transaction, or of an authz exec of it, [d] levels deep. *)
Inductive reaches : nat -> Msg -> Prop :=
| reaches_root m : Some m ∈ roots -> reaches 0 m
| reaches_nested d e anys l m : reaches d e -> msg_content e = MsgExec anys ->
    authz_GetMessages anys = inr l -> Some m ∈ l -> reaches (S d) m.

(** What holds at the head of the loop. *)
Record visiting (queue : list queuedMsg) (all : list Msg) : Prop := {
  vi_nodup : NoDup all;
  vi_all m : m ∈ all -> exists d, reaches d m;
  vi_queue q m : q ∈ queue -> q_msg q = Some m -> reaches (q_depth q) m;
  vi_roots m : Some m ∈ roots -> m ∈ all \/ Some m ∈ q_msg <$> queue;
  vi_closed e anys : e ∈ all -> msg_content e = MsgExec anys ->
    (exists d, d < MaxAuthzNestingDepth /\ reaches d e) /\
    exists l, authz_GetMessages anys = inr l /\
      forall m, Some m ∈ l -> m ∈ all \/ Some m ∈ q_msg <$> queue;
}.

Lemma visiting_start : visiting ((fun m => MkQueued m 0) <$> roots) [].
Proof.
  split.
  - apply NoDup_nil_2.
  - intros m Hm. by apply elem_of_nil in Hm.
  - intros q m Hq Hm. apply list_elem_of_fmap in Hq as (o & -> & Ho). cbn in *. subst o. by constructor.
  - intros m Hm. right. rewrite <- list_fmap_compose. apply list_elem_of_fmap. by exists (Some m).
  - intros e anys He. by apply elem_of_nil in He.
Qed.

(** The head is nil or was seen before. *)
Lemma visiting_skip item queue all :
  visiting (item :: queue) all -> (forall m, q_msg item = Some m -> m ∈ all) -> visiting queue all.
Proof.
  intros [Hnd Ha Hq Hr Hc] Hs.
  assert (forall m, Some m ∈ q_msg <$> item :: queue -> m ∈ all \/ Some m ∈ q_msg <$> queue) as Hdrop.
  { intros m Hm. cbn in Hm. apply elem_of_cons in Hm as [E|Hm]; auto. }
  split; auto.
  - intros q m Hin. apply Hq. by right.
  - intros m [Hm|Hm]%Hr; auto.
  - intros e anys He Hx. destruct (Hc e anys He Hx) as (Hd & l & Hl & Hm). split; [done|]. exists l. split; [done|].
    intros m [Hin|Hin]%Hm; auto.
Qed.

(** The head is taken, and the messages nested in it are queued. *)
Lemma visiting_take item msg queue all nested :
  visiting (item :: queue) all -> q_msg item = Some msg -> msg ∉ all ->
  (forall q m, q ∈ nested -> q_msg q = Some m -> reaches (q_depth q) m) ->
  (forall anys, msg_content msg = MsgExec anys -> q_depth item < MaxAuthzNestingDepth /\
     exists l, authz_GetMessages anys = inr l /\ q_msg <$> nested = l) ->
  visiting (queue ++ nested) (all ++ [msg]).
Proof.
  intros [Hnd Ha Hq Hr Hc] Em Hnew Hnest Hexec.
  assert (reaches (q_depth item) msg) as Hmsg by (apply Hq; [by left|done]).
  assert (forall m, m ∈ all \/ Some m ∈ q_msg <$> item :: queue ->
            m ∈ all ++ [msg] \/ Some m ∈ q_msg <$> queue ++ nested) as Hmove.
  { intros m. rewrite fmap_app, !elem_of_app, list_elem_of_singleton. cbn. rewrite elem_of_cons, Em. naive_solver. }
  split.
  - apply NoDup_app. split_and!; [done| |apply NoDup_singleton].
    intros x Hx ->%list_elem_of_singleton. done.
  - intros m [Hm| ->%list_elem_of_singleton]%elem_of_app; eauto.
  - intros q m [Hin|Hin]%elem_of_app; [|by apply Hnest]. apply Hq. by right.
  - intros m Hm. apply Hmove, Hr, Hm.
  - intros e anys [He| ->%list_elem_of_singleton]%elem_of_app Hx.
    + destruct (Hc e anys He Hx) as (Hd & l & Hl & Hm). split; [done|]. exists l. split; [done|]. auto.
    + destruct (Hexec anys Hx) as (Hd & l & Hl & El). split; [eauto|]. exists l. split; [done|].
      intros m Hm. right. rewrite fmap_app, El. apply elem_of_app. by right.
Qed.

Lemma extract_sound slots queue processed all l :
  visiting queue all -> (forall m, m ∈ processed <-> m ∈ all) ->
  extract slots queue processed all = inr l -> visiting [] l /\ List.length l <= List.length all + slots.
Proof.
  revert queue processed all. induction slots as [|slots IHs]; intros queue;
    induction queue as [|item queue IHq]; intros processed all Hv Hp Hx; cbn - [Nat.leb] in Hx.
  1,3: injection Hx as <-; split; [done|lia].
  all: destruct (q_msg item) as [msg|] eqn:Em;
    [|by apply IHq in Hx; [|eapply visiting_skip; [exact Hv|by rewrite Em]|]].
  all: case_bool_decide as Hs;
    [apply IHq in Hx; [done| |done]; eapply visiting_skip; [exact Hv|]; rewrite Em; intros m [= <-]; by apply Hp|].
  { done. }
  rewrite Hp in Hs.
  assert (forall m, m ∈ ({[msg]} ∪ processed : gset Msg) <-> m ∈ all ++ [msg]) as Hp'.
  { intros m. rewrite elem_of_union, elem_of_singleton, Hp, elem_of_app, list_elem_of_singleton. tauto. }
  destruct (msg_content msg) as [anys| | | | | | | |] eqn:Ec.
  2-9: apply IHs in Hx as [Hv' Hl]; [rewrite length_app in Hl; cbn in Hl; split; [done|lia]| |done];
    rewrite <- (app_nil_r queue); apply (visiting_take item); try done;
    [intros q m Hq; by apply elem_of_nil in Hq|intros anys; by rewrite Ec].
  destruct (Nat.leb_spec MaxAuthzNestingDepth (q_depth item)) as [|Hd]; [done|].
  destruct (authz_GetMessages anys) as [e|nested] eqn:Eg; [done|].
  apply IHs in Hx as [Hv' Hl]; [rewrite length_app in Hl; cbn in Hl; split; [done|lia]| |done].
  apply (visiting_take item); try done.
  - intros q m Hq Hm. apply list_elem_of_fmap in Hq as (o & -> & Ho). cbn in *. subst o.
    eapply reaches_nested; [|exact Ec|exact Eg|done]. eapply vi_queue; [exact Hv|by left|done].
  - intros anys' Ha. rewrite Ec in Ha. injection Ha as <-. split; [done|]. exists nested. split; [done|].
    rewrite <- list_fmap_compose. by rewrite list_fmap_id.
Qed.

Lemma visited_all l : visiting [] l -> forall d m, reaches d m -> m ∈ l.
Proof.
  intros [_ _ _ Hr Hc] d m. induction 1 as [m Hm|d e anys k m _ IH Ec Eg Hm].
  - apply Hr in Hm as [?|Hm]; [done|]. by apply elem_of_nil in Hm.
  - destruct (Hc e anys IH Ec) as (_ & k' & Eg' & Hin). rewrite Eg in Eg'. injection Eg' as <-.
    apply Hin in Hm as [?|Hm]; [done|]. by apply elem_of_nil in Hm.
Qed.

Lemma extract_complete lim slots queue processed all :
  (forall d m, reaches d m -> m ∈ lim) -> List.length lim <= List.length all + slots ->
  (forall d e anys, reaches d e -> msg_content e = MsgExec anys ->
     d < MaxAuthzNestingDepth /\ exists l, authz_GetMessages anys = inr l) ->
  visiting queue all -> (forall m, m ∈ processed <-> m ∈ all) ->
  exists l, extract slots queue processed all = inr l.
Proof.
  intros Hlim. revert queue processed all.
  induction slots as [|slots IHs]; intros queue; induction queue as [|item queue IHq];
    intros processed all Hl Hex Hv Hp; cbn - [Nat.leb].
  1,3: eauto.
  all: destruct (q_msg item) as [msg|] eqn:Em;
    [|apply IHq; [done..|eapply visiting_skip; [exact Hv|by rewrite Em]|done]].
  all: case_bool_decide as Hs;
    [apply IHq; [done..| |done]; eapply visiting_skip; [exact Hv|]; rewrite Em; intros m [= <-]; by apply Hp|].
  all: rewrite Hp in Hs; assert (reaches (q_depth item) msg) as Hmsg by (eapply vi_queue; [exact Hv|by left|done]).
  { exfalso. assert (S (List.length all) <= List.length lim); [|lia].
    change (List.length (msg :: all) <= List.length lim). apply submseteq_length, NoDup_submseteq.
    - apply NoDup_cons. split; [done|apply Hv].
    - intros x Hx. apply elem_of_cons in Hx as [->|Hx]; [eauto|]. destruct (vi_all _ _ Hv x Hx). eauto. }
  assert (forall m, m ∈ ({[msg]} ∪ processed : gset Msg) <-> m ∈ all ++ [msg]) as Hp'.
  { intros m. rewrite elem_of_union, elem_of_singleton, Hp, elem_of_app, list_elem_of_singleton. tauto. }
  destruct (msg_content msg) as [anys| | | | | | | |] eqn:Ec.
  2-9: apply IHs; [rewrite length_app; cbn; lia|done| |done]; rewrite <- (app_nil_r queue);
    apply (visiting_take item); try done;
    [intros q m Hq; by apply elem_of_nil in Hq|intros anys; by rewrite Ec].
  destruct (Hex _ _ _ Hmsg Ec) as (Hd & nested & Eg).
  destruct (Nat.leb_spec MaxAuthzNestingDepth (q_depth item)) as [|_]; [lia|]. rewrite Eg.
  apply IHs; [rewrite length_app; cbn; lia|done| |done]. apply (visiting_take item); try done.
  - intros q m Hq Hm. apply list_elem_of_fmap in Hq as (o & -> & Ho). cbn in *. subst o. by eapply reaches_nested.
  - intros anys' Ha. rewrite Ec in Ha. injection Ha as <-. split; [done|]. exists nested. split; [done|].
    rewrite <- list_fmap_compose. by rewrite list_fmap_id.
Qed.
End Traversal.

(** Conversion compares the traversal by its arguments before it unfolds 32 rounds. *)
Strategy 1000 [extract].

Section AnteSpec.
Context `{TxLib} `{!TxLaws}.

Lemma first_error_None {A} (f : A -> option error) l : first_error f l = None <-> forall x, x ∈ l -> f x = None.
Proof.
  induction l as [|y l IH]; cbn.
  - split; [|done]. intros _ x Hx. by apply elem_of_nil in Hx.
  - destruct (f y) as [e|] eqn:E; cbn.
    + split; [done|]. intros Hl. rewrite <- E. apply Hl. by left.
    + rewrite IH. split; intros Hl x; [|intros Hx; apply Hl; by right].
      intros [->|Hx]%elem_of_cons; auto.
Qed.

(** The traversal of a transaction's messages ends with a result.  When it
    succeeds, it has collected every message of the transaction, also those inside
    authz execs, once each, at most 32, no exec being nested more than five deep; and
    it does succeed whenever there are at most 32 messages and every exec can be
    unpacked and is less than five levels down. *)
Lemma ExtractMessagesFromTx_exact (msgs : list (option Msg)) :
  (forall l, ExtractMessagesFromTx msgs = inr l ->
     NoDup l /\ List.length l <= MaxExtractedMessages /\
     (forall m, m ∈ l <-> exists d, reaches msgs d m) /\
     (forall e anys, e ∈ l -> msg_content e = MsgExec anys ->
        exists d, d < MaxAuthzNestingDepth /\ reaches msgs d e)) /\
  (forall all, List.length all <= MaxExtractedMessages -> (forall d m, reaches msgs d m -> m ∈ all) ->
     (forall d e anys, reaches msgs d e -> msg_content e = MsgExec anys ->
        d < MaxAuthzNestingDepth /\ exists l, authz_GetMessages anys = inr l) ->
     exists l, ExtractMessagesFromTx msgs = inr l).
Proof.
  assert (forall m, m ∈ (∅ : gset Msg) <-> m ∈ @nil Msg) as Hempty
    by (intros m; rewrite elem_of_empty, elem_of_nil; done).
  split.
  - intros l Hx. unfold ExtractMessagesFromTx in Hx.
    apply (extract_sound msgs) in Hx as [Hv Hl]; [|apply visiting_start|done].
    split; [apply Hv|]. split; [done|]. split.
    + intros m. split; [by apply Hv|]. intros [d Hd]. by eapply visited_all.
    + intros e anys He Hc. by destruct (vi_closed _ _ _ Hv e anys He Hc).
  - intros all Hl Hall Hex. unfold ExtractMessagesFromTx.
    apply (extract_complete msgs all); [done|cbn [List.length]; lia|done|apply visiting_start|done].
Qed.

(** A message that sits inside the execs of a list of Anys, at any depth. *)
Inductive within : list Any -> Msg -> Prop :=
| within_here anys a m : a ∈ anys -> UnpackAny a = inr m -> within anys m
| within_deeper anys a e anys' m : a ∈ anys -> UnpackAny a = inr e -> msg_content e = MsgExec anys' ->
    within anys' m -> within anys m.

Definition commission_ok (m : Msg) : Prop :=
  match msg_content m with
  | MsgCreateValidator rate | MsgEditValidator (Some rate) => (minCommission <= rate)%Z
  | _ => True
  end.

Lemma validateMsg_None m : validateMsg m = None <-> commission_ok m.
Proof.
  unfold validateMsg, commission_ok.
  destruct (msg_content m) as [| | | | | |r|[r|]|]; try done; destruct (Z.ltb_spec r minCommission); split; done || lia.
Qed.

Lemma validateAuthzDepth_sound anys m :
  within anys m -> forall left, validateAuthzDepth left anys = None -> commission_ok m.
Proof.
  induction 1 as [anys a m Ha Hu|anys a e anys' m Ha Hu Hc _ IH]; intros [|left] Hv; try done;
    cbn in Hv; rewrite first_error_None in Hv; specialize (Hv a Ha); rewrite Hu in Hv.
  - destruct (validateMsg m) eqn:E; [done|]. by apply validateMsg_None.
  - destruct (validateMsg e); [done|]. cbn in Hv. rewrite Hc in Hv. by eapply IH.
Qed.

Lemma reaches_within (msgs : list Msg) d m :
  reaches (Some <$> msgs) d m ->
  m ∈ msgs \/ exists e anys, e ∈ msgs /\ msg_content e = MsgExec anys /\ within anys m.
Proof.
  assert (forall anys l m, authz_GetMessages anys = inr l -> Some m ∈ l ->
            exists a, a ∈ anys /\ UnpackAny a = inr m) as Hget.
  { clear m. intros anys l m Eg Hm. apply GetMessages_cached in Eg as ->.
    apply list_elem_of_fmap in Hm as (a & Ea & Hin). exists a. split; [done|]. by apply UnpackAny_cached. }
  assert (forall anys e anys' l m, within anys e -> msg_content e = MsgExec anys' ->
            authz_GetMessages anys' = inr l -> Some m ∈ l -> within anys m) as Hdeep.
  { clear m. intros anys e anys' l m Hw. induction Hw as [anys a e Ha Hu|anys a f anys2 e Ha Hu Hc _ IH]; intros Hce Eg Hm.
    - destruct (Hget _ _ _ Eg Hm) as (b & Hb & Eb). eapply within_deeper; [done..|]. by eapply within_here.
    - eapply within_deeper; [done..|]. auto. }
  induction 1 as [m Hm|d e anys l m _ IH Ec Eg Hm].
  - left. apply list_elem_of_fmap in Hm as (x & [= ->] & Hx). done.
  - right. destruct IH as [He|(f & anys2 & Hf & Hc & Hw)].
    + destruct (Hget _ _ _ Eg Hm) as (a & Ha & Ea). exists e, anys. split_and!; [done..|]. by eapply within_here.
    + exists f, anys2. split_and!; [done..|]. by eapply Hdeep.
Qed.

(** C33: a transaction that gets past the first two decorators, in the order the
    application chains them, was handed on unchanged, and no message escaped them by
    being wrapped: every message, however deep inside authz execs, is a valid wasm
    message of at most 1 MiB or carries a non-zero gas limit within the maximum, and
    every validator it creates or edits has a commission of at least 5%. *)
Theorem ante_no_bypass {R} maxTxGasWanted (msgs : list Msg) (next : error + R) r :
  MessageSecurity_AnteHandle maxTxGasWanted (Some <$> msgs) (ValidatorCommission_AnteHandle msgs next) = inr r ->
  next = inr r /\
  forall d m, reaches (Some <$> msgs) d m ->
    commission_ok m /\
    match msg_content m with
    | MsgExecuteContract p | MsgInstantiateContract p | MsgInstantiateContract2 p =>
        wasm_ValidateBasic m = None /\ (Z.of_nat (len p) <= max_payload)%Z
    | MsgStoreCode => wasm_ValidateBasic m = None
    | MsgEthereumTx gas => MsgTypeURL m = EvmMsgTypeURL ->
        exists g, gas = Some g /\ g <> 0%Z /\ ((0 < maxTxGasWanted)%Z -> (g <= maxTxGasWanted)%Z)
    | _ => True
    end.
Proof.
  unfold MessageSecurity_AnteHandle, ValidatorCommission_AnteHandle.
  destruct (ExtractMessagesFromTx (Some <$> msgs)) as [e|l] eqn:Ex; [done|].
  destruct (first_error (validateMessage maxTxGasWanted) l) eqn:Ev; [done|].
  destruct (first_error _ msgs) eqn:Ecm; [done|]. intros ->. split; [done|].
  unfold ExtractMessagesFromTx in Ex. apply (extract_sound (Some <$> msgs)) in Ex as [Hv _];
    [|apply visiting_start|intros m; rewrite elem_of_empty, elem_of_nil; done].
  rewrite first_error_None in Ev, Ecm. intros d m Hm. split.
  - destruct (reaches_within _ _ _ Hm) as [Hin|(e & anys & Hin & Hc & Hw)].
    + specialize (Ecm m Hin). unfold commission_ok. destruct (msg_content m) eqn:E; try done;
        apply validateMsg_None in Ecm; unfold commission_ok in Ecm; by rewrite E in Ecm.
    + specialize (Ecm e Hin). rewrite Hc in Ecm. by eapply validateAuthzDepth_sound.
  - assert (m ∈ l) as Hin%Ev by (by eapply visited_all). unfold validateMessage in Hin.
    destruct (msg_content m) as [|p|p|p| |gas| | |] eqn:E; try done.
    1-3: unfold validateWasmExecuteContract, validateWasmInstantiateContract, validateWasmInstantiateContract2 in Hin;
      destruct (wasm_ValidateBasic m); [done|]; cbn in Hin; split; [done|];
      destruct (Z.ltb_spec max_payload (Z.of_nat (len p))); [done|lia].
    intros Hurl. unfold checkEvmMessage in Hin. rewrite Hurl, String.eqb_refl, E in Hin.
    unfold validateEvmGasLimit in Hin. destruct gas as [g|]; [|done]. exists g. split; [done|].
    destruct (Z.ltb_spec 0 maxTxGasWanted); destruct (Z.ltb_spec maxTxGasWanted g); cbn in Hin; try done;
      destruct (Z.eqb_spec g 0); try done; split; done || lia.
Qed.

(** The router: a transaction goes to the handler of the first extension option that
    any handler claims, wherever it stands among the others. *)
Lemma ante_route_spec {R} (eth eip cosmos : R) opts :
  (forall u, u ∈ opts -> u <> extOptionEthereumTx /\ u <> extOptionWeb3Tx /\ u <> extOptionEip712Tx) ->
  ante_route eth eip cosmos (Some opts) = cosmos /\
  (forall rest, ante_route eth eip cosmos (Some (opts ++ extOptionEthereumTx :: rest)) = eth /\
     ante_route eth eip cosmos (Some (opts ++ extOptionWeb3Tx :: rest)) = eip /\
     ante_route eth eip cosmos (Some (opts ++ extOptionEip712Tx :: rest)) = eip).
Proof.
  intros Hn. assert (forall rest, first_option (opts ++ rest) = first_option rest) as Hskip.
  { intros rest. induction opts as [|u opts IH]; [done|]. cbn.
    destruct (Hn u) as (N1 & N2 & N3); [by left|]. apply str_eqb_false in N1, N2, N3. rewrite N1, N2, N3. cbn.
    apply IH. intros x Hx. apply Hn. by right. }
  unfold ante_route, extensionOptionTypeURL. split.
  - rewrite <- (app_nil_r opts), Hskip. done.
  - intros rest. by rewrite !Hskip.
Qed.
End AnteSpec.
