(* ===== verification/Erc20Voucher.v ===== *)
(** ibc/voucher_metadata.go, the repair of the bank metadata of ICS-20 vouchers, and
    app/keepers/erc20_ibc_gate.go, the gate in front of the ERC20 IBC callback. *)
From S2P Require Import Prelude GoStrings Sdk.
Open Scope list_scope.

(** ** x/bank: metadata of denominations *)

(** banktypes.DenomUnit and banktypes.Metadata; a nil unit is [None] *)
Record DenomUnit := MkDenomUnit { du_Denom : string; du_Exponent : Z; du_Aliases : list string }.
Record Metadata := MkMetadata {
  md_Description : string; md_DenomUnits : list (option DenomUnit); md_Base : string; md_Display : string;
  md_Name : string; md_Symbol : string; md_URI : string; md_URIHash : string }.

(** The bank keeper, Metadata.Validate and evmibc.DeriveDecimalsFromDenom. *)
Class BankKeeper := {
  bank_state : Type;
  GetDenomMetaData : bank_state -> string -> option Metadata;
  SetDenomMetaData : bank_state -> Metadata -> bank_state;
  TotalSupplyDenoms : bank_state -> list string;     (** as IterateTotalSupply visits them *)
  Metadata_Validate : Metadata -> option error;
  DeriveDecimalsFromDenom : string -> error + Z;     (** a uint8 *)
}.

(** Metadata is a map keyed by the base denomination. *)
Class BankLaws `{BankKeeper} : Prop := {
  GetDenomMetaData_Base b d m : GetDenomMetaData b d = Some m -> md_Base m = d;
  SetDenomMetaData_get b m d : GetDenomMetaData (SetDenomMetaData b m) d =
    if decide (d = md_Base m) then Some m else GetDenomMetaData b d;
  SetDenomMetaData_supply b m : TotalSupplyDenoms (SetDenomMetaData b m) = TotalSupplyDenoms b;
  (** denominations are valid, so they have no line break *)
  supply_denoms b d : d ∈ TotalSupplyDenoms b -> ContainsByte d "010" = false;
}.

Module Erc20Voucher.
Section Voucher.
Context `{BankKeeper} `{FmtLib}.

Definition VoucherPrefix : string := "ibc/".

Inductive NormalizationOutcome :=
| NormalizationNoMetadata | NormalizationAlreadyNormalized | NormalizationApplied | NormalizationSkipped.

Record NormalizationResult := MkNormalization {
  nr_Outcome : NormalizationOutcome; nr_Reason : string; nr_Decimals : Z }.

Definition Changed (r : NormalizationResult) : bool :=
  match nr_Outcome r with NormalizationApplied => true | _ => false end.

(** HasNilDenomUnit *)
Fixpoint HasNilDenomUnit (units : list (option DenomUnit)) : bool :=
  match units with [] => false | None :: _ => true | Some _ :: rest => HasNilDenomUnit rest end.

(** NonZeroUnitExponent; [None] is the answer (0, false) *)
Fixpoint NonZeroUnitExponent (units : list (option DenomUnit)) (denom : string) : option Z :=
  match units with
  | [] => None
  | None :: rest => NonZeroUnitExponent rest denom
  | Some unit :: rest =>
      if (du_Denom unit =?s denom) && (0 <? du_Exponent unit)%Z then Some (du_Exponent unit)
      else NonZeroUnitExponent rest denom
  end.

Definition denomUnitDenom (u : option DenomUnit) : string :=
  match u with None => "" | Some u => du_Denom u end.
Definition denomUnitExponent (u : option DenomUnit) : Z :=
  match u with None => 0%Z | Some u => du_Exponent u end.

Definition is_nil (u : option DenomUnit) : bool := match u with None => true | Some _ => false end.

(** SameDenomUnits; the lists are walked together once their lengths agree. *)
Fixpoint same_units (a b : list (option DenomUnit)) : bool :=
  match a, b with
  | x :: a', y :: b' =>
      if negb (Bool.eqb (is_nil x) (is_nil y)) then false
      else if (denomUnitDenom x <>?s denomUnitDenom y) || negb (denomUnitExponent x =? denomUnitExponent y)%Z
      then false
      else same_units a' b'
  | _, _ => true
  end.
Definition SameDenomUnits (a b : list (option DenomUnit)) : bool :=
  if negb (List.length a =? List.length b) then false else same_units a b.

(** FormatDenomUnits *)
Definition FormatDenomUnits (units : list (option DenomUnit)) : string :=
  Join ((fun u => match u with
                  | None => "<nil>"
                  | Some u => du_Denom u +:+ ":" +:+ BigString (du_Exponent u)
                  end) <$> units) ",".

(** lastUnitExponent *)
Definition lastUnitExponent (units : list (option DenomUnit)) : Z :=
  match last units with None => 0%Z | Some u => denomUnitExponent u end.

(** The last segment of a denomination path. *)
Definition source_denom (display : string) : string :=
  match LastIndex display "/" with Some i => str_drop (S i) display | None => display end.

Definition shape_c (metadata : Metadata) (sourceDenom : string) (decimals : Z) : Metadata :=
  MkMetadata (md_Description metadata)
    [Some (MkDenomUnit (md_Base metadata) 0 []); Some (MkDenomUnit sourceDenom decimals [])]
    (md_Base metadata) sourceDenom (md_Name metadata) (md_Symbol metadata) (md_URI metadata) (md_URIHash metadata).

(** NormalizeVoucherMetadata *)
Definition NormalizeVoucherMetadata (metadata : Metadata) : Metadata * string * bool :=
  if HasNilDenomUnit (md_DenomUnits metadata) then (metadata, "metadata carries a nil denom unit", false)
  else if md_Display metadata =?s md_Base metadata
  then (metadata, "display is the voucher hash, source denom unknown", false)
  else
  let sourceDenom := source_denom (md_Display metadata) in
  if (sourceDenom =?s "") || (sourceDenom =?s md_Base metadata)
  then (metadata, "display carries no usable source denom", false)
  else
  let decimals := match NonZeroUnitExponent (md_DenomUnits metadata) sourceDenom with
                  | Some d => inr d
                  | None => DeriveDecimalsFromDenom sourceDenom
                  end in
  match decimals with
  | inl err => (metadata, "cannot derive decimals for source denom " +:+ fmt_q sourceDenom +:+ ": " +:+ err_Error err,
                false)
  | inr decimals =>
      let updated := shape_c metadata sourceDenom decimals in
      match Metadata_Validate updated with
      | Some err => (metadata, "repaired metadata is invalid: " +:+ err_Error err, false)
      | None => (updated, "", true)
      end
  end.

(** NormalizeVoucherDecimals *)
Definition NormalizeVoucherDecimals (bank : bank_state) (denom : string) : NormalizationResult * bank_state :=
  if negb (HasPrefix denom VoucherPrefix)
  then (MkNormalization NormalizationSkipped ("denom " +:+ fmt_q denom +:+ " is not an ibc voucher") 0, bank)
  else
  match GetDenomMetaData bank denom with
  | None => (MkNormalization NormalizationNoMetadata "" 0, bank)
  | Some metadata =>
      let '(updated, reason, ok) := NormalizeVoucherMetadata metadata in
      if negb ok then (MkNormalization NormalizationSkipped reason 0, bank)
      else
      let decimals := lastUnitExponent (md_DenomUnits updated) in
      if (md_Display updated =?s md_Display metadata)
         && SameDenomUnits (md_DenomUnits updated) (md_DenomUnits metadata)
      then (MkNormalization NormalizationAlreadyNormalized "" decimals, bank)
      else (MkNormalization NormalizationApplied "" decimals, SetDenomMetaData bank updated)
  end.
End Voucher.

(** ** app/keepers/erc20_ibc_gate.go *)

(** erc20types.Params *)
Record Erc20Params := MkErc20Params { EnableErc20 : bool; PermissionlessRegistration : bool }.

(** github.com/cosmos/evm x/erc20 and evm/ibc, ibc-go's transfer types *)
Class Erc20Keeper `{BankKeeper} := {
  (** the stores the keeper writes: x/erc20's, and the code hash of the account of each
      dynamic precompile it registers, which no other part of the model reads *)
  erc20_state : Type;
  erc20_GetParams : erc20_state -> Erc20Params;
  erc20_SetParams : erc20_state -> Erc20Params -> error + erc20_state;
  erc20_GetTokenPairID : erc20_state -> string -> string;
  erc20_has_pair : erc20_state -> string -> bool;          (** GetTokenPair(id) finds one *)
  IsDenomRegistered : erc20_state -> string -> bool;
  RegisterERC20Extension : erc20_state -> string -> (error + string) * erc20_state;
  erc20_OnRecvPacket : Packet -> Acknowledgement -> bank_state * erc20_state ->
    Acknowledgement * (bank_state * erc20_state);
  ack_Success : Acknowledgement -> bool;
  (** the denom of the packet data, then the denom of the coin that is received *)
  UnmarshalJSON_FungibleDenom : string -> option string;
  GetReceivedCoin_Denom : Packet -> string -> string;
  AttributeKeyCosmosCoin : string; AttributeCoinSourceChannel : string;
}.

Section Gate.
Context `{Erc20Keeper} `{FmtLib}.

Record GateCtx := MkGateCtx { gc_bank : bank_state; gc_erc20 : erc20_state; gc_events : list Event }.

Definition EventTypeAutoRegistrationSuppressed : string := "erc20_auto_registration_suppressed".

Definition receivedDenom (packet : Packet) : option string :=
  match UnmarshalJSON_FungibleDenom (pk_Data packet) with
  | None => None
  | Some denom => Some (GetReceivedCoin_Denom packet denom)
  end.

Definition wouldAutoRegisterTokenPair (s : erc20_state) (packet : Packet) : bool :=
  match receivedDenom packet with
  | None => false
  | Some denom =>
      if erc20_has_pair s (erc20_GetTokenPairID s denom) then false else HasPrefix denom "ibc/"
  end.

Definition permissionlessRegistrationEnabled (s : erc20_state) : bool :=
  PermissionlessRegistration (erc20_GetParams s).

(** ERC20IBCGate.normalizeVoucherDecimals *)
Definition gate_normalizeVoucherDecimals (c : GateCtx) (packet : Packet) : GateCtx :=
  if negb (wouldAutoRegisterTokenPair (gc_erc20 c) packet) then c
  else match receivedDenom packet with
       | None => c
       | Some denom => MkGateCtx (snd (NormalizeVoucherDecimals (gc_bank c) denom)) (gc_erc20 c) (gc_events c)
       end.

(** the call of the wrapped keeper *)
Definition gate_callback (c : GateCtx) (packet : Packet) (ack : Acknowledgement) : Acknowledgement * GateCtx :=
  let '(ack', (b, s)) := erc20_OnRecvPacket packet ack (gc_bank c, gc_erc20 c) in
  (ack', MkGateCtx b s (gc_events c)).

(** ERC20IBCGate.OnRecvPacket *)
Definition gate_OnRecvPacket (c : GateCtx) (packet : Packet) (ack : Acknowledgement)
  : Acknowledgement * GateCtx :=
  if ack_Success ack && permissionlessRegistrationEnabled (gc_erc20 c)
  then gate_callback (gate_normalizeVoucherDecimals c packet) packet ack
  else if negb (ack_Success ack) || negb (wouldAutoRegisterTokenPair (gc_erc20 c) packet)
  then gate_callback c packet ack
  else
    let denom := match receivedDenom packet with Some d => d | None => "" end in
    (ack, MkGateCtx (gc_bank c) (gc_erc20 c) (gc_events c ++
      [NewEvent EventTypeAutoRegistrationSuppressed
         [(AttributeKeyCosmosCoin, denom); (AttributeCoinSourceChannel, pk_SourceChannel packet)]])).
End Gate.
End Erc20Voucher.
Export Erc20Voucher.

(** ** The repair *)
Section VoucherSpec.
Context `{BankKeeper} `{!BankLaws} `{FmtLib}.

Lemma source_denom_idem s : source_denom (source_denom s) = source_denom s.
Proof.
  unfold source_denom at 2 3. destruct (LastIndex s "/") as [i|] eqn:E; unfold source_denom.
  - apply LastIndex_split in E as (_ & E & _). apply LastIndex_None in E. by rewrite E.
  - by rewrite E.
Qed.

Lemma NonZero_positive units d e : NonZeroUnitExponent units d = Some e -> (0 < e)%Z.
Proof.
  induction units as [|[u|] units IH]; [done| |done]. cbn. destruct (_ && _) eqn:E; [|done].
  apply andb_true_iff in E as [_ E%Z.ltb_lt]. by intros [= <-].
Qed.

(** The exponent a repair writes: a recorded one, or the one the name tells. *)
Definition decimals_of (m : Metadata) (d : Z) : Prop :=
  let src := source_denom (md_Display m) in
  NonZeroUnitExponent (md_DenomUnits m) src = Some d \/
  NonZeroUnitExponent (md_DenomUnits m) src = None /\ DeriveDecimalsFromDenom src = inr d.

Lemma Normalize_ok m u reason :
  NormalizeVoucherMetadata m = (u, reason, true) ->
  exists d, u = shape_c m (source_denom (md_Display m)) d /\ decimals_of m d /\ Metadata_Validate u = None /\
    source_denom (md_Display m) <> "" /\ source_denom (md_Display m) <> md_Base m.
Proof.
  unfold NormalizeVoucherMetadata, decimals_of. set (src := source_denom _).
  destruct (HasNilDenomUnit _); [done|]. destruct (md_Display m =?s _); [done|].
  destruct (_ || _) eqn:Es; [done|]. apply orb_false_iff in Es as [E1%str_eqb_false E2%str_eqb_false].
  destruct (NonZeroUnitExponent _ _) as [d|] eqn:En; [|destruct (DeriveDecimalsFromDenom src) as [e|d] eqn:Ed; [done|]];
    (destruct (Metadata_Validate _) eqn:Ev; [done|]); intros [= <- <-]; exists d; tauto.
Qed.

(** A record of shape C is its own repair. *)
Lemma Normalize_shape_c m d :
  decimals_of m d -> Metadata_Validate (shape_c m (source_denom (md_Display m)) d) = None ->
  source_denom (md_Display m) <> "" -> source_denom (md_Display m) <> md_Base m ->
  NormalizeVoucherMetadata (shape_c m (source_denom (md_Display m)) d) =
    (shape_c m (source_denom (md_Display m)) d, "", true).
Proof.
  unfold decimals_of. pose proof (source_denom_idem (md_Display m)) as Hi.
  set (src := source_denom (md_Display m)) in *. intros Hd Hv E1 E2. unfold NormalizeVoucherMetadata.
  cbn [shape_c md_DenomUnits md_Display md_Base HasNilDenomUnit]. rewrite Hi.
  apply str_eqb_false in E1, E2. rewrite E1, E2. cbn [orb NonZeroUnitExponent du_Denom du_Exponent].
  rewrite (proj2 (str_eqb_false (md_Base m) src)) by (intros E; apply str_eqb_false in E2; done).
  rewrite String.eqb_refl. cbn [andb].
  assert ((if (0 <? d)%Z then inr d else DeriveDecimalsFromDenom src) = inr d) as Hdec.
  { destruct (Z.ltb_spec 0 d); [done|]. destruct Hd as [Hd%NonZero_positive|[_ Hd]]; [lia|done]. }
  change (shape_c (shape_c m src d) src) with (shape_c m src).
  destruct (0 <? d)%Z; [by rewrite Hv|]. rewrite Hdec. by rewrite Hv.
Qed.

Lemma same_units_refl l : same_units l l = true.
Proof.
  induction l as [|x l IH]; [done|]. cbn. rewrite Bool.eqb_reflx, Z.eqb_refl. cbn.
  destruct (_ <>?s _) eqn:E; [|done]. by apply str_neqb_true in E.
Qed.

(** The decimals the ERC20 precompile reports for a record with an ibc/ base: the
    exponent of the unit named by the last segment of the display. *)
Fixpoint unit_exponent (units : list (option DenomUnit)) (denom : string) : option Z :=
  match units with
  | [] => None
  | Some u :: rest => if du_Denom u =?s denom then Some (du_Exponent u) else unit_exponent rest denom
  | None :: rest => unit_exponent rest denom
  end.
Definition precompile_decimals (m : Metadata) : option Z :=
  unit_exponent (md_DenomUnits m) (source_denom (md_Display m)).

Lemma same_units_exponent a b d :
  List.length a = List.length b -> same_units a b = true -> HasNilDenomUnit b = false ->
  unit_exponent b d = unit_exponent a d.
Proof.
  revert b. induction a as [|x a IH]; intros [|y b] Hl Hs Hn; try done. cbn in Hs, Hl.
  destruct (Bool.eqb (is_nil x) (is_nil y)) eqn:Ei; [|done]. cbn in Hs.
  destruct (_ || _) eqn:E; [done|]. apply orb_false_iff in E as [E1%str_neqb_false E2%negb_false_iff%Z.eqb_eq].
  destruct x as [x|], y as [y|]; try done. cbn in *. rewrite E1, E2. by destruct (_ =?s d); [|apply IH; [lia|..]].
Qed.

Lemma shape_c_decimals m src d :
  source_denom src = src -> src <> md_Base m -> precompile_decimals (shape_c m src d) = Some d.
Proof.
  intros Hi Hne. unfold precompile_decimals. cbn. rewrite Hi.
  rewrite (proj2 (str_eqb_false (md_Base m) src)) by done. by rewrite String.eqb_refl.
Qed.

Lemma already_decimals m u :
  HasNilDenomUnit (md_DenomUnits m) = false ->
  md_Display u = md_Display m -> SameDenomUnits (md_DenomUnits u) (md_DenomUnits m) = true ->
  precompile_decimals m = precompile_decimals u.
Proof.
  intros Hn Hd Hs. unfold precompile_decimals, SameDenomUnits in *. rewrite Hd.
  destruct (Nat.eqb_spec (List.length (md_DenomUnits u)) (List.length (md_DenomUnits m))); [|done].
  by apply same_units_exponent.
Qed.

Lemma Normalize_no_nil m u reason :
  NormalizeVoucherMetadata m = (u, reason, true) -> HasNilDenomUnit (md_DenomUnits m) = false.
Proof. unfold NormalizeVoucherMetadata. by destruct (HasNilDenomUnit _). Qed.

(** What a run of the repair on one denomination leaves. *)
Definition repaired (bank bank' : bank_state) (denom : string) (r : NormalizationResult) : Prop :=
  match nr_Outcome r with
  | NormalizationApplied => exists m,
      GetDenomMetaData bank denom = Some m /\ decimals_of m (nr_Decimals r) /\
      let m' := shape_c m (source_denom (md_Display m)) (nr_Decimals r) in
      bank' = SetDenomMetaData bank m' /\ Metadata_Validate m' = None /\
      precompile_decimals m' = Some (nr_Decimals r)
  | NormalizationAlreadyNormalized => bank' = bank /\ exists m,
      GetDenomMetaData bank denom = Some m /\ precompile_decimals m = Some (nr_Decimals r)
  | _ => bank' = bank
  end.

Lemma NormalizeVoucherDecimals_ok bank denom r bank' :
  NormalizeVoucherDecimals bank denom = (r, bank') ->
  repaired bank bank' denom r /\
  (forall d, d <> denom -> GetDenomMetaData bank' d = GetDenomMetaData bank d) /\
  (Changed r = true -> HasPrefix denom VoucherPrefix = true) /\
  TotalSupplyDenoms bank' = TotalSupplyDenoms bank /\
  exists r', NormalizeVoucherDecimals bank' denom = (r', bank') /\ nr_Decimals r' = nr_Decimals r /\
    nr_Outcome r' = match nr_Outcome r with NormalizationApplied => NormalizationAlreadyNormalized | o => o end.
Proof.
  intros Hr. pose proof Hr as Hrun. unfold NormalizeVoucherDecimals in Hr.
  destruct (HasPrefix denom VoucherPrefix) eqn:Ep; [|injection Hr as <- <-; by split_and!; [..|eexists]].
  cbn [negb] in Hr. destruct (GetDenomMetaData bank denom) as [m|] eqn:Eg;
    [|injection Hr as <- <-; by split_and!; [..|eexists]].
  destruct (NormalizeVoucherMetadata m) as [[u reason] []] eqn:En;
    [|injection Hr as <- <-; by split_and!; [..|eexists]]. cbn [negb] in Hr.
  pose proof (Normalize_no_nil _ _ _ En) as Hnil.
  destruct (Normalize_ok _ _ _ En) as (d & -> & Hd & Hv & N1 & N2).
  assert (precompile_decimals (shape_c m (source_denom (md_Display m)) d) = Some d) as Hdec
    by (apply shape_c_decimals; [apply source_denom_idem|done]).
  destruct (_ && _) eqn:Es in Hr; injection Hr as <- <-.
  - apply andb_true_iff in Es as [E1%str_eqb_true E2]. split_and!; try done; [|by eexists].
    split; [done|]. exists m. split; [done|]. rewrite (already_decimals m _ Hnil E1 E2). done.
  - pose proof (GetDenomMetaData_Base _ _ _ Eg) as Hb.
    assert (GetDenomMetaData (SetDenomMetaData bank (shape_c m (source_denom (md_Display m)) d)) denom =
            Some (shape_c m (source_denom (md_Display m)) d)) as Eg'.
    { rewrite SetDenomMetaData_get. cbn. by rewrite decide_True. }
    split_and!; [by exists m| |done|apply SetDenomMetaData_supply|].
    + intros x Hx. rewrite SetDenomMetaData_get. cbn. by rewrite decide_False by congruence.
    + exists (MkNormalization NormalizationAlreadyNormalized "" d). split; [|done].
      unfold NormalizeVoucherDecimals. rewrite Ep, Eg', Normalize_shape_c by done. cbn [negb].
      rewrite String.eqb_refl. unfold SameDenomUnits. by rewrite Nat.eqb_refl, same_units_refl.
Qed.

(** The repair of a voucher's metadata touches that denomination only, and only an
    ibc/ one.  When it reports decimals, the ERC20 precompile reads exactly those: a
    rewritten record is valid for x/bank, keeps everything but its units and display,
    and its exponent is the recorded non-zero one or else the one its name implies.
    Every other outcome leaves the store as it was.  A second run writes nothing and
    reports the same decimals. *)
Lemma NormalizeVoucherDecimals_correct bank denom :
  let (r, bank') := NormalizeVoucherDecimals bank denom in
  repaired bank bank' denom r /\
  (forall d, d <> denom -> GetDenomMetaData bank' d = GetDenomMetaData bank d) /\
  (Changed r = true -> HasPrefix denom VoucherPrefix = true) /\
  exists r', NormalizeVoucherDecimals bank' denom = (r', bank') /\ nr_Decimals r' = nr_Decimals r /\
    nr_Outcome r' = match nr_Outcome r with NormalizationApplied => NormalizationAlreadyNormalized | o => o end.
Proof.
  destruct (NormalizeVoucherDecimals bank denom) as [r bank'] eqn:E.
  apply NormalizeVoucherDecimals_ok in E as (A & B & C & _ & D). done.
Qed.
End VoucherSpec.

(** ** The gate *)

(** The callback of cosmos/evm (x/erc20/keeper/ibc_callbacks.go) registers a pair only
    for a successfully received ibc/ denomination that has none. *)
Class Erc20Laws `{Erc20Keeper} : Prop := {
  callback_registers p ack b s ack' b' s' :
    erc20_OnRecvPacket p ack (b, s) = (ack', (b', s')) ->
    (forall d, IsDenomRegistered s' d = true -> IsDenomRegistered s d = true) \/
    ack_Success ack = true /\ exists d, receivedDenom p = Some d /\ HasPrefix d "ibc/" = true /\
      erc20_has_pair s (erc20_GetTokenPairID s d) = false;
}.

(** RegisterERC20Extension registers its denomination when it succeeds and nothing when
    it fails; SetParams writes the params and no pair. *)
Class Erc20StoreLaws `{Erc20Keeper} : Prop := {
  Register_ok s d a s' : RegisterERC20Extension s d = (inr a, s') ->
    erc20_GetParams s' = erc20_GetParams s /\
    forall x, IsDenomRegistered s' x = if decide (x = d) then true else IsDenomRegistered s x;
  Register_err s d e s' : RegisterERC20Extension s d = (inl e, s') ->
    erc20_GetParams s' = erc20_GetParams s /\ forall x, IsDenomRegistered s' x = IsDenomRegistered s x;
  SetParams_ok s p s' : erc20_SetParams s p = inr s' ->
    erc20_GetParams s' = p /\ forall x, IsDenomRegistered s' x = IsDenomRegistered s x;
}.

Section GateSpec.
Context `{Erc20Keeper} `{!BankLaws} `{!Erc20Laws} `{FmtLib}.

(** The packet carries the ibc/ denomination [d], which has no pair. *)
Definition unpaired_voucher (s : erc20_state) (packet : Packet) (d : string) : Prop :=
  receivedDenom packet = Some d /\ HasPrefix d "ibc/" = true /\
  erc20_has_pair s (erc20_GetTokenPairID s d) = false.

Lemma would_iff s packet :
  wouldAutoRegisterTokenPair s packet = true <-> exists d, unpaired_voucher s packet d.
Proof.
  unfold wouldAutoRegisterTokenPair, unpaired_voucher. destruct (receivedDenom packet) as [d|]; [|naive_solver].
  split; [destruct (erc20_has_pair _ _) eqn:E; [done|]; by exists d|].
  by intros (x & [= <-] & -> & ->).
Qed.

Lemma would_no s packet :
  (forall d, ~ unpaired_voucher s packet d) -> wouldAutoRegisterTokenPair s packet = false.
Proof. intros Hn. apply not_true_iff_false. intros (d & Hd)%would_iff. by destruct (Hn d). Qed.

Lemma gate_callback_registers c packet ack :
  (ack_Success ack = true -> forall d, ~ unpaired_voucher (gc_erc20 c) packet d) ->
  forall d, IsDenomRegistered (gc_erc20 (snd (gate_callback c packet ack))) d = true ->
    IsDenomRegistered (gc_erc20 c) d = true.
Proof.
  intros Hw. unfold gate_callback. destruct (erc20_OnRecvPacket _ _ _) as [a [b s]] eqn:Ec. cbn.
  apply callback_registers in Ec as [?|(Ha & d & Hd)]; [done|]. by destruct (Hw Ha d).
Qed.

(** The event of a suppressed packet. *)
Definition suppressed_event (packet : Packet) (d : string) : Event :=
  NewEvent EventTypeAutoRegistrationSuppressed
    [(AttributeKeyCosmosCoin, d); (AttributeCoinSourceChannel, pk_SourceChannel packet)].

(** C38: the gate before the ERC20 callback of a received ICS-20 packet.  While
    permissionless registration is off no packet creates a token pair, whatever
    denomination the counterparty picks.  What is suppressed is exactly the successful
    packet of an ibc/ denomination that has no pair (also one the callback would have
    passed over for another reason, such as a module account as the recipient): its acknowledgement, the bank and the x/erc20 state
    stay as they are, and one event names the denomination and the channel.  Any other
    packet goes to the callback on an unchanged context.  While it is on, the callback
    always runs, for the packet of an unpaired ibc/ denomination after the repair has
    run on that denomination alone, which either leaves its metadata as it was or
    writes a valid record that reads with the decimals of the source, and otherwise on
    an unchanged context.  A failed acknowledgement is handed over unchanged too. *)
Theorem gate_registers_only_when_enabled c packet ack :
  let run := gate_OnRecvPacket c packet ack in
  let on := permissionlessRegistrationEnabled (gc_erc20 c) in
  (on = false -> forall d, IsDenomRegistered (gc_erc20 (snd run)) d = true -> IsDenomRegistered (gc_erc20 c) d = true) /\
  (ack_Success ack = false \/ (forall d, ~ unpaired_voucher (gc_erc20 c) packet d) ->
     run = gate_callback c packet ack) /\
  (ack_Success ack = true -> forall d, unpaired_voucher (gc_erc20 c) packet d ->
     if on
     then exists r bank',
       repaired (gc_bank c) bank' d r /\
       (forall x, x <> d -> GetDenomMetaData bank' x = GetDenomMetaData (gc_bank c) x) /\
       TotalSupplyDenoms bank' = TotalSupplyDenoms (gc_bank c) /\
       run = gate_callback (MkGateCtx bank' (gc_erc20 c) (gc_events c)) packet ack
     else run = (ack, MkGateCtx (gc_bank c) (gc_erc20 c) (gc_events c ++ [suppressed_event packet d]))).
Proof.
  cbv zeta. unfold gate_OnRecvPacket, gate_normalizeVoucherDecimals.
  destruct (permissionlessRegistrationEnabled (gc_erc20 c)); split_and!; try done.
  - intros [->|Hn%would_no]; [done|]. rewrite Hn. by destruct (ack_Success ack).
  - intros -> d Hd. rewrite (proj2 (would_iff _ _)) by eauto. cbn [andb negb].
    destruct Hd as (-> & _). destruct (NormalizeVoucherDecimals (gc_bank c) d) as [r bank'] eqn:En.
    apply NormalizeVoucherDecimals_ok in En as (Hr & Hd & _ & Hs & _). by exists r, bank'.
  - intros _. rewrite andb_false_r. destruct (ack_Success ack) eqn:Ea; cbn [orb negb].
    + destruct (wouldAutoRegisterTokenPair _ _) eqn:Ew; cbn [negb]; [done|].
      apply gate_callback_registers. intros _ d Hd. by rewrite (proj2 (would_iff _ _)) in Ew by eauto.
    + apply gate_callback_registers. by rewrite Ea.
  - rewrite andb_false_r. intros [->|Hn%would_no]; [done|]. rewrite Hn. by rewrite orb_true_r.
  - intros -> d Hd. rewrite (proj2 (would_iff _ _)) by eauto. cbn [andb orb negb]. by destruct Hd as (-> & _).
Qed.
End GateSpec.
