(* ===== verification/Upgrades.v ===== *)
(** app/upgrades: the v0.4.1 repairs and the v0.5.0 handler that composes them with
    the migrations of the IBC vouchers.  The v0.4.0 change set (V040.v) and the
    SDK's module manager are parameters of the handler. *)
From S2P Require Import Prelude GoStrings Utf8 Sdk CollectionTypes CollectionKeeper Erc721Types.
From S2P Require Import Erc721Store Erc721Index Erc721Prune App Erc721Evm Erc721Msg Erc721Register.
From S2P Require Import Erc721Convert Erc721Settle Erc721ConvertFacts Erc721SettleFacts Erc20Voucher.
Open Scope go_scope.
Open Scope list_scope.

(** The params of x/vm, x/feemarket and the ICA controller, as far as they are read;
    the other fields are abstract.  A LegacyDec is its raw integer, the value times
    10^18, or nil. *)
Class ParamsLib := {
  evm_params_rest : Type;
  fee_params_rest : Type;
  dec_Mul : Z -> Z -> option Z;            (** LegacyDec.Mul; [None] when it panics *)
  P256PrecompileAddress : string; Bech32PrecompileAddress : string; StakingPrecompileAddress : string;
  DistributionPrecompileAddress : string; ICS20PrecompileAddress : string; BankPrecompileAddress : string;
  GovPrecompileAddress : string; SlashingPrecompileAddress : string;
}.

Section Params.
Context `{ParamsLib}.
Record EvmParams := MkEvmParams { ActiveStaticPrecompiles : list string; evm_rest : evm_params_rest }.
Record FeeParams := MkFeeParams { BaseFee : option Z; fee_rest : fee_params_rest }.
Record IcaParams := MkIcaParams { ControllerEnabled : bool }.
End Params.

(** SetParams of the two keepers: an error when the params do not validate. *)
Class ParamsStores `{ParamsLib} := {
  evm_params_error : EvmParams -> option error;
  fee_params_error : FeeParams -> option error;
}.

Section State.
Context `{EthLib} `{SdkLib} `{NftKeeper} `{!EvmKeeper} `{!WasmState} `{ParamsLib} `{Erc20Keeper}.

(** The stores an upgrade touches. *)
Record UState := MkUState {
  u_ctx : Ctx; u_bank : bank_state; u_erc20 : erc20_state;
  u_evm_params : EvmParams; u_fee_params : FeeParams; u_ica_params : IcaParams;
  u_coin_info : bool;                 (** the EVM store has the EvmCoinInfo record *)
  u_upgrade : gmap string string;     (** the x/upgrade store *)
}.

Definition UM (A : Type) : Type := M UState error A.

Definition set_u_ctx (u : UState) x := MkUState x (u_bank u) (u_erc20 u) (u_evm_params u) (u_fee_params u)
  (u_ica_params u) (u_coin_info u) (u_upgrade u).
Definition set_u_bank (u : UState) x := MkUState (u_ctx u) x (u_erc20 u) (u_evm_params u) (u_fee_params u)
  (u_ica_params u) (u_coin_info u) (u_upgrade u).
Definition set_u_erc20 (u : UState) x := MkUState (u_ctx u) (u_bank u) x (u_evm_params u) (u_fee_params u)
  (u_ica_params u) (u_coin_info u) (u_upgrade u).
Definition set_u_evm_params (u : UState) x := MkUState (u_ctx u) (u_bank u) (u_erc20 u) x (u_fee_params u)
  (u_ica_params u) (u_coin_info u) (u_upgrade u).
Definition set_u_fee_params (u : UState) x := MkUState (u_ctx u) (u_bank u) (u_erc20 u) (u_evm_params u) x
  (u_ica_params u) (u_coin_info u) (u_upgrade u).
Definition set_u_ica_params (u : UState) x := MkUState (u_ctx u) (u_bank u) (u_erc20 u) (u_evm_params u)
  (u_fee_params u) x (u_coin_info u) (u_upgrade u).
Definition set_u_upgrade (u : UState) x := MkUState (u_ctx u) (u_bank u) (u_erc20 u) (u_evm_params u)
  (u_fee_params u) (u_ica_params u) (u_coin_info u) x.

(** A keeper method run on the context. *)
Definition on_ctx {A} (m : GoM A) : UM A :=
  fun u => match m (u_ctx u) with
           | Ok a c => Ok a (set_u_ctx u c)
           | Err e c => Err e (set_u_ctx u c)
           | Panic => Panic
           end.
End State.

(** ** v0.4.1 *)
Module V041.
Section V041.
Context `{EthLib} `{SdkLib} `{NftKeeper} `{!EvmKeeper} `{!WasmState} `{ParamsStores} `{Erc20Keeper}.

Definition defaultActiveStaticPrecompiles : list string :=
  [P256PrecompileAddress; Bech32PrecompileAddress; StakingPrecompileAddress; DistributionPrecompileAddress;
   ICS20PrecompileAddress; BankPrecompileAddress; GovPrecompileAddress; SlashingPrecompileAddress].

Definition withDefaultActiveStaticPrecompiles (params : EvmParams) : EvmParams * bool :=
  if negb (List.length (ActiveStaticPrecompiles params) =? 0) then (params, false)
  else (MkEvmParams defaultActiveStaticPrecompiles (evm_rest params), true).

Definition migrateActiveStaticPrecompiles : UM unit :=
  params <- gets u_evm_params ;;
  let '(updated, changed) := withDefaultActiveStaticPrecompiles params in
  if negb changed then mret tt
  else match evm_params_error updated with
       | Some err => throw err
       | None => modify (fun u => set_u_evm_params u updated)
       end.

Definition dec_one : Z := 10 ^ 18.
Definition legacyDecScale : Z := 10 ^ 18 * dec_one.
(** LegacyDec.TruncateInt and LegacyNewDecFromInt *)
Definition TruncateInt (d : Z) : Z := Z.quot d dec_one.
Definition LegacyNewDecFromInt (n : Z) : Z := n * dec_one.

(** [None]: the multiplication panics *)
Definition withRepairedBaseFee (params : FeeParams) : option (FeeParams * bool) :=
  match BaseFee params with
  | None => Some (params, false)
  | Some fee =>
      if negb (0 <? fee)%Z || negb (fee <? dec_one)%Z then Some (params, false)
      else match dec_Mul fee legacyDecScale with
           | None => None
           | Some scaled =>
               let legacyInt := TruncateInt scaled in
               if negb (0 <? legacyInt)%Z then Some (params, false)
               else Some (MkFeeParams (Some (LegacyNewDecFromInt legacyInt)) (fee_rest params), true)
           end
  end.

Definition migrateFeeMarketBaseFee : UM unit :=
  params <- gets u_fee_params ;;
  match withRepairedBaseFee params with
  | None => panic
  | Some (repaired, changed) =>
      if negb changed then mret tt
      else match fee_params_error repaired with
           | Some err => throw err
           | None => modify (fun u => set_u_fee_params u repaired)
           end
  end.

Definition migrateICAControllerParams : UM unit :=
  params <- gets u_ica_params ;;
  if ControllerEnabled params then mret tt
  else modify (fun u => set_u_ica_params u (MkIcaParams true)).

(** uidIndexPruneClean and firstFew decide what is logged. *)
Definition uidIndexPruneClean (report : UIDIndexPruneReport) : bool :=
  Balanced report && (List.length (Conflicts report) =? 0) && (List.length (Orphans report) =? 0)
  && (List.length (UnpairedNFTs report) =? 0).
Definition firstFew (keys : list string) : list string :=
  if List.length keys <=? 5 then keys else take 5 keys.

Definition pruneErc721UIDIndex : UM unit :=
  modify (fun u => set_u_ctx u
    (set_erc (u_ctx u) (snd (PruneDuplicateUIDIndexEntries (c_erc (u_ctx u)))))).

(** The upgrade handler *)
Definition v041_upgradeHandler {VersionMap} (RunMigrations : VersionMap -> UM VersionMap) (vm : VersionMap)
  : UM VersionMap :=
  migrateActiveStaticPrecompiles ;;;
  migrateICAControllerParams ;;;
  migrateFeeMarketBaseFee ;;;
  pruneErc721UIDIndex ;;;
  RunMigrations vm.
End V041.
End V041.

(** ** v0.5.0 *)
Module V050.
Section V050.
Context `{EthLib} `{SdkLib} `{NftKeeper} `{!EvmKeeper} `{!WasmState} `{CollectionCodec} `{Erc721Codec}
        `{!ConvertedNFTChecker} `{ParamsStores} `{Erc20Keeper} `{FmtLib}.

Definition migrationsAppliedKey : string := "v0.5.0/migrations-applied".
Definition backfillFailuresKey : string := "v0.5.0/backfill-failures".
Definition newline : ascii := "010"%char.

(** *** migrate.go *)

Definition enablePermissionlessRegistration : UM unit :=
  params <- gets (fun u => erc20_GetParams (u_erc20 u)) ;;
  if PermissionlessRegistration params then mret tt
  else fun u =>
    match erc20_SetParams (u_erc20 u) (MkErc20Params (EnableErc20 params) true) with
    | inl err => Err err u
    | inr s => Ok tt (set_u_erc20 u s)
    end.

Definition ibcVoucherDenoms (bank : bank_state) : list string :=
  SortStrings (List.filter (fun d => HasPrefix d VoucherPrefix) (TotalSupplyDenoms bank)).

(** One voucher; the counters are normalized and skipped. *)
Definition normalize_one (acc : (nat * nat) * bank_state) (denom : string) : (nat * nat) * bank_state :=
  let '((normalized, skipped), bank) := acc in
  match GetDenomMetaData bank denom with
  | None => acc
  | Some _ =>
      let '(result, bank') := NormalizeVoucherDecimals bank denom in
      match nr_Outcome result with
      | NormalizationSkipped => ((normalized, S skipped), bank')
      | NormalizationApplied => ((S normalized, skipped), bank')
      | _ => ((normalized, skipped), bank')
      end
  end.
Definition normalizeIBCVoucherERC20Decimals (bank : bank_state) : (nat * nat) * bank_state :=
  fold_left normalize_one (ibcVoucherDenoms bank) ((0, 0), bank).

(** One denomination of the two backfill loops: registered, and the failed ones *)
Definition backfill_one (acc : nat * list string * erc20_state) (denom : string)
  : nat * list string * erc20_state :=
  let '(registered, failed, s) := acc in
  if IsDenomRegistered s denom then acc
  else match RegisterERC20Extension s denom with
       | (inl _, s') => (registered, failed ++ [denom], s')
       | (inr _, s') => (S registered, failed, s')
       end.

Definition backfillIBCVoucherTokenPairs (bank : bank_state) (s : erc20_state) : list string * erc20_state :=
  let '(_, failed, s') := fold_left backfill_one (ibcVoucherDenoms bank) (0, [], s) in (failed, s').

Definition RetryIBCVoucherBackfill (s : erc20_state) (denoms : list string)
  : nat * list string * erc20_state :=
  fold_left backfill_one denoms (0, [], s).

(** *** upgrades.go *)

(** box.GetKVStoreKey returns a key for a registered store *)
Record StoreKeys := { upgrade_key : bool; evm_key : bool }.

(** [upgradeStore] fails without the key *)
Definition upgradeStore (keys : StoreKeys) : UM unit :=
  guard (upgrade_key keys) (ExtErr "x/upgrade store key is not registered").

Definition recordBackfillFailures (keys : StoreKeys) (failed : list string) : UM unit :=
  if negb (upgrade_key keys) then mret tt
  else match failed with
  | [] => modify (fun u => set_u_upgrade u (delete backfillFailuresKey (u_upgrade u)))
  | _ =>
      modify (fun u => set_u_upgrade u
        (<[backfillFailuresKey := Join failed (String newline "")]> (u_upgrade u))) ;;;
      on_ctx (EmitEvent (NewEvent "ibc_voucher_backfill_failures"
        [("count", nat_string (List.length failed)); ("denoms", Join failed ",")]))
  end.

Definition ReadBackfillFailures (keys : StoreKeys) (u : UState) : error + list string :=
  if negb (upgrade_key keys) then inl (ExtErr "x/upgrade store key is not registered")
  else let raw := kv_get (u_upgrade u) backfillFailuresKey in
       if len raw =? 0 then inr [] else inr (Split raw newline).

Definition evmCoinInfoInitialized (keys : StoreKeys) (u : UState) : bool := evm_key keys && u_coin_info u.

Definition settleIBCVoucherPairs : UM unit := on_ctx SettleIBCVoucherPairs ;;; mret tt.

Section Handler.
Context {VersionMap : Type} (RunMigrations : VersionMap -> UM VersionMap) (keys : StoreKeys).

(** stages *)
Record stages := MkStages { legacy : VersionMap -> UM VersionMap; repairs : VersionMap -> UM VersionMap }.

Definition runMigrationSet (vm : VersionMap) (fromLegacyState : bool) (s : stages) : UM VersionMap :=
  vm <- (if fromLegacyState then legacy s vm else mret vm) ;;
  repairs s vm.

(** The handler; [v040] is the handler of the v0.4.0 change set. *)
Definition v050_upgradeHandler (v040 : VersionMap -> UM VersionMap) (vm : VersionMap) : UM VersionMap :=
  upgradeStore keys ;;;
  applied <- gets (fun u => kv_has (u_upgrade u) migrationsAppliedKey) ;;
  if (applied : bool) then RunMigrations vm
  else
  initialized <- gets (evmCoinInfoInitialized keys) ;;
  vm <- runMigrationSet vm (negb initialized) (MkStages v040 (V041.v041_upgradeHandler RunMigrations)) ;;
  enablePermissionlessRegistration ;;;
  modify (fun u => set_u_bank u (snd (normalizeIBCVoucherERC20Decimals (u_bank u)))) ;;;
  failedDenoms <- (fun u =>
    let '(failed, s) := backfillIBCVoucherTokenPairs (u_bank u) (u_erc20 u) in Ok failed (set_u_erc20 u s)) ;;
  recordBackfillFailures keys failedDenoms ;;;
  settleIBCVoucherPairs ;;;
  modify (fun u => set_u_upgrade u (<[migrationsAppliedKey := String "001" ""]> (u_upgrade u))) ;;;
  mret vm.
End Handler.
End V050.
End V050.
