(* ===== verification/UpgradesSpec.v ===== *)
(** What the upgrade handlers guarantee: the v0.4.1 repairs are exact and idempotent,
    the v0.5.0 plan runs once, and no voucher is lost on the way. *)
From S2P Require Import Prelude GoStrings Utf8 Sdk CollectionTypes CollectionKeeper Erc721Types.
From S2P Require Import Erc721Store Erc721Index Erc721Prune App Erc721Evm Erc721Msg Erc721Register.
From S2P Require Import Erc721Convert Erc721Settle Erc721ConvertFacts Erc721SettleFacts Erc20Voucher.
From S2P Require Import Upgrades.
Open Scope go_scope.
Open Scope list_scope.

(** LegacyDec.Mul is exact when the product has no more than 18 decimals, and does not
    overflow below 2^255. *)
Class DecLaws `{ParamsLib} : Prop := {
  dec_Mul_exact a b q : (a * b = q * 10 ^ 18)%Z -> (0 <= q < 2 ^ 255)%Z -> dec_Mul a b = Some q;
}.

(** ** v0.4.1 *)
Section V041Spec.
Context `{EthLib} `{SdkLib} `{NftKeeper} `{!EvmKeeper} `{!WasmState} `{ParamsStores} `{!DecLaws} `{Erc20Keeper}.
Import V041.

Lemma repaired_fee params n :
  BaseFee params = Some n -> (0 < n < 10 ^ 18)%Z ->
  withRepairedBaseFee params = Some (MkFeeParams (Some (n * 10 ^ 18)%Z) (fee_rest params), true).
Proof.
  intros En Hn. unfold withRepairedBaseFee. rewrite En. unfold dec_one.
  rewrite (proj2 (Z.ltb_lt 0 n)), (proj2 (Z.ltb_lt n (10 ^ 18))) by lia. cbn [negb orb].
  rewrite (dec_Mul_exact n legacyDecScale (n * 10 ^ 18)) by (unfold legacyDecScale, dec_one; lia).
  unfold TruncateInt, LegacyNewDecFromInt, dec_one. rewrite Z.quot_mul by lia.
  rewrite (proj2 (Z.ltb_lt 0 n)) by lia. done.
Qed.

Lemma kept_fee params :
  match BaseFee params with Some n => ~ (0 < n < 10 ^ 18)%Z | None => True end ->
  withRepairedBaseFee params = Some (params, false).
Proof.
  unfold withRepairedBaseFee. destruct (BaseFee params) as [n|]; [|done]. intros Hn. unfold dec_one.
  destruct (Z.ltb_spec 0 n), (Z.ltb_spec n (10 ^ 18)); try done. lia.
Qed.

(** The base fee is repaired exactly.  A fee that ethermint stored as the integer
    n of wei, which reads as n/10^18, becomes n wei again, for every n below 10^18;
    the repair leaves every other field alone, is not applied again to its own result,
    and touches neither a missing fee nor one that is already at least one wei. *)
Lemma withRepairedBaseFee_exact (params : FeeParams) :
  (forall n, BaseFee params = Some n -> (0 < n < 10 ^ 18)%Z ->
     let fixed := MkFeeParams (Some (LegacyNewDecFromInt n)) (fee_rest params) in
     withRepairedBaseFee params = Some (fixed, true) /\ withRepairedBaseFee fixed = Some (fixed, false)) /\
  (match BaseFee params with Some n => ~ (0 < n < 10 ^ 18)%Z | None => True end ->
   withRepairedBaseFee params = Some (params, false)).
Proof.
  split; [|apply kept_fee]. intros n En Hn. cbv zeta. unfold LegacyNewDecFromInt, dec_one.
  split; [by apply repaired_fee|]. apply kept_fee. cbn. lia.
Qed.

Lemma migrateActive_idem u v u' :
  migrateActiveStaticPrecompiles u = Ok v u' -> ActiveStaticPrecompiles (u_evm_params u') <> [] /\
  u_fee_params u' = u_fee_params u /\ u_ica_params u' = u_ica_params u /\ u_ctx u' = u_ctx u.
Proof.
  intros (p & u0 & [-> ->]%gets_ok & Hr)%mbind_ok. unfold withDefaultActiveStaticPrecompiles in Hr.
  destruct (ActiveStaticPrecompiles (u_evm_params u)) as [|x l] eqn:E; cbn in Hr.
  - destruct (evm_params_error _); [done|]. by apply modify_ok in Hr as ->.
  - apply mret_ok in Hr as [_ ->]. by rewrite E.
Qed.

Lemma migrateICA_idem u v u' :
  migrateICAControllerParams u = Ok v u' -> ControllerEnabled (u_ica_params u') = true /\
  u_fee_params u' = u_fee_params u /\ u_evm_params u' = u_evm_params u /\ u_ctx u' = u_ctx u.
Proof.
  intros (p & u0 & [-> ->]%gets_ok & Hr)%mbind_ok.
  destruct (ControllerEnabled (u_ica_params u)) eqn:E; [by apply mret_ok in Hr as [_ ->]|].
  by apply modify_ok in Hr as ->.
Qed.

Lemma migrateFee_idem u v u' :
  migrateFeeMarketBaseFee u = Ok v u' -> withRepairedBaseFee (u_fee_params u') = Some (u_fee_params u', false) /\
  u_ica_params u' = u_ica_params u /\ u_evm_params u' = u_evm_params u /\ u_ctx u' = u_ctx u.
Proof.
  intros (p & u0 & [-> ->]%gets_ok & Hr)%mbind_ok.
  destruct (BaseFee (u_fee_params u)) as [n|] eqn:En.
  - destruct (decide (0 < n < 10 ^ 18)%Z) as [Hn|Hn].
    + rewrite (repaired_fee _ n En Hn) in Hr. cbn [negb] in Hr. destruct (fee_params_error _); [done|].
      apply modify_ok in Hr as ->. split; [|done]. apply kept_fee. cbn. lia.
    + assert (withRepairedBaseFee (u_fee_params u) = Some (u_fee_params u, false)) as E
        by (apply kept_fee; by rewrite En).
      rewrite E in Hr. apply mret_ok in Hr as [_ ->]. done.
  - assert (withRepairedBaseFee (u_fee_params u) = Some (u_fee_params u, false)) as E
      by (apply kept_fee; by rewrite En).
    rewrite E in Hr. apply mret_ok in Hr as [_ ->]. done.
Qed.

(** The v0.4.1 repairs may be replayed: on a state they have produced they write
    nothing and report no error, so a repeated plan is only the module manager's run. *)
Lemma v041_replay_harmless {VersionMap} (vm vm' : VersionMap) u u' (Run : VersionMap -> UM VersionMap) :
  V041.v041_upgradeHandler mret vm u = Ok vm' u' -> V041.v041_upgradeHandler Run vm' u' = Run vm' u'.
Proof.
  intros (v1 & u1 & K1 & (v2 & u2 & K2 & (v3 & u3 & K3 & (v4 & u4 & K4 & K5)%mbind_ok)%mbind_ok)%mbind_ok)%mbind_ok.
  apply migrateActive_idem in K1 as (A1 & B1 & C1 & D1). apply migrateICA_idem in K2 as (A2 & B2 & C2 & D2).
  apply migrateFee_idem in K3 as (A3 & B3 & C3 & D3). apply modify_ok in K4 as ->. apply mret_ok in K5 as [_ ->].
  set (u4 := set_u_ctx u3 _). unfold V041.v041_upgradeHandler.
  assert (migrateActiveStaticPrecompiles u4 = Ok tt u4) as E1.
  { unfold migrateActiveStaticPrecompiles, mbind, gets, withDefaultActiveStaticPrecompiles. cbn.
    rewrite C3, C2. by destruct (ActiveStaticPrecompiles (u_evm_params u1)). }
  assert (migrateICAControllerParams u4 = Ok tt u4) as E2.
  { unfold migrateICAControllerParams, mbind, gets. cbn. by rewrite B3, A2. }
  assert (migrateFeeMarketBaseFee u4 = Ok tt u4) as E3.
  { unfold migrateFeeMarketBaseFee, mbind, gets. cbn. by rewrite A3. }
  assert (pruneErc721UIDIndex u4 = Ok tt u4) as E4.
  { unfold pruneErc721UIDIndex, modify. f_equal.
    assert (snd (PruneDuplicateUIDIndexEntries (c_erc (u_ctx u4))) = c_erc (u_ctx u4)) as ->
      by exact (proj1 (prune_idempotent (c_erc (u_ctx u3)))). reflexivity. }
  unfold mbind. by rewrite E1, E2, E3, E4.
Qed.
End V041Spec.

(** ** v0.5.0 *)
Section V050Spec.
Context `{EthLaws} `{!SdkLib} `{!SdkLaws} `{!NftKeeper} `{!NftLaws} `{!EvmKeeper} `{!WasmState} `{!EvmLaws}
        `{!CollectionCodec} `{!Erc721Codec} `{!ConvertedNFTChecker} `{ParamsStores}
        `{BankKeeper} `{!BankLaws} `{!Erc20Keeper} `{!Erc20StoreLaws} `{!FmtLib}.
Import V050.

Lemma elem_of_vouchers bank d :
  d ∈ ibcVoucherDenoms bank <-> d ∈ TotalSupplyDenoms bank /\ HasPrefix d VoucherPrefix = true.
Proof.
  unfold ibcVoucherDenoms. rewrite elem_of_SortStrings, list_elem_of_In, filter_In, <- list_elem_of_In. done.
Qed.

(** *** The metadata pass *)

(** The repair reads nothing but the record of its denomination. *)
Lemma Normalize_local b1 b2 d :
  GetDenomMetaData b1 d = GetDenomMetaData b2 d ->
  fst (NormalizeVoucherDecimals b1 d) = fst (NormalizeVoucherDecimals b2 d) /\
  GetDenomMetaData (snd (NormalizeVoucherDecimals b1 d)) d = GetDenomMetaData (snd (NormalizeVoucherDecimals b2 d)) d.
Proof.
  intros E. unfold NormalizeVoucherDecimals. rewrite E. destruct (negb _); [done|].
  destruct (GetDenomMetaData b2 d) as [m|] eqn:Em; [|cbn; split; congruence].
  destruct (NormalizeVoucherMetadata m) as [[u r] ok]. destruct (negb ok); [cbn; split; congruence|].
  destruct (_ && _); [cbn; split; congruence|]. split; [done|]. cbn. rewrite !SetDenomMetaData_get. case_decide; [done|congruence].
Qed.

Lemma normalize_one_bank acc d : snd (normalize_one acc d) = snd (NormalizeVoucherDecimals (snd acc) d).
Proof.
  destruct acc as [[n k] b]. cbn. destruct (GetDenomMetaData b d) eqn:E.
  - destruct (NormalizeVoucherDecimals b d) as [r b']. cbn. by destruct (nr_Outcome r).
  - unfold NormalizeVoucherDecimals. rewrite E. by destruct (negb _).
Qed.

Lemma normalize_fold l acc :
  TotalSupplyDenoms (snd (fold_left normalize_one l acc)) = TotalSupplyDenoms (snd acc) /\
  forall d, GetDenomMetaData (snd (fold_left normalize_one l acc)) d =
    if decide (d ∈ l) then GetDenomMetaData (snd (NormalizeVoucherDecimals (snd acc) d)) d
    else GetDenomMetaData (snd acc) d.
Proof.
  revert acc. induction l as [|x l IH]; intros acc; [done|]. cbn [fold_left].
  destruct (IH (normalize_one acc x)) as [IH1 IH2]. rewrite IH1, normalize_one_bank.
  destruct (NormalizeVoucherDecimals (snd acc) x) as [r b'] eqn:E.
  destruct (NormalizeVoucherDecimals_ok _ _ _ _ E) as (_ & Ho & _ & Ht & (r' & Hidem & _)). cbn.
  split; [done|]. intros d. rewrite IH2, normalize_one_bank, E. cbn.
  destruct (decide (d = x)) as [->|Hne].
  - rewrite (decide_True _ _ (P := x ∈ x :: l)) by (by left). rewrite E, Hidem. cbn. by case_decide.
  - assert (GetDenomMetaData b' d = GetDenomMetaData (snd acc) d) as Ed by (by apply Ho).
    apply Normalize_local in Ed as Hl. destruct (decide (d ∈ l)).
    + rewrite decide_True by (by right). apply Hl.
    + rewrite decide_False; [done|]. by intros [->|?]%elem_of_cons.
Qed.

Lemma normalize_still l acc :
  (forall d, d ∈ l -> Changed (fst (NormalizeVoucherDecimals (snd acc) d)) = false) ->
  snd (fold_left normalize_one l acc) = snd acc /\ fst (fst (fold_left normalize_one l acc)) = fst (fst acc).
Proof.
  revert acc. induction l as [|x l IH]; intros acc Hl; [done|]. cbn [fold_left].
  assert (snd (normalize_one acc x) = snd acc /\ fst (fst (normalize_one acc x)) = fst (fst acc)) as [E1 E2].
  { specialize (Hl x (list_elem_of_here _ _)). destruct acc as [[n k] b]. cbn in *.
    destruct (GetDenomMetaData b x) eqn:E; [|done].
    destruct (NormalizeVoucherDecimals b x) as [r b'] eqn:En. cbn in *.
    apply NormalizeVoucherDecimals_ok in En as (Hr & _). unfold repaired in Hr. unfold Changed in Hl.
    destruct (nr_Outcome r); naive_solver. }
  destruct (IH (normalize_one acc x)) as [F1 F2].
  { intros d Hd. rewrite E1. apply Hl. by right. }
  by rewrite F1, F2, E1, E2.
Qed.

(** The metadata pass of v0.5.0 repairs every ibc/ voucher that has a supply, each
    exactly as if it were the only one, and touches no other record; a second pass,
    after a crash or a replay, repairs nothing and leaves the store as it is. *)
Lemma normalize_pass_complete bank :
  let bank' := snd (normalizeIBCVoucherERC20Decimals bank) in
  (forall d, GetDenomMetaData bank' d =
     if decide (d ∈ TotalSupplyDenoms bank /\ HasPrefix d VoucherPrefix = true)
     then GetDenomMetaData (snd (NormalizeVoucherDecimals bank d)) d else GetDenomMetaData bank d) /\
  snd (normalizeIBCVoucherERC20Decimals bank') = bank' /\
  fst (fst (normalizeIBCVoucherERC20Decimals bank')) = 0.
Proof.
  intros bank'. destruct (normalize_fold (ibcVoucherDenoms bank) (0, 0, bank)) as [Ht Hg].
  fold (normalizeIBCVoucherERC20Decimals bank) in Ht, Hg. fold bank' in Ht, Hg. cbn in Ht, Hg. split.
  - intros d. rewrite Hg. destruct (decide (d ∈ ibcVoucherDenoms bank)) as [Hd|Hd];
      rewrite elem_of_vouchers in Hd; [by rewrite decide_True|by rewrite decide_False].
  - apply (normalize_still (ibcVoucherDenoms bank') (0, 0, bank')). cbn. intros d Hd.
    assert (d ∈ ibcVoucherDenoms bank) as Hin by (rewrite elem_of_vouchers in Hd |- *; by rewrite <- Ht).
    specialize (Hg d). rewrite decide_True in Hg by done.
    destruct (NormalizeVoucherDecimals bank d) as [r b1] eqn:E. cbn in Hg.
    destruct (NormalizeVoucherDecimals_ok _ _ _ _ E) as (_ & _ & _ & _ & (r' & Hidem & _ & Ho)).
    destruct (Normalize_local _ _ _ Hg) as [Hf _]. rewrite Hf, Hidem. cbn. unfold Changed. rewrite Ho.
    by destruct (nr_Outcome r).
Qed.

(** *** The token pairs *)

(** What holds of the backfill loop after it has seen [seen]. *)
Record backfilled (s : erc20_state) (seen : list string) (acc : nat * list string * erc20_state) : Prop := {
  bf_params : erc20_GetParams (snd acc) = erc20_GetParams s;
  bf_kept d : IsDenomRegistered s d = true -> IsDenomRegistered (snd acc) d = true;
  bf_only d : IsDenomRegistered (snd acc) d = true -> IsDenomRegistered s d = true \/ d ∈ seen;
  bf_failed d : d ∈ snd (fst acc) -> d ∈ seen;
  bf_open d : d ∈ seen -> IsDenomRegistered (snd acc) d = false -> d ∈ snd (fst acc);
}.

Lemma backfill_step s seen acc d :
  backfilled s seen acc -> backfilled s (seen ++ [d]) (backfill_one acc d).
Proof.
  destruct acc as [[n failed] t]. intros [Hp Hk Ho Hf Hn]. cbn in Hp, Hk, Ho, Hf, Hn. cbn.
  destruct (IsDenomRegistered t d) eqn:Er; [|destruct (RegisterERC20Extension t d) as [[e|a] t'] eqn:Ex].
  - split; cbn; [done|done| | |].
    + intros x [?|?]%Ho; [by left|right; set_solver].
    + intros x Hx. set_solver.
    + intros x [?| ->%list_elem_of_singleton]%elem_of_app; [auto|congruence].
  - apply Register_err in Ex as [Ep Ex]. split; cbn; [congruence|..]; intros x; rewrite ?Ex.
    + auto.
    + intros [?|?]%Ho; [by left|right; set_solver].
    + intros [?%Hf| ->%list_elem_of_singleton]%elem_of_app; set_solver.
    + intros [?| ->%list_elem_of_singleton]%elem_of_app ?; [|set_solver]. apply elem_of_app. left. auto.
  - apply Register_ok in Ex as [Ep Ex]. split; cbn; [congruence|..]; intros x; rewrite ?Ex.
    + intros Hx. case_decide; auto.
    + case_decide as E; [intros _; right; set_solver|]. intros [?|?]%Ho; [by left|right; set_solver].
    + intros Hx. set_solver.
    + case_decide as E; [done|]. intros [?| ->%list_elem_of_singleton]%elem_of_app ?; [auto|done].
Qed.

Lemma backfill_all s l acc seen :
  backfilled s seen acc -> backfilled s (seen ++ l) (fold_left backfill_one l acc).
Proof.
  revert acc seen. induction l as [|d l IH]; intros acc seen Hb; [by rewrite app_nil_r|].
  cbn [fold_left]. replace (seen ++ d :: l) with ((seen ++ [d]) ++ l) by (by rewrite <- app_assoc).
  by apply IH, backfill_step.
Qed.

Lemma backfill_run s l : backfilled s l (fold_left backfill_one l (0, [], s)).
Proof.
  apply (backfill_all s l (0, [], s) []). split; cbn; auto; intros d Hd; by apply elem_of_nil in Hd.
Qed.

(** The retry of the backfill loses no denomination: afterwards each one it was
    given has a pair or is returned as still failed, pairs that existed are kept, and
    none is created for a denomination it was not given. *)
Lemma RetryIBCVoucherBackfill_exact s denoms :
  let '(n, stillFailed, s') := RetryIBCVoucherBackfill s denoms in
  (forall d, d ∈ denoms -> IsDenomRegistered s' d = true \/ d ∈ stillFailed) /\
  (forall d, d ∈ stillFailed -> d ∈ denoms) /\
  (forall d, IsDenomRegistered s d = true -> IsDenomRegistered s' d = true) /\
  (forall d, IsDenomRegistered s' d = true -> IsDenomRegistered s d = true \/ d ∈ denoms) /\
  ((forall d, d ∈ denoms -> IsDenomRegistered s d = true) -> n = 0 /\ stillFailed = [] /\ s' = s).
Proof.
  destruct (RetryIBCVoucherBackfill s denoms) as [[n failed] s'] eqn:E.
  pose proof (backfill_run s denoms) as [Hp Hk Ho Hf Hn]. unfold RetryIBCVoucherBackfill in E.
  rewrite E in *. cbn in *. split_and!; auto.
  - intros d Hd. destruct (IsDenomRegistered s' d) eqn:Er; auto.
  - intros Hall. assert (fold_left backfill_one denoms (0, [], s) = (0, [], s)) as E';
      [|rewrite E' in E; by injection E as <- <- <-]. clear E Hp Hk Ho Hf Hn.
    induction denoms as [|d l IH]; [done|]. cbn [fold_left backfill_one].
    rewrite Hall by (by left). apply IH. intros x Hx. apply Hall. by right.
Qed.

(** *** The handler *)

Context {VersionMap : Type} (RunMigrations v040 : VersionMap -> UM VersionMap) (keys : StoreKeys).
Notation handler := (v050_upgradeHandler RunMigrations keys).

Lemma on_ctx_settle u u' : settleIBCVoucherPairs u = Ok tt u' -> exists c, u' = set_u_ctx u c.
Proof.
  unfold settleIBCVoucherPairs, mbind, on_ctx, mret. destruct (SettleIBCVoucherPairs (u_ctx u)) as [k c| |]; [|done..].
  intros [= <-]. by exists c.
Qed.

(** The run of a handler that found no marker, up to its module migrations. *)
Lemma handler_ok vm u vm' u' :
  handler v040 vm u = Ok vm' u' -> kv_has (u_upgrade u) migrationsAppliedKey = false ->
  upgrade_key keys = true /\
  exists u1, runMigrationSet vm (negb (evmCoinInfoInitialized keys u))
    (MkStages v040 (V041.v041_upgradeHandler RunMigrations)) u = Ok vm' u1 /\
  exists u2, enablePermissionlessRegistration u1 = Ok tt u2 /\
  let bank := snd (normalizeIBCVoucherERC20Decimals (u_bank u2)) in
  let '(failed, s) := backfillIBCVoucherTokenPairs bank (u_erc20 u2) in
  exists u3, recordBackfillFailures keys failed (set_u_erc20 (set_u_bank u2 bank) s) = Ok tt u3 /\
  exists c, u' = set_u_upgrade (set_u_ctx u3 c) (<[migrationsAppliedKey := String "001" ""]> (u_upgrade u3)).
Proof.
  intros (x & u0 & [Hk ->]%guard_ok & Hr)%mbind_ok Hm. split; [done|].
  apply mbind_ok in Hr as (ap & u0 & [-> ->]%gets_ok & Hr). rewrite Hm in Hr.
  apply mbind_ok in Hr as (i & u0 & [-> ->]%gets_ok & Hr).
  apply mbind_ok in Hr as (vm1 & u1 & Hset & Hr). apply mbind_ok in Hr as ([] & u2 & Hen & Hr).
  apply mbind_ok in Hr as (x1 & u2' & ->%modify_ok & Hr).
  apply mbind_ok in Hr as (failed & u2'' & Hb & Hr). cbn [u_bank u_erc20 set_u_bank] in Hb.
  destruct (backfillIBCVoucherTokenPairs _ _) as [fl s] eqn:Ebf in Hb. apply ok_inj in Hb as [-> ->].
  apply mbind_ok in Hr as ([] & u3 & Hrec & Hr). apply mbind_ok in Hr as (x2 & u4 & Hs & Hr).
  destruct x2. apply on_ctx_settle in Hs as [c ->].
  apply mbind_ok in Hr as (x3 & u5 & ->%modify_ok & [-> ->]%mret_ok).
  exists u1. split; [done|]. exists u2. split; [done|]. cbv zeta. rewrite Ebf. eauto.
Qed.

(** C28: the v0.5.0 plan applies its migrations at most once.  A run that succeeds
    leaves the marker, and a later run that finds it does nothing but run the module
    manager.  The v0.4.0 change set, whose deletion of pairs must not be repeated, is
    not reached on a store that already has the record it writes. *)
Theorem v050_applies_once vm u vm' u' :
  (handler v040 vm u = Ok vm' u' -> kv_has (u_upgrade u) migrationsAppliedKey = false ->
   kv_has (u_upgrade u') migrationsAppliedKey = true /\
   forall vm2 v040', handler v040' vm2 u' = RunMigrations vm2 u') /\
  (evmCoinInfoInitialized keys u = true -> forall v040', handler v040' vm u = handler v040 vm u).
Proof.
  split.
  - intros Hr Hm. apply handler_ok in Hr as (Hk & u1 & _ & u2 & _ & Hr); [|done]. cbv zeta in Hr.
    destruct (backfillIBCVoucherTokenPairs _ _) as [failed s]. destruct Hr as (u3 & _ & c & ->).
    assert (kv_has (u_upgrade (set_u_upgrade (set_u_ctx u3 c)
      (<[migrationsAppliedKey := String "001" ""]> (u_upgrade u3)))) migrationsAppliedKey = true) as Hm'.
    { cbn [u_upgrade set_u_upgrade]. unfold kv_has. by rewrite lookup_insert_eq. }
    split; [done|]. intros vm2 v040'. unfold v050_upgradeHandler, upgradeStore, guard. rewrite Hk.
    unfold mbind at 1. cbn [mret]. unfold mbind at 1, gets. by rewrite Hm'.
  - intros Hc v040'. unfold v050_upgradeHandler, mbind, gets, upgradeStore, guard, runMigrationSet, mret.
    destruct (upgrade_key keys); [|done]. cbv beta iota. destruct (kv_has _ _); [done|]. by rewrite Hc.
Qed.

Lemma record_ok failed u x u' :
  upgrade_key keys = true -> (forall d, d ∈ failed -> ContainsByte d newline = false /\ d <> "") ->
  recordBackfillFailures keys failed u = Ok x u' ->
  ReadBackfillFailures keys u' = inr failed /\ u_bank u' = u_bank u /\ u_erc20 u' = u_erc20 u.
Proof.
  intros Hk Hf Hr. unfold recordBackfillFailures, ReadBackfillFailures in *. rewrite Hk in *. cbn [negb] in *.
  destruct failed as [|d l].
  - apply modify_ok in Hr as ->. cbn [u_upgrade set_u_upgrade]. unfold kv_get. by rewrite lookup_delete_eq.
  - apply mbind_ok in Hr as (y & u1 & ->%modify_ok & Hr). unfold on_ctx in Hr.
    destruct (EmitEvent _ _) as [v c| |]; [|done..]. apply ok_inj in Hr as [_ ->].
    cbn [u_upgrade set_u_upgrade set_u_ctx u_bank u_erc20]. split; [|done].
    unfold kv_get. rewrite lookup_insert_eq, Split_Join; [|done|intros z Hz; by apply Hf].
    destruct (Hf d (list_elem_of_here _ _)) as [_ Hd]. destruct d as [|ch d]; [done|].
    destruct l; [done|]. cbn [Join]. rewrite str_app_cons. done.
Qed.

(** C27: a successful v0.5.0 upgrade accounts for every ICS-20 voucher.  Permissionless
    registration is on, and each ibc/ denomination with a supply has a token pair or is
    in the failure record, which reads back as the list that was written; the record
    is a valid work list for the retry, and holds only such denominations. *)
Theorem v050_accounts_for_vouchers vm u vm' u' :
  handler v040 vm u = Ok vm' u' -> kv_has (u_upgrade u) migrationsAppliedKey = false ->
  PermissionlessRegistration (erc20_GetParams (u_erc20 u')) = true /\
  exists failed, ReadBackfillFailures keys u' = inr failed /\
    (forall d, d ∈ TotalSupplyDenoms (u_bank u') -> HasPrefix d VoucherPrefix = true ->
       IsDenomRegistered (u_erc20 u') d = true \/ d ∈ failed) /\
    (forall d, d ∈ failed -> d ∈ TotalSupplyDenoms (u_bank u') /\ HasPrefix d VoucherPrefix = true).
Proof.
  intros Hr Hm. apply handler_ok in Hr as (Hk & u1 & _ & u2 & Hen & Hr); [|done]. cbv zeta in Hr.
  set (bank := snd (normalizeIBCVoucherERC20Decimals (u_bank u2))) in *.
  unfold backfillIBCVoucherTokenPairs in Hr.
  destruct (fold_left backfill_one (ibcVoucherDenoms bank) (0, [], u_erc20 u2)) as [[n failed] s] eqn:Ebf.
  pose proof (backfill_run (u_erc20 u2) (ibcVoucherDenoms bank)) as [Hp _ _ Hf Hn]. rewrite Ebf in *. cbn in Hp, Hf, Hn.
  destruct Hr as (u3 & Hrec & c & ->).
  assert (forall d, d ∈ failed -> d ∈ TotalSupplyDenoms bank /\ HasPrefix d VoucherPrefix = true) as Hfd
    by (intros d Hd; by apply elem_of_vouchers, Hf).
  apply record_ok in Hrec as (Hread & Eb & Es); [|done|].
  2: { intros d [Hs Hx]%Hfd. split; [by eapply supply_denoms|]. by intros ->. }
  cbn [u_bank u_erc20 u_upgrade set_u_erc20 set_u_bank set_u_upgrade set_u_ctx] in *. rewrite Eb, Es.
  split.
  - rewrite Hp. apply mbind_ok in Hen as (p & u0 & [-> ->]%gets_ok & Hen).
    destruct (PermissionlessRegistration _) eqn:Ep in Hen; [by apply mret_ok in Hen as [_ ->]|].
    destruct (erc20_SetParams _ _) as [e|s0] eqn:Eset in Hen; [done|]. apply ok_inj in Hen as [_ ->].
    apply SetParams_ok in Eset as [Eset _]. cbn. by rewrite Eset.
  - exists failed. split_and!; [|intros d Hs Hx|done].
    + unfold ReadBackfillFailures, kv_get in Hread |- *. rewrite Hk in *. cbn [negb u_upgrade set_u_upgrade] in *.
      by rewrite lookup_insert_ne by done.
    + destruct (IsDenomRegistered s d) eqn:Er; [by left|]. right. apply Hn; [|done].
      by apply elem_of_vouchers.
Qed.
End V050Spec.
