(* ===== verification/ZeroHeight.v ===== *)
(** app/export.go: prepForZeroHeightGenesis, which rewrites the staking, distribution and
    slashing state so that a chain can start from it at height zero.  The keepers of the SDK
    are parameters; the theorems say that nothing is purged unless every reward was paid out,
    and what the state is like that is exported. *)
From S2P Require Import Prelude GoStrings Sdk.
Open Scope go_scope.
Open Scope list_scope.

(** ** The keepers *)

(** The state they keep, and the parts of their records the preparation does not touch *)
Class ZeroTypes := {
  zstate : Type;
  validator_rest : Type; entry_rest : Type; signing_rest : Type;
  DecCoins : Type; coins_Add : DecCoins -> DecCoins -> DecCoins;
}.

Section Records.
Context `{ZeroTypes}.
Record Validator := MkValidator {
  v_Operator : string; v_UnbondingHeight : Z; v_Jailed : bool; v_rest : validator_rest }.
Record Delegation := MkDelegation { del_Delegator : string; del_Validator : string }.
Record Entry := MkEntry { en_CreationHeight : Z; en_rest : entry_rest }.
Record Redelegation := MkRedelegation {
  red_Delegator : string; red_ValidatorSrc : string; red_ValidatorDst : string; red_Entries : list Entry }.
Record UnbondingDelegation := MkUnbonding {
  ubd_Delegator : string; ubd_Validator : string; ubd_Entries : list Entry }.
Record SigningInfo := MkSigningInfo { si_StartHeight : Z; si_rest : signing_rest }.
End Records.

(** An iterator is the list of what it visits; a method that writes takes the block height of
    its context where it reads it. *)
Class ZeroKeepers `{ZeroTypes} := {
  ValAddressFromBech32 : string -> error + string;
  val_String : string -> string;                                   (** ValAddress.String *)
  cons_String : string -> string;                                  (** ConsAddress.String *)
  ValidatorAddressCodec_StringToBytes : string -> error + string;
  AssertInvariants : M zstate error unit;                          (** panics on a broken one *)
  IterateValidators : zstate -> error + list Validator;
  GetAllDelegations : zstate -> error + list Delegation;
  IterateRedelegations : zstate -> error + list Redelegation;
  IterateUnbondingDelegations : zstate -> error + list UnbondingDelegation;
  validator_addresses : zstate -> list string;                     (** the ValidatorsKey prefix, backwards *)
  iter_Close : zstate -> option error;
  GetValidator : zstate -> string -> error + Validator;
  IterateValidatorSigningInfos : zstate -> error + list (string * SigningInfo);
  SetRedelegation : Redelegation -> M zstate error unit;
  SetUnbondingDelegation : UnbondingDelegation -> M zstate error unit;
  SetValidator : Validator -> M zstate error unit;
  SetValidatorSigningInfo : string -> SigningInfo -> M zstate error unit;
  ApplyAndReturnValidatorSetUpdates : Z -> M zstate error unit;
  WithdrawValidatorCommission : string -> M zstate error unit;
  WithdrawDelegationRewards : string -> string -> M zstate error unit;
  DeleteAllValidatorSlashEvents : M zstate error unit;
  DeleteAllValidatorHistoricalRewards : M zstate error unit;
  GetValidatorOutstandingRewardsCoins : string -> zstate -> error + DecCoins;
  FeePool_Get : zstate -> error + DecCoins;                        (** its CommunityPool *)
  FeePool_Set : DecCoins -> M zstate error unit;
  AfterValidatorCreated : Z -> string -> M zstate error unit;
  BeforeDelegationCreated : Z -> string -> string -> M zstate error unit;
  AfterDelegationModified : Z -> string -> string -> M zstate error unit;
}.

Module ZeroHeight.
Section ZeroHeight.
Context `{SdkLib} `{ZeroKeepers} `{FmtLib}.
Notation ZM := (M zstate error).

Definition acc_address (s : string) : error + string :=
  match AccAddressFromBech32 s with Some a => inr a | None => inl (ExtErr "bech32") end.
Definition errors_Join (errs : list error) : error := ExtErr (Join (err_Error <$> errs) (String "010" "")).
Definition reads {A} (f : zstate -> error + A) : ZM A := r <- gets f ;; lift_sum r.
Definition wrapping {A} (what : string) (m : ZM A) : ZM A :=
  fun s => match m s with Err e s' => Err (fmt_wrap what e) s' | r => r end.

(** The error of a call is kept for the report and the loop goes on. *)
Definition collect (what : string) (errs : list error) (m : ZM unit) : ZM (list error) :=
  r <- attempt m ;;
  mret (match r with inl e => errs ++ [fmt_wrap what e] | inr _ => errs end).
Definition none_or (what : string) (errs : list error) : ZM unit :=
  guard (List.length errs =? 0)%nat (fmt_wrap what (errors_Join errs)).

(** ** Distribution *)

Definition withdraw_commission (errs : list error) (val : Validator) : ZM (list error) :=
  match ValidatorAddressCodec_StringToBytes (v_Operator val) with
  | inl e => mret (errs ++ [fmt_wrap ("decode validator operator " +:+ v_Operator val) e])
  | inr valBz => collect ("withdraw validator commission for " +:+ v_Operator val) errs (WithdrawValidatorCommission valBz)
  end.

Definition withdraw_rewards (errs : list error) (delegation : Delegation) : ZM (list error) :=
  match ValAddressFromBech32 (del_Validator delegation) with
  | inl e => mret (errs ++ [fmt_wrap ("decode validator address " +:+ del_Validator delegation) e])
  | inr valAddr =>
      match acc_address (del_Delegator delegation) with
      | inl e => mret (errs ++ [fmt_wrap ("decode delegator address " +:+ del_Delegator delegation) e])
      | inr delAddr =>
          collect ("withdraw delegation rewards for " +:+ del_Delegator delegation +:+ "/" +:+ del_Validator delegation)
            errs (WithdrawDelegationRewards delAddr valAddr)
      end
  end.

(** The context is at height zero here. *)
Definition reinit_validator (val : Validator) : ZM unit :=
  valBz <- wrapping ("decode validator operator " +:+ v_Operator val)
             (lift_sum (ValidatorAddressCodec_StringToBytes (v_Operator val))) ;;
  scraps <- wrapping ("get outstanding rewards for " +:+ v_Operator val) (reads (GetValidatorOutstandingRewardsCoins valBz)) ;;
  feePool <- wrapping "get fee pool" (reads FeePool_Get) ;;
  wrapping "set fee pool" (FeePool_Set (coins_Add feePool scraps)) ;;;
  wrapping ("AfterValidatorCreated hook for " +:+ v_Operator val) (AfterValidatorCreated 0 valBz).

Definition reinit_delegation (del : Delegation) : ZM unit :=
  valAddr <- lift_sum (ValAddressFromBech32 (del_Validator del)) ;;
  delAddr <- lift_sum (acc_address (del_Delegator del)) ;;
  wrapping ("rebuild delegation index (BeforeDelegationCreated) for " +:+ del_Delegator del +:+ "/" +:+ del_Validator del)
    (BeforeDelegationCreated 0 delAddr valAddr) ;;;
  wrapping ("rebuild delegation index (AfterDelegationModified) for " +:+ del_Delegator del +:+ "/" +:+ del_Validator del)
    (AfterDelegationModified 0 delAddr valAddr).

(** ** Staking and slashing *)

Definition reset_entries (es : list Entry) : list Entry := (fun e => MkEntry 0 (en_rest e)) <$> es.
Definition reset_redelegation (red : Redelegation) : Redelegation :=
  MkRedelegation (red_Delegator red) (red_ValidatorSrc red) (red_ValidatorDst red) (reset_entries (red_Entries red)).
Definition reset_unbonding (ubd : UnbondingDelegation) : UnbondingDelegation :=
  MkUnbonding (ubd_Delegator ubd) (ubd_Validator ubd) (reset_entries (ubd_Entries ubd)).

Definition reset_red (errs : list error) (red : Redelegation) : ZM (list error) :=
  collect ("reset redelegation " +:+ red_Delegator red +:+ "/" +:+ red_ValidatorSrc red) errs
    (SetRedelegation (reset_redelegation red)).
Definition reset_ubd (errs : list error) (ubd : UnbondingDelegation) : ZM (list error) :=
  collect ("reset unbonding delegation " +:+ ubd_Delegator ubd +:+ "/" +:+ ubd_Validator ubd) errs
    (SetUnbondingDelegation (reset_unbonding ubd)).

Definition reset_validator (jailAllowedAddrs : list string) (validator : Validator) (addr : string) : Validator :=
  MkValidator (v_Operator validator) 0
    (if (0 <? List.length jailAllowedAddrs)%nat && negb (bool_decide (val_String addr ∈ jailAllowedAddrs))
     then true else v_Jailed validator)
    (v_rest validator).

Definition jail_validator (jailAllowedAddrs : list string) (addr : string) : ZM unit :=
  validator <- wrapping ("expected validator " +:+ val_String addr +:+ ", not found") (reads (fun s => GetValidator s addr)) ;;
  wrapping ("SetValidator failed for " +:+ val_String addr) (SetValidator (reset_validator jailAllowedAddrs validator addr)).

Definition reset_signing (errs : list error) (ai : string * SigningInfo) : ZM (list error) :=
  let '(addr, info) := ai in
  collect ("reset signing info for " +:+ cons_String addr) errs
    (SetValidatorSigningInfo addr (MkSigningInfo 0 (si_rest info))).

(** ** The handler *)

Definition withdraw_all : ZM (list Delegation * list error) :=
  vals <- reads IterateValidators ;;
  errs <- for_acc vals [] withdraw_commission ;;
  dels <- reads GetAllDelegations ;;
  errs <- for_acc dels errs withdraw_rewards ;;
  mret (dels, errs).

Definition rebuild (dels : list Delegation) : ZM unit :=
  DeleteAllValidatorSlashEvents ;;;
  DeleteAllValidatorHistoricalRewards ;;;
  vals <- wrapping "failed to iterate validators" (reads IterateValidators) ;;
  wrapping "zero-height export failed to reinitialise validators" (for_each vals reinit_validator) ;;;
  for_each dels reinit_delegation.

Definition reset_staking (jailAllowedAddrs : list string) (height : Z) : ZM unit :=
  reds <- wrapping "failed to iterate redelegations" (reads IterateRedelegations) ;;
  resetErrs <- for_acc reds [] reset_red ;;
  none_or "failed to reset redelegation creation heights" resetErrs ;;;
  ubds <- wrapping "failed to iterate unbonding delegations" (reads IterateUnbondingDelegations) ;;
  resetErrs <- for_acc ubds resetErrs reset_ubd ;;
  none_or "failed to reset unbonding delegation creation heights" resetErrs ;;;
  addrs <- gets validator_addresses ;;
  for_each addrs (jail_validator jailAllowedAddrs) ;;;
  closed <- gets iter_Close ;;
  match closed with Some e => throw e | None => mret tt end ;;;
  ApplyAndReturnValidatorSetUpdates height.

Definition reset_slashing : ZM unit :=
  infos <- wrapping "failed to iterate validator signing infos" (reads IterateValidatorSigningInfos) ;;
  signingInfoErrs <- for_acc infos [] reset_signing ;;
  none_or "failed to reset validator signing infos" signingInfoErrs.

Definition prepForZeroHeightGenesis (blockHeight : Z) (jailAllowedAddrs : list string) : ZM unit :=
  for_each jailAllowedAddrs (fun addr => lift_sum (ValAddressFromBech32 addr) ;;; mret tt) ;;;
  AssertInvariants ;;;
  '(dels, distributionErrs) <- withdraw_all ;;
  none_or "zero-height export aborted before the irreversible distribution cleanup" distributionErrs ;;;
  rebuild dels ;;;
  reset_staking jailAllowedAddrs blockHeight ;;;
  reset_slashing.
End ZeroHeight.
End ZeroHeight.
Export ZeroHeight.

(** ** What the keepers promise *)

Section Observations.
Context `{ZeroKeepers}.

(** A call that succeeds leaves what [R] compares. *)
Definition keeps {A} (R : relation zstate) (m : M zstate error A) : Prop := forall s a s', m s = Ok a s' -> R s s'.

Definition same_validators (s s' : zstate) : Prop :=
  validator_addresses s' = validator_addresses s /\ forall a, GetValidator s' a = GetValidator s a.
Definition same_redelegations (s s' : zstate) : Prop := IterateRedelegations s' = IterateRedelegations s.
Definition same_unbondings (s s' : zstate) : Prop := IterateUnbondingDelegations s' = IterateUnbondingDelegations s.
Definition same_staking (s s' : zstate) : Prop :=
  same_validators s s' /\ same_redelegations s s' /\ same_unbondings s s'.

(** A record is written in place of the one with its key. *)
Definition replace_key {X K} `{EqDecision K} (key : X -> K) (x : X) (y : X) : X := if decide (key y = key x) then x else y.
Definition updates {X K} `{EqDecision K} (get : zstate -> error + list X) (key : X -> K) (set : X -> M zstate error unit) : Prop :=
  (forall s l, get s = inr l -> NoDup (key <$> l)) /\
  forall s l x u s', get s = inr l -> key x ∈ key <$> l -> set x s = Ok u s' -> get s' = inr (replace_key key x <$> l).

Definition red_key (r : Redelegation) : string * string * string := (red_Delegator r, red_ValidatorSrc r, red_ValidatorDst r).
Definition ubd_key (u : UnbondingDelegation) : string * string := (ubd_Delegator u, ubd_Validator u).
End Observations.

Class ZeroLaws `{ZeroKeepers} : Prop := {
  (** distribution and crisis write no staking state *)
  AssertInvariants_staking : keeps same_staking AssertInvariants;
  WithdrawCommission_staking v : keeps same_staking (WithdrawValidatorCommission v);
  WithdrawRewards_staking d v : keeps same_staking (WithdrawDelegationRewards d v);
  DeleteSlashEvents_staking : keeps same_staking DeleteAllValidatorSlashEvents;
  DeleteHistorical_staking : keeps same_staking DeleteAllValidatorHistoricalRewards;
  FeePool_staking c : keeps same_staking (FeePool_Set c);
  AfterValidatorCreated_staking h v : keeps same_staking (AfterValidatorCreated h v);
  BeforeDelegationCreated_staking h d v : keeps same_staking (BeforeDelegationCreated h d v);
  AfterDelegationModified_staking h d v : keeps same_staking (AfterDelegationModified h d v);
  (** the staking and slashing stores are maps *)
  SetRedelegation_updates : updates IterateRedelegations red_key SetRedelegation;
  SetRedelegation_keeps r : keeps (fun s s' => same_validators s s' /\ same_unbondings s s') (SetRedelegation r);
  SetUnbonding_updates : updates IterateUnbondingDelegations ubd_key SetUnbondingDelegation;
  SetUnbonding_keeps u : keeps (fun s s' => same_validators s s' /\ same_redelegations s s') (SetUnbondingDelegation u);
  validator_addresses_nodup s : NoDup (validator_addresses s);
  GetValidator_operator s a v : GetValidator s a = inr v -> ValidatorAddressCodec_StringToBytes (v_Operator v) = inr a;
  SetValidator_spec s v u s' a : SetValidator v s = Ok u s' -> ValidatorAddressCodec_StringToBytes (v_Operator v) = inr a ->
    a ∈ validator_addresses s ->
    validator_addresses s' = validator_addresses s /\
    (forall b, GetValidator s' b = if decide (b = a) then inr v else GetValidator s b) /\
    same_redelegations s s' /\ same_unbondings s s';
  (** the update of the validator set changes the status of validators, not whether they are jailed *)
  Apply_spec h s u s' : ApplyAndReturnValidatorSetUpdates h s = Ok u s' ->
    validator_addresses s' = validator_addresses s /\
    (forall a v', GetValidator s' a = inr v' -> exists v, GetValidator s a = inr v /\ v_Jailed v' = v_Jailed v) /\
    same_redelegations s s' /\ same_unbondings s s';
  SetSigningInfo_updates : updates IterateValidatorSigningInfos fst (fun ai => SetValidatorSigningInfo ai.1 ai.2);
  SetSigningInfo_keeps a i : keeps same_staking (SetValidatorSigningInfo a i);
}.

Section ZeroHeightFacts.
Context `{SdkLib} `{ZeroKeepers} `{FmtLib}.
Notation ZM := (M zstate error).
Implicit Types s : zstate.

Lemma reads_ok {A} (f : zstate -> error + A) s a s' : reads f s = Ok a s' -> f s = inr a /\ s' = s.
Proof. intros Hr. apply mbind_ok in Hr as (r & s0 & [-> ->]%gets_ok & Hr). by apply lift_sum_ok in Hr. Qed.
Lemma wrapping_ok {A} what (m : ZM A) s a s' : wrapping what m s = Ok a s' <-> m s = Ok a s'.
Proof. unfold wrapping. by destruct (m s). Qed.
Lemma wrapping_state {A} what (m : ZM A) s e s' : wrapping what m s = Err e s' -> exists e', m s = Err e' s'.
Proof. unfold wrapping. destruct (m s); [done|intros [= _ ->]; eauto|done]. Qed.

Lemma collect_ok what errs m s errs' s' : collect what errs m s = Ok errs' s' ->
  (m s = Ok tt s' /\ errs' = errs) \/ exists e, m s = Err e s' /\ errs' = errs ++ [fmt_wrap what e].
Proof.
  intros Hr. apply mbind_ok in Hr as (r & s0 & Ha & [-> ->]%mret_ok). apply attempt_ok in Ha.
  destruct r as [e|[]]; eauto.
Qed.
Lemma none_or_ok what errs s u s' : none_or what errs s = Ok u s' -> errs = [] /\ s' = s.
Proof. intros [Hl ->]%guard_ok. split; [|done]. by destruct errs. Qed.

(** A round of a collecting loop does the call or adds an error, so a loop that has collected
    nothing has done every call. *)
Definition done_or_error (m : ZM unit) (errs : list error) (s : zstate) (errs' : list error) (s' : zstate) : Prop :=
  (m s = Ok tt s' /\ errs' = errs) \/ exists e, errs' = errs ++ [e].
Lemma collect_round what errs m s errs' s' : collect what errs m s = Ok errs' s' -> done_or_error m errs s errs' s'.
Proof. intros [[Hr ->]|(e & Hr & ->)]%collect_ok; [by left|right; eauto]. Qed.

Lemma nothing_collected {X} (body : list error -> X -> ZM (list error)) (call : X -> ZM unit) l :
  (forall errs x s errs' s', body errs x s = Ok errs' s' -> done_or_error (call x) errs s errs' s') ->
  forall errs s s', for_acc l errs body s = Ok [] s' -> errs = [] /\ for_each l call s = Ok tt s'.
Proof.
  intros Hb. induction l as [|x l IH]; intros errs s s' Hr; [by apply mret_ok in Hr as [<- ->]|].
  apply mbind_ok in Hr as (errs1 & s1 & Hr1 & [-> Hl]%IH). apply Hb in Hr1 as [[Hr1 <-]|[e He]]; [|by destruct errs].
  split; [done|]. cbn [for_each]. by rewrite (run_bind_ok _ _ _ _ _ Hr1).
Qed.

(** ** Withdrawals *)

(** A call of a withdrawal, or of the invariant check before them; it may fail. *)
Inductive withdrawal (m : ZM unit) : Prop :=
| is_check : m = AssertInvariants -> withdrawal m
| is_commission v : m = WithdrawValidatorCommission v -> withdrawal m
| is_rewards d v : m = WithdrawDelegationRewards d v -> withdrawal m.
Inductive withdrawal_step (s s' : zstate) : Prop :=
| withdrawal_ok (m : ZM unit) : withdrawal m -> m s = Ok tt s' -> withdrawal_step s s'
| withdrawal_failed (m : ZM unit) e : withdrawal m -> m s = Err e s' -> withdrawal_step s s'.

(** Every commission and then every reward, none of which fails *)
Definition pay_commission (val : Validator) : ZM unit :=
  valBz <- lift_sum (ValidatorAddressCodec_StringToBytes (v_Operator val)) ;; WithdrawValidatorCommission valBz.
Definition pay_rewards (del : Delegation) : ZM unit :=
  valAddr <- lift_sum (ValAddressFromBech32 (del_Validator del)) ;;
  delAddr <- lift_sum (acc_address (del_Delegator del)) ;;
  WithdrawDelegationRewards delAddr valAddr.
Definition pay_out : ZM (list Delegation) :=
  vals <- reads IterateValidators ;;
  for_each vals pay_commission ;;;
  dels <- reads GetAllDelegations ;;
  for_each dels pay_rewards ;;;
  mret dels.

Lemma collect_step what errs m s errs' s' : withdrawal m -> collect what errs m s = Ok errs' s' -> rtc withdrawal_step s s'.
Proof. intros Hm [[Hr ->]|(e & Hr & ->)]%collect_ok; eauto using rtc_once, withdrawal_step. Qed.

Lemma commission_round errs val s errs' s' : withdraw_commission errs val s = Ok errs' s' ->
  rtc withdrawal_step s s' /\ done_or_error (pay_commission val) errs s errs' s'.
Proof.
  unfold withdraw_commission, pay_commission. destruct (ValidatorAddressCodec_StringToBytes (v_Operator val)) as [e|bz].
  - intros [-> ->]%mret_ok. split; [done|right; eauto].
  - intros Hr. split; [eapply collect_step, Hr; by eapply is_commission|by eapply collect_round].
Qed.
Lemma rewards_round errs del s errs' s' : withdraw_rewards errs del s = Ok errs' s' ->
  rtc withdrawal_step s s' /\ done_or_error (pay_rewards del) errs s errs' s'.
Proof.
  unfold withdraw_rewards, pay_rewards. destruct (ValAddressFromBech32 (del_Validator del)) as [e|v].
  - intros [-> ->]%mret_ok. split; [done|right; eauto].
  - cbn. destruct (acc_address (del_Delegator del)) as [e|d].
    + intros [-> ->]%mret_ok. split; [done|right; eauto].
    + intros Hr. split; [eapply collect_step, Hr; by eapply is_rewards|by eapply collect_round].
Qed.

Lemma rounds {X} (body : list error -> X -> ZM (list error)) (pay : X -> ZM unit) l :
  (forall errs x s errs' s', body errs x s = Ok errs' s' -> rtc withdrawal_step s s' /\ done_or_error (pay x) errs s errs' s') ->
  forall errs s errs' s', for_acc l errs body s = Ok errs' s' ->
    rtc withdrawal_step s s' /\ (errs' = [] -> errs = [] /\ for_each l pay s = Ok tt s').
Proof.
  intros Hb errs s errs' s' Hr. split.
  - revert Hr. apply (for_acc_inv (fun _ t => rtc withdrawal_step s t)); [|done].
    intros x b t b' t' _ Ht Hx. etrans; [done|]. by eapply Hb.
  - intros ->. eapply nothing_collected; [|exact Hr]. intros. by eapply Hb.
Qed.

Lemma collecting_never_fails {X} (body : list error -> X -> ZM (list error)) l :
  (forall errs x s e s', body errs x s <> Err e s') -> forall errs s e s', for_acc l errs body s <> Err e s'.
Proof.
  intros Hb. induction l as [|x l IH]; intros errs s e s' Hr; [done|].
  apply mbind_err in Hr as [Hr|(errs1 & s1 & _ & Hr)]; [by apply Hb in Hr|by apply IH in Hr].
Qed.
Lemma collect_never_fails what errs m s e s' : collect what errs m s <> Err e s'.
Proof. intros [Hr|(r & s1 & _ & Hr)]%mbind_err; [|done]. revert Hr. unfold attempt. by destruct (m s). Qed.
Lemma commission_never_fails errs val s e s' : withdraw_commission errs val s <> Err e s'.
Proof. unfold withdraw_commission. destruct (ValidatorAddressCodec_StringToBytes _); [done|apply collect_never_fails]. Qed.
Lemma rewards_never_fail errs del s e s' : withdraw_rewards errs del s <> Err e s'.
Proof.
  unfold withdraw_rewards. destruct (ValAddressFromBech32 _); [done|]. destruct (acc_address _); [done|apply collect_never_fails].
Qed.

Lemma reads_err {A} (f : zstate -> error + A) s e s' : reads f s = Err e s' -> s' = s.
Proof. unfold reads, mbind, gets, lift_sum. destruct (f s); [by intros [= _ ->]|done]. Qed.

(** The withdrawals: whatever happens only withdrawals run, and without an error collected
    all was paid out. *)
Lemma withdraw_all_ok s dels errs s' : withdraw_all s = Ok (dels, errs) s' ->
  rtc withdrawal_step s s' /\ (errs = [] -> pay_out s = Ok dels s').
Proof.
  intros Hr. apply mbind_ok in Hr as (vals & s0 & Hv & Hr). pose proof Hv as [Hv' ->]%reads_ok.
  apply mbind_ok in Hr as (errs1 & s1 & Hr1 & Hr). apply (rounds _ _ _ commission_round) in Hr1 as [Hs1 Hp1].
  apply mbind_ok in Hr as (dels' & s0 & Hd & Hr). pose proof Hd as [_ ->]%reads_ok.
  apply mbind_ok in Hr as (errs2 & s2 & Hr2 & Hr). apply (rounds _ _ _ rewards_round) in Hr2 as [Hs2 Hp2].
  apply mret_ok in Hr as [[= -> ->] ->]. split; [by etrans|]. intros ->. destruct (Hp2 eq_refl) as [-> Hl2].
  destruct (Hp1 eq_refl) as [_ Hl1]. unfold pay_out, mbind. by rewrite Hv, Hl1, Hd, Hl2.
Qed.
Lemma withdraw_all_err s e s' : withdraw_all s = Err e s' -> rtc withdrawal_step s s'.
Proof.
  intros [Hr|(vals & s0 & [_ ->]%reads_ok & Hr)]%mbind_err; [by apply reads_err in Hr as ->|].
  apply mbind_err in Hr as [Hr|(errs1 & s1 & Hr1 & Hr)]; [by apply (collecting_never_fails _ _ commission_never_fails) in Hr|].
  apply (rounds _ _ _ commission_round) in Hr1 as [Hs1 _].
  apply mbind_err in Hr as [Hr|(dels & s0 & [_ ->]%reads_ok & Hr)]; [by apply reads_err in Hr as ->|].
  apply mbind_err in Hr as [Hr|(errs2 & s2 & Hr2 & Hr)]; [by apply (collecting_never_fails _ _ rewards_never_fail) in Hr|done].
Qed.

Lemma check_addresses l s o : for_each l (fun addr => lift_sum (ValAddressFromBech32 addr) ;;; mret tt) s = o ->
  (o = Ok tt s /\ Forall (fun addr => is_Some (match ValAddressFromBech32 addr with inr a => Some a | inl _ => None end)) l) \/
  exists e, o = Err e s.
Proof.
  intros <-. induction l as [|x l IH]; [by left|]. cbn [for_each]. unfold mbind at 1 2.
  destruct (ValAddressFromBech32 x) as [e|a] eqn:E; cbn; [eauto|]. destruct IH as [[Hl Hf]|[e Hl]]; [left|right; eauto].
  split; [done|]. constructor; [rewrite E; eauto|done].
Qed.

(** C16: Nothing is purged unless everything was paid out.  A zero-height export either fails
    (or panics) with nothing but withdrawals done, the check of the invariants included; or
    every address of the allow list is an address, and every commission of a validator and every
    reward of a delegation was withdrawn without an error before the slash events and the
    historical rewards are deleted and the rest of the preparation runs, from that state. *)
Theorem zero_height_pays_before_purge height jail s :
  let r := prepForZeroHeightGenesis height jail s in
  r = Panic \/
  (exists e s', r = Err e s' /\ rtc withdrawal_step s s') \/
  (exists s0 dels s1, Forall (fun addr => exists a, ValAddressFromBech32 addr = inr a) jail /\
     AssertInvariants s = Ok tt s0 /\ pay_out s0 = Ok dels s1 /\
     r = (rebuild dels ;;; reset_staking jail height ;;; reset_slashing) s1).
Proof.
  cbv zeta. unfold prepForZeroHeightGenesis.
  destruct (check_addresses jail s _ eq_refl) as [[E Hl]|[e E]]; [rewrite (run_bind_ok _ _ _ _ _ E)|rewrite (run_bind_err _ _ _ _ _ E)].
  2:{ right; left. exists e, s. split; [done|apply rtc_refl]. }
  destruct (AssertInvariants s) as [[] s0|e s0|] eqn:Ea.
  2:{ rewrite (run_bind_err _ _ _ _ _ Ea). right; left. exists e, s0. split; [done|]. eapply rtc_once, withdrawal_failed; [by apply is_check|done]. }
  2:{ rewrite (run_bind_panic _ _ _ Ea). by left. }
  assert (rtc withdrawal_step s s0) as Hs0 by (eapply rtc_once, withdrawal_ok; [by apply is_check|done]).
  rewrite (run_bind_ok _ _ _ _ _ Ea). destruct (withdraw_all s0) as [[dels errs] s1|e s1|] eqn:Ew.
  - rewrite (run_bind_ok _ _ _ _ _ Ew). apply withdraw_all_ok in Ew as [Hs1 Hp]. destruct errs as [|e errs].
    + right; right. exists s0, dels, s1. split_and!; [|done|by apply Hp|done].
      eapply Forall_impl; [exact Hl|]. intros addr [a Ha]. exists a. destruct (ValAddressFromBech32 addr); [done|]. by injection Ha as ->.
    + right; left. eexists _, s1. split; [done|]. by etrans.
  - rewrite (run_bind_err _ _ _ _ _ Ew). right; left. exists e, s1. split; [done|]. etrans; [done|]. by apply withdraw_all_err in Ew.
  - rewrite (run_bind_panic _ _ _ Ew). by left.
Qed.
End ZeroHeightFacts.

(** ** The exported state *)
Section ZeroHeightState.
Context `{SdkLib} `{ZeroLaws} `{FmtLib}.
Notation ZM := (M zstate error).
Implicit Types s : zstate.

#[local] Instance same_staking_pre : PreOrder same_staking.
Proof.
  split; [by intros s|]. intros s1 s2 s3 ([A1 A2] & B & C) ([A1' A2'] & B' & C').
  unfold same_staking, same_validators, same_redelegations, same_unbondings in *.
  split_and!; congruence.
Qed.

Lemma keeps_ret {A} (a : A) : keeps same_staking (mret a).
Proof. by intros s b s' [-> ->]%mret_ok. Qed.
Lemma keeps_bind {A B} (m : ZM A) (k : A -> ZM B) :
  keeps same_staking m -> (forall a, keeps same_staking (k a)) -> keeps same_staking (mbind m k).
Proof. intros Hm Hk s b s' (a & s1 & Hr1 & Hr2)%mbind_ok. etrans; [by eapply Hm|by eapply Hk]. Qed.
Lemma keeps_wrapping {A} what (m : ZM A) : keeps same_staking m -> keeps same_staking (wrapping what m).
Proof. intros Hm s a s' Hr%wrapping_ok. by eapply Hm. Qed.
Lemma keeps_reads {A} (f : zstate -> error + A) : keeps same_staking (reads f).
Proof. by intros s a s' [_ ->]%reads_ok. Qed.
Lemma keeps_lift {A} (r : error + A) : keeps same_staking (lift_sum r).
Proof. by intros s a s' [_ ->]%lift_sum_ok. Qed.
Lemma loop_keeps {X} (R : relation zstate) (l : list X) (body : X -> ZM unit) : PreOrder R ->
  (forall x, keeps R (body x)) -> keeps R (for_each l body).
Proof.
  intros HR Hb. induction l as [|x l IH]; intros s u s' Hr; [by apply mret_ok in Hr as [_ ->]|].
  apply mbind_ok in Hr as (v & s1 & Hr1 & Hr2). etrans; [by eapply Hb|by eapply IH].
Qed.
Ltac keep := repeat first
  [ apply keeps_reads | apply keeps_bind; [|intros ?] | apply keeps_wrapping | apply keeps_lift | apply keeps_ret
  | apply loop_keeps; [apply _|]; intros ?; cbv beta | apply AssertInvariants_staking | apply WithdrawCommission_staking
  | apply WithdrawRewards_staking | apply DeleteSlashEvents_staking | apply DeleteHistorical_staking
  | apply FeePool_staking | apply AfterValidatorCreated_staking | apply BeforeDelegationCreated_staking
  | apply AfterDelegationModified_staking ].

Lemma pay_out_staking : keeps same_staking pay_out.
Proof. unfold pay_out, pay_commission, pay_rewards. keep. Qed.
Lemma rebuild_staking dels : keeps same_staking (rebuild dels).
Proof. unfold rebuild, reinit_validator, reinit_delegation. keep. Qed.

(** ** Records rewritten one by one *)

Lemma replace_others {X K} `{EqDecision K} (key : X -> K) (x : X) (l : list X) :
  key x ∉ key <$> l -> replace_key key x <$> l = l.
Proof.
  intros Hx. rewrite <- (list_fmap_id l) at 2. apply list_fmap_ext. intros i y Hy%list_elem_of_lookup_2.
  unfold replace_key. rewrite decide_False; [done|]. intros E. apply Hx. rewrite <- E. by apply list_elem_of_fmap_2.
Qed.

(** A loop that rewrites every record the iterator visits *)
Lemma rewrite_all {X K} `{EqDecision K} (get : zstate -> error + list X) (key : X -> K) (set : X -> ZM unit) (f : X -> X) :
  updates get key set -> (forall x, key (f x) = key x) ->
  forall todo before s u s', get s = inr ((f <$> before) ++ todo) -> for_each todo (fun x => set (f x)) s = Ok u s' ->
    get s' = inr (f <$> (before ++ todo)).
Proof.
  intros [Hnodup Hset] Hkey. induction todo as [|x todo IH]; intros before s u s' Hg Hr.
  - apply mret_ok in Hr as [_ ->]. by rewrite app_nil_r in *.
  - apply mbind_ok in Hr as (v & s1 & Hr1 & Hr2). pose proof (Hnodup _ _ Hg) as Hn.
    rewrite fmap_app, fmap_cons in Hn. apply NoDup_app in Hn as (_ & Hdis & [Hx _]%NoDup_cons).
    assert (get s1 = inr ((f <$> before ++ [x]) ++ todo)) as Hg1.
    { rewrite (Hset s _ (f x) v s1 Hg); [|rewrite Hkey, fmap_app, fmap_cons; set_solver|done].
      f_equal. rewrite !fmap_app, fmap_cons, <- (assoc_L (++)). f_equal; [|cbn; f_equal].
      - apply replace_others. rewrite Hkey. intros Hin. eapply Hdis; [exact Hin|]. by left.
      - unfold replace_key. by rewrite decide_True.
      - apply replace_others. by rewrite Hkey. }
    rewrite (IH _ _ _ _ Hg1 Hr2). by rewrite <- (assoc_L (++)).
Qed.

(** ** Validators *)

Lemma jail_validator_ok jail a s u s' : a ∈ validator_addresses s -> jail_validator jail a s = Ok u s' ->
  exists v, GetValidator s a = inr v /\ validator_addresses s' = validator_addresses s /\
    (forall b, GetValidator s' b = if decide (b = a) then inr (reset_validator jail v a) else GetValidator s b) /\
    same_redelegations s s' /\ same_unbondings s s'.
Proof.
  intros Ha Hr. apply mbind_ok in Hr as (v & s0 & Hr1 & Hr2%wrapping_ok). apply wrapping_ok in Hr1. apply reads_ok in Hr1 as [Hv ->].
  exists v. split; [done|]. apply (SetValidator_spec s _ _ _ a Hr2); [|done]. exact (GetValidator_operator _ _ _ Hv).
Qed.

Lemma jail_all_ok jail l : forall s u s', NoDup l -> l ⊆ validator_addresses s -> for_each l (jail_validator jail) s = Ok u s' ->
  validator_addresses s' = validator_addresses s /\ same_redelegations s s' /\ same_unbondings s s' /\
  (forall a, a ∈ l -> exists v, GetValidator s a = inr v /\ GetValidator s' a = inr (reset_validator jail v a)) /\
  (forall a, a ∉ l -> GetValidator s' a = GetValidator s a).
Proof.
  induction l as [|x l IH]; intros s u s' Hn Hl Hr.
  { apply mret_ok in Hr as [_ ->]. split_and!; try done. by intros a Ha%elem_of_nil. }
  apply NoDup_cons in Hn as [Hx Hn]. apply mbind_ok in Hr as (w & s1 & Hr1 & Hr2).
  apply jail_validator_ok in Hr1 as (v & Hv & Hadd & Hg & Hre & Hub); [|apply Hl; by left].
  apply IH in Hr2 as (Hadd2 & Hre2 & Hub2 & Hin & Hout); [|done|rewrite Hadd; set_solver].
  unfold same_redelegations, same_unbondings in *. split_and!; try congruence.
  - intros a [->|Ha]%elem_of_cons.
    + exists v. split; [done|]. by rewrite (Hout x Hx), Hg, decide_True.
    + destruct (Hin a Ha) as (v' & Hv' & E). rewrite Hg, decide_False in Hv' by (by intros ->). eauto.
  - intros a [Hne Ha]%not_elem_of_cons. by rewrite Hout, Hg, decide_False.
Qed.

(** The validator as the exported state has it, compared with the one before *)
Definition jailed_as_asked (jail : list string) (s s' : zstate) : Prop :=
  forall a v', a ∈ validator_addresses s' -> GetValidator s' a = inr v' ->
    exists v, GetValidator s a = inr v /\
      v_Jailed v' = if decide (jail = [] \/ val_String a ∈ jail) then v_Jailed v else true.

Lemma reset_validator_jailed jail v a :
  v_Jailed (reset_validator jail v a) = if decide (jail = [] \/ val_String a ∈ jail) then v_Jailed v else true.
Proof.
  unfold reset_validator. cbn [v_Jailed]. destruct jail as [|x jail]; [by rewrite decide_True by auto|]. cbn [List.length Nat.ltb Nat.leb andb].
  destruct (decide (val_String a ∈ x :: jail)) as [Hin|Hin].
  - rewrite bool_decide_true by done. cbn. by rewrite decide_True by auto.
  - rewrite bool_decide_false by done. cbn. rewrite decide_False; [done|]. by intros [?|?].
Qed.

#[local] Instance red_keeps_pre : PreOrder (fun s s' => same_validators s s' /\ same_unbondings s s').
Proof.
  split; [by intros s|]. intros s1 s2 s3 ([A1 A2] & B) ([A1' A2'] & B'). unfold same_validators, same_unbondings in *.
  split_and!; congruence.
Qed.
#[local] Instance ubd_keeps_pre : PreOrder (fun s s' => same_validators s s' /\ same_redelegations s s').
Proof.
  split; [by intros s|]. intros s1 s2 s3 ([A1 A2] & B) ([A1' A2'] & B'). unfold same_validators, same_redelegations in *.
  split_and!; congruence.
Qed.

Lemma reset_staking_ok jail height s u s' : reset_staking jail height s = Ok u s' ->
  jailed_as_asked jail s s' /\
  (exists reds, IterateRedelegations s = inr reds /\ IterateRedelegations s' = inr (reset_redelegation <$> reds)) /\
  (exists ubds, IterateUnbondingDelegations s = inr ubds /\ IterateUnbondingDelegations s' = inr (reset_unbonding <$> ubds)).
Proof.
  intros Hr. apply mbind_ok in Hr as (reds & s0 & [Hreds ->]%wrapping_ok%reads_ok & Hr).
  apply mbind_ok in Hr as (errs & s1 & Hr1 & Hr). apply mbind_ok in Hr as (? & s0 & [-> ->]%none_or_ok & Hr).
  apply mbind_ok in Hr as (ubds & s0 & [Hubds ->]%wrapping_ok%reads_ok & Hr).
  apply mbind_ok in Hr as (errs & s2 & Hr2 & Hr). apply mbind_ok in Hr as (? & s0 & [-> ->]%none_or_ok & Hr).
  apply (nothing_collected _ (fun r => SetRedelegation (reset_redelegation r))) in Hr1 as [_ Hr1]; [|intros; by eapply collect_round].
  apply (nothing_collected _ (fun r => SetUnbondingDelegation (reset_unbonding r))) in Hr2 as [_ Hr2]; [|intros; by eapply collect_round].
  pose proof (rewrite_all _ _ _ reset_redelegation SetRedelegation_updates (fun _ => eq_refl) _ [] _ _ _ Hreds Hr1) as Hreds1.
  pose proof (rewrite_all _ _ _ reset_unbonding SetUnbonding_updates (fun _ => eq_refl) _ [] _ _ _ Hubds Hr2) as Hubds2.
  apply loop_keeps with (R := fun s s' => same_validators s s' /\ same_unbondings s s') in Hr1 as [[Ha1 Hv1] Hu1];
    [|apply _|intros; apply SetRedelegation_keeps].
  apply loop_keeps with (R := fun s s' => same_validators s s' /\ same_redelegations s s') in Hr2 as [[Ha2 Hv2] Hre2];
    [|apply _|intros; apply SetUnbonding_keeps].
  apply mbind_ok in Hr as (addrs & s0 & [-> ->]%gets_ok & Hr). apply mbind_ok in Hr as (? & s3 & Hr3 & Hr).
  apply jail_all_ok in Hr3 as (Ha3 & Hre3 & Hu3 & Hin & Hout); [|apply validator_addresses_nodup|done].
  apply mbind_ok in Hr as (cl & s0 & [-> ->]%gets_ok & Hr). apply mbind_ok in Hr as (? & s0 & Hcl & Hr).
  destruct (iter_Close s3); [done|]. apply mret_ok in Hcl as [_ ->].
  apply Apply_spec in Hr as (Ha4 & Hv4 & Hre4 & Hu4). unfold same_redelegations, same_unbondings in *. split_and!.
  - intros a v' Ha Hv'. destruct (Hv4 a v' Hv') as (v3 & Hg3 & ->). rewrite Ha4, Ha3 in Ha.
    destruct (Hin a Ha) as (v & Hg & E). rewrite E in Hg3. injection Hg3 as <-. exists v.
    split; [by rewrite <- Hv1, <- Hv2|]. apply reset_validator_jailed.
  - exists reds. split; [done|]. by rewrite Hre4, Hre3, Hre2.
  - exists ubds. split; [by rewrite <- Hu1|]. by rewrite Hu4, Hu3.
Qed.

Definition reset_info (ai : string * SigningInfo) : string * SigningInfo := (ai.1, MkSigningInfo 0 (si_rest ai.2)).
Lemma reset_slashing_ok s u s' : reset_slashing s = Ok u s' ->
  same_staking s s' /\ exists infos, IterateValidatorSigningInfos s' = inr infos /\ Forall (fun ai => si_StartHeight ai.2 = 0%Z) infos.
Proof.
  intros Hr. apply mbind_ok in Hr as (infos & s0 & [Hinfos ->]%wrapping_ok%reads_ok & Hr).
  apply mbind_ok in Hr as (errs & s1 & Hr1 & [-> ->]%none_or_ok).
  apply (nothing_collected _ (fun ai => SetValidatorSigningInfo (reset_info ai).1 (reset_info ai).2)) in Hr1 as [_ Hr1];
    [|intros errs [a i]; intros; by eapply collect_round].
  split; [eapply loop_keeps, Hr1; [apply _|intros; apply SetSigningInfo_keeps]|].
  pose proof (rewrite_all _ _ _ reset_info SetSigningInfo_updates (fun _ => eq_refl) _ [] _ _ _ Hinfos Hr1) as E.
  eexists. split; [exact E|]. apply Forall_fmap, Forall_true. by intros [a i].
Qed.

(** C17: What a zero-height export writes.  When the preparation succeeds, every validator of
    the exported state is jailed unless no allow list was given or its address is on it, and
    otherwise as jailed as it was before; every entry of a redelegation and of an unbonding
    delegation is created at height zero and is otherwise what it was; and every signing info
    starts at height zero. *)
Theorem zero_height_state height jail s u s' :
  prepForZeroHeightGenesis height jail s = Ok u s' ->
  jailed_as_asked jail s s' /\
  (exists reds, IterateRedelegations s = inr reds /\ IterateRedelegations s' = inr (reset_redelegation <$> reds)) /\
  (exists ubds, IterateUnbondingDelegations s = inr ubds /\ IterateUnbondingDelegations s' = inr (reset_unbonding <$> ubds)) /\
  (exists infos, IterateValidatorSigningInfos s' = inr infos /\ Forall (fun ai => si_StartHeight ai.2 = 0%Z) infos).
Proof.
  intros Hr. apply mbind_ok in Hr as (? & s0 & Hr0 & Hr). destruct (check_addresses _ _ _ Hr0) as [[[= -> ->] _]|[e He]]; [|done].
  apply mbind_ok in Hr as (? & s1 & Hs1%AssertInvariants_staking & Hr).
  apply mbind_ok in Hr as ([dels errs] & s2 & [_ Hpay]%withdraw_all_ok & Hr). apply mbind_ok in Hr as (? & s0 & [-> ->]%none_or_ok & Hr).
  specialize (Hpay eq_refl). apply pay_out_staking in Hpay as Hs2.
  apply mbind_ok in Hr as (? & s3 & Hs3%rebuild_staking & Hr).
  assert (same_staking s s3) as ([Ha Hv] & Hre & Hub) by (etrans; [done|]; by etrans).
  apply mbind_ok in Hr as (? & s4 & (Hj & (reds & Er & Er') & (ubds & Eu & Eu'))%reset_staking_ok & Hr).
  apply reset_slashing_ok in Hr as (([Ha5 Hv5] & Hre5 & Hub5) & Hinfos).
  unfold same_redelegations, same_unbondings in *. split_and!; [| | |done].
  - intros a v' Hin Hg. rewrite Ha5 in Hin. rewrite Hv5 in Hg. destruct (Hj a v' Hin Hg) as (v & Hg' & E). exists v. by rewrite <- Hv.
  - exists reds. by rewrite <- Hre, Hre5.
  - exists ubds. by rewrite <- Hub, Hub5.
Qed.
End ZeroHeightState.
