(* ===== verification/AppExport.v ===== *)
(** app/export.go, app/export_bank_metadata.go, app/export_diagnostics.go and the export
    command of cmd/uptickd/root.go: the genesis export, the repair of the bank metadata in
    it, and the report of what could not be represented.

    The genesis export: the bank metadata it writes validates, and the report beside it
    always describes the export that was made last. *)
From S2P Require Import Prelude GoStrings Sdk CollectionTypes CollectionKeeper.
From S2P Require Import CollectionGenesis Erc721Types Erc721Store Erc721Genesis Cw721Types.
From S2P Require Import Cw721Store Cw721Genesis Erc20Voucher.
Open Scope go_scope.
Open Scope list_scope.

(** ** Types *)

Record ExportDiagnostic := MkDiagnostic {
  dg_Module : string; dg_Kind : string; dg_Key : string; dg_Detail : string }.

Record ExportDiagnosticsReport := MkReport {
  rp_ExportID : string; rp_Status : string; rp_FinishedAt : string; rp_Height : Z; rp_Total : nat;
  rp_Issues : list ExportDiagnostic }.

Record ExportDiagnosticsNotice := MkNotice {
  nt_Event : string; nt_ExportID : string; nt_Height : Z; nt_Status : string; nt_Issues : nat; nt_Path : string;
  nt_Error : string; StaleReportRemovalError : string }.

Record ExportDiagnosticsStatus := MkStatus {
  st_ExportID : string; st_Height : Z; st_Issues : nat; Degraded : bool; ReportPath : string;
  ReportWritten : bool; WriteErr : option error; StaleCleanupErr : option error }.

(** banktypes.GenesisState: the metadata, and the rest *)
Class BankGenesisLib := { bank_genesis_rest : Type }.
Section BankGenesis.
Context `{BankGenesisLib}.
Record BankGenesis := MkBankGenesis { DenomMetadata : list Metadata; bg_rest : bank_genesis_rest }.
End BankGenesis.

(** The encodings, the clock and the path functions the export calls. *)
Class ExportLib `{BankGenesisLib} := {
  UnmarshalJSON_bank : string -> error + BankGenesis;
  MarshalJSON_bank : BankGenesis -> error + string;
  MarshalIndent_genState : gmap string string -> error + string;
  MarshalIndent_report : ExportDiagnosticsReport -> error + string;
  Marshal_notice : ExportDiagnosticsNotice -> error + string;
  filepath_Join : string -> string -> string;
}.

(** What the operating system answers to the calls of one export: [None] is success.  A
    write that fails may have written some of its bytes; the removal of the temporary file
    may fail too, which the code ignores.  [flt_remove] is an answer to the removal of the
    report other than that it does not exist. *)
Record Faults := MkFaults {
  flt_create : option error; flt_write : option (error * nat); flt_sync : option error; flt_close : option error;
  flt_rename : option error; flt_remove : option error; flt_remove_tmp : bool;
  flt_tmp : string                              (** the name CreateTemp picks *) }.

Module AppExport.
Section AppExport.
Context `{EthLib} `{SdkLib} `{NftKeeper} `{!EvmKeeper} `{!WasmState} `{CollectionCodec} `{FmtLib}.
Context `{Erc721Codec} `{!Cw721Store.Cw721Codec} `{BankKeeper} `{ExportLib}.

Definition ExportDiagnosticsFileName : string := "export-issues.json".
Definition ExportDiagnosticsStatusDegraded : string := "degraded".
Definition ExportDiagnosticsDegradedExitCode : Z := 3.
Definition exportDiagnosticsEventNotPersisted : string := "export_diagnostics_not_persisted".
Definition exportDiagnosticsEventStaleNotRemoved : string := "export_diagnostics_stale_not_removed".

(** ** export_bank_metadata.go *)

Definition exportIssueDenomMetadataNormalized : string := "denom_metadata_normalized".
Definition exportIssueDenomMetadataDropped : string := "denom_metadata_dropped".
Definition bank_ModuleName : string := "bank".

Definition firstUnitDenom (md : Metadata) : string :=
  match md_DenomUnits md with Some u :: _ => du_Denom u | _ => "" end.

Definition repaired_metadata (md : Metadata) : Metadata :=
  MkMetadata (md_Description md) [Some (MkDenomUnit (md_Base md) 0 [])] (md_Base md) (md_Base md) (md_Name md)
    (md_Symbol md) (md_URI md) (md_URIHash md).

(** One entry: what is kept of it, and what is reported *)
Definition normalize_entry (md : Metadata) : option Metadata * option ExportDiagnostic :=
  if HasNilDenomUnit (md_DenomUnits md) then
    (None, Some (MkDiagnostic bank_ModuleName exportIssueDenomMetadataDropped (md_Base md)
       "dropped denom metadata carrying a nil denom unit: x/bank's own Validate panics on it, so it can be neither exported nor repaired"))
  else match Metadata_Validate md with
  | None => (Some md, None)
  | Some _ =>
      let repaired := repaired_metadata md in
      match Metadata_Validate repaired with
      | Some err =>
          (None, Some (MkDiagnostic bank_ModuleName exportIssueDenomMetadataDropped (md_Base md)
             ("dropped denom metadata that bank itself rejects and that the export could not repair: " +:+
              err_Error err +:+ " (original: first unit=" +:+ fmt_q (firstUnitDenom md) +:+ " display=" +:+
              fmt_q (md_Display md) +:+ ")")))
      | None =>
          (Some repaired, Some (MkDiagnostic bank_ModuleName exportIssueDenomMetadataNormalized (md_Base md)
             ("rewrote denom metadata that bank itself rejects (first unit=" +:+ fmt_q (firstUnitDenom md) +:+
              " display=" +:+ fmt_q (md_Display md) +:+ "): the exported genesis now has first unit=" +:+
              fmt_q (md_Base repaired) +:+ " display=" +:+ fmt_q (md_Display repaired) +:+
              "; name and description keep the IBC path")))
      end
  end.

(** The loop: the entries, the reports, and whether anything changed *)
Definition normalize_step (acc : list Metadata * list ExportDiagnostic * bool) (md : Metadata)
  : list Metadata * list ExportDiagnostic * bool :=
  let '(out, diags, changed) := acc in
  match normalize_entry md with
  | (kept, None) => (out ++ match kept with Some m => [m] | None => [] end, diags, changed)
  | (kept, Some d) => (out ++ match kept with Some m => [m] | None => [] end, diags ++ [d], true)
  end.

(** normalizeExportedBankDenomMetadata; [enabled] is its test seam.  The genesis state is
    updated in place. *)
Definition normalizeExportedBankDenomMetadata (enabled : bool) (genState : gmap string string)
  : error + (list ExportDiagnostic * gmap string string) :=
  if negb enabled then inr ([], genState)
  else
  let raw := kv_get genState bank_ModuleName in
  if raw =?s "" then inr ([], genState)
  else match UnmarshalJSON_bank raw with
  | inl err => inl (ExtErr ("decoding bank genesis for denom metadata normalisation: " +:+ err_Error err))
  | inr bankGen =>
      let '(out, diags, changed) := fold_left normalize_step (DenomMetadata bankGen) ([], [], false) in
      if negb changed then inr ([], genState)
      else match MarshalJSON_bank (MkBankGenesis out (bg_rest bankGen)) with
      | inl err => inl (ExtErr ("re-encoding bank genesis after denom metadata normalisation: " +:+ err_Error err))
      | inr reencoded => inr (diags, <[bank_ModuleName := reencoded]> genState)
      end
  end.

(** ** export_diagnostics.go *)

Definition LostDiagnostics (s : ExportDiagnosticsStatus) : bool := Degraded s && negb (ReportWritten s).
Definition NeedsAttention (s : ExportDiagnosticsStatus) : bool :=
  Degraded s || match StaleCleanupErr s with Some _ => true | None => false end.
Definition CLIExitCode (s : ExportDiagnosticsStatus) : Z :=
  if LostDiagnostics s then ExportDiagnosticsDegradedExitCode else 0.

Definition err_text (e : option error) : string := match e with Some e => err_Error e | None => "<nil>" end.
Definition CLIMessage (s : ExportDiagnosticsStatus) : string :=
  if LostDiagnostics s then
    "uptickd export: DEGRADED: the genesis was written, but its diagnostics report could not be persisted (export_id="
    +:+ st_ExportID s +:+ ", affected_records=" +:+ nat_string (st_Issues s) +:+ ", path=" +:+ ReportPath s +:+
    ", err=" +:+ err_text (WriteErr s) +:+ "); treat this export as NOT fully accounted for"
  else if Degraded s then
    "uptickd export: DEGRADED: the genesis was written with " +:+ nat_string (st_Issues s) +:+
    " record(s) that could not be represented; see " +:+ ReportPath s +:+ " (export_id=" +:+ st_ExportID s +:+ ")"
  else match StaleCleanupErr s with
  | Some e =>
      "uptickd export: WARNING: the genesis is clean, but the diagnostics report of an earlier export could not be removed from "
      +:+ ReportPath s +:+ " (err=" +:+ err_Error e +:+ "); do not trust that file"
  | None => ""
  end.

(** The world of the process: the files, each state they have been in during the run (a
    crash shows one of them), the status the command reads, and standard error. *)
Record World := MkWorld {
  w_files : gmap string string; w_history : list (gmap string string);
  w_status : ExportDiagnosticsStatus; w_stderr : list string }.
Definition set_files (w : World) (f : gmap string string) : World :=
  MkWorld f (w_history w ++ [f]) (w_status w) (w_stderr w).
Definition set_status (w : World) (s : ExportDiagnosticsStatus) : World :=
  MkWorld (w_files w) (w_history w) s (w_stderr w).
Definition print_stderr (w : World) (line : string) : World :=
  MkWorld (w_files w) (w_history w) (w_status w) (w_stderr w ++ [line]).

(** collectExportDiagnostics *)
Definition collectExportDiagnostics (c : Ctx) : list ExportDiagnostic :=
  ((fun issue => MkDiagnostic "collection" (CollectionGenesis.kind_string (CollectionGenesis.Kind issue))
                   (CollectionGenesis.ClassID issue) (CollectionGenesis.Detail issue))
     <$> CollectionGenesis.ExportIssuesWithReport c) ++
  ((fun issue => MkDiagnostic "erc721" (Erc721Genesis.kind_string (Erc721Genesis.Kind issue))
                   (Erc721Genesis.Key issue) (Erc721Genesis.Detail issue))
     <$> Erc721Genesis.ExportIssues (c_erc c)) ++
  ((fun issue => MkDiagnostic "cw721" (Cw721Genesis.kind_string (Cw721Genesis.Kind issue))
                   (Cw721Genesis.Key issue) (Cw721Genesis.Detail issue))
     <$> Cw721Genesis.ExportIssues (c_cw c)).

(** emitExportDiagnosticsNotice *)
Definition emitExportDiagnosticsNotice (w : World) (notice : ExportDiagnosticsNotice) : World :=
  match Marshal_notice notice with
  | inl err => print_stderr w ("warning: could not encode the export diagnostics notice: " +:+ err_Error err)
  | inr bz => print_stderr w bz
  end.

Section Home.
Context (homeDir : string) (faults : Faults).

Definition exportDiagnosticsReportPath : string :=
  if homeDir =?s "" then "" else filepath_Join homeDir ExportDiagnosticsFileName.

(** The deferred clean-up of writeFileAtomic *)
Definition discard_tmp (w : World) : World :=
  if flt_remove_tmp faults then set_files w (delete (flt_tmp faults) (w_files w)) else w.

(** writeFileAtomic *)
Definition writeFileAtomic (path data : string) (w : World) : option error * World :=
  match flt_create faults with
  | Some err => (Some err, w)
  | None =>
      let w := set_files w (<[flt_tmp faults := ""]> (w_files w)) in
      match flt_write faults with
      | Some (err, n) =>
          (Some err, discard_tmp (set_files w (<[flt_tmp faults := str_take n data]> (w_files w))))
      | None =>
          let w := set_files w (<[flt_tmp faults := data]> (w_files w)) in
          match flt_sync faults with
          | Some err => (Some err, discard_tmp w)
          | None =>
              match flt_close faults with
              | Some err => (Some err, discard_tmp w)
              | None =>
                  match flt_rename faults with
                  | Some err => (Some err, discard_tmp w)
                  | None => (None, set_files w (<[path := data]> (delete (flt_tmp faults) (w_files w))))
                  end
              end
          end
      end
  end.

(** removeStaleExportDiagnosticsReport *)
Definition removeStaleExportDiagnosticsReport (w : World) : option error * World :=
  let path := exportDiagnosticsReportPath in
  if path =?s "" then (None, w)
  else match flt_remove faults with
  | Some err => (Some (ExtErr ("remove stale " +:+ path +:+ ": " +:+ err_Error err)), w)
  | None =>
      match w_files w !! path with
      | None => (None, w)                          (** os.ErrNotExist *)
      | Some _ => (None, set_files w (delete path (w_files w)))
      end
  end.

Definition newline : string := String "010" "".

(** The report of an export *)
Definition report_of (exportID finishedAt : string) (height : Z) (diags : list ExportDiagnostic)
  : ExportDiagnosticsReport :=
  MkReport exportID ExportDiagnosticsStatusDegraded finishedAt height (List.length diags) diags.

(** writeExportDiagnosticsReportFor *)
Definition writeExportDiagnosticsReportFor (exportID finishedAt : string) (height : Z) (diags : list ExportDiagnostic)
  (w : World) : (error + string) * World :=
  if homeDir =?s "" then (inl (ExtErr "node home directory is not configured"), w)
  else match MarshalIndent_report (report_of exportID finishedAt height diags) with
  | inl err => (inl (ExtErr ("marshal export diagnostics: " +:+ err_Error err)), w)
  | inr bz =>
      let path := filepath_Join homeDir ExportDiagnosticsFileName in
      match writeFileAtomic path (bz +:+ newline) w with
      | (Some err, w) => (inl (ExtErr ("write " +:+ path +:+ ": " +:+ err_Error err)), w)
      | (None, w) => (inr path, w)
      end
  end.

(** finalizeExportDiagnostics; [exportID] is what newExportID returns *)
Definition finalizeExportDiagnostics (exportID finishedAt : string) (height : Z) (diags : list ExportDiagnostic)
  (w : World) : World :=
  let issues := List.length diags in
  let degraded := negb (issues =? 0) in
  let path := exportDiagnosticsReportPath in
  if negb degraded then
    match removeStaleExportDiagnosticsReport w with
    | (None, w) => set_status w (MkStatus exportID height issues degraded path false None None)
    | (Some err, w) =>
        let w := emitExportDiagnosticsNotice w (MkNotice exportDiagnosticsEventStaleNotRemoved exportID height "clean"
                   0 path (err_Error err) "") in
        set_status w (MkStatus exportID height issues degraded path false None (Some err))
    end
  else
    match writeExportDiagnosticsReportFor exportID finishedAt height diags w with
    | (inr path, w) => set_status w (MkStatus exportID height issues degraded path true None None)
    | (inl writeErr, w) =>
        let '(staleErr, w) := removeStaleExportDiagnosticsReport w in
        let w := emitExportDiagnosticsNotice w (MkNotice exportDiagnosticsEventNotPersisted exportID height
                   ExportDiagnosticsStatusDegraded issues path (err_Error writeErr)
                   (match staleErr with Some e => err_Error e | None => "" end)) in
        set_status w (MkStatus exportID height issues degraded path false (Some writeErr) staleErr)
    end.

(** ** export.go *)

Record ExportedApp := MkExportedApp { AppState : string; Validators : string; ea_Height : Z }.

(** The module manager, the staking keeper and the preparation of a zero-height genesis
    run on the context, which an export throws away. *)
Record ExportEnv := MkExportEnv {
  ex_LastBlockHeight : Z;
  ex_prepForZeroHeight : list string -> GoM unit;
  ex_ExportGenesisForModules : list string -> GoM (gmap string string);
  ex_WriteValidators : Ctx -> error + string;
  ex_exportID : string; ex_finishedAt : string }.

Definition ExportAppStateAndValidators (enabled : bool) (env : ExportEnv) (forZeroHeight : bool)
  (jailAllowedAddrs modulesToExport : list string) (c : Ctx) (w : World) : option ((error + ExportedApp) * World) :=
  let height := if forZeroHeight then 0%Z else (ex_LastBlockHeight env + 1)%Z in
  match (if forZeroHeight then ex_prepForZeroHeight env jailAllowedAddrs c else Ok tt c) with
  | Panic => None
  | Err e _ => Some (inl e, w)
  | Ok _ c =>
      match ex_ExportGenesisForModules env modulesToExport c with
      | Panic => None
      | Err e _ => Some (inl e, w)
      | Ok genState c =>
          match normalizeExportedBankDenomMetadata enabled genState with
          | inl e => Some (inl e, w)
          | inr (bankDiags, genState) =>
              match MarshalIndent_genState genState with
              | inl e => Some (inl e, w)
              | inr appState =>
                  match ex_WriteValidators env c with
                  | inl e => Some (inl e, w)
                  | inr validators =>
                      Some (inr (MkExportedApp appState validators height),
                            finalizeExportDiagnostics (ex_exportID env) (ex_finishedAt env) height
                              (collectExportDiagnostics c ++ bankDiags) w)
                  end
              end
          end
      end
  end.

(** ** cmd/uptickd/root.go *)

(** finishExport: the exit code of the process, and what is printed *)
Definition finishExport (status : ExportDiagnosticsStatus) (w : World) : Z * World :=
  let w := if CLIMessage status <>?s "" then print_stderr w (CLIMessage status) else w in
  (CLIExitCode status, w).

(** The RunE of the SDK's export command: it has the application export itself, and then
    builds the genesis document and writes it, [finish], which may fail too. *)
Definition sdk_export_RunE (finish : ExportedApp -> option error) (r : (error + ExportedApp) * World)
  : option error * World :=
  match r with
  | (inl err, w) => (Some err, w)
  | (inr exported, w) => (finish exported, w)
  end.

(** composeExportRunE, on what [inner] returned and left behind; an error is exit code 1 *)
Definition composeExportRunE (r : option error * World) : Z * World :=
  match r with
  | (Some _, w) => (1%Z, w)
  | (None, w) => finishExport (w_status w) w
  end.
End Home.
End AppExport.
End AppExport.

(** * Theorems *)
Import AppExport.
Open Scope go_scope.
Open Scope list_scope.

Section Bank.
Context `{FmtLib} `{BankKeeper} `{ExportLib}.

(** An entry that x/bank accepts *)
Definition bank_valid (md : Metadata) : Prop :=
  HasNilDenomUnit (md_DenomUnits md) = false /\ Metadata_Validate md = None.

(** What becomes of an entry *)
Definition entry_exported (md : Metadata) : Prop :=
  match normalize_entry md with
  | (Some m, None) => m = md /\ bank_valid md
  | (Some m, Some d) =>
      ~ bank_valid md /\ m = repaired_metadata md /\ bank_valid m /\
      dg_Key d = md_Base md /\ dg_Kind d = exportIssueDenomMetadataNormalized /\
      (md_Base m, md_Description m, md_Name m, md_Symbol m, md_URI m, md_URIHash m) =
      (md_Base md, md_Description md, md_Name md, md_Symbol md, md_URI md, md_URIHash md)
  | (None, Some d) =>
      (HasNilDenomUnit (md_DenomUnits md) = true \/ ~ bank_valid md /\ ~ bank_valid (repaired_metadata md)) /\
      dg_Key d = md_Base md /\ dg_Kind d = exportIssueDenomMetadataDropped
  | (None, None) => False
  end.

Lemma entry_exported_ok md : entry_exported md.
Proof.
  unfold entry_exported, normalize_entry, bank_valid. destruct (HasNilDenomUnit _) eqn:En; [by split; [left|]|].
  destruct (Metadata_Validate md) eqn:Ev; [|done].
  destruct (Metadata_Validate (repaired_metadata md)) eqn:Er; cbn.
  - split; [right; by split; intros []|done].
  - split; [by intros []|]. done.
Qed.

Lemma dropped_invalid md d : normalize_entry md = (None, Some d) -> ~ bank_valid md.
Proof.
  intros E [Hn Hv]. unfold normalize_entry in E. rewrite Hn, Hv in E. discriminate.
Qed.

Definition exported_entries (es : list Metadata) : list Metadata := omap (fun md => fst (normalize_entry md)) es.
Definition reported_entries (es : list Metadata) : list ExportDiagnostic := omap (fun md => snd (normalize_entry md)) es.

Lemma normalize_steps es : forall out diags changed,
  fold_left normalize_step es (out, diags, changed) =
  (out ++ exported_entries es, diags ++ reported_entries es,
   changed || match reported_entries es with [] => false | _ => true end).
Proof.
  induction es as [|md es IH]; intros out diags changed; cbn; [by rewrite !app_nil_r, orb_false_r|].
  destruct (normalize_entry md) as [kept [d|]]; rewrite IH; destruct kept; cbn;
    rewrite <- ?app_assoc, ?app_nil_r, ?orb_true_r; done.
Qed.

Lemma exported_valid es : Forall bank_valid (exported_entries es).
Proof.
  induction es as [|md es IH]; [constructor|]. unfold exported_entries. cbn.
  pose proof (entry_exported_ok md) as He. unfold entry_exported in He.
  destruct (normalize_entry md) as [[m|] [d|]]; cbn; [constructor; [naive_solver|done]|constructor; [naive_solver|done]|done..].
Qed.

Lemma reported_nil es : reported_entries es = [] <-> Forall bank_valid es.
Proof.
  induction es as [|md es IH]; [by split|]. unfold reported_entries in *. cbn.
  pose proof (entry_exported_ok md) as He. unfold entry_exported in He. rewrite Forall_cons, <- IH.
  destruct (normalize_entry md) as [[m|] [d|]] eqn:E; cbn; [naive_solver..| |naive_solver].
  apply dropped_invalid in E. naive_solver.
Qed.

Lemma exported_all_valid es : Forall bank_valid es -> exported_entries es = es.
Proof.
  induction 1 as [|md es [Hn Hv] _ IH]; [done|].
  change (exported_entries (md :: es)) with
    (match fst (normalize_entry md) with Some y => y :: exported_entries es | None => exported_entries es end).
  unfold normalize_entry. rewrite Hn, Hv, IH. done.
Qed.

(** C15: the bank section of an exported genesis, when there is one that decodes, only has
    metadata that x/bank accepts, and nothing is changed silently.  When every entry is
    accepted the section is left as it was, and nothing is reported.  Otherwise only the
    metadata of the section changes: the accepted entries are kept as they are and in
    order; an entry with a nil denom unit, on which bank's Validate panics, is dropped;
    any other rejected entry is replaced by its repair, which keeps its base, name,
    description, symbol and URIs, if bank accepts the repair, and is dropped only if bank
    rejects that too; and every repaired or dropped entry is reported, once, under its
    base. *)
Theorem exported_bank_metadata_valid genState diags genState' bankGen :
  UnmarshalJSON_bank (kv_get genState bank_ModuleName) = inr bankGen -> kv_get genState bank_ModuleName <> "" ->
  normalizeExportedBankDenomMetadata true genState = inr (diags, genState') ->
  let es := DenomMetadata bankGen in
  diags = reported_entries es /\ Forall entry_exported es /\ Forall bank_valid (exported_entries es) /\
  (Forall bank_valid es -> diags = [] /\ genState' = genState) /\
  (~ Forall bank_valid es -> exists bz, genState' = <[bank_ModuleName := bz]> genState /\
     MarshalJSON_bank (MkBankGenesis (exported_entries es) (bg_rest bankGen)) = inr bz).
Proof.
  intros Hu Hne Hr es. unfold normalizeExportedBankDenomMetadata in Hr. cbn [negb] in Hr.
  apply str_eqb_false in Hne. rewrite Hne, Hu, normalize_steps in Hr. cbn in Hr. fold es in Hr.
  assert (Forall entry_exported es) as Hall by (apply Forall_forall; intros; apply entry_exported_ok).
  pose proof (reported_nil es) as Hn. pose proof (exported_valid es) as Hv.
  destruct (reported_entries es) as [|d ds] eqn:E; cbn in Hr.
  - injection Hr as <- <-. split; [done|]. split; [done|]. split; [done|]. split; [done|]. naive_solver.
  - destruct (MarshalJSON_bank _) as [|bz] eqn:Em; [done|]. injection Hr as <- <-.
    split; [done|]. split; [done|]. split; [done|]. split; [naive_solver|eauto].
Qed.
End Bank.

(** ** The report *)
Section Sidecar.
Context `{EthLib} `{SdkLib} `{NftKeeper} `{!EvmKeeper} `{!WasmState} `{CollectionCodec} `{FmtLib}.
Context `{Erc721Codec} `{!Cw721Store.Cw721Codec} `{BankKeeper} `{ExportLib}.
Context (homeDir : string) (faults : Faults).
Notation path := (exportDiagnosticsReportPath homeDir).
Notation tmp := (flt_tmp faults).

(** From [w] to [w'] the file at [path] only ever has one of the contents [ok], also in
    between, and no other file is touched but for the temporary one. *)
Record wrote (ok : option string -> Prop) (w w' : World) : Prop := {
  wr_history : exists l, w_history w' = w_history w ++ l /\ Forall (fun f => ok (f !! path)) l;
  wr_other p : p <> path -> p <> tmp -> w_files w' !! p = w_files w !! p;
}.

Lemma wrote_refl ok w w' : w_files w' = w_files w -> w_history w' = w_history w -> wrote ok w w'.
Proof. intros Hf Hh. split; [exists []; by rewrite Hh, app_nil_r|by rewrite Hf]. Qed.

Lemma wrote_trans ok w1 w2 w3 : wrote ok w1 w2 -> wrote ok w2 w3 -> wrote ok w1 w3.
Proof.
  intros [(l1 & E1 & F1) O1] [(l2 & E2 & F2) O2]. split.
  - exists (l1 ++ l2). rewrite E2, E1, <- app_assoc. split; [done|]. by apply Forall_app.
  - intros p Hp Ht. rewrite O2, O1 by done. done.
Qed.

Lemma wrote_weaken (ok ok' : option string -> Prop) w w' :
  (forall x, ok x -> ok' x) -> wrote ok w w' -> wrote ok' w w'.
Proof. intros Hok [(l & E & F) O]. split; [|done]. exists l. split; [done|].
  eapply Forall_impl; [exact F|]. cbn. eauto.
Qed.

Lemma wrote_step (ok : option string -> Prop) w f :
  ok (f !! path) -> (forall p, p <> path -> p <> tmp -> f !! p = w_files w !! p) -> wrote ok w (set_files w f).
Proof. intros Hok Ho. split; [|done]. exists [f]. split; [done|]. by constructor. Qed.

(** writeFileAtomic publishes the whole data or nothing. *)
Lemma writeFileAtomic_ok data w err w' :
  writeFileAtomic faults path data w = (err, w') -> tmp <> path -> w_files w !! tmp = None ->
  wrote (fun x => x = w_files w !! path \/ x = Some data) w w' /\ w_status w' = w_status w /\
  w_stderr w' = w_stderr w /\
  match err with
  | None => w_files w' = <[path := data]> (w_files w)
  | Some _ => w_files w' !! path = w_files w !! path /\ (flt_remove_tmp faults = true -> w_files w' = w_files w)
  end.
Proof.
  intros Hr Htmp Hfresh. unfold writeFileAtomic in Hr.
  assert (forall d, discard_tmp faults (set_files (set_files w (<[tmp := ""]> (w_files w)))
                      (<[tmp := d]> (<[tmp := ""]> (w_files w)))) = w' ->
    wrote (fun x => x = w_files w !! path \/ x = Some data) w w' /\ w_status w' = w_status w /\
    w_stderr w' = w_stderr w /\ w_files w' !! path = w_files w !! path /\
    (flt_remove_tmp faults = true -> w_files w' = w_files w)) as Hfail.
  { intros d <-. unfold discard_tmp. destruct (flt_remove_tmp faults); cbn.
    - assert (delete tmp (<[tmp := d]> (<[tmp := ""]> (w_files w))) = w_files w) as E
        by (rewrite insert_insert_eq, delete_insert_eq, delete_id; done).
      rewrite E. split; [|done]. split; cbn; [|done].
      exists [<[tmp := ""]> (w_files w); <[tmp := d]> (<[tmp := ""]> (w_files w)); w_files w].
      rewrite <- !app_assoc. split; [done|]. rewrite !Forall_cons, Forall_nil. split_and!; try done; left; by rewrite ?lookup_insert_ne by done.
    - split; [|split; [done|split; [done|split; [by rewrite !lookup_insert_ne by done|done]]]]. split; cbn.
      + exists [<[tmp := ""]> (w_files w); <[tmp := d]> (<[tmp := ""]> (w_files w))]. rewrite <- app_assoc.
        split; [done|]. rewrite !Forall_cons, Forall_nil. split_and!; try done; left; by rewrite ?lookup_insert_ne by done.
      + intros p Hp Ht. by rewrite !lookup_insert_ne. }
  destruct (flt_create faults); [injection Hr as <- <-; split; [by apply wrote_refl|done]|].
  destruct (flt_write faults) as [[e n]|]; [injection Hr as <- Hw; by apply Hfail in Hw|].
  destruct (flt_sync faults); [injection Hr as <- Hw; by apply Hfail in Hw|].
  destruct (flt_close faults); [injection Hr as <- Hw; by apply Hfail in Hw|].
  destruct (flt_rename faults); [injection Hr as <- Hw; by apply Hfail in Hw|].
  injection Hr as <- <-. cbn.
  assert (delete tmp (<[tmp := data]> (<[tmp := ""]> (w_files w))) = w_files w) as E
    by (rewrite insert_insert_eq, delete_insert_eq, delete_id; done).
  rewrite E. split; [|done]. split; cbn.
  - eexists [_; _; _]. rewrite <- !app_assoc. split; [done|].
    rewrite !Forall_cons, Forall_nil.
    split_and!; [left; by rewrite ?lookup_insert_ne by done..|right; by rewrite lookup_insert_eq|done].
  - intros p Hp _. by rewrite lookup_insert_ne.
Qed.

Lemma removeStale_ok w err w' :
  removeStaleExportDiagnosticsReport homeDir faults w = (err, w') ->
  wrote (fun x => x = None) w w' /\ w_status w' = w_status w /\ w_stderr w' = w_stderr w /\
  match err with
  | None => path <> "" -> w_files w' !! path = None
  | Some _ => w' = w
  end.
Proof.
  unfold removeStaleExportDiagnosticsReport. destruct (path =?s "") eqn:Ep.
  { apply str_eqb_true in Ep. intros [= <- <-]. split; [by apply wrote_refl|]. by rewrite Ep. }
  destruct (flt_remove faults); [intros [= <- <-]; by split; [apply wrote_refl|]|].
  destruct (w_files w !! path) eqn:E; intros [= <- <-].
  2:{ split; [by apply wrote_refl|done]. }
  - split; [|split; [done|split; [done|intros _; apply lookup_delete_eq]]].
    apply wrote_step; [apply lookup_delete_eq|]. intros p Hp _. by rewrite lookup_delete_ne.
Qed.

(** The whole report of an export, and nothing else *)
Definition complete (exportID finishedAt : string) (height : Z) (diags : list ExportDiagnostic)
  (x : option string) : Prop :=
  exists bz, MarshalIndent_report (report_of exportID finishedAt height diags) = inr bz /\
             x = Some (bz +:+ newline).

(** What standard error gets of a notice *)
Definition notice_line (n : ExportDiagnosticsNotice) : string :=
  match Marshal_notice n with
  | inl err => "warning: could not encode the export diagnostics notice: " +:+ err_Error err
  | inr bz => bz
  end.

(** The notices of an export that ends with the status [st]: the report of a degraded one
    could not be written, or an old report could not be removed after a clean one *)
Definition notices (st : ExportDiagnosticsStatus) : list string :=
  match WriteErr st, StaleCleanupErr st with
  | Some we, stale =>
      [notice_line (MkNotice exportDiagnosticsEventNotPersisted (st_ExportID st) (st_Height st)
         ExportDiagnosticsStatusDegraded (st_Issues st) (ReportPath st) (err_Error we)
         (match stale with Some e => err_Error e | None => "" end))]
  | None, Some e =>
      [notice_line (MkNotice exportDiagnosticsEventStaleNotRemoved (st_ExportID st) (st_Height st) "clean" 0
         (ReportPath st) (err_Error e) "")]
  | None, None => []
  end.

(** The report after an export that found [diags] *)
Record truthful (exportID finishedAt : string) (height : Z) (diags : list ExportDiagnostic) (w w' : World) : Prop := {
  tr_status : st_ExportID (w_status w') = exportID /\ st_Height (w_status w') = height /\
    st_Issues (w_status w') = List.length diags /\ Degraded (w_status w') = negb (List.length diags =? 0) /\
    ReportPath (w_status w') = path;
  tr_atomic : wrote (fun x => x = w_files w !! path \/ x = None \/ complete exportID finishedAt height diags x) w w';
  tr_written : ReportWritten (w_status w') = true -> diags <> [] /\
    complete exportID finishedAt height diags (w_files w' !! path);
  tr_unwritten : is_Some (WriteErr (w_status w')) <-> diags <> [] /\ ReportWritten (w_status w') = false;
  tr_absent : ReportWritten (w_status w') = false -> StaleCleanupErr (w_status w') = None -> w_files w' !! path = None;
  tr_stale : StaleCleanupErr (w_status w') <> None ->
    ReportWritten (w_status w') = false /\ w_files w' !! path = w_files w !! path;
  tr_told : w_stderr w' = w_stderr w ++ notices (w_status w');
}.

Lemma emit_eq w n : emitExportDiagnosticsNotice w n = print_stderr w (notice_line n).
Proof. unfold emitExportDiagnosticsNotice, notice_line. by destruct (Marshal_notice n). Qed.

Lemma finalize_clean exportID finishedAt height w :
  path <> "" ->
  truthful exportID finishedAt height [] w (finalizeExportDiagnostics homeDir faults exportID finishedAt height [] w).
Proof.
  intros Hpath. unfold finalizeExportDiagnostics. cbn [List.length Nat.eqb negb].
  destruct (removeStaleExportDiagnosticsReport homeDir faults w) as [err w1] eqn:E.
  apply removeStale_ok in E as (Hw & _ & Hse & He).
  apply (wrote_weaken _ (fun x => x = w_files w !! path \/ x = None \/ complete exportID finishedAt height [] x)) in Hw;
    [|by intros x ->; right; left].
  destruct err as [e|].
  - subst w1. rewrite emit_eq. split; [done| |done|by split; [intros []|intros []]|done|done|done].
    by apply wrote_refl.
  - split; cbn; [done| |done|by split; [intros []|intros []]|intros _ _; by apply He|done|by rewrite Hse, app_nil_r].
    eapply wrote_trans; [exact Hw|by apply wrote_refl].
Qed.

(** A degraded export whose report could not be written leaves none of this export; an
    old one is removed if that can be done. *)
Lemma finalize_lost exportID finishedAt height diags we w w1 :
  path <> "" -> diags <> [] ->
  wrote (fun x => x = w_files w !! path \/ x = None \/ complete exportID finishedAt height diags x) w w1 ->
  w_files w1 !! path = w_files w !! path -> w_stderr w1 = w_stderr w ->
  truthful exportID finishedAt height diags w
    (let '(staleErr, w) := removeStaleExportDiagnosticsReport homeDir faults w1 in
     let w := emitExportDiagnosticsNotice w (MkNotice exportDiagnosticsEventNotPersisted exportID height
                ExportDiagnosticsStatusDegraded (List.length diags) path (err_Error we)
                (match staleErr with Some e => err_Error e | None => "" end)) in
     set_status w (MkStatus exportID height (List.length diags) true path false (Some we) staleErr)).
Proof.
  intros Hpath Hd Hw1 Hp Hs. destruct (removeStaleExportDiagnosticsReport homeDir faults w1) as [st w2] eqn:E.
  apply removeStale_ok in E as (Hw & _ & Hse & He). cbn zeta. rewrite emit_eq.
  assert (negb (List.length diags =? 0) = true) as El by (by destruct diags).
  split; cbn; [by rewrite El| |done|by split; [|eexists]| | |by rewrite Hse, Hs].
  - eapply wrote_trans; [exact Hw1|]. eapply wrote_trans; [eapply wrote_weaken; [|exact Hw]|by apply wrote_refl].
    intros x ->. right. by left.
  - intros _ ->. by apply He.
  - intros Hst. split; [done|]. destruct st; [by subst w2|done].
Qed.

Lemma finalize_degraded exportID finishedAt height d ds w :
  homeDir <> "" -> path <> "" -> tmp <> path -> w_files w !! tmp = None ->
  truthful exportID finishedAt height (d :: ds) w
    (finalizeExportDiagnostics homeDir faults exportID finishedAt height (d :: ds) w).
Proof.
  intros Hhome Hpath Htmp Hfresh. unfold finalizeExportDiagnostics.
  set (ok := fun x => x = w_files w !! path \/ x = None \/ complete exportID finishedAt height (d :: ds) x).
  assert (homeDir =?s "" = false) as Eh by (by apply str_eqb_false).
  assert (path = filepath_Join homeDir ExportDiagnosticsFileName) as Epath
    by (unfold exportDiagnosticsReportPath; by rewrite Eh).
  change (List.length (d :: ds) =? 0) with false. cbn [negb].
  unfold writeExportDiagnosticsReportFor. rewrite Eh, <- Epath.
  destruct (MarshalIndent_report (report_of exportID finishedAt height (d :: ds))) as [e|bz] eqn:Em.
  { by apply finalize_lost; [|done|apply wrote_refl|..]. }
  destruct (writeFileAtomic faults path (bz +:+ newline) w) as [[e|] w1] eqn:Ew;
    (apply writeFileAtomic_ok in Ew as (Hw & _ & Hse & Hf); [|done|done]).
  - apply finalize_lost; [done|done| |apply Hf|done]. eapply wrote_weaken; [|exact Hw].
    intros x [->| ->]; [by left|]. right. right. by exists bz.
  - split; cbn; [done| |intros _; split; [done|]|by split; [intros []|intros []]|done|done|by rewrite Hse, app_nil_r].
    + eapply wrote_trans; [eapply wrote_weaken; [|exact Hw]|by apply wrote_refl].
      intros x [->| ->]; [by left|]. right. right. by exists bz.
    + rewrite Hf. exists bz. by rewrite lookup_insert_eq.
Qed.

(** The closing line of the command *)
Definition closing (st : ExportDiagnosticsStatus) : list string :=
  if CLIMessage st <>?s "" then [CLIMessage st] else [].

(** C14: with a home directory and a temporary name that is free, the report beside an
    exported genesis tells the truth about that export, whatever the file system does.  An
    application export that fails publishes nothing.  One that succeeds publishes its
    verdict: it is degraded exactly when a module or the bank repair reported something; a
    report that counts as written is on disk, whole, and describes this export; otherwise
    no report is left, unless the removal of an old one failed, which leaves the file as it
    was; at no moment is there a truncated report, nor is any other file touched but the
    temporary one.  Standard error gets a notice, in JSON when that encodes, when the
    report could not be written (with the failure to remove an old one, if any) or an old
    one could not be removed after a clean export, and then, if the command goes on to its
    end, a closing line that says degraded and unaccounted for, degraded, or not to trust
    the old file.  The command exits with 1 when the export fails or the SDK's command
    fails after it, which does not take the published verdict back; else with 0 exactly
    when nothing was degraded or the report is on disk, and with 3 otherwise. *)
Theorem export_sidecar_truthful enabled env zeroHeight jail mods c w r w' finish :
  homeDir <> "" -> path <> "" -> tmp <> path -> w_files w !! tmp = None ->
  ExportAppStateAndValidators homeDir faults enabled env zeroHeight jail mods c w = Some (r, w') ->
  let run := composeExportRunE (sdk_export_RunE finish (r, w')) in
  match r with
  | inl _ => w' = w /\ run = (1%Z, w)
  | inr exported =>
      exists c1 c2 genState bankDiags genState',
        (if zeroHeight : bool then ex_prepForZeroHeight env jail c else Ok tt c) = Ok tt c1 /\
        ex_ExportGenesisForModules env mods c1 = Ok genState c2 /\
        normalizeExportedBankDenomMetadata enabled genState = inr (bankDiags, genState') /\
        MarshalIndent_genState genState' = inr (AppState exported) /\
        (let diags := collectExportDiagnostics c2 ++ bankDiags in
         truthful (ex_exportID env) (ex_finishedAt env) (ea_Height exported) diags w w' /\
         w_files (snd run) = w_files w' /\
         match finish exported with
         | Some _ => run = (1%Z, w')
         | None =>
             fst run = (if (List.length diags =? 0) || ReportWritten (w_status w') then 0%Z else 3%Z) /\
             w_stderr (snd run) = w_stderr w ++ notices (w_status w') ++ closing (w_status w')
         end)
  end.
Proof.
  intros Hhome Hpath Htmp Hfresh. unfold ExportAppStateAndValidators.
  destruct (if zeroHeight then ex_prepForZeroHeight env jail c else Ok tt c) as [[] c1|e c1|] eqn:E1;
    [|by intros [= <- <-]|done].
  destruct (ex_ExportGenesisForModules env mods c1) as [g c2|e c2|] eqn:E2; [|by intros [= <- <-]|done].
  destruct (normalizeExportedBankDenomMetadata enabled g) as [e|[bd g']] eqn:E3; [by intros [= <- <-]|].
  destruct (MarshalIndent_genState g') as [e|st] eqn:E4; [by intros [= <- <-]|].
  destruct (ex_WriteValidators env c2) as [e|vals] eqn:E5; [by intros [= <- <-]|].
  intros [= <- <-]. exists c1, c2, g, bd, g'. do 4 (split; [done|]). cbn [ea_Height].
  set (diags := collectExportDiagnostics c2 ++ bd). set (h := if zeroHeight then 0%Z else _).
  assert (truthful (ex_exportID env) (ex_finishedAt env) h diags w
    (finalizeExportDiagnostics homeDir faults (ex_exportID env) (ex_finishedAt env) h diags w)) as Ht.
  { destruct diags; [by apply finalize_clean|by apply finalize_degraded]. }
  set (w1 := finalizeExportDiagnostics _ _ _ _ _ _ _) in *.
  split; [exact Ht|]. destruct Ht as [(_ & _ & _ & Hd & _) _ _ _ _ _ Htold].
  unfold sdk_export_RunE, composeExportRunE. destruct (finish _); [done|]. unfold finishExport, closing.
  cbn. unfold CLIExitCode, LostDiagnostics. rewrite Hd. split; [by destruct (_ <>?s _)|]. split.
  - by destruct (List.length diags =? 0), (ReportWritten _).
  - destruct (_ <>?s _); cbn; rewrite Htold; [by rewrite <- app_assoc|by rewrite app_nil_r].
Qed.
End Sidecar.
