(* ===== verification/V040.v ===== *)
(** app/upgrades/v040/upgrades.go: the migration from the legacy x/evm, x/erc20 and x/params
    state to the cosmos/evm modules. *)
From S2P Require Import Prelude GoStrings GoJson ChainId Sdk CollectionTypes Erc721Types Erc721Store.
From S2P Require Import Cw721Types Cw721Store Erc20Voucher.
Import ChainId.
Open Scope go_scope.
Open Scope list_scope.

(** ** github.com/cosmos/evm *)

(** evmtypes.ChainConfig; block numbers and times are [*math.Int] *)
Record ChainConfig := MkChainConfig {
  cc_ChainId : Z; HomesteadBlock : option Z; DAOForkBlock : option Z; DAOForkSupport : bool;
  EIP150Block : option Z; EIP155Block : option Z; EIP158Block : option Z; ByzantiumBlock : option Z;
  ConstantinopleBlock : option Z; PetersburgBlock : option Z; IstanbulBlock : option Z;
  MuirGlacierBlock : option Z; BerlinBlock : option Z; LondonBlock : option Z; ArrowGlacierBlock : option Z;
  GrayGlacierBlock : option Z; MergeNetsplitBlock : option Z;
  ShanghaiTime : option Z; CancunTime : option Z; PragueTime : option Z;
  OsakaTime : option Z; VerkleTime : option Z }.

(** The libraries the migration calls, and the parts of their types it does not read. *)
Class V040Lib := {
  access_control : Type; DefaultAccessControl : access_control;
  DefaultHistoryServeWindow : Z;
  vm_params_rest : Type;                                (** the other fields of evmtypes.Params *)
  coin_info : Type;                                     (** evmtypes.EvmCoinInfo *)
  ChainConfig_Validate : ChainConfig -> option error;
  SetChainConfig : option ChainConfig -> ChainConfig -> option error;
  DefaultErc20Params : Erc20Params;
  erc20_params_error : Erc20Params -> option error;     (** Params.Validate of x/erc20 *)
  HexToHash : string -> string;
  nft_transfer_PortID : string;
  auth_StoreKey : string; params_StoreKey : string; erc20_StoreKey : string;
  vm_ModuleName : string; erc20_ModuleName : string; ParamStoreKeyEnableErc20 : string;
}.

Section VmParams.
Context `{V040Lib}.
(** evmtypes.Params; ExtendedDenomOptions is its ExtendedDenom *)
Record VmParams := MkVmParams {
  EvmDenom : string; ExtraEIPs : list Z; AccessControl : access_control; HistoryServeWindow : Z;
  ExtendedDenomOptions : option string; vm_rest : vm_params_rest }.
End VmParams.

(** erc20types.TokenPair *)
Inductive ContractOwner := OWNER_UNSPECIFIED | OWNER_MODULE | OWNER_EXTERNAL.
Record Erc20Pair := MkErc20Pair { ep_Erc20Address : string; ep_Denom : string; ep_ContractOwner : ContractOwner }.
#[global] Instance ContractOwner_dec : EqDecision ContractOwner.
Proof. solve_decision. Defined.
#[global] Instance Erc20Pair_dec : EqDecision Erc20Pair.
Proof. solve_decision. Defined.

(** ** Accounts *)

(** A legacy account is an EthAccount, or any other type the legacy codec registers; a
    public key is the legacy ethsecp256k1 key, its successor, or any other. *)
Class AccountLib := {
  retained : Type;                                      (** sdk.AccountI, not an EthAccount *)
  other_key : Type;
  Any : Type;
}.

Section Accounts.
Context `{AccountLib}.
Inductive PubKey := LegacyEthSecp256k1 (Key : string) | EvmSecp256k1 (Key : string) | OtherKey (k : other_key).
Record BaseAccount := MkBaseAccount { ba_Address : string; ba_PubKey : option Any; AccountNumber : Z; Sequence : Z }.
Record EthAccount := MkEthAccount { ea_BaseAccount : option BaseAccount; CodeHash : string }.
Inductive Account := AnEthAccount (a : EthAccount) | Retained (a : retained).
End Accounts.

(** The two codecs: the one of the migration reads, the one of the application writes. *)
Class AccountCodec `{AccountLib} := {
  UnmarshalInterface : string -> error + Account;
  UnpackAny : Any -> error + PubKey;
  NewAny_key : PubKey -> error + Any;
  MarshalInterface_base : BaseAccount -> error + string;
  MarshalInterface_retained : retained -> error + string;
  GetPubKey : retained -> option PubKey;
  SetPubKey : retained -> PubKey -> error + retained;
}.

Module V040.
Section V040.
Context `{EthLib} `{SdkLib} `{BankKeeper} `{FmtLib} `{V040Lib} `{AccountCodec}.
Context `{Erc721Codec} `{!Cw721Store.Cw721Codec}.

(** What the handler reads and writes.  [v_chain_config] is a variable of the process. *)
Record VState := MkVState {
  v_chain_config : option ChainConfig;
  v_vm_params : VmParams; v_coin_info : option coin_info;
  v_bank : bank_state;
  v_auth : gmap string string;          (** account store, by address *)
  v_codehash : gmap string string;      (** code hashes of x/vm, by address *)
  v_erc20_params : Erc20Params;
  v_erc20 : gmap string string;         (** store of x/erc20 *)
  v_erc721 : ErcStore; v_cw721 : CwStore;
  v_port : string;                      (** port of the ICS-721 module *)
  v_params : gmap string string;        (** store of x/params *)
}.
Definition VM (A : Type) : Type := M VState error A.

Definition set_v_chain_config (v : VState) x := MkVState x (v_vm_params v) (v_coin_info v) (v_bank v) (v_auth v)
  (v_codehash v) (v_erc20_params v) (v_erc20 v) (v_erc721 v) (v_cw721 v) (v_port v) (v_params v).
Definition set_v_vm (v : VState) x := MkVState (v_chain_config v) x (v_coin_info v) (v_bank v) (v_auth v)
  (v_codehash v) (v_erc20_params v) (v_erc20 v) (v_erc721 v) (v_cw721 v) (v_port v) (v_params v).
Definition set_v_coin_info (v : VState) x := MkVState (v_chain_config v) (v_vm_params v) x (v_bank v) (v_auth v)
  (v_codehash v) (v_erc20_params v) (v_erc20 v) (v_erc721 v) (v_cw721 v) (v_port v) (v_params v).
Definition set_v_bank (v : VState) x := MkVState (v_chain_config v) (v_vm_params v) (v_coin_info v) x (v_auth v)
  (v_codehash v) (v_erc20_params v) (v_erc20 v) (v_erc721 v) (v_cw721 v) (v_port v) (v_params v).
Definition set_v_auth (v : VState) x := MkVState (v_chain_config v) (v_vm_params v) (v_coin_info v) (v_bank v) x
  (v_codehash v) (v_erc20_params v) (v_erc20 v) (v_erc721 v) (v_cw721 v) (v_port v) (v_params v).
Definition set_v_codehash (v : VState) x := MkVState (v_chain_config v) (v_vm_params v) (v_coin_info v) (v_bank v)
  (v_auth v) x (v_erc20_params v) (v_erc20 v) (v_erc721 v) (v_cw721 v) (v_port v) (v_params v).
Definition set_v_erc20_params (v : VState) x := MkVState (v_chain_config v) (v_vm_params v) (v_coin_info v)
  (v_bank v) (v_auth v) (v_codehash v) x (v_erc20 v) (v_erc721 v) (v_cw721 v) (v_port v) (v_params v).
Definition set_v_erc20 (v : VState) x := MkVState (v_chain_config v) (v_vm_params v) (v_coin_info v) (v_bank v)
  (v_auth v) (v_codehash v) (v_erc20_params v) x (v_erc721 v) (v_cw721 v) (v_port v) (v_params v).
Definition set_v_erc721 (v : VState) x := MkVState (v_chain_config v) (v_vm_params v) (v_coin_info v) (v_bank v)
  (v_auth v) (v_codehash v) (v_erc20_params v) (v_erc20 v) x (v_cw721 v) (v_port v) (v_params v).
Definition set_v_cw721 (v : VState) x := MkVState (v_chain_config v) (v_vm_params v) (v_coin_info v) (v_bank v)
  (v_auth v) (v_codehash v) (v_erc20_params v) (v_erc20 v) (v_erc721 v) x (v_port v) (v_params v).
Definition set_v_port (v : VState) x := MkVState (v_chain_config v) (v_vm_params v) (v_coin_info v) (v_bank v)
  (v_auth v) (v_codehash v) (v_erc20_params v) (v_erc20 v) (v_erc721 v) (v_cw721 v) x (v_params v).
Definition set_v_params (v : VState) x := MkVState (v_chain_config v) (v_vm_params v) (v_coin_info v) (v_bank v)
  (v_auth v) (v_codehash v) (v_erc20_params v) (v_erc20 v) (v_erc721 v) (v_cw721 v) (v_port v) x.

(** The keepers of the toolbox that are not modelled elsewhere, the store keys it has
    (an unknown name gives nil), and the subspaces x/params has registered. *)
Record Toolbox := MkToolbox {
  box_key : string -> bool;
  box_subspace : string -> bool;
  box_evm_keeper : bool;                                              (** EvmKeeper is not nil *)
  box_InitEvmCoinInfo : VmParams -> bank_state -> error + coin_info;
  box_SetVmParams : VmParams -> option error;
  box_GetTokenPairs : gmap string string -> list Erc20Pair;           (** x/erc20 *)
  box_DeleteTokenPair : gmap string string -> Erc20Pair -> gmap string string;
}.

Definition wrapped {A} (what : string) (m : VM A) : VM A :=
  fun v => match m v with
           | Err e v' => Err (fmt_wrap what e) v'
           | r => r
           end.

Definition legacyIBCTransferProvenancePrefix : string := String "004" "".

(** ** Step 1 *)

Definition zero : option Z := Some 0%Z.
Definition v040_chain_config (evmChainID : Z) : ChainConfig :=
  MkChainConfig evmChainID zero zero true zero zero zero zero zero zero zero zero zero zero zero zero zero
    zero zero zero None None.

Definition migrateEVMChainConfig (chainID : string) : VM unit :=
  evmChainID <- wrapped ("parse eip-155 chain id from " +:+ fmt_q chainID)
    (lift_opt (ParseEIP155ChainID chainID) (ExtErr ("invalid eip-155 chain-id " +:+ fmt_q chainID))) ;;
  existing <- gets v_chain_config ;;
  if (match existing with Some e => (cc_ChainId e =? evmChainID)%Z | None => false end) then mret tt
  else
    let chainConfig := v040_chain_config evmChainID in
    match ChainConfig_Validate chainConfig with
    | Some err => wrapped "invalid chain config" (throw err)
    | None =>
        match SetChainConfig existing chainConfig with
        | Some err => wrapped "set chain config" (throw err)
        | None => modify (fun v => set_v_chain_config v (Some chainConfig))
        end
    end.

(** ** Step 1.5 *)

(** The loop of repairEvmDenomMetadata: whether Display is a unit, the highest exponent
    and its unit; a nil unit is dereferenced ([None]). *)
Fixpoint scan_units (display : string) (units : list (option DenomUnit)) (acc : bool * Z * string)
  : option (bool * Z * string) :=
  match units with
  | [] => Some acc
  | None :: _ => None
  | Some unit :: units =>
      let '(displayInUnits, maxExponent, maxUnitDenom) := acc in
      let displayInUnits := if du_Denom unit =?s display then true else displayInUnits in
      if (maxExponent <? du_Exponent unit)%Z
      then scan_units display units (displayInUnits, du_Exponent unit, du_Denom unit)
      else scan_units display units (displayInUnits, maxExponent, maxUnitDenom)
  end.

Definition with_display (m : Metadata) (display : string) : Metadata :=
  MkMetadata (md_Description m) (md_DenomUnits m) (md_Base m) display (md_Name m) (md_Symbol m) (md_URI m)
    (md_URIHash m).
Definition with_unit (m : Metadata) (u : DenomUnit) : Metadata :=
  MkMetadata (md_Description m) (md_DenomUnits m ++ [Some u]) (md_Base m) (md_Display m) (md_Name m)
    (md_Symbol m) (md_URI m) (md_URIHash m).

Definition repairEvmDenomMetadata (evmDenom : string) : VM unit :=
  bank <- gets v_bank ;;
  match GetDenomMetaData bank evmDenom with
  | None => mret tt
  | Some metadata =>
      match scan_units (md_Display metadata) (md_DenomUnits metadata) (false, 0%Z, md_Base metadata) with
      | None => panic
      | Some (displayInUnits, maxExponent, maxUnitDenom) =>
          if (displayInUnits : bool) then mret tt
          else
            let metadata := if (0 <? maxExponent)%Z then with_display metadata maxUnitDenom
                            else with_unit metadata (MkDenomUnit (md_Display metadata) 18 []) in
            modify (fun v => set_v_bank v (SetDenomMetaData (v_bank v) metadata))
      end
  end.

Definition eip3855 : Z := 3855.
(** The params migrateEVMParams stores *)
Definition migrated_params (p : VmParams) : VmParams :=
  MkVmParams (EvmDenom p)
    (if existsb (fun eip => (eip =? eip3855)%Z) (ExtraEIPs p) then ExtraEIPs p else ExtraEIPs p ++ [eip3855])
    DefaultAccessControl DefaultHistoryServeWindow
    (match ExtendedDenomOptions p with None => Some (EvmDenom p) | o => o end) (vm_rest p).

Definition migrateEVMParams (box : Toolbox) : VM unit :=
  evmParams <- gets (fun v => migrated_params (v_vm_params v)) ;;
  match box_SetVmParams box evmParams with
  | Some err => wrapped "set evm params" (throw err)
  | None =>
      modify (fun v => set_v_vm v evmParams) ;;;
      wrapped "repair evm denom metadata" (repairEvmDenomMetadata (EvmDenom evmParams)) ;;;
      r <- gets (fun v => box_InitEvmCoinInfo box (v_vm_params v) (v_bank v)) ;;
      info <- wrapped "init evm coin info" (lift_sum r) ;;
      modify (fun v => set_v_coin_info v (Some info))
  end.

(** ** Step 1.6 *)

(** The BaseAccount of an EthAccount, its public key rewritten *)
Definition migrate_base (key : string) (b : BaseAccount) : error + BaseAccount :=
  match ba_PubKey b with
  | None => inr b
  | Some any =>
      match UnpackAny any with
      | inl e => inl (fmt_wrap ("decode legacy pubkey " +:+ hex_bytes key) e)
      | inr (LegacyEthSecp256k1 k) =>
          match NewAny_key (EvmSecp256k1 k) with
          | inl e => inl (fmt_wrap ("pack migrated pubkey " +:+ hex_bytes key) e)
          | inr anyPk => inr (MkBaseAccount (ba_Address b) (Some anyPk) (AccountNumber b) (Sequence b))
          end
      | inr _ => inr b
      end
  end.

(** migrateRetainedAccountPubKey *)
Definition migrateRetainedAccountPubKey (key : string) (account : retained) : VM unit :=
  match GetPubKey account with
  | Some (LegacyEthSecp256k1 k) =>
      account <- wrapped ("set migrated pubkey on retained account " +:+ hex_bytes key)
        (lift_sum (SetPubKey account (EvmSecp256k1 k))) ;;
      newBytes <- wrapped ("marshal retained account " +:+ hex_bytes key)
        (lift_sum (MarshalInterface_retained account)) ;;
      modify (fun v => set_v_auth v (<[key := newBytes]> (v_auth v)))
  | _ => mret tt
  end.

(** One record of the account store *)
Definition migrate_account (box : Toolbox) (kv : string * string) : VM unit :=
  let '(key, accountBytes) := kv in
  accountI <- wrapped ("decode auth account " +:+ hex_bytes key) (lift_sum (UnmarshalInterface accountBytes)) ;;
  match accountI with
  | Retained account => migrateRetainedAccountPubKey key account
  | AnEthAccount legacyAccount =>
      match ea_BaseAccount legacyAccount with
      | None => throw (ExtErr ("legacy EthAccount " +:+ hex_bytes key +:+ " has nil BaseAccount"))
      | Some base =>
          (if (CodeHash legacyAccount <>?s "") && box_evm_keeper box
           then modify (fun v => set_v_codehash v (<[key := HexToHash (CodeHash legacyAccount)]> (v_codehash v)))
           else mret tt) ;;;
          base <- lift_sum (migrate_base key base) ;;
          newBytes <- wrapped ("marshal migrated BaseAccount " +:+ hex_bytes key)
            (lift_sum (MarshalInterface_base base)) ;;
          modify (fun v => set_v_auth v (<[key := newBytes]> (v_auth v)))
      end
  end.

(** The iterator reads the store as it was when it was opened. *)
Definition migrateLegacyEVMAccounts (box : Toolbox) : VM unit :=
  guard (box_key box auth_StoreKey) (ExtErr "auth store key not found") ;;;
  accounts <- gets (fun v => kv_iter (v_auth v)) ;;
  for_each accounts (migrate_account box).

(** ** Legacy x/params *)

Definition json_space (a : ascii) : bool :=
  match a with " " | "009" | "010" | "013" => true | _ => false end%char.
Fixpoint trim_left (s : string) : string :=
  match s with String a s' => if json_space a then trim_left s' else s | "" => "" end.
Definition json_literal (lit s : string) : bool :=
  HasPrefix s lit && str_forallb json_space (str_drop (len lit) s).
(** [json.Unmarshal(raw, &value)] into a bool; null leaves it false *)
Definition json_bool (raw : string) : option bool :=
  let s := trim_left raw in
  if json_literal "true" s then Some true
  else if json_literal "false" s then Some false
  else if json_literal "null" s then Some false
  else None.

Definition decodeLegacyBoolRaw (fallback : bool) (raw : string) : bool :=
  match json_bool raw with Some value => value | None => fallback end.

(** The key of a parameter in the store of x/params; a subspace reads under the same key. *)
Definition legacy_key (moduleName key : string) : string := moduleName +:+ "/" +:+ key.

Definition readLegacyBoolParamRaw (v : VState) (moduleName key : string) (fallback : bool) : bool :=
  let raw := kv_get (v_params v) (legacy_key moduleName key) in
  if raw =?s "" then fallback else decodeLegacyBoolRaw fallback raw.

Definition getLegacyBoolParam (box : Toolbox) (v : VState) (moduleName key : string) (fallback : bool) : bool :=
  let raw := kv_get (v_params v) (legacy_key moduleName key) in
  if box_subspace box moduleName && (raw <>?s "") then decodeLegacyBoolRaw fallback raw
  else if negb (box_key box params_StoreKey) then fallback
  else readLegacyBoolParamRaw v moduleName key fallback.

(** ** Step 2 *)

Definition migrateErc20Params (box : Toolbox) : VM unit :=
  enable <- gets (fun v => getLegacyBoolParam box v erc20_ModuleName ParamStoreKeyEnableErc20
                             (EnableErc20 DefaultErc20Params)) ;;
  let params := MkErc20Params enable false in
  match erc20_params_error params with
  | Some err => wrapped "set erc20 params" (throw err)
  | None => modify (fun v => set_v_erc20_params v params)
  end.

(** ** Step 3 *)

Definition is_owner_module (p : Erc20Pair) : bool := bool_decide (ep_ContractOwner p = OWNER_MODULE).

Definition delete_owner_module (box : Toolbox) (p : Erc20Pair) : VM unit :=
  if negb (is_owner_module p) then mret tt
  else modify (fun v => set_v_erc20 v (box_DeleteTokenPair box (v_erc20 v) p)).
Definition deleteLegacyOwnerModulePairs (box : Toolbox) : VM unit :=
  allPairs <- gets (fun v => box_GetTokenPairs box (v_erc20 v)) ;;
  for_each allPairs (delete_owner_module box).

(** ** Step 3.2 *)

(** [KVStorePrefixIterator]: the keys of the store under a prefix, in order *)
Definition keys_under (prefix : string) (m : gmap string string) : list string :=
  List.filter (fun k => HasPrefix k prefix) (kv_iter m).*1.

(** 0x04 and a 20-byte address is a key of cosmos/evm *)
Definition delete_provenance (key : string) : VM unit :=
  if len key =? 1 + 20 then mret tt
  else modify (fun v => set_v_erc20 v (delete key (v_erc20 v))).
Definition deleteLegacyIBCTransferProvenance (box : Toolbox) : VM unit :=
  if negb (box_key box erc20_StoreKey) then mret tt
  else
    keys <- gets (fun v => keys_under legacyIBCTransferProvenancePrefix (v_erc20 v)) ;;
    for_each keys delete_provenance.

(** ** Steps 3.5 and 3.6 *)

Definition migrateErc721Params (box : Toolbox) : VM unit :=
  v <- gets (fun v => v) ;;
  if box_key box erc721_ModuleName && (match KeyPrefixParams (v_erc721 v) with Some _ => true | None => false end)
  then mret tt
  else
    let params := NewParams
      (getLegacyBoolParam box v erc721_ModuleName "EnableErc721" (EnableErc721 DefaultParams))
      (getLegacyBoolParam box v erc721_ModuleName "EnableEVMHook" (EnableEVMHook DefaultParams)) in
    s <- lift_sum (SetParams (v_erc721 v) params) ;;
    modify (fun v => set_v_erc721 v s).

Definition migrateCw721Params (box : Toolbox) : VM unit :=
  v <- gets (fun v => v) ;;
  if box_key box Cw721Types.cw721_ModuleName && (match cw_Params (v_cw721 v) with Some _ => true | None => false end)
  then mret tt
  else
    let params := Cw721Types.MkParams
      (getLegacyBoolParam box v Cw721Types.cw721_ModuleName "EnableCw721"
         (Cw721Types.EnableCw721 Cw721Types.DefaultParams))
      (getLegacyBoolParam box v Cw721Types.cw721_ModuleName "EnableEVMHook"
         (Cw721Types.EnableEVMHook Cw721Types.DefaultParams))
      (Cw721Types.WasmCodeId Cw721Types.DefaultParams) in
    s <- lift_sum (Cw721Store.SetParams (v_cw721 v) params) ;;
    modify (fun v => set_v_cw721 v s).

(** ** Step 3.7 *)

Definition migrateNFTTransferPort : VM unit :=
  current <- gets v_port ;;
  if current =?s nft_transfer_PortID then mret tt
  else modify (fun v => set_v_port v nft_transfer_PortID).

(** ** Step 3.8 *)

Definition delete_param (key : string) : VM unit :=
  modify (fun v => set_v_params v (delete key (v_params v))).
Definition delete_subspace (moduleName : string) : VM unit :=
  keys <- gets (fun v => keys_under (moduleName +:+ "/") (v_params v)) ;;
  for_each keys delete_param.

Definition deleteLegacyParamsSubspace (box : Toolbox) (moduleNames : list string) : VM unit :=
  if negb (box_key box params_StoreKey) then mret tt
  else for_each moduleNames delete_subspace.

(** ** The handler *)

Definition v040_upgradeHandler {VersionMap} (RunMigrations : VersionMap -> VM VersionMap) (box : Toolbox)
  (chainID : string) (vm : VersionMap) : VM VersionMap :=
  wrapped "migrate EVM chain config" (migrateEVMChainConfig chainID) ;;;
  wrapped "migrate EVM params" (migrateEVMParams box) ;;;
  wrapped "migrate legacy EVM accounts" (migrateLegacyEVMAccounts box) ;;;
  wrapped "migrate erc20 params" (migrateErc20Params box) ;;;
  wrapped "delete legacy OWNER_MODULE pairs" (deleteLegacyOwnerModulePairs box) ;;;
  deleteLegacyIBCTransferProvenance box ;;;
  wrapped "migrate erc721 params" (migrateErc721Params box) ;;;
  wrapped "migrate cw721 params" (migrateCw721Params box) ;;;
  migrateNFTTransferPort ;;;
  deleteLegacyParamsSubspace box [vm_ModuleName; erc20_ModuleName; erc721_ModuleName; Cw721Types.cw721_ModuleName] ;;;
  RunMigrations vm.
End V040.
End V040.
