(* ===== verification/V040Spec.v ===== *)
(** The v0.4.0 migration: what the store holds when the module migrations start. *)
From S2P Require Import Prelude GoStrings GoJson ChainId Sdk CollectionTypes Erc721Types Erc721Store.
From S2P Require Import Erc721Export Cw721Types Cw721Store Erc20Voucher V040.
Import ChainId V040.
Open Scope go_scope.
Open Scope list_scope.

(** ** Deleting a list of keys *)

Definition delete_keys (l : list string) (m : gmap string string) : gmap string string :=
  fold_left (fun m k => delete k m) l m.

Lemma delete_keys_lookup l m k : delete_keys l m !! k = if decide (k ∈ l) then None else m !! k.
Proof.
  revert m. induction l as [|x l IH]; intros m; cbn; [done|]. rewrite IH.
  destruct (decide (k ∈ l)) as [Hl|Hl], (decide (k ∈ x :: l)) as [Hx|Hx]; [done| | |].
  - destruct Hx. apply elem_of_cons. by right.
  - apply elem_of_cons in Hx as [->|]; [|done]. by rewrite lookup_delete_eq.
  - rewrite lookup_delete_ne; [done|]. intros ->. apply Hx, elem_of_cons. by left.
Qed.

Lemma filter_ext_in {A} (P Q : A -> Prop) `{!forall x, Decision (P x)} `{!forall x, Decision (Q x)} (l : list A) :
  (forall x, x ∈ l -> (P x <-> Q x)) -> filter P l = filter Q l.
Proof.
  induction l as [|x l IH]; intros Hl; [done|].
  assert (P x <-> Q x) as Hx by (apply Hl, elem_of_cons; by left).
  rewrite !filter_cons, IH by (intros y Hy; apply Hl, elem_of_cons; by right).
  destruct (decide (P x)), (decide (Q x)); naive_solver.
Qed.
Lemma filter_all {A} (P : A -> Prop) `{!forall x, Decision (P x)} (l : list A) :
  (forall x, x ∈ l -> P x) -> filter P l = l.
Proof.
  induction l as [|x l IH]; intros Hl; [done|].
  rewrite filter_cons_True by (apply Hl, elem_of_cons; by left).
  rewrite IH; [done|]. intros y Hy. apply Hl, elem_of_cons. by right.
Qed.

Section Spec.
Context `{EthLib} `{SdkLib} `{BankLaws} `{FmtLib} `{V040Lib} `{AccountCodec}.
Context `{Erc721Codec} `{!Erc721CodecLaws} `{!Cw721Store.Cw721Codec} `{!Cw721Store.Cw721CodecLaws}.
Implicit Types v : VState.

(** ** Stepping through the handler *)

Lemma wrapped_ok {A} what (m : VM A) v a v' : wrapped what m v = Ok a v' -> m v = Ok a v'.
Proof. unfold wrapped. by destruct (m v). Qed.

(** ** Step 1 *)

Lemma migrateEVMChainConfig_ok chainID v u v' :
  migrateEVMChainConfig chainID v = Ok u v' ->
  exists id cfg, ParseEIP155ChainID chainID = Some id /\ cc_ChainId cfg = id /\
    v' = set_v_chain_config v (Some cfg).
Proof.
  intros (id & v1 & [Hp ->]%wrapped_ok%lift_opt_ok & (ex & v2 & [-> ->]%gets_ok & Hr)%mbind_ok)%mbind_ok.
  revert Hr. cbn zeta. destruct (v_chain_config v) as [e|] eqn:E.
  - destruct (Z.eqb_spec (cc_ChainId e) id) as [He|_].
    + intros [_ ->]%mret_ok. exists id, e. split; [done|]. split; [done|].
      destruct v; cbn in E; by subst.
    + destruct (ChainConfig_Validate (v040_chain_config id)); [intros [=]|].
      destruct (SetChainConfig (Some e) (v040_chain_config id)); [intros [=]|].
      intros ->%modify_ok. by exists id, (v040_chain_config id).
  - destruct (ChainConfig_Validate (v040_chain_config id)); [intros [=]|].
    destruct (SetChainConfig None (v040_chain_config id)); [intros [=]|].
    intros ->%modify_ok. by exists id, (v040_chain_config id).
Qed.

(** ** Step 1.5 *)

(** A unit of the metadata has the denomination. *)
Definition has_unit (units : list (option DenomUnit)) (denom : string) : Prop :=
  exists unit, Some unit ∈ units /\ du_Denom unit = denom.

Lemma has_unit_cons x units d : has_unit units d -> has_unit (x :: units) d.
Proof. intros (y & Hy & Hd). exists y. split; [|done]. apply elem_of_cons. by right. Qed.

Lemma scan_units_ok display units : forall d0 e0 n0 d e n,
  scan_units display units (d0, e0, n0) = Some (d, e, n) ->
  (d = true -> d0 = true \/ has_unit units display) /\
  (e = e0 /\ n = n0 \/ has_unit units n) .
Proof.
  induction units as [|[x|] units IH]; intros d0 e0 n0 d e n; cbn [scan_units]; [|destruct (e0 <? du_Exponent x)%Z|done].
  - intros [= -> -> ->]. split; [by left|by left].
  - intros [Hd He]%IH. split.
    + intros [Hx|Hx]%Hd; [|right; by apply has_unit_cons]. destruct (du_Denom x =?s display) eqn:E; [|by left].
      apply str_eqb_true in E. right. exists x. split; [apply elem_of_cons; by left|done].
    + right. destruct He as [[_ ->]|He]; [|by apply has_unit_cons]. exists x. split; [apply elem_of_cons; by left|done].
  - intros [Hd He]%IH. split.
    + intros [Hx|Hx]%Hd; [|right; by apply has_unit_cons]. destruct (du_Denom x =?s display) eqn:E; [|by left].
      apply str_eqb_true in E. right. exists x. split; [apply elem_of_cons; by left|done].
    + destruct He as [He|He]; [by left|right; by apply has_unit_cons].
Qed.

(** The display unit of the EVM denomination is one of its units. *)
Definition display_listed (b : bank_state) (denom : string) : Prop :=
  forall m, GetDenomMetaData b denom = Some m -> has_unit (md_DenomUnits m) (md_Display m).

Lemma repairEvmDenomMetadata_ok d v u v' :
  repairEvmDenomMetadata d v = Ok u v' -> exists b, v' = set_v_bank v b /\ display_listed b d.
Proof.
  intros (bank & v1 & [-> ->]%gets_ok & Hr)%mbind_ok. revert Hr.
  assert (v = set_v_bank v (v_bank v)) as Hv by (by destruct v).
  destruct (GetDenomMetaData (v_bank v) d) as [m|] eqn:Em.
  2: { intros [_ ->]%mret_ok. exists (v_bank v). split; [done|]. intros m Hm. congruence. }
  pose proof (GetDenomMetaData_Base _ _ _ Em) as Hb.
  destruct (scan_units _ _ _) as [[[shown e] x]|] eqn:Es; [|done].
  apply scan_units_ok in Es as [Hd He]. destruct shown.
  - intros [_ ->]%mret_ok. exists (v_bank v). split; [done|]. intros m' Hm'.
    assert (m' = m) as -> by congruence. by destruct (Hd eq_refl).
  - intros ->%modify_ok. eexists. split; [done|]. intros m' Hm'.
    destruct (Z.ltb_spec 0 e) as [Hpos|Hneg]; rewrite SetDenomMetaData_get in Hm'; cbn in Hm';
      rewrite decide_True in Hm' by done; injection Hm' as <-; cbn.
    + destruct He as [[-> _]|He]; [lia|done].
    + eexists. split; [apply elem_of_app; right; by apply list_elem_of_singleton|done].
Qed.

Lemma migrateEVMParams_ok box v u v' :
  migrateEVMParams box v = Ok u v' ->
  exists b info, display_listed b (EvmDenom (v_vm_params v)) /\
    box_InitEvmCoinInfo box (migrated_params (v_vm_params v)) b = inr info /\
    v' = set_v_coin_info (set_v_bank (set_v_vm v (migrated_params (v_vm_params v))) b) (Some info).
Proof.
  intros (p & v1 & [-> ->]%gets_ok & Hr)%mbind_ok. revert Hr.
  destruct (box_SetVmParams _ _); [intros [=]|].
  intros (? & v1 & ->%modify_ok & (? & v2 & (b & -> & Hb)%wrapped_ok%repairEvmDenomMetadata_ok &
    (r & v3 & [-> ->]%gets_ok & (i & v4 & [Hi ->]%wrapped_ok%lift_sum_ok & ->%modify_ok)%mbind_ok)%mbind_ok)%mbind_ok)%mbind_ok.
  by exists b, i.
Qed.

(** ** Step 1.6 *)

(** The record of an account after the migration: an EthAccount becomes its BaseAccount,
    whose legacy key is replaced; any other account only has its legacy key replaced. *)
Definition migrated_account (key bz bz' : string) : Prop :=
  match UnmarshalInterface bz with
  | inl _ => False
  | inr (AnEthAccount a) =>
      exists b b', ea_BaseAccount a = Some b /\ migrate_base key b = inr b' /\ MarshalInterface_base b' = inr bz'
  | inr (Retained a) =>
      match GetPubKey a with
      | Some (LegacyEthSecp256k1 k) =>
          exists a', SetPubKey a (EvmSecp256k1 k) = inr a' /\ MarshalInterface_retained a' = inr bz'
      | _ => bz' = bz
      end
  end.

(** The code hash an EthAccount carries over to x/vm *)
Definition carried_hash (box : Toolbox) (bz : string) : option string :=
  match UnmarshalInterface bz with
  | inr (AnEthAccount a) =>
      if (CodeHash a <>?s "") && box_evm_keeper box then Some (HexToHash (CodeHash a)) else None
  | _ => None
  end.

Lemma migrate_account_ok box k bz v u v' :
  migrate_account box (k, bz) v = Ok u v' -> v_auth v !! k = Some bz ->
  exists bz', migrated_account k bz bz' /\
    v' = set_v_codehash (set_v_auth v (<[k := bz']> (v_auth v)))
           (match carried_hash box bz with Some h => <[k := h]> (v_codehash v) | None => v_codehash v end).
Proof.
  intros (a & v1 & [Ha ->]%wrapped_ok%lift_sum_ok & Hr)%mbind_ok Hbz. revert Hr.
  unfold migrated_account, carried_hash. rewrite Ha.
  assert (v = set_v_codehash (set_v_auth v (<[k := bz]> (v_auth v))) (v_codehash v)) as Hv
    by (rewrite insert_id by done; by destruct v).
  destruct a as [a|a].
  - destruct (ea_BaseAccount a) as [b|]; [|done].
    intros (? & v1 & Hc & (b' & v2 & [Hb ->]%lift_sum_ok &
      (bz' & v3 & [Hm ->]%wrapped_ok%lift_sum_ok & ->%modify_ok)%mbind_ok)%mbind_ok)%mbind_ok.
    exists bz'. split; [eauto|]. destruct ((CodeHash a <>?s "") && box_evm_keeper box).
    + apply modify_ok in Hc as ->. done.
    + apply mret_ok in Hc as [_ ->]. done.
  - unfold migrateRetainedAccountPubKey. destruct (GetPubKey a) as [[k0|k0|k0]|].
    2-4: intros [_ ->]%mret_ok; exists bz; split; [done|exact Hv].
    intros (a' & v1 & [Hs ->]%wrapped_ok%lift_sum_ok & (bz' & v2 & [Hm ->]%wrapped_ok%lift_sum_ok & ->%modify_ok)%mbind_ok)%mbind_ok.
    exists bz'. split; [eauto|]. by destruct v.
Qed.

(** What the loop over the accounts leaves *)
Definition accounts_migrated box (auth codehash auth' codehash' : gmap string string) : Prop :=
  forall k, match auth !! k with
            | None => auth' !! k = None /\ codehash' !! k = codehash !! k
            | Some bz => (exists bz', auth' !! k = Some bz' /\ migrated_account k bz bz') /\
                codehash' !! k = match carried_hash box bz with Some h => Some h | None => codehash !! k end
            end.

Lemma accounts_loop box kvs : forall v u v',
  NoDup kvs.*1 -> (forall k bz, (k, bz) ∈ kvs -> v_auth v !! k = Some bz) ->
  for_each kvs (migrate_account box) v = Ok u v' ->
  v' = set_v_codehash (set_v_auth v (v_auth v')) (v_codehash v') /\
  (forall k bz, (k, bz) ∈ kvs ->
     (exists bz', v_auth v' !! k = Some bz' /\ migrated_account k bz bz') /\
     v_codehash v' !! k = match carried_hash box bz with Some h => Some h | None => v_codehash v !! k end) /\
  (forall k, k ∉ kvs.*1 -> v_auth v' !! k = v_auth v !! k /\ v_codehash v' !! k = v_codehash v !! k).
Proof.
  induction kvs as [|[k bz] kvs IH]; intros v u v' Hnd Hin Hr.
  - apply mret_ok in Hr as [_ ->]. split; [by destruct v|]. split; [|done]. intros k bz Hk. by apply elem_of_nil in Hk.
  - apply NoDup_cons in Hnd as [Hk Hnd]. apply mbind_ok in Hr as (u1 & v1 & Hb & Hr).
    destruct (migrate_account_ok _ _ _ _ _ _ Hb (Hin k bz (proj2 (elem_of_cons _ _ _) (or_introl eq_refl))))
      as (bz' & Hm & Hv1).
    assert (forall x, x <> k -> v_auth v1 !! x = v_auth v !! x /\ v_codehash v1 !! x = v_codehash v !! x) as Hother.
    { intros x Hx. subst v1. cbn. rewrite lookup_insert_ne by done. split; [done|].
      destruct (carried_hash box bz); [|done]. by rewrite lookup_insert_ne. }
    assert (forall x b, (x, b) ∈ kvs -> x <> k) as Hne.
    { intros x b Hx ->. apply Hk, list_elem_of_fmap. by exists (k, b). }
    destruct (IH v1 u v' Hnd) as (Hv' & Hdone & Hrest).
    + intros x b Hx. destruct (Hother x) as [-> _]; [by eapply Hne|]. apply Hin, elem_of_cons. by right.
    + exact Hr.
    + split; [rewrite Hv'; subst v1; by destruct v, v'|]. split.
      * intros x b [[= -> ->]|Hx]%elem_of_cons.
        -- destruct (Hrest k Hk) as [-> ->]. subst v1. cbn. rewrite lookup_insert_eq. split; [eauto|].
           destruct (carried_hash box bz); [by rewrite lookup_insert_eq|done].
        -- destruct (Hother x) as [_ <-]; [by eapply Hne|]. by apply Hdone.
      * intros x Hx. cbn in Hx. apply not_elem_of_cons in Hx as [Hx1 Hx2].
        destruct (Hrest x Hx2) as [-> ->]. by apply Hother.
Qed.

Lemma migrateLegacyEVMAccounts_ok box v u v' :
  migrateLegacyEVMAccounts box v = Ok u v' ->
  accounts_migrated box (v_auth v) (v_codehash v) (v_auth v') (v_codehash v') /\
  v' = set_v_codehash (set_v_auth v (v_auth v')) (v_codehash v').
Proof.
  intros (u0 & v1 & [_ ->]%guard_ok & (kvs & v2 & [-> ->]%gets_ok & Hr)%mbind_ok)%mbind_ok.
  destruct (accounts_loop box _ _ _ _ (kv_iter_nodup _) (fun k bz => proj1 (elem_of_kv_iter _ k bz)) Hr)
    as (Hv & Hdone & Hrest).
  split; [|exact Hv]. intros k. destruct (v_auth v !! k) as [bz|] eqn:E.
  - apply Hdone, elem_of_kv_iter, E.
  - assert (k ∉ (kv_iter (v_auth v)).*1) as Hk.
    { intros ([x b] & -> & Hx%elem_of_kv_iter)%list_elem_of_fmap. cbn in E. congruence. }
    destruct (Hrest k Hk) as [-> ->]. by rewrite E.
Qed.

(** ** Steps 2 to 3.8 *)

Lemma getLegacyBoolParam_store box v v1 m k d :
  v_params v1 = v_params v -> getLegacyBoolParam box v1 m k d = getLegacyBoolParam box v m k d.
Proof. intros E. unfold getLegacyBoolParam, readLegacyBoolParamRaw. by rewrite E. Qed.

Lemma migrateErc20Params_ok box v u v' :
  migrateErc20Params box v = Ok u v' ->
  v' = set_v_erc20_params v (MkErc20Params
         (getLegacyBoolParam box v erc20_ModuleName ParamStoreKeyEnableErc20 (EnableErc20 DefaultErc20Params)) false).
Proof.
  intros (e & v1 & [-> ->]%gets_ok & Hr)%mbind_ok. revert Hr. cbn zeta.
  destruct (erc20_params_error _); [intros [=]|]. by intros ->%modify_ok.
Qed.

(** x/erc20 of cosmos/evm: its pairs are not kept under the byte 0x04, and in a store in
    which every pair is under its own id, [own_ids], as its keeper writes them, no pair is
    there twice, and deleting a pair removes it, nothing else of the list, and keeps the
    store so. *)
Record box_laws (box : Toolbox) (own_ids : gmap string string -> Prop) : Prop := {
  bx_pairs s s' : (forall k, HasPrefix k legacyIBCTransferProvenancePrefix = false -> s' !! k = s !! k) ->
    box_GetTokenPairs box s' = box_GetTokenPairs box s;
  bx_nodup s : own_ids s -> NoDup (box_GetTokenPairs box s);
  bx_delete s p : own_ids s -> p ∈ box_GetTokenPairs box s ->
    box_GetTokenPairs box (box_DeleteTokenPair box s p) = filter (fun q => q <> p) (box_GetTokenPairs box s);
  bx_delete_own s p : own_ids s -> p ∈ box_GetTokenPairs box s -> own_ids (box_DeleteTokenPair box s p);
  bx_delete_frame s p k : HasPrefix k legacyIBCTransferProvenancePrefix = true ->
    box_DeleteTokenPair box s p !! k = s !! k;
}.

Definition external (p : Erc20Pair) : Prop := ep_ContractOwner p <> OWNER_MODULE.

Lemma pairs_loop box own_ids l : box_laws box own_ids -> forall v u v',
  own_ids (v_erc20 v) -> NoDup l -> (forall p, p ∈ l -> p ∈ box_GetTokenPairs box (v_erc20 v)) ->
  for_each l (delete_owner_module box) v = Ok u v' ->
  v' = set_v_erc20 v (v_erc20 v') /\
  box_GetTokenPairs box (v_erc20 v') = filter (fun q => external q \/ q ∉ l) (box_GetTokenPairs box (v_erc20 v)) /\
  (forall k, HasPrefix k legacyIBCTransferProvenancePrefix = true -> v_erc20 v' !! k = v_erc20 v !! k).
Proof.
  intros Hbox. induction l as [|p l IH]; intros v u v' Hown Hnd Hin Hr.
  - apply mret_ok in Hr as [_ ->]. split; [by destruct v|]. split; [|done].
    symmetry. apply filter_all. intros q _. right. apply not_elem_of_nil.
  - apply NoDup_cons in Hnd as [Hp Hnd]. apply mbind_ok in Hr as (u1 & v1 & Hb & Hr).
    unfold delete_owner_module, is_owner_module in Hb. destruct (decide (ep_ContractOwner p = OWNER_MODULE)) as [Ho|Ho].
    + rewrite bool_decide_eq_true_2 in Hb by done. apply modify_ok in Hb as ->.
      assert (p ∈ box_GetTokenPairs box (v_erc20 v)) as Hpin by (apply Hin, elem_of_cons; by left).
      set (v1 := set_v_erc20 v (box_DeleteTokenPair box (v_erc20 v) p)) in *.
      assert (forall q, q ∈ l -> q ∈ box_GetTokenPairs box (v_erc20 v1)) as Hsub.
      { intros q Hq. cbn. rewrite (bx_delete _ _ Hbox) by done. apply list_elem_of_filter. split; [by intros ->|].
        apply Hin, elem_of_cons. by right. }
      destruct (IH v1 u v' (bx_delete_own _ _ Hbox _ _ Hown Hpin) Hnd Hsub Hr) as (Hv & Hl & Hf).
      split; [rewrite Hv; by destruct v, v'|]. split.
      * rewrite Hl. cbn. rewrite (bx_delete _ _ Hbox) by done. rewrite list_filter_filter.
        apply list_filter_iff. intros q. rewrite not_elem_of_cons. unfold external.
        destruct (decide (q = p)); naive_solver.
      * intros k Hk. rewrite Hf by done. cbn. by apply (bx_delete_frame _ _ Hbox).
    + rewrite bool_decide_eq_false_2 in Hb by done. apply mret_ok in Hb as [_ ->].
      destruct (IH v u v' Hown Hnd) as (Hv & Hl & Hf); [intros q Hq; apply Hin, elem_of_cons; by right|exact Hr|].
      split; [done|]. split; [|done]. rewrite Hl. apply list_filter_iff. intros q.
      rewrite not_elem_of_cons. unfold external. destruct (decide (q = p)); naive_solver.
Qed.

Lemma deleteLegacyOwnerModulePairs_ok box own_ids v u v' :
  box_laws box own_ids -> own_ids (v_erc20 v) -> deleteLegacyOwnerModulePairs box v = Ok u v' ->
  v' = set_v_erc20 v (v_erc20 v') /\
  box_GetTokenPairs box (v_erc20 v') = filter external (box_GetTokenPairs box (v_erc20 v)) /\
  (forall k, HasPrefix k legacyIBCTransferProvenancePrefix = true -> v_erc20 v' !! k = v_erc20 v !! k).
Proof.
  intros Hbox Hown (l & v1 & [-> ->]%gets_ok & Hr)%mbind_ok.
  destruct (pairs_loop box _ _ Hbox _ _ _ Hown (bx_nodup _ _ Hbox _ Hown) (fun p Hp => Hp) Hr) as (Hv & Hl & Hf).
  split; [done|]. split; [|done]. rewrite Hl. apply filter_ext_in. intros q Hq. naive_solver.
Qed.

(** A loop that deletes keys of one store *)
Lemma delete_loop (get : VState -> gmap string string) (set : VState -> gmap string string -> VState)
  (keep : string -> bool) (body : string -> VM unit) :
  (forall k v, body k v = Ok tt (if keep k then v else set v (delete k (get v)))) ->
  (forall v m, get (set v m) = m) -> (forall v m m', set (set v m) m' = set v m') -> (forall v, set v (get v) = v) ->
  forall l v u v', for_each l body v = Ok u v' ->
  v' = set v (delete_keys (List.filter (fun k => negb (keep k)) l) (get v)).
Proof.
  intros Hbody Hget Hset Hid. induction l as [|k l IH]; intros v u v' Hr.
  - apply mret_ok in Hr as [_ ->]. cbn. by rewrite Hid.
  - apply mbind_ok in Hr as (u1 & v1 & Hb & Hr). rewrite Hbody in Hb. apply ok_inj in Hb as [_ ->].
    apply IH in Hr. rewrite Hr. cbn. destruct (keep k); cbn; [done|]. by rewrite Hget, Hset.
Qed.

Lemma elem_of_keys_under p m k : k ∈ keys_under p m <-> HasPrefix k p = true /\ is_Some (m !! k).
Proof.
  unfold keys_under. rewrite list_elem_of_In, List.filter_In, <- list_elem_of_In, list_elem_of_fmap. split.
  - intros [([x b] & -> & Hx%elem_of_kv_iter) Hp]. eauto.
  - intros [Hp [b Hb]]. split; [|done]. exists (k, b). split; [done|]. by apply elem_of_kv_iter.
Qed.

(** What is left when the keys under a prefix that are not kept are deleted *)
Lemma delete_under p m (keep : string -> bool) k :
  delete_keys (List.filter (fun k => negb (keep k)) (keys_under p m)) m !! k =
  if HasPrefix k p && negb (keep k) then None else m !! k.
Proof.
  rewrite delete_keys_lookup. case_decide as Hk.
  - apply list_elem_of_In, List.filter_In in Hk as [Hk%list_elem_of_In Hn].
    apply elem_of_keys_under in Hk as [-> _]. by rewrite Hn.
  - destruct (HasPrefix k p) eqn:Hp; [|done]. destruct (keep k) eqn:Hn; [done|]. cbn.
    destruct (m !! k) as [b|] eqn:E; [|done]. destruct Hk.
    apply list_elem_of_In, List.filter_In. rewrite Hn. split; [|done].
    apply list_elem_of_In, elem_of_keys_under. by rewrite E.
Qed.

Lemma deleteLegacyIBCTransferProvenance_ok box v u v' :
  deleteLegacyIBCTransferProvenance box v = Ok u v' ->
  v' = set_v_erc20 v (v_erc20 v') /\
  forall k, v_erc20 v' !! k =
    if box_key box erc20_StoreKey && HasPrefix k legacyIBCTransferProvenancePrefix && negb (len k =? 21)
    then None else v_erc20 v !! k.
Proof.
  unfold deleteLegacyIBCTransferProvenance. destruct (box_key box erc20_StoreKey); cbn [negb].
  - intros (l & v1 & [-> ->]%gets_ok & Hr)%mbind_ok.
    apply (delete_loop v_erc20 set_v_erc20 (fun k => len k =? 21)) in Hr; [|intros k w; unfold delete_provenance; change (1 + 20) with 21; by destruct (len k =? 21)|done|done|by intros []].
    rewrite Hr. split; [done|]. intros k. cbn [v_erc20 set_v_erc20]. rewrite delete_under. by rewrite andb_true_l.
  - intros [_ ->]%mret_ok. split; [by destruct v|done].
Qed.

Lemma delete_subspace_ok m v u v' :
  delete_subspace m v = Ok u v' ->
  v' = set_v_params v (v_params v') /\
  forall k, v_params v' !! k = if HasPrefix k (m +:+ "/") then None else v_params v !! k.
Proof.
  intros (l & v1 & [-> ->]%gets_ok & Hr)%mbind_ok.
  apply (delete_loop v_params set_v_params (fun k => false)) in Hr; [|done|done|done|by intros []].
  rewrite Hr. split; [done|]. intros k. cbn [v_params set_v_params].
  rewrite (delete_under _ _ (fun _ => false)). by rewrite andb_true_r.
Qed.

Definition in_subspaces (ms : list string) (k : string) : bool := existsb (fun m => HasPrefix k (m +:+ "/")) ms.

Lemma delete_subspaces_ok ms : forall v u v',
  for_each ms delete_subspace v = Ok u v' ->
  v' = set_v_params v (v_params v') /\
  forall k, v_params v' !! k = if in_subspaces ms k then None else v_params v !! k.
Proof.
  induction ms as [|m ms IH]; intros v u v' Hr.
  - apply mret_ok in Hr as [_ ->]. split; [by destruct v|done].
  - apply mbind_ok in Hr as (u1 & v1 & [Hv1 Hk1]%delete_subspace_ok & [Hv Hk]%IH).
    split; [rewrite Hv, Hv1; by destruct v, v'|]. intros k. rewrite Hk, Hk1.
    change (in_subspaces (m :: ms) k) with (HasPrefix k (m +:+ "/") || in_subspaces ms k).
    destruct (HasPrefix k (m +:+ "/")), (in_subspaces ms k); done.
Qed.

Lemma deleteLegacyParamsSubspace_ok box ms v u v' :
  deleteLegacyParamsSubspace box ms v = Ok u v' ->
  v' = set_v_params v (v_params v') /\
  forall k, v_params v' !! k = if box_key box params_StoreKey && in_subspaces ms k then None else v_params v !! k.
Proof.
  unfold deleteLegacyParamsSubspace. destruct (box_key box params_StoreKey); cbn [negb andb].
  - apply delete_subspaces_ok.
  - intros [_ ->]%mret_ok. split; [by destruct v|done].
Qed.

Lemma migrateNFTTransferPort_ok v u v' :
  migrateNFTTransferPort v = Ok u v' -> v' = set_v_port v nft_transfer_PortID.
Proof.
  intros (p & v1 & [-> ->]%gets_ok & Hr)%mbind_ok. revert Hr.
  destruct (v_port v =?s nft_transfer_PortID) eqn:E; [|by intros ->%modify_ok].
  apply str_eqb_true in E. intros [_ ->]%mret_ok. rewrite <- E. by destruct v.
Qed.

(** ** Parameters of x/erc721 and x/cw721 *)

(** What x/erc721 reads back: both switches off read as the defaults. *)
Definition read_back (p : Erc721Types.Params) : Erc721Types.Params :=
  if EnableErc721 p || EnableEVMHook p then p else DefaultParams.

Lemma Params_written (s : ErcStore) p s' :
  SetParams s p = inr s' -> (exists bz, s' = upd_Params bz s) /\ GetParams s' = read_back p.
Proof.
  unfold SetParams. rewrite Params_generated. intros [= <-]. split; [eauto|]. unfold GetParams, read_back. cbn.
  destruct p as [[] []]; try done; cbn; by rewrite Params_roundtrip.
Qed.

Definition erc721_legacy box v : Erc721Types.Params :=
  NewParams (getLegacyBoolParam box v erc721_ModuleName "EnableErc721" true)
            (getLegacyBoolParam box v erc721_ModuleName "EnableEVMHook" true).
Definition erc721_stored box v : bool :=
  box_key box erc721_ModuleName && (match KeyPrefixParams (v_erc721 v) with Some _ => true | None => false end).

Lemma migrateErc721Params_ok box v u v' :
  migrateErc721Params box v = Ok u v' ->
  v' = set_v_erc721 v (v_erc721 v') /\
  (erc721_stored box v = true -> v_erc721 v' = v_erc721 v) /\
  (erc721_stored box v = false ->
     (exists bz, v_erc721 v' = upd_Params bz (v_erc721 v)) /\
     GetParams (v_erc721 v') = read_back (erc721_legacy box v)).
Proof.
  intros (w & v1 & [-> ->]%gets_ok & Hr)%mbind_ok. revert Hr. fold (erc721_stored box v).
  destruct (erc721_stored box v).
  - intros [_ ->]%mret_ok. by destruct v.
  - intros (s & v1 & [Hs ->]%lift_sum_ok & ->%modify_ok)%mbind_ok.
    apply Params_written in Hs as [Hs Hp]. done.
Qed.

Definition cw721_legacy box v : Cw721Types.Params :=
  Cw721Types.MkParams (getLegacyBoolParam box v Cw721Types.cw721_ModuleName "EnableCw721" true)
    (getLegacyBoolParam box v Cw721Types.cw721_ModuleName "EnableEVMHook" true) 0.
Definition cw721_stored box v : bool :=
  box_key box Cw721Types.cw721_ModuleName && (match cw_Params (v_cw721 v) with Some _ => true | None => false end).

Lemma cw_Params_written (s : CwStore) a b s' :
  Cw721Store.SetParams s (Cw721Types.MkParams a b 0) = inr s' ->
  (exists bz, s' = Cw721Store.upd_Params bz s) /\
  Cw721Types.EnableCw721 (Cw721Store.GetParams s') = a /\ Cw721Types.EnableEVMHook (Cw721Store.GetParams s') = b.
Proof.
  unfold Cw721Store.SetParams. destruct (Cw721Store.Marshal_Params _) as [|bz] eqn:Hm; [done|].
  cbn -[Cw721Store.upd_Params]. intros [= <-].
  split; [eauto|]. apply Cw721Store.Params_roundtrip in Hm; [|cbn; lia].
  unfold Cw721Store.GetParams. change (cw_Params (Cw721Store.upd_Params bz s)) with (Some bz).
  cbv beta iota. rewrite Hm.
  cbn -[Cw721Store.GetWasmCodeID Cw721Store.upd_Params].
  by destruct (Cw721Store.GetWasmCodeID (Cw721Store.upd_Params bz s)).
Qed.

Lemma migrateCw721Params_ok box v u v' :
  migrateCw721Params box v = Ok u v' ->
  v' = set_v_cw721 v (v_cw721 v') /\
  (cw721_stored box v = true -> v_cw721 v' = v_cw721 v) /\
  (cw721_stored box v = false ->
     (exists bz, v_cw721 v' = Cw721Store.upd_Params bz (v_cw721 v)) /\
     Cw721Types.EnableCw721 (Cw721Store.GetParams (v_cw721 v')) = Cw721Types.EnableCw721 (cw721_legacy box v) /\
     Cw721Types.EnableEVMHook (Cw721Store.GetParams (v_cw721 v')) = Cw721Types.EnableEVMHook (cw721_legacy box v)).
Proof.
  intros (w & v1 & [-> ->]%gets_ok & Hr)%mbind_ok. revert Hr. fold (cw721_stored box v).
  destruct (cw721_stored box v).
  - intros [_ ->]%mret_ok. by destruct v.
  - intros (s & v1 & [Hs ->]%lift_sum_ok & ->%modify_ok)%mbind_ok.
    apply cw_Params_written in Hs as [Hs Hp]. done.
Qed.

(** ** The whole migration *)

Definition v040_subspaces : list string :=
  [vm_ModuleName; erc20_ModuleName; erc721_ModuleName; Cw721Types.cw721_ModuleName].

(** What the module migrations find *)
Record v040_migrated (box : Toolbox) (chainID : string) (v v' : VState) : Prop := {
  vd_chain : exists cfg, v_chain_config v' = Some cfg /\ ParseEIP155ChainID chainID = Some (cc_ChainId cfg);
  vd_vm : v_vm_params v' = migrated_params (v_vm_params v) /\
    display_listed (v_bank v') (EvmDenom (v_vm_params v')) /\
    exists info, v_coin_info v' = Some info /\ box_InitEvmCoinInfo box (v_vm_params v') (v_bank v') = inr info;
  vd_accounts : accounts_migrated box (v_auth v) (v_codehash v) (v_auth v') (v_codehash v');
  vd_erc20_params : PermissionlessRegistration (v_erc20_params v') = false /\
    EnableErc20 (v_erc20_params v') =
      getLegacyBoolParam box v erc20_ModuleName ParamStoreKeyEnableErc20 (EnableErc20 DefaultErc20Params);
  vd_pairs : box_GetTokenPairs box (v_erc20 v') = filter external (box_GetTokenPairs box (v_erc20 v));
  vd_provenance k : HasPrefix k legacyIBCTransferProvenancePrefix = true ->
    v_erc20 v' !! k = if box_key box erc20_StoreKey && negb (len k =? 21) then None else v_erc20 v !! k;
  vd_erc721 : (if erc721_stored box v then v_erc721 v' = v_erc721 v
    else (exists bz, v_erc721 v' = upd_Params bz (v_erc721 v)) /\
         GetParams (v_erc721 v') = read_back (erc721_legacy box v));
  vd_cw721 : (if cw721_stored box v then v_cw721 v' = v_cw721 v
    else (exists bz, v_cw721 v' = Cw721Store.upd_Params bz (v_cw721 v)) /\
         Cw721Types.EnableCw721 (Cw721Store.GetParams (v_cw721 v')) = Cw721Types.EnableCw721 (cw721_legacy box v) /\
         Cw721Types.EnableEVMHook (Cw721Store.GetParams (v_cw721 v')) = Cw721Types.EnableEVMHook (cw721_legacy box v));
  vd_port : v_port v' = nft_transfer_PortID;
  vd_params k : v_params v' !! k =
    if box_key box params_StoreKey && in_subspaces v040_subspaces k then None else v_params v !! k;
}.

(** A field that later steps do not write, back at the step that wrote it *)
Ltac back :=
  repeat match goal with
         | E : ?x = set_v_params _ _ |- context [?x] => progress (rewrite E; cbn)
         | E : ?x = set_v_port _ _ |- context [?x] => progress (rewrite E; cbn)
         | E : ?x = set_v_cw721 _ _ |- context [?x] => progress (rewrite E; cbn)
         | E : ?x = set_v_erc721 _ _ |- context [?x] => progress (rewrite E; cbn)
         | E : ?x = set_v_erc20 _ _ |- context [?x] => progress (rewrite E; cbn)
         | E : ?x = set_v_erc20_params _ _ |- context [?x] => progress (rewrite E; cbn)
         | E : ?x = set_v_codehash _ _ |- context [?x] => progress (rewrite E; cbn)
         end; reflexivity.

(** C32: when the v0.4.0 handler reaches the module migrations, from a store of x/erc20
    that holds every pair under its own id, the state is the legacy state migrated: the
    chain config has the EIP-155 id of the chain-id; the EVM params have the default access
    control, keep their denom, and EIP-3855 is on, the display unit of the EVM denomination
    is one of its units, and the coin info is the one the keeper derives from these; every
    EthAccount record has become its BaseAccount with the key type of the new module, every
    other account keeps its record but for a legacy key, no account is added or lost, and
    exactly the non-empty code hashes are carried over; of the ERC20 pairs exactly those the
    module does not own are left, and under the byte 0x04 exactly the keys of an address;
    registration is not permissionless; the params of x/erc20 and x/cw721 have the switches
    of x/params, as they were before any of it was deleted, and so do those of x/erc721
    except that two switches that are off there read as on afterwards (an empty record
    reads as the defaults), but a conversion module that had stored its own params keeps
    those; and of x/params exactly the four subspaces are gone. *)
Theorem v040_migrates_state {VersionMap} (RunMigrations : VersionMap -> VM VersionMap) box own_ids chainID vm v r v2 :
  box_laws box own_ids -> own_ids (v_erc20 v) -> v040_upgradeHandler RunMigrations box chainID vm v = Ok r v2 ->
  exists v', v040_migrated box chainID v v' /\ RunMigrations vm v' = Ok r v2.
Proof.
  intros Hbox Hown Hr. unfold v040_upgradeHandler in Hr.
  apply mbind_ok in Hr as (u1 & v1 & (id & cfg & Hid & Hcfg & ->)%wrapped_ok%migrateEVMChainConfig_ok & Hr).
  apply mbind_ok in Hr as (u3 & v3 & (b & info & Hbank & Hinfo & ->)%wrapped_ok%migrateEVMParams_ok & Hr).
  apply mbind_ok in Hr as (u4 & v4 & [Hacc Hv4]%wrapped_ok%migrateLegacyEVMAccounts_ok & Hr).
  apply mbind_ok in Hr as (u5 & v5 & Hv5%wrapped_ok%migrateErc20Params_ok & Hr).
  apply mbind_ok in Hr as (u6 & v6 & Hd6%wrapped_ok & Hr).
  assert (v_erc20 v5 = v_erc20 v) as E5 by back. rewrite <- E5 in Hown.
  destruct (deleteLegacyOwnerModulePairs_ok _ _ _ _ _ Hbox Hown Hd6) as (Hv6 & Hp6 & Hf6).
  apply mbind_ok in Hr as (u7 & v7 & [Hv7 Hk7]%deleteLegacyIBCTransferProvenance_ok & Hr).
  apply mbind_ok in Hr as (u8 & v8 & (Hv8 & Ht8 & He8)%wrapped_ok%migrateErc721Params_ok & Hr).
  apply mbind_ok in Hr as (u9 & v9 & (Hv9 & Ht9 & He9)%wrapped_ok%migrateCw721Params_ok & Hr).
  apply mbind_ok in Hr as (u10 & v10 & Hv10%migrateNFTTransferPort_ok & Hr).
  apply mbind_ok in Hr as (u11 & v11 & [Hv11 Hk11]%deleteLegacyParamsSubspace_ok & Hr).
  exists v11. split; [|done].
  assert (v_params v9 = v_params v) as Ep by back.
  assert (forall m k d, getLegacyBoolParam box v4 m k d = getLegacyBoolParam box v m k d) as Hl4
    by (intros; apply getLegacyBoolParam_store; back).
  assert (forall m k d, getLegacyBoolParam box v7 m k d = getLegacyBoolParam box v m k d) as Hl7
    by (intros; apply getLegacyBoolParam_store; back).
  assert (forall m k d, getLegacyBoolParam box v8 m k d = getLegacyBoolParam box v m k d) as Hl8
    by (intros; apply getLegacyBoolParam_store; back).
  assert (v_erc20 v11 = v_erc20 v7) as E11 by back.
  split.
  - exists cfg. split; [back|congruence].
  - assert (v_vm_params v11 = migrated_params (v_vm_params v)) as -> by back.
    assert (v_bank v11 = b) as -> by back. split; [done|]. split; [exact Hbank|]. exists info. split; [back|exact Hinfo].
  - assert (v_auth v11 = v_auth v4) as -> by back. assert (v_codehash v11 = v_codehash v4) as -> by back. exact Hacc.
  - assert (v_erc20_params v11 = v_erc20_params v5) as -> by back. subst v5. cbn. by rewrite Hl4.
  - rewrite E11, (bx_pairs _ _ Hbox (v_erc20 v6)), Hp6, E5; [done|].
    intros k Hk. rewrite Hk7, Hk. by rewrite andb_false_r.
  - intros k Hk. rewrite E11, Hk7, Hk, andb_true_r, Hf6, E5 by done. done.
  - assert (v_erc721 v11 = v_erc721 v8) as -> by back.
    assert (v_erc721 v7 = v_erc721 v) as E7 by back.
    assert (erc721_stored box v7 = erc721_stored box v) as Es by (unfold erc721_stored; by rewrite E7).
    assert (erc721_legacy box v7 = erc721_legacy box v) as El by (unfold erc721_legacy; by rewrite !Hl7).
    rewrite Es, ?El, E7 in *. destruct (erc721_stored box v); [by apply Ht8|by apply He8].
  - assert (v_cw721 v11 = v_cw721 v9) as -> by back.
    assert (v_cw721 v8 = v_cw721 v) as E8 by back.
    assert (cw721_stored box v8 = cw721_stored box v) as Es by (unfold cw721_stored; by rewrite E8).
    assert (cw721_legacy box v8 = cw721_legacy box v) as El by (unfold cw721_legacy; by rewrite !Hl8).
    rewrite Es, ?El, E8 in *. destruct (cw721_stored box v); [by apply Ht9|by apply He9].
  - back.
  - intros k. rewrite Hk11. assert (v_params v10 = v_params v9) as -> by back. by rewrite Ep.
Qed.
End Spec.
