(* ===== verification/Reference.v ===== *)
(** Concrete instances of the interfaces the development is parametric in, with
    their laws: hex addresses, accounts, the x/nft keeper over finite maps, an EVM
    that runs ERC721 contracts and a wasm keeper that runs CW721 contracts.  They show that the assumptions made of
    the libraries can hold together, and let the handlers run on concrete inputs. *)
From S2P Require Import Prelude GoStrings Sdk Utf8 GoJson CollectionTypes CollectionKeeper.
From S2P Require Import NftInvariant Erc721Types Erc721Store Cw721Types Cw721Store App.
From S2P Require Import Erc721Evm Cw721Wasm Erc721Msg Erc721Convert EvmIbc EvmIbcSpec.
Open Scope go_scope.

(** ** Addresses: twenty bytes *)
Module RefAddress.

Definition addr : Type := { s : string | (len s =? 20) = true }.
Definition bytes_of (a : addr) : string := `a.

Lemma addr_eq (a b : addr) : bytes_of a = bytes_of b -> a = b.
Proof. destruct a as [x p], b as [y q]. cbn. intros ->. f_equal. apply proof_irrel. Qed.

#[global] Instance addr_dec : EqDecision addr.
Proof.
  intros a b. destruct (decide (bytes_of a = bytes_of b)) as [E|E].
  - left. by apply addr_eq.
  - right. by intros ->.
Defined.

(** A nibble, least significant bit first. *)
Definition nibble : Type := bool * bool * bool * bool.

Definition digit (upper : bool) (n : nibble) : ascii :=
  match n with
  | (false, false, false, false) => "0" | (true, false, false, false) => "1"
  | (false, true, false, false) => "2" | (true, true, false, false) => "3"
  | (false, false, true, false) => "4" | (true, false, true, false) => "5"
  | (false, true, true, false) => "6" | (true, true, true, false) => "7"
  | (false, false, false, true) => "8" | (true, false, false, true) => "9"
  | (false, true, false, true) => if upper then "A" else "a"
  | (true, true, false, true) => if upper then "B" else "b"
  | (false, false, true, true) => if upper then "C" else "c"
  | (true, false, true, true) => if upper then "D" else "d"
  | (false, true, true, true) => if upper then "E" else "e"
  | (true, true, true, true) => if upper then "F" else "f"
  end%char.

Definition undigit (a : ascii) : option nibble :=
  match a with
  | "0" => Some (false, false, false, false) | "1" => Some (true, false, false, false)
  | "2" => Some (false, true, false, false) | "3" => Some (true, true, false, false)
  | "4" => Some (false, false, true, false) | "5" => Some (true, false, true, false)
  | "6" => Some (false, true, true, false) | "7" => Some (true, true, true, false)
  | "8" => Some (false, false, false, true) | "9" => Some (true, false, false, true)
  | "a" | "A" => Some (false, true, false, true) | "b" | "B" => Some (true, true, false, true)
  | "c" | "C" => Some (false, false, true, true) | "d" | "D" => Some (true, false, true, true)
  | "e" | "E" => Some (false, true, true, true) | "f" | "F" => Some (true, true, true, true)
  | _ => None
  end%char.

Definition hi (a : ascii) : nibble := let 'Ascii _ _ _ _ b4 b5 b6 b7 := a in (b4, b5, b6, b7).
Definition lo (a : ascii) : nibble := let 'Ascii b0 b1 b2 b3 _ _ _ _ := a in (b0, b1, b2, b3).
Definition byte (h l : nibble) : ascii :=
  let '(b4, b5, b6, b7) := h in let '(b0, b1, b2, b3) := l in Ascii b0 b1 b2 b3 b4 b5 b6 b7.

(** Two digits per byte; the case of the digits stands for the checksum. *)
Fixpoint to_hex (s : string) : string :=
  match s with
  | "" => ""
  | String a r => String (digit true (hi a)) (String (digit false (lo a)) (to_hex r))
  end.

Fixpoint of_hex (s : string) : option string :=
  match s with
  | "" => Some ""
  | String a (String b r) =>
      match undigit a, undigit b, of_hex r with
      | Some h, Some l, Some t => Some (String (byte h l) t)
      | _, _, _ => None
      end
  | _ => None
  end.

Definition strip0x (s : string) : string :=
  if HasPrefix s "0x" || HasPrefix s "0X" then str_drop 2 s else s.

(** common.BytesToAddress: crop from the left, pad on the left *)
Fixpoint zeros (n : nat) : string := match n with O => "" | S n => String "000" (zeros n) end.

Definition fit (b : string) : string :=
  if len b <=? 20 then zeros (20 - len b) +:+ b else str_drop (len b - 20) b.

Lemma len_zeros n : len (zeros n) = n.
Proof. induction n; cbn; auto. Qed.

Lemma fit_len b : (len (fit b) =? 20) = true.
Proof.
  unfold fit. apply Nat.eqb_eq. destruct (Nat.leb_spec (len b) 20).
  - rewrite len_app, len_zeros. lia.
  - rewrite len_drop. lia.
Qed.

Lemma fit_id b : len b = 20 -> fit b = b.
Proof. intros Hb. unfold fit. rewrite Hb. done. Qed.

Definition of_bytes (b : string) : addr := exist _ (fit b) (fit_len b).

Definition is_hex (s : string) : bool :=
  match of_hex (strip0x s) with Some b => len b =? 20 | None => false end.

Definition from_hex (s : string) : addr :=
  of_bytes match of_hex (strip0x s) with Some b => b | None => "" end.

Definition hex (a : addr) : string := "0x" +:+ to_hex (bytes_of a).

(** *** Laws *)

Lemma bytes_of_bytes b : len b = 20 -> bytes_of (of_bytes b) = b.
Proof. apply fit_id. Qed.

Lemma of_bytes_of a : of_bytes (bytes_of a) = a.
Proof. apply addr_eq. cbn. apply fit_id. destruct a as [s p]. by apply Nat.eqb_eq. Qed.

Lemma bytes_len a : len (bytes_of a) = 20.
Proof. destruct a as [s p]. by apply Nat.eqb_eq. Qed.

Lemma undigit_digit u n : undigit (digit u n) = Some n.
Proof. destruct n as [[[[] []] []] []], u; done. Qed.

Lemma byte_hi_lo a : byte (hi a) (lo a) = a.
Proof. by destruct a. Qed.

Lemma hi_byte h l : hi (byte h l) = h.
Proof. by destruct h as [[[??]?]?], l as [[[??]?]?]. Qed.

Lemma lo_byte h l : lo (byte h l) = l.
Proof. by destruct h as [[[??]?]?], l as [[[??]?]?]. Qed.

Lemma of_to_hex s : of_hex (to_hex s) = Some s.
Proof. induction s as [|a s IH]; [done|]. cbn. by rewrite !undigit_digit, IH, byte_hi_lo. Qed.

Lemma undigit_lower a : undigit (ascii_lower a) = undigit a.
Proof. by destruct a as [[] [] [] [] [] [] [] []]. Qed.

Lemma lower_digit u a n : undigit a = Some n -> ascii_lower (digit u n) = ascii_lower a.
Proof. destruct a as [[] [] [] [] [] [] [] []]; cbn; try done; intros [= <-]; by destruct u. Qed.

(** Induction two characters at a time. *)
Lemma pair_ind (P : string -> Prop) :
  P "" -> (forall a, P (String a "")) -> (forall a b s, P s -> P (String a (String b s))) -> forall s, P s.
Proof.
  intros H0 H1 H2 s. enough (P s /\ forall a, P (String a s)) by tauto.
  induction s as [|x s [IH1 IH2]]; split; auto.
Qed.

Lemma of_hex_lower s : of_hex (ToLower s) = of_hex s.
Proof. induction s as [|a|a b s IH] using pair_ind; [done..|]. cbn. by rewrite !undigit_lower, IH. Qed.

Lemma to_hex_lower s b : of_hex s = Some b -> ToLower (to_hex b) = ToLower s.
Proof.
  revert b. induction s as [|a|x y s IH] using pair_ind; intros b; cbn; [by intros [= <-]|done|].
  destruct (undigit x) as [h|] eqn:Ex, (undigit y) as [l|] eqn:Ey; try done.
  destruct (of_hex s) as [t|] eqn:Et; [|done]. intros [= <-]. cbn.
  by rewrite hi_byte, lo_byte, (lower_digit _ _ _ Ex), (lower_digit _ _ _ Ey), (IH t).
Qed.

Lemma prefix_lower_0x s : HasPrefix (ToLower s) "0x" = HasPrefix s "0x" || HasPrefix s "0X".
Proof.
  destruct s as [|a [|b s]]; [done|cbn; by rewrite !andb_false_r|].
  destruct a as [[] [] [] [] [] [] [] []]; try done; destruct b as [[] [] [] [] [] [] [] []]; done.
Qed.

Lemma prefix_lower_0X s : HasPrefix (ToLower s) "0X" = false.
Proof.
  destruct s as [|a [|b s]]; [done|cbn; by rewrite !andb_false_r|].
  destruct a as [[] [] [] [] [] [] [] []]; try done; destruct b as [[] [] [] [] [] [] [] []]; done.
Qed.

Lemma ToLower_drop n s : ToLower (str_drop n s) = str_drop n (ToLower s).
Proof. revert s. induction n as [|n IH]; intros [|a s]; [done..|]. apply IH. Qed.

Lemma strip_lower s : strip0x (ToLower s) = ToLower (strip0x s).
Proof.
  unfold strip0x. rewrite prefix_lower_0x, prefix_lower_0X, orb_false_r.
  destruct (_ || _); [|done]. symmetry. apply ToLower_drop.
Qed.

Lemma hex_no_comma s b : of_hex s = Some b -> ContainsByte s "," = false.
Proof.
  revert b. induction s as [|a|x y s IH] using pair_ind; intros b; [done..|]. cbn - [Ascii.eqb].
  destruct (undigit x) as [h|] eqn:Ex, (undigit y) as [l|] eqn:Ey; try done.
  destruct (of_hex s) as [t|] eqn:Et; [|done]. intros _. rewrite (IH t eq_refl).
  destruct (Ascii.eqb_spec x ","%char) as [->|]; [done|].
  by destruct (Ascii.eqb_spec y ","%char) as [->|].
Qed.

Lemma strip_hex a : strip0x (hex a) = to_hex (bytes_of a).
Proof. reflexivity. Qed.

Lemma is_hex_hex a : is_hex (hex a) = true.
Proof. unfold is_hex. rewrite strip_hex, of_to_hex, bytes_len. done. Qed.

Lemma from_hex_hex a : from_hex (hex a) = a.
Proof. unfold from_hex. rewrite strip_hex, of_to_hex. apply of_bytes_of. Qed.

Lemma is_hex_lower s : is_hex (ToLower s) = is_hex s.
Proof. unfold is_hex. by rewrite strip_lower, of_hex_lower. Qed.

Lemma from_hex_lower s : from_hex (ToLower s) = from_hex s.
Proof. unfold from_hex. by rewrite strip_lower, of_hex_lower. Qed.

Lemma hex_spelling s : is_hex s = true -> HasPrefix (ToLower s) "0x" = true ->
  ToLower (hex (from_hex s)) = ToLower s.
Proof.
  unfold is_hex, from_hex. destruct (of_hex (strip0x s)) as [b|] eqn:Eb; [|done].
  intros Hl%Nat.eqb_eq Hp. unfold hex. rewrite bytes_of_bytes by done. rewrite ToLower_app.
  rewrite (to_hex_lower _ _ Eb), <- strip_lower. unfold strip0x. rewrite Hp. cbn [orb].
  apply HasPrefix_spec in Hp as [r ->]. done.
Qed.

Lemma is_hex_chars s : is_hex s = true -> ContainsByte s "," = false /\ s <> "".
Proof.
  unfold is_hex. destruct (of_hex (strip0x s)) as [b|] eqn:Eb; [|done]. intros Hl. split.
  - apply hex_no_comma in Eb. unfold strip0x in Eb. destruct (HasPrefix s "0x" || HasPrefix s "0X") eqn:E; [|done].
    apply orb_true_iff in E as [[r ->]%HasPrefix_spec|[r ->]%HasPrefix_spec]; exact Eb.
  - intros ->. cbn in Eb. by injection Eb as <-.
Qed.

Lemma len_to_hex s : len (to_hex s) = 2 * len s.
Proof. induction s as [|a s IH]; [done|]. cbn. rewrite IH. lia. Qed.

Lemma hex_len a : len (hex a) = 42.
Proof. unfold hex. rewrite len_app, len_to_hex, bytes_len. done. Qed.
End RefAddress.

Definition ref_eth : EthLib := {|
  address := RefAddress.addr;
  zero_address := RefAddress.of_bytes "";
  IsHexAddress := RefAddress.is_hex;
  HexToAddress := RefAddress.from_hex;
  Hex := RefAddress.hex;
  BytesToAddress := RefAddress.of_bytes;
  addr_bytes := RefAddress.bytes_of;
  CreateAddress a n := RefAddress.of_bytes (BigString n +:+ "/" +:+ RefAddress.bytes_of a);
|}.

Lemma ref_eth_laws : @EthLaws ref_eth.
Proof.
  split.
  - exact RefAddress.is_hex_hex.
  - exact RefAddress.from_hex_hex.
  - intros a. exact (HasPrefix_app "0x" _).
  - exact RefAddress.is_hex_lower.
  - intros s _. exact (RefAddress.from_hex_lower s).
  - exact RefAddress.hex_spelling.
  - exact RefAddress.is_hex_chars.
  - exact RefAddress.hex_len.
  - exact RefAddress.bytes_of_bytes.
  - intros a. split; [exact (RefAddress.of_bytes_of a)|exact (RefAddress.bytes_len a)].
Qed.

(** ** Accounts, hashes, the gas meter *)
Module RefSdk.

(** A human-readable prefix and lowercase digits; case is ignored on the way back. *)
Definition to_string (a : string) : string :=
  if a =?s "" then "" else "uptick1" +:+ ToLower (RefAddress.to_hex a).

Definition from_string (s : string) : option string :=
  if HasPrefix (ToLower s) "uptick1" then
    match RefAddress.of_hex (str_drop 7 (ToLower s)) with
    | Some a => if negb (a =?s "") && (len a <=? 255) then Some a else None
    | None => None
    end
  else None.

Definition module_bytes (m : string) : string := str_take 20 (m +:+ RefAddress.zeros 20).

Definition digest (s : string) : string := str_take 32 (s +:+ RefAddress.zeros 32).

Definition scheme (u : string) : option string :=
  if HasPrefix u "https://" then Some "https"
  else if HasPrefix u "ipfs://" then Some "ipfs" else Some "".

(** [None] is the infinite meter, of which the maximal uint64 is always left. *)
Definition remaining (m : option N) : Z := match m with Some n => Z.of_N n | None => 2 ^ 64 - 1 end.
Definition consume (m : option N) (g : Z) : option (option N) :=
  match m with
  | Some n => if (g <=? Z.of_N n)%Z then Some (Some (n - Z.to_N g)%N) else None
  | None => Some None
  end.

Lemma take_zeros n s : len (str_take n (s +:+ RefAddress.zeros n)) = n.
Proof. rewrite len_take, len_app, RefAddress.len_zeros. lia. Qed.

Lemma string_roundtrip a : a <> "" -> len a <= 255 -> from_string (to_string a) = Some a.
Proof.
  intros Ha Hl. unfold from_string, to_string. pose proof Ha as Ha'%str_eqb_false. rewrite Ha'.
  rewrite ToLower_app, ToLower_idem. change (ToLower "uptick1") with "uptick1". rewrite HasPrefix_app.
  change (str_drop 7 ("uptick1" +:+ ToLower (RefAddress.to_hex a))) with (ToLower (RefAddress.to_hex a)).
  rewrite RefAddress.of_hex_lower, RefAddress.of_to_hex, Ha'.
  assert (len a <=? 255 = true) as -> by (by apply Nat.leb_le). reflexivity.
Qed.

Lemma from_string_bounds s a : from_string s = Some a -> a <> "" /\ len a <= 255.
Proof.
  unfold from_string. destruct (HasPrefix _ _); [|done]. destruct (RefAddress.of_hex _) as [b|]; [|done].
  destruct (b =?s "") eqn:E; [done|]. destruct (Nat.leb_spec (len b) 255); [|done]. cbn. intros [= <-].
  split; [by apply str_eqb_false|done].
Qed.

Lemma from_string_spelling s a : from_string s = Some a -> ToLower s = to_string a.
Proof.
  intros Hs. pose proof (from_string_bounds _ _ Hs) as [Ha%str_eqb_false _]. revert Hs. unfold from_string, to_string.
  rewrite Ha. destruct (HasPrefix _ _) eqn:Hp; [|done]. apply HasPrefix_spec in Hp as [r Er].
  assert (ToLower r = r) as Hr.
  { apply (f_equal ToLower) in Er as Er'. rewrite ToLower_idem, Er, ToLower_app in Er'.
    apply (f_equal (str_drop 7)) in Er'. exact (eq_sym Er'). }
  rewrite Er. change (str_drop 7 ("uptick1" +:+ r)) with r.
  destruct (RefAddress.of_hex r) as [b|] eqn:Eb; [|done]. destruct (_ && _); [|done]. intros [= <-].
  by rewrite (RefAddress.to_hex_lower _ _ Eb), Hr.
Qed.

Lemma to_string_chars a : ContainsByte (to_string a) "," = false.
Proof.
  unfold to_string. destruct (a =?s ""); [done|].
  apply (RefAddress.hex_no_comma (ToLower (RefAddress.to_hex a)) a).
  by rewrite RefAddress.of_hex_lower, RefAddress.of_to_hex.
Qed.

Lemma remaining_nonneg m : (0 <= remaining m)%Z.
Proof. destruct m; cbn; lia. Qed.

Lemma consume_enough m g : (0 <= g <= remaining m)%Z -> exists m', consume m g = Some m'.
Proof. destruct m as [n|]; cbn; [|eauto]. intros Hg. destruct (Z.leb_spec g (Z.of_N n)); [eauto|lia]. Qed.

Lemma consume_less m g m' : (0 <= g)%Z -> consume m g = Some m' -> (remaining m' <= remaining m)%Z.
Proof.
  intros Hg. destruct m as [n|]; cbn; [|by intros [= <-]].
  destruct (Z.leb_spec g (Z.of_N n)); [|done]. intros [= <-]. cbn. lia.
Qed.

Lemma consume_infinite m g : (0 <= g)%Z -> m = None -> exists m', consume m g = Some m' /\ m' = None.
Proof. intros _ ->. by exists None. Qed.
End RefSdk.

Definition ref_sdk : SdkLib := {|
  AccAddressFromBech32 := RefSdk.from_string;
  acc_String := RefSdk.to_string;
  NewModuleAddress := RefSdk.module_bytes;
  sha256_Sum256 := RefSdk.digest;
  tmhash_Sum s := "#" +:+ s;
  url_Parse_Scheme := RefSdk.scheme;
  ValidateDenom d := 3 <=? len d;
  gas_meter := option N;
  GasRemaining := RefSdk.remaining;
  ConsumeGas := RefSdk.consume;
  IsInfinite m := m = None;
|}.

Lemma ref_sdk_laws : @SdkLaws ref_sdk.
Proof.
  split.
  - exact RefSdk.string_roundtrip.
  - reflexivity.
  - reflexivity.
  - exact RefSdk.from_string_spelling.
  - exact RefSdk.to_string_chars.
  - exact RefSdk.from_string_bounds.
  - exact (RefSdk.take_zeros 32).
  - intros s. discriminate.
  - exact (RefSdk.take_zeros 20).
  - exact RefSdk.remaining_nonneg.
  - exact RefSdk.consume_enough.
  - exact RefSdk.consume_less.
  - exact RefSdk.consume_infinite.
Qed.

(** ** The x/nft keeper: two finite maps *)
Module RefNft.

Record class_data := MkClassData {
  cd_Name : string; cd_Symbol : string; cd_Description : string; cd_Uri : string; cd_UriHash : string;
  cd_Data : option string }.
Record token_data := MkTokenData {
  tk_Uri : string; tk_UriHash : string; tk_Data : option string; tk_Owner : string }.

Record state := MkState {
  st_classes : gmap string class_data; st_tokens : gmap (string * string) token_data }.

Definition mk_class (id : string) (d : class_data) : nft_Class :=
  {| Class_Id := id; Class_Name := cd_Name d; Class_Symbol := cd_Symbol d;
     Class_Description := cd_Description d; Class_Uri := cd_Uri d; Class_UriHash := cd_UriHash d;
     Class_Data := cd_Data d |}.
Definition class_of (c : nft_Class) : class_data :=
  MkClassData (Class_Name c) (Class_Symbol c) (Class_Description c) (Class_Uri c) (Class_UriHash c)
    (Class_Data c).
Definition mk_token (k : string * string) (d : token_data) : nft_NFT :=
  {| NFT_ClassId := fst k; NFT_Id := snd k; NFT_Uri := tk_Uri d; NFT_UriHash := tk_UriHash d;
     NFT_Data := tk_Data d |}.
Definition token_of (n : nft_NFT) (owner : string) : token_data :=
  MkTokenData (NFT_Uri n) (NFT_UriHash n) (NFT_Data n) owner.

Definition get_class s c := mk_class c <$> st_classes s !! c.
Definition get_nft s (c i : string) := mk_token (c, i) <$> st_tokens s !! (c, i).
Definition get_owner s (c i : string) : string :=
  match st_tokens s !! (c, i) with Some d => tk_Owner d | None => "" end.

Definition save_class s (cl : nft_Class) : error + state :=
  match st_classes s !! Class_Id cl with
  | Some _ => inl (ExtErr "nft class already exists")
  | None => inr (MkState (<[Class_Id cl := class_of cl]> (st_classes s)) (st_tokens s))
  end.
Definition update_class s (cl : nft_Class) : error + state :=
  match st_classes s !! Class_Id cl with
  | None => inl (ExtErr "nft class does not exist")
  | Some _ => inr (MkState (<[Class_Id cl := class_of cl]> (st_classes s)) (st_tokens s))
  end.

Definition put_token s (k : string * string) d : state :=
  MkState (st_classes s) (<[k := d]> (st_tokens s)).

Definition mint s (n : nft_NFT) (r : string) : error + state :=
  match st_classes s !! NFT_ClassId n, st_tokens s !! (NFT_ClassId n, NFT_Id n) with
  | None, _ => inl (ExtErr "nft class does not exist")
  | _, Some _ => inl (ExtErr "nft already exists")
  | Some _, None => inr (put_token s (NFT_ClassId n, NFT_Id n) (token_of n r))
  end.
Definition update s (n : nft_NFT) : error + state :=
  match st_tokens s !! (NFT_ClassId n, NFT_Id n) with
  | None => inl (ExtErr "nft does not exist")
  | Some d => inr (put_token s (NFT_ClassId n, NFT_Id n) (token_of n (tk_Owner d)))
  end.
Definition transfer s (c i r : string) : error + state :=
  match st_tokens s !! (c, i) with
  | None => inl (ExtErr "nft does not exist")
  | Some d => inr (put_token s (c, i) (token_of (mk_token (c, i) d) r))
  end.
Definition burn s (c i : string) : error + state :=
  match st_tokens s !! (c, i) with
  | None => inl (ExtErr "nft does not exist")
  | Some _ => inr (MkState (st_classes s) (delete (c, i) (st_tokens s)))
  end.

Definition classes s : list nft_Class := (fun kv => mk_class (fst kv) (snd kv)) <$> map_to_list (st_classes s).
Definition of_class s (c : string) : list nft_NFT :=
  (fun kv => mk_token (fst kv) (snd kv))
    <$> filter (fun kv => fst (fst kv) = c) (map_to_list (st_tokens s)).
End RefNft.

Definition ref_nft : NftKeeper := {|
  nft_state := RefNft.state;
  nk_GetClass := RefNft.get_class; nk_GetClasses := RefNft.classes;
  nk_SaveClass := RefNft.save_class; nk_UpdateClass := RefNft.update_class;
  nk_GetNFT := RefNft.get_nft; nk_GetNFTsOfClass := RefNft.of_class; nk_GetOwner := RefNft.get_owner;
  nk_Mint := RefNft.mint; nk_Update := RefNft.update; nk_Transfer := RefNft.transfer; nk_Burn := RefNft.burn;
  nk_GetTotalSupply s c := uint64_of (List.length (RefNft.of_class s c));
  nk_GetBalance s c o :=
    Z.of_nat (List.length (filter (fun n => RefNft.get_owner s c (NFT_Id n) = o) (RefNft.of_class s c)));
|}.

Section RefNftLaws.
Import RefNft.

Lemma insert_case {A} (m : gmap (string * string) A) k k' (v : A) :
  <[k := v]> m !! k' = if decide (k' = k) then Some v else m !! k'.
Proof. case_decide as E; [subst; apply lookup_insert_eq|by apply lookup_insert_ne]. Qed.

Lemma insert_case1 {A} (m : gmap string A) k k' (v : A) :
  <[k := v]> m !! k' = if decide (k' = k) then Some v else m !! k'.
Proof. case_decide as E; [subst; apply lookup_insert_eq|by apply lookup_insert_ne]. Qed.

Lemma class_roundtrip cl : mk_class (Class_Id cl) (class_of cl) = cl.
Proof. by destruct cl. Qed.

Lemma token_roundtrip n r : mk_token (NFT_ClassId n, NFT_Id n) (token_of n r) = n.
Proof. by destruct n. Qed.

Lemma put_nft s k n r c i :
  k = (NFT_ClassId n, NFT_Id n) ->
  get_nft (put_token s k (token_of n r)) c i = if decide ((c, i) = k) then Some n else get_nft s c i.
Proof.
  intros ->. unfold get_nft, put_token. cbn [st_tokens]. rewrite insert_case. case_decide as E; [|done].
  cbn. rewrite E. f_equal. apply token_roundtrip.
Qed.

Lemma put_owner s k d c i :
  get_owner (put_token s k d) c i = if decide ((c, i) = k) then tk_Owner d else get_owner s c i.
Proof. unfold get_owner, put_token. cbn [st_tokens]. rewrite insert_case. by case_decide. Qed.

Lemma save_effect s cl s' :
  s' = MkState (<[Class_Id cl := class_of cl]> (st_classes s)) (st_tokens s) ->
  forall c, get_class s' c = if decide (c = Class_Id cl) then Some cl else get_class s c.
Proof.
  intros -> c. unfold get_class. cbn [st_classes]. rewrite insert_case1. case_decide as E; [|done].
  subst. cbn. by rewrite class_roundtrip.
Qed.

Lemma ref_classes_spec s cl : cl ∈ classes s <-> get_class s (Class_Id cl) = Some cl.
Proof.
  unfold classes, get_class. rewrite list_elem_of_fmap. split.
  - intros ([k d] & -> & Hin%elem_of_map_to_list). cbn. by rewrite Hin.
  - destruct (st_classes s !! Class_Id cl) as [d|] eqn:E; [|done]. cbn. intros [= Hcl].
    exists (Class_Id cl, d). split; [by rewrite <- Hcl at 1|]. by apply elem_of_map_to_list.
Qed.

Lemma ref_of_class_spec s c n : n ∈ of_class s c <-> get_nft s c (NFT_Id n) = Some n.
Proof.
  unfold of_class, get_nft. rewrite list_elem_of_fmap. setoid_rewrite list_elem_of_filter. split.
  - intros ([[k1 k2] d] & -> & Hc & Hin%elem_of_map_to_list). cbn in *. subst. by rewrite Hin.
  - destruct (st_tokens s !! (c, NFT_Id n)) as [d|] eqn:E; [|done]. cbn. intros [= Hn].
    exists ((c, NFT_Id n), d). split; [by rewrite <- Hn at 1|]. split; [done|].
    by apply elem_of_map_to_list.
Qed.

Lemma ref_classes_nodup s : NoDup (Class_Id <$> classes s).
Proof.
  unfold classes. rewrite <- list_fmap_compose.
  change (NoDup ((map_to_list (st_classes s)).*1)). apply NoDup_fst_map_to_list.
Qed.

Lemma ref_of_class_nodup s c : NoDup (NFT_Id <$> of_class s c).
Proof.
  unfold of_class. rewrite <- list_fmap_compose. apply NoDup_fmap_2_strong.
  - intros [[a1 b1] d1] [[a2 b2] d2] [Hc1 H1]%list_elem_of_filter [Hc2 H2]%list_elem_of_filter. cbn in *.
    intros <-. subst. apply elem_of_map_to_list in H1, H2. congruence.
  - apply NoDup_filter, NoDup_map_to_list.
Qed.
End RefNftLaws.

Lemma ref_nft_laws : @NftLaws ref_nft.
Proof.
  split; cbn; intros *; unfold nk_HasClass, nk_HasNFT, same_classes, same_tokens, same_owners; cbn.
  - unfold RefNft.get_class. destruct (_ !! c); [|done]. by intros [= <-].
  - unfold RefNft.get_nft. destruct (_ !! _); [|done]. by intros [= <-].
  - unfold RefNft.get_nft, RefNft.get_owner. by destruct (_ !! _).
  - unfold RefNft.get_class, RefNft.save_class. destruct (_ !! _); [done|eauto].
  - unfold RefNft.save_class. destruct (RefNft.st_classes s !! Class_Id cl) eqn:E; [done|]. intros [= <-].
    split; [unfold RefNft.get_class; by rewrite E|]. split; [by apply save_effect|done].
  - unfold RefNft.update_class. destruct (RefNft.st_classes s !! Class_Id cl) eqn:E; [|done]. intros [= <-].
    split; [unfold RefNft.get_class; by rewrite E|]. split; [by apply save_effect|done].
  - unfold RefNft.get_class, RefNft.get_nft, RefNft.mint. do 2 destruct (_ !! _); try done; eauto.
  - unfold RefNft.mint. destruct (RefNft.st_classes s !! NFT_ClassId n) eqn:E1; [|done].
    destruct (RefNft.st_tokens s !! _) eqn:E2; [done|]. intros [= <-].
    split; [unfold RefNft.get_class; by rewrite E1|]. split; [unfold RefNft.get_nft; by rewrite E2|].
    split; [done|]. split; intros cl0 i0; [by apply put_nft|apply put_owner].
  - unfold RefNft.update. destruct (RefNft.st_tokens s !! _) as [d|] eqn:E2; [|done]. intros [= <-].
    split; [unfold RefNft.get_nft; by rewrite E2|]. split; [done|].
    split; intros c i; [|by apply put_nft]. rewrite put_owner. case_decide as E; [|done].
    unfold RefNft.get_owner. by rewrite E, E2.
  - unfold RefNft.transfer. destruct (RefNft.st_tokens s !! _) as [d|] eqn:E2; [|done]. intros [= <-].
    split; [unfold RefNft.get_nft; by rewrite E2|]. split; [done|]. split; intros c' i'; [|apply put_owner].
    rewrite put_nft by done. case_decide as E; [|done]. unfold RefNft.get_nft. by rewrite E, E2.
  - unfold RefNft.get_nft, RefNft.transfer. intros _. destruct (_ !! _); [eauto|done].
  - unfold RefNft.burn. destruct (RefNft.st_tokens s !! (c, i)) as [d|] eqn:E2; [|done]. intros [= <-].
    split; [unfold RefNft.get_nft; by rewrite E2|]. split; [done|].
    split; intros c' i'; unfold RefNft.get_nft, RefNft.get_owner; cbn [RefNft.st_tokens];
      case_decide as E; [rewrite E, lookup_delete_eq|rewrite lookup_delete_ne by congruence| |]; try done.
    + by rewrite E, lookup_delete_eq.
    + by rewrite lookup_delete_ne by congruence.
  - unfold RefNft.get_nft, RefNft.burn. intros _. destruct (_ !! _); [eauto|done].
  - apply ref_classes_spec.
  - apply ref_classes_nodup.
  - apply ref_of_class_spec.
  - apply ref_of_class_nodup.
Qed.

Lemma ref_supply_laws : @NftSupplyLaws ref_nft.
Proof.
  pose proof ref_nft_laws as Hl. split; intros s.
  - intros cl s' (_ & _ & Ht & _)%SaveClass_spec c. cbn. f_equal. apply (count_same s s').
    intros i. by rewrite Ht.
  - intros cl s' (_ & _ & Ht & _)%UpdateClass_spec c. cbn. f_equal. apply (count_same s s').
    intros i. by rewrite Ht.
  - intros n r s' (_ & Hn & _ & Ht & _)%Mint_spec c.
    change (uint64_of (List.length (nk_GetNFTsOfClass s' c)) = if decide (c = NFT_ClassId n)
      then ((uint64_of (List.length (nk_GetNFTsOfClass s c)) + 1) mod 2 ^ 64)%Z
      else uint64_of (List.length (nk_GetNFTsOfClass s c))).
    case_decide as E.
    + subst. rewrite uint64_succ. f_equal. apply (count_one_more s s' _ (NFT_Id n)); [done|].
      intros i. rewrite Ht. case_decide as E; [injection E as ->|]; naive_solver.
    + f_equal. apply count_same. intros i. rewrite Ht. by case_decide; [congruence|].
  - intros n s' (Hn & _ & _ & Ht)%Update_spec c. cbn. f_equal. apply (count_same s s').
    intros i. rewrite Ht. case_decide as E; [|done]. injection E as -> ->. by rewrite <- !not_eq_None_Some.
  - intros d i r s' (_ & _ & Ht & _)%Transfer_spec c. cbn. f_equal. apply (count_same s s').
    intros j. by rewrite Ht.
  - intros d i s' (Hn & _ & Ht & _)%Burn_spec c.
    change (uint64_of (List.length (nk_GetNFTsOfClass s' c)) = if decide (c = d)
      then ((uint64_of (List.length (nk_GetNFTsOfClass s c)) - 1) mod 2 ^ 64)%Z
      else uint64_of (List.length (nk_GetNFTsOfClass s c))).
    case_decide as E.
    + subst. rewrite (count_one_more s' s d i), uint64_pred; [done|by rewrite Ht, decide_True|].
      intros j. rewrite Ht. case_decide as E; [|naive_solver].
      injection E as ->. rewrite <- !not_eq_None_Some. naive_solver.
    + f_equal. apply count_same. intros j. rewrite Ht. by case_decide; [congruence|].
Qed.

(** ** Self-delimiting text, for the ABI and the codecs *)
Module RefText.

(** Each character is marked with a 1, a 0 ends the text. *)
Fixpoint put (s : string) : string :=
  match s with "" => "0" | String a r => String "1" (String a (put r)) end.

Fixpoint get (s : string) : option (string * string) :=
  match s with
  | "" => None
  | String a r =>
      if Ascii.eqb a "0" then Some ("", r)
      else match r with
           | String b r' =>
               match get r' with Some (x, rest) => Some (String b x, rest) | None => None end
           | "" => None
           end
  end.

Lemma get_put s r : get (put s +:+ r) = Some (s, r).
Proof.
  induction s as [|a s IH]; [done|].
  transitivity (match get (put s +:+ r) with Some (x, rest) => Some (String a x, rest) | None => None end);
    [reflexivity|]. by rewrite IH.
Qed.

Fixpoint puts (l : list string) : string :=
  match l with [] => "" | s :: l => put s +:+ puts l end.

Fixpoint gets (fuel : nat) (s : string) : list string :=
  match fuel with
  | O => []
  | S fuel => match get s with Some (x, rest) => x :: gets fuel rest | None => [] end
  end.

Lemma gets_puts l : gets (List.length l) (puts l) = l.
Proof. induction l as [|s l IH]; [done|]. cbn. by rewrite get_put, IH. Qed.

Definition flag (b : bool) : string := if b then "1" else "0".
Definition unflag (s : string) : bool := s =?s "1".

Lemma unflag_flag b : unflag (flag b) = b.
Proof. by destruct b. Qed.
End RefText.

(** ** An EVM that runs ERC721 contracts *)
Module RefEvm.
Existing Instance ref_eth.

Record contract := MkContract { ct_owners : gmap Z address; ct_uris : gmap Z string }.
Record state := MkEvm { ev_sequence : Z; ev_contracts : gmap string contract }.

Definition put_val (v : abival) : list string :=
  match v with
  | AStr s => ["s"; s] | ABool b => ["b"; RefText.flag b]
  | AUint n => ["u"; BigString n] | AAddr a => ["a"; Hex a]
  end.

Fixpoint get_vals (l : list string) : list abival :=
  match l with
  | tag :: v :: rest =>
      (if tag =?s "s" then AStr v
       else if tag =?s "b" then ABool (RefText.unflag v)
       else if tag =?s "u" then AUint (default 0%Z (SetString v 10))
       else AAddr (HexToAddress v)) :: get_vals rest
  | _ => []
  end.

Definition encode (vs : list abival) : string := RefText.puts (List.concat (put_val <$> vs)).
Definition decode (s : string) : list abival := get_vals (RefText.gets (len s) s).

Definition pack (method : string) (args : list abival) : option string := Some (encode (AStr method :: args)).

(** The contract's code: [None] reverts. *)
Definition run (ct : contract) (from : address) (call : list abival) : option (contract * list abival) :=
  match call with
  | [AStr "name"] => Some (ct, [AStr "Uptick721"])
  | [AStr "symbol"] => Some (ct, [AStr "UPT"])
  | [AStr "getClassEnhanceInfo"] =>
      Some (ct, [AStr "{}"; AStr "a class"; ABool true; AStr ""; ABool false; AStr ""; AStr ""])
  | [AStr "ownerOf"; AUint n] =>
      match ct_owners ct !! n with Some o => Some (ct, [AAddr o]) | None => None end
  | [AStr "tokenURI"; AUint n] =>
      match ct_uris ct !! n with Some u => Some (ct, [AStr u]) | None => None end
  | [AStr "mintEnhance"; AAddr r; AUint n; AStr _; AStr uri; AStr _; AStr _] =>
      match ct_owners ct !! n with
      | Some _ => None
      | None => Some (MkContract (<[n := r]> (ct_owners ct)) (<[n := uri]> (ct_uris ct)), [])
      end
  | [AStr "safeTransferFrom"; AAddr f; AAddr t; AUint n] =>
      if bool_decide (ct_owners ct !! n = Some f) && bool_decide (f = from)
      then Some (MkContract (<[n := t]> (ct_owners ct)) (ct_uris ct), []) else None
  | [AStr "burn"; AUint n] =>
      if bool_decide (ct_owners ct !! n = Some from)
      then Some (MkContract (delete n (ct_owners ct)) (delete n (ct_uris ct)), []) else None
  | _ => None
  end.

Definition respond (limit : Z) (ret err : string) : EvmResponse :=
  {| r_Ret := ret; r_GasUsed := Z.min 21000 limit; r_VmError := err |}.

Definition apply (s : state) (g : option N) (m : EvmMessage) (commit : bool)
  : option ((error + option EvmResponse) * (state * option N)) :=
  let bump := MkEvm (ev_sequence s + 1) (ev_contracts s) in
  let '(ret, err, s') :=
    match m_To m with
    | None =>
        let a := addr_bytes (CreateAddress (m_From m) (m_Nonce m)) in
        ("", "", MkEvm (ev_sequence s + 1) (<[a := MkContract ∅ ∅]> (ev_contracts s)))
    | Some a =>
        match ev_contracts s !! addr_bytes a with
        | None => ("", "", bump)
        | Some ct =>
            match run ct (m_From m) (decode (m_Data m)) with
            | None => ("", "execution reverted", bump)
            | Some (ct', out) =>
                (encode out, "", MkEvm (ev_sequence s + 1) (<[addr_bytes a := ct']> (ev_contracts s)))
            end
        end
    end in
  (* the store accesses of one run *)
  match RefSdk.consume g 2000 with
  | Some g' => Some (inr (Some (respond (m_GasLimit m) ret err)), (if commit then s' else s, g'))
  | None => None
  end.
End RefEvm.

#[local] Existing Instance ref_sdk.
Definition ref_evm : @EvmKeeper ref_eth ref_sdk := {|
  evm_state := RefEvm.state;
  evm_account := unit;
  GetSequence s _ := inr (RefEvm.ev_sequence s);
  GetAccountWithoutBalance s a :=
    match RefEvm.ev_contracts s !! @addr_bytes ref_eth a with Some _ => Some tt | None => None end;
  HasCodeHash _ := true;
  ApplyMessage := RefEvm.apply;
  DefaultGasCap := 25000000;
  erc721_Bin := "6080";
  abi_Pack := RefEvm.pack;
  abi_Unpack _ ret := Some (RefEvm.decode ret);
|}.

Lemma ref_evm_laws : @EvmLaws ref_eth ref_sdk ref_evm.
Proof.
  split; cbn; unfold RefEvm.apply.
  - intros s g m r s' g'. destruct (RefSdk.consume g 2000); repeat case_match; naive_solver.
  - intros s g m b e s' g'. destruct (RefSdk.consume g 2000); repeat case_match; naive_solver.
  - intros s g m b r s' g' Hr Hl. assert (r_GasUsed r = Z.min 21000 (m_GasLimit m)) as ->; [|lia].
    destruct (RefSdk.consume g 2000); repeat case_match; naive_solver.
  - intros s g m b r s' g'. destruct (RefSdk.consume g 2000) as [g2|] eqn:E; [|by repeat case_match].
    apply RefSdk.consume_less in E; [|lia]. repeat case_match; naive_solver.
  - intros s g m b ->. cbn. repeat case_match; eauto 6.
  - lia.
Qed.

Definition ref_fmt : FmtLib := {| fmt_q s := s; err_Error _ := "error" |}.

(** ** CW721 contracts: the owner and the URI of every token, by contract address *)
Module RefWasm.
Record token := MkToken { wt_owner : string; wt_uri : string }.
Record state := MkWasm { wm_next : Z; wm_contracts : gmap string (gmap string token) }.
Definition empty : state := MkWasm 1 ∅.
End RefWasm.

Definition ref_wasm_state : WasmState := {| wasm_state := RefWasm.state |}.

Definition ref_ibc : @IbcKeeper ref_eth ref_sdk ref_nft ref_evm ref_wasm_state := {| ibc_Transfer _ := mret tt |}.

(** ICS-721: packet data with one token, class prefixes port/channel/, vouchers that
    spell their trace out, and a refund that hands the tokens to the sender. *)
Module RefIcs721.
#[local] Existing Instances ref_eth ref_sdk ref_nft ref_evm ref_wasm_state.

Definition encode (d : list string) : string := RefText.puts d.
Definition decode (s : string) : option NonFungibleTokenPacketData :=
  match RefText.gets 5 s with
  | [cls; tok; sender; receiver; memo] => Some (MkPacketData cls [tok] sender receiver memo)
  | _ => None
  end.
Definition decode_ack (s : string) : option Acknowledgement :=
  if s =?s "" then None
  else if s =?s "ok" then Some (Acknowledgement_Result s) else Some (Acknowledgement_Error s).
Definition prefix (port channel : string) : string := port +:+ "/" +:+ channel +:+ "/".
Definition remove_prefix (port channel s : string) : error + string :=
  if HasPrefix s (prefix port channel) then inr (str_drop (len (prefix port channel)) s)
  else inl (ExtErr "no prefix").
Definition voucher (s : string) : string := if ContainsByte s "/" then "ibc/" +:+ s else s.
Definition resolve (id : string) : GoM string :=
  fun c => Ok (if nk_HasClass (c_nft c) id then id else voucher id) c.
(** The class a path leads to, and the transfer of its tokens. *)
Definition release (data : NonFungibleTokenPacketData) : GoM unit :=
  cls <- resolve (pd_ClassId data) ;;
  sender <- lift_opt (AccAddressFromBech32 (pd_Sender data)) (SdkErr ErrInvalidAddress) ;;
  for_each (pd_TokenIds data) (fun t => nft_write (fun s => nk_Transfer s cls t sender)).
Definition refund (packet : Packet) : GoM unit :=
  match decode (pk_Data packet) with Some data => release data | None => throw (ExtErr "bad packet") end.
End RefIcs721.

Definition ref_ics721 : @Ics721 ref_eth ref_sdk ref_nft ref_evm ref_wasm_state := {|
  UnmarshalJSON_PacketData := RefIcs721.decode;
  UnmarshalJSON_Acknowledgement := RefIcs721.decode_ack;
  json_Unmarshal_ConvertTo s := if HasPrefix s "convert:" then Some (TrimPrefix s "convert:") else None;
  NewErrorAcknowledgement _ := Acknowledgement_Error "error";
  GetClassPrefix := RefIcs721.prefix; RemoveClassPrefix := RefIcs721.remove_prefix;
  IBCClassID := RefIcs721.voucher;
  ics_OnAcknowledgementPacket _ data ack :=
    match ack with Acknowledgement_Error _ => RefIcs721.release data | _ => mret tt end;
  ics_OnTimeoutPacket _ data := RefIcs721.release data;
  ics_GetVoucherClassID := RefIcs721.resolve;
  EventTypeTimeout := "timeout"; ics_ModuleName := "nonfungibletokenpacket";
  AttributeKeySender := "sender"; AttributeKeyReceiver := "receiver";
  AttributeKeyClassID := "classID"; AttributeKeyTokenIDs := "tokenIDs" |}.

Definition ref_nft_transfer : @NftTransferApp ref_eth ref_sdk ref_nft ref_evm ref_wasm_state := {| nft_transfer := {|
  app_OnRecvPacket _ _ _ := mret (Some (Acknowledgement_Result "ok"));
  app_OnAcknowledgementPacket _ packet ack _ := if ack =?s "ok" then mret tt else RefIcs721.refund packet;
  app_OnTimeoutPacket _ packet _ := RefIcs721.refund packet |} |}.

Lemma ref_ics721_laws : @Ics721Laws _ _ _ _ _ ref_ics721.
Proof.
  split; [done| |intros id E; cbn; unfold RefIcs721.voucher; by rewrite E|done].
  intros port ch id. cbn. unfold RefIcs721.remove_prefix. by rewrite HasPrefix_app, str_drop_app.
Qed.

(** The module account: a sequence number, no balance. *)
Module RefAccount.
Definition get (s : RefEvm.state) (_ : RefAddress.addr) : option statedb_Account :=
  Some {| sa_Nonce := RefEvm.ev_sequence s; sa_Balance := Some 0%Z; sa_CodeHash := "" |}.
Definition set (s : RefEvm.state) (_ : RefAddress.addr) (acc : statedb_Account) : error + RefEvm.state :=
  inr (RefEvm.MkEvm (sa_Nonce acc) (RefEvm.ev_contracts s)).
Definition ak_get (s : RefEvm.state) (_ : string) : option Z := Some (RefEvm.ev_sequence s).
Definition ak_set (s : RefEvm.state) (n : Z) : RefEvm.state := RefEvm.MkEvm n (RefEvm.ev_contracts s).
End RefAccount.

Definition ref_statedb : @StateDB ref_eth ref_sdk ref_evm :=
  @Build_StateDB ref_eth ref_sdk ref_evm Z RefAccount.get RefAccount.set (fun h => h =?s "")
    RefAccount.ak_get RefAccount.ak_set (fun _ n => inr n).

(** ** A wasm keeper that runs CW721 contracts; it reads the JSON the module sends. *)
Import Cw721Types Cw721Store.
Open Scope go_scope.
Open Scope list_scope.

#[local] Existing Instances ref_eth ref_sdk ref_nft ref_evm ref_wasm_state.

Module RefCw.
Import RefWasm.

(** The texts between the quotation marks. *)
Definition fields (msg : string) : list string := Split msg "034"%char.

(** What a contract does with a message of [sender]: [None] is an error. *)
Definition execute (ct : gmap string token) (sender msg : string) : option (gmap string token) :=
  match fields msg with
  | [_; "mint"; _; "token_id"; _; t; _; "owner"; _; o; _; "token_uri"; _; u; _] =>
      match ct !! t with Some _ => None | None => Some (<[t := MkToken o u]> ct) end
  | [_; "transfer_nft"; _; "recipient"; _; r; _; "token_id"; _; t; _] =>
      match ct !! t with
      | Some k => if wt_owner k =?s sender then Some (<[t := MkToken r (wt_uri k)]> ct) else None
      | None => None
      end
  | _ => None
  end.

Definition query (ct : gmap string token) (q : string) : option string :=
  match fields q with
  | [_; "contract_info"; _] => Some (RefText.puts ["Cats"; "CAT"])
  | [_; "all_nft_info"; _; "token_id"; _; t; _] =>
      match ct !! t with Some k => Some (RefText.puts [wt_owner k; wt_uri k]) | None => None end
  | _ => None
  end.

Definition ErrWasm : error := ExtErr "wasm".

Definition wk_execute (m : MsgExecuteContract) : GoM string := fun c =>
  match wm_contracts (c_wasm c) !! ex_Contract m with
  | None => Err ErrWasm c
  | Some ct =>
      match execute ct (ex_Sender m) (ex_Msg m) with
      | None => Err ErrWasm c
      | Some ct' => Ok "" (set_wasm c (MkWasm (wm_next (c_wasm c)) (<[ex_Contract m := ct']> (wm_contracts (c_wasm c)))))
      end
  end.

Definition wk_query (a q : string) : GoM string := fun c =>
  match wm_contracts (c_wasm c) !! a with
  | None => Err ErrWasm c
  | Some ct => match query ct q with Some r => Ok r c | None => Err ErrWasm c end
  end.

Definition contract_address (n : Z) : string := acc_String ("wasm contract " +:+ BigString n).

Definition wk_instantiate (m : MsgInstantiateContract) : GoM string := fun c =>
  let a := contract_address (wm_next (c_wasm c)) in
  if (in_CodeID m =? 1)%Z
  then Ok a (set_wasm c (MkWasm (wm_next (c_wasm c) + 1) (<[a := ∅]> (wm_contracts (c_wasm c)))))
  else Err ErrWasm c.

Definition two {A} (f : string -> string -> A) (s : string) : option A :=
  match RefText.gets 2 s with [x; y] => Some (f x y) | _ => None end.

End RefCw.

Definition ref_wasm : WasmKeeper := {|
  wk_InstantiateContract := RefCw.wk_instantiate;
  wk_ExecuteContract := RefCw.wk_execute;
  wk_SmartContractState := RefCw.wk_query;
  MsgExecuteContract_ValidateBasic _ := None;
  json_Unmarshal_ContractInfoData := RefCw.two MkContractInfoData;
  json_Unmarshal_AllNftInfo := RefCw.two MkAllNftInfo;
|}.

Lemma ref_wasm_laws : @WasmLaws _ _ _ _ _ ref_wasm.
Proof.
  split; cbn.
  - intros a q c. unfold RefCw.wk_query. destruct (_ !! a) as [ct|]; [|done]. by destruct (RefCw.query ct q).
  - intros a q c. unfold RefCw.wk_query. destruct (_ !! a) as [ct|]; [|done]. by destruct (RefCw.query ct q).
Qed.

(** The contracts of the reference keeper send no messages. *)
Lemma ref_quiet a : @quiet _ _ _ _ _ ref_wasm a.
Proof.
  intros sender msg c. cbn. unfold RefCw.wk_execute. destruct (_ !! _) as [ct|]; [|done].
  by destruct (RefCw.execute _ _ _).
Qed.
Lemma ref_instantiate_only m : frame wasm_only (RefCw.wk_instantiate m).
Proof. intros c. unfold RefCw.wk_instantiate. by destruct (_ =? 1)%Z. Qed.

Lemma ref_execute_safe m : @safe _ _ unmetered _ (@wk_ExecuteContract _ _ _ _ _ ref_wasm m).
Proof.
  intros c Hc. cbn. unfold RefCw.wk_execute. destruct (_ !! _) as [ct|]; [|done].
  by destruct (RefCw.execute _ _ _).
Qed.
