(* ===== verification/ReferenceApp.v ===== *)
(** Concrete instances of the interfaces around the two modules: x/bank metadata, the
    ERC20 keeper, parameters, transactions and JSON, with their laws. *)
From S2P Require Import Prelude GoStrings Sdk CollectionMsg Ante Erc20Voucher Upgrades UpgradesSpec.
Open Scope list_scope.

(** ** x/bank *)
Module RefBank.
Record state := MkBank { records : gmap string Metadata; supply : list string }.

Definition get (b : state) (d : string) : option Metadata :=
  match records b !! d with
  | Some m => if md_Base m =?s d then Some m else None
  | None => None
  end.
Definition set (b : state) (m : Metadata) : state := MkBank (<[md_Base m := m]> (records b)) (supply b).
Definition denoms (b : state) : list string := List.filter (fun d => negb (ContainsByte d "010")) (supply b).

(** The base comes first, with exponent 0, and the display is one of the units. *)
Definition validate (m : Metadata) : option error :=
  match md_DenomUnits m with
  | Some u :: _ =>
      if (du_Denom u =?s md_Base m) && (du_Exponent u =? 0)%Z
         && existsb (fun x => match x with Some x => du_Denom x =?s md_Display m | None => false end) (md_DenomUnits m)
      then None else Some (ExtErr "invalid metadata")
  | _ => Some (ExtErr "invalid metadata")
  end.
Definition derive (d : string) : error + Z :=
  if HasPrefix d "a" then inr 18%Z else if HasPrefix d "u" then inr 6%Z else inl (ExtErr "unknown unit").
End RefBank.

Definition ref_bank : BankKeeper :=
  Build_BankKeeper RefBank.state RefBank.get RefBank.set RefBank.denoms RefBank.validate RefBank.derive.

Lemma ref_bank_laws : @BankLaws ref_bank.
Proof.
  split; cbn.
  - intros b d m. unfold RefBank.get. destruct (_ !! d) as [x|]; [|done].
    destruct (md_Base x =?s d) eqn:E; [|done]. intros [= <-]. by apply str_eqb_true.
  - intros b m d. unfold RefBank.get, RefBank.set. cbn. destruct (decide (d = md_Base m)) as [->|Hne].
    + by rewrite lookup_insert_eq, String.eqb_refl.
    + by rewrite lookup_insert_ne by done.
  - done.
  - intros b d. unfold RefBank.denoms. rewrite list_elem_of_In, filter_In. intros [_ E].
    by apply negb_true_iff.
Qed.

(** ** x/erc20: a set of registered denominations; names with a '!' are refused *)
Module RefErc20.
Record state := MkErc20 { registered : gset string; params : Erc20Params }.

Definition is_registered (s : state) (d : string) : bool := bool_decide (d ∈ registered s).
Definition pair_id (s : state) (d : string) : string := if is_registered s d then d else "".
Definition register (s : state) (d : string) : (error + string) * state :=
  if ContainsByte d "!" then (inl (ExtErr "refused"), s)
  else (inr d, MkErc20 ({[d]} ∪ registered s) (params s)).
Definition success (ack : Acknowledgement) : bool :=
  match ack with Acknowledgement_Error _ => false | _ => true end.
Definition denom (data : string) : option string := if data =?s "" then None else Some data.
Definition voucher (d : string) : string := "ibc/" +:+ d.

Definition recv {B} (p : Packet) (ack : Acknowledgement) (bs : B * state) : Acknowledgement * (B * state) :=
  match denom (pk_Data p) with
  | Some d =>
      if success ack && negb (is_registered (snd bs) (pair_id (snd bs) (voucher d)))
      then (ack, (fst bs, snd (register (snd bs) (voucher d)))) else (ack, bs)
  | None => (Acknowledgement_Error "bad packet", bs)
  end.
End RefErc20.

Definition ref_erc20 : @Erc20Keeper ref_bank :=
  @Build_Erc20Keeper ref_bank RefErc20.state RefErc20.params
    (fun s p => inr (RefErc20.MkErc20 (RefErc20.registered s) p)) RefErc20.pair_id RefErc20.is_registered
    RefErc20.is_registered RefErc20.register RefErc20.recv RefErc20.success RefErc20.denom
    (fun _ => RefErc20.voucher) "cosmos_coin" "source_channel".

Lemma ref_erc20_laws : @Erc20Laws ref_bank ref_erc20.
Proof.
  split. intros p ack b s ack' b' s'. cbn. unfold RefErc20.recv.
  destruct (RefErc20.denom (pk_Data p)) as [d|] eqn:Ed; [|intros [= _ _ <-]; by left].
  destruct (_ && _) eqn:E; [|intros [= _ _ <-]; by left]. apply andb_true_iff in E as [Ea En%negb_true_iff].
  intros _. right. split; [done|]. exists (RefErc20.voucher d). unfold receivedDenom. cbn. rewrite Ed. done.
Qed.

Lemma ref_erc20_store_laws : @Erc20StoreLaws ref_bank ref_erc20.
Proof.
  split; cbn; unfold RefErc20.register, RefErc20.is_registered.
  - intros s d a s'. destruct (ContainsByte d "!"); [done|]. intros [= <- <-]. split; [done|]. cbn.
    intros x. case_decide; apply bool_decide_eq_true || apply bool_decide_ext; set_solver.
  - intros s d e s'. destruct (ContainsByte d "!"); [|done]. by intros [= <- <-].
  - intros s p s' [= <-]. done.
Qed.

(** ** Parameters *)
Definition ref_params : ParamsLib :=
  Build_ParamsLib unit unit (fun a b => Some (a * b / 10 ^ 18)%Z)
    "0x100" "0x400" "0x800" "0x801" "0x802" "0x804" "0x805" "0x806".
Definition ref_params_stores : @ParamsStores ref_params :=
  @Build_ParamsStores ref_params (fun _ => None) (fun _ => None).

Lemma ref_dec_laws : @DecLaws ref_params.
Proof. split. intros a b q E _. cbn - [Z.pow]. by rewrite E, Z.div_mul. Qed.

(** ** Transactions: what a message is follows from its address *)
Module RefTx.
Definition content_of (m : Msg) : content :=
  match msg_ptr m with
  | 0%N => MsgExec [MkAny (Some (MkMsg "/cosmos.authz.v1beta1.MsgExec" 1)) ""; MkAny (Some (MkMsg EvmMsgTypeURL 2)) ""]
  | 1%N => MsgExec [MkAny (Some (MkMsg "/cosmos.staking.v1beta1.MsgCreateValidator" 3)) ""]
  | 2%N => MsgEthereumTx (Some 21000%Z)
  | 3%N => MsgCreateValidator (10 ^ 17)%Z
  | _ => OtherMsg
  end.
Definition unpack (a : Any) : error + Msg :=
  match GetCachedValue a with Some m => inr m | None => inl (SdkErr ErrInvalidRequest) end.
End RefTx.

Definition ref_tx : TxLib :=
  Build_TxLib RefTx.content_of (fun _ => None) (fun anys => inr (GetCachedValue <$> anys)) RefTx.unpack.
Lemma ref_tx_laws : @TxLaws ref_tx.
Proof. split; cbn; [by intros anys l [= <-]|]. intros a m E. unfold RefTx.unpack. by rewrite E. Qed.

Definition ref_gjson : CollectionMsg.GjsonLib := {| CollectionMsg.gjson_Valid s := HasPrefix s "{" |}.
