(* ===== verification/Witnesses.v ===== *)
(** The theorems applied at concrete inputs: the handlers run on the instances of
    Reference.v, every hypothesis is discharged there, and the guarantee follows. *)
From S2P Require Import Prelude GoStrings Utf8 Sdk CollectionTypes CollectionKeeper.
From S2P Require Import CollectionSpec Erc721Types Erc721Store Erc721Index Erc721Genesis.
From S2P Require Import Erc721Registry Erc721Purge Erc721Export Erc721StoreSpec Erc721Prune App.
From S2P Require Import Erc721Evm Erc721Msg Erc721Register Erc721Convert Erc721Settle.
From S2P Require Import Erc721ConvertFacts Erc721ConvertSpec Erc721RefundFacts Erc721SettleFacts.
From S2P Require Import Erc721EntrySpec InterNft NftInvariant CollectionGenesis CollectionGenesisSpec.
From S2P Require Import Erc721Abstract EvmIbc Guard Erc721Chain Cw721Store Cw721Wasm Chain Reference.
From S2P Require Import CollectionPb Erc721Pb Cw721Pb GoJson Builder.
From S2P Require Import Reference.
Open Scope go_scope.
Open Scope list_scope.

#[local] Existing Instance ref_eth.
#[local] Existing Instance ref_eth_laws.
#[local] Existing Instance ref_sdk.
#[local] Existing Instance ref_sdk_laws.
#[local] Existing Instance ref_nft.
#[local] Existing Instance ref_nft_laws.
#[local] Existing Instance ref_supply_laws.
#[local] Existing Instance ref_evm.
#[local] Existing Instance ref_evm_laws.
#[local] Existing Instance collection_codec.
#[local] Existing Instance collection_codec_laws.
#[local] Existing Instance erc721_codec.
#[local] Existing Instance erc721_codec_laws.
#[local] Existing Instance ref_fmt.
#[local] Existing Instance ref_wasm_state.
#[local] Existing Instance ref_wasm.
#[local] Existing Instance ref_wasm_laws.
#[local] Existing Instance cw721_codec.
#[local] Existing Instance cw721_codec_laws.
#[local] Existing Instance ref_ibc.
#[local] Existing Instance ref_ics721.
#[local] Existing Instance ref_nft_transfer.
#[local] Existing Instance ref_statedb.
#[local] Existing Instance app_checker.

(** ** Running a handler *)

Lemma run_ok {A} (m : GoM A) c : is_ok (m c) = true -> exists a c', m c = Ok a c'.
Proof. destruct (m c); [eauto|done|done]. Defined.

(** The result of a successful run. *)
Lemma run_val {A} (m : GoM A) (f : A -> Ctx -> bool) c :
  match m c with Ok a c' => f a c' | _ => false end = true -> exists a c', m c = Ok a c' /\ f a c' = true.
Proof. destruct (m c); [eauto|done|done]. Defined.

(** ** A concrete world *)

Definition alice_bytes : string := "alice alice alice al".
Definition bob_bytes : string := "bob bob bob bob bob ".
Definition alice : string := acc_String alice_bytes.
Definition bob : string := acc_String bob_bytes.
Definition alice_evm : address := BytesToAddress alice_bytes.

(** An ERC721 contract whose token 7 is Alice's, in its lowercase spelling. *)
Definition cat_addr : address := BytesToAddress (String "200" "ats cats cats cats.").
Definition cat : string := ToLower (Hex cat_addr).

Definition cat_contract (owner : address) : RefEvm.contract :=
  RefEvm.MkContract {[7%Z := owner]} {[7%Z := "ipfs://cat/7"]}.

Definition world (s : ErcStore) (n : RefNft.state) (owner : address) : Ctx :=
  MkCtx s n (RefEvm.MkEvm 5 {[addr_bytes cat_addr := cat_contract owner]}) (Some 30000000%N) []
    empty_cw RefWasm.empty.

Definition no_nfts : RefNft.state := RefNft.MkState ∅ ∅.

(** The class "kitty" of Alice, with one NFT of hers. *)
Definition kitties : RefNft.state :=
  RefNft.MkState
    {["kitty" := RefNft.MkClassData "Kitties" "KIT" "" "" ""
        (Some (CollectionPb.DenomMetadata_MarshalToSizedBuffer (MkDenomMetadata alice "" false false "")))]}
    {[("kitty", "kit1") := RefNft.MkTokenData "ipfs://kit/1" "" None alice_bytes]}.

Definition ctx_cat : Ctx := world empty_erc no_nfts alice_evm.
Definition ctx_kitty : Ctx := world empty_erc kitties alice_evm.

Definition msg_erc : MsgConvertERC721 := MkMsgConvertERC721 cat ["7"] bob alice "" [].
Definition msg_nft : MsgConvertNFT := MkMsgConvertNFT "kitty" ["kit1"] alice (Hex alice_evm) "" [].

(** ** Stores *)

Lemma ids_distinct_empty cls : ids_distinct empty_erc cls.
Proof. intros a q Hq. by apply registered_empty in Hq. Qed.

Lemma good_hex a : IsHexAddress a = true -> HasPrefix (ToLower a) "0x" = true -> good_address a.
Proof. intros Ha Hp. destruct (IsHexAddress_chars a Ha). by split_and!. Qed.

Lemma good_cat : good_address cat.
Proof. apply good_hex; vm_compute; reflexivity. Qed.

(** A store with one registered pair and one binding. *)
Definition with_pair (cls : string) : ErcStore :=
  register empty_erc (NewTokenPair cat_addr cls) (Erc721Pb.TokenPair_MarshalToSizedBuffer (NewTokenPair cat_addr cls)).
Definition with_binding (cls nft : string) : ErcStore :=
  match SetNFTPairs (with_pair cls) cat "7" cls nft with inr s => s | inl _ => empty_erc end.

Definition marshals (cls : string) : Prop :=
  Marshal_TokenPair (NewTokenPair cat_addr cls) =
  inr (Erc721Pb.TokenPair_MarshalToSizedBuffer (NewTokenPair cat_addr cls)).

Lemma with_pair_ok cls : marshals cls -> registry_ok (with_pair cls) /\ store_ok (with_pair cls).
Proof.
  intros Hm. split; [|exact store_ok_empty]. apply register_ok; try apply lookup_empty; try done.
  apply registry_ok_empty.
Qed.

Lemma kitty_pair_ok : store_ok (with_pair "kitty").
Proof. apply with_pair_ok. vm_compute. reflexivity. Qed.

Lemma with_pair_registered cls q : marshals cls -> registered (with_pair cls) q <-> q = NewTokenPair cat_addr cls.
Proof.
  intros Hm. unfold with_pair. rewrite register_registered; [|done|apply lookup_empty].
  split; [|by left]. intros [->|Hq]; [done|]. by apply registered_empty in Hq.
Qed.

Lemma with_binding_ok cls nft :
  marshals cls ->
  match SetNFTPairs (with_pair cls) cat "7" cls nft with inr _ => true | inl _ => false end = true ->
  store_ok (with_binding cls nft) /\ registry_ok (with_binding cls nft) /\
  (forall q, registered (with_binding cls nft) q <-> q = NewTokenPair cat_addr cls).
Proof.
  intros Hm Hok. destruct (with_pair_ok cls Hm) as [Hr Hs].
  assert (SetNFTPairs (with_pair cls) cat "7" cls nft = inr (with_binding cls nft)) as Hset.
  { unfold with_binding. by destruct (SetNFTPairs _ _ _ _ _). }
  destruct (SetNFTPairs_ok _ _ _ _ _ _ Hs good_cat Hset) as (n & l & Hp & Hb & Hbs).
  split; [eapply bound_store_ok; eauto; [apply good_cat|apply uid_nonempty]|].
  destruct Hbs as (_ & _ & E1 & E2 & E3 & _). split; [by eapply registry_ext|].
  intros q. rewrite <- with_pair_registered by done. unfold registered. by rewrite E1.
Qed.

(** The voucher class ibc/cats and the native class kitty, bound to token 7. *)
Definition vouchers : ErcStore := with_binding "ibc/cats" "cat7".
Definition bound_kitty : ErcStore := with_binding "kitty" "kit1".

Lemma vouchers_ok :
  store_ok vouchers /\ registry_ok vouchers /\
  (forall q, registered vouchers q <-> q = NewTokenPair cat_addr "ibc/cats").
Proof. apply with_binding_ok; vm_compute; reflexivity. Qed.

Lemma bound_kitty_ok :
  store_ok bound_kitty /\ registry_ok bound_kitty /\
  (forall q, registered bound_kitty q <-> q = NewTokenPair cat_addr "kitty").
Proof. apply with_binding_ok; vm_compute; reflexivity. Qed.

Lemma vouchers_forward : forward vouchers = {[CreateTokenUID cat "7" := "cat7,ibc/cats"]}.
Proof. eapply bool_decide_eq_true_1. vm_compute. reflexivity. Qed.

Lemma bound_kitty_forward : forward bound_kitty = {[CreateTokenUID cat "7" := "kit1,kitty"]}.
Proof. eapply bool_decide_eq_true_1. vm_compute. reflexivity. Qed.

Lemma vouchers_registered : bindings_registered vouchers.
Proof.
  intros t n. rewrite vouchers_forward. intros [<- <-]%lookup_singleton_Some. vm_compute. reflexivity.
Qed.

Lemma app_inj_len a1 b1 a2 b2 : len a1 = len a2 -> a1 +:+ b1 = a2 +:+ b2 -> a1 = a2 /\ b1 = b2.
Proof.
  intros Hl E. pose proof (f_equal (str_take (len a1)) E) as E1. pose proof (f_equal (str_drop (len a1)) E) as E2.
  rewrite str_take_app, Hl, str_take_app in E1. rewrite str_drop_app, Hl, str_drop_app in E2. done.
Qed.

(** The id of the reference hash is injective on addresses of one length. *)
Lemma no_collision s p cls :
  (forall q, registered s q <-> q = p) -> len (Erc721Address p) = 42 -> ids_distinct s cls.
Proof.
  intros Hs Ha a q Hq%Hs. subst q. destruct p as [pa pc]. cbn [Erc721Address] in Ha. intros E.
  unfold GetID in E. cbn [Erc721Address tp_ClassId NewTokenPair] in E.
  apply (f_equal (str_drop 1)) in E.
  change (ToLower (Hex a) +:+ "|" +:+ cls = pa +:+ "|" +:+ pc) in E.
  apply app_inj_len in E as [<- E]; [|by rewrite len_ToLower, Hex_len].
  apply (app_inj_len "|" cls "|" pc) in E as [_ <-]; done.
Qed.

(** ** x/collection *)

Definition msg_transfer : MsgTransferNFT := MkMsgTransferNFT "kit1" "kitty" DoNotModify DoNotModify DoNotModify DoNotModify alice bob.

Lemma TransferNFT_correct_witness :
  exists u c', TransferNFT msg_transfer ctx_kitty = Ok u c' /\
    AccAddressFromBech32 bob = Some (nk_GetOwner (c_nft c') "kitty" "kit1").
Proof.
  assert (is_ok ((TransferNFT msg_transfer) ctx_kitty) = true) as Hok by (vm_compute; reflexivity).
  apply run_ok in Hok as (u & c' & Hr).
  exists u, c'. split; [exact Hr|]. apply (TransferNFT_correct _ _ _ _ Hr).
Defined.

Definition msg_mint : MsgMintNFT := MkMsgMintNFT "kit2" "kitty" "Kit" "ipfs://kit/2" "" "" alice bob.

Lemma MintNFT_correct_witness :
  exists u c', MintNFT msg_mint ctx_kitty = Ok u c' /\
    AccAddressFromBech32 bob = Some (nk_GetOwner (c_nft c') "kitty" "kit2").
Proof.
  assert (is_ok ((MintNFT msg_mint) ctx_kitty) = true) as Hok by (vm_compute; reflexivity).
  apply run_ok in Hok as (u & c' & Hr).
  exists u, c'. split; [exact Hr|]. apply (MintNFT_correct _ _ _ _ Hr).
Defined.

Definition msg_edit : MsgEditNFT := MkMsgEditNFT "kit1" "kitty" "New name" DoNotModify DoNotModify DoNotModify alice.

Lemma EditNFT_correct_witness :
  exists u c', EditNFT msg_edit ctx_kitty = Ok u c' /\ same_owners (c_nft ctx_kitty) (c_nft c').
Proof.
  assert (is_ok ((EditNFT msg_edit) ctx_kitty) = true) as Hok by (vm_compute; reflexivity).
  apply run_ok in Hok as (u & c' & Hr).
  exists u, c'. split; [exact Hr|]. apply (EditNFT_correct _ _ _ _ Hr).
Defined.

Definition msg_issue : MsgIssueDenom := MkMsgIssueDenom "puppy" "Puppies" "" alice "PUP" true false "" "" "" "".

Lemma IssueDenom_correct_witness :
  exists u c', IssueDenom msg_issue ctx_kitty = Ok u c' /\ same_tokens (c_nft ctx_kitty) (c_nft c').
Proof.
  assert (is_ok ((IssueDenom msg_issue) ctx_kitty) = true) as Hok by (vm_compute; reflexivity).
  apply run_ok in Hok as (u & c' & Hr).
  exists u, c'. split; [exact Hr|]. apply (IssueDenom_correct _ _ _ _ Hr).
Defined.

Definition msg_denom : MsgTransferDenom := MkMsgTransferDenom "kitty" alice bob.

Lemma TransferDenom_correct_witness :
  exists u c' den, TransferDenom msg_denom ctx_kitty = Ok u c' /\
    GetDenomInfo "kitty" ctx_kitty = Ok den ctx_kitty.
Proof.
  assert (is_ok ((TransferDenom msg_denom) ctx_kitty) = true) as Hok by (vm_compute; reflexivity).
  apply run_ok in Hok as (u & c' & Hr).
  destruct (TransferDenom_correct _ _ _ _ Hr) as (den & _ & _ & Hden & _). exists u, c', den. split; [exact Hr|exact Hden].
Defined.

Lemma ClampDenomMetadataBounds_correct_witness :
  ClampDenomMetadataBounds "{}" (String "255" "x") = ("{}", "x", true) /\
  ValidateDenomMetadataBounds "{}" "x" = None.
Proof.
  split; [vm_compute; reflexivity|].
  apply (ClampDenomMetadataBounds_correct "{}" (String "255" "x") "{}" "x" true). vm_compute. reflexivity.
Defined.

Definition msg_burn : MsgBurnNFT := MkMsgBurnNFT "kit1" "kitty" alice.

Lemma BurnNFT_unbound_witness :
  exists u c', BurnNFT msg_burn ctx_kitty = Ok u c' /\
    nk_GetNFT (c_nft c') "kitty" "kit1" = None.
Proof.
  assert (is_ok ((BurnNFT msg_burn) ctx_kitty) = true) as Hok by (vm_compute; reflexivity).
  apply run_ok in Hok as (u & c' & Hr).
  exists u, c'. split; [exact Hr|]. apply (BurnNFT_unbound _ _ _ _ Hr).
Defined.

(** ** Identifiers and the UID index *)

Lemma uid_encoding_roundtrip_witness :
  GetNFTFromUID (CreateNFTUID "kitty" "a,b") = ("a,b", "kitty").
Proof. apply (uid_encoding_roundtrip "kitty" "a,b" cat "7"); vm_compute; [reflexivity|discriminate|reflexivity|discriminate]. Defined.

Lemma token_id_spellings_witness :
  parseEVMTokenIDValue "0x0a" true = Some (10%Z, true) /\ CanonicalEVMTokenID "0x0a" = Some ("10", true).
Proof.
  split; [vm_compute; reflexivity|]. apply (token_id_spellings "0x0a" 10 true). vm_compute. reflexivity.
Defined.

Lemma SetNFTPairs_succeeds_iff_witness :
  bindable (with_pair "kitty") cat "7" "kit1,kitty".
Proof.
  destruct (proj1 (SetNFTPairs_succeeds_iff (with_pair "kitty") cat "7" "kitty" "kit1"
    kitty_pair_ok good_cat)) as (n & l & _ & Hb & _); [|exact Hb].
  destruct (SetNFTPairs (with_pair "kitty") cat "7" "kitty" "kit1") as [e|s] eqn:E; [|by exists s].
  exfalso. apply (f_equal (fun r => match r with inr _ => true | inl _ => false end)) in E.
  vm_compute in E. discriminate.
Defined.

Lemma kitty_bound : SetNFTPairs (with_pair "kitty") cat "7" "kitty" "kit1" = inr bound_kitty.
Proof.
  unfold bound_kitty, with_binding.
  destruct (SetNFTPairs (with_pair "kitty") cat "7" "kitty" "kit1") as [e|s] eqn:E; [|done].
  exfalso. apply (f_equal (fun r => match r with inr _ => true | inl _ => false end)) in E.
  vm_compute in E. discriminate.
Qed.

(** Another spelling of the same token: the checksummed contract, the legacy id. *)
Definition cat_checksum : string := Hex cat_addr.

Lemma good_checksum : good_address cat_checksum.
Proof. apply good_hex; vm_compute; reflexivity. Qed.

Lemma other_spelling : same_token cat "7" cat_checksum "0x07".
Proof. split; vm_compute; reflexivity. Qed.

Lemma SetNFTPairs_one_to_one_witness :
  store_ok bound_kitty /\ GetNFTPairByContractTokenID bound_kitty cat_checksum "0x07" = "kit1,kitty".
Proof.
  destruct (SetNFTPairs_one_to_one _ _ _ _ _ _ kitty_pair_ok good_cat kitty_bound)
    as (Hs & _ & Hr & _).
  split; [exact Hs|]. exact (Hr _ _ good_checksum other_spelling).
Defined.

Lemma Resolve_any_spelling_witness :
  ResolveNFTUIDPair bound_kitty cat "7" = ResolveNFTUIDPair bound_kitty cat_checksum "0x07".
Proof.
  apply (Resolve_any_spelling bound_kitty cat "7" cat_checksum "0x07" (proj1 bound_kitty_ok) good_cat
    good_checksum); [discriminate|exact other_spelling].
Defined.

Lemma bind_unbind_roundtrip_witness :
  forward (deleteVoucherBindingKeys bound_kitty cat_checksum "0x07" "kitty" "kit1") = ∅.
Proof.
  destruct (bind_unbind_roundtrip _ _ _ _ _ _ cat_checksum "0x07" kitty_pair_ok good_cat
    good_checksum other_spelling kitty_bound) as (Hf & _); [|exact Hf].
  intros u _. apply lookup_empty.
Defined.

(** ** The pair table and genesis *)

Lemma kitty_registered : registered bound_kitty (NewTokenPair cat_addr "kitty").
Proof. by apply bound_kitty_ok. Qed.

Lemma pair_lookups_witness :
  GetPairByClass bound_kitty "kitty" = inr (NewTokenPair cat_addr "kitty").
Proof.
  destruct (pair_lookups bound_kitty (NewTokenPair cat_addr "kitty") (proj1 (proj2 bound_kitty_ok)))
    as [Hcls _]. exact (proj1 Hcls kitty_registered).
Defined.

Lemma PurgeTokenPair_complete_witness :
  GetPairByClass (PurgeTokenPair bound_kitty (NewTokenPair cat_addr "kitty")) "kitty"
  = inl (ErcErr ErrTokenPairNotFound).
Proof.
  destruct (PurgeTokenPair_complete bound_kitty (NewTokenPair cat_addr "kitty") (proj1 bound_kitty_ok)
    (proj1 (proj2 bound_kitty_ok)) kitty_registered) as (_ & _ & _ & Hcls & _). exact Hcls.
Defined.

(** The kitty store with a refund record and stored parameters. *)
Definition full_store : ErcStore :=
  upd_Params (Params_MarshalToSizedBuffer (NewParams true false))
    (SetEvmAddressByContractTokenId bound_kitty cat "kit1" (Hex alice_evm)).

Lemma full_registry : registry_ok full_store.
Proof. eapply registry_ext; [..|exact (proj1 (proj2 bound_kitty_ok))]; reflexivity. Qed.

Lemma full_store_ok : store_ok full_store.
Proof. exact (proj1 bound_kitty_ok). Qed.

Lemma full_bindings : bindings_registered full_store.
Proof.
  intros t n. change (forward full_store) with (forward bound_kitty). rewrite bound_kitty_forward.
  intros [<- <-]%lookup_singleton_Some. vm_compute. reflexivity.
Qed.

Lemma full_refunds : refunds_ok full_store.
Proof.
  intros k v. assert (refunds full_store = {[refund_key cat "kit1" := Hex alice_evm]}) as ->.
  { eapply bool_decide_eq_true_1. vm_compute. reflexivity. }
  intros [<- <-]%lookup_singleton_Some. split; [vm_compute; discriminate|].
  split; [vm_compute; reflexivity|]. exists (NewTokenPair cat_addr "kitty"). split; [|vm_compute; split; [reflexivity|lia]].
  apply elem_of_GetTokenPairs; [apply full_registry|]. apply kitty_registered.
Qed.

Lemma full_classes : classes_ok full_store.
Proof. intros q Hq. apply bound_kitty_ok in Hq as ->. vm_compute. reflexivity. Qed.

Lemma ExportGenesis_validates_witness : Genesis_Validate (ExportGenesis full_store) = None.
Proof. exact (ExportGenesis_validates full_store full_registry full_classes full_refunds). Defined.

Lemma genesis_roundtrip_witness :
  InitGenesis true empty_erc (ExportGenesis full_store) = Some full_store.
Proof.
  apply (genesis_roundtrip full_store (NewParams true false) full_registry full_store_ok full_bindings
    full_refunds); [reflexivity|discriminate].
Defined.

(** ** Conversions *)

Lemma msg_erc_good : good_address (ce_EvmContractAddress msg_erc).
Proof. exact good_cat. Qed.

Definition not_voucher (r : MsgConvertERC721Response) : bool := negb (IsIBCDenom (cr_ClassId r)).

Lemma ConvertERC721_correct_witness :
  exists r c', ConvertERC721 msg_erc ctx_cat = Ok r c' /\ store_ok (c_erc c').
Proof.
  assert (match ConvertERC721 msg_erc ctx_cat with Ok r c' => (fun r _ => not_voucher r) r c' | _ => false end
          = true) as Hok by (vm_compute; reflexivity).
  apply run_val in Hok as (r & c' & Hr & Hv). apply negb_true_iff in Hv.
  exists r, c'. split; [exact Hr|].
  destruct (ConvertERC721_correct msg_erc ctx_cat r c' module_ok_empty (ids_distinct_empty _) msg_erc_good
    Hr Hv) as (_ & Hs & _). exact Hs.
Defined.

Lemma ConvertERC721_ownership_witness :
  exists r c' tp, ConvertERC721 msg_erc ctx_cat = Ok r c' /\
    GetERC721Contract tp = HexToAddress (CanonicalContractAddress (ce_EvmContractAddress msg_erc)).
Proof.
  assert (is_ok (ConvertERC721 msg_erc ctx_cat) = true) as Hok by (vm_compute; reflexivity).
  apply run_ok in Hok as (r & c' & Hr).
  destruct (ConvertERC721_ownership msg_erc ctx_cat r c' registry_ok_empty (ids_distinct_empty _) Hr)
    as (tp & _ & _ & _ & _ & _ & Ha & _). exists r, c', tp. split; [exact Hr|exact Ha].
Defined.

(** The voucher cat7 is in escrow, its ERC721 half is Alice's. *)
Definition escrowed : RefNft.state :=
  RefNft.MkState
    {["ibc/cats" := RefNft.MkClassData "Cats" "CAT" "" "" ""
        (Some (CollectionPb.DenomMetadata_MarshalToSizedBuffer (MkDenomMetadata (acc_String AccModuleAddress) "" false false "")))]}
    {[("ibc/cats", "cat7") := RefNft.MkTokenData "ipfs://cat/7" "" None AccModuleAddress]}.
Definition ctx_voucher : Ctx := world vouchers escrowed alice_evm.
Definition msg_voucher : MsgConvertERC721 := MkMsgConvertERC721 cat ["7"] alice alice "ibc/cats" ["cat7"].

Lemma vouchers_module : module_ok vouchers.
Proof. destruct vouchers_ok as (Hs & Hr & _). by split. Qed.

Lemma vouchers_ids cls : ids_distinct vouchers cls.
Proof. apply (no_collision _ (NewTokenPair cat_addr "ibc/cats")); [apply vouchers_ok|vm_compute; reflexivity]. Qed.

Lemma ConvertERC721_voucher_terminal_witness :
  exists r c', ConvertERC721 msg_voucher ctx_voucher = Ok r c' /\
    unbound (c_erc c') (cr_EvmContractAddress r) "7" (cr_ClassId r) "cat7".
Proof.
  assert (match ConvertERC721 msg_voucher ctx_voucher with
          | Ok r c' => (fun r _ => IsIBCDenom (cr_ClassId r) && bool_decide (cr_CosmosTokenIds r = ["cat7"])) r c'
          | _ => false end = true) as Hok by (vm_compute; reflexivity).
  apply run_val in Hok as (r & c' & Hr & Hv). apply andb_true_iff in Hv as [Hv Hids%bool_decide_eq_true].
  exists r, c'. split; [exact Hr|].
  apply (ConvertERC721_voucher_terminal msg_voucher ctx_voucher r c' vouchers_module (vouchers_ids _) good_cat
    Hr Hv "7" "cat7"). rewrite Hids. left.
Defined.

Lemma ConvertNFT_correct_witness :
  exists u c' tp ids, ConvertNFT msg_nft ctx_kitty = Ok u c' /\ converted msg_nft ctx_kitty tp ids c'.
Proof.
  assert (is_ok (ConvertNFT msg_nft ctx_kitty) = true) as Hok by (vm_compute; reflexivity).
  apply run_ok in Hok as (u & c' & Hr).
  destruct (ConvertNFT_correct msg_nft ctx_kitty u c' module_ok_empty (ids_distinct_empty _) Hr)
    as (_ & _ & tp & ids & Hc). exists u, c', tp, ids. split; [exact Hr|exact Hc].
Defined.

(** ** Refunds *)

(** Both halves of the kitty are held by the module. *)
Definition held_kitty : RefNft.state :=
  RefNft.MkState (RefNft.st_classes kitties)
    {[("kitty", "kit1") := RefNft.MkTokenData "ipfs://kit/1" "" None AccModuleAddress]}.
Definition ctx_refund : Ctx := world full_store held_kitty ModuleAddress.
Definition packet : NonFungibleTokenPacketData := MkPacketData "kitty" ["kit1"; "kit9"] bob alice "".

Lemma RefundPacketToken_never_fails_witness :
  (forall e c', RefundPacketToken packet ctx_refund <> Err e c') /\
  exists c', RefundPacketToken packet (set_gas ctx_refund None) = Ok tt c'.
Proof.
  split; [apply (RefundPacketToken_never_fails packet ctx_refund)|].
  destruct (RefundPacketToken_never_fails packet (set_gas ctx_refund None)) as [_ Hr].
  destruct (Hr eq_refl) as (c' & E & _). by exists c'.
Defined.

Lemma refund_token_all_or_nothing_witness :
  exists g c', refund_token "kitty" [] "kit1" ctx_refund = Ok g c' /\ refunded "kitty" "kit1" [] ctx_refund g c'.
Proof.
  assert (match refund_token "kitty" [] "kit1" ctx_refund with
          | Ok r c' => (fun (r : list erc721RefundGroup) _ => nonempty r) r c' | _ => false end = true) as Hok
    by (vm_compute; reflexivity).
  apply run_val in Hok as (g & c' & Hr & Hg).
  exists g, c'. split; [exact Hr|].
  pose proof (refund_token_all_or_nothing "kitty" [] "kit1" ctx_refund g c' full_store_ok Hr) as Hres.
  destruct Hres as [[_ Hz]|[_ Href]]; [|exact Href]. rewrite Hz in Hg. discriminate Hg.
Defined.

Lemma RefundPacketToken_keeps_invariants_witness :
  exists c', RefundPacketToken packet ctx_refund = Ok tt c' /\ store_ok (c_erc c').
Proof.
  assert (is_ok (RefundPacketToken packet ctx_refund) = true) as Hok by (vm_compute; reflexivity).
  apply run_ok in Hok as ([] & c' & Hr). exists c'. split; [exact Hr|].
  destruct (RefundPacketToken_keeps_invariants packet ctx_refund c' full_store_ok full_registry Hr)
    as [Hs _]. exact Hs.
Defined.

(** ** The settlement *)

Definition binding7 : voucherBinding := MkVoucherBinding "ibc/cats" "cat7" "7" cat.

Lemma SettleIBCVoucherPairs_never_fails_witness :
  exists k c', SettleIBCVoucherPairs (set_gas ctx_voucher None) = Ok k c'.
Proof. apply (SettleIBCVoucherPairs_never_fails (set_gas ctx_voucher None)). reflexivity. Defined.

Lemma settleVoucherBinding_outcomes_witness :
  exists c', settleVoucherBinding binding7 ctx_voucher = Ok settledOutcome c' /\
    unbound (c_erc c') cat "7" "ibc/cats" "cat7".
Proof.
  assert (match settleVoucherBinding binding7 ctx_voucher with
          | Ok o c' => (fun o _ => bool_decide (o = settledOutcome)) o c' | _ => false end = true) as Hok
    by (vm_compute; reflexivity).
  apply run_val in Hok as (o & c' & Hr & Ho%bool_decide_eq_true). subst o.
  exists c'. split; [exact Hr|].
  destruct (settleVoucherBinding_outcomes binding7 ctx_voucher settledOutcome c' Hr) as [_ Hu].
  apply Hu. discriminate.
Defined.

Lemma SettleIBCVoucherPairs_correct_witness :
  exists k c', SettleIBCVoucherPairs ctx_voucher = Ok k c' /\
    forall tp, registered (c_erc c') tp -> IsIBCDenom (tp_ClassId tp) = false.
Proof.
  assert (match SettleIBCVoucherPairs ctx_voucher with
          | Ok k c' => (fun k _ => n_kept k =? 0) k c' | _ => false end = true) as Hok
    by (vm_compute; reflexivity).
  apply run_val in Hok as (k & c' & Hr & Hk%Nat.eqb_eq). exists k, c'. split; [exact Hr|].
  destruct vouchers_ok as (Hs & Hreg & _).
  destruct (SettleIBCVoucherPairs_correct ctx_voucher k c' Hs Hreg Hr) as [_ Hn].
  exact (Hn Hk).
Defined.

(** ** Entry points *)

Lemma is_panic_true {A} (r : outcome Ctx error A) : match r with Panic => true | _ => false end = true -> r = Panic.
Proof. by destruct r. Qed.

(** A call that reverts, and one whose store accesses the meter cannot pay. *)
Lemma CallEVMWithData_budget_witness :
  (exists c', CallEVMWithData alice_evm (Some cat_addr) "" true ctx_cat = Err VMExecution c' /\ evm_only ctx_cat c') /\
  CallEVMWithData alice_evm (Some cat_addr) "" true (set_gas ctx_cat (Some 1000%N)) = Panic.
Proof.
  split; [|by apply is_panic_true; vm_compute].
  destruct (CallEVMWithData_budget alice_evm (Some cat_addr) "" true ctx_cat 5 eq_refl) as [Hr Hf].
  assert (match CallEVMWithData alice_evm (Some cat_addr) "" true ctx_cat with Err VMExecution _ => true | _ => false end = true)
    as Hv by (vm_compute; reflexivity).
  destruct (CallEVMWithData _ _ _ _ ctx_cat) as [r c'|e c'|]; [discriminate Hv| |discriminate Hv].
  destruct e; try discriminate Hv. exists c'. split; [reflexivity|apply Hf].
Defined.

Definition account6 : statedb_Account := {| sa_Nonce := 6; sa_Balance := Some 0%Z; sa_CodeHash := "" |}.

Lemma SetAccount_protects_module_witness :
  exists s', SetAccount (c_evm ctx_cat) ModuleAddress account6 = inr s' /\
    IsEmptyCodeHash (sa_CodeHash account6) = true.
Proof.
  assert (exists s', SetAccount (c_evm ctx_cat) ModuleAddress account6 = inr s') as [s' Hs].
  { unfold SetAccount. rewrite bool_decide_true by reflexivity. cbn [negb]. eexists. reflexivity. }
  exists s'. split; [exact Hs|].
  destruct (SetAccount_protects_module (c_evm ctx_cat) ModuleAddress account6 s' Hs) as [_ Hm].
  destruct (Hm eq_refl) as [Hc _]. exact Hc.
Defined.

Lemma MsgConvertERC721_ValidateBasic_ok_witness :
  MsgConvertERC721_ValidateBasic msg_voucher = None /\ IsHexAddress (ce_EvmContractAddress msg_voucher) = true.
Proof.
  assert (MsgConvertERC721_ValidateBasic msg_voucher = None) as Hv by (vm_compute; reflexivity).
  split; [exact Hv|]. apply (MsgConvertERC721_ValidateBasic_ok msg_voucher Hv).
Defined.

Definition msg_params : MsgUpdateParams :=
  MkMsgUpdateParams (acc_String (NewModuleAddress "gov")) (NewParams true false).

Lemma UpdateParams_correct_witness :
  exists u c', UpdateParams msg_params ctx_cat = Ok u c' /\ GetParams (c_erc c') = NewParams true false.
Proof.
  pose proof (UpdateParams_correct msg_params ctx_cat) as Hs.
  assert (is_ok (UpdateParams msg_params ctx_cat) = true) as Hok by (vm_compute; reflexivity).
  apply run_ok in Hok as (u & c' & Hr). rewrite Hr in Hs. exists u, c'. split; [exact Hr|].
  destruct Hs as (_ & _ & Hp). exact Hp.
Defined.

Definition msg_register : MsgConvertNFT := MkMsgConvertNFT "kitty" ["kit1"] alice (Hex alice_evm) cat ["7"].

Lemma RegisterNFT_correct_witness :
  exists tp c', RegisterNFT msg_register ctx_kitty = Ok tp c' /\ GetPairByClass (c_erc c') "kitty" = inr tp.
Proof.
  assert (is_ok (RegisterNFT msg_register ctx_kitty) = true) as Hok by (vm_compute; reflexivity).
  apply run_ok in Hok as (tp & c' & Hr). exists tp, c'. split; [exact Hr|].
  destruct (RegisterNFT_correct msg_register ctx_kitty tp c' registry_ok_empty (ids_distinct_empty _) Hr)
    as (_ & _ & _ & Hp & _). exact Hp.
Defined.

Lemma CreateNFTClass_restrictions_witness :
  exists u c', CreateNFTClass cat "uptick-cats" ctx_cat = Ok u c' /\
    nk_GetClass (c_nft ctx_cat) "uptick-cats" = None.
Proof.
  assert (is_ok (CreateNFTClass cat "uptick-cats" ctx_cat) = true) as Hok by (vm_compute; reflexivity).
  apply run_ok in Hok as (u & c' & Hr). exists u, c'. split; [exact Hr|].
  destruct (CreateNFTClass_restrictions cat "uptick-cats" ctx_cat u c' Hr) as [Hn _]. exact Hn.
Defined.

Lemma getNftDatas_correct_witness :
  getNftDatas ["7"; ""] ["kit1"; "kit2"] ["0x07"; "9"] TTokenId = inr ["7"; "9"] /\
  List.length ["7"; "9"] = List.length ["kit1"; "kit2"].
Proof.
  assert (getNftDatas ["7"; ""] ["kit1"; "kit2"] ["0x07"; "9"] TTokenId = inr ["7"; "9"]) as Hr
    by (vm_compute; reflexivity).
  split; [exact Hr|]. apply (getNftDatas_correct ["7"; ""] ["kit1"; "kit2"] ["0x07"; "9"] TTokenId ["7"; "9"]);
    [discriminate|by right|by right|exact Hr].
Defined.

Definition msg_ibc : MsgTransferERC721 :=
  MkMsgTransferERC721 cat ["7"] "nft-transfer" "channel-0" "" [] alice bob (MkTimeout 0 0 1) "memo".

Lemma TransferERC721_records_receiver_witness :
  exists u c' sender, TransferERC721 msg_ibc ctx_cat = Ok u c' /\
    AccAddressFromBech32 (te_CosmosSender msg_ibc) = Some sender.
Proof.
  assert (is_ok (TransferERC721 msg_ibc ctx_cat) = true) as Hok by (vm_compute; reflexivity).
  apply run_ok in Hok as (u & c' & Hr).
  destruct (TransferERC721_records_receiver msg_ibc ctx_cat u c' Hr) as (_ & _ & sender & _ & Hs & _).
  exists u, c', sender. split; [exact Hr|exact Hs].
Defined.

(** A binding under the canonical key and, left by an older version, under the
    hexadecimal spelling of the same token. *)
Definition doubled_store : ErcStore :=
  upd_Forward (fun _ => {[CreateTokenUID cat "7" := "kit1,kitty"; CreateTokenUID cat "0x07" := "kit1,kitty"]})
    (upd_Reverse (fun _ => {["kit1,kitty" := CreateTokenUID cat "7"]}) empty_erc).

Lemma prune_clean_report_witness :
  is_Some (forward doubled_store !! CreateTokenUID cat "0x07") /\
  forall t, is_Some (forward (snd (PruneDuplicateUIDIndexEntries doubled_store)) !! t) <->
            authority (snd (PruneDuplicateUIDIndexEntries doubled_store)) t.
Proof.
  split; [eexists; vm_compute; reflexivity|].
  apply (prune_clean_report doubled_store); vm_compute; reflexivity.
Defined.

(** ** The state machine *)

Lemma elsewhere_refl (c : Ctx) : elsewhere c c.
Proof. by split; [split..|]. Qed.

(** The releases of the reference ICS-721 move NFTs to accounts. *)
Lemma release_elsewhere data c u c' : RefIcs721.release data c = Ok u c' -> elsewhere c c'.
Proof.
  intros Hr. apply mbind_ok in Hr as (cls & c1 & Hv & Hr). injection Hv as Hv Hc. subst cls c1.
  apply mbind_ok in Hr as (r & c1 & Hb & Hr). apply lift_opt_ok in Hb as [Hb ->].
  apply bech32_nonempty in Hb as [Hr0 _].
  refine (for_each_inv (elsewhere c) _ _ _ c c' u (elsewhere_refl c) Hr).
  intros t d d' v _ [[Ee Oe] [Ec Oc] Hk] Hw. apply nft_write_ok in Hw as (st & Ht & ->).
  assert (forall cl i, nk_GetOwner (c_nft d) cl i <> "" -> nk_GetOwner st cl i <> "") as Ho.
  { intros cl i. apply Transfer_spec in Ht as (_ & _ & _ & Hown). rewrite Hown. by case_decide. }
  split; [split; [done|] ..|].
  - intros cl i Hb Hold. apply Ho. by apply Oe.
  - intros cl i Hb Hold. apply Ho. by apply Oc.
  - intros Hn. cbn. by eapply (inv_Transfer (P := nft_ok)), Hk.
Qed.

Lemma refund_elsewhere packet c u c' : RefIcs721.refund packet c = Ok u c' -> elsewhere c c'.
Proof. unfold RefIcs721.refund. destruct (RefIcs721.decode _); [apply release_elsewhere|done]. Qed.

#[local] Instance ref_ibc_laws : IbcLaws.
Proof.
  split.
  - intros m c u c' [= _ <-]. apply elsewhere_refl.
  - intros p d a c u c'. destruct a; cbn; [intros [= _ <-]|apply release_elsewhere|intros [= _ <-]];
      apply elsewhere_refl.
  - intros p d c u c'. apply release_elsewhere.
  - intros id c u c' [= _ <-]. apply elsewhere_refl.
  - intros v p r c u c' [= _ <-]. apply elsewhere_refl.
  - intros v p a r c u c'. cbn. destruct (a =?s "ok"); [intros [= _ <-]; apply elsewhere_refl|apply refund_elsewhere].
  - intros v p r c u c'. apply refund_elsewhere.
Qed.

(** Alice converts cat 7 for Bob, who tries to burn the NFT it is bound to, has
    ICS-721 try as well, and in the end gives it to Alice. *)
Definition ctx_converted : Ctx := deliver (ConvertERC721 msg_erc) ctx_cat.
Definition msg_burn_bound : MsgBurnNFT := MkMsgBurnNFT "uptick7" (derived_class msg_erc) bob.
Definition msg_give : MsgTransferNFT :=
  MkMsgTransferNFT "uptick7" (derived_class msg_erc) "[do-not-modify]" "[do-not-modify]" "[do-not-modify]"
    "[do-not-modify]" bob alice.
Definition ctx_given : Ctx :=
  deliver (TransferNFT msg_give)
    (deliver (InterNft.Burn (derived_class msg_erc) "uptick7")
       (deliver (BurnNFT msg_burn_bound) ctx_converted)).

Lemma reachable_ok_witness :
  chain_ok ctx_given /\
  nk_GetOwner (c_nft ctx_given) (derived_class msg_erc) "uptick7" = alice_bytes /\
  reverse (c_erc ctx_given) !! CreateNFTUID (derived_class msg_erc) "uptick7" = Some (CreateTokenUID cat "7").
Proof.
  split; [apply reachable_ok|split; vm_compute; reflexivity].
  eapply reach_step; [|apply step_transfer]. eapply reach_step; [|apply step_ics721_burn].
  eapply reach_step; [|apply step_burn].
  eapply reach_step; [|apply (step_convert_erc721 _ msg_erc); [exact good_cat|apply ids_distinct_empty]].
  apply reach_initial. split_and!; [reflexivity|reflexivity|intros; reflexivity..].
Defined.

(** ** The genesis of x/collection *)

Definition kitty_genesis : GenesisState :=
  MkGenesisState [MkCollection
    (MkDenom "kitty" "Kitties" "{}" alice "KIT" true false "cats" "ipfs://kit" "" "")
    [MkBaseNFT "kit1" "Tom" "ipfs://kit/1" "" bob ""; MkBaseNFT "kit2" "Kit" "ipfs://kit/2" "" alice ""]].

Lemma ctx_cat_empty : empty_nft (c_nft ctx_cat).
Proof. split; intros; reflexivity. Qed.

Lemma ctx_cat_supply : supply_ok (c_nft ctx_cat).
Proof. intros c. reflexivity. Qed.

Lemma kitty_genesis_fits : genesis_fits kitty_genesis.
Proof.
  intros col Hcol. apply list_elem_of_singleton in Hcol as ->. split; [vm_compute; reflexivity|].
  intros n [->|[->|Hn%elem_of_nil]%elem_of_cons]%elem_of_cons; [vm_compute; reflexivity..|done].
Qed.

Lemma InitGenesis_imports_what_validates_witness :
  exists c', CollectionGenesis.InitGenesis kitty_genesis ctx_cat = Ok tt c'.
Proof.
  assert (is_ok ((ValidateGenesis kitty_genesis : GoM unit) ctx_cat) = true) as Hok by (vm_compute; reflexivity).
  apply run_ok in Hok as ([] & c' & Hr). pose proof Hr as [-> _]%ValidateGenesis_iff.
  apply (InitGenesis_imports_what_validates kitty_genesis ctx_cat kitty_genesis_fits ctx_cat_empty). exact Hr.
Defined.

Lemma genesis_export_import_witness :
  exists c', CollectionGenesis.InitGenesis kitty_genesis ctx_cat = Ok tt c' /\
    CollectionGenesis.ExportIssuesWithReport c' = [].
Proof.
  assert (is_ok (CollectionGenesis.InitGenesis kitty_genesis ctx_cat) = true) as Hok by (vm_compute; reflexivity).
  apply run_ok in Hok as ([] & c' & Hr). exists c'. split; [exact Hr|].
  apply (genesis_export_import kitty_genesis ctx_cat tt c' kitty_genesis_fits ctx_cat_empty ctx_cat_supply); [|exact Hr].
  intros col Hcol. apply list_elem_of_singleton in Hcol as ->. split; vm_compute; reflexivity.
Defined.

Lemma ExportGenesis_complete_witness :
  denom_ids (Collections (CollectionGenesis.ExportGenesis ctx_kitty)) = ["kitty"].
Proof.
  destruct (ExportGenesis_complete ctx_kitty) as [Hids _]. rewrite Hids. vm_compute. reflexivity.
Defined.

(** ** The index as a map *)

(** Token 7 of the cat contract, written with the checksummed address and in hex. *)
Lemma index_refines_bijection_witness :
  abs (with_binding "kitty" "kit1") !! token_of (Hex cat_addr) "0x7" = Some "kit1,kitty".
Proof.
  assert (store_ok (with_binding "kitty" "kit1")) as Hs by (apply with_binding_ok; vm_compute; reflexivity).
  destruct (index_refines_bijection (with_binding "kitty" "kit1") (Hex cat_addr) "0x7" "kitty" "kit1" Hs
    (good_Hex cat_addr)) as (_ & E & _); [discriminate|].
  destruct (abs (with_binding "kitty" "kit1") !! token_of (Hex cat_addr) "0x7") as [n|];
    cbn in E; vm_compute in E; [by rewrite <- E|discriminate].
Defined.

(** ** A class and a token over ICS-721 *)
Section TransportRun.
(** Floats that are powers of ten *)
Definition ref_float : FloatLib := {|
  float64 := N;
  ParseFloat s := if HasPrefix s "1e" then Z.to_N <$> scan_nat 10 (str_drop 2 s) else None;
  FormatFloat n := "1e" +:+ BigString (Z.of_N n);
|}.
#[local] Existing Instance ref_float.

Lemma read_digits_all s : str_forallb is_digit s = true -> read_digits s = (s, "").
Proof. induction s as [|a s IH]; [done|]. cbn. intros [-> Hs]%andb_true_iff. by rewrite (IH Hs). Qed.

Lemma ref_float_laws : FloatLaws.
Proof.
  split; intros n; cbn [FormatFloat ParseFloat ref_float].
  - pose proof (BigString_digits (Z.of_N n) ltac:(lia)) as Hd. pose proof (BigString_nonempty (Z.of_N n) ltac:(lia)) as Hne.
    destruct (BigString (Z.of_N n)) as [|a t] eqn:E; [done|].
    assert (read_exponent "1" (String "e" (String a t)) = Some ("1e" +:+ String a t, "")) as Hx.
    { cbn [read_exponent]. cbn [Ascii.eqb Bool.eqb orb]. assert (is_digit a = true) as Ha by (by apply andb_true_iff in Hd as [-> _]).
      pose proof (read_digits_all _ Hd) as Hr. revert Hr. 
      destruct a as [[] [] [] [] [] [] [] []]; try (by vm_compute in Ha); intros Hr; by rewrite Hr. }
    exact Hx.
  - rewrite (HasPrefix_app "1e"). change 2%nat with (len "1e"). rewrite str_drop_app. unfold BigString.
    rewrite scan_nat_Text by lia. cbn. by rewrite N2Z.id.
Qed.
#[local] Existing Instance ref_float_laws.

(** Hex is read two digits at a time. *)
Fixpoint from_hex (s : string) : option string :=
  match s with
  | "" => Some ""
  | String a (String b r) =>
      match hex_digit a, hex_digit b, from_hex r with
      | Some x, Some y, Some t => Some (String (chr (x * 16 + y)) t)
      | _, _, _ => None
      end
  | _ => None
  end.
Lemma from_hex_bytes s : from_hex (hex_bytes s) = Some s.
Proof.
  induction s as [|a s IH]; [done|]. cbn [hex_bytes]. unfold hex2. rewrite !str_app_cons, str_app_nil_l. cbn [from_hex].
  rewrite IH. by destruct a as [[] [] [] [] [] [] [] []].
Qed.

Definition ref_host : Ics721Host := {|
  UnpackAny_DenomMetadata bz := match Unmarshal_DenomMetadata bz with inl e => inl e | inr m => inr (Some m) end;
  UnpackAny_NFTMetadata bz := match Unmarshal_NFTMetadata bz with inl e => inl e | inr m => inr (Some m) end;
  AccAddressFromHexUnsafe s := if s =?s "" then None else from_hex s;
  GetModuleAddress := NewModuleAddress;
|}.
#[local] Existing Instance ref_host.
Lemma ref_host_laws : Ics721HostLaws.
Proof.
  split; cbn [UnpackAny_DenomMetadata UnpackAny_NFTMetadata AccAddressFromHexUnsafe ref_host].
  - intros a Ha. destruct (str_eqb_true (hex_bytes a) "") as [Hz _]. destruct (hex_bytes a =?s "") eqn:E; [|apply from_hex_bytes].
    pose proof (from_hex_bytes a) as Hf. rewrite (Hz eq_refl) in Hf. by injection Hf as <-.
  - intros m bz Hm. by rewrite (DenomMetadata_roundtrip _ _ Hm).
  - intros m bz Hm. by rewrite (NFTMetadata_roundtrip _ _ Hm).
Qed.
#[local] Existing Instance ref_host_laws.

(** The class "kitty" with a data blob that has an entry of its own, a nested one and one
    under the key of a field, and its token *)
Definition quoted (s : string) : string := dquote +:+ s +:+ dquote.
Definition kit_data : string :=
  "{" +:+ quoted "level" +:+ ": [1e3, {}], " +:+ quoted "irismod:name" +:+ ":1e0 , " +:+ quoted "a" +:+ ":null}".
Definition kit_carried : string := "{" +:+ quoted "a" +:+ ":null," +:+ quoted "level" +:+ ":[1e3,{}]}".
Definition kit_class_md : DenomMetadata := MkDenomMetadata alice "{}" true false kit_data.
Definition kit_token_md : NFTMetadata := MkNFTMetadata "Kit one" kit_data.
Definition kit_class : RefNft.class_data := RefNft.MkClassData "Kitties" "KIT" "cats & kittens" "ipfs://kit" "h0"
  (Some (CollectionPb.DenomMetadata_MarshalToSizedBuffer kit_class_md)).
Definition kit_token : RefNft.token_data := RefNft.MkTokenData "ipfs://kit/1" "h1"
  (Some (CollectionPb.NFTMetadata_MarshalToSizedBuffer kit_token_md)) alice_bytes.
Definition travelling : RefNft.state := RefNft.MkState {["kitty" := kit_class]} {[("kitty", "kit1") := kit_token]}.
Definition ctx_sender : Ctx := world empty_erc travelling alice_evm.

Lemma ics721_class_roundtrip_witness :
  exists ic r', InterNft.GetClass ctx_sender "kitty" = Some ic /\
    InterNft.CreateOrUpdateClass "ibc/KITTY" "ipfs://kit" (InterNft.ic_Data ic) ctx_cat = Ok tt r' /\
    GetDenomInfo "ibc/KITTY" r' = Ok (MkDenom "ibc/KITTY" "Kitties" "{}" alice "KIT" true false "cats & kittens"
      "ipfs://kit" "h0" kit_carried) r'.
Proof.
  assert (exists ic, InterNft.GetClass ctx_sender "kitty" = Some ic) as [ic Hic] by (eexists; vm_compute; reflexivity).
  destruct (ics721_class_roundtrip ctx_sender ctx_cat "kitty" "ibc/KITTY" (RefNft.mk_class "kitty" kit_class) kit_class_md ic Hic)
    as (a & Ha & Htotal & Hrun); [vm_compute; reflexivity..| |vm_compute; reflexivity|].
  { split_and!; vm_compute; reflexivity. }
  assert (a = alice_bytes) as -> by (vm_compute in Ha; by injection Ha as <-).
  assert (InterNft.ic_URI ic = "ipfs://kit") as Hu by (vm_compute in Hic; by injection Hic as <-).
  destruct Htotal as [r' Hr']; [vm_compute; reflexivity..|].
  exists ic, r'. split; [exact Hic|]. rewrite Hu in Hr', Hrun. split; [exact Hr'|].
  destruct (Hrun tt r' Hr') as [Hd _].
  replace kit_carried with (carried_data class_keys (dm_Data kit_class_md)) by (vm_compute; reflexivity). exact Hd.
Defined.

(** The token, minted to Bob under a class of the receiving chain *)
Definition ctx_receiver : Ctx := world empty_erc (RefNft.MkState {["ibc/KITTY" := kit_class]} ∅) alice_evm.

Lemma ics721_token_roundtrip_witness :
  exists it r', InterNft.GetNFT ctx_sender "kitty" "kit1" = Some it /\
    InterNft.Mint "ibc/KITTY" "kit1" "ipfs://kit/1" (InterNft.it_Data it) bob_bytes ctx_receiver = Ok tt r' /\
    CollectionKeeper.GetNFT "ibc/KITTY" "kit1" r' =
      Ok (MkBaseNFT "kit1" "Kit one" "ipfs://kit/1" kit_carried bob "h1") r'.
Proof.
  assert (exists it, InterNft.GetNFT ctx_sender "kitty" "kit1" = Some it) as [it Hit] by (eexists; vm_compute; reflexivity).
  destruct (ics721_token_roundtrip ctx_sender ctx_receiver "kitty" "kit1" "ibc/KITTY" "kit1" bob_bytes
    (RefNft.mk_token ("kitty", "kit1") kit_token) kit_token_md it Hit)
    as (Htotal & Hrun); [vm_compute; reflexivity..| |vm_compute; reflexivity|].
  { split; vm_compute; reflexivity. }
  assert (InterNft.it_URI it = "ipfs://kit/1") as Hu by (vm_compute in Hit; by injection Hit as <-).
  destruct Htotal as [r' Hr']; [vm_compute; discriminate|vm_compute; reflexivity..|].
  exists it, r'. split; [exact Hit|]. rewrite Hu in Hr', Hrun. split; [exact Hr'|].
  destruct (Hrun tt r' Hr') as [Hd _].
  replace kit_carried with (carried_data token_keys (nm_Data kit_token_md)) by (vm_compute; reflexivity). exact Hd.
Defined.
End TransportRun.
