(* ===== verification/WitnessesCw721.v ===== *)
(** The theorems on x/cw721 applied at concrete inputs: governance sets the contract
    code, Alice moves CW721 tokens to Cosmos, back and over IBC. *)
From S2P Require Import Prelude GoStrings Utf8 GoJson Sdk CollectionTypes CollectionKeeper CollectionMsg.
From S2P Require Import Erc721Types Erc721Store App Erc721Evm Guard Cw721Types Cw721Store Cw721Index.
From S2P Require Import Cw721Genesis Cw721GenesisSpec Cw721Wasm Cw721Register Cw721Convert Cw721ConvertSpec.
From S2P Require Import CollectionPb Erc721Pb Cw721Pb.
From S2P Require Import Cw721RefundSpec Cw721Chain Reference Witnesses.
Import Cw721Types Cw721Store Cw721Wasm Cw721Register Cw721Convert Cw721Genesis.
Open Scope go_scope.
Open Scope list_scope.

#[local] Existing Instances ref_eth ref_eth_laws ref_sdk ref_sdk_laws ref_nft ref_nft_laws ref_supply_laws.
#[local] Existing Instances ref_evm ref_evm_laws collection_codec collection_codec_laws erc721_codec erc721_codec_laws.
#[local] Existing Instances ref_fmt ref_wasm_state ref_wasm ref_wasm_laws cw721_codec cw721_codec_laws.
#[local] Existing Instances ref_ibc app_checker.

(** ** A concrete world *)

(** A CW721 contract whose tokens 7 and 8 are Alice's. *)
Definition cw_cat : string := RefCw.contract_address 0.
(** The class its tokens are converted to. *)
Definition sent_class : string := CreateClassIDFromContractAddress cw_cat.

Definition cw_contracts : RefWasm.state :=
  RefWasm.MkWasm 1 {[cw_cat := {["7" := RefWasm.MkToken alice "ipfs://cat/7";
                                 "8" := RefWasm.MkToken alice "ipfs://cat/8"]}]}.

Definition cw_world (n : RefNft.state) : Ctx :=
  MkCtx empty_erc n (RefEvm.MkEvm 5 ∅) (Some 30000000%N) [] empty_cw cw_contracts.

(** Governance switches the module on and names the contract code to deploy. *)
Definition msg_params : MsgUpdateParams :=
  MkMsgUpdateParams (acc_String (NewModuleAddress "gov")) (MkParams true true 1).
Definition configured (n : RefNft.state) : Ctx := deliver (UpdateParams msg_params) (cw_world n).
Definition ctx_cw : Ctx := configured kitties.

Lemma deliver_cw_ok {A} (m : GoM A) c :
  cw_ok c -> (forall a c', m c = Ok a c' -> cw_ok c') -> cw_ok (deliver m c).
Proof. intros Hok Hm. unfold deliver. destruct (m c) eqn:E; eauto. Qed.

Lemma ctx_cw_ok : cw_ok ctx_cw.
Proof.
  assert (cw_ok (cw_world kitties)) as Hw by (by apply cw_ok_empty).
  apply deliver_cw_ok; [exact Hw|]. intros a c' Hr. exact (UpdateParams_cw _ _ _ _ Hw Hr).
Qed.

Lemma ctx_cw_empty p : ~ registered (c_cw ctx_cw) p.
Proof.
  intros (bz & _ & Hp). assert (cw_TokenPair (c_cw ctx_cw) = ∅) as E by (vm_compute; reflexivity).
  rewrite E in Hp. by apply lookup_empty_Some in Hp.
Qed.

Lemma ctx_cw_distinct a cls : id_distinct (c_cw ctx_cw) a cls.
Proof. intros q Hq. by apply ctx_cw_empty in Hq. Qed.

Lemma ref_quiet_class c cls : quiet_class c cls.
Proof.
  split; [intros; apply ref_quiet|]. intros a c1 Hr. split; [|intros; apply ref_quiet].
  eapply frame_ok, Hr. apply Deploy_frame, ref_instantiate_only.
Qed.

(** ** Conversions *)

Definition msg_cw721 : MsgConvertCW721 := MkMsgConvertCW721 cw_cat ["7"; "8"] bob alice sent_class [].

Lemma ConvertCW721_correct_witness :
  exists r c', ConvertCW721 msg_cw721 ctx_cw = Ok r c' /\ cw721_converted msg_cw721 ctx_cw r c'.
Proof.
  assert (is_ok (ConvertCW721 msg_cw721 ctx_cw) = true) as Hok by (vm_compute; reflexivity).
  apply run_ok in Hok as (r & c' & Hr). exists r, c'. split; [exact Hr|].
  apply (ConvertCW721_correct msg_cw721 ctx_cw r c'); [apply ctx_cw_ok| | |exact Hr].
  - intros a k _ _. apply ctx_cw_distinct.
  - intros a _. apply ref_quiet.
Defined.

Definition msg_kitty : MsgConvertNFT := MkMsgConvertNFT "kitty" ["kit1"] bob alice "" [].

Lemma cw721_ConvertNFT_correct_witness :
  exists c', ConvertNFT msg_kitty ctx_cw = Ok tt c' /\ nft_converted msg_kitty ctx_cw c'.
Proof.
  assert (is_ok (ConvertNFT msg_kitty ctx_cw) = true) as Hok by (vm_compute; reflexivity).
  apply run_ok in Hok as ([] & c' & Hr). exists c'. split; [exact Hr|].
  apply (cw721_ConvertNFT_correct msg_kitty ctx_cw tt c'); [apply ctx_cw_ok| |apply ref_quiet_class|exact Hr].
  intros a c1 b _ _. apply ctx_cw_distinct.
Defined.

(** ** IBC *)

#[local] Instance refundGroup_eq_dec : EqDecision refundGroup.
Proof. solve_decision. Defined.

(** Alice sends both tokens to another chain. *)
Definition msg_send : MsgTransferCW721 :=
  MkMsgTransferCW721 cw_cat ["7"; "8"] "nft-transfer" "channel-0" sent_class [] alice bob (MkTimeout 0 0 1) "".
Definition ctx_cw_sent : Ctx := deliver (TransferCW721 msg_send) ctx_cw.

Lemma ctx_cw_sent_ok : cw_ok ctx_cw_sent.
Proof.
  apply deliver_cw_ok; [exact ctx_cw_ok|]. intros [] c' Hr.
  refine (TransferCW721_cw msg_send ctx_cw tt c' _ ctx_cw_ok _ _ Hr).
  - by intros m d v d' [= _ <-].
  - intros Hin. by do 2 (apply elem_of_cons in Hin as [Hin|Hin]; [discriminate|]); apply elem_of_nil in Hin.
  - intros a _. split; [apply ref_quiet|]. intros b k _ _. apply ctx_cw_distinct.
Qed.

(** Token 7 comes back: Alice has it again, and the NFT it was bound to is burned. *)
Lemma cw721_refund_all_or_nothing_witness :
  exists g c', refund_token sent_class [] "uptick7" ctx_cw_sent = Ok g c' /\
    g = [MkRefundGroup cw_cat alice ["7"] ["uptick7"]] /\ module_ok (c_cw c') /\
    cw_refunded sent_class "uptick7" [] ctx_cw_sent g c'.
Proof.
  assert (exists g c', refund_token sent_class [] "uptick7" ctx_cw_sent = Ok g c' /\
    bool_decide (g = [MkRefundGroup cw_cat alice ["7"] ["uptick7"]]) = true) as (g & c' & Hr & Hg)
    by (apply (run_val _ (fun g _ => _)); vm_compute; reflexivity).
  apply bool_decide_eq_true in Hg. exists g, c'. split; [exact Hr|]. split; [exact Hg|].
  destruct (cw721_refund_all_or_nothing sent_class [] "uptick7" ctx_cw_sent g c' (cw_module _ ctx_cw_sent_ok)
    (fun a _ _ _ => ref_quiet a) Hr)
    as [[_ Hg']|Href]; [subst g; discriminate|exact Href].
Defined.

Lemma cw721_refund_never_fails_witness :
  exists c', RefundPacketToken (MkPacketData sent_class ["uptick7"; "lost"; "uptick8"] alice bob "") (set_gas ctx_cw_sent None) = Ok tt c'.
Proof.
  destruct (cw721_refund_never_fails
    (MkPacketData sent_class ["uptick7"; "lost"; "uptick8"] alice bob "") (set_gas ctx_cw_sent None)) as [_ Ht].
  destruct (Ht ref_execute_safe eq_refl) as (c' & E & _). by exists c'.
Defined.

(** ** Genesis *)

Definition sent_store : CwStore := c_cw ctx_cw_sent.
Definition sent_pair : TokenPair := NewTokenPair cw_cat sent_class.

Lemma sent_registered p : registered sent_store p -> p = sent_pair.
Proof.
  intros Hp. apply cw_elem_of_GetTokenPairs in Hp; [|apply ctx_cw_sent_ok].
  assert (GetTokenPairs sent_store = [sent_pair]) as E by (vm_compute; reflexivity).
  rewrite E in Hp. by apply list_elem_of_singleton in Hp.
Qed.

Lemma sent_prefix_free : prefix_free sent_store.
Proof. intros p q ->%sent_registered ->%sent_registered _. reflexivity. Qed.

Lemma sent_bindings : bindings_registered sent_store.
Proof.
  apply (bool_decide_unpack (map_Forall (fun t n =>
    UIDBelongsToRegisteredPair t n (GetTokenPairs sent_store) = true) (forward sent_store))).
  vm_compute. exact I.
Qed.

Lemma sent_params : params_ok sent_store.
Proof.
  exists (MkParams true true 1). eexists. split; [vm_compute; reflexivity|].
  split; [reflexivity|]. cbn. lia.
Qed.

Lemma cw721_genesis_roundtrip_witness :
  forward sent_store !! CreateTokenUID cw_cat "7" = Some (CreateNFTUID sent_class "uptick7") /\
  exists s', InitGenesis true empty_cw (ExportGenesis sent_store) = Some s' /\
    forward s' = forward sent_store /\ refunds s' = refunds sent_store /\ GetWasmCodeID s' = inr 1%Z.
Proof.
  split; [vm_compute; reflexivity|].
  destruct (cw721_genesis_roundtrip sent_store (cw_module _ ctx_cw_sent_ok) sent_bindings sent_prefix_free sent_params)
    as (s' & Hi & _ & _ & _ & Hf & _ & Hr & _ & Hw).
  exists s'. split; [exact Hi|]. split; [exact Hf|]. split; [exact Hr|].
  assert (WasmCodeId (GetParams sent_store) = 1%Z) as E by (vm_compute; reflexivity).
  rewrite E in Hw. apply Hw. discriminate.
Defined.

Lemma cw721_export_validates_witness : Genesis_Validate (ExportGenesis sent_store) = None.
Proof.
  apply (cw721_export_validates sent_store);
    [apply ctx_cw_sent_ok|exact sent_prefix_free|apply ctx_cw_sent_ok|].
  intros p ->%sent_registered. vm_compute. reflexivity.
Defined.
