(* ===== verification/WitnessesQuery.v ===== *)
(** A paginator and an x/nft query server, concrete functions with the behaviour the query
    theorems assume of the SDK, and the query theorems applied to them at concrete stores. *)
From S2P Require Import Prelude GoStrings Sdk Pagination CollectionTypes CollectionPb.
From S2P Require Import CollectionKeeper Erc721Types Erc721Store Erc721Pb Erc721Index.
From S2P Require Import Erc721Genesis Erc721Registry Erc721Export Cw721Types Cw721Store.
From S2P Require Import Cw721Pb Cw721Index Cw721GenesisSpec App Guard Cw721Chain EvmIbc.
From S2P Require Import Erc721Query Cw721Query CollectionQuery QuerySpec Reference.
From S2P Require Import Reference Witnesses WitnessesCw721.
Open Scope go_scope.
Open Scope list_scope.

Module RefPage.

(** The entries from a key on *)
Fixpoint from_key {V} (k : string) (l : list (string * V)) : list (string * V) :=
  match l with
  | [] => []
  | (k', v) :: l' => if k' =?s k then l else from_key k l'
  end.
Definition rest {V} (es : list (string * V)) (req : PageRequest) : list (string * V) :=
  let l := if pr_Reverse req then rev es else es in
  if pr_Key req =?s "" then l else from_key (pr_Key req) l.

Lemma from_key_at {V} k (v : V) seen l : k ∉ seen.*1 -> from_key k (seen ++ (k, v) :: l) = (k, v) :: l.
Proof.
  induction seen as [|[k' v'] seen IH]; cbn; intros Hk.
  - by rewrite (proj2 (str_eqb_true k k)).
  - apply not_elem_of_cons in Hk as [Hne Hk]. assert (k' =?s k = false) as -> by (by apply str_eqb_false).
    by apply IH.
Qed.

Lemma rest_at {V} (es : list (string * V)) req r : at_key es req r -> rest es req = r.
Proof.
  intros (Hnd & seen & E & Hk). unfold rest. destruct Hk as [[-> ->]|[Hne Hk]]; [done|].
  assert (pr_Key req =?s "" = false) as -> by (by apply str_eqb_false).
  assert (NoDup (if pr_Reverse req then rev es else es).*1) as Hnd'.
  { destruct (pr_Reverse req); [|done]. change (NoDup (List.map fst (rev es))).
    rewrite map_rev. apply NoDup_ListNoDup, List.NoDup_rev, NoDup_ListNoDup. done. }
  rewrite E in Hnd' |- *. destruct r as [|[k v] r]; [done|]. cbn in Hk. subst k. apply from_key_at.
  rewrite fmap_app in Hnd'. apply NoDup_app in Hnd' as (_ & Hd & _).
  intros Hin%Hd. apply Hin. cbn. apply elem_of_cons. by left.
Qed.

(** A listing of keyed values in pages *)
Definition page {V} (es : list (string * V)) (req : PageRequest) : error + (list V * PageResponse) :=
  let n := Z.to_nat (pr_Limit req) in
  inr (snd <$> take n (rest es req), MkPageResponse (next_key (drop n (rest es req))) 0).

Lemma page_pages {V} (es : list (string * V)) : pages Z.to_nat (page es) es.
Proof. intros req r _ Hat _. unfold page. by rewrite (rest_at es req r). Qed.
End RefPage.

Definition ref_paginator : Paginator := {|
  Paginate A es req f acc :=
    let n := Z.to_nat (pr_Limit req) in
    match visit f (take n (RefPage.rest es req)) acc with
    | inl e => inl e
    | inr a => inr (a, MkPageResponse (next_key (drop n (RefPage.rest es req))) 0)
    end;
|}.

Lemma ref_paginator_laws : @PaginatorLaws ref_paginator.
Proof. split. intros A es req f acc r _ Hat _. cbn. by rewrite (RefPage.rest_at es req r). Qed.

Definition ref_Classes (s : RefNft.state) : PageRequest -> error + (list nft_Class * PageResponse) :=
  RefPage.page ((fun cl => (Class_Id cl, cl)) <$> RefNft.classes s).
Definition ref_NFTs (s : RefNft.state) (c o : string) : PageRequest -> error + (list nft_NFT * PageResponse) :=
  if o =?s "" then RefPage.page ((fun n => (NFT_Id n, n)) <$> RefNft.of_class s c)
  else match RefSdk.from_string o with
       | None => fun _ => inl (SdkErr ErrInvalidAddress)
       | Some owner =>
           RefPage.page ((fun n => (NFT_Id n, n)) <$>
             filter (fun n => RefNft.get_owner s c (NFT_Id n) = owner) (RefNft.of_class s c))
       end.
Definition ref_nft_query : @NftQuery ref_nft := @Build_NftQuery ref_nft ref_NFTs ref_Classes.

Lemma ref_nft_query_laws : @NftQueryLaws ref_nft ref_nft_query ref_sdk.
Proof.
  split.
  - intros s. apply RefPage.page_pages.
  - intros s c _. apply RefPage.page_pages.
  - intros s c o owner _ Ho. cbn in Ho. cbn. unfold ref_NFTs. rewrite Ho.
    destruct (o =?s "") eqn:E; [|apply RefPage.page_pages].
    apply str_eqb_true in E. subst. discriminate.
Qed.


#[local] Existing Instances ref_eth ref_eth_laws ref_sdk ref_sdk_laws ref_nft ref_nft_laws ref_supply_laws.
#[local] Existing Instances ref_evm ref_evm_laws collection_codec collection_codec_laws erc721_codec erc721_codec_laws.
#[local] Existing Instances ref_fmt ref_wasm_state ref_wasm ref_wasm_laws cw721_codec cw721_codec_laws.
#[local] Existing Instances ref_ibc ref_ics721 app_checker ref_paginator ref_paginator_laws.
#[local] Existing Instances ref_nft_query ref_nft_query_laws.

(** ** Pairs *)

(** One pair to a page, from the last to the first *)
Definition one_by_one : PageRequest := MkPageRequest "" 0 1 false true.

Lemma token_pair_pages_complete_witness :
  lists (erc721_pairs bound_kitty) one_by_one 1 [NewTokenPair cat_addr "kitty"] /\
  lists (cw721_pairs sent_store) one_by_one 1 [sent_pair].
Proof.
  destruct (token_pair_pages_complete bound_kitty sent_store one_by_one (proj1 (proj2 bound_kitty_ok))
    (mo_registry _ (cw_module _ ctx_cw_sent_ok))) as (_ & H & _); [reflexivity|done|].
  assert (in_order one_by_one (GetTokenPairs bound_kitty) = [NewTokenPair cat_addr "kitty"]) as E1
    by (vm_compute; reflexivity).
  assert (in_order one_by_one (Cw721Store.GetTokenPairs sent_store) = [sent_pair]) as E2 by (vm_compute; reflexivity).
  rewrite E1, E2 in H. apply H. split; reflexivity.
Defined.

Lemma sent_pair_registered : Cw721Index.registered sent_store sent_pair.
Proof.
  apply cw_elem_of_GetTokenPairs; [apply ctx_cw_sent_ok|].
  assert (Cw721Store.GetTokenPairs sent_store = [sent_pair]) as -> by (vm_compute; reflexivity).
  by apply list_elem_of_singleton.
Qed.

(** The contract in its checksummed spelling names its pair. *)
Lemma pair_queries_exact_witness :
  Erc721Query.TokenPair bound_kitty (Some {| Erc721Query.qt_Token := cat_checksum |}) =
    inr (NewTokenPair cat_addr "kitty") /\
  Cw721Query.TokenPair sent_store (Some {| Cw721Query.qt_Token := cw_cat |}) = inr sent_pair.
Proof.
  destruct (pair_queries_exact bound_kitty sent_store (proj1 (proj2 bound_kitty_ok))
    (mo_registry _ (cw_module _ ctx_cw_sent_ok))) as (He & _ & Hc & _).
  split.
  - apply He. split; [exact kitty_registered|]. right. split; [vm_compute; reflexivity|].
    split; [vm_compute; reflexivity|]. intros q ->%(proj2 (proj2 bound_kitty_ok)). discriminate.
  - apply Hc. split; [exact sent_pair_registered|right]. split; [vm_compute; reflexivity|].
    intros q ->%sent_registered. vm_compute. discriminate.
Defined.

(** ** Tokens and denoms *)

Lemma collection_pages_complete_witness :
  lists (collection_nfts ctx_kitty "kitty") one_by_one 1
    [MkBaseNFT "kit1" "" "ipfs://kit/1" "" alice ""] /\
  lists (owner_tokens ctx_kitty "kitty" alice) one_by_one 1 ["kit1"].
Proof.
  assert (key_based one_by_one) as Hreq by (split; reflexivity).
  destruct (collection_pages_complete ctx_kitty one_by_one Hreq eq_refl) as (Hn & Ho & _). split.
  - assert (is_ok (CollectionKeeper.GetDenomInfo "kitty" ctx_kitty) = true) as Hok by (vm_compute; reflexivity).
    destruct (CollectionKeeper.GetDenomInfo "kitty" ctx_kitty) as [d c'|e c'|] eqn:E; [|discriminate..].
    pose proof (GetDenomInfo_reads _ _ _ _ E) as ->.
    specialize (Hn "kitty" d E ltac:(discriminate) eq_refl).
    assert (in_order one_by_one (CollectionKeeper.GetNFTs (c_nft ctx_kitty) "kitty") =
      [MkBaseNFT "kit1" "" "ipfs://kit/1" "" alice ""]) as El by (vm_compute; reflexivity).
    rewrite El in Hn. exact Hn.
  - assert (AccAddressFromBech32 alice = Some alice_bytes) as Ha by (vm_compute; reflexivity).
    specialize (Ho "kitty" alice alice_bytes Ha ltac:(discriminate) ltac:(discriminate) eq_refl).
    assert (in_order one_by_one (NFT_Id <$> filter (fun n => nk_GetOwner (c_nft ctx_kitty) "kitty" (NFT_Id n) = alice_bytes)
      (nk_GetNFTsOfClass (c_nft ctx_kitty) "kitty")) = ["kit1"]) as El by (vm_compute; reflexivity).
    rewrite El in Ho. exact Ho.
Defined.
