(* ===== verification/WitnessesApp.v ===== *)
(** The theorems on the code around the two modules, applied at concrete inputs: IBC
    callbacks, transactions, vouchers, upgrades and a zero-height export. *)
From S2P Require Import Prelude GoStrings Utf8 Sdk CollectionTypes CollectionKeeper CollectionMsg.
From S2P Require Import Erc721Types Erc721Store Erc721Index Erc721Prune App Erc721Evm Erc721Msg.
From S2P Require Import Erc721Register Erc721Convert Erc721Settle Erc721RefundFacts EvmIbc EvmIbcSpec.
From S2P Require Import Ante Erc20Voucher Upgrades UpgradesSpec Reference.
From S2P Require Import CollectionPb Erc721Pb Cw721Pb.
From S2P Require Import ReferenceApp Witnesses ZeroHeight.
Import EvmIbc.
Open Scope go_scope.
Open Scope list_scope.

#[local] Existing Instances ref_eth ref_eth_laws ref_sdk ref_sdk_laws ref_nft ref_nft_laws.
#[local] Existing Instances ref_evm ref_evm_laws collection_codec collection_codec_laws erc721_codec erc721_codec_laws.
#[local] Existing Instances ref_fmt ref_wasm_state ref_wasm ref_wasm_laws cw721_codec cw721_codec_laws.
#[local] Existing Instances ref_ibc ref_ics721 ref_ics721_laws ref_nft_transfer app_checker.
#[local] Existing Instances ref_bank ref_bank_laws ref_erc20 ref_erc20_laws ref_erc20_store_laws.
#[local] Existing Instances ref_params ref_params_stores ref_dec_laws ref_tx ref_tx_laws ref_gjson.

(** ** x/evmibc *)

(** The module account has sent the kitty to another chain: the NFT is in escrow. *)
Definition sent_kitty : RefNft.state :=
  RefNft.MkState (RefNft.st_classes kitties)
    {[("kitty", "kit1") := RefNft.MkTokenData "ipfs://kit/1" "" None "escrow"]}.
Definition ctx_sent : Ctx := world full_store sent_kitty ModuleAddress.
Definition sent_data : NonFungibleTokenPacketData :=
  MkPacketData "kitty" ["kit1"] (acc_String AccModuleAddress) bob (":IBCTransferFromERC721").
Definition sent_packet : Packet :=
  MkPacket 1 "nft-transfer" "channel-0" "nft-transfer" "channel-7"
    (RefIcs721.encode ["kitty"; "kit1"; acc_String AccModuleAddress; bob; ":IBCTransferFromERC721"])
    (MkTimeout 0 0 1).

Lemma sent_decodes : UnmarshalJSON_PacketData (pk_Data sent_packet) = Some sent_data.
Proof. vm_compute. reflexivity. Qed.

Lemma evmibc_refund_routing_witness :
  IsOutboundConvertPacket sent_data = true /\
  forall app', OnTimeoutPacket app' "" sent_packet "" ctx_sent = OnTimeoutPacket nft_transfer "" sent_packet "" ctx_sent.
Proof.
  assert (IsOutboundConvertPacket sent_data = true) as Ho by (vm_compute; reflexivity).
  split; [exact Ho|].
  destruct (evmibc_refund_routing nft_transfer "" sent_packet "" sent_data ctx_sent sent_decodes) as (_ & _ & Ht & _).
  rewrite Ho in Ht. apply Ht.
Defined.

Lemma evmibc_convert_refund_witness :
  exists c' cls c1 c2, OnTimeoutPacket nft_transfer "" sent_packet "" ctx_sent = Ok tt c' /\
    RefundPacketToken (set_ClassId sent_data cls) c1 = Ok tt c2.
Proof.
  assert (is_ok (OnTimeoutPacket nft_transfer "" sent_packet "" ctx_sent) = true) as Hok by (vm_compute; reflexivity).
  apply run_ok in Hok as ([] & c' & Hr).
  destruct (evmibc_convert_refund nft_transfer "" sent_packet "lost" "" sent_data "lost" ctx_sent sent_decodes)
    as (_ & Ht & _); [vm_compute; reflexivity|vm_compute; discriminate|].
  pose proof Hr as (c2 & (cls & c0 & c1 & _ & _ & Hrefund) & _)%Ht. exists c', cls, c1, c2. split; [exact Hr|exact Hrefund].
Defined.

(** A voucher that came through the packet's channel. *)
Definition voucher_data : NonFungibleTokenPacketData :=
  MkPacketData "nft-transfer/channel-0/kitty" ["kit1"] (acc_String AccModuleAddress) bob "".

Lemma kitty_only id : nk_HasClass (c_nft ctx_sent) id = true -> id = "kitty".
Proof.
  cbn. unfold nk_HasClass. cbn. unfold RefNft.get_class. cbn.
  destruct (decide (id = "kitty")) as [->|Hne]; [done|]. by rewrite lookup_singleton_ne by done.
Qed.

Lemma getRefundClassId_agrees_witness :
  exists cls events, getRefundClassId sent_packet voucher_data ctx_sent =
    Ok cls (set_events ctx_sent (c_events ctx_sent ++ events)).
Proof.
  destruct (getRefundClassId_agrees sent_packet voucher_data ctx_sent) as (cls & events & Hr & _);
    [reflexivity| |exists cls, events; exact Hr].
  intros id Hid. apply kitty_only in Hid as ->. vm_compute. reflexivity.
Defined.

(** ** Transactions *)

(** An exec of an exec that creates a validator, next to an Ethereum transaction. *)
Definition nested_tx : list Msg := [MkMsg "/cosmos.authz.v1beta1.MsgExec" 0].

Lemma ante_no_bypass_witness :
  commission_ok (MkMsg "/cosmos.staking.v1beta1.MsgCreateValidator" 3).
Proof.
  assert (MessageSecurity_AnteHandle 30000000 (Some <$> nested_tx)
            (ValidatorCommission_AnteHandle nested_tx (inr tt)) = inr tt) as Hok by (vm_compute; reflexivity).
  destruct (ante_no_bypass 30000000 nested_tx (inr tt) tt Hok) as (_ & Hall).
  apply (Hall 2).
  eapply (reaches_nested _ 1 (MkMsg "/cosmos.authz.v1beta1.MsgExec" 1)); [|reflexivity|reflexivity|left].
  eapply (reaches_nested _ 0 (MkMsg "/cosmos.authz.v1beta1.MsgExec" 0)); [|reflexivity|reflexivity|left].
  apply reaches_root. left.
Defined.

(** ** x/collection messages *)

Definition msg_issue_ok : MsgIssueDenom :=
  MkMsgIssueDenom "doggos" "Dogs" "{}" alice "DOG" false false "dogs" "ipfs://dog" "" "{}".

Lemma validated_messages_served_witness : exists c', IssueDenom msg_issue_ok ctx_cat = Ok tt c'.
Proof.
  destruct (validated_messages_served ctx_cat) as (Hi & _). apply Hi; vm_compute; reflexivity.
Defined.

(** ** Vouchers *)

Definition ibc_go_shape (base : string) : Metadata :=
  MkMetadata "" [Some (MkDenomUnit "auoc" 0 [])] base "transfer/channel-1/auoc" "" "" "" "".
Definition bank0 : bank_state :=
  RefBank.MkBank {["ibc/AA" := ibc_go_shape "ibc/AA"]} ["ibc/AA"; "auptick"; "ibc/B!"].

Lemma NormalizeVoucherDecimals_correct_witness :
  nr_Decimals (fst (NormalizeVoucherDecimals bank0 "ibc/AA")) = 18%Z /\
  repaired bank0 (snd (NormalizeVoucherDecimals bank0 "ibc/AA")) "ibc/AA" (fst (NormalizeVoucherDecimals bank0 "ibc/AA")).
Proof.
  split; [vm_compute; reflexivity|]. pose proof (NormalizeVoucherDecimals_correct bank0 "ibc/AA") as Hn.
  destruct (NormalizeVoucherDecimals bank0 "ibc/AA") as [r b]. apply Hn.
Defined.

Lemma normalize_pass_complete_witness :
  let bank' := snd (V050.normalizeIBCVoucherERC20Decimals bank0) in
  snd (V050.normalizeIBCVoucherERC20Decimals bank') = bank'.
Proof. apply (normalize_pass_complete bank0). Defined.

Definition gate0 (on : bool) : GateCtx := MkGateCtx bank0 (RefErc20.MkErc20 ∅ (MkErc20Params true on)) [].
Definition ics20_packet : Packet :=
  MkPacket 1 "transfer" "channel-1" "transfer" "channel-9" "auoc" (MkTimeout 0 0 1).

Lemma gate_registers_only_when_enabled_witness :
  IsDenomRegistered (gc_erc20 (snd (gate_OnRecvPacket (gate0 true) ics20_packet (Acknowledgement_Result "")))) "ibc/auoc" = true /\
  gate_OnRecvPacket (gate0 false) ics20_packet (Acknowledgement_Result "") =
    (Acknowledgement_Result "", MkGateCtx (gc_bank (gate0 false)) (gc_erc20 (gate0 false)) [suppressed_event ics20_packet "ibc/auoc"]).
Proof.
  split; [vm_compute; reflexivity|].
  destruct (gate_registers_only_when_enabled (gate0 false) ics20_packet (Acknowledgement_Result "")) as (_ & _ & Hs).
  apply (Hs eq_refl "ibc/auoc"). split_and!; vm_compute; reflexivity.
Defined.

(** ** Upgrades *)

Definition fee (n : Z) : FeeParams := @MkFeeParams ref_params (Some n) tt.

Lemma withRepairedBaseFee_exact_witness :
  V041.withRepairedBaseFee (fee 1000000000) =
    Some (fee (V041.LegacyNewDecFromInt 1000000000), true).
Proof.
  destruct (withRepairedBaseFee_exact (fee 1000000000)) as [Hf _].
  destruct (Hf 1000000000%Z eq_refl) as [E _]; [lia|]. exact E.
Defined.

(** A chain from v0.3.3, with one voucher that cannot be registered. *)
Definition state0 : UState :=
  MkUState ctx_cat bank0 (RefErc20.MkErc20 ∅ (MkErc20Params true false)) (@MkEvmParams ref_params [] tt)
    (fee 1000000000) (MkIcaParams false) false ∅.
Definition run0 (vm : nat) : UM nat := mret vm.
Definition keys0 : V050.StoreKeys := {| V050.upgrade_key := true; V050.evm_key := true |}.

Lemma run_u {A} (m : UM A) u : is_ok (m u) = true -> exists a u', m u = Ok a u'.
Proof. destruct (m u); [eauto|done|done]. Defined.

Lemma v041_replay_harmless_witness :
  exists vm u', V041.v041_upgradeHandler mret 4 state0 = Ok vm u' /\ V041.v041_upgradeHandler run0 vm u' = run0 vm u'.
Proof.
  assert (is_ok (V041.v041_upgradeHandler mret 4 state0) = true) as Hok by (vm_compute; reflexivity).
  apply run_u in Hok as (vm & u' & Hr). exists vm, u'. split; [exact Hr|].
  exact (v041_replay_harmless 4 vm state0 u' run0 Hr).
Defined.

Lemma state0_runs : is_ok (V050.v050_upgradeHandler run0 keys0 run0 4 state0) = true.
Proof. vm_compute. reflexivity. Qed.

Lemma v050_applies_once_witness :
  exists vm u', V050.v050_upgradeHandler run0 keys0 run0 4 state0 = Ok vm u' /\
    V050.v050_upgradeHandler run0 keys0 run0 vm u' = run0 vm u'.
Proof.
  destruct (run_u _ _ state0_runs) as (vm & u' & Hr). exists vm, u'. split; [exact Hr|].
  destruct (v050_applies_once run0 run0 keys0 4 state0 vm u') as [Hone _].
  apply (Hone Hr); reflexivity.
Defined.

Lemma v050_accounts_for_vouchers_witness :
  exists vm u' failed, V050.v050_upgradeHandler run0 keys0 run0 4 state0 = Ok vm u' /\
    V050.ReadBackfillFailures keys0 u' = inr failed.
Proof.
  destruct (run_u _ _ state0_runs) as (vm & u' & Hr).
  destruct (v050_accounts_for_vouchers run0 run0 keys0 4 state0 vm u' Hr) as (_ & failed & Hf & _); [reflexivity|].
  exists vm, u', failed. split; [exact Hr|exact Hf].
Defined.

(** * Zero-height export *)
Section ZeroRun.
(** A list as a map: the first record with a key counts. *)
Fixpoint dedup {X K} `{EqDecision K} (key : X -> K) (l : list X) : list X :=
  match l with [] => [] | x :: l => x :: filter (fun y => key y <> key x) (dedup key l) end.

Lemma dedup_nodup {X K} `{EqDecision K} (key : X -> K) (l : list X) : NoDup (key <$> dedup key l).
Proof.
  induction l as [|x l IH]; [constructor|]. cbn. constructor.
  - intros (y & E & [Hy _]%list_elem_of_filter)%list_elem_of_fmap. by apply Hy.
  - revert IH. generalize (dedup key l). intros l'. induction l' as [|y l' IH]; [done|]. rewrite fmap_cons, NoDup_cons. intros [Hy Hn].
    rewrite filter_cons. case_decide; [|by apply IH]. rewrite fmap_cons. apply NoDup_cons. split; [|by apply IH].
    intros (z & E & [_ Hz]%list_elem_of_filter)%list_elem_of_fmap. apply Hy. rewrite E. by apply list_elem_of_fmap_2.
Qed.

Lemma dedup_replace {X K} `{EqDecision K} (key : X -> K) x (l : list X) :
  dedup key (replace_key key x <$> l) = replace_key key x <$> dedup key l.
Proof.
  assert (forall y, key (replace_key key x y) = key y) as Hk by (intros y; unfold replace_key; by case_decide).
  induction l as [|y l IH]; [done|]. cbn. f_equal. rewrite IH, Hk. generalize (dedup key l). intros l'.
  induction l' as [|z l' IH']; [done|]. rewrite fmap_cons, !filter_cons, Hk. case_decide; [by rewrite fmap_cons, IH'|done].
Qed.

(** A staking store of four lists, signing infos, and a log of the other calls *)
Record ZState := MkZState {
  z_vals : list (string * bool * Z); z_dels : list (string * string);
  z_reds : list (string * string * string * list Z); z_ubds : list (string * string * list Z);
  z_infos : list (string * Z); z_log : list string }.
Definition ref_zero_types : ZeroTypes := {|
  zstate := ZState; validator_rest := unit; entry_rest := unit; signing_rest := unit; DecCoins := nat; coins_Add := Nat.add |}.
#[local] Existing Instance ref_zero_types.

Definition mk_val (t : string * bool * Z) : Validator := let '(o, j, h) := t in MkValidator o h j tt.
Definition un_val (v : Validator) : string * bool * Z := (v_Operator v, v_Jailed v, v_UnbondingHeight v).
Definition mk_entries (hs : list Z) : list Entry := (fun h => MkEntry h tt) <$> hs.
Definition un_entries (es : list Entry) : list Z := en_CreationHeight <$> es.
Definition mk_red (t : string * string * string * list Z) : Redelegation := let '(d, a, b, hs) := t in MkRedelegation d a b (mk_entries hs).
Definition un_red (r : Redelegation) := (red_Delegator r, red_ValidatorSrc r, red_ValidatorDst r, un_entries (red_Entries r)).
Definition mk_ubd (t : string * string * list Z) : UnbondingDelegation := let '(d, v, hs) := t in MkUnbonding d v (mk_entries hs).
Definition un_ubd (u : UnbondingDelegation) := (ubd_Delegator u, ubd_Validator u, un_entries (ubd_Entries u)).
Definition mk_info (t : string * Z) : string * SigningInfo := (t.1, MkSigningInfo t.2 tt).
Definition un_info (i : string * SigningInfo) : string * Z := (i.1, si_StartHeight i.2).

Definition set_vals (s : ZState) l := MkZState l (z_dels s) (z_reds s) (z_ubds s) (z_infos s) (z_log s).
Definition set_reds (s : ZState) l := MkZState (z_vals s) (z_dels s) l (z_ubds s) (z_infos s) (z_log s).
Definition set_ubds (s : ZState) l := MkZState (z_vals s) (z_dels s) (z_reds s) l (z_infos s) (z_log s).
Definition set_infos (s : ZState) l := MkZState (z_vals s) (z_dels s) (z_reds s) (z_ubds s) l (z_log s).
Definition logged (what : string) : M ZState error unit :=
  modify (fun s => MkZState (z_vals s) (z_dels s) (z_reds s) (z_ubds s) (z_infos s) (z_log s ++ [what])).

Definition rewrite_list {X Y K} `{EqDecision K} (mk : Y -> X) (un : X -> Y) (key : X -> K) (x : X) (l : list Y) : list Y :=
  un <$> (replace_key key x <$> (mk <$> l)).
Definition ref_validators (s : ZState) : list Validator := dedup v_Operator (mk_val <$> z_vals s).
Fixpoint find_validator (a : string) (l : list Validator) : error + Validator :=
  match l with [] => inl (ExtErr "no validator") | v :: l => if decide (v_Operator v = a) then inr v else find_validator a l end.

Definition ref_zero : ZeroKeepers := {|
  ValAddressFromBech32 a := if a =?s "" then inl (ExtErr "empty") else inr a;
  val_String a := a; cons_String a := a;
  ValidatorAddressCodec_StringToBytes a := inr a;
  AssertInvariants := mret tt;
  IterateValidators s := inr (ref_validators s);
  GetAllDelegations s := inr ((fun dv => MkDelegation dv.1 dv.2) <$> z_dels s);
  IterateRedelegations s := inr (dedup red_key (mk_red <$> z_reds s));
  IterateUnbondingDelegations s := inr (dedup ubd_key (mk_ubd <$> z_ubds s));
  validator_addresses s := v_Operator <$> ref_validators s;
  iter_Close _ := None;
  GetValidator s a := find_validator a (ref_validators s);
  IterateValidatorSigningInfos s := inr (dedup fst (mk_info <$> z_infos s));
  SetRedelegation r := modify (fun s => set_reds s (rewrite_list mk_red un_red red_key r (z_reds s)));
  SetUnbondingDelegation u := modify (fun s => set_ubds s (rewrite_list mk_ubd un_ubd ubd_key u (z_ubds s)));
  SetValidator v := modify (fun s => set_vals s (rewrite_list mk_val un_val v_Operator v (z_vals s)));
  SetValidatorSigningInfo a i := modify (fun s => set_infos s (rewrite_list mk_info un_info fst (a, i) (z_infos s)));
  ApplyAndReturnValidatorSetUpdates _ := logged "apply";
  WithdrawValidatorCommission v := logged ("commission " +:+ v);
  WithdrawDelegationRewards d v := logged ("rewards " +:+ v);
  DeleteAllValidatorSlashEvents := logged "delete slash events";
  DeleteAllValidatorHistoricalRewards := logged "delete historical rewards";
  GetValidatorOutstandingRewardsCoins _ _ := inr 1%nat;
  FeePool_Get _ := inr 2%nat;
  FeePool_Set _ := logged "fee pool";
  AfterValidatorCreated _ v := logged ("created " +:+ v);
  BeforeDelegationCreated _ _ v := logged ("before " +:+ v);
  AfterDelegationModified _ _ v := logged ("after " +:+ v);
|}.
#[local] Existing Instance ref_zero.

(** ** Its laws *)

Lemma rewrite_list_dedup {X Y K} `{EqDecision K} (mk : Y -> X) (un : X -> Y) (key : X -> K) x l :
  (forall x, mk (un x) = x) -> dedup key (mk <$> rewrite_list mk un key x l) = replace_key key x <$> dedup key (mk <$> l).
Proof.
  intros Hmk. unfold rewrite_list. rewrite <- dedup_replace. f_equal. generalize (replace_key key x <$> (mk <$> l)).
  intros l'. induction l' as [|y l' IH]; [done|]. rewrite !fmap_cons, Hmk. by f_equal.
Qed.
Lemma mk_un_entries es : mk_entries (un_entries es) = es.
Proof. induction es as [|[h []] es IH]; [done|]. unfold mk_entries, un_entries in *. rewrite !fmap_cons, IH. done. Qed.
Lemma mk_un_val v : mk_val (un_val v) = v.
Proof. by destruct v as [o h j []]. Qed.
Lemma mk_un_red r : mk_red (un_red r) = r.
Proof. destruct r. cbn. by rewrite mk_un_entries. Qed.
Lemma mk_un_ubd u : mk_ubd (un_ubd u) = u.
Proof. destruct u. cbn. by rewrite mk_un_entries. Qed.
Lemma mk_un_info i : mk_info (un_info i) = i.
Proof. by destruct i as [a [h []]]. Qed.

Lemma replace_cases v w :
  (v_Operator w = v_Operator v /\ replace_key v_Operator v w = v) \/ (v_Operator w <> v_Operator v /\ replace_key v_Operator v w = w).
Proof. unfold replace_key. case_decide; auto. Qed.
Lemma find_replaced v b l : v_Operator v ∈ v_Operator <$> l ->
  find_validator b (replace_key v_Operator v <$> l) = if decide (b = v_Operator v) then inr v else find_validator b l.
Proof.
  intros Hin. destruct (decide (b = v_Operator v)) as [->|Hne].
  - induction l as [|w l IH]; [by apply elem_of_nil in Hin|]. rewrite fmap_cons in *. cbn [find_validator].
    destruct (replace_cases v w) as [[E ->]|[E ->]]; [by rewrite decide_True|]. rewrite decide_False by done.
    apply IH. by apply elem_of_cons in Hin as [?|?].
  - clear Hin. induction l as [|w l IH]; [done|]. rewrite fmap_cons. cbn [find_validator].
    destruct (replace_cases v w) as [[E ->]|[E ->]]; [by rewrite !decide_False by congruence|by rewrite IH].
Qed.
Lemma find_operator a l v : find_validator a l = inr v -> v_Operator v = a.
Proof. induction l as [|w l IH]; [done|]. cbn [find_validator]. case_decide; [by intros [= <-]|done]. Qed.

Lemma list_updates {X Y K} `{EqDecision K} (mk : Y -> X) (un : X -> Y) (key : X -> K) (proj : ZState -> list Y)
  (upd : ZState -> list Y -> ZState) :
  (forall x, mk (un x) = x) -> (forall s l, proj (upd s l) = l) ->
  updates (fun s => inr (dedup key (mk <$> proj s))) key (fun x => modify (fun s => upd s (rewrite_list mk un key x (proj s)))).
Proof.
  intros Hmk Hproj. split; [intros s l [= <-]; apply dedup_nodup|].
  intros s l x u s' [= <-] _ ->%modify_ok. by rewrite Hproj, rewrite_list_dedup.
Qed.

Lemma ref_zero_laws : ZeroLaws.
Proof.
  split; try (intros; intros s u' s' [= <- <-]; done); try done.
  - apply list_updates; [apply mk_un_red|done].
  - apply list_updates; [apply mk_un_ubd|done].
  - intros s. apply dedup_nodup.
  - intros s a v E%find_operator. cbn. by rewrite E.
  - intros s v u s' a ->%modify_ok [= <-] Hin. cbn. unfold ref_validators. cbn.
    rewrite rewrite_list_dedup by apply mk_un_val. split_and!; [|intros b; by apply find_replaced|done..].
    rewrite <- list_fmap_compose. apply list_fmap_ext. intros i w _. cbn. by destruct (replace_cases v w) as [[E ->]|[E ->]].
  - intros h s u s' [= <- <-]. split_and!; [done| |done..]. intros a v' Hv. by exists v'.
  - destruct (list_updates mk_info un_info fst z_infos set_infos mk_un_info ltac:(done)) as [Hn Hu].
    split; [exact Hn|]. intros s l [a i] u s' Hg Hin Hr. exact (Hu s l (a, i) u s' Hg Hin Hr).
Qed.
#[local] Existing Instance ref_zero_laws.

(** Two validators, one of them on the allow list, a redelegation of two entries, an
    unbonding delegation, and a signing info *)
Definition zero_state : ZState :=
  MkZState [("valA", false, 7%Z); ("valB", false, 9%Z)] [(alice, "valA")]
    [(alice, "valA", "valB", [3%Z; 5%Z])] [(alice, "valB", [4%Z])] [("cons", 12%Z)] [].

Lemma zero_height_state_witness :
  exists s', prepForZeroHeightGenesis 100 ["valA"] zero_state = Ok tt s' /\
    jailed_as_asked ["valA"] zero_state s' /\ z_vals s' = [("valA", false, 0%Z); ("valB", true, 0%Z)].
Proof.
  assert (exists s', prepForZeroHeightGenesis 100 ["valA"] zero_state = Ok tt s' /\
    z_vals s' = [("valA", false, 0%Z); ("valB", true, 0%Z)]) as (s' & Hr & Hz) by (eexists; vm_compute; split; reflexivity).
  exists s'. split; [exact Hr|]. split; [|exact Hz].
  exact (proj1 (zero_height_state 100 ["valA"] zero_state tt s' Hr)).
Defined.

(** The same run: the commissions and the reward come first in the log. *)
Lemma zero_height_pays_before_purge_witness :
  exists dels s1, pay_out zero_state = Ok dels s1 /\ z_log s1 = ["commission valA"; "commission valB"; "rewards valA"].
Proof.
  assert (is_ok (prepForZeroHeightGenesis 100 ["valA"] zero_state) = true) as Hok by (vm_compute; reflexivity).
  destruct (zero_height_pays_before_purge (H0 := ref_zero_types) 100 ["valA"] zero_state) as [Hp|[(e & s' & He & _)|(s0 & dels & s1 & _ & Ha & Hpay & _)]].
  - rewrite Hp in Hok. discriminate Hok.
  - rewrite He in Hok. discriminate Hok.
  - injection Ha as <-. exists dels, s1. split; [exact Hpay|]. vm_compute in Hpay. injection Hpay as _ <-. reflexivity.
Defined.
End ZeroRun.
