(* ===== verification/WitnessesUpgrade.v ===== *)
(** The v0.4.0 migration run on a concrete state (two accounts, a pair of each owner, a
    provenance record and the legacy parameters), and the genesis export at a concrete run
    (one bad and one good metadata entry, and a disk that is full), and the move of a small
    store of version 1 into x/nft. *)
From S2P Require Import Prelude GoStrings Sdk GoJson ChainId CollectionTypes CollectionPb.
From S2P Require Import CollectionKeeper CollectionGenesis Erc721Types Erc721Store Erc721Pb.
From S2P Require Import Cw721Types Cw721Store Cw721Pb App Erc20Voucher AppExport.
From S2P Require Import Proto CollectionV2 V040 V040Spec Reference ReferenceApp Witnesses.

(** * v0.4.0 *)
Section V040Run.
Import ChainId V040.
Open Scope go_scope.
Open Scope list_scope.

#[local] Existing Instances ref_eth ref_sdk ref_bank ref_bank_laws ref_fmt erc721_codec erc721_codec_laws.
#[local] Existing Instances cw721_codec cw721_codec_laws.

(** ** Instances *)

Definition ref_v040 : V040Lib := {|
  access_control := bool; DefaultAccessControl := true; DefaultHistoryServeWindow := 8192;
  vm_params_rest := unit; coin_info := string;
  ChainConfig_Validate _ := None; SetChainConfig _ _ := None;
  DefaultErc20Params := MkErc20Params true true; erc20_params_error _ := None;
  HexToHash s := s; nft_transfer_PortID := "nfttransfer";
  auth_StoreKey := "acc"; params_StoreKey := "params"; erc20_StoreKey := "erc20";
  vm_ModuleName := "evm"; erc20_ModuleName := "erc20"; ParamStoreKeyEnableErc20 := "EnableErc20";
|}.
#[local] Existing Instance ref_v040.

(** A vesting account is its owner and its key; the key of an account is packed with a flag
    for its type. *)
Definition ref_accounts : AccountLib := {| retained := string * string; other_key := unit; Any := bool * string |}.
#[local] Existing Instance ref_accounts.

Definition ref_account_codec : AccountCodec := {|
  UnmarshalInterface s :=
    if s =?s "eth" then
      inr (AnEthAccount (MkEthAccount (Some (MkBaseAccount "alice" (Some (true, "key1") : option Any) 1 5)) "0xc0de"))
    else if s =?s "vesting" then inr (Retained (("bob", "key2") : retained))
    else inl (ExtErr "unknown account");
  UnpackAny a := inr (if fst (a : bool * string) then LegacyEthSecp256k1 (snd a) else EvmSecp256k1 (snd a));
  NewAny_key k := match k with
                  | EvmSecp256k1 k => inr ((false, k) : Any)
                  | _ => inl (ExtErr "legacy key")
                  end;
  MarshalInterface_base b := inr ("base:" +:+ ba_Address b +:+
    match ba_PubKey b with Some (false, k) => ":" +:+ k | _ => "" end);
  MarshalInterface_retained a := inr ("vesting:" +:+ fst (a : string * string) +:+ ":" +:+ snd a);
  GetPubKey a := Some (LegacyEthSecp256k1 (snd (a : string * string)));
  SetPubKey a k := match k with EvmSecp256k1 k => inr ((fst (a : string * string), "evm-" +:+ k) : retained) | _ => inl (ExtErr "key") end;
|}.
#[local] Existing Instance ref_account_codec.

(** x/erc20 with room for two pairs *)
Definition pair_at (s : gmap string string) (k : string) : option Erc20Pair :=
  match s !! k with
  | Some "M" => Some (MkErc20Pair "0xa" k OWNER_MODULE)
  | Some "E" => Some (MkErc20Pair "0xb" k OWNER_EXTERNAL)
  | _ => None
  end.
Definition pairs_of (s : gmap string string) : list Erc20Pair := omap (pair_at s) ["auoc"; "ubtc"].
Definition delete_pair (s : gmap string string) (p : Erc20Pair) : gmap string string :=
  if decide (ep_Denom p ∈ ["auoc"; "ubtc"]) then delete (ep_Denom p) s else s.

Definition box0 : Toolbox := MkToolbox (fun _ => true) (fun _ => false) true
  (fun p _ => inr (EvmDenom p)) (fun _ => None) pairs_of delete_pair.

Lemma pair_at_denom s k p : pair_at s k = Some p -> ep_Denom p = k.
Proof.
  unfold pair_at. destruct (s !! k) as [x|]; [|done].
  repeat match goal with |- context [match ?t with _ => _ end] => destruct t; try done end; by intros [= <-].
Qed.

Lemma pairs_of_spec s :
  pairs_of s = match pair_at s "auoc", pair_at s "ubtc" with
               | Some p, Some q => [p; q] | Some p, None => [p] | None, Some q => [q] | None, None => [] end.
Proof. unfold pairs_of. cbn. by destruct (pair_at s "auoc"), (pair_at s "ubtc"). Qed.

Lemma pair_at_delete s k k' : pair_at (delete k s) k' = if decide (k = k') then None else pair_at s k'.
Proof.
  unfold pair_at. case_decide as E; [by rewrite E, lookup_delete_eq|by rewrite lookup_delete_ne].
Qed.

Lemma box0_laws : box_laws box0 (fun _ => True).
Proof.
  split; cbn -[pairs_of delete_pair].
  - intros s s' Hs. rewrite !pairs_of_spec. unfold pair_at. by rewrite !Hs.
  - intros s _. rewrite pairs_of_spec.
    destruct (pair_at s "auoc") as [p|] eqn:E1, (pair_at s "ubtc") as [q|] eqn:E2; try apply NoDup_singleton; [|apply NoDup_nil_2].
    apply NoDup_cons. split; [|apply NoDup_singleton]. intros ->%list_elem_of_singleton.
    apply pair_at_denom in E1, E2. congruence.
  - intros s p _. rewrite !pairs_of_spec. unfold delete_pair. intros Hp.
    assert (pair_at s "auoc" = Some p \/ pair_at s "ubtc" = Some p) as [Ep|Ep].
    { revert Hp. destruct (pair_at s "auoc"), (pair_at s "ubtc"); rewrite ?elem_of_cons, ?elem_of_nil; naive_solver. }
    all: rewrite (pair_at_denom _ _ _ Ep), decide_True by (repeat (first [left|right])); rewrite !pair_at_delete, Ep; cbn.
    + destruct (pair_at s "ubtc") as [q|] eqn:Eq; rewrite !filter_cons, ?filter_nil; cbn.
      * rewrite (decide_False (P := p <> p)) by naive_solver. rewrite (decide_True (P := q <> p)); [done|].
        intros ->. apply pair_at_denom in Ep, Eq. congruence.
      * by rewrite (decide_False (P := p <> p)) by naive_solver.
    + destruct (pair_at s "auoc") as [q|] eqn:Eq; rewrite !filter_cons, ?filter_nil; cbn.
      * rewrite (decide_False (P := p <> p)) by naive_solver. rewrite (decide_True (P := q <> p)); [done|].
        intros ->. apply pair_at_denom in Ep, Eq. congruence.
      * by rewrite (decide_False (P := p <> p)) by naive_solver.
  - done.
  - intros s p k Hk. unfold delete_pair. case_decide as Hp; [|done]. apply lookup_delete_ne. intros <-.
    apply elem_of_cons in Hp as [E|[E|E%elem_of_nil]%elem_of_cons]; [..|done]; rewrite E in Hk; discriminate.
Qed.

(** ** The run *)

Definition legacy_state : VState := MkVState None (MkVmParams "auptick" [] false 0 None tt) None (RefBank.MkBank ∅ [])
  {["alice" := "eth"; "bob" := "vesting"]} ∅ (MkErc20Params true true)
  {["auoc" := "M"; "ubtc" := "E"; String "004" "channel-0/7" := "x"]} empty_erc empty_cw "nft-transfer"
  {["erc721/EnableErc721" := "false"; "erc721/EnableEVMHook" := "true"; "gov/deposit" := "1"]}.

Definition run_v040 : outcome VState error unit :=
  v040_upgradeHandler (fun vm : unit => mret vm) box0 "uptick_117-1" tt legacy_state.

Lemma v040_migrates_state_witness :
  exists r v', run_v040 = Ok r v' /\
    pairs_of (v_erc20 v') = [MkErc20Pair "0xb" "ubtc" OWNER_EXTERNAL] /\
    GetParams (v_erc721 v') = NewParams false true /\ v_params v' !! "gov/deposit" = Some "1" /\
    v_params v' !! "erc721/EnableErc721" = None /\ v_erc20 v' !! String "004" "channel-0/7" = None /\
    exists bz, v_auth v' !! "alice" = Some bz /\ migrated_account "alice" "eth" bz.
Proof.
  assert (is_ok run_v040 = true) as Hok by (vm_compute; reflexivity).
  unfold run_v040 in *. destruct (v040_upgradeHandler _ _ _ _ _) as [r v2|e v2|] eqn:E; [|discriminate..].
  exists r, v2. split; [done|].
  destruct (v040_migrates_state (fun vm : unit => mret vm) box0 (fun _ => True) "uptick_117-1" tt legacy_state r v2 box0_laws I E)
    as (v' & Hd & [_ ->]%mret_ok). clear E Hok.
  split; [exact (vd_pairs _ _ _ _ Hd)|]. split; [exact (proj2 (vd_erc721 _ _ _ _ Hd))|].
  split; [rewrite (vd_params _ _ _ _ Hd); reflexivity|]. split; [rewrite (vd_params _ _ _ _ Hd); reflexivity|].
  split; [rewrite (vd_provenance _ _ _ _ Hd); reflexivity|].
  exact (proj1 (vd_accounts _ _ _ _ Hd "alice")).
Defined.
End V040Run.

(** * Export *)
Section ExportRun.
Import AppExport.
Open Scope go_scope.
Open Scope list_scope.

#[local] Existing Instances ref_eth ref_sdk ref_nft ref_evm ref_wasm_state collection_codec ref_fmt.
#[local] Existing Instances erc721_codec cw721_codec ref_bank.

Definition ref_bank_genesis : BankGenesisLib := {| bank_genesis_rest := unit |}.
#[local] Existing Instance ref_bank_genesis.

(** The voucher as ibc-go writes it, and a coin that is fine *)
Definition bad_md : Metadata :=
  MkMetadata "IBC token" [Some (MkDenomUnit "auoc" 0 [])] "ibc/AA" "transfer/channel-0/auoc" "auoc" "AUOC" "" "".
Definition good_md : Metadata :=
  MkMetadata "" [Some (MkDenomUnit "auptick" 0 []); Some (MkDenomUnit "uptick" 18 [])] "auptick" "uptick" "Uptick" "UPTICK" "" "".

Definition bank_gen0 : @BankGenesis ref_bank_genesis := @MkBankGenesis ref_bank_genesis [bad_md; good_md] tt.

Definition ref_export : ExportLib := {|
  UnmarshalJSON_bank raw := if raw =?s "bank" then inr bank_gen0 else inl (ExtErr "json");
  MarshalJSON_bank _ := inr "bank'";
  MarshalIndent_genState _ := inr "{}";
  MarshalIndent_report r := inr ("report " +:+ rp_ExportID r);
  Marshal_notice n := inr (nt_Event n);
  filepath_Join a b := a +:+ "/" +:+ b;
|}.
#[local] Existing Instance ref_export.

Definition genesis0 : gmap string string := {["bank" := "bank"; "gov" := "{}"]}.
Definition normalized0 : error + (list ExportDiagnostic * gmap string string) :=
  normalizeExportedBankDenomMetadata true genesis0.

Lemma exported_bank_metadata_valid_witness :
  exists diags g, normalized0 = inr (diags, g) /\ g !! "gov" = Some "{}" /\
    Forall bank_valid (exported_entries [bad_md; good_md]) /\ ~ Forall bank_valid [bad_md; good_md].
Proof.
  assert (match normalized0 with inr _ => true | inl _ => false end = true) as Hok by (vm_compute; reflexivity).
  destruct normalized0 as [|[diags g]] eqn:E; [discriminate|]. exists diags, g. split; [done|].
  assert (~ Forall bank_valid [bad_md; good_md]) as Hbad.
  { intros [[_ Hv] _]%Forall_cons. vm_compute in Hv. discriminate. }
  assert (UnmarshalJSON_bank (kv_get genesis0 bank_ModuleName) = inr bank_gen0) as Hu by (vm_compute; reflexivity).
  assert (kv_get genesis0 bank_ModuleName <> "") as Hne by (vm_compute; discriminate).
  destruct (exported_bank_metadata_valid genesis0 diags g bank_gen0 Hu Hne E) as (_ & _ & Hv & _ & Hc).
  destruct (Hc Hbad) as (bz & -> & _). split; [vm_compute; reflexivity|]. split; [exact Hv|exact Hbad].
Defined.

(** An old report is there, and the disk is full after five bytes. *)
Definition full_disk : Faults := MkFaults None (Some (ExtErr "no space left on device", 5)) None None None None true
  "/home/.export-issues.json.tmp-1".
Definition no_status : ExportDiagnosticsStatus := MkStatus "" 0 0 false "" false None None.
Definition world0 : World := MkWorld {["/home/export-issues.json" := "report 1"; "/home/key" := "secret"]} [] no_status [].
Definition env0 : ExportEnv := MkExportEnv 41 (fun _ => mret tt) (fun _ => mret genesis0) (fun _ => inr "[]") "2" "now".
Definition export0 : option ((error + ExportedApp) * World) :=
  ExportAppStateAndValidators "/home" full_disk true env0 false [] [] ctx_kitty world0.

Definition lost_notice : string := exportDiagnosticsEventNotPersisted.

Lemma export_sidecar_truthful_witness :
  exists exported w', export0 = Some (inr exported, w') /\
    fst (composeExportRunE (sdk_export_RunE (fun _ => None) (inr exported, w'))) = 3%Z /\
    composeExportRunE (sdk_export_RunE (fun _ => Some (ExtErr "no genesis file")) (inr exported, w')) = (1%Z, w') /\
    w_files w' !! "/home/export-issues.json" = None /\ w_files w' !! "/home/key" = Some "secret" /\
    w_stderr w' = [lost_notice].
Proof.
  assert (match export0 with
          | Some (inr _, w') => negb (ReportWritten (w_status w')) && bool_decide (StaleCleanupErr (w_status w') = None)
                                && bool_decide (notices (w_status w') = [lost_notice])
          | _ => false end = true) as Hok by (vm_compute; reflexivity).
  destruct export0 as [[[e|exported] w']|] eqn:E; [discriminate| |discriminate].
  exists exported, w'. split; [done|].
  destruct (export_sidecar_truthful "/home" full_disk true env0 false [] [] ctx_kitty world0 (inr exported) w'
    (fun _ => None)
    ltac:(discriminate) ltac:(discriminate) ltac:(discriminate) ltac:(vm_compute; reflexivity) E)
    as (c1 & c2 & g & bd & g' & [= <-] & [= <- <-] & Hn & _ & Ht & _ & Hx & _).
  apply andb_true_iff in Hok as [[Hw%negb_true_iff Hs%bool_decide_eq_true]%andb_true_iff Hnot%bool_decide_eq_true].
  split; [|split; [reflexivity|]].
  - rewrite Hx, Hw. assert (List.length bd =? 0 = false) as Hb.
    { apply (f_equal (fun r => match r with inr (d, _) => List.length d =? 0 | inl _ => true end)) in Hn.
      rewrite <- Hn. vm_compute. reflexivity. }
    destruct bd; [discriminate|]. rewrite length_app. cbn. by rewrite Nat.add_succ_r.
  - destruct Ht as [_ [_ Ho] _ _ Habs _ Htold]. split; [exact (Habs Hw Hs)|].
    split; [exact (Ho "/home/key" ltac:(discriminate) ltac:(discriminate))|]. rewrite Htold, Hnot. reflexivity.
Defined.
End ExportRun.

(** * x/collection: the store of version 1 *)
Section V2Run.
Import CollectionV2.
Open Scope go_scope.
Open Scope list_scope.
#[local] Existing Instances ref_sdk collection_codec ref_fmt.

Definition ref_layout : NftLayout := {|
  ClassKey := String "001" ""; NFTKey := String "002" ""; NFTOfClassByOwnerKey := String "003" "";
  OwnerKey := String "004" ""; ClassTotalSupply := String "005" ""; Delimiter := String "000" "";
  Placeholder := String "001" "";
  MustMarshal_NFT n := NFT_ClassId n +:+ ";" +:+ NFT_Id n +:+ ";" +:+ NFT_Uri n;
  MustMarshal_Class c := Class_Id c +:+ ";" +:+ Class_Name c;
  MustLengthPrefix a := String (Proto.byte (Z.of_nat (len a))) a;
  BigEndianToUint64 s := match ParseUint s with Some n => n | None => 0%Z end;
  Uint64ToBigEndian n := FormatUint n;
  bech32_error s := ExtErr s;
|}.
Lemma ref_layout_laws : @NftLayoutLaws ref_layout.
Proof. split; try done. intros n Hn. cbn. by rewrite ParseUint_Format. Qed.
#[local] Existing Instances ref_layout ref_layout_laws.

(** An x/nft keeper that keeps its classes in the store of the module; the migration asks
    it for nothing but SaveClass. *)
Definition kv_nft : NftKeeper := {|
  nft_state := gmap string string;
  nk_GetClass _ _ := None; nk_GetClasses _ := [];
  nk_SaveClass s cl := if kv_has s (ClassKey +:+ Class_Id cl) then inl (ExtErr "class exists")
                       else inr (<[ClassKey +:+ Class_Id cl := MustMarshal_Class cl]> s);
  nk_UpdateClass s _ := inr s; nk_GetNFT _ _ _ := None; nk_GetNFTsOfClass _ _ := []; nk_GetOwner _ _ _ := "";
  nk_Mint s _ _ := inr s; nk_Update s _ := inr s; nk_Transfer s _ _ _ := inr s; nk_Burn s _ _ := inr s;
  nk_GetTotalSupply _ _ := 0%Z; nk_GetBalance _ _ _ := 0%Z;
|}.
#[local] Existing Instances ref_eth kv_nft ref_evm ref_wasm_state.
Definition kv_on_store : NftOnStore := {| nft_view s := s; nft_put _ n := n |}.
#[local] Existing Instance kv_on_store.
Lemma kv_on_store_laws : NftOnStoreLaws.
Proof. split. intros s cl Hn. eexists. split; [|reflexivity].
  unfold nk_SaveClass, kv_nft, kv_has, nft_view, kv_on_store. by rewrite Hn.
Qed.
#[local] Existing Instance kv_on_store_laws.
Definition no_checker : ConvertedNFTChecker := {| converted_checker := None |}.
#[local] Existing Instance no_checker.

Definition kv_ctx : Ctx := MkCtx empty_erc (∅ : gmap string string) (RefEvm.MkEvm 0 ∅) (Some 0%N) [] empty_cw (RefWasm.MkWasm 0 ∅).
Definition run_migration : V2M unit := Migrate1to2 kv_ctx.

(** Two denoms, the first with two NFTs; the ids of one begin like those of the other. *)
Definition legacy_kit : Denom := MkDenom "kit" "Kittens" "" alice "KIT" false false "" "" "" "".
Definition legacy_kitty : Denom := MkDenom "kitty" "Cats" "" alice "CAT" true true "" "" "" "{}".
Definition kit_nft (id : string) : BaseNFT := MkBaseNFT id "n" "ipfs://kit" "" alice "".
Definition bytes_or_nil (r : error + string) : string := match r with inr bz => bz | inl _ => "" end.
Definition legacy_kittens : gmap string string :=
  list_to_map ([(KeyDenom "kit", bytes_or_nil (CollectionPb.Denom_Marshal legacy_kit));
    (KeyDenom "kitty", bytes_or_nil (CollectionPb.Denom_Marshal legacy_kitty));
    (KeyDenomName "Kittens", "kit"); (KeyCollection "kit", "2"); (String "009" "rest", "kept");
    (KeyNFT "kit" "one", bytes_or_nil (CollectionPb.BaseNFT_Marshal (kit_nft "one")));
    (KeyNFT "kit" "two", bytes_or_nil (CollectionPb.BaseNFT_Marshal (kit_nft "two")));
    (KeyNFT "kitty" "cat", bytes_or_nil (CollectionPb.BaseNFT_Marshal (kit_nft "cat")));
    (KeyOwner (Some alice_bytes) "kit" "one", "x")]).
Definition kittens : list (Denom * list BaseNFT) :=
  [(legacy_kit, [kit_nft "one"; kit_nft "two"]); (legacy_kitty, [kit_nft "cat"])].

Lemma kittens_legacy : legacy_store legacy_kittens kittens.
Proof.
  split.
  - replace (iterate legacy_kittens (KeyDenom "")) with
      [(KeyDenom "kit", bytes_or_nil (CollectionPb.Denom_Marshal legacy_kit));
       (KeyDenom "kitty", bytes_or_nil (CollectionPb.Denom_Marshal legacy_kitty))] by (vm_compute; reflexivity).
    repeat constructor; vm_compute; reflexivity.
  - intros c Hc. repeat (apply elem_of_cons in Hc as [->|Hc]); [..|by apply elem_of_nil in Hc].
    + replace (iterate legacy_kittens _) with
        [(KeyNFT "kit" "one", bytes_or_nil (CollectionPb.BaseNFT_Marshal (kit_nft "one")));
         (KeyNFT "kit" "two", bytes_or_nil (CollectionPb.BaseNFT_Marshal (kit_nft "two")))] by (vm_compute; reflexivity).
      repeat constructor; vm_compute; reflexivity.
    + replace (iterate legacy_kittens _) with
        [(KeyNFT "kitty" "cat", bytes_or_nil (CollectionPb.BaseNFT_Marshal (kit_nft "cat")))] by (vm_compute; reflexivity).
      repeat constructor; vm_compute; reflexivity.
Qed.

Lemma kittens_movable c : c ∈ kittens -> movable legacy_kittens c.
Proof.
  intros Hc. repeat (apply elem_of_cons in Hc as [->|Hc]); [..|by apply elem_of_nil in Hc].
  all: split; [vm_compute; reflexivity|vm_compute; reflexivity|eexists; vm_compute; reflexivity
              |intros n Hn|vm_compute; reflexivity|by vm_compute].
  all: repeat (apply elem_of_cons in Hn as [->|Hn]); [..|by apply elem_of_nil in Hn]; eexists; vm_compute; reflexivity.
Qed.

Lemma migration_complete_witness :
  exists s', run_migration legacy_kittens = Ok tt s' /\ migrated legacy_kittens kittens s'.
Proof.
  apply (migration_complete kv_ctx legacy_kittens kittens).
  - exact kittens_legacy.
  - vm_compute. reflexivity.
  - exact kittens_movable.
Defined.
End V2Run.
