(* ===== verification/Findings.v ===== *)
(** Places where the code does not do what it or its comments say, each shown by a
    theorem or by a run of the model on the
    instances of Reference.v. *)
From S2P Require Import Prelude GoStrings Sdk Utf8 GoJson CollectionTypes CollectionPb.
From S2P Require Import CollectionKeeper CollectionMsg Erc721Types Erc721Store Erc721Pb.
From S2P Require Import Erc721Index Erc721Genesis Erc721Registry Erc721Prune Cw721Types.
From S2P Require Import Cw721Store Cw721Pb Cw721Genesis App Erc721Evm Cw721Wasm Cw721Register.
From S2P Require Import Cw721Convert Erc721Msg Erc721Register Erc721Convert Erc721Settle.
From S2P Require Import Reference Witnesses WitnessesCw721.
From S2P Require Import CollectionV2 Builder WitnessesUpgrade.

(** * x/erc721 and x/collection *)
Section Erc721Findings.
Open Scope go_scope.
Open Scope list_scope.

#[local] Existing Instance ref_eth.
#[local] Existing Instance ref_eth_laws.
#[local] Existing Instance ref_sdk.
#[local] Existing Instance ref_sdk_laws.
#[local] Existing Instance ref_nft.
#[local] Existing Instance ref_evm.
#[local] Existing Instance collection_codec.
#[local] Existing Instance erc721_codec.
#[local] Existing Instance ref_fmt.
#[local] Existing Instance ref_wasm_state.
#[local] Existing Instance app_checker.

(** Turning both switches off is not possible: the encoding of the parameters is
    then empty, and GetParams reads an empty value as the defaults, which are on. *)
Theorem params_both_off_reads_on s s' :
  SetParams s (NewParams false false) = inr s' -> GetParams s' = NewParams true true.
Proof. intros E. injection E as <-. reflexivity. Qed.

(** A binding stored under the legacy spelling "0x07" of token 7. *)
Definition legacy_store : ErcStore :=
  upd_Forward (fun _ => {[CreateTokenUID cat "0x07" := "kit1,kitty"]})
    (upd_Reverse (fun _ => {["kit1,kitty" := CreateTokenUID cat "0x07"]}) (with_pair "kitty")).

(** The lookup finds the binding under the base-10 id, but the conflict check
    compares the stored spelling with the given one and refuses the conversion. *)
Theorem legacy_binding_refused :
  GetNFTPairByContractTokenID legacy_store cat "7" = "kit1,kitty" /\
  validateNoMappingConflict legacy_store cat "kitty" [("7", "kit1")] = Some (ErcErr ErrNFTMappingConflict).
Proof. split; vm_compute; reflexivity. Qed.

(** The contract of the pair without its 0x, which IsHexAddress accepts. *)
Definition cat_bare : string := str_drop 2 cat.

(** A binding under the 0x spelling is not seen from the bare spelling: the same
    token of the same contract is bound to a second NFT. *)
Theorem bare_address_binds_twice :
  IsHexAddress cat_bare = true /\ HexToAddress cat_bare = HexToAddress cat /\
  GetNFTPairByContractTokenID bound_kitty cat "7" = "kit1,kitty" /\
  match SetNFTPairs bound_kitty cat_bare "7" "kitty" "kit2" with
  | inr s' => GetNFTPairByContractTokenID s' cat "7" = "kit1,kitty" /\
              GetNFTPairByContractTokenID s' cat_bare "7" = "kit2,kitty"
  | inl _ => False
  end.
Proof.
  split; [vm_compute; reflexivity|]. split; [apply RefAddress.addr_eq; vm_compute; reflexivity|].
  split; [vm_compute; reflexivity|]. vm_compute. split; reflexivity.
Qed.

(** The same through the message: the token is Alice's again, its NFT in escrow,
    and converting it under the bare spelling mints a second NFT for it. *)
Definition msg_bare : MsgConvertERC721 := MkMsgConvertERC721 cat_bare ["7"] alice alice "kitty" ["kit2"].

Theorem bare_address_mints_twice :
  match ConvertERC721 msg_bare (world bound_kitty held_kitty alice_evm) with
  | Ok r c' => nk_GetOwner (c_nft c') "kitty" "kit1" = AccModuleAddress /\
               nk_GetOwner (c_nft c') "kitty" "kit2" = alice_bytes
  | _ => False
  end.
Proof. vm_compute. split; reflexivity. Qed.

(** The owner check of the collection genesis: an NFT without a decodable owner
    makes GetOwner panic, so the error for a missing owner is never returned. *)
Theorem genesis_missing_owner_panics `{SdkLaws} {S} denom seen n (s : S) :
  AccAddressFromBech32 (BaseNFT_Owner n) = None -> validate_genesis_nft denom seen n s = Panic.
Proof. intros E. unfold validate_genesis_nft, GetOwner, mbind. by rewrite E. Qed.

(** The reverse entry of an NFT names token 7, whose forward key is missing; only
    the key in the legacy spelling is there. *)
Definition half_store : ErcStore :=
  upd_Forward (fun _ => {[CreateTokenUID cat "0x07" := "kit1,kitty"]})
    (upd_Reverse (fun _ => {["kit1,kitty" := CreateTokenUID cat "7"]}) empty_erc).

(** The prune deletes that key as a duplicate, although no other forward key of the
    binding survives. *)
Theorem prune_deletes_last_key :
  GetNFTPairByContractTokenID half_store cat "7" = "kit1,kitty" /\
  Deleted (fst (PruneDuplicateUIDIndexEntries half_store)) = [CreateTokenUID cat "0x07"] /\
  GetNFTPairByContractTokenID (snd (PruneDuplicateUIDIndexEntries half_store)) cat "7" = "".
Proof. split_and!; vm_compute; reflexivity. Qed.

(** A pair registered by an old version: the contract map under the raw bytes. *)
Definition raw_store : ErcStore :=
  upd_ByERC721 (fun _ => {[addr_bytes cat_addr := GetID (NewTokenPair cat_addr "kitty")]}) (with_pair "kitty").

(** Purging it leaves the raw key, so the contract still counts as registered and
    no pair can be registered for it again. *)
Theorem purge_leaves_raw_key :
  IsERC721Registered raw_store cat_addr = true /\
  IsERC721Registered (PurgeTokenPair raw_store (NewTokenPair cat_addr "kitty")) cat_addr = true /\
  GetPairByEVM (PurgeTokenPair raw_store (NewTokenPair cat_addr "kitty")) cat = inl (ErcErr ErrTokenPairNotFound).
Proof. split_and!; vm_compute; reflexivity. Qed.

(** Un-wrapping a voucher token that is not bound, under the id of an NFT that is
    bound to another token and whose native half is gone: the reverse entry of that
    other binding is deleted and its forward entry stays behind. *)
Definition ctx_gone : Ctx :=
  MkCtx vouchers (RefNft.MkState (RefNft.st_classes escrowed) ∅)
    (RefEvm.MkEvm 5 {[addr_bytes cat_addr :=
       RefEvm.MkContract {[8%Z := alice_evm]} {[8%Z := "ipfs://cat/8"]}]}) (Some 30000000%N) []
    empty_cw RefWasm.empty.
Definition msg_unwrap : MsgConvertERC721 := MkMsgConvertERC721 cat ["8"] alice alice "ibc/cats" ["cat7"].

Theorem unwrap_orphans_binding :
  match ConvertERC721 msg_unwrap ctx_gone with
  | Ok r c' => GetNFTPairByContractTokenID (c_erc c') cat "7" = "cat7,ibc/cats" /\
               GetNFTPairByClassNFTID (c_erc c') "ibc/cats" "cat7" = ""
  | _ => False
  end.
Proof. vm_compute. split; reflexivity. Qed.
End Erc721Findings.

(** * x/cw721 *)
Section Cw721Findings.
Import Cw721Types Cw721Store Cw721Wasm Cw721Register Cw721Convert Cw721Genesis.
Open Scope go_scope.
Open Scope list_scope.

#[local] Existing Instances ref_eth ref_sdk ref_nft ref_evm collection_codec erc721_codec ref_fmt.
#[local] Existing Instances ref_wasm_state ref_wasm cw721_codec ref_ibc app_checker.

(** Alice has two kitties; the first has been to CosmWasm and back, so it is bound. *)
Definition two_kitties : RefNft.state :=
  RefNft.MkState (RefNft.st_classes kitties)
    {[("kitty", "kit1") := RefNft.MkTokenData "ipfs://kit/1" "" None alice_bytes;
      ("kitty", "kit2") := RefNft.MkTokenData "ipfs://kit/2" "" None alice_bytes]}.
Definition to_wasm (ids : list string) : MsgConvertNFT := MkMsgConvertNFT "kitty" ids alice alice "" [].
Definition back : MsgConvertCW721 :=
  MkMsgConvertCW721 (RefCw.contract_address 1) ["kit1"] alice alice "kitty" [].
Definition ctx_returned : Ctx :=
  let c := deliver (ConvertNFT (to_wasm ["kit1"])) (configured two_kitties) in
  deliver (ConvertCW721 back) c.

(** GetContractAddressAndTokenIds keeps the token id of a bound NFT for the unbound NFT
    after it: the batch that converts in one order is refused in the other. *)
Theorem batch_order_matters :
  is_ok (ConvertNFT (to_wasm ["kit2"; "kit1"]) ctx_returned) = true /\
  match ConvertNFT (to_wasm ["kit1"; "kit2"]) ctx_returned with
  | Err (CwErr CwErrNFTMappingConflict) _ => true | _ => false end = true.
Proof. split; vm_compute; reflexivity. Qed.

(** Genesis validation compares contracts up to letter case and the import writes the
    binding as it is spelled: a conversion, which looks the canonical spelling up, does
    not find the binding. *)
Definition upper (s : string) : string :=
  string_of_list_ascii ((fun a =>
    let n := nat_of_ascii a in if (97 <=? n) && (n <=? 122) then ascii_of_nat (n - 32) else a)
    <$> list_ascii_of_string s).
Definition upper_genesis : GenesisState :=
  MkGenesisState DefaultParams [sent_pair]
    [MkNFTUIDPair (CreateTokenUID (upper cw_cat) "7") (CreateNFTUID sent_class "uptick7")] [].

Theorem genesis_binding_not_found :
  Genesis_Validate upper_genesis = None /\ NormalizeCW721Address (upper cw_cat) = inr cw_cat /\
  match InitGenesis true empty_cw upper_genesis with
  | Some s => (GetTokenUIDPairByNFTUID s (CreateNFTUID sent_class "uptick7") =?s CreateTokenUID (upper cw_cat) "7") &&
              (GetNFTPairByContractTokenID s cw_cat "7" =?s "")
  | None => false
  end = true.
Proof. split_and!; vm_compute; reflexivity. Qed.

(** CreateTokenIDFromNFTID does not reverse CreateNFTIDFromTokenID on token ids that
    start with a hyphen or with 0x, and distinct token ids share an NFT id. *)
Theorem token_id_not_reversed :
  CreateTokenIDFromNFTID (CreateNFTIDFromTokenID "-1") = "1" /\
  CreateNFTIDFromTokenID "0x7" = CreateNFTIDFromTokenID "7" /\
  CreateTokenIDFromNFTID (CreateNFTIDFromTokenID "0x7") = "7".
Proof. split_and!; vm_compute; reflexivity. Qed.

(** The NFT whose id is the module's prefix gets the empty CW721 token id, which the
    validation of MsgConvertCW721 rejects and which the refund cannot read back: the NFT
    stays in the module account. *)
Definition prefix_kitty : RefNft.state :=
  RefNft.MkState (RefNft.st_classes kitties)
    {[("kitty", "uptick") := RefNft.MkTokenData "ipfs://kit/1" "" None alice_bytes]}.
Definition ctx_stuck : Ctx := deliver (ConvertNFT (to_wasm ["uptick"])) (configured prefix_kitty).

Theorem prefix_nft_stuck :
  MsgConvertNFT_ValidateBasic (to_wasm ["uptick"]) = None /\
  is_ok (ConvertNFT (to_wasm ["uptick"]) (configured prefix_kitty)) = true /\
  nk_GetOwner (c_nft ctx_stuck) "kitty" "uptick" = AccModuleAddress /\
  (forall a s r cls nfts, is_bech32 r = true -> is_bech32 s = true -> is_bech32 a = true -> IsBlank cls = false ->
     MsgConvertCW721_ValidateBasic (MkMsgConvertCW721 a [""] r s cls nfts) = Some (SdkErr ErrInvalidRequest)) /\
  match refund_token "kitty" [] "uptick" ctx_stuck with
  | Ok [] c => nk_GetOwner (c_nft c) "kitty" "uptick" =?s AccModuleAddress | _ => false end = true.
Proof.
  split; [vm_compute; reflexivity|]. split; [vm_compute; reflexivity|]. split; [vm_compute; reflexivity|].
  split; [|vm_compute; reflexivity]. intros a s r cls nfts Hr Hs Ha Hc.
  unfold MsgConvertCW721_ValidateBasic. cbn [cc_Sender cc_Receiver cc_ContractAddress cc_ClassId cc_TokenIds].
  by rewrite Hs, Hr, Ha, Hc.
Qed.
End Cw721Findings.

(** * x/collection: the store of version 1 *)
Section V2Findings.
Import CollectionV2.
#[local] Existing Instances ref_sdk collection_codec ref_fmt ref_layout.

(** A class id may contain the delimiter of the keys of version 1, so the NFTs of "kit/ten"
    are under the prefix of "kit" as well: the migration mints them in both classes. *)
Definition slash_store : gmap string string :=
  list_to_map [
    (KeyDenom "kit", bytes_or_nil (CollectionPb.Denom_Marshal legacy_kit));
    (KeyDenom "kit/ten", bytes_or_nil (CollectionPb.Denom_Marshal
       (MkDenom "kit/ten" "Ten" "" alice "TEN" false false "" "" "" "")));
    (KeyNFT "kit/ten" "one", bytes_or_nil (CollectionPb.BaseNFT_Marshal (kit_nft "one")))].
Example slash_id_mints_twice :
  match run_migration slash_store with
  | Ok _ s' => (GetTotalSupply s' "kit", GetTotalSupply s' "kit/ten",
                kv_has s' (nftStoreKey "kit" +:+ "one"), kv_has s' (nftStoreKey "kit/ten" +:+ "one"))
               = (1%Z, 1%Z, true, true)
  | _ => False
  end.
Proof. vm_compute. reflexivity. Qed.

(** The precheck passes a store the migration stops on: it does not look at the id of a
    denom, nor at the bounds of its metadata, which SaveDenom does. *)
Definition bad_id_store : gmap string string :=
  {[KeyDenom "Kit" := bytes_or_nil (CollectionPb.Denom_Marshal
      (MkDenom "Kit" "Kittens" "" alice "KIT" false false "" "" "" ""))]}.
Example precheck_misses_bad_id :
  (match runCollectionPrecheck bad_id_store with inr _ => true | inl _ => false end) = true /\
  is_ok (run_migration bad_id_store) = false.
Proof. split; vm_compute; reflexivity. Qed.
End V2Findings.

(** ** x/collection/types/builder.go *)
Section TransportFindings.
Context `{SdkLib} `{!SdkLaws} `{CollectionCodec} `{FloatLib} `{!FloatLaws} `{Ics721Host} `{!Ics721HostLaws}.

(** An array is valid JSON and no object. *)
Lemma array_no_object : json_Unmarshal_map "[]" = (false, Some ∅).
Proof. reflexivity. Qed.

(** A class of this chain whose data blob is not a JSON object is sent without the blob: the
    decoding error is looked at for a voucher class only.  What arrives has the fields and no
    data. *)
Lemma opaque_data_dropped class md a id uri :
  class_metadata class = inr md -> class_text_ok class md -> IsIBCDenom (Class_Id class) = false ->
  json_Unmarshal_map (dm_Data md) = (false, Some ∅) -> AccAddressFromBech32 (class_creator md) = Some a ->
  exists text, ClassBuilder_BuildMetadata class = inr text /\
    ClassBuilder_Build id uri text =
      store_class id uri (Class_Name class) (Class_Symbol class) (Class_Description class) (Class_UriHash class)
        (MkDenomMetadata (acc_String a) (dm_Schema md) (dm_MintRestricted md) (dm_UpdateRestricted md) "").
Proof.
  intros Hmd Hok Hibc Hp Ha.
  assert (exists ok, data_entries (dm_Data md) = (ok, ∅)) as [ok Hd].
  { unfold data_entries. destruct (0 <? len (dm_Data md))%nat; [|eauto]. rewrite Hp. eauto. }
  exists (b64_Encode (json_Marshal_map (class_entries class md a ∅))). split.
  - unfold ClassBuilder_BuildMetadata. by rewrite Hmd, Hd, Hibc, andb_false_r, Ha.
  - rewrite Build_entries; [|by apply hex_address, (bech32_nonempty _ _ Ha)|done|apply map_Forall_empty]. done.
Qed.
End TransportFindings.
